(* ===== verification/_CoqProject ===== *)
-Q . S2P
Prelude.v
Types.v
Sim.v
Stats.v
ProGrp.v
Media.v
MediaMisc.v
StatsReport.v
Options.v
OptionsTheorems.v
Zns.v
Device.v
Io.v
IoPopulate.v
IoFlight.v
IoSubmit.v
IoWrite.v
IoRequest.v
IoTheorems.v
Read.v
IoRead.v
ReadTheorems.v
IoCounters.v
NodeInit.v
InitOk.v
InitTheorems.v
Mgmt.v
MgmtOk.v
MgmtTheorems.v
Typed.v
TypedTheorems.v
NodeRace.v
Map.v
MapTheorems.v
Mempool.v
MempoolTheorems.v
Metadata.v
MetadataTheorems.v
Zrocks.v
ZrocksTheorems.v
Boot.v
BootLogic.v
BootOk.v
BootIo.v
BootStart.v
BootTheorems.v
Prometheus.v
PrometheusTheorems.v
EnvLock.v
EnvTypes.v
EnvMeta.v
EnvFile.v
EnvLaws.v
EnvFileOk.v
EnvZrocks.v
EnvFileTheorems.v
EnvLoad.v
EnvLog.v
EnvRecover.v
EnvTable.v
EnvCrash.v
EnvHistory.v
EnvReboot.v
EnvMetaLog.v
EnvCrashTheorems.v
EnvGc.v
EnvGcTheorems.v
EnvPosix.v
EnvPosixTheorems.v
EnvGcWorker.v
EnvStart.v
EnvPrefetch.v
EnvId.v
