(* ===== verification/Prelude.v ===== *)
(** * xZTL: a zone translation layer for zoned NVMe namespaces, and its RocksDB environment

    This library models the code of xZTL and proves the properties that make it
    correct.  Every definition is a translation of the C or C++ code it is named after; what
    the code does with a failed allocation, a device error or an undefined operation is part of
    the model.

    ** The program

    From the bottom up:

    - xNVMe and the device.  Not part of the repository: classes with the calls the code makes
      ([Media.Xnvme], [Mgmt.Xznd], [Metadata.SyncDev]), and contracts that state what the NVMe
      ZNS command set and xNVMe document ([Zns.QueueLaws], [Zns.ZnsLaws], and the contracts of
      the management and metadata files).  Device.v and the witnesses instantiate them by an
      executable device.
    - Media layer (ztl-media.c): option string, submission of reads, writes and zone
      commands, completion callback with retries.
    - Groups and zone metadata (xztl-groups.c, ztl-zmd.c), provisioning (ztl-pro.c,
      ztl-pro-grp.c): a node is 64 zones written round-robin in units of 8 sectors; nodes move
      between a free, a used and a full queue.
    - I/O engine (ztl-io.c): a write request is split into commands, striped over the zones of
      a node with at most one write per zone in flight; reads go through bounce buffers.
    - Management thread (ztl-mgmt-cmd.c): reset and finish of nodes.
    - Mapping (ztl-map.c, ztl-mpe.c), memory pools (xztl-mempool.c), statistics
      (xztl-stats.c), metadata zones (ztl-metadata.c): a log in two zones used in turn.
    - ZRocks (zrocks.c): write, read, trim and the space queries for RocksDB.
    - RocksDB environment (env_zns.cc, env_zns_io.cc, env_zns.h): files as lists of pieces, a
      metadata log of checkpoints and records, start-up, garbage collection.

    ** The files

    - Prelude: the scope, arrays and C integers (a w-bit integer is a [Z] reduced where the
      code wraps), the type [outcome] ([Ok], [Undef] for undefined behaviour, [OutOfFuel]), list
      lemmas and tactics.  Types: constants and shared structures.  Sim, Device: concrete
      instances for witnesses.
    - Stats; ProGrp (allocation, release, choice of a node); Options, OptionsTheorems (the
      option string); Media, Zns (submission and its contracts).
    - Io (the write path), IoPopulate, IoFlight, IoSubmit, IoWrite, IoRequest, IoTheorems (its
      proof, one loop per file); Read, IoRead, ReadTheorems (the read path); IoCounters (the
      arrays keep their sizes).
    - NodeInit, InitOk, InitTheorems (groups, zone metadata and nodes at start-up); Mgmt, MgmtOk,
      MgmtTheorems; Map, MapTheorems; Mempool, MempoolTheorems; Metadata, MetadataTheorems;
      Zrocks, ZrocksTheorems.
    - EnvTypes, EnvMeta (records), EnvFile (file objects), EnvLaws (contracts), EnvFileOk,
      EnvFileTheorems; EnvZrocks (the data path on Zrocks keeps its contract); EnvLoad, EnvTable
      (start-up, file table); EnvLog, EnvRecover, EnvCrash, EnvHistory, EnvReboot, EnvMetaLog,
      EnvCrashTheorems (the log follows the table across crashes; EnvMetaLog runs it on the
      metadata zones); EnvGc, EnvGcTheorems (garbage collection).
    - NodeRace: the choice of a node and the end of a reset as sequences of critical sections,
      interleaved (a step relation over any number of writers and the management thread).
    - Boot: start and stop of the whole library as programs over the resources they take, with an
      oracle that decides which calls fail; BootLogic (weakest preconditions, counting of
      resources), BootOk, BootIo, BootStart (one specification per function), BootTheorems.
    - StatsReport (the reports of the statistics, doubles as binary64 numbers); MediaMisc (the other
      commands of the media layer); Prometheus, PrometheusTheorems (the exporter of the build with
      XZTL_PROMETHEUS: its two threads interleaved with the recording ones); EnvLock (the lock of a
      file between readers and the garbage collector).
    - Typed, TypedTheorems: the ranges of the C types of every member of the shared structures, and
      the step relation of the whole library (requests queued, served, read, recovered, reset).
    - EnvPosix, EnvPosixTheorems (the calls of the environment with the POSIX environment below them);
      EnvStart (constructor, destructor, factory); EnvGcWorker (the collector as a whole);
      EnvPrefetch (the read-ahead of a build with ZNS_PREFETCH); EnvId (identifiers of files).


    ** What the theorems show

    - Writes and reads: on a healthy device a request terminates, stores its bytes in stripe
      order, keeps every byte written before, and what it reports can be read back; with
      arbitrary device errors no zone ever has two writes in flight; requests that cannot be
      served fail without touching the device.
    - Provisioning and management: queues stay a partition of the nodes, allocation and release
      are inverse, start-up rebuilds the state from the zone report and establishes the
      invariant of the write path, a reset re-establishes it.
    - Mapping, pools, metadata log: refinement of a total map, conservation of entries over
      every interleaving, round trip and switch of the log.
    - Files: every sequence of appends and syncs implements a byte string; over every history of
      operations, crashes and restarts the log describes the table, so that synced files are
      found again; migration keeps the bytes of files without padding.
    - Concurrency: a call that nothing comes between is the function the other theorems use; serial
      schedules keep the queues a partition; two writers between two critical sections corrupt them.
    - Start and stop: for every combination of failing calls the start is defined, a successful one
      is undone by the stop, and what a failed one leaves is decided by its result.
    - Exporter and file lock: latencies are exported once and in order, and only the first 8192 of
      them; counters balance in quiet schedules and not in others; a writer excludes readers, and
      waits only for those that are already in.
    - Types: no step of the library takes an integer out of the range of its C type.
    - Environment as RocksDB sees it: the directory calls list the files of the table; start and stop
      of the environment give back what they take; the collector takes the nodes with the most invalid
      commands first and keeps the bytes of files whose moved pieces are not padded; identifiers of
      files that are created in one run differ, those of readers can be reused.
    - Where the code does not do what it means to, the theorem states what it does; the manifest
      lists these as findings.

    ** Bounds and fuel

    Loops that are bounded in the source are structural or run on their own counter.  Loops that
    wait for the device (submission, draining a queue, retries of ZRocks reads) take fuel, and the
    theorems about them are total: they state a fuel, as a function of the request, with which the
    result is reached.  Integers keep their width where the code can reach it (32-bit
    addresses of zone commands, 16-bit block counts, 8-bit counters).

    ** Not modelled

    The instructions between two critical sections of other functions than those of NodeRace,
    Prometheus and EnvLock (a call of the write or read path is sequential, its completions
    interleaved by the device), logging and the formatting of what is printed (PrintMetaData and the
    debug output), accessors that return a constant, declarations of the headers that have no body,
    tests and build files.  What remains unmapped of the sources is of these kinds. *)

From Stdlib Require Export ZArith Lia Bool.
From stdpp Require Export base numbers option list sets.

(** * Notation scope of the development *)

Declare Scope ztl_scope.
Delimit Scope ztl_scope with ztl.

(** * Undefined behaviour

    An operation of the C code is a function into [option]: [None] stands for
    undefined behaviour, i.e. an access outside an array, the dereference of a
    null pointer, or the removal of an element from a queue it is not on. *)

Notation "'UB'" := None (only parsing) : ztl_scope.

(** * Loops of unknown length

    A loop whose number of turns the program does not bound (it waits for the
    device) is run with fuel.  [Ok] is a result, [Undef] undefined behaviour and
    [OutOfFuel] says that the loop was still running. *)

Inductive outcome (A : Type) : Type :=
  | Ok (a : A)
  | Undef
  | OutOfFuel.
Arguments Ok {A} a.
Arguments Undef {A}.
Arguments OutOfFuel {A}.

#[export] Instance outcome_ret : MRet outcome := fun A a => Ok a.

#[export] Instance outcome_bind : MBind outcome := fun A B f m =>
  match m with Ok a => f a | Undef => Undef | OutOfFuel => OutOfFuel end.

(** A fallible step inside such a loop. *)
Definition lift {A} (m : option A) : outcome A :=
  match m with Some a => Ok a | None => Undef end.

(** * Unsigned machine integers

    A value of an unsigned C type of [w] bits is a [Z] kept in [0, 2^w) by an
    explicit reduction at every store of the source that can exceed it. *)

Definition wrap (w x : Z) : Z := (x mod 2 ^ w)%Z.

Abbreviation u8 := (wrap 8).
Abbreviation u16 := (wrap 16).
Abbreviation u32 := (wrap 32).
Abbreviation u64 := (wrap 64).

(** The conversion to [int32_t] that gcc performs (two's complement). *)
Definition i32 (x : Z) : Z := ((x + 2 ^ 31) mod 2 ^ 32 - 2 ^ 31)%Z.

(** A result of [int] arithmetic: overflow is undefined. *)
Definition cint (x : Z) : option Z :=
  if (- 2 ^ 31 <=? x)%Z && (x <? 2 ^ 31)%Z then Some x else None.

(** C truth value of an integer. *)
Definition ctrue (x : Z) : bool := negb (x =? 0)%Z.

(** * Bit-fields

    A [struct] of bit-fields in a [union] with a [uint64_t] is the 64-bit word;
    the fields are laid out from the least significant bit upwards, the layout
    gcc uses on the little-endian targets of the library. *)

Definition bf_get (lo w x : Z) : Z := Z.land (Z.shiftr x lo) (Z.ones w).

Definition bf_set (lo w x v : Z) : Z :=
  Z.lor (Z.ldiff x (Z.shiftl (Z.ones w) lo))
        (Z.shiftl (Z.land v (Z.ones w)) lo).

Open Scope Z_scope.
Open Scope ztl_scope.

(** * Arrays

    An array is the list of its elements; an index outside it is undefined. *)

Definition aget {A} (l : list A) (i : Z) : option A :=
  if decide (0 <= i) then l !! Z.to_nat i else None.

Definition aset {A} (l : list A) (i : Z) (x : A) : option (list A) :=
  if decide (0 <= i < Z.of_nat (length l)) then Some (<[Z.to_nat i := x]> l) else None.

Notation "l .[ i ]" := (aget l i) (at level 1, left associativity, format "l .[ i ]") : ztl_scope.

(** * Queues of <sys/queue.h>

    A TAILQ, STAILQ or LIST is the list of its elements in queue order.
    Removing an element that is not on the queue is undefined: the macros
    rewrite the links of whatever queue the element is on. *)

Definition tailq_insert_tail {A} (q : list A) (x : A) : list A := q ++ [x].

Fixpoint remove_first `{EqDecision A} (x : A) (q : list A) : list A :=
  match q with
  | [] => []
  | y :: q' => if decide (y = x) then q' else y :: remove_first x q'
  end.

Definition tailq_remove `{EqDecision A} (q : list A) (x : A) : option (list A) :=
  if decide (x ∈ q) then Some (remove_first x q) else None.

(** Sum of a list of integers. *)
Fixpoint zsum (l : list Z) : Z :=
  match l with [] => 0 | x :: l' => x + zsum l' end.

(** * Tactics *)

(** Steps through a fallible computation in a hypothesis or in the goal. *)
Ltac opt_step :=
  match goal with
  | H : Some _ = Some _ |- _ => injection H as H; try subst
  | H : None = Some _ |- _ => discriminate H
  | H : Some _ = None |- _ => discriminate H
  | H : (_, _) = (_, _) |- _ => injection H as ?; subst
  | H : mbind _ ?m = Some _ |- _ =>
      let E := fresh "E" in destruct m eqn:E; simpl in H; [|discriminate H]
  | H : context [let '(_, _) := ?p in _] |- _ => destruct p
  end.

Ltac opt_inv := repeat opt_step.

(** Splits a boolean comparison of [Z] into the two arithmetic cases. *)
Ltac zcase :=
  match goal with
  | |- context [?a =? ?b] => destruct (Z.eqb_spec a b)
  | |- context [?a <? ?b] => destruct (Z.ltb_spec a b)
  | |- context [?a <=? ?b] => destruct (Z.leb_spec a b)
  | H : context [?a =? ?b] |- _ => destruct (Z.eqb_spec a b)
  | H : context [?a <? ?b] |- _ => destruct (Z.ltb_spec a b)
  | H : context [?a <=? ?b] |- _ => destruct (Z.leb_spec a b)
  end.

(** Euclidean division and linear arithmetic. *)
Ltac zdiv := Z.div_mod_to_equations; lia.

(** * Hint databases *)

Create HintDb ztl discriminated.
Create HintDb bitfield discriminated.

(** * Machine integers: lemmas *)

Section Wrap.

Lemma wrap_range w x : 0 <= w -> 0 <= wrap w x < 2 ^ w.
Proof. intros Hw. apply Z.mod_pos_bound, Z.pow_pos_nonneg; lia. Qed.

Lemma wrap_small w x : 0 <= x < 2 ^ w -> wrap w x = x.
Proof. apply Z.mod_small. Qed.

Lemma wrap_idemp w x : 0 <= w -> wrap w (wrap w x) = wrap w x.
Proof. intros Hw. apply wrap_small, wrap_range, Hw. Qed.

Lemma wrap_add_l w x y : wrap w (wrap w x + y) = wrap w (x + y).
Proof. apply Zdiv.Zplus_mod_idemp_l. Qed.

Lemma wrap_land w x : 0 <= w -> wrap w x = Z.land x (Z.ones w).
Proof. intros Hw. symmetry. apply Z.land_ones, Hw. Qed.

Lemma i32_small x : - 2 ^ 31 <= x < 2 ^ 31 -> i32 x = x.
Proof. intros Hx. unfold i32. rewrite Z.mod_small; lia. Qed.

Lemma cint_small x : - 2 ^ 31 <= x < 2 ^ 31 -> cint x = Some x.
Proof. intros Hx. unfold cint. by replace ((- 2 ^ 31 <=? x) && (x <? 2 ^ 31)) with true by lia. Qed.

Lemma ctrue_false x : ctrue x = false <-> x = 0.
Proof. unfold ctrue. destruct (Z.eqb_spec x 0); simpl; split; intros; congruence. Qed.

Lemma ctrue_true x : ctrue x = true <-> x <> 0.
Proof. unfold ctrue. destruct (Z.eqb_spec x 0); simpl; split; intros; congruence. Qed.

End Wrap.

(** * Bit-fields: lemmas *)

Section BitField.

Context (lo w : Z) (Hlo : 0 <= lo) (Hw : 0 <= w).

Lemma bf_get_range x : 0 <= bf_get lo w x < 2 ^ w.
Proof using Hw.
  unfold bf_get. rewrite Z.land_ones by lia.
  apply Z.mod_pos_bound, Z.pow_pos_nonneg; lia.
Qed.

Lemma bf_get_div x : bf_get lo w x = (x / 2 ^ lo) mod 2 ^ w.
Proof using Hlo Hw.
  unfold bf_get. rewrite Z.land_ones, Z.shiftr_div_pow2 by lia. reflexivity.
Qed.

Lemma bf_mask_testbit i :
  0 <= i -> Z.testbit (Z.shiftl (Z.ones w) lo) i = (lo <=? i) && (i <? lo + w).
Proof using Hlo Hw.
  intros Hi. rewrite Z.shiftl_spec by lia.
  destruct (Z.leb_spec lo i); simpl.
  - rewrite Z.testbit_ones_nonneg by lia.
    destruct (Z.ltb_spec (i - lo) w), (Z.ltb_spec i (lo + w)); lia.
  - apply Z.testbit_neg_r. lia.
Qed.

Lemma bf_set_testbit x v i :
  0 <= i ->
  Z.testbit (bf_set lo w x v) i =
    if (lo <=? i) && (i <? lo + w) then Z.testbit v (i - lo) else Z.testbit x i.
Proof using Hlo Hw.
  intros Hi. unfold bf_set.
  rewrite Z.lor_spec, Z.ldiff_spec, bf_mask_testbit by lia.
  rewrite Z.shiftl_spec by lia.
  destruct (Z.leb_spec lo i); simpl.
  - rewrite Z.land_spec, Z.testbit_ones_nonneg by lia.
    destruct (Z.ltb_spec i (lo + w)), (Z.ltb_spec (i - lo) w); try lia; simpl;
      rewrite ?andb_false_r, ?andb_true_r, ?orb_false_r, ?orb_false_l; reflexivity.
  - rewrite (Z.testbit_neg_r _ (i - lo)) by lia.
    rewrite andb_true_r, orb_false_r. reflexivity.
Qed.

Lemma bf_get_testbit x i :
  0 <= i -> Z.testbit (bf_get lo w x) i = (i <? w) && Z.testbit x (i + lo).
Proof using Hlo Hw.
  intros Hi. unfold bf_get.
  rewrite Z.land_spec, Z.shiftr_spec, Z.testbit_ones_nonneg by lia.
  apply andb_comm.
Qed.

(** Reading back the field that was written truncates the value to its width. *)
Lemma bf_get_set_eq x v : bf_get lo w (bf_set lo w x v) = wrap w v.
Proof using Hlo Hw.
  apply Z.bits_inj'. intros i Hi.
  rewrite bf_get_testbit, bf_set_testbit by lia.
  unfold wrap. destruct (Z.ltb_spec i w).
  - rewrite Z.mod_pow2_bits_low by lia.
    replace (lo <=? i + lo) with true by lia.
    replace (i + lo <? lo + w) with true by lia.
    simpl. f_equal. lia.
  - rewrite Z.mod_pow2_bits_high by lia. reflexivity.
Qed.

(** The last store to a field wins. *)
Lemma bf_set_set x v v' : bf_set lo w (bf_set lo w x v) v' = bf_set lo w x v'.
Proof using Hlo Hw.
  apply Z.bits_inj'. intros i Hi. rewrite !bf_set_testbit by lia.
  by destruct ((lo <=? i) && (i <? lo + w)).
Qed.

(** Storing the value a field already has changes nothing. *)
Lemma bf_set_get x : bf_set lo w x (bf_get lo w x) = x.
Proof using Hlo Hw.
  apply Z.bits_inj'. intros i Hi. rewrite bf_set_testbit by lia.
  destruct (Z.leb_spec lo i), (Z.ltb_spec i (lo + w)); simpl; try done.
  rewrite bf_get_testbit by lia. replace (i - lo <? w) with true by lia.
  simpl. f_equal. lia.
Qed.

(** The word stays within its width. *)
Lemma bf_set_range n x v :
  lo + w <= n -> 0 <= x < 2 ^ n -> 0 <= bf_set lo w x v < 2 ^ n.
Proof using Hlo Hw.
  intros Hn Hx.
  assert (bf_set lo w x v = wrap n (bf_set lo w x v)) as ->.
  { apply Z.bits_inj'. intros i Hi. unfold wrap.
    destruct (Z.ltb_spec i n).
    - rewrite Z.mod_pow2_bits_low by lia. reflexivity.
    - rewrite Z.mod_pow2_bits_high by lia.
      rewrite bf_set_testbit by lia.
      replace (i <? lo + w) with false by lia. rewrite andb_false_r.
      rewrite <- (Z.mod_small x (2 ^ n)) by lia.
      apply Z.mod_pow2_bits_high. lia. }
  apply wrap_range. lia.
Qed.

End BitField.

(** Writing one field leaves every disjoint field as it was. *)
Lemma bf_get_set_ne lo w lo' w' x v :
  0 <= lo -> 0 <= w -> 0 <= lo' -> 0 <= w' ->
  lo' + w' <= lo \/ lo + w <= lo' ->
  bf_get lo' w' (bf_set lo w x v) = bf_get lo' w' x.
Proof.
  intros ? ? ? ? Hd. apply Z.bits_inj'. intros i Hi.
  rewrite !bf_get_testbit by lia. destruct (Z.ltb_spec i w'); simpl; [|reflexivity].
  rewrite bf_set_testbit by lia.
  destruct (Z.leb_spec lo (i + lo')), (Z.ltb_spec (i + lo') (lo + w)); simpl;
    try reflexivity; lia.
Qed.

Lemma bf_get_0 lo w : bf_get lo w 0 = 0.
Proof. unfold bf_get. rewrite Z.shiftr_0_l. apply Z.land_0_l. Qed.

#[export] Hint Resolve wrap_range bf_get_range bf_set_range : bitfield.

(** * Arrays: lemmas *)

Section Array.

Context {A : Type}.
Implicit Types (l : list A) (x y : A) (i j : Z).

Lemma aget_nat l (n : nat) : l.[Z.of_nat n] = l !! n.
Proof. unfold aget. rewrite decide_True by lia. by rewrite Nat2Z.id. Qed.

Lemma aget_Some l i x : l.[i] = Some x <-> 0 <= i /\ l !! Z.to_nat i = Some x.
Proof. unfold aget. case_decide; naive_solver lia. Qed.

Lemma aget_is_Some l i : is_Some l.[i] <-> 0 <= i < Z.of_nat (length l).
Proof.
  unfold aget. case_decide.
  - rewrite lookup_lt_is_Some. lia.
  - split; [by intros [? ?]|lia].
Qed.

Lemma aget_replicate (n : nat) x i : 0 <= i < Z.of_nat n -> (replicate n x).[i] = Some x.
Proof. intros Hi. apply aget_Some. split; [lia|]. apply lookup_replicate_2. lia. Qed.

Lemma aset_Some l i x : 0 <= i < Z.of_nat (length l) -> aset l i x = Some (<[Z.to_nat i := x]> l).
Proof. intros Hi. unfold aset. by rewrite decide_True. Qed.

Lemma aset_spec l i x :
  0 <= i < Z.of_nat (length l) ->
  exists l', aset l i x = Some l' /\ length l' = length l /\ l'.[i] = Some x /\
    forall j, j <> i -> l'.[j] = l.[j].
Proof.
  intros Hi. eexists. split; [by apply aset_Some|]. split; [apply length_insert|].
  unfold aget. split.
  - rewrite decide_True by lia. apply list_lookup_insert_eq. lia.
  - intros j Hj. case_decide; [|done]. apply list_lookup_insert_ne. lia.
Qed.

Lemma aset_inv l i x l' :
  aset l i x = Some l' -> 0 <= i < Z.of_nat (length l) /\ l' = <[Z.to_nat i := x]> l.
Proof. unfold aset. case_decide; naive_solver. Qed.

Lemma aset_length l i x l' : aset l i x = Some l' -> length l' = length l.
Proof. intros [_ ->]%aset_inv. apply length_insert. Qed.

Lemma aget_aset_eq l i x l' : aset l i x = Some l' -> l'.[i] = Some x.
Proof.
  intros [Hi ->]%aset_inv. apply aget_Some. split; [lia|].
  apply list_lookup_insert_eq. lia.
Qed.

Lemma aget_aset_ne l i j x l' : i <> j -> aset l i x = Some l' -> l'.[j] = l.[j].
Proof.
  intros Hij [Hi ->]%aset_inv. unfold aget. case_decide; [|done].
  apply list_lookup_insert_ne. lia.
Qed.

(** Filling an array from the left. *)
Lemma aset_filled (f : nat -> A) l (j : nat) :
  (j < length l)%nat ->
  aset ((f <$> seq 0 j) ++ drop j l) (Z.of_nat j) (f j) = Some ((f <$> seq 0 (S j)) ++ drop (S j) l).
Proof.
  intros Hj. destruct (lookup_lt_is_Some_2 l j Hj) as [x Hx].
  assert (Hl : length (f <$> seq 0 j) = j) by (by rewrite length_fmap, length_seq).
  rewrite (drop_S l x j Hx), aset_Some by (rewrite length_app, Hl; simpl; lia).
  rewrite Nat2Z.id. f_equal. rewrite seq_S, fmap_app, <- app_assoc. simpl.
  rewrite <- (Nat.add_0_r j) at 1. rewrite <- Hl at 1. by rewrite insert_app_r.
Qed.

Lemma lookup_filled (f : nat -> A) l (n j : nat) :
  (j < n)%nat -> ((f <$> seq 0 n) ++ drop n l) !! j = Some (f j).
Proof.
  intros Hj. rewrite lookup_app_l by (rewrite length_fmap, length_seq; lia).
  by rewrite list_lookup_fmap, lookup_seq_lt.
Qed.

(** An update of an array given by a function of the index. *)
Lemma insert_tabulated (f g : nat -> A) (n k : nat) :
  (forall j : nat, (j < n)%nat -> j <> k -> g j = f j) -> <[k := g k]> (f <$> seq 0 n) = g <$> seq 0 n.
Proof.
  intros Hg. apply list_eq. intros j. destruct (decide (j < n)%nat) as [Hj|Hj].
  - rewrite (list_lookup_fmap g), lookup_seq_lt by done. simpl. destruct (decide (j = k)) as [->|Hne].
    + apply list_lookup_insert_eq. by rewrite length_fmap, length_seq.
    + rewrite list_lookup_insert_ne, list_lookup_fmap, lookup_seq_lt by done. simpl. by rewrite Hg.
  - rewrite !lookup_ge_None_2; [done|..]; rewrite ?length_insert, length_fmap, length_seq; lia.
Qed.

Lemma aset_tabulated (f g : nat -> A) (n k : nat) :
  (k < n)%nat -> (forall j : nat, (j < n)%nat -> j <> k -> g j = f j) ->
  aset (f <$> seq 0 n) (Z.of_nat k) (g k) = Some (g <$> seq 0 n).
Proof.
  intros Hk Hg. rewrite aset_Some by (rewrite length_fmap, length_seq; lia).
  by rewrite Nat2Z.id, (insert_tabulated f g).
Qed.

Lemma aget_tabulated (f : nat -> A) (n k : nat) :
  (k < n)%nat -> (f <$> seq 0 n).[Z.of_nat k] = Some (f k).
Proof. intros Hk. by rewrite aget_nat, list_lookup_fmap, lookup_seq_lt. Qed.

End Array.

(** * Queues: lemmas *)

Section Queue.

Context `{EqDecision A}.
Implicit Types (q : list A) (x y : A).

Lemma tailq_remove_Some q x q' :
  tailq_remove q x = Some q' <-> x ∈ q /\ q' = remove_first x q.
Proof. unfold tailq_remove. case_decide; naive_solver. Qed.

Lemma remove_first_perm q x : x ∈ q -> q ≡ₚ x :: remove_first x q.
Proof.
  induction q as [|y q IH]; intros Hx; [by apply not_elem_of_nil in Hx|].
  simpl. case_decide as Hy; [by subst|].
  apply elem_of_cons in Hx as [->|Hx]; [done|].
  rewrite (IH Hx) at 1. apply Permutation_swap.
Qed.

Lemma remove_first_head q x : remove_first x (x :: q) = q.
Proof. simpl. by rewrite decide_True. Qed.

Lemma elem_of_remove_first q x y :
  NoDup q -> y ∈ remove_first x q <-> y ∈ q /\ y <> x.
Proof.
  induction q as [|z q IH]; intros Hnd; simpl; [set_solver|].
  apply NoDup_cons in Hnd as [Hz Hnd]. case_decide as Heq; subst.
  - set_solver.
  - rewrite !elem_of_cons, IH by done. set_solver.
Qed.

Lemma NoDup_remove_first q x : NoDup q -> NoDup (remove_first x q).
Proof.
  induction q as [|z q IH]; intros Hnd; simpl; [constructor|].
  apply NoDup_cons in Hnd as [Hz Hnd]. case_decide; [done|].
  apply NoDup_cons. split; [|auto]. rewrite elem_of_remove_first; naive_solver.
Qed.

Lemma length_remove_first q x :
  x ∈ q -> length q = S (length (remove_first x q)).
Proof. intros Hx. by rewrite (Permutation_length (remove_first_perm q x Hx)). Qed.

End Queue.

(** * Sums: lemmas *)

Lemma zsum_app l1 l2 : zsum (l1 ++ l2) = zsum l1 + zsum l2.
Proof. induction l1; simpl; lia. Qed.

Lemma zsum_nonneg l : Forall (fun x => 0 <= x) l -> 0 <= zsum l.
Proof. induction 1; simpl; lia. Qed.

#[export] Hint Resolve NoDup_remove_first : ztl.

(** * Lists up to order, by counting *)

Definition one `{EqDecision A} (x y : A) : nat := if decide (x = y) then 1 else 0.

Fixpoint cnt `{EqDecision A} (x : A) (l : list A) : nat :=
  match l with [] => 0 | y :: l' => one x y + cnt x l' end.

Lemma cnt_app `{EqDecision A} (x : A) l k : cnt x (l ++ k) = (cnt x l + cnt x k)%nat.
Proof. induction l as [|y l IH]; cbn; lia. Qed.

Lemma cnt_cons `{EqDecision A} (x y : A) l : cnt x (y :: l) = (one x y + cnt x l)%nat.
Proof. done. Qed.

Lemma one_same `{EqDecision A} (x : A) : one x x = 1%nat.
Proof. unfold one. by rewrite decide_True. Qed.

Lemma cnt_elem `{EqDecision A} (x : A) l : x ∈ l <-> (cnt x l <> 0)%nat.
Proof.
  induction l as [|y l IH]; cbn; [rewrite elem_of_nil; lia|].
  rewrite elem_of_cons, IH. unfold one. case_decide; subst; naive_solver lia.
Qed.

Lemma cnt_perm `{EqDecision A} (l k : list A) : l ≡ₚ k <-> (forall x, cnt x l = cnt x k).
Proof.
  split.
  - intros H x. induction H; cbn; lia.
  - revert k. induction l as [|y l IH]; intros k H.
    + destruct k as [|z k]; [done|]. specialize (H z). cbn in H. rewrite one_same in H. lia.
    + assert (y ∈ k) as Hy by (apply cnt_elem; rewrite <- H; cbn; rewrite one_same; lia).
      apply list_elem_of_split in Hy as (k1 & k2 & ->). rewrite <- Permutation_middle. constructor.
      apply IH. intros x. specialize (H x). rewrite cnt_app in *. cbn in H. lia.
Qed.

Lemma cnt_nodup `{EqDecision A} (l : list A) : NoDup l <-> (forall x, (cnt x l <= 1)%nat).
Proof.
  induction l as [|y l IH]; [split; [cbn; lia|constructor]|]. rewrite NoDup_cons, IH, cnt_elem. split.
  - intros [Hy Hl] x. cbn. specialize (Hl x). unfold one. case_decide; subst; lia.
  - intros H. split; [specialize (H y); cbn in H; rewrite one_same in H; lia|]. intros x. specialize (H x). cbn in H. lia.
Qed.

Lemma cnt_remove_first `{EqDecision A} (x y : A) l : y ∈ l -> (one x y + cnt x (remove_first y l))%nat = cnt x l.
Proof. intros H. rewrite (proj1 (cnt_perm _ _) (remove_first_perm l y H)). done. Qed.

(** Solves [l ≡ₚ k] from hypotheses on permutations when both hold the same atoms. *)
Ltac perm :=
  repeat match goal with H : _ ≡ₚ _ |- _ => rewrite cnt_perm in H end;
  rewrite ?cnt_perm;
  let x := fresh "x" in
  intros x;
  repeat match goal with H : forall y, cnt y _ = cnt y _ |- _ => specialize (H x) end;
  repeat (progress (rewrite ?cnt_app, ?cnt_cons in *)); cbn [cnt] in *; lia.
