(* ===== verification/Types.v ===== *)
(** Constants, status codes, media addresses and the records that several
    components share: xztl.h, xztl-media.h, xztl-mods.h, xztl-pro.h and the
    mapping entry of libzrocks.h.

    Pointers into arrays are indices: [node->vzones[i]] is an index into
    [pro->vzones], [zone->zmd_entry] an index into the zone metadata table of
    the group, [q->node] an index into [pro->vnodes].  A null pointer is
    [None].  Hence a write through one pointer is seen through every alias. *)

From S2P Require Import Prelude.

(** * Constants *)

Definition APP_MAGIC : Z := 60.
Definition MAX_CALLBACK_ERR_CNT : Z := 3.
Definition ZNS_ALIGMENT : Z := 4096.
Definition ZNA_1M_BUF : Z := ZNS_ALIGMENT * 256.
Definition ZNS_MAX_M_BUF : Z := 32.
Definition ZNS_MAX_BUF : Z := ZNS_MAX_M_BUF * ZNA_1M_BUF.
Definition ZONE_SIZE : Z := 96 * 1024 * 1024.
Definition ZTL_IO_SEC_MCMD : Z := 8.
Definition ZTL_PRO_ZONE_NUM_INNODE : Z := 64.
Definition ZROCKS_LEVEL_NUM : Z := 5.
Definition ZTL_IO_RC_NUM : Z := ZNS_MAX_BUF / (ZTL_IO_SEC_MCMD * ZNS_ALIGMENT).
Definition XZTL_IO_MAX_MCMD : Z := 65536.
Definition XZTL_WIO_MAX_MCMD : Z := 1024.
Definition XZTL_READ_RS_NUM : Z := 256.
Definition APP_PRO_MAX_OFFS : Z := 128.
Definition ZTL_PRO_SEC_NUM_INZONE : Z := ZONE_SIZE / 1024 / 4.
Definition ZTL_PRO_OPT_SEC_NUM_INNODE : Z :=
  ZTL_PRO_ZONE_NUM_INNODE * ZTL_PRO_SEC_NUM_INZONE / ZTL_IO_SEC_MCMD.

Lemma ZTL_IO_RC_NUM_eq : ZTL_IO_RC_NUM = 1024.
Proof. reflexivity. Qed.

Lemma ZTL_PRO_OPT_SEC_NUM_INNODE_eq : ZTL_PRO_OPT_SEC_NUM_INNODE = 196608.
Proof. reflexivity. Qed.

(** Replaces the named constants by their numerals, everywhere. *)
Ltac cst :=
  rewrite ?ZTL_IO_RC_NUM_eq, ?ZTL_PRO_OPT_SEC_NUM_INNODE_eq in *;
  unfold MAX_CALLBACK_ERR_CNT, ZNS_ALIGMENT, ZTL_IO_SEC_MCMD,
    ZTL_PRO_ZONE_NUM_INNODE, ZROCKS_LEVEL_NUM, XZTL_IO_MAX_MCMD,
    XZTL_WIO_MAX_MCMD, XZTL_READ_RS_NUM, APP_PRO_MAX_OFFS in *.

(** * Status codes: [enum xztl_status] *)

Definition XZTL_OK : Z := 0.
Definition XZTL_MEM : Z := 1.
Definition XZTL_NOMEDIA : Z := 2.
Definition XZTL_NOINIT : Z := 3.
Definition XZTL_NOEXIT : Z := 4.
Definition XZTL_MEDIA_NOGEO : Z := 5.
Definition XZTL_MEDIA_GEO : Z := 6.
Definition XZTL_MEDIA_NOIO : Z := 7.
Definition XZTL_MEDIA_NOZONE : Z := 8.
Definition XZTL_MEDIA_NOALLOC : Z := 9.
Definition XZTL_MEDIA_NOFREE : Z := 10.
Definition XZTL_ZTL_PROV_ERR : Z := 14.
Definition XZTL_ZTL_GROUP_ERR : Z := 15.
Definition XZTL_ZTL_PROV_GRP_ERR : Z := 16.
Definition XZTL_ZTL_MOD_ERR : Z := 17.
Definition XZTL_ZTL_ZMD_REP : Z := 18.
Definition XZTL_ZTL_MAP_ERR : Z := 21.
Definition XZTL_ZTL_IO_ERR : Z := 22.
Definition XZTL_ZTL_IO_S_ERR : Z := 24.
Definition XZTL_ZTL_MD_INIT_ERR : Z := 26.
Definition XZTL_ZTL_MD_READ_ERR : Z := 27.
Definition XZTL_ZTL_MD_WRITE_ERR : Z := 28.
Definition XZTL_ZTL_MD_WRITE_FULL : Z := 29.
Definition XZTL_ZTL_MD_RESET_ERR : Z := 30.
Definition XZTL_MEDIA_ERROR : Z := 256.
Definition XZTL_ZROCKS_INIT_ERR : Z := 257.
Definition XZTL_ZROCKS_WRITE_ERR : Z := 258.
Definition XZTL_ZROCKS_READ_ERR : Z := 259.
Definition XZTL_ZTL_MGMT_ERR : Z := 260.

(** * Media addresses: [struct xztl_maddr] *)

Definition maddr_grp (a : Z) : Z := bf_get 0 5 a.
Definition maddr_punit (a : Z) : Z := bf_get 5 3 a.
Definition maddr_zone (a : Z) : Z := bf_get 8 20 a.
Definition maddr_sect (a : Z) : Z := bf_get 28 36 a.

Definition maddr_set_grp (a v : Z) : Z := bf_set 0 5 a v.
Definition maddr_set_punit (a v : Z) : Z := bf_set 5 3 a v.
Definition maddr_set_zone (a v : Z) : Z := bf_set 8 20 a v.
Definition maddr_set_sect (a v : Z) : Z := bf_set 28 36 a v.

(** * Mapping pieces: [struct zrocks_map] *)

Definition zmap_node_id (a : Z) : Z := bf_get 0 14 a.
Definition zmap_start (a : Z) : Z := bf_get 14 22 a.
Definition zmap_num (a : Z) : Z := bf_get 36 11 a.
Definition zmap_padding (a : Z) : Z := bf_get 47 16 a.

Definition zmap_set_node_id (a v : Z) : Z := bf_set 0 14 a v.
Definition zmap_set_start (a v : Z) : Z := bf_set 14 22 a v.
Definition zmap_set_num (a v : Z) : Z := bf_set 36 11 a v.
Definition zmap_set_padding (a v : Z) : Z := bf_set 47 16 a v.

(** * Geometry: [struct xztl_mgeo] *)

Record xztl_mgeo := {
  ngrps : Z; pu_grp : Z; zn_pu : Z; sec_zn : Z; nbytes : Z; nbytes_oob : Z;
  zn_dev : Z; zn_grp : Z; sec_dev : Z; sec_grp : Z; sec_pu : Z;
  nbytes_zn : Z; nbytes_grp : Z; oob_grp : Z; oob_pu : Z; oob_zn : Z
}.

(** * Zone metadata: [struct app_zmd_entry] and its flags *)

Definition XZTL_ZMD_USED : Z := Z.shiftl 1 0.
Definition XZTL_ZMD_OPEN : Z := Z.shiftl 1 1.
Definition XZTL_ZMD_RSVD : Z := Z.shiftl 1 2.
Definition XZTL_ZMD_AVLB : Z := Z.shiftl 1 3.

Record app_zmd_entry := {
  ze_flags : Z;
  ze_level : Z;
  ze_addr : Z;
  ze_wptr : Z;
  ze_wptr_inflight : Z
}.

Definition ze_set_wptr (e : app_zmd_entry) (v : Z) : app_zmd_entry :=
  {| ze_flags := ze_flags e; ze_level := ze_level e; ze_addr := ze_addr e;
     ze_wptr := v; ze_wptr_inflight := ze_wptr_inflight e |}.

Definition ze_set_wptr_inflight (e : app_zmd_entry) (v : Z) : app_zmd_entry :=
  {| ze_flags := ze_flags e; ze_level := ze_level e; ze_addr := ze_addr e;
     ze_wptr := ze_wptr e; ze_wptr_inflight := v |}.

(** The zone descriptors of the device report, as far as the code reads them.
    The zone states are those of the NVMe ZNS specification. *)
Inductive znd_state :=
  | ZND_STATE_EMPTY | ZND_STATE_IOPEN | ZND_STATE_EOPEN | ZND_STATE_CLOSED
  | ZND_STATE_FULL | ZND_STATE_RONLY | ZND_STATE_OFFLINE.

Record znd_descr := { zd_zs : znd_state; zd_zcap : Z; zd_wp : Z }.

(** * Provisioning: [struct ztl_pro_zone], [ztl_pro_node], [ztl_pro_node_grp] *)

Record ztl_pro_zone := {
  pz_addr : Z;
  pz_zmd_entry : option nat;
  pz_capacity : Z;
  pz_lock : Z;
  pz_state : option znd_state
}.

Definition XZTL_ZMD_NODE_FREE : Z := 0.
Definition XZTL_ZMD_NODE_USED : Z := 1.
Definition XZTL_ZMD_NODE_FULL : Z := 2.
Definition XZTL_ZMD_NODE_RESET : Z := 3.

Record ztl_pro_node := {
  pn_id : Z;
  pn_vzones : list (option nat);
  pn_left : Z;                     (* optimal_write_sec_left *)
  pn_used : Z;                     (* optimal_write_sec_used *)
  pn_nr_finish_err : Z;
  pn_nr_reset_err : Z;
  pn_nr_valid : Z;
  pn_status : Z;
  pn_level : Z
}.

Record ztl_pro_node_grp := {
  pg_vnodes : list ztl_pro_node;
  pg_vzones : list ztl_pro_zone;
  pg_nfree : Z;
  pg_nzones : Z;
  pg_nnodes : Z;
  pg_free_head : list nat;
  pg_used_head : list nat;
  pg_full_head : list nat
}.

(** * Groups: [struct app_group] with its flags and its zone metadata table.
    [grp_tbl] is [zmd.tbl], [grp_entries] is [zmd.entries], [grp_report] is
    [zmd.report] and [grp_magic] is [zmd.byte.magic]. *)

Record app_group := {
  grp_id : Z;
  grp_active : Z;
  grp_need_gc : Z;
  grp_busy : Z;
  grp_magic : Z;
  grp_entries : Z;
  grp_tbl : list app_zmd_entry;
  grp_report : list znd_descr;
  grp_pro : option ztl_pro_node_grp
}.

(** * Provisioning context: [struct app_pro_addr].
    Its [grp] field always is [glist[0]], the one group the code provisions
    from, and is left out. *)

Record app_pro_addr := {
  pa_addr : list Z;
  pa_nsec : list Z;
  pa_naddr : Z
}.

(** * Field updates *)

Definition pn_set_id (r : ztl_pro_node) v : ztl_pro_node :=
    {| pn_id := v; pn_vzones := pn_vzones r; pn_left := pn_left r; pn_used := pn_used r;
     pn_nr_finish_err := pn_nr_finish_err r; pn_nr_reset_err := pn_nr_reset_err r;
     pn_nr_valid := pn_nr_valid r; pn_status := pn_status r; pn_level := pn_level r |}.

Definition pn_set_vzones (r : ztl_pro_node) v : ztl_pro_node :=
    {| pn_id := pn_id r; pn_vzones := v; pn_left := pn_left r; pn_used := pn_used r;
     pn_nr_finish_err := pn_nr_finish_err r; pn_nr_reset_err := pn_nr_reset_err r;
     pn_nr_valid := pn_nr_valid r; pn_status := pn_status r; pn_level := pn_level r |}.

Definition pn_set_left (r : ztl_pro_node) v : ztl_pro_node :=
    {| pn_id := pn_id r; pn_vzones := pn_vzones r; pn_left := v; pn_used := pn_used r;
     pn_nr_finish_err := pn_nr_finish_err r; pn_nr_reset_err := pn_nr_reset_err r;
     pn_nr_valid := pn_nr_valid r; pn_status := pn_status r; pn_level := pn_level r |}.

Definition pn_set_used (r : ztl_pro_node) v : ztl_pro_node :=
    {| pn_id := pn_id r; pn_vzones := pn_vzones r; pn_left := pn_left r; pn_used := v;
     pn_nr_finish_err := pn_nr_finish_err r; pn_nr_reset_err := pn_nr_reset_err r;
     pn_nr_valid := pn_nr_valid r; pn_status := pn_status r; pn_level := pn_level r |}.

Definition pn_set_nr_finish_err (r : ztl_pro_node) v : ztl_pro_node :=
    {| pn_id := pn_id r; pn_vzones := pn_vzones r; pn_left := pn_left r; pn_used := pn_used r;
     pn_nr_finish_err := v; pn_nr_reset_err := pn_nr_reset_err r; pn_nr_valid := pn_nr_valid r;
     pn_status := pn_status r; pn_level := pn_level r |}.

Definition pn_set_nr_reset_err (r : ztl_pro_node) v : ztl_pro_node :=
    {| pn_id := pn_id r; pn_vzones := pn_vzones r; pn_left := pn_left r; pn_used := pn_used r;
     pn_nr_finish_err := pn_nr_finish_err r; pn_nr_reset_err := v; pn_nr_valid := pn_nr_valid r;
     pn_status := pn_status r; pn_level := pn_level r |}.

Definition pn_set_nr_valid (r : ztl_pro_node) v : ztl_pro_node :=
    {| pn_id := pn_id r; pn_vzones := pn_vzones r; pn_left := pn_left r; pn_used := pn_used r;
     pn_nr_finish_err := pn_nr_finish_err r; pn_nr_reset_err := pn_nr_reset_err r;
     pn_nr_valid := v; pn_status := pn_status r; pn_level := pn_level r |}.

Definition pn_set_status (r : ztl_pro_node) v : ztl_pro_node :=
    {| pn_id := pn_id r; pn_vzones := pn_vzones r; pn_left := pn_left r; pn_used := pn_used r;
     pn_nr_finish_err := pn_nr_finish_err r; pn_nr_reset_err := pn_nr_reset_err r;
     pn_nr_valid := pn_nr_valid r; pn_status := v; pn_level := pn_level r |}.

Definition pn_set_level (r : ztl_pro_node) v : ztl_pro_node :=
    {| pn_id := pn_id r; pn_vzones := pn_vzones r; pn_left := pn_left r; pn_used := pn_used r;
     pn_nr_finish_err := pn_nr_finish_err r; pn_nr_reset_err := pn_nr_reset_err r;
     pn_nr_valid := pn_nr_valid r; pn_status := pn_status r; pn_level := v |}.

Definition pg_set_vnodes (r : ztl_pro_node_grp) v : ztl_pro_node_grp :=
    {| pg_vnodes := v; pg_vzones := pg_vzones r; pg_nfree := pg_nfree r;
     pg_nzones := pg_nzones r; pg_nnodes := pg_nnodes r; pg_free_head := pg_free_head r;
     pg_used_head := pg_used_head r; pg_full_head := pg_full_head r |}.

Definition pg_set_vzones (r : ztl_pro_node_grp) v : ztl_pro_node_grp :=
    {| pg_vnodes := pg_vnodes r; pg_vzones := v; pg_nfree := pg_nfree r;
     pg_nzones := pg_nzones r; pg_nnodes := pg_nnodes r; pg_free_head := pg_free_head r;
     pg_used_head := pg_used_head r; pg_full_head := pg_full_head r |}.

Definition pg_set_nfree (r : ztl_pro_node_grp) v : ztl_pro_node_grp :=
    {| pg_vnodes := pg_vnodes r; pg_vzones := pg_vzones r; pg_nfree := v;
     pg_nzones := pg_nzones r; pg_nnodes := pg_nnodes r; pg_free_head := pg_free_head r;
     pg_used_head := pg_used_head r; pg_full_head := pg_full_head r |}.

Definition pg_set_free_head (r : ztl_pro_node_grp) v : ztl_pro_node_grp :=
    {| pg_vnodes := pg_vnodes r; pg_vzones := pg_vzones r; pg_nfree := pg_nfree r;
     pg_nzones := pg_nzones r; pg_nnodes := pg_nnodes r; pg_free_head := v;
     pg_used_head := pg_used_head r; pg_full_head := pg_full_head r |}.

Definition pg_set_used_head (r : ztl_pro_node_grp) v : ztl_pro_node_grp :=
    {| pg_vnodes := pg_vnodes r; pg_vzones := pg_vzones r; pg_nfree := pg_nfree r;
     pg_nzones := pg_nzones r; pg_nnodes := pg_nnodes r; pg_free_head := pg_free_head r;
     pg_used_head := v; pg_full_head := pg_full_head r |}.

Definition pg_set_full_head (r : ztl_pro_node_grp) v : ztl_pro_node_grp :=
    {| pg_vnodes := pg_vnodes r; pg_vzones := pg_vzones r; pg_nfree := pg_nfree r;
     pg_nzones := pg_nzones r; pg_nnodes := pg_nnodes r; pg_free_head := pg_free_head r;
     pg_used_head := pg_used_head r; pg_full_head := v |}.

Definition grp_set_active (r : app_group) v : app_group :=
    {| grp_id := grp_id r; grp_active := v; grp_need_gc := grp_need_gc r;
     grp_busy := grp_busy r; grp_magic := grp_magic r; grp_entries := grp_entries r;
     grp_tbl := grp_tbl r; grp_report := grp_report r; grp_pro := grp_pro r |}.

Definition grp_set_busy (r : app_group) v : app_group :=
    {| grp_id := grp_id r; grp_active := grp_active r; grp_need_gc := grp_need_gc r;
     grp_busy := v; grp_magic := grp_magic r; grp_entries := grp_entries r;
     grp_tbl := grp_tbl r; grp_report := grp_report r; grp_pro := grp_pro r |}.

Definition grp_set_magic (r : app_group) v : app_group :=
    {| grp_id := grp_id r; grp_active := grp_active r; grp_need_gc := grp_need_gc r;
     grp_busy := grp_busy r; grp_magic := v; grp_entries := grp_entries r; grp_tbl := grp_tbl r;
     grp_report := grp_report r; grp_pro := grp_pro r |}.

Definition grp_set_entries (r : app_group) v : app_group :=
    {| grp_id := grp_id r; grp_active := grp_active r; grp_need_gc := grp_need_gc r;
     grp_busy := grp_busy r; grp_magic := grp_magic r; grp_entries := v; grp_tbl := grp_tbl r;
     grp_report := grp_report r; grp_pro := grp_pro r |}.

Definition grp_set_tbl (r : app_group) v : app_group :=
    {| grp_id := grp_id r; grp_active := grp_active r; grp_need_gc := grp_need_gc r;
     grp_busy := grp_busy r; grp_magic := grp_magic r; grp_entries := grp_entries r;
     grp_tbl := v; grp_report := grp_report r; grp_pro := grp_pro r |}.

Definition grp_set_report (r : app_group) v : app_group :=
    {| grp_id := grp_id r; grp_active := grp_active r; grp_need_gc := grp_need_gc r;
     grp_busy := grp_busy r; grp_magic := grp_magic r; grp_entries := grp_entries r;
     grp_tbl := grp_tbl r; grp_report := v; grp_pro := grp_pro r |}.

Definition grp_set_pro (r : app_group) v : app_group :=
    {| grp_id := grp_id r; grp_active := grp_active r; grp_need_gc := grp_need_gc r;
     grp_busy := grp_busy r; grp_magic := grp_magic r; grp_entries := grp_entries r;
     grp_tbl := grp_tbl r; grp_report := grp_report r; grp_pro := v |}.
