(* ===== verification/Sim.v ===== *)
(** A concrete group for the witnesses: two metadata zones, then nodes of 64
    zones of 32768 sectors each, every zone empty. *)

From S2P Require Import Prelude Types.

(** Sectors per zone and bytes per sector of the simulated device. *)
Definition sd_zone_size : Z := 32768.
Definition sd_sector : Z := 4096.

Definition sim_zone (zone_i : nat) : app_zmd_entry :=
  let sect := Z.of_nat zone_i * sd_zone_size in
  {| ze_flags := XZTL_ZMD_AVLB; ze_level := 0;
     ze_addr := maddr_set_sect (maddr_set_zone 0 (Z.of_nat zone_i)) sect;
     ze_wptr := sect; ze_wptr_inflight := sect |}.

Definition sim_pro_zone (zi : nat) : ztl_pro_zone :=
  {| pz_addr := ze_addr (sim_zone (zi + 2)); pz_zmd_entry := Some (zi + 2)%nat;
     pz_capacity := ZTL_PRO_SEC_NUM_INZONE; pz_lock := 0; pz_state := Some ZND_STATE_EMPTY |}.

Definition sim_node (n : nat) : ztl_pro_node :=
  {| pn_id := Z.of_nat n; pn_vzones := (fun z => Some (64 * n + z)%nat) <$> seq 0 64;
     pn_left := ZTL_PRO_OPT_SEC_NUM_INNODE; pn_used := 0; pn_nr_finish_err := 0;
     pn_nr_reset_err := 0; pn_nr_valid := 0; pn_status := XZTL_ZMD_NODE_FREE; pn_level := -1 |}.

Definition sim_pro (nodes : nat) : ztl_pro_node_grp :=
  {| pg_vnodes := sim_node <$> seq 0 nodes; pg_vzones := sim_pro_zone <$> seq 0 (64 * nodes);
     pg_nfree := Z.of_nat nodes; pg_nzones := Z.of_nat (64 * nodes + 2); pg_nnodes := Z.of_nat nodes;
     pg_free_head := seq 0 nodes; pg_used_head := []; pg_full_head := [] |}.

Definition sim_group (nodes : nat) : app_group :=
  {| grp_id := 0; grp_active := 1; grp_need_gc := 0; grp_busy := 0; grp_magic := APP_MAGIC;
     grp_entries := Z.of_nat (64 * nodes + 2); grp_tbl := sim_zone <$> seq 0 (64 * nodes + 2);
     grp_report := []; grp_pro := Some (sim_pro nodes) |}.

Definition sim_prov : app_pro_addr :=
  {| pa_addr := replicate 128 0; pa_nsec := replicate 128 0; pa_naddr := 0 |}.
