(* ===== verification/Stats.v ===== *)
(** Statistics counters: src/xztl/src/xztl-stats.c and xztl-stats.h.

    The counters are the arrays of the source, 64 bits wide; every update is an
    atomic addition.  Printing is left out, except for the one derived quantity
    [xztl_stats_print_io_simple] computes. *)

From S2P Require Import Prelude Types.

Definition XZTL_STATS_READ_BYTES : Z := 0.
Definition XZTL_STATS_APPEND_BYTES : Z := 1.
Definition XZTL_STATS_READ_MCMD : Z := 2.
Definition XZTL_STATS_APPEND_MCMD : Z := 3.
Definition XZTL_STATS_RESET_MCMD : Z := 4.
Definition XZTL_STATS_READ_BYTES_U : Z := 5.
Definition XZTL_STATS_APPEND_BYTES_U : Z := 6.
Definition XZTL_STATS_READ_UCMD : Z := 7.
Definition XZTL_STATS_APPEND_UCMD : Z := 8.
Definition XZTL_STATS_READ_BYTES_GC : Z := 9.
Definition XZTL_STATS_APPEND_BYTES_GC : Z := 10.
Definition XZTL_STATS_READ_GC_CMD : Z := 11.
Definition XZTL_STATS_APPEND_GC_CMD : Z := 12.
Definition XZTL_STATS_WRITE_SUBMIT_FAIL : Z := 15.
Definition XZTL_STATS_READ_SUBMIT_FAIL : Z := 16.
Definition XZTL_STATS_WRITE_CALLBACK_FAIL : Z := 17.
Definition XZTL_STATS_READ_CALLBACK_FAIL : Z := 18.
Definition XZTL_STATS_MGMT_FAIL : Z := 19.
Definition XZTL_STATS_META_WRITE_FAIL : Z := 20.
Definition XZTL_STATS_META_READ_FAIL : Z := 21.

Definition XZTL_STATS_IO_TYPES : nat := 22.

Definition XZTL_CMD_ENTRY_VALID : Z := 0.
Definition XZTL_CMD_ENTRY_USED : Z := 1.
Definition XZTL_CMD_ENTRY_MAX : nat := 2.

Record xztl_stats := {
  st_io : list Z;                  (* xztl_stats.io *)
  st_node : list (list Z)          (* xztl_node_stats.data *)
}.

Definition xztl_stats_init : xztl_stats :=
  {| st_io := replicate XZTL_STATS_IO_TYPES 0;
     st_node := replicate (Z.to_nat ZROCKS_LEVEL_NUM) (replicate XZTL_CMD_ENTRY_MAX 0) |}.

Definition xztl_stats_inc (s : xztl_stats) (type val : Z) : option xztl_stats :=
  v ← (st_io s).[type];
  io ← aset (st_io s) type (u64 (v + val));
  Some {| st_io := io; st_node := st_node s |}.

Definition xztl_stats_node_inc (s : xztl_stats) (level type val : Z) : option xztl_stats :=
  row ← (st_node s).[level];
  v ← row.[type];
  row' ← aset row type (u64 (v + val));
  rows ← aset (st_node s) level row';
  Some {| st_io := st_io s; st_node := rows |}.

Definition xztl_stats_reset_io (s : xztl_stats) : xztl_stats :=
  {| st_io := replicate XZTL_STATS_IO_TYPES 0; st_node := st_node s |}.

(** [padding_w] of [xztl_stats_print_io_simple]. *)
Definition padding_w (s : xztl_stats) : option Z :=
  flush_w ← (st_io s).[XZTL_STATS_APPEND_BYTES];
  app_w ← (st_io s).[XZTL_STATS_APPEND_BYTES_U];
  gc_w ← (st_io s).[XZTL_STATS_APPEND_BYTES_GC];
  Some (u64 (flush_w - app_w - gc_w)).

(** * Lemmas *)

Definition stats_wf (s : xztl_stats) : Prop :=
  length (st_io s) = XZTL_STATS_IO_TYPES /\ Forall (fun v => 0 <= v < 2 ^ 64) (st_io s).

Lemma stats_init_wf : stats_wf xztl_stats_init.
Proof. split; [reflexivity|]. repeat constructor; lia. Qed.

Lemma xztl_stats_inc_wf s type val :
  stats_wf s -> 0 <= type < 22 ->
  exists s', xztl_stats_inc s type val = Some s' /\ stats_wf s' /\ st_node s' = st_node s /\
    (forall v, (st_io s).[type] = Some v -> (st_io s').[type] = Some (u64 (v + val))) /\
    (forall t, t <> type -> (st_io s').[t] = (st_io s).[t]).
Proof.
  intros [Hl Hf] Ht. unfold xztl_stats_inc.
  destruct ((st_io s).[type]) as [v|] eqn:Ev.
  2:{ apply eq_None_not_Some in Ev. destruct Ev. apply aget_is_Some.
      rewrite Hl. unfold XZTL_STATS_IO_TYPES. lia. }
  simpl. destruct (aset (st_io s) type (u64 (v + val))) as [io|] eqn:Ea.
  2:{ rewrite aset_Some in Ea; [done|]. rewrite Hl. unfold XZTL_STATS_IO_TYPES. lia. }
  eexists. split; [reflexivity|]. simpl. split_and!; auto.
  - split; simpl; [by rewrite (aset_length _ _ _ _ Ea)|].
    apply aset_inv in Ea as [_ ->]. apply Forall_insert; [done|]. apply wrap_range. lia.
  - intros v' [= ->]. by apply (aget_aset_eq _ _ _ _ Ea).
  - intros t Hne. eapply aget_aset_ne; eauto.
Qed.

#[export] Hint Resolve stats_init_wf : ztl.
