(* ===== verification/ProGrp.v ===== *)
(** Zone provisioning of one group: src/xztl/src/ztl-pro-grp.c and ztl-pro.c.

    A node is a set of 64 zones written round-robin, 8 sectors at a time.  The
    file models the striped allocation [ztl_pro_grp_get], the release of a
    finished allocation [ztl_pro_grp_free]/[ztl_pro_free], the choice of the
    node a writer works on [ztl_pro_grp_get_node], and the wrappers of
    ztl-pro.c.  A call is one step here, its critical sections included. *)

From S2P Require Import Prelude Types Sim.

(** * Data access *)

Definition node_at (g : app_group) (n : nat) : option ztl_pro_node :=
  pro ← grp_pro g; pg_vnodes pro !! n.

(** [pro->vnodes[n] = f(pro->vnodes[n])] *)
Definition upd_node (g : app_group) (n : nat) (f : ztl_pro_node -> ztl_pro_node) : option app_group :=
  pro ← grp_pro g;
  node ← pg_vnodes pro !! n;
  Some (grp_set_pro g (Some (pg_set_vnodes pro (<[n := f node]> (pg_vnodes pro))))).

(** [node->vzones[z]], dereferenced *)
Definition slot_zone (pro : ztl_pro_node_grp) (node : ztl_pro_node) (z : Z) : option ztl_pro_zone :=
  p ← (pn_vzones node).[z]; zi ← p; pg_vzones pro !! zi.

(** [node->vzones[z]->zmd_entry] *)
Definition slot_ei (pro : ztl_pro_node_grp) (node : ztl_pro_node) (z : Z) : option nat :=
  zone ← slot_zone pro node z; pz_zmd_entry zone.

(** * Allocation: [ztl_pro_grp_get] *)

(** [ctx->addr[naddr] = a; ctx->nsec[naddr] = ns; ctx->naddr++] *)
Definition ctx_push (ctx : app_pro_addr) (a ns : Z) : option app_pro_addr :=
  la ← aset (pa_addr ctx) (pa_naddr ctx) a;
  ln ← aset (pa_nsec ctx) (pa_naddr ctx) ns;
  Some {| pa_addr := la; pa_nsec := ln; pa_naddr := u16 (pa_naddr ctx + 1) |}.

Fixpoint grp_get_loop (fuel : nat) (pro : ztl_pro_node_grp) (node : ztl_pro_node)
    (g : app_group) (ctx : app_pro_addr) (num num_zn addition zn_i : Z)
    : option (app_group * app_pro_addr) :=
  if num =? 0 then Some (g, ctx) else
  match fuel with
  | O => None
  | S fuel' =>
      let i := if addition =? 0 then 0 else 1 in
      zone ← slot_zone pro node zn_i;
      ei ← pz_zmd_entry zone;
      e ← grp_tbl g !! ei;
      let a := maddr_set_sect (pz_addr zone) (ze_wptr_inflight e) in
      let ns := u32 ((num_zn + i) * ZTL_IO_SEC_MCMD) in
      ctx' ← ctx_push ctx a ns;
      let g' := grp_set_tbl g
        (<[ei := ze_set_wptr_inflight e (u64 (ze_wptr_inflight e + ns))]> (grp_tbl g)) in
      grp_get_loop fuel' pro node g' ctx'
        (u32 (num - (num_zn + i))) num_zn
        (if addition =? 0 then 0 else addition - 1)
        ((zn_i + 1) mod ZTL_PRO_ZONE_NUM_INNODE)
  end.

(** The loop runs at most once per zone of the node. *)
Definition grp_get_fuel : nat := 64.

Definition ztl_pro_grp_get (g : app_group) (ctx : app_pro_addr) (num node_id start : Z)
    : option (app_group * app_pro_addr * Z) :=
  pro ← grp_pro g;
  node ← (pg_vnodes pro).[node_id];
  let num_zn := num / ZTL_PRO_ZONE_NUM_INNODE in
  let addition := num mod ZTL_PRO_ZONE_NUM_INNODE in
  let zn_i := start mod ZTL_PRO_ZONE_NUM_INNODE in
  '(g', ctx') ← grp_get_loop grp_get_fuel pro node g ctx num num_zn addition zn_i;
  Some (g', ctx', XZTL_OK).

(** * Release: [ztl_pro_grp_free] *)

Definition ztl_pro_grp_free (meta : Z) (g : app_group) (zone_i nsec : Z) : option app_group :=
  pro ← grp_pro g;
  zone ← (pg_vzones pro).[u32 (zone_i - meta)];
  ei ← pz_zmd_entry zone;
  e ← grp_tbl g !! ei;
  Some (grp_set_tbl g (<[ei := ze_set_wptr e (u64 (ze_wptr e + nsec))]> (grp_tbl g))).

(** * Choice of a node: [ztl_pro_grp_get_node].
    The first component of the result is the new [q->node]. *)

Definition get_node_retire (pro : ztl_pro_node_grp) (qnode : option nat) : option ztl_pro_node_grp :=
  match qnode with
  | None => Some pro
  | Some n =>
      node ← pg_vnodes pro !! n;
      let tmp := Z.to_nat (pn_id node) in
      used ← tailq_remove (pg_used_head pro) tmp;
      Some (pg_set_full_head (pg_set_used_head pro used)
              (tailq_insert_tail (pg_full_head pro) tmp))
  end.

Definition get_node_take (pro : ztl_pro_node_grp) : option (option nat * ztl_pro_node_grp * Z) :=
  match pg_free_head pro with
  | [] => Some (None, pro, XZTL_ZTL_PROV_ERR)
  | n :: _ =>
      free ← tailq_remove (pg_free_head pro) n;
      node ← pg_vnodes pro !! n;
      let pro1 := pg_set_free_head pro free in
      let pro2 := pg_set_used_head pro1 (tailq_insert_tail (pg_used_head pro1) n) in
      let pro3 := pg_set_vnodes pro2
        (<[n := pn_set_status node XZTL_ZMD_NODE_USED]> (pg_vnodes pro2)) in
      Some (Some n, pg_set_nfree pro3 (u32 (pg_nfree pro3 - 1)), XZTL_OK)
  end.

Definition ztl_pro_grp_get_node (qnode : option nat) (pro : ztl_pro_node_grp)
    : option (option nat * ztl_pro_node_grp * Z) :=
  let fresh_node :=
    pro' ← get_node_retire pro qnode;
    get_node_take pro' in
  match qnode with
  | None => fresh_node
  | Some n =>
      node ← pg_vnodes pro !! n;
      if pn_left node =? 0 then fresh_node else Some (qnode, pro, XZTL_OK)
  end.

(** * ztl-pro.c *)

Definition app_grp_ctx_add (g : app_group) : app_group := grp_set_busy g (u8 (grp_busy g + 1)).
Definition app_grp_ctx_sub (g : app_group) : app_group := grp_set_busy g (u8 (grp_busy g - 1)).

Fixpoint pro_free_loop (meta : Z) (n : nat) (i : Z) (g : app_group) (ctx : app_pro_addr)
    : option app_group :=
  match n with
  | O => Some g
  | S n' =>
      a ← (pa_addr ctx).[i];
      ns ← (pa_nsec ctx).[i];
      g' ← ztl_pro_grp_free meta g (maddr_zone a) ns;
      pro_free_loop meta n' (i + 1) g' ctx
  end.

Definition ztl_pro_free (meta : Z) (g : app_group) (ctx : app_pro_addr) : option app_group :=
  g' ← pro_free_loop meta (Z.to_nat (pa_naddr ctx)) 0 g ctx;
  Some (app_grp_ctx_sub g').

Definition ztl_pro_new (g : app_group) (num node_id : Z) (ctx : app_pro_addr) (start : Z)
    : option (app_group * app_pro_addr * Z) :=
  let ctx0 := {| pa_addr := pa_addr ctx; pa_nsec := pa_nsec ctx; pa_naddr := 0 |} in
  '(g', ctx', ret) ← ztl_pro_grp_get g ctx0 num node_id start;
  if ctrue ret then Some (g', ctx', XZTL_ZTL_PROV_ERR)
  else Some (app_grp_ctx_add g', ctx', ret).

Definition ztl_pro_get_node (g : app_group) (qnode : option nat)
    : option (option nat * app_group * Z) :=
  pro ← grp_pro g;
  '(qnode', pro', ret) ← ztl_pro_grp_get_node qnode pro;
  Some (qnode', grp_set_pro g (Some pro'), ret).

(** * The striped allocation: specification *)

(** Commands of the [j]-th zone of an allocation of [num] commands. *)
Definition share (num j : Z) : Z := num / 64 + (if j <? num mod 64 then 1 else 0).

(** Zones of an allocation of [num] commands. *)
Definition nzones_of (num : Z) : Z := Z.min num 64.

(** Commands of the first [j] zones of the allocation. *)
Definition share_sum (num j : Z) : Z := j * (num / 64) + Z.min j (num mod 64).

Lemma share_sum_succ num j :
  0 <= num -> 0 <= j -> share_sum num (j + 1) = share_sum num j + share num j.
Proof. intros. unfold share_sum, share. zcase; lia. Qed.

Lemma share_sum_0 num : share_sum num 0 = 0.
Proof. unfold share_sum. pose proof (Z.mod_pos_bound num 64). lia. Qed.

Lemma share_sum_full num : 0 <= num -> share_sum num (nzones_of num) = num.
Proof.
  intros. unfold share_sum, nzones_of. destruct (Z.lt_ge_cases num 64).
  - rewrite Z.min_l, Z.div_small, Z.mod_small by lia. lia.
  - rewrite Z.min_r by lia. zdiv.
Qed.

Lemma share_pos num j : 0 <= num -> 0 <= j < nzones_of num -> 0 < share num j.
Proof. unfold share, nzones_of. intros. zcase; zdiv. Qed.

Lemma share_bound num j : 0 <= num < 2 ^ 32 -> 0 <= share num j <= 2 ^ 26.
Proof. unfold share. intros. zcase; zdiv. Qed.

Lemma share_sum_le num j :
  0 <= num -> 0 <= j <= nzones_of num -> 0 <= share_sum num j <= num.
Proof.
  intros Hn Hj. rewrite <- (share_sum_full num) at 3 by done. revert Hj.
  unfold share_sum, nzones_of. intros. assert (0 <= num / 64) by zdiv.
  assert (0 <= num mod 64) by zdiv. nia.
Qed.

(** A node whose 64 slots point to zones with distinct metadata entries of a
    table of [len] entries. *)
Record node_wf (pro : ztl_pro_node_grp) (node : ztl_pro_node) (len : nat) : Prop := {
  nw_slot : forall z, 0 <= z < 64 ->
    exists zone ei, slot_zone pro node z = Some zone /\ pz_zmd_entry zone = Some ei /\ (ei < len)%nat;
  nw_inj : forall z z' ei, 0 <= z < 64 -> 0 <= z' < 64 ->
    slot_ei pro node z = Some ei -> slot_ei pro node z' = Some ei -> z = z'
}.

Definition ctx_wf (ctx : app_pro_addr) : Prop :=
  Z.of_nat (length (pa_addr ctx)) = APP_PRO_MAX_OFFS /\
  Z.of_nat (length (pa_nsec ctx)) = APP_PRO_MAX_OFFS.

Lemma slot_ei_zone pro node z zone ei :
  slot_zone pro node z = Some zone -> pz_zmd_entry zone = Some ei -> slot_ei pro node z = Some ei.
Proof. intros Hz He. unfold slot_ei. by rewrite Hz. Qed.

Lemma slot_zone_of_ei pro node z ei :
  slot_ei pro node z = Some ei ->
  exists zone, slot_zone pro node z = Some zone /\ pz_zmd_entry zone = Some ei.
Proof. unfold slot_ei. intros H. opt_inv. eauto. Qed.

Lemma ctx_push_spec ctx a ns :
  ctx_wf ctx -> 0 <= pa_naddr ctx < APP_PRO_MAX_OFFS ->
  exists ctx', ctx_push ctx a ns = Some ctx' /\ ctx_wf ctx' /\
    pa_naddr ctx' = pa_naddr ctx + 1 /\
    (pa_addr ctx').[pa_naddr ctx] = Some a /\
    (pa_nsec ctx').[pa_naddr ctx] = Some ns /\
    (forall i, i <> pa_naddr ctx ->
       (pa_addr ctx').[i] = (pa_addr ctx).[i] /\ (pa_nsec ctx').[i] = (pa_nsec ctx).[i]).
Proof.
  unfold ctx_wf. intros [Ha Hn] Hi. cst. unfold ctx_push.
  destruct (aset (pa_addr ctx) (pa_naddr ctx) a) as [la|] eqn:Ea;
    [|rewrite aset_Some in Ea by lia; done].
  destruct (aset (pa_nsec ctx) (pa_naddr ctx) ns) as [ln|] eqn:En;
    [|rewrite aset_Some in En by lia; done].
  simpl. eexists. split; [done|]. simpl.
  rewrite (aset_length _ _ _ _ Ea), (aset_length _ _ _ _ En).
  rewrite (aget_aset_eq _ _ _ _ Ea), (aget_aset_eq _ _ _ _ En).
  rewrite wrap_small by lia. repeat split; auto.
  all: eapply aget_aset_ne; eauto.
Qed.

(** ** Loops over the slots of an allocation

    [upd_slots f lo hi]: the metadata entry of the [i]-th zone of an allocation
    that starts at slot [start mod 64], for every [lo <= i < hi], becomes its
    image under [f i]; every other entry of the table is untouched. *)

Definition upd_slots (pro : ztl_pro_node_grp) (node : ztl_pro_node) (start lo hi : Z)
    (f : Z -> app_zmd_entry -> app_zmd_entry) (tbl tbl' : list app_zmd_entry) : Prop :=
  length tbl' = length tbl /\
  (forall i ei e, lo <= i < hi -> slot_ei pro node ((start + i) mod 64) = Some ei ->
     tbl !! ei = Some e -> tbl' !! ei = Some (f i e)) /\
  (forall ei, (forall i, lo <= i < hi -> slot_ei pro node ((start + i) mod 64) <> Some ei) ->
     tbl' !! ei = tbl !! ei).

Lemma stripe_slot_inj start i j :
  0 <= i < 64 -> 0 <= j < 64 -> (start + i) mod 64 = (start + j) mod 64 -> i = j.
Proof. intros. zdiv. Qed.

Lemma slot_range start i : 0 <= (start + i) mod 64 < 64.
Proof. apply Z.mod_pos_bound. lia. Qed.

#[export] Hint Resolve slot_range : ztl.

(** Two zones of an allocation have different metadata entries. *)
Lemma stripe_ei_ne pro node len start i j ei :
  node_wf pro node len -> 0 <= i < 64 -> 0 <= j < 64 -> i <> j ->
  slot_ei pro node ((start + i) mod 64) = Some ei ->
  slot_ei pro node ((start + j) mod 64) <> Some ei.
Proof.
  intros Hwf Hi Hj Hne Hei Hej. apply Hne, (stripe_slot_inj start); auto.
  eapply (nw_inj _ _ _ Hwf); eauto with ztl.
Qed.

Lemma upd_slots_nil pro node start lo f tbl : upd_slots pro node start lo lo f tbl tbl.
Proof. split_and!; auto. intros i ei e Hi. lia. Qed.

Lemma upd_slots_cons pro node start j hi f ei e tbl tbl' :
  node_wf pro node (length tbl) -> 0 <= j < hi -> hi <= 64 ->
  slot_ei pro node ((start + j) mod 64) = Some ei -> tbl !! ei = Some e ->
  upd_slots pro node start (j + 1) hi f (<[ei := f j e]> tbl) tbl' ->
  upd_slots pro node start j hi f tbl tbl'.
Proof.
  intros Hwf Hj Hhi Hei He (Hl & Hu & Hf). rewrite length_insert in Hl.
  assert (Hlt : (ei < length tbl)%nat) by (by eapply lookup_lt_Some).
  split_and!; [done| |].
  - intros i ei' e' Hi Hei' He'. destruct (decide (i = j)) as [->|Hne].
    + assert (ei' = ei) as -> by congruence. assert (e' = e) as -> by congruence.
      rewrite Hf; [by apply list_lookup_insert_eq|].
      intros k Hk. eapply stripe_ei_ne; [exact Hwf| | | |exact Hei]; lia.
    + apply Hu; [lia|done|]. rewrite list_lookup_insert_ne; [done|].
      intros <-. eapply (stripe_ei_ne _ _ _ start j i); eauto; lia.
  - intros ei' Hout. rewrite Hf by (intros i Hi; apply Hout; lia).
    apply list_lookup_insert_ne. intros ->. apply (Hout j); [lia|done].
Qed.

(** The [i]-th zone of an allocation, [lo <= i < hi], with its metadata entry
    in [tbl], is recorded in the context: its address with the sector of the
    write pointer, and its number of sectors. *)
Definition alloc_ctx (pro : ztl_pro_node_grp) (node : ztl_pro_node) (num start lo hi : Z)
    (tbl : list app_zmd_entry) (ctx' : app_pro_addr) : Prop :=
  forall i zone ei e, lo <= i < hi ->
    slot_zone pro node ((start + i) mod 64) = Some zone -> pz_zmd_entry zone = Some ei ->
    tbl !! ei = Some e ->
    (pa_addr ctx').[i] = Some (maddr_set_sect (pz_addr zone) (ze_wptr_inflight e)) /\
    (pa_nsec ctx').[i] = Some (8 * share num i).

Lemma alloc_ctx_cons pro node num start j hi zone ei e v tbl ctx' :
  node_wf pro node (length tbl) -> 0 <= j -> hi <= 64 ->
  slot_zone pro node ((start + j) mod 64) = Some zone -> pz_zmd_entry zone = Some ei ->
  tbl !! ei = Some e ->
  (pa_addr ctx').[j] = Some (maddr_set_sect (pz_addr zone) (ze_wptr_inflight e)) ->
  (pa_nsec ctx').[j] = Some (8 * share num j) ->
  alloc_ctx pro node num start (j + 1) hi (<[ei := v]> tbl) ctx' ->
  alloc_ctx pro node num start j hi tbl ctx'.
Proof.
  intros Hwf Hj Hhi Hz Hp He Ha Hn Hr i zone' ei' e' Hi Hz' Hp' He'.
  destruct (decide (i = j)) as [->|Hne]; [split; congruence|].
  apply (Hr i zone' ei' e'); auto; [lia|]. rewrite list_lookup_insert_ne; [done|].
  intros <-. eapply (stripe_ei_ne _ _ _ start j i); eauto using slot_ei_zone; lia.
Qed.

Definition advance_inflight (num i : Z) (e : app_zmd_entry) : app_zmd_entry :=
  ze_set_wptr_inflight e (u64 (ze_wptr_inflight e + 8 * share num i)).

(** One turn of the allocation loop. *)
Lemma grp_get_loop_step pro node num start fuel j g ctx ctx1 zone ei e :
  0 <= num < 2 ^ 32 -> 0 <= j < nzones_of num ->
  slot_zone pro node ((start + j) mod 64) = Some zone -> pz_zmd_entry zone = Some ei ->
  grp_tbl g !! ei = Some e ->
  ctx_push ctx (maddr_set_sect (pz_addr zone) (ze_wptr_inflight e)) (8 * share num j) = Some ctx1 ->
  grp_get_loop (S fuel) pro node g ctx (num - share_sum num j) (num / 64)
    (Z.max 0 (num mod 64 - j)) ((start + j) mod 64) =
  grp_get_loop fuel pro node (grp_set_tbl g (<[ei := advance_inflight num j e]> (grp_tbl g))) ctx1
    (num - share_sum num (j + 1)) (num / 64)
    (Z.max 0 (num mod 64 - (j + 1))) ((start + (j + 1)) mod 64).
Proof.
  intros Hnum Hj Hz Hp He Hpush.
  pose proof (share_pos num j ltac:(lia) Hj) as Hsp.
  pose proof (share_bound num j Hnum) as Hsb.
  pose proof (share_sum_succ num j ltac:(lia) ltac:(lia)) as Hss.
  pose proof (share_sum_le num (j + 1) ltac:(lia) ltac:(lia)) as Hsl.
  assert (Hi : num / 64 + (if Z.max 0 (num mod 64 - j) =? 0 then 0 else 1) = share num j).
  { unfold share. repeat zcase; lia. }
  simpl. replace (num - share_sum num j =? 0) with false by lia.
  rewrite Hz; simpl. rewrite Hp; simpl. rewrite He; simpl.
  rewrite Hi. cst. rewrite (wrap_small 32 (share num j * 8)) by lia.
  rewrite (Z.mul_comm _ 8), Hpush; simpl. f_equal.
  - rewrite wrap_small; lia.
  - repeat zcase; lia.
  - rewrite Zdiv.Zplus_mod_idemp_l. f_equal. lia.
Qed.

Lemma grp_get_loop_spec pro node num start (k : nat) : forall fuel j g ctx,
  0 <= num < 2 ^ 32 -> (k <= fuel)%nat -> 0 <= j -> j + Z.of_nat k = nzones_of num ->
  ctx_wf ctx -> pa_naddr ctx = j -> node_wf pro node (length (grp_tbl g)) ->
  exists tbl' ctx',
    grp_get_loop fuel pro node g ctx (num - share_sum num j) (num / 64)
      (Z.max 0 (num mod 64 - j)) ((start + j) mod 64) = Some (grp_set_tbl g tbl', ctx') /\
    ctx_wf ctx' /\ pa_naddr ctx' = nzones_of num /\
    (forall i, i < j -> (pa_addr ctx').[i] = (pa_addr ctx).[i] /\ (pa_nsec ctx').[i] = (pa_nsec ctx).[i]) /\
    alloc_ctx pro node num start j (nzones_of num) (grp_tbl g) ctx' /\
    upd_slots pro node start j (nzones_of num) (advance_inflight num) (grp_tbl g) tbl'.
Proof.
  induction k as [|k IH]; intros fuel j g ctx Hnum Hf Hj Hk Hctx Hna Hwf.
  - assert (j = nzones_of num) as -> by lia.
    exists (grp_tbl g), ctx. rewrite share_sum_full, Z.sub_diag by lia.
    split; [destruct fuel, g; reflexivity|].
    split_and!; auto using upd_slots_nil. intros i ? ? ? Hi; lia.
  - destruct fuel as [|fuel]; [lia|].
    assert (Hz64 : nzones_of num <= 64) by (unfold nzones_of; lia).
    destruct (nw_slot _ _ _ Hwf ((start + j) mod 64)) as (zone & ei & Hz & Hp & Hei);
      [apply slot_range|].
    destruct (lookup_lt_is_Some_2 _ _ Hei) as [e He].
    destruct (ctx_push_spec ctx (maddr_set_sect (pz_addr zone) (ze_wptr_inflight e)) (8 * share num j))
      as (ctx1 & Hpush & Hwf1 & Hna1 & Ha1 & Hn1 & Hold1); [done|cst; lia|].
    rewrite Hna in Ha1, Hn1.
    erewrite grp_get_loop_step by (eauto; lia).
    destruct (IH fuel (j + 1) (grp_set_tbl g (<[ei := advance_inflight num j e]> (grp_tbl g))) ctx1)
      as (tbl' & ctx' & Hrun & Hcw & Hcn & Hco & Hcz & Hcf); simpl;
      rewrite ?length_insert; auto; try lia.
    exists tbl', ctx'. rewrite Hrun. simpl in Hcz, Hcf.
    destruct (Hco j) as [Ea En]; [lia|].
    split_and!; auto.
    + intros i Hi. destruct (Hco i) as [-> ->]; [lia|]. apply Hold1. lia.
    + eapply alloc_ctx_cons; eauto; congruence.
    + eapply upd_slots_cons; eauto using slot_ei_zone; lia.
Qed.

(** The allocation of [num] commands at [start] returns, and records in the
    context one piece per zone, [min(num, 64)] of them. *)
Lemma ztl_pro_grp_get_ok g pro (n : nat) node ctx num start :
  grp_pro g = Some pro -> pg_vnodes pro !! n = Some node ->
  node_wf pro node (length (grp_tbl g)) -> ctx_wf ctx -> pa_naddr ctx = 0 ->
  0 <= num < 2 ^ 32 ->
  exists tbl' ctx',
    ztl_pro_grp_get g ctx num (Z.of_nat n) start = Some (grp_set_tbl g tbl', ctx', XZTL_OK) /\
    ctx_wf ctx' /\ pa_naddr ctx' = nzones_of num /\
    alloc_ctx pro node num start 0 (nzones_of num) (grp_tbl g) ctx' /\
    upd_slots pro node start 0 (nzones_of num) (advance_inflight num) (grp_tbl g) tbl'.
Proof.
  intros Hpro Hn Hwf Hctx Hna Hnum. unfold ztl_pro_grp_get.
  assert (Hfuel : (64 <= grp_get_fuel)%nat) by (unfold grp_get_fuel; lia).
  revert Hfuel. generalize grp_get_fuel as fuel. intros fuel Hfuel.
  destruct (grp_get_loop_spec pro node num start (Z.to_nat (nzones_of num)) fuel 0 g ctx)
    as (tbl' & ctx' & Hrun & Hcw & Hcn & _ & Hz & Hu); auto;
    try (unfold nzones_of in *; lia).
  exists tbl', ctx'. split_and!; auto.
  rewrite Hpro; simpl. rewrite aget_nat, Hn; simpl. cst.
  pose proof (Z.mod_pos_bound num 64 ltac:(lia)).
  rewrite share_sum_0, !Z.sub_0_r, Z.max_r, Z.add_0_r in Hrun by lia.
  by rewrite Hrun.
Qed.

(** * The stripe of a node

    The [c]-th command ever written to a node goes to its slot [c mod 64], at
    row [c / 64].  After [u] commands, slot [z] has received [stripe_count u z]
    of them. *)

Definition stripe_count (u z : Z) : Z := (u + 63 - z) / 64.

Lemma stripe_count_at u i :
  0 <= i < 64 -> stripe_count u ((u + i) mod 64) = (u + i) / 64.
Proof. unfold stripe_count. intros. zdiv. Qed.

Lemma stripe_count_add u num i :
  0 <= num -> 0 <= i < 64 ->
  stripe_count (u + num) ((u + i) mod 64) =
  stripe_count u ((u + i) mod 64) + (if i <? nzones_of num then share num i else 0).
Proof. unfold stripe_count, share, nzones_of. intros. repeat zcase; zdiv. Qed.

Lemma slot_of_stripe u z : 0 <= z < 64 -> z = (u + (z - u) mod 64) mod 64.
Proof. intros. zdiv. Qed.

(** Every slot's pointer [fld] stands where [u] commands leave it. *)
Definition striped (fld : app_zmd_entry -> Z) (pro : ztl_pro_node_grp) (node : ztl_pro_node)
    (tbl : list app_zmd_entry) (u : Z) : Prop :=
  forall z zone ei e, 0 <= z < 64 ->
    slot_zone pro node z = Some zone -> pz_zmd_entry zone = Some ei -> tbl !! ei = Some e ->
    fld e = maddr_sect (pz_addr zone) + 8 * stripe_count u z.

(** The zones of the node hold the sectors the node accounts for, at addresses
    that the 36-bit sector field represents. *)
Definition node_fits (pro : ztl_pro_node_grp) (node : ztl_pro_node) : Prop :=
  forall z zone, 0 <= z < 64 -> slot_zone pro node z = Some zone ->
    maddr_sect (pz_addr zone) + ZTL_PRO_SEC_NUM_INZONE < 2 ^ 36.

Lemma stripe_count_bound u z :
  0 <= u <= ZTL_PRO_OPT_SEC_NUM_INNODE -> 0 <= z < 64 ->
  0 <= 8 * stripe_count u z <= ZTL_PRO_SEC_NUM_INZONE.
Proof.
  change ZTL_PRO_SEC_NUM_INZONE with 24576. cst. unfold stripe_count. intros. zdiv.
Qed.

Lemma maddr_sect_range a : 0 <= maddr_sect a < 2 ^ 36.
Proof. apply bf_get_range. lia. Qed.

Lemma maddr_sect_set_sect a v : maddr_sect (maddr_set_sect a v) = wrap 36 v.
Proof. apply bf_get_set_eq; lia. Qed.

Lemma maddr_zone_set_sect a v : maddr_zone (maddr_set_sect a v) = maddr_zone a.
Proof. apply bf_get_set_ne; lia. Qed.

Lemma maddr_grp_set_sect a v : maddr_grp (maddr_set_sect a v) = maddr_grp a.
Proof. apply bf_get_set_ne; lia. Qed.

(** A pointer that an allocation or a release advances, slot by slot, keeps the
    stripe. *)
Lemma upd_slots_striped fld f pro node tbl tbl' u num :
  node_wf pro node (length tbl) -> node_fits pro node ->
  0 <= u -> 0 <= num -> u + num <= ZTL_PRO_OPT_SEC_NUM_INNODE ->
  (forall i e, fld (f i e) = u64 (fld e + 8 * share num i)) ->
  striped fld pro node tbl u ->
  upd_slots pro node u 0 (nzones_of num) f tbl tbl' ->
  striped fld pro node tbl' (u + num).
Proof.
  intros Hwf Hfit Hu Hn Hcap Hfld Hs (Hl & Hup & Hfr) z zone ei e Hz Hzone Hei He.
  pose proof (slot_of_stripe u z Hz) as Hzi. set (i := (z - u) mod 64) in *.
  assert (Hi : 0 <= i < 64) by (apply Z.mod_pos_bound; lia).
  assert (Hlt : (ei < length tbl)%nat) by (rewrite <- Hl; by eapply lookup_lt_Some).
  destruct (lookup_lt_is_Some_2 _ _ Hlt) as [e0 He0].
  pose proof (Hs z zone ei e0 Hz Hzone Hei He0) as Hs0.
  pose proof (Hfit z zone Hz Hzone) as Hfz. pose proof (maddr_sect_range (pz_addr zone)).
  pose proof (stripe_count_bound (u + num) z ltac:(lia) Hz).
  pose proof (stripe_count_add u num i Hn Hi) as Hadd. rewrite <- Hzi in Hadd.
  pose proof (slot_ei_zone _ _ _ _ _ Hzone Hei) as Hsl.
  destruct (Z.ltb_spec i (nzones_of num)) as [Hin|Hout].
  - rewrite (Hup i ei e0) in He by (rewrite <- ?Hzi; auto; lia).
    injection He as <-. rewrite Hfld, Hs0, Hadd, wrap_small; lia.
  - rewrite Hfr in He; [replace e with e0 in * by congruence; lia|].
    intros k Hk Hek. assert (k = i); [|lia].
    unfold nzones_of in *. apply (stripe_slot_inj u); [lia|lia|]. rewrite <- Hzi.
    eapply (nw_inj _ _ _ Hwf); eauto with ztl.
Qed.

(** A context that describes the pieces of an allocation of [num] commands at
    [start]: zone and group of every piece, and its number of sectors. *)
Definition ctx_for (pro : ztl_pro_node_grp) (node : ztl_pro_node) (num start : Z)
    (ctx : app_pro_addr) : Prop :=
  pa_naddr ctx = nzones_of num /\
  forall i zone, 0 <= i < nzones_of num -> slot_zone pro node ((start + i) mod 64) = Some zone ->
    exists a, (pa_addr ctx).[i] = Some a /\
      maddr_zone a = maddr_zone (pz_addr zone) /\ maddr_grp a = maddr_grp (pz_addr zone) /\
      (pa_nsec ctx).[i] = Some (8 * share num i).

Lemma alloc_ctx_for pro node num start tbl ctx :
  node_wf pro node (length tbl) -> pa_naddr ctx = nzones_of num ->
  alloc_ctx pro node num start 0 (nzones_of num) tbl ctx -> ctx_for pro node num start ctx.
Proof.
  intros Hwf Hn Hc. split; [done|]. intros i zone Hi Hz.
  destruct (nw_slot _ _ _ Hwf ((start + i) mod 64) (slot_range _ _)) as (zone' & ei & Hz' & Hp & Hl).
  assert (zone' = zone) as -> by congruence.
  destruct (lookup_lt_is_Some_2 _ _ Hl) as [e He].
  destruct (Hc i zone ei e) as [Ha Hs]; auto. eexists. split; [exact Ha|].
  rewrite maddr_zone_set_sect, maddr_grp_set_sect. auto.
Qed.

(** Zone [meta + zi] of the device is entry [zi] of [pro->vzones]. *)
Definition zones_indexed (meta : Z) (pro : ztl_pro_node_grp) : Prop :=
  0 <= meta /\ forall zi zone ei, pg_vzones pro !! zi = Some zone -> pz_zmd_entry zone = Some ei ->
    maddr_zone (pz_addr zone) = meta + Z.of_nat zi.

Definition advance_wptr (num i : Z) (e : app_zmd_entry) : app_zmd_entry :=
  ze_set_wptr e (u64 (ze_wptr e + 8 * share num i)).

Lemma grp_free_slot meta g pro node z zone ei e nsec :
  grp_pro g = Some pro -> zones_indexed meta pro ->
  slot_zone pro node z = Some zone -> pz_zmd_entry zone = Some ei -> grp_tbl g !! ei = Some e ->
  ztl_pro_grp_free meta g (maddr_zone (pz_addr zone)) nsec =
  Some (grp_set_tbl g (<[ei := ze_set_wptr e (u64 (ze_wptr e + nsec))]> (grp_tbl g))).
Proof.
  intros Hpro [Hm Hidx] Hz Hp He. unfold ztl_pro_grp_free. rewrite Hpro; simpl.
  unfold slot_zone in Hz. destruct (pn_vzones node).[z] as [[zi|]|]; simpl in Hz; try done.
  pose proof (bf_get_range 8 20 ltac:(lia) (pz_addr zone)) as Hr. fold (maddr_zone (pz_addr zone)) in Hr.
  rewrite (Hidx zi zone ei Hz Hp) in *.
  replace (meta + Z.of_nat zi - meta) with (Z.of_nat zi) by lia.
  rewrite wrap_small, aget_nat, Hz by lia; simpl. rewrite Hp; simpl. by rewrite He.
Qed.

Lemma pro_free_loop_spec meta pro node num start ctx (k : nat) : forall j g,
  grp_pro g = Some pro -> zones_indexed meta pro -> node_wf pro node (length (grp_tbl g)) ->
  ctx_for pro node num start ctx -> 0 <= j -> j + Z.of_nat k = nzones_of num ->
  exists tbl', pro_free_loop meta k j g ctx = Some (grp_set_tbl g tbl') /\
    upd_slots pro node start j (nzones_of num) (advance_wptr num) (grp_tbl g) tbl'.
Proof.
  induction k as [|k IH]; intros j g Hpro Hidx Hwf Hctx Hj Hk.
  - exists (grp_tbl g). assert (j = nzones_of num) as -> by lia.
    split; [by destruct g|apply upd_slots_nil].
  - destruct (nw_slot _ _ _ Hwf ((start + j) mod 64) (slot_range _ _)) as (zone & ei & Hz & Hp & Hl).
    destruct (lookup_lt_is_Some_2 _ _ Hl) as [e He].
    destruct (proj2 Hctx j zone) as (a & Ha & Hza & _ & Hs); [lia|done|].
    destruct (IH (j + 1) (grp_set_tbl g (<[ei := advance_wptr num j e]> (grp_tbl g))))
      as (tbl' & Hrun & Hu); simpl; rewrite ?length_insert; auto; try lia.
    exists tbl'. split.
    + simpl. rewrite Ha; simpl. rewrite Hs; simpl.
      rewrite Hza, (grp_free_slot meta g pro node _ zone ei e) by eauto; simpl. exact Hrun.
    + eapply upd_slots_cons; eauto using slot_ei_zone; unfold nzones_of in *; lia.
Qed.

Lemma ztl_pro_free_ok meta g pro node num start ctx :
  grp_pro g = Some pro -> zones_indexed meta pro -> node_wf pro node (length (grp_tbl g)) ->
  ctx_for pro node num start ctx -> 0 <= num ->
  exists tbl', ztl_pro_free meta g ctx = Some (app_grp_ctx_sub (grp_set_tbl g tbl')) /\
    upd_slots pro node start 0 (nzones_of num) (advance_wptr num) (grp_tbl g) tbl'.
Proof.
  intros Hpro Hidx Hwf Hctx Hnum.
  destruct (pro_free_loop_spec meta pro node num start ctx (Z.to_nat (nzones_of num)) 0 g)
    as (tbl' & Hrun & Hu); auto; try (unfold nzones_of in *; lia).
  exists tbl'. split; [|done]. unfold ztl_pro_free.
  rewrite (proj1 Hctx), Hrun. done.
Qed.

(** An update of the slots that leaves [fld] alone keeps its stripe. *)
Lemma upd_slots_striped_other fld f pro node start hi tbl tbl' u :
  (forall i e, fld (f i e) = fld e) ->
  striped fld pro node tbl u -> upd_slots pro node start 0 hi f tbl tbl' ->
  node_wf pro node (length tbl) -> hi <= 64 ->
  striped fld pro node tbl' u.
Proof.
  intros Hfld Hs (Hl & Hup & Hfr) Hwf Hhi z zone ei e Hz Hzone Hei He.
  assert (Hlt : (ei < length tbl)%nat) by (rewrite <- Hl; by eapply lookup_lt_Some).
  destruct (lookup_lt_is_Some_2 _ _ Hlt) as [e0 He0].
  pose proof (slot_of_stripe start z Hz) as Hzi. set (i := (z - start) mod 64) in *.
  pose proof (slot_ei_zone _ _ _ _ _ Hzone Hei) as Hsl.
  destruct (decide (0 <= i < hi)) as [Hi|Hi].
  - rewrite (Hup i ei e0) in He by (rewrite <- ?Hzi; auto). injection He as <-.
    rewrite Hfld. eauto.
  - rewrite Hfr in He; [eauto|]. intros k Hk Hek. apply Hi.
    assert (k = i) as <-; [|lia].
    assert (0 <= i < 64) by (apply Z.mod_pos_bound; lia).
    apply (stripe_slot_inj start); [lia|lia|]. rewrite <- Hzi.
    eapply (nw_inj _ _ _ Hwf); eauto with ztl.
Qed.

(** * The node queues *)

(** A node that a queue holds: it is stored at its own id and its counters
    account for its capacity. *)
Definition node_counts (pro : ztl_pro_node_grp) (n : nat) : Prop :=
  exists node, pg_vnodes pro !! n = Some node /\ pn_id node = Z.of_nat n /\
    0 <= pn_left node /\ 0 <= pn_used node /\
    pn_left node + pn_used node = ZTL_PRO_OPT_SEC_NUM_INNODE.

Definition node_fresh (pro : ztl_pro_node_grp) (n : nat) : Prop :=
  forall node, pg_vnodes pro !! n = Some node ->
    pn_status node = XZTL_ZMD_NODE_FREE /\ pn_used node = 0.

Definition node_exhausted (pro : ztl_pro_node_grp) (n : nat) : Prop :=
  forall node, pg_vnodes pro !! n = Some node -> pn_left node = 0.

Definition queues (pro : ztl_pro_node_grp) : list nat :=
  pg_free_head pro ++ pg_used_head pro ++ pg_full_head pro.

Record pro_ok (pro : ztl_pro_node_grp) : Prop := {
  po_nodup : NoDup (queues pro);
  po_counts : forall n, n ∈ queues pro -> node_counts pro n;
  po_nfree : pg_nfree pro = Z.of_nat (length (pg_free_head pro)) /\ pg_nfree pro < 2 ^ 32;
  po_free : forall n, n ∈ pg_free_head pro -> node_fresh pro n;
  po_full : forall n, n ∈ pg_full_head pro -> node_exhausted pro n
}.

(** The node a writer holds is on the used queue. *)
Definition holds (pro : ztl_pro_node_grp) (qnode : option nat) : Prop :=
  forall n, qnode = Some n -> n ∈ pg_used_head pro.

(** A node up to its status and level. *)
Definition node_core (node : ztl_pro_node) : ztl_pro_node := pn_set_level (pn_set_status node 0) 0.

(** The two groups have the same zones and, up to status and level, the same nodes. *)
Definition same_nodes (pro pro' : ztl_pro_node_grp) : Prop :=
  pg_vzones pro' = pg_vzones pro /\
  forall m, node_core <$> pg_vnodes pro' !! m = node_core <$> pg_vnodes pro !! m.

Lemma get_node_retire_ok pro qnode :
  pro_ok pro -> holds pro qnode -> (forall n, qnode = Some n -> node_exhausted pro n) ->
  exists pro', get_node_retire pro qnode = Some pro' /\ pro_ok pro' /\
    queues pro' ≡ₚ queues pro /\ pg_vnodes pro' = pg_vnodes pro /\
    pg_free_head pro' = pg_free_head pro /\ pg_vzones pro' = pg_vzones pro.
Proof.
  intros [Hnd Hc Hnf Hfr Hfu] Hh Hex. destruct qnode as [n|]; simpl.
  2:{ exists pro. split_and!; auto. by constructor. }
  specialize (Hh n eq_refl). specialize (Hex n eq_refl).
  destruct (Hc n) as (node & Hnode & Hid & _); [unfold queues; set_solver|].
  rewrite Hnode; simpl. rewrite Hid, Nat2Z.id.
  unfold tailq_remove. rewrite decide_True by done. simpl.
  set (pro' := pg_set_full_head _ _).
  assert (Hq : queues pro' ≡ₚ queues pro).
  { unfold queues, pro', tailq_insert_tail; simpl. apply Permutation_app_head.
    rewrite (remove_first_perm (pg_used_head pro) n) at 2 by done.
    by rewrite (app_assoc _ _ [n]), (Permutation_app_comm _ [n]). }
  exists pro'. split_and!; auto. constructor; simpl; auto.
  - by rewrite Hq.
  - intros m Hm. rewrite Hq in Hm. apply Hc, Hm.
  - intros m [Hm| ->%list_elem_of_singleton]%elem_of_app; [by apply Hfu|exact Hex].
Qed.

Lemma get_node_take_ok pro :
  pro_ok pro ->
  exists qnode' pro' ret, get_node_take pro = Some (qnode', pro', ret) /\ pro_ok pro' /\
    queues pro' ≡ₚ queues pro /\ holds pro' qnode' /\ same_nodes pro pro' /\
    match pg_free_head pro with
    | [] => ret = XZTL_ZTL_PROV_ERR /\ qnode' = None /\ pro' = pro
    | n :: rest => ret = XZTL_OK /\ qnode' = Some n /\ pg_free_head pro' = rest /\
        exists node, pg_vnodes pro !! n = Some node /\
          pg_vnodes pro' = <[n := pn_set_status node XZTL_ZMD_NODE_USED]> (pg_vnodes pro)
    end.
Proof.
  intros Hok. unfold get_node_take. destruct (pg_free_head pro) as [|n rest] eqn:Ef.
  { exists None, pro, XZTL_ZTL_PROV_ERR. split_and!; auto; [intros ? [=]|done]. }
  destruct Hok as [Hnd Hc Hnf Hfr Hfu].
  destruct (Hc n) as (node & Hnode & Hrest); [unfold queues; rewrite Ef; set_solver|].
  unfold tailq_remove. rewrite decide_True by set_solver.
  rewrite remove_first_head; simpl. rewrite Hnode; simpl.
  set (pro' := pg_set_nfree _ _).
  assert (Hq : queues pro' ≡ₚ queues pro).
  { unfold queues, pro', tailq_insert_tail; simpl. rewrite Ef. simpl.
    rewrite <- (app_assoc _ [n]). simpl.
    by rewrite <- (Permutation_middle (pg_used_head pro)), <- (Permutation_middle rest). }
  assert (Hin : n ∈ pg_used_head pro') by (unfold pro', tailq_insert_tail; simpl; set_solver).
  exists (Some n), pro', XZTL_OK. split_and!; auto.
  2:{ intros m [= <-]. done. }
  2:{ split; [done|]. intros m. unfold pro'; simpl. destruct (decide (m = n)) as [->|].
      - rewrite list_lookup_insert_eq, Hnode by (by eapply lookup_lt_Some). done.
      - by rewrite list_lookup_insert_ne. }
  2:{ exists node. split; done. }
  assert (Hout : forall m, m ∈ rest ++ pg_full_head pro -> m <> n).
  { intros m Hm ->. rewrite <- Hq in Hnd. revert Hnd. unfold queues, pro', tailq_insert_tail.
    simpl. rewrite <- !app_assoc, !NoDup_app. set_solver. }
  assert (Hlk : forall m, m <> n -> pg_vnodes pro' !! m = pg_vnodes pro !! m).
  { intros m Hm. unfold pro'; simpl. by rewrite list_lookup_insert_ne. }
  constructor.
  - by rewrite Hq.
  - intros m Hm. rewrite Hq in Hm. destruct (decide (m = n)) as [->|Hne].
    + exists (pn_set_status node XZTL_ZMD_NODE_USED). unfold pro'; simpl.
      split; [apply list_lookup_insert_eq; by eapply lookup_lt_Some|done].
    + destruct (Hc m Hm) as (nd & Hnd' & ?). exists nd. by rewrite Hlk.
  - unfold pro'; simpl. rewrite Ef in Hnf. simpl in Hnf. rewrite wrap_small; lia.
  - intros m Hm. unfold node_fresh. unfold pro' in Hm; simpl in Hm.
    rewrite Hlk by (apply Hout; set_solver). apply Hfr. rewrite Ef. set_solver.
  - intros m Hm. unfold node_exhausted. unfold pro' in Hm; simpl in Hm.
    rewrite Hlk by (apply Hout; set_solver). by apply Hfu.
Qed.

(** What the choice of a node promises: success with a node that has room, the
    one held before or an unwritten one off the free queue, or failure when the
    free queue is empty; in both cases no node is lost or duplicated. *)
Definition get_node_post (qnode : option nat) (pro : ztl_pro_node_grp)
    (qnode' : option nat) (pro' : ztl_pro_node_grp) (ret : Z) : Prop :=
  pro_ok pro' /\ queues pro' ≡ₚ queues pro /\ holds pro' qnode' /\ same_nodes pro pro' /\
  (ret = XZTL_OK /\ (exists n node, qnode' = Some n /\ pg_vnodes pro' !! n = Some node /\
      0 < pn_left node /\
      (qnode' = qnode /\ pro' = pro \/
       n ∈ pg_free_head pro /\ pg_free_head pro = n :: pg_free_head pro' /\ pn_used node = 0)) \/
   ret = XZTL_ZTL_PROV_ERR /\ qnode' = None /\ pg_free_head pro = [] /\ pg_free_head pro' = [] /\
     (forall n, qnode = Some n -> node_exhausted pro n)).

Lemma get_node_fresh_ok pro qnode :
  pro_ok pro -> holds pro qnode -> (forall n, qnode = Some n -> node_exhausted pro n) ->
  exists qnode' pro' ret,
    (pro1 ← get_node_retire pro qnode; get_node_take pro1) = Some (qnode', pro', ret) /\
    get_node_post qnode pro qnode' pro' ret.
Proof.
  intros Hok Hh Hex.
  destruct (get_node_retire_ok pro qnode) as (pro1 & -> & Hok1 & Hq1 & Hv1 & Hf1 & Hz1); auto.
  simpl. destruct (get_node_take_ok pro1 Hok1) as (qn & pro' & ret & -> & Hok' & Hq' & Hh' & [Hvz Hvn] & Hm).
  exists qn, pro', ret. unfold get_node_post. split_and!; auto; [by rewrite Hq'| |].
  { split; [congruence|]. by rewrite <- Hv1. }
  rewrite Hf1 in Hm. destruct (pg_free_head pro) as [|n rest] eqn:Ef;
    [right; destruct Hm as (-> & -> & ->); rewrite Hf1; by split_and!|left].
  destruct Hm as (-> & -> & Hrest & node & Hn & Hv). split; [done|].
  exists n, (pn_set_status node XZTL_ZMD_NODE_USED). rewrite Hv.
  destruct (po_counts _ Hok n) as (nd & Hnd & _ & _ & _ & Hcap);
    [unfold queues; rewrite Ef; set_solver|].
  rewrite Hv1 in *. assert (nd = node) as -> by congruence.
  destruct (po_free _ Hok n) with (node := node) as [_ Hu]; [rewrite Ef; set_solver|done|].
  cst. split_and!; auto; [|simpl; lia|right; split_and!; [set_solver|congruence|done]].
  apply list_lookup_insert_eq. by eapply lookup_lt_Some.
Qed.

Lemma ztl_pro_grp_get_node_ok pro qnode :
  pro_ok pro -> holds pro qnode ->
  exists qnode' pro' ret, ztl_pro_grp_get_node qnode pro = Some (qnode', pro', ret) /\
    get_node_post qnode pro qnode' pro' ret.
Proof.
  intros Hok Hh. unfold ztl_pro_grp_get_node.
  destruct qnode as [n|]; [|apply get_node_fresh_ok; auto; intros ? [=]].
  destruct (po_counts _ Hok n) as (node & Hnode & _ & Hl & _);
    [unfold queues; specialize (Hh n eq_refl); set_solver|].
  rewrite Hnode; simpl. destruct (Z.eqb_spec (pn_left node) 0) as [H0|H0].
  - apply (get_node_fresh_ok pro (Some n)); auto. intros m [= <-] nd Hnd. congruence.
  - exists (Some n), pro, XZTL_OK. split; [done|]. split_and!; auto; [done|]. left. split; [done|].
    exists n, node. split_and!; auto. lia.
Qed.

(** * Allocation and release of a piece of a node *)

(** A node as the writers keep it: on consistent zones, with both pointers of
    every zone at the stripe of the commands written so far. *)
Record writable (meta : Z) (g : app_group) (pro : ztl_pro_node_grp) (n : nat)
    (node : ztl_pro_node) : Prop := {
  wr_pro : grp_pro g = Some pro;
  wr_node : pg_vnodes pro !! n = Some node;
  wr_id : pn_id node = Z.of_nat n;
  wr_wf : node_wf pro node (length (grp_tbl g));
  wr_fits : node_fits pro node;
  wr_idx : zones_indexed meta pro;
  wr_left : 0 <= pn_left node;
  wr_used : 0 <= pn_used node;
  wr_cap : pn_left node + pn_used node = ZTL_PRO_OPT_SEC_NUM_INNODE;
  wr_inflight : striped ze_wptr_inflight pro node (grp_tbl g) (pn_used node);
  wr_wptr : striped ze_wptr pro node (grp_tbl g) (pn_used node)
}.

(** The pieces an allocation of [num] commands at command [u] of the node
    records: one per zone, in stripe order, [8 * num] sectors in all. *)
Record stripe_ctx (pro : ztl_pro_node_grp) (node : ztl_pro_node) (num u : Z)
    (ctx : app_pro_addr) : Prop := {
  sc_wf : ctx_wf ctx;
  sc_naddr : pa_naddr ctx = nzones_of num;
  sc_total : zsum (take (Z.to_nat (nzones_of num)) (pa_nsec ctx)) = 8 * num;
  sc_addr : forall i zone, 0 <= i < nzones_of num ->
    slot_zone pro node ((u + i) mod 64) = Some zone ->
    (pa_addr ctx).[i] =
      Some (maddr_set_sect (pz_addr zone) (maddr_sect (pz_addr zone) + 8 * ((u + i) / 64)));
  sc_nsec : forall i, 0 <= i < nzones_of num -> (pa_nsec ctx).[i] = Some (8 * share num i)
}.

Lemma zsum_take_share num l (k : nat) :
  0 <= num -> (forall i, 0 <= i < Z.of_nat k -> l.[i] = Some (8 * share num i)) ->
  zsum (take k l) = 8 * share_sum num (Z.of_nat k).
Proof.
  intros Hn. induction k as [|k IH]; intros Hl.
  { by rewrite take_0, share_sum_0. }
  pose proof (Hl (Z.of_nat k) ltac:(lia)) as Hk. rewrite aget_nat in Hk.
  rewrite (take_S_r _ _ _ Hk), zsum_app, IH by (intros; apply Hl; lia).
  rewrite Nat2Z.inj_succ. unfold Z.succ. rewrite share_sum_succ by lia. simpl. lia.
Qed.

Lemma alloc_stripe_ctx pro node num u tbl ctx :
  node_wf pro node (length tbl) -> striped ze_wptr_inflight pro node tbl u ->
  0 <= num -> ctx_wf ctx -> pa_naddr ctx = nzones_of num ->
  alloc_ctx pro node num u 0 (nzones_of num) tbl ctx -> stripe_ctx pro node num u ctx.
Proof.
  intros Hwf Hs Hn Hcw Hna Hc.
  assert (H64 : nzones_of num <= 64) by (unfold nzones_of; lia).
  assert (Hat : forall i, 0 <= i < nzones_of num -> exists zone,
    slot_zone pro node ((u + i) mod 64) = Some zone /\
    (pa_addr ctx).[i] =
      Some (maddr_set_sect (pz_addr zone) (maddr_sect (pz_addr zone) + 8 * ((u + i) / 64))) /\
    (pa_nsec ctx).[i] = Some (8 * share num i)).
  { intros i Hi.
    destruct (nw_slot _ _ _ Hwf ((u + i) mod 64) (slot_range _ _)) as (zone & ei & Hz & Hp & Hl).
    destruct (lookup_lt_is_Some_2 _ _ Hl) as [e He].
    destruct (Hc i zone ei e) as [Ha Hsec]; auto. exists zone. split_and!; auto.
    rewrite Ha, (Hs _ zone ei e (slot_range u i)), stripe_count_at by (auto; lia). done. }
  constructor; auto.
  - rewrite (zsum_take_share num), Z2Nat.id, share_sum_full; auto.
    + unfold nzones_of. lia.
    + intros i Hi. destruct (Hat i) as (? & ? & ? & ?); [lia|done].
  - intros i zone Hi Hz. destruct (Hat i Hi) as (zone' & Hz' & -> & _). congruence.
  - intros i Hi. by destruct (Hat i Hi) as (zone' & Hz' & _ & ?).
Qed.

Lemma stripe_ctx_for pro node num u ctx :
  stripe_ctx pro node num u ctx -> ctx_for pro node num u ctx.
Proof.
  intros [_ Hna _ Ha Hs]. split; [done|]. intros i zone Hi Hz. eexists.
  split; [by eapply Ha|]. rewrite maddr_zone_set_sect, maddr_grp_set_sect. auto.
Qed.

(** The entries of zones outside the node are the same in the two tables. *)
Definition tbl_frame (pro : ztl_pro_node_grp) (node : ztl_pro_node)
    (tbl tbl' : list app_zmd_entry) : Prop :=
  length tbl' = length tbl /\
  forall ei, (forall z, 0 <= z < 64 -> slot_ei pro node z <> Some ei) -> tbl' !! ei = tbl !! ei.

Lemma upd_slots_frame pro node start hi f tbl tbl' :
  upd_slots pro node start 0 hi f tbl tbl' -> tbl_frame pro node tbl tbl'.
Proof.
  intros (Hl & _ & Hf). split; [done|]. intros ei Hei. apply Hf. intros i _. apply Hei, slot_range.
Qed.

(** [ztl_pro_new] on a writable node: the pieces, and the group it leaves. *)
Lemma ztl_pro_new_ok meta g pro n node ctx num :
  writable meta g pro n node -> ctx_wf ctx -> 0 <= num <= pn_left node ->
  exists tbl' ctx',
    ztl_pro_new g num (Z.of_nat n) ctx (pn_used node) =
      Some (app_grp_ctx_add (grp_set_tbl g tbl'), ctx', XZTL_OK) /\
    stripe_ctx pro node num (pn_used node) ctx' /\
    tbl_frame pro node (grp_tbl g) tbl' /\
    striped ze_wptr_inflight pro node tbl' (pn_used node + num) /\
    striped ze_wptr pro node tbl' (pn_used node).
Proof.
  intros [Hpro Hn Hid Hwf Hfit Hidx Hl Hu Hcap Hi Hw] Hctx Hnum.
  assert (num < 2 ^ 32) by (cst; lia).
  destruct (ztl_pro_grp_get_ok g pro n node
    {| pa_addr := pa_addr ctx; pa_nsec := pa_nsec ctx; pa_naddr := 0 |} num (pn_used node))
    as (tbl' & ctx' & Hrun & Hcw & Hna & Hal & Hup); auto; [lia|].
  exists tbl', ctx'. unfold ztl_pro_new. rewrite Hrun. split; [done|].
  assert (H64 : nzones_of num <= 64) by (unfold nzones_of; lia).
  split_and!.
  - eapply alloc_stripe_ctx; eauto. lia.
  - by eapply upd_slots_frame.
  - eapply (upd_slots_striped ze_wptr_inflight (advance_inflight num)); eauto; try lia.
  - eapply (upd_slots_striped_other ze_wptr (advance_inflight num)); eauto.
Qed.

(** Its release: the write pointers catch up with the allocation. *)
Lemma ztl_pro_free_writable meta g pro n node ctx num :
  grp_pro g = Some pro -> pg_vnodes pro !! n = Some node ->
  node_wf pro node (length (grp_tbl g)) -> node_fits pro node -> zones_indexed meta pro ->
  0 <= pn_used node -> 0 <= num -> pn_used node + num <= ZTL_PRO_OPT_SEC_NUM_INNODE ->
  striped ze_wptr_inflight pro node (grp_tbl g) (pn_used node + num) ->
  striped ze_wptr pro node (grp_tbl g) (pn_used node) ->
  ctx_for pro node num (pn_used node) ctx ->
  exists tbl', ztl_pro_free meta g ctx = Some (app_grp_ctx_sub (grp_set_tbl g tbl')) /\
    tbl_frame pro node (grp_tbl g) tbl' /\
    striped ze_wptr_inflight pro node tbl' (pn_used node + num) /\
    striped ze_wptr pro node tbl' (pn_used node + num).
Proof.
  intros Hpro Hn Hwf Hfit Hidx Hu Hnum Hcap Hi Hw Hc.
  destruct (ztl_pro_free_ok meta g pro node num (pn_used node) ctx) as (tbl' & Hrun & Hup); auto.
  exists tbl'. split; [done|]. split_and!; [by eapply upd_slots_frame| |].
  - eapply (upd_slots_striped_other ze_wptr_inflight (advance_wptr num)); eauto.
    unfold nzones_of. lia.
  - eapply (upd_slots_striped ze_wptr (advance_wptr num)); eauto.
Qed.

Lemma app_grp_ctx_add_sub g : 0 <= grp_busy g < 2 ^ 8 ->
  grp_busy (app_grp_ctx_sub (app_grp_ctx_add g)) = grp_busy g.
Proof.
  intros H. unfold app_grp_ctx_add, app_grp_ctx_sub. simpl. unfold Z.sub.
  rewrite wrap_add_l, <- Z.add_assoc, Z.add_opp_diag_r, Z.add_0_r. by apply wrap_small.
Qed.

(** ** What a node's assumptions depend on *)

Section Transfer.

Context (pro pro' : ztl_pro_node_grp) (node node' : ztl_pro_node).
Context (Hvz : pg_vzones pro' = pg_vzones pro) (Hsl : pn_vzones node' = pn_vzones node).

Lemma slot_zone_transfer z : slot_zone pro' node' z = slot_zone pro node z.
Proof using Hvz Hsl. unfold slot_zone. by rewrite Hvz, Hsl. Qed.

Lemma slot_ei_transfer z : slot_ei pro' node' z = slot_ei pro node z.
Proof using Hvz Hsl. unfold slot_ei. by rewrite slot_zone_transfer. Qed.

Lemma node_wf_transfer len : node_wf pro node len -> node_wf pro' node' len.
Proof using Hvz Hsl.
  intros [H1 H2]. constructor.
  - intros z. rewrite slot_zone_transfer. apply H1.
  - intros z z' ei. rewrite !slot_ei_transfer. apply H2.
Qed.

Lemma node_fits_transfer : node_fits pro node -> node_fits pro' node'.
Proof using Hvz Hsl. intros H z zone. rewrite slot_zone_transfer. apply H. Qed.

Lemma striped_transfer fld tbl u : striped fld pro node tbl u -> striped fld pro' node' tbl u.
Proof using Hvz Hsl. intros H z zone ei e. rewrite slot_zone_transfer. apply H. Qed.

Lemma zones_indexed_transfer meta : zones_indexed meta pro -> zones_indexed meta pro'.
Proof using Hvz. unfold zones_indexed. by rewrite Hvz. Qed.

End Transfer.

Lemma node_core_eq node node' :
  node_core node' = node_core node ->
  pn_id node' = pn_id node /\ pn_vzones node' = pn_vzones node /\ pn_left node' = pn_left node /\
  pn_used node' = pn_used node.
Proof. unfold node_core. intros [=]. auto. Qed.

(** A writable node stays so in a group with the same table and zones, whatever
    its status and level become. *)
Lemma writable_core meta g pro n node g' pro' node' :
  writable meta g pro n node -> grp_pro g' = Some pro' -> grp_tbl g' = grp_tbl g ->
  pg_vzones pro' = pg_vzones pro -> pg_vnodes pro' !! n = Some node' ->
  node_core node' = node_core node -> writable meta g' pro' n node'.
Proof.
  intros [] Hpro Htbl Hvz Hn (Hid & Hsl & Hl & Hu)%node_core_eq.
  constructor; rewrite ?Htbl, ?Hid, ?Hl, ?Hu; auto.
  - by eapply node_wf_transfer.
  - by eapply node_fits_transfer.
  - by eapply zones_indexed_transfer.
  - by eapply striped_transfer.
  - by eapply striped_transfer.
Qed.

(** The zones of another node: an update of the zones of [node] is not seen. *)
Lemma striped_frame fld pro node node' tbl tbl' u :
  tbl_frame pro node tbl tbl' ->
  (forall z z' ei, 0 <= z < 64 -> 0 <= z' < 64 ->
     slot_ei pro node z = Some ei -> slot_ei pro node' z' <> Some ei) ->
  striped fld pro node' tbl u -> striped fld pro node' tbl' u.
Proof.
  intros [_ Hf] Hd Hs z zone ei e Hz Hzone Hei He. apply (Hs z zone ei e Hz Hzone Hei).
  rewrite <- Hf; [done|]. intros z0 Hz0 He0. eapply (Hd z0 z); eauto using slot_ei_zone.
Qed.

(** * The simulated group satisfies the assumptions *)

Lemma sim_slot nodes n z :
  (n < nodes)%nat -> 0 <= z < 64 ->
  slot_zone (sim_pro nodes) (sim_node n) z = Some (sim_pro_zone (64 * n + Z.to_nat z)).
Proof.
  intros Hn Hz. unfold slot_zone, aget. rewrite decide_True by lia.
  unfold sim_node at 1, sim_pro at 1. cbn [pn_vzones pg_vzones].
  rewrite list_lookup_fmap, lookup_seq_lt by lia. simpl.
  rewrite list_lookup_fmap, lookup_seq_lt by lia. done.
Qed.

Lemma sim_zone_zone (i : nat) : Z.of_nat i < 2 ^ 20 ->
  maddr_zone (ze_addr (sim_zone i)) = Z.of_nat i.
Proof.
  intros Hi. unfold sim_zone; simpl. rewrite maddr_zone_set_sect.
  unfold maddr_zone, maddr_set_zone. rewrite bf_get_set_eq by lia. apply wrap_small. lia.
Qed.

Lemma sim_zone_sect (i : nat) : Z.of_nat i < 2 ^ 20 ->
  maddr_sect (ze_addr (sim_zone i)) = Z.of_nat i * sd_zone_size.
Proof.
  intros Hi. unfold sim_zone; simpl. rewrite maddr_sect_set_sect. unfold sd_zone_size.
  apply wrap_small. lia.
Qed.

Lemma sim_pro_zone_addr i : pz_addr (sim_pro_zone i) = ze_addr (sim_zone (i + 2)).
Proof. reflexivity. Qed.

Lemma sim_writable nodes n :
  (n < nodes)%nat -> Z.of_nat (64 * nodes + 2) < 2 ^ 20 ->
  writable 2 (sim_group nodes) (sim_pro nodes) n (sim_node n).
Proof.
  intros Hn Hmax.
  assert (Hst : forall fld, (forall i, fld (sim_zone i) = Z.of_nat i * sd_zone_size) ->
    striped fld (sim_pro nodes) (sim_node n) (grp_tbl (sim_group nodes)) 0).
  { intros fld Hfld z zone ei e Hz Hzone Hei He. rewrite sim_slot in Hzone by done.
    injection Hzone as <-. simpl in Hei. injection Hei as <-. cbn [grp_tbl sim_group] in He.
    rewrite list_lookup_fmap, lookup_seq_lt in He by lia. injection He as <-.
    rewrite Hfld. rewrite sim_pro_zone_addr, sim_zone_sect by lia.
    unfold stripe_count. zdiv. }
  constructor; simpl; auto; try (cst; lia).
  - rewrite list_lookup_fmap, lookup_seq_lt by lia. done.
  - constructor.
    + intros z Hz. rewrite sim_slot by done. eexists _, _. split_and!; try done.
      rewrite length_fmap, length_seq. lia.
    + intros z z' ei Hz Hz'. unfold slot_ei. rewrite !sim_slot by done. simpl.
      intros [= <-] [= Heq]. lia.
  - intros z zone Hz Hzone. rewrite sim_slot in Hzone by done. injection Hzone as <-.
    rewrite sim_pro_zone_addr, sim_zone_sect by lia.
    change ZTL_PRO_SEC_NUM_INZONE with 24576. unfold sd_zone_size.
    lia.
  - split; [lia|]. intros zi zone ei. simpl. rewrite list_lookup_fmap_Some.
    intros (i & -> & [Hi Hlt]%lookup_seq) _. simpl in Hi. subst i.
    rewrite sim_pro_zone_addr, sim_zone_zone by lia. lia.
Qed.

Lemma sim_prov_wf : ctx_wf sim_prov.
Proof. split; reflexivity. Qed.

Lemma sim_pro_ok nodes : Z.of_nat nodes < 2 ^ 32 -> pro_ok (sim_pro nodes).
Proof.
  intros Hn.
  assert (Hq : queues (sim_pro nodes) = seq 0 nodes) by (unfold queues; simpl; apply app_nil_r).
  constructor.
  - rewrite Hq. apply NoDup_seq.
  - intros n. rewrite Hq, elem_of_seq. intros Hlt. exists (sim_node n). simpl.
    rewrite list_lookup_fmap, lookup_seq_lt by lia. split_and!; auto; cst; lia.
  - simpl. rewrite length_seq. lia.
  - intros n [_ Hlt]%elem_of_seq node. simpl. rewrite list_lookup_fmap, lookup_seq_lt by lia.
    by intros [= <-].
  - intros n []%not_elem_of_nil.
Qed.

(** * Properties *)

(** C4. Striped allocation.  On a node with [used] commands written, an
    allocation of [num] commands that fits succeeds with [min(num, 64)] pieces
    of [8 * num] sectors in all; piece [i] lies in the zone of slot
    [(used + i) mod 64] at row [(used + i) / 64] of the stripe, so that command
    [c] of a node always lands at slot [c mod 64], row [c / 64].  The reserved
    pointers of all the zones advance to the stripe of [used + num], the
    written pointers stay, and the group counts one more context. *)
Theorem ztl_pro_new_stripes meta g pro n node ctx num :
  writable meta g pro n node -> ctx_wf ctx -> 0 <= num <= pn_left node ->
  exists g' ctx',
    ztl_pro_new g num (Z.of_nat n) ctx (pn_used node) = Some (g', ctx', XZTL_OK) /\
    pa_naddr ctx' = Z.min num 64 /\
    zsum (take (Z.to_nat (Z.min num 64)) (pa_nsec ctx')) = 8 * num /\
    (forall i zone, 0 <= i < Z.min num 64 ->
       slot_zone pro node ((pn_used node + i) mod 64) = Some zone ->
       (pa_addr ctx').[i] = Some (maddr_set_sect (pz_addr zone)
          (maddr_sect (pz_addr zone) + 8 * ((pn_used node + i) / 64)))) /\
    striped ze_wptr_inflight pro node (grp_tbl g') (pn_used node + num) /\
    striped ze_wptr pro node (grp_tbl g') (pn_used node) /\
    grp_busy g' = u8 (grp_busy g + 1) /\ grp_pro g' = Some pro.
Proof.
  intros Hw Hctx Hnum.
  destruct (ztl_pro_new_ok meta g pro n node ctx num) as (tbl' & ctx' & Hrun & [] & _ & ? & ?); auto.
  eexists _, ctx'. split_and!; eauto. by destruct Hw.
Qed.

Lemma ztl_pro_new_stripes_witness :
  exists g' ctx', ztl_pro_new (sim_group 1) 67 0 sim_prov 0 = Some (g', ctx', XZTL_OK) /\
    pa_naddr ctx' = 64.
Proof.
  destruct (ztl_pro_new_stripes 2 (sim_group 1) (sim_pro 1) 0 (sim_node 0) sim_prov 67)
    as (g' & ctx' & Hrun & Hna & _).
  - apply sim_writable; [lia|reflexivity].
  - exact sim_prov_wf.
  - vm_compute. split; discriminate.
  - exists g', ctx'. split; [exact Hrun|exact Hna].
Defined.

(** C5. Allocation and release.  Releasing an allocation advances the written
    pointers of its zones by exactly the sectors that were reserved: both
    pointers of every zone stand at the stripe of [used + num], the group is
    as busy as before, and its nodes and queues are untouched. *)
Theorem ztl_pro_new_free meta g pro n node ctx num :
  writable meta g pro n node -> ctx_wf ctx -> 0 <= num <= pn_left node -> 0 <= grp_busy g < 2 ^ 8 ->
  exists g1 ctx1 g2,
    ztl_pro_new g num (Z.of_nat n) ctx (pn_used node) = Some (g1, ctx1, XZTL_OK) /\
    ztl_pro_free meta g1 ctx1 = Some g2 /\
    striped ze_wptr_inflight pro node (grp_tbl g2) (pn_used node + num) /\
    striped ze_wptr pro node (grp_tbl g2) (pn_used node + num) /\
    grp_busy g2 = grp_busy g /\ grp_pro g2 = Some pro.
Proof.
  intros Hw Hctx Hnum Hb.
  destruct (ztl_pro_new_ok meta g pro n node ctx num)
    as (tbl1 & ctx1 & Hrun & Hsc & [Hl1 _] & Hi1 & Hw1); auto.
  destruct Hw as [Hpro Hn Hid Hwf Hfit Hidx Hl Hu Hcap Hi Hwp].
  destruct (ztl_pro_free_writable meta (app_grp_ctx_add (grp_set_tbl g tbl1)) pro n node ctx1 num)
    as (tbl2 & Hfree & _ & Hi2 & Hw2); simpl; auto; try lia; [by rewrite Hl1| |].
  { by apply stripe_ctx_for. }
  eexists _, ctx1, _. split_and!; eauto. by apply (app_grp_ctx_add_sub g).
Qed.

Lemma ztl_pro_new_free_witness :
  exists g1 ctx1 g2, ztl_pro_new (sim_group 1) 67 0 sim_prov 0 = Some (g1, ctx1, XZTL_OK) /\
    ztl_pro_free 2 g1 ctx1 = Some g2 /\ grp_busy g2 = 0.
Proof.
  destruct (ztl_pro_new_free 2 (sim_group 1) (sim_pro 1) 0 (sim_node 0) sim_prov 67)
    as (g1 & ctx1 & g2 & Hrun & Hfree & _ & _ & Hb & _).
  - apply sim_writable; [lia|reflexivity].
  - exact sim_prov_wf.
  - vm_compute. split; discriminate.
  - vm_compute. split; [discriminate|reflexivity].
  - exists g1, ctx1, g2. split; [exact Hrun|]. split; [exact Hfree|exact Hb].
Defined.


