(* ===== verification/Media.v ===== *)
(** The media layer: commands ([struct xztl_io_mcmd], [struct xztl_io_ucmd]),
    the interface to the device library, and the submission and completion
    paths of src/xztl/src/ztl-media.c.

    The device library is not part of the repository: it is a parameter, the
    class [Xnvme].  A state [D] stands for the device with its queue. *)

From S2P Require Import Prelude Types Stats.

(** * Host memory *)

Definition memory := Z -> Z.

(** [memcpy(dst, src, n)] *)
Definition memcpy (m : memory) (dst src n : Z) : memory :=
  fun a => if (dst <=? a) && (a <? dst + n) then m (src + (a - dst)) else m a.

(** * Commands *)

(** Opcodes of [enum xztl_media_opcodes]. *)
Definition XZTL_CMD_WRITE : Z := 1.
Definition XZTL_CMD_READ : Z := 2.
Definition XZTL_ZONE_APPEND : Z := 125.

(** Errors of [enum znd_media_error]. *)
Definition ZND_INVALID_OPCODE : Z := 3.
Definition ZND_MEDIA_REPORT_ERR : Z := 4.

(** The two completion callbacks a command can carry. *)
Inductive mcmd_callback := CB_WRITE | CB_READ.

(** [struct xztl_io_mcmd]; the one-element vectors [nsec], [addr], [prp] and
    [paddr] are their element 0. *)
Record xztl_io_mcmd := {
  mc_opcode : Z; mc_submitted : Z; mc_synch : Z; mc_callback_err_cnt : Z;
  mc_sequence : Z; mc_sequence_zn : Z; mc_buf_off : Z; mc_cpsize : Z;
  mc_naddr : Z; mc_status : Z; mc_nsec : Z; mc_addr : Z; mc_prp : Z; mc_paddr : Z;
  mc_callback : option mcmd_callback; mc_media_ctx : option nat
}.

(** [struct xztl_io_ucmd]; [uc_mcmd] holds pointers into the command pool of the
    context that serves the request. *)
Record xztl_io_ucmd := {
  uc_id : Z; uc_buf : Z; uc_size : Z; uc_offset : Z; uc_prov_type : Z; uc_app_md : Z;
  uc_status : Z; uc_mcmd : list (option nat);
  uc_node_id : list Z; uc_start : list Z; uc_num : list Z; uc_pieces : Z;
  uc_nmcmd : Z; uc_moffset : list Z; uc_msec : list Z; uc_ncb : Z; uc_completed : Z;
  uc_minflight : list Z
}.

Definition mc_set_submitted (r : xztl_io_mcmd) v : xztl_io_mcmd :=
    {| mc_opcode := mc_opcode r; mc_submitted := v; mc_synch := mc_synch r;
     mc_callback_err_cnt := mc_callback_err_cnt r; mc_sequence := mc_sequence r;
     mc_sequence_zn := mc_sequence_zn r; mc_buf_off := mc_buf_off r; mc_cpsize := mc_cpsize r;
     mc_naddr := mc_naddr r; mc_status := mc_status r; mc_nsec := mc_nsec r;
     mc_addr := mc_addr r; mc_prp := mc_prp r; mc_paddr := mc_paddr r;
     mc_callback := mc_callback r; mc_media_ctx := mc_media_ctx r |}.

Definition mc_set_synch (r : xztl_io_mcmd) v : xztl_io_mcmd :=
    {| mc_opcode := mc_opcode r; mc_submitted := mc_submitted r; mc_synch := v;
     mc_callback_err_cnt := mc_callback_err_cnt r; mc_sequence := mc_sequence r;
     mc_sequence_zn := mc_sequence_zn r; mc_buf_off := mc_buf_off r; mc_cpsize := mc_cpsize r;
     mc_naddr := mc_naddr r; mc_status := mc_status r; mc_nsec := mc_nsec r;
     mc_addr := mc_addr r; mc_prp := mc_prp r; mc_paddr := mc_paddr r;
     mc_callback := mc_callback r; mc_media_ctx := mc_media_ctx r |}.

Definition mc_set_callback_err_cnt (r : xztl_io_mcmd) v : xztl_io_mcmd :=
    {| mc_opcode := mc_opcode r; mc_submitted := mc_submitted r; mc_synch := mc_synch r;
     mc_callback_err_cnt := v; mc_sequence := mc_sequence r; mc_sequence_zn := mc_sequence_zn r;
     mc_buf_off := mc_buf_off r; mc_cpsize := mc_cpsize r; mc_naddr := mc_naddr r;
     mc_status := mc_status r; mc_nsec := mc_nsec r; mc_addr := mc_addr r; mc_prp := mc_prp r;
     mc_paddr := mc_paddr r; mc_callback := mc_callback r; mc_media_ctx := mc_media_ctx r |}.

Definition mc_set_status (r : xztl_io_mcmd) v : xztl_io_mcmd :=
    {| mc_opcode := mc_opcode r; mc_submitted := mc_submitted r; mc_synch := mc_synch r;
     mc_callback_err_cnt := mc_callback_err_cnt r; mc_sequence := mc_sequence r;
     mc_sequence_zn := mc_sequence_zn r; mc_buf_off := mc_buf_off r; mc_cpsize := mc_cpsize r;
     mc_naddr := mc_naddr r; mc_status := v; mc_nsec := mc_nsec r; mc_addr := mc_addr r;
     mc_prp := mc_prp r; mc_paddr := mc_paddr r; mc_callback := mc_callback r;
     mc_media_ctx := mc_media_ctx r |}.

Definition mc_set_paddr (r : xztl_io_mcmd) v : xztl_io_mcmd :=
    {| mc_opcode := mc_opcode r; mc_submitted := mc_submitted r; mc_synch := mc_synch r;
     mc_callback_err_cnt := mc_callback_err_cnt r; mc_sequence := mc_sequence r;
     mc_sequence_zn := mc_sequence_zn r; mc_buf_off := mc_buf_off r; mc_cpsize := mc_cpsize r;
     mc_naddr := mc_naddr r; mc_status := mc_status r; mc_nsec := mc_nsec r;
     mc_addr := mc_addr r; mc_prp := mc_prp r; mc_paddr := v; mc_callback := mc_callback r;
     mc_media_ctx := mc_media_ctx r |}.

Definition mc_set_media_ctx (r : xztl_io_mcmd) v : xztl_io_mcmd :=
    {| mc_opcode := mc_opcode r; mc_submitted := mc_submitted r; mc_synch := mc_synch r;
     mc_callback_err_cnt := mc_callback_err_cnt r; mc_sequence := mc_sequence r;
     mc_sequence_zn := mc_sequence_zn r; mc_buf_off := mc_buf_off r; mc_cpsize := mc_cpsize r;
     mc_naddr := mc_naddr r; mc_status := mc_status r; mc_nsec := mc_nsec r;
     mc_addr := mc_addr r; mc_prp := mc_prp r; mc_paddr := mc_paddr r;
     mc_callback := mc_callback r; mc_media_ctx := v |}.

Definition uc_set_status (r : xztl_io_ucmd) v : xztl_io_ucmd :=
    {| uc_id := uc_id r; uc_buf := uc_buf r; uc_size := uc_size r; uc_offset := uc_offset r;
     uc_prov_type := uc_prov_type r; uc_app_md := uc_app_md r; uc_status := v;
     uc_mcmd := uc_mcmd r; uc_node_id := uc_node_id r; uc_start := uc_start r;
     uc_num := uc_num r; uc_pieces := uc_pieces r; uc_nmcmd := uc_nmcmd r;
     uc_moffset := uc_moffset r; uc_msec := uc_msec r; uc_ncb := uc_ncb r;
     uc_completed := uc_completed r; uc_minflight := uc_minflight r |}.

Definition uc_set_mcmd (r : xztl_io_ucmd) v : xztl_io_ucmd :=
    {| uc_id := uc_id r; uc_buf := uc_buf r; uc_size := uc_size r; uc_offset := uc_offset r;
     uc_prov_type := uc_prov_type r; uc_app_md := uc_app_md r; uc_status := uc_status r;
     uc_mcmd := v; uc_node_id := uc_node_id r; uc_start := uc_start r; uc_num := uc_num r;
     uc_pieces := uc_pieces r; uc_nmcmd := uc_nmcmd r; uc_moffset := uc_moffset r;
     uc_msec := uc_msec r; uc_ncb := uc_ncb r; uc_completed := uc_completed r;
     uc_minflight := uc_minflight r |}.

Definition uc_set_node_id (r : xztl_io_ucmd) v : xztl_io_ucmd :=
    {| uc_id := uc_id r; uc_buf := uc_buf r; uc_size := uc_size r; uc_offset := uc_offset r;
     uc_prov_type := uc_prov_type r; uc_app_md := uc_app_md r; uc_status := uc_status r;
     uc_mcmd := uc_mcmd r; uc_node_id := v; uc_start := uc_start r; uc_num := uc_num r;
     uc_pieces := uc_pieces r; uc_nmcmd := uc_nmcmd r; uc_moffset := uc_moffset r;
     uc_msec := uc_msec r; uc_ncb := uc_ncb r; uc_completed := uc_completed r;
     uc_minflight := uc_minflight r |}.

Definition uc_set_start (r : xztl_io_ucmd) v : xztl_io_ucmd :=
    {| uc_id := uc_id r; uc_buf := uc_buf r; uc_size := uc_size r; uc_offset := uc_offset r;
     uc_prov_type := uc_prov_type r; uc_app_md := uc_app_md r; uc_status := uc_status r;
     uc_mcmd := uc_mcmd r; uc_node_id := uc_node_id r; uc_start := v; uc_num := uc_num r;
     uc_pieces := uc_pieces r; uc_nmcmd := uc_nmcmd r; uc_moffset := uc_moffset r;
     uc_msec := uc_msec r; uc_ncb := uc_ncb r; uc_completed := uc_completed r;
     uc_minflight := uc_minflight r |}.

Definition uc_set_num (r : xztl_io_ucmd) v : xztl_io_ucmd :=
    {| uc_id := uc_id r; uc_buf := uc_buf r; uc_size := uc_size r; uc_offset := uc_offset r;
     uc_prov_type := uc_prov_type r; uc_app_md := uc_app_md r; uc_status := uc_status r;
     uc_mcmd := uc_mcmd r; uc_node_id := uc_node_id r; uc_start := uc_start r; uc_num := v;
     uc_pieces := uc_pieces r; uc_nmcmd := uc_nmcmd r; uc_moffset := uc_moffset r;
     uc_msec := uc_msec r; uc_ncb := uc_ncb r; uc_completed := uc_completed r;
     uc_minflight := uc_minflight r |}.

Definition uc_set_pieces (r : xztl_io_ucmd) v : xztl_io_ucmd :=
    {| uc_id := uc_id r; uc_buf := uc_buf r; uc_size := uc_size r; uc_offset := uc_offset r;
     uc_prov_type := uc_prov_type r; uc_app_md := uc_app_md r; uc_status := uc_status r;
     uc_mcmd := uc_mcmd r; uc_node_id := uc_node_id r; uc_start := uc_start r;
     uc_num := uc_num r; uc_pieces := v; uc_nmcmd := uc_nmcmd r; uc_moffset := uc_moffset r;
     uc_msec := uc_msec r; uc_ncb := uc_ncb r; uc_completed := uc_completed r;
     uc_minflight := uc_minflight r |}.

Definition uc_set_nmcmd (r : xztl_io_ucmd) v : xztl_io_ucmd :=
    {| uc_id := uc_id r; uc_buf := uc_buf r; uc_size := uc_size r; uc_offset := uc_offset r;
     uc_prov_type := uc_prov_type r; uc_app_md := uc_app_md r; uc_status := uc_status r;
     uc_mcmd := uc_mcmd r; uc_node_id := uc_node_id r; uc_start := uc_start r;
     uc_num := uc_num r; uc_pieces := uc_pieces r; uc_nmcmd := v; uc_moffset := uc_moffset r;
     uc_msec := uc_msec r; uc_ncb := uc_ncb r; uc_completed := uc_completed r;
     uc_minflight := uc_minflight r |}.

Definition uc_set_moffset (r : xztl_io_ucmd) v : xztl_io_ucmd :=
    {| uc_id := uc_id r; uc_buf := uc_buf r; uc_size := uc_size r; uc_offset := uc_offset r;
     uc_prov_type := uc_prov_type r; uc_app_md := uc_app_md r; uc_status := uc_status r;
     uc_mcmd := uc_mcmd r; uc_node_id := uc_node_id r; uc_start := uc_start r;
     uc_num := uc_num r; uc_pieces := uc_pieces r; uc_nmcmd := uc_nmcmd r; uc_moffset := v;
     uc_msec := uc_msec r; uc_ncb := uc_ncb r; uc_completed := uc_completed r;
     uc_minflight := uc_minflight r |}.

Definition uc_set_msec (r : xztl_io_ucmd) v : xztl_io_ucmd :=
    {| uc_id := uc_id r; uc_buf := uc_buf r; uc_size := uc_size r; uc_offset := uc_offset r;
     uc_prov_type := uc_prov_type r; uc_app_md := uc_app_md r; uc_status := uc_status r;
     uc_mcmd := uc_mcmd r; uc_node_id := uc_node_id r; uc_start := uc_start r;
     uc_num := uc_num r; uc_pieces := uc_pieces r; uc_nmcmd := uc_nmcmd r;
     uc_moffset := uc_moffset r; uc_msec := v; uc_ncb := uc_ncb r;
     uc_completed := uc_completed r; uc_minflight := uc_minflight r |}.

Definition uc_set_ncb (r : xztl_io_ucmd) v : xztl_io_ucmd :=
    {| uc_id := uc_id r; uc_buf := uc_buf r; uc_size := uc_size r; uc_offset := uc_offset r;
     uc_prov_type := uc_prov_type r; uc_app_md := uc_app_md r; uc_status := uc_status r;
     uc_mcmd := uc_mcmd r; uc_node_id := uc_node_id r; uc_start := uc_start r;
     uc_num := uc_num r; uc_pieces := uc_pieces r; uc_nmcmd := uc_nmcmd r;
     uc_moffset := uc_moffset r; uc_msec := uc_msec r; uc_ncb := v;
     uc_completed := uc_completed r; uc_minflight := uc_minflight r |}.

Definition uc_set_completed (r : xztl_io_ucmd) v : xztl_io_ucmd :=
    {| uc_id := uc_id r; uc_buf := uc_buf r; uc_size := uc_size r; uc_offset := uc_offset r;
     uc_prov_type := uc_prov_type r; uc_app_md := uc_app_md r; uc_status := uc_status r;
     uc_mcmd := uc_mcmd r; uc_node_id := uc_node_id r; uc_start := uc_start r;
     uc_num := uc_num r; uc_pieces := uc_pieces r; uc_nmcmd := uc_nmcmd r;
     uc_moffset := uc_moffset r; uc_msec := uc_msec r; uc_ncb := uc_ncb r; uc_completed := v;
     uc_minflight := uc_minflight r |}.

Definition uc_set_minflight (r : xztl_io_ucmd) v : xztl_io_ucmd :=
    {| uc_id := uc_id r; uc_buf := uc_buf r; uc_size := uc_size r; uc_offset := uc_offset r;
     uc_prov_type := uc_prov_type r; uc_app_md := uc_app_md r; uc_status := uc_status r;
     uc_mcmd := uc_mcmd r; uc_node_id := uc_node_id r; uc_start := uc_start r;
     uc_num := uc_num r; uc_pieces := uc_pieces r; uc_nmcmd := uc_nmcmd r;
     uc_moffset := uc_moffset r; uc_msec := uc_msec r; uc_ncb := uc_ncb r;
     uc_completed := uc_completed r; uc_minflight := v |}.

(** * The device library

    [xq_get_cmd_ctx] is xnvme_queue_get_cmd_ctx ([None] is NULL), [xq_submit] is
    xnvme_nvm_write, xnvme_nvm_read or xnvme_znd_append with the callback
    argument [arg] and returns the call's result.  [xq_poke1] is
    xnvme_queue_poke with at most one completion: the context and argument of a
    completed command, its status, and what its DMA did to the host memory.
    [xq_outstanding] is the number of commands xnvme_queue_drain waits for.
    [xq_read_sync] is the synchronous xnvme_nvm_read with its DMA. *)

Inductive nvm_op := NVM_WRITE | NVM_READ | ZND_APPEND.

Record completion := {
  cp_ctx : nat; cp_arg : nat; cp_status : Z; cp_cdw0 : Z; cp_dma : memory -> memory
}.

Class Xnvme (D : Type) := {
  xq_get_cmd_ctx : D -> option nat * D;
  xq_put_cmd_ctx : D -> nat -> D;
  xq_submit : D -> memory -> nat -> nat -> nvm_op -> Z -> Z -> Z -> Z * D;
  xq_poke1 : D -> option completion * D;
  xq_outstanding : D -> nat;
  xq_read_sync : D -> Z -> Z -> Z -> Z * (memory -> memory) * D
}.

(** * The state of one I/O context

    The group, the command pool ([q->mcmd] or [r->mcmd]), the request being
    served, the provisioning context [q->prov], the node [q->node], the
    statistics, the device and the host memory. *)

Record iostate (D : Type) := {
  io_g : app_group;
  io_cmds : list xztl_io_mcmd;
  io_u : xztl_io_ucmd;
  io_prov : app_pro_addr;
  io_node : option nat;
  io_stats : xztl_stats;
  io_dev : D;
  io_mem : memory
}.

Arguments Build_iostate {D}.
Arguments io_g {D}.
Arguments io_cmds {D}.
Arguments io_u {D}.
Arguments io_prov {D}.
Arguments io_node {D}.
Arguments io_stats {D}.
Arguments io_dev {D}.
Arguments io_mem {D}.

Definition io_set_g {D} (s : iostate D) v : iostate D :=
  Build_iostate v (io_cmds s) (io_u s) (io_prov s) (io_node s) (io_stats s) (io_dev s) (io_mem s).
Definition io_set_cmds {D} (s : iostate D) v : iostate D :=
  Build_iostate (io_g s) v (io_u s) (io_prov s) (io_node s) (io_stats s) (io_dev s) (io_mem s).
Definition io_set_u {D} (s : iostate D) v : iostate D :=
  Build_iostate (io_g s) (io_cmds s) v (io_prov s) (io_node s) (io_stats s) (io_dev s) (io_mem s).
Definition io_set_prov {D} (s : iostate D) v : iostate D :=
  Build_iostate (io_g s) (io_cmds s) (io_u s) v (io_node s) (io_stats s) (io_dev s) (io_mem s).
Definition io_set_node {D} (s : iostate D) v : iostate D :=
  Build_iostate (io_g s) (io_cmds s) (io_u s) (io_prov s) v (io_stats s) (io_dev s) (io_mem s).
Definition io_set_stats {D} (s : iostate D) v : iostate D :=
  Build_iostate (io_g s) (io_cmds s) (io_u s) (io_prov s) (io_node s) v (io_dev s) (io_mem s).
Definition io_set_dev {D} (s : iostate D) v : iostate D :=
  Build_iostate (io_g s) (io_cmds s) (io_u s) (io_prov s) (io_node s) (io_stats s) v (io_mem s).
Definition io_set_mem {D} (s : iostate D) v : iostate D :=
  Build_iostate (io_g s) (io_cmds s) (io_u s) (io_prov s) (io_node s) (io_stats s) (io_dev s) v.

(** * Submission: [znd_media_submit_io] *)

Section Submit.

Context {D : Type} `{!Xnvme D}.
Implicit Types (s : iostate D) (c : nat).

(** [*cmd = f( *cmd )] for the command [c] of the pool *)
Definition upd_cmd s c (f : xztl_io_mcmd -> xztl_io_mcmd) : option (iostate D) :=
  cmd ← io_cmds s !! c;
  Some (io_set_cmds s (<[c := f cmd]> (io_cmds s))).

(** The block count the NVMe commands take is zero-based and 16 bits wide. *)
Definition nlb_of (cmd : xztl_io_mcmd) : Z := u16 (u16 (mc_nsec cmd) - 1).

(** What the three asynchronous submissions share: take a context of the
    queue, attach the command to it, submit at [slba]. *)
Definition submit_asynch (op : nvm_op) (slba : xztl_io_mcmd -> Z) (put_on_err : bool) s c
    : option (Z * iostate D) :=
  cmd ← io_cmds s !! c;
  let '(octx, d1) := xq_get_cmd_ctx (io_dev s) in
  ctx ← octx;
  let '(ret, d2) := xq_submit d1 (io_mem s) ctx c op (slba cmd) (nlb_of cmd) (mc_prp cmd) in
  let d3 := if ctrue ret && put_on_err then xq_put_cmd_ctx d2 ctx else d2 in
  s1 ← upd_cmd s c (fun m => mc_set_media_ctx m (Some ctx));
  Some (ret, io_set_dev s1 d3).

Definition znd_media_submit_read_asynch s c : option (Z * iostate D) :=
  submit_asynch NVM_READ (fun m => maddr_sect (mc_addr m)) true s c.

Definition znd_media_submit_write_asynch s c : option (Z * iostate D) :=
  submit_asynch NVM_WRITE (fun m => maddr_sect (mc_addr m)) true s c.

(** [zn_grp] is the geometry's, [nsect] the device's sectors per zone. *)
Definition znd_media_submit_append_asynch (zn_grp nsect : Z) s c : option (Z * iostate D) :=
  submit_asynch ZND_APPEND
    (fun m => u64 (u32 (u32 (zn_grp * maddr_grp (mc_addr m)) + maddr_zone (mc_addr m)) * nsect))
    false s c.

Definition znd_media_submit_read_synch s c : option (Z * iostate D) :=
  cmd ← io_cmds s !! c;
  let '(ret, dma, d) :=
    xq_read_sync (io_dev s) (maddr_sect (mc_addr cmd)) (nlb_of cmd) (mc_prp cmd) in
  Some (ret, io_set_mem (io_set_dev s d) (dma (io_mem s))).

Definition znd_media_submit_write_synch s c : option (Z * iostate D) :=
  Some (ZND_INVALID_OPCODE, s).

Definition znd_media_submit_append_synch s c : option (Z * iostate D) :=
  Some (ZND_INVALID_OPCODE, s).

Definition znd_media_submit_io (zn_grp nsect : Z) s c : option (Z * iostate D) :=
  cmd ← io_cmds s !! c;
  if mc_opcode cmd =? XZTL_ZONE_APPEND then
    if ctrue (mc_synch cmd) then znd_media_submit_append_synch s c
    else znd_media_submit_append_asynch zn_grp nsect s c
  else if mc_opcode cmd =? XZTL_CMD_READ then
    if ctrue (mc_synch cmd) then znd_media_submit_read_synch s c
    else znd_media_submit_read_asynch s c
  else if mc_opcode cmd =? XZTL_CMD_WRITE then
    if ctrue (mc_synch cmd) then znd_media_submit_write_synch s c
    else znd_media_submit_write_asynch s c
  else Some (ZND_INVALID_OPCODE, s).

End Submit.
