(* ===== verification/MediaMisc.v ===== *)
(** The other commands of the media layer: queues and their completions, [znd_media_cmd_exec]
    of src/xztl/src/ztl-media.c behind [xztl_media_submit_misc] of xztl-core.c.

    The queue functions of the device library are parameters; [D] is the state of the queue,
    and a poke includes the callbacks of the commands that it completes. *)

From S2P Require Import Prelude Types Media.

Definition XZTL_MISC_ASYNCH_INIT : Z := 1.
Definition XZTL_MISC_ASYNCH_TERM : Z := 2.
Definition XZTL_MISC_ASYNCH_POKE : Z := 3.
Definition XZTL_MISC_ASYNCH_OUTS : Z := 4.
Definition XZTL_MISC_ASYNCH_WAIT : Z := 5.

Definition ZND_MEDIA_ASYNCH_ERR : Z := 6.
Definition ZND_MEDIA_POKE_ERR : Z := 9.
Definition ZND_MEDIA_OUTS_ERR : Z := 10.
Definition ZND_MEDIA_WAIT_ERR : Z := 11.

(** [struct xztl_misc_cmd], for the queue of [ctx_ptr] *)
Record xztl_misc_cmd := { ms_opcode : Z; ms_depth : Z; ms_limit : Z; ms_count : Z }.

Definition ms_set_count (cmd : xztl_misc_cmd) (c : Z) : xztl_misc_cmd :=
  {| ms_opcode := ms_opcode cmd; ms_depth := ms_depth cmd; ms_limit := ms_limit cmd; ms_count := c |}.

Section Misc.

Context {D : Type}.

(** xnvme_queue_init with a depth, xnvme_queue_term, xnvme_queue_poke with the most completions to process
    (0: all), xnvme_queue_get_outstanding *)
Context (queue_init : D -> Z -> Z * D) (queue_term : D -> Z * D) (queue_poke : D -> Z -> Z * D) (queue_outstanding : D -> Z).

Implicit Types (d : D) (cmd : xztl_misc_cmd).

(** [max] is 16 bits wide. *)
Definition znd_media_async_poke d (c max : Z) : Z * Z * D :=
  let '(ret, d') := queue_poke d max in
  if ret <? 0 then (ZND_MEDIA_POKE_ERR, c, d') else (XZTL_OK, u32 ret, d').

Definition znd_media_async_outs d (c : Z) : Z * Z * D :=
  let ret := queue_outstanding d in
  if ret <? 0 then (ZND_MEDIA_OUTS_ERR, c, d) else (XZTL_OK, u32 ret, d).

Definition znd_media_async_wait d (c : Z) : Z * Z * D :=
  let ret := queue_outstanding d in
  if ctrue ret then (ZND_MEDIA_WAIT_ERR, c, d) else (XZTL_OK, u32 ret, d).

Definition znd_media_asynch_init d (depth : Z) : Z * D :=
  let '(ret, d') := queue_init d depth in
  if ctrue ret then (ZND_MEDIA_ASYNCH_ERR, d') else (XZTL_OK, d').

Definition znd_media_asynch_term d : Z * D :=
  let '(ret, d') := queue_term d in
  if ctrue ret then (ZND_MEDIA_ASYNCH_ERR, d') else (XZTL_OK, d').

Definition znd_media_cmd_exec cmd d : Z * xztl_misc_cmd * D :=
  let count '(ret, c, d') := (ret, ms_set_count cmd c, d') in
  if ms_opcode cmd =? XZTL_MISC_ASYNCH_INIT then let '(ret, d') := znd_media_asynch_init d (ms_depth cmd) in (ret, cmd, d')
  else if ms_opcode cmd =? XZTL_MISC_ASYNCH_TERM then let '(ret, d') := znd_media_asynch_term d in (ret, cmd, d')
  else if ms_opcode cmd =? XZTL_MISC_ASYNCH_POKE then count (znd_media_async_poke d (ms_count cmd) (u16 (ms_limit cmd)))
  else if ms_opcode cmd =? XZTL_MISC_ASYNCH_OUTS then count (znd_media_async_outs d (ms_count cmd))
  else if ms_opcode cmd =? XZTL_MISC_ASYNCH_WAIT then count (znd_media_async_wait d (ms_count cmd))
  else (ZND_INVALID_OPCODE, cmd, d).

Definition xztl_media_submit_misc cmd d : Z * xztl_misc_cmd * D := znd_media_cmd_exec cmd d.

(** A wait does not wait: the queue is as before, and the result is success exactly when nothing is
    outstanding.  The count is then 0, whatever has completed since the submission. *)
Theorem asynch_wait_does_not_wait cmd d : ms_opcode cmd = XZTL_MISC_ASYNCH_WAIT ->
  exists ret cmd', xztl_media_submit_misc cmd d = (ret, cmd', d) /\ (ret = XZTL_OK <-> queue_outstanding d = 0) /\
    (ret = XZTL_OK -> ms_count cmd' = 0).
Proof.
  intros Ho. unfold xztl_media_submit_misc, znd_media_cmd_exec. rewrite Ho. cbn. unfold znd_media_async_wait.
  destruct (ctrue (queue_outstanding d)) eqn:E.
  - apply ctrue_true in E. eexists _, _. split; [reflexivity|]. split; [split; done|done].
  - apply ctrue_false in E. rewrite E. eexists _, _. split; [reflexivity|]. done.
Qed.

(** The limit of a poke is cut to 16 bits: a limit of 65536 completions is none. *)
Theorem poke_limit_wraps cmd d k : ms_opcode cmd = XZTL_MISC_ASYNCH_POKE -> 0 <= k < 2 ^ 16 ->
  xztl_media_submit_misc {| ms_opcode := ms_opcode cmd; ms_depth := ms_depth cmd; ms_limit := k + 2 ^ 16; ms_count := ms_count cmd |} d =
  let '(ret, c, d') := znd_media_async_poke d (ms_count cmd) k in
  (ret, {| ms_opcode := ms_opcode cmd; ms_depth := ms_depth cmd; ms_limit := k + 2 ^ 16; ms_count := c |}, d').
Proof.
  intros Ho Hk. unfold xztl_media_submit_misc, znd_media_cmd_exec. cbn [ms_opcode ms_limit ms_count]. rewrite Ho. cbn [Z.eqb XZTL_MISC_ASYNCH_POKE].
  replace (u16 (k + 2 ^ 16)) with k by (unfold wrap; rewrite <- (Z.mul_1_l (2 ^ 16)) at 1; rewrite Z.mod_add, Z.mod_small; lia).
  cbn. by destruct (znd_media_async_poke d (ms_count cmd) k) as [[ret c] d'].
Qed.

End Misc.
