(* ===== verification/StatsReport.v ===== *)
(** The reports of the statistics: the accounting of media commands and the printing functions
    of src/xztl/src/xztl-stats.c.

    A report is the list of the values that are printed, in order; the text between them and
    the conversion to decimal are left to [printf].  A [double] is a binary64 number of the
    Standard Library's [SpecFloat]: rounding to nearest, infinities and NaN included. *)

From Stdlib Require Import SpecFloat.
From S2P Require Import Prelude Types Stats Media.

(** * Doubles *)

Definition double := spec_float.

(** [(double) x] for an integer *)
Definition dbl (x : Z) : double := binary_normalize 53 1024 x 0 false.

Definition ddiv : double -> double -> double := SFdiv 53 1024.
Definition dmul : double -> double -> double := SFmul 53 1024.
Definition dadd : double -> double -> double := SFadd 53 1024.

(** What is printed: [%lu], [%d] or a conversion of a double *)
Inductive pval := PInt (v : Z) | PDbl (d : double).

(** [x / (double)1048576] *)
Definition mega (x : Z) : double := ddiv (dbl x) (dbl 1048576).

(** * Accounting of a media command *)

(** [for (i = 0; i < cmd->naddr; i++) nsec += cmd->nsec[i]]: 32-bit sums of an array of
    [XZTL_MAX_MADDR] = 1 elements *)
Fixpoint nsec_sum (nsecs : list Z) (nsec i : Z) (n : nat) : option Z :=
  match n with
  | O => Some nsec
  | S n' => v ← nsecs.[i]; nsec_sum nsecs (u32 (nsec + v)) (i + 1) n'
  end.

Definition cmd_nsec (cmd : xztl_io_mcmd) : option Z :=
  nsec_sum [mc_nsec cmd] 0 0 (Z.to_nat (mc_naddr cmd)).

(** [xztl_stats_add_io]; [nbytes] is [core->media->geo.nbytes], and the product is one of
    32-bit integers. *)
Definition xztl_stats_add_io (nbytes : Z) (s : xztl_stats) (cmd : xztl_io_mcmd) : option xztl_stats :=
  nsec ← cmd_nsec cmd;
  let add type_b type_c := s' ← xztl_stats_inc s type_c 1; xztl_stats_inc s' type_b (u32 (nsec * nbytes)) in
  if (mc_opcode cmd =? XZTL_ZONE_APPEND) || (mc_opcode cmd =? XZTL_CMD_WRITE) then
    add XZTL_STATS_APPEND_BYTES XZTL_STATS_APPEND_MCMD
  else if mc_opcode cmd =? XZTL_CMD_READ then add XZTL_STATS_READ_BYTES XZTL_STATS_READ_MCMD
  else Some s.

(** * Printing *)

Definition XZTL_STATS_RECYCLED_BYTES : Z := 13.
Definition XZTL_STATS_RECYCLED_ZONES : Z := 14.

Definition xztl_stats_print_err (s : xztl_stats) : option (list pval) :=
  mapM (fun t => v ← (st_io s).[t]; Some (PInt v))
    [XZTL_STATS_WRITE_SUBMIT_FAIL; XZTL_STATS_READ_SUBMIT_FAIL; XZTL_STATS_WRITE_CALLBACK_FAIL; XZTL_STATS_READ_CALLBACK_FAIL;
     XZTL_STATS_MGMT_FAIL; XZTL_STATS_META_WRITE_FAIL; XZTL_STATS_META_READ_FAIL].

(** Megabytes and bytes *)
Definition pmega (x : Z) : list pval := [PDbl (mega x); PInt x].

Definition xztl_stats_print_io (s : xztl_stats) : option (list pval) :=
  append_u ← (st_io s).[XZTL_STATS_APPEND_UCMD];
  read_u ← (st_io s).[XZTL_STATS_READ_UCMD];
  append_m ← (st_io s).[XZTL_STATS_APPEND_MCMD];
  read_m ← (st_io s).[XZTL_STATS_READ_MCMD];
  reset_m ← (st_io s).[XZTL_STATS_RESET_MCMD];
  tot_b_r ← (st_io s).[XZTL_STATS_READ_BYTES_U];
  tot_b_w ← (st_io s).[XZTL_STATS_APPEND_BYTES_U];
  let tot_b := u64 (tot_b_w + tot_b_r) in
  let wa := dbl tot_b_w in
  tot_gc_r ← (st_io s).[XZTL_STATS_READ_BYTES_GC];
  tot_gc_w ← (st_io s).[XZTL_STATS_APPEND_BYTES_GC];
  tot_b_r' ← (st_io s).[XZTL_STATS_READ_BYTES];
  tot_b_w' ← (st_io s).[XZTL_STATS_APPEND_BYTES];
  let tot_b' := u64 (tot_b_w' + tot_b_r') in
  Some ([PInt append_u; PInt read_u; PInt append_m; PInt read_m; PInt reset_m] ++
        pmega tot_b ++ pmega tot_b_w ++ pmega tot_b_r ++ pmega tot_gc_w ++ pmega tot_gc_r ++
        pmega tot_b' ++ pmega tot_b_w' ++ pmega tot_b_r' ++ [PDbl (ddiv (dbl tot_b_w') wa)]).

(** [valid * 1.0 / used], 0 when nothing is used *)
Definition used_ratio (valid used : Z) : double :=
  if used =? 0 then dbl 0 else ddiv (dmul (dbl valid) (dbl 1)) (dbl used).

(** The loop over the levels from [level] on, with [n] levels left: what is printed, and the totals *)
Fixpoint print_levels (rows : list (list Z)) (total_valid total_used level : Z) (n : nat) : option (list pval * Z * Z) :=
  match n with
  | O => Some ([], total_valid, total_used)
  | S n' =>
      row ← rows.[level];
      valid ← row.[XZTL_CMD_ENTRY_VALID];
      used ← row.[XZTL_CMD_ENTRY_USED];
      '(out, tv, tu) ← print_levels rows (u64 (total_valid + valid)) (u64 (total_used + used)) (level + 1) n';
      Some ([PInt level; PInt valid; PInt used; PDbl (used_ratio valid used)] ++ out, tv, tu)
  end.

(** [x*1.0*ZTL_IO_SEC_MCMD*ZNS_ALIGMENT/GB_L] *)
Definition giga (x : Z) : double :=
  ddiv (dmul (dmul (dmul (dbl x) (dbl 1)) (dbl ZTL_IO_SEC_MCMD)) (dbl ZNS_ALIGMENT)) (dbl 1000000000).

(** [xztl_stats_print_io_simple]: the printed values, and the two files under /tmp, each if it can be
    opened *)
Definition xztl_stats_print_io_simple (fopen1 fopen2 : bool) (s : xztl_stats) : option (list pval * option Z * option Z) :=
  flush_w ← (st_io s).[XZTL_STATS_APPEND_BYTES];
  app_w ← (st_io s).[XZTL_STATS_APPEND_BYTES_U];
  gc_w ← (st_io s).[XZTL_STATS_APPEND_BYTES_GC];
  padding ← padding_w s;
  '(levels, total_valid, total_used) ← print_levels (st_node s) 0 0 0 (Z.to_nat ZROCKS_LEVEL_NUM);
  zones ← (st_io s).[XZTL_STATS_RECYCLED_ZONES];
  bytes ← (st_io s).[XZTL_STATS_RECYCLED_BYTES];
  resets ← (st_io s).[XZTL_STATS_RESET_MCMD];
  Some (pmega app_w ++ pmega gc_w ++ pmega padding ++ pmega flush_w ++ [PDbl (ddiv (dbl flush_w) (dbl app_w))] ++ levels ++
        [PDbl (giga total_valid); PDbl (giga total_used); PDbl (used_ratio total_valid total_used);
         PInt zones; PDbl (mega bytes); PInt bytes; PInt resets],
        if fopen1 then Some flush_w else None, if fopen2 then Some app_w else None).

(** * The reports are defined *)

Definition node_wf (s : xztl_stats) : Prop :=
  length (st_node s) = Z.to_nat ZROCKS_LEVEL_NUM /\ Forall (fun row => length row = XZTL_CMD_ENTRY_MAX) (st_node s).

Lemma io_defined s t : stats_wf s -> 0 <= t < 22 -> is_Some (st_io s).[t].
Proof. intros [Hl _] Ht. apply aget_is_Some. rewrite Hl. unfold XZTL_STATS_IO_TYPES. lia. Qed.

(** The column [t] of the levels *)
Definition column (t : Z) (rows : list (list Z)) : list Z := (fun row => default 0 (row.[t])) <$> rows.

Lemma print_levels_run rows : forall tv tu level (done : list (list Z)),
  Forall (fun row => length row = XZTL_CMD_ENTRY_MAX) rows -> level = Z.of_nat (length done) ->
  exists out, print_levels (done ++ rows) (u64 tv) (u64 tu) level (length rows) =
    Some (out, u64 (tv + zsum (column XZTL_CMD_ENTRY_VALID rows)), u64 (tu + zsum (column XZTL_CMD_ENTRY_USED rows))).
Proof.
  induction rows as [|row rows IH]; intros tv tu level done Hf ->; [exists []; cbn -[wrap]; by rewrite !Z.add_0_r|].
  inversion_clear Hf as [|? ? Hr Hf']. destruct row as [|valid [|used [|]]]; try done. cbn [length print_levels].
  rewrite aget_nat, lookup_app_r, Nat.sub_diag by lia. cbn -[wrap].
  change ([valid; used].[XZTL_CMD_ENTRY_VALID]) with (Some valid). change ([valid; used].[XZTL_CMD_ENTRY_USED]) with (Some used).
  cbn -[wrap]. rewrite !wrap_add_l.
  destruct (IH (tv + valid) (tu + used) (Z.of_nat (length done) + 1) (done ++ [[valid; used]])) as [out Hout];
    [done|rewrite length_app; cbn; lia|].
  rewrite <- app_assoc in Hout. cbn -[wrap] in Hout. rewrite Hout. cbn -[wrap]. eexists. rewrite !Z.add_assoc. reflexivity.
Qed.

(** The final report of a program with well-formed counters is defined, and its totals are the sums of the
    levels, in 64 bits. *)
Theorem print_io_simple_total fopen1 fopen2 s : stats_wf s -> node_wf s ->
  exists pre post files, xztl_stats_print_io_simple fopen1 fopen2 s = Some (pre ++
    [PDbl (giga (u64 (zsum (column XZTL_CMD_ENTRY_VALID (st_node s))))); PDbl (giga (u64 (zsum (column XZTL_CMD_ENTRY_USED (st_node s)))))]
    ++ post, files.1, files.2).
Proof.
  intros Hs [Hn Hf]. unfold xztl_stats_print_io_simple, padding_w.
  destruct (print_levels_run (st_node s) 0 0 0 [] Hf eq_refl) as [levels Hl]. rewrite Hn in Hl. cbn [app] in Hl.
  change (u64 0) with 0 in Hl.
  destruct (io_defined s XZTL_STATS_APPEND_BYTES Hs) as [a Ha]; [done|]. destruct (io_defined s XZTL_STATS_APPEND_BYTES_U Hs) as [b Hb]; [done|].
  destruct (io_defined s XZTL_STATS_APPEND_BYTES_GC Hs) as [c Hc]; [done|]. destruct (io_defined s XZTL_STATS_RECYCLED_ZONES Hs) as [d Hd]; [done|].
  destruct (io_defined s XZTL_STATS_RECYCLED_BYTES Hs) as [e He]; [done|]. destruct (io_defined s XZTL_STATS_RESET_MCMD Hs) as [f Hr]; [done|].
  rewrite Ha, Hb, Hc, Hd, He, Hr. cbn [mbind option_bind]. rewrite Hl. cbn [mbind option_bind].
  eexists (pmega _ ++ pmega _ ++ pmega _ ++ pmega _ ++ [_] ++ levels), [_; _; _; _; _], (_, _). cbn [fst snd]. rewrite <- !app_assoc. reflexivity.
Qed.

(** The bytes of a command are counted in 32 bits: 2^20 sectors of 4 KiB are counted as none. *)
Example add_io_wraps :
  exists cmd s', mc_nsec cmd = 2 ^ 20 /\ xztl_stats_add_io 4096 xztl_stats_init cmd = Some s' /\
    (st_io s').[XZTL_STATS_APPEND_BYTES] = Some 0 /\ (st_io s').[XZTL_STATS_APPEND_MCMD] = Some 1.
Proof.
  exists {| mc_opcode := XZTL_CMD_WRITE; mc_submitted := 0; mc_synch := 0; mc_callback_err_cnt := 0; mc_sequence := 0; mc_sequence_zn := 0;
            mc_buf_off := 0; mc_cpsize := 0; mc_naddr := 1; mc_status := 0; mc_nsec := 2 ^ 20; mc_addr := 0; mc_prp := 0; mc_paddr := 0;
            mc_callback := None; mc_media_ctx := None |}.
  eexists. split; [done|]. split; [vm_compute; reflexivity|]. done.
Qed.
