(* ===== verification/Options.v ===== *)
(** The device option string (src/xztl/src/ztl-media.c, znd_opt_parse, znd_opt_assign and
    znd_media_set_ctx_iodepth) and what is read of it with sscanf.

    A string is the list of its characters, without the NUL. *)

From S2P Require Import Prelude Types.

Abbreviation str := (list Z).

Definition MAX_STR_LEN : Z := 64.
Definition MIN_OPT_PARAM_LEN : Z := 10.
Definition ZND_MEDIA_NODEVICE : Z := 1.

Definition OPT_DEV_BLK : Z := 1.
Definition OPT_DEV_CHAR : Z := 2.
Definition OPT_DEV_SPDK : Z := 3.

Definition OPT_BE_THRPOOL : Z := 1.
Definition OPT_BE_LIBAIO : Z := 2.
Definition OPT_BE_IOURING : Z := 3.
Definition OPT_BE_IOURING_CMD : Z := 4.
Definition OPT_BE_SPDK : Z := 5.

Definition XZTL_CTX_NVME_DEPTH : Z := 1024.
Definition XZTL_CTX_NVME_LIBAIO_DEPTH : Z := 512.

(** [be_str]: "", "thrpool", "libaio", "io_uring", "io_uring_cmd", "nvme" *)
Definition be_str : list str :=
  [ [];
    [116; 104; 114; 112; 111; 111; 108];
    [108; 105; 98; 97; 105; 111];
    [105; 111; 95; 117; 114; 105; 110; 103];
    [105; 111; 95; 117; 114; 105; 110; 103; 95; 99; 109; 100];
    [110; 118; 109; 101] ].

Record znd_opt_info := { opt_dev_type : Z; opt_dev_name : str; opt_async : Z; opt_nsid : Z }.

Definition opt_zero : znd_opt_info := {| opt_dev_type := 0; opt_dev_name := []; opt_async := 0; opt_nsid := 0 |}.

(** * sscanf *)

(** [isspace] and [isdigit] *)
Definition is_space (c : Z) : bool := (c =? 32) || ((9 <=? c) && (c <=? 13)).
Definition is_digit (c : Z) : bool := (48 <=? c) && (c <=? 57).

Fixpoint skip_spaces (s : str) : str :=
  match s with c :: s' => if is_space c then skip_spaces s' else s | [] => [] end.

(** The longest prefix of at most [n] characters with [p], and the rest *)
Fixpoint scan (p : Z -> bool) (n : nat) (s : str) : str * str :=
  match n, s with
  | S n', c :: s' => if p c then let '(a, b) := scan p n' s' in (c :: a, b) else ([], s)
  | _, _ => ([], s)
  end.

(** A directive of the format that fails to match ends the call: [None]. *)
Definition scan_set (s : str) : option (str * str) :=
  match scan (fun c => negb (c =? 63)) 64 s with ([], _) => None | r => Some r end.

Definition scan_s (s : str) : option (str * str) :=
  match scan (fun c => negb (is_space c)) 64 (skip_spaces s) with ([], _) => None | r => Some r end.

(** The literal characters of a format; none of those used here is white space. *)
Fixpoint scan_lit (lit s : str) : option str :=
  match lit, s with
  | [], _ => Some s
  | x :: lit', y :: s' => if x =? y then scan_lit lit' s' else None
  | _ :: _, [] => None
  end.

Definition digits_value (ds : str) : Z := fold_left (fun a c => 10 * a + (c - 48)) ds 0.

(** [%64d] *)
Definition scan_d (s : str) : option Z :=
  let s := skip_spaces s in
  let '(neg, s1, n) := match s with
                       | c :: s' => if c =? 45 then (true, s', 63%nat) else if c =? 43 then (false, s', 63%nat) else (false, s, 64%nat)
                       | [] => (false, [], 64%nat)
                       end in
  match scan is_digit n s1 with
  | ([], _) => None
  | (ds, _) => Some (if neg then - digits_value ds else digits_value ds)
  end.

(** * The parser *)

(** "?be:", "pci:" and "?nsid:" *)
Definition lit_be : str := [63; 98; 101; 58].
Definition lit_pci : str := [112; 99; 105; 58].
Definition lit_nsid : str := [63; 110; 115; 105; 100; 58].

(** [sscanf(dev_name, "%64[^?]%64s", dev_info, be_info)] *)
Definition split_opts (dev_name : str) : str * str :=
  match scan_set dev_name with
  | None => ([], [])
  | Some (dev_info, rest) => (dev_info, match scan_s rest with Some (be, _) => be | None => [] end)
  end.

(** [for (i = OPT_BE_THRPOOL; i <= OPT_BE_IOURING_CMD; i++)] *)
Fixpoint find_be (name : str) (i : Z) (names : list str) : option Z :=
  match names with
  | [] => None
  | b :: names' => if decide (name = b) then Some i else find_be name (i + 1) names'
  end.

(** The options after "?": the backend *)
Definition parse_be (be_info : str) : option Z :=
  match be_info with
  | [] => Some OPT_BE_THRPOOL
  | _ =>
      let opt_end_name := match scan_lit lit_be be_info with
                          | Some rest => match scan_s rest with Some (n, _) => n | None => [] end
                          | None => []
                          end in
      find_be opt_end_name OPT_BE_THRPOOL (take 4 (drop 1 be_str))
  end.

(** An [opt_nsid] that is not an int is undefined. *)
Definition parse_nsid (be_info : str) : outcome Z :=
  match scan_lit lit_nsid be_info with
  | None => Ok 0
  | Some rest =>
      match scan_d rest with
      | None => Ok 0
      | Some n => if (- 2 ^ 31 <=? n) && (n <? 2 ^ 31) then Ok n else Undef
      end
  end.

(** The result, and [opt_info], which is zero before the call. *)
Definition znd_opt_parse (dev_name : str) : outcome (Z * znd_opt_info) :=
  if (Z.of_nat (length dev_name) <? MIN_OPT_PARAM_LEN) || (MAX_STR_LEN <? Z.of_nat (length dev_name))
  then Ok (ZND_MEDIA_NODEVICE, opt_zero) else
  c0 ← lift (dev_name !! 0%nat);
  c6 ← lift (dev_name !! 6%nat);
  if c0 =? 47 then
    let '(dev_info, be_info) := split_opts dev_name in
    let info ty be := {| opt_dev_type := ty; opt_dev_name := dev_info; opt_async := be; opt_nsid := 0 |} in
    let ty := if c6 =? 103 then OPT_DEV_CHAR else if c6 =? 118 then OPT_DEV_BLK else 0 in
    if ty =? 0 then Ok (ZND_MEDIA_NODEVICE, info 0 0) else
    match parse_be be_info with
    | Some be => Ok (XZTL_OK, info ty be)
    | None => Ok (ZND_MEDIA_NODEVICE, info ty 0)
    end
  else if c0 =? 112 then
    let '(dev_info, be_info) := split_opts dev_name in
    let name := match scan_lit lit_pci dev_info with
                | Some rest => match scan_s rest with Some (n, _) => n | None => [] end
                | None => []
                end in
    nsid ← parse_nsid be_info;
    Ok (XZTL_OK, {| opt_dev_type := OPT_DEV_SPDK; opt_dev_name := name; opt_async := OPT_BE_SPDK; opt_nsid := nsid |})
  else Ok (ZND_MEDIA_NODEVICE, opt_zero).

(** * What the options select *)

Definition is_blk_thrpool (o : znd_opt_info) : bool := (opt_dev_type o =? OPT_DEV_BLK) && (opt_async o =? OPT_BE_THRPOOL).

(** The members of [struct xnvme_opts] that are set *)
Record xnvme_opts := { xo_async : str; xo_be : option str; xo_direct : Z; xo_rdwr : Z; xo_rdonly : Z; xo_wronly : Z; xo_nsid : Z }.

(** "spdk" *)
Definition BE_PARAM : str := [115; 112; 100; 107].

Definition znd_opt_assign (opts opts_read : xnvme_opts) (o : znd_opt_info) : option (xnvme_opts * xnvme_opts) :=
  async ← be_str.[opt_async o];
  if opt_async o =? OPT_BE_SPDK then
    Some ({| xo_async := async; xo_be := Some BE_PARAM; xo_direct := 1; xo_rdwr := xo_rdwr opts; xo_rdonly := xo_rdonly opts;
             xo_wronly := xo_wronly opts; xo_nsid := opt_nsid o |}, opts_read)
  else if is_blk_thrpool o then
    Some ({| xo_async := async; xo_be := xo_be opts; xo_direct := 1; xo_rdwr := 0; xo_rdonly := xo_rdonly opts; xo_wronly := 1;
             xo_nsid := xo_nsid opts |},
          {| xo_async := async; xo_be := xo_be opts_read; xo_direct := 0; xo_rdwr := 0; xo_rdonly := 1;
             xo_wronly := xo_wronly opts_read; xo_nsid := xo_nsid opts_read |})
  else
    Some ({| xo_async := async; xo_be := xo_be opts; xo_direct := 1; xo_rdwr := xo_rdwr opts; xo_rdonly := xo_rdonly opts;
             xo_wronly := xo_wronly opts; xo_nsid := xo_nsid opts |}, opts_read).

(** [read_ctx_num] and [io_depth]; the comparison with 0 is one of unsigned integers. *)
Definition znd_media_set_ctx_iodepth (cpu_num : Z) (o : znd_opt_info) : Z * Z :=
  if (opt_async o =? OPT_BE_SPDK) || (opt_async o =? OPT_BE_LIBAIO) then
    ((if 0 <? u32 (cpu_num - 2) then u32 (cpu_num - 2) else 1),
     if opt_async o =? OPT_BE_LIBAIO then XZTL_CTX_NVME_LIBAIO_DEPTH else XZTL_CTX_NVME_DEPTH)
  else (XZTL_READ_RS_NUM, XZTL_CTX_NVME_DEPTH).
