(* ===== verification/OptionsTheorems.v ===== *)
(** The option string: what the parser accepts, that it reads back what the README's two forms
    describe (with the separator it really wants), and what it selects. *)

From S2P Require Import Prelude Types Options.

(** * Lemmas on the scanner *)

Lemma scan_app p n a c s : Forall (fun x => p x = true) a -> (length a <= n)%nat -> p c = false -> scan p n (a ++ c :: s) = (a, c :: s).
Proof.
  intros Ha. revert n. induction Ha as [|x a Hx _ IH]; intros [|n] Hn Hc; cbn in *; try lia; try done.
  - by rewrite Hc.
  - rewrite Hx, IH by (done || lia). done.
Qed.

Lemma scan_all p n a : Forall (fun x => p x = true) a -> (length a <= n)%nat -> scan p n a = (a, []).
Proof.
  intros Ha. revert n. induction Ha as [|x a Hx _ IH]; intros [|n] Hn; cbn in *; try lia; try done.
  rewrite Hx, IH by lia. done.
Qed.

Lemma scan_prefix p n s a b : scan p n s = (a, b) -> s = a ++ b /\ (length a <= n)%nat /\ Forall (fun x => p x = true) a.
Proof.
  revert s a b. induction n as [|n IH]; intros [|c s] a b; cbn; intros H; simplify_eq; try (repeat split; cbn; lia || constructor).
  destruct (p c) eqn:Hc; simplify_eq; [|repeat split; cbn; lia || constructor].
  destruct (scan p n s) as [a' b'] eqn:E; simplify_eq. apply IH in E as (-> & ? & ?). repeat split; cbn; [lia|by constructor].
Qed.

Lemma scan_lit_app lit s : scan_lit lit (lit ++ s) = Some s.
Proof. induction lit as [|x lit IH]; cbn; [by destruct s|]. by rewrite Z.eqb_refl. Qed.

Definition word (s : str) : Prop := s <> [] /\ Forall (fun c => negb (is_space c) = true) s.

Lemma word_skip s : word s -> skip_spaces s = s.
Proof.
  intros [Hne Hs]. destruct s as [|c s]; [done|]. apply Forall_cons in Hs as [Hc _]. cbn.
  destruct (is_space c); [discriminate|done].
Qed.

Lemma scan_s_word s : word s -> (length s <= 64)%nat -> scan_s s = Some (s, []).
Proof.
  intros Hw Hl. unfold scan_s. rewrite word_skip by done. rewrite scan_all by (apply Hw || done).
  destruct s; [by destruct Hw|done].
Qed.

Lemma word_app a b : word a -> Forall (fun c => negb (is_space c) = true) b -> word (a ++ b).
Proof. intros [Hne Ha] Hb. split; [by destruct a|]. by apply Forall_app. Qed.

(** * Decimal numbers *)

Fixpoint decimal (k : nat) (n : Z) : str :=
  match k with
  | O => []
  | S k' => (if n <? 10 then [] else decimal k' (n / 10)) ++ [48 + n mod 10]
  end.

Lemma digits_value_snoc ds c : digits_value (ds ++ [c]) = 10 * digits_value ds + (c - 48).
Proof. unfold digits_value. by rewrite fold_left_app. Qed.

Lemma decimal_value k n : 0 <= n < 10 ^ Z.of_nat k -> digits_value (decimal k n) = n.
Proof.
  revert n. induction k as [|k IH]; intros n Hn; [cbn in *; lia|].
  cbn [decimal]. rewrite digits_value_snoc. rewrite Nat2Z.inj_succ, Z.pow_succ_r in Hn by lia.
  destruct (n <? 10) eqn:E.
  - change (digits_value []) with 0. apply Z.ltb_lt in E. rewrite Z.mod_small; lia.
  - rewrite IH; zdiv.
Qed.

Lemma decimal_digits k n : 0 <= n -> Forall (fun c => is_digit c = true) (decimal k n).
Proof.
  revert n. induction k as [|k IH]; intros n Hn; [constructor|]. cbn [decimal]. apply Forall_app. split.
  - destruct (n <? 10); [constructor|]. apply IH. zdiv.
  - constructor; [|constructor]. unfold is_digit. pose proof (Z.mod_pos_bound n 10 ltac:(lia)).
    apply andb_true_iff. split; apply Z.leb_le; lia.
Qed.

Lemma decimal_length k n : (length (decimal k n) <= k)%nat.
Proof.
  revert n. induction k as [|k IH]; intros n; [cbn; lia|]. cbn [decimal]. rewrite length_app. cbn.
  destruct (n <? 10); cbn; [lia|]. specialize (IH (n / 10)). lia.
Qed.

Lemma digit_word c : is_digit c = true -> negb (is_space c) = true /\ c <> 45 /\ c <> 43.
Proof.
  unfold is_digit, is_space. rewrite andb_true_iff, !Z.leb_le. intros Hc.
  destruct (Z.eqb_spec c 32), (Z.leb_spec 9 c), (Z.leb_spec c 13); cbn; lia || (split; [done|lia]).
Qed.

Lemma digits_word ds : Forall (fun c => is_digit c = true) ds -> Forall (fun c => negb (is_space c) = true) ds.
Proof. intros H. eapply Forall_impl; [exact H|]. intros c Hc. by apply digit_word. Qed.

Lemma scan_d_decimal k n : (0 < k <= 64)%nat -> 0 <= n < 10 ^ Z.of_nat k -> scan_d (decimal k n) = Some n.
Proof.
  intros Hk Hn. pose proof (decimal_value k n Hn) as Hv. pose proof (decimal_length k n) as Hl.
  pose proof (decimal_digits k n ltac:(lia)) as Hd.
  destruct (decimal k n) as [|c ds] eqn:E.
  { destruct k as [|k]; [lia|]. cbn [decimal] in E. by apply app_eq_nil in E as [_ [=]]. }
  apply Forall_cons in Hd as Hd'. destruct Hd' as [Hc _]. apply digit_word in Hc as (Hs & H45 & H43).
  unfold scan_d. rewrite word_skip by (split; [done|by apply digits_word]).
  rewrite (proj2 (Z.eqb_neq c 45) H45), (proj2 (Z.eqb_neq c 43) H43), scan_all by (done || lia). by rewrite Hv.
Qed.

(** * The two forms of the option string *)

Definition opt_string (o : znd_opt_info) : str :=
  if opt_dev_type o =? OPT_DEV_SPDK then lit_pci ++ opt_dev_name o ++ lit_nsid ++ decimal 10 (opt_nsid o)
  else opt_dev_name o ++ lit_be ++ default [] (be_str.[opt_async o]).

Definition no_mark (s : str) : Prop := Forall (fun c => negb (c =? 63) = true) s.

Inductive opt_valid : znd_opt_info -> Prop :=
  | valid_pci name nsid :
      no_mark name -> word name -> 0 <= nsid < 2 ^ 31 ->
      opt_valid {| opt_dev_type := OPT_DEV_SPDK; opt_dev_name := name; opt_async := OPT_BE_SPDK; opt_nsid := nsid |}
  | valid_dev name ty be :
      no_mark name -> name !! 0%nat = Some 47 ->
      (ty = OPT_DEV_CHAR /\ name !! 6%nat = Some 103 \/ ty = OPT_DEV_BLK /\ name !! 6%nat = Some 118) ->
      OPT_BE_THRPOOL <= be <= OPT_BE_IOURING_CMD ->
      opt_valid {| opt_dev_type := ty; opt_dev_name := name; opt_async := be; opt_nsid := 0 |}.

Definition length_ok (s : str) : Prop := MIN_OPT_PARAM_LEN <= Z.of_nat (length s) <= MAX_STR_LEN.

Lemma length_guard s : length_ok s ->
  (Z.of_nat (length s) <? MIN_OPT_PARAM_LEN) || (MAX_STR_LEN <? Z.of_nat (length s)) = false.
Proof. intros [? ?]. apply orb_false_iff. split; apply Z.ltb_ge; lia. Qed.

Lemma length_ok_64 s : length_ok s -> (length s <= 64)%nat.
Proof. unfold length_ok, MAX_STR_LEN. lia. Qed.

Lemma scan_set_mark dev rest : no_mark dev -> dev <> [] -> (length dev <= 64)%nat -> scan_set (dev ++ 63 :: rest) = Some (dev, 63 :: rest).
Proof. intros Hd Hne Hl. unfold scan_set. rewrite scan_app by done. by destruct dev. Qed.

Lemma split_mark dev rest : no_mark dev -> dev <> [] -> word (63 :: rest) -> (length (dev ++ 63%Z :: rest) <= 64)%nat ->
  split_opts (dev ++ 63 :: rest) = (dev, 63 :: rest).
Proof.
  intros Hd Hne Hw Hl. rewrite length_app in Hl. unfold split_opts. rewrite scan_set_mark by (done || lia).
  rewrite scan_s_word by (done || lia). done.
Qed.

Lemma split_plain dev : no_mark dev -> dev <> [] -> (length dev <= 64)%nat -> split_opts dev = (dev, []).
Proof. intros Hd Hne Hl. unfold split_opts, scan_set. rewrite scan_all by done. by destruct dev. Qed.

Lemma be_cases be : OPT_BE_THRPOOL <= be <= OPT_BE_IOURING_CMD -> be = 1 \/ be = 2 \/ be = 3 \/ be = 4.
Proof. unfold OPT_BE_THRPOOL, OPT_BE_IOURING_CMD. lia. Qed.

Lemma parse_be_name be : OPT_BE_THRPOOL <= be <= OPT_BE_IOURING_CMD ->
  parse_be (lit_be ++ default [] (be_str.[be])) = Some be /\ word (lit_be ++ default [] (be_str.[be])).
Proof. intros Hb. apply be_cases in Hb as [->|[->|[->| ->]]]; (split; [reflexivity|]); (split; [discriminate|repeat constructor]). Qed.

Lemma parse_nsid_decimal n : 0 <= n < 2 ^ 31 -> parse_nsid (lit_nsid ++ decimal 10 n) = Ok n.
Proof.
  intros Hn. unfold parse_nsid. rewrite scan_lit_app, scan_d_decimal by (cbn; lia).
  rewrite (proj2 (Z.leb_le _ _)), (proj2 (Z.ltb_lt _ _)) by lia. done.
Qed.

Lemma lookup_ne_nil {A} (l : list A) i x : l !! i = Some x -> l <> [].
Proof. by destruct l, i. Qed.

(** The branch of a device file, whatever follows the "?" *)
Lemma parse_dev name ty rest be : length_ok (name ++ rest) -> no_mark name -> name !! 0%nat = Some 47 ->
  (ty = OPT_DEV_CHAR /\ name !! 6%nat = Some 103 \/ ty = OPT_DEV_BLK /\ name !! 6%nat = Some 118) ->
  (rest = [] \/ exists r, rest = 63 :: r /\ word rest) -> parse_be rest = be ->
  znd_opt_parse (name ++ rest) =
    Ok (match be with Some _ => XZTL_OK | None => ZND_MEDIA_NODEVICE end,
        {| opt_dev_type := ty; opt_dev_name := name; opt_async := default 0 be; opt_nsid := 0 |}).
Proof.
  intros Hl Hm H0 H6 Hr Hb. pose proof (length_ok_64 _ Hl) as H64. unfold znd_opt_parse. rewrite (length_guard _ Hl).
  rewrite (lookup_app_l_Some _ _ _ _ H0). cbn [lift mbind outcome_bind].
  assert (split_opts (name ++ rest) = (name, rest)) as Hs.
  { pose proof (lookup_ne_nil _ _ _ H0). destruct Hr as [-> | (r & -> & Hw)]; [|by apply split_mark].
    rewrite app_nil_r in *. by apply split_plain. }
  destruct H6 as [[-> H6]|[-> H6]]; rewrite (lookup_app_l_Some _ _ _ _ H6); cbn [lift mbind outcome_bind];
    rewrite Z.eqb_refl, Hs, Hb; by destruct be.
Qed.

(** The branch of a PCI address *)
Lemma parse_pci name rest nsid : length_ok (lit_pci ++ name ++ 63 :: rest) -> no_mark name -> word name -> word (63 :: rest) ->
  parse_nsid (63 :: rest) = Ok nsid ->
  znd_opt_parse (lit_pci ++ name ++ 63 :: rest) =
    Ok (XZTL_OK, {| opt_dev_type := OPT_DEV_SPDK; opt_dev_name := name; opt_async := OPT_BE_SPDK; opt_nsid := nsid |}).
Proof.
  intros Hl Hm Hn Hw Hp. pose proof (length_ok_64 _ Hl) as H64.
  pose proof H64 as Hn64. rewrite !length_app in Hn64. unfold znd_opt_parse. rewrite (length_guard _ Hl).
  assert (exists c, (lit_pci ++ name ++ 63 :: rest) !! 6%nat = Some c) as [c H6].
  { apply lookup_lt_is_Some. unfold length_ok, MIN_OPT_PARAM_LEN in Hl. lia. }
  rewrite H6. change ((lit_pci ++ name ++ 63 :: rest) !! 0%nat) with (Some 112). cbn [lift mbind outcome_bind].
  change (112 =? 47) with false. change (112 =? 112) with true. cbv iota.
  rewrite app_assoc. rewrite split_mark; [|by apply Forall_app; split; [repeat constructor|]|discriminate|done|by rewrite <- app_assoc].
  rewrite scan_lit_app, scan_s_word, Hp by (done || cbn in Hn64 |- *; lia). done.
Qed.


Definition dev_example : znd_opt_info :=
  {| opt_dev_type := OPT_DEV_BLK; opt_dev_name := [47; 100; 101; 118; 47; 110; 118; 109; 101; 48; 110; 49]; opt_async := OPT_BE_LIBAIO; opt_nsid := 0 |}.


(** "?be=" and "?nsid=", as the README writes them *)
Definition lit_be_readme : str := [63; 98; 101; 61].
Definition lit_nsid_readme : str := [63; 110; 115; 105; 100; 61].

(** The forms of the README: a device file with [?be=<name>] is refused whatever the name; a PCI
    address with [?nsid=<n>] is accepted and its namespace id ignored, namespace 0 being selected. *)
Theorem znd_opt_parse_readme name arg : no_mark name -> word arg ->
  (forall ty, name !! 0%nat = Some 47 ->
     (ty = OPT_DEV_CHAR /\ name !! 6%nat = Some 103 \/ ty = OPT_DEV_BLK /\ name !! 6%nat = Some 118) ->
     length_ok (name ++ lit_be_readme ++ arg) ->
     exists o, znd_opt_parse (name ++ lit_be_readme ++ arg) = Ok (ZND_MEDIA_NODEVICE, o)) /\
  (word name -> length_ok (lit_pci ++ name ++ lit_nsid_readme ++ arg) ->
     znd_opt_parse (lit_pci ++ name ++ lit_nsid_readme ++ arg) =
       Ok (XZTL_OK, {| opt_dev_type := OPT_DEV_SPDK; opt_dev_name := name; opt_async := OPT_BE_SPDK; opt_nsid := 0 |})).
Proof.
  intros Hm [_ Ha]. split.
  - intros ty H0 H6 Hl. eexists. rewrite (parse_dev name ty _ None); [reflexivity|done..| |reflexivity].
    right. eexists. split; [reflexivity|]. apply (word_app lit_be_readme); [split; [discriminate|repeat constructor]|done].
  - intros Hw Hl. apply parse_pci; [done..| |reflexivity].
    apply (word_app lit_nsid_readme); [split; [discriminate|repeat constructor]|done].
Qed.

(** [/dev/nvme2n1?be=thrpool] and [pci:0000:01:00.0?nsid=1] *)
Lemma znd_opt_parse_readme_witness :
  (exists o, znd_opt_parse ([47; 100; 101; 118; 47; 110; 118; 109; 101; 50; 110; 49] ++ lit_be_readme ++ [116; 104; 114; 112; 111; 111; 108]) = Ok (ZND_MEDIA_NODEVICE, o)) /\
  znd_opt_parse (lit_pci ++ [48; 48; 48; 48; 58; 48; 49; 58; 48; 48; 46; 48] ++ lit_nsid_readme ++ [49]) =
    Ok (XZTL_OK, {| opt_dev_type := OPT_DEV_SPDK; opt_dev_name := [48; 48; 48; 48; 58; 48; 49; 58; 48; 48; 46; 48]; opt_async := OPT_BE_SPDK; opt_nsid := 0 |}).
Proof.
  split.
  - apply (znd_opt_parse_readme [47; 100; 101; 118; 47; 110; 118; 109; 101; 50; 110; 49] [116; 104; 114; 112; 111; 111; 108]) with (ty := OPT_DEV_BLK);
      [repeat constructor|split; [discriminate|repeat constructor]|reflexivity|right; split; reflexivity|split; discriminate].
  - apply (znd_opt_parse_readme [48; 48; 48; 48; 58; 48; 49; 58; 48; 48; 46; 48] [49]);
      [repeat constructor|split; [discriminate|repeat constructor]|split; [discriminate|repeat constructor]|split; discriminate].
Defined.

(** With the SPDK and libaio backends the number of read contexts fits the array of 256 read resources for 2
    to 258 processors only: with fewer the difference of unsigned integers wraps around. *)
Theorem set_ctx_iodepth_bound cpu_num o : 0 <= cpu_num < 2 ^ 32 -> opt_async o = OPT_BE_SPDK \/ opt_async o = OPT_BE_LIBAIO ->
  (fst (znd_media_set_ctx_iodepth cpu_num o) <= XZTL_READ_RS_NUM <-> 2 <= cpu_num <= 258).
Proof.
  intros Hc Ho. unfold znd_media_set_ctx_iodepth.
  replace ((opt_async o =? OPT_BE_SPDK) || (opt_async o =? OPT_BE_LIBAIO)) with true by (by destruct Ho as [-> | ->]).
  cbn [fst]. unfold XZTL_READ_RS_NUM. destruct (Z.le_gt_cases 2 cpu_num) as [H|H].
  - assert (u32 (cpu_num - 2) = cpu_num - 2) as -> by (unfold wrap; apply Z.mod_small; lia).
    destruct (Z.ltb_spec 0 (cpu_num - 2)); lia.
  - assert (u32 (cpu_num - 2) = cpu_num - 2 + 2 ^ 32) as ->.
    { unfold wrap. rewrite <- (Z.mod_add _ 1) by lia. apply Z.mod_small. lia. }
    destruct (Z.ltb_spec 0 (cpu_num - 2 + 2 ^ 32)); lia.
Qed.
