(* ===== verification/Zns.v ===== *)
(** What the library relies on from the device and its queue.

    [QueueLaws] is the bookkeeping of an asynchronous queue, errors included: a
    submission that returns 0 puts exactly one command in flight, a failed one
    none, and a completion takes exactly one command out.  [ZnsLaws] adds what a
    healthy zoned namespace guarantees: a context is available below the queue
    depth, a write at the write pointer of a zone with no other write in flight
    is accepted and stores its data, a read returns the stored data, and a
    command in flight completes after finitely many pokes, without error.

    Both state documented behaviour of xNVMe and of the NVMe ZNS command set.
    Device.v gives an instance. *)

From S2P Require Import Prelude Types Media.

(** A command in flight. *)
Record pend := { pe_arg : nat; pe_op : nvm_op; pe_slba : Z; pe_nlb : Z; pe_dbuf : Z }.

Class QueueLaws (D : Type) `{!Xnvme D} := {
  q_pending : D -> list pend;
  q_get : forall d, q_pending (snd (xq_get_cmd_ctx d)) = q_pending d;
  q_outs : forall d, xq_outstanding d = length (q_pending d);
  q_put : forall d ctx, q_pending (xq_put_cmd_ctx d ctx) = q_pending d;
  q_submit : forall d m ctx arg op slba nlb dbuf,
    let '(ret, d') := xq_submit d m ctx arg op slba nlb dbuf in
    if ctrue ret then q_pending d' = q_pending d
    else q_pending d' ≡ₚ {| pe_arg := arg; pe_op := op; pe_slba := slba; pe_nlb := nlb;
                            pe_dbuf := dbuf |} :: q_pending d;
  q_poke : forall d,
    match xq_poke1 d with
    | (None, d') => q_pending d' = q_pending d
    | (Some cp, d') => exists e, q_pending d ≡ₚ e :: q_pending d' /\ pe_arg e = cp_arg cp
    end;
  q_sync : forall d slba nlb dbuf, q_pending (snd (xq_read_sync d slba nlb dbuf)) = q_pending d
}.

(** Contents of a namespace: sector, byte in the sector. *)
Definition contents := Z -> Z -> Z.

(** The effect of a write of [nlb + 1] sectors at [slba] from [dbuf]. *)
Definition sector_write (data : contents) (m : memory) (slba nlb dbuf : Z) : contents :=
  fun sec off =>
    if (slba <=? sec) && (sec <=? slba + nlb)
    then m (dbuf + (sec - slba) * ZNS_ALIGMENT + off) else data sec off.

(** The transfer of a read of [nlb + 1] sectors at [slba] to [dbuf]. *)
Definition sector_read (data : contents) (slba nlb dbuf : Z) (m : memory) : memory :=
  fun a =>
    if (dbuf <=? a) && (a <? dbuf + (nlb + 1) * ZNS_ALIGMENT)
    then data (slba + (a - dbuf) / ZNS_ALIGMENT) ((a - dbuf) mod ZNS_ALIGMENT) else m a.

(** The transfer a completed command has made to the host memory. *)
Definition pend_dma (data : contents) (e : pend) (m : memory) : memory :=
  match pe_op e with
  | NVM_READ => sector_read data (pe_slba e) (pe_nlb e) (pe_dbuf e) m
  | _ => m
  end.

Class ZnsLaws (D : Type) `{HX : !Xnvme D} `{!QueueLaws D} := {
  z_nsect : Z;                       (* sectors from one zone to the next *)
  z_zcap : Z;                        (* writable sectors of a zone *)
  z_depth : nat;                     (* commands the queue holds *)
  z_wp : D -> Z -> Z;                (* write pointer of a zone *)
  z_data : D -> contents;
  z_lag : D -> nat;                  (* pokes until the next completion, at most *)
  z_geo : 0 < z_zcap <= z_nsect;
  z_get : forall d, (length (q_pending d) < z_depth)%nat ->
    exists ctx d', xq_get_cmd_ctx d = (Some ctx, d') /\ z_wp d' = z_wp d /\ z_data d' = z_data d;
  z_put : forall d ctx,
    z_wp (xq_put_cmd_ctx d ctx) = z_wp d /\ z_data (xq_put_cmd_ctx d ctx) = z_data d;
  z_write : forall d m ctx arg zone slba nlb dbuf,
    zone * z_nsect <= slba -> slba + nlb < zone * z_nsect + z_zcap -> 0 <= nlb ->
    slba = z_wp d zone ->
    (forall e, e ∈ q_pending d -> pe_op e = NVM_WRITE /\ pe_slba e / z_nsect <> zone) ->
    exists d', xq_submit d m ctx arg NVM_WRITE slba nlb dbuf = (0, d') /\
      (forall zone', z_wp d' zone' = if zone' =? zone then slba + nlb + 1 else z_wp d zone') /\
      (forall sec off, z_data d' sec off = sector_write (z_data d) m slba nlb dbuf sec off);
  z_read : forall d m ctx arg slba nlb dbuf,
    exists d', xq_submit d m ctx arg NVM_READ slba nlb dbuf = (0, d') /\
      z_wp d' = z_wp d /\ z_data d' = z_data d;
  z_read_sync : forall d slba nlb dbuf,
    exists dma d', xq_read_sync d slba nlb dbuf = (0, dma, d') /\
      z_wp d' = z_wp d /\ z_data d' = z_data d /\
      forall m a, dma m a = sector_read (z_data d) slba nlb dbuf m a;
  z_poke : forall d,
    match xq_poke1 d with
    | (None, d') => z_wp d' = z_wp d /\ z_data d' = z_data d /\
        (z_lag d' <= z_lag d)%nat /\ (q_pending d <> [] -> (z_lag d' < z_lag d)%nat)
    | (Some cp, d') => z_wp d' = z_wp d /\ z_data d' = z_data d /\ cp_status cp = 0 /\
        exists e, q_pending d ≡ₚ e :: q_pending d' /\ pe_arg e = cp_arg cp /\
          (forall m, cp_dma cp m = pend_dma (z_data d) e m)
    end
}.
