(* ===== verification/Device.v ===== *)
(** A device for the witnesses: a zoned namespace with its write pointers and
    the contents of its sectors, and a submission queue whose commands complete
    in order, one per poke.

    It implements the interface [Xnvme] of Media.v and satisfies the contracts
    of Zns.v.  A write is accepted when it starts at the write pointer of its
    zone, which it then advances; otherwise the submission fails. *)

From S2P Require Import Prelude Types Sim Stats Media Zns.

Record queued := { qd_ctx : nat; qd_pend : pend }.

Record simdev := {
  sd_next : nat;                     (* next command context *)
  sd_queue : list queued;            (* submitted, not completed *)
  sd_wp : Z -> Z;                    (* write pointer of every zone *)
  sd_data : contents;
  sd_log : list (Z * Z * Z)          (* accepted writes: slba, nlb, buffer *)
}.

Definition sd_enqueue (d : simdev) (ctx : nat) (e : pend) : simdev :=
  {| sd_next := sd_next d;
     sd_queue := sd_queue d ++ [{| qd_ctx := ctx; qd_pend := e |}];
     sd_wp := sd_wp d; sd_data := sd_data d; sd_log := sd_log d |}.

Definition sd_submit (d : simdev) (m : memory) (ctx arg : nat) (op : nvm_op) (slba nlb dbuf : Z)
    : Z * simdev :=
  let zone := slba / sd_zone_size in
  let e := {| pe_arg := arg; pe_op := op; pe_slba := slba; pe_nlb := nlb; pe_dbuf := dbuf |} in
  match op with
  | NVM_READ => (0, sd_enqueue d ctx e)
  | _ =>
      if sd_wp d zone =? slba then
        (0, sd_enqueue
              {| sd_next := sd_next d; sd_queue := sd_queue d;
                 sd_wp := fun z => if z =? zone then slba + nlb + 1 else sd_wp d z;
                 sd_data := sector_write (sd_data d) m slba nlb dbuf;
                 sd_log := sd_log d ++ [(slba, nlb, dbuf)] |} ctx e)
      else (1, d)
  end.

Definition sd_poke (d : simdev) : option completion * simdev :=
  match sd_queue d with
  | [] => (None, d)
  | p :: q =>
      (Some {| cp_ctx := qd_ctx p; cp_arg := pe_arg (qd_pend p); cp_status := 0;
               cp_cdw0 := 0; cp_dma := pend_dma (sd_data d) (qd_pend p) |},
       {| sd_next := sd_next d; sd_queue := q; sd_wp := sd_wp d;
          sd_data := sd_data d; sd_log := sd_log d |})
  end.

#[export] Instance simdev_xnvme : Xnvme simdev := {
  xq_get_cmd_ctx := fun d =>
    (Some (sd_next d),
     {| sd_next := S (sd_next d); sd_queue := sd_queue d; sd_wp := sd_wp d;
        sd_data := sd_data d; sd_log := sd_log d |});
  xq_put_cmd_ctx := fun d _ => d;
  xq_submit := sd_submit;
  xq_poke1 := sd_poke;
  xq_outstanding := fun d => length (sd_queue d);
  xq_read_sync := fun d slba nlb dbuf => (0, sector_read (sd_data d) slba nlb dbuf, d)
}.

#[export, refine] Instance simdev_queue : QueueLaws simdev := {
  q_pending := fun d => qd_pend <$> sd_queue d
}.
Proof.
  - done.
  - intros d. simpl. by rewrite length_fmap.
  - done.
  - intros d m ctx arg op slba nlb dbuf. simpl. unfold sd_submit.
    destruct op; [destruct (_ =? _)| |destruct (_ =? _)]; simpl; rewrite ?fmap_app; simpl;
      rewrite <- ?Permutation_cons_append; done.
  - intros d. simpl. unfold sd_poke. destruct (sd_queue d) as [|p q] eqn:E; simpl.
    + by rewrite E.
    + by exists (qd_pend p).
  - done.
Defined.

#[export, refine] Instance simdev_zns : ZnsLaws simdev := {
  z_nsect := sd_zone_size;
  z_zcap := ZTL_PRO_SEC_NUM_INZONE;
  z_depth := 1024;
  z_wp := sd_wp;
  z_data := sd_data;
  z_lag := fun _ => 0%nat
}.
Proof.
  - done.
  - intros d _. simpl. eexists _, _. split; done.
  - done.
  - intros d m ctx arg zone slba nlb dbuf Hlo Hhi Hn Hwp _. simpl. unfold sd_submit.
    assert (slba / sd_zone_size = zone) as ->.
    { change ZTL_PRO_SEC_NUM_INZONE with 24576 in Hhi. unfold sd_zone_size in *. zdiv. }
    rewrite Hwp, Z.eqb_refl. eexists. split; [reflexivity|]. done.
  - intros d m ctx arg slba nlb dbuf. simpl. eexists. done.
  - intros d slba nlb dbuf. simpl. eexists _, _. done.
  - intros d. simpl. unfold sd_poke. destruct (sd_queue d) as [|p q] eqn:E; simpl.
    + by split_and!.
    + split_and!; try done. by exists (qd_pend p).
Defined.

(** * A concrete device, command and request *)

Definition sim_dev : simdev :=
  {| sd_next := 0; sd_queue := []; sd_wp := fun z => z * sd_zone_size;
     sd_data := fun _ _ => 0; sd_log := [] |}.

Definition sim_mcmd : xztl_io_mcmd :=
  {| mc_opcode := 0; mc_submitted := 0; mc_synch := 0; mc_callback_err_cnt := 0; mc_sequence := 0;
     mc_sequence_zn := 0; mc_buf_off := 0; mc_cpsize := 0; mc_naddr := 0; mc_status := 0;
     mc_nsec := 0; mc_addr := 0; mc_prp := 0; mc_paddr := 0; mc_callback := None;
     mc_media_ctx := None |}.

(** A write request of [size] bytes at [buf], as zrocks_write sets it up. *)
Definition sim_ucmd (buf size : Z) : xztl_io_ucmd :=
  {| uc_id := 1; uc_buf := buf; uc_size := size; uc_offset := 0; uc_prov_type := 0; uc_app_md := 1;
     uc_status := 0; uc_mcmd := replicate 1024 None; uc_node_id := [0; 0]; uc_start := [0; 0];
     uc_num := [0; 0]; uc_pieces := 0; uc_nmcmd := 0; uc_moffset := replicate 1024 0;
     uc_msec := replicate 1024 0; uc_ncb := 0; uc_completed := 0; uc_minflight := replicate 256 0 |}.

(** An I/O context that serves the request [u] on a group of [nodes] nodes. *)
Definition sim_io (nodes : nat) (u : xztl_io_ucmd) : iostate simdev :=
  {| io_g := sim_group nodes; io_cmds := replicate 1024 sim_mcmd; io_u := u; io_prov := sim_prov;
     io_node := None; io_stats := xztl_stats_init; io_dev := sim_dev; io_mem := fun a => a mod 251 |}.
