(* ===== verification/Io.v ===== *)
(** The I/O engine: src/xztl/src/ztl-io.c.

    Completion callbacks and the write path [ztl_io_write_ucmd], over the state of
    one I/O context.  The geometry fields
    the code reads ([geo.nbytes], [geo.zn_grp], the device's [nsect]) and the
    number of metadata zones are parameters of the section. *)

From S2P Require Import Prelude Types Stats ProGrp Media.

Section Io.

Context {D : Type} `{!Xnvme D}.
Context (geo_nbytes geo_zn_grp dev_nsect meta : Z).
Implicit Types (s : iostate D) (c : nat).

(** [xztl_media_submit_io] *)
Definition media_submit_io s c : option (Z * iostate D) :=
  znd_media_submit_io geo_zn_grp dev_nsect s c.

(** [xztl_stats_inc(type, val)] *)
Definition stats_inc s (type val : Z) : option (iostate D) :=
  st ← xztl_stats_inc (io_stats s) type val;
  Some (io_set_stats s st).

(** * Completion *)

(** The common error path of the two callbacks: count the failure and retry up
    to [MAX_CALLBACK_ERR_CNT] times.  The boolean says that the callback
    returns here.  The log line reads [ucmd->moffset[mcmd->sequence]]. *)
Definition callback_retry (fail_type submit_fail_type : Z) s c : option (bool * iostate D) :=
  s1 ← stats_inc s fail_type 1;
  cmd ← io_cmds s1 !! c;
  _ ← (uc_moffset (io_u s1)).[mc_sequence cmd];
  let cnt := u8 (mc_callback_err_cnt cmd + 1) in
  s2 ← upd_cmd s1 c (fun m => mc_set_callback_err_cnt m cnt);
  if cnt <? MAX_CALLBACK_ERR_CNT then
    '(ret, s3) ← media_submit_io s2 c;
    if ctrue ret then
      s4 ← stats_inc s3 submit_fail_type 1;
      _ ← (uc_moffset (io_u s4)).[mc_sequence cmd];
      Some (true, s4)
    else Some (true, s3)
  else
    Some (false, io_set_u s2 (uc_set_status (io_u s2) (u8 (mc_status cmd)))).

Definition ztl_io_read_callback_mcmd s c : option (iostate D) :=
  cmd ← io_cmds s !! c;
  if ctrue (mc_status cmd) then
    '(_, s') ← callback_retry XZTL_STATS_READ_CALLBACK_FAIL XZTL_STATS_READ_SUBMIT_FAIL s c;
    Some s'
  else
    Some (io_set_mem s (memcpy (io_mem s) (uc_buf (io_u s) + mc_buf_off cmd)
                               (mc_prp cmd + mc_sequence cmd) (mc_cpsize cmd))).

Definition write_callback_done s c : option (iostate D) :=
  cmd ← io_cmds s !! c;
  mi ← aset (uc_minflight (io_u s)) (mc_sequence_zn cmd) 0;
  let u := uc_set_minflight (io_u s) mi in
  let u := uc_set_ncb u (u16 (uc_ncb u + 1)) in
  if uc_ncb u =? uc_nmcmd u then
    g ← ztl_pro_free meta (io_g s) (io_prov s);
    Some (io_set_g (io_set_u s u) g)
  else Some (io_set_u s u).

Definition ztl_io_write_callback_mcmd s c : option (iostate D) :=
  cmd ← io_cmds s !! c;
  if ctrue (mc_status cmd) then
    '(returned, s') ← callback_retry XZTL_STATS_WRITE_CALLBACK_FAIL XZTL_STATS_WRITE_SUBMIT_FAIL s c;
    if (returned : bool) then Some s' else write_callback_done s' c
  else
    mo ← aset (uc_moffset (io_u s)) (mc_sequence cmd) (mc_paddr cmd);
    write_callback_done (io_set_u s (uc_set_moffset (io_u s) mo)) c.

(** [cmd->callback(cmd)] *)
Definition run_callback s c : option (iostate D) :=
  cmd ← io_cmds s !! c;
  cb ← mc_callback cmd;
  match cb with
  | CB_WRITE => ztl_io_write_callback_mcmd s c
  | CB_READ => ztl_io_read_callback_mcmd s c
  end.

(** What the completion stores in the command. *)
Definition complete_cmd (cp : completion) (m : xztl_io_mcmd) : xztl_io_mcmd :=
  let m := mc_set_status m (u16 (cp_status cp)) in
  let m := if negb (ctrue (mc_status m)) && (mc_opcode m =? XZTL_ZONE_APPEND)
           then mc_set_paddr m (cp_cdw0 cp) else m in
  if mc_opcode m =? XZTL_CMD_WRITE then mc_set_paddr m (maddr_sect (mc_addr m)) else m.

Definition znd_media_async_cb s (cp : completion) : option (iostate D) :=
  let c := cp_arg cp in
  s1 ← upd_cmd s c (complete_cmd cp);
  s2 ← run_callback s1 c;
  cmd ← io_cmds s2 !! c;
  ctx ← mc_media_ctx cmd;
  Some (io_set_dev s2 (xq_put_cmd_ctx (io_dev s2) ctx)).

(** [ztl_io_poke_ctx]: at most one completion *)
Definition ztl_io_poke_ctx s : option (iostate D) :=
  match xq_poke1 (io_dev s) with
  | (None, d) => Some (io_set_dev s d)
  | (Some cp, d) =>
      znd_media_async_cb (io_set_mem (io_set_dev s d) (cp_dma cp (io_mem s))) cp
  end.

(** * The write path: commands of one piece *)

(** Local variables of the loop that populates the media commands:
    [cmd_i], [zone_sector_num], [boff] and the rows of [zn_cmd_id]. *)
Record popst := {
  ps_cmd_i : Z; ps_zsn : list Z; ps_boff : Z; ps_ids : list (list Z); ps_s : iostate D
}.

Definition write_mcmd (old : xztl_io_mcmd) (cmd_i zn_i paddr boff : Z) : xztl_io_mcmd :=
  {| mc_opcode := XZTL_CMD_WRITE; mc_submitted := 0; mc_synch := 0; mc_callback_err_cnt := 0;
     mc_sequence := cmd_i; mc_sequence_zn := zn_i; mc_buf_off := mc_buf_off old;
     mc_cpsize := mc_cpsize old; mc_naddr := 1; mc_status := 0; mc_nsec := ZTL_IO_SEC_MCMD;
     mc_addr := maddr_set_sect
                  (maddr_set_zone (maddr_set_grp 0 (maddr_grp paddr)) (maddr_zone paddr))
                  (maddr_sect paddr);
     mc_prp := boff; mc_paddr := mc_paddr old; mc_callback := Some CB_WRITE;
     mc_media_ctx := mc_media_ctx old |}.

Definition populate_one (p : popst) (zn_i : Z) : option popst :=
  left ← (ps_zsn p).[zn_i];
  if left <=? 0 then Some p else
  let s := ps_s p in
  old ← (io_cmds s).[ps_cmd_i p];
  pa ← (pa_addr (io_prov s)).[zn_i];
  let cmd := write_mcmd old (ps_cmd_i p) zn_i pa (ps_boff p) in
  cmds ← aset (io_cmds s) (ps_cmd_i p) cmd;
  zsn ← aset (ps_zsn p) zn_i (left - mc_nsec cmd);
  pal ← aset (pa_addr (io_prov s)) zn_i (maddr_set_sect pa (maddr_sect pa + mc_nsec cmd));
  msec ← aset (uc_msec (io_u s)) (ps_cmd_i p) (mc_nsec cmd);
  mcmd ← aset (uc_mcmd (io_u s)) (ps_cmd_i p) (Some (Z.to_nat (ps_cmd_i p)));
  row ← (ps_ids p).[zn_i];
  if 2000 <=? Z.of_nat (length row) then None else
  ids ← aset (ps_ids p) zn_i (row ++ [ps_cmd_i p]);
  let prov := {| pa_addr := pal; pa_nsec := pa_nsec (io_prov s); pa_naddr := pa_naddr (io_prov s) |} in
  let u := uc_set_mcmd (uc_set_msec (io_u s) msec) mcmd in
  Some {| ps_cmd_i := ps_cmd_i p + 1; ps_zsn := zsn;
          ps_boff := u64 (ps_boff p + geo_nbytes * mc_nsec cmd); ps_ids := ids;
          ps_s := io_set_u (io_set_prov (io_set_cmds s cmds) prov) u |}.

(** [for (zn_i = 0; zn_i < prov->naddr; zn_i++)] *)
Fixpoint populate_for (n : nat) (zn_i : Z) (p : popst) : option popst :=
  match n with
  | O => Some p
  | S n' => p' ← populate_one p zn_i; populate_for n' (zn_i + 1) p'
  end.

(** [while (cmd_i < num)] *)
Fixpoint populate_while (fuel : nat) (num : Z) (p : popst) : outcome popst :=
  if ps_cmd_i p <? num then
    match fuel with
    | O => OutOfFuel
    | S fuel' =>
        p' ← lift (populate_for (Z.to_nat (pa_naddr (io_prov (ps_s p)))) 0 p);
        populate_while fuel' num p'
    end
  else Ok p.

(** [zone_sector_num[i] = prov->nsec[i]] for [i < naddr], zero elsewhere. *)
Definition zone_sector_num (prov : app_pro_addr) : option (list Z) :=
  if decide (Z.to_nat (pa_naddr prov) <= length (pa_nsec prov) /\ Z.to_nat (pa_naddr prov) <= 128)%nat
  then Some (take (Z.to_nat (pa_naddr prov)) (pa_nsec prov) ++
             replicate (128 - Z.to_nat (pa_naddr prov)) 0)
  else None.

Definition populate (num boff : Z) s : outcome popst :=
  zsn ← lift (zone_sector_num (io_prov s));
  populate_while (Z.to_nat num) num
    {| ps_cmd_i := 0; ps_zsn := zsn; ps_boff := boff; ps_ids := replicate 128 []; ps_s := s |}.

(** * The write path: submission *)

(** Local variables of the submission loop: [submitted], [zn_cmd_id_index]. *)
Record subst := { ss_submitted : Z; ss_idx : list Z; ss_s : iostate D }.

(** One visit of zone [zn_i].  The boolean is the source's [zn_i--]: the
    submission failed and the same zone is visited next. *)
Definition submit_zone (ids : list (list Z)) (zn_i : Z) (p : subst) : option (bool * subst) :=
  let s := ss_s p in
  row ← ids.[zn_i];
  index ← (ss_idx p).[zn_i];
  if Z.of_nat (length row) <=? index then Some (false, p) else
  mi ← (uc_minflight (io_u s)).[zn_i];
  if ctrue mi then
    s1 ← ztl_io_poke_ctx s;
    Some (false, {| ss_submitted := ss_submitted p; ss_idx := ss_idx p; ss_s := s1 |})
  else
    mil ← aset (uc_minflight (io_u s)) zn_i 1;
    let s1 := io_set_u s (uc_set_minflight (io_u s) mil) in
    k ← row.[index];
    pc ← (uc_mcmd (io_u s1)).[k];
    c ← pc;
    '(ret, s2) ← media_submit_io s1 c;
    if ctrue ret then
      s3 ← stats_inc s2 XZTL_STATS_WRITE_SUBMIT_FAIL 1;
      s4 ← ztl_io_poke_ctx s3;
      Some (true, {| ss_submitted := ss_submitted p; ss_idx := ss_idx p; ss_s := s4 |})
    else
      s3 ← upd_cmd s2 c (fun m => mc_set_submitted m 1);
      idx ← aset (ss_idx p) zn_i (index + 1);
      let submitted := u32 (ss_submitted p + 1) in
      s4 ← (if submitted mod 8 =? 0 then ztl_io_poke_ctx s3 else Some s3);
      Some (false, {| ss_submitted := submitted; ss_idx := idx; ss_s := s4 |}).

(** [for (zn_i = 0; zn_i < prov->naddr; zn_i++)] *)
Fixpoint submit_for (fuel : nat) (ids : list (list Z)) (zn_i : Z) (p : subst) : outcome subst :=
  if zn_i <? pa_naddr (io_prov (ss_s p)) then
    match fuel with
    | O => OutOfFuel
    | S fuel' =>
        '(again, p') ← lift (submit_zone ids zn_i p);
        submit_for fuel' ids (if (again : bool) then zn_i else zn_i + 1) p'
    end
  else Ok p.

(** [while (submitted < num)] *)
Fixpoint submit_while (fuel : nat) (ids : list (list Z)) (num : Z) (p : subst) : outcome subst :=
  if ss_submitted p <? num then
    match fuel with
    | O => OutOfFuel
    | S fuel' =>
        p' ← submit_for fuel ids 0 p;
        submit_while fuel' ids num p'
    end
  else Ok p.

(** [while (ucmd->ncb < ucmd->nmcmd) ztl_io_poke_ctx(q->tctx)] *)
Fixpoint wait_while (fuel : nat) s : outcome (iostate D) :=
  if uc_ncb (io_u s) <? uc_nmcmd (io_u s) then
    match fuel with
    | O => OutOfFuel
    | S fuel' => s' ← lift (ztl_io_poke_ctx s); wait_while fuel' s'
    end
  else Ok s.

(** * The write path: [ztl_io_write_ucmd] *)

(** [for (cmd_i = 0; cmd_i < 128; cmd_i++) ucmd->minflight[cmd_i] = 0] *)
Definition clear_minflight (mi : list Z) : option (list Z) :=
  if decide (128 <= length mi)%nat then Some (replicate 128 0 ++ drop 128 mi) else None.

(** Populate, submit and complete the commands of one piece. *)
Definition write_piece_io (fuel : nat) (num boff : Z) s : outcome (Z * iostate D) :=
  p ← populate num boff s;
  let s1 := ps_s p in
  let u := uc_set_pieces (io_u s1) (u16 (uc_pieces (io_u s1) + 1)) in
  mi ← lift (clear_minflight (uc_minflight u));
  let u := uc_set_ncb (uc_set_nmcmd (uc_set_minflight u mi) (u16 num)) 0 in
  q ← submit_while fuel (ps_ids p) num
        {| ss_submitted := 0; ss_idx := replicate 128 0; ss_s := io_set_u s1 u |};
  s2 ← wait_while fuel (ss_s q);
  Ok (ps_boff p, s2).

(** The node's counters after a piece of [num] commands. *)
Definition node_account (num : Z) (node : ztl_pro_node) : ztl_pro_node :=
  let node := pn_set_left node (u64 (pn_left node - num)) in
  let node := pn_set_used node (u64 (pn_used node + num)) in
  let node := pn_set_nr_valid node (u64 (pn_nr_valid node + num)) in
  if pn_left node =? 0 then pn_set_status node XZTL_ZMD_NODE_FULL else node.

Definition write_failure s : Z * iostate D :=
  (XZTL_ZTL_IO_S_ERR,
   io_set_u s (uc_set_completed (uc_set_status (io_u s) (u8 XZTL_ZTL_IO_S_ERR)) 1)).

(** The body of the [reget] loop once the writer holds node [n], with [left]
    commands to write: [inl] is the state and the values of [left] and [boff]
    for the next turn, [inr] the end of the function. *)
Definition write_on_node (fuel : nat) (left boff : Z) (n : nat) s
    : outcome ((Z * Z * iostate D) + (Z * iostate D)) :=
  node ← lift (node_at (io_g s) n);
  let num := i32 (if pn_left node <=? left then pn_left node else left) in
  g ← lift (upd_node (io_g s) n (fun nd =>
        if pn_level nd =? -1 then pn_set_level nd (uc_prov_type (io_u s)) else nd));
  let u := io_u s in
  nids ← lift (aset (uc_node_id u) (uc_pieces u) (pn_id node));
  starts ← lift (aset (uc_start u) (uc_pieces u) (pn_used node));
  nums ← lift (aset (uc_num u) (uc_pieces u) num);
  let s := io_set_u (io_set_g s g) (uc_set_num (uc_set_start (uc_set_node_id u nids) starts) nums) in
  '(g, prov, ret) ← lift (ztl_pro_new (io_g s) (u32 num) (i32 (pn_id node)) (io_prov s)
                            (u32 (pn_used node)));
  let s := io_set_prov (io_set_g s g) prov in
  if ctrue ret then
    let prov := {| pa_addr := pa_addr prov;
                   pa_nsec := replicate (Z.to_nat (pa_naddr prov)) 0 ++
                              drop (Z.to_nat (pa_naddr prov)) (pa_nsec prov);
                   pa_naddr := pa_naddr prov |} in
    g ← lift (ztl_pro_free meta (io_g s) prov);
    Ok (inr (write_failure (io_set_prov (io_set_g s g) prov)))
  else
    '(boff, s) ← write_piece_io fuel num boff s;
    g ← lift (upd_node (io_g s) n (node_account num));
    let s := io_set_g s g in
    let left := left - num in
    if 0 <? left then Ok (inl (left, boff, s))
    else Ok (inr (XZTL_OK, io_set_u s (uc_set_completed (io_u s) 1))).

(** The body of the [reget] loop. *)
Definition write_piece (fuel : nat) (left boff : Z) s
    : outcome ((Z * Z * iostate D) + (Z * iostate D)) :=
  '(qn, g, ret) ← lift (ztl_pro_get_node (io_g s) (io_node s));
  let s := io_set_node (io_set_g s g) qn in
  if ctrue ret then Ok (inr (write_failure s)) else
  n ← lift qn;
  write_on_node fuel left boff n s.

Fixpoint write_pieces (fuel : nat) (left boff : Z) s : outcome (Z * iostate D) :=
  match fuel with
  | O => OutOfFuel
  | S fuel' =>
      r ← write_piece fuel left boff s;
      match r with
      | inl (left', boff', s') => write_pieces fuel' left' boff' s'
      | inr res => Ok res
      end
  end.

Definition ztl_io_write_ucmd (fuel : nat) s : outcome (Z * iostate D) :=
  let size := uc_size (io_u s) in
  let nsec := u32 (size / geo_nbytes) in
  if ctrue (size mod u32 (geo_nbytes * ZTL_IO_SEC_MCMD)) then Ok (write_failure s) else
  let ncmd := nsec / ZTL_IO_SEC_MCMD in
  if XZTL_IO_MAX_MCMD <? ncmd then Ok (write_failure s) else
  let prov := {| pa_addr := pa_addr (io_prov s); pa_nsec := pa_nsec (io_prov s); pa_naddr := 0 |} in
  let u := uc_set_ncb (uc_set_completed (uc_set_nmcmd (io_u s) (u16 ncmd)) 0) 0 in
  write_pieces fuel ncmd (u64 (uc_buf u)) (io_set_u (io_set_prov s prov) u).

End Io.
