(* ===== verification/IoPopulate.v ===== *)
(** The media commands of one write piece: correctness of the loop of
    [ztl_io_write_ucmd] that populates them (src/xztl/src/ztl-io.c, 447-499).

    Command [k] of a piece of [num] commands targets zone [k mod 64] of the
    allocation, 8 sectors per turn, and takes the [k]-th chunk of the buffer. *)

From S2P Require Import Prelude Types Stats ProGrp Media Io.

Section Populate.

Context {D : Type} `{!Xnvme D}.
Context (geo_nbytes : Z).
Context (num boff : Z) (s0 : iostate D).
Implicit Types (p : popst (D := D)).

(** The commands [j < k] of zone [z], in submission order. *)
Definition stripe_ids (k z : Z) : list Z :=
  (fun r => z + 64 * Z.of_nat r) <$> seq 0 (Z.to_nat (stripe_count k z)).

(** The address and the buffer of command [j]. *)
Definition cmd_addr (a j : Z) : Z := maddr_set_sect a (maddr_sect a + 8 * (j / 64)).
Definition cmd_buf (j : Z) : Z := u64 (boff + geo_nbytes * 8 * j).

(** [s] is [s0] up to what the loop changes: the pool, the addresses of the
    provisioning context, and the command tables of the request. *)
Definition pop_frame (s : iostate D) : Prop :=
  io_g s = io_g s0 /\ io_node s = io_node s0 /\ io_stats s = io_stats s0 /\
  io_dev s = io_dev s0 /\ io_mem s = io_mem s0 /\
  pa_nsec (io_prov s) = pa_nsec (io_prov s0) /\ pa_naddr (io_prov s) = pa_naddr (io_prov s0) /\
  (exists msec mcmd, io_u s = uc_set_mcmd (uc_set_msec (io_u s0) msec) mcmd).

Definition pop_lengths (s : iostate D) : Prop :=
  Z.of_nat (length (io_cmds s)) = ZTL_IO_RC_NUM /\
  Z.of_nat (length (uc_mcmd (io_u s))) = XZTL_WIO_MAX_MCMD /\
  Z.of_nat (length (uc_msec (io_u s))) = XZTL_WIO_MAX_MCMD /\
  ctx_wf (io_prov s).

(** After [k] commands. *)
Record pop_inv (k : Z) p : Prop := {
  pi_k : ps_cmd_i p = k;
  pi_boff : ps_boff p = cmd_buf k;
  pi_zlen : length (ps_zsn p) = 128%nat;
  pi_ilen : length (ps_ids p) = 128%nat;
  pi_zsn : forall z, 0 <= z < nzones_of num ->
    (ps_zsn p).[z] = Some (8 * (share num z - stripe_count k z));
  pi_prov : forall z a, 0 <= z < nzones_of num -> (pa_addr (io_prov s0)).[z] = Some a ->
    (pa_addr (io_prov (ps_s p))).[z] = Some (maddr_set_sect a (maddr_sect a + 8 * stripe_count k z));
  pi_ids : forall z, 0 <= z < nzones_of num -> (ps_ids p).[z] = Some (stripe_ids k z);
  pi_rest : forall j, k <= j -> (io_cmds (ps_s p)).[j] = (io_cmds s0).[j];
  pi_cmds : forall j old a, 0 <= j < k ->
    (io_cmds s0).[j] = Some old -> (pa_addr (io_prov s0)).[j mod 64] = Some a ->
    (io_cmds (ps_s p)).[j] = Some (write_mcmd old j (j mod 64) (cmd_addr a j) (cmd_buf j));
  pi_mcmd : forall j, 0 <= j < k -> (uc_mcmd (io_u (ps_s p))).[j] = Some (Some (Z.to_nat j));
  pi_frame : pop_frame (ps_s p);
  pi_len : pop_lengths (ps_s p)
}.

Lemma stripe_count_share k z :
  0 <= k <= num -> 0 <= z < nzones_of num -> stripe_count k z <= share num z.
Proof using. unfold stripe_count, share, nzones_of. intros. zcase; zdiv. Qed.

Lemma stripe_ids_len k z :
  0 <= k -> 0 <= z < 64 -> Z.of_nat (length (stripe_ids k z)) = stripe_count k z.
Proof using.
  intros. unfold stripe_ids. rewrite length_fmap, length_seq.
  unfold stripe_count. rewrite Z2Nat.id; [done|]. zdiv.
Qed.

(** Command [k] opens a new element of zone [k mod 64] and of no other. *)
Lemma stripe_count_succ k z :
  0 <= k -> 0 <= z < 64 ->
  stripe_count (k + 1) z = stripe_count k z + (if z =? k mod 64 then 1 else 0).
Proof using. unfold stripe_count. intros. zcase; zdiv. Qed.

Lemma stripe_ids_succ k z :
  0 <= k -> 0 <= z < 64 ->
  stripe_ids (k + 1) z = stripe_ids k z ++ (if z =? k mod 64 then [k] else []).
Proof using.
  intros. unfold stripe_ids. rewrite stripe_count_succ by lia.
  destruct (Z.eqb_spec z (k mod 64)) as [->|].
  2:{ by rewrite Z.add_0_r, app_nil_r. }
  assert (Hs : stripe_count k (k mod 64) = k / 64) by (unfold stripe_count; zdiv).
  rewrite Hs. assert (0 <= k / 64) by zdiv.
  replace (Z.to_nat (k / 64 + 1)) with (Z.to_nat (k / 64) + 1)%nat by lia.
  rewrite seq_app, fmap_app. simpl. do 2 f_equal. zdiv.
Qed.

Lemma cmd_zone_range k : 0 <= k < num -> 0 <= k mod 64 < nzones_of num.
Proof using. unfold nzones_of. intros. zdiv. Qed.

Lemma stripe_count_diag k : stripe_count k (k mod 64) = k / 64.
Proof using. unfold stripe_count. zdiv. Qed.

Lemma row_below_share k : 0 <= k < num -> k / 64 < share num (k mod 64).
Proof using. unfold share. intros. zcase; zdiv. Qed.

Lemma populate_one_skip k p z :
  pop_inv k p -> 0 <= z < nzones_of num -> share num z <= stripe_count k z ->
  populate_one geo_nbytes p z = Some p.
Proof using.
  intros Hi Hz Hs. unfold populate_one. rewrite (pi_zsn _ _ Hi z Hz). simpl.
  by replace (8 * (share num z - stripe_count k z) <=? 0) with true by lia.
Qed.

Lemma prov_addr_some z : ctx_wf (io_prov s0) -> 0 <= z < nzones_of num ->
  exists a, (pa_addr (io_prov s0)).[z] = Some a.
Proof using.
  intros [Ha _] Hz. apply aget_is_Some. revert Ha. cst. unfold nzones_of in Hz. lia.
Qed.

Lemma cmd_buf_succ k : u64 (cmd_buf k + geo_nbytes * 8) = cmd_buf (k + 1).
Proof using. unfold cmd_buf. rewrite wrap_add_l. f_equal. lia. Qed.

Lemma set_sect_advance a c :
  maddr_sect a + 8 * c < 2 ^ 36 -> 0 <= c ->
  maddr_set_sect (maddr_set_sect a (maddr_sect a + 8 * c))
    (maddr_sect (maddr_set_sect a (maddr_sect a + 8 * c)) + 8)
  = maddr_set_sect a (maddr_sect a + 8 * (c + 1)).
Proof using.
  intros Hb Hc. pose proof (maddr_sect_range a). unfold maddr_set_sect at 1 2.
  rewrite bf_set_set, maddr_sect_set_sect, wrap_small by lia.
  unfold maddr_set_sect. f_equal. lia.
Qed.

Hypothesis (Hnum : 0 <= num <= ZTL_IO_RC_NUM).
Hypothesis (Hfit : forall z a, 0 <= z < nzones_of num -> (pa_addr (io_prov s0)).[z] = Some a ->
                     maddr_sect a + 8 * share num z < 2 ^ 36).

(** The state after one turn for a zone that still has sectors: command [k]
    is filled in, and the tables gain its entries. *)
Record pop_step (k a : Z) (old : xztl_io_mcmd) p (p' : popst (D := D)) : Prop := {
  pt_k : ps_cmd_i p' = k + 1;
  pt_boff : ps_boff p' = u64 (ps_boff p + geo_nbytes * 8);
  pt_zsn : length (ps_zsn p') = length (ps_zsn p) /\
    (ps_zsn p').[k mod 64] = Some (8 * (share num (k mod 64) - k / 64) - 8) /\
    forall z, z <> k mod 64 -> (ps_zsn p').[z] = (ps_zsn p).[z];
  pt_ids : length (ps_ids p') = length (ps_ids p) /\
    (ps_ids p').[k mod 64] = Some (stripe_ids k (k mod 64) ++ [k]) /\
    forall z, z <> k mod 64 -> (ps_ids p').[z] = (ps_ids p).[z];
  pt_cmds : length (io_cmds (ps_s p')) = length (io_cmds (ps_s p)) /\
    (io_cmds (ps_s p')).[k] = Some (write_mcmd old k (k mod 64) (cmd_addr a k) (ps_boff p)) /\
    forall j, j <> k -> (io_cmds (ps_s p')).[j] = (io_cmds (ps_s p)).[j];
  pt_prov : length (pa_addr (io_prov (ps_s p'))) = length (pa_addr (io_prov (ps_s p))) /\
    (pa_addr (io_prov (ps_s p'))).[k mod 64] =
      Some (maddr_set_sect (cmd_addr a k) (maddr_sect (cmd_addr a k) + 8)) /\
    forall z, z <> k mod 64 -> (pa_addr (io_prov (ps_s p'))).[z] = (pa_addr (io_prov (ps_s p))).[z];
  pt_mcmd : length (uc_mcmd (io_u (ps_s p'))) = length (uc_mcmd (io_u (ps_s p))) /\
    (uc_mcmd (io_u (ps_s p'))).[k] = Some (Some (Z.to_nat k)) /\
    forall j, j <> k -> (uc_mcmd (io_u (ps_s p'))).[j] = (uc_mcmd (io_u (ps_s p))).[j];
  pt_msec : length (uc_msec (io_u (ps_s p'))) = length (uc_msec (io_u (ps_s p)));
  pt_frame : pop_frame (ps_s p')
}.

Lemma populate_one_run k p a old :
  pop_inv k p -> 0 <= k < num ->
  (pa_addr (io_prov s0)).[k mod 64] = Some a -> (io_cmds s0).[k] = Some old ->
  exists p', populate_one geo_nbytes p (k mod 64) = Some p' /\ pop_step k a old p p'.
Proof using Hnum.
  intros [Hk Hb Hzl Hil Hz Hp Hids Hrest Hcmds Hmc Hfr Hlen] Hkn Ha Hold.
  pose proof (cmd_zone_range k Hkn) as Hzr.
  assert (Hz64 : 0 <= k mod 64 < 64) by (apply Z.mod_pos_bound; lia).
  destruct Hlen as (Hl1 & Hl2 & Hl3 & Hl4 & Hl5). cst.
  unfold populate_one. rewrite (Hz _ Hzr). simpl.
  pose proof (row_below_share k Hkn) as Hrow. rewrite stripe_count_diag.
  replace (8 * (share num (k mod 64) - k / 64) <=? 0) with false by lia.
  rewrite Hk, Hrest, Hold by lia. simpl. rewrite (Hp _ _ Hzr Ha). simpl.
  rewrite stripe_count_diag. fold (cmd_addr a k).
  destruct (aset_spec (io_cmds (ps_s p)) k (write_mcmd old k (k mod 64) (cmd_addr a k) (ps_boff p)))
    as (cmds & -> & Lc & Gc & Oc); [lia|]. simpl.
  destruct (aset_spec (ps_zsn p) (k mod 64) (8 * (share num (k mod 64) - k / 64) - ZTL_IO_SEC_MCMD))
    as (zsn & -> & Lz & Gz & Oz); [lia|]. simpl.
  destruct (aset_spec (pa_addr (io_prov (ps_s p))) (k mod 64)
    (maddr_set_sect (cmd_addr a k) (maddr_sect (cmd_addr a k) + ZTL_IO_SEC_MCMD)))
    as (pal & -> & Lp & Gp & Op); [lia|]. simpl.
  destruct (aset_spec (uc_msec (io_u (ps_s p))) k ZTL_IO_SEC_MCMD) as (msec & -> & Lm & Gm & Om);
    [lia|]. simpl.
  destruct (aset_spec (uc_mcmd (io_u (ps_s p))) k (Some (Z.to_nat k))) as (mcmd & -> & Lu & Gu & Ou);
    [lia|]. simpl.
  rewrite (Hids _ Hzr). simpl. rewrite stripe_ids_len, stripe_count_diag by lia.
  replace (2000 <=? k / 64) with false by (symmetry; apply Z.leb_gt; zdiv).
  destruct (aset_spec (ps_ids p) (k mod 64) (stripe_ids k (k mod 64) ++ [k]))
    as (ids & -> & Li & Gi & Oi); [lia|]. simpl.
  eexists. split; [reflexivity|].
  destruct Hfr as (F1 & F2 & F3 & F4 & F5 & F6 & F7 & msec0 & mcmd0 & F8).
  constructor; simpl; auto.
  split_and!; auto. rewrite F8. by exists msec, mcmd.
Qed.

Lemma pop_step_inv k p a old p' :
  pop_inv k p -> 0 <= k < num ->
  (pa_addr (io_prov s0)).[k mod 64] = Some a -> (io_cmds s0).[k] = Some old ->
  pop_step k a old p p' -> pop_inv (k + 1) p'.
Proof using Hnum Hfit.
  intros [Hk Hb Hzl Hil Hz Hp Hids Hrest Hcmds Hmc Hfr Hlen] Hkn Ha Hold.
  intros [Tk Tb (Lz & Gz & Oz) (Li & Gi & Oi) (Lc & Gc & Oc) (Lp & Gp & Op) (Lu & Gu & Ou) Lm Tf].
  assert (Hone : forall z, 0 <= z < nzones_of num -> 0 <= z < 64) by (unfold nzones_of; lia).
  constructor; auto; try congruence.
  - rewrite Tb, Hb. apply cmd_buf_succ.
  - intros z Hzz. rewrite stripe_count_succ by auto with lia.
    destruct (Z.eqb_spec z (k mod 64)) as [->|Hne].
    + rewrite Gz, stripe_count_diag. f_equal. lia.
    + rewrite Oz, Hz, Z.add_0_r by done. done.
  - intros z a' Hzz Ha'. rewrite stripe_count_succ by auto with lia.
    destruct (Z.eqb_spec z (k mod 64)) as [->|Hne].
    + replace a' with a by congruence. rewrite Gp. f_equal. rewrite stripe_count_diag.
      pose proof (Hfit _ _ (cmd_zone_range k Hkn) Ha). pose proof (row_below_share k Hkn).
      apply set_sect_advance; [lia|zdiv].
    + rewrite Op, (Hp _ _ Hzz Ha'), Z.add_0_r by done. done.
  - intros z Hzz. rewrite stripe_ids_succ by auto with lia.
    destruct (Z.eqb_spec z (k mod 64)) as [->|Hne]; [done|].
    rewrite Oi, Hids, app_nil_r by done. done.
  - intros j Hj. rewrite Oc, Hrest by lia. done.
  - intros j old' a' Hj Ho Ha'. destruct (decide (j = k)) as [->|Hne].
    + rewrite Gc, Hb. congruence.
    + rewrite Oc by done. apply Hcmds; auto. lia.
  - intros j Hj. destruct (decide (j = k)) as [->|Hne]; [done|]. rewrite Ou by done. apply Hmc. lia.
  - destruct Tf as (_ & _ & _ & _ & _ & Hns & _). destruct Hfr as (_ & _ & _ & _ & _ & Hns' & _).
    unfold pop_lengths, ctx_wf in *. rewrite Lc, Lm, Lu, Lp, Hns, <- Hns'. done.
Qed.

Lemma populate_one_step k p :
  ctx_wf (io_prov s0) -> pop_inv k p -> 0 <= k < num ->
  exists p', populate_one geo_nbytes p (k mod 64) = Some p' /\ pop_inv (k + 1) p'.
Proof using Hnum Hfit.
  intros Hwf Hi Hkn.
  destruct (prov_addr_some _ Hwf (cmd_zone_range k Hkn)) as [a Ha].
  destruct ((io_cmds s0).[k]) as [old|] eqn:Hold.
  - destruct (populate_one_run k p a old) as (p' & Hrun & Hst); auto.
    exists p'. split; [done|]. by eapply pop_step_inv.
  - rewrite <- (pi_rest _ _ Hi) in Hold by lia. apply eq_None_not_Some in Hold. destruct Hold.
    apply aget_is_Some. destruct (pi_len _ _ Hi) as (Hl1 & _). cst. lia.
Qed.

Hypothesis (Hwf : ctx_wf (io_prov s0)).
Hypothesis (Hna : pa_naddr (io_prov s0) = nzones_of num).

(** Turn [r] of the loop, from zone [z] on. *)
Lemma populate_for_inv r (n : nat) : forall z p,
  0 <= r -> 0 <= z -> z + Z.of_nat n = nzones_of num -> (64 <= num \/ r = 0) ->
  pop_inv (Z.min num (64 * r + z)) p ->
  exists p', populate_for geo_nbytes n z p = Some p' /\
    pop_inv (Z.min num (64 * r + nzones_of num)) p'.
Proof using Hnum Hfit Hwf.
  induction n as [|n IH]; intros z p Hr Hz Hn Hbig Hi; simpl.
  { exists p. split; [done|]. by replace (nzones_of num) with z by lia. }
  assert (z < 64) by (unfold nzones_of in Hn; lia).
  destruct (Z.lt_ge_cases (64 * r + z) num) as [Hlt|Hge].
  - rewrite Z.min_r in Hi by lia.
    destruct (populate_one_step (64 * r + z) p) as (p' & Hp & Hi'); auto; [lia|].
    replace ((64 * r + z) mod 64) with z in Hp by zdiv.
    rewrite Hp. simpl. apply IH; auto; try lia.
    rewrite Z.min_r by lia. by rewrite Z.add_assoc.
  - rewrite Z.min_l in Hi by lia.
    rewrite (populate_one_skip num p z) by
      (auto; unfold nzones_of in *; auto; try lia; unfold share, stripe_count; zcase; zdiv).
    simpl. apply IH; auto; try lia. by rewrite Z.min_l by lia.
Qed.

Lemma populate_while_inv (fuel : nat) : forall r p,
  0 <= r -> (64 <= num \/ r = 0 \/ num <= 64 * r) -> num <= 64 * (r + Z.of_nat fuel) ->
  pop_inv (Z.min num (64 * r)) p ->
  exists p', populate_while geo_nbytes fuel num p = Ok p' /\ pop_inv num p'.
Proof using Hnum Hfit Hwf Hna.
  induction fuel as [|fuel IH]; intros r p Hr Hbig Hf Hi; simpl; rewrite (pi_k _ _ Hi).
  { replace (Z.min num (64 * r)) with num in * by lia.
    rewrite Z.ltb_irrefl. eauto. }
  destruct (Z.ltb_spec (Z.min num (64 * r)) num) as [Hlt|Hge].
  2:{ replace (Z.min num (64 * r)) with num in * by lia. eauto. }
  destruct (pi_frame _ _ Hi) as (_ & _ & _ & _ & _ & _ & Hn & _). rewrite Hn, Hna.
  destruct (populate_for_inv r (Z.to_nat (nzones_of num)) 0 p) as (p' & -> & Hi');
    auto; try (unfold nzones_of; lia).
  { by rewrite Z.add_0_r. }
  simpl. destruct (IH (r + 1) p') as (p'' & ? & ?); eauto; try lia.
  replace (Z.min num (64 * (r + 1))) with (Z.min num (64 * r + nzones_of num)); [done|].
  unfold nzones_of. lia.
Qed.

Hypothesis (Hsec : forall z, 0 <= z < nzones_of num ->
                     (pa_nsec (io_prov s0)).[z] = Some (8 * share num z)).
Hypothesis (Hlen : pop_lengths s0).

Lemma pop_inv_init zsn :
  zone_sector_num (io_prov s0) = Some zsn ->
  pop_inv 0 {| ps_cmd_i := 0; ps_zsn := zsn; ps_boff := cmd_buf 0;
               ps_ids := replicate 128 []; ps_s := s0 |}.
Proof using Hnum Hwf Hna Hsec Hlen.
  unfold zone_sector_num. case_decide as Hd; [|done]. intros [= <-].
  assert (Hc0 : forall z, 0 <= z < nzones_of num -> stripe_count 0 z = 0)
    by (unfold nzones_of, stripe_count; intros; zdiv).
  assert (Hrep : forall z, 0 <= z < nzones_of num -> (replicate 128 []).[z] = Some (@nil Z)).
  { intros z Hz. apply aget_replicate. unfold nzones_of in Hz. lia. }
  assert (Hrl : length (replicate 128 (@nil Z)) = 128%nat) by apply length_replicate.
  revert Hrep Hrl. generalize (replicate 128 (@nil Z)). intros rep Hrep Hrl.
  constructor; simpl; auto; try lia.
  - rewrite length_app, length_take, length_replicate. lia.
  - intros z Hz. rewrite Hc0, Z.sub_0_r by done. rewrite <- Hsec by done.
    unfold aget. rewrite !decide_True by lia. rewrite lookup_app_l; [apply lookup_take_lt; lia|].
    rewrite length_take. lia.
  - intros z a Hz Ha. rewrite Hc0, Z.mul_0_r, Z.add_0_r by done.
    unfold maddr_set_sect, maddr_sect. by rewrite bf_set_get by lia.
  - intros z Hz. unfold stripe_ids. rewrite Hc0 by done. by apply Hrep.
  - split_and!; auto. exists (uc_msec (io_u s0)), (uc_mcmd (io_u s0)). by destruct (io_u s0).
Qed.

(** The loop ends, and every command of the piece is in place. *)
Lemma populate_ok :
  boff = u64 boff ->
  exists p, populate geo_nbytes num boff s0 = Ok p /\ pop_inv num p.
Proof using Hnum Hfit Hwf Hna Hsec Hlen.
  intros Hboff. unfold populate.
  destruct (zone_sector_num (io_prov s0)) as [zsn|] eqn:Ez.
  2:{ unfold zone_sector_num in Ez. case_decide as Hd; [done|]. destruct Hd.
      destruct Hwf as [_ Hn]. cst. rewrite Hna. unfold nzones_of. lia. }
  simpl. pose proof (pop_inv_init zsn Ez) as Hi. unfold cmd_buf in Hi.
  rewrite Z.mul_0_r, Z.add_0_r, <- Hboff in Hi.
  apply (populate_while_inv (Z.to_nat num) 0); try lia.
  by rewrite Z.min_r by lia.
Qed.

End Populate.
