(* ===== verification/IoFlight.v ===== *)
(** Writes in flight: whatever the device does, errors and retries included, at
    most one write per zone of the piece is in flight, as sequential-write zones
    require (src/xztl/src/ztl-io.c, the [minflight] protocol of
    [ztl_io_write_ucmd] and [ztl_io_write_callback_mcmd]). *)

From stdpp Require Import relations.
From S2P Require Import Prelude Types Sim Stats ProGrp Media Zns Device Io.

(** The part of a command that no submission or completion changes. *)
Definition static (m : xztl_io_mcmd) : xztl_io_mcmd :=
  {| mc_opcode := mc_opcode m; mc_submitted := 0; mc_synch := mc_synch m; mc_callback_err_cnt := 0;
     mc_sequence := mc_sequence m; mc_sequence_zn := mc_sequence_zn m; mc_buf_off := mc_buf_off m;
     mc_cpsize := mc_cpsize m; mc_naddr := mc_naddr m; mc_status := 0; mc_nsec := mc_nsec m;
     mc_addr := mc_addr m; mc_prp := mc_prp m; mc_paddr := 0; mc_callback := mc_callback m;
     mc_media_ctx := None |}.

Definition is_write (m : xztl_io_mcmd) : Prop :=
  mc_opcode m = XZTL_CMD_WRITE /\ mc_synch m = 0 /\ mc_callback m = Some CB_WRITE.

Lemma static_eq m t :
  static m = t ->
  mc_opcode m = mc_opcode t /\ mc_synch m = mc_synch t /\ mc_callback m = mc_callback t /\
  mc_sequence m = mc_sequence t /\ mc_sequence_zn m = mc_sequence_zn t /\
  mc_nsec m = mc_nsec t /\ mc_addr m = mc_addr t /\ mc_prp m = mc_prp t.
Proof. by intros <-. Qed.

Lemma is_write_static m : is_write (static m) <-> is_write m.
Proof. done. Qed.

Lemma complete_cmd_static cp m : static (complete_cmd cp m) = static m.
Proof. unfold complete_cmd. by destruct (negb _ && _), (_ =? _). Qed.

Lemma complete_cmd_callback cp m : mc_callback (complete_cmd cp m) = mc_callback m.
Proof. unfold complete_cmd. by destruct (negb _ && _), (_ =? _). Qed.

Section Flight.

Context {D : Type} `{HX : !Xnvme D} `{HQ : !QueueLaws D}.
Context (geo_zn_grp dev_nsect meta : Z).
Implicit Types (s : iostate D) (c : nat).

Abbreviation submit_io := (media_submit_io geo_zn_grp dev_nsect).
Abbreviation poke := (ztl_io_poke_ctx geo_zn_grp dev_nsect meta).

Definition statics s : list xztl_io_mcmd := static <$> io_cmds s.

Lemma statics_lookup s c cmd :
  io_cmds s !! c = Some cmd -> statics s !! c = Some (static cmd).
Proof using. intros H. unfold statics. by rewrite list_lookup_fmap, H. Qed.

Lemma statics_inv s c t :
  statics s !! c = Some t -> exists cmd, io_cmds s !! c = Some cmd /\ static cmd = t.
Proof using.
  unfold statics. rewrite list_lookup_fmap. intros (cmd & H & ->)%fmap_Some_1. eauto.
Qed.

(** [upd_cmd] with a function that keeps the static part. *)
Lemma upd_cmd_statics s c f s' :
  upd_cmd s c f = Some s' -> (forall m, static (f m) = static m) ->
  exists cmd, io_cmds s !! c = Some cmd /\ io_cmds s' !! c = Some (f cmd) /\
    statics s' = statics s /\ s' = io_set_cmds s (<[c := f cmd]> (io_cmds s)).
Proof using.
  unfold upd_cmd. destruct (io_cmds s !! c) as [cmd|] eqn:E; [|done]. intros [= <-] Hf.
  exists cmd. split_and!; auto.
  - simpl. apply list_lookup_insert_eq. by eapply lookup_lt_Some.
  - unfold statics; simpl. rewrite list_fmap_insert, Hf. apply list_insert_id.
    by rewrite list_lookup_fmap, E.
Qed.

(** Everything but the commands, the device and the statistics is as before. *)
Definition same_rest s s' : Prop :=
  io_g s' = io_g s /\ io_u s' = io_u s /\ io_prov s' = io_prov s /\ io_node s' = io_node s /\
  io_mem s' = io_mem s.

Lemma stats_inc_rest s type val s' :
  stats_inc s type val = Some s' ->
  same_rest s s' /\ io_cmds s' = io_cmds s /\ io_dev s' = io_dev s.
Proof using. unfold stats_inc. intros H. opt_inv. by destruct s. Qed.

(** A write submission, whatever its result. *)
Lemma submit_write_spec s c cmd ret s' :
  io_cmds s !! c = Some cmd -> is_write cmd -> submit_io s c = Some (ret, s') ->
  same_rest s s' /\ io_stats s' = io_stats s /\ statics s' = statics s /\
  (exists ctx, io_cmds s' !! c = Some (mc_set_media_ctx cmd (Some ctx))) /\
  (if ctrue ret then q_pending (io_dev s') = q_pending (io_dev s)
   else q_pending (io_dev s') ≡ₚ
     {| pe_arg := c; pe_op := NVM_WRITE; pe_slba := maddr_sect (mc_addr cmd);
        pe_nlb := nlb_of cmd; pe_dbuf := mc_prp cmd |} :: q_pending (io_dev s)).
Proof using HQ.
  intros Hc (Hop & Hsy & _). unfold media_submit_io, znd_media_submit_io.
  rewrite Hc; simpl. rewrite Hop, Hsy; simpl.
  unfold znd_media_submit_write_asynch, submit_asynch. rewrite Hc; simpl.
  destruct (xq_get_cmd_ctx (io_dev s)) as [[ctx|] d1] eqn:Eg; simpl; [|done].
  pose proof (q_get (io_dev s)) as Hg. rewrite Eg in Hg. simpl in Hg.
  pose proof (q_submit d1 (io_mem s) ctx c NVM_WRITE (maddr_sect (mc_addr cmd))
                (nlb_of cmd) (mc_prp cmd)) as Hs.
  destruct (xq_submit _ _ _ _ _ _ _ _) as [ret' d2].
  intros H. opt_inv. apply upd_cmd_statics in E as (cmd' & Hc' & Hn & Hst & ->); [|done].
  assert (cmd' = cmd) as -> by congruence. simpl in *.
  split_and!; try done; [by exists ctx|].
  destruct (ctrue ret); simpl; [by rewrite q_put, Hs, Hg|by rewrite Hs, Hg].
Qed.

(** ** The invariant *)

(** [T] is the table of the static commands. *)
Definition pend_zone (T : list xztl_io_mcmd) (e : pend) : option Z :=
  mc_sequence_zn <$> T !! pe_arg e.

Definition pend_ok (T : list xztl_io_mcmd) (minflight : list Z) (e : pend) : Prop :=
  exists m, T !! pe_arg e = Some m /\ is_write m /\ pe_op e = NVM_WRITE /\
    pe_slba e = maddr_sect (mc_addr m) /\ minflight.[mc_sequence_zn m] = Some 1.

Record flight_ok (T : list xztl_io_mcmd) s : Prop := {
  fl_static : statics s = T;
  fl_pend : Forall (pend_ok T (uc_minflight (io_u s))) (q_pending (io_dev s));
  fl_one : NoDup (pend_zone T <$> q_pending (io_dev s))
}.

Lemma flight_ok_proper T s s' :
  statics s' = statics s -> uc_minflight (io_u s') = uc_minflight (io_u s) ->
  q_pending (io_dev s') = q_pending (io_dev s) -> flight_ok T s -> flight_ok T s'.
Proof using. intros Hs Hm Hp []. constructor; [congruence|..]; by rewrite ?Hm, Hp. Qed.

(** A zone whose flag is down has nothing in flight. *)
Lemma flight_zone_free T s z :
  flight_ok T s -> (uc_minflight (io_u s)).[z] <> Some 1 ->
  Forall (fun e => pend_zone T e <> Some z) (q_pending (io_dev s)).
Proof using.
  intros [_ Hp _] Hz. eapply Forall_impl; [exact Hp|]. intros e (m & Hm & _ & _ & _ & Hf) He.
  unfold pend_zone in He. rewrite Hm in He. simpl in He. congruence.
Qed.

(** Raising a flag keeps the invariant; so does lowering the flag of a zone
    with nothing in flight. *)
Lemma flight_set_minflight T s z v mi :
  flight_ok T s -> aset (uc_minflight (io_u s)) z v = Some mi ->
  v = 1 \/ Forall (fun e => pend_zone T e <> Some z) (q_pending (io_dev s)) ->
  flight_ok T (io_set_u s (uc_set_minflight (io_u s) mi)).
Proof using.
  intros [Hst Hp Hone] Ha Hv. constructor; try done. simpl.
  rewrite Forall_forall in Hp |- *. intros e He.
  destruct (Hp e He) as (m & Hm & Hw & Hop & Hsl & Hf). exists m. split_and!; auto.
  destruct (decide (mc_sequence_zn m = z)) as [Hz|Hz].
  - subst z. rewrite (aget_aset_eq _ _ _ _ Ha). destruct Hv as [->|Hv]; [done|].
    rewrite Forall_forall in Hv. destruct (Hv e He). unfold pend_zone. by rewrite Hm.
  - by rewrite (aget_aset_ne _ _ _ _ _ (not_eq_sym Hz) Ha).
Qed.

(** Adding a command of a flagged zone with nothing in flight. *)
Lemma flight_submit T s s' m e :
  flight_ok T s -> statics s' = T -> io_u s' = io_u s ->
  q_pending (io_dev s') ≡ₚ e :: q_pending (io_dev s) ->
  T !! pe_arg e = Some m -> is_write m -> pe_op e = NVM_WRITE ->
  pe_slba e = maddr_sect (mc_addr m) ->
  (uc_minflight (io_u s)).[mc_sequence_zn m] = Some 1 ->
  Forall (fun e' => pend_zone T e' <> Some (mc_sequence_zn m)) (q_pending (io_dev s)) ->
  flight_ok T s'.
Proof using.
  intros [Hst Hp Hone] Hst' Hu Hpe Hm Hw Hop Hsl Hf Hfree. constructor; [done|..].
  - rewrite Hpe, Hu. constructor; [by exists m|done].
  - rewrite Hpe. simpl. apply NoDup_cons. split; [|done].
    intros (e' & He & Hin)%list_elem_of_fmap. rewrite Forall_forall in Hfree.
    apply (Hfree e' Hin). rewrite <- He. unfold pend_zone. by rewrite Hm.
Qed.

(** Taking a command out. *)
Lemma flight_complete T s s' e :
  flight_ok T s -> statics s' = T -> uc_minflight (io_u s') = uc_minflight (io_u s) ->
  q_pending (io_dev s) ≡ₚ e :: q_pending (io_dev s') ->
  flight_ok T s' /\ pend_ok T (uc_minflight (io_u s)) e /\
  Forall (fun e' => pend_zone T e' <> pend_zone T e) (q_pending (io_dev s')).
Proof using.
  intros [Hst Hp Hone] Hst' Hu Hpe. rewrite Hpe in Hp, Hone. simpl in Hone.
  apply Forall_cons in Hp as [He Hp]. apply NoDup_cons in Hone as [Hn Hone].
  split_and!; auto; [constructor; auto; by rewrite Hu|].
  apply Forall_forall. intros e' Hin Heq. apply Hn. rewrite <- Heq.
  by apply (list_elem_of_fmap_2 (pend_zone T)).
Qed.

(** ** Completions *)

(** The retry of a failed write: it resubmits the command, whose zone still
    has its flag up, or leaves the commands and the queue alone. *)
Lemma callback_retry_flight ft sft T s c m b s' :
  flight_ok T s -> T !! c = Some m -> is_write m ->
  (uc_minflight (io_u s)).[mc_sequence_zn m] = Some 1 ->
  Forall (fun e => pend_zone T e <> Some (mc_sequence_zn m)) (q_pending (io_dev s)) ->
  callback_retry geo_zn_grp dev_nsect ft sft s c = Some (b, s') ->
  flight_ok T s' /\
  (b = false -> uc_minflight (io_u s') = uc_minflight (io_u s) /\ io_dev s' = io_dev s).
Proof using HQ.
  intros Hok Hm Hw Hf Hfree. unfold callback_retry. intros H. opt_inv.
  apply stats_inc_rest in E as ((_ & Hu & _) & Hc1 & Hd1).
  apply upd_cmd_statics in E2 as (cmd & Hcmd & Hn & Hst & Hset); [|done].
  assert (Hst2 : statics i0 = statics s) by (unfold statics in *; congruence).
  assert (Hu2 : io_u i0 = io_u s) by (by rewrite Hset).
  assert (Hd2 : io_dev i0 = io_dev s) by (by rewrite Hset).
  clear Hset. assert (Hok2 : flight_ok T i0) by (eapply flight_ok_proper; [..|exact Hok]; congruence).
  destruct (_ <? _).
  2:{ opt_inv. split; [eapply flight_ok_proper; [| | |exact Hok2]; done|]. intros _. simpl in *. split; congruence. }
  destruct (submit_io i0 c) as [[ret s3]|] eqn:Esub; simpl in H; [|done].
  assert (Hs0 : static (mc_set_callback_err_cnt cmd (u8 (mc_callback_err_cnt x + 1))) = m).
  { destruct Hok2 as [Hs _ _]. pose proof (statics_lookup _ _ _ Hn) as Hl.
    rewrite Hs, Hm in Hl. by injection Hl. }
  assert (Hw2 : is_write (mc_set_callback_err_cnt cmd (u8 (mc_callback_err_cnt x + 1)))).
  { by rewrite <- is_write_static, Hs0. }
  destruct (submit_write_spec _ _ _ _ _ Hn Hw2 Esub) as ((_ & Hu3 & _) & _ & Hst3 & _ & Hq).
  apply static_eq in Hs0 as (_ & _ & _ & _ & _ & _ & Had & _).
  destruct (ctrue ret); opt_inv.
  - apply stats_inc_rest in E as ((_ & Hu4 & _) & Hc4 & Hd4). split; [|done].
    eapply flight_ok_proper; [| | |exact Hok2]; unfold statics in *; congruence.
  - split; [|done]. rewrite <- Hu2 in Hf. rewrite <- Hd2 in Hfree.
    destruct Hok2 as [Hs2 ? ?]. eapply (flight_submit T i0); eauto; try done.
    all: simpl in *; congruence.
Qed.

Lemma write_callback_done_flight T s c m s' :
  flight_ok T s -> T !! c = Some m ->
  Forall (fun e => pend_zone T e <> Some (mc_sequence_zn m)) (q_pending (io_dev s)) ->
  write_callback_done meta s c = Some s' -> flight_ok T s'.
Proof using HQ.
  intros Hok Hm Hfree. unfold write_callback_done. intros H. opt_inv.
  assert (Hz : mc_sequence_zn x = mc_sequence_zn m).
  { pose proof (statics_lookup _ _ _ E) as Hl. rewrite (fl_static _ _ Hok), Hm in Hl.
    by injection Hl as ->. }
  rewrite Hz in E0.
  pose proof (flight_set_minflight T s _ 0 l Hok E0 (or_intror Hfree)) as Hok'.
  destruct (_ =? _); opt_inv; (eapply flight_ok_proper; [| | |exact Hok']; done).
Qed.

(** One completion, successful or not. *)
Lemma write_callback_flight T s c m s' :
  flight_ok T s -> T !! c = Some m -> is_write m ->
  (uc_minflight (io_u s)).[mc_sequence_zn m] = Some 1 ->
  Forall (fun e => pend_zone T e <> Some (mc_sequence_zn m)) (q_pending (io_dev s)) ->
  ztl_io_write_callback_mcmd geo_zn_grp dev_nsect meta s c = Some s' -> flight_ok T s'.
Proof using HQ.
  intros Hok Hm Hw Hf Hfree. unfold ztl_io_write_callback_mcmd.
  destruct (io_cmds s !! c) as [cmd|] eqn:Ec; simpl; [|done].
  destruct (ctrue (mc_status cmd)).
  - destruct (callback_retry _ _ _ _ s c) as [[b s1]|] eqn:Er; simpl; [|done].
    destruct (callback_retry_flight _ _ _ _ _ _ _ _ Hok Hm Hw Hf Hfree Er) as [Hok1 Hsame].
    destruct b; [by intros [= <-]|]. destruct (Hsame eq_refl) as [_ Hd].
    apply (write_callback_done_flight T s1 c m); auto. by rewrite Hd.
  - destruct (aset _ _ _) as [mo|] eqn:Ea; simpl; [|done].
    apply (write_callback_done_flight T _ c m); auto.
    eapply flight_ok_proper; [| | |exact Hok]; done.
Qed.

Lemma poke_flight T s s' :
  flight_ok T s -> poke s = Some s' -> flight_ok T s'.
Proof using HQ.
  intros Hok. unfold ztl_io_poke_ctx. pose proof (q_poke (io_dev s)) as Hq.
  destruct (xq_poke1 (io_dev s)) as [[cp|] d'].
  2:{ intros [= <-]. eapply flight_ok_proper; [| | |exact Hok]; done. }
  destruct Hq as (e & Hpe & Harg).
  set (s0 := io_set_mem (io_set_dev s d') (cp_dma cp (io_mem s))).
  destruct (flight_complete T s s0 e Hok) as (Hok0 & (m & Hm & Hw & _ & _ & Hf) & Hfree);
    [apply Hok|done|done|].
  unfold znd_media_async_cb. intros H. opt_inv.
  apply upd_cmd_statics in E as (cmd & Hc & Hn & Hst & ->); [|apply complete_cmd_static].
  rewrite <- Harg in *.
  apply (flight_ok_proper T i0); [done|done|apply q_put|].
  unfold run_callback in E0. rewrite Hn in E0. simpl in E0.
  rewrite complete_cmd_callback in E0.
  assert (static cmd = m) as Hsm.
  { pose proof (statics_lookup _ _ _ Hc) as Hl. rewrite (fl_static _ _ Hok0), Hm in Hl.
    by injection Hl. }
  apply static_eq in Hsm as (_ & _ & Hcb & _).
  rewrite Hcb, (proj2 (proj2 Hw)) in E0. simpl in E0.
  refine (write_callback_flight T _ (pe_arg e) m i0 _ Hm Hw _ _ E0); [|exact Hf|].
  - by apply (flight_ok_proper T s0).
  - eapply Forall_impl; [exact Hfree|]. intros e'. unfold pend_zone. by rewrite Hm.
Qed.

(** ** The table of the request is constant *)

Lemma submit_io_u s c ret s' : submit_io s c = Some (ret, s') -> io_u s' = io_u s.
Proof using.
  unfold media_submit_io, znd_media_submit_io, znd_media_submit_append_synch,
    znd_media_submit_write_synch, znd_media_submit_read_synch, znd_media_submit_append_asynch,
    znd_media_submit_read_asynch, znd_media_submit_write_asynch, submit_asynch, upd_cmd.
  destruct (io_cmds s !! c) as [cmd|]; simpl; [|done].
  destruct (xq_get_cmd_ctx _) as [[ctx|] d1], (xq_read_sync _ _ _ _) as [[r dma] d2];
    repeat case_match; simpl; try done; try (intros [= _ <-]; done);
    repeat case_match; intros; simplify_eq; done.
Qed.

Lemma callback_retry_mcmd ft sft s c b s' :
  callback_retry geo_zn_grp dev_nsect ft sft s c = Some (b, s') ->
  uc_mcmd (io_u s') = uc_mcmd (io_u s).
Proof using.
  unfold callback_retry. intros H. opt_inv. apply stats_inc_rest in E as ((_ & <- & _) & _).
  assert (Hu : io_u i0 = io_u i) by (unfold upd_cmd in E2; opt_inv; done). rewrite <- Hu.
  destruct (_ <? _); [|by opt_inv].
  destruct (submit_io i0 c) as [[ret s3]|] eqn:Es; simpl in H; [|done].
  apply submit_io_u in Es. rewrite <- Es. destruct (ctrue ret); opt_inv; [|done].
  by apply stats_inc_rest in E as ((_ & -> & _) & _).
Qed.

Lemma poke_mcmd s s' : poke s = Some s' -> uc_mcmd (io_u s') = uc_mcmd (io_u s).
Proof using.
  unfold ztl_io_poke_ctx. destruct (xq_poke1 (io_dev s)) as [[cp|] d']; [|by intros [= <-]].
  unfold znd_media_async_cb. intros H. opt_inv. simpl.
  assert (Hu : io_u i = io_u s) by (unfold upd_cmd in E; opt_inv; done). rewrite <- Hu.
  clear - E0. unfold run_callback in E0. destruct (io_cmds i !! cp_arg cp) as [x|] eqn:Ex; simpl in E0; [|done].
  assert (Hdone : forall s1 s2, write_callback_done meta s1 (cp_arg cp) = Some s2 ->
    uc_mcmd (io_u s2) = uc_mcmd (io_u s1)).
  { unfold write_callback_done. intros s1 s2 H. opt_inv. destruct (_ =? _); opt_inv; done. }
  destruct (mc_callback x) as [[]|]; simpl in E0; try done.
  - unfold ztl_io_write_callback_mcmd in E0. rewrite Ex in E0; simpl in E0.
    destruct (ctrue (mc_status x)).
    + destruct (callback_retry _ _ _ _ i _) as [[b s1]|] eqn:Er; simpl in E0; [|done].
      apply callback_retry_mcmd in Er. rewrite <- Er.
      destruct b; [by injection E0 as <-|by apply Hdone].
    + destruct (aset _ _ _); simpl in E0; [|done]. by apply Hdone in E0.
  - unfold ztl_io_read_callback_mcmd in E0. rewrite Ex in E0; simpl in E0.
    destruct (ctrue (mc_status x)); [|by injection E0 as <-].
    destruct (callback_retry _ _ _ _ i _) as [[b s1]|] eqn:Er; simpl in E0; [|done].
    injection E0 as <-. by apply callback_retry_mcmd in Er.
Qed.

(** ** Steps of the submission *)

(** Row [z] of [ids] lists commands of zone [z]. *)
Definition rows_ok (T : list xztl_io_mcmd) (mcmd : list (option nat)) (ids : list (list Z)) : Prop :=
  forall z row i k, ids.[z] = Some row -> row.[i] = Some k ->
    exists c m, mcmd.[k] = Some (Some c) /\ T !! c = Some m /\ is_write m /\ mc_sequence_zn m = z.

(** One turn of the submission loop at any zone, or one poke of the wait loop. *)
Inductive io_step (ids : list (list Z)) : subst (D := D) -> subst (D := D) -> Prop :=
  | step_zone z p again p' :
      submit_zone geo_zn_grp dev_nsect meta ids z p = Some (again, p') -> io_step ids p p'
  | step_poke p s' :
      poke (ss_s p) = Some s' ->
      io_step ids p {| ss_submitted := ss_submitted p; ss_idx := ss_idx p; ss_s := s' |}.

Lemma stats_inc_flight T s type val s' :
  stats_inc s type val = Some s' -> flight_ok T s -> flight_ok T s'.
Proof using.
  intros ((_ & Hu & _) & Hc & Hd)%stats_inc_rest. apply flight_ok_proper; unfold statics; congruence.
Qed.

(** The state with which a zone's next command is submitted. *)
Lemma submit_flight T s z mil c m ret s' :
  flight_ok T s -> (uc_minflight (io_u s)).[z] = Some 0 ->
  aset (uc_minflight (io_u s)) z 1 = Some mil ->
  T !! c = Some m -> is_write m -> mc_sequence_zn m = z ->
  submit_io (io_set_u s (uc_set_minflight (io_u s) mil)) c = Some (ret, s') -> flight_ok T s'.
Proof using HQ.
  intros Hok H0 Ha Hm Hw <- Hsub.
  pose proof (flight_zone_free T s (mc_sequence_zn m) Hok ltac:(congruence)) as Hfree.
  pose proof (flight_set_minflight T s _ 1 mil Hok Ha (or_introl eq_refl)) as Hok1.
  set (s1 := io_set_u s _) in *.
  pose proof (fl_static _ _ Hok1) as Hst. rewrite <- Hst in Hm.
  destruct (statics_inv _ _ _ Hm) as (cmd & Hc & Hs). rewrite Hst in Hm.
  assert (Hw' : is_write cmd) by (by rewrite <- is_write_static, Hs).
  destruct (submit_write_spec _ _ _ _ _ Hc Hw' Hsub) as ((_ & Hu & _) & _ & Hst' & _ & Hq).
  apply static_eq in Hs as (_ & _ & _ & _ & _ & _ & Had & _).
  destruct (ctrue ret).
  - apply (flight_ok_proper T s1); auto. by rewrite Hu.
  - eapply (flight_submit T s1); [done|congruence|done|exact Hq|exact Hm|done|done| | |].
    + simpl. by rewrite Had.
    + by apply (aget_aset_eq _ _ _ _ Ha).
    + exact Hfree.
Qed.

Lemma submit_zone_flight T M ids z p again p' :
  rows_ok T M ids -> uc_mcmd (io_u (ss_s p)) = M -> flight_ok T (ss_s p) ->
  submit_zone geo_zn_grp dev_nsect meta ids z p = Some (again, p') ->
  flight_ok T (ss_s p') /\ uc_mcmd (io_u (ss_s p')) = M.
Proof using HQ.
  intros Hrows HM Hok. unfold submit_zone.
  destruct (ids.[z]) as [row|] eqn:Erow; simpl; [|done].
  destruct ((ss_idx p).[z]) as [index|]; simpl; [|done].
  destruct (_ <=? index); [by intros [= <- <-]|].
  destruct ((uc_minflight _).[z]) as [mi|] eqn:Emi; simpl; [|done].
  destruct (ctrue mi) eqn:Ect.
  { destruct (poke (ss_s p)) as [s1|] eqn:Ep; simpl; intros [= <- <-]. simpl.
    split; [by eapply poke_flight|]. by rewrite (poke_mcmd _ _ Ep). }
  apply ctrue_false in Ect as ->.
  destruct (aset _ z 1) as [mil|] eqn:Ea; simpl; [|done].
  destruct (row.[index]) as [k|] eqn:Ek; simpl; [|done]. rewrite HM.
  destruct (Hrows z row index k Erow Ek) as (c & m & -> & Hm & Hw & Hz). simpl.
  destruct (submit_io _ c) as [[ret s2]|] eqn:Es; simpl; [|done].
  pose proof (submit_flight T _ z mil c m ret s2 Hok Emi Ea Hm Hw Hz Es) as Hok2.
  assert (HM2 : uc_mcmd (io_u s2) = M) by (by rewrite (submit_io_u _ _ _ _ Es)).
  clear Es. destruct (ctrue ret).
  - destruct (stats_inc s2 _ 1) as [s3|] eqn:E3; simpl; [|done].
    destruct (poke s3) as [s4|] eqn:Ep; simpl; intros [= <- <-]. simpl.
    rewrite (poke_mcmd _ _ Ep). split; [eapply poke_flight, Ep; by eapply stats_inc_flight|].
    by apply stats_inc_rest in E3 as ((_ & -> & _) & _).
  - destruct (upd_cmd s2 c _) as [s3|] eqn:E3; simpl; [|done].
    apply upd_cmd_statics in E3 as (cmd & _ & _ & Hst & ->); [|done].
    set (s3 := io_set_cmds s2 _) in *.
    assert (Hok3 : flight_ok T s3) by (by apply (flight_ok_proper T s2)).
    destruct (aset (ss_idx p) z _) as [idx|]; simpl; [|done].
    destruct (_ =? 0); [destruct (poke s3) as [s4|] eqn:Ep|]; simpl; intros [= <- <-]; simpl.
    + rewrite (poke_mcmd _ _ Ep). split; [by eapply poke_flight|done].
    + done.
Qed.

Lemma io_step_flight T M ids p p' :
  rows_ok T M ids -> io_step ids p p' ->
  flight_ok T (ss_s p) /\ uc_mcmd (io_u (ss_s p)) = M ->
  flight_ok T (ss_s p') /\ uc_mcmd (io_u (ss_s p')) = M.
Proof using HQ.
  intros Hrows [z p1 again p2 Hz|p1 s' Hp] [Hok HM].
  - by eapply submit_zone_flight.
  - simpl. rewrite (poke_mcmd _ _ Hp). split; [by eapply poke_flight|done].
Qed.

End Flight.

(** * Property *)


(** Two write commands, of the first two zones of the simulated group. *)
Definition flight_example : subst (D := simdev) :=
  let cmd k := write_mcmd sim_mcmd k k (ze_addr (sim_zone (Z.to_nat k + 2))) (32768 * k) in
  let u := uc_set_mcmd (sim_ucmd 0 65536) [Some 0%nat; Some 1%nat] in
  {| ss_submitted := 0; ss_idx := [0; 0];
     ss_s := io_set_cmds (sim_io 1 u) [cmd 0; cmd 1] |}.

(** [flight_example] after a submission turn for either zone. *)
Definition flight_example_run : option (subst (D := simdev)) :=
  '(_, p1) ← submit_zone 1 1 2 [[0]; [1]] 0 flight_example;
  '(_, p2) ← submit_zone 1 1 2 [[0]; [1]] 1 p1;
  Some p2.

