(* ===== verification/IoSubmit.v ===== *)
(** The submission and completion of the commands of one piece on a healthy
    zoned device (src/xztl/src/ztl-io.c, 506-555): every command is accepted,
    every zone is written in order, and the loops end. *)

From S2P Require Import Prelude Types Stats ProGrp Media Zns Io IoPopulate IoFlight.

(** * Sums over the zones of a piece *)

Definition zones (n : Z) : list Z := Z.of_nat <$> seq 0 (Z.to_nat n).

Definition total (n : Z) (f : Z -> Z) : Z := zsum (f <$> zones n).

Definition bump (f : Z -> Z) (z : Z) : Z -> Z := fun z' => if z' =? z then f z' + 1 else f z'.

Lemma elem_of_zones n z : z ∈ zones n <-> 0 <= z < n.
Proof.
  unfold zones. rewrite list_elem_of_fmap. split.
  - intros (i & -> & Hi%elem_of_seq). lia.
  - intros Hz. exists (Z.to_nat z). rewrite elem_of_seq. lia.
Qed.

Lemma zones_succ n : 0 <= n -> zones (n + 1) = zones n ++ [n].
Proof.
  intros Hn. unfold zones. replace (Z.to_nat (n + 1)) with (Z.to_nat n + 1)%nat by lia.
  rewrite seq_app, fmap_app. simpl. by rewrite Z2Nat.id.
Qed.

Lemma total_succ n f : 0 <= n -> total (n + 1) f = total n f + f n.
Proof. intros Hn. unfold total. rewrite zones_succ, fmap_app, zsum_app by done. simpl. lia. Qed.

Lemma total_ext n f g : (forall z, 0 <= z < n -> f z = g z) -> total n f = total n g.
Proof.
  intros H. unfold total. f_equal. apply list_fmap_ext. intros i z Hz.
  apply H, elem_of_zones. by eapply list_elem_of_lookup_2.
Qed.

(** Induction on the number of zones. *)
Lemma zind (P : Z -> Prop) :
  P 0 -> (forall n, 0 <= n -> P n -> P (n + 1)) -> forall n, 0 <= n -> P n.
Proof. intros H0 HS n Hn. by apply natlike_ind. Qed.

Lemma total_share num : 0 <= num -> total (nzones_of num) (share num) = num.
Proof.
  intros Hn. rewrite <- (share_sum_full num) at 3 by done.
  assert (0 <= nzones_of num) as Hz by (unfold nzones_of; lia). revert Hz.
  generalize (nzones_of num). apply zind; [by rewrite share_sum_0|].
  intros n Hn' IH. by rewrite total_succ, IH, share_sum_succ.
Qed.

Lemma total_bump n f z : 0 <= n -> total n (bump f z) = total n f + (if (0 <=? z) && (z <? n) then 1 else 0).
Proof.
  revert n. apply zind; [unfold total; simpl; repeat zcase; simpl; lia|].
  intros n Hn IH. rewrite !total_succ, IH by done. unfold bump. repeat zcase; simpl; lia.
Qed.

(** Counters bounded by [g] that do not add up to it leave some zone behind. *)
Lemma total_le n f g :
  0 <= n -> (forall z, 0 <= z < n -> f z <= g z) ->
  total n f <= total n g /\ (total n f = total n g -> forall z, 0 <= z < n -> f z = g z).
Proof.
  revert n. apply (zind (fun n => (forall z, 0 <= z < n -> f z <= g z) ->
    total n f <= total n g /\ (total n f = total n g -> forall z, 0 <= z < n -> f z = g z))).
  { intros _. split; [done|]. intros _ z Hz. lia. }
  intros n Hn IH Hle. rewrite !total_succ by done.
  destruct IH as [IH1 IH2]; [intros z Hz; apply Hle; lia|]. pose proof (Hle n ltac:(lia)).
  split; [lia|]. intros Heq z Hz. destruct (decide (z = n)) as [->|]; [lia|apply IH2; lia].
Qed.

(** * The invariant of the submission *)

Section Submission.

Context {D : Type} `{HX : !Xnvme D} `{HQ : !QueueLaws D} `{HZ : !ZnsLaws D}.
Context (geo_zn_grp dev_nsect meta : Z).

(** The piece: [num] commands, in [nzones_of num] zones; zone [z] of the piece
    is zone [devz z] of the device, written from sector [zstart z] on; command
    [j] takes its data from [dbuf j]. *)
Context (num : Z) (zstart devz dbuf : Z -> Z) (ids : list (list Z)).
Context (s0 : iostate D) (g2 : app_group).
Implicit Types (s : iostate D) (cnt : Z -> Z).

Abbreviation submit_io := (media_submit_io geo_zn_grp dev_nsect).
Abbreviation poke := (ztl_io_poke_ctx geo_zn_grp dev_nsect meta).
Abbreviation nz := (nzones_of num).
Abbreviation T := (statics s0).

Definition slba (j : Z) : Z := zstart (j mod 64) + 8 * (j / 64).

Record cmd_spec (j : Z) (m : xztl_io_mcmd) : Prop := {
  cs_write : is_write m;
  cs_seq : mc_sequence m = j;
  cs_zn : mc_sequence_zn m = j mod 64;
  cs_nlb : nlb_of m = 7;
  cs_sect : maddr_sect (mc_addr m) = slba j;
  cs_prp : mc_prp m = dbuf j
}.

(** What the population of the piece has set up. *)
Record piece_ready : Prop := {
  pr_num : 0 < num <= ZTL_IO_RC_NUM;
  pr_cmds : forall j, 0 <= j < num -> exists m, T !! Z.to_nat j = Some m /\ cmd_spec j m;
  pr_mcmd : forall j, 0 <= j < num -> (uc_mcmd (io_u s0)).[j] = Some (Some (Z.to_nat j));
  pr_ids : forall z, 0 <= z < nz -> ids.[z] = Some (stripe_ids num z);
  pr_fit : forall z, 0 <= z < nz ->
    devz z * z_nsect <= zstart z /\ zstart z + 8 * share num z <= devz z * z_nsect + z_zcap;
  pr_inj : forall z z', 0 <= z < nz -> 0 <= z' < nz -> devz z = devz z' -> z = z';
  pr_depth : (64 < z_depth)%nat;
  pr_free : ztl_pro_free meta (io_g s0) (io_prov s0) = Some g2;
  pr_naddr : pa_naddr (io_prov s0) = nz;
  pr_moff : Z.of_nat (length (uc_moffset (io_u s0))) = XZTL_WIO_MAX_MCMD;
  pr_mif : (64 <= length (uc_minflight (io_u s0)))%nat;
  pr_nmcmd : uc_nmcmd (io_u s0) = num
}.

(** Command [j] has been submitted when its zone has received [cnt] of them. *)
Definition done_cmd cnt (j : Z) : Prop := 0 <= j < num /\ j / 64 < cnt (j mod 64).

Record dev_inv cnt (d : D) : Prop := {
  dv_wp : forall z, 0 <= z < nz -> z_wp d (devz z) = zstart z + 8 * cnt z;
  dv_wp_other : forall zn, (forall z, 0 <= z < nz -> devz z <> zn) ->
    z_wp d zn = z_wp (io_dev s0) zn;
  dv_data : forall j t off, done_cmd cnt j -> 0 <= t < 8 ->
    z_data d (slba j + t) off = io_mem s0 (dbuf j + t * ZNS_ALIGMENT + off);
  dv_data_other : forall sec off, (forall j, done_cmd cnt j -> ~ slba j <= sec < slba j + 8) ->
    z_data d sec off = z_data (io_dev s0) sec off
}.

(** The request differs from the one at the start in [moffset], [minflight]
    and [ncb] only. *)
Definition u_shape s : Prop :=
  exists mo mi n, io_u s = uc_set_ncb (uc_set_minflight (uc_set_moffset (io_u s0) mo) mi) n /\
    length mo = length (uc_moffset (io_u s0)) /\ length mi = length (uc_minflight (io_u s0)) /\ 0 <= n.

Record winv cnt s : Prop := {
  wi_flight : flight_ok T s;
  wi_cnt : forall z, 0 <= z < nz -> 0 <= cnt z <= share num z;
  wi_dev : dev_inv cnt (io_dev s);
  wi_flag : forall z, 0 <= z < nz -> exists v, (uc_minflight (io_u s)).[z] = Some v /\
    (v = 0 \/ exists e, e ∈ q_pending (io_dev s) /\ pend_zone T e = Some z);
  wi_ctx : forall e, e ∈ q_pending (io_dev s) -> exists cmd ctx,
    io_cmds s !! pe_arg e = Some cmd /\ mc_media_ctx cmd = Some ctx;
  wi_seq : forall e, e ∈ q_pending (io_dev s) -> exists j, 0 <= j < num /\ pe_arg e = Z.to_nat j;
  wi_ncb : uc_ncb (io_u s) + Z.of_nat (length (q_pending (io_dev s))) = total nz cnt;
  wi_u : u_shape s;
  wi_g : io_g s = if uc_ncb (io_u s) =? num then g2 else io_g s0;
  wi_prov : io_prov s = io_prov s0;
  wi_node : io_node s = io_node s0;
  wi_stats : io_stats s = io_stats s0;
  wi_mem : io_mem s = io_mem s0
}.

Hypothesis (HR : piece_ready).

Lemma nz_bound : 0 < nz <= 64.
Proof using HR. destruct (pr_num HR). unfold nzones_of. lia. Qed.

Lemma winv_total cnt s : winv cnt s -> total nz cnt <= num.
Proof using HR.
  intros Hw. destruct (pr_num HR). pose proof nz_bound.
  rewrite <- (total_share num) at 2 by lia.
  apply total_le; [lia|]. apply Hw.
Qed.

(** The commands in flight are fewer than the queue holds. *)
Lemma pending_depth cnt s : winv cnt s -> (length (q_pending (io_dev s)) < z_depth)%nat.
Proof using HR.
  intros Hw. pose proof nz_bound. pose proof (pr_depth HR).
  destruct (wi_flight _ _ Hw) as [_ Hp Hone].
  assert (Hin : pend_zone T <$> q_pending (io_dev s) ⊆+ Some <$> zones 64).
  { apply NoDup_submseteq; [done|]. intros x (e & -> & He)%list_elem_of_fmap.
    destruct (wi_seq _ _ Hw e He) as (j & Hj & Ha).
    destruct (pr_cmds HR j Hj) as (m & Hm & Hs).
    unfold pend_zone. rewrite Ha, Hm. apply (list_elem_of_fmap_2 Some), elem_of_zones.
    rewrite (cs_zn _ _ Hs). apply Z.mod_pos_bound. lia. }
  apply submseteq_length in Hin. rewrite !length_fmap in Hin. unfold zones in Hin.
  rewrite length_fmap, length_seq in Hin. lia.
Qed.

(** ** Pokes *)

Lemma winv_dev cnt s d :
  winv cnt s -> q_pending d = q_pending (io_dev s) ->
  z_wp d = z_wp (io_dev s) -> z_data d = z_data (io_dev s) -> winv cnt (io_set_dev s d).
Proof using.
  intros [Hf Hc [] Hfl Hcx Hsq Hn Hu Hg ? ? ? ?] Hp Hwp Hda.
  constructor; simpl; rewrite ?Hp; auto.
  - by apply (flight_ok_proper T s).
  - constructor; rewrite ?Hwp, ?Hda; auto.
Qed.

(** The completion of command [j]: its callback lowers the flag of its zone,
    counts it, and releases the piece when it is the last one. *)
Lemma write_callback_ok s j m cmd :
  statics s = T -> u_shape s -> 0 <= j < num -> T !! Z.to_nat j = Some m -> cmd_spec j m ->
  io_cmds s !! Z.to_nat j = Some cmd -> mc_status cmd = 0 ->
  exists mo mi, length mo = length (uc_moffset (io_u s)) /\
    aset (uc_minflight (io_u s)) (j mod 64) 0 = Some mi /\
    ztl_io_write_callback_mcmd geo_zn_grp dev_nsect meta s (Z.to_nat j) =
    (let u := uc_set_ncb (uc_set_minflight (uc_set_moffset (io_u s) mo) mi)
                (u16 (uc_ncb (io_u s) + 1)) in
     if u16 (uc_ncb (io_u s) + 1) =? num
     then g ← ztl_pro_free meta (io_g s) (io_prov s); Some (io_set_g (io_set_u s u) g)
     else Some (io_set_u s u)).
Proof using HR.
  intros HT (mo0 & mi0 & n & Hu & Hlo & Hli & Hn) Hj Hm Hs Hc Hst.
  assert (static cmd = m) as Hcm.
  { pose proof (statics_lookup _ _ _ Hc) as Hl. rewrite HT, Hm in Hl. by injection Hl. }
  apply static_eq in Hcm as (_ & _ & _ & Hseq & Hzn & _).
  rewrite (cs_seq _ _ Hs) in Hseq. rewrite (cs_zn _ _ Hs) in Hzn.
  pose proof (pr_num HR). pose proof (pr_moff HR). pose proof (pr_mif HR). cst.
  assert (0 <= j mod 64 < 64) by (apply Z.mod_pos_bound; lia).
  assert (Hlo' : length (uc_moffset (io_u s)) = length (uc_moffset (io_u s0)))
    by (rewrite Hu; simpl; done).
  assert (Hli' : length (uc_minflight (io_u s)) = length (uc_minflight (io_u s0)))
    by (rewrite Hu; simpl; done).
  assert (Hnm : uc_nmcmd (io_u s) = num) by (rewrite Hu; exact (pr_nmcmd HR)).
  destruct (aset_spec (uc_moffset (io_u s)) j (mc_paddr cmd)) as (mo & Hmo & Hlen & _); [lia|].
  destruct (aset_spec (uc_minflight (io_u s)) (j mod 64) 0) as (mi & Hmi & _); [lia|].
  exists mo, mi. split_and!; auto.
  unfold ztl_io_write_callback_mcmd. rewrite Hc; simpl. rewrite Hst; simpl.
  rewrite Hseq, Hmo; simpl. unfold write_callback_done. simpl. rewrite Hc; simpl.
  rewrite Hzn, Hmi; simpl. rewrite Hnm. done.
Qed.

Lemma complete_cmd_ctx cp m : mc_media_ctx (complete_cmd cp m) = mc_media_ctx m.
Proof using. unfold complete_cmd. by destruct (negb _ && _), (_ =? _). Qed.

Lemma complete_cmd_status cp m : cp_status cp = 0 -> mc_status (complete_cmd cp m) = 0.
Proof using. unfold complete_cmd. intros ->. by destruct (negb _ && _), (_ =? _). Qed.

(** The state a completion of command [j] leaves. *)
Lemma completion_run cnt s cp e d' :
  winv cnt s -> xq_poke1 (io_dev s) = (Some cp, d') -> cp_status cp = 0 ->
  q_pending (io_dev s) ≡ₚ e :: q_pending d' -> pe_arg e = cp_arg cp ->
  exists j cmd ctx mo mi,
    0 <= j < num /\ pe_arg e = Z.to_nat j /\ pend_zone T e = Some (j mod 64) /\
    io_cmds s !! Z.to_nat j = Some cmd /\ length mo = length (uc_moffset (io_u s)) /\
    aset (uc_minflight (io_u s)) (j mod 64) 0 = Some mi /\
    let n := uc_ncb (io_u s) + 1 in
    let u := uc_set_ncb (uc_set_minflight (uc_set_moffset (io_u s) mo) mi) n in
    let g := if n =? num then g2 else io_g s0 in
    poke s = Some {| io_g := g; io_cmds := <[Z.to_nat j := complete_cmd cp cmd]> (io_cmds s);
      io_u := u; io_prov := io_prov s; io_node := io_node s; io_stats := io_stats s;
      io_dev := xq_put_cmd_ctx d' ctx; io_mem := cp_dma cp (io_mem s) |}.
Proof using HR.
  intros Hw Hpk Hst Hpe Harg.
  assert (He : e ∈ q_pending (io_dev s)) by (rewrite Hpe; left).
  destruct (wi_seq _ _ Hw e He) as (j & Hj & Ha).
  destruct (pr_cmds HR j Hj) as (m & Hm & Hs).
  destruct (wi_ctx _ _ Hw e He) as (cmd & ctx & Hc & Hctx). rewrite Ha in Hc.
  pose proof (wi_flight _ _ Hw) as [HT _ _].
  set (s2 := io_set_cmds (io_set_mem (io_set_dev s d') (cp_dma cp (io_mem s)))
               (<[Z.to_nat j := complete_cmd cp cmd]> (io_cmds s))).
  assert (HT2 : statics s2 = T).
  { rewrite <- HT. unfold statics; simpl. rewrite list_fmap_insert, complete_cmd_static.
    apply list_insert_id. by rewrite list_lookup_fmap, Hc. }
  assert (Hc2 : io_cmds s2 !! Z.to_nat j = Some (complete_cmd cp cmd))
    by (apply list_lookup_insert_eq; by eapply lookup_lt_Some).
  destruct (write_callback_ok s2 j m (complete_cmd cp cmd)) as (mo & mi & Hlo & Hmi & Hcb); auto.
  { apply (wi_u _ _ Hw). }
  { by apply complete_cmd_status. }
  exists j, cmd, ctx, mo, mi. split_and!; auto; try lia.
  { unfold pend_zone. rewrite Ha, Hm. simpl. by rewrite (cs_zn _ _ Hs). }
  pose proof (winv_total _ _ Hw) as Htot. pose proof (wi_ncb _ _ Hw) as Hncb.
  rewrite Hpe in Hncb. simpl in Hncb. pose proof (pr_num HR). cst.
  assert (Hn0 : 0 <= uc_ncb (io_u s)) by (by destruct (wi_u _ _ Hw) as (? & ? & n & -> & ?); simpl; lia).
  pose proof (wi_g _ _ Hw) as Hg. replace (uc_ncb (io_u s) =? num) with false in Hg by lia.
  simpl in Hcb. rewrite (wrap_small 16) in Hcb by lia. rewrite Hg, (wi_prov _ _ Hw), (pr_free HR) in Hcb.
  unfold ztl_io_poke_ctx. rewrite Hpk. unfold znd_media_async_cb, upd_cmd. simpl.
  rewrite <- Harg, Ha, Hc; simpl. fold s2. unfold run_callback. rewrite Hc2; simpl.
  assert (mc_callback cmd = Some CB_WRITE) as Hcall.
  { assert (static cmd = m) as Hcm.
    { pose proof (statics_lookup _ _ _ Hc) as Hl. rewrite HT, Hm in Hl. by injection Hl. }
    apply static_eq in Hcm as (_ & _ & -> & _). by destruct (cs_write _ _ Hs) as (_ & _ & ?). }
  rewrite complete_cmd_callback, Hcall; simpl. rewrite Hcb.
  assert (Hlt : (Z.to_nat j < length (io_cmds s))%nat) by (by eapply lookup_lt_Some).
  destruct (uc_ncb (io_u s) + 1 =? num); simpl; rewrite list_lookup_insert_eq by done; simpl;
    rewrite complete_cmd_ctx, Hctx; simpl; rewrite <- ?Hg; reflexivity.
Qed.

Lemma completion_winv cnt s cp e d' s' :
  winv cnt s -> xq_poke1 (io_dev s) = (Some cp, d') -> cp_status cp = 0 ->
  q_pending (io_dev s) ≡ₚ e :: q_pending d' -> pe_arg e = cp_arg cp ->
  z_wp d' = z_wp (io_dev s) -> z_data d' = z_data (io_dev s) ->
  cp_dma cp (io_mem s) = io_mem s -> poke s = Some s' ->
  winv cnt s' /\ q_pending (io_dev s') = q_pending d'.
Proof using HR.
  intros Hw Hpk Hst Hpe Harg Hwp Hda Hdma Hrun.
  pose proof (poke_flight _ _ _ _ _ _ (wi_flight _ _ Hw) Hrun) as Hfl.
  destruct (completion_run cnt s cp e d') as (j & cmd & ctx & mo & mi & Hj & Ha & Hz & Hc & Hlo & Hmi & Hr);
    auto.
  rewrite Hr in Hrun. injection Hrun as <-.
  destruct (z_put d' ctx) as (Hwp' & Hda'). pose proof (q_put d' ctx) as Hq'.
  assert (Hsub : forall e', e' ∈ q_pending d' -> e' ∈ q_pending (io_dev s))
    by (intros e' He'; rewrite Hpe; by right).
  destruct Hw as [_ Hcnt [] Hflag Hctx Hseq Hncb (mo0 & mi0 & n & Hu & Hlo0 & Hli0 & Hn) Hg Hpv Hnd Hs Hm].
  split; [|done]. constructor; simpl; rewrite ?Hq'; auto.
  - constructor; rewrite ?Hwp', ?Hda', ?Hwp, ?Hda; auto.
  - intros z Hzr. destruct (decide (z = j mod 64)) as [->|Hne].
    + exists 0. rewrite (aget_aset_eq _ _ _ _ Hmi). auto.
    + rewrite (aget_aset_ne _ _ _ _ _ (not_eq_sym Hne) Hmi).
      destruct (Hflag z Hzr) as (v & Hv & Hp). exists v. split; [done|].
      destruct Hp as [?|(e' & He' & Hze')]; [by left|right]. exists e'. split; [|done].
      rewrite Hpe in He'. apply elem_of_cons in He' as [->|?]; [|done]. congruence.
  - intros e' He'. destruct (Hctx e' (Hsub e' He')) as (cmd' & ctx' & Hc' & Hx').
    destruct (decide (pe_arg e' = Z.to_nat j)) as [Heq|Hne].
    + rewrite Heq in *. rewrite list_lookup_insert_eq by (by eapply lookup_lt_Some).
      eexists _, ctx'. split; [done|]. rewrite complete_cmd_ctx. congruence.
    + rewrite list_lookup_insert_ne by done. eauto.
  - rewrite Hpe in Hncb. simpl in Hncb. lia.
  - rewrite Hu in Hlo, Hmi |- *. exists mo, mi, (n + 1). split; [done|].
    apply aset_length in Hmi. simpl in *. split_and!; [congruence|congruence|lia].
  - congruence.
Qed.

(** A poke keeps the invariant, and makes progress when something is in
    flight: a completion, or less time to wait for the next one. *)
Lemma poke_winv cnt s :
  winv cnt s ->
  exists s', poke s = Some s' /\ winv cnt s' /\
    ((length (q_pending (io_dev s')) < length (q_pending (io_dev s)))%nat \/
     q_pending (io_dev s') = q_pending (io_dev s) /\
     (z_lag (io_dev s') <= z_lag (io_dev s))%nat /\
     (q_pending (io_dev s) <> [] -> (z_lag (io_dev s') < z_lag (io_dev s))%nat)).
Proof using HR.
  intros Hw. pose proof (z_poke (io_dev s)) as Hz. pose proof (q_poke (io_dev s)) as Hq.
  destruct (xq_poke1 (io_dev s)) as [[cp|] d'] eqn:Epk.
  - destruct Hz as (Hwp & Hda & Hst & e & Hpe & Harg & Hdma).
    assert (Hm : cp_dma cp (io_mem s) = io_mem s).
    { rewrite Hdma. unfold pend_dma. pose proof (wi_flight _ _ Hw) as [_ Hp _].
      rewrite Hpe in Hp. apply Forall_cons in Hp as [(m & _ & _ & -> & _) _]. done. }
    destruct (completion_run cnt s cp e d') as (j & cmd & ctx & mo & mi & _ & _ & _ & _ & _ & _ & Hr); auto.
    eexists. split; [exact Hr|].
    destruct (completion_winv cnt s cp e d' _ Hw Epk Hst Hpe Harg Hwp Hda Hm Hr) as [Hw' Hp'].
    split; [done|]. left. rewrite Hp', Hpe. simpl. lia.
  - destruct Hz as (Hwp & Hda & Hle & Hlag). exists (io_set_dev s d').
    unfold ztl_io_poke_ctx. rewrite Epk. split; [done|]. split; [by apply winv_dev|]. by right.
Qed.

(** ** Submissions *)

(** The next command of zone [z]. *)
Lemma next_cmd z c :
  0 <= z < nz -> 0 <= c < share num z ->
  let j := z + 64 * c in 0 <= j < num /\ j mod 64 = z /\ j / 64 = c.
Proof using HR.
  intros Hz Hc. pose proof nz_bound. destruct (pr_num HR) as [Hn _].
  assert (z < 64) by lia. simpl. revert Hc. unfold share, nzones_of in *.
  zcase; intros; split_and!; zdiv.
Qed.

Lemma stripe_count_full z : 0 <= z < nz -> stripe_count num z = share num z.
Proof using. unfold stripe_count, share, nzones_of. intros. zcase; zdiv. Qed.

Lemma row_lookup z c :
  0 <= z < nz -> 0 <= c < share num z -> (stripe_ids num z).[c] = Some (z + 64 * c).
Proof using.
  intros Hz Hc. apply aget_Some. split; [lia|]. unfold stripe_ids.
  rewrite stripe_count_full, list_lookup_fmap, lookup_seq_lt by lia. simpl. f_equal. lia.
Qed.

(** The sectors of a command lie in its zone of the device; different commands
    write different sectors. *)
Lemma slba_range j :
  0 <= j < num -> devz (j mod 64) * z_nsect <= slba j /\
    slba j + 8 <= devz (j mod 64) * z_nsect + z_zcap.
Proof using HR.
  intros Hj. pose proof (cmd_zone_range num j Hj) as Hz.
  destruct (pr_fit HR _ Hz). pose proof (row_below_share num j Hj).
  unfold slba. assert (0 <= j / 64) by zdiv. lia.
Qed.

Lemma slba_zone j : 0 <= j < num -> slba j / z_nsect = devz (j mod 64).
Proof using HR.
  intros Hj. pose proof (slba_range j Hj). pose proof z_geo. symmetry.
  apply (Z.div_unique _ _ _ (slba j - devz (j mod 64) * z_nsect)); lia.
Qed.

Lemma slba_disjoint j j' :
  0 <= j < num -> 0 <= j' < num -> j <> j' -> slba j + 8 <= slba j' \/ slba j' + 8 <= slba j.
Proof using HR.
  intros Hj Hj' Hne. destruct (decide (j mod 64 = j' mod 64)) as [Heq|Hz].
  - unfold slba. rewrite Heq. assert (j / 64 <> j' / 64) by zdiv. lia.
  - pose proof (slba_range j Hj). pose proof (slba_range j' Hj'). pose proof z_geo.
    assert (devz (j mod 64) <> devz (j' mod 64)) as Hd
      by (intros Hd; apply Hz, (pr_inj HR); auto; by apply cmd_zone_range).
    nia.
Qed.

Lemma done_bump cnt z j :
  done_cmd (bump cnt z) j <-> done_cmd cnt j \/ (0 <= j < num /\ j mod 64 = z /\ j / 64 = cnt z).
Proof using.
  unfold done_cmd, bump. destruct (Z.eqb_spec (j mod 64) z) as [->|]; [lia|tauto].
Qed.

(** The device after the next command of zone [z]. *)
Lemma dev_inv_write cnt d d' z :
  0 <= z < nz -> 0 <= cnt z < share num z ->
  (forall zone', z_wp d' zone' = if zone' =? devz z then slba (z + 64 * cnt z) + 7 + 1 else z_wp d zone') ->
  (forall sec off, z_data d' sec off =
    sector_write (z_data d) (io_mem s0) (slba (z + 64 * cnt z)) 7 (dbuf (z + 64 * cnt z)) sec off) ->
  dev_inv cnt d -> dev_inv (bump cnt z) d'.
Proof using HR.
  intros Hz Hc Hwp Hda [H1 H2 H3 H4]. destruct (next_cmd z (cnt z) Hz Hc) as (Hj & Hjm & Hjd).
  set (j := z + 64 * cnt z) in *.
  assert (Hs : slba j = zstart z + 8 * cnt z) by (unfold slba; congruence).
  constructor.
  - intros z' Hz'. rewrite Hwp. unfold bump. destruct (Z.eqb_spec (devz z') (devz z)) as [He|Hne].
    + apply (pr_inj HR) in He as ->; auto. rewrite Z.eqb_refl, Hs. lia.
    + rewrite H1 by done. destruct (Z.eqb_spec z' z); [congruence|done].
  - intros zn Hzn. rewrite Hwp, H2 by done. pose proof (Hzn z Hz).
    by destruct (Z.eqb_spec zn (devz z)); [congruence|].
  - intros i t off Hi Ht. rewrite Hda. unfold sector_write.
    destruct (decide (i = j)) as [->|Hne].
    + replace ((slba j <=? slba j + t) && (slba j + t <=? slba j + 7)) with true by lia.
      do 2 f_equal. lia.
    + assert (done_cmd cnt i) as Hi'.
      { apply done_bump in Hi as [?|(? & ? & ?)]; [done|]. unfold j in Hne. zdiv. }
      destruct (slba_disjoint i j) as [?|?]; auto; try apply Hi';
        [replace (slba j <=? slba i + t) with false by lia
        |replace (slba i + t <=? slba j + 7) with false by lia; rewrite andb_false_r];
        by apply H3.
  - intros sec off Hout. rewrite Hda. unfold sector_write.
    assert (Hoj : ~ slba j <= sec < slba j + 8) by (apply Hout, done_bump; auto).
    replace ((slba j <=? sec) && (sec <=? slba j + 7)) with false by lia.
    apply H4. intros i Hi. apply Hout, done_bump. by left.
Qed.

(** A command of another zone in flight is in another zone of the device. *)
Lemma pending_other_zone cnt s z :
  winv cnt s -> 0 <= z < nz -> (uc_minflight (io_u s)).[z] = Some 0 ->
  forall e, e ∈ q_pending (io_dev s) -> pe_op e = NVM_WRITE /\ pe_slba e / z_nsect <> devz z.
Proof using HR.
  intros Hw Hz H0 e He. pose proof (wi_flight _ _ Hw) as Hf.
  pose proof (flight_zone_free T s z Hf ltac:(congruence)) as Hfree.
  rewrite Forall_forall in Hfree. specialize (Hfree e He).
  destruct Hf as [_ Hp _]. rewrite Forall_forall in Hp.
  destruct (Hp e He) as (m & Hm & _ & Hop & Hsl & _). split; [done|].
  destruct (wi_seq _ _ Hw e He) as (j & Hj & Ha). unfold pend_zone in Hfree.
  destruct (pr_cmds HR j Hj) as (m' & Hm' & Hs). rewrite Ha in *.
  assert (m' = m) as -> by congruence. rewrite Hm' in Hfree. simpl in Hfree.
  rewrite Hsl, (cs_sect _ _ Hs), slba_zone by done. rewrite (cs_zn _ _ Hs) in Hfree.
  intros Hd. apply Hfree. f_equal. apply (pr_inj HR); auto. by apply cmd_zone_range.
Qed.

(** The submission of the next command of zone [z]. *)
Lemma submit_run cnt s z mil :
  winv cnt s -> 0 <= z < nz -> 0 <= cnt z < share num z ->
  (uc_minflight (io_u s)).[z] = Some 0 -> aset (uc_minflight (io_u s)) z 1 = Some mil ->
  let j := Z.to_nat (z + 64 * cnt z) in
  exists cmd ctx d,
    io_cmds s !! j = Some cmd /\
    submit_io (io_set_u s (uc_set_minflight (io_u s) mil)) j =
      Some (0, io_set_dev (io_set_cmds (io_set_u s (uc_set_minflight (io_u s) mil))
                 (<[j := mc_set_media_ctx cmd (Some ctx)]> (io_cmds s))) d) /\
    dev_inv (bump cnt z) d.
Proof using HR.
  intros Hw Hz Hc H0 Hmil. destruct (next_cmd z (cnt z) Hz Hc) as (Hj & Hjm & Hjd).
  destruct (pr_cmds HR _ Hj) as (m & Hm & Hs). simpl. set (j := z + 64 * cnt z) in *.
  pose proof (fl_static _ _ (wi_flight _ _ Hw)) as HT.
  rewrite <- HT in Hm. destruct (statics_inv _ _ _ Hm) as (cmd & Hcmd & Hcm).
  assert (Hcs : cmd_spec j cmd) by (rewrite <- Hcm in Hs; by destruct Hs).
  destruct (z_get (io_dev s) (pending_depth _ _ Hw)) as (ctx & d1 & Hget & Hwp1 & Hda1).
  pose proof (q_get (io_dev s)) as Hq1. rewrite Hget in Hq1. simpl in Hq1.
  pose proof (slba_range j Hj) as [Hlo Hhi]. rewrite Hjm in Hlo, Hhi.
  destruct (z_write d1 (io_mem s) ctx (Z.to_nat j) (devz z) (slba j) 7 (dbuf j))
    as (d2 & Hsub & Hwp2 & Hda2); try lia.
  { rewrite Hwp1, (dv_wp _ _ (wi_dev _ _ Hw)) by done. unfold slba. congruence. }
  { intros e He. rewrite Hq1 in He. by eapply pending_other_zone. }
  exists cmd, ctx, d2. split; [done|]. split.
  - unfold media_submit_io, znd_media_submit_io. simpl. rewrite Hcmd; simpl.
    destruct (cs_write _ _ Hcs) as (Hop & Hsy & _). rewrite Hop, Hsy; simpl.
    unfold znd_media_submit_write_asynch, submit_asynch, upd_cmd. simpl. rewrite Hcmd; simpl.
    rewrite Hget; simpl. rewrite (cs_sect _ _ Hcs), (cs_nlb _ _ Hcs), (cs_prp _ _ Hcs), Hsub. done.
  - rewrite Hwp1 in Hwp2. rewrite Hda1, (wi_mem _ _ Hw) in Hda2.
    eapply dev_inv_write; eauto. apply Hw.
Qed.

Lemma submit_winv cnt s z mil s2 s3 :
  winv cnt s -> 0 <= z < nz -> 0 <= cnt z < share num z ->
  (uc_minflight (io_u s)).[z] = Some 0 -> aset (uc_minflight (io_u s)) z 1 = Some mil ->
  let j := Z.to_nat (z + 64 * cnt z) in
  submit_io (io_set_u s (uc_set_minflight (io_u s) mil)) j = Some (0, s2) ->
  upd_cmd s2 j (fun m => mc_set_submitted m 1) = Some s3 ->
  winv (bump cnt z) s3.
Proof using HR.
  intros Hw Hz Hc H0 Hmil. simpl. intros Hsub Hupd.
  destruct (next_cmd z (cnt z) Hz Hc) as (Hj & Hjm & Hjd).
  destruct (pr_cmds HR _ Hj) as (m & Hm & Hs).
  destruct (submit_run cnt s z mil) as (cmd & ctx & d & Hcmd & Hrun & Hdev); auto.
  set (j := z + 64 * cnt z) in *. rewrite Hrun in Hsub. injection Hsub as <-.
  pose proof (submit_flight _ _ T s z mil (Z.to_nat j) m 0 _ (wi_flight _ _ Hw) H0 Hmil Hm
    (cs_write _ _ Hs) ltac:(rewrite (cs_zn _ _ Hs); done) Hrun) as Hfl.
  assert (Hq : q_pending d ≡ₚ {| pe_arg := Z.to_nat j; pe_op := NVM_WRITE;
      pe_slba := maddr_sect (mc_addr cmd); pe_nlb := nlb_of cmd; pe_dbuf := mc_prp cmd |}
      :: q_pending (io_dev s)).
  { assert (Hcw : is_write cmd).
    { rewrite <- is_write_static. pose proof (statics_lookup _ _ _ Hcmd) as Hl.
      rewrite (fl_static _ _ (wi_flight _ _ Hw)), Hm in Hl. injection Hl as <-. apply Hs. }
    by destruct (submit_write_spec _ _ (io_set_u s _) _ _ _ _ Hcmd Hcw Hrun) as (_ & _ & _ & _ & Hq). }
  apply upd_cmd_statics in Hupd as (cmd' & Hc' & Hn & Hst & ->); [|done]. simpl in Hn.
  destruct Hw as [_ Hcnt _ Hflag Hctx Hseq Hncb (mo & mi & n & Hu & Hlo & Hli & Hn0) Hg Hpv Hnd Hsts Hmem].
  pose proof nz_bound.
  assert (Hx : mc_media_ctx cmd' = Some ctx).
  { simpl in Hc'. rewrite list_lookup_insert_eq in Hc' by (by eapply lookup_lt_Some).
    by injection Hc' as <-. }
  constructor; simpl; auto.
  - by eapply flight_ok_proper; [exact Hst| | |exact Hfl].
  - intros z' Hz'. unfold bump. destruct (Z.eqb_spec z' z) as [->|]; [lia|by apply Hcnt].
  - intros z' Hz'. destruct (decide (z' = z)) as [->|Hne].
    + exists 1. rewrite (aget_aset_eq _ _ _ _ Hmil). split; [done|]. right. eexists.
      rewrite Hq. split; [left|]. unfold pend_zone. simpl. rewrite Hm. simpl.
      by rewrite (cs_zn _ _ Hs), Hjm.
    + rewrite (aget_aset_ne _ _ _ _ _ (not_eq_sym Hne) Hmil).
      destruct (Hflag z' Hz') as (v & Hv & [?|(e & He & Hze)]); exists v; split; auto.
      right. exists e. rewrite Hq. split; [by right|done].
  - intros e He. rewrite Hq in He. apply elem_of_cons in He as [->|He]; simpl.
    + rewrite Hn. by eexists _, ctx.
    + destruct (Hctx e He) as (cmd1 & ctx1 & Hc1 & Hx1).
      destruct (decide (pe_arg e = Z.to_nat j)) as [->|Hne].
      * rewrite Hn. by eexists _, ctx.
      * rewrite !list_lookup_insert_ne by done. eauto.
  - intros e He. rewrite Hq in He. apply elem_of_cons in He as [->|He]; simpl; eauto.
  - rewrite Hq, total_bump by lia. simpl. replace ((0 <=? z) && (z <? nz)) with true by lia. lia.
  - rewrite Hu in Hmil |- *. exists mo, mil, n. split; [done|].
    apply aset_length in Hmil. simpl in Hmil. split_and!; [done|congruence|done].
Qed.

(** ** The loops *)

Implicit Types (p : subst (D := D)).

Record pinv cnt p : Prop := {
  pv_w : winv cnt (ss_s p);
  pv_len : length (ss_idx p) = 128%nat;
  pv_idx : forall z, 0 <= z < nz -> (ss_idx p).[z] = Some (cnt z);
  pv_sub : ss_submitted p = total nz cnt
}.

Abbreviation inflight p := (length (q_pending (io_dev (ss_s p)))).
Abbreviation lag p := (z_lag (io_dev (ss_s p))).

(** Progress: more commands submitted, or as many and fewer in flight, or as
    many of both and less time to wait; [b] says that it is strict. *)
Definition progress (b : bool) p p' : Prop :=
  ss_submitted p < ss_submitted p' <= num \/
  ss_submitted p' = ss_submitted p /\
    ((inflight p' < inflight p)%nat \/
     inflight p' = inflight p /\ (if b then (lag p' < lag p)%nat else (lag p' <= lag p)%nat)).

Lemma progress_refl p : progress false p p.
Proof using. unfold progress. lia. Qed.

Lemma progress_trans b b' p1 p2 p3 :
  progress b p1 p2 -> progress b' p2 p3 -> progress (b || b') p1 p3.
Proof using. unfold progress. destruct b, b'; simpl; lia. Qed.

Lemma progress_weaken p p' : progress true p p' -> progress false p p'.
Proof using. unfold progress. lia. Qed.

Lemma pinv_poke cnt p :
  pinv cnt p -> exists s', poke (ss_s p) = Some s' /\
    let p' := {| ss_submitted := ss_submitted p; ss_idx := ss_idx p; ss_s := s' |} in
    pinv cnt p' /\ progress false p p' /\
    (q_pending (io_dev (ss_s p)) <> [] -> progress true p p').
Proof using HR.
  intros [Hw Hl Hi Hs]. destruct (poke_winv cnt (ss_s p) Hw) as (s' & Hp & Hw' & Hpr).
  exists s'. split; [done|]. simpl. split; [by constructor|]. unfold progress; simpl.
  destruct Hpr as [?|(-> & ? & Hlt)]; [split; lia|]. split; [lia|]. intros Hne. specialize (Hlt Hne). lia.
Qed.

(** One visit of zone [z]. *)
Lemma submit_zone_ok cnt p z :
  pinv cnt p -> 0 <= z < nz ->
  exists p' cnt', submit_zone geo_zn_grp dev_nsect meta ids z p = Some (false, p') /\
    pinv cnt' p' /\ (cnt z = share num z -> p' = p /\ cnt' = cnt) /\
    progress (cnt z <? share num z) p p'.
Proof using HR.
  intros Hpv Hz. pose proof Hpv as [Hw Hl Hi Hs]. pose proof nz_bound.
  pose proof (wi_cnt _ _ Hw z Hz) as Hc. pose proof (winv_total _ _ Hw) as Ht.
  unfold submit_zone. rewrite (pr_ids HR z Hz); simpl. rewrite (Hi z Hz); simpl.
  rewrite stripe_ids_len, stripe_count_full by (try lia; destruct (pr_num HR); lia).
  destruct (Z.leb_spec (share num z) (cnt z)) as [Hfull|Hroom].
  { exists p, cnt. split; [done|]. split; [done|]. split; [done|].
    replace (cnt z <? share num z) with false by lia. apply progress_refl. }
  replace (cnt z <? share num z) with true by lia.
  destruct (wi_flag _ _ Hw z Hz) as (v & Hv & Hflag). rewrite Hv; simpl.
  destruct (ctrue v) eqn:Ev.
  { destruct Hflag as [->|(e & He & _)]; [done|].
    destruct (pinv_poke cnt p Hpv) as (s' & Hp & Hpv' & _ & Hpr). rewrite Hp; simpl.
    eexists _, cnt. split; [reflexivity|]. split; [done|]. split; [lia|].
    apply Hpr. intros Hnil. rewrite Hnil in He. by apply not_elem_of_nil in He. }
  apply ctrue_false in Ev as ->.
  destruct (aset_spec (uc_minflight (io_u (ss_s p))) z 1) as (mil & Hmil & _).
  { apply aget_is_Some. eauto. }
  rewrite Hmil; simpl. rewrite row_lookup by lia; simpl.
  destruct (next_cmd z (cnt z) Hz ltac:(lia)) as (Hj & _).
  assert (uc_mcmd (io_u (ss_s p)) = uc_mcmd (io_u s0)) as ->
    by (destruct (wi_u _ _ Hw) as (? & ? & ? & -> & _); done).
  rewrite (pr_mcmd HR _ Hj); simpl.
  destruct (submit_run cnt (ss_s p) z mil) as (cmd & ctx & d & Hcmd & Hrun & _); auto; [lia|].
  rewrite Hrun; simpl. set (s2 := io_set_dev _ _) in *.
  destruct (upd_cmd s2 (Z.to_nat (z + 64 * cnt z)) (fun m => mc_set_submitted m 1))
    as [s3|] eqn:Hupd; simpl.
  2:{ unfold upd_cmd in Hupd. simpl in Hupd.
      rewrite list_lookup_insert_eq in Hupd by (by eapply lookup_lt_Some). done. }
  pose proof (submit_winv cnt (ss_s p) z mil s2 s3 Hw Hz ltac:(lia) Hv Hmil Hrun Hupd) as Hw3.
  destruct (aset_spec (ss_idx p) z (cnt z + 1)) as (idx & Hidx & Hlen & Hix & Hother); [lia|].
  rewrite Hidx; simpl. destruct (pr_num HR) as [? Hmax]. cst.
  pose proof (winv_total _ _ Hw3) as Ht3.
  assert (Htot : total nz (bump cnt z) = total nz cnt + 1).
  { rewrite total_bump by lia. by replace ((0 <=? z) && (z <? nz)) with true by lia. }
  assert (Hncb : 0 <= total nz cnt).
  { rewrite <- (wi_ncb _ _ Hw). destruct (wi_u _ _ Hw) as (? & ? & ? & -> & ? & ? & ?). simpl. lia. }
  rewrite wrap_small by lia. set (p1 := {| ss_submitted := ss_submitted p + 1; ss_idx := idx; ss_s := s3 |}).
  assert (Hp1 : pinv (bump cnt z) p1).
  { constructor; simpl; auto; [congruence| |lia]. intros z' Hz'. unfold bump.
    destruct (Z.eqb_spec z' z) as [->|Hne]; [done|]. rewrite Hother by done. auto. }
  assert (Hpr1 : progress true p p1) by (left; simpl; lia).
  destruct (_ =? 0).
  - destruct (pinv_poke _ p1 Hp1) as (s4 & Hp4 & Hpv4 & Hpr4 & _). simpl in Hp4. rewrite Hp4; simpl.
    eexists _, (bump cnt z). split; [reflexivity|]. split; [done|]. split; [lia|].
    by apply (progress_trans true false p p1).
  - simpl. exists p1, (bump cnt z). split; [done|]. split; [done|]. split; [lia|done].
Qed.

(** Zones are finitely many: if not all are finished, one is not. *)
Lemma not_forall_zone cnt :
  (forall z, 0 <= z < nz -> 0 <= cnt z <= share num z) ->
  ~ (forall z, 0 <= z < nz -> cnt z = share num z) ->
  exists z, 0 <= z < nz /\ cnt z < share num z.
Proof using.
  intros Hle Hn.
  destruct (decide (Exists (fun z => cnt z < share num z) (zones nz))) as [He|Hno].
  - apply Exists_exists in He as (z & Hz%elem_of_zones & Hlt). eauto.
  - destruct Hn. intros z Hz. specialize (Hle z Hz).
    destruct (Z.lt_ge_cases (cnt z) (share num z)); [|lia].
    destruct Hno. apply Exists_exists. exists z. by rewrite elem_of_zones.
Qed.

(** One turn of the outer loop, from zone [z] on. *)
Lemma submit_for_ok (n : nat) : forall z cnt p,
  pinv cnt p -> 0 <= z -> z + Z.of_nat n = nz ->
  exists p' cnt',
    (forall fuel, (n <= fuel)%nat -> submit_for geo_zn_grp dev_nsect meta fuel ids z p = Ok p') /\
    pinv cnt' p' /\ progress false p p' /\
    ((exists z', z <= z' < nz /\ cnt z' < share num z') -> progress true p p').
Proof using HR.
  induction n as [|n IH]; intros z cnt p Hpv Hz Hn.
  { exists p, cnt. split_and!; auto using progress_refl; [|intros (z' & ? & _); lia].
    intros fuel _. destruct fuel; simpl;
      rewrite (wi_prov _ _ (pv_w _ _ Hpv)), (pr_naddr HR);
      by replace (z <? nz) with false by lia. }
  destruct (submit_zone_ok cnt p z Hpv ltac:(lia)) as (p1 & cnt1 & Hrun & Hpv1 & Hsame & Hpr1).
  destruct (IH (z + 1) cnt1 p1 Hpv1 ltac:(lia) ltac:(lia)) as (p' & cnt' & Hrest & Hpv' & Hpr & Hstrict).
  exists p', cnt'. split_and!; auto.
  - intros [|fuel] Hf; [lia|]. simpl.
    rewrite (wi_prov _ _ (pv_w _ _ Hpv)), (pr_naddr HR).
    replace (z <? nz) with true by lia. rewrite Hrun. simpl. apply Hrest. lia.
  - destruct (cnt z <? share num z).
    + apply progress_weaken, (progress_trans true false p p1); auto.
    + apply (progress_trans false false p p1); auto.
  - intros (z' & Hz' & Hlt). destruct (Z.ltb_spec (cnt z) (share num z)) as [Hc|Hc].
    + by apply (progress_trans true false p p1).
    + pose proof (wi_cnt _ _ (pv_w _ _ Hpv) z ltac:(lia)).
      destruct Hsame as [-> ->]; [lia|]. apply Hstrict. exists z'. split; [|done].
      assert (z' <> z) by (intros ->; lia). lia.
Qed.

(** Induction on the progress of the loops. *)
Lemma progress_ind (P : subst (D := D) -> Prop) :
  (forall p, (forall p', progress true p p' -> P p') -> P p) -> forall p, P p.
Proof using.
  intros Hstep p. remember (Z.to_nat (num - ss_submitted p)) as a eqn:Ha.
  revert p Ha. induction (lt_wf a) as [a _ IHa]. intros p Ha.
  remember (inflight p) as b eqn:Hb. revert p Ha Hb. induction (lt_wf b) as [b _ IHb]. intros p Ha Hb.
  remember (lag p) as c eqn:Hc. revert p Ha Hb Hc. induction (lt_wf c) as [c _ IHc]. intros p Ha Hb Hc.
  apply Hstep. intros p' [Hs|[Hs [Hi|[Hi Hl]]]].
  - eapply IHa; [|reflexivity]. lia.
  - eapply IHb; [|congruence|reflexivity]. lia.
  - eapply IHc; [|congruence|congruence|reflexivity]. lia.
Qed.

(** The submission loop ends with every command submitted. *)
Lemma submit_while_ok p : forall cnt,
  pinv cnt p ->
  exists N p' cnt',
    (forall fuel, (N <= fuel)%nat -> submit_while geo_zn_grp dev_nsect meta fuel ids num p = Ok p') /\
    pinv cnt' p' /\ ss_submitted p' = num.
Proof using HR.
  induction p as [p IH] using progress_ind. intros cnt Hpv.
  pose proof (winv_total _ _ (pv_w _ _ Hpv)) as Ht. pose proof nz_bound as Hnz.
  rewrite <- (pv_sub _ _ Hpv) in Ht.
  destruct (Z.ltb_spec (ss_submitted p) num) as [Hlt|Hge].
  2:{ exists 0%nat, p, cnt. split_and!; auto; [|lia]. intros fuel _.
      destruct fuel; simpl; by replace (ss_submitted p <? num) with false by lia. }
  destruct (submit_for_ok (Z.to_nat nz) 0 cnt p Hpv ltac:(lia) ltac:(lia))
    as (p1 & cnt1 & Hfor & Hpv1 & _ & Hstrict).
  destruct (IH p1) with (cnt := cnt1) as (N & p' & cnt' & Hrun & Hpv' & Hs); auto.
  { apply Hstrict. apply (not_forall_zone cnt); [apply Hpv|]. intros Hall. pose proof (pr_num HR).
    rewrite (pv_sub _ _ Hpv), (total_ext _ _ _ Hall), total_share in Hlt; lia. }
  exists (S (N + Z.to_nat nz)), p', cnt'. split_and!; auto.
  intros [|fuel] Hf; [lia|]. cbn [submit_while].
  replace (ss_submitted p <? num) with true by lia.
  rewrite Hfor by lia. simpl. apply Hrun. lia.
Qed.

(** The wait loop ends with every command completed. *)
Lemma wait_while_ok p : forall cnt,
  pinv cnt p -> ss_submitted p = num ->
  exists N s',
    (forall fuel, (N <= fuel)%nat -> wait_while geo_zn_grp dev_nsect meta fuel (ss_s p) = Ok s') /\
    winv cnt s' /\ uc_ncb (io_u s') = num.
Proof using HR.
  induction p as [p IH] using progress_ind. intros cnt Hpv Hsub. pose proof Hpv as [Hw Hl Hi Hs].
  pose proof (wi_ncb _ _ Hw) as Hncb. rewrite <- Hs, Hsub in Hncb.
  assert (Hnm : uc_nmcmd (io_u (ss_s p)) = num)
    by (destruct (wi_u _ _ Hw) as (? & ? & ? & -> & _); exact (pr_nmcmd HR)).
  destruct (Z.ltb_spec (uc_ncb (io_u (ss_s p))) num) as [Hlt|Hge].
  2:{ exists 0%nat, (ss_s p). split_and!; auto; [|lia]. intros fuel _. destruct fuel; simpl;
      rewrite Hnm; by replace (uc_ncb (io_u (ss_s p)) <? num) with false by lia. }
  destruct (pinv_poke cnt p Hpv) as (s1 & Hp & Hpv1 & _ & Hstrict).
  destruct (IH _ (Hstrict ltac:(intros Hnil; rewrite Hnil in Hncb; simpl in Hncb; lia)) cnt Hpv1 Hsub)
    as (N & s' & Hrun & Hw' & Hn').
  exists (S N), s'. split_and!; auto. intros [|fuel] Hf; [lia|]. simpl.
  rewrite Hnm. replace (uc_ncb (io_u (ss_s p)) <? num) with true by lia.
  rewrite Hp. simpl. apply Hrun. lia.
Qed.

(** ** The piece as a whole *)

(** At the start nothing is submitted. *)
Lemma pinv_start :
  q_pending (io_dev s0) = [] -> uc_ncb (io_u s0) = 0 ->
  (forall z, 0 <= z < nz -> (uc_minflight (io_u s0)).[z] = Some 0) ->
  (forall z, 0 <= z < nz -> z_wp (io_dev s0) (devz z) = zstart z) ->
  pinv (fun _ => 0) {| ss_submitted := 0; ss_idx := replicate 128 0; ss_s := s0 |}.
Proof using HR.
  intros Hnil Hn0 Hmif Hwp. pose proof nz_bound. pose proof (pr_num HR).
  assert (Hno : forall j, ~ done_cmd (fun _ => 0) j).
  { intros j [Hj Hlt]. assert (0 <= j / 64) by zdiv. lia. }
  assert (Htot : total nz (fun _ => 0) = 0).
  { generalize nz. intros n. destruct (Z.lt_ge_cases n 0) as [Hneg|Hpos].
    - unfold total, zones. by replace (Z.to_nat n) with 0%nat by lia.
    - revert n Hpos. apply zind; [done|]. intros n Hn IH. rewrite total_succ; lia. }
  constructor; cbn [ss_idx ss_s ss_submitted]; [|apply length_replicate| |done].
  - constructor; auto; rewrite ?Hnil; try (intros e He; by apply not_elem_of_nil in He).
    + constructor; rewrite ?Hnil; constructor.
    + intros z Hz. split; [lia|]. pose proof (share_pos num z ltac:(lia) Hz). lia.
    + constructor; auto; [intros z Hz; rewrite Hwp by done; lia|].
      intros j t off Hj. by destruct (Hno j).
    + intros z Hz. exists 0. auto.
    + by rewrite Hn0, Htot.
    + exists (uc_moffset (io_u s0)), (uc_minflight (io_u s0)), 0. split_and!; auto; [|lia].
      destruct (io_u s0); simpl in *; by subst.
    + rewrite Hn0. by replace (0 =? num) with false by lia.
  - intros z Hz. apply aget_replicate. lia.
Qed.

(** When every command has completed, the piece is on the device. *)
Lemma winv_end cnt s :
  winv cnt s -> uc_ncb (io_u s) = num ->
  dev_inv (share num) (io_dev s) /\ q_pending (io_dev s) = [] /\ io_g s = g2.
Proof using HR.
  intros Hw Hn. pose proof (wi_ncb _ _ Hw) as Hncb. pose proof (winv_total _ _ Hw) as Ht.
  pose proof nz_bound. pose proof (pr_num HR).
  assert (Hnil : q_pending (io_dev s) = []) by (apply length_zero_iff_nil; lia).
  assert (Hall : forall z, 0 <= z < nz -> cnt z = share num z).
  { apply (total_le nz cnt (share num)); [lia|apply Hw|]. rewrite total_share by lia.
    rewrite Hnil in Hncb. simpl in Hncb. lia. }
  split_and!; auto.
  - assert (Hiff : forall j, done_cmd cnt j <-> done_cmd (share num) j).
    { intros j. unfold done_cmd. split; intros [Hj Hlt]; (split; [done|]);
        (rewrite Hall in *; [done|by apply cmd_zone_range]). }
    destruct (wi_dev _ _ Hw) as [H1 H2 H3 H4]. constructor; auto.
    + intros z Hz. by rewrite H1, Hall.
    + intros j t off Hj. by apply H3, Hiff.
    + intros sec off Hout. apply H4. intros j Hj. by apply Hout, Hiff.
  - rewrite (wi_g _ _ Hw), Hn. by rewrite Z.eqb_refl.
Qed.

End Submission.
