(* ===== verification/IoWrite.v ===== *)
(** The write path as a whole: [ztl_io_write_ucmd] (src/xztl/src/ztl-io.c) on a
    healthy zoned device.

    A request of [ncmd] commands is written as one or two pieces, each on one
    node; a piece is allocated (ProGrp.v), populated (IoPopulate.v), submitted
    and completed (IoSubmit.v).  The file defines the bytes of a node in stripe
    order and proves that the pieces hold the buffer. *)

From S2P Require Import Prelude Types Sim Stats ProGrp Media Zns Device Io IoPopulate IoFlight IoSubmit.

(** * The bytes of a node *)

Definition slot_sect (pro : ztl_pro_node_grp) (node : ztl_pro_node) (z : Z) : Z :=
  match slot_zone pro node z with Some zone => maddr_sect (pz_addr zone) | None => 0 end.

Definition slot_devz (pro : ztl_pro_node_grp) (node : ztl_pro_node) (z : Z) : Z :=
  match slot_zone pro node z with Some zone => maddr_zone (pz_addr zone) | None => 0 end.

(** The device sector that holds sector [sec] of the node: 8 sectors per zone,
    then the next zone. *)
Definition node_sector (pro : ztl_pro_node_grp) (node : ztl_pro_node) (sec : Z) : Z :=
  slot_sect pro node ((sec / 8) mod 64) + 8 * (sec / 8 / 64) + sec mod 8.

Definition node_byte (data : contents) (pro : ztl_pro_node_grp) (node : ztl_pro_node) (x : Z) : Z :=
  data (node_sector pro node (x / 4096)) (x mod 4096).

(** * One piece *)

Section Piece.

Context {D : Type} `{HX : !Xnvme D} `{HQ : !QueueLaws D} `{HZ : !ZnsLaws D}.
Context (geo_zn_grp dev_nsect meta : Z).
Implicit Types (s : iostate D).

(** The node's zones are zones of the device, their write pointers where the
    stripe of the written commands leaves them. *)
Record on_device (d : D) (pro : ztl_pro_node_grp) (node : ztl_pro_node) : Prop := {
  od_start : forall z, 0 <= z < 64 -> slot_sect pro node z = slot_devz pro node z * z_nsect;
  od_wp : forall z, 0 <= z < 64 ->
    z_wp d (slot_devz pro node z) = slot_sect pro node z + 8 * stripe_count (pn_used node) z
}.

(** The arrays of an I/O context have the sizes the structures declare. *)
Record arrays_ok s : Prop := {
  ar_pop : pop_lengths s;
  ar_moff : Z.of_nat (length (uc_moffset (io_u s))) = XZTL_WIO_MAX_MCMD;
  ar_mif : length (uc_minflight (io_u s)) = 256%nat
}.

Lemma slot_sect_eq pro node z zone :
  slot_zone pro node z = Some zone ->
  slot_sect pro node z = maddr_sect (pz_addr zone) /\ slot_devz pro node z = maddr_zone (pz_addr zone).
Proof using. unfold slot_sect, slot_devz. by intros ->. Qed.

(** Different slots are different zones of the device. *)
Lemma slot_devz_inj len pro node z z' :
  node_wf pro node len -> zones_indexed meta pro -> 0 <= z < 64 -> 0 <= z' < 64 ->
  slot_devz pro node z = slot_devz pro node z' -> z = z'.
Proof using.
  intros Hwf [_ Hidx] Hz Hz' Heq.
  destruct (nw_slot _ _ _ Hwf z Hz) as (zone & ei & Hs & He & _).
  destruct (nw_slot _ _ _ Hwf z' Hz') as (zone' & ei' & Hs' & He' & _).
  rewrite (proj2 (slot_sect_eq _ _ _ _ Hs)), (proj2 (slot_sect_eq _ _ _ _ Hs')) in Heq.
  pose proof Hs as Hs0. pose proof Hs' as Hs0'. unfold slot_zone in Hs, Hs'.
  destruct (pn_vzones node).[z] as [[zi|]|]; simpl in Hs; try done.
  destruct (pn_vzones node).[z'] as [[zi'|]|]; simpl in Hs'; try done.
  rewrite (Hidx zi zone ei Hs He), (Hidx zi' zone' ei' Hs' He') in Heq.
  assert (zi' = zi) as -> by lia. assert (zone' = zone) as -> by congruence.
  eapply (nw_inj _ _ _ Hwf); eauto using slot_ei_zone.
Qed.

(** Zone [z] of a piece that starts at command [u] of the node. *)
Definition pzone (u z : Z) : Z := (u + z) mod 64.
Definition pstart (pro : ztl_pro_node_grp) (node : ztl_pro_node) (u z : Z) : Z :=
  slot_sect pro node (pzone u z) + 8 * ((u + z) / 64).
Definition pdevz (pro : ztl_pro_node_grp) (node : ztl_pro_node) (u z : Z) : Z :=
  slot_devz pro node (pzone u z).

Lemma stripe_fits u num z :
  0 <= u -> 0 <= num -> u + num <= ZTL_PRO_OPT_SEC_NUM_INNODE -> 0 <= z < nzones_of num ->
  0 <= (u + z) / 64 /\ 8 * ((u + z) / 64) + 8 * share num z <= ZTL_PRO_SEC_NUM_INZONE.
Proof using.
  intros Hu Hn Hcap' Hz. assert (z < 64) by (unfold nzones_of in Hz; lia).
  pose proof (stripe_count_bound (u + num) ((u + z) mod 64) ltac:(lia) (slot_range _ _)) as Hb.
  rewrite stripe_count_add, stripe_count_at in Hb by lia.
  replace (z <? nzones_of num) with true in Hb by lia. split; [zdiv|lia].
Qed.

(** The context after the allocation of [num] commands of the node. *)
Record allocated s (pro : ztl_pro_node_grp) (n : nat) (node : ztl_pro_node) (num : Z) : Prop := {
  al_pro : grp_pro (io_g s) = Some pro;
  al_node : pg_vnodes pro !! n = Some node;
  al_wf : node_wf pro node (length (grp_tbl (io_g s)));
  al_fits : node_fits pro node;
  al_idx : zones_indexed meta pro;
  al_used : 0 <= pn_used node;
  al_num : 0 < num <= ZTL_IO_RC_NUM;
  al_cap : pn_used node + num <= ZTL_PRO_OPT_SEC_NUM_INNODE;
  al_inflight : striped ze_wptr_inflight pro node (grp_tbl (io_g s)) (pn_used node + num);
  al_wptr : striped ze_wptr pro node (grp_tbl (io_g s)) (pn_used node);
  al_ctx : stripe_ctx pro node num (pn_used node) (io_prov s);
  al_arr : arrays_ok s;
  al_dev : on_device (io_dev s) pro node
}.

(** The context with the counters of the request reset, as the submission
    starts. *)
Definition start_state s (mi : list Z) (num : Z) : iostate D :=
  io_set_u s (uc_set_ncb (uc_set_nmcmd (uc_set_minflight
    (uc_set_pieces (io_u s) (u16 (uc_pieces (io_u s) + 1))) mi) (u16 num)) 0).

Lemma populate_allocated s pro n node num boff :
  allocated s pro n node num -> boff = u64 boff ->
  exists p, populate ZNS_ALIGMENT num boff s = Ok p /\ pop_inv ZNS_ALIGMENT num boff s num p.
Proof using.
  intros [] Hb. pose proof al_ctx0 as [Hcw Hna _ Ha Hs]. apply populate_ok; auto; [lia| |apply al_arr0].
  intros z a Hz Hz'. assert (z < 64) by (unfold nzones_of in Hz; lia).
  destruct (nw_slot _ _ _ al_wf0 ((pn_used node + z) mod 64) (slot_range _ _)) as (zone & _ & Hzone & _).
  rewrite (Ha z zone Hz Hzone) in Hz'. injection Hz' as <-.
  pose proof (al_fits0 _ _ (slot_range _ _) Hzone). pose proof (maddr_sect_range (pz_addr zone)).
  destruct (stripe_fits (pn_used node) num z) as [? ?]; auto; [lia|].
  pose proof (share_pos num z ltac:(lia) Hz).
  rewrite maddr_sect_set_sect, wrap_small; lia.
Qed.

(** The commands the population sets up. *)
Lemma populated_cmd s pro n node num boff p j :
  allocated s pro n node num -> pop_inv ZNS_ALIGMENT num boff s num p ->
  0 <= boff -> boff + 32768 * num < 2 ^ 64 -> 0 <= j < num ->
  exists m, statics (ps_s p) !! Z.to_nat j = Some m /\
    cmd_spec (pstart pro node (pn_used node)) (fun j => boff + 32768 * j) j m.
Proof using.
  intros Hal Hp Hb Hb' Hj. pose proof Hal as []. destruct al_ctx0 as [Hcw Hna _ Ha Hs].
  pose proof (cmd_zone_range num j Hj) as Hz. set (z := j mod 64) in *.
  destruct (nw_slot _ _ _ al_wf0 ((pn_used node + z) mod 64) (slot_range _ _)) as (zone & _ & Hzone & _).
  pose proof (Ha z zone Hz Hzone) as Haz.
  destruct (ar_pop _ al_arr0) as (Hlc & _).
  destruct (io_cmds s).[j] as [old|] eqn:Hold.
  2:{ apply eq_None_not_Some in Hold. destruct Hold. apply aget_is_Some. lia. }
  pose proof (pi_cmds _ _ _ _ _ _ Hp j old _ Hj Hold Haz) as Hc.
  apply aget_Some in Hc as [_ Hc]. apply statics_lookup in Hc.
  eexists. split; [exact Hc|].
  destruct (stripe_fits (pn_used node) num z) as [Hr Hr']; auto; [lia|].
  pose proof (row_below_share num j Hj). fold z in H. assert (0 <= j / 64) by zdiv.
  pose proof (al_fits0 _ _ (slot_range _ _) Hzone). pose proof (maddr_sect_range (pz_addr zone)).
  constructor; simpl; auto; [by split| |].
  - rewrite !maddr_sect_set_sect. unfold cmd_addr. rewrite !maddr_sect_set_sect.
    set (A := maddr_sect (pz_addr zone) + 8 * ((pn_used node + z) / 64)) in *.
    rewrite (wrap_small 36 A) by lia. rewrite (wrap_small 36 (A + 8 * (j / 64))) by lia.
    rewrite wrap_small by lia. unfold A.
    unfold slba, pstart, pzone. fold z. rewrite (proj1 (slot_sect_eq _ _ _ _ Hzone)). lia.
  - unfold cmd_buf. cst. rewrite wrap_small; lia.
Qed.

Lemma populated_ctx s pro n node num boff p :
  allocated s pro n node num -> pop_inv ZNS_ALIGMENT num boff s num p ->
  ctx_for pro node num (pn_used node) (io_prov (ps_s p)).
Proof using.
  intros [] Hp. destruct (pi_frame _ _ _ _ _ _ Hp) as (_ & _ & _ & _ & _ & Hns & Hna & _).
  destruct al_ctx0 as [Hcw Hn _ Ha Hs]. split; [congruence|].
  intros i zone Hi Hz. eexists. split; [by eapply (pi_prov _ _ _ _ _ _ Hp), Ha|].
  rewrite !maddr_zone_set_sect, !maddr_grp_set_sect, Hns. auto.
Qed.

Lemma clear_minflight_ok mi :
  length mi = 256%nat -> exists mi', clear_minflight mi = Some mi' /\ length mi' = 256%nat /\
    forall z, 0 <= z < 64 -> mi'.[z] = Some 0.
Proof using.
  intros Hl. unfold clear_minflight. rewrite decide_True by lia. eexists. split; [reflexivity|].
  split; [rewrite length_app, length_replicate, length_drop; lia|].
  intros z Hz. apply aget_Some. split; [lia|].
  rewrite lookup_app_l by (rewrite length_replicate; lia). apply lookup_replicate_2. lia.
Qed.

(** The zones hold the sectors a node accounts for, and the queue more
    commands than a node has zones. *)
Definition device_fits : Prop := ZTL_PRO_SEC_NUM_INZONE <= z_zcap /\ (64 < z_depth)%nat.

Lemma piece_ready_ok s pro n node num boff p mi :
  device_fits -> allocated s pro n node num -> pop_inv ZNS_ALIGMENT num boff s num p ->
  0 <= boff -> boff + 32768 * num < 2 ^ 64 ->
  clear_minflight (uc_minflight (io_u (ps_s p))) = Some mi -> length mi = 256%nat ->
  exists tbl2,
    piece_ready meta num (pstart pro node (pn_used node)) (pdevz pro node (pn_used node))
      (fun j => boff + 32768 * j) (ps_ids p) (start_state (ps_s p) mi num)
      (app_grp_ctx_sub (grp_set_tbl (io_g s) tbl2)) /\
    tbl_frame pro node (grp_tbl (io_g s)) tbl2 /\
    striped ze_wptr_inflight pro node tbl2 (pn_used node + num) /\
    striped ze_wptr pro node tbl2 (pn_used node + num).
Proof using.
  intros [Hcap Hdepth] Hal Hp Hb Hb' Hmi Hlen. pose proof Hal as [].
  pose proof (pi_frame _ _ _ _ _ _ Hp) as (Hg & _ & _ & _ & _ & _ & Hna & msec & mcmd & Hu).
  destruct (ztl_pro_free_writable meta (io_g s) pro n node (io_prov (ps_s p)) num)
    as (tbl2 & Hfree & Hfr & Hi2 & Hw2); auto; [lia|by eapply populated_ctx|].
  exists tbl2. split; [|done].
  assert (H64 : forall z, 0 <= z < nzones_of num -> 0 <= z < 64) by (unfold nzones_of; lia).
  constructor; simpl; auto.
  - intros j Hj. by eapply (populated_cmd s pro n node num boff p j).
  - intros j Hj. by apply (pi_mcmd _ _ _ _ _ _ Hp).
  - intros z Hz. by apply (pi_ids _ _ _ _ _ _ Hp).
  - intros z Hz. destruct (stripe_fits (pn_used node) num z) as [? ?]; auto; [lia|].
    unfold pdevz, pstart. rewrite <- (od_start _ _ _ al_dev0) by apply slot_range.
    unfold pzone. lia.
  - intros z z' Hz Hz' Heq. apply (stripe_slot_inj (pn_used node)); auto.
    eapply slot_devz_inj; eauto; apply slot_range.
  - by rewrite Hg.
  - rewrite Hna. by destruct al_ctx0.
  - rewrite Hu; simpl. by destruct al_arr0.
  - lia.
  - rewrite wrap_small; [done|]. cst. lia.
Qed.

(** ** The sectors of a piece *)

(** Sector [t] of command [j] of the piece is a sector of the node. *)
Lemma piece_sector pro node u j t :
  0 <= t < 8 ->
  slba (pstart pro node u) j + t = node_sector pro node (8 * (u + j) + t).
Proof using.
  intros Ht. unfold slba, pstart, pzone, node_sector.
  replace ((8 * (u + j) + t) / 8) with (u + j) by zdiv.
  replace ((8 * (u + j) + t) mod 8) with t by zdiv.
  replace ((u + j mod 64) mod 64) with ((u + j) mod 64) by zdiv.
  assert ((u + j mod 64) / 64 + j / 64 = (u + j) / 64) by zdiv. lia.
Qed.

(** What a piece leaves behind: [s] before, [s'] after. *)
Record piece_done s s' (pro : ztl_pro_node_grp) (node : ztl_pro_node) (num boff : Z) : Prop := {
  pd_g : exists tbl2, io_g s' = app_grp_ctx_sub (grp_set_tbl (io_g s) tbl2) /\
    tbl_frame pro node (grp_tbl (io_g s)) tbl2 /\
    striped ze_wptr_inflight pro node tbl2 (pn_used node + num) /\
    striped ze_wptr pro node tbl2 (pn_used node + num);
  pd_node : io_node s' = io_node s;
  pd_mem : io_mem s' = io_mem s;
  pd_stats : io_stats s' = io_stats s;
  pd_arr : arrays_ok s';
  pd_idle : q_pending (io_dev s') = [];
  pd_u : exists mcmd msec nmcmd moff mi ncb,
    io_u s' = uc_set_ncb (uc_set_minflight (uc_set_moffset (uc_set_nmcmd
      (uc_set_pieces (uc_set_mcmd (uc_set_msec (io_u s) msec) mcmd) (u16 (uc_pieces (io_u s) + 1)))
      nmcmd) moff) mi) ncb;
  pd_wp : forall z, 0 <= z < 64 ->
    z_wp (io_dev s') (slot_devz pro node z) =
    slot_sect pro node z + 8 * stripe_count (pn_used node + num) z;
  pd_wp_other : forall zn, (forall z, 0 <= z < 64 -> slot_devz pro node z <> zn) ->
    z_wp (io_dev s') zn = z_wp (io_dev s) zn;
  pd_data : forall j t off, 0 <= j < num -> 0 <= t < 8 ->
    z_data (io_dev s') (node_sector pro node (8 * (pn_used node + j) + t)) off =
    io_mem s (boff + 32768 * j + t * ZNS_ALIGMENT + off);
  pd_data_other : forall sec off,
    (forall y, 8 * pn_used node <= y < 8 * (pn_used node + num) -> node_sector pro node y <> sec) ->
    z_data (io_dev s') sec off = z_data (io_dev s) sec off
}.

(** The write pointers after the piece, slot by slot. *)
Lemma piece_wp s pro n node num d z :
  allocated s pro n node num -> 0 <= z < 64 ->
  (forall i, 0 <= i < nzones_of num ->
     z_wp d (pdevz pro node (pn_used node) i) = pstart pro node (pn_used node) i + 8 * share num i) ->
  (forall zn, (forall i, 0 <= i < nzones_of num -> pdevz pro node (pn_used node) i <> zn) ->
     z_wp d zn = z_wp (io_dev s) zn) ->
  z_wp d (slot_devz pro node z) = slot_sect pro node z + 8 * stripe_count (pn_used node + num) z.
Proof using.
  intros [] Hz Hin Hout. set (u := pn_used node) in *. pose proof (slot_of_stripe u z Hz) as Hzi.
  set (i := (z - u) mod 64) in *.
  assert (Hi : 0 <= i < 64) by (apply Z.mod_pos_bound; lia).
  assert (Hpz : pdevz pro node u i = slot_devz pro node z) by (unfold pdevz, pzone; congruence).
  pose proof (stripe_count_add u num i ltac:(lia) Hi) as Hadd.
  rewrite <- Hzi in Hadd. rewrite Hadd.
  destruct (Z.ltb_spec i (nzones_of num)) as [Hlt|Hge].
  - rewrite <- Hpz, Hin by lia. unfold pstart, pzone. rewrite <- Hzi.
    pose proof (stripe_count_at u i Hi) as Hat. rewrite <- Hzi in Hat. lia.
  - rewrite Hout, (od_wp _ _ _ al_dev0 z Hz); [fold u; lia|].
    intros k Hk Heq. rewrite <- Hpz in Heq. unfold pdevz in Heq.
    assert (k = i); [|lia]. assert (k < 64) by (unfold nzones_of in Hk; lia).
    apply (stripe_slot_inj u); [lia|lia|].
    eapply slot_devz_inj; eauto; apply slot_range.
Qed.

(** The request after the population and the submission of a piece. *)
Lemma piece_u s boff num p mi s' :
  pop_inv ZNS_ALIGMENT num boff s num p -> u_shape (start_state (ps_s p) mi num) s' ->
  exists mcmd msec nmcmd moff mi' ncb,
    io_u s' = uc_set_ncb (uc_set_minflight (uc_set_moffset (uc_set_nmcmd
      (uc_set_pieces (uc_set_mcmd (uc_set_msec (io_u s) msec) mcmd) (u16 (uc_pieces (io_u s) + 1)))
      nmcmd) moff) mi') ncb /\
    length moff = length (uc_moffset (io_u s)) /\ length mi' = length mi /\
    length mcmd = length (uc_mcmd (io_u (ps_s p))) /\ length msec = length (uc_msec (io_u (ps_s p))).
Proof using.
  intros Hp (mo & mi' & n & Hu & Hlo & Hli & _).
  destruct (pi_frame _ _ _ _ _ _ Hp) as (_ & _ & _ & _ & _ & _ & _ & msec & mcmd & Hup).
  exists mcmd, msec, (u16 num), mo, mi', n. rewrite Hu. unfold start_state in *; simpl in *.
  rewrite Hup in *; simpl in *. split_and!; auto.
Qed.

Lemma piece_arrays s boff num p mi s' :
  pop_inv ZNS_ALIGMENT num boff s num p -> arrays_ok s ->
  u_shape (start_state (ps_s p) mi num) s' ->
  length mi = 256%nat -> statics s' = statics (start_state (ps_s p) mi num) ->
  io_prov s' = io_prov (ps_s p) -> arrays_ok s'.
Proof using.
  intros Hp [_ Hmo _] Hu Hmi Hst Hpv.
  destruct (piece_u s boff num p mi s' Hp Hu) as (mcmd & msec & nm & moff & mi' & ncb & Hu' & L1 & L2 & L3 & L4).
  destruct (pi_len _ _ _ _ _ _ Hp) as (Hc & Hm & Hs & Hctx).
  constructor; [|rewrite Hu'; simpl; congruence..].
  assert (Hlc : length (io_cmds s') = length (io_cmds (ps_s p))).
  { apply (f_equal length) in Hst. unfold statics in Hst. by rewrite !length_fmap in Hst. }
  unfold pop_lengths. rewrite Hlc, Hpv, Hu'. simpl. rewrite L3, L4. done.
Qed.

(** One piece: populated, submitted and completed.  The loops end, with
    enough fuel, and the piece is on the device. *)
Lemma write_piece_io_ok s pro n node num boff :
  device_fits -> allocated s pro n node num -> q_pending (io_dev s) = [] ->
  0 <= boff -> boff + 32768 * num < 2 ^ 64 ->
  exists N s',
    (forall fuel, (N <= fuel)%nat ->
       write_piece_io ZNS_ALIGMENT geo_zn_grp dev_nsect meta fuel num boff s =
       Ok (boff + 32768 * num, s')) /\
    piece_done s s' pro node num boff.
Proof using.
  intros Hdev Hal Hidle Hb Hb'. pose proof (al_num _ _ _ _ _ Hal) as Hn.
  assert (Hbo : boff = u64 boff) by (rewrite wrap_small; lia).
  destruct (populate_allocated s pro n node num boff Hal Hbo) as (p & Hpop & Hp).
  pose proof (pi_frame _ _ _ _ _ _ Hp) as (Hg & Hnd & Hsts & Hd & Hmem & _ & _ & msec & mcmd & Hu).
  pose proof (al_arr _ _ _ _ _ Hal) as Harr.
  assert (Hmlen : length (uc_minflight (io_u (ps_s p))) = 256%nat)
    by (rewrite Hu; simpl; apply Harr).
  destruct (clear_minflight_ok _ Hmlen) as (mi & Hmi & Hml & Hm0).
  destruct (piece_ready_ok s pro n node num boff p mi) as (tbl2 & Hr & Hfr & Hi2 & Hw2); auto.
  set (u := pn_used node) in *. set (st := start_state (ps_s p) mi num) in *.
  assert (Hnz : nzones_of num <= 64) by (unfold nzones_of; lia).
  assert (Hst0 : pinv num (pstart pro node u) (pdevz pro node u) (fun j => boff + 32768 * j) st
    (app_grp_ctx_sub (grp_set_tbl (io_g s) tbl2)) (fun _ => 0)
    {| ss_submitted := 0; ss_idx := replicate 128 0; ss_s := st |}).
  { eapply pinv_start; [exact Hr|simpl; congruence|done|intros z Hz; apply Hm0; lia|].
    intros z Hz. simpl. rewrite Hd. unfold pdevz, pstart, pzone.
    rewrite (od_wp _ _ _ (al_dev _ _ _ _ _ Hal)) by apply slot_range.
    fold u. rewrite stripe_count_at by lia. done. }
  destruct (submit_while_ok geo_zn_grp dev_nsect _ _ _ _ _ _ _ _ Hr _ _ Hst0)
    as (N1 & q & cnt & Hsub & Hq & Hqs).
  destruct (wait_while_ok geo_zn_grp dev_nsect _ _ _ _ _ _ _ _ Hr _ _ Hq Hqs)
    as (N2 & s' & Hwait & Hw' & Hncb).
  destruct (winv_end _ _ _ _ _ _ _ _ Hr _ _ Hw' Hncb) as ([D1 D2 D3 D4] & Hidle' & Hg').
  exists (N1 + N2)%nat, s'. split.
  { intros fuel Hf. unfold write_piece_io. rewrite Hpop. simpl.
    rewrite Hmi. simpl. fold (start_state (ps_s p) mi num). fold st.
    rewrite Hsub by lia. simpl. rewrite Hwait by lia. simpl. do 2 f_equal.
    rewrite (pi_boff _ _ _ _ _ _ Hp). unfold cmd_buf. cst. rewrite wrap_small; lia. }
  assert (Hpr : io_prov s' = io_prov (ps_s p)) by apply Hw'.
  constructor.
  - exists tbl2. rewrite Hg'. auto.
  - rewrite (wi_node _ _ _ _ _ _ _ _ Hw'). exact Hnd.
  - rewrite (wi_mem _ _ _ _ _ _ _ _ Hw'). exact Hmem.
  - rewrite (wi_stats _ _ _ _ _ _ _ _ Hw'). exact Hsts.
  - eapply piece_arrays; eauto; [apply Hw'|apply (wi_flight _ _ _ _ _ _ _ _ Hw')].
  - exact Hidle'.
  - destruct (piece_u s boff num p mi s' Hp (wi_u _ _ _ _ _ _ _ _ Hw'))
      as (mc & ms & nm & mo & mi' & ncb & Hu' & _). eauto 10.
  - intros z Hz. apply (piece_wp s pro n node num); auto. intros zn Hzn. rewrite D2 by done.
    simpl. by rewrite Hd.
  - intros zn Hzn. rewrite D2; [simpl; by rewrite Hd|]. intros i Hi. apply Hzn, slot_range.
  - intros j t off Hj Ht. fold u. rewrite <- piece_sector by done. rewrite D3; [|split; [done|]|done].
    + simpl. by rewrite Hmem.
    + by apply row_below_share.
  - intros sec off Hout. rewrite D4; [simpl; by rewrite Hd|]. intros j [Hj _] Hsec.
    apply (Hout (8 * (u + j) + (sec - slba (pstart pro node u) j))); [lia|].
    rewrite <- piece_sector by lia. lia.
Qed.

End Piece.
