(* ===== verification/IoRequest.v ===== *)
(** A whole write request: [ztl_io_write_ucmd] (src/xztl/src/ztl-io.c) from the
    invariant of the engine to the invariant of the engine, with the bytes of
    the request on the device. *)

From S2P Require Import Prelude Types Sim Stats ProGrp Media Zns Device Io IoPopulate IoFlight IoSubmit IoWrite.

Section Engine.

Context {D : Type} `{HX : !Xnvme D} `{HQ : !QueueLaws D} `{HZ : !ZnsLaws D}.
Context (geo_zn_grp dev_nsect meta : Z).
Implicit Types (s : iostate D) (pro : ztl_pro_node_grp).

(** The nodes a writer can write next: the one it holds, and the free ones. *)
Definition avail pro (qnode : option nat) (n : nat) : Prop :=
  n ∈ pg_free_head pro \/ qnode = Some n.

(** Different nodes have different zones. *)
Definition nodes_disjoint pro : Prop :=
  forall n n' node node' z z' ei, n <> n' ->
    pg_vnodes pro !! n = Some node -> pg_vnodes pro !! n' = Some node' ->
    0 <= z < 64 -> 0 <= z' < 64 ->
    slot_ei pro node z = Some ei -> slot_ei pro node' z' <> Some ei.

(** The zones of a node are whole zones of the device, at addresses that the
    36-bit sector field represents. *)
Definition zones_whole (len : nat) pro (node : ztl_pro_node) : Prop :=
  node_wf pro node len /\
  (forall z, 0 <= z < 64 -> slot_sect pro node z = slot_devz pro node z * z_nsect) /\
  node_fits pro node.

Lemma zones_whole_transfer len pro node pro' node' :
  pg_vzones pro' = pg_vzones pro -> pn_vzones node' = pn_vzones node ->
  zones_whole len pro node -> zones_whole len pro' node'.
Proof using.
  intros Hvz Hsl (Hwf & Hst & Hf). split_and!; [by eapply node_wf_transfer| |by eapply node_fits_transfer].
  intros z Hz. unfold slot_sect, slot_devz in *.
  rewrite (slot_zone_transfer pro pro' node node') by done. by apply Hst.
Qed.

(** The invariant of the write engine between two requests. *)
Record engine s pro : Prop := {
  eg_pro : grp_pro (io_g s) = Some pro;
  eg_ok : pro_ok pro;
  eg_holds : holds pro (io_node s);
  eg_write : forall n node, avail pro (io_node s) n -> pg_vnodes pro !! n = Some node ->
    writable meta (io_g s) pro n node;
  eg_dev : forall n node, avail pro (io_node s) n -> pg_vnodes pro !! n = Some node ->
    on_device (io_dev s) pro node;
  eg_disj : nodes_disjoint pro;
  eg_idx : zones_indexed meta pro;
  eg_zones : forall n node, n ∈ queues pro -> pg_vnodes pro !! n = Some node ->
    zones_whole (length (grp_tbl (io_g s))) pro node;
  eg_small : Z.of_nat (length (pg_vnodes pro)) < 2 ^ 31;
  eg_arr : arrays_ok s;
  eg_idle : q_pending (io_dev s) = []
}.

Lemma avail_queues s pro n : engine s pro -> avail pro (io_node s) n -> n ∈ queues pro.
Proof using.
  intros He [Hf|Hq]; unfold queues; [set_solver|].
  pose proof (eg_holds _ _ He n Hq). set_solver.
Qed.

Lemma on_device_core (d : D) pro node pro' node' :
  pg_vzones pro' = pg_vzones pro -> pn_vzones node' = pn_vzones node ->
  pn_used node' = pn_used node -> on_device d pro node -> on_device d pro' node'.
Proof using.
  intros Hvz Hsl Hu [H1 H2].
  assert (Hs : forall z, slot_zone pro' node' z = slot_zone pro node z)
    by (by apply slot_zone_transfer).
  constructor; intros z Hz; unfold slot_sect, slot_devz in *; rewrite Hs, ?Hu; auto.
Qed.

(** ** Choosing the node *)

Lemma engine_get_node s pro :
  engine s pro ->
  exists qn pro' ret,
    ztl_pro_get_node (io_g s) (io_node s) = Some (qn, grp_set_pro (io_g s) (Some pro'), ret) /\
    engine (io_set_node (io_set_g s (grp_set_pro (io_g s) (Some pro'))) qn) pro' /\
    get_node_post (io_node s) pro qn pro' ret.
Proof using.
  intros He. pose proof He as [Hpro Hok Hh Hwr Hod Hdj Hix Hzw Hsm Harr Hid].
  destruct (ztl_pro_grp_get_node_ok pro (io_node s) Hok Hh) as (qn & pro' & ret & Hrun & Hpost).
  exists qn, pro', ret. unfold ztl_pro_get_node. rewrite Hpro; simpl. rewrite Hrun.
  split; [done|]. split; [|done].
  pose proof Hpost as (Hok' & Hq & Hh' & [Hvz Hcore] & Hcase).
  assert (Hav : forall m, avail pro' qn m -> avail pro (io_node s) m).
  { destruct Hcase as [(_ & n & node & Hqn & _ & _ & [[Hqq ->]|(Hf & Hr & _)])|(_ & -> & _ & Hnil & _)].
    - by rewrite Hqq.
    - intros m [Hm|Hm]; left; [rewrite Hr; by right|congruence].
    - intros m [Hm|Hm]; [|done]. rewrite Hnil in Hm. by apply not_elem_of_nil in Hm. }
  assert (Hnode : forall m node', pg_vnodes pro' !! m = Some node' ->
    exists node, pg_vnodes pro !! m = Some node /\ node_core node' = node_core node).
  { intros m node' Hm. specialize (Hcore m). rewrite Hm in Hcore. simpl in Hcore.
    symmetry in Hcore. apply fmap_Some_1 in Hcore as (node & Hn & Heq). eauto. }
  constructor; simpl; auto.
  - intros m node' Hm Hn'. destruct (Hnode m node' Hn') as (node & Hn & Heq).
    eapply writable_core; eauto.
  - intros m node' Hm Hn'. destruct (Hnode m node' Hn') as (node & Hn & Heq).
    apply node_core_eq in Heq as (_ & Hsl & _ & Hu).
    eapply on_device_core; eauto.
  - intros m m' n1 n2 z z' ei Hne Hm Hm' Hz Hz'.
    destruct (Hnode m n1 Hm) as (n1' & Hn1 & (_ & Hs1 & _)%node_core_eq).
    destruct (Hnode m' n2 Hm') as (n2' & Hn2 & (_ & Hs2 & _)%node_core_eq).
    rewrite (slot_ei_transfer pro pro' n1' n1), (slot_ei_transfer pro pro' n2' n2) by done.
    by apply (Hdj m m').
  - by eapply zones_indexed_transfer.
  - intros m node' Hm Hn'. destruct (Hnode m node' Hn') as (node & Hn & (_ & Hsl & _)%node_core_eq).
    rewrite Hq in Hm. by eapply (zones_whole_transfer _ pro node), Hzw.
  - destruct (le_lt_dec (length (pg_vnodes pro')) (length (pg_vnodes pro))) as [Hle|Hlt]; [lia|].
    apply lookup_lt_is_Some in Hlt as [nd Hnd]. destruct (Hnode _ _ Hnd) as (nd' & Hnd' & _).
    apply lookup_lt_Some in Hnd'. lia.
  - by destruct Harr.
Qed.

(** ** Updating the held node *)

Lemma upd_node_eq g pro n node f :
  grp_pro g = Some pro -> pg_vnodes pro !! n = Some node ->
  upd_node g n f = Some (grp_set_pro g (Some (pg_set_vnodes pro (<[n := f node]> (pg_vnodes pro))))).
Proof using. intros Hp Hn. unfold upd_node. rewrite Hp; simpl. by rewrite Hn. Qed.

Lemma pro_ok_upd pro n node node' :
  pro_ok pro -> n ∈ pg_used_head pro -> pg_vnodes pro !! n = Some node ->
  pn_id node' = pn_id node -> 0 <= pn_left node' -> 0 <= pn_used node' ->
  pn_left node' + pn_used node' = ZTL_PRO_OPT_SEC_NUM_INNODE ->
  pro_ok (pg_set_vnodes pro (<[n := node']> (pg_vnodes pro))).
Proof using.
  intros [Hnd Hc Hnf Hfr Hfu] Hin Hn Hid Hl Hu Hcap.
  assert (Hout : forall m, m ∈ pg_free_head pro ++ pg_full_head pro -> m <> n).
  { intros m Hm ->. revert Hnd. unfold queues. rewrite !NoDup_app. set_solver. }
  constructor; simpl; auto.
  - intros m Hm. destruct (decide (m = n)) as [->|Hne].
    + exists node'. simpl. rewrite list_lookup_insert_eq by (by eapply lookup_lt_Some).
      destruct (Hc n Hm) as (nd & Hnd' & Hid' & _). split_and!; auto. congruence.
    + destruct (Hc m Hm) as (nd & ? & ?). exists nd. simpl. by rewrite list_lookup_insert_ne.
  - intros m Hm nd. simpl. rewrite list_lookup_insert_ne; [by apply Hfr|].
    apply not_eq_sym, Hout. set_solver.
  - intros m Hm nd. simpl. rewrite list_lookup_insert_ne; [by apply Hfu|].
    apply not_eq_sym, Hout. set_solver.
Qed.

(** Zones of different nodes are different zones of the device. *)
Lemma nodes_devz_ne pro n m node nd len z z' :
  zones_indexed meta pro -> nodes_disjoint pro -> n <> m ->
  pg_vnodes pro !! n = Some node -> pg_vnodes pro !! m = Some nd ->
  node_wf pro node len -> node_wf pro nd len -> 0 <= z < 64 -> 0 <= z' < 64 ->
  slot_devz pro node z <> slot_devz pro nd z'.
Proof using.
  intros [_ Hidx] Hdj Hne Hn Hm Hwf Hwf' Hz Hz' Heq.
  destruct (nw_slot _ _ _ Hwf z Hz) as (zone & ei & Hs & He & _).
  destruct (nw_slot _ _ _ Hwf' z' Hz') as (zone' & ei' & Hs' & He' & _).
  rewrite (proj2 (slot_sect_eq _ _ _ _ Hs)), (proj2 (slot_sect_eq _ _ _ _ Hs')) in Heq.
  pose proof Hs as Hs0. pose proof Hs' as Hs0'. unfold slot_zone in Hs, Hs'.
  destruct (pn_vzones node).[z] as [[zi|]|]; simpl in Hs; try done.
  destruct (pn_vzones nd).[z'] as [[zi'|]|]; simpl in Hs'; try done.
  rewrite (Hidx zi zone ei Hs He), (Hidx zi' zone' ei' Hs' He') in Heq.
  assert (zi' = zi) as -> by lia. assert (zone' = zone) as -> by congruence.
  assert (ei' = ei) as -> by congruence.
  apply (Hdj n m node nd z z' ei); eauto using slot_ei_zone.
Qed.

(** The nodes after an update of one of them have the zones they had. *)
Lemma updated_zones pro pro' n node node' m nd :
  pg_vnodes pro !! n = Some node -> pg_vnodes pro' = <[n := node']> (pg_vnodes pro) ->
  pn_vzones node' = pn_vzones node -> pg_vnodes pro' !! m = Some nd ->
  exists nd0, pg_vnodes pro !! m = Some nd0 /\ pn_vzones nd = pn_vzones nd0 /\ (m <> n -> nd = nd0).
Proof using.
  intros Hn -> Hsl. destruct (decide (m = n)) as [->|Hk].
  - rewrite list_lookup_insert_eq by (by eapply lookup_lt_Some). intros [= <-].
    exists node. by split_and!.
  - rewrite list_lookup_insert_ne by done. intros Hm. exists nd. by split_and!.
Qed.

(** The invariant, node by node, when only the node [n], its metadata and its
    zones change: the other nodes keep their part of it. *)
Lemma others_writable s pro n node s' pro' node' m nd :
  engine s pro -> pg_vnodes pro !! n = Some node -> pg_vzones pro' = pg_vzones pro ->
  pg_vnodes pro' = <[n := node']> (pg_vnodes pro) -> grp_pro (io_g s') = Some pro' ->
  tbl_frame pro node (grp_tbl (io_g s)) (grp_tbl (io_g s')) ->
  m <> n -> avail pro (io_node s) m -> pg_vnodes pro !! m = Some nd -> writable meta (io_g s') pro' m nd.
Proof using.
  intros He Hn Hvz Hvn Hpro' Hfr Hne Hm Hm'. pose proof Hfr as [Hlen _].
  pose proof (eg_write _ _ He m nd Hm Hm') as [_ _ Vid Vwf Vfit _ Vl Vu Vc Vi Vw].
  assert (Hdisj : forall z z' ei, 0 <= z < 64 -> 0 <= z' < 64 ->
    slot_ei pro node z = Some ei -> slot_ei pro nd z' <> Some ei)
    by (intros z z' ei Hz Hz' He1; by apply (eg_disj _ _ He n m node nd z z' ei)).
  pose proof (eg_idx _ _ He). constructor; auto; rewrite ?Hlen;
    eauto using node_wf_transfer, node_fits_transfer, zones_indexed_transfer.
  - by rewrite Hvn, list_lookup_insert_ne.
  - apply (striped_transfer pro pro' nd nd); auto. by eapply striped_frame.
  - apply (striped_transfer pro pro' nd nd); auto. by eapply striped_frame.
Qed.

Lemma others_on_device s pro n node (d : D) pro' m nd :
  engine s pro -> n ∈ queues pro -> pg_vnodes pro !! n = Some node -> pg_vzones pro' = pg_vzones pro ->
  (forall zn, (forall z, 0 <= z < 64 -> slot_devz pro node z <> zn) -> z_wp d zn = z_wp (io_dev s) zn) ->
  m <> n -> avail pro (io_node s) m -> pg_vnodes pro !! m = Some nd -> on_device d pro' nd.
Proof using.
  intros He Hq Hn Hvz Hwp Hne Hm Hm'. apply (on_device_core d pro nd); auto.
  pose proof (eg_dev _ _ He m nd Hm Hm') as [O1 O2]. pose proof (wr_wf _ _ _ _ _ (eg_write _ _ He m nd Hm Hm')) as Vwf.
  constructor; [done|]. intros z Hz. rewrite Hwp; [by apply O2|]. intros z0 Hz0.
  destruct (eg_zones _ _ He n node Hq Hn) as (Wwf & _).
  by eapply (nodes_devz_ne pro n m node nd _ _ _ (eg_idx _ _ He) (eg_disj _ _ He)).
Qed.

(** What the engine needs of a node that can be written next. *)
Record node_ready s' pro node node' : Prop := {
  nr_left : 0 <= pn_left node';
  nr_used : 0 <= pn_used node';
  nr_cap : pn_left node' + pn_used node' = ZTL_PRO_OPT_SEC_NUM_INNODE;
  nr_inflight : striped ze_wptr_inflight pro node (grp_tbl (io_g s')) (pn_used node');
  nr_wptr : striped ze_wptr pro node (grp_tbl (io_g s')) (pn_used node');
  nr_dev : on_device (io_dev s') pro node'
}.

(** A change of one node, of its zones' metadata and of its zones on the device
    keeps the invariant when it keeps the node's own part of it. *)
Lemma engine_change s pro n node s' pro' node' :
  engine s pro -> n ∈ queues pro -> pg_vnodes pro !! n = Some node ->
  pg_vzones pro' = pg_vzones pro -> pg_vnodes pro' = <[n := node']> (pg_vnodes pro) ->
  grp_pro (io_g s') = Some pro' -> pro_ok pro' -> holds pro' (io_node s') ->
  (forall m, m ∈ queues pro' -> m ∈ queues pro) ->
  (forall m, m <> n -> avail pro' (io_node s') m -> avail pro (io_node s) m) ->
  pn_id node' = pn_id node -> pn_vzones node' = pn_vzones node ->
  tbl_frame pro node (grp_tbl (io_g s)) (grp_tbl (io_g s')) ->
  (avail pro' (io_node s') n -> node_ready s' pro node node') ->
  (forall zn, (forall z, 0 <= z < 64 -> slot_devz pro node z <> zn) ->
     z_wp (io_dev s') zn = z_wp (io_dev s) zn) ->
  arrays_ok s' -> q_pending (io_dev s') = [] ->
  engine s' pro'.
Proof using.
  intros He Hq Hn Hvz Hvn Hpro' Hok' Hh' Hqs Hav Hid Hsl Hfr Hrd Hwp Harr Hidle. pose proof Hfr as [Hlen _].
  destruct (eg_zones _ _ He n node Hq Hn) as (Wwf & _ & Wfit).
  assert (Hold := fun m nd => updated_zones pro pro' n node node' m nd Hn Hvn Hsl).
  assert (Hnew : pg_vnodes pro' !! n = Some node')
    by (rewrite Hvn; apply list_lookup_insert_eq; by eapply lookup_lt_Some).
  constructor; auto.
  - intros m nd Hm Hm'. destruct (Hold m nd Hm') as (nd0 & Hm0 & _ & Hsame).
    destruct (decide (m = n)) as [->|Hne].
    + assert (nd = node') as -> by congruence. destruct (Hrd Hm) as [R1 R2 R3 R4 R5 _].
      destruct (po_counts _ (eg_ok _ _ He) n Hq) as (nd1 & Hn1 & Hid1 & _).
      pose proof (eg_idx _ _ He). constructor; auto; rewrite ?Hlen;
        eauto using node_wf_transfer, node_fits_transfer, zones_indexed_transfer, striped_transfer.
      congruence.
    + rewrite (Hsame Hne) in *. by eapply (others_writable s pro n node); eauto.
  - intros m nd Hm Hm'. destruct (Hold m nd Hm') as (nd0 & Hm0 & _ & Hsame).
    destruct (decide (m = n)) as [->|Hne].
    + assert (nd = node') as -> by congruence. apply (on_device_core _ pro node'); auto. apply (Hrd Hm).
    + rewrite (Hsame Hne) in *. by eapply (others_on_device s pro n node); eauto.
  - intros m m' n1 n2 z z' ei Hne Hm Hm' Hz Hz'.
    destruct (Hold m n1 Hm) as (n1' & Hn1 & Hs1 & _), (Hold m' n2 Hm') as (n2' & Hn2 & Hs2 & _).
    rewrite (slot_ei_transfer pro pro' n1' n1), (slot_ei_transfer pro pro' n2' n2) by done.
    by apply (eg_disj _ _ He m m').
  - eapply zones_indexed_transfer; [exact Hvz|apply He].
  - intros m nd Hm Hm'. destruct (Hold m nd Hm') as (nd0 & Hm0 & Hs0 & _). rewrite Hlen.
    apply (zones_whole_transfer _ pro nd0 pro' nd Hvz Hs0), (eg_zones _ _ He m nd0 (Hqs m Hm) Hm0).
  - rewrite Hvn, length_insert. apply He.
Qed.

(** The change of the node a writer holds. *)
Lemma engine_upd s pro n node s' node' :
  engine s pro -> io_node s = Some n -> pg_vnodes pro !! n = Some node ->
  let pro' := pg_set_vnodes pro (<[n := node']> (pg_vnodes pro)) in
  grp_pro (io_g s') = Some pro' -> io_node s' = Some n ->
  pn_id node' = pn_id node -> pn_vzones node' = pn_vzones node ->
  tbl_frame pro node (grp_tbl (io_g s)) (grp_tbl (io_g s')) ->
  node_ready s' pro node node' ->
  (forall zn, (forall z, 0 <= z < 64 -> slot_devz pro node z <> zn) ->
     z_wp (io_dev s') zn = z_wp (io_dev s) zn) ->
  arrays_ok s' -> q_pending (io_dev s') = [] ->
  engine s' pro'.
Proof using.
  intros He Hq Hn pro' Hpro' Hq' Hid Hsl Hfr Hrd Hwp Harr Hidle.
  assert (Hin : n ∈ pg_used_head pro) by (by apply (eg_holds _ _ He)).
  eapply (engine_change s pro n node s' pro' node'); eauto.
  - unfold queues. set_solver.
  - destruct Hrd. eapply pro_ok_upd; eauto. apply He.
  - intros m Hm. rewrite Hq' in Hm. by injection Hm as <-.
  - intros m Hne [Hf|Hm]; [by left|congruence].
Qed.

(** ** One piece on the held node *)

(** What a piece of [num] commands, at command [start] of node [n], did. *)
Record piece_result s s' (pro' : ztl_pro_node_grp) (n : nat) (start num boff : Z) : Prop := {
  pc_engine : engine s' pro';
  pc_node : io_node s' = Some n;
  pc_mem : io_mem s' = io_mem s;
  pc_u : exists nids starts nums mcmd msec nmcmd moff mi ncb,
    aset (uc_node_id (io_u s)) (uc_pieces (io_u s)) (Z.of_nat n) = Some nids /\
    aset (uc_start (io_u s)) (uc_pieces (io_u s)) start = Some starts /\
    aset (uc_num (io_u s)) (uc_pieces (io_u s)) num = Some nums /\
    io_u s' = uc_set_ncb (uc_set_minflight (uc_set_moffset (uc_set_nmcmd
      (uc_set_pieces (uc_set_mcmd (uc_set_msec
        (uc_set_num (uc_set_start (uc_set_node_id (io_u s) nids) starts) nums) msec) mcmd)
        (u16 (uc_pieces (io_u s) + 1))) nmcmd) moff) mi) ncb;
  pc_data : forall node' x, pg_vnodes pro' !! n = Some node' -> 0 <= x < 32768 * num ->
    node_byte (z_data (io_dev s')) pro' node' (32768 * start + x) = io_mem s (boff + x);
  pc_data_other : forall node' sec off, pg_vnodes pro' !! n = Some node' ->
    (forall y, 8 * start <= y < 8 * (start + num) -> node_sector pro' node' y <> sec) ->
    z_data (io_dev s') sec off = z_data (io_dev s) sec off
}.

(** Sectors and bytes of a node depend on its zones only. *)
Lemma node_sector_transfer pro node pro' node' y :
  pg_vzones pro' = pg_vzones pro -> pn_vzones node' = pn_vzones node ->
  node_sector pro' node' y = node_sector pro node y.
Proof using.
  intros Hvz Hsl. unfold node_sector, slot_sect. by rewrite (slot_zone_transfer pro pro' node node').
Qed.

Lemma piece_bytes (data : contents) pro node start num (m : memory) boff x :
  (forall j t off, 0 <= j < num -> 0 <= t < 8 ->
    data (node_sector pro node (8 * (start + j) + t)) off = m (boff + 32768 * j + t * ZNS_ALIGMENT + off)) ->
  0 <= x < 32768 * num -> node_byte data pro node (32768 * start + x) = m (boff + x).
Proof using.
  intros Hd Hx. unfold node_byte.
  replace ((32768 * start + x) / 4096) with (8 * (start + x / 32768) + (x mod 32768) / 4096) by zdiv.
  replace ((32768 * start + x) mod 4096) with (x mod 4096) by zdiv.
  rewrite Hd by zdiv. f_equal. cst. zdiv.
Qed.

(** A request as [zrocks_write] makes it, with room for another piece. *)
Record request_ok (u : xztl_io_ucmd) : Prop := {
  rq_nid : length (uc_node_id u) = 2%nat;
  rq_start : length (uc_start u) = 2%nat;
  rq_num : length (uc_num u) = 2%nat;
  rq_pieces : 0 <= uc_pieces u < 2
}.

(** The node with its level set by the first writer. *)
Definition level_node (u : xztl_io_ucmd) (nd : ztl_pro_node) : ztl_pro_node :=
  if pn_level nd =? -1 then pn_set_level nd (uc_prov_type u) else nd.

Lemma level_node_core u nd : node_core (level_node u nd) = node_core nd.
Proof using. unfold level_node. by destruct (_ =? _). Qed.

Lemma tbl_frame_refl pro node tbl : tbl_frame pro node tbl tbl.
Proof using. split; auto. Qed.

Lemma tbl_frame_trans pro node t1 t2 t3 :
  tbl_frame pro node t1 t2 -> tbl_frame pro node t2 t3 -> tbl_frame pro node t1 t3.
Proof using.
  intros [L1 F1] [L2 F2]. split; [congruence|]. intros ei Hei. by rewrite F2, F1.
Qed.

(** The state in which the piece is allocated: the level of the node is set
    and the piece is recorded in the request. *)
Lemma engine_level s pro n node u' :
  engine s pro -> io_node s = Some n -> pg_vnodes pro !! n = Some node ->
  arrays_ok (io_set_u s u') ->
  let node1 := level_node (io_u s) node in
  let pro1 := pg_set_vnodes pro (<[n := node1]> (pg_vnodes pro)) in
  engine (io_set_u (io_set_g s (grp_set_pro (io_g s) (Some pro1))) u') pro1.
Proof using.
  intros He Hq Hn Harr node1 pro1.
  pose proof (level_node_core (io_u s) node) as (Hid & Hsl & Hl & Hu)%node_core_eq.
  pose proof (eg_write _ _ He n node (or_intror Hq) Hn) as [_ _ _ _ _ _ Wl Wu Wc Wi Ww].
  pose proof (eg_dev _ _ He n node (or_intror Hq) Hn) as Hod.
  apply (engine_upd s pro n node); auto; simpl; auto using tbl_frame_refl.
  - constructor; simpl; unfold node1; rewrite ?Hl, ?Hu; auto. by apply (on_device_core _ pro node).
  - destruct Harr as [A1 A2 A3]. constructor; auto.
  - apply He.
Qed.

(** Allocation: the context is ready for the population. *)
Lemma engine_alloc s pro n node num :
  engine s pro -> io_node s = Some n -> pg_vnodes pro !! n = Some node ->
  0 < num <= ZTL_IO_RC_NUM -> num <= pn_left node ->
  exists tbl' ctx',
    ztl_pro_new (io_g s) num (Z.of_nat n) (io_prov s) (pn_used node) =
      Some (app_grp_ctx_add (grp_set_tbl (io_g s) tbl'), ctx', XZTL_OK) /\
    tbl_frame pro node (grp_tbl (io_g s)) tbl' /\
    allocated meta (io_set_prov (io_set_g s (app_grp_ctx_add (grp_set_tbl (io_g s) tbl'))) ctx')
      pro n node num.
Proof using.
  intros He Hq Hn Hnum Hle.
  pose proof (eg_write _ _ He n node (or_intror Hq) Hn) as Hw.
  pose proof (eg_arr _ _ He) as Harr. pose proof Harr as [(_ & _ & _ & Hctx) _ _].
  destruct (ztl_pro_new_ok meta (io_g s) pro n node (io_prov s) num)
    as (tbl' & ctx' & Hrun & Hsc & Hfr & Hi & Hw'); auto; [lia|].
  exists tbl', ctx'. split; [done|]. split; [done|].
  destruct Hw. pose proof Hfr as [Hlen _].
  constructor; simpl; auto; rewrite ?Hlen; auto; [lia| |].
  - destruct Harr as [(L1 & L2 & L3 & _) A2 A3]. constructor; auto. split_and!; auto; apply Hsc.
  - exact (eg_dev _ _ He n node (or_intror Hq) wr_node).
Qed.

(** The counters of the node after the piece. *)
Lemma node_account_ok num node :
  0 < num <= pn_left node -> 0 <= pn_used node ->
  pn_left node + pn_used node = ZTL_PRO_OPT_SEC_NUM_INNODE ->
  let node' := node_account num node in
  pn_id node' = pn_id node /\ pn_vzones node' = pn_vzones node /\
  pn_left node' = pn_left node - num /\ pn_used node' = pn_used node + num /\
  (pn_left node' = 0 -> pn_status node' = XZTL_ZMD_NODE_FULL).
Proof using.
  intros Hn Hu Hc. cst. unfold node_account. simpl.
  rewrite !(wrap_small 64) by lia.
  destruct (Z.eqb_spec (pn_left node - num) 0); simpl; split_and!; auto; lia.
Qed.

(** From the allocation to the accounting. *)
Lemma piece_engine s pro n node num boff :
  device_fits -> engine s pro -> io_node s = Some n -> pg_vnodes pro !! n = Some node ->
  0 < num <= ZTL_IO_RC_NUM -> num <= pn_left node -> 0 <= boff -> boff + 32768 * num < 2 ^ 64 ->
  exists g1 ctx1 N s3 g4,
    ztl_pro_new (io_g s) num (Z.of_nat n) (io_prov s) (pn_used node) = Some (g1, ctx1, XZTL_OK) /\
    (forall fuel, (N <= fuel)%nat ->
       write_piece_io ZNS_ALIGMENT geo_zn_grp dev_nsect meta fuel num boff
         (io_set_prov (io_set_g s g1) ctx1) = Ok (boff + 32768 * num, s3)) /\
    upd_node (io_g s3) n (node_account num) = Some g4 /\
    engine (io_set_g s3 g4) (pg_set_vnodes pro (<[n := node_account num node]> (pg_vnodes pro))) /\
    piece_done (io_set_prov (io_set_g s g1) ctx1) s3 pro node num boff.
Proof using.
  intros Hdev He Hq Hn Hnum Hle Hb Hb'.
  destruct (engine_alloc s pro n node num) as (tbl1 & ctx1 & Hnew & Hfr1 & Hal); auto.
  set (g1 := app_grp_ctx_add (grp_set_tbl (io_g s) tbl1)) in *.
  set (s2 := io_set_prov (io_set_g s g1) ctx1) in *.
  destruct (write_piece_io_ok geo_zn_grp dev_nsect meta s2 pro n node num boff)
    as (N & s3 & Hrun & Hpd); auto; [apply He|].
  pose proof Hpd as [(tbl2 & Hg3 & Hfr2 & Hi & Hw) Hnd _ _ Harr Hidle _ Hwp Hwpo _ _].
  pose proof (eg_write _ _ He n node (or_intror Hq) Hn) as [Wp _ _ _ _ _ Wl Wu Wc _ _].
  destruct (node_account_ok num node ltac:(lia) Wu Wc) as (A1 & A2 & A3 & A4 & _).
  exists g1, ctx1, N, s3, (grp_set_pro (io_g s3) (Some (pg_set_vnodes pro
    (<[n := node_account num node]> (pg_vnodes pro))))).
  split_and!; auto.
  { apply upd_node_eq; [|done]. rewrite Hg3. simpl. exact Wp. }
  eapply (engine_upd s pro n node); auto; simpl; rewrite ?A3, ?A4, ?Hg3; auto; try lia.
  - by rewrite Hnd.
  - simpl. by eapply tbl_frame_trans.
  - constructor; simpl; rewrite ?A3, ?A4, ?Hg3; auto; try lia.
    pose proof (eg_dev _ _ He n node (or_intror Hq) Hn) as [O1 _].
    constructor; intros z Hz; unfold slot_sect, slot_devz in *;
      rewrite (slot_zone_transfer pro pro node (node_account num node)) by done; [by apply O1|].
    rewrite A4. by apply Hwp.
  - destruct Harr as [(L1 & L2 & L3 & L4) B1 B2]. by constructor.
Qed.

Lemma write_on_node_ok s pro n node left boff :
  device_fits -> engine s pro -> io_node s = Some n -> pg_vnodes pro !! n = Some node ->
  0 < pn_left node -> 0 < left <= ZTL_IO_RC_NUM -> request_ok (io_u s) ->
  0 <= boff -> boff + 32768 * left < 2 ^ 64 ->
  let num := Z.min (pn_left node) left in
  exists N s' node',
    let pro' := pg_set_vnodes pro (<[n := node']> (pg_vnodes pro)) in
    (forall fuel, (N <= fuel)%nat ->
       write_on_node ZNS_ALIGMENT geo_zn_grp dev_nsect meta fuel left boff n s =
       Ok (if 0 <? left - num then inl (left - num, boff + 32768 * num, s')
           else inr (XZTL_OK, io_set_u s' (uc_set_completed (io_u s') 1)))) /\
    piece_result s s' pro' n (pn_used node) num boff /\
    pn_vzones node' = pn_vzones node /\ pn_left node' = pn_left node - num.
Proof using.
  intros Hdev He Hq Hn Hroom Hleft [R1 R2 R3 R4] Hb Hb' num.
  pose proof (eg_write _ _ He n node (or_intror Hq) Hn) as [Wp _ Wid _ _ _ Wl Wu Wc _ _].
  pose proof (eg_arr _ _ He) as [(L1 & L2 & L3 & L4) B1 B2].
  assert (Hnum : 0 < num <= ZTL_IO_RC_NUM) by (unfold num; lia). revert Hnum. cst. intros Hnum.
  destruct (aset_spec (uc_node_id (io_u s)) (uc_pieces (io_u s)) (Z.of_nat n)) as (nids & An & Ln & _); [lia|].
  destruct (aset_spec (uc_start (io_u s)) (uc_pieces (io_u s)) (pn_used node)) as (starts & As & Ls & _); [lia|].
  destruct (aset_spec (uc_num (io_u s)) (uc_pieces (io_u s)) num) as (nums & Am & Lm & _); [lia|].
  set (u1 := uc_set_num (uc_set_start (uc_set_node_id (io_u s) nids) starts) nums).
  set (node1 := level_node (io_u s) node).
  set (pro1 := pg_set_vnodes pro (<[n := node1]> (pg_vnodes pro))).
  assert (He1 : engine (io_set_u (io_set_g s (grp_set_pro (io_g s) (Some pro1))) u1) pro1).
  { apply engine_level; auto. constructor; auto. by split_and!. }
  set (s1 := io_set_u _ u1) in *.
  pose proof (level_node_core (io_u s) node) as (Hid1 & Hsl1 & Hl1 & Hu1)%node_core_eq.
  fold node1 in Hid1, Hsl1, Hl1, Hu1.
  assert (Hn1 : pg_vnodes pro1 !! n = Some node1)
    by (apply list_lookup_insert_eq; by eapply lookup_lt_Some).
  destruct (piece_engine s1 pro1 n node1 num boff) as (g2 & ctx2 & N & s3 & g4 & Hnew & Hio & Hacc & He4 & Hpd);
    auto; try (cst; unfold num in *; lia).
  assert (Hnlt : Z.of_nat n < 2 ^ 31).
  { pose proof (eg_small _ _ He). apply lookup_lt_Some in Hn. lia. }
  exists N, (io_set_g s3 g4), (node_account num node1). simpl.
  assert (Hins : pg_set_vnodes pro (<[n := node_account num node1]> (pg_vnodes pro)) =
    pg_set_vnodes pro1 (<[n := node_account num node1]> (pg_vnodes pro1))).
  { unfold pro1. simpl. unfold pg_set_vnodes; simpl. by rewrite list_insert_insert_eq. }
  rewrite Hins.
  destruct (node_account_ok num node1) as (A1 & A2 & A3 & A4 & _); [unfold num; lia|lia|cst; lia|].
  split; [|split; [|split; [congruence|lia]]].
  - intros fuel Hf. unfold write_on_node, node_at. rewrite Wp; simpl. rewrite Hn; simpl.
    rewrite i32_small by (zcase; lia).
    replace (if pn_left node <=? left then pn_left node else left) with num by (unfold num; zcase; lia).
    rewrite (upd_node_eq _ pro n node) by done. cbn [lift mbind outcome_bind].
    fold (level_node (io_u s) node). fold node1. fold pro1.
    rewrite Wid, An; simpl. rewrite As; simpl. rewrite Am; simpl. fold u1.
    change (io_set_u (io_set_g s (grp_set_pro (io_g s) (Some pro1))) u1) with s1.
    rewrite (wrap_small 32 num), (wrap_small 32 (pn_used node)), i32_small by lia.
    rewrite <- Hu1. change (grp_set_pro (io_g s) (Some pro1)) with (io_g s1).
    change (io_prov s) with (io_prov s1). rewrite Hnew; simpl.
    rewrite Hio by done. simpl. rewrite Hacc. simpl. by destruct (0 <? left - num).
  - destruct Hpd as [_ Pn Pm _ _ _ (mcmd & msec & nm & moff & mi & ncb & Pu) _ _ Pd Po].
    assert (Hnew_node : forall node', pg_vnodes (pg_set_vnodes pro1
      (<[n := node_account num node1]> (pg_vnodes pro1))) !! n = Some node' -> node' = node_account num node1).
    { intros node'. simpl. rewrite list_lookup_insert_eq by (by eapply lookup_lt_Some). congruence. }
    constructor; simpl; auto.
    + by rewrite Pn.
    + exists nids, starts, nums, mcmd, msec, nm, moff, mi, ncb. split_and!; auto.
    + intros node' x ->%Hnew_node Hx. rewrite <- Hu1. apply piece_bytes with (num := num); [|done].
      intros j t off Hj Ht. rewrite (node_sector_transfer pro1 node1) by done. by apply Pd.
    + intros node' sec off ->%Hnew_node Hout. apply Po. intros y Hy.
      rewrite <- (node_sector_transfer pro1 node1 (pg_set_vnodes pro1
        (<[n := node_account num node1]> (pg_vnodes pro1))) (node_account num node1)) by done.
      apply Hout. lia.
Qed.

(** ** The body of the loop *)

(** A node to write on: the held one has room, or a node is free. *)
Definition has_room s pro : Prop :=
  (exists n node, io_node s = Some n /\ pg_vnodes pro !! n = Some node /\ 0 < pn_left node) \/
  pg_free_head pro <> [].

Lemma piece_result_weaken s s1 s' pro' n start num boff :
  io_u s1 = io_u s -> io_mem s1 = io_mem s -> io_dev s1 = io_dev s ->
  piece_result s1 s' pro' n start num boff -> piece_result s s' pro' n start num boff.
Proof using. intros Hu Hm Hd []. rewrite Hu, Hm, Hd in *. by constructor. Qed.

Lemma write_piece_ok s pro left boff :
  device_fits -> engine s pro -> has_room s pro ->
  0 < left <= ZTL_IO_RC_NUM -> request_ok (io_u s) -> 0 <= boff -> boff + 32768 * left < 2 ^ 64 ->
  exists N n pro1 node s' node',
    let num := Z.min (pn_left node) left in
    let pro' := pg_set_vnodes pro1 (<[n := node']> (pg_vnodes pro1)) in
    (forall fuel, (N <= fuel)%nat ->
       write_piece ZNS_ALIGMENT geo_zn_grp dev_nsect meta fuel left boff s =
       Ok (if 0 <? left - num then inl (left - num, boff + 32768 * num, s')
           else inr (XZTL_OK, io_set_u s' (uc_set_completed (io_u s') 1)))) /\
    piece_result s s' pro' n (pn_used node) num boff /\
    same_nodes pro pro1 /\ queues pro1 ≡ₚ queues pro /\ pg_vnodes pro1 !! n = Some node /\ 0 < pn_left node /\
    pn_vzones node' = pn_vzones node /\ pn_left node' = pn_left node - num /\
    0 <= pn_used node /\ pn_left node + pn_used node = ZTL_PRO_OPT_SEC_NUM_INNODE /\
    (io_node s = Some n /\ pro1 = pro \/
     n ∈ pg_free_head pro /\ pg_free_head pro = n :: pg_free_head pro1 /\ pn_used node = 0).
Proof using.
  intros Hdev He Hroom Hleft Hrq Hb Hb'.
  destruct (engine_get_node s pro He) as (qn & pro1 & ret & Hget & He1 & Hpost).
  destruct Hpost as (Hok1 & Hperm & _ & Hsame & [(-> & n & node & -> & Hn & Hl & Hcase)|Herr]).
  2:{ exfalso. destruct Herr as (_ & _ & Hnil & _ & Hex).
      destruct Hroom as [(n & node & Hq & Hn & Hl)|Hne]; [|done].
      specialize (Hex n Hq node Hn). lia. }
  set (s1 := io_set_node _ (Some n)) in *.
  destruct (write_on_node_ok s1 pro1 n node left boff) as (N & s' & node' & Hrun & Hres & Hsl & Hl'); auto.
  pose proof (eg_write _ _ He1 n node (or_intror eq_refl) Hn) as [_ _ _ _ _ _ _ Wu Wc _ _].
  exists N, n, pro1, node, s', node'. simpl. split_and!; auto.
  - intros fuel Hf. unfold write_piece. rewrite Hget. simpl. by apply Hrun.
  - by apply (piece_result_weaken s s1).
  - destruct Hcase as [[? ?]|?]; [left|right]; auto.
Qed.

(** ** Sectors of different nodes *)

Lemma node_sector_range (d : D) pro node y :
  device_fits -> on_device d pro node -> 0 <= y < 8 * ZTL_PRO_OPT_SEC_NUM_INNODE ->
  let zn := slot_devz pro node ((y / 8) mod 64) in
  zn * z_nsect <= node_sector pro node y < zn * z_nsect + z_nsect.
Proof using.
  intros [Hcap _] [Hst _] Hy. simpl. unfold node_sector.
  rewrite Hst by (apply Z.mod_pos_bound; lia). pose proof z_geo.
  change ZTL_PRO_SEC_NUM_INZONE with 24576 in Hcap. cst.
  assert (0 <= 8 * (y / 8 / 64) + y mod 8 < 24576) by zdiv. lia.
Qed.

Lemma node_sector_ne s pro n m node nd y y' :
  device_fits -> engine s pro -> avail pro (io_node s) n -> avail pro (io_node s) m -> n <> m ->
  pg_vnodes pro !! n = Some node -> pg_vnodes pro !! m = Some nd ->
  0 <= y < 8 * ZTL_PRO_OPT_SEC_NUM_INNODE -> 0 <= y' < 8 * ZTL_PRO_OPT_SEC_NUM_INNODE ->
  node_sector pro node y <> node_sector pro nd y'.
Proof using.
  intros Hdev He Hn Hm Hne Hnode Hnd Hy Hy' Heq.
  pose proof (node_sector_range _ _ _ _ Hdev (eg_dev _ _ He n node Hn Hnode) Hy) as H1.
  pose proof (node_sector_range _ _ _ _ Hdev (eg_dev _ _ He m nd Hm Hnd) Hy') as H2.
  pose proof (eg_write _ _ He n node Hn Hnode) as W1. pose proof (eg_write _ _ He m nd Hm Hnd) as W2.
  pose proof (nodes_devz_ne pro n m node nd _ ((y / 8) mod 64) ((y' / 8) mod 64)
    (wr_idx _ _ _ _ _ W1) (eg_disj _ _ He) Hne Hnode Hnd (wr_wf _ _ _ _ _ W1) (wr_wf _ _ _ _ _ W2)
    ltac:(apply Z.mod_pos_bound; lia) ltac:(apply Z.mod_pos_bound; lia)) as Hz.
  simpl in *. rewrite Heq in H1. pose proof z_geo. nia.
Qed.

(** ** The request *)

(** A piece of a request: node, first command, number of commands. *)
Definition piece : Type := nat * Z * Z.

(** The pieces hold the bytes at [buf], one after the other. *)
Fixpoint stored (data : contents) pro (ps : list piece) (m : memory) (buf : Z) : Prop :=
  match ps with
  | [] => True
  | (n, start, num) :: ps' =>
      (forall node x, pg_vnodes pro !! n = Some node -> 0 <= x < 32768 * num ->
         node_byte data pro node (32768 * start + x) = m (buf + x)) /\
      stored data pro ps' m (buf + 32768 * num)
  end.

(** The request reports the pieces to its caller. *)
Definition reported (u : xztl_io_ucmd) (ps : list piece) : Prop :=
  uc_pieces u = Z.of_nat (length ps) /\
  forall i n start num, ps !! i = Some (n, start, num) ->
    (uc_node_id u).[Z.of_nat i] = Some (Z.of_nat n) /\
    (uc_start u).[Z.of_nat i] = Some start /\ (uc_num u).[Z.of_nat i] = Some num.

Definition pieces_total (ps : list piece) : Z := zsum (snd <$> ps).

(** The sectors of the pieces. *)
Definition in_pieces pro (ps : list piece) (sec : Z) : Prop :=
  exists n start num node y, (n, start, num) ∈ ps /\ pg_vnodes pro !! n = Some node /\
    8 * start <= y < 8 * (start + num) /\ node_sector pro node y = sec.

(** The pieces lie beyond what was written on their nodes before. *)
Definition appended pro (ps : list piece) : Prop :=
  Forall (fun '(n, start, num) => n ∈ queues pro /\
    exists node, pg_vnodes pro !! n = Some node /\ pn_used node <= start /\ 0 <= start /\ 0 <= num /\
      start + num <= ZTL_PRO_OPT_SEC_NUM_INNODE) ps.

(** The same zones in the two groups. *)
Definition same_zones pro pro' : Prop :=
  pg_vzones pro' = pg_vzones pro /\
  forall m, pn_vzones <$> pg_vnodes pro' !! m = pn_vzones <$> pg_vnodes pro !! m.

Lemma same_zones_trans pro1 pro2 pro3 :
  same_zones pro1 pro2 -> same_zones pro2 pro3 -> same_zones pro1 pro3.
Proof using. intros [A B] [A' B']. split; [congruence|]. intros m. by rewrite B'. Qed.

Lemma same_nodes_zones pro pro' : same_nodes pro pro' -> same_zones pro pro'.
Proof using.
  intros [A B]. split; [done|]. intros m. specialize (B m).
  destruct (pg_vnodes pro' !! m), (pg_vnodes pro !! m); simpl in *; try done.
  apply (inj Some), node_core_eq in B as (_ & -> & _). done.
Qed.

Lemma same_zones_upd pro n node node' :
  pg_vnodes pro !! n = Some node -> pn_vzones node' = pn_vzones node ->
  same_zones pro (pg_set_vnodes pro (<[n := node']> (pg_vnodes pro))).
Proof using.
  intros Hn Hz. split; [done|]. intros m. simpl. destruct (decide (m = n)) as [->|].
  - rewrite list_lookup_insert_eq by (by eapply lookup_lt_Some). rewrite Hn. simpl. by rewrite Hz.
  - by rewrite list_lookup_insert_ne.
Qed.

Record write_result s s' (pro' : ztl_pro_node_grp) (ps : list piece) (k boff : Z) : Prop := {
  wq_engine : engine s' pro';
  wq_mem : io_mem s' = io_mem s;
  wq_status : uc_status (io_u s') = uc_status (io_u s);
  wq_reported : reported (io_u s') ps;
  wq_total : pieces_total ps = k;
  wq_stored : stored (z_data (io_dev s')) pro' ps (io_mem s) boff;
  wq_other : forall sec off, ~ in_pieces pro' ps sec ->
    z_data (io_dev s') sec off = z_data (io_dev s) sec off
}.

(** A request in one piece. *)
Lemma one_piece s s' pro' n start num boff node' :
  piece_result s s' pro' n start num boff -> pg_vnodes pro' !! n = Some node' ->
  uc_pieces (io_u s) = 0 ->
  forall k, num = k -> write_result s s' pro' [(n, start, num)] k boff.
Proof using.
  intros [] Hn H0 k <-. destruct pc_u0 as (nids & starts & nums & ? & ? & ? & ? & ? & ? & A1 & A2 & A3 & Hu).
  rewrite H0 in *. constructor; auto.
  - by rewrite Hu.
  - rewrite Hu. split; [done|]. simpl. intros [|i] n' st nm; [|done]. simpl. intros [= <- <- <-].
    change (Z.of_nat 0) with 0. rewrite (aget_aset_eq _ _ _ _ A1), (aget_aset_eq _ _ _ _ A2), (aget_aset_eq _ _ _ _ A3). done.
  - unfold pieces_total. simpl. lia.
  - simpl. split; [|done]. eauto.
  - intros sec off Hout. apply (pc_data_other0 node'); auto. intros y Hy Heq. apply Hout.
    exists n, start, num, node', y. split_and!; auto; try lia. by apply list_elem_of_singleton.
Qed.

(** A second piece, on another node, after a first one. *)
Lemma two_pieces s s1 pro1 n1 st1 num1 boff nd1 s2 pro2 n2 st2 num2 nd1' nd2' :
  device_fits ->
  write_result s s1 pro1 [(n1, st1, num1)] num1 boff -> request_ok (io_u s1) ->
  pg_vnodes pro1 !! n1 = Some nd1 -> 0 <= st1 -> 0 <= num1 ->
  st1 + num1 <= ZTL_PRO_OPT_SEC_NUM_INNODE ->
  piece_result s1 s2 pro2 n2 st2 num2 (boff + 32768 * num1) ->
  0 <= st2 -> 0 <= num2 -> st2 + num2 <= ZTL_PRO_OPT_SEC_NUM_INNODE ->
  pg_vnodes pro2 !! n2 = Some nd2' -> pg_vnodes pro2 !! n1 = Some nd1' ->
  pg_vzones pro2 = pg_vzones pro1 -> pn_vzones nd1' = pn_vzones nd1 ->
  (forall y y', 0 <= y < 8 * ZTL_PRO_OPT_SEC_NUM_INNODE -> 0 <= y' < 8 * ZTL_PRO_OPT_SEC_NUM_INNODE ->
     node_sector pro2 nd1' y <> node_sector pro2 nd2' y') ->
  forall k, num1 + num2 = k ->
  write_result s s2 pro2 [(n1, st1, num1); (n2, st2, num2)] k boff.
Proof using.
  intros Hdev [E1 M1 S1 [Hp1 R1] T1 St1 O1] [Q1 Q2 Q3 _] Hn1 Hst1 Hnum1 Hc1
    [] Hst2 Hnum2 Hc2 Hn2 Hn1' Hvz Hsl Hne k <-.
  destruct pc_u0 as (nids & starts & nums & mc & ms & nmc & mof & mif & nc & A1 & A2 & A3 & Hu).
  change (Z.of_nat (length [(n1, st1, num1)])) with 1 in Hp1. rewrite Hp1 in *.
  assert (Hsec : forall y, node_sector pro2 nd1' y = node_sector pro1 nd1 y)
    by (intros y; by apply node_sector_transfer).
  simpl in St1. destruct St1 as [St1 _].
  constructor; auto.
  - congruence.
  - rewrite Hu. simpl. done.
  - rewrite Hu. split; [done|]. simpl. intros [|[|i]] n' st nm; [| |done]; simpl; intros [= <- <- <-].
    + destruct (R1 0%nat n1 st1 num1 eq_refl) as (B1 & B2 & B3). change (Z.of_nat 0) with 0 in *.
      assert (H10 : 1 <> 0) by done.
      by rewrite (aget_aset_ne _ _ _ _ _ H10 A1), (aget_aset_ne _ _ _ _ _ H10 A2),
        (aget_aset_ne _ _ _ _ _ H10 A3).
    + change (Z.of_nat 1) with 1.
      rewrite (aget_aset_eq _ _ _ _ A1), (aget_aset_eq _ _ _ _ A2), (aget_aset_eq _ _ _ _ A3). done.
  - unfold pieces_total in *. simpl in *. lia.
  - simpl. split; [|split; [|done]].
    + intros node x Hnode Hx. assert (node = nd1') as -> by congruence.
      rewrite <- (St1 nd1 x Hn1 Hx). unfold node_byte. rewrite Hsec.
      apply (pc_data_other0 nd2'); auto. intros y Hy Heq.
      eapply (Hne ((32768 * st1 + x) / 4096) y); [zdiv|lia|]. by rewrite Hsec.
    + intros node x Hnode Hx. rewrite <- M1. eauto.
  - intros sec off Hout. rewrite (pc_data_other0 nd2'), O1; auto.
    + intros (n & st & nm & node & y & Hin & Hnode & Hy & Heq). apply Hout.
      apply list_elem_of_singleton in Hin. injection Hin as -> -> ->.
      assert (node = nd1) as -> by congruence.
      exists n1, st1, num1, nd1', y. rewrite Hsec. split_and!; auto; try lia. by left.
    + intros y Hy Heq. apply Hout. exists n2, st2, num2, nd2', y. split_and!; auto; try lia.
      right. by left.
Qed.

(** Room for [k] commands: in the held node, or in a free one. *)
Definition room_for s pro (k : Z) : Prop :=
  (exists n node, io_node s = Some n /\ pg_vnodes pro !! n = Some node /\ k <= pn_left node) \/
  pg_free_head pro <> [].

Lemma room_for_has_room s pro k : 0 < k -> room_for s pro k -> has_room s pro.
Proof using.
  intros Hk [(n & node & ? & ? & ?)|?]; [left|by right]. exists n, node. split_and!; auto. lia.
Qed.

Lemma piece_request_ok s s' pro' n st num boff :
  piece_result s s' pro' n st num boff -> request_ok (io_u s) -> uc_pieces (io_u s) = 0 ->
  request_ok (io_u s').
Proof using.
  intros [] [] H0. destruct pc_u0 as (? & ? & ? & ? & ? & ? & ? & ? & ? & A1 & A2 & A3 & Hu).
  apply aset_length in A1, A2, A3. rewrite Hu. constructor; simpl; try congruence.
  rewrite H0. done.
Qed.

(** What one turn of the loop does: a piece of [num] commands at command
    [start] of node [n]. *)
Record wstep s pro (left boff : Z) (n : nat) (start num : Z) s' (pro' : ztl_pro_node_grp) : Prop := {
  wt_run : exists N, forall fuel, (N <= fuel)%nat ->
    write_piece ZNS_ALIGMENT geo_zn_grp dev_nsect meta fuel left boff s =
    Ok (if 0 <? left - num then inl (left - num, boff + 32768 * num, s')
        else inr (XZTL_OK, io_set_u s' (uc_set_completed (io_u s') 1)));
  wt_res : piece_result s s' pro' n start num boff;
  wt_zones : same_zones pro pro';
  wt_app : appended pro [(n, start, num)];
  wt_used : forall nd, pg_vnodes pro !! n = Some nd -> pn_used nd = start;
  wt_num : 0 < num /\ num = Z.min (ZTL_PRO_OPT_SEC_NUM_INNODE - start) left;
  wt_node : exists node', pg_vnodes pro' !! n = Some node' /\
    pn_left node' = ZTL_PRO_OPT_SEC_NUM_INNODE - start - num;
  wt_others : forall m, m <> n -> node_core <$> pg_vnodes pro' !! m = node_core <$> pg_vnodes pro !! m;
  wt_case : io_node s = Some n /\ pg_free_head pro' = pg_free_head pro \/
    n ∈ pg_free_head pro /\ pg_free_head pro = n :: pg_free_head pro' /\ start = 0;
  wt_queues : queues pro' ≡ₚ queues pro
}.

(** The nodes after the pieces [ps]: nothing left the queues, at most [j] free nodes
    were taken, every node has received at least what it had, and the pieces. *)
Record grown (j : nat) pro pro' (ps : list piece) : Prop := {
  gr_queues : queues pro' ≡ₚ queues pro;
  gr_free : (length (pg_free_head pro) <= j + length (pg_free_head pro'))%nat;
  gr_used : forall m nd, pg_vnodes pro !! m = Some nd ->
    exists nd', pg_vnodes pro' !! m = Some nd' /\ pn_used nd <= pn_used nd';
  gr_pieces : Forall (fun '(n, start, num) => 0 < num /\ exists nd', pg_vnodes pro' !! n = Some nd' /\
    start + num <= pn_used nd') ps
}.

Lemma grown_trans j1 j2 pro1 pro2 pro3 ps1 ps2 :
  grown j1 pro1 pro2 ps1 -> grown j2 pro2 pro3 ps2 -> grown (j1 + j2) pro1 pro3 (ps1 ++ ps2).
Proof using.
  intros [Q1 F1 U1 P1] [Q2 F2 U2 P2]. constructor; [by rewrite Q2|lia|..].
  - intros m nd Hm. destruct (U1 m nd Hm) as (nd' & Hm' & ?). destruct (U2 m nd' Hm') as (nd'' & Hm'' & ?).
    exists nd''. split; [done|lia].
  - apply Forall_app. split; [|done]. eapply Forall_impl; [exact P1|]. intros [[n st] num] (Hp & nd' & Hn & ?).
    destruct (U2 n nd' Hn) as (nd'' & Hn'' & ?). split; [done|]. exists nd''. split; [done|lia].
Qed.

Lemma grown_le j j' pro pro' ps : (j <= j')%nat -> grown j pro pro' ps -> grown j' pro pro' ps.
Proof using. intros Hj []. constructor; auto. lia. Qed.

Lemma wstep_grown s pro left boff n start num s' pro' :
  wstep s pro left boff n start num s' pro' ->
  grown (if decide (pg_free_head pro' = pg_free_head pro) then 0 else 1) pro pro' [(n, start, num)].
Proof using.
  intros [_ Hres _ Hap Hus [Hpos _] (node' & Hn & Hl) Hoth Hcase Hq].
  pose proof Hap as [(Hqn & nd0 & Hnd0 & _) _]%Forall_cons.
  destruct (po_counts _ (eg_ok _ _ (pc_engine _ _ _ _ _ _ _ Hres)) n) as (nd & Hnd & _ & _ & _ & Hcap);
    [by rewrite Hq|]. assert (nd = node') as -> by congruence.
  constructor; auto.
  - destruct Hcase as [[_ ->]|(_ & -> & _)]; [by rewrite decide_True by done|].
    rewrite decide_False; [simpl; lia|]. intros Heq. apply (f_equal length) in Heq. simpl in Heq. lia.
  - intros m nd Hm. destruct (decide (m = n)) as [->|Hne].
    + exists node'. split; [done|]. rewrite (Hus nd Hm). lia.
    + specialize (Hoth m Hne). rewrite Hm in Hoth. apply fmap_Some_1 in Hoth as (nd' & -> & Hc).
      symmetry in Hc. exists nd'. split; [done|]. apply node_core_eq in Hc as (_ & _ & _ & ->). lia.
  - constructor; [|constructor]. split; [done|]. exists node'. split; [done|]. lia.
Qed.

Lemma write_piece_step s pro left boff :
  device_fits -> engine s pro -> has_room s pro ->
  0 < left <= ZTL_IO_RC_NUM -> request_ok (io_u s) -> 0 <= boff -> boff + 32768 * left < 2 ^ 64 ->
  exists n start num s' pro', wstep s pro left boff n start num s' pro'.
Proof using.
  intros Hdev He Hroom Hleft Hrq Hb Hb'.
  destruct (write_piece_ok s pro left boff) as (N & n & pro1 & nd & s' & nd' & Hrun & Hres & Hsame &
    Hperm & Hnd & Hl & Hsl & Hle & Hu & Hc & Hcase); auto.
  exists n, (pn_used nd), (Z.min (pn_left nd) left), s'.
  eexists. constructor; [by exists N|exact Hres|..].
  - eapply same_zones_trans; [by apply same_nodes_zones|]. by eapply same_zones_upd.
  - constructor; [|constructor]. split.
    + destruct Hcase as [[? _]|[? _]]; (eapply avail_queues; [done|]); [by right|by left].
    + destruct Hsame as [_ Hcore]. specialize (Hcore n). rewrite Hnd in Hcore. symmetry in Hcore.
      apply fmap_Some_1 in Hcore as (nd0 & Hnd0 & (_ & _ & _ & Hu0)%node_core_eq).
      exists nd0. split; [done|]. lia.
  - destruct Hsame as [_ Hcore]. specialize (Hcore n). rewrite Hnd in Hcore. symmetry in Hcore.
    apply fmap_Some_1 in Hcore as (nd0 & Hnd0 & (_ & _ & _ & Hu0)%node_core_eq).
    intros nd1 Hnd1. congruence.
  - lia.
  - exists nd'. simpl. rewrite list_lookup_insert_eq by (by eapply lookup_lt_Some).
    split; [done|]. lia.
  - intros m Hm. simpl. rewrite list_lookup_insert_ne by done. apply Hsame.
  - simpl. destruct Hcase as [[? ->]|(? & ? & ?)]; auto.
  - exact Hperm.
Qed.

(** The sectors of two nodes of the engine stay apart, whatever became of the
    nodes' counters. *)
Lemma node_sector_apart s pro pro' n m nd nd' y y' :
  device_fits -> engine s pro -> same_zones pro pro' ->
  avail pro (io_node s) n -> avail pro (io_node s) m -> n <> m ->
  pg_vnodes pro' !! n = Some nd -> pg_vnodes pro' !! m = Some nd' ->
  0 <= y < 8 * ZTL_PRO_OPT_SEC_NUM_INNODE -> 0 <= y' < 8 * ZTL_PRO_OPT_SEC_NUM_INNODE ->
  node_sector pro' nd y <> node_sector pro' nd' y'.
Proof using.
  intros Hdev He [Hvz Hz] Hn Hm Hne Hnd Hnd' Hy Hy'.
  pose proof (Hz n) as Hzn. pose proof (Hz m) as Hzm. rewrite Hnd in Hzn. rewrite Hnd' in Hzm.
  symmetry in Hzn, Hzm.
  apply fmap_Some_1 in Hzn as (a & Ha & Hza). apply fmap_Some_1 in Hzm as (b & Hb & Hzb).
  rewrite (node_sector_transfer pro a pro' nd), (node_sector_transfer pro b pro' nd') by done.
  by apply (node_sector_ne s pro n m).
Qed.

Lemma write_pieces_ok s pro k boff :
  device_fits -> engine s pro -> request_ok (io_u s) -> uc_pieces (io_u s) = 0 ->
  0 < k <= ZTL_IO_RC_NUM -> room_for s pro k -> 0 <= boff -> boff + 32768 * k < 2 ^ 64 ->
  exists N s' pro' ps,
    (forall fuel, (N <= fuel)%nat ->
       write_pieces ZNS_ALIGMENT geo_zn_grp dev_nsect meta fuel k boff s =
       Ok (XZTL_OK, io_set_u s' (uc_set_completed (io_u s') 1))) /\
    write_result s s' pro' ps k boff /\ (1 <= length ps <= 2)%nat /\
    appended pro ps /\ same_zones pro pro' /\ grown 1 pro pro' ps.
Proof using.
  intros Hdev He Hrq H0 Hk Hroom Hb Hb'.
  destruct (write_piece_step s pro k boff) as (n1 & st1 & num1 & s1 & pro1 & S1);
    auto; [by apply (room_for_has_room s pro k); [lia|]|].
  pose proof S1 as [[N1 Hrun1] Hres1 Hsz1 Hap1 Hus1 [Hpos1 Hnum1] (nd1 & Hn1 & Hl1) Hoth1 Hcase1 _].
  pose proof (wstep_grown _ _ _ _ _ _ _ _ _ S1) as G1.
  pose proof (one_piece _ _ _ _ _ _ _ _ Hres1 Hn1 H0) as Hone.
  pose proof Hap1 as [(Hqu1 & nd0 & Hnd0 & Hu0 & Hst1 & Hnn1 & Hc1) _]%Forall_cons.
  destruct (Z.ltb_spec 0 (k - num1)) as [Hmore|Hdone].
  2:{ exists (S N1), s1, pro1, [(n1, st1, num1)].
      split_and!; auto; simpl; try lia; [|apply Hone; lia|by apply (grown_le (if decide (pg_free_head pro1 = pg_free_head pro) then 0 else 1)); [case_decide; lia|]].
      intros [|fuel] Hf; [lia|]. cbn [write_pieces]. rewrite Hrun1 by lia.
      by replace (0 <? k - num1) with false by lia. }
  assert (Hheld : io_node s = Some n1 /\ pg_free_head pro1 = pg_free_head pro)
    by (destruct Hcase1 as [?|(_ & _ & ->)]; [done|cst; lia]).
  destruct Hheld as [Hq0 Hf1].
  assert (Hfree : pg_free_head pro1 <> []).
  { rewrite Hf1. destruct Hroom as [(n & nd & Hq' & Hnd & Hle)|?]; [|done].
    assert (n = n1) as -> by congruence. assert (nd = nd0) as -> by congruence.
    pose proof (eg_write _ _ He n1 nd0 (or_intror Hq0) Hnd0) as [_ _ _ _ _ _ _ _ Wc _ _].
    pose proof (Hus1 nd0 Hnd0). lia. }
  pose proof (pc_engine _ _ _ _ _ _ _ Hres1) as He1. pose proof (pc_node _ _ _ _ _ _ _ Hres1) as Hq1.
  destruct (write_piece_step s1 pro1 (k - num1) (boff + 32768 * num1)) as (n2 & st2 & num2 & s2 & pro2 & S2);
    auto; try lia; [by right|by eapply piece_request_ok|].
  pose proof (wstep_grown _ _ _ _ _ _ _ _ _ S2) as G2.
  destruct S2 as [[N2 Hrun2] Hres2 Hsz2 Hap2 Hus2 [Hpos2 Hnum2] (nd2 & Hn2 & _) Hoth2 Hcase2 _].
  pose proof Hap2 as [(Hqu2 & nd20 & Hnd20 & Hu20 & Hst2 & Hnn2 & Hc2) _]%Forall_cons.
  assert (Hin2 : n2 ∈ pg_free_head pro1 /\ st2 = 0).
  { destruct Hcase2 as [[Hq2 _]|(? & _ & ?)]; [exfalso|done].
    assert (n2 = n1) as -> by congruence. assert (nd20 = nd1) as -> by congruence.
    pose proof (eg_write _ _ He1 n1 nd1 (or_intror Hq1) Hn1) as [_ _ _ _ _ _ _ _ Wc _ _].
    pose proof (Hus2 nd1 Hn1). lia. }
  destruct Hin2 as [Hin2 ->].
  assert (Hk2 : num2 = k - num1) by (cst; lia). rewrite Hk2, Z.sub_diag in Hrun2.
  assert (Hne : n1 <> n2).
  { intros ->. pose proof (eg_holds _ _ He1 n2 Hq1). pose proof (po_nodup _ (eg_ok _ _ He1)) as Hnd.
    revert Hnd. unfold queues. rewrite NoDup_app. set_solver. }
  destruct (pg_vnodes pro2 !! n1) as [nd1'|] eqn:Hn1';
    [|pose proof (Hoth2 n1 Hne) as Hx; by rewrite Hn1', Hn1 in Hx].
  exists (S (S (N1 + N2))), s2, pro2, [(n1, st1, num1); (n2, 0, num2)].
  split_and!; simpl; try lia.
  - intros [|[|fuel]] Hf; try lia. cbn [write_pieces]. rewrite Hrun1 by lia.
    replace (0 <? k - num1) with true by lia. simpl. by rewrite Hrun2 by lia.
  - eapply (two_pieces s s1 pro1 n1 _ num1 boff nd1 s2 pro2 n2); eauto; try lia.
    + by eapply piece_request_ok.
    + apply Hsz2.
    + destruct Hsz2 as [_ Hz]. specialize (Hz n1). rewrite Hn1', Hn1 in Hz. by injection Hz.
    + intros y y' Hy Hy'. apply (node_sector_apart s1 pro1 pro2 n1 n2); auto; [by right|by left].
  - constructor; [by apply Forall_cons in Hap1 as [? _]|]. constructor; [|constructor].
    split; [unfold queues; rewrite <- Hf1; set_solver|].
    pose proof (Hoth1 n2 (not_eq_sym Hne)) as Hx. rewrite Hnd20 in Hx. symmetry in Hx.
    apply fmap_Some_1 in Hx as (nd & Hnd & (_ & _ & _ & Hu)%node_core_eq).
    exists nd. split_and!; auto; lia.
  - by eapply same_zones_trans.
  - rewrite decide_True in G1 by done. eapply (grown_le _ 1); [|exact (grown_trans _ _ _ _ _ _ _ G1 G2)].
    case_decide; lia.
Qed.

End Engine.
