(* ===== verification/IoTheorems.v ===== *)
(** Properties of the write path: [ztl_io_write_ucmd] of src/xztl/src/ztl-io.c. *)

From S2P Require Import Prelude Types Sim Stats ProGrp Media Zns Device Io IoPopulate IoFlight IoSubmit IoWrite IoRequest.

Section Requests.

Context {D : Type} `{HX : !Xnvme D} `{HQ : !QueueLaws D} `{HZ : !ZnsLaws D}.
Context (geo_zn_grp dev_nsect meta : Z).
Implicit Types (s : iostate D) (pro : ztl_pro_node_grp).

(** Counters and provisioning context do not matter between requests. *)
Lemma engine_reset s pro u' prov' :
  engine meta s pro -> arrays_ok (io_set_u (io_set_prov s prov') u') ->
  engine meta (io_set_u (io_set_prov s prov') u') pro.
Proof using. intros [] Ha. by constructor. Qed.

(** The state in which the pieces are written. *)
Definition request_start s (k : Z) : iostate D :=
  io_set_u (io_set_prov s {| pa_addr := pa_addr (io_prov s); pa_nsec := pa_nsec (io_prov s); pa_naddr := 0 |})
    (uc_set_ncb (uc_set_completed (uc_set_nmcmd (io_u s) (u16 k)) 0) 0).

Lemma write_ucmd_aligned fuel s k :
  uc_size (io_u s) = 32768 * k -> 0 < k <= ZTL_IO_RC_NUM ->
  ztl_io_write_ucmd ZNS_ALIGMENT geo_zn_grp dev_nsect meta fuel s =
  write_pieces ZNS_ALIGMENT geo_zn_grp dev_nsect meta fuel k (u64 (uc_buf (io_u s))) (request_start s k).
Proof using.
  intros Hs Hk. unfold ztl_io_write_ucmd. rewrite Hs. cst.
  replace (32768 * k / 4096) with (8 * k) by zdiv.
  replace (u32 (4096 * 8)) with 32768 by reflexivity.
  replace ((32768 * k) mod 32768) with 0 by zdiv. simpl.
  rewrite (wrap_small 32) by lia. replace (8 * k / 8) with k by zdiv.
  by replace (65536 <? k) with false by lia.
Qed.

Lemma engine_start s pro k : engine meta s pro -> engine meta (request_start s k) pro.
Proof using.
  intros He. apply engine_reset; [done|]. destruct (eg_arr _ _ _ He) as [(L1 & L2 & L3 & L4) B1 B2].
  constructor; auto. by split_and!.
Qed.

Lemma write_ucmd_ok s pro k :
  device_fits -> engine meta s pro -> request_ok (io_u s) -> uc_pieces (io_u s) = 0 ->
  uc_size (io_u s) = 32768 * k -> 0 < k <= ZTL_IO_RC_NUM -> room_for s pro k ->
  0 <= uc_buf (io_u s) -> uc_buf (io_u s) + 32768 * k < 2 ^ 64 ->
  exists N s' pro' ps,
    (forall fuel, (N <= fuel)%nat ->
       ztl_io_write_ucmd ZNS_ALIGMENT geo_zn_grp dev_nsect meta fuel s = Ok (XZTL_OK, s')) /\
    write_result meta s s' pro' ps k (uc_buf (io_u s)) /\ uc_completed (io_u s') = 1 /\
    (1 <= length ps <= 2)%nat /\ appended pro ps /\ same_zones pro pro' /\ grown 1 pro pro' ps.
Proof using.
  intros Hdev He [] H0 Hs Hk Hroom Hb Hb'.
  destruct (write_pieces_ok geo_zn_grp dev_nsect meta (request_start s k) pro k (uc_buf (io_u s)))
    as (N & s' & pro' & ps & Hrun & Hres & Hlen & Hap & Hsz & Hgr); auto.
  { by apply engine_start. }
  { by constructor. }
  exists N, (io_set_u s' (uc_set_completed (io_u s') 1)), pro', ps. split_and!; auto; try lia.
  - intros fuel Hf. rewrite (write_ucmd_aligned fuel s k), wrap_small by (auto; lia). by apply Hrun.
  - destruct Hres as [E M S R T St O]. constructor; auto.
    destruct E as [? ? ? ? ? ? ? ? ? [(L1 & L2 & L3 & L4) B1 B2] ?]. constructor; auto.
    constructor; auto. by split_and!.
Qed.

End Requests.

(** * The simulated engine *)

Lemma sim_lookup nodes n node :
  pg_vnodes (sim_pro nodes) !! n = Some node -> (n < nodes)%nat /\ node = sim_node n.
Proof.
  simpl. rewrite list_lookup_fmap_Some. intros (i & -> & [Hi Hlt]%lookup_seq). simpl in Hi. by subst i.
Qed.

Lemma sim_slot_sect nodes n z :
  (n < nodes)%nat -> Z.of_nat (64 * nodes + 2) < 2 ^ 20 -> 0 <= z < 64 ->
  slot_sect (sim_pro nodes) (sim_node n) z = (64 * Z.of_nat n + z + 2) * sd_zone_size /\
  slot_devz (sim_pro nodes) (sim_node n) z = 64 * Z.of_nat n + z + 2.
Proof.
  intros Hn Hmax Hz. unfold slot_sect, slot_devz. rewrite sim_slot by done.
  rewrite sim_pro_zone_addr, sim_zone_sect, sim_zone_zone by lia. split; f_equal; lia.
Qed.

Lemma sim_engine nodes u :
  Z.of_nat (64 * nodes + 2) < 2 ^ 20 -> length (uc_mcmd u) = 1024%nat -> length (uc_msec u) = 1024%nat ->
  length (uc_moffset u) = 1024%nat -> length (uc_minflight u) = 256%nat ->
  engine 2 (sim_io nodes u) (sim_pro nodes).
Proof.
  intros Hmax L1 L2 L3 L4. constructor; simpl; auto.
  - apply sim_pro_ok. lia.
  - intros n [=].
  - intros n node _ [Hn ->]%sim_lookup. by apply sim_writable.
  - intros n node _ [Hn ->]%sim_lookup. constructor; intros z Hz; simpl;
      destruct (sim_slot_sect nodes n z) as [-> ->]; auto. simpl. unfold stripe_count. zdiv.
  - intros n m nd nd' z z' ei Hne [Hn ->]%sim_lookup [Hm ->]%sim_lookup Hz Hz'. unfold slot_ei.
    rewrite !sim_slot by done. simpl. intros [= <-] [= Heq]. lia.
  - destruct nodes as [|nodes].
    + split; [lia|]. intros zi zone ei. simpl. done.
    + exact (wr_idx _ _ _ _ _ (sim_writable (S nodes) 0 ltac:(lia) Hmax)).
  - intros n node _ [Hn ->]%sim_lookup. pose proof (sim_writable nodes n Hn Hmax) as W.
    split_and!; [exact (wr_wf _ _ _ _ _ W)| |exact (wr_fits _ _ _ _ _ W)]. intros z Hz. destruct (sim_slot_sect nodes n z) as [-> ->]; auto.
  - rewrite length_fmap, length_seq. lia.
  - constructor; simpl; rewrite ?L3; auto. split_and!; simpl; rewrite ?L1, ?L2; auto. apply sim_prov_wf.
Qed.

Lemma sim_fits : device_fits (D := simdev).
Proof. split; [done|]. simpl. lia. Qed.

Lemma sim_request_ok buf size : request_ok (sim_ucmd buf size).
Proof. by constructor. Qed.

(** * Data of earlier requests *)

Lemma node_sector_inj {D : Type} `{HX : !Xnvme D} `{HQ : !QueueLaws D} `{HZ : !ZnsLaws D}
    meta len pro node y y' :
  device_fits (D := D) -> zones_whole (D := D) len pro node -> zones_indexed meta pro ->
  0 <= y < 8 * ZTL_PRO_OPT_SEC_NUM_INNODE -> 0 <= y' < 8 * ZTL_PRO_OPT_SEC_NUM_INNODE ->
  node_sector pro node y = node_sector pro node y' -> y = y'.
Proof.
  intros [Hcap _] (Hwf & Hst & _) Hidx Hy Hy'. unfold node_sector.
  rewrite !Hst by (apply Z.mod_pos_bound; lia). pose proof z_geo.
  change ZTL_PRO_SEC_NUM_INZONE with 24576 in Hcap. cst.
  destruct (decide ((y / 8) mod 64 = (y' / 8) mod 64)) as [Heq|Hne].
  - rewrite Heq. intros Hs. zdiv.
  - assert (Hz : slot_devz pro node ((y / 8) mod 64) <> slot_devz pro node ((y' / 8) mod 64)).
    { intros Hd. apply Hne. eapply (slot_devz_inj meta len pro node); eauto; apply Z.mod_pos_bound; lia. }
    assert (0 <= 8 * (y / 8 / 64) + y mod 8 < 24576) by zdiv.
    assert (0 <= 8 * (y' / 8 / 64) + y' mod 8 < 24576) by zdiv. nia.
Qed.

Lemma node_sector_apart_whole {D : Type} `{HX : !Xnvme D} `{HQ : !QueueLaws D} `{HZ : !ZnsLaws D}
    meta len pro n m node nd y y' :
  device_fits (D := D) -> zones_whole (D := D) len pro node -> zones_whole (D := D) len pro nd ->
  zones_indexed meta pro -> nodes_disjoint pro -> n <> m ->
  pg_vnodes pro !! n = Some node -> pg_vnodes pro !! m = Some nd ->
  0 <= y < 8 * ZTL_PRO_OPT_SEC_NUM_INNODE -> 0 <= y' < 8 * ZTL_PRO_OPT_SEC_NUM_INNODE ->
  node_sector pro node y <> node_sector pro nd y'.
Proof.
  intros [Hcap _] (Hwf & Hst & _) (Hwf' & Hst' & _) Hidx Hdj Hne Hn Hm Hy Hy'.
  pose proof (nodes_devz_ne meta pro n m node nd len ((y / 8) mod 64) ((y' / 8) mod 64)
    Hidx Hdj Hne Hn Hm Hwf Hwf' ltac:(apply Z.mod_pos_bound; lia) ltac:(apply Z.mod_pos_bound; lia)) as Hz.
  unfold node_sector. rewrite Hst, Hst' by (apply Z.mod_pos_bound; lia). pose proof z_geo.
  change ZTL_PRO_SEC_NUM_INZONE with 24576 in Hcap. cst.
  assert (0 <= 8 * (y / 8 / 64) + y mod 8 < 24576) by zdiv.
  assert (0 <= 8 * (y' / 8 / 64) + y' mod 8 < 24576) by zdiv. nia.
Qed.

(** A sector below the written part of a node is in no appended piece. *)
Lemma written_not_in_pieces {D : Type} `{HX : !Xnvme D} `{HQ : !QueueLaws D} `{HZ : !ZnsLaws D}
    meta (s : iostate D) pro pro' ps m node y :
  device_fits (D := D) -> engine meta s pro -> appended pro ps -> same_zones pro pro' ->
  m ∈ queues pro -> pg_vnodes pro !! m = Some node -> 0 <= y < 8 * pn_used node ->
  ~ in_pieces pro' ps (node_sector pro node y).
Proof.
  intros Hdev He Hap [Hvz Hz] Hq Hnode Hy (n & st & num & nd' & y' & Hin & Hnd' & Hy' & Heq).
  unfold appended in Hap. rewrite Forall_forall in Hap.
  destruct (Hap _ Hin) as (Hqn & nd & Hnd & Hu & Hst & Hnum & Hc).
  specialize (Hz n). rewrite Hnd, Hnd' in Hz. injection Hz as Hz.
  rewrite (node_sector_transfer pro nd pro' nd') in Heq by done.
  destruct (po_counts _ (eg_ok _ _ _ He) m Hq) as (nd0 & Hnd0 & _ & Hl & _ & Hcap).
  assert (nd0 = node) as -> by congruence.
  pose proof (eg_zones _ _ _ He m node Hq Hnode) as Hw. pose proof (eg_zones _ _ _ He n nd Hqn Hnd) as Hw'.
  destruct (decide (n = m)) as [->|Hne].
  - assert (nd = node) as -> by congruence.
    apply (node_sector_inj meta _ pro node y' y Hdev Hw (eg_idx _ _ _ He)) in Heq; lia.
  - revert Heq. apply (node_sector_apart_whole meta _ pro n m nd node y' y Hdev Hw' Hw (eg_idx _ _ _ He)
      (eg_disj _ _ _ He) Hne Hnd Hnode); lia.
Qed.

(** A request for which there is no node. *)
Lemma write_ucmd_no_node {D : Type} `{HX : !Xnvme D} `{HQ : !QueueLaws D} `{HZ : !ZnsLaws D}
    geo_zn_grp dev_nsect meta (s : iostate D) pro k (fuel : nat) :
  engine meta s pro -> pg_free_head pro = [] ->
  (forall n node, io_node s = Some n -> pg_vnodes pro !! n = Some node -> pn_left node = 0) ->
  uc_size (io_u s) = 32768 * k -> 0 < k <= ZTL_IO_RC_NUM ->
  exists s' pro',
    ztl_io_write_ucmd ZNS_ALIGMENT geo_zn_grp dev_nsect meta (S fuel) s = Ok (XZTL_ZTL_IO_S_ERR, s') /\
    engine meta s' pro' /\ io_dev s' = io_dev s /\ io_node s' = None /\
    uc_status (io_u s') = XZTL_ZTL_IO_S_ERR /\ uc_completed (io_u s') = 1 /\
    uc_pieces (io_u s') = uc_pieces (io_u s) /\ io_mem s' = io_mem s.
Proof.
  intros He Hnil Hex Hs Hk.
  pose proof (engine_start meta s pro k He) as He1.
  destruct (engine_get_node meta (request_start s k) pro He1) as (qn & pro' & ret & Hget & He2 & Hpost).
  destruct Hpost as (_ & _ & _ & _ & [(_ & n & node & Hqn & Hn & Hl & Hcase)|(-> & -> & _)]).
  { exfalso. destruct Hcase as [[Hq ->]|(Hin & _)].
    - rewrite Hqn in Hq. simpl in Hq. specialize (Hex n node (eq_sym Hq) Hn). lia.
    - rewrite Hnil in Hin. by apply not_elem_of_nil in Hin. }
  eexists _, pro'. split_and!.
  - rewrite (write_ucmd_aligned geo_zn_grp dev_nsect meta (S fuel) s k) by done.
    cbn [write_pieces]. unfold write_piece. rewrite Hget. simpl. reflexivity.
  - simpl. destruct He2 as [? ? ? ? ? ? ? ? ? [(L1 & L2 & L3 & L4) B1 B2] ?]. constructor; auto.
    constructor; auto. by split_and!.
  - done.
  - done.
  - done.
  - done.
  - done.
  - done.
Qed.

(** * Properties *)

(** C1. Write requests.  On a healthy device, from a consistent engine, a
    request of [k] chunks of 32 KiB, [k] at most 1024, for which there is room,
    completes for every sufficient fuel: the call returns [XZTL_OK] and leaves a
    consistent engine; the request reports one or two pieces of [k] commands in
    all, appended to their nodes; the pieces hold the bytes of the buffer in
    order; and no sector outside the pieces changes. *)
Theorem ztl_io_write_ucmd_correct {D : Type} `{HX : !Xnvme D} `{HQ : !QueueLaws D} `{HZ : !ZnsLaws D}
    geo_zn_grp dev_nsect meta (s : iostate D) pro k :
  device_fits (D := D) -> engine meta s pro -> request_ok (io_u s) -> uc_pieces (io_u s) = 0 ->
  uc_size (io_u s) = 32768 * k -> 0 < k <= ZTL_IO_RC_NUM -> room_for s pro k ->
  0 <= uc_buf (io_u s) -> uc_buf (io_u s) + 32768 * k < 2 ^ 64 ->
  exists N s' pro' ps,
    (forall fuel, (N <= fuel)%nat ->
       ztl_io_write_ucmd ZNS_ALIGMENT geo_zn_grp dev_nsect meta fuel s = Ok (XZTL_OK, s')) /\
    engine meta s' pro' /\ uc_completed (io_u s') = 1 /\ uc_status (io_u s') = uc_status (io_u s) /\
    (1 <= length ps <= 2)%nat /\ reported (io_u s') ps /\ pieces_total ps = k /\ appended pro ps /\
    stored (z_data (io_dev s')) pro' ps (io_mem s) (uc_buf (io_u s)) /\
    (forall sec off, ~ in_pieces pro' ps sec ->
       z_data (io_dev s') sec off = z_data (io_dev s) sec off).
Proof.
  intros. destruct (write_ucmd_ok geo_zn_grp dev_nsect meta s pro k)
    as (N & s' & pro' & ps & Hrun & [] & Hc & Hlen & Hap & Hsz & _); auto.
  exists N, s', pro', ps. split_and!; auto; lia.
Qed.

Lemma ztl_io_write_ucmd_correct_witness :
  exists N s' pro' ps,
    (forall fuel, (N <= fuel)%nat ->
       ztl_io_write_ucmd 4096 130 32768 2 fuel (sim_io 2 (sim_ucmd 65536 (32768 * 67))) = Ok (XZTL_OK, s')) /\
    pieces_total ps = 67 /\
    stored (z_data (io_dev s')) pro' ps (fun a => a mod 251) 65536.
Proof.
  destruct (ztl_io_write_ucmd_correct 130 32768 2 (sim_io 2 (sim_ucmd 65536 (32768 * 67))) (sim_pro 2) 67)
    as (N & s' & pro' & ps & Hrun & _ & _ & _ & _ & _ & Ht & _ & Hst & _).
  - exact sim_fits.
  - apply sim_engine; [done|apply length_replicate..].
  - apply sim_request_ok.
  - reflexivity.
  - reflexivity.
  - vm_compute. split; [reflexivity|discriminate].
  - right. discriminate.
  - vm_compute. discriminate.
  - vm_compute. reflexivity.
  - exists N, s', pro', ps. split; [exact Hrun|]. split; [exact Ht|exact Hst].
Defined.

(** C2. Append only.  A write request changes no byte of any node below the
    commands the node had already received: what earlier requests wrote, on any
    node of the group, is still there. *)
Theorem ztl_io_write_ucmd_preserves {D : Type} `{HX : !Xnvme D} `{HQ : !QueueLaws D} `{HZ : !ZnsLaws D}
    geo_zn_grp dev_nsect meta (s : iostate D) pro k :
  device_fits (D := D) -> engine meta s pro -> request_ok (io_u s) -> uc_pieces (io_u s) = 0 ->
  uc_size (io_u s) = 32768 * k -> 0 < k <= ZTL_IO_RC_NUM -> room_for s pro k ->
  0 <= uc_buf (io_u s) -> uc_buf (io_u s) + 32768 * k < 2 ^ 64 ->
  exists N s',
    (forall fuel, (N <= fuel)%nat ->
       ztl_io_write_ucmd ZNS_ALIGMENT geo_zn_grp dev_nsect meta fuel s = Ok (XZTL_OK, s')) /\
    (forall m node x, m ∈ queues pro -> pg_vnodes pro !! m = Some node -> 0 <= x < 32768 * pn_used node ->
       node_byte (z_data (io_dev s')) pro node x = node_byte (z_data (io_dev s)) pro node x).
Proof.
  intros Hdev He. intros. destruct (write_ucmd_ok geo_zn_grp dev_nsect meta s pro k)
    as (N & s' & pro' & ps & Hrun & [] & Hc & Hlen & Hap & Hsz & _); auto.
  exists N, s'. split; [done|]. intros m node x Hm Hnode Hx. unfold node_byte. apply wq_other.
  eapply written_not_in_pieces; eauto. zdiv.
Qed.

Lemma ztl_io_write_ucmd_preserves_witness :
  exists N s',
    (forall fuel, (N <= fuel)%nat ->
       ztl_io_write_ucmd 4096 130 32768 2 fuel (sim_io 2 (sim_ucmd 65536 (32768 * 67))) = Ok (XZTL_OK, s')).
Proof.
  destruct (ztl_io_write_ucmd_preserves 130 32768 2 (sim_io 2 (sim_ucmd 65536 (32768 * 67))) (sim_pro 2) 67)
    as (N & s' & Hrun & _).
  - exact sim_fits.
  - apply sim_engine; [done|apply length_replicate..].
  - apply sim_request_ok.
  - reflexivity.
  - reflexivity.
  - vm_compute. split; [reflexivity|discriminate].
  - right. discriminate.
  - vm_compute. discriminate.
  - vm_compute. reflexivity.
  - exists N, s'. exact Hrun.
Defined.

(** Rejected requests.  A request whose size is not a multiple of 32 KiB, or
    of more than 65536 commands, fails with [XZTL_ZTL_IO_S_ERR], is marked
    completed with that status, and touches nothing else: no node, no zone
    metadata, no device command. *)
Theorem ztl_io_write_ucmd_rejects {D : Type} `{HX : !Xnvme D}
    geo_zn_grp dev_nsect meta (s : iostate D) (fuel : nat) :
  0 <= uc_size (io_u s) < 2 ^ 44 ->
  uc_size (io_u s) mod 32768 <> 0 \/ 65536 < uc_size (io_u s) / 32768 ->
  ztl_io_write_ucmd ZNS_ALIGMENT geo_zn_grp dev_nsect meta fuel s =
  Ok (XZTL_ZTL_IO_S_ERR,
      io_set_u s (uc_set_completed (uc_set_status (io_u s) XZTL_ZTL_IO_S_ERR) 1)).
Proof.
  intros Hsz Hbad. unfold ztl_io_write_ucmd. cst.
  replace (u32 (4096 * 8)) with 32768 by reflexivity.
  unfold ctrue. destruct (Z.eqb_spec (uc_size (io_u s) mod 32768) 0) as [Hal|Hna]; simpl; [|done].
  destruct Hbad as [?|Hbig]; [done|].
  replace (65536 <? u32 (uc_size (io_u s) / 4096) / 8) with true; [done|].
  symmetry. apply Z.ltb_lt. rewrite wrap_small by zdiv. zdiv.
Qed.

Lemma ztl_io_write_ucmd_rejects_witness :
  ztl_io_write_ucmd 4096 130 32768 2 0 (sim_io 1 (sim_ucmd 0 4096)) =
  Ok (24, io_set_u (sim_io 1 (sim_ucmd 0 4096))
            (uc_set_completed (uc_set_status (sim_ucmd 0 4096) 24) 1)).
Proof.
  apply (ztl_io_write_ucmd_rejects 130 32768 2 (sim_io 1 (sim_ucmd 0 4096)) 0).
  - vm_compute. split; [discriminate|reflexivity].
  - left. vm_compute. discriminate.
Defined.

(** C7. Out of space.  When the writer's node is exhausted, or it has none, and
    no node is free, the request fails with [XZTL_ZTL_IO_S_ERR] before any
    device command; the engine stays consistent and the writer holds no node. *)
Theorem ztl_io_write_ucmd_full {D : Type} `{HX : !Xnvme D} `{HQ : !QueueLaws D} `{HZ : !ZnsLaws D}
    geo_zn_grp dev_nsect meta (s : iostate D) pro k (fuel : nat) :
  engine meta s pro -> pg_free_head pro = [] ->
  (forall n node, io_node s = Some n -> pg_vnodes pro !! n = Some node -> pn_left node = 0) ->
  uc_size (io_u s) = 32768 * k -> 0 < k <= ZTL_IO_RC_NUM ->
  exists s' pro',
    ztl_io_write_ucmd ZNS_ALIGMENT geo_zn_grp dev_nsect meta (S fuel) s = Ok (XZTL_ZTL_IO_S_ERR, s') /\
    engine meta s' pro' /\ io_dev s' = io_dev s /\ io_node s' = None /\
    uc_status (io_u s') = XZTL_ZTL_IO_S_ERR /\ uc_completed (io_u s') = 1.
Proof.
  intros. destruct (write_ucmd_no_node geo_zn_grp dev_nsect meta s pro k fuel)
    as (s' & pro' & Hrun & He & Hd & Hn & Hst & Hc & _); auto.
  exists s', pro'. by split_and!.
Qed.

(** The simulated engine with no node left. *)
Definition sim_full : iostate simdev := sim_io 0 (sim_ucmd 65536 32768).

Lemma ztl_io_write_ucmd_full_witness :
  exists s' pro',
    ztl_io_write_ucmd 4096 130 32768 2 1 sim_full = Ok (24, s') /\ engine 2 s' pro' /\ io_node s' = None.
Proof.
  destruct (ztl_io_write_ucmd_full 130 32768 2 sim_full (sim_pro 0) 1 0)
    as (s' & pro' & Hrun & He & _ & Hq & _).
  - apply sim_engine; [done|apply length_replicate..].
  - reflexivity.
  - intros n node [=].
  - reflexivity.
  - vm_compute. split; [reflexivity|discriminate].
  - exists s', pro'. split; [exact Hrun|]. split; [exact He|exact Hq].
Defined.
