(* ===== verification/Read.v ===== *)
(** The read path of the I/O engine: [ztl_io_read_ucmd], [ztl_io_read] and the
    pool of read resources of src/xztl/src/ztl-io.c.

    A read is split at the stripe units of the node, 8 sectors each; every part
    is read into a bounce buffer and copied to the user by the callback. *)

From S2P Require Import Prelude Types Stats ProGrp Media Io.

(** [r->mcmd[i]] after the loop body: everything else is zero ([memset]). *)
Definition read_mcmd (nsec prp sect misalign bytes_off cpsize : Z) : xztl_io_mcmd :=
  {| mc_opcode := XZTL_CMD_READ; mc_submitted := 0; mc_synch := 0; mc_callback_err_cnt := 0;
     mc_sequence := u32 misalign; mc_sequence_zn := 0; mc_buf_off := bytes_off; mc_cpsize := cpsize;
     mc_naddr := 1; mc_status := 0; mc_nsec := nsec; mc_addr := maddr_set_sect 0 sect; mc_prp := prp;
     mc_paddr := 0; mc_callback := Some CB_READ; mc_media_ctx := None |}.

Section Read.

Context {D : Type} `{!Xnvme D}.
Context (geo_zn_grp dev_nsect meta : Z).
Implicit Types (s : iostate D).

(** [level_secs]: sectors of one row of the node. *)
Definition level_secs : Z := ZTL_PRO_ZONE_NUM_INNODE * ZTL_IO_SEC_MCMD.

(** Local variables of the loop that builds the commands. *)
Record readst := {
  rd_sec_left : Z; rd_bytes_off : Z; rd_left : Z; rd_total : Z; rd_zindex : Z; rd_nlevel : Z;
  rd_zone_off : Z; rd_num : Z; rd_misalign : Z; rd_s : iostate D
}.

(** Their values before the loop. *)
Definition read_start (size offset : Z) s : option readst :=
  let misalign := offset mod ZNS_ALIGMENT in
  let sec_size := u64 (size + misalign) / ZNS_ALIGMENT +
                  (if ctrue (u64 (size + misalign) mod ZNS_ALIGMENT) then 1 else 0) in
  let sec_start := offset / ZNS_ALIGMENT in
  let nlevel := i32 (sec_start / level_secs) in
  let zindex := (sec_start mod level_secs) / ZTL_IO_SEC_MCMD in
  row ← cint (nlevel * ZTL_IO_SEC_MCMD);
  let zone_sec_off := u64 (row + (sec_start mod level_secs) mod ZTL_IO_SEC_MCMD) in
  let read_num := ZTL_IO_SEC_MCMD - (sec_start mod level_secs) mod ZTL_IO_SEC_MCMD in
  let read_num := if read_num <? sec_size then read_num else sec_size in
  Some {| rd_sec_left := sec_size; rd_bytes_off := 0; rd_left := size; rd_total := 0;
          rd_zindex := zindex; rd_nlevel := nlevel; rd_zone_off := zone_sec_off;
          rd_num := read_num; rd_misalign := misalign; rd_s := s |}.

(** The command of one turn of the loop, up to [total_cmd++]; [rprp] are the
    bounce buffers [r->prp]. *)
Definition read_cmd (rprp : list Z) (pro : ztl_pro_node_grp) (znode : ztl_pro_node) (p : readst)
    : option readst :=
  let s := rd_s p in
  let nsec := rd_num p in
  prp ← rprp.[rd_total p];
  zone ← slot_zone pro znode (rd_zindex p);
  let sect := u64 (maddr_sect (pz_addr zone) + rd_zone_off p) in
  let span := u64 (nsec * ZNS_ALIGMENT - rd_misalign p) in
  let cpsize := if rd_left p <? span then rd_left p else span in
  cmds ← aset (io_cmds s) (rd_total p)
           (read_mcmd nsec prp sect (rd_misalign p) (rd_bytes_off p) cpsize);
  mcmd ← aset (uc_mcmd (io_u s)) (rd_total p) (Some (Z.to_nat (rd_total p)));
  Some {| rd_sec_left := u64 (rd_sec_left p - nsec); rd_bytes_off := u64 (rd_bytes_off p + cpsize);
          rd_left := u64 (rd_left p - cpsize); rd_total := rd_total p + 1;
          rd_zindex := rd_zindex p; rd_nlevel := rd_nlevel p; rd_zone_off := rd_zone_off p;
          rd_num := nsec; rd_misalign := rd_misalign p;
          rd_s := io_set_u (io_set_cmds s cmds) (uc_set_mcmd (io_u s) mcmd) |}.

(** The preparation of the next turn. *)
Definition read_next (p : readst) : option readst :=
  let zindex := (rd_zindex p + 1) mod ZTL_PRO_ZONE_NUM_INNODE in
  nlevel ← (if zindex =? 0 then cint (rd_nlevel p + 1) else Some (rd_nlevel p));
  row ← cint (nlevel * ZTL_IO_SEC_MCMD);
  Some {| rd_sec_left := rd_sec_left p; rd_bytes_off := rd_bytes_off p; rd_left := rd_left p;
          rd_total := rd_total p; rd_zindex := zindex; rd_nlevel := nlevel; rd_zone_off := u64 row;
          rd_num := if ZTL_IO_SEC_MCMD <? rd_sec_left p then ZTL_IO_SEC_MCMD else rd_sec_left p;
          rd_misalign := 0; rd_s := rd_s p |}.

(** [while (sec_left)].  A turn needs a free command of the pool, so there are at
    most [ZTL_IO_RC_NUM] of them before an access past its end. *)
Fixpoint read_cmds (fuel : nat) (rprp : list Z) (pro : ztl_pro_node_grp) (znode : ztl_pro_node)
    (p : readst) : outcome readst :=
  if rd_sec_left p =? 0 then Ok p else
  match fuel with
  | O => OutOfFuel
  | S fuel' =>
      p1 ← lift (read_cmd rprp pro znode p);
      if rd_sec_left p1 =? 0 then Ok p1 else
      p2 ← lift (read_next p1);
      read_cmds fuel' rprp pro znode p2
  end.

Definition read_fuel : nat := 1025.

(** Local variables of the submission loop: [submitted] and [ret]. *)
Record rsubst := { rs_submitted : Z; rs_ret : Z; rs_s : iostate D }.

Definition read_submit_one (cmd_i : Z) (p : rsubst) : option rsubst :=
  let s := rs_s p in
  pc ← (uc_mcmd (io_u s)).[cmd_i];
  c ← pc;
  cmd ← io_cmds s !! c;
  if ctrue (mc_submitted cmd) then Some p else
  '(ret, s1) ← media_submit_io geo_zn_grp dev_nsect s c;
  if ctrue ret then
    s2 ← stats_inc s1 XZTL_STATS_READ_SUBMIT_FAIL 1;
    Some {| rs_submitted := rs_submitted p; rs_ret := ret; rs_s := s2 |}
  else
    s2 ← upd_cmd s1 c (fun m => mc_set_submitted m 1);
    Some {| rs_submitted := rs_submitted p + 1; rs_ret := ret; rs_s := s2 |}.

(** [for (cmd_i = 0; cmd_i < total_cmd; cmd_i++)] *)
Fixpoint read_submit_for (n : nat) (cmd_i : Z) (p : rsubst) : option rsubst :=
  match n with
  | O => Some p
  | S n' => p' ← read_submit_one cmd_i p; read_submit_for n' (cmd_i + 1) p'
  end.

(** [while (submitted < total_cmd)] *)
Fixpoint read_submit_while (fuel : nat) (total : Z) (p : rsubst) : outcome rsubst :=
  if rs_submitted p <? total then
    match fuel with
    | O => OutOfFuel
    | S fuel' =>
        p' ← lift (read_submit_for (Z.to_nat total) 0 p);
        read_submit_while fuel' total p'
    end
  else Ok p.

(** xnvme_queue_drain: completions are processed until none is outstanding. *)
Fixpoint queue_drain (fuel : nat) s : outcome (iostate D) :=
  match xq_outstanding (io_dev s) with
  | O => Ok s
  | _ =>
      match fuel with
      | O => OutOfFuel
      | S fuel' =>
          s' ← lift (ztl_io_poke_ctx geo_zn_grp dev_nsect meta s);
          queue_drain fuel' s'
      end
  end.

(** The read of one command: synchronous. *)
Definition read_single s : option (Z * iostate D) :=
  pc ← (uc_mcmd (io_u s)).[0];
  c ← pc;
  s1 ← upd_cmd s c (fun m => mc_set_synch m 1);
  '(ret, s2) ← media_submit_io geo_zn_grp dev_nsect s1 c;
  cmd ← io_cmds s2 !! c;
  let s3 := io_set_mem s2 (memcpy (io_mem s2) (uc_buf (io_u s2)) (mc_prp cmd + mc_sequence cmd)
                                  (mc_cpsize cmd)) in
  Some (ret, io_set_u s3 (uc_set_completed (io_u s3) 1)).

Definition ztl_io_read_ucmd (fuel : nat) (rprp : list Z) s : outcome (Z * iostate D) :=
  node_id ← lift (uc_node_id (io_u s)).[0];
  pro ← lift (grp_pro (io_g s));
  znode ← lift (pg_vnodes pro).[u32 node_id];
  p0 ← lift (read_start (uc_size (io_u s)) (uc_offset (io_u s)) s);
  p ← read_cmds read_fuel rprp pro znode p0;
  s1 ← lift (stats_inc (rd_s p) XZTL_STATS_READ_BYTES (u64 (rd_sec_left p0 * ZNS_ALIGMENT)));
  if rd_total p =? 1 then lift (read_single s1) else
  let s2 := io_set_u s1 (uc_set_nmcmd (io_u s1) (u16 (rd_total p))) in
  q ← read_submit_while fuel (rd_total p) {| rs_submitted := 0; rs_ret := 0; rs_s := s2 |};
  s3 ← queue_drain fuel (rs_s q);
  Ok (rs_ret q, io_set_u s3 (uc_set_completed (io_u s3) 1)).

(** * The pool of read resources *)

(** [read_resource[]]: used flag, commands and bounce buffers of every entry. *)
Record ztl_read_rs := { rr_used : bool; rr_mcmd : list xztl_io_mcmd; rr_prp : list Z }.

Definition rr_set_used (r : ztl_read_rs) (b : bool) : ztl_read_rs :=
  {| rr_used := b; rr_mcmd := rr_mcmd r; rr_prp := rr_prp r |}.

(** [_ztl_io_get_read_rs]: the first unused entry of the first [n], from [id] on. *)
Fixpoint get_read_rs (n : nat) (id : Z) (rs : list ztl_read_rs) : option (Z * list ztl_read_rs) :=
  match n with
  | O => Some (-1, rs)
  | S n' =>
      r ← rs.[id];
      if rr_used r then get_read_rs n' (id + 1) rs
      else rs' ← aset rs id (rr_set_used r true); Some (id, rs')
  end.

(** [_ztl_io_put_read_rs] *)
Definition put_read_rs (id : Z) (rs : list ztl_read_rs) : option (list ztl_read_rs) :=
  r ← rs.[id];
  aset rs id (rr_set_used r false).

Definition ztl_io_read (fuel : nat) (read_ctx_num : Z) (rs : list ztl_read_rs) s
    : outcome (Z * list ztl_read_rs * iostate D) :=
  '(id, rs1) ← lift (get_read_rs (Z.to_nat read_ctx_num) 0 rs);
  if id <? 0 then Ok (XZTL_ZTL_IO_ERR, rs1, s) else
  r ← lift rs1.[id];
  '(ret, s') ← ztl_io_read_ucmd fuel (rr_prp r) (io_set_cmds s (rr_mcmd r));
  rs2 ← lift (aset rs1 id {| rr_used := true; rr_mcmd := io_cmds s'; rr_prp := rr_prp r |});
  rs3 ← lift (put_read_rs id rs2);
  Ok (ret, rs3, s').

End Read.

(** * The write queues *)

(** [struct ztl_queue_pool], the part the library changes: the queued requests
    and the node. *)
Record ztl_queue := { wq_ucmds : list xztl_io_ucmd; wq_node : option nat }.

(** [ztl_io_submit]: [STAILQ_INSERT_TAIL(&q->ucmd_head, ucmd)] *)
Definition ztl_io_submit (qp : list ztl_queue) (u : xztl_io_ucmd) : option (list ztl_queue) :=
  q ← qp.[uc_prov_type u];
  aset qp (uc_prov_type u) {| wq_ucmds := tailq_insert_tail (wq_ucmds q) u; wq_node := wq_node q |}.

(** One turn of [ztl_io_write_th]: the request it takes off its queue. *)
Definition write_th_take (q : ztl_queue) : option xztl_io_ucmd * ztl_queue :=
  match wq_ucmds q with
  | [] => (None, q)
  | u :: us => (Some u, {| wq_ucmds := us; wq_node := wq_node q |})
  end.

(** [ztl_io_nodeset] *)
Definition ztl_io_nodeset (g : app_group) (qp : list ztl_queue) (node_id level nr_valid : Z)
    : option (app_group * list ztl_queue) :=
  pro ← grp_pro g;
  znode ← (pg_vnodes pro).[node_id];
  let znode1 := pn_set_nr_valid znode (u64 (pn_nr_valid znode + nr_valid)) in
  if pn_status znode1 =? XZTL_ZMD_NODE_USED then
    let level := if ZROCKS_LEVEL_NUM <=? level then ZROCKS_LEVEL_NUM - 1 else level in
    q ← qp.[level];
    qp' ← aset qp level {| wq_ucmds := wq_ucmds q; wq_node := Some (Z.to_nat node_id) |};
    g' ← upd_node g (Z.to_nat node_id) (fun _ => pn_set_level znode1 level);
    Some (g', qp')
  else
    g' ← upd_node g (Z.to_nat node_id) (fun _ => znode1);
    Some (g', qp).
