(* ===== verification/IoRead.v ===== *)
(** Reads: [ztl_io_read_ucmd] (src/xztl/src/ztl-io.c) on a healthy device returns
    the bytes of the node in stripe order.

    The file gives the commands of a read in closed form, proves that the loop
    builds exactly those, that the submission loop puts them all in flight, and
    that draining the queue copies every byte to its place in the user's buffer,
    in whatever order the device completes the commands. *)

From S2P Require Import Prelude Types Sim Stats ProGrp Media Zns Device Io IoPopulate IoFlight IoSubmit IoWrite IoRequest IoTheorems Read.

(** * The commands of a read of [size] bytes at [offset] *)

Section Split.

Context (offset size : Z).

(** First sector, sector after the last, first stripe unit, number of units. *)
Definition sec0 : Z := offset / 4096.
Definition sec_end : Z := (offset + size + 4095) / 4096.
Definition unit0 : Z := sec0 / 8.
Definition ncmds : Z := (sec_end - 1) / 8 - unit0 + 1.

(** Command [j] reads the sectors [lo j, hi j) of the node, and the user wants
    the bytes [blo j, bhi j) of them. *)
Definition lo (j : Z) : Z := if j =? 0 then sec0 else 8 * (unit0 + j).
Definition hi (j : Z) : Z := Z.min (8 * (unit0 + j + 1)) sec_end.
Definition blo (j : Z) : Z := Z.max offset (4096 * lo j).
Definition bhi (j : Z) : Z := Z.min (offset + size) (4096 * hi j).

Context (Hoff : 0 <= offset) (Hsize : 0 < size).

Lemma ncmds_pos : 0 < ncmds.
Proof using Hoff Hsize. unfold ncmds, unit0, sec_end, sec0. zdiv. Qed.

Lemma lo_hi j : 0 <= j < ncmds -> sec0 <= lo j < hi j /\ hi j <= sec_end /\ hi j - lo j <= 8.
Proof using Hoff Hsize.
  unfold ncmds, lo, hi, unit0. intros Hj. assert (sec0 < sec_end) by (unfold sec_end, sec0; zdiv).
  destruct (Z.eqb_spec j 0); zdiv.
Qed.

Lemma lo_unit j : 0 <= j -> lo j / 8 = unit0 + j.
Proof using Hoff. unfold lo, unit0. destruct (Z.eqb_spec j 0); intros; zdiv. Qed.

Lemma lo_mod j : 0 < j -> lo j mod 8 = 0.
Proof using. unfold lo. destruct (Z.eqb_spec j 0); intros; zdiv. Qed.

Lemma lo_next j : 0 <= j -> j + 1 < ncmds -> lo (j + 1) = hi j.
Proof using Hoff Hsize.
  unfold lo, hi, ncmds. intros Hj Hn. replace (j + 1 =? 0) with false by lia.
  rewrite Z.min_l; [lia|]. zdiv.
Qed.

Lemma hi_last : hi (ncmds - 1) = sec_end.
Proof using Hoff Hsize.
  pose proof ncmds_pos. unfold hi. apply Z.min_r. unfold ncmds. zdiv.
Qed.

Lemma hi_not_last j : 0 <= j -> j + 1 < ncmds -> hi j < sec_end.
Proof using Hoff Hsize. intros Hj Hn. rewrite <- lo_next by lia. pose proof (lo_hi (j + 1)). lia. Qed.

Lemma blo_0 : blo 0 = offset.
Proof using Hoff. unfold blo, lo. simpl. unfold sec0. zdiv. Qed.

Lemma blo_pos j : 0 < j < ncmds -> blo j = 4096 * lo j.
Proof using Hoff Hsize.
  intros Hj. unfold blo. apply Z.max_r. pose proof (lo_hi (j - 1) ltac:(lia)) as H1.
  pose proof (lo_next (j - 1) ltac:(lia)) as H2. replace (j - 1 + 1) with j in H2 by lia.
  specialize (H2 ltac:(lia)). unfold sec0 in *. zdiv.
Qed.

Lemma bhi_next j : 0 <= j -> j + 1 < ncmds -> bhi j = blo (j + 1).
Proof using Hoff Hsize.
  intros Hj Hn. rewrite blo_pos, lo_next by lia. unfold bhi. apply Z.min_r.
  pose proof (hi_not_last j Hj Hn). unfold sec_end in *. zdiv.
Qed.

Lemma bhi_last : bhi (ncmds - 1) = offset + size.
Proof using Hoff Hsize. unfold bhi. rewrite hi_last. apply Z.min_l. unfold sec_end. zdiv. Qed.

Lemma b_range j : 0 <= j < ncmds ->
  4096 * lo j <= blo j /\ offset <= blo j < bhi j /\ bhi j <= offset + size /\
  bhi j <= 4096 * hi j /\ blo j - 4096 * lo j < 4096.
Proof using Hoff Hsize.
  intros Hj. pose proof (lo_hi j Hj). split_and!; try (unfold blo, bhi; lia).
  - unfold blo, bhi. unfold sec0, sec_end in *. zdiv.
  - destruct (decide (j = 0)) as [->|]; [rewrite blo_0; unfold lo; simpl; unfold sec0; zdiv|].
    rewrite blo_pos; lia.
Qed.

(** Every byte is in the range of a command. *)
Lemma b_cover x : offset <= x < offset + size ->
  exists j, 0 <= j < ncmds /\ blo j <= x < bhi j.
Proof using Hoff Hsize.
  intros Hx. exists (x / 32768 - unit0).
  assert (Hj : 0 <= x / 32768 - unit0 < ncmds) by (unfold ncmds, unit0, sec_end, sec0; zdiv).
  split; [done|]. unfold bhi, hi, sec_end.
  destruct (decide (x / 32768 - unit0 = 0)) as [E|E].
  - rewrite E, blo_0. zdiv.
  - rewrite blo_pos by lia. unfold lo. replace (x / 32768 - unit0 =? 0) with false by lia. zdiv.
Qed.

End Split.

(** * The loop that builds the commands *)

Section Build.

Context {D : Type}.
Context (rprp : list Z) (pro : ztl_pro_node_grp) (znode : ztl_pro_node) (offset size : Z).
Implicit Types (s : iostate D).

(** Command [j]. *)
Definition rcmd (j : nat) : xztl_io_mcmd :=
  let j := Z.of_nat j in
  read_mcmd (hi offset size j - lo offset j) (default 0 rprp.[j]) (node_sector pro znode (lo offset j))
    (blo offset j - 4096 * lo offset j) (blo offset j - offset) (bhi offset size j - blo offset j).

(** The state with the first [j] commands in place. *)
Definition built s (j : nat) : iostate D :=
  io_set_u (io_set_cmds s ((rcmd <$> seq 0 j) ++ drop j (io_cmds s)))
    (uc_set_mcmd (io_u s) ((Some <$> seq 0 j) ++ drop j (uc_mcmd (io_u s)))).

(** The local variables before turn [j]. *)
Definition turn s (j : nat) : readst :=
  let jz := Z.of_nat j in
  {| rd_sec_left := sec_end offset size - lo offset jz; rd_bytes_off := blo offset jz - offset;
     rd_left := offset + size - blo offset jz; rd_total := jz;
     rd_zindex := (unit0 offset + jz) mod 64; rd_nlevel := (unit0 offset + jz) / 64;
     rd_zone_off := 8 * ((unit0 offset + jz) / 64) + lo offset jz mod 8;
     rd_num := hi offset size jz - lo offset jz; rd_misalign := blo offset jz - 4096 * lo offset jz;
     rd_s := built s j |}.

(** The read stays within the node, whose zones are in place, and needs no more
    than the 1024 commands of a read resource. *)
Record read_fits s : Prop := {
  rf_off : 0 <= offset;
  rf_size : 0 < size;
  rf_end : offset + size <= 32768 * ZTL_PRO_OPT_SEC_NUM_INNODE;
  rf_ncmds : ncmds offset size <= ZTL_IO_RC_NUM;
  rf_slots : forall z, 0 <= z < 64 -> is_Some (slot_zone pro znode z);
  rf_fits : node_fits pro znode;
  rf_prp : length rprp = 1024%nat;
  rf_cmds : length (io_cmds s) = 1024%nat;
  rf_mcmd : length (uc_mcmd (io_u s)) = 1024%nat
}.

Lemma sec_end_bound s : read_fits s -> sec_end offset size <= 8 * 196608.
Proof using. intros [_ _ He _ _ _ _ _ _]. cst. unfold sec_end. zdiv. Qed.

Lemma read_start_ok s :
  read_fits s -> read_start size offset s = Some (turn s 0).
Proof using.
  intros Hf. pose proof (sec_end_bound s Hf) as Hb. destruct Hf as [Ho Hs He _ _ _ _ _ _]. cst.
  unfold read_start. rewrite !(wrap_small 64 (size + _)) by (unfold ZNS_ALIGMENT; zdiv).
  change level_secs with 512. unfold ZNS_ALIGMENT, ZTL_IO_SEC_MCMD.
  assert (Hsz : (size + offset mod 4096) / 4096 +
    (if ctrue ((size + offset mod 4096) mod 4096) then 1 else 0) = sec_end offset size - sec0 offset).
  { unfold ctrue, sec_end, sec0. destruct (Z.eqb_spec ((size + offset mod 4096) mod 4096) 0); simpl; zdiv. }
  rewrite Hsz. fold (sec0 offset).
  assert (Hlvl : i32 (sec0 offset / 512) = sec0 offset / 512).
  { apply i32_small. unfold sec0. zdiv. }
  rewrite Hlvl, cint_small by (unfold sec0; zdiv). simpl.
  rewrite wrap_small by (unfold sec0; zdiv). f_equal. unfold turn. simpl Z.of_nat.
  rewrite blo_0 by lia. unfold lo, hi, unit0. simpl. unfold built. simpl.
  f_equal; try (unfold sec0, sec_end; zdiv).
  - destruct (Z.ltb_spec (8 - sec0 offset mod 512 mod 8) (sec_end offset size - sec0 offset)); zdiv.
  - by destruct s as [? ? [] ? ? ? ? ?].
Qed.

Lemma node_sector_fits s y : read_fits s -> 0 <= y < 8 * 196608 -> 0 <= node_sector pro znode y < 2 ^ 36.
Proof using.
  intros Hf Hy. unfold node_sector, slot_sect.
  pose proof (Z.mod_pos_bound (y / 8) 64 ltac:(lia)) as Hz.
  destruct (rf_slots _ Hf _ Hz) as [zone Hzone]. rewrite Hzone.
  pose proof (rf_fits _ Hf _ _ Hz Hzone) as Hle. change ZTL_PRO_SEC_NUM_INZONE with 24576 in Hle.
  pose proof (maddr_sect_range (pz_addr zone)).
  assert (0 <= 8 * (y / 8 / 64) + y mod 8 < 24576) by zdiv. lia.
Qed.

(** One turn of the loop. *)
Lemma read_cmd_ok s (j : nat) :
  read_fits s -> Z.of_nat j < ncmds offset size ->
  let jz := Z.of_nat j in
  read_cmd rprp pro znode (turn s j) = Some
    {| rd_sec_left := sec_end offset size - hi offset size jz; rd_bytes_off := bhi offset size jz - offset;
       rd_left := offset + size - bhi offset size jz; rd_total := Z.of_nat (S j);
       rd_zindex := (unit0 offset + jz) mod 64; rd_nlevel := (unit0 offset + jz) / 64;
       rd_zone_off := 8 * ((unit0 offset + jz) / 64) + lo offset jz mod 8;
       rd_num := hi offset size jz - lo offset jz; rd_misalign := blo offset jz - 4096 * lo offset jz;
       rd_s := built s (S j) |}.
Proof using.
  intros Hf Hj jz. pose proof (sec_end_bound s Hf) as Hse. pose proof (node_sector_fits s (lo offset jz) Hf) as Hns.
  destruct Hf as [Ho Hs He Hn Hslots _ Hlp Hlc Hlm]. cst.
  destruct (lo_hi offset size Ho Hs jz) as (L1 & L2 & L3); [lia|].
  destruct (b_range offset size Ho Hs jz) as (B1 & B2 & B3 & B4 & B5); [lia|].
  assert (0 <= sec0 offset) by (unfold sec0; zdiv).
  unfold read_cmd, turn; cbn [rd_s rd_num rd_total rd_zindex rd_zone_off rd_misalign rd_left rd_sec_left rd_bytes_off rd_nlevel].
  fold jz. destruct (proj2 (aget_is_Some rprp jz)) as [prp Hprp]; [lia|]. rewrite Hprp. simpl.
  destruct (Hslots ((unit0 offset + jz) mod 64)) as [zone Hzone]; [apply Z.mod_pos_bound; lia|].
  rewrite Hzone. simpl.
  assert (Hsec : u64 (maddr_sect (pz_addr zone) + (8 * ((unit0 offset + jz) / 64) + lo offset jz mod 8)) =
    node_sector pro znode (lo offset jz)).
  { rewrite wrap_small.
    - unfold node_sector, slot_sect. rewrite lo_unit, Hzone by lia. lia.
    - rewrite <- lo_unit by lia. specialize (Hns ltac:(lia)). unfold node_sector, slot_sect in Hns.
      rewrite lo_unit, Hzone in Hns by lia. rewrite lo_unit by lia. lia. }
  rewrite Hsec. unfold ZNS_ALIGMENT.
  assert (Hcp : (if offset + size - blo offset jz <?
      u64 ((hi offset size jz - lo offset jz) * 4096 - (blo offset jz - 4096 * lo offset jz))
     then offset + size - blo offset jz
     else u64 ((hi offset size jz - lo offset jz) * 4096 - (blo offset jz - 4096 * lo offset jz))) =
    bhi offset size jz - blo offset jz).
  { rewrite wrap_small by lia. unfold bhi. destruct (Z.ltb_spec (offset + size - blo offset jz)
      ((hi offset size jz - lo offset jz) * 4096 - (blo offset jz - 4096 * lo offset jz))); lia. }
  rewrite Hcp.
  replace (read_mcmd _ _ _ _ _ _) with (rcmd j) by (unfold rcmd; fold jz; by rewrite Hprp).
  unfold jz. rewrite aset_filled by lia. simpl.
  rewrite Nat2Z.id, (aset_filled Some) by lia. simpl. fold jz.
  rewrite !wrap_small by lia. f_equal. f_equal; lia.
Qed.

(** The preparation of the next turn. *)
Lemma read_next_ok s (j : nat) p :
  read_fits s -> Z.of_nat (S j) < ncmds offset size ->
  read_cmd rprp pro znode (turn s j) = Some p -> read_next p = Some (turn s (S j)).
Proof using.
  intros Hf Hj. rewrite read_cmd_ok by (auto; lia). intros [= <-].
  pose proof (sec_end_bound s Hf). destruct Hf as [Ho Hs _ _ _ _ _ _ _].
  set (jz := Z.of_nat j) in *. replace (Z.of_nat (S j)) with (jz + 1) in Hj by lia.
  destruct (lo_hi offset size Ho Hs (jz + 1)) as (L1 & L2 & L3); [lia|].
  assert (Hlo : hi offset size jz = lo offset (jz + 1)) by (rewrite (lo_next offset size); lia).
  assert (Hu : 0 <= unit0 offset + jz + 1 < 196608).
  { pose proof (lo_unit offset Ho (jz + 1)). assert (0 <= sec0 offset) by (unfold sec0; zdiv). zdiv. }
  unfold read_next. cbn [rd_s rd_num rd_total rd_zindex rd_zone_off rd_misalign rd_left rd_sec_left rd_bytes_off rd_nlevel].
  cst.
  assert (Hlv : (if ((unit0 offset + jz) mod 64 + 1) mod 64 =? 0 then cint ((unit0 offset + jz) / 64 + 1)
     else Some ((unit0 offset + jz) / 64)) = Some ((unit0 offset + (jz + 1)) / 64)).
  { destruct (Z.eqb_spec (((unit0 offset + jz) mod 64 + 1) mod 64) 0); [rewrite cint_small by zdiv|]; f_equal; zdiv. }
  rewrite Hlv. simpl. rewrite cint_small by zdiv. simpl. rewrite wrap_small by zdiv.
  unfold turn. replace (Z.of_nat (S j)) with (jz + 1) by lia.
  rewrite (bhi_next offset size), Hlo, (lo_mod offset (jz + 1)), (blo_pos offset size) by lia.
  f_equal. f_equal; try zdiv.
  unfold hi in *. destruct (Z.ltb_spec 8 (sec_end offset size - lo offset (jz + 1))); lia.
Qed.

Lemma read_cmds_ok s (k : nat) : forall fuel (j : nat),
  read_fits s -> Z.of_nat (j + S k) = ncmds offset size -> (k < fuel)%nat ->
  exists p, read_cmds fuel rprp pro znode (turn s j) = Ok p /\
    rd_total p = ncmds offset size /\ rd_s p = built s (Z.to_nat (ncmds offset size)).
Proof using.
  induction k as [|k IH]; intros [|fuel] j Hf Hj Hfu; try lia.
  all: pose proof (read_cmd_ok s j Hf ltac:(lia)) as Hc; simpl in Hc.
  all: destruct (lo_hi offset size (rf_off _ Hf) (rf_size _ Hf) (Z.of_nat j)) as (L1 & L2 & L3); [lia|].
  all: cbn [read_cmds]; cbn [rd_sec_left turn];
    replace (sec_end offset size - lo offset (Z.of_nat j) =? 0) with false by lia.
  all: rewrite Hc; cbn [lift mbind outcome_bind rd_sec_left].
  - pose proof (hi_last offset size (rf_off _ Hf) (rf_size _ Hf)) as Hl.
    replace (ncmds offset size - 1) with (Z.of_nat j) in Hl by lia. rewrite Hl.
    rewrite Z.sub_diag, Z.eqb_refl. eexists. split; [done|]. cbn [rd_total rd_s].
    split; [lia|]. f_equal. lia.
  - pose proof (hi_not_last offset size (rf_off _ Hf) (rf_size _ Hf) (Z.of_nat j)) as Hl.
    replace (sec_end offset size - hi offset size (Z.of_nat j) =? 0) with false by lia.
    rewrite (read_next_ok s j _ Hf ltac:(lia) Hc). cbn [lift mbind outcome_bind].
    apply (IH fuel (S j) Hf); lia.
Qed.

End Build.

(** * Submission and completion *)

Section Serve.

Context {D : Type} `{HX : !Xnvme D} `{HQ : !QueueLaws D} `{HZ : !ZnsLaws D}.
Context (geo_zn_grp dev_nsect meta : Z).
Context (rprp : list Z) (pro : ztl_pro_node_grp) (znode : ztl_pro_node) (offset size : Z).
Context (s0 : iostate D) (Hfits : read_fits rprp pro znode offset size s0).
Implicit Types (s : iostate D) (j : nat).

Abbreviation n := (Z.to_nat (ncmds offset size)).
Abbreviation rc := (rcmd rprp pro znode offset size).
Abbreviation submit_io := (media_submit_io geo_zn_grp dev_nsect).
Abbreviation poke := (ztl_io_poke_ctx geo_zn_grp dev_nsect meta).
Abbreviation buf := (uc_buf (io_u s0)).

(** Command [j] in flight. *)
Definition rpend j : pend :=
  {| pe_arg := j; pe_op := NVM_READ; pe_slba := node_sector pro znode (lo offset (Z.of_nat j));
     pe_nlb := hi offset size (Z.of_nat j) - lo offset (Z.of_nat j) - 1;
     pe_dbuf := default 0 rprp.[Z.of_nat j] |}.

Lemma rcmd_lba j : (j < n)%nat ->
  maddr_sect (mc_addr (rc j)) = pe_slba (rpend j) /\ nlb_of (rc j) = pe_nlb (rpend j) /\
  mc_prp (rc j) = pe_dbuf (rpend j).
Proof using Hfits.
  intros Hj. pose proof (rf_off _ _ _ _ _ _ Hfits) as Ho. pose proof (rf_size _ _ _ _ _ _ Hfits) as Hs.
  destruct (lo_hi offset size Ho Hs (Z.of_nat j)) as (L1 & L2 & L3); [lia|].
  pose proof (sec_end_bound _ _ _ _ _ _ Hfits). assert (0 <= sec0 offset) by (unfold sec0; zdiv).
  split_and!; simpl; [|unfold nlb_of; simpl|done].
  - rewrite maddr_sect_set_sect. apply wrap_small. eapply node_sector_fits; [exact Hfits|lia].
  - rewrite (wrap_small 16 (_ - lo _ _)), wrap_small by lia. lia.
Qed.

(** What every step of the read keeps: all but the commands' progress, the
    device queue, the statistics and the memory of the two kinds of buffers. *)
Record rinv s : Prop := {
  ri_cmds : forall j, (j < n)%nat -> exists cmd, io_cmds s !! j = Some cmd /\ static cmd = rc j;
  ri_g : io_g s = io_g s0;
  ri_u : io_u s = io_u s0;
  ri_prov : io_prov s = io_prov s0;
  ri_node : io_node s = io_node s0;
  ri_wp : z_wp (io_dev s) = z_wp (io_dev s0);
  ri_data : z_data (io_dev s) = z_data (io_dev s0)
}.

(** A command in flight has its context. *)
Definition rctx s : Prop :=
  forall e, e ∈ q_pending (io_dev s) ->
    exists j, (j < n)%nat /\ e = rpend j /\ exists cmd ctx, io_cmds s !! j = Some cmd /\ mc_media_ctx cmd = Some ctx.

Lemma rinv_upd s j cmd cmd' d :
  rinv s -> io_cmds s !! j = Some cmd -> static cmd' = static cmd ->
  z_wp d = z_wp (io_dev s) -> z_data d = z_data (io_dev s) ->
  rinv (io_set_dev (io_set_cmds s (<[j := cmd']> (io_cmds s))) d).
Proof using.
  intros [Hc Hg Hu Hp Hn Hw Hd] Hj Hst Hw' Hd'. constructor; simpl; try congruence.
  intros i Hi. destruct (Hc i Hi) as (ci & Hci & Hsi). destruct (decide (i = j)) as [->|Hne].
  - rewrite list_lookup_insert_eq by (by eapply lookup_lt_Some). exists cmd'. split; [done|]. congruence.
  - rewrite list_lookup_insert_ne by done. eauto.
Qed.

Lemma submit_read_ok s j cmd :
  rinv s -> (j < n)%nat -> io_cmds s !! j = Some cmd -> (length (q_pending (io_dev s)) < z_depth)%nat ->
  exists ctx d, submit_io s j =
      Some (0, io_set_dev (io_set_cmds s (<[j := mc_set_media_ctx cmd (Some ctx)]> (io_cmds s))) d) /\
    q_pending d ≡ₚ rpend j :: q_pending (io_dev s) /\
    z_wp d = z_wp (io_dev s) /\ z_data d = z_data (io_dev s).
Proof using Hfits HZ.
  intros Hr Hj Hc Hdep. destruct (ri_cmds _ Hr j Hj) as (cmd0 & Hc0 & Hst).
  assert (cmd0 = cmd) as -> by congruence. destruct (rcmd_lba j Hj) as (Hl1 & Hl2 & Hl3).
  pose proof (static_eq cmd (rc j) Hst) as (E1 & E2 & _ & _ & _ & E6 & E7 & E8).
  unfold media_submit_io, znd_media_submit_io. rewrite Hc. simpl. rewrite E1, E2. simpl.
  unfold znd_media_submit_read_asynch, submit_asynch. rewrite Hc. simpl.
  destruct (z_get (io_dev s) Hdep) as (ctx & d1 & Hg & Hw1 & Hd1). rewrite Hg. simpl.
  pose proof (q_get (io_dev s)) as Hp1. rewrite Hg in Hp1. simpl in Hp1.
  assert (nlb_of cmd = pe_nlb (rpend j)) as -> by (rewrite <- Hl2; unfold nlb_of; by rewrite E6).
  rewrite E7, Hl1, E8, Hl3.
  destruct (z_read d1 (io_mem s) ctx j (pe_slba (rpend j)) (pe_nlb (rpend j)) (pe_dbuf (rpend j)))
    as (d2 & Hsub & Hw2 & Hd2).
  pose proof (q_submit d1 (io_mem s) ctx j NVM_READ (pe_slba (rpend j)) (pe_nlb (rpend j)) (pe_dbuf (rpend j))) as Hq.
  rewrite Hsub in Hq |- *. simpl in Hq |- *. unfold upd_cmd. rewrite Hc. simpl.
  exists ctx, d2. split_and!; [done|by rewrite Hq, Hp1|congruence|congruence].
Qed.

(** ** Submission *)

Record sinv (i : nat) s : Prop := {
  si_inv : rinv s;
  si_mem : io_mem s = io_mem s0;
  si_pend : q_pending (io_dev s) ≡ₚ rpend <$> seq 0 i;
  si_ctx : rctx s;
  si_fresh : forall j cmd, (i <= j < n)%nat -> io_cmds s !! j = Some cmd -> mc_submitted cmd = 0
}.

Lemma read_submit_one_ok (i : nat) s ret :
  sinv i s -> (i < n)%nat -> (n <= z_depth)%nat ->
  (forall j, (j < n)%nat -> (uc_mcmd (io_u s0)).[Z.of_nat j] = Some (Some j)) ->
  exists s', read_submit_one geo_zn_grp dev_nsect (Z.of_nat i) {| rs_submitted := Z.of_nat i; rs_ret := ret; rs_s := s |} =
      Some {| rs_submitted := Z.of_nat (S i); rs_ret := 0; rs_s := s' |} /\ sinv (S i) s'.
Proof using Hfits HZ.
  intros [Hi Hm Hp Hx Hf] Hlt Hdep Hmc. destruct (ri_cmds _ Hi i Hlt) as (cmd & Hc & Hst).
  unfold read_submit_one. cbn [rs_s rs_submitted]. rewrite (ri_u _ Hi), Hmc by done. simpl.
  rewrite Hc. simpl. rewrite (Hf i cmd) by (auto; lia). simpl.
  assert (Hlen : length (q_pending (io_dev s)) = i) by (rewrite Hp, length_fmap; apply length_seq).
  destruct (submit_read_ok s i cmd Hi Hlt Hc ltac:(lia)) as (ctx & d & -> & Hq & Hw & Hd). simpl.
  unfold upd_cmd. simpl. rewrite list_lookup_insert_eq by (by eapply lookup_lt_Some). simpl.
  rewrite list_insert_insert_eq. eexists. split; [f_equal; f_equal; lia|].
  assert (Hr' : rinv (io_set_dev (io_set_cmds s (<[i := mc_set_submitted (mc_set_media_ctx cmd (Some ctx)) 1]> (io_cmds s))) d))
    by (by apply (rinv_upd s i cmd)).
  constructor; auto.
  - rewrite seq_S, fmap_app, <- Hp. simpl. rewrite Hq. apply Permutation_cons_append.
  - intros e. simpl. rewrite Hq, elem_of_cons. intros [->|He].
    + exists i. split_and!; auto. rewrite list_lookup_insert_eq by (by eapply lookup_lt_Some). by eexists _, ctx.
    + destruct (Hx e He) as (j & Hj & -> & cj & xj & Hcj & Hxj). exists j. split_and!; auto.
      destruct (decide (i = j)) as [->|Hne]; [|by rewrite list_lookup_insert_ne; eauto].
      rewrite list_lookup_insert_eq by (by eapply lookup_lt_Some). by eexists _, ctx.
  - intros j cj Hj. simpl. rewrite list_lookup_insert_ne by lia. apply Hf. lia.
Qed.

Lemma read_submit_for_ok (k : nat) : forall (i : nat) s ret,
  sinv i s -> (i + S k = n)%nat -> (n <= z_depth)%nat ->
  (forall j, (j < n)%nat -> (uc_mcmd (io_u s0)).[Z.of_nat j] = Some (Some j)) ->
  exists s', read_submit_for geo_zn_grp dev_nsect (S k) (Z.of_nat i) {| rs_submitted := Z.of_nat i; rs_ret := ret; rs_s := s |} =
      Some {| rs_submitted := Z.of_nat n; rs_ret := 0; rs_s := s' |} /\ sinv n s'.
Proof using Hfits HZ.
  induction k as [|k IH]; intros i s ret Hs Hk Hdep Hmc;
    destruct (read_submit_one_ok i s ret Hs ltac:(lia) Hdep Hmc) as (s1 & H1 & Hs1);
    cbn [read_submit_for]; rewrite H1; cbn [mbind option_bind].
  - assert (S i = n) as Hn by lia. rewrite Hn in *. eauto.
  - replace (Z.of_nat i + 1) with (Z.of_nat (S i)) by lia. apply (IH (S i) s1 0 Hs1); auto. lia.
Qed.

(** ** Completion *)

(** The bytes of command [j] are in the user's buffer. *)
Definition delivered (m : memory) j : Prop :=
  forall x, blo offset (Z.of_nat j) <= x < bhi offset size (Z.of_nat j) ->
    m (buf + (x - offset)) = node_byte (z_data (io_dev s0)) pro znode x.

(** The bounce buffers do not overlap the user's buffer. *)
Definition bounce_apart : Prop :=
  forall j, (j < n)%nat ->
    pe_dbuf (rpend j) + 32768 <= buf \/ buf + size <= pe_dbuf (rpend j).

(** Addresses of neither. *)
Definition elsewhere (a : Z) : Prop :=
  ~ buf <= a < buf + size /\ forall j, (j < n)%nat -> ~ pe_dbuf (rpend j) <= a < pe_dbuf (rpend j) + 32768.

(** The memory after the completion of command [j]. *)
Definition arrive j (m : memory) : memory :=
  memcpy (pend_dma (z_data (io_dev s0)) (rpend j) m) (buf + mc_buf_off (rc j))
    (mc_prp (rc j) + mc_sequence (rc j)) (mc_cpsize (rc j)).

Lemma node_byte_unit j x :
  (j < n)%nat -> blo offset (Z.of_nat j) <= x < bhi offset size (Z.of_nat j) ->
  node_byte (z_data (io_dev s0)) pro znode x =
  z_data (io_dev s0) (pe_slba (rpend j) + (x - 4096 * lo offset (Z.of_nat j)) / 4096)
    ((x - 4096 * lo offset (Z.of_nat j)) mod 4096).
Proof using Hfits.
  intros Hj Hx. pose proof (rf_off _ _ _ _ _ _ Hfits) as Ho. pose proof (rf_size _ _ _ _ _ _ Hfits) as Hs.
  set (jz := Z.of_nat j) in *. destruct (b_range offset size Ho Hs jz) as (B1 & B2 & B3 & B4 & B5); [lia|].
  pose proof (lo_unit offset Ho jz ltac:(lia)) as Hlu.
  assert (hi offset size jz <= 8 * (unit0 offset + jz + 1)) by (unfold hi; lia).
  unfold node_byte, rpend; simpl. fold jz.
  assert (Hq : x / 4096 / 8 = lo offset jz / 8) by zdiv.
  replace (node_sector pro znode (x / 4096)) with
    (node_sector pro znode (lo offset jz) + (x - 4096 * lo offset jz) / 4096); [f_equal; zdiv|].
  unfold node_sector. rewrite Hq. zdiv.
Qed.

Lemma arrive_spec j m :
  (j < n)%nat -> bounce_apart ->
  delivered (arrive j m) j /\
  (forall x, offset <= x < offset + size -> ~ blo offset (Z.of_nat j) <= x < bhi offset size (Z.of_nat j) ->
     arrive j m (buf + (x - offset)) = m (buf + (x - offset))) /\
  (forall a, elsewhere a -> arrive j m a = m a).
Proof using Hfits.
  intros Hj Hap. pose proof (rf_off _ _ _ _ _ _ Hfits) as Ho. pose proof (rf_size _ _ _ _ _ _ Hfits) as Hs.
  set (jz := Z.of_nat j). destruct (b_range offset size Ho Hs jz) as (B1 & B2 & B3 & B4 & B5); [lia|].
  destruct (lo_hi offset size Ho Hs jz) as (L1 & L2 & L3); [lia|]. specialize (Hap j Hj).
  assert (Hsq : u32 (blo offset jz - 4096 * lo offset jz) = blo offset jz - 4096 * lo offset jz)
    by (apply wrap_small; lia).
  assert (Hd : forall a, pend_dma (z_data (io_dev s0)) (rpend j) m a =
    sector_read (z_data (io_dev s0)) (pe_slba (rpend j)) (pe_nlb (rpend j)) (pe_dbuf (rpend j)) m a) by done.
  assert (Hnl : pe_nlb (rpend j) + 1 = hi offset size jz - lo offset jz) by (unfold rpend, jz; simpl; lia).
  unfold arrive, memcpy. split_and!.
  - intros x Hx. fold jz in Hx. simpl mc_buf_off. simpl mc_cpsize. simpl mc_prp. simpl mc_sequence.
    fold jz. rewrite Hsq.
    replace ((_ <=? _) && _) with true by lia. rewrite Hd.
    change (default 0 rprp.[jz]) with (pe_dbuf (rpend j)).
    unfold sector_read. rewrite Hnl. unfold ZNS_ALIGMENT.
    replace ((_ <=? _) && _) with true by lia. rewrite (node_byte_unit j x Hj Hx). fold jz.
    f_equal; [f_equal; f_equal; lia|f_equal; lia].
  - intros x Hx Hout. simpl mc_buf_off. simpl mc_cpsize. fold jz in Hout |- *.
    replace ((_ <=? _) && _) with false by lia. rewrite Hd. unfold sector_read. rewrite Hnl.
    unfold ZNS_ALIGMENT. replace ((_ <=? _) && _) with false by lia. done.
  - intros a [Ha Hb]. specialize (Hb j Hj). simpl mc_buf_off. simpl mc_cpsize. fold jz.
    replace ((_ <=? _) && _) with false by lia. rewrite Hd. unfold sector_read. rewrite Hnl.
    unfold ZNS_ALIGMENT. replace ((_ <=? _) && _) with false by lia. done.
Qed.

Record dinv s : Prop := {
  di_inv : rinv s;
  di_ctx : rctx s;
  di_done : forall j, (j < n)%nat -> rpend j ∈ q_pending (io_dev s) \/ delivered (io_mem s) j;
  di_else : forall a, elsewhere a -> io_mem s a = io_mem s0 a
}.

Lemma delivered_arrive i j m : (j < n)%nat -> (i < n)%nat -> bounce_apart -> delivered m i -> delivered (arrive j m) i.
Proof using Hfits.
  intros Hj Hi Hap Hd x Hx. destruct (arrive_spec j m Hj Hap) as (A1 & A2 & _).
  pose proof (rf_off _ _ _ _ _ _ Hfits) as Ho. pose proof (rf_size _ _ _ _ _ _ Hfits) as Hs.
  destruct (b_range offset size Ho Hs (Z.of_nat i)) as (_ & B2 & B3 & _); [lia|].
  destruct (decide (blo offset (Z.of_nat j) <= x < bhi offset size (Z.of_nat j))) as [Hin|Hout].
  - by apply A1.
  - rewrite A2 by lia. by apply Hd.
Qed.

(** The state after the completion of command [j], with the device at [d]. *)
Definition completed s j (cmd : xztl_io_mcmd) (d : D) : iostate D :=
  io_set_mem (io_set_dev (io_set_cmds s (<[j := mc_set_status cmd 0]> (io_cmds s))) d) (arrive j (io_mem s)).

Lemma async_cb_read s cp d j cmd ctx :
  rinv s -> cp_arg cp = j -> cp_status cp = 0 -> io_cmds s !! j = Some cmd -> static cmd = rc j ->
  mc_media_ctx cmd = Some ctx ->
  (forall m, cp_dma cp m = pend_dma (z_data (io_dev s)) (rpend j) m) ->
  znd_media_async_cb geo_zn_grp dev_nsect meta (io_set_mem (io_set_dev s d) (cp_dma cp (io_mem s))) cp =
  Some (completed s j cmd (xq_put_cmd_ctx d ctx)).
Proof using.
  intros Hi <- Hst Hc Hsc Hctx Hdma.
  assert (Hcc : complete_cmd cp cmd = mc_set_status cmd 0).
  { pose proof (static_eq cmd _ Hsc) as (E1 & _). unfold complete_cmd. rewrite Hst.
    change (u16 0) with 0. simpl. rewrite E1. simpl. rewrite E1. reflexivity. }
  unfold znd_media_async_cb, upd_cmd. simpl. rewrite Hc. simpl. rewrite Hcc.
  assert (Hlt : (cp_arg cp < length (io_cmds s))%nat) by (by eapply lookup_lt_Some).
  unfold run_callback. simpl. rewrite list_lookup_insert_eq by done. simpl.
  assert (Hcb : mc_callback cmd = Some CB_READ) by (by apply (f_equal mc_callback) in Hsc).
  rewrite Hcb. simpl. unfold ztl_io_read_callback_mcmd. simpl. rewrite list_lookup_insert_eq by done. simpl.
  rewrite list_lookup_insert_eq by done. simpl. rewrite Hctx. simpl. unfold completed, arrive.
  rewrite Hdma, (ri_u _ Hi), (ri_data _ Hi), <- Hsc. done.
Qed.

Lemma dinv_completed s j cmd d :
  dinv s -> bounce_apart -> (j < n)%nat -> io_cmds s !! j = Some cmd -> is_Some (mc_media_ctx cmd) ->
  z_wp d = z_wp (io_dev s) -> z_data d = z_data (io_dev s) ->
  q_pending (io_dev s) ≡ₚ rpend j :: q_pending d -> dinv (completed s j cmd d).
Proof using Hfits.
  intros [Hi Hx Hdn He] Hap Hj Hc [ctx Hctx] Hw Hd Hp.
  assert (Hlt : (j < length (io_cmds s))%nat) by (by eapply lookup_lt_Some).
  destruct (arrive_spec j (io_mem s) Hj Hap) as (A1 & _ & A3). constructor; simpl.
  - destruct (rinv_upd s j cmd (mc_set_status cmd 0) d Hi Hc) as [Jc Jg Ju Jp Jn Jw Jd]; auto.
    by constructor.
  - intros e. simpl. intros Hine. destruct (Hx e) as (i & Hil & -> & ci & xi & Hci & Hxi).
    { rewrite Hp. apply elem_of_cons. by right. }
    exists i. split_and!; auto. destruct (decide (j = i)) as [->|Hne].
    + rewrite list_lookup_insert_eq by done. exists (mc_set_status cmd 0), ctx. split; [done|]. exact Hctx.
    + rewrite list_lookup_insert_ne by done. eauto.
  - intros i Hil. destruct (Hdn i Hil) as [Hpe|Hde]; [|right; by apply delivered_arrive].
    rewrite Hp, elem_of_cons in Hpe. destruct Hpe as [Heq|Hpe]; [|by left].
    right. apply (f_equal pe_arg) in Heq. simpl in Heq. by subst i.
  - intros a Ha. rewrite A3 by done. by apply He.
Qed.

(** One poke: either a command arrives, or the device got closer to it. *)
Lemma read_poke_ok s :
  dinv s -> bounce_apart ->
  exists s', poke s = Some s' /\ dinv s' /\
    ((length (q_pending (io_dev s')) < length (q_pending (io_dev s)))%nat \/
     q_pending (io_dev s') = q_pending (io_dev s) /\
     (q_pending (io_dev s) <> [] -> (z_lag (io_dev s') < z_lag (io_dev s))%nat)).
Proof using Hfits HZ.
  intros Hdi Hap. pose proof Hdi as [Hi Hx Hdn He]. unfold ztl_io_poke_ctx.
  pose proof (z_poke (io_dev s)) as Hz. pose proof (q_poke (io_dev s)) as Hq0.
  destruct (xq_poke1 (io_dev s)) as [[cp|] d].
  2:{ destruct Hz as (Hw & Hd & _ & Hl). eexists. split; [done|]. split; [|by right].
      destruct Hi as [Ic Ig Iu Ip In Iw Id]. constructor; simpl; auto.
      - constructor; simpl; auto; congruence.
      - intros e. simpl. rewrite Hq0. apply Hx.
      - intros j Hj. rewrite Hq0. auto. }
  destruct Hz as (Hw & Hd & Hst & e & Hp & Harg & Hdma).
  destruct (Hx e) as (j & Hj & -> & cmd & ctx & Hc & Hctx); [rewrite Hp; apply elem_of_cons; by left|].
  destruct (ri_cmds _ Hi j Hj) as (cmd0 & Hc0 & Hsc). assert (cmd0 = cmd) as -> by congruence.
  rewrite (async_cb_read s cp d j cmd ctx) by done. eexists. split; [done|].
  destruct (z_put d ctx) as [Hw2 Hd2].
  split; [|left; simpl; rewrite q_put, Hp; simpl; lia].
  apply dinv_completed; auto; [congruence|congruence|by rewrite q_put].
Qed.

Lemma queue_drain_ok (k l : nat) : forall s,
  length (q_pending (io_dev s)) = k -> z_lag (io_dev s) = l -> dinv s -> bounce_apart ->
  exists N s', (forall fuel, (N <= fuel)%nat -> queue_drain geo_zn_grp dev_nsect meta fuel s = Ok s') /\
    dinv s' /\ q_pending (io_dev s') = [].
Proof using Hfits HZ.
  revert l. induction k as [k IHk] using lt_wf_ind. intros l. induction l as [l IHl] using lt_wf_ind.
  intros s Hk Hl Hd Hap. destruct (q_pending (io_dev s)) as [|e q] eqn:Eq.
  { exists 0%nat, s. split_and!; auto. intros [|fuel] _; simpl; rewrite q_outs, Eq; done. }
  destruct (read_poke_ok s Hd Hap) as (s1 & Hp & Hd1 & Hpr).
  assert (exists N s', (forall fuel, (N <= fuel)%nat -> queue_drain geo_zn_grp dev_nsect meta fuel s1 = Ok s') /\
    dinv s' /\ q_pending (io_dev s') = []) as (N & s' & Hrun & Hr).
  { destruct Hpr as [Hlt|[Hsame Hlag]].
    - rewrite Eq in Hlt. by apply (IHk (length (q_pending (io_dev s1))) ltac:(lia) (z_lag (io_dev s1)) s1).
    - rewrite Eq in Hsame, Hlag. apply (IHl (z_lag (io_dev s1))); auto.
      + specialize (Hlag ltac:(done)). lia.
      + by rewrite Hsame. }
  exists (S N), s'. split; [|done]. intros [|fuel] Hf; [lia|]. simpl. rewrite q_outs, Eq. simpl.
  rewrite Hp. simpl. apply Hrun. lia.
Qed.

End Serve.

(** * The read request *)

Section Request.

Context {D : Type} `{HX : !Xnvme D} `{HQ : !QueueLaws D} `{HZ : !ZnsLaws D}.
Context (geo_zn_grp dev_nsect meta : Z).
Context (rprp : list Z) (pro : ztl_pro_node_grp) (znode : ztl_pro_node).
Implicit Types (s : iostate D).

(** The bounce buffers, and the addresses outside both kinds of buffers. *)
Definition bounce_ok (buf size : Z) : Prop :=
  Forall (fun p => p + 32768 <= buf \/ buf + size <= p) rprp.

Definition outside (buf size a : Z) : Prop :=
  ~ buf <= a < buf + size /\ Forall (fun p => ~ p <= a < p + 32768) rprp.

(** A read request that the theorems cover. *)
Record read_request s : Prop := {
  rq_node : exists id, (uc_node_id (io_u s)).[0] = Some id /\ (pg_vnodes pro).[u32 id] = Some znode;
  rq_pro : grp_pro (io_g s) = Some pro;
  rq_fits : read_fits rprp pro znode (uc_offset (io_u s)) (uc_size (io_u s)) s;
  rq_stats : length (st_io (io_stats s)) = XZTL_STATS_IO_TYPES;
  rq_idle : q_pending (io_dev s) = [];
  rq_depth : ncmds (uc_offset (io_u s)) (uc_size (io_u s)) <= Z.of_nat z_depth;
  rq_bounce : bounce_ok (uc_buf (io_u s)) (uc_size (io_u s))
}.

(** The bytes of the node are in the user's buffer; nothing else changed but
    the bounce buffers and the bookkeeping of the request. *)
Record read_result s s' : Prop := {
  rr_bytes : forall i, 0 <= i < uc_size (io_u s) ->
    io_mem s' (uc_buf (io_u s) + i) = node_byte (z_data (io_dev s)) pro znode (uc_offset (io_u s) + i);
  rr_else : forall a, outside (uc_buf (io_u s)) (uc_size (io_u s)) a -> io_mem s' a = io_mem s a;
  rr_data : z_data (io_dev s') = z_data (io_dev s);
  rr_wp : z_wp (io_dev s') = z_wp (io_dev s);
  rr_idle : q_pending (io_dev s') = [];
  rr_g : io_g s' = io_g s;
  rr_status : uc_status (io_u s') = uc_status (io_u s);
  rr_completed : uc_completed (io_u s') = 1
}.

Lemma rpend_dbuf offset size j :
  length rprp = 1024%nat -> (j < 1024)%nat -> pe_dbuf (rpend rprp pro znode offset size j) ∈ rprp.
Proof using.
  intros Hl Hj. simpl. rewrite aget_nat. destruct (lookup_lt_is_Some_2 rprp j) as [p Hp]; [lia|].
  rewrite Hp. simpl. by eapply list_elem_of_lookup_2.
Qed.

(** The request with its commands in place. *)
Definition ready s st : iostate D :=
  let n := ncmds (uc_offset (io_u s)) (uc_size (io_u s)) in
  let s1 := io_set_stats (built rprp pro znode (uc_offset (io_u s)) (uc_size (io_u s)) s (Z.to_nat n)) st in
  io_set_u s1 (uc_set_nmcmd (io_u s1) (u16 n)).

Lemma read_fits_ready s st :
  read_fits rprp pro znode (uc_offset (io_u s)) (uc_size (io_u s)) s ->
  read_fits rprp pro znode (uc_offset (io_u s)) (uc_size (io_u s)) (ready s st).
Proof using.
  intros []. rewrite ZTL_IO_RC_NUM_eq in rf_ncmds0. constructor; auto; simpl;
    rewrite length_app, length_fmap, length_seq, length_drop; lia.
Qed.

Lemma ready_cmds s st j :
  (j < Z.to_nat (ncmds (uc_offset (io_u s)) (uc_size (io_u s))))%nat ->
  io_cmds (ready s st) !! j = Some (rcmd rprp pro znode (uc_offset (io_u s)) (uc_size (io_u s)) j) /\
  (uc_mcmd (io_u (ready s st))).[Z.of_nat j] = Some (Some j).
Proof using. intros Hj. simpl. rewrite aget_nat, !lookup_filled by done. done. Qed.

Lemma ready_elsewhere s st a :
  read_request s -> outside (uc_buf (io_u s)) (uc_size (io_u s)) a ->
  elsewhere rprp pro znode (uc_offset (io_u s)) (uc_size (io_u s)) (ready s st) a.
Proof using.
  intros [_ _ Hf _ _ _ _] [Ha Hb]. split; [done|]. intros j Hj. rewrite Forall_forall in Hb. apply Hb.
  pose proof (rf_ncmds _ _ _ _ _ _ Hf) as Hn. rewrite ZTL_IO_RC_NUM_eq in Hn.
  apply rpend_dbuf; [apply Hf|lia].
Qed.

Lemma ready_bounce s st :
  read_request s -> bounce_apart rprp pro znode (uc_offset (io_u s)) (uc_size (io_u s)) (ready s st).
Proof using.
  intros [_ _ Hf _ _ _ Hb] j Hj. unfold bounce_ok in Hb. rewrite Forall_forall in Hb. apply Hb.
  pose proof (rf_ncmds _ _ _ _ _ _ Hf) as Hn. rewrite ZTL_IO_RC_NUM_eq in Hn.
  apply rpend_dbuf; [apply Hf|lia].
Qed.

(** The commands of all parts have arrived: the read is complete. *)
Lemma all_delivered s st m :
  read_request s ->
  (forall j, (j < Z.to_nat (ncmds (uc_offset (io_u s)) (uc_size (io_u s))))%nat ->
     delivered pro znode (uc_offset (io_u s)) (uc_size (io_u s)) (ready s st) m j) ->
  forall i, 0 <= i < uc_size (io_u s) ->
    m (uc_buf (io_u s) + i) = node_byte (z_data (io_dev s)) pro znode (uc_offset (io_u s) + i).
Proof using.
  intros [_ _ Hf _ _ _ _] Hd i Hi.
  destruct (b_cover (uc_offset (io_u s)) (uc_size (io_u s)) (rf_off _ _ _ _ _ _ Hf) (rf_size _ _ _ _ _ _ Hf)
    (uc_offset (io_u s) + i) ltac:(lia)) as (j & Hj & Hx).
  specialize (Hd (Z.to_nat j) ltac:(lia) (uc_offset (io_u s) + i)). rewrite Z2Nat.id in Hd by lia.
  specialize (Hd Hx). simpl in Hd. rewrite <- Hd. f_equal. lia.
Qed.

(** Submission and draining of more than one command. *)
Lemma read_many_ok s st :
  read_request s ->
  let n := ncmds (uc_offset (io_u s)) (uc_size (io_u s)) in
  exists N q s', (forall fuel, (N <= fuel)%nat ->
      read_submit_while geo_zn_grp dev_nsect fuel n {| rs_submitted := 0; rs_ret := 0; rs_s := ready s st |} = Ok q /\
      queue_drain geo_zn_grp dev_nsect meta fuel (rs_s q) = Ok s') /\
    rs_ret q = 0 /\ read_result s (io_set_u s' (uc_set_completed (io_u s') 1)).
Proof using HZ.
  intros Hr n. pose proof (ready_bounce s st Hr) as Hb. pose proof (read_fits_ready s st (rq_fits _ Hr)) as Hf.
  pose proof (ncmds_pos _ _ (rf_off _ _ _ _ _ _ Hf) (rf_size _ _ _ _ _ _ Hf)) as Hn.
  pose proof (rq_depth _ Hr) as Hdep. fold n in Hn, Hdep.
  destruct (read_submit_for_ok geo_zn_grp dev_nsect rprp pro znode _ _ (ready s st) Hf
    (pred (Z.to_nat n)) 0 (ready s st) 0) as (s1 & Hsub & Hs1); fold n; try lia.
  { constructor; auto.
    - constructor; auto. intros j Hj. rewrite (proj1 (ready_cmds s st j Hj)). eauto.
    - simpl. by rewrite (rq_idle _ Hr).
    - intros e. simpl. rewrite (rq_idle _ Hr). by intros ?%not_elem_of_nil.
    - intros j cmd [_ Hj]. rewrite (proj1 (ready_cmds s st j Hj)). by intros [= <-]. }
  { intros j Hj. by apply ready_cmds. }
  replace (S (pred (Z.to_nat n))) with (Z.to_nat n) in Hsub by lia. fold n in Hsub, Hs1.
  destruct Hs1 as [Si Sm Sp Sc Sf].
  destruct (queue_drain_ok geo_zn_grp dev_nsect meta rprp pro znode _ _ (ready s st) Hf _ _ s1 eq_refl eq_refl)
    as (N & s' & Hrun & [Di Dc Dd De] & Hnil); auto.
  { constructor; auto; [|by rewrite Sm]. intros j Hj. left. rewrite Sp. apply list_elem_of_fmap.
    exists j. split; [done|]. apply elem_of_seq. fold n in Hj. lia. }
  exists (S N), {| rs_submitted := n; rs_ret := 0; rs_s := s1 |}, s'. split_and!; auto.
  - intros [|fuel] Hfu; [lia|]. split; [|apply Hrun; simpl; lia]. cbn [read_submit_while rs_submitted].
    replace (0 <? n) with true by lia. change (Z.of_nat 0) with 0 in Hsub. rewrite Hsub.
    cbn [lift mbind outcome_bind]. replace (Z.of_nat (Z.to_nat n)) with n by lia.
    destruct fuel; cbn [read_submit_while rs_submitted]; by rewrite Z.ltb_irrefl.
  - destruct Di as [_ Ig Iu Ip In Iw Id]. constructor; simpl; auto; try congruence.
    + apply (all_delivered s st); auto. intros j Hj. destruct (Dd j Hj) as [Hin|]; [|done].
      rewrite Hnil in Hin. by apply not_elem_of_nil in Hin.
    + intros a Ha. by apply De, ready_elsewhere.
    + by rewrite Iu.
Qed.

(** The synchronous read of a single command. *)
Lemma read_single_eq s cmd :
  (uc_mcmd (io_u s)).[0] = Some (Some 0%nat) -> io_cmds s !! 0%nat = Some cmd -> mc_opcode cmd = XZTL_CMD_READ ->
  read_single geo_zn_grp dev_nsect s =
  let '(ret, dma, d) := xq_read_sync (io_dev s) (maddr_sect (mc_addr cmd)) (nlb_of cmd) (mc_prp cmd) in
  Some (ret, io_set_u (io_set_mem (io_set_dev (io_set_cmds s (<[0%nat := mc_set_synch cmd 1]> (io_cmds s))) d)
               (memcpy (dma (io_mem s)) (uc_buf (io_u s)) (mc_prp cmd + mc_sequence cmd) (mc_cpsize cmd)))
             (uc_set_completed (io_u s) 1)).
Proof using.
  intros Hm Hc Hop. unfold read_single, upd_cmd. rewrite Hm. simpl. rewrite Hc. simpl.
  assert (Hlt : (0 < length (io_cmds s))%nat) by (by eapply lookup_lt_Some).
  assert (Hi : <[0%nat := mc_set_synch cmd 1]> (io_cmds s) !! 0%nat = Some (mc_set_synch cmd 1))
    by (by apply list_lookup_insert_eq).
  unfold media_submit_io, znd_media_submit_io. simpl io_cmds. rewrite Hi. simpl. rewrite Hop. simpl.
  unfold znd_media_submit_read_synch. simpl io_cmds. rewrite Hi. simpl.
  change (nlb_of (mc_set_synch cmd 1)) with (nlb_of cmd).
  destruct (xq_read_sync _ _ _ _) as [[ret dma] d]. simpl. rewrite Hi. done.
Qed.

Lemma read_single_ok s st :
  read_request s -> ncmds (uc_offset (io_u s)) (uc_size (io_u s)) = 1 ->
  let s1 := io_set_stats (built rprp pro znode (uc_offset (io_u s)) (uc_size (io_u s)) s 1) st in
  exists s', read_single geo_zn_grp dev_nsect s1 = Some (0, s') /\ read_result s s'.
Proof using HZ.
  intros Hr H1 s1. pose proof (ready_bounce s st Hr) as Hb. pose proof (read_fits_ready s st (rq_fits _ Hr)) as Hf.
  destruct (rcmd_lba rprp pro znode _ _ (ready s st) Hf 0) as (Hl1 & Hl2 & Hl3); [rewrite H1; simpl; lia|].
  set (c0 := rcmd rprp pro znode (uc_offset (io_u s)) (uc_size (io_u s)) 0) in *.
  set (e := rpend rprp pro znode (uc_offset (io_u s)) (uc_size (io_u s)) 0) in *.
  rewrite (read_single_eq s1 c0), Hl1, Hl2, Hl3 by done.
  destruct (z_read_sync (io_dev s1) (pe_slba e) (pe_nlb e) (pe_dbuf e)) as (dma & d & Hrd & Hw & Hd & Hdma).
  pose proof (q_sync (io_dev s1) (pe_slba e) (pe_nlb e) (pe_dbuf e)) as Hq.
  rewrite Hrd in Hq |- *. eexists. split; [done|].
  destruct (arrive_spec rprp pro znode _ _ (ready s st) Hf 0 (io_mem s)) as (A1 & _ & A3);
    [rewrite H1; simpl; lia|done|].
  assert (Hmem : forall a, memcpy (dma (io_mem s1)) (uc_buf (io_u s1)) (pe_dbuf e + mc_sequence c0) (mc_cpsize c0) a =
    arrive rprp pro znode (uc_offset (io_u s)) (uc_size (io_u s)) (ready s st) 0 (io_mem s) a).
  { intros a. unfold arrive, memcpy. fold c0. rewrite Hdma, Hl3.
    assert (mc_buf_off c0 = 0) as ->.
    { subst c0. simpl. rewrite blo_0 by apply Hf. lia. }
    rewrite Z.add_0_r. change (uc_buf (io_u s1)) with (uc_buf (io_u (ready s st))).
    destruct (_ && _); [done|]. by rewrite Hdma. }
  constructor; simpl; auto.
  - intros i Hi. rewrite Hmem. revert i Hi. apply (all_delivered s st); auto. intros j Hj.
    rewrite H1 in Hj. assert (j = 0%nat) as -> by (simpl in Hj; lia). exact A1.
  - intros a Ha. rewrite Hmem. by apply A3, ready_elsewhere.
  - simpl in Hq. rewrite Hq. apply Hr.
Qed.

Lemma stats_inc_Some s t v :
  length (st_io (io_stats s)) = XZTL_STATS_IO_TYPES -> 0 <= t < 22 ->
  exists st, stats_inc s t v = Some (io_set_stats s st).
Proof using.
  intros Hl Ht. unfold stats_inc, xztl_stats_inc.
  destruct (proj2 (aget_is_Some (st_io (io_stats s)) t)) as [x Hx];
    [rewrite Hl; unfold XZTL_STATS_IO_TYPES; lia|].
  rewrite Hx. simpl. rewrite aset_Some by (rewrite Hl; unfold XZTL_STATS_IO_TYPES; lia). simpl. eauto.
Qed.

Lemma read_ucmd_ok s :
  read_request s ->
  exists N s', (forall fuel, (N <= fuel)%nat ->
      ztl_io_read_ucmd geo_zn_grp dev_nsect meta fuel rprp s = Ok (XZTL_OK, s')) /\ read_result s s'.
Proof using HZ.
  intros Hr. pose proof (rq_fits _ Hr) as Hf. destruct (rq_node _ Hr) as (id & Hid & Hnode).
  pose proof (ncmds_pos _ _ (rf_off _ _ _ _ _ _ Hf) (rf_size _ _ _ _ _ _ Hf)) as Hn.
  pose proof (rf_ncmds _ _ _ _ _ _ Hf) as Hn'. rewrite ZTL_IO_RC_NUM_eq in Hn'.
  destruct (read_cmds_ok rprp pro znode (uc_offset (io_u s)) (uc_size (io_u s)) s
    (pred (Z.to_nat (ncmds (uc_offset (io_u s)) (uc_size (io_u s))))) read_fuel 0 Hf) as (p & Hp & Ht & Hs);
    [lia|unfold read_fuel; lia|].
  destruct (stats_inc_Some (rd_s p) XZTL_STATS_READ_BYTES
    (u64 (rd_sec_left (turn rprp pro znode (uc_offset (io_u s)) (uc_size (io_u s)) s 0) * ZNS_ALIGMENT)))
    as (st & Hst); [rewrite Hs; apply Hr|done|].
  assert (Heq : forall fuel, ztl_io_read_ucmd geo_zn_grp dev_nsect meta fuel rprp s =
    if rd_total p =? 1 then lift (read_single geo_zn_grp dev_nsect (io_set_stats (rd_s p) st)) else
    q ← read_submit_while geo_zn_grp dev_nsect fuel (rd_total p)
          {| rs_submitted := 0; rs_ret := 0; rs_s := ready s st |};
    s3 ← queue_drain geo_zn_grp dev_nsect meta fuel (rs_s q);
    Ok (rs_ret q, io_set_u s3 (uc_set_completed (io_u s3) 1))).
  { intros fuel. unfold ztl_io_read_ucmd. rewrite Hid, (rq_pro _ Hr). cbn [lift mbind outcome_bind].
    rewrite Hnode. cbn [lift mbind outcome_bind]. rewrite (read_start_ok rprp pro znode _ _ s Hf).
    cbn [lift mbind outcome_bind]. rewrite Hp. cbn [mbind outcome_bind]. rewrite Hst. cbn [lift mbind outcome_bind].
    unfold ready. rewrite Hs, Ht. done. }
  rewrite Ht, Hs in Heq. destruct (Z.eqb_spec (ncmds (uc_offset (io_u s)) (uc_size (io_u s))) 1) as [H1|Hm].
  - destruct (read_single_ok s st Hr H1) as (s' & Hrun & Hres). exists 0%nat, s'. split; [|done].
    intros fuel _. rewrite Heq, H1. change (Z.to_nat 1) with 1%nat. by rewrite Hrun.
  - destruct (read_many_ok s st Hr) as (N & q & s' & Hrun & Hret & Hres).
    exists N, (io_set_u s' (uc_set_completed (io_u s') 1)). split; [|done].
    intros fuel Hfu. rewrite Heq. destruct (Hrun fuel Hfu) as [-> H2]. cbn [mbind outcome_bind].
    rewrite H2, Hret. done.
Qed.

End Request.
