(* ===== verification/ReadTheorems.v ===== *)
(** Properties of the read path: [ztl_io_read_ucmd], [ztl_io_read] and the pool of
    read resources of src/xztl/src/ztl-io.c, and the round trip of a write and a
    read. *)

From S2P Require Import Prelude Types Sim Stats ProGrp Media Zns Device Io IoPopulate IoFlight IoSubmit IoWrite IoRequest IoTheorems Read IoRead.

(** * The pool of read resources *)

(** The resource the pool hands out: the first unused one. *)
Lemma get_read_rs_spec (k : nat) : forall (id : nat) rs,
  (id + k <= length rs)%nat ->
  (exists i r, (id <= i < id + k)%nat /\ rs !! i = Some r /\ rr_used r = false /\
     (forall j r', (id <= j < i)%nat -> rs !! j = Some r' -> rr_used r' = true) /\
     get_read_rs k (Z.of_nat id) rs = Some (Z.of_nat i, <[i := rr_set_used r true]> rs)) \/
  ((forall j r', (id <= j < id + k)%nat -> rs !! j = Some r' -> rr_used r' = true) /\
   get_read_rs k (Z.of_nat id) rs = Some (-1, rs)).
Proof.
  induction k as [|k IH]; intros id rs Hl.
  - right. split; [lia|done].
  - destruct (lookup_lt_is_Some_2 rs id) as [r Hr]; [lia|].
    cbn [get_read_rs]. rewrite aget_nat, Hr. cbn [mbind option_bind]. destruct (rr_used r) eqn:Hu.
    + replace (Z.of_nat id + 1) with (Z.of_nat (S id)) by lia.
      destruct (IH (S id) rs ltac:(lia)) as [(i & ri & Hi & Hri & Hui & Hbelow & ->)|[Hall ->]].
      * left. exists i, ri. split_and!; auto; try lia. intros j r' Hj Hr'.
        destruct (decide (j = id)) as [->|]; [congruence|]. apply (Hbelow j); auto. lia.
      * right. split; [|done]. intros j r' Hj Hr'.
        destruct (decide (j = id)) as [->|]; [congruence|]. apply (Hall j); auto. lia.
    + left. exists id, r. split_and!; auto; try lia. rewrite aset_Some by lia. by rewrite Nat2Z.id.
Qed.

(** * A read of the pool *)

Section Pool.

Context {D : Type} `{HX : !Xnvme D} `{HQ : !QueueLaws D} `{HZ : !ZnsLaws D}.
Context (geo_zn_grp dev_nsect meta : Z) (pro : ztl_pro_node_grp) (znode : ztl_pro_node).

Lemma ztl_io_read_ok (s : iostate D) rs (num i : nat) r :
  (num <= length rs)%nat -> (i < num)%nat -> rs !! i = Some r -> rr_used r = false ->
  (forall j r', (j < i)%nat -> rs !! j = Some r' -> rr_used r' = true) ->
  read_request (rr_prp r) pro znode (io_set_cmds s (rr_mcmd r)) ->
  exists N s', (forall fuel, (N <= fuel)%nat ->
      ztl_io_read geo_zn_grp dev_nsect meta fuel (Z.of_nat num) rs s =
      Ok (XZTL_OK, <[i := {| rr_used := false; rr_mcmd := io_cmds s'; rr_prp := rr_prp r |}]> rs, s')) /\
    read_result (rr_prp r) pro znode (io_set_cmds s (rr_mcmd r)) s' /\
    (forall fuel, (N <= fuel)%nat ->
       ztl_io_read_ucmd geo_zn_grp dev_nsect meta fuel (rr_prp r) (io_set_cmds s (rr_mcmd r)) = Ok (XZTL_OK, s')).
Proof using HZ.
  intros Hnum Hi Hr Hu Hbelow Hrq. destruct (read_ucmd_ok geo_zn_grp dev_nsect meta _ _ _ _ Hrq) as (N & s' & Hrun & Hres).
  exists N, s'. split; [|done]. intros fuel Hf. unfold ztl_io_read. rewrite Nat2Z.id.
  destruct (get_read_rs_spec num 0 rs ltac:(lia)) as [(i' & r' & Hi' & Hr' & Hu' & Hb' & Hget)|[Hall _]].
  2:{ pose proof (Hall i r ltac:(lia) Hr). congruence. }
  assert (i' = i) as ->.
  { destruct (lt_eq_lt_dec i' i) as [[Hlt| ->]|Hlt]; [|done|].
    - pose proof (Hbelow i' r' Hlt Hr'). congruence.
    - pose proof (Hb' i r ltac:(lia) Hr). congruence. }
  assert (r' = r) as -> by congruence. change (Z.of_nat 0) with 0 in Hget. rewrite Hget. cbn [lift mbind outcome_bind].
  replace (Z.of_nat i <? 0) with false by lia.
  assert (Hl : (i < length rs)%nat) by lia.
  rewrite aget_nat, list_lookup_insert_eq by done. cbn [lift mbind outcome_bind rr_prp rr_set_used].
  rewrite Hrun by done. cbn [mbind outcome_bind].
  rewrite aset_Some by (rewrite length_insert; lia). cbn [lift mbind outcome_bind].
  unfold put_read_rs. rewrite aget_nat, Nat2Z.id, list_lookup_insert_eq by (rewrite length_insert; lia).
  cbn [mbind option_bind]. rewrite aset_Some by (rewrite !length_insert; lia). cbn [lift mbind outcome_bind].
  rewrite Nat2Z.id, !list_insert_insert_eq. done.
Qed.

End Pool.

(** * A write and a later read *)

Lemma stored_lookup data pro ps m : forall buf i n start num node x,
  stored data pro ps m buf -> ps !! i = Some (n, start, num) -> pg_vnodes pro !! n = Some node ->
  0 <= x < 32768 * num ->
  node_byte data pro node (32768 * start + x) = m (buf + 32768 * pieces_total (take i ps) + x).
Proof.
  induction ps as [|[[n0 st0] nm0] ps IH]; intros buf [|i] n start num node x; simpl; try done.
  - intros [Hb _] [= <- <- <-] Hn Hx. rewrite (Hb node x Hn Hx). f_equal. unfold pieces_total. simpl. lia.
  - intros [_ Hs] Hi Hn Hx. rewrite (IH _ i n start num node x Hs Hi Hn Hx). f_equal.
    change (pieces_total ((n0, st0, nm0) :: take i ps)) with (nm0 + pieces_total (take i ps)). lia.
Qed.

(** The node of a piece can be read. *)
Lemma piece_readable {D : Type} `{HX : !Xnvme D} `{HQ : !QueueLaws D} `{HZ : !ZnsLaws D}
    meta (s : iostate D) pro pro' ps i n start num :
  engine meta s pro -> appended pro ps -> same_zones pro pro' -> ps !! i = Some (n, start, num) ->
  exists node, pg_vnodes pro' !! n = Some node /\ node_fits pro' node /\
    (forall z, 0 <= z < 64 -> is_Some (slot_zone pro' node z)) /\
    0 <= start /\ start + num <= ZTL_PRO_OPT_SEC_NUM_INNODE.
Proof.
  intros He Hap [Hvz Hz] Hi. unfold appended in Hap. rewrite Forall_lookup in Hap.
  destruct (Hap i _ Hi) as (Hq & nd & Hnd & _ & Hst & _ & Hcap).
  destruct (eg_zones _ _ _ He n nd Hq Hnd) as (Hwf & _ & Hf).
  specialize (Hz n). rewrite Hnd in Hz. destruct (pg_vnodes pro' !! n) as [node|] eqn:Hn; [|done].
  injection Hz as Hz. exists node. split_and!; auto.
  - by apply (node_fits_transfer pro pro' nd node).
  - intros z Hlt. rewrite (slot_zone_transfer pro pro' nd node) by done.
    destruct (nw_slot _ _ _ Hwf z Hlt) as (zone & _ & -> & _). done.
Qed.

(** A read context that reads [len] bytes at [off] of node [n] into [buf]. *)
Record reads {D : Type} `{HX : !Xnvme D} `{HQ : !QueueLaws D} `{HZ : !ZnsLaws D}
    (rprp : list Z) (r : iostate D) (n : nat) (off len : Z) : Prop := {
  rd_id : (uc_node_id (io_u r)).[0] = Some (Z.of_nat n);
  rd_off : uc_offset (io_u r) = off;
  rd_len : uc_size (io_u r) = len;
  rd_prp : length rprp = 1024%nat;
  rd_cmds : length (io_cmds r) = 1024%nat;
  rd_mcmd : length (uc_mcmd (io_u r)) = 1024%nat;
  rd_stats : length (st_io (io_stats r)) = XZTL_STATS_IO_TYPES;
  rd_ncmds : ncmds off len <= Z.min ZTL_IO_RC_NUM (Z.of_nat z_depth);
  rd_bounce : bounce_ok rprp (uc_buf (io_u r)) len
}.

Lemma reads_request {D : Type} `{HX : !Xnvme D} `{HQ : !QueueLaws D} `{HZ : !ZnsLaws D}
    meta (s : iostate D) pro node rprp (r : iostate D) n off len :
  engine meta s pro -> io_g r = io_g s -> io_dev r = io_dev s ->
  pg_vnodes pro !! n = Some node -> node_fits pro node ->
  (forall z, 0 <= z < 64 -> is_Some (slot_zone pro node z)) ->
  0 <= off -> 0 < len -> off + len <= 32768 * ZTL_PRO_OPT_SEC_NUM_INNODE ->
  reads rprp r n off len -> read_request rprp pro node r.
Proof.
  intros He Hg Hd Hn Hf Hsl Ho Hlen Hend [Rid <- <- Rp Rc Rm Rst Rn Rb].
  assert (Hlt : Z.of_nat n < 2 ^ 31).
  { pose proof (eg_small _ _ _ He). apply lookup_lt_Some in Hn. lia. }
  constructor; auto; try lia.
  - exists (Z.of_nat n). split; [done|]. rewrite wrap_small by lia. by rewrite aget_nat.
  - rewrite Hg. apply He.
  - constructor; auto; lia.
  - rewrite Hd. apply He.
Qed.

(** * Properties *)


(** A context that reads [size] bytes at [offset] of node 0 of the simulated
    group, with bounce buffers far above the user's. *)
Definition sim_prp : list Z := (fun j => 2 ^ 40 + 32768 * Z.of_nat j) <$> seq 0 1024.

Definition sim_reader (offset size : Z) : iostate simdev :=
  let u := sim_ucmd 65536 size in
  sim_io 1 {| uc_id := 1; uc_buf := uc_buf u; uc_size := size; uc_offset := offset; uc_prov_type := 0;
    uc_app_md := 1; uc_status := 0; uc_mcmd := uc_mcmd u; uc_node_id := [0; 0]; uc_start := uc_start u;
    uc_num := uc_num u; uc_pieces := 0; uc_nmcmd := 0; uc_moffset := uc_moffset u; uc_msec := uc_msec u;
    uc_ncb := 0; uc_completed := 0; uc_minflight := uc_minflight u |}.

Lemma sim_bounce buf size : buf + size <= 2 ^ 40 -> bounce_ok sim_prp buf size.
Proof.
  intros Hb. apply Forall_fmap, Forall_forall. intros j Hj%elem_of_seq. simpl. lia.
Qed.

Lemma sim_read_request offset size :
  0 <= offset -> 0 < size -> offset + size <= 2 ^ 32 -> ncmds offset size <= 1024 ->
  read_request sim_prp (sim_pro 1) (sim_node 0) (sim_reader offset size).
Proof.
  intros Ho Hs He Hn. pose proof (sim_writable 1 0 ltac:(lia) eq_refl) as W.
  constructor; auto.
  - exists 0. done.
  - constructor; auto; simpl; try (cst; lia).
    + intros z Hz. destruct (nw_slot _ _ _ (wr_wf _ _ _ _ _ W) z Hz) as (zone & _ & -> & _). done.
    + exact (wr_fits _ _ _ _ _ W).
  - apply sim_bounce. simpl. lia.
Qed.


(** C9. Round trip.  After a write request of [k] chunks of 32 KiB, a read of
    any byte range of any piece the request reported, in any read context,
    returns the bytes of the write buffer at the matching position. *)
Theorem write_read_roundtrip {D : Type} `{HX : !Xnvme D} `{HQ : !QueueLaws D} `{HZ : !ZnsLaws D}
    geo_zn_grp dev_nsect meta (s : iostate D) pro k :
  device_fits (D := D) -> engine meta s pro -> request_ok (io_u s) -> uc_pieces (io_u s) = 0 ->
  uc_size (io_u s) = 32768 * k -> 0 < k <= ZTL_IO_RC_NUM -> room_for s pro k ->
  0 <= uc_buf (io_u s) -> uc_buf (io_u s) + 32768 * k < 2 ^ 64 ->
  exists N s' ps,
    (forall fuel, (N <= fuel)%nat ->
       ztl_io_write_ucmd ZNS_ALIGMENT geo_zn_grp dev_nsect meta fuel s = Ok (XZTL_OK, s')) /\
    reported (io_u s') ps /\ pieces_total ps = k /\
    forall i n start num x len rprp (r : iostate D),
      ps !! i = Some (n, start, num) -> 0 <= x -> 0 < len -> x + len <= 32768 * num ->
      io_g r = io_g s' -> io_dev r = io_dev s' -> reads rprp r n (32768 * start + x) len ->
      exists N' r', (forall fuel, (N' <= fuel)%nat ->
          ztl_io_read_ucmd geo_zn_grp dev_nsect meta fuel rprp r = Ok (XZTL_OK, r')) /\
        forall t, 0 <= t < len ->
          io_mem r' (uc_buf (io_u r) + t) =
          io_mem s (uc_buf (io_u s) + 32768 * pieces_total (take i ps) + x + t).
Proof.
  intros Hdev He Hrq H0 Hs Hk Hroom Hb Hb'.
  destruct (write_ucmd_ok geo_zn_grp dev_nsect meta s pro k)
    as (N & s' & pro' & ps & Hrun & [We Wm Wst Wr Wt Ws Wo] & Hc & Hlen & Hap & Hsz & _); auto.
  exists N, s', ps. split_and!; auto. intros i n start num x len rprp r Hi Hx Hl Hxl Hg Hd Hrd.
  destruct (piece_readable meta s pro pro' ps i n start num He Hap Hsz Hi)
    as (node & Hn & Hf & Hsl & Hst & Hcap).
  assert (Hreq : read_request rprp pro' node r).
  { apply (reads_request meta s' pro' node rprp r n (32768 * start + x) len); auto; lia. }
  destruct (read_ucmd_ok geo_zn_grp dev_nsect meta rprp pro' node r Hreq) as (N' & r' & Hrun' & Hres).
  exists N', r'. split; [done|]. intros t Ht. destruct Hrd as [_ Ro Rl _ _ _ _ _ _].
  rewrite (rr_bytes _ _ _ _ _ Hres) by lia. rewrite Ro, Hd.
  replace (32768 * start + x + t) with (32768 * start + (x + t)) by lia.
  rewrite (stored_lookup _ _ _ _ _ _ _ _ _ _ _ Ws Hi Hn) by lia. f_equal. lia.
Qed.

Lemma write_read_roundtrip_witness :
  exists N s' ps,
    (forall fuel, (N <= fuel)%nat ->
       ztl_io_write_ucmd 4096 130 32768 2 fuel (sim_io 2 (sim_ucmd 65536 (32768 * 67))) = Ok (XZTL_OK, s')) /\
    reported (io_u s') ps /\ pieces_total ps = 67.
Proof.
  destruct (write_read_roundtrip 130 32768 2 (sim_io 2 (sim_ucmd 65536 (32768 * 67))) (sim_pro 2) 67)
    as (N & s' & ps & Hrun & Hrep & Htot & _).
  - exact sim_fits.
  - apply sim_engine; [done|apply length_replicate..].
  - apply sim_request_ok.
  - reflexivity.
  - reflexivity.
  - vm_compute. split; [reflexivity|discriminate].
  - right. discriminate.
  - vm_compute. discriminate.
  - vm_compute. reflexivity.
  - exists N, s', ps. split; [exact Hrun|]. split; [exact Hrep|exact Htot].
Defined.

(** The pool of read resources.  [ztl_io_read] serves the request with the
    first unused resource and returns it: afterwards every resource has the
    flag it had before.  When all are in use the call returns
    [XZTL_ZTL_IO_ERR] at once and changes nothing. *)
Theorem ztl_io_read_pool {D : Type} `{HX : !Xnvme D} `{HQ : !QueueLaws D} `{HZ : !ZnsLaws D}
    geo_zn_grp dev_nsect meta pro znode (s : iostate D) rs (num : nat) :
  (num <= length rs)%nat ->
  (forall i r, (i < num)%nat -> rs !! i = Some r -> rr_used r = false ->
     read_request (rr_prp r) pro znode (io_set_cmds s (rr_mcmd r))) ->
  (Forall (fun r => rr_used r = true) (take num rs) /\
   forall fuel, ztl_io_read geo_zn_grp dev_nsect meta fuel (Z.of_nat num) rs s = Ok (XZTL_ZTL_IO_ERR, rs, s)) \/
  (exists N rs' s', (forall fuel, (N <= fuel)%nat ->
      ztl_io_read geo_zn_grp dev_nsect meta fuel (Z.of_nat num) rs s = Ok (XZTL_OK, rs', s')) /\
    rr_used <$> rs' = rr_used <$> rs /\
    forall i, 0 <= i < uc_size (io_u s) ->
      io_mem s' (uc_buf (io_u s) + i) = node_byte (z_data (io_dev s)) pro znode (uc_offset (io_u s) + i)).
Proof.
  intros Hnum Hrq. destruct (get_read_rs_spec num 0 rs ltac:(lia)) as [(i & r & Hi & Hr & Hu & Hb & _)|[Hall Hget]].
  - right. destruct (ztl_io_read_ok geo_zn_grp dev_nsect meta pro znode s rs num i r) as (N & s' & Hrun & Hres & _);
      auto; try lia; [intros; eapply Hb; eauto; lia|apply (Hrq i); auto; lia|].
    eexists N, _, s'. split; [exact Hrun|]. split; [|exact (rr_bytes _ _ _ _ _ Hres)].
    rewrite list_fmap_insert. simpl. rewrite <- Hu. apply list_insert_id. by rewrite list_lookup_fmap, Hr.
  - left. split.
    + apply Forall_lookup. intros j r [Hr Hj]%lookup_take_Some. apply (Hall j); auto. lia.
    + intros fuel. unfold ztl_io_read. rewrite Nat2Z.id. change (Z.of_nat 0) with 0 in Hget. by rewrite Hget.
Qed.

(** One read resource. *)
Definition sim_rs (used : bool) : list ztl_read_rs :=
  [{| rr_used := used; rr_mcmd := replicate 1024 sim_mcmd; rr_prp := sim_prp |}].

Lemma ztl_io_read_pool_witness :
  exists N rs' s', forall fuel, (N <= fuel)%nat ->
    ztl_io_read 130 32768 2 fuel 1 (sim_rs false) (sim_reader 5000 100000) = Ok (XZTL_OK, rs', s').
Proof.
  destruct (ztl_io_read_pool 130 32768 2 (sim_pro 1) (sim_node 0) (sim_reader 5000 100000) (sim_rs false) 1)
    as [[Hall _]|(N & rs' & s' & Hrun & _)].
  - simpl. lia.
  - intros [|[|i]] r Hi; [|lia..]. intros [= <-] _.
    apply (sim_read_request 5000 100000); vm_compute; discriminate || reflexivity.
  - exfalso. apply Forall_inv in Hall. discriminate Hall.
  - exists N, rs', s'. exact Hrun.
Defined.
