(* ===== verification/IoCounters.v ===== *)
(** The arrays keep their size: whatever the device answers, a write or a read
    request of src/xztl/src/ztl-io.c that ends leaves the array of statistics and
    the pool of commands with the sizes they had. *)

From S2P Require Import Prelude Types Stats ProGrp Media Io Read.

Definition slen {D} (s : iostate D) : nat := length (st_io (io_stats s)).

(** Both sizes. *)
Definition sizes {D} (s : iostate D) : nat * nat := (slen s, length (io_cmds s)).

(** Splits a successful run into the runs of its steps. *)
Ltac run_step :=
  match goal with
  | H : Some _ = Some _ |- _ => injection H as H; try subst
  | H : Ok _ = Ok _ |- _ => injection H as H; try subst
  | H : inl _ = inl _ |- _ => injection H as H; try subst
  | H : inr _ = inr _ |- _ => injection H as H; try subst
  | H : _ = _ |- _ => discriminate H
  | H : (_, _) = (_, _) |- _ => injection H as ?; subst
  | H : mbind _ ?m = _ |- _ =>
      let E := fresh "E" in destruct m eqn:E; cbn [mbind option_bind outcome_bind] in H; [|discriminate H..]
  | H : lift ?m = Ok _ |- _ =>
      let E := fresh "E" in destruct m eqn:E; cbn [lift] in H; [|discriminate H]
  | H : context [let '(_, _) := ?p in _] |- _ => is_var p; destruct p
  | H : context [let '(_, _) := ?p in _] |- _ => let E := fresh "E" in destruct p eqn:E
  | H : (if ?b then _ else _) = _ |- _ => destruct b
  end.

Ltac run_inv := repeat (run_step; cbv beta zeta in * ).

Section Sizes.

Context {D : Type} `{!Xnvme D}.
Context (geo_nbytes geo_zn_grp dev_nsect meta : Z).
Implicit Types (s : iostate D) (c : nat).

Lemma stats_inc_sizes s t v s' : stats_inc s t v = Some s' -> sizes s' = sizes s.
Proof using.
  unfold stats_inc, xztl_stats_inc. intros H. run_inv. unfold sizes, slen. simpl. f_equal. by eapply aset_length.
Qed.

Lemma upd_cmd_sizes s c f s' : upd_cmd s c f = Some s' -> sizes s' = sizes s.
Proof using. unfold upd_cmd. intros H. run_inv. unfold sizes. simpl. by rewrite length_insert. Qed.

Lemma submit_asynch_sizes op slba b s c r s' :
  submit_asynch op slba b s c = Some (r, s') -> sizes s' = sizes s.
Proof using.
  unfold submit_asynch. intros H. run_inv.
  match goal with H : upd_cmd _ _ _ = Some _ |- _ => apply upd_cmd_sizes in H end. done.
Qed.

Lemma submit_io_sizes s c r s' : media_submit_io geo_zn_grp dev_nsect s c = Some (r, s') -> sizes s' = sizes s.
Proof using.
  unfold media_submit_io, znd_media_submit_io, znd_media_submit_append_synch, znd_media_submit_read_synch,
    znd_media_submit_write_synch. intros H.
  run_inv; try done; by eapply submit_asynch_sizes.
Qed.

End Sizes.

Ltac sizes_learn :=
  repeat match goal with
  | H : stats_inc _ _ _ = Some _ |- _ => apply stats_inc_sizes in H
  | H : upd_cmd _ _ _ = Some _ |- _ => apply upd_cmd_sizes in H
  | H : media_submit_io _ _ _ _ = Some (_, _) |- _ => apply submit_io_sizes in H
  end; unfold sizes, slen in *; simpl in *;
  repeat match goal with H : aset _ _ _ = Some _ |- _ => apply aset_length in H end; try congruence.

Section SizesIo.

Context {D : Type} `{!Xnvme D}.
Context (geo_nbytes geo_zn_grp dev_nsect meta : Z).
Implicit Types (s : iostate D) (c : nat).

Lemma callback_retry_sizes f1 f2 s c b s' :
  callback_retry geo_zn_grp dev_nsect f1 f2 s c = Some (b, s') -> sizes s' = sizes s.
Proof using. unfold callback_retry. intros H. run_inv; sizes_learn. Qed.

Lemma write_done_sizes s c s' : write_callback_done meta s c = Some s' -> sizes s' = sizes s.
Proof using. unfold write_callback_done. intros H. run_inv; sizes_learn. Qed.

Lemma run_callback_sizes s c s' : run_callback geo_zn_grp dev_nsect meta s c = Some s' -> sizes s' = sizes s.
Proof using.
  unfold run_callback, ztl_io_write_callback_mcmd, ztl_io_read_callback_mcmd. intros H.
  run_inv; try done;
    repeat match goal with
    | H : callback_retry _ _ _ _ _ _ = Some _ |- _ => apply callback_retry_sizes in H
    | H : write_callback_done _ _ _ = Some _ |- _ => apply write_done_sizes in H
    end; sizes_learn.
Qed.

Lemma poke_sizes s s' : ztl_io_poke_ctx geo_zn_grp dev_nsect meta s = Some s' -> sizes s' = sizes s.
Proof using.
  unfold ztl_io_poke_ctx, znd_media_async_cb. intros H.
  destruct (xq_poke1 (io_dev s)) as [[cp|] d]; run_inv; [|done].
  match goal with H : run_callback _ _ _ _ _ = Some _ |- _ => apply run_callback_sizes in H end. sizes_learn.
Qed.

Lemma populate_one_sizes p z p' : populate_one geo_nbytes p z = Some p' -> sizes (ps_s (D := D) p') = sizes (ps_s (D := D) p).
Proof using. unfold populate_one. intros H. run_inv; sizes_learn. Qed.

Lemma populate_for_sizes n : forall z p p',
  populate_for geo_nbytes n z p = Some p' -> sizes (ps_s (D := D) p') = sizes (ps_s (D := D) p).
Proof using.
  induction n as [|n IH]; simpl; intros z p p' H; run_inv; [done|].
  rewrite (IH _ _ _ H). by eapply populate_one_sizes.
Qed.

Lemma populate_while_sizes n : forall num p p',
  populate_while geo_nbytes n num p = Ok p' -> sizes (ps_s (D := D) p') = sizes (ps_s (D := D) p).
Proof using.
  induction n as [|n IH]; simpl; intros num p p' H; run_inv; try done.
  rewrite (IH _ _ _ H). by eapply populate_for_sizes.
Qed.

Lemma submit_zone_sizes ids z p b p' :
  submit_zone geo_zn_grp dev_nsect meta ids z p = Some (b, p') -> sizes (ss_s (D := D) p') = sizes (ss_s (D := D) p).
Proof using.
  unfold submit_zone. intros H. run_inv; try done;
    repeat match goal with
    | H : ztl_io_poke_ctx _ _ _ _ = Some _ |- _ => apply poke_sizes in H
    end; sizes_learn.
Qed.

Lemma submit_for_sizes fuel : forall ids z p p',
  submit_for geo_zn_grp dev_nsect meta fuel ids z p = Ok p' -> sizes (ss_s (D := D) p') = sizes (ss_s (D := D) p).
Proof using.
  induction fuel as [|fuel IH]; simpl; intros ids z p p' H; destruct (_ <? _); run_inv; try done.
  rewrite (IH _ _ _ _ H). by eapply submit_zone_sizes.
Qed.

Lemma submit_while_sizes fuel : forall ids num p p',
  submit_while geo_zn_grp dev_nsect meta fuel ids num p = Ok p' -> sizes (ss_s (D := D) p') = sizes (ss_s (D := D) p).
Proof using.
  induction fuel as [|fuel IH]; cbn [submit_while]; intros ids num p p' H; destruct (_ <? _); run_inv; try done.
  rewrite (IH _ _ _ _ H). by eapply submit_for_sizes.
Qed.

Lemma wait_while_sizes fuel : forall s s',
  wait_while geo_zn_grp dev_nsect meta fuel s = Ok s' -> sizes s' = sizes s.
Proof using.
  induction fuel as [|fuel IH]; simpl; intros s s' H; destruct (_ <? _); run_inv; try done.
  rewrite (IH _ _ H). by eapply poke_sizes.
Qed.

Lemma piece_io_sizes fuel num boff s b s' :
  write_piece_io geo_nbytes geo_zn_grp dev_nsect meta fuel num boff s = Ok (b, s') -> sizes s' = sizes s.
Proof using.
  unfold write_piece_io, populate. intros H. run_inv.
  repeat match goal with
  | H : populate_while _ _ _ _ = Ok _ |- _ => apply populate_while_sizes in H
  | H : submit_while _ _ _ _ _ _ _ = Ok _ |- _ => apply submit_while_sizes in H
  | H : wait_while _ _ _ _ _ = Ok _ |- _ => apply wait_while_sizes in H
  end. sizes_learn.
Qed.

Lemma write_piece_sizes fuel left boff s r :
  write_piece geo_nbytes geo_zn_grp dev_nsect meta fuel left boff s = Ok r ->
  match r with inl (_, _, s') => sizes s' = sizes s | inr (_, s') => sizes s' = sizes s end.
Proof using.
  unfold write_piece, write_on_node, write_failure. intros H. run_inv; simpl;
    repeat match goal with
    | H : write_piece_io _ _ _ _ _ _ _ _ = Ok _ |- _ => apply piece_io_sizes in H
    end; sizes_learn.
Qed.

Lemma write_pieces_sizes fuel : forall left boff s r s',
  write_pieces geo_nbytes geo_zn_grp dev_nsect meta fuel left boff s = Ok (r, s') -> sizes s' = sizes s.
Proof using.
  induction fuel as [|fuel IH]; cbn [write_pieces]; intros left boff s r s' H; run_inv.
  match goal with E : write_piece _ _ _ _ _ _ _ _ = Ok _ |- _ => apply write_piece_sizes in E as Hs end.
  destruct a as [[[l b] s1]|[r1 s1]]; [|by run_inv]. by rewrite (IH _ _ _ _ _ H).
Qed.

Lemma write_ucmd_sizes fuel s r s' :
  ztl_io_write_ucmd geo_nbytes geo_zn_grp dev_nsect meta fuel s = Ok (r, s') -> sizes s' = sizes s.
Proof using.
  unfold ztl_io_write_ucmd, write_failure. cbv zeta. intros H.
  run_inv; try done. by rewrite (write_pieces_sizes _ _ _ _ _ _ H).
Qed.

(** The read path. *)

Lemma read_cmd_sizes rprp pro znode p p' :
  read_cmd rprp pro znode p = Some p' -> sizes (rd_s (D := D) p') = sizes (rd_s (D := D) p).
Proof using. unfold read_cmd. intros H. run_inv; sizes_learn. Qed.

Lemma read_next_sizes p p' : read_next p = Some p' -> sizes (rd_s (D := D) p') = sizes (rd_s (D := D) p).
Proof using. unfold read_next. intros H. run_inv; done. Qed.

Lemma read_cmds_sizes fuel : forall rprp pro znode p p',
  read_cmds fuel rprp pro znode p = Ok p' -> sizes (rd_s (D := D) p') = sizes (rd_s (D := D) p).
Proof using.
  induction fuel as [|fuel IH]; simpl; intros rprp pro znode p p' H; run_inv; try done.
  - by eapply read_cmd_sizes.
  - rewrite (IH _ _ _ _ _ H). erewrite read_next_sizes by done. by eapply read_cmd_sizes.
Qed.

Lemma read_submit_sizes n : forall i p p',
  read_submit_for geo_zn_grp dev_nsect n i p = Some p' -> sizes (rs_s (D := D) p') = sizes (rs_s (D := D) p).
Proof using.
  induction n as [|n IH]; simpl; intros i p p' H; run_inv; [done|].
  rewrite (IH _ _ _ H). clear H IH. unfold read_submit_one in *. run_inv; sizes_learn.
Qed.

Lemma read_while_sizes fuel : forall total p p',
  read_submit_while geo_zn_grp dev_nsect fuel total p = Ok p' ->
  sizes (rs_s (D := D) p') = sizes (rs_s (D := D) p).
Proof using.
  induction fuel as [|fuel IH]; simpl; intros total p p' H; destruct (_ <? _); run_inv; try done.
  rewrite (IH _ _ _ H). by eapply read_submit_sizes.
Qed.

Lemma drain_sizes fuel : forall s s',
  queue_drain geo_zn_grp dev_nsect meta fuel s = Ok s' -> sizes s' = sizes s.
Proof using.
  induction fuel as [|fuel IH]; simpl; intros s s' H; destruct (xq_outstanding (io_dev s)); run_inv; try done.
  rewrite (IH _ _ H). by eapply poke_sizes.
Qed.

Lemma read_ucmd_sizes fuel rprp s r s' :
  ztl_io_read_ucmd geo_zn_grp dev_nsect meta fuel rprp s = Ok (r, s') -> sizes s' = sizes s.
Proof using.
  unfold ztl_io_read_ucmd, read_start, read_single. intros H. run_inv;
  repeat match goal with
  | H : read_cmds _ _ _ _ _ = Ok _ |- _ => apply read_cmds_sizes in H
  | H : read_submit_while _ _ _ _ _ = Ok _ |- _ => apply read_while_sizes in H
  | H : queue_drain _ _ _ _ _ = Ok _ |- _ => apply drain_sizes in H
  end; sizes_learn.
Qed.

Lemma io_read_slen fuel num rs s r rs' s' :
  ztl_io_read geo_zn_grp dev_nsect meta fuel num rs s = Ok (r, rs', s') -> slen s' = slen s.
Proof using.
  unfold ztl_io_read. intros H. run_inv; try done.
  match goal with H : ztl_io_read_ucmd _ _ _ _ _ _ = Ok _ |- _ => apply read_ucmd_sizes in H end.
  unfold sizes, slen in *. simpl in *. congruence.
Qed.

Lemma write_ucmd_slen fuel s r s' :
  ztl_io_write_ucmd geo_nbytes geo_zn_grp dev_nsect meta fuel s = Ok (r, s') -> slen s' = slen s.
Proof using. intros H%write_ucmd_sizes. unfold sizes in H. congruence. Qed.

End SizesIo.
