(* ===== verification/NodeInit.v ===== *)
(** Start-up of the provisioning: the zone metadata table of a group
    (src/xztl/src/ztl-zmd.c), the group list (xztl-groups.c) and the construction
    of zones, nodes and node queues from the device's zone report
    (ztl-pro-grp.c, ztl-pro.c).

    [calloc] and the initialisation of the locks can fail: their results are
    boolean arguments.  [report] stands for xnvme_znd_report_from_dev, [None] for
    NULL. *)

From S2P Require Import Prelude Types Stats ProGrp Media.

(** * Zone metadata: ztl-zmd.c *)

Definition zmd_entry (geo : xztl_mgeo) (id zn_i : Z) : app_zmd_entry :=
  let addr := maddr_set_zone (maddr_set_grp 0 id) zn_i in
  let addr := maddr_set_sect addr (u64 (u32 (sec_grp geo * id) + u64 (sec_zn geo * zn_i))) in
  {| ze_flags := Z.lor 0 XZTL_ZMD_AVLB; ze_level := 0; ze_addr := addr;
     ze_wptr := maddr_sect addr; ze_wptr_inflight := maddr_sect addr |}.

(** [ztl_zmd_create]: the first [entries] entries of the table *)
Definition ztl_zmd_create (geo : xztl_mgeo) (g : app_group) : option (Z * app_group) :=
  let n := Z.to_nat (grp_entries g) in
  if decide (n <= length (grp_tbl g))%nat then
    Some (XZTL_OK, grp_set_tbl g (((fun i => zmd_entry geo (grp_id g) (Z.of_nat i)) <$> seq 0 n)
                                  ++ drop n (grp_tbl g)))
  else None.

Definition ztl_zmd_load_report (report : option (list znd_descr)) (g : app_group) : Z * app_group :=
  match report with
  | None => (ZND_MEDIA_REPORT_ERR, g)
  | Some rep => (XZTL_OK, grp_set_report g rep)
  end.

Definition ztl_zmd_load (report : option (list znd_descr)) (g : app_group) : Z * app_group :=
  let '(ret, g') := ztl_zmd_load_report report g in
  if ctrue ret then (XZTL_ZTL_ZMD_REP, g') else (XZTL_OK, grp_set_magic g' APP_MAGIC).

(** [ztl_zmd_get]: the index of the entry in the table *)
Definition ztl_zmd_get (geo : xztl_mgeo) (zone by_offset : Z) : Z :=
  if ctrue by_offset then zone / sec_zn geo else zone.

(** * Groups: xztl-groups.c *)

(** [groups_zmd_init]; the table is zeroed by [calloc]. *)
Definition zmd_zero : app_zmd_entry :=
  {| ze_flags := 0; ze_level := 0; ze_addr := 0; ze_wptr := 0; ze_wptr_inflight := 0 |}.

Definition groups_zmd_init (geo : xztl_mgeo) (calloc_ok : bool) (report : option (list znd_descr))
    (g : app_group) : option (Z * app_group) :=
  let g := grp_set_entries g (zn_grp geo) in
  if negb calloc_ok then Some (XZTL_ZTL_GROUP_ERR, g) else
  let g := grp_set_magic (grp_set_tbl g (replicate (Z.to_nat (zn_grp geo)) zmd_zero)) 0 in
  let '(ret, g) := ztl_zmd_load report g in
  if ctrue ret then Some (XZTL_ZTL_GROUP_ERR, grp_set_tbl g []) else
  if grp_magic g =? APP_MAGIC then
    '(ret, g) ← ztl_zmd_create geo g;
    if ctrue ret then Some (XZTL_ZTL_GROUP_ERR, grp_set_tbl g []) else Some (XZTL_OK, g)
  else Some (XZTL_OK, g).

Definition group_zero (id : Z) : app_group :=
  {| grp_id := id; grp_active := 0; grp_need_gc := 0; grp_busy := 0; grp_magic := 0; grp_entries := 0;
     grp_tbl := []; grp_report := []; grp_pro := None |}.

(** [groups_init]: the loop over the groups from [grp_i] on, [n] left; [head] is
    the list, [alloc] says which allocations of a group succeed.  The result is
    the number of groups, or an error code, and the list. *)
Fixpoint groups_init_loop (geo : xztl_mgeo) (alloc : Z -> bool * bool) (report : option (list znd_descr))
    (n : nat) (grp_i : Z) (head : list app_group) : option (Z * list app_group) :=
  match n with
  | O => Some (grp_i, head)
  | S n' =>
      if negb (fst (alloc grp_i)) then Some (XZTL_ZTL_GROUP_ERR, head) else
      '(ret, g) ← groups_zmd_init geo (snd (alloc grp_i)) report (group_zero grp_i);
      if ctrue ret then Some (XZTL_ZTL_GROUP_ERR, []) else
      groups_init_loop geo alloc report n' (grp_i + 1) (grp_set_active g 1 :: head)
  end.

Definition groups_init (geo : xztl_mgeo) (alloc : Z -> bool * bool) (report : option (list znd_descr))
    : option (Z * list app_group) :=
  groups_init_loop geo alloc report (Z.to_nat (ngrps geo)) 0 [].

(** [groups_get] *)
Definition groups_get (head : list app_group) (grp_id' : Z) : option app_group :=
  snd <$> list_find (fun g => grp_id g = grp_id') head.

(** [groups_get_list]: [list[i] = grp] for [i] from [ngrp - 1] downwards.  The
    result is the number of groups stored and the array. *)
Fixpoint groups_get_list_loop (head : list app_group) (i n : Z) (out : list (option app_group))
    : option (Z * list (option app_group)) :=
  match head with
  | [] => Some (n, out)
  | g :: head' =>
      if i <? 0 then Some (n, out) else
      out' ← aset out i (Some g);
      groups_get_list_loop head' (i - 1) (n + 1) out'
  end.

Definition groups_get_list (head : list app_group) (ngrp : Z) : option (Z * list (option app_group)) :=
  groups_get_list_loop head (ngrp - 1) 0 (replicate (Z.to_nat ngrp) None).

(** * Nodes: ztl-pro-grp.c *)

Definition zone_zero : ztl_pro_zone :=
  {| pz_addr := 0; pz_zmd_entry := None; pz_capacity := 0; pz_lock := 0; pz_state := None |}.

Definition node_zero : ztl_pro_node :=
  {| pn_id := 0; pn_vzones := replicate 64 None; pn_left := 0; pn_used := 0; pn_nr_finish_err := 0;
     pn_nr_reset_err := 0; pn_nr_valid := 0; pn_status := 0; pn_level := 0 |}.

(** [_ztl_pro_grp_new_pro]; [ok] is the success of the allocations and locks. *)
Definition ztl_pro_grp_new_pro (ok : bool) (node_num entries : Z) : option ztl_pro_node_grp :=
  if ok then
    Some {| pg_vnodes := replicate (Z.to_nat node_num) node_zero;
            pg_vzones := replicate (Z.to_nat entries) zone_zero;
            pg_nfree := 0; pg_nzones := entries; pg_nnodes := node_num;
            pg_free_head := []; pg_used_head := []; pg_full_head := [] |}
  else None.

(** [pro->vnodes[i] = f(pro->vnodes[i])] *)
Definition upd_vnode (pro : ztl_pro_node_grp) (i : Z) (f : ztl_pro_node -> ztl_pro_node)
    : option ztl_pro_node_grp :=
  node ← (pg_vnodes pro).[i];
  l ← aset (pg_vnodes pro) i (f node);
  Some (pg_set_vnodes pro l).

(** The node [node_i] once its 64 zones are known. *)
Definition init_node (node_i full_count sec_num : Z) (node : ztl_pro_node) : ztl_pro_node :=
  let node := pn_set_level (pn_set_nr_valid (pn_set_id node node_i) 0) (-1) in
  if full_count =? ZTL_PRO_ZONE_NUM_INNODE then
    pn_set_used (pn_set_left (pn_set_status node XZTL_ZMD_NODE_FULL) 0) ZTL_PRO_OPT_SEC_NUM_INNODE
  else if sec_num =? 0 then
    pn_set_used (pn_set_left (pn_set_status node XZTL_ZMD_NODE_FREE) ZTL_PRO_OPT_SEC_NUM_INNODE) 0
  else
    pn_set_used (pn_set_left (pn_set_status node XZTL_ZMD_NODE_USED)
                             (u64 (ZTL_PRO_OPT_SEC_NUM_INNODE - Z.quot sec_num ZTL_IO_SEC_MCMD)))
                (u64 (Z.quot sec_num ZTL_IO_SEC_MCMD)).

(** The queue it joins. *)
Definition enqueue_node (node_i full_count sec_num : Z) (pro : ztl_pro_node_grp) : ztl_pro_node_grp :=
  let n := Z.to_nat node_i in
  if full_count =? ZTL_PRO_ZONE_NUM_INNODE then
    pg_set_full_head pro (tailq_insert_tail (pg_full_head pro) n)
  else if sec_num =? 0 then
    pg_set_nfree (pg_set_free_head pro (tailq_insert_tail (pg_free_head pro) n)) (u32 (pg_nfree pro + 1))
  else pg_set_used_head pro (tailq_insert_tail (pg_used_head pro) n).

(** Local variables of the loop, with the zone table and the provisioning. *)
Record initst := {
  is_node_i : Z; is_zone_num : Z; is_full : Z; is_sec : Z;
  is_tbl : list app_zmd_entry; is_pro : ztl_pro_node_grp
}.

Section NodeInit.

Context (geo_zn_grp meta entries id : Z) (rep : list znd_descr).

(** The end of a node, when [zone_num_in_node] is 64; the boolean is [break]. *)
Definition init_finish (zone_i : Z) (p : initst) : option (bool * initst) :=
  if is_zone_num p =? ZTL_PRO_ZONE_NUM_INNODE then
    pro ← upd_vnode (is_pro p) (is_node_i p) (init_node (is_node_i p) (is_full p) (is_sec p));
    let pro := enqueue_node (is_node_i p) (is_full p) (is_sec p) pro in
    let brk := u32 (u32 (entries - zone_i) + 1) <? ZTL_PRO_ZONE_NUM_INNODE in
    Some (brk, {| is_node_i := is_node_i p + 1; is_zone_num := 0;
                  is_full := if brk then is_full p else 0; is_sec := 0;
                  is_tbl := is_tbl p; is_pro := pro |})
  else Some (false, p).

(** The contribution of a zone to [full_count] and [sec_num]; [None] is the
    [continue] of an inconsistent empty zone. *)
Definition init_count (zinfo : znd_descr) (flags sect full sec : Z) : option (Z * Z) :=
  match zd_zs zinfo with
  | ZND_STATE_EMPTY =>
      if ctrue (Z.land flags XZTL_ZMD_USED) || ctrue (Z.land flags XZTL_ZMD_OPEN) then None
      else Some (full, sec)
  | ZND_STATE_FULL => Some (full + 1, i32 (sec + zd_zcap zinfo))
  | ZND_STATE_EOPEN | ZND_STATE_IOPEN | ZND_STATE_CLOSED =>
      Some (full, i32 (sec + u64 (zd_wp zinfo - sect)))
  | ZND_STATE_RONLY | ZND_STATE_OFFLINE => Some (full, sec)
  end.

(** The rest of the body: the zone joins the node that is being built. *)
Definition init_zone (zone_i : Z) (p : initst) : option initst :=
  zmde ← (is_tbl p).[zone_i];
  if negb (maddr_zone (ze_addr zmde) =? zone_i) || negb (maddr_grp (ze_addr zmde) =? id) then Some p else
  if ctrue (Z.land (ze_flags zmde) XZTL_ZMD_RSVD) || negb (ctrue (Z.land (ze_flags zmde) XZTL_ZMD_AVLB))
  then Some p else
  zinfo ← rep.[u32 (id * geo_zn_grp + zone_i)];
  let zone := {| pz_addr := ze_addr zmde; pz_zmd_entry := Some (Z.to_nat zone_i);
                 pz_capacity := zd_zcap zinfo; pz_lock := 0; pz_state := Some (zd_zs zinfo) |} in
  vz ← aset (pg_vzones (is_pro p)) (zone_i - meta) zone;
  node ← (pg_vnodes (is_pro p)).[is_node_i p];
  slots ← aset (pn_vzones node) (is_zone_num p) (Some (Z.to_nat (zone_i - meta)));
  vn ← aset (pg_vnodes (is_pro p)) (is_node_i p) (pn_set_vzones node slots);
  let pro := pg_set_vnodes (pg_set_vzones (is_pro p) vz) vn in
  let p := {| is_node_i := is_node_i p; is_zone_num := is_zone_num p + 1; is_full := is_full p;
              is_sec := is_sec p; is_tbl := is_tbl p; is_pro := pro |} in
  match init_count zinfo (ze_flags zmde) (maddr_sect (pz_addr zone)) (is_full p) (is_sec p) with
  | None => Some p
  | Some (full, sec) =>
      tbl ← aset (is_tbl p) zone_i (ze_set_wptr_inflight (ze_set_wptr zmde (zd_wp zinfo)) (zd_wp zinfo));
      Some {| is_node_i := is_node_i p; is_zone_num := is_zone_num p; is_full := full; is_sec := sec;
              is_tbl := tbl; is_pro := is_pro p |}
  end.

(** [for (zone_i = metadata_zone_num; zone_i < entries; zone_i++)] *)
Fixpoint init_loop (n : nat) (zone_i : Z) (p : initst) : option initst :=
  match n with
  | O => Some p
  | S n' =>
      '(brk, p1) ← init_finish zone_i p;
      if (brk : bool) then Some p1 else
      p2 ← init_zone zone_i p1;
      init_loop n' (zone_i + 1) p2
  end.

End NodeInit.

Definition ztl_pro_grp_node_init (geo_zn_grp meta : Z) (ok : bool) (g : app_group)
    : option (Z * app_group) :=
  let entries := grp_entries g in
  let node_num := u32 (entries - meta) / ZTL_PRO_ZONE_NUM_INNODE in
  match ztl_pro_grp_new_pro ok node_num entries with
  | None => Some (XZTL_ZTL_PROV_ERR, g)
  | Some pro =>
      p ← init_loop geo_zn_grp meta entries (grp_id g) (grp_report g) (Z.to_nat (entries - meta)) meta
            {| is_node_i := 0; is_zone_num := 0; is_full := 0; is_sec := 0; is_tbl := grp_tbl g; is_pro := pro |};
      Some (XZTL_OK, grp_set_pro (grp_set_tbl g (is_tbl p)) (Some (is_pro p)))
  end.

(** [ztl_pro_grp_exit]: the statistics of the nodes, level by level, and the
    release of the provisioning. *)
Fixpoint exit_loop (nodes : list ztl_pro_node) (used valid : list Z) : option (list Z * list Z) :=
  match nodes with
  | [] => Some (used, valid)
  | node :: nodes' =>
      if 0 <=? pn_level node then
        u ← used.[pn_level node];
        v ← valid.[pn_level node];
        used' ← aset used (pn_level node) (u64 (u + pn_used node));
        valid' ← aset valid (pn_level node) (u64 (v + pn_nr_valid node));
        exit_loop nodes' used' valid'
      else exit_loop nodes' used valid
  end.

Fixpoint exit_stats (n : nat) (i : Z) (used valid : list Z) (st : xztl_stats) : option xztl_stats :=
  match n with
  | O => Some st
  | S n' =>
      u ← used.[i];
      v ← valid.[i];
      st1 ← xztl_stats_node_inc st i XZTL_CMD_ENTRY_USED u;
      st2 ← xztl_stats_node_inc st1 i XZTL_CMD_ENTRY_VALID v;
      exit_stats n' (i + 1) used valid st2
  end.

Definition ztl_pro_grp_exit (g : app_group) (st : xztl_stats) : option (app_group * xztl_stats) :=
  pro ← grp_pro g;
  '(used, valid) ← exit_loop (take (Z.to_nat (pg_nnodes pro)) (pg_vnodes pro)) (replicate 5 0) (replicate 5 0);
  st' ← exit_stats 5 0 used valid st;
  Some (grp_set_pro g None, st').
