(* ===== verification/InitOk.v ===== *)
(** Start-up recovers the state of the nodes: from the zone report of a device
    whose nodes hold stripes of commands, [ztl_pro_grp_node_init]
    (src/xztl/src/ztl-pro-grp.c) rebuilds zones, nodes, queues and pointers.

    The loop is followed through a closed form of its state: [istate k z] is the
    state with [k] nodes complete and [z] zones of the next one in place. *)

From S2P Require Import Prelude Types Sim Stats ProGrp Media NodeInit.

(** Sectors and full zones among the first [m] zones of a node with [u] commands. *)
Definition csum (u m : Z) : Z := 8 * (m * (u / 64) + Z.min m (u mod 64)).
Definition cfull (u m : Z) : Z := if u <=? 64 * 3071 then 0 else Z.min m (u - 64 * 3071).

Lemma csum_step u m : 0 <= m < 64 -> csum u (m + 1) = csum u m + 8 * stripe_count u m.
Proof. unfold csum, stripe_count. intros. zdiv. Qed.

Lemma csum_all u : csum u 64 = 8 * u.
Proof. unfold csum. zdiv. Qed.

Lemma csum_range u m : 0 <= u <= 196608 -> 0 <= m <= 64 -> 0 <= csum u m <= 8 * 196608.
Proof.
  unfold csum. intros Hu Hm. assert (0 <= u / 64) by zdiv.
  assert (0 <= m * (u / 64) <= 64 * (u / 64)) by nia. zdiv.
Qed.

Lemma cfull_step u m : 0 <= u <= 196608 -> 0 <= m < 64 ->
  cfull u (m + 1) = cfull u m + (if stripe_count u m =? 3072 then 1 else 0).
Proof.
  unfold cfull, stripe_count. intros. destruct (Z.leb_spec u (64 * 3071)), (Z.eqb_spec ((u + 63 - m) / 64) 3072); zdiv.
Qed.

Lemma cfull_all u : 0 <= u <= 196608 -> (cfull u 64 =? 64) = (u =? 196608).
Proof. unfold cfull. intros. destruct (Z.leb_spec u (64 * 3071)), (Z.eqb_spec u 196608); lia. Qed.

(** What the device reports for zone [z] of a node with [u] commands, the zone
    starting at [start].  A full zone has no write pointer. *)
Definition descr_ok (u z start : Z) (d : znd_descr) : Prop :=
  let c := stripe_count u z in
  (c = 0 /\ zd_zs d = ZND_STATE_EMPTY /\ zd_wp d = start) \/
  (0 < c < 3072 /\ (zd_zs d = ZND_STATE_IOPEN \/ zd_zs d = ZND_STATE_EOPEN \/ zd_zs d = ZND_STATE_CLOSED) /\
   zd_wp d = start + 8 * c) \/
  (c = 3072 /\ zd_zs d = ZND_STATE_FULL /\ zd_zcap d = ZTL_PRO_SEC_NUM_INZONE).

Section Init.

(** [nodes] nodes after [meta] metadata zones, [r] zones left over; node [k] holds
    [u k] commands; [dsc] is the report from zone [meta] on. *)
Context (geo : xztl_mgeo) (id : Z) (meta nodes r : nat) (u : nat -> Z) (dsc : nat -> znd_descr).
Context (rep : list znd_descr).

Definition entries : nat := meta + 64 * nodes + r.

Definition ent (i : nat) : app_zmd_entry := zmd_entry geo id (Z.of_nat i).
Definition start (i : nat) : Z := u32 (sec_grp geo * id) + sec_zn geo * Z.of_nat i.

(** What the start-up relies on. *)
Record bootable : Prop := {
  bo_id : 0 <= id < 32;
  bo_nodes : (0 < nodes)%nat;
  bo_r : (1 <= r <= 62)%nat;
  bo_entries : Z.of_nat entries < 2 ^ 20;
  bo_zn : 0 <= zn_grp geo /\ id * zn_grp geo + Z.of_nat entries < 2 ^ 32;
  bo_sec : 0 <= sec_zn geo;
  bo_fit : forall i, (i < entries)%nat -> start i + ZTL_PRO_SEC_NUM_INZONE < 2 ^ 36;
  bo_u : forall k, (k < nodes)%nat -> 0 <= u k <= ZTL_PRO_OPT_SEC_NUM_INNODE;
  bo_rep : forall i, (i < 64 * nodes)%nat -> rep.[id * zn_grp geo + Z.of_nat (meta + i)] = Some (dsc i);
  bo_dsc : forall k z, (k < nodes)%nat -> (z < 64)%nat ->
    descr_ok (u k) (Z.of_nat z) (start (meta + 64 * k + z)) (dsc (64 * k + z))
}.

(** The metadata entry once its zone has been seen. *)
Definition ent_seen (i : nat) : app_zmd_entry :=
  let wp := zd_wp (dsc (i - meta)) in ze_set_wptr_inflight (ze_set_wptr (ent i) wp) wp.

Definition zone_of (i : nat) : ztl_pro_zone :=
  {| pz_addr := ze_addr (ent (meta + i)); pz_zmd_entry := Some (meta + i)%nat; pz_capacity := zd_zcap (dsc i);
     pz_lock := 0; pz_state := Some (zd_zs (dsc i)) |}.

(** Node [k] with its first [m] zones. *)
Definition slots (m k : nat) : list (option nat) :=
  (fun z => if decide (z < m)%nat then Some (64 * k + z)%nat else None) <$> seq 0 64.

Definition partial (m k : nat) : ztl_pro_node := pn_set_vzones node_zero (slots m k).

Definition final (k : nat) : ztl_pro_node :=
  init_node (Z.of_nat k) (cfull (u k) 64) (csum (u k) 64) (partial 64 k).

(** The nodes of the first [k] that hold no command, some, or all they can. *)
Definition free_of (k : nat) : list nat := filter (fun i => u i = 0) (seq 0 k).
Definition used_of (k : nat) : list nat := filter (fun i => 0 < u i < 196608) (seq 0 k).
Definition full_of (k : nat) : list nat := filter (fun i => u i = 196608) (seq 0 k).

(** The provisioning with [k] nodes complete and [z] zones of the next. *)
Definition ipro (k z : nat) : ztl_pro_node_grp :=
  {| pg_vnodes := (fun i => if decide (i < k)%nat then final i
                            else if decide (i = k) then partial z k else node_zero) <$> seq 0 nodes;
     pg_vzones := (fun i => if decide (i < 64 * k + z)%nat then zone_of i else zone_zero) <$> seq 0 entries;
     pg_nfree := Z.of_nat (length (free_of k)); pg_nzones := Z.of_nat entries; pg_nnodes := Z.of_nat nodes;
     pg_free_head := free_of k; pg_used_head := used_of k; pg_full_head := full_of k |}.

Definition itbl (k z : nat) : list app_zmd_entry :=
  (fun i => if decide (meta <= i < meta + 64 * k + z)%nat then ent_seen i else ent i) <$> seq 0 entries.

Definition istate (k z : nat) : initst :=
  {| is_node_i := Z.of_nat k; is_zone_num := Z.of_nat z; is_full := cfull (u k) (Z.of_nat z);
     is_sec := csum (u k) (Z.of_nat z); is_tbl := itbl k z; is_pro := ipro k z |}.

Hypothesis (HB : bootable).

Lemma ent_addr i : (i < entries)%nat ->
  maddr_zone (ze_addr (ent i)) = Z.of_nat i /\ maddr_grp (ze_addr (ent i)) = id /\
  maddr_sect (ze_addr (ent i)) = start i /\ 0 <= start i < 2 ^ 36.
Proof using HB.
  intros Hi. pose proof (bo_entries HB) as He. pose proof (bo_fit HB i Hi) as Hf. pose proof (bo_id HB) as Hid.
  change ZTL_PRO_SEC_NUM_INZONE with 24576 in Hf. pose proof (bo_sec HB) as Hs.
  assert (Hr : 0 <= u32 (sec_grp geo * id) < 2 ^ 32) by (apply wrap_range; lia).
  assert (Hst : 0 <= start i < 2 ^ 36) by (unfold start in *; nia).
  unfold ent, zmd_entry; cbn [ze_addr]. rewrite maddr_zone_set_sect, maddr_grp_set_sect, maddr_sect_set_sect.
  assert (Hsec : u64 (u32 (sec_grp geo * id) + u64 (sec_zn geo * Z.of_nat i)) = start i).
  { rewrite (wrap_small 64 (sec_zn geo * _)) by (unfold start in *; nia). apply wrap_small. unfold start in *. lia. }
  rewrite Hsec, (wrap_small 36) by lia. split_and!; auto; try lia.
  - unfold maddr_zone, maddr_set_zone. rewrite bf_get_set_eq by lia. apply wrap_small. lia.
  - unfold maddr_grp, maddr_set_zone, maddr_set_grp. rewrite bf_get_set_ne by lia. rewrite bf_get_set_eq by lia.
    apply wrap_small. lia.
Qed.

(** The contribution of zone [z] of node [k]. *)
Lemma count_ok (k z : nat) :
  (k < nodes)%nat -> (z < 64)%nat ->
  init_count (dsc (64 * k + z)) (ze_flags (ent (meta + (64 * k + z)))) (start (meta + (64 * k + z)))
    (cfull (u k) (Z.of_nat z)) (csum (u k) (Z.of_nat z)) =
  Some (cfull (u k) (Z.of_nat (S z)), csum (u k) (Z.of_nat (S z))).
Proof using HB.
  intros Hk Hz. pose proof (bo_u HB k Hk) as Hu. rewrite ZTL_PRO_OPT_SEC_NUM_INNODE_eq in Hu.
  pose proof (bo_r HB). destruct (ent_addr (meta + (64 * k + z))) as (_ & _ & _ & Hst); [unfold entries; nia|].
  pose proof (bo_dsc HB k z Hk Hz) as Hd. replace (meta + 64 * k + z)%nat with (meta + (64 * k + z))%nat in Hd by lia.
  replace (Z.of_nat (S z)) with (Z.of_nat z + 1) by lia.
  rewrite cfull_step, csum_step by lia.
  pose proof (csum_range (u k) (Z.of_nat z) Hu ltac:(lia)).
  assert (0 <= stripe_count (u k) (Z.of_nat z) <= 3072) by (unfold stripe_count; zdiv).
  unfold init_count. destruct Hd as [(Hc & -> & Hw)|[(Hc & Hs & Hw)|(Hc & -> & Hcap)]].
  - rewrite Hc. simpl. f_equal. f_equal; lia.
  - replace (stripe_count (u k) (Z.of_nat z) =? 3072) with false by lia.
    assert (Hv : i32 (csum (u k) (Z.of_nat z) + u64 (zd_wp (dsc (64 * k + z)) - start (meta + (64 * k + z)))) =
      csum (u k) (Z.of_nat z) + 8 * stripe_count (u k) (Z.of_nat z)).
    { rewrite Hw, wrap_small by lia. rewrite i32_small; lia. }
    destruct Hs as [-> |[-> | ->]]; rewrite Hv, Z.add_0_r; done.
  - rewrite Hcap, Hc. change ZTL_PRO_SEC_NUM_INZONE with 24576. rewrite i32_small by lia. simpl. f_equal.
Qed.

(** ** The arrays *)

Lemma tab_decide {A} (P Q : nat -> Prop) `{!forall i, Decision (P i)} `{!forall i, Decision (Q i)}
    (f g : nat -> A) (n k : nat) :
  (k < n)%nat -> (forall i, Q i <-> P i \/ i = k) ->
  aset ((fun i => if decide (P i) then f i else g i) <$> seq 0 n) (Z.of_nat k) (f k) =
  Some ((fun i => if decide (Q i) then f i else g i) <$> seq 0 n).
Proof using.
  intros Hk HQ. rewrite <- (aset_tabulated (fun i => if decide (P i) then f i else g i) (fun i => if decide (Q i) then f i else g i) n k); [|done|].
  - f_equal. rewrite decide_True; [done|]. apply HQ. by right.
  - intros j Hj Hne. apply decide_ext. rewrite HQ. naive_solver.
Qed.

Lemma itbl_get (k z : nat) :
  (k < nodes)%nat -> (z < 64)%nat -> (itbl k z).[Z.of_nat (meta + (64 * k + z))] = Some (ent (meta + (64 * k + z))).
Proof using HB.
  intros Hk Hz. unfold itbl. rewrite aget_tabulated by (unfold entries; nia). by rewrite decide_False by lia.
Qed.

Lemma itbl_set (k z : nat) :
  (k < nodes)%nat -> (z < 64)%nat ->
  aset (itbl k z) (Z.of_nat (meta + (64 * k + z))) (ent_seen (meta + (64 * k + z))) = Some (itbl k (S z)).
Proof using HB.
  intros Hk Hz. unfold itbl. apply (tab_decide (fun i => (meta <= i < meta + 64 * k + z)%nat)
    (fun i => (meta <= i < meta + 64 * k + S z)%nat) ent_seen ent); [unfold entries; nia|]. intros i. lia.
Qed.

Lemma vzones_set (k z : nat) :
  (k < nodes)%nat -> (z < 64)%nat ->
  aset (pg_vzones (ipro k z)) (Z.of_nat (64 * k + z)) (zone_of (64 * k + z)) = Some (pg_vzones (ipro k (S z))).
Proof using HB.
  intros Hk Hz. unfold ipro; cbn [pg_vzones]. apply (tab_decide (fun i => (i < 64 * k + z)%nat)
    (fun i => (i < 64 * k + S z)%nat) zone_of (fun _ => zone_zero)); [unfold entries; nia|]. intros i. lia.
Qed.

Lemma slots_set (k z : nat) :
  (z < 64)%nat -> aset (slots z k) (Z.of_nat z) (Some (64 * k + z)%nat) = Some (slots (S z) k).
Proof using.
  intros Hz. unfold slots. apply (tab_decide (fun w => (w < z)%nat) (fun w => (w < S z)%nat)
    (fun w => Some (64 * k + w)%nat) (fun _ => None)); [done|]. intros i. lia.
Qed.

Lemma vnodes_get (k z : nat) : (k < nodes)%nat -> (pg_vnodes (ipro k z)).[Z.of_nat k] = Some (partial z k).
Proof using.
  intros Hk. unfold ipro; cbn [pg_vnodes]. rewrite aget_tabulated by done.
  by rewrite decide_False, decide_True by lia.
Qed.

Lemma vnodes_set (k z : nat) : (k < nodes)%nat ->
  aset (pg_vnodes (ipro k z)) (Z.of_nat k) (partial (S z) k) = Some (pg_vnodes (ipro k (S z))).
Proof using.
  intros Hk. unfold ipro; cbn [pg_vnodes].
  rewrite <- (aset_tabulated (fun i => if decide (i < k)%nat then final i else if decide (i = k) then partial z k else node_zero)
    (fun i => if decide (i < k)%nat then final i else if decide (i = k) then partial (S z) k else node_zero) nodes k); [|done|].
  - by rewrite (decide_False (P := (k < k)%nat)), decide_True by lia.
  - intros j Hj Hne. by rewrite !(decide_False (P := j = k)).
Qed.

Lemma vnodes_final (k : nat) : (k < nodes)%nat ->
  aset (pg_vnodes (ipro k 64)) (Z.of_nat k) (final k) = Some (pg_vnodes (ipro (S k) 0)).
Proof using.
  intros Hk. unfold ipro; cbn [pg_vnodes].
  rewrite <- (aset_tabulated (fun i => if decide (i < k)%nat then final i else if decide (i = k) then partial 64 k else node_zero)
    (fun i => if decide (i < S k)%nat then final i else if decide (i = S k) then partial 0 (S k) else node_zero) nodes k); [|done|].
  - by rewrite (decide_True (P := (k < S k)%nat)) by lia.
  - intros j Hj Hne. destruct (decide (j < k)%nat); repeat case_decide; try done; try lia.
Qed.

(** One zone joins the node. *)
Lemma init_zone_ok (k z : nat) :
  (k < nodes)%nat -> (z < 64)%nat ->
  init_zone (zn_grp geo) (Z.of_nat meta) id rep (Z.of_nat (meta + (64 * k + z))) (istate k z) =
  Some (istate k (S z)).
Proof using HB.
  intros Hk Hz. pose proof (bo_r HB) as Hr.
  assert (Hi : (64 * k + z < 64 * nodes)%nat) by nia.
  assert (Hie : (meta + (64 * k + z) < entries)%nat) by (unfold entries; lia).
  destruct (ent_addr (meta + (64 * k + z)) Hie) as (Hzo & Hgr & Hse & _).
  pose proof (bo_zn HB) as [Hzg Hzb]. pose proof (bo_id HB).
  unfold init_zone. cbn [is_tbl istate]. rewrite itbl_get by done. cbn [mbind option_bind].
  rewrite Hzo, Hgr, !Z.eqb_refl. cbn [negb orb].
  change (ctrue (Z.land (ze_flags (ent (meta + (64 * k + z)))) XZTL_ZMD_RSVD)) with false.
  change (ctrue (Z.land (ze_flags (ent (meta + (64 * k + z)))) XZTL_ZMD_AVLB)) with true. cbn [negb orb].
  rewrite wrap_small, (bo_rep HB _ Hi) by nia. cbn [mbind option_bind].
  cbn [is_pro istate is_node_i is_zone_num is_full is_sec].
  replace (Z.of_nat (meta + (64 * k + z)) - Z.of_nat meta) with (Z.of_nat (64 * k + z)) by lia. rewrite !Nat2Z.id.
  fold (zone_of (64 * k + z)). rewrite vzones_set by done. cbn [mbind option_bind].
  rewrite vnodes_get by done. cbn [mbind option_bind]. change (pn_vzones (partial z k)) with (slots z k).
  rewrite slots_set by done. cbn [mbind option_bind].
  change (pn_set_vzones (partial z k) (slots (S z) k)) with (partial (S z) k).
  rewrite vnodes_set by done. cbn [mbind option_bind].
  change (pz_addr (zone_of (64 * k + z))) with (ze_addr (ent (meta + (64 * k + z)))).
  rewrite Hse, (count_ok k z Hk Hz). cbn [is_tbl is_node_i is_zone_num is_pro].
  pose proof (itbl_set k z Hk Hz) as Htb. unfold ent_seen in Htb.
  replace (meta + (64 * k + z) - meta)%nat with (64 * k + z)%nat in Htb by lia. cbn zeta in Htb. rewrite Htb.
  cbn [mbind option_bind]. unfold istate. f_equal. f_equal. lia.
Qed.

(** ** Complete nodes *)

Lemma final_counts (k : nat) : (k < nodes)%nat ->
  final k = (if u k =? 196608 then pn_set_used (pn_set_left (pn_set_status (pn_set_level (pn_set_nr_valid (pn_set_id (partial 64 k) (Z.of_nat k)) 0) (-1)) XZTL_ZMD_NODE_FULL) 0) 196608
             else if u k =? 0 then pn_set_used (pn_set_left (pn_set_status (pn_set_level (pn_set_nr_valid (pn_set_id (partial 64 k) (Z.of_nat k)) 0) (-1)) XZTL_ZMD_NODE_FREE) 196608) 0
             else pn_set_used (pn_set_left (pn_set_status (pn_set_level (pn_set_nr_valid (pn_set_id (partial 64 k) (Z.of_nat k)) 0) (-1)) XZTL_ZMD_NODE_USED) (196608 - u k)) (u k)).
Proof using HB.
  intros Hk. pose proof (bo_u HB k Hk) as Hu. rewrite ZTL_PRO_OPT_SEC_NUM_INNODE_eq in Hu.
  unfold final, init_node. cst. rewrite cfull_all, csum_all by done.
  destruct (Z.eqb_spec (u k) 196608); [done|]. destruct (Z.eqb_spec (u k) 0) as [->|]; [done|].
  replace (8 * u k =? 0) with false by lia.
  rewrite (Z.mul_comm 8 (u k)), Z.quot_mul by lia. rewrite !wrap_small by lia. done.
Qed.

Lemma filter_snoc (P : nat -> Prop) `{!forall i, Decision (P i)} (k : nat) :
  filter P (seq 0 (S k)) = if decide (P k) then filter P (seq 0 k) ++ [k] else filter P (seq 0 k).
Proof using.
  rewrite seq_S, filter_app. simpl. rewrite filter_cons, filter_nil. case_decide; [done|apply app_nil_r].
Qed.

Lemma queues_snoc k :
  free_of (S k) = (if decide (u k = 0) then free_of k ++ [k] else free_of k) /\
  used_of (S k) = (if decide (0 < u k < 196608) then used_of k ++ [k] else used_of k) /\
  full_of (S k) = (if decide (u k = 196608) then full_of k ++ [k] else full_of k).
Proof using.
  unfold free_of, used_of, full_of.
  split_and!; (etrans; [exact (filter_snoc _ k)|]); repeat case_decide; done.
Qed.

Lemma free_of_bound k : (k <= nodes)%nat -> Z.of_nat (length (free_of k)) < 2 ^ 20.
Proof using HB.
  intros Hk. pose proof (bo_entries HB) as He. unfold entries in He.
  pose proof (length_filter (fun i => u i = 0) (seq 0 k)) as Hl. rewrite length_seq in Hl.
  unfold free_of. lia.
Qed.

(** The end of a node. *)
Lemma init_finish_ok (k : nat) :
  (k < nodes)%nat ->
  exists p, init_finish (Z.of_nat entries) (Z.of_nat (meta + 64 * S k)) (istate k 64) =
      Some (bool_decide (S k = nodes), p) /\
    is_tbl p = itbl (S k) 0 /\ is_pro p = ipro (S k) 0 /\ ((S k < nodes)%nat -> p = istate (S k) 0).
Proof using HB.
  intros Hk. pose proof (bo_r HB) as Hr. pose proof (bo_entries HB) as He. pose proof (bo_u HB k Hk) as Hu.
  rewrite ZTL_PRO_OPT_SEC_NUM_INNODE_eq in Hu.
  unfold init_finish. cst. cbn [is_zone_num istate is_node_i is_full is_sec is_pro is_tbl].
  change (Z.of_nat 64 =? 64) with true. cbn iota.
  unfold upd_vnode. rewrite vnodes_get by done. cbn [mbind option_bind].
  change (Z.of_nat 64) with 64. fold (final k). rewrite vnodes_final by done. cbn [mbind option_bind].
  assert (Hb : (u32 (u32 (Z.of_nat entries - Z.of_nat (meta + 64 * S k)) + 1) <? 64) = bool_decide (S k = nodes)).
  { unfold entries in *. rewrite (wrap_small 32 (_ - _)), wrap_small by nia.
    case_bool_decide; [apply Z.ltb_lt|apply Z.ltb_ge]; nia. }
  rewrite Hb. eexists. split; [done|]. cbn [is_tbl is_pro].
  assert (Ht : itbl k 64 = itbl (S k) 0) by (unfold itbl; by replace (meta + 64 * S k + 0)%nat with (meta + 64 * k + 64)%nat by lia).
  assert (Hp : enqueue_node (Z.of_nat k) (cfull (u k) 64) (csum (u k) 64) (pg_set_vnodes (ipro k 64) (pg_vnodes (ipro (S k) 0))) = ipro (S k) 0).
  { unfold enqueue_node, tailq_insert_tail. cst. rewrite cfull_all, csum_all, Nat2Z.id by done.
    pose proof (free_of_bound (S k) ltac:(lia)) as Hfb.
    assert (Hvz : pg_vzones (ipro k 64) = pg_vzones (ipro (S k) 0)).
    { unfold ipro; cbn [pg_vzones]. by replace (64 * S k + 0)%nat with (64 * k + 64)%nat by lia. }
    unfold ipro in Hvz |- *. cbn [pg_vzones pg_vnodes] in Hvz |- *.
    destruct (queues_snoc k) as (Q1 & Q2 & Q3). rewrite Q1 in Hfb. rewrite Q1, Q2, Q3.
    unfold pg_set_full_head, pg_set_free_head, pg_set_used_head, pg_set_nfree, pg_set_vnodes.
    cbn [pg_vzones pg_vnodes pg_nfree pg_nzones pg_nnodes pg_free_head pg_used_head pg_full_head]. rewrite Hvz.
    destruct (Z.eqb_spec (u k) 196608) as [Huk|]; [|destruct (Z.eqb_spec (8 * u k) 0) as [Huk|]].
    - rewrite (decide_False (P := u k = 0)), (decide_False (P := 0 < u k < 196608)), (decide_True (P := u k = 196608)) by lia. done.
    - rewrite (decide_True (P := u k = 0)) in Hfb |- * by lia.
      rewrite (decide_False (P := 0 < u k < 196608)), (decide_False (P := u k = 196608)) by lia.
      rewrite length_app in Hfb |- *. simpl length in Hfb |- *. f_equal. rewrite wrap_small; lia.
    - rewrite (decide_False (P := u k = 0)), (decide_True (P := 0 < u k < 196608)), (decide_False (P := u k = 196608)) by lia. done. }
  split_and!; auto. intros Hlt. rewrite bool_decide_false by lia. unfold istate. rewrite Ht, Hp.
  pose proof (bo_u HB (S k) Hlt) as Hu'.
  assert (cfull (u (S k)) (Z.of_nat 0) = 0) as -> by (unfold cfull; destruct (Z.leb_spec (u (S k)) (64 * 3071)); lia).
  assert (csum (u (S k)) (Z.of_nat 0) = 0) as -> by (unfold csum; zdiv).
  f_equal; lia.
Qed.

(** ** The loop *)

Abbreviation loop := (init_loop (zn_grp geo) (Z.of_nat meta) (Z.of_nat entries) id rep).

Lemma zones_run (m : nat) : forall (k z n : nat),
  (k < nodes)%nat -> (z + m <= 64)%nat ->
  loop (m + n) (Z.of_nat (meta + (64 * k + z))) (istate k z) =
  loop n (Z.of_nat (meta + (64 * k + (z + m)))) (istate k (z + m)).
Proof using HB.
  induction m as [|m IH]; intros k z n Hk Hz; [by rewrite Nat.add_0_r|].
  cbn [Nat.add init_loop]. unfold init_finish. cst. cbn [is_zone_num istate].
  replace (Z.of_nat z =? 64) with false by lia. cbn [mbind option_bind].
  rewrite init_zone_ok by lia. cbn [mbind option_bind].
  replace (Z.of_nat (meta + (64 * k + z)) + 1) with (Z.of_nat (meta + (64 * k + S z))) by lia.
  rewrite IH by lia. f_equal; [f_equal; lia|f_equal; lia].
Qed.

Lemma nodes_run (j : nat) : forall (k : nat),
  (S k + j = nodes)%nat ->
  exists p, loop (64 * j + r) (Z.of_nat (meta + 64 * S k)) (istate k 64) = Some p /\
    is_tbl p = itbl nodes 0 /\ is_pro p = ipro nodes 0.
Proof using HB.
  pose proof (bo_r HB) as Hr. induction j as [|j IH]; intros k Hk;
    destruct (init_finish_ok k ltac:(lia)) as (p & Hfin & Ht & Hp & Hst).
  - rewrite Nat.mul_0_r, Nat.add_0_l. destruct r as [|r'] eqn:Er; [lia|]. cbn [init_loop].
    rewrite Hfin. cbn [mbind option_bind]. rewrite bool_decide_true by lia.
    exists p. replace nodes with (S k) by lia. done.
  - rewrite (Hst ltac:(lia)) in Hfin. rewrite bool_decide_false in Hfin by lia.
    replace (64 * S j + r)%nat with (S (63 + (64 * j + r))) by lia. cbn [init_loop]. rewrite Hfin.
    cbn [mbind option_bind]. replace (meta + 64 * S k)%nat with (meta + (64 * S k + 0))%nat by lia.
    rewrite init_zone_ok by lia. cbn [mbind option_bind].
    replace (Z.of_nat (meta + (64 * S k + 0)) + 1) with (Z.of_nat (meta + (64 * S k + 1))) by lia.
    rewrite zones_run by lia. destruct (IH (S k) ltac:(lia)) as (p' & Hrun & Hp').
    exists p'. split; [|done]. rewrite <- Hrun. f_equal. f_equal. lia.
Qed.

Lemma tab_const {A} (n : nat) (x : A) (f : nat -> A) :
  (forall i, f i = x) -> replicate n x = f <$> seq 0 n.
Proof using.
  intros Hf. apply list_eq. intros i. destruct (decide (i < n)%nat).
  - rewrite lookup_replicate_2, list_lookup_fmap, lookup_seq_lt by done. simpl. by rewrite Hf.
  - rewrite !lookup_ge_None_2; [done|..]; rewrite ?length_replicate, ?length_fmap, ?length_seq; lia.
Qed.

Lemma node_init_ok (g : app_group) :
  grp_entries g = Z.of_nat entries -> grp_id g = id -> grp_report g = rep ->
  grp_tbl g = ent <$> seq 0 entries ->
  ztl_pro_grp_node_init (zn_grp geo) (Z.of_nat meta) true g =
  Some (XZTL_OK, grp_set_pro (grp_set_tbl g (itbl nodes 0)) (Some (ipro nodes 0))).
Proof using HB.
  intros He Hid Hrep Htbl. pose proof (bo_r HB) as Hr. pose proof (bo_nodes HB) as Hn. pose proof (bo_entries HB) as Hb.
  unfold ztl_pro_grp_node_init. rewrite He, Hid, Hrep, Htbl. cbn [ztl_pro_grp_new_pro]. cst.
  assert (Hnn : Z.to_nat (u32 (Z.of_nat entries - Z.of_nat meta) / 64) = nodes).
  { unfold entries in *. rewrite wrap_small by lia. zdiv. }
  assert (H0 : {| is_node_i := 0; is_zone_num := 0; is_full := 0; is_sec := 0; is_tbl := ent <$> seq 0 entries;
    is_pro := {| pg_vnodes := replicate (Z.to_nat (u32 (Z.of_nat entries - Z.of_nat meta) / 64)) node_zero;
            pg_vzones := replicate (Z.to_nat (Z.of_nat entries)) zone_zero;
            pg_nfree := 0; pg_nzones := Z.of_nat entries; pg_nnodes := u32 (Z.of_nat entries - Z.of_nat meta) / 64;
            pg_free_head := []; pg_used_head := []; pg_full_head := [] |} |} = istate 0 0).
  { rewrite Hnn, Nat2Z.id. pose proof (bo_u HB 0 Hn) as Hu. unfold istate. f_equal.
    - unfold cfull. destruct (Z.leb_spec (u 0) (64 * 3071)); lia.
    - unfold csum. zdiv.
    - unfold itbl. apply list_fmap_ext. intros _ i _. by rewrite decide_False by lia.
    - unfold ipro. f_equal; [..|lia].
      + apply (tab_const nodes). intros i. rewrite decide_False by lia. by case_decide as Hi; [subst|].
      + apply (tab_const entries). intros i. by rewrite decide_False by lia. }
  rewrite H0. destruct (nodes_run (pred nodes) 0 ltac:(lia)) as (p & Hrun & Ht & Hp).
  replace (Z.to_nat (Z.of_nat entries - Z.of_nat meta)) with (64 + (64 * pred nodes + r))%nat
    by (unfold entries; lia).
  replace (Z.of_nat meta) with (Z.of_nat (meta + (64 * 0 + 0))) at 2 by lia.
  rewrite zones_run by lia. replace (meta + (64 * 0 + (0 + 64)))%nat with (meta + 64 * 1)%nat by lia.
  change (0 + 64)%nat with 64%nat. rewrite Hrun. cbn [mbind option_bind]. by rewrite Ht, Hp.
Qed.

(** ** What the start-up leaves *)

Abbreviation P := (ipro nodes 0).
Abbreviation T := (itbl nodes 0).

Lemma booted_node k : (k < nodes)%nat -> pg_vnodes P !! k = Some (final k).
Proof using.
  intros Hk. unfold ipro; cbn [pg_vnodes]. rewrite list_lookup_fmap, lookup_seq_lt by done. simpl.
  by rewrite decide_True.
Qed.

Lemma booted_node_inv k node : pg_vnodes P !! k = Some node -> (k < nodes)%nat /\ node = final k.
Proof using.
  intros Hn. assert (Hk : (k < nodes)%nat).
  { apply lookup_lt_Some in Hn. unfold ipro in Hn; cbn [pg_vnodes] in Hn. by rewrite length_fmap, length_seq in Hn. }
  rewrite booted_node in Hn by done. by injection Hn as <-.
Qed.

Lemma final_fields k : (k < nodes)%nat ->
  pn_id (final k) = Z.of_nat k /\ pn_vzones (final k) = slots 64 k /\ pn_used (final k) = u k /\
  pn_left (final k) = ZTL_PRO_OPT_SEC_NUM_INNODE - u k /\
  (u k = 0 -> pn_status (final k) = XZTL_ZMD_NODE_FREE).
Proof using HB.
  intros Hk. rewrite final_counts by done. cst.
  destruct (Z.eqb_spec (u k) 196608) as [E|]; [rewrite E; by split_and!|].
  destruct (Z.eqb_spec (u k) 0) as [E|]; [rewrite E; by split_and!|]. split_and!; done || lia.
Qed.

Lemma booted_slot k z : (k < nodes)%nat -> 0 <= z < 64 ->
  slot_zone P (final k) z = Some (zone_of (64 * k + Z.to_nat z)).
Proof using HB.
  intros Hk Hz. pose proof (bo_r HB). unfold slot_zone.
  destruct (final_fields k Hk) as (_ & -> & _). unfold slots.
  rewrite <- (Z2Nat.id z) at 1 by lia. rewrite aget_tabulated, decide_True by lia. simpl.
  rewrite list_lookup_fmap, lookup_seq_lt by (unfold entries; lia). simpl.
  by rewrite decide_True by lia.
Qed.

Lemma booted_ei k z : (k < nodes)%nat -> 0 <= z < 64 ->
  slot_ei P (final k) z = Some (meta + (64 * k + Z.to_nat z))%nat.
Proof using HB. intros Hk Hz. unfold slot_ei. by rewrite booted_slot. Qed.

Lemma booted_wf k : (k < nodes)%nat -> node_wf P (final k) (length T).
Proof using HB.
  intros Hk. pose proof (bo_r HB). constructor.
  - intros z Hz. eexists _, _. split_and!; [by apply booted_slot|done|].
    unfold itbl. rewrite length_fmap, length_seq. unfold entries. lia.
  - intros z z' ei Hz Hz'. rewrite !booted_ei by done. intros [= <-] [= Heq]. lia.
Qed.

Lemma booted_sect k z : (k < nodes)%nat -> 0 <= z < 64 ->
  maddr_sect (pz_addr (zone_of (64 * k + Z.to_nat z))) = start (meta + (64 * k + Z.to_nat z)).
Proof using HB.
  intros Hk Hz. pose proof (bo_r HB). unfold zone_of; cbn [pz_addr].
  destruct (ent_addr (meta + (64 * k + Z.to_nat z))) as (_ & _ & -> & _); [unfold entries; lia|done].
Qed.

Lemma booted_fits k : (k < nodes)%nat -> node_fits P (final k).
Proof using HB.
  intros Hk z zone Hz. pose proof (bo_r HB). rewrite booted_slot by done. intros <-%(inj Some).
  rewrite booted_sect by done. apply (bo_fit HB). unfold entries. lia.
Qed.

Lemma booted_indexed : zones_indexed (Z.of_nat meta) P.
Proof using HB.
  split; [lia|]. intros zi zone ei. pose proof (bo_r HB). unfold ipro; cbn [pg_vzones].
  rewrite list_lookup_fmap_Some. intros (i & -> & [Hi Hlt]%lookup_seq).
  rewrite Nat.add_0_l in Hi. subst i. case_decide as Hd; [|done]. intros _.
  destruct (ent_addr (meta + zi)) as (Hz & _); [unfold entries; lia|]. unfold zone_of; cbn [pz_addr].
  rewrite Hz. lia.
Qed.

Lemma booted_striped fld k :
  (k < nodes)%nat -> u k <= 64 * 3071 -> (forall i, fld (ent_seen i) = zd_wp (dsc (i - meta))) ->
  striped fld P (final k) T (u k).
Proof using HB.
  intros Hk Hu Hfld z zone ei e Hz. pose proof (bo_r HB). pose proof (bo_u HB k Hk) as Hu0.
  rewrite booted_slot by done. intros <-%(inj Some) <-%(inj Some). unfold itbl.
  rewrite list_lookup_fmap, lookup_seq_lt by (unfold entries; lia). cbn [fmap option_fmap option_map].
  rewrite decide_True by lia. intros [= <-]. rewrite Hfld, booted_sect by done.
  match goal with |- context [dsc ?i] => replace i with (64 * k + Z.to_nat z)%nat by lia end.
  pose proof (bo_dsc HB k (Z.to_nat z) Hk ltac:(lia)) as Hd. rewrite Z2Nat.id in Hd by lia.
  replace (meta + 64 * k + Z.to_nat z)%nat with (meta + (64 * k + Z.to_nat z))%nat in Hd by lia.
  destruct Hd as [(Hc & _ & ->)|[(_ & _ & ->)|(Hc & _)]]; [lia|done|].
  exfalso. unfold stripe_count in Hc. zdiv.
Qed.

Lemma booted_writable g k :
  (k < nodes)%nat -> u k <= 64 * 3071 -> writable (Z.of_nat meta) (grp_set_pro (grp_set_tbl g T) (Some P)) P k (final k).
Proof using HB.
  intros Hk Hu. destruct (final_fields k Hk) as (Hid & _ & Hus & Hl & _). pose proof (bo_u HB k Hk).
  constructor; rewrite ?Hus, ?Hl; auto; try lia.
  - by apply booted_node.
  - by apply booted_wf.
  - by apply booted_fits.
  - by apply booted_indexed.
  - by apply booted_striped.
  - by apply booted_striped.
Qed.

Lemma booted_queue k :
  ((k ∈ pg_free_head P) <-> (k < nodes)%nat /\ u k = 0) /\
  ((k ∈ pg_used_head P) <-> (k < nodes)%nat /\ 0 < u k < ZTL_PRO_OPT_SEC_NUM_INNODE) /\
  ((k ∈ pg_full_head P) <-> (k < nodes)%nat /\ u k = ZTL_PRO_OPT_SEC_NUM_INNODE).
Proof using.
  cst. simpl. unfold free_of, used_of, full_of. rewrite !list_elem_of_filter, !elem_of_seq.
  split_and!; split; intros; destruct_and?; split_and!; done || lia.
Qed.

Lemma booted_ok : pro_ok P.
Proof using HB.
  pose proof (bo_entries HB) as He. unfold entries in He.
  assert (Hin : forall n, n ∈ queues P -> (n < nodes)%nat).
  { intros n. unfold queues. rewrite !elem_of_app. destruct (booted_queue n) as (-> & -> & ->). tauto. }
  constructor.
  - unfold queues. rewrite !NoDup_app. split_and!; try (apply NoDup_filter, NoDup_seq).
    + intros x. rewrite elem_of_app. destruct (booted_queue x) as (-> & -> & ->). cst. lia.
    + intros x. destruct (booted_queue x) as (_ & -> & ->). lia.
  - intros n Hn%Hin. exists (final n). destruct (final_fields n Hn) as (Hid & _ & Hus & Hl & _).
    pose proof (bo_u HB n Hn). rewrite booted_node, Hid, Hus, Hl by done. split_and!; done || lia.
  - simpl. pose proof (free_of_bound nodes ltac:(lia)). split; [done|lia].
  - intros n [Hn Hu]%(proj1 (proj1 (booted_queue n))) node Hnode.
    rewrite booted_node in Hnode by done. injection Hnode as <-.
    destruct (final_fields n Hn) as (_ & _ & -> & _ & Hst). auto.
  - intros n [Hn Hu]%(proj1 (proj2 (proj2 (booted_queue n)))) node Hnode.
    rewrite booted_node in Hnode by done. injection Hnode as <-.
    destruct (final_fields n Hn) as (_ & _ & _ & -> & _). lia.
Qed.

End Init.
