(* ===== verification/InitTheorems.v ===== *)
(** Properties of the start-up: groups and zone metadata (xztl-groups.c,
    ztl-zmd.c) and nodes (ztl-pro-grp.c). *)

From S2P Require Import Prelude Types Sim Stats ProGrp Media Zns Device Io IoPopulate IoFlight IoSubmit IoWrite IoRequest IoTheorems NodeInit InitOk.

(** * The group *)

(** The group as its zone metadata start leaves it. *)
Definition started_group (geo : xztl_mgeo) (id : Z) (rep : list znd_descr) : app_group :=
  {| grp_id := id; grp_active := 0; grp_need_gc := 0; grp_busy := 0; grp_magic := APP_MAGIC;
     grp_entries := zn_grp geo; grp_tbl := ent geo id <$> seq 0 (Z.to_nat (zn_grp geo));
     grp_report := rep; grp_pro := None |}.

Lemma zmd_init_ok geo id rep :
  groups_zmd_init geo true (Some rep) (group_zero id) = Some (XZTL_OK, started_group geo id rep).
Proof.
  unfold groups_zmd_init. cbn [negb ztl_zmd_load ztl_zmd_load_report].
  change (ctrue XZTL_OK) with false. cbv iota beta. change (grp_magic (grp_set_magic _ APP_MAGIC) =? APP_MAGIC) with true.
  cbv iota. unfold ztl_zmd_create.
  cbn [grp_entries grp_tbl grp_set_magic grp_set_report grp_set_tbl grp_set_entries group_zero].
  rewrite decide_True by (rewrite length_replicate; lia). cbn [mbind option_bind].
  rewrite drop_ge by (rewrite length_replicate; lia). rewrite app_nil_r. done.
Qed.

(** ** The group list *)

Lemma groups_loop_ok geo alloc rep (n : nat) : forall (k : nat) head,
  (forall i, fst (alloc i) = true /\ snd (alloc i) = true) ->
  groups_init_loop geo alloc (Some rep) n (Z.of_nat k) head =
  Some (Z.of_nat (k + n), rev ((fun i => grp_set_active (started_group geo (Z.of_nat i) rep) 1) <$> seq k n) ++ head).
Proof.
  induction n as [|n IH]; intros k head Ha; cbn [groups_init_loop].
  - simpl. by rewrite Nat.add_0_r.
  - destruct (Ha (Z.of_nat k)) as [-> ->]. simpl negb. cbn iota. rewrite zmd_init_ok. cbn [mbind option_bind].
    simpl ctrue. cbn iota. replace (Z.of_nat k + 1) with (Z.of_nat (S k)) by lia. rewrite (IH (S k)) by done.
    f_equal. f_equal; [lia|]. cbn [seq fmap list_fmap rev]. by rewrite <- app_assoc.
Qed.

Lemma elem_of_rev {A} (x : A) l : x ∈ rev l <-> x ∈ l.
Proof. induction l as [|y l IH]; simpl; [done|]. rewrite elem_of_app, elem_of_cons, IH. set_solver. Qed.

Lemma get_list_ok (gs : list app_group) : forall (out : list (option app_group)) n,
  (length gs <= length out)%nat ->
  groups_get_list_loop (rev gs) (Z.of_nat (length gs) - 1) n out =
  Some (n + Z.of_nat (length gs), (Some <$> gs) ++ drop (length gs) out).
Proof.
  induction gs as [|g gs IH] using rev_ind; intros out n Hl.
  - simpl. by rewrite Z.add_0_r, drop_0.
  - rewrite rev_app_distr, length_app in *. simpl in Hl |- *.
    assert (Hlen : Z.of_nat (length gs + 1) - 1 = Z.of_nat (length gs)) by lia. rewrite !Hlen.
    rewrite (proj2 (Z.ltb_ge _ _)) by lia.
    rewrite aset_Some by lia. cbn [mbind option_bind]. rewrite Nat2Z.id, IH by (rewrite length_insert; lia).
    f_equal. f_equal; [lia|]. rewrite fmap_app, <- app_assoc. f_equal. simpl.
    rewrite drop_insert_ge, Nat.sub_diag by lia.
    destruct (lookup_lt_is_Some_2 out (length gs)) as [x Hx]; [lia|].
    rewrite (drop_S _ _ _ Hx). simpl. by rewrite Nat.add_1_r.
Qed.

(** * The write engine after the start-up *)

Lemma boot_engine {D : Type} `{HX : !Xnvme D} `{HQ : !QueueLaws D} `{HZ : !ZnsLaws D}
    geo (meta nodes r : nat) u dsc rep (s : iostate D) g :
  bootable geo 0 meta nodes r u dsc rep -> sec_zn geo = z_nsect ->
  io_g s = grp_set_pro (grp_set_tbl g (itbl geo 0 meta nodes r dsc nodes 0)) (Some (ipro geo 0 meta nodes r u dsc nodes 0)) ->
  io_node s = None -> arrays_ok s -> q_pending (io_dev s) = [] ->
  (forall k z, (k < nodes)%nat -> u k = 0 -> 0 <= z < 64 ->
     let zone := Z.of_nat (meta + 64 * k) + z in z_wp (io_dev s) zone = zone * z_nsect) ->
  engine (Z.of_nat meta) s (ipro geo 0 meta nodes r u dsc nodes 0).
Proof.
  intros HB Hsz Hg Hnode Harr Hidle Hwp. pose proof (bo_r _ _ _ _ _ _ _ _ HB) as Hr.
  set (P := ipro geo 0 meta nodes r u dsc nodes 0) in *.
  assert (Hslot : forall k z, (k < nodes)%nat -> 0 <= z < 64 ->
    slot_devz P (final u k) z = Z.of_nat (meta + 64 * k) + z /\
    slot_sect P (final u k) z = (Z.of_nat (meta + 64 * k) + z) * z_nsect).
  { intros k z Hk Hz. unfold slot_devz, slot_sect, P. rewrite (booted_slot geo 0 meta nodes r u dsc rep HB) by done.
    rewrite (booted_sect geo 0 meta nodes r u dsc rep HB) by done.
    destruct (ent_addr geo 0 meta nodes r u dsc rep HB (meta + (64 * k + Z.to_nat z))) as (Hzo & _);
      [unfold entries; lia|].
    unfold zone_of; cbn [pz_addr]. rewrite Hzo. unfold start. rewrite Z.mul_0_r, Hsz.
    change (u32 0) with 0. split; [lia|].
    rewrite Z.add_0_l, Z.mul_comm. f_equal. lia. }
  assert (Hnodes : forall n node, pg_vnodes P !! n = Some node -> (n < nodes)%nat /\ node = final u n)
    by (intros; by eapply booted_node_inv).
  assert (Hav : forall n node, avail P (io_node s) n -> pg_vnodes P !! n = Some node ->
    (n < nodes)%nat /\ u n = 0 /\ node = final u n).
  { intros n node [Hin|Hn] [Hlt ->]%Hnodes; [|congruence].
    by apply (proj1 (booted_queue geo 0 meta nodes r u dsc n)) in Hin as [_ Hu]. }
  constructor; auto.
  - by rewrite Hg.
  - by eapply booted_ok.
  - intros n. by rewrite Hnode.
  - intros n node Ha Hn. destruct (Hav n node Ha Hn) as (Hlt & Hu & ->). rewrite Hg.
    eapply booted_writable; eauto. lia.
  - intros n node Ha Hn. destruct (Hav n node Ha Hn) as (Hlt & Hu & ->).
    constructor; intros z Hz; destruct (Hslot n z Hlt Hz) as [-> ->]; [done|].
    destruct (final_fields geo 0 meta nodes r u dsc rep HB n Hlt) as (_ & _ & -> & _).
    rewrite Hu, (Hwp n z Hlt Hu Hz). unfold stripe_count. zdiv.
  - intros n n' node node' z z' ei Hne [Hlt ->]%Hnodes [Hlt' ->]%Hnodes Hz Hz'. unfold P.
    rewrite !(booted_ei geo 0 meta nodes r u dsc rep HB) by done. intros [= <-] [= Heq]. lia.
  - by eapply booted_indexed.
  - intros n node _ [Hlt ->]%Hnodes. rewrite Hg. split_and!.
    + by eapply booted_wf.
    + intros z Hz. by destruct (Hslot n z Hlt Hz) as [-> ->].
    + by eapply booted_fits.
  - pose proof (bo_entries _ _ _ _ _ _ _ _ HB) as He. unfold entries in He. unfold P, ipro; cbn [pg_vnodes].
    rewrite length_fmap, length_seq. lia.
Qed.

(** * Properties *)

(** C10. Recovery of the nodes.  A group of 64 zones per node, with 1 to 62 zones
    left over, is started from the device's report: when the zones of node [k]
    hold the stripe of [u k] commands, the start-up succeeds, every node has its
    [u k] commands used and the rest left, the nodes are on the free, used and
    full queues according to [u k], the queue invariant holds, and every node
    that has no full zone can be written on from where it was. *)
Theorem ztl_pro_grp_node_init_recovers geo id (meta nodes r : nat) u dsc rep :
  bootable geo id meta nodes r u dsc rep -> zn_grp geo = Z.of_nat (entries meta nodes r) ->
  exists g g' pro,
    groups_zmd_init geo true (Some rep) (group_zero id) = Some (XZTL_OK, g) /\
    ztl_pro_grp_node_init (zn_grp geo) (Z.of_nat meta) true g = Some (XZTL_OK, g') /\
    grp_pro g' = Some pro /\ pro_ok pro /\ length (pg_vnodes pro) = nodes /\
    forall k, (k < nodes)%nat -> exists node, pg_vnodes pro !! k = Some node /\
      pn_used node = u k /\ pn_left node = ZTL_PRO_OPT_SEC_NUM_INNODE - u k /\
      (k ∈ pg_free_head pro <-> u k = 0) /\
      (k ∈ pg_used_head pro <-> 0 < u k < ZTL_PRO_OPT_SEC_NUM_INNODE) /\
      (k ∈ pg_full_head pro <-> u k = ZTL_PRO_OPT_SEC_NUM_INNODE) /\
      (u k <= ZTL_PRO_OPT_SEC_NUM_INNODE - 64 -> writable (Z.of_nat meta) g' pro k node).
Proof.
  intros HB Hzn. eexists (started_group geo id rep), _, _. split_and!.
  - apply zmd_init_ok.
  - apply (node_init_ok geo _ meta nodes r u dsc rep HB); auto. simpl. by rewrite Hzn, Nat2Z.id.
  - done.
  - by eapply booted_ok.
  - simpl. by rewrite length_fmap, length_seq.
  - intros k Hk. exists (final u k). destruct (final_fields _ _ _ _ _ _ _ _ HB k Hk) as (_ & _ & Hu & Hl & _).
    destruct (booted_queue geo id meta nodes r u dsc k) as (-> & -> & ->). cst.
    split_and!; [by apply booted_node|done|done|tauto|tauto|tauto|].
    intros Hle. eapply booted_writable; eauto; lia.
Qed.

(** A device of three nodes and two metadata zones: an empty node, a node with
    [w] commands, a full one. *)
Definition sim_geo : xztl_mgeo :=
  {| ngrps := 1; pu_grp := 1; zn_pu := 204; sec_zn := sd_zone_size; nbytes := 4096; nbytes_oob := 0;
     zn_dev := 204; zn_grp := 204; sec_dev := 204 * sd_zone_size; sec_grp := 204 * sd_zone_size;
     sec_pu := 204 * sd_zone_size; nbytes_zn := 4096 * sd_zone_size; nbytes_grp := 204 * 4096 * sd_zone_size;
     oob_grp := 0; oob_pu := 0; oob_zn := 0 |}.

Definition sim_u (w : Z) (k : nat) : Z := match k with O => 0 | 1%nat => w | _ => 196608 end.

Definition sim_dsc (u : nat -> Z) (i : nat) : znd_descr :=
  let c := stripe_count (u (i / 64)%nat) (Z.of_nat (i mod 64)%nat) in
  {| zd_zs := if c =? 0 then ZND_STATE_EMPTY else if c =? 3072 then ZND_STATE_FULL else ZND_STATE_CLOSED;
     zd_zcap := 24576; zd_wp := sd_zone_size * Z.of_nat (2 + i) + 8 * c |}.

Definition sim_report (u : nat -> Z) : list znd_descr :=
  (fun i => sim_dsc u (i - 2)) <$> seq 0 204.

Lemma sim_bootable w : 0 <= w <= 196608 ->
  bootable sim_geo 0 2 3 10 (sim_u w) (sim_dsc (sim_u w)) (sim_report (sim_u w)).
Proof.
  intros Hw. assert (Hu : forall k, 0 <= sim_u w k <= 196608) by (intros [|[|k]]; simpl; lia).
  constructor; try (simpl; unfold entries; lia).
  - simpl. unfold sd_zone_size. lia.
  - intros i Hi. unfold start, entries in *. rewrite Z.mul_0_r. change (u32 0) with 0.
    change (sec_zn sim_geo) with 32768. change ZTL_PRO_SEC_NUM_INZONE with 24576. lia.
  - intros k _. cst. apply Hu.
  - intros i Hi. unfold sim_report. rewrite Z.mul_0_l, Z.add_0_l, aget_tabulated by lia.
    by replace (2 + i - 2)%nat with i by lia.
  - intros k z Hk Hz. unfold descr_ok, sim_dsc. cbn [zd_zs zd_wp zd_zcap].
    replace ((64 * k + z) / 64)%nat with k by (apply (Nat.div_unique _ 64 k z); lia).
    replace ((64 * k + z) mod 64)%nat with z by (apply (Nat.mod_unique _ 64 k z); lia).
    specialize (Hu k). set (c := stripe_count (sim_u w k) (Z.of_nat z)).
    assert (0 <= c <= 3072) by (unfold c, stripe_count; zdiv).
    assert (Hst : start sim_geo 0 (2 + 64 * k + z) = sd_zone_size * Z.of_nat (2 + (64 * k + z))).
    { unfold start. simpl sec_grp. rewrite Z.mul_0_r. change (u32 0) with 0. change (sec_zn sim_geo) with sd_zone_size.
      rewrite Z.add_0_l. replace (2 + 64 * k + z)%nat with (2 + (64 * k + z))%nat by lia. done. }
    rewrite Hst. destruct (Z.eqb_spec c 0); [left; split_and!; auto; lia|].
    destruct (Z.eqb_spec c 3072); right; [right|left]; split_and!; auto; lia.
Qed.

(** The start of this device. *)
Lemma sim_started w : 0 <= w <= 196608 -> exists g g',
  groups_zmd_init sim_geo true (Some (sim_report (sim_u w))) (group_zero 0) = Some (XZTL_OK, g) /\
  ztl_pro_grp_node_init 204 2 true g = Some (XZTL_OK, g').
Proof.
  intros Hw. eexists _, _. split; [apply zmd_init_ok|].
  eapply (node_init_ok sim_geo 0 2 3 10); [by apply sim_bootable|done..].
Qed.

Lemma ztl_pro_grp_node_init_recovers_witness :
  exists g g' pro,
    groups_zmd_init sim_geo true (Some (sim_report (sim_u 100))) (group_zero 0) = Some (XZTL_OK, g) /\
    ztl_pro_grp_node_init 204 2 true g = Some (XZTL_OK, g') /\ grp_pro g' = Some pro /\ pro_ok pro.
Proof.
  destruct (ztl_pro_grp_node_init_recovers sim_geo 0 2 3 10 (sim_u 100) (sim_dsc (sim_u 100)) (sim_report (sim_u 100)))
    as (g & g' & pro & Hg & Hi & Hp & Hok & _).
  - apply sim_bootable. split; discriminate.
  - reflexivity.
  - exists g, g', pro. split; [exact Hg|]. split; [exact Hi|]. split; [exact Hp|exact Hok].
Defined.

(** C11. The start-up establishes the invariant of the write engine: when the
    zones the device reports empty are empty, a fresh I/O context over the started
    group satisfies the invariant under which write requests are correct. *)
Theorem node_init_establishes_engine {D : Type} `{HX : !Xnvme D} `{HQ : !QueueLaws D} `{HZ : !ZnsLaws D}
    geo (meta nodes r : nat) u dsc rep g g' (s : iostate D) :
  bootable geo 0 meta nodes r u dsc rep -> zn_grp geo = Z.of_nat (entries meta nodes r) -> sec_zn geo = z_nsect ->
  groups_zmd_init geo true (Some rep) (group_zero 0) = Some (XZTL_OK, g) ->
  ztl_pro_grp_node_init (zn_grp geo) (Z.of_nat meta) true g = Some (XZTL_OK, g') ->
  io_g s = g' -> io_node s = None -> arrays_ok s -> q_pending (io_dev s) = [] ->
  (forall k z, (k < nodes)%nat -> u k = 0 -> 0 <= z < 64 ->
     let zone := Z.of_nat (meta + 64 * k) + z in z_wp (io_dev s) zone = zone * z_nsect) ->
  exists pro, engine (Z.of_nat meta) s pro.
Proof.
  intros HB Hzn Hsz Hg Hg' Hs Hnode Harr Hidle Hwp. rewrite zmd_init_ok in Hg. injection Hg as <-.
  assert (Hok : ztl_pro_grp_node_init (zn_grp geo) (Z.of_nat meta) true (started_group geo 0 rep) =
    Some (XZTL_OK, grp_set_pro (grp_set_tbl (started_group geo 0 rep) (itbl geo 0 meta nodes r dsc nodes 0))
      (Some (ipro geo 0 meta nodes r u dsc nodes 0)))).
  { apply (node_init_ok geo _ meta nodes r u dsc rep HB); auto. simpl. by rewrite Hzn, Nat2Z.id. }
  rewrite Hok in Hg'. apply (inj Some) in Hg'. apply (f_equal snd) in Hg'. cbn [snd] in Hg'.
  eexists. eapply boot_engine; eauto. by rewrite Hs, <- Hg'.
Qed.

(** The simulated context over the started group. *)
Definition sim_booted : iostate simdev :=
  match groups_zmd_init sim_geo true (Some (sim_report (sim_u 100))) (group_zero 0) with
  | Some (_, g) =>
      match ztl_pro_grp_node_init 204 2 true g with
      | Some (_, g') => io_set_g (sim_io 0 (sim_ucmd 65536 32768)) g'
      | None => sim_io 0 (sim_ucmd 0 0)
      end
  | None => sim_io 0 (sim_ucmd 0 0)
  end.

Lemma node_init_establishes_engine_witness : exists pro, engine 2 sim_booted pro.
Proof.
  destruct (sim_started 100) as (g & g' & Hg & Hi); [split; discriminate|].
  apply (node_init_establishes_engine sim_geo 2 3 10 (sim_u 100) (sim_dsc (sim_u 100)) (sim_report (sim_u 100)) g g').
  - apply sim_bootable. split; discriminate.
  - reflexivity.
  - reflexivity.
  - exact Hg.
  - exact Hi.
  - unfold sim_booted. rewrite Hg, Hi. reflexivity.
  - unfold sim_booted. rewrite Hg, Hi. reflexivity.
  - unfold sim_booted. rewrite Hg, Hi. constructor; try reflexivity. split_and!; try reflexivity. apply sim_prov_wf.
  - unfold sim_booted. rewrite Hg, Hi. reflexivity.
  - intros k z _ _ _. unfold sim_booted. rewrite Hg, Hi. reflexivity.
Defined.

(** A group of [n] empty zones, and the number of nodes and the queues of a
    started group. *)
Definition empty_group (n : nat) : app_group :=
  started_group {| ngrps := 1; pu_grp := 1; zn_pu := Z.of_nat n; sec_zn := sd_zone_size; nbytes := 4096;
     nbytes_oob := 0; zn_dev := Z.of_nat n; zn_grp := Z.of_nat n; sec_dev := 0; sec_grp := 0; sec_pu := 0;
     nbytes_zn := 0; nbytes_grp := 0; oob_grp := 0; oob_pu := 0; oob_zn := 0 |} 0
    ((fun i => {| zd_zs := ZND_STATE_EMPTY; zd_zcap := 24576; zd_wp := sd_zone_size * Z.of_nat i |}) <$> seq 0 n).

Definition booted_queues (r : option (Z * app_group)) : option (nat * list nat) :=
  '(_, g) ← r; pro ← grp_pro g; Some (length (pg_vnodes pro), queues pro).

(** Left-over zones.  The node of the last 64 zones is completed when the
    loop meets the zone after them.  When the zones after the metadata zones are
    a multiple of 64, the last node is therefore built but put on no queue; with
    63 zones left over the loop writes past the array of nodes. *)
Theorem ztl_pro_grp_node_init_leftover :
  booted_queues (ztl_pro_grp_node_init 66 2 true (empty_group 66)) = Some (1%nat, []) /\
  booted_queues (ztl_pro_grp_node_init 130 2 true (empty_group 130)) = Some (2%nat, [0%nat]) /\
  ztl_pro_grp_node_init 129 2 true (empty_group 129) = None.
Proof. split_and!; vm_compute; reflexivity. Qed.

(** The group list.  When the report and the memory are available, the
    groups start with the ids 0, 1, ...; [groups_get_list] returns all of them in
    the order of their ids, and [groups_get] finds each by its id. *)
Theorem groups_init_lists geo alloc rep (n : nat) :
  ngrps geo = Z.of_nat n -> (forall i, fst (alloc i) = true /\ snd (alloc i) = true) ->
  exists head gs,
    groups_init geo alloc (Some rep) = Some (Z.of_nat n, head) /\
    groups_get_list head (Z.of_nat n) = Some (Z.of_nat n, Some <$> gs) /\ length gs = n /\
    forall i, (i < n)%nat -> exists g, gs !! i = Some g /\ grp_id g = Z.of_nat i /\ grp_active g = 1 /\
      groups_get head (Z.of_nat i) = Some g.
Proof.
  intros Hn Ha. set (f := fun i => grp_set_active (started_group geo (Z.of_nat i) rep) 1).
  exists (rev (f <$> seq 0 n)), (f <$> seq 0 n).
  assert (Hl : length (f <$> seq 0 n) = n) by (by rewrite length_fmap, length_seq).
  split_and!; [|..|done|].
  - unfold groups_init. rewrite Hn, Nat2Z.id. etrans; [apply (groups_loop_ok geo alloc rep n 0); done|].
    by rewrite app_nil_r.
  - unfold groups_get_list. rewrite Nat2Z.id.
    pose proof (get_list_ok (f <$> seq 0 n) (replicate n None) 0) as Hg. rewrite Hl, length_replicate in Hg.
    rewrite Hg by lia. by rewrite drop_ge, app_nil_r by (rewrite length_replicate; lia).
  - intros i Hi. exists (f i). split_and!; auto; [by rewrite list_lookup_fmap, lookup_seq_lt|].
    unfold groups_get.
    assert (Hin : f i ∈ rev (f <$> seq 0 n)).
    { rewrite elem_of_rev. apply list_elem_of_fmap. exists i. split; [done|]. apply elem_of_seq. lia. }
    destruct (list_find_elem_of (fun g => grp_id g = Z.of_nat i) _ _ Hin eq_refl) as [[j g] Hf].
    rewrite Hf. simpl. f_equal. apply list_find_Some in Hf as (Hj & Hid & _).
    apply list_elem_of_lookup_2 in Hj. rewrite elem_of_rev in Hj. apply list_elem_of_fmap in Hj as (i' & -> & _).
    simpl in Hid. apply Nat2Z.inj in Hid. by subst.
Qed.

Lemma groups_init_lists_witness :
  exists head gs, groups_init sim_geo (fun _ => (true, true)) (Some []) = Some (1, head) /\
    groups_get_list head 1 = Some (1, Some <$> gs) /\ length gs = 1%nat.
Proof.
  destruct (groups_init_lists sim_geo (fun _ => (true, true)) [] 1) as (head & gs & H1 & H2 & H3 & _).
  - reflexivity.
  - intros i. split; reflexivity.
  - exists head, gs. split; [exact H1|]. split; [exact H2|exact H3].
Defined.
