(* ===== verification/Mgmt.v ===== *)
(** Zone management: [znd_media_zone_mgmt] of src/xztl/src/ztl-media.c and the
    management commands of src/xztl/src/ztl-mgmt-cmd.c (reset and finish of the
    zones of a node, the submission queue and its thread).

    The class [Xznd] stands for xnvme_znd_mgmt_send and xnvme_znd_report_from_dev:
    the call's result, the completion status and the device afterwards.  The
    request entries of the memory pool are values; [mp_ok] is the result of
    xztl_mempool_get. *)

From S2P Require Import Prelude Types Stats ProGrp Media.

(** * The media layer *)

Definition XZTL_ZONE_MGMT_CLOSE : Z := 1.
Definition XZTL_ZONE_MGMT_FINISH : Z := 2.
Definition XZTL_ZONE_MGMT_OPEN : Z := 3.
Definition XZTL_ZONE_MGMT_RESET : Z := 4.
Definition XZTL_ZONE_MGMT_REPORT : Z := 15.

Inductive zmgmt_op := MGMT_SEND_CLOSE | MGMT_SEND_FINISH | MGMT_SEND_OPEN | MGMT_SEND_RESET.

Class Xznd (D : Type) := {
  xz_mgmt_send : D -> Z -> bool -> zmgmt_op -> Z * Z * D;
  xz_report : D -> option (list znd_descr)
}.

(** [struct xztl_zn_mcmd]; [zc_opaque] is the report. *)
Record xztl_zn_mcmd := {
  zc_opcode : Z; zc_status : Z; zc_addr : Z; zc_nzones : Z; zc_opaque : option (list znd_descr)
}.

(** The state the management commands work on. *)
Record mgst (D : Type) := { mg_g : app_group; mg_stats : xztl_stats; mg_dev : D }.
Arguments Build_mgst {D}.
Arguments mg_g {D}.
Arguments mg_stats {D}.
Arguments mg_dev {D}.

Definition mg_set_g {D} (s : mgst D) v : mgst D := Build_mgst v (mg_stats s) (mg_dev s).
Definition mg_set_stats {D} (s : mgst D) v : mgst D := Build_mgst (mg_g s) v (mg_dev s).
Definition mg_set_dev {D} (s : mgst D) v : mgst D := Build_mgst (mg_g s) (mg_stats s) v.

Section Mgmt.

Context {D : Type} `{!Xznd D}.
(** [devgeo->nzone] and [devgeo->nsect] *)
Context (nzone nsect : Z).
Implicit Types (s : mgst D) (cmd : xztl_zn_mcmd).

(** The address of the command; the variable that holds it has 32 bits. *)
Definition manage_lba (addr : Z) : Z :=
  u32 (u32 (u32 (nzone * maddr_grp addr) + maddr_zone addr) * nsect).

Definition znd_media_zone_manage s cmd (op : zmgmt_op) : Z * xztl_zn_mcmd * mgst D :=
  let '(ret, cpl, d) := xz_mgmt_send (mg_dev s) (manage_lba (zc_addr cmd)) (1 <? zc_nzones cmd) op in
  (ret,
   {| zc_opcode := zc_opcode cmd; zc_status := if ctrue ret then u8 cpl else XZTL_OK;
      zc_addr := zc_addr cmd; zc_nzones := zc_nzones cmd; zc_opaque := zc_opaque cmd |},
   mg_set_dev s d).

Definition znd_media_zone_report s cmd : Z * xztl_zn_mcmd * mgst D :=
  match xz_report (mg_dev s) with
  | None => (ZND_MEDIA_REPORT_ERR, cmd, s)
  | Some rep =>
      (XZTL_OK,
       {| zc_opcode := zc_opcode cmd; zc_status := zc_status cmd; zc_addr := zc_addr cmd;
          zc_nzones := zc_nzones cmd; zc_opaque := Some rep |}, s)
  end.

Definition znd_media_zone_mgmt s cmd : option (Z * xztl_zn_mcmd * mgst D) :=
  if zc_opcode cmd =? XZTL_ZONE_MGMT_CLOSE then Some (znd_media_zone_manage s cmd MGMT_SEND_CLOSE)
  else if zc_opcode cmd =? XZTL_ZONE_MGMT_FINISH then Some (znd_media_zone_manage s cmd MGMT_SEND_FINISH)
  else if zc_opcode cmd =? XZTL_ZONE_MGMT_OPEN then Some (znd_media_zone_manage s cmd MGMT_SEND_OPEN)
  else if zc_opcode cmd =? XZTL_ZONE_MGMT_RESET then
    st ← xztl_stats_inc (mg_stats s) XZTL_STATS_RESET_MCMD 1;
    Some (znd_media_zone_manage (mg_set_stats s st) cmd MGMT_SEND_RESET)
  else if zc_opcode cmd =? XZTL_ZONE_MGMT_REPORT then Some (znd_media_zone_report s cmd)
  else Some (ZND_INVALID_OPCODE, cmd, s).

(** The command for one zone at [addr]; [status] and [opaque] are not set. *)
Definition zone_cmd (opcode addr : Z) : xztl_zn_mcmd :=
  {| zc_opcode := opcode; zc_status := 0; zc_addr := addr; zc_nzones := 1; zc_opaque := None |}.

(** * Commands on the zones of a node *)

(** [*zmd_entry = f( *zmd_entry )] for the metadata entry [ei] *)
Definition upd_entry s (ei : nat) (f : app_zmd_entry -> app_zmd_entry) : option (mgst D) :=
  e ← grp_tbl (mg_g s) !! ei;
  Some (mg_set_g s (grp_set_tbl (mg_g s) (<[ei := f e]> (grp_tbl (mg_g s))))).

Definition upd_mnode s (n : nat) (f : ztl_pro_node -> ztl_pro_node) : option (mgst D) :=
  g ← upd_node (mg_g s) n f;
  Some (mg_set_g s g).

Definition ztl_mgmt_node_reset_zn s (zone : ztl_pro_zone) : option (Z * mgst D) :=
  ei ← pz_zmd_entry zone;
  '(ret, cmd, s1) ← znd_media_zone_mgmt s (zone_cmd XZTL_ZONE_MGMT_RESET (pz_addr zone));
  if ctrue ret || ctrue (zc_status cmd) then Some (ret, s1) else
  s2 ← upd_entry s1 ei (fun e => ze_set_wptr_inflight (ze_set_wptr e (maddr_sect (pz_addr zone)))
                                                      (maddr_sect (pz_addr zone)));
  Some (ret, s2).

(** [node->vzones[i]] *)
Definition node_zone s (n : nat) (i : Z) : option ztl_pro_zone :=
  pro ← grp_pro (mg_g s);
  node ← pg_vnodes pro !! n;
  slot_zone pro node i.

(** The loop over the zones of a node: [body] is one zone, [fail] what the node
    records on an error. *)
Fixpoint node_zones_loop (body : mgst D -> ztl_pro_zone -> option (Z * mgst D))
    (fail : ztl_pro_node -> ztl_pro_node) (n : nat) (k : nat) (i : Z) s : option (Z * mgst D) :=
  match k with
  | O => Some (0, s)
  | S k' =>
      zone ← node_zone s n i;
      '(ret, s1) ← body s zone;
      if ctrue ret then s2 ← upd_mnode s1 n fail; Some (ret, s2)
      else node_zones_loop body fail n k' (i + 1) s1
  end.

Definition reset_node (node : ztl_pro_node) : ztl_pro_node :=
  pn_set_level (pn_set_nr_valid (pn_set_used (pn_set_left (pn_set_status node XZTL_ZMD_NODE_FREE)
    ZTL_PRO_OPT_SEC_NUM_INNODE) 0) 0) (-1).

(** From the full to the free queue. *)
Definition reset_queues (pro : ztl_pro_node_grp) (n : nat) : option ztl_pro_node_grp :=
  full ← tailq_remove (pg_full_head pro) n;
  let pro := pg_set_free_head (pg_set_full_head pro full) (tailq_insert_tail (pg_free_head pro) n) in
  Some (pg_set_nfree pro (u32 (pg_nfree pro + 1))).

Definition ztl_mgmt_node_reset s (n : nat) : option (Z * mgst D) :=
  '(ret, s1) ← node_zones_loop ztl_mgmt_node_reset_zn
                 (fun nd => pn_set_nr_reset_err nd (u32 (pn_nr_reset_err nd + 1))) n 64 0 s;
  if ctrue ret then Some (ret, s1) else
  s2 ← upd_mnode s1 n reset_node;
  pro ← grp_pro (mg_g s2);
  pro' ← reset_queues pro n;
  Some (ret, mg_set_g s2 (grp_set_pro (mg_g s2) (Some pro'))).

(** One zone of [ztl_mgmt_node_finish].  The function returns the result of the
    call; a failure with result 0 ends the loop with 0: the boolean says so. *)
Definition finish_zn s (zone : ztl_pro_zone) : option (bool * Z * mgst D) :=
  '(ret, cmd, s1) ← znd_media_zone_mgmt s (zone_cmd XZTL_ZONE_MGMT_FINISH (pz_addr zone));
  if ctrue ret || ctrue (zc_status cmd) then Some (true, ret, s1) else
  ei ← pz_zmd_entry zone;
  s2 ← upd_entry s1 ei (fun e => ze_set_wptr e (u64 (maddr_sect (pz_addr zone) + pz_capacity zone)));
  Some (false, ret, s2).

Fixpoint finish_loop (n : nat) (k : nat) (i : Z) s : option (Z * mgst D) :=
  match k with
  | O => Some (0, s)
  | S k' =>
      zone ← node_zone s n i;
      '(failed, ret, s1) ← finish_zn s zone;
      if (failed : bool) then
        s2 ← upd_mnode s1 n (fun nd => pn_set_nr_finish_err nd (u32 (pn_nr_finish_err nd + 1)));
        Some (ret, s2)
      else finish_loop n k' (i + 1) s1
  end.

Definition ztl_mgmt_node_finish s (n : nat) : option (Z * mgst D) := finish_loop n 64 0 s.

(** [ztl_mgmt_clear_invalid_node] *)
Fixpoint clear_loop (k : nat) (node_id : nat) s : option (mgst D) :=
  match k with
  | O => Some s
  | S k' =>
      node ← node_at (mg_g s) node_id;
      if (pn_nr_valid node =? 0) && negb (pn_status node =? XZTL_ZMD_NODE_FREE) then
        '(_, s1) ← ztl_mgmt_node_reset s node_id;
        clear_loop k' (S node_id) s1
      else clear_loop k' (S node_id) s
  end.

Definition ztl_mgmt_clear_invalid_node s : option (mgst D) :=
  pro ← grp_pro (mg_g s);
  clear_loop (Z.to_nat (pg_nnodes pro)) 0 s.

(** * The submission queue and its thread *)

Definition ZTL_MGMG_FULL_ZONE : Z := 0.
Definition ZTL_MGMG_RESET_ZONE : Z := 1.
Definition MGMT_MAX_RETRY : nat := 3.

(** [struct xnvme_node_mgmt_entry] *)
Record mgmt_entry := { me_node : nat; me_op_code : Z }.

Definition ztl_mgmt_submit_reset_finish (mp_ok : bool) (submit_head : list mgmt_entry)
    (node : nat) (op_code : Z) : Z * list mgmt_entry :=
  if mp_ok then (XZTL_OK, tailq_insert_tail submit_head {| me_node := node; me_op_code := op_code |})
  else (XZTL_ZTL_PROV_GRP_ERR, submit_head).

(** The request with its retries: [retries] attempts are left. *)
Fixpoint mgmt_attempt (retries : nat) (et : mgmt_entry) s : option (Z * mgst D) :=
  '(ret, s1) ← (if me_op_code et =? ZTL_MGMG_FULL_ZONE then ztl_mgmt_node_finish s (me_node et)
                else ztl_mgmt_node_reset s (me_node et));
  if ctrue ret then
    st ← xztl_stats_inc (mg_stats s1) XZTL_STATS_MGMT_FAIL 1;
    let s2 := mg_set_stats s1 st in
    match retries with
    | O | 1%nat => Some (ret, s2)
    | S retries' => mgmt_attempt retries' et s2
    end
  else Some (ret, s1).

(** One turn of [ztl_mgmt_thd_process]: the first request of the queue. *)
Definition mgmt_process (submit_head : list mgmt_entry) s : option (list mgmt_entry * mgst D) :=
  match submit_head with
  | [] => Some ([], s)
  | et :: rest =>
      '(_, s1) ← mgmt_attempt MGMT_MAX_RETRY et s;
      Some (rest, s1)
  end.

(** The thread until the queue is empty. *)
Fixpoint mgmt_drain (submit_head : list mgmt_entry) s : option (mgst D) :=
  match submit_head with
  | [] => Some s
  | et :: rest =>
      '(_, s1) ← mgmt_attempt MGMT_MAX_RETRY et s;
      mgmt_drain rest s1
  end.

(** [ztl_pro_grp_reset_all_zones]: the address of the command is not set; the
    errors are logged only. *)
Definition ztl_pro_grp_reset_all_zones (addr : Z) s : option (Z * mgst D) :=
  '(_, _, s1) ← znd_media_zone_mgmt s
      {| zc_opcode := XZTL_ZONE_MGMT_RESET; zc_status := 0; zc_addr := addr;
         zc_nzones := grp_entries (mg_g s); zc_opaque := None |};
  Some (XZTL_OK, s1).

End Mgmt.
