(* ===== verification/MgmtOk.v ===== *)
(** Node resets: [ztl_mgmt_node_reset] (src/xztl/src/ztl-mgmt-cmd.c), on any
    device and on a healthy zoned one. *)

From S2P Require Import Prelude Types Sim Stats ProGrp Media Zns Device Io IoPopulate IoFlight IoSubmit IoWrite IoRequest IoTheorems Mgmt.

(** What a healthy zoned namespace guarantees of a zone reset, with no command in
    flight: it succeeds, the write pointer returns to the start of the zone, and
    the other zones keep their pointers and their contents. *)
Class ResetLaws (D : Type) `{HX : !Xnvme D} `{HQ : !QueueLaws D} `{HZ : !ZnsLaws D} `{HM : !Xznd D} := {
  zr_reset : forall d zone, q_pending d = [] ->
    exists cpl d', xz_mgmt_send d (zone * z_nsect) false MGMT_SEND_RESET = (0, cpl, d') /\
      q_pending d' = [] /\
      (forall zn, z_wp d' zn = if zn =? zone then zone * z_nsect else z_wp d zn) /\
      (forall sec off, sec / z_nsect <> zone -> z_data d' sec off = z_data d sec off)
}.

(** * Any device *)

Section Any.

Context {D : Type} `{HM : !Xznd D}.
Context (nzone nsect : Z).
Implicit Types (s : mgst D) (pro : ztl_pro_node_grp).

(** The state but for the metadata of the zones, the statistics and the device. *)
Record mg_frame s s' : Prop := {
  mf_pro : grp_pro (mg_g s') = grp_pro (mg_g s);
  mf_len : length (grp_tbl (mg_g s')) = length (grp_tbl (mg_g s));
  mf_stats : length (st_io (mg_stats s')) = length (st_io (mg_stats s))
}.

Lemma mg_frame_refl s : mg_frame s s.
Proof using. done. Qed.

Lemma mg_frame_trans s1 s2 s3 : mg_frame s1 s2 -> mg_frame s2 s3 -> mg_frame s1 s3.
Proof using. intros [] []. constructor; congruence. Qed.

Lemma stats_inc_length st t v :
  length (st_io st) = XZTL_STATS_IO_TYPES -> 0 <= t < 22 ->
  exists st', xztl_stats_inc st t v = Some st' /\ length (st_io st') = XZTL_STATS_IO_TYPES.
Proof using.
  intros Hl Ht. unfold xztl_stats_inc.
  destruct (proj2 (aget_is_Some (st_io st) t)) as [x Hx]; [rewrite Hl; unfold XZTL_STATS_IO_TYPES; lia|].
  rewrite Hx. simpl. rewrite aset_Some by (rewrite Hl; unfold XZTL_STATS_IO_TYPES; lia). simpl.
  eexists. split; [done|]. simpl. by rewrite length_insert.
Qed.

(** The reset of one zone, unfolded. *)
Lemma reset_zn_eq s zone ei st ret cpl d :
  pz_zmd_entry zone = Some ei -> xztl_stats_inc (mg_stats s) XZTL_STATS_RESET_MCMD 1 = Some st ->
  xz_mgmt_send (mg_dev s) (manage_lba nzone nsect (pz_addr zone)) false MGMT_SEND_RESET = (ret, cpl, d) ->
  ztl_mgmt_node_reset_zn nzone nsect s zone =
  let s1 := mg_set_dev (mg_set_stats s st) d in
  if ctrue ret then Some (ret, s1) else
  s2 ← upd_entry s1 ei (fun e => ze_set_wptr_inflight (ze_set_wptr e (maddr_sect (pz_addr zone)))
                                                      (maddr_sect (pz_addr zone)));
  Some (ret, s2).
Proof using.
  intros He Hst Hsend. unfold ztl_mgmt_node_reset_zn. rewrite He. cbn [mbind option_bind].
  change (znd_media_zone_mgmt nzone nsect s (zone_cmd XZTL_ZONE_MGMT_RESET (pz_addr zone))) with
    (st ← xztl_stats_inc (mg_stats s) XZTL_STATS_RESET_MCMD 1;
     Some (znd_media_zone_manage nzone nsect (mg_set_stats s st) (zone_cmd XZTL_ZONE_MGMT_RESET (pz_addr zone)) MGMT_SEND_RESET)).
  rewrite Hst. cbn [mbind option_bind]. unfold znd_media_zone_manage. cbn [zc_addr zc_nzones zone_cmd mg_dev mg_set_stats].
  change (1 <? 1) with false. rewrite Hsend. cbn [zc_status]. by destruct (ctrue ret).
Qed.

(** One zone: the call ends, and on a failure the metadata is untouched. *)
Lemma reset_zn_any s zone ei :
  pz_zmd_entry zone = Some ei -> (ei < length (grp_tbl (mg_g s)))%nat ->
  length (st_io (mg_stats s)) = XZTL_STATS_IO_TYPES ->
  exists ret s', ztl_mgmt_node_reset_zn nzone nsect s zone = Some (ret, s') /\ mg_frame s s'.
Proof using.
  intros He Hlt Hst.
  destruct (stats_inc_length (mg_stats s) XZTL_STATS_RESET_MCMD 1 Hst) as (st & Hinc & Hst'); [done|].
  destruct (xz_mgmt_send (mg_dev s) (manage_lba nzone nsect (pz_addr zone)) false MGMT_SEND_RESET)
    as [[ret cpl] d] eqn:Hsend.
  rewrite (reset_zn_eq s zone ei st ret cpl d) by done. cbn zeta.
  destruct (ctrue ret); [eexists _, _; split; [done|]; constructor; simpl; congruence|].
  unfold upd_entry. cbn [mg_g mg_set_dev mg_set_stats]. destruct (lookup_lt_is_Some_2 _ _ Hlt) as [e Hel].
  rewrite Hel. simpl. eexists _, _. split; [done|]. constructor; simpl; rewrite ?length_insert; congruence.
Qed.

(** The whole loop. *)
Lemma reset_loop_any (k : nat) : forall i s pro node n,
  grp_pro (mg_g s) = Some pro -> pg_vnodes pro !! n = Some node ->
  node_wf pro node (length (grp_tbl (mg_g s))) -> length (st_io (mg_stats s)) = XZTL_STATS_IO_TYPES ->
  0 <= i -> i + Z.of_nat k = 64 ->
  let f := fun nd => pn_set_nr_reset_err nd (u32 (pn_nr_reset_err nd + 1)) in
  exists ret s', node_zones_loop (ztl_mgmt_node_reset_zn nzone nsect) f n k i s = Some (ret, s') /\
    length (grp_tbl (mg_g s')) = length (grp_tbl (mg_g s)) /\
    grp_pro (mg_g s') = if ctrue ret then Some (pg_set_vnodes pro (<[n := f node]> (pg_vnodes pro))) else Some pro.
Proof using.
  induction k as [|k IH]; intros i s pro node n Hp Hn Hwf Hst Hi Hk f; cbn [node_zones_loop].
  - exists 0, s. split_and!; done.
  - destruct (nw_slot _ _ _ Hwf i ltac:(lia)) as (zone & ei & Hz & He & Hlt).
    unfold node_zone. rewrite Hp. cbn [mbind option_bind]. rewrite Hn. cbn [mbind option_bind]. rewrite Hz.
    cbn [mbind option_bind]. destruct (reset_zn_any s zone ei He Hlt Hst) as (ret & s1 & -> & [Fp Fl Fs]).
    cbn [mbind option_bind]. destruct (ctrue ret) eqn:Hr.
    + unfold upd_mnode, upd_node. rewrite Fp, Hp. cbn [mbind option_bind]. rewrite Hn. cbn [mbind option_bind].
      eexists ret, _. split; [done|]. rewrite Hr. simpl. split; [done|]. done.
    + assert (Hwf1 : node_wf pro node (length (grp_tbl (mg_g s1)))) by (by rewrite Fl).
      destruct (IH (i + 1) s1 pro node n ltac:(congruence) Hn Hwf1 ltac:(congruence) ltac:(lia) ltac:(lia))
        as (ret' & s' & Hrun & Hl & Hp').
      exists ret', s'. split; [exact Hrun|]. split; [congruence|done].
Qed.

End Any.

(** * The queues *)

Lemma reset_queues_ok pro n node :
  pro_ok pro -> n ∈ pg_full_head pro -> pg_vnodes pro !! n = Some node -> pg_nfree pro + 1 < 2 ^ 32 ->
  let pro1 := pg_set_vnodes pro (<[n := reset_node node]> (pg_vnodes pro)) in
  exists pro', reset_queues pro1 n = Some pro' /\ pro_ok pro' /\
    pg_free_head pro' = pg_free_head pro ++ [n] /\ pg_used_head pro' = pg_used_head pro /\
    pg_full_head pro' = remove_first n (pg_full_head pro) /\
    pg_vnodes pro' = pg_vnodes pro1 /\ pg_vzones pro' = pg_vzones pro /\ queues pro' ≡ₚ queues pro.
Proof.
  intros [Hnd Hc [Hnf Hnb] Hfr Hfu] Hin Hn Hb pro1. unfold reset_queues.
  assert (Hrm : tailq_remove (pg_full_head pro1) n = Some (remove_first n (pg_full_head pro)))
    by (by apply tailq_remove_Some).
  rewrite Hrm. cbn [mbind option_bind]. eexists. split; [done|].
  assert (Hq : (pg_free_head pro ++ [n]) ++ pg_used_head pro ++ remove_first n (pg_full_head pro) ≡ₚ queues pro).
  { unfold queues. rewrite (remove_first_perm _ _ Hin) at 2. solve_Permutation. }
  pose proof (remove_first_perm _ _ Hin) as Hfp. pose proof Hnd as Hnd0. unfold queues in Hnd0.
  rewrite !NoDup_app in Hnd0. destruct Hnd0 as (Nf & Nd1 & Nu & Nd2 & Nl).
  split; [|split_and!; try done].
  assert (Hlt : (n < length (pg_vnodes pro))%nat) by (by eapply lookup_lt_Some).
  destruct (Hc n) as (nd & Hnd' & Hid & Hl & Hu & Hcap); [unfold queues; set_solver|].
  assert (nd = node) as -> by congruence.
  constructor; cbn -[u32 Z.pow].
  - unfold queues; cbn -[u32 Z.pow]. unfold tailq_insert_tail. by rewrite Hq.
  - intros m. unfold queues; cbn -[u32 Z.pow]. unfold tailq_insert_tail. rewrite Hq. intros Hm.
    unfold node_counts; cbn -[u32 Z.pow]. destruct (decide (m = n)) as [->|Hne].
    + exists (reset_node node). rewrite list_lookup_insert_eq by done. split_and!; try done.
    + rewrite list_lookup_insert_ne by done. by apply Hc.
  - unfold tailq_insert_tail. rewrite length_app. simpl length. rewrite wrap_small by lia. lia.
  - intros m. unfold tailq_insert_tail, node_fresh; cbn -[u32 Z.pow]. destruct (decide (m = n)) as [->|Hne].
    + intros _ nd. rewrite list_lookup_insert_eq by done. by intros [= <-].
    + rewrite list_lookup_insert_ne by done. intros Hm. apply Hfr. set_solver.
  - intros m Hm nd. cbn -[u32 Z.pow]. rewrite elem_of_remove_first in Hm by done.
    rewrite list_lookup_insert_ne by (apply not_eq_sym, Hm). apply Hfu, Hm.
Qed.

(** * A healthy device *)

Section Healthy.

Context {D : Type} `{HX : !Xnvme D} `{HQ : !QueueLaws D} `{HZ : !ZnsLaws D} `{HM : !Xznd D} `{HR : !ResetLaws D}.
Context (nzone meta : Z) (pro : ztl_pro_node_grp) (n : nat) (node : ztl_pro_node) (s0 : mgst D).
Implicit Types (s : mgst D).

(** The zones of the node can be addressed with the 32 bits the code has. *)
Definition lba_fits : Prop :=
  forall z zone, 0 <= z < 64 -> slot_zone pro node z = Some zone ->
    manage_lba nzone z_nsect (pz_addr zone) = slot_devz pro node z * z_nsect.

Context (Hpro : grp_pro (mg_g s0) = Some pro) (Hnode : pg_vnodes pro !! n = Some node).
Context (Hwhole : zones_whole (length (grp_tbl (mg_g s0))) pro node) (Hidx : zones_indexed meta pro).
Context (Hlba : lba_fits).

(** The state after the reset of the first [i] zones. *)
Record rst (i : Z) s : Prop := {
  rs_g : mg_g s = grp_set_tbl (mg_g s0) (grp_tbl (mg_g s));
  rs_len : length (grp_tbl (mg_g s)) = length (grp_tbl (mg_g s0));
  rs_done : forall z zone ei, 0 <= z < i -> slot_zone pro node z = Some zone -> pz_zmd_entry zone = Some ei ->
    exists e, grp_tbl (mg_g s) !! ei = Some e /\
      ze_wptr e = maddr_sect (pz_addr zone) /\ ze_wptr_inflight e = maddr_sect (pz_addr zone);
  rs_other : forall ei, (forall z, 0 <= z < i -> slot_ei pro node z <> Some ei) ->
    grp_tbl (mg_g s) !! ei = grp_tbl (mg_g s0) !! ei;
  rs_idle : q_pending (mg_dev s) = [];
  rs_wp : forall z, 0 <= z < i -> z_wp (mg_dev s) (slot_devz pro node z) = slot_sect pro node z;
  rs_wp_other : forall zn, (forall z, 0 <= z < i -> slot_devz pro node z <> zn) ->
    z_wp (mg_dev s) zn = z_wp (mg_dev s0) zn;
  rs_data : forall sec off, (forall z, 0 <= z < 64 -> sec / z_nsect <> slot_devz pro node z) ->
    z_data (mg_dev s) sec off = z_data (mg_dev s0) sec off;
  rs_stats : length (st_io (mg_stats s)) = XZTL_STATS_IO_TYPES
}.

(** The metadata after the entry of zone [i] was reset. *)
Lemma rst_entry i (tbl : list app_zmd_entry) zone ei e e' :
  0 <= i < 64 -> slot_zone pro node i = Some zone -> pz_zmd_entry zone = Some ei -> tbl !! ei = Some e ->
  ze_wptr e' = maddr_sect (pz_addr zone) -> ze_wptr_inflight e' = maddr_sect (pz_addr zone) ->
  (forall z zone ei, 0 <= z < i -> slot_zone pro node z = Some zone -> pz_zmd_entry zone = Some ei ->
    exists e, tbl !! ei = Some e /\
      ze_wptr e = maddr_sect (pz_addr zone) /\ ze_wptr_inflight e = maddr_sect (pz_addr zone)) ->
  forall z zone' ei', 0 <= z < i + 1 -> slot_zone pro node z = Some zone' -> pz_zmd_entry zone' = Some ei' ->
    exists e0, <[ei := e']> tbl !! ei' = Some e0 /\
      ze_wptr e0 = maddr_sect (pz_addr zone') /\ ze_wptr_inflight e0 = maddr_sect (pz_addr zone').
Proof using Hwhole.
  intros Hi Hz Hei He W1 W2 Hdone z zone' ei' Hlt Hz' Hei'.
  destruct (decide (z = i)) as [->|Hne].
  - assert (zone' = zone) as -> by congruence. assert (ei' = ei) as -> by congruence.
    exists e'. rewrite list_lookup_insert_eq by (by eapply lookup_lt_Some). done.
  - assert (ei <> ei').
    { intros ->. destruct Hwhole as (Hwf & _). apply Hne.
      apply (nw_inj _ _ _ Hwf z i ei'); eauto using slot_ei_zone; lia. }
    rewrite list_lookup_insert_ne by done. apply (Hdone z); auto. lia.
Qed.

Lemma rst_step i s :
  rst i s -> 0 <= i < 64 ->
  exists zone s', slot_zone pro node i = Some zone /\
    ztl_mgmt_node_reset_zn nzone z_nsect s zone = Some (0, s') /\ rst (i + 1) s'.
Proof using Hlba Hidx Hwhole HR.
  intros [Rg Rl Rd Ro Ri Rw Rwo Rda Rs] Hi. destruct Hwhole as (Hwf & Hstart & _).
  destruct (nw_slot _ _ _ Hwf i Hi) as (zone & ei & Hz & Hei & Hlt). exists zone.
  destruct (stats_inc_length (mg_stats s) XZTL_STATS_RESET_MCMD 1 Rs) as (st & Hst & Hstl); [done|].
  destruct (zr_reset (mg_dev s) (slot_devz pro node i) Ri) as (cpl & d & Hsend & Hq & Hwp & Hdat).
  rewrite <- (Hlba i zone Hi Hz) in Hsend.
  rewrite (reset_zn_eq nzone z_nsect s zone ei st 0 cpl d) by done. cbn zeta.
  change (ctrue 0) with false. cbv iota. unfold upd_entry. cbn [mg_g mg_set_dev mg_set_stats].
  destruct (lookup_lt_is_Some_2 (grp_tbl (mg_g s)) ei) as [e He]; [lia|].
  rewrite He. cbn [mbind option_bind]. eexists. split; [done|]. split; [done|].
  pose proof (slot_ei_zone _ _ _ _ _ Hz Hei) as Hsei.
  constructor; cbn [mg_g mg_dev mg_stats mg_set_g mg_set_dev mg_set_stats grp_tbl grp_set_tbl]; auto.
  - rewrite Rg. done.
  - by rewrite length_insert.
  - eapply rst_entry; eauto.
  - intros ei' Hout. rewrite list_lookup_insert_ne, Ro; [done|..].
    + intros z Hlz. apply Hout. lia.
    + intros ->. apply (Hout i); [lia|done].
  - intros z Hlz. rewrite Hwp. destruct (Z.eqb_spec (slot_devz pro node z) (slot_devz pro node i)) as [Heq|Hne].
    + apply (slot_devz_inj meta _ pro node z i Hwf Hidx) in Heq; [|lia..]. subst z. by rewrite Hstart.
    + apply Rw. destruct (decide (z = i)) as [->|]; [done|lia].
  - intros zn Hout. rewrite Hwp. destruct (Z.eqb_spec zn (slot_devz pro node i)) as [->|Hne].
    + exfalso. apply (Hout i); [lia|done].
    + apply Rwo. intros z Hlz. apply Hout. lia.
  - intros sec off Hout. rewrite Hdat by (by apply Hout). by apply Rda.
Qed.

Lemma reset_loop_ok f (k : nat) : forall i s,
  rst i s -> 0 <= i -> i + Z.of_nat k = 64 ->
  exists s', node_zones_loop (ztl_mgmt_node_reset_zn nzone z_nsect) f n k i s = Some (0, s') /\ rst 64 s'.
Proof using Hlba Hidx Hwhole Hpro Hnode HR.
  induction k as [|k IH]; intros i s Hr Hi Hk; cbn [node_zones_loop].
  - replace 64 with i by lia. eauto.
  - destruct (rst_step i s Hr ltac:(lia)) as (zone & s1 & Hz & Hrun & Hr1).
    unfold node_zone. rewrite (rs_g _ _ Hr). cbn [grp_pro grp_set_tbl]. rewrite Hpro. cbn [mbind option_bind].
    rewrite Hnode. cbn [mbind option_bind]. rewrite Hz. cbn [mbind option_bind]. rewrite Hrun.
    cbn [mbind option_bind]. change (ctrue 0) with false. cbv iota. apply (IH (i + 1)); auto; lia.
Qed.

Lemma rst_start :
  q_pending (mg_dev s0) = [] -> length (st_io (mg_stats s0)) = XZTL_STATS_IO_TYPES -> rst 0 s0.
Proof using. intros Hq Hs. constructor; auto; intros; try lia. by case (mg_g s0). Qed.

(** The pointers of the node's zones after the reset. *)
Lemma rst_striped fld s :
  rst 64 s -> (fld = ze_wptr \/ fld = ze_wptr_inflight) -> striped fld pro node (grp_tbl (mg_g s)) 0.
Proof using.
  intros Hr Hf z zone ei e Hz Hzone Hei He.
  destruct (rs_done _ _ Hr z zone ei Hz Hzone Hei) as (e' & He' & W1 & W2).
  assert (e' = e) as -> by congruence. unfold stripe_count.
  destruct Hf as [-> | ->]; rewrite ?W1, ?W2; zdiv.
Qed.

End Healthy.
