(* ===== verification/MgmtTheorems.v ===== *)
(** Properties of the management commands: src/xztl/src/ztl-mgmt-cmd.c and the zone
    management of ztl-media.c. *)

From S2P Require Import Prelude Types Sim Stats ProGrp Media Zns Device Io IoPopulate IoFlight IoSubmit IoWrite IoRequest IoTheorems Mgmt MgmtOk.

(** * The simulated device resets zones *)

#[export] Instance simdev_xznd : Xznd simdev := {
  xz_mgmt_send := fun d lba all op =>
    (0, 0, {| sd_next := sd_next d; sd_queue := sd_queue d;
              sd_wp := fun z => match op with
                                | MGMT_SEND_RESET => if all || (z =? lba / sd_zone_size) then z * sd_zone_size else sd_wp d z
                                | _ => sd_wp d z
                                end;
              sd_data := sd_data d; sd_log := sd_log d |});
  xz_report := fun d => None
}.

#[export, refine] Instance simdev_reset : ResetLaws simdev := {}.
Proof.
  intros d zone Hq. simpl. eexists _, _. split; [reflexivity|]. split_and!; try done.
  intros zn. simpl. rewrite Z.div_mul by done. destruct (Z.eqb_spec zn zone) as [->|]; done.
Defined.

(** The management state of an I/O context. *)
Definition mg_of {D : Type} (s : iostate D) : mgst D :=
  {| mg_g := io_g s; mg_stats := io_stats s; mg_dev := io_dev s |}.

Definition with_mg {D : Type} (s : iostate D) (m : mgst D) : iostate D :=
  io_set_dev (io_set_g s (mg_g m)) (mg_dev m).

(** * Reset on a healthy device *)

Section Reset.

Context {D : Type} `{HX : !Xnvme D} `{HQ : !QueueLaws D} `{HZ : !ZnsLaws D} `{HM : !Xznd D} `{HR : !ResetLaws D}.
Context (nzone meta : Z).
Implicit Types (s : iostate D) (m : mgst D).

(** The node after its zones were reset, for the write engine. *)
Lemma reset_ready s m m' pro node :
  rst pro node m 64 m' -> zones_whole (D := D) (length (grp_tbl (mg_g m))) pro node ->
  grp_tbl (io_g s) = grp_tbl (mg_g m') -> io_dev s = mg_dev m' ->
  node_ready s pro node (reset_node node).
Proof using.
  intros Hr (_ & Hstart & _) Ht Hd. constructor; simpl; try (cst; lia).
  - rewrite Ht. eapply rst_striped; eauto.
  - rewrite Ht. eapply rst_striped; eauto.
  - rewrite Hd. apply (on_device_core _ pro (pn_set_used node 0)); auto.
    constructor; intros z Hz; [exact (Hstart z Hz)|].
    change (slot_devz pro (pn_set_used node 0) z) with (slot_devz pro node z).
    change (slot_sect pro (pn_set_used node 0) z) with (slot_sect pro node z).
    rewrite (rs_wp _ _ _ _ _ Hr) by done. simpl. unfold stripe_count. zdiv.
Qed.

Lemma node_reset_ok s pro n node :
  engine meta s pro -> n ∈ pg_full_head pro -> pg_vnodes pro !! n = Some node -> lba_fits nzone pro node ->
  length (st_io (io_stats s)) = XZTL_STATS_IO_TYPES -> pg_nfree pro + 1 < 2 ^ 32 ->
  exists m' pro', ztl_mgmt_node_reset nzone z_nsect (mg_of s) n = Some (XZTL_OK, m') /\
    engine meta (with_mg s m') pro' /\ pg_free_head pro' = pg_free_head pro ++ [n] /\
    pg_used_head pro' = pg_used_head pro /\ pg_full_head pro' = remove_first n (pg_full_head pro) /\
    same_zones pro pro' /\
    (forall sec off, (forall z, 0 <= z < 64 -> sec / z_nsect <> slot_devz pro node z) ->
       z_data (mg_dev m') sec off = z_data (io_dev s) sec off).
Proof using HR.
  intros He Hin Hn Hlba Hst Hnf. pose proof He as [Hpro Hok Hh _ _ _ Hidx Hzw _ Harr Hidle].
  assert (Hq : n ∈ queues pro) by (unfold queues; set_solver).
  pose proof (Hzw n node Hq Hn) as Hwhole.
  destruct (reset_loop_ok nzone meta pro n node (mg_of s) Hpro Hn Hwhole Hidx Hlba
    (fun nd => pn_set_nr_reset_err nd (u32 (pn_nr_reset_err nd + 1))) 64 0 (mg_of s)) as (m1 & Hloop & Hr); try lia.
  { by apply rst_start. }
  destruct (reset_queues_ok pro n node Hok Hin Hn Hnf) as (pro' & Hrq & Hok' & Q1 & Q2 & Q3 & Q4 & Q5 & Q6).
  set (pro1 := pg_set_vnodes pro (<[n := reset_node node]> (pg_vnodes pro))) in *.
  exists (mg_set_g m1 (grp_set_pro (mg_g m1) (Some pro'))), pro'.
  assert (Hp1 : grp_pro (mg_g m1) = Some pro) by (rewrite (rs_g _ _ _ _ _ Hr); exact Hpro).
  split_and!; auto.
  - unfold ztl_mgmt_node_reset. rewrite Hloop. cbn [mbind option_bind]. change (ctrue 0) with false. cbv iota.
    unfold upd_mnode. rewrite (upd_node_eq (mg_g m1) pro n node) by done. cbn [mbind option_bind mg_g mg_set_g grp_pro grp_set_pro].
    fold pro1. rewrite Hrq. done.
  - eapply (engine_change meta s pro n node (with_mg s _) pro' (reset_node node)); eauto.
    + intros k Hk. rewrite Q2. by apply Hh.
    + intros k. by rewrite Q6.
    + intros k Hne [Hf|Hk]; [|by right]. left. rewrite Q1 in Hf.
      apply elem_of_app in Hf as [Hf|Hf]; [done|]. by apply list_elem_of_singleton in Hf.
    + split; [apply Hr|]. intros ei Hei. by apply (rs_other _ _ _ _ _ Hr).
    + intros _. by eapply (reset_ready _ (mg_of s) m1).
    + intros zn Hzn. by apply (rs_wp_other _ _ _ _ _ Hr).
    + destruct Harr as [(L1 & L2 & L3 & L4) B1 B2]. by constructor.
    + apply Hr.
  - split; [done|]. intros k. rewrite Q4. by apply (same_zones_upd pro n node).
  - intros sec off Hout. by apply (rs_data _ _ _ _ _ Hr).
Qed.

End Reset.

(** A sector of another node is in none of the node's zones. *)
Lemma other_node_zone {D : Type} `{HX : !Xnvme D} `{HQ : !QueueLaws D} `{HZ : !ZnsLaws D}
    meta (s : iostate D) pro n m node nd y z :
  device_fits (D := D) -> engine meta s pro -> n ∈ queues pro -> m ∈ queues pro -> m <> n ->
  pg_vnodes pro !! n = Some node -> pg_vnodes pro !! m = Some nd ->
  0 <= y < 8 * ZTL_PRO_OPT_SEC_NUM_INNODE -> 0 <= z < 64 ->
  node_sector pro nd y / z_nsect <> slot_devz pro node z.
Proof.
  intros [Hcap _] He Hn Hm Hne Hnode Hnd Hy Hz Heq.
  destruct (eg_zones _ _ _ He n node Hn Hnode) as (Wn & _). destruct (eg_zones _ _ _ He m nd Hm Hnd) as (Wm & Hst & _).
  assert (Hzr : 0 <= (y / 8) mod 64 < 64) by (apply Z.mod_pos_bound; lia).
  apply (nodes_devz_ne meta pro n m node nd (length (grp_tbl (io_g s))) z ((y / 8) mod 64) (eg_idx _ _ _ He) (eg_disj _ _ _ He)); auto.
  rewrite <- Heq. unfold node_sector. rewrite Hst by done. pose proof z_geo.
  change ZTL_PRO_SEC_NUM_INZONE with 24576 in Hcap. cst.
  assert (0 <= 8 * (y / 8 / 64) + y mod 8 < 24576) by zdiv.
  symmetry. apply Z.div_unique with (8 * (y / 8 / 64) + y mod 8); lia.
Qed.

(** * Properties *)

(** C12. Reset of a node.  On a healthy device, a node of the full queue whose
    zones the 32-bit address reaches is reset: the call returns 0, the node is the
    last of the free queue with all its capacity left, the write engine's
    invariant holds again (so the node can be written from its start), and no
    byte of any other node changes. *)
Theorem ztl_mgmt_node_reset_engine {D : Type} `{HX : !Xnvme D} `{HQ : !QueueLaws D} `{HZ : !ZnsLaws D}
    `{HM : !Xznd D} `{HR : !ResetLaws D} nzone meta (s : iostate D) pro n node :
  device_fits (D := D) -> engine meta s pro -> n ∈ pg_full_head pro -> pg_vnodes pro !! n = Some node ->
  lba_fits nzone pro node -> length (st_io (io_stats s)) = XZTL_STATS_IO_TYPES -> pg_nfree pro + 1 < 2 ^ 32 ->
  exists m' pro', ztl_mgmt_node_reset nzone z_nsect (mg_of s) n = Some (XZTL_OK, m') /\
    engine meta (with_mg s m') pro' /\ pg_free_head pro' = pg_free_head pro ++ [n] /\
    pg_used_head pro' = pg_used_head pro /\ pg_full_head pro' = remove_first n (pg_full_head pro) /\
    forall m nd x, m ∈ queues pro -> m <> n -> pg_vnodes pro !! m = Some nd ->
      0 <= x < 32768 * ZTL_PRO_OPT_SEC_NUM_INNODE ->
      node_byte (z_data (mg_dev m')) pro nd x = node_byte (z_data (io_dev s)) pro nd x.
Proof.
  intros Hdev He Hin Hn Hlba Hst Hnf.
  destruct (node_reset_ok nzone meta s pro n node He Hin Hn Hlba Hst Hnf)
    as (m' & pro' & Hrun & He' & Q1 & Q2 & Q3 & _ & Hdata).
  exists m', pro'. split_and!; auto. intros m nd x Hm Hne Hnd Hx. unfold node_byte. apply Hdata.
  assert (Hq : n ∈ queues pro) by (unfold queues; set_solver).
  intros z Hz. apply (other_node_zone meta s pro n m node nd); auto. cst. zdiv.
Qed.

(** The simulated engine with node 0 on the full queue. *)
Definition sim_retired : iostate simdev :=
  let s := sim_io 2 (sim_ucmd 65536 32768) in
  let pro := sim_pro 2 in
  let full := pn_set_status (pn_set_used (pn_set_left (sim_node 0) 0) 196608) XZTL_ZMD_NODE_FULL in
  io_set_g s (grp_set_pro (io_g s) (Some
    {| pg_vnodes := <[0%nat := full]> (pg_vnodes pro); pg_vzones := pg_vzones pro; pg_nfree := 1;
       pg_nzones := pg_nzones pro; pg_nnodes := 2; pg_free_head := [1%nat]; pg_used_head := [];
       pg_full_head := [0%nat] |})).

Definition sim_retired_pro : ztl_pro_node_grp :=
  match grp_pro (io_g sim_retired) with Some pro => pro | None => sim_pro 0 end.

Lemma sim_retired_engine : engine 2 sim_retired sim_retired_pro.
Proof.
  assert (He : engine 2 (sim_io 2 (sim_ucmd 65536 32768)) (sim_pro 2))
    by (apply sim_engine; [done|apply length_replicate..]).
  eapply (engine_change 2 _ (sim_pro 2) 0 (sim_node 0) sim_retired sim_retired_pro); eauto; try done.
  - vm_compute. left.
  - constructor.
    + vm_compute. repeat constructor; set_solver.
    + intros n Hn. assert (n = 1%nat \/ n = 0%nat) as [-> | ->].
      { unfold queues, sim_retired_pro in Hn. simpl in Hn. set_solver. }
      * exists (sim_node 1). split_and!; done.
      * eexists. split; [reflexivity|]. split_and!; done.
    + done.
    + intros n Hn node. assert (n = 1%nat) as -> by (unfold sim_retired_pro in Hn; simpl in Hn; set_solver).
      vm_compute. by intros [= <-].
    + intros n Hn node. assert (n = 0%nat) as -> by (unfold sim_retired_pro in Hn; simpl in Hn; set_solver).
      vm_compute. by intros [= <-].
  - intros m Hm. unfold queues, sim_retired_pro in Hm. simpl in Hm. unfold queues. simpl. set_solver.
  - intros m Hne [Hm|Hm]; [|done]. left. unfold sim_retired_pro in Hm. simpl in Hm. simpl. set_solver.
  - intros [Hm|Hm]; [|done]. unfold sim_retired_pro in Hm. simpl in Hm. set_solver.
Qed.

Lemma sim_lba pro node :
  pg_vzones pro = pg_vzones (sim_pro 2) -> pn_vzones node = pn_vzones (sim_node 0) ->
  lba_fits (D := simdev) 130 pro node.
Proof.
  intros Hvz Hsl.
  assert (Hall : forallb (fun z => match slot_zone (sim_pro 2) (sim_node 0) (Z.of_nat z) with
    | Some zone => manage_lba 130 32768 (pz_addr zone) =? maddr_zone (pz_addr zone) * 32768
    | None => true end) (seq 0 64) = true) by (vm_compute; reflexivity).
  intros z zone Hz Hzone. destruct (slot_sect_eq _ _ _ _ Hzone) as [_ ->].
  rewrite (slot_zone_transfer (sim_pro 2) pro (sim_node 0) node) in Hzone by done.
  rewrite forallb_forall in Hall. specialize (Hall (Z.to_nat z)).
  rewrite Z2Nat.id, Hzone in Hall by lia. apply Z.eqb_eq, Hall, in_seq. lia.
Qed.

Lemma ztl_mgmt_node_reset_engine_witness :
  exists m' pro', ztl_mgmt_node_reset 130 32768 (mg_of sim_retired) 0 = Some (XZTL_OK, m') /\
    engine 2 (with_mg sim_retired m') pro' /\ pg_free_head pro' = [1%nat; 0%nat].
Proof.
  destruct (ztl_mgmt_node_reset_engine 130 2 sim_retired sim_retired_pro 0
    (pn_set_status (pn_set_used (pn_set_left (sim_node 0) 0) 196608) XZTL_ZMD_NODE_FULL))
    as (m' & pro' & Hrun & He & Hf & _).
  - exact sim_fits.
  - exact sim_retired_engine.
  - vm_compute. left.
  - reflexivity.
  - apply sim_lba; reflexivity.
  - reflexivity.
  - reflexivity.
  - exists m', pro'. split; [exact Hrun|]. split; [exact He|exact Hf].
Defined.

(** Reset on any device.  Whatever the device answers, the reset of a node of
    the full queue ends and keeps the queues consistent: on an error the node only
    counts it in [nr_reset_err] and stays on the full queue; otherwise it moves to
    the end of the free queue. *)
Theorem ztl_mgmt_node_reset_any {D : Type} `{HM : !Xznd D} nzone nsect (s : mgst D) pro n node :
  grp_pro (mg_g s) = Some pro -> pro_ok pro -> n ∈ pg_full_head pro -> pg_vnodes pro !! n = Some node ->
  node_wf pro node (length (grp_tbl (mg_g s))) -> length (st_io (mg_stats s)) = XZTL_STATS_IO_TYPES ->
  pg_nfree pro + 1 < 2 ^ 32 ->
  exists ret s' pro', ztl_mgmt_node_reset nzone nsect s n = Some (ret, s') /\
    grp_pro (mg_g s') = Some pro' /\ pro_ok pro' /\
    (ret <> 0 -> pro' = pg_set_vnodes pro (<[n := pn_set_nr_reset_err node (u32 (pn_nr_reset_err node + 1))]> (pg_vnodes pro))) /\
    (ret = 0 -> pg_free_head pro' = pg_free_head pro ++ [n] /\ pg_full_head pro' = remove_first n (pg_full_head pro)).
Proof.
  intros Hp Hok Hin Hn Hwf Hst Hnf.
  destruct (reset_loop_any nzone nsect 64 0 s pro node n Hp Hn Hwf Hst) as (ret & s1 & Hrun & Hl & Hp1); [lia..|].
  unfold ztl_mgmt_node_reset. rewrite Hrun. cbn [mbind option_bind]. destruct (ctrue ret) eqn:Hr.
  - exists ret, s1. eexists. split_and!; [done|exact Hp1| |done|].
    + destruct Hok as [Hnd Hc Hnfr Hfr Hfu]. assert (Hlt : (n < length (pg_vnodes pro))%nat) by (by eapply lookup_lt_Some).
      constructor; auto.
      * intros m Hm. destruct (Hc m Hm) as (nd & Hnd' & Hrest). unfold node_counts. simpl.
        destruct (decide (m = n)) as [->|Hne]; [|rewrite list_lookup_insert_ne by done; eauto].
        rewrite list_lookup_insert_eq by done. assert (nd = node) as -> by congruence. eauto.
      * intros m Hm nd. simpl. destruct (decide (m = n)) as [->|Hne].
        -- rewrite list_lookup_insert_eq by done. intros [= <-]. exact (Hfr n Hm node Hn).
        -- rewrite list_lookup_insert_ne by done. by apply Hfr.
      * intros m Hm nd. simpl. destruct (decide (m = n)) as [->|Hne].
        -- rewrite list_lookup_insert_eq by done. intros [= <-]. exact (Hfu n Hm node Hn).
        -- rewrite list_lookup_insert_ne by done. by apply Hfu.
    + intros ->. discriminate Hr.
  - apply ctrue_false in Hr. subst ret.
    destruct (reset_queues_ok pro n node Hok Hin Hn Hnf) as (pro' & Hrq & Hok' & Q1 & Q2 & Q3 & _).
    exists 0. unfold upd_mnode. rewrite (upd_node_eq (mg_g s1) pro n node) by done.
    cbn [mbind option_bind mg_g mg_set_g grp_pro grp_set_pro]. rewrite Hrq. cbn [mbind option_bind].
    eexists _, pro'. split_and!; done.
Qed.

(** A device whose resets fail. *)
Definition failing_xznd : Xznd simdev :=
  {| xz_mgmt_send := fun d _ _ _ => (-5, 6, d); xz_report := fun _ => None |}.

Lemma ztl_mgmt_node_reset_any_witness :
  exists ret s' pro', @ztl_mgmt_node_reset simdev failing_xznd 130 32768 (mg_of sim_retired) 0 = Some (ret, s') /\
    grp_pro (mg_g s') = Some pro' /\ pro_ok pro'.
Proof.
  pose proof sim_retired_engine as He.
  destruct (@ztl_mgmt_node_reset_any simdev failing_xznd 130 32768 (mg_of sim_retired) sim_retired_pro 0
    (pn_set_status (pn_set_used (pn_set_left (sim_node 0) 0) 196608) XZTL_ZMD_NODE_FULL))
    as (ret & s' & pro' & Hrun & Hp & Hok & _).
  - reflexivity.
  - exact (eg_ok _ _ _ He).
  - vm_compute. left.
  - reflexivity.
  - refine (proj1 (eg_zones _ _ _ He 0 _ _ _)); [vm_compute; right; left|reflexivity].
  - reflexivity.
  - reflexivity.
  - exists ret, s', pro'. split; [exact Hrun|]. split; [exact Hp|exact Hok].
Defined.

(** Reset of a node that is not full.  The reset takes the node off the full
    queue without looking at its status: for a node that is not there - for
    instance one still being written, which [ztl_mgmt_clear_invalid_node] resets
    when it has no valid data, or one that was just filled and stays on the used
    queue until the next allocation, which zrocks_trim resets - the removal is
    undefined, after all its zones have been reset. *)
Theorem ztl_mgmt_node_reset_not_full {D : Type} `{HX : !Xnvme D} `{HQ : !QueueLaws D} `{HZ : !ZnsLaws D}
    `{HM : !Xznd D} `{HR : !ResetLaws D} nzone meta (s : iostate D) pro n node :
  engine meta s pro -> n ∈ pg_used_head pro -> pg_vnodes pro !! n = Some node ->
  lba_fits nzone pro node -> length (st_io (io_stats s)) = XZTL_STATS_IO_TYPES ->
  ztl_mgmt_node_reset nzone z_nsect (mg_of s) n = None.
Proof.
  intros He Hin Hn Hlba Hst. pose proof He as [Hpro Hok _ _ _ _ Hidx Hzw _ _ Hidle].
  assert (Hq : n ∈ queues pro) by (unfold queues; set_solver).
  destruct (reset_loop_ok nzone meta pro n node (mg_of s) Hpro Hn (Hzw n node Hq Hn) Hidx Hlba
    (fun nd => pn_set_nr_reset_err nd (u32 (pn_nr_reset_err nd + 1))) 64 0 (mg_of s)) as (m1 & Hloop & Hr); try lia.
  { by apply rst_start. }
  assert (Hp1 : grp_pro (mg_g m1) = Some pro) by (rewrite (rs_g _ _ _ _ _ Hr); exact Hpro).
  unfold ztl_mgmt_node_reset. rewrite Hloop. cbn [mbind option_bind]. change (ctrue 0) with false. cbv iota.
  unfold upd_mnode. rewrite (upd_node_eq (mg_g m1) pro n node) by done.
  cbn [mbind option_bind mg_g mg_set_g grp_pro grp_set_pro]. unfold reset_queues, tailq_remove. simpl pg_full_head.
  rewrite decide_False; [done|]. pose proof (po_nodup _ Hok) as Hnd. unfold queues in Hnd.
  clear - Hnd Hin. apply NoDup_app in Hnd as (_ & _ & Hnd). apply NoDup_app in Hnd as (_ & Hd & _). by apply Hd.
Qed.

(** The simulated engine with node 0 in use. *)
Definition sim_inuse_node : ztl_pro_node := pn_set_status (sim_node 0) XZTL_ZMD_NODE_USED.

Definition sim_inuse_pro : ztl_pro_node_grp :=
  {| pg_vnodes := <[0%nat := sim_inuse_node]> (pg_vnodes (sim_pro 2)); pg_vzones := pg_vzones (sim_pro 2);
     pg_nfree := 1; pg_nzones := 130; pg_nnodes := 2; pg_free_head := [1%nat]; pg_used_head := [0%nat];
     pg_full_head := [] |}.

Definition sim_inuse : iostate simdev :=
  io_set_node (io_set_g (sim_io 2 (sim_ucmd 65536 32768)) (grp_set_pro (sim_group 2) (Some sim_inuse_pro))) (Some 0%nat).

Lemma sim_inuse_engine : engine 2 sim_inuse sim_inuse_pro.
Proof.
  assert (He0 : engine 2 (sim_io 2 (sim_ucmd 65536 32768)) (sim_pro 2))
    by (apply sim_engine; [done|apply length_replicate..]).
  destruct (engine_get_node 2 _ _ He0) as (qn & pro' & ret & Hrun & He & _).
  assert (Hget : ztl_pro_get_node (sim_group 2) None = Some (Some 0%nat, grp_set_pro (sim_group 2) (Some sim_inuse_pro), 0))
    by (vm_compute; reflexivity).
  change (io_g (sim_io 2 (sim_ucmd 65536 32768))) with (sim_group 2) in Hrun, He.
  change (io_node (sim_io 2 (sim_ucmd 65536 32768))) with (@None nat) in Hrun.
  rewrite Hget in Hrun. apply (inj Some) in Hrun. apply (f_equal fst) in Hrun. cbn [fst] in Hrun.
  pose proof (f_equal fst Hrun) as Hq. pose proof (f_equal grp_pro (f_equal snd Hrun)) as Hp.
  cbn [fst snd grp_pro grp_set_pro] in Hq, Hp. apply (inj Some) in Hp. subst qn pro'. exact He.
Qed.

Lemma ztl_mgmt_node_reset_not_full_witness :
  ztl_mgmt_node_reset 130 z_nsect (mg_of sim_inuse) 0 = None.
Proof.
  apply (ztl_mgmt_node_reset_not_full 130 2 sim_inuse sim_inuse_pro 0 sim_inuse_node).
  - exact sim_inuse_engine.
  - left.
  - reflexivity.
  - apply sim_lba; reflexivity.
  - reflexivity.
Defined.


