(* ===== verification/Typed.v ===== *)
(** The C types of the state: every integer the structures of the library hold
    stays within the width of its member.

    [typed] is the type of a value, an instance per structure with the members'
    types of src/xztl/include (xztl.h, xztl-media.h, xztl-mods.h, xztl-pro.h,
    xztl-stats.h).  Every operation of the provisioning, of the write and read
    engine and of the management thread is shown to keep the state typed,
    whatever the device answers; what the device stores itself (the result of
    a completion, the bytes of a transfer) has the types of its interface,
    class [TypedDev]. *)

From S2P Require Import Prelude Types Sim Stats ProGrp Media Io Read IoCounters Mgmt.

(** * Types *)

Definition uint (w x : Z) : Prop := 0 <= x < 2 ^ w.
Definition sint (w x : Z) : Prop := - 2 ^ (w - 1) <= x < 2 ^ (w - 1).

Class Typed (A : Type) := typed : A -> Prop.

#[export] Instance typed_option `{!Typed A} : Typed (option A) := fun o => forall x, o = Some x -> typed x.
#[export] Instance typed_list `{!Typed A} : Typed (list A) := Forall typed.

(** [struct app_zmd_entry] *)
Record zmd_entry_typed (e : app_zmd_entry) : Prop := {
  zt_flags : uint 16 (ze_flags e); zt_level : uint 16 (ze_level e); zt_addr : uint 64 (ze_addr e);
  zt_wptr : uint 64 (ze_wptr e); zt_infl : uint 64 (ze_wptr_inflight e)
}.
#[export] Instance typed_zmd_entry : Typed app_zmd_entry := zmd_entry_typed.

(** [struct ztl_pro_zone] *)
Record pro_zone_typed (z : ztl_pro_zone) : Prop := {
  pzt_addr : uint 64 (pz_addr z); pzt_cap : uint 64 (pz_capacity z); pzt_lock : uint 8 (pz_lock z)
}.
#[export] Instance typed_pro_zone : Typed ztl_pro_zone := pro_zone_typed.

(** [struct ztl_pro_node] *)
Record pro_node_typed (n : ztl_pro_node) : Prop := {
  pnt_id : uint 32 (pn_id n); pnt_left : uint 64 (pn_left n); pnt_used : uint 64 (pn_used n);
  pnt_fin : uint 32 (pn_nr_finish_err n); pnt_res : uint 32 (pn_nr_reset_err n);
  pnt_valid : uint 64 (pn_nr_valid n); pnt_status : uint 32 (pn_status n); pnt_level : sint 32 (pn_level n)
}.
#[export] Instance typed_pro_node : Typed ztl_pro_node := pro_node_typed.

(** [struct ztl_pro_node_grp] *)
Record node_grp_typed (p : ztl_pro_node_grp) : Prop := {
  pgt_nodes : typed (pg_vnodes p); pgt_zones : typed (pg_vzones p);
  pgt_nfree : uint 32 (pg_nfree p); pgt_nzones : uint 32 (pg_nzones p); pgt_nnodes : uint 32 (pg_nnodes p)
}.
#[export] Instance typed_node_grp : Typed ztl_pro_node_grp := node_grp_typed.

(** [struct app_group] *)
Record group_typed (g : app_group) : Prop := {
  gt_id : uint 16 (grp_id g); gt_active : uint 8 (grp_active g); gt_gc : uint 8 (grp_need_gc g);
  gt_busy : uint 8 (grp_busy g); gt_magic : uint 8 (grp_magic g); gt_entries : uint 32 (grp_entries g);
  gt_tbl : typed (grp_tbl g); gt_pro : typed (grp_pro g)
}.
#[export] Instance typed_group : Typed app_group := group_typed.

(** [struct app_pro_addr] *)
Record pro_addr_typed (p : app_pro_addr) : Prop := {
  pat_addr : Forall (uint 64) (pa_addr p); pat_nsec : Forall (uint 32) (pa_nsec p);
  pat_naddr : uint 16 (pa_naddr p); pat_len : uint 32 (Z.of_nat (length (pa_addr p)))
}.
#[export] Instance typed_pro_addr : Typed app_pro_addr := pro_addr_typed.

(** [struct xztl_io_mcmd] *)
Record mcmd_typed (m : xztl_io_mcmd) : Prop := {
  mt_opcode : uint 8 (mc_opcode m); mt_submitted : uint 8 (mc_submitted m); mt_synch : uint 8 (mc_synch m);
  mt_errs : uint 8 (mc_callback_err_cnt m); mt_seq : uint 32 (mc_sequence m);
  mt_seqzn : uint 32 (mc_sequence_zn m); mt_off : uint 64 (mc_buf_off m); mt_cp : uint 64 (mc_cpsize m);
  mt_naddr : uint 32 (mc_naddr m); mt_status : uint 16 (mc_status m); mt_nsec : uint 64 (mc_nsec m);
  mt_addr : uint 64 (mc_addr m); mt_prp : uint 64 (mc_prp m); mt_paddr : uint 64 (mc_paddr m)
}.
#[export] Instance typed_mcmd : Typed xztl_io_mcmd := mcmd_typed.

(** [struct xztl_io_ucmd] *)
Record ucmd_typed (u : xztl_io_ucmd) : Prop := {
  ut_id : uint 64 (uc_id u); ut_buf : uint 64 (uc_buf u); ut_size : uint 64 (uc_size u);
  ut_offset : uint 64 (uc_offset u); ut_prov : uint 16 (uc_prov_type u); ut_md : uint 8 (uc_app_md u);
  ut_status : uint 8 (uc_status u); ut_node : Forall (uint 64) (uc_node_id u);
  ut_start : Forall (uint 64) (uc_start u); ut_num : Forall (uint 64) (uc_num u);
  ut_pieces : uint 16 (uc_pieces u); ut_nmcmd : uint 16 (uc_nmcmd u);
  ut_moff : Forall (uint 64) (uc_moffset u); ut_msec : Forall (uint 32) (uc_msec u);
  ut_ncb : uint 16 (uc_ncb u); ut_comp : uint 16 (uc_completed u); ut_minf : Forall (uint 8) (uc_minflight u)
}.
#[export] Instance typed_ucmd : Typed xztl_io_ucmd := ucmd_typed.

(** [struct xztl_stats] *)
Record stats_typed (s : xztl_stats) : Prop := {
  stt_io : Forall (uint 64) (st_io s); stt_node : Forall (Forall (uint 64)) (st_node s)
}.
#[export] Instance typed_stats : Typed xztl_stats := stats_typed.

(** Host memory holds bytes. *)
#[export] Instance typed_memory : Typed memory := fun m => forall a, uint 8 (m a).

(** An I/O context; its pool holds at most [XZTL_IO_MAX_MCMD] commands. *)
Record io_typed {D} `{!Typed D} (s : iostate D) : Prop := {
  it_dev : typed (io_dev s); it_g : typed (io_g s); it_cmds : typed (io_cmds s);
  it_pool : Z.of_nat (length (io_cmds s)) <= XZTL_IO_MAX_MCMD;
  it_u : typed (io_u s); it_prov : typed (io_prov s); it_stats : typed (io_stats s); it_mem : typed (io_mem s)
}.
#[export] Instance typed_io {D} `{!Typed D} : Typed (iostate D) := io_typed.

Record mg_typed {D} `{!Typed D} (s : mgst D) : Prop := { mgt_dev : typed (mg_dev s); mgt_g : typed (mg_g s); mgt_stats : typed (mg_stats s) }.
#[export] Instance typed_mg {D} `{!Typed D} : Typed (mgst D) := mg_typed.

(** An entry of the pool of read resources. *)
Record rs_typed (r : ztl_read_rs) : Prop := {
  rrt_cmds : typed (rr_mcmd r); rrt_len : Z.of_nat (length (rr_mcmd r)) <= XZTL_IO_MAX_MCMD;
  rrt_prp : Forall (uint 64) (rr_prp r)
}.
#[export] Instance typed_rs : Typed ztl_read_rs := rs_typed.

(** The device library: a device that stores bytes ([typed d]) gives back bytes
    and results of 64 bits, and goes on to store bytes. *)
Class TypedDev (D : Type) `{!Xnvme D} `{!Typed D} := {
  td_get : forall d : D, typed d -> typed (xq_get_cmd_ctx d).2;
  td_put : forall (d : D) ctx, typed d -> typed (xq_put_cmd_ctx d ctx);
  td_submit : forall (d : D) (m : memory) ctx arg op slba nlb dbuf,
    typed d -> typed m -> typed (xq_submit d m ctx arg op slba nlb dbuf).2;
  td_poke : forall d : D, typed d -> typed (xq_poke1 d).2;
  td_cdw0 : forall (d : D) cp d', typed d -> xq_poke1 d = (Some cp, d') -> uint 64 (cp_cdw0 cp);
  td_dma : forall (d : D) cp d' (m : memory),
    typed d -> xq_poke1 d = (Some cp, d') -> typed m -> typed (cp_dma cp m);
  td_read : forall (d : D) slba nlb dbuf (m : memory), typed d -> typed m ->
    typed ((xq_read_sync d slba nlb dbuf).1.2 m) /\ typed (xq_read_sync d slba nlb dbuf).2
}.

Class TypedZnd (D : Type) `{!Xznd D} `{!Typed D} :=
  tz_mgmt : forall (d : D) slba all op, typed d -> typed (xz_mgmt_send d slba all op).2.

(** * Automation *)

Create HintDb ty.

Lemma wrap_uint w x : 0 <= w -> uint w (wrap w x).
Proof. apply wrap_range. Qed.

Lemma uint_le w w' x : 0 <= w <= w' -> uint w x -> uint w' x.
Proof. unfold uint. intros Hw [H0 H1]. split; [done|]. eapply Z.lt_le_trans; [exact H1|]. apply Z.pow_le_mono_r; lia. Qed.

Lemma uint_sint w w' x : 0 <= w < w' -> uint w x -> sint w' x.
Proof.
  unfold uint, sint. intros Hw [H0 H1]. assert (2 ^ w <= 2 ^ (w' - 1)) by (apply Z.pow_le_mono_r; lia).
  assert (0 < 2 ^ (w' - 1)) by (apply Z.pow_pos_nonneg; lia). lia.
Qed.

Lemma maddr_sect_uint a : uint 64 (maddr_sect a).
Proof. eapply (uint_le 36); [lia|]. apply bf_get_range; lia. Qed.

Lemma maddr_set_sect_uint a v : uint 64 a -> uint 64 (maddr_set_sect a v).
Proof. intros H. apply bf_set_range; (lia || exact H). Qed.
Lemma maddr_set_zone_uint a v : uint 64 a -> uint 64 (maddr_set_zone a v).
Proof. intros H. apply bf_set_range; (lia || exact H). Qed.
Lemma maddr_set_grp_uint a v : uint 64 a -> uint 64 (maddr_set_grp a v).
Proof. intros H. apply bf_set_range; (lia || exact H). Qed.

Lemma typed_insert `{!Typed A} (l : list A) n x : typed l -> typed x -> typed (<[n := x]> l).
Proof. apply Forall_insert. Qed.

Lemma typed_lookup `{!Typed A} (l : list A) n x : typed l -> l !! n = Some x -> typed x.
Proof. intros Hl Hx. eapply Forall_lookup_1; eauto. Qed.

Lemma Forall_aset {A} (P : A -> Prop) l i x l' : aset l i x = Some l' -> Forall P l -> P x -> Forall P l'.
Proof. intros [_ ->]%aset_inv Hl Hx. by apply Forall_insert. Qed.

Lemma Forall_aget {A} (P : A -> Prop) l i x : l.[i] = Some x -> Forall P l -> P x.
Proof. intros [_ Hx]%aget_Some Hl. eapply Forall_lookup_1; eauto. Qed.

Lemma typed_Some `{!Typed A} (x : A) : typed x -> typed (Some x).
Proof. intros Hx y [= <-]. done. Qed.

#[export] Hint Resolve wrap_uint maddr_sect_uint maddr_set_sect_uint maddr_set_zone_uint maddr_set_grp_uint
  typed_insert typed_Some : ty.
#[export] Hint Extern 1 (uint _ _) => (unfold uint; lia) : ty.
#[export] Hint Extern 1 (sint _ _) => (unfold sint; lia) : ty.
#[export] Hint Extern 1 (0 <= _) => lia : ty.
#[export] Hint Extern 5 (uint _ ?x) => (is_const x; split; vm_compute; congruence) : ty.

(** Proves that a structure is typed from the types of the one it updates. *)
Ltac typ :=
  repeat match goal with
  | H : typed (Some _) |- _ => specialize (H _ eq_refl)
  end; constructor; simpl; eauto with ty.

Ltac ty := solve [eauto 40 with ty].

(** * Provisioning *)

Section Provisioning.

Implicit Types (g : app_group) (ctx : app_pro_addr) (e : app_zmd_entry) (nd : ztl_pro_node) (pro : ztl_pro_node_grp).

Lemma set_tbl_typed g t : typed g -> typed t -> typed (grp_set_tbl g t).
Proof. intros [] ?. typ. Qed.
Lemma set_pro_typed g p : typed g -> typed p -> typed (grp_set_pro g p).
Proof. intros [] ?. typ. Qed.
Lemma set_busy_typed g v : typed g -> uint 8 v -> typed (grp_set_busy g v).
Proof. intros [] ?. typ. Qed.
Lemma set_wptr_typed e v : typed e -> uint 64 v -> typed (ze_set_wptr e v).
Proof. intros [] ?. typ. Qed.
Lemma set_infl_typed e v : typed e -> uint 64 v -> typed (ze_set_wptr_inflight e v).
Proof. intros [] ?. typ. Qed.

Lemma entry_typed g ei e : typed g -> grp_tbl g !! ei = Some e -> typed e.
Proof. intros [] He. by eapply typed_lookup. Qed.

Lemma pro_typed g pro : typed g -> grp_pro g = Some pro -> typed pro.
Proof. intros [] He. auto. Qed.

Lemma slot_zone_typed pro nd z zone : typed pro -> slot_zone pro nd z = Some zone -> typed zone.
Proof. intros [] He. unfold slot_zone in He. run_inv. by eapply typed_lookup. Qed.

Lemma set_vnodes_typed pro l : typed pro -> typed l -> typed (pg_set_vnodes pro l).
Proof. intros [] ?. typ. Qed.

Lemma upd_node_typed g n f g' :
  upd_node g n f = Some g' -> typed g -> (forall nd, typed nd -> typed (f nd)) -> typed g'.
Proof.
  unfold upd_node. intros H Hg Hf. run_inv. pose proof (pro_typed _ _ Hg E) as Hp.
  apply set_pro_typed, typed_Some, set_vnodes_typed; [done..|]. apply typed_insert; [apply Hp|].
  eapply Hf, typed_lookup; [|done]. apply Hp.
Qed.

#[local] Hint Resolve set_tbl_typed set_pro_typed set_busy_typed set_wptr_typed set_infl_typed entry_typed
  pro_typed slot_zone_typed : ty.

Lemma ctx_push_typed ctx a ns ctx' :
  ctx_push ctx a ns = Some ctx' -> typed ctx -> uint 64 a -> uint 32 ns -> typed ctx'.
Proof.
  unfold ctx_push. intros H [] Ha Hn. run_inv. constructor; simpl; eauto using Forall_aset with ty.
  by erewrite aset_length.
Qed.

Lemma get_loop_typed fuel pro nd : typed pro -> forall g ctx num num_zn add zi g' ctx',
  grp_get_loop fuel pro nd g ctx num num_zn add zi = Some (g', ctx') ->
  typed g -> typed ctx -> typed g' /\ typed ctx'.
Proof.
  intros Hp. induction fuel as [|fuel IH]; simpl; intros g ctx num num_zn add zi g' ctx' H Hg Hc;
    destruct (num =? 0); run_inv; try done.
  pose proof (slot_zone_typed _ _ _ _ Hp E) as Hz. pose proof (entry_typed _ _ _ Hg E1) as He.
  eapply IH; [exact H| |eapply ctx_push_typed; eauto with ty].
  - apply set_tbl_typed, typed_insert; eauto with ty. apply Hg.
  - apply maddr_set_sect_uint, Hz.
Qed.

Lemma grp_get_typed g ctx num nid start g' ctx' ret :
  ztl_pro_grp_get g ctx num nid start = Some (g', ctx', ret) -> typed g -> typed ctx -> typed g' /\ typed ctx'.
Proof.
  unfold ztl_pro_grp_get. generalize grp_get_fuel. intros fuel H Hg Hc. run_inv. eauto using get_loop_typed with ty.
Qed.

Lemma pro_new_typed g num nid ctx start g' ctx' ret :
  ztl_pro_new g num nid ctx start = Some (g', ctx', ret) -> typed g -> typed ctx -> typed g' /\ typed ctx'.
Proof.
  unfold ztl_pro_new, app_grp_ctx_add. intros H Hg Hc. run_inv;
    match goal with E : ztl_pro_grp_get _ _ _ _ _ = Some _ |- _ =>
      apply grp_get_typed in E as [Hg' Hc']; [|done|destruct Hc; typ] end;
    split; eauto with ty.
Qed.

Lemma grp_free_typed meta g zi nsec g' : ztl_pro_grp_free meta g zi nsec = Some g' -> typed g -> typed g'.
Proof.
  unfold ztl_pro_grp_free. intros H Hg. run_inv. apply set_tbl_typed, typed_insert; eauto with ty. apply Hg.
Qed.

Lemma free_loop_typed meta n : forall i g ctx g', pro_free_loop meta n i g ctx = Some g' -> typed g -> typed g'.
Proof.
  induction n as [|n IH]; simpl; intros i g ctx g' H Hg; run_inv; [done|]. eauto using grp_free_typed.
Qed.

Lemma pro_free_typed meta g ctx g' : ztl_pro_free meta g ctx = Some g' -> typed g -> typed g'.
Proof.
  unfold ztl_pro_free, app_grp_ctx_sub. intros H Hg. run_inv. apply set_busy_typed; eauto using free_loop_typed with ty.
Qed.

Lemma set_free_typed pro q : typed pro -> typed (pg_set_free_head pro q).
Proof. intros []. typ. Qed.
Lemma set_used_typed pro q : typed pro -> typed (pg_set_used_head pro q).
Proof. intros []. typ. Qed.
Lemma set_full_typed pro q : typed pro -> typed (pg_set_full_head pro q).
Proof. intros []. typ. Qed.
Lemma set_nfree_typed pro v : typed pro -> uint 32 v -> typed (pg_set_nfree pro v).
Proof. intros [] ?. typ. Qed.
Lemma set_status_typed nd v : typed nd -> uint 32 v -> typed (pn_set_status nd v).
Proof. intros [] ?. typ. Qed.

#[local] Hint Resolve set_free_typed set_used_typed set_full_typed set_nfree_typed set_status_typed : ty.

Lemma retire_typed pro q pro' : get_node_retire pro q = Some pro' -> typed pro -> typed pro'.
Proof. unfold get_node_retire. intros H Hp. destruct q; run_inv; eauto with ty. Qed.

Lemma take_typed pro q pro' ret : get_node_take pro = Some (q, pro', ret) -> typed pro -> typed pro'.
Proof.
  unfold get_node_take. intros H Hp. destruct (pg_free_head pro); run_inv; [done|].
  apply set_nfree_typed, wrap_uint; [|lia]. apply set_vnodes_typed, typed_insert; eauto with ty; [apply Hp|].
  apply set_status_typed; [|eauto with ty]. eapply typed_lookup; [apply Hp|done].
Qed.

Lemma get_node_typed g q q' g' ret : ztl_pro_get_node g q = Some (q', g', ret) -> typed g -> typed g'.
Proof.
  unfold ztl_pro_get_node, ztl_pro_grp_get_node. intros H Hg.
  run_inv; apply set_pro_typed, typed_Some; try done; pose proof (pro_typed _ _ Hg E) as Hp.
  destruct q; run_inv; eauto using retire_typed, take_typed.
Qed.

End Provisioning.

#[export] Hint Resolve set_tbl_typed set_pro_typed set_busy_typed set_wptr_typed set_infl_typed entry_typed
  pro_typed slot_zone_typed set_free_typed set_used_typed set_full_typed set_nfree_typed set_status_typed
  upd_node_typed pro_new_typed pro_free_typed get_node_typed : ty.

(** * Updates of the structures of the engine *)

Section Setters.

Context {D : Type} `{!Typed D}.
Implicit Types (u : xztl_io_ucmd) (m : xztl_io_mcmd) (s : iostate D).

Lemma uc_status_typed u v : typed u -> uint 8 v -> typed (uc_set_status u v).
Proof. intros [] ?. typ. Qed.
Lemma uc_node_id_typed u v : typed u -> Forall (uint 64) v -> typed (uc_set_node_id u v).
Proof. intros [] ?. typ. Qed.
Lemma uc_start_typed u v : typed u -> Forall (uint 64) v -> typed (uc_set_start u v).
Proof. intros [] ?. typ. Qed.
Lemma uc_num_typed u v : typed u -> Forall (uint 64) v -> typed (uc_set_num u v).
Proof. intros [] ?. typ. Qed.
Lemma uc_pieces_typed u v : typed u -> uint 16 v -> typed (uc_set_pieces u v).
Proof. intros [] ?. typ. Qed.
Lemma uc_nmcmd_typed u v : typed u -> uint 16 v -> typed (uc_set_nmcmd u v).
Proof. intros [] ?. typ. Qed.
Lemma uc_moffset_typed u v : typed u -> Forall (uint 64) v -> typed (uc_set_moffset u v).
Proof. intros [] ?. typ. Qed.
Lemma uc_msec_typed u v : typed u -> Forall (uint 32) v -> typed (uc_set_msec u v).
Proof. intros [] ?. typ. Qed.
Lemma uc_ncb_typed u v : typed u -> uint 16 v -> typed (uc_set_ncb u v).
Proof. intros [] ?. typ. Qed.
Lemma uc_completed_typed u v : typed u -> uint 16 v -> typed (uc_set_completed u v).
Proof. intros [] ?. typ. Qed.
Lemma uc_minflight_typed u v : typed u -> Forall (uint 8) v -> typed (uc_set_minflight u v).
Proof. intros [] ?. typ. Qed.
Lemma uc_mcmd_typed u v : typed u -> typed (uc_set_mcmd u v).
Proof. intros []. typ. Qed.

Lemma mc_submitted_typed m v : typed m -> uint 8 v -> typed (mc_set_submitted m v).
Proof. intros [] ?. typ. Qed.
Lemma mc_synch_typed m v : typed m -> uint 8 v -> typed (mc_set_synch m v).
Proof. intros [] ?. typ. Qed.
Lemma mc_callback_err_cnt_typed m v : typed m -> uint 8 v -> typed (mc_set_callback_err_cnt m v).
Proof. intros [] ?. typ. Qed.
Lemma mc_status_typed m v : typed m -> uint 16 v -> typed (mc_set_status m v).
Proof. intros [] ?. typ. Qed.
Lemma mc_paddr_typed m v : typed m -> uint 64 v -> typed (mc_set_paddr m v).
Proof. intros [] ?. typ. Qed.
Lemma mc_ctx_typed m v : typed m -> typed (mc_set_media_ctx m v).
Proof. intros []. typ. Qed.

Lemma io_g_typed s v : typed s -> typed v -> typed (io_set_g s v).
Proof. intros [] ?. typ. Qed.
Lemma io_u_typed s v : typed s -> typed v -> typed (io_set_u s v).
Proof. intros [] ?. typ. Qed.
Lemma io_prov_typed s v : typed s -> typed v -> typed (io_set_prov s v).
Proof. intros [] ?. typ. Qed.
Lemma io_stats_typed s v : typed s -> typed v -> typed (io_set_stats s v).
Proof. intros [] ?. typ. Qed.
Lemma io_mem_typed s v : typed s -> typed v -> typed (io_set_mem s v).
Proof. intros [] ?. typ. Qed.
Lemma io_node_typed s v : typed s -> typed (io_set_node s v).
Proof. intros []. typ. Qed.
Lemma io_dev_typed s v : typed s -> typed v -> typed (io_set_dev s v).
Proof. intros [] ?. typ. Qed.
Lemma io_cmds_typed s v : typed s -> typed v -> length v = length (io_cmds s) -> typed (io_set_cmds s v).
Proof. intros [] ? Hl. typ. by rewrite Hl. Qed.

Lemma cmd_typed s c m : typed s -> io_cmds s !! c = Some m -> typed m.
Proof. intros [] Hm. by eapply typed_lookup. Qed.

Lemma memcpy_typed (m : memory) dst src n : typed m -> typed (memcpy m dst src n).
Proof. intros Hm a. unfold memcpy. destruct (_ && _); apply Hm. Qed.

End Setters.

#[export] Hint Resolve uc_status_typed uc_node_id_typed uc_start_typed uc_num_typed uc_pieces_typed uc_nmcmd_typed uc_moffset_typed uc_msec_typed uc_ncb_typed uc_completed_typed uc_minflight_typed uc_mcmd_typed
  mc_submitted_typed mc_synch_typed mc_callback_err_cnt_typed mc_status_typed mc_paddr_typed mc_ctx_typed
  io_g_typed io_u_typed io_prov_typed io_stats_typed io_mem_typed io_node_typed io_dev_typed cmd_typed
  memcpy_typed it_dev it_g it_u it_prov it_stats it_mem it_cmds td_get td_put td_submit td_poke : ty.

#[export] Hint Extern 1 (io_typed ?s) => change (typed s) : ty.
#[export] Hint Extern 1 (ucmd_typed ?u) => change (typed u) : ty.
#[export] Hint Extern 1 (mcmd_typed ?m) => change (typed m) : ty.
#[export] Hint Extern 1 (pro_node_typed ?n) => change (typed n) : ty.
#[export] Hint Extern 1 (pro_addr_typed ?p) => change (typed p) : ty.
#[export] Hint Extern 1 (stats_typed ?p) => change (typed p) : ty.
#[export] Hint Resolve ut_moff ut_msec ut_minf ut_node ut_start ut_num ut_prov ut_size mt_status mt_paddr mt_seq
  mt_off mt_cp mt_nsec pat_addr pat_nsec pat_naddr stt_io stt_node : ty.
#[export] Hint Extern 2 (Forall _ _) => (eapply Forall_aset; [eassumption| |]) : ty.

(** * Statistics and submission *)

Section Submission.

Context {D : Type} `{!Xnvme D} `{!Typed D} `{!TypedDev D}.
Context (geo_zn_grp dev_nsect : Z).
Implicit Types (s : iostate D) (c : nat).

Lemma inc_typed (st : xztl_stats) t v st' : xztl_stats_inc st t v = Some st' -> typed st -> typed st'.
Proof using. unfold xztl_stats_inc. intros H Hs. run_inv. constructor; simpl; eauto 6 with ty. Qed.

Lemma stats_inc_typed s t v s' : stats_inc s t v = Some s' -> typed s -> typed s'.
Proof using. unfold stats_inc. intros H Hs. run_inv. eauto using inc_typed with ty. Qed.

Lemma upd_cmd_typed s c f s' :
  upd_cmd s c f = Some s' -> typed s -> (forall m, typed m -> typed (f m)) -> typed s'.
Proof using.
  unfold upd_cmd. intros H Hs Hf. run_inv. apply io_cmds_typed; [done| |apply length_insert].
  apply typed_insert; eauto with ty.
Qed.

Lemma submit_asynch_typed op slba b s c r s' :
  submit_asynch op slba b s c = Some (r, s') -> typed s -> typed s'.
Proof using All.
  unfold submit_asynch. intros H Hs.
  destruct (io_cmds s !! c) as [cmd|]; [|done]. cbn [mbind option_bind] in H.
  pose proof (td_get _ (it_dev _ Hs)) as Hd1. destruct (xq_get_cmd_ctx (io_dev s)) as [[ctx|] d1]; [|done].
  cbn [mbind option_bind] in H.
  pose proof (td_submit _ _ ctx c op (slba cmd) (nlb_of cmd) (mc_prp cmd) Hd1 (it_mem _ Hs)) as Hd2.
  destruct (xq_submit _ _ _ _ _ _ _ _) as [ret d2]. simpl in Hd1, Hd2.
  destruct (upd_cmd _ _ _) as [s1|] eqn:Eu; [|done]. cbn [mbind option_bind] in H. run_inv.
  apply io_dev_typed; [|destruct (_ && _); ty]. eapply upd_cmd_typed; eauto; cbv beta; auto with ty.
Qed.

Lemma submit_io_typed s c r s' : media_submit_io geo_zn_grp dev_nsect s c = Some (r, s') -> typed s -> typed s'.
Proof using All.
  unfold media_submit_io, znd_media_submit_io, znd_media_submit_append_synch, znd_media_submit_read_synch,
    znd_media_submit_write_synch. intros H Hs.
  run_inv; try done; try (by eapply submit_asynch_typed).
  match goal with E : xq_read_sync ?d ?a ?b ?p = (_, ?f, _) |- _ =>
    pose proof (td_read d a b p _ (it_dev _ Hs) (it_mem _ Hs)) as [Hr Hd]; rewrite E in Hr, Hd end.
  apply io_mem_typed; [by apply io_dev_typed|done].
Qed.

End Submission.

(** Turns the runs of the steps into facts about the states they reach. *)
Ltac typed_learn :=
  repeat match goal with
  | H : stats_inc _ _ _ = Some _ |- _ => apply stats_inc_typed in H; [|ty]
  | H : upd_cmd _ _ _ = Some _ |- _ => apply upd_cmd_typed in H; [|ty|intros; cbv beta; ty]
  | H : media_submit_io _ _ _ _ = Some (_, _) |- _ => apply submit_io_typed in H; [|ty]
  | H : ztl_pro_free _ _ _ = Some _ |- _ => apply pro_free_typed in H; [|ty]
  | H : ztl_pro_new _ _ _ _ _ = Some _ |- _ => apply pro_new_typed in H as [? ?]; [|ty..]
  | H : ztl_pro_get_node _ _ = Some _ |- _ => apply get_node_typed in H; [|ty]
  end.

(** * Completion *)

Section Completion.

Context {D : Type} `{!Xnvme D} `{!Typed D} `{!TypedDev D}.
Context (geo_zn_grp dev_nsect meta : Z).
Implicit Types (s : iostate D) (c : nat).

Lemma callback_retry_typed f1 f2 s c b s' :
  callback_retry geo_zn_grp dev_nsect f1 f2 s c = Some (b, s') -> typed s -> typed s'.
Proof using All. unfold callback_retry. intros H Hs. run_inv; typed_learn; ty. Qed.

Lemma write_done_typed s c s' : write_callback_done meta s c = Some s' -> typed s -> typed s'.
Proof using. unfold write_callback_done. intros H Hs. run_inv; typed_learn; ty. Qed.

Lemma run_callback_typed s c s' : run_callback geo_zn_grp dev_nsect meta s c = Some s' -> typed s -> typed s'.
Proof using All.
  unfold run_callback, ztl_io_write_callback_mcmd, ztl_io_read_callback_mcmd. intros H Hs.
  run_inv; try done;
    repeat match goal with
    | H : callback_retry _ _ _ _ _ _ = Some _ |- _ => apply callback_retry_typed in H; [|ty]
    | H : write_callback_done _ _ _ = Some _ |- _ => apply write_done_typed in H; [|ty]
    end; typed_learn; ty.
Qed.

Lemma complete_cmd_typed (d : D) cp d' m :
  typed d -> xq_poke1 d = (Some cp, d') -> typed m -> typed (complete_cmd cp m).
Proof using All.
  intros Hd Hp%td_cdw0 Hm; [|done]. unfold complete_cmd. repeat case_match; ty.
Qed.

Lemma poke_typed s s' : ztl_io_poke_ctx geo_zn_grp dev_nsect meta s = Some s' -> typed s -> typed s'.
Proof using All.
  unfold ztl_io_poke_ctx, znd_media_async_cb. intros H Hs.
  pose proof (td_poke _ (it_dev _ Hs)) as Hd.
  destruct (xq_poke1 (io_dev s)) as [[cp|] d] eqn:Ep; simpl in Hd; run_inv; [|ty].
  pose proof (td_dma _ _ _ _ (it_dev _ Hs) Ep (it_mem _ Hs)) as Hm.
  match goal with H : upd_cmd _ _ _ = Some _ |- _ =>
    apply upd_cmd_typed in H; [|apply io_mem_typed; ty|intros; eapply complete_cmd_typed; [|exact Ep|done]; ty] end.
  match goal with H : run_callback _ _ _ _ _ = Some _ |- _ => apply run_callback_typed in H; [|ty] end. ty.
Qed.

End Completion.

(** * The write path *)

Section WritePath.

Context {D : Type} `{!Xnvme D} `{!Typed D} `{!TypedDev D}.
Context (geo_nbytes geo_zn_grp dev_nsect meta : Z).
Implicit Types (s : iostate D) (c : nat).

Definition pop_typed (p : popst (D := D)) : Prop := typed (ps_s p) /\ uint 64 (ps_boff p).

Lemma write_mcmd_typed old i z pa boff :
  typed old -> uint 32 i -> uint 32 z -> uint 64 boff -> typed (write_mcmd old i z pa boff).
Proof using.
  intros [] ? ? ?. typ.
Qed.

Lemma aget_index {A} (l : list A) i x : l.[i] = Some x -> 0 <= i < Z.of_nat (length l).
Proof using. intros [H0 Hx%lookup_lt_Some]%aget_Some. lia. Qed.

Lemma XZTL_IO_MAX_MCMD_uint : XZTL_IO_MAX_MCMD < 2 ^ 32.
Proof using. done. Qed.

Lemma populate_one_typed p z p' : populate_one geo_nbytes p z = Some p' -> pop_typed p -> pop_typed p'.
Proof using.
  unfold populate_one. intros H [Hs Hb]. run_inv; [done|]. split; simpl; [|eauto with ty].
  repeat match goal with E : _ .[_] = Some _ |- _ => pose proof (aget_index _ _ _ E); revert E end. intros.
  pose proof (it_prov _ Hs) as [Ha Hn Hna Hl]. pose proof (it_pool _ Hs). pose proof XZTL_IO_MAX_MCMD_uint.
  assert (typed x) by (eapply Forall_aget; [exact E0|apply Hs]).
  assert (uint 64 z1) by (eapply Forall_aget; [exact E1|done]).
  apply io_u_typed; [apply io_prov_typed; [apply io_cmds_typed|]|].
  - done.
  - eapply Forall_aset; [eassumption|apply Hs|]. apply write_mcmd_typed; unfold uint in *; (done || lia).
  - by erewrite aset_length.
  - constructor; simpl; try ty. by erewrite (aset_length (pa_addr _)).
  - simpl in E5. apply uc_mcmd_typed, uc_msec_typed; [ty|]. eapply Forall_aset; [exact E5|ty|]. eauto with ty.
Qed.

Lemma populate_for_typed n : forall z p p', populate_for geo_nbytes n z p = Some p' -> pop_typed p -> pop_typed p'.
Proof using.
  induction n as [|n IH]; simpl; intros z p p' H Hp; run_inv; [done|]. eauto using populate_one_typed.
Qed.

Lemma populate_while_typed n : forall num p p',
  populate_while geo_nbytes n num p = Ok p' -> pop_typed p -> pop_typed p'.
Proof using.
  induction n as [|n IH]; simpl; intros num p p' H Hp; run_inv; try done. eauto using populate_for_typed.
Qed.

Lemma submit_zone_typed ids z p b p' :
  submit_zone geo_zn_grp dev_nsect meta ids z p = Some (b, p') -> typed (ss_s (D := D) p) -> typed (ss_s (D := D) p').
Proof using All.
  unfold submit_zone. intros H Hs.
  run_inv; simpl in *; try done;
    repeat (typed_learn;
    repeat match goal with
    | H : ztl_io_poke_ctx _ _ _ _ = Some _ |- _ => apply poke_typed in H; [|ty]
    end); ty.
Qed.

Lemma submit_for_typed fuel : forall ids z p p',
  submit_for geo_zn_grp dev_nsect meta fuel ids z p = Ok p' ->
  typed (ss_s (D := D) p) -> typed (ss_s (D := D) p').
Proof using All.
  induction fuel as [|fuel IH]; simpl; intros ids z p p' H Hs; destruct (_ <? _); run_inv; try done.
  eauto using submit_zone_typed.
Qed.

Lemma submit_while_typed fuel : forall ids num p p',
  submit_while geo_zn_grp dev_nsect meta fuel ids num p = Ok p' ->
  typed (ss_s (D := D) p) -> typed (ss_s (D := D) p').
Proof using All.
  induction fuel as [|fuel IH]; cbn [submit_while]; intros ids num p p' H Hs; destruct (_ <? _); run_inv; try done.
  eauto using submit_for_typed.
Qed.

Lemma wait_while_typed fuel : forall s s', wait_while geo_zn_grp dev_nsect meta fuel s = Ok s' -> typed s -> typed s'.
Proof using All.
  induction fuel as [|fuel IH]; simpl; intros s s' H Hs; destruct (_ <? _); run_inv; try done.
  eauto using poke_typed.
Qed.

Lemma clear_minflight_typed mi mi' : clear_minflight mi = Some mi' -> Forall (uint 8) mi -> Forall (uint 8) mi'.
Proof using.
  unfold clear_minflight. intros H Hm. case_decide; [|done]. apply (inj Some) in H as <-.
  apply Forall_app. split; [apply Forall_replicate; ty|by apply Forall_drop].
Qed.

Lemma piece_io_typed fuel num boff s b s' :
  write_piece_io geo_nbytes geo_zn_grp dev_nsect meta fuel num boff s = Ok (b, s') ->
  typed s -> uint 64 boff -> typed s' /\ uint 64 b.
Proof using All.
  unfold write_piece_io, populate. intros H Hs Hb. run_inv.
  match goal with H : populate_while _ _ _ _ = Ok _ |- _ => apply populate_while_typed in H as [Hs1 Hb1]; [|by split] end.
  split; [|done].
  match goal with H : clear_minflight _ = Some ?l |- _ => apply clear_minflight_typed in H; [|simpl; ty] end.
  match goal with H : submit_while _ _ _ _ _ _ _ = Ok _ |- _ => apply submit_while_typed in H; [|simpl; ty] end.
  eauto using wait_while_typed.
Qed.

Lemma node_account_typed num nd : typed nd -> typed (node_account num nd).
Proof using. intros []. unfold node_account. case_match; typ. Qed.

Lemma set_level_typed nd v : typed nd -> sint 32 v -> typed (pn_set_level nd v).
Proof using. intros [] ?. typ. Qed.

Lemma node_at_typed g n nd : node_at g n = Some nd -> typed g -> typed nd.
Proof using.
  unfold node_at. intros H Hg. run_inv. eapply typed_lookup; [|done]. eapply pgt_nodes, pro_typed; eauto.
Qed.

(** The commands of a request that are left: at most [XZTL_IO_MAX_MCMD]. *)
Definition left_ok (left : Z) : Prop := 0 <= left <= XZTL_IO_MAX_MCMD.

Lemma piece_num nd left :
  typed nd -> left_ok left ->
  let num := i32 (if pn_left nd <=? left then pn_left nd else left) in 0 <= num <= left.
Proof using.
  intros [] [? ?]. unfold uint in *. pose proof XZTL_IO_MAX_MCMD_uint. simpl.
  assert (XZTL_IO_MAX_MCMD < 2 ^ 31) by done. unfold i32.
  destruct (Z.leb_spec (pn_left nd) left); rewrite Z.mod_small by lia; lia.
Qed.

Definition result_typed (r : (Z * Z * iostate D) + (Z * iostate D)) : Prop :=
  match r with
  | inl (lft, boff, s) => typed s /\ uint 64 boff /\ left_ok lft
  | inr (_, s) => typed s
  end.

(** What the node and the request record of a piece. *)
Lemma level_init_typed u nd :
  typed u -> typed nd -> typed (if pn_level nd =? -1 then pn_set_level nd (uc_prov_type u) else nd).
Proof using.
  intros Hu Hn. destruct (_ =? _); [|done]. apply set_level_typed; [done|]. apply (uint_sint 16); [lia|ty].
Qed.

Lemma piece_record_typed u i nd num l1 l2 l3 :
  typed u -> typed nd -> left_ok num -> aset (uc_node_id u) i (pn_id nd) = Some l1 ->
  aset (uc_start u) i (pn_used nd) = Some l2 -> aset (uc_num u) i num = Some l3 ->
  typed (uc_set_num (uc_set_start (uc_set_node_id u l1) l2) l3).
Proof using.
  intros Hu [] Hn H1 H2 H3. assert (uint 64 (pn_id nd)) by (apply (uint_le 32); [lia|done]).
  assert (uint 64 num) by (pose proof XZTL_IO_MAX_MCMD_uint; unfold left_ok, uint in *; lia). ty.
Qed.

Lemma fail_prov_typed prov n :
  typed prov ->
  typed {| pa_addr := pa_addr prov; pa_nsec := replicate n 0 ++ drop n (pa_nsec prov); pa_naddr := pa_naddr prov |}.
Proof using.
  intros []. typ. apply Forall_app. split; [apply Forall_replicate; ty|by apply Forall_drop].
Qed.

Lemma write_on_node_typed fuel left boff n s r :
  write_on_node geo_nbytes geo_zn_grp dev_nsect meta fuel left boff n s = Ok r ->
  typed s -> uint 64 boff -> left_ok left -> result_typed r.
Proof using All.
  unfold write_on_node, write_failure. intros H Hs Hb Hl.
  destruct (node_at (io_g s) n) as [nd|] eqn:E0; [|done]. cbn [lift mbind outcome_bind] in H.
  pose proof (node_at_typed _ _ _ E0 (it_g _ Hs)) as Ha. pose proof (piece_num _ _ Ha Hl) as Hn. simpl in Hn.
  revert H. generalize dependent (i32 (if pn_left nd <=? left then pn_left nd else left)). intros num Hn H.
  assert (Hm : left_ok num) by (unfold left_ok in *; lia). run_inv;
    (apply upd_node_typed in E1; [|ty|intros; apply level_init_typed; ty]);
    (assert (typed (uc_set_num (uc_set_start (uc_set_node_id (io_u s) a0) a1) a2))
       by (eapply piece_record_typed; [|exact Ha|exact Hm|exact E2|exact E3|exact E4]; ty));
    clear E0 E2 E3 E4; simpl in E5; typed_learn; unfold result_typed;
    try (match goal with H : write_piece_io _ _ _ _ _ _ _ _ = Ok _ |- _ => apply piece_io_typed in H as [? ?]; [|ty..] end;
      match goal with H : upd_node _ _ _ = Some _ |- _ => apply upd_node_typed in H; [|ty|apply node_account_typed] end).
  - apply io_u_typed; [|ty]. apply io_prov_typed; [ty|]. by apply fail_prov_typed.
  - split_and!; [ty|done|]. unfold left_ok in *. lia.
  - ty.
Qed.

Lemma write_piece_typed fuel left boff s r :
  write_piece geo_nbytes geo_zn_grp dev_nsect meta fuel left boff s = Ok r ->
  typed s -> uint 64 boff -> left_ok left -> result_typed r.
Proof using All.
  unfold write_piece, write_failure. intros H Hs Hb Hl. run_inv; typed_learn; [simpl; ty|].
  eapply write_on_node_typed; eauto. ty.
Qed.

Lemma write_pieces_typed fuel : forall left boff s r s',
  write_pieces geo_nbytes geo_zn_grp dev_nsect meta fuel left boff s = Ok (r, s') ->
  typed s -> uint 64 boff -> left_ok left -> typed s'.
Proof using All.
  induction fuel as [|fuel IH]; cbn [write_pieces]; intros left boff s r s' H Hs Hb Hl; run_inv.
  match goal with E : write_piece _ _ _ _ _ _ _ _ = Ok _ |- _ => apply write_piece_typed in E as Hr; [|done..] end.
  destruct a as [[[l b] s1]|[r1 s1]]; [|by run_inv]. destruct Hr as (? & ? & ?). eauto.
Qed.

Lemma write_ucmd_typed fuel s r s' :
  ztl_io_write_ucmd geo_nbytes geo_zn_grp dev_nsect meta fuel s = Ok (r, s') -> typed s -> typed s'.
Proof using All.
  unfold ztl_io_write_ucmd, write_failure. cbv zeta. intros H Hs.
  destruct (ctrue _); [run_inv; ty|]. destruct (Z.ltb_spec XZTL_IO_MAX_MCMD (u32 (uc_size (io_u s) / geo_nbytes) / ZTL_IO_SEC_MCMD)) as [|Hle]; [run_inv; ty|].
  eapply write_pieces_typed; [exact H| |ty|].
  - apply io_u_typed; [apply io_prov_typed; [done|]|ty]. pose proof (it_prov _ Hs) as []. typ.
  - split; [|done]. pose proof (wrap_range 32 (uc_size (io_u s) / geo_nbytes) ltac:(lia)).
    apply Z.div_pos; [lia|done].
Qed.

End WritePath.
