(* ===== verification/TypedTheorems.v ===== *)
(** The read path and the management commands keep the state typed, and with
    them every operation a running library performs: the system is a step
    relation over one I/O context, the pool of read resources, the write queues
    and the management queue, and every state it reaches is typed. *)

From stdpp Require Import relations.
From S2P Require Import Prelude Types Sim Stats ProGrp Media Zns Device Io Read IoCounters Mgmt MgmtTheorems Typed.

Section ReadPath.

Context {D : Type} `{!Xnvme D} `{!Typed D} `{!TypedDev D}.
Context (geo_zn_grp dev_nsect meta : Z).
Implicit Types (s : iostate D) (c : nat).

(** The local variables of the read path that end up in a command. *)
Record rd_typed (p : readst (D := D)) : Prop := {
  rt_s : typed (rd_s p); rt_left : uint 64 (rd_sec_left p); rt_boff : uint 64 (rd_bytes_off p);
  rt_bytes : uint 64 (rd_left p); rt_num : uint 64 (rd_num p)
}.

Lemma read_mcmd_typed nsec prp sect mis off cp :
  uint 64 nsec -> uint 64 prp -> uint 64 off -> uint 64 cp -> typed (read_mcmd nsec prp sect mis off cp).
Proof using. intros. typ. Qed.

Lemma read_cmd_typed rprp pro znode p p' :
  read_cmd rprp pro znode p = Some p' -> rd_typed p -> Forall (uint 64) rprp -> rd_typed p'.
Proof using.
  unfold read_cmd. intros H [] Hr. run_inv. constructor; simpl; try ty.
  apply io_u_typed; [|ty]. apply io_cmds_typed; [done| |by erewrite aset_length].
  eapply Forall_aset; [eassumption|apply rt_s0|]. apply read_mcmd_typed; [done| |done|].
  - eapply Forall_aget; [eassumption|done].
  - destruct (_ <? _); ty.
Qed.

Lemma read_next_typed p p' : read_next p = Some p' -> rd_typed p -> rd_typed p'.
Proof using. unfold read_next. intros H []. run_inv; constructor; simpl; try ty; destruct (_ <? _); ty. Qed.

Lemma read_cmds_typed fuel : forall rprp pro znode p p',
  read_cmds fuel rprp pro znode p = Ok p' -> rd_typed p -> Forall (uint 64) rprp -> rd_typed p'.
Proof using.
  induction fuel as [|fuel IH]; simpl; intros rprp pro znode p p' H Hp Hr; run_inv; try done;
    eauto using read_cmd_typed, read_next_typed.
Qed.

Lemma read_start_typed size offset s p : read_start size offset s = Some p -> typed s -> uint 64 size -> rd_typed p.
Proof using.
  unfold read_start. cbv zeta. intros H Hs Hz.
  set (n := u64 (size + offset mod ZNS_ALIGMENT)) in H. set (b := if ctrue (n mod ZNS_ALIGMENT) then 1 else 0) in H.
  set (r := (offset / ZNS_ALIGMENT mod level_secs) mod ZTL_IO_SEC_MCMD) in H.
  assert (Hn : uint 64 (n / ZNS_ALIGMENT + b)).
  { assert (0 <= b <= 1) by (unfold b; destruct (ctrue _); lia).
    pose proof (wrap_range 64 (size + offset mod ZNS_ALIGMENT) ltac:(lia)). unfold uint, ZNS_ALIGMENT in *. fold n in H1.
    split; [|]; zdiv. }
  assert (Hr : 0 <= r < ZTL_IO_SEC_MCMD) by (by apply Z.mod_pos_bound).
  clearbody n b r. run_inv; constructor; simpl; try ty. change ZTL_IO_SEC_MCMD with 8 in *.
  destruct (_ <? _); unfold uint in *; lia.
Qed.

Lemma read_submit_typed n : forall i p p',
  read_submit_for geo_zn_grp dev_nsect n i p = Some p' -> typed (rs_s (D := D) p) -> typed (rs_s (D := D) p').
Proof using All.
  induction n as [|n IH]; simpl; intros i p p' H Hp; run_inv; [done|].
  eapply IH; [exact H|]. clear H IH. unfold read_submit_one in *. run_inv; try done; simpl; typed_learn; ty.
Qed.

Lemma read_while_typed fuel : forall total p p',
  read_submit_while geo_zn_grp dev_nsect fuel total p = Ok p' -> typed (rs_s (D := D) p) -> typed (rs_s (D := D) p').
Proof using All.
  induction fuel as [|fuel IH]; simpl; intros total p p' H Hp; destruct (_ <? _); run_inv; try done.
  eauto using read_submit_typed.
Qed.

Lemma drain_typed fuel : forall s s', queue_drain geo_zn_grp dev_nsect meta fuel s = Ok s' -> typed s -> typed s'.
Proof using All.
  induction fuel as [|fuel IH]; simpl; intros s s' H Hs; destruct (xq_outstanding (io_dev s)); run_inv; try done.
  eauto using poke_typed.
Qed.

Lemma read_single_typed s r s' : read_single geo_zn_grp dev_nsect s = Some (r, s') -> typed s -> typed s'.
Proof using All. unfold read_single. intros H Hs. run_inv; typed_learn; simpl; ty. Qed.

Lemma read_ucmd_typed fuel rprp s r s' :
  ztl_io_read_ucmd geo_zn_grp dev_nsect meta fuel rprp s = Ok (r, s') ->
  typed s -> Forall (uint 64) rprp -> typed s'.
Proof using All.
  unfold ztl_io_read_ucmd. generalize read_fuel. intros rf H Hs Hr. run_inv;
  repeat match goal with
  | H : read_start _ _ _ = Some _ |- _ => apply read_start_typed in H; [|ty..]
  | H : read_cmds _ _ _ _ _ = Ok _ |- _ => apply read_cmds_typed in H as []; [|done..]
  end; typed_learn; [by eapply read_single_typed|].
  match goal with
  | H : read_submit_while _ _ _ _ _ = Ok _ |- _ => apply read_while_typed in H; [|simpl; ty] end.
  match goal with
  | H : queue_drain _ _ _ _ _ = Ok _ |- _ => apply drain_typed in H; [|ty] end. ty.
Qed.

End ReadPath.

(** * Management *)

Section Management.

Context {D : Type} `{!Xznd D} `{!Typed D} `{!TypedZnd D}.
Context (nzone nsect : Z).
Implicit Types (s : mgst D) (cmd : xztl_zn_mcmd).

Lemma mg_g_typed s v : typed s -> typed v -> typed (mg_set_g s v).
Proof using All. intros [] ?. typ. Qed.
Lemma mg_stats_typed s v : typed s -> typed v -> typed (mg_set_stats s v).
Proof using All. intros [] ?. typ. Qed.
Lemma mg_dev_typed s v : typed s -> typed v -> typed (mg_set_dev s v).
Proof using All. intros [] ?. typ. Qed.

#[local] Hint Resolve mg_g_typed mg_stats_typed mg_dev_typed mgt_g mgt_stats inc_typed gt_tbl : ty.
#[local] Hint Extern 1 (mg_typed ?s) => change (typed s) : ty.
#[local] Hint Extern 1 (group_typed ?s) => change (typed s) : ty.

Lemma manage_typed s cmd op : typed s -> typed (znd_media_zone_manage nzone nsect s cmd op).2.
Proof using All.
  intros Hs. unfold znd_media_zone_manage.
  pose proof (tz_mgmt (mg_dev s) (manage_lba nzone nsect (zc_addr cmd)) (1 <? zc_nzones cmd) op (mgt_dev _ Hs)) as Hd.
  destruct (xz_mgmt_send _ _ _ _) as [[ret cpl] d]. simpl in *. by apply mg_dev_typed.
Qed.

Lemma zone_mgmt_typed s cmd r cmd' s' :
  znd_media_zone_mgmt nzone nsect s cmd = Some (r, cmd', s') -> typed s -> typed s'.
Proof using All.
  unfold znd_media_zone_mgmt, znd_media_zone_report. intros H Hs.
  assert (Hm : forall s0 op, typed s0 -> Some (znd_media_zone_manage nzone nsect s0 cmd op) = Some (r, cmd', s') -> typed s').
  { intros s0 op H0 [= E]. pose proof (manage_typed s0 cmd op H0) as Ht. by rewrite E in Ht. }
  repeat (destruct (_ =? _); [try (by eapply Hm)|]); try (by run_inv).
  - destruct (xztl_stats_inc _ _ _) as [st|] eqn:E; [|done]. eapply Hm; [|exact H]. ty.
  - destruct (xz_report _); by run_inv.
Qed.

Lemma upd_entry_typed s ei f s' :
  upd_entry s ei f = Some s' -> typed s -> (forall e, typed e -> typed (f e)) -> typed s'.
Proof using All.
  unfold upd_entry. intros H Hs Hf. run_inv. apply mg_g_typed; [done|]. apply set_tbl_typed; [ty|].
  apply typed_insert; [ty|]. eapply Hf, entry_typed; [|done]. ty.
Qed.

Lemma upd_mnode_typed s n f s' :
  upd_mnode s n f = Some s' -> typed s -> (forall nd, typed nd -> typed (f nd)) -> typed s'.
Proof using All. unfold upd_mnode. intros H Hs Hf. run_inv. apply mg_g_typed; [done|]. eapply upd_node_typed; eauto with ty. Qed.

Lemma reset_zn_typed s zone r s' :
  ztl_mgmt_node_reset_zn nzone nsect s zone = Some (r, s') -> typed s -> typed s'.
Proof using All.
  unfold ztl_mgmt_node_reset_zn. intros H Hs. run_inv;
    match goal with H : znd_media_zone_mgmt _ _ _ _ = Some _ |- _ => apply zone_mgmt_typed in H; [|done] end; [done|].
  eapply upd_entry_typed; [eassumption|done|]. intros. cbv beta. ty.
Qed.

Lemma finish_zn_typed s zone b r s' : finish_zn nzone nsect s zone = Some (b, r, s') -> typed s -> typed s'.
Proof using All.
  unfold finish_zn. intros H Hs. run_inv;
    match goal with H : znd_media_zone_mgmt _ _ _ _ = Some _ |- _ => apply zone_mgmt_typed in H; [|done] end; [done|].
  eapply upd_entry_typed; [eassumption|done|]. intros. cbv beta. ty.
Qed.

Lemma zones_loop_typed body fail n k :
  (forall s zone r s', body s zone = Some (r, s') -> typed s -> typed s') ->
  (forall nd, typed nd -> typed (fail nd)) ->
  forall i s r s', node_zones_loop body fail n k i s = Some (r, s') -> typed s -> typed (A := mgst D) s'.
Proof using All.
  intros Hb Hf. induction k as [|k IH]; simpl; intros i s r s' H Hs; run_inv; [done| |eauto].
  eapply upd_mnode_typed; eauto.
Qed.

Lemma finish_loop_typed n k : forall i s r s',
  finish_loop nzone nsect n k i s = Some (r, s') -> typed s -> typed s'.
Proof using All.
  induction k as [|k IH]; simpl; intros i s r s' H Hs; run_inv; [done| |eauto using finish_zn_typed].
  eapply upd_mnode_typed; [eassumption|eauto using finish_zn_typed|]. intros nd []. typ.
Qed.

Lemma reset_node_typed nd : typed nd -> typed (reset_node nd).
Proof using All. intros []. unfold reset_node. typ. Qed.

Lemma mnode_reset_typed s n r s' : ztl_mgmt_node_reset nzone nsect s n = Some (r, s') -> typed s -> typed s'.
Proof using All.
  unfold ztl_mgmt_node_reset, reset_queues. generalize 64%nat. intros k H Hs. run_inv;
    (match goal with H : node_zones_loop _ _ _ _ _ _ = Some _ |- _ =>
       apply zones_loop_typed in H; [|apply reset_zn_typed|intros nd []; by typ|done] end); [done|].
  match goal with H : upd_mnode _ _ _ = Some _ |- _ => apply upd_mnode_typed in H; [|done|apply reset_node_typed] end.
  apply mg_g_typed, set_pro_typed, typed_Some; [done|ty|]. apply set_nfree_typed; [|ty].
  apply set_free_typed, set_full_typed. eapply pro_typed; [|eassumption]. ty.
Qed.

Lemma attempt_typed et : forall k s r s', mgmt_attempt nzone nsect k et s = Some (r, s') -> typed s -> typed s'.
Proof using All.
  assert (Hop : forall s r s', (if me_op_code et =? ZTL_MGMG_FULL_ZONE then ztl_mgmt_node_finish nzone nsect s (me_node et)
                else ztl_mgmt_node_reset nzone nsect s (me_node et)) = Some (r, s') -> typed s -> typed s').
  { unfold ztl_mgmt_node_finish. intros s r s'. destruct (_ =? _); eauto using finish_loop_typed, mnode_reset_typed. }
  induction k as [|k IH]; cbn [mgmt_attempt]; intros s r s' H Hs;
    (destruct (if me_op_code et =? _ then _ else _) as [[r1 s1]|] eqn:E; cbn [mbind option_bind] in H; [|done]);
    apply Hop in E; try done.
  - run_inv; try done; ty.
  - destruct (ctrue r1); [|by run_inv].
    destruct (xztl_stats_inc (mg_stats s1) XZTL_STATS_MGMT_FAIL 1) as [st|] eqn:Es; cbn [mbind option_bind] in H; [|done].
    assert (typed (mg_set_stats s1 st)) by ty. destruct k; [by run_inv|]. by eapply IH.
Qed.

Lemma process_typed q s q' s' : mgmt_process nzone nsect q s = Some (q', s') -> typed s -> typed s'.
Proof using All. unfold mgmt_process. intros H Hs. destruct q; run_inv; [done|]. eauto using attempt_typed. Qed.

Lemma clear_loop_typed k : forall n s s', clear_loop nzone nsect k n s = Some s' -> typed s -> typed s'.
Proof using All.
  induction k as [|k IH]; simpl; intros n s s' H Hs; run_inv; [done| |]; eauto using mnode_reset_typed.
Qed.

End Management.

Lemma nodeset_typed g qp id level n g' qp' :
  ztl_io_nodeset g qp id level n = Some (g', qp') -> typed g -> sint 32 level -> typed g'.
Proof.
  unfold ztl_io_nodeset. intros H Hg Hl.
  destruct (grp_pro g) as [pro|] eqn:Ep; [|done]. cbn [mbind option_bind] in H.
  destruct ((pg_vnodes pro).[id]) as [nd|] eqn:En; [|done]. cbn [mbind option_bind] in H.
  assert (Hnd : typed nd) by (eapply Forall_aget; [exact En|]; eapply pgt_nodes, pro_typed; eauto).
  assert (Hv : typed (pn_set_nr_valid nd (u64 (pn_nr_valid nd + n)))) by (destruct Hnd; typ).
  cbv zeta in H. generalize dependent (pn_set_nr_valid nd (u64 (pn_nr_valid nd + n))). intros nd' H Hv.
  assert (sint 32 (if ZROCKS_LEVEL_NUM <=? level then ZROCKS_LEVEL_NUM - 1 else level))
    by (destruct (_ <=? _); [by unfold sint|done]).
  destruct (_ =? _); run_inv; (eapply upd_node_typed; [eassumption|done|]); intros; [by apply set_level_typed|done].
Qed.

(** * The running library *)

(** What the threads share, the queues of the write threads with the pool of
    commands and the provisioning context of each, the read resources, and the
    queue of the management thread. *)
Record sysst (D : Type) := {
  sy_g : app_group; sy_stats : xztl_stats; sy_dev : D; sy_mem : memory;
  sy_qp : list ztl_queue; sy_pool : list (list xztl_io_mcmd * app_pro_addr);
  sy_rs : list ztl_read_rs; sy_mg : list mgmt_entry
}.
Arguments Build_sysst {D}.
Arguments sy_g {D}.
Arguments sy_stats {D}.
Arguments sy_dev {D}.
Arguments sy_mem {D}.
Arguments sy_qp {D}.
Arguments sy_pool {D}.
Arguments sy_rs {D}.
Arguments sy_mg {D}.

Section System.

Context {D : Type} `{!Xnvme D} `{!Xznd D} `{!Typed D}.
Context (geo_nbytes geo_zn_grp dev_nsect nzone meta : Z).
Implicit Types (y : sysst D).

(** The I/O context that serves [u] with a pool of commands. *)
Definition sys_io y cmds u prov node : iostate D :=
  Build_iostate (sy_g y) cmds u prov node (sy_stats y) (sy_dev y) (sy_mem y).

(** The shared state a served request leaves. *)
Definition sys_after y (s : iostate D) qp pool rs : sysst D :=
  Build_sysst (io_g s) (io_stats s) (io_dev s) (io_mem s) qp pool rs (sy_mg y).

Definition no_prov : app_pro_addr := {| pa_addr := []; pa_nsec := []; pa_naddr := 0 |}.

(** One operation: a request is queued, the write thread [k] serves the first
    request of its queue, a caller reads, the recovery sets the state of a node,
    a node is handed to the management thread, which serves its first request. *)
Inductive sys_step y : sysst D -> Prop :=
  | sys_submit u qp :
      typed u -> ztl_io_submit (sy_qp y) u = Some qp ->
      sys_step y (Build_sysst (sy_g y) (sy_stats y) (sy_dev y) (sy_mem y) qp (sy_pool y) (sy_rs y) (sy_mg y))
  | sys_write k q u q' cmds prov fuel r s :
      sy_qp y !! k = Some q -> write_th_take q = (Some u, q') -> sy_pool y !! k = Some (cmds, prov) ->
      ztl_io_write_ucmd geo_nbytes geo_zn_grp dev_nsect meta fuel (sys_io y cmds u prov (wq_node q)) = Ok (r, s) ->
      sys_step y (sys_after y s (<[k := {| wq_ucmds := wq_ucmds q'; wq_node := io_node s |}]> (sy_qp y))
                              (<[k := (io_cmds s, io_prov s)]> (sy_pool y)) (sy_rs y))
  | sys_read u fuel num r rs s :
      typed u ->
      ztl_io_read geo_zn_grp dev_nsect meta fuel num (sy_rs y) (sys_io y [] u no_prov None) = Ok (r, rs, s) ->
      sys_step y (sys_after y s (sy_qp y) (sy_pool y) rs)
  | sys_nodeset id level n g qp :
      sint 32 level -> ztl_io_nodeset (sy_g y) (sy_qp y) id level n = Some (g, qp) ->
      sys_step y (Build_sysst g (sy_stats y) (sy_dev y) (sy_mem y) qp (sy_pool y) (sy_rs y) (sy_mg y))
  | sys_mgmt_submit ok node op :
      sys_step y (Build_sysst (sy_g y) (sy_stats y) (sy_dev y) (sy_mem y) (sy_qp y) (sy_pool y) (sy_rs y)
                    (ztl_mgmt_submit_reset_finish ok (sy_mg y) node op).2)
  | sys_mgmt q s :
      mgmt_process nzone dev_nsect (sy_mg y) (Build_mgst (sy_g y) (sy_stats y) (sy_dev y)) = Some (q, s) ->
      sys_step y (Build_sysst (mg_g s) (mg_stats s) (mg_dev s) (sy_mem y) (sy_qp y) (sy_pool y) (sy_rs y) q).

Definition pool_typed (p : list xztl_io_mcmd * app_pro_addr) : Prop :=
  typed p.1 /\ Z.of_nat (length p.1) <= XZTL_IO_MAX_MCMD /\ typed p.2.

Record sys_typed y : Prop := {
  syt_dev : typed (sy_dev y); syt_g : typed (sy_g y); syt_stats : typed (sy_stats y); syt_mem : typed (sy_mem y);
  syt_qp : Forall (fun q => typed (wq_ucmds q)) (sy_qp y); syt_pool : Forall pool_typed (sy_pool y);
  syt_rs : typed (sy_rs y)
}.

Context `{!TypedDev D} `{!TypedZnd D}.

Lemma set_used_rs_typed r b : typed r -> typed (rr_set_used r b).
Proof using. intros []. typ. Qed.

Lemma get_rs_typed n : forall id rs i rs', get_read_rs n id rs = Some (i, rs') -> typed rs -> typed rs'.
Proof using.
  induction n as [|n IH]; simpl; intros id rs i rs' H Hr; run_inv; [done|eauto|].
  eapply Forall_aset; [eassumption|done|]. apply set_used_rs_typed.
  match goal with E : rs.[_] = Some ?q |- _ => exact (Forall_aget _ _ _ _ E Hr) end.
Qed.

Lemma put_rs_typed id rs rs' : put_read_rs id rs = Some rs' -> typed rs -> typed rs'.
Proof using.
  unfold put_read_rs. intros H Hr. run_inv. eapply Forall_aset; [eassumption|done|]. apply set_used_rs_typed.
  match goal with E : rs.[_] = Some ?q |- _ => exact (Forall_aget _ _ _ _ E Hr) end.
Qed.

Lemma io_read_typed fuel num rs (s : iostate D) r rs' s' :
  ztl_io_read geo_zn_grp dev_nsect meta fuel num rs s = Ok (r, rs', s') ->
  typed s -> typed rs -> typed s' /\ typed rs'.
Proof using All.
  unfold ztl_io_read. intros H Hs Hr. run_inv;
    (match goal with E : get_read_rs _ _ _ = Some (_, ?l) |- _ => apply get_rs_typed in E as Hl; [|done] end); [done|].
  match goal with E : ?l.[_] = Some ?q |- _ => assert (Hq : typed q) by exact (Forall_aget _ _ _ _ E Hl) end.
  destruct Hq as [Hc Hlen Hp].
  match goal with E : ztl_io_read_ucmd _ _ _ _ _ _ = Ok _ |- _ => apply read_ucmd_typed in E as Hs'; [|destruct Hs; by typ|done] end.
  split; [done|]. eapply put_rs_typed; [eassumption|]. eapply Forall_aset; [eassumption|done|].
  destruct Hs'. by typ.
Qed.

Lemma nodeset_queues g qp id level n g' qp' :
  ztl_io_nodeset g qp id level n = Some (g', qp') ->
  Forall (fun q => typed (wq_ucmds q)) qp -> Forall (fun q => typed (wq_ucmds q)) qp'.
Proof using.
  unfold ztl_io_nodeset. intros H Hq. run_inv; try done. eapply Forall_aset; [eassumption|done|]. simpl.
  match goal with E : qp.[_] = Some ?q |- _ => exact (Forall_aget _ _ _ _ E Hq) end.
Qed.

Lemma sys_io_typed y cmds u prov node :
  sys_typed y -> typed u -> pool_typed (cmds, prov) -> typed (sys_io y cmds u prov node).
Proof using. intros [] Hu (? & ? & ?). typ. Qed.

Lemma sys_after_typed y (s : iostate D) qp pool rs :
  sys_typed y -> typed s -> Forall (fun q => typed (wq_ucmds q)) qp -> Forall pool_typed pool -> typed rs ->
  sys_typed (sys_after y s qp pool rs).
Proof using. intros [] [] ? ? ?. typ. Qed.

Lemma submit_queues_typed qp u qp' :
  ztl_io_submit qp u = Some qp' -> typed u ->
  Forall (fun q => typed (wq_ucmds q)) qp -> Forall (fun q => typed (wq_ucmds q)) qp'.
Proof using.
  unfold ztl_io_submit. intros H Hu Hq. run_inv. eapply Forall_aset; [eassumption|done|]. simpl.
  apply Forall_app. split; [|by apply Forall_singleton].
  match goal with E : qp.[_] = Some ?q |- _ => exact (Forall_aget _ _ _ _ E Hq) end.
Qed.

Lemma take_typed_queue q u q' : write_th_take q = (Some u, q') -> typed (wq_ucmds q) -> typed u /\ typed (wq_ucmds q').
Proof using.
  unfold write_th_take. destruct (wq_ucmds q) as [|u0 us] eqn:E; [done|]. intros [= <- <-] H.
  by inversion H.
Qed.

Lemma no_prov_typed : typed no_prov.
Proof using. constructor; simpl; try constructor; done. Qed.

Lemma sys_step_typed y y' : sys_step y y' -> sys_typed y -> sys_typed y'.
Proof using All.
  intros [u qp Hu H|k q u q' cmds prov fuel r s Hq Ht Hp H|u fuel num r rs s Hu H|id level n g qp Hl H|ok node op|q s H] Hy.
  - destruct Hy. constructor; simpl; eauto using submit_queues_typed.
  - pose proof (Forall_lookup_1 _ _ _ _ (syt_qp _ Hy) Hq) as Hqt. pose proof (Forall_lookup_1 _ _ _ _ (syt_pool _ Hy) Hp) as Hpt.
    destruct (take_typed_queue _ _ _ Ht Hqt) as [Hu Hq'].
    apply write_ucmd_typed in H; [|by apply sys_io_typed].
    apply sys_after_typed; [done..| | |apply Hy]; (apply Forall_insert; [apply Hy|]); [done|]. destruct H. by split_and!.
  - apply io_read_typed in H as [Hs Hr]; [|apply sys_io_typed; [done..|]; split_and!; [by constructor|done|apply no_prov_typed]|apply Hy].
    apply sys_after_typed; (done || apply Hy).
  - destruct Hy. constructor; simpl; eauto using nodeset_queues, nodeset_typed.
  - destruct Hy. by constructor.
  - destruct Hy. apply process_typed in H as []; [|by constructor]. by constructor.
Qed.


End System.

(** * The simulated device *)

(** Its sectors hold bytes. *)
#[export] Instance typed_simdev : Typed simdev := fun d => forall sec off, uint 8 (sd_data d sec off).

Lemma sector_read_typed data slba nlb dbuf (m : memory) :
  (forall sec off, uint 8 (data sec off)) -> typed m -> typed (sector_read data slba nlb dbuf m).
Proof. intros Hd Hm a. unfold sector_read. destruct (_ && _); auto. Qed.

#[export, refine] Instance simdev_typed_dev : TypedDev simdev := {}.
Proof.
  - done.
  - done.
  - intros d m ctx arg op slba nlb dbuf Hd Hm. simpl. unfold sd_submit, typed, typed_simdev.
    destruct op; try destruct (_ =? _); simpl; try done; intros sec off; unfold sector_write;
      destruct (_ && _); auto.
  - intros d Hd. simpl. unfold sd_poke. by destruct (sd_queue d).
  - intros d cp d' Hd. simpl. unfold sd_poke. destruct (sd_queue d); [done|]. intros [= <- _]. done.
  - intros d cp d' m Hd. simpl. unfold sd_poke. destruct (sd_queue d) as [|q qs]; [done|]. intros [= <- _] Hm. simpl.
    unfold pend_dma. destruct (pe_op _); auto using sector_read_typed.
  - intros d slba nlb dbuf m Hd Hm. simpl. auto using sector_read_typed.
Qed.

#[export, refine] Instance simdev_typed_znd : TypedZnd simdev := _.
Proof. intros d slba all op Hd. done. Qed.

(** A library with one node, one write thread and one read resource. *)
Definition sim_sys : sysst simdev :=
  {| sy_g := sim_group 1; sy_stats := xztl_stats_init; sy_dev := sim_dev; sy_mem := fun a => a mod 251;
     sy_qp := [{| wq_ucmds := []; wq_node := None |}]; sy_pool := [(replicate 1024 sim_mcmd, sim_prov)];
     sy_rs := [{| rr_used := false; rr_mcmd := replicate 4 sim_mcmd; rr_prp := replicate 4 0 |}]; sy_mg := [] |}.

Lemma sim_mcmd_typed : typed sim_mcmd.
Proof. by repeat constructor. Qed.

Lemma sim_zone_typed i : (i < 1000)%nat -> typed (sim_zone i) /\ uint 64 (ze_addr (sim_zone i)).
Proof.
  intros Hi. assert (uint 64 (ze_addr (sim_zone i))) by (simpl; ty). split; [|done].
  constructor; simpl; try done; unfold uint, sd_zone_size; lia.
Qed.

Lemma sim_group_typed : typed (sim_group 1).
Proof.
  constructor; try done.
  - apply Forall_fmap, Forall_forall. intros i Hi%elem_of_seq. apply sim_zone_typed. lia.
  - apply typed_Some. constructor; try done.
    + by repeat constructor.
    + apply Forall_fmap, Forall_forall. intros i Hi%elem_of_seq. constructor; try done. apply sim_zone_typed. lia.
Qed.

Lemma sim_ucmd_typed buf size : uint 64 buf -> uint 64 size -> typed (sim_ucmd buf size).
Proof.
  intros Hb Hs. constructor; try done; unfold sim_ucmd; cbn [uc_moffset uc_msec uc_minflight];
    try (apply Forall_replicate; done); by repeat constructor.
Qed.

Lemma sim_pool_typed n : Z.of_nat n <= XZTL_IO_MAX_MCMD -> pool_typed (replicate n sim_mcmd, sim_prov).
Proof.
  intros Hn. split_and!; cbn [fst snd]; [apply Forall_replicate, sim_mcmd_typed|by rewrite length_replicate|].
  constructor; try done; unfold sim_prov; cbn [pa_addr pa_nsec]; by apply Forall_replicate.
Qed.

Lemma sim_sys_typed : sys_typed sim_sys.
Proof.
  constructor; unfold sim_sys; cbn [sy_dev sy_g sy_stats sy_mem sy_qp sy_pool sy_rs].
  - done.
  - apply sim_group_typed.
  - by repeat constructor.
  - intros a. unfold uint. pose proof (Z.mod_pos_bound a 251). lia.
  - apply Forall_singleton. by constructor.
  - by apply Forall_singleton, sim_pool_typed.
  - apply Forall_singleton. constructor; cbn [rr_mcmd rr_prp];
      [apply Forall_replicate, sim_mcmd_typed|done|by apply Forall_replicate].
Qed.

(** The request, and the context that serves it. *)
Definition sim_req : xztl_io_ucmd := sim_ucmd 0 65536.

Definition sim_queued : sysst simdev :=
  Build_sysst (sy_g sim_sys) (sy_stats sim_sys) (sy_dev sim_sys) (sy_mem sim_sys)
    [{| wq_ucmds := [sim_req]; wq_node := None |}] (sy_pool sim_sys) (sy_rs sim_sys) (sy_mg sim_sys).

#[local] Abbreviation sim_serve :=
  (ztl_io_write_ucmd 4096 130 32768 2 100
    (sys_io sim_queued (replicate 1024 sim_mcmd) sim_req sim_prov
       (wq_node {| wq_ucmds := [sim_req]; wq_node := None |}))).

Definition sim_served (r : outcome (Z * iostate simdev)) : bool :=
  match r with
  | Ok (ret, s) => (ret =? 0) && match node_at (io_g s) 0 with Some nd => pn_used nd =? 2 | None => false end
  | _ => false
  end.

Lemma sim_served_inv r :
  sim_served r = true -> exists s nd, r = Ok (0, s) /\ node_at (io_g s) 0 = Some nd /\ pn_used nd = 2.
Proof.
  destruct r as [[ret s]| |]; simpl; [|done..]. intros [Hr Hn]%andb_true_iff.
  destruct (node_at (io_g s) 0) as [nd|] eqn:E; [|done]. exists s, nd. split_and!; [|done|by apply Z.eqb_eq].
  by apply Z.eqb_eq in Hr as ->.
Qed.

Lemma sim_serve_ok : sim_served sim_serve = true.
Proof. vm_compute. reflexivity. Qed.

Lemma sim_req_typed : typed sim_req.
Proof. apply sim_ucmd_typed; unfold uint; lia. Qed.

Lemma sim_submit_ok : ztl_io_submit (sy_qp sim_sys) sim_req = Some [{| wq_ucmds := [sim_req]; wq_node := None |}].
Proof. reflexivity. Qed.

Lemma sim_run s :
  sim_serve = Ok (0, s) -> exists y', rtc (sys_step 4096 130 32768 130 2) sim_sys y' /\ sy_g y' = io_g s.
Proof.
  intros E. eexists. split.
  - eapply rtc_l; [|apply rtc_once].
    + exact (sys_submit 4096 130 32768 130 2 sim_sys _ _ sim_req_typed sim_submit_ok).
    + exact (sys_write 4096 130 32768 130 2 sim_queued 0 {| wq_ucmds := [sim_req]; wq_node := None |} sim_req
               {| wq_ucmds := []; wq_node := None |} (replicate 1024 sim_mcmd) sim_prov 100 0 s
               eq_refl eq_refl eq_refl E).
  - reflexivity.
Qed.

