(* ===== verification/NodeRace.v ===== *)
(** Writers and the management thread on the node queues: [ztl_pro_grp_get_node]
    (src/xztl/src/ztl-pro-grp.c) and the end of [ztl_mgmt_node_reset] (ztl-mgmt-cmd.c) as
    sequences of their critical sections, interleaved.

    Each writer has its own [q->node].  A step runs one critical section; the removal of a
    node from a queue it is not on corrupts the queues: [None]. *)

From S2P Require Import Prelude Types Sim ProGrp Media Mgmt.

(** * The critical sections *)

(** [TAILQ_REMOVE(&pro->used_head, tmp)] and [TAILQ_INSERT_TAIL(&pro->full_head, tmp)] *)
Definition cs_unuse (pro : ztl_pro_node_grp) (n : nat) : option ztl_pro_node_grp :=
  used ← tailq_remove (pg_used_head pro) n; Some (pg_set_used_head pro used).

Definition cs_fill (pro : ztl_pro_node_grp) (n : nat) : ztl_pro_node_grp :=
  pg_set_full_head pro (tailq_insert_tail (pg_full_head pro) n).

(** [TAILQ_REMOVE(&pro->free_head, q->node)] *)
Definition cs_take (pro : ztl_pro_node_grp) (n : nat) : option ztl_pro_node_grp :=
  free ← tailq_remove (pg_free_head pro) n; Some (pg_set_free_head pro free).

(** [TAILQ_INSERT_TAIL(&pro->used_head, q->node)] and the status *)
Definition cs_use (pro : ztl_pro_node_grp) (n : nat) : option ztl_pro_node_grp :=
  node ← pg_vnodes pro !! n;
  let pro1 := pg_set_used_head pro (tailq_insert_tail (pg_used_head pro) n) in
  Some (pg_set_vnodes pro1 (<[n := pn_set_status node XZTL_ZMD_NODE_USED]> (pg_vnodes pro1))).

Definition cs_count (pro : ztl_pro_node_grp) : ztl_pro_node_grp := pg_set_nfree pro (u32 (pg_nfree pro - 1)).

(** The end of a reset: the members of the node, then its queues *)
Definition cs_reset (pro : ztl_pro_node_grp) (n : nat) : option ztl_pro_node_grp :=
  node ← pg_vnodes pro !! n; Some (pg_set_vnodes pro (<[n := reset_node node]> (pg_vnodes pro))).

Definition cs_unfill (pro : ztl_pro_node_grp) (n : nat) : option ztl_pro_node_grp :=
  full ← tailq_remove (pg_full_head pro) n; Some (pg_set_full_head pro full).

Definition cs_free (pro : ztl_pro_node_grp) (n : nat) : ztl_pro_node_grp :=
  pg_set_free_head pro (tailq_insert_tail (pg_free_head pro) n).

Definition cs_uncount (pro : ztl_pro_node_grp) : ztl_pro_node_grp := pg_set_nfree pro (u32 (pg_nfree pro + 1)).

(** * A writer *)

(** Where a writer is: outside with its node; its node removed from the used queue; about to look for a
    node; with the first free node in [q->node]; the node removed from the free queue; put on the used queue. *)
Inductive wpc := Out (q : option nat) | Unused (n : nat) | Wants | Picked (n : nat) | Took (n : nat) | Used (n : nat).

(** The next critical section of a call; at [Out] the call begins. *)
Definition writer_step (pro : ztl_pro_node_grp) (pc : wpc) : option (ztl_pro_node_grp * wpc) :=
  match pc with
  | Out None => Some (pro, Wants)
  | Out (Some n) =>
      node ← pg_vnodes pro !! n;
      if pn_left node =? 0 then
        let tmp := Z.to_nat (pn_id node) in
        pro' ← cs_unuse pro tmp; Some (pro', Unused tmp)
      else Some (pro, Out (Some n))
  | Unused n => Some (cs_fill pro n, Wants)
  | Wants => match pg_free_head pro with [] => Some (pro, Out None) | n :: _ => Some (pro, Picked n) end
  | Picked n => pro' ← cs_take pro n; Some (pro', Took n)
  | Took n => pro' ← cs_use pro n; Some (pro', Used n)
  | Used n => Some (cs_count pro, Out (Some n))
  end.

(** A call that nothing comes between: from [pc] on, at most 6 sections *)
Fixpoint alone (k : nat) (pro : ztl_pro_node_grp) (pc : wpc) : option (ztl_pro_node_grp * wpc) :=
  match k with
  | O => Some (pro, pc)
  | S k' =>
      '(pro', pc') ← writer_step pro pc;
      match pc' with Out _ => Some (pro', pc') | _ => alone k' pro' pc' end
  end.

(** * The management thread *)

Inductive mpc := MIdle | MData (n : nat) | MTaken (n : nat) | MFreed.

Definition mstep (pro : ztl_pro_node_grp) (pc : mpc) : option (ztl_pro_node_grp * mpc) :=
  match pc with
  | MIdle => Some (pro, MIdle)
  | MData n => pro' ← cs_unfill pro n; Some (pro', MTaken n)
  | MTaken n => Some (cs_free pro n, MFreed)
  | MFreed => Some (cs_uncount pro, MIdle)
  end.

(** * The system *)

Record sys := { y_pro : ztl_pro_node_grp; y_w : list wpc; y_m : mpc }.

(** [A_use i k]: the writer [i] writes [k] commands on its node; [A_reset n]: the management thread has reset the
    zones of the full node [n]. *)
Inductive action := A_w (i : nat) | A_use (i : nat) (k : Z) | A_m | A_reset (n : nat).

Inductive ystep : sys -> action -> option sys -> Prop :=
  | Y_w s i pc : y_w s !! i = Some pc ->
      ystep s (A_w i) ('(pro, pc') ← writer_step (y_pro s) pc; Some {| y_pro := pro; y_w := <[i := pc']> (y_w s); y_m := y_m s |})
  | Y_use s i n k node : y_w s !! i = Some (Out (Some n)) -> pg_vnodes (y_pro s) !! n = Some node -> 0 < k <= pn_left node ->
      ystep s (A_use i k)
        (Some {| y_pro := pg_set_vnodes (y_pro s) (<[n := pn_set_left node (pn_left node - k)]> (pg_vnodes (y_pro s))); y_w := y_w s; y_m := y_m s |})
  | Y_m s : ystep s A_m ('(pro, pc') ← mstep (y_pro s) (y_m s); Some {| y_pro := pro; y_w := y_w s; y_m := pc' |})
  | Y_reset s n : y_m s = MIdle -> n ∈ pg_full_head (y_pro s) ->
      ystep s (A_reset n) (pro ← cs_reset (y_pro s) n; Some {| y_pro := pro; y_w := y_w s; y_m := MData n |}).

(** The step is allowed in a serial schedule: no writer looks for a node while another one has picked a node
    that it has not removed yet. *)
Definition is_picked (pc : wpc) : bool := match pc with Picked _ => true | _ => false end.

Definition serial (s : sys) (a : action) : Prop :=
  match a with A_w i => y_w s !! i = Some Wants -> existsb is_picked (y_w s) = false | _ => True end.

(** States reached by schedules, and by serial ones *)
Inductive reach (ok : sys -> action -> Prop) (s0 : sys) : option sys -> Prop :=
  | reach_start : reach ok s0 (Some s0)
  | reach_step s a r : reach ok s0 (Some s) -> ok s a -> ystep s a r -> reach ok s0 r.

(** * Without interference *)

(** The result of a call, given the node it ends with *)
Definition result_of (q : option nat) : Z := match q with Some _ => XZTL_OK | None => XZTL_ZTL_PROV_ERR end.

Lemma alone_wants pro k :
  alone (4 + k) pro Wants = ('(q', pro', _) ← get_node_take pro; Some (pro', Out q')) /\
  (forall q' pro' ret, get_node_take pro = Some (q', pro', ret) -> ret = result_of q').
Proof.
  unfold get_node_take. cbn [Nat.add alone writer_step mbind option_bind]. destruct (pg_free_head pro) as [|n l] eqn:E; [split; [done|by intros ? ? ? [= <- <- <-]]|].
  cbn [alone writer_step mbind option_bind]. unfold cs_take. rewrite E. destruct (tailq_remove (n :: l) n) as [free|]; [|done].
  cbn [alone writer_step mbind option_bind]. unfold cs_use. cbn [pg_vnodes pg_set_free_head].
  destruct (pg_vnodes pro !! n); [split; [done|by intros ? ? ? [= <- <- <-]]|done].
Qed.


(** So is a reset, for the queues. *)
Lemma alone_reset pro n :
  (pro1 ← cs_reset pro n; pro2 ← cs_unfill pro1 n; Some (cs_uncount (cs_free pro2 n))) =
  (node ← pg_vnodes pro !! n; reset_queues (pg_set_vnodes pro (<[n := reset_node node]> (pg_vnodes pro))) n).
Proof.
  unfold cs_reset. destruct (pg_vnodes pro !! n) as [node|]; [|done]. cbn [mbind option_bind]. unfold cs_unfill, reset_queues.
  cbn [pg_full_head pg_set_vnodes]. by destruct (tailq_remove (pg_full_head pro) n).
Qed.

(** * The invariant of serial schedules *)

Definition wtrans (pc : wpc) : list nat := match pc with Unused n | Took n => [n] | _ => [] end.
Definition wown (pc : wpc) : list nat := match pc with Out (Some n) | Used n => [n] | _ => [] end.
Definition wpick (pc : wpc) : list nat := match pc with Picked n => [n] | _ => [] end.
Definition wpend (pc : wpc) : list nat := match pc with Took n | Used n => [n] | _ => [] end.
Definition mtrans (pc : mpc) : list nat := match pc with MTaken n => [n] | _ => [] end.
Definition mpend (pc : mpc) : Z := match pc with MFreed => 1 | _ => 0 end.

Definition gather (f : wpc -> list nat) (l : list wpc) : list nat := l ≫= f.

Lemma gather_insert f l i x y : l !! i = Some x -> f x ++ gather f (<[i := y]> l) ≡ₚ f y ++ gather f l.
Proof.
  unfold gather. revert i. induction l as [|z l IH]; intros [|i] H; [done..| |].
  - injection H as ->. change (<[O := y]> (x :: l)) with (y :: l). rewrite !bind_cons. perm.
  - change (<[S i := y]> (z :: l)) with (z :: <[i := y]> l). rewrite !bind_cons. specialize (IH i H). perm.
Qed.

Lemma no_picks l : existsb is_picked l = false -> gather wpick l = [].
Proof. unfold gather. induction l as [|pc l IH]; [done|]. rewrite bind_cons. cbn [existsb]. intros [H1 H2]%orb_false_iff. rewrite IH by done. by destruct pc. Qed.

(** The nodes of [N] are, each once, on a queue or between two queues; a writer's node is on the used queue, one
    for each; a picked node is still on the free queue; the counter is right but for the counts that are due. *)
Record race_inv (N : list nat) (s : sys) : Prop := {
  ri_part : pg_free_head (y_pro s) ++ pg_used_head (y_pro s) ++ pg_full_head (y_pro s) ++ gather wtrans (y_w s) ++ mtrans (y_m s) ≡ₚ N;
  ri_own : forall n, (cnt n (gather wown (y_w s)) <= cnt n (pg_used_head (y_pro s)))%nat;
  ri_pick : forall n, (cnt n (gather wpick (y_w s)) <= cnt n (pg_free_head (y_pro s)))%nat;
  ri_data : forall n, y_m s = MData n -> n ∈ pg_full_head (y_pro s);
  ri_ids : forall n node, pg_vnodes (y_pro s) !! n = Some node -> pn_id node = Z.of_nat n;
  ri_len : forall n, n ∈ N -> (n < length (pg_vnodes (y_pro s)))%nat;
  ri_nfree : pg_nfree (y_pro s) = u32 (Z.of_nat (length (pg_free_head (y_pro s)) + length (gather wpend (y_w s))) - mpend (y_m s))
}.

Lemma gather_cnt f l i x y n : l !! i = Some x -> (cnt n (f x) + cnt n (gather f (<[i := y]> l)) = cnt n (f y) + cnt n (gather f l))%nat.
Proof. intros H. pose proof (proj1 (cnt_perm _ _) (gather_insert f l i x y H) n) as E. by rewrite !cnt_app in E. Qed.

Lemma gather_len f l i x y : l !! i = Some x -> (length (f x) + length (gather f (<[i := y]> l)) = length (f y) + length (gather f l))%nat.
Proof. intros H. pose proof (Permutation_length (gather_insert f l i x y H)) as E. by rewrite !length_app in E. Qed.

(** A step of writer [i] from [pc] to [pc'] that turns the group into [pro'] *)
Lemma race_writer N s i pc pc' pro' : race_inv N s -> y_w s !! i = Some pc ->
  (forall n, cnt n (pg_free_head pro') + cnt n (pg_used_head pro') + cnt n (pg_full_head pro') + cnt n (wtrans pc') =
             cnt n (pg_free_head (y_pro s)) + cnt n (pg_used_head (y_pro s)) + cnt n (pg_full_head (y_pro s)) + cnt n (wtrans pc))%nat ->
  (forall n, cnt n (wown pc') + cnt n (pg_used_head (y_pro s)) <= cnt n (pg_used_head pro') + cnt n (wown pc))%nat ->
  (forall n, cnt n (wpick pc') + cnt n (gather wpick (y_w s)) <= cnt n (pg_free_head pro') + cnt n (wpick pc))%nat ->
  (forall n, n ∈ pg_full_head (y_pro s) -> n ∈ pg_full_head pro') ->
  (forall n node, pg_vnodes pro' !! n = Some node -> pn_id node = Z.of_nat n) ->
  length (pg_vnodes pro') = length (pg_vnodes (y_pro s)) ->
  pg_nfree pro' = u32 (pg_nfree (y_pro s) + Z.of_nat (length (pg_free_head pro') + length (wpend pc')) - Z.of_nat (length (pg_free_head (y_pro s)) + length (wpend pc))) ->
  race_inv N {| y_pro := pro'; y_w := <[i := pc']> (y_w s); y_m := y_m s |}.
Proof.
  intros [Hp Ho Hk Hd Hi Hl Hn] Hpc Ep Eo Ek Ef Ei El En. constructor; cbn [y_pro y_w y_m].
  - rewrite cnt_perm in *. intros n. specialize (Hp n). specialize (Ep n). pose proof (gather_cnt wtrans _ _ _ pc' n Hpc). rewrite !cnt_app in *. lia.
  - intros n. specialize (Ho n). specialize (Eo n). pose proof (gather_cnt wown _ _ _ pc' n Hpc). lia.
  - intros n. specialize (Ek n). pose proof (gather_cnt wpick _ _ _ pc' n Hpc). lia.
  - intros n Hn'. by apply Ef, Hd.
  - done.
  - rewrite El. done.
  - pose proof (gather_len wpend _ _ _ pc' Hpc). rewrite En, Hn. unfold wrap. rewrite <- Zminus_mod_idemp_l, Zplus_mod_idemp_l, Zminus_mod_idemp_l. f_equal. lia.
Qed.

Lemma tailq_remove_in `{EqDecision A} (l : list A) x : x ∈ l -> tailq_remove l x = Some (remove_first x l).
Proof. intros H. unfold tailq_remove. by rewrite decide_True. Qed.

Lemma remove_first_len `{EqDecision A} (l : list A) x : x ∈ l -> S (length (remove_first x l)) = length l.
Proof. intros H. by rewrite (Permutation_length (remove_first_perm l x H)). Qed.

Lemma race_vnode N s n : race_inv N s -> n ∈ N -> exists node, pg_vnodes (y_pro s) !! n = Some node.
Proof. intros H Hn. apply lookup_lt_is_Some, (ri_len _ _ H n Hn). Qed.

(** Where the nodes at hand are *)
Lemma race_owned N s i n pc : race_inv N s -> y_w s !! i = Some pc -> n ∈ wown pc -> n ∈ pg_used_head (y_pro s).
Proof.
  intros H Hpc Hn. apply cnt_elem. pose proof (ri_own _ _ H n). pose proof (gather_cnt wown _ _ _ Wants n Hpc) as E. apply cnt_elem in Hn. cbn in E. lia.
Qed.

Lemma race_picked N s i n : race_inv N s -> y_w s !! i = Some (Picked n) -> n ∈ pg_free_head (y_pro s).
Proof.
  intros H Hpc. apply cnt_elem. pose proof (ri_pick _ _ H n). pose proof (gather_cnt wpick _ _ _ Wants n Hpc) as E. cbn in E. rewrite one_same in E. lia.
Qed.

Lemma race_part N s n : race_inv N s -> (cnt n (pg_free_head (y_pro s)) + cnt n (pg_used_head (y_pro s)) + cnt n (pg_full_head (y_pro s)) + cnt n (gather wtrans (y_w s)) + cnt n (mtrans (y_m s)) = cnt n N)%nat.
Proof. intros H. pose proof (proj1 (cnt_perm _ _) (ri_part _ _ H) n) as E. rewrite !cnt_app in E. lia. Qed.

Lemma race_trans N s i n pc : race_inv N s -> y_w s !! i = Some pc -> n ∈ wtrans pc -> n ∈ N.
Proof.
  intros H Hpc Hn. apply cnt_elem. pose proof (race_part _ _ n H). pose proof (gather_cnt wtrans _ _ _ Wants n Hpc) as E. apply cnt_elem in Hn. cbn in E. lia.
Qed.

Lemma ids_insert (l : list ztl_pro_node) m node node' : (forall n node, l !! n = Some node -> pn_id node = Z.of_nat n) -> l !! m = Some node -> pn_id node' = pn_id node ->
  forall n x, <[m := node']> l !! n = Some x -> pn_id x = Z.of_nat n.
Proof.
  intros H Hm He n x. rewrite list_lookup_insert. case_decide as E; [intros [= <-]; destruct E as [<- _]; by rewrite He, (H m)|apply H].
Qed.

(** Closes the goals of [race_writer] that follow by counting. *)
Ltac counts Hk Hu :=
  try done; try apply Hu;
  try (let x := fresh "x" in intros x; specialize (Hk x);
       cbn [pg_free_head pg_used_head pg_full_head pg_set_free_head pg_set_used_head pg_set_full_head pg_set_vnodes pg_set_nfree];
       rewrite ?cnt_app; cbn in *; lia).

Lemma race_wstep N s i pc : race_inv N s -> y_w s !! i = Some pc -> serial s (A_w i) ->
  exists pro' pc', writer_step (y_pro s) pc = Some (pro', pc') /\ race_inv N {| y_pro := pro'; y_w := <[i := pc']> (y_w s); y_m := y_m s |}.
Proof.
  intros H Hpc Hs. pose proof (fun pc' pro' => race_writer N s i pc pc' pro' H Hpc) as HR. pose proof (ri_ids _ _ H) as Hids. pose proof (ri_nfree _ _ H) as Hnf.
  assert (forall x, pg_nfree (y_pro s) = u32 (pg_nfree (y_pro s) + x - x)) as Hu.
  { intros x. replace (_ + x - x) with (pg_nfree (y_pro s)) by lia. rewrite Hnf. unfold wrap. by rewrite Zmod_mod. }
  assert (forall n, cnt n (gather wpick (y_w s)) <= cnt n (pg_free_head (y_pro s)))%nat as Hk by apply H.
  destruct pc as [[n|]|n| |n|n|n]; cbn [writer_step].
  - assert (n ∈ pg_used_head (y_pro s)) as Hn by (apply (race_owned N s i n _ H Hpc); left).
    destruct (race_vnode N s n H) as [node Hv]; [apply cnt_elem; pose proof (race_part _ _ n H); apply cnt_elem in Hn; lia|].
    rewrite Hv. cbn [mbind option_bind]. destruct (pn_left node =? 0); [|eexists _, _; split; [done|]; apply HR; counts Hk Hu].
    rewrite (Hids _ _ Hv), Nat2Z.id. unfold cs_unuse. rewrite tailq_remove_in by done. cbn [mbind option_bind]. eexists _, _. split; [done|].
    pose proof (fun x => cnt_remove_first x n _ Hn) as Hx.
    apply HR; counts Hk Hu; intros x; specialize (Hx x); cbn in *; lia.
  - eexists _, _. split; [done|]. apply HR; counts Hk Hu.
  - eexists _, _. split; [done|]. unfold cs_fill, tailq_insert_tail. apply HR; counts Hk Hu. intros x Hx. apply elem_of_app. by left.
  - destruct (pg_free_head (y_pro s)) as [|n l] eqn:Ef; eexists _, _; (split; [done|]).
    + apply HR; rewrite ?Ef; counts Hk Hu.
    + assert (forall x, cnt x (gather wpick (y_w s)) = 0)%nat as Hz by (intros x; by rewrite (no_picks _ (Hs Hpc))).
      apply HR; rewrite ?Ef; counts Hz Hu.
  - pose proof (race_picked N s i n H Hpc) as Hn. unfold cs_take. rewrite tailq_remove_in by done. cbn [mbind option_bind]. eexists _, _. split; [done|].
    pose proof (fun x => cnt_remove_first x n _ Hn) as Hx. pose proof (remove_first_len _ _ Hn).
    apply HR; counts Hk Hu; try (intros x; specialize (Hx x); specialize (Hk x); cbn in *; lia).
    cbn [pg_nfree pg_free_head pg_set_free_head wpend length]. rewrite (Hu 0) at 1. f_equal. lia.
  - destruct (race_vnode N s n H) as [node Hv]; [apply (race_trans N s i n _ H Hpc); left|]. unfold cs_use. rewrite Hv. cbn [mbind option_bind].
    eexists _, _. split; [done|]. unfold tailq_insert_tail. apply HR; counts Hk Hu.
    + by apply (ids_insert _ n node).
    + apply length_insert.
  - eexists _, _. split; [done|]. unfold cs_count. apply HR; counts Hk Hu. cbn [pg_nfree pg_free_head pg_set_nfree wpend length]. f_equal. lia.
Qed.

Lemma race_use N s n k node : race_inv N s -> pg_vnodes (y_pro s) !! n = Some node ->
  race_inv N {| y_pro := pg_set_vnodes (y_pro s) (<[n := pn_set_left node k]> (pg_vnodes (y_pro s))); y_w := y_w s; y_m := y_m s |}.
Proof.
  intros [Hp Ho Hk Hd Hi Hl Hn] Hv. constructor; try done; cbn [y_pro pg_vnodes pg_set_vnodes].
  - by apply (ids_insert _ n node).
  - intros m Hm. rewrite length_insert. by apply Hl.
Qed.

Lemma race_reset N s n : race_inv N s -> y_m s = MIdle -> n ∈ pg_full_head (y_pro s) ->
  exists pro', cs_reset (y_pro s) n = Some pro' /\ race_inv N {| y_pro := pro'; y_w := y_w s; y_m := MData n |}.
Proof.
  intros H Hm Hn. destruct (race_vnode N s n H) as [node Hv]; [apply cnt_elem; pose proof (race_part _ _ n H); apply cnt_elem in Hn; lia|].
  unfold cs_reset. rewrite Hv. cbn [mbind option_bind]. eexists. split; [done|]. destruct H as [Hp Ho Hk Hd Hi Hl Hnf]. rewrite Hm in *.
  constructor; try done; cbn [y_pro y_m pg_vnodes pg_set_vnodes].
  - by intros m [= <-].
  - by apply (ids_insert _ n node).
  - intros m Hm'. rewrite length_insert. by apply Hl.
Qed.

Lemma race_mstep N s : race_inv N s ->
  exists pro' pc', mstep (y_pro s) (y_m s) = Some (pro', pc') /\ race_inv N {| y_pro := pro'; y_w := y_w s; y_m := pc' |}.
Proof.
  intros H. pose proof H as [Hp Ho Hk Hd Hi Hl Hnf]. destruct (y_m s) as [|n|n|] eqn:Em; cbn [mstep].
  - eexists _, _. split; [done|]. destruct s. cbn in *. subst. exact H.
  - pose proof (Hd n eq_refl) as Hn. unfold cs_unfill. rewrite tailq_remove_in by done. cbn [mbind option_bind]. eexists _, _. split; [done|].
    constructor; try done; cbn [y_pro y_m y_w pg_free_head pg_used_head pg_full_head pg_set_full_head mtrans].
    pose proof (fun x => cnt_remove_first x n _ Hn) as Hx. rewrite cnt_perm in *. intros x. specialize (Hp x). specialize (Hx x).
    rewrite !cnt_app in *. cbn [mtrans cnt] in *. lia.
  - eexists _, _. split; [done|]. unfold cs_free, tailq_insert_tail. constructor; try done; cbn [y_pro y_m y_w pg_free_head pg_used_head pg_full_head pg_nfree pg_set_free_head mtrans mpend].
    + cbn [mtrans] in Hp. perm.
    + intros x. specialize (Hk x). rewrite cnt_app. lia.
    + rewrite Hnf, length_app. cbn [mpend length]. f_equal. lia.
  - eexists _, _. split; [done|]. unfold cs_uncount. constructor; try done; cbn [y_pro y_m y_w pg_free_head pg_used_head pg_full_head pg_nfree pg_set_nfree mtrans mpend].
    rewrite Hnf. unfold wrap. rewrite Zplus_mod_idemp_l. f_equal. cbn [mpend]. lia.
Qed.

(** * Theorems *)

(** The nodes of a group at rest: on the queues each once, with their own number, and counted. *)
Record rest_ok (pro : ztl_pro_node_grp) : Prop := {
  rk_nodup : NoDup (queues pro);
  rk_ids : forall n node, pg_vnodes pro !! n = Some node -> pn_id node = Z.of_nat n;
  rk_len : forall n, n ∈ queues pro -> (n < length (pg_vnodes pro))%nat;
  rk_nfree : pg_nfree pro = u32 (Z.of_nat (length (pg_free_head pro)))
}.

Definition start (pro : ztl_pro_node_grp) (writers : nat) : sys := {| y_pro := pro; y_w := replicate writers (Out None); y_m := MIdle |}.

Lemma gather_start f k : f (Out None) = [] -> gather f (replicate k (Out None)) = [].
Proof. intros H. unfold gather. induction k as [|k IH]; [done|]. cbn [replicate]. by rewrite bind_cons, H, IH. Qed.

Lemma race_start pro k : rest_ok pro -> race_inv (queues pro) (start pro k).
Proof.
  intros [Hn Hi Hl Hf]. constructor; cbn [y_pro y_w y_m start]; try done.
  - rewrite gather_start by done. unfold queues. by rewrite !app_nil_r.
  - intros n. rewrite gather_start by done. cbn. lia.
  - intros n. rewrite gather_start by done. cbn. lia.
  - rewrite gather_start by done. rewrite Hf. f_equal. cbn. lia.
Qed.

Lemma race_step N s a r : race_inv N s -> serial s a -> ystep s a r -> exists s', r = Some s' /\ race_inv N s'.
Proof.
  intros H Hs Hy. destruct Hy as [s i pc Hpc|s i n k node Hpc Hv Hk|s|s n Hm Hn].
  - destruct (race_wstep N s i pc H Hpc Hs) as (pro' & pc' & -> & H'). by eexists.
  - eexists. split; [done|]. by apply race_use.
  - destruct (race_mstep N s H) as (pro' & pc' & -> & H'). by eexists.
  - destruct (race_reset N s n H Hm Hn) as (pro' & -> & H'). by eexists.
Qed.

Lemma reach_inv pro k r : rest_ok pro -> reach serial (start pro k) r -> exists s, r = Some s /\ race_inv (queues pro) s.
Proof.
  intros Hr Hreach. induction Hreach as [|s a r _ (s' & [= ->] & H) Hs Hy]; [exists (start pro k); split; [done|by apply race_start]|].
  by apply (race_step _ s' a).
Qed.


Definition any (s : sys) (a : action) : Prop := True.

Lemma reach_w s0 s i pc pro' pc' : reach any s0 (Some s) -> y_w s !! i = Some pc -> writer_step (y_pro s) pc = Some (pro', pc') ->
  reach any s0 (Some {| y_pro := pro'; y_w := <[i := pc']> (y_w s); y_m := y_m s |}).
Proof. intros H Hpc Hw. eapply reach_step; [exact H|done|]. pose proof (Y_w s i pc Hpc) as Y. rewrite Hw in Y. exact Y. Qed.

(** C16. The look at the head of the free queue and the removal of the node are two critical sections: with two
    writers that need a node there is a schedule in which both take the first free node, and the second removal
    corrupts the queues. *)
Theorem node_queues_race pro n l : rest_ok pro -> pg_free_head pro = n :: l -> reach any (start pro 2) None.
Proof.
  intros Hr Hf. assert (n ∉ l) as Hn.
  { pose proof (rk_nodup _ Hr) as H. unfold queues in H. rewrite Hf in H. cbn in H. apply NoDup_cons in H as [H _]. set_solver. }
  assert (writer_step pro Wants = Some (pro, Picked n)) as HW by (cbn; by rewrite Hf).
  set (pro1 := pg_set_free_head pro l).
  assert (writer_step pro (Picked n) = Some (pro1, Took n)) as HT.
  { cbn. unfold cs_take. rewrite Hf, tailq_remove_in by left. cbn [mbind option_bind remove_first]. by rewrite decide_True. }
  pose proof (reach_start any (start pro 2)) as R.
  apply (reach_w _ _ 0 (Out None) pro Wants) in R; [|done|done]. apply (reach_w _ _ 1 (Out None) pro Wants) in R; [|done|done].
  apply (reach_w _ _ 0 Wants pro (Picked n)) in R; [|done|done]. apply (reach_w _ _ 1 Wants pro (Picked n)) in R; [|done|done].
  apply (reach_w _ _ 0 (Picked n) pro1 (Took n)) in R; [|done|done].
  eapply reach_step; [exact R|done|]. cbn [y_pro y_w y_m start replicate].
  pose proof (Y_w {| y_pro := pro1; y_w := [Took n; Picked n]; y_m := MIdle |} 1 _ eq_refl) as Y.
  cbn [y_pro y_w y_m writer_step] in Y. unfold cs_take, tailq_remove in Y. cbn [pg_free_head pg_set_free_head pro1] in Y. rewrite decide_False in Y by done. exact Y.
Qed.

(** * Witnesses: three free nodes and two writers *)

Lemma sim_rest : rest_ok (sim_pro 3).
Proof.
  constructor.
  - apply (bool_decide_unpack (NoDup (queues (sim_pro 3)))). vm_compute. reflexivity.
  - intros n node H. cbn [pg_vnodes sim_pro] in H. apply list_lookup_fmap_Some in H as (m & -> & Hm). apply lookup_seq in Hm as [-> _]. done.
  - intros n Hn. cbn [pg_vnodes sim_pro]. rewrite length_fmap, length_seq. unfold queues in Hn. cbn [sim_pro pg_free_head pg_used_head pg_full_head] in Hn.
    rewrite !app_nil_r in Hn. apply elem_of_seq in Hn. lia.
  - reflexivity.
Qed.


Lemma node_queues_race_witness : reach any (start (sim_pro 3) 2) None.
Proof. exact (node_queues_race (sim_pro 3) 0 [1; 2]%nat sim_rest eq_refl). Defined.
