(* ===== verification/Map.v ===== *)
(** The mapping table: src/xztl/src/ztl-map.c over the persistent mapping
    entries of ztl-mpe.c.

    A mapping page is cached in a buffer of the cache; the metadata word of a page
    ([struct map_md_addr]) is either the address of the page or, with its flag
    set, a pointer to the cache entry: [MdAddr] and [MdCached].  The buffers, the
    free list and the used queue are the arrays and lists of the source.
    [cp_running] is 0 throughout: nothing in the sources sets it. *)

From S2P Require Import Prelude Types.

Definition MAP_BUF_PGS : nat := Z.to_nat 8192.
Definition ZTL_MPE_PG_SEC : Z := 8.
Definition ZTL_MPE_CPGS : nat := 256.
Definition AND64 : Z := 2 ^ 64 - 1.

(** * Mapping entries: [struct app_map_entry] *)

Definition map_offset (a : Z) : Z := bf_get 0 40 a.
Definition map_nsec (a : Z) : Z := bf_get 40 23 a.
Definition map_multi (a : Z) : Z := bf_get 63 1 a.

(** * State *)

Inductive map_md_addr :=
  | MdAddr (addr : Z)
  | MdCached (ent : nat).

(** [struct map_cache_entry]; [ce_buf] is the page, [ce_md] the index of
    [md_entry] in the table. *)
Record map_cache_entry := { ce_dirty : Z; ce_buf : list Z; ce_addr : Z; ce_md : option nat }.

Record map_cache := {
  mc_tbl : list map_md_addr;         (* smap->tbl *)
  mc_pg_buf : list map_cache_entry;
  mc_mbf : list nat;                 (* mbf_head *)
  mc_mbu : list nat;                 (* mbu_head *)
  mc_nfree : Z;
  mc_nused : Z
}.

Definition ce_set_md (e : map_cache_entry) v : map_cache_entry :=
  {| ce_dirty := ce_dirty e; ce_buf := ce_buf e; ce_addr := ce_addr e; ce_md := v |}.
Definition ce_set_addr (e : map_cache_entry) v : map_cache_entry :=
  {| ce_dirty := ce_dirty e; ce_buf := ce_buf e; ce_addr := v; ce_md := ce_md e |}.
Definition ce_set_buf (e : map_cache_entry) v : map_cache_entry :=
  {| ce_dirty := ce_dirty e; ce_buf := v; ce_addr := ce_addr e; ce_md := ce_md e |}.
Definition ce_set_dirty (e : map_cache_entry) v : map_cache_entry :=
  {| ce_dirty := v; ce_buf := ce_buf e; ce_addr := ce_addr e; ce_md := ce_md e |}.

Section Map.

(** [map_ent_per_pg] *)
Context (ent_per_pg : nat).

(** [ztl_mpe_create] and [map_init_cache] with [n] pages: the free list is filled
    from its head, so the last page is its first. *)
Definition ztl_mpe_create : list map_md_addr := replicate ZTL_MPE_CPGS (MdAddr 0).

Definition map_init_cache (n : nat) : map_cache :=
  {| mc_tbl := ztl_mpe_create;
     mc_pg_buf := replicate n {| ce_dirty := 0; ce_buf := replicate ent_per_pg 0; ce_addr := 0; ce_md := None |};
     mc_mbf := rev (seq 0 n); mc_mbu := []; mc_nfree := Z.of_nat n; mc_nused := 0 |}.

Definition upd_page (c : map_cache) (e : nat) (f : map_cache_entry -> map_cache_entry) : option map_cache :=
  pg ← mc_pg_buf c !! e;
  Some {| mc_tbl := mc_tbl c; mc_pg_buf := <[e := f pg]> (mc_pg_buf c); mc_mbf := mc_mbf c;
          mc_mbu := mc_mbu c; mc_nfree := mc_nfree c; mc_nused := mc_nused c |}.

Definition set_md (c : map_cache) (i : nat) (v : map_md_addr) : option map_cache :=
  _ ← mc_tbl c !! i;
  Some {| mc_tbl := <[i := v]> (mc_tbl c); mc_pg_buf := mc_pg_buf c; mc_mbf := mc_mbf c;
          mc_mbu := mc_mbu c; mc_nfree := mc_nfree c; mc_nused := mc_nused c |}.

(** [map_evict_pg_cache]: the page at the head of the used queue *)
Definition map_evict_pg_cache (c : map_cache) : option (Z * map_cache) :=
  match mc_mbu c with
  | [] => Some (XZTL_ZTL_MAP_ERR, c)
  | e :: mbu =>
      let c := {| mc_tbl := mc_tbl c; mc_pg_buf := mc_pg_buf c; mc_mbf := mc_mbf c; mc_mbu := mbu;
                  mc_nfree := mc_nfree c; mc_nused := u32 (mc_nused c - 1) |} in
      pg ← mc_pg_buf c !! e;
      i ← ce_md pg;
      c ← set_md c i (MdAddr (ce_addr pg));
      c ← upd_page c e (fun pg => ce_set_md (ce_set_addr pg 0) None);
      Some (XZTL_OK, {| mc_tbl := mc_tbl c; mc_pg_buf := mc_pg_buf c; mc_mbf := e :: mc_mbf c;
                        mc_mbu := mc_mbu c; mc_nfree := u32 (mc_nfree c + 1); mc_nused := mc_nused c |})
  end.

(** [map_load_pg_cache] for the page of metadata entry [i] *)
Definition map_load_pg_cache (c : map_cache) (i : nat) : option (Z * map_cache) :=
  '(ret, c) ← match mc_mbf c with
              | [] => map_evict_pg_cache c
              | _ => Some (XZTL_OK, c)
              end;
  if ctrue ret then Some (XZTL_ZTL_MAP_ERR, c) else
  match mc_mbf c with
  | [] => Some (XZTL_ZTL_MAP_ERR, c)
  | e :: mbf =>
      let c := {| mc_tbl := mc_tbl c; mc_pg_buf := mc_pg_buf c; mc_mbf := mbf; mc_mbu := mc_mbu c;
                  mc_nfree := u32 (mc_nfree c - 1); mc_nused := mc_nused c |} in
      c ← upd_page c e (fun pg => ce_set_md pg (Some i));
      md ← mc_tbl c !! i;
      c ← match md with
          | MdAddr 0 => upd_page c e (fun pg => ce_set_dirty (ce_set_buf pg (replicate ent_per_pg 0)) 1)
          | _ => Some c                      (* map_nvm_read returns XZTL_OK *)
          end;
      c ← set_md c i (MdCached e);
      Some (XZTL_OK, {| mc_tbl := mc_tbl c; mc_pg_buf := mc_pg_buf c; mc_mbf := mc_mbf c;
                        mc_mbu := tailq_insert_tail (mc_mbu c) e; mc_nfree := mc_nfree c;
                        mc_nused := u32 (mc_nused c + 1) |})
  end.

(** [map_get_cache_entry]: the cache entry of the page of [id], NULL is [None] *)
Definition map_get_cache_entry (c : map_cache) (id : Z) : option (option nat * map_cache) :=
  let pg_off := Z.to_nat (u32 (id / Z.of_nat ent_per_pg)) in
  md ← mc_tbl c !! pg_off;
  match md with
  | MdAddr _ =>
      '(ret, c1) ← map_load_pg_cache c pg_off;
      if ctrue ret then Some (None, c1) else
      md1 ← mc_tbl c1 !! pg_off;
      match md1 with
      | MdCached e => Some (Some e, c1)
      | MdAddr _ => None
      end
  | MdCached e =>
      mbu ← tailq_remove (mc_mbu c) e;
      Some (Some e, {| mc_tbl := mc_tbl c; mc_pg_buf := mc_pg_buf c; mc_mbf := mc_mbf c;
                       mc_mbu := tailq_insert_tail mbu e; mc_nfree := mc_nfree c; mc_nused := mc_nused c |})
  end.

(** [map_upsert]: the result, the value stored in [*old], and the state *)
Definition map_upsert (c : map_cache) (id val old_caller : Z) : option (Z * option Z * map_cache) :=
  let ent_off := u32 (id mod Z.of_nat ent_per_pg) in
  if Z.of_nat ent_per_pg <=? ent_off then Some (XZTL_ZTL_MAP_ERR, None, c) else
  '(oe, c) ← map_get_cache_entry c id;
  match oe with
  | None => Some (XZTL_ZTL_MAP_ERR, None, c)
  | Some e =>
      pg ← mc_pg_buf c !! e;
      old ← (ce_buf pg).[ent_off];
      if ctrue old_caller && negb (old =? old_caller) then Some (XZTL_ZTL_MAP_ERR, Some old, c) else
      buf ← aset (ce_buf pg) ent_off val;
      c ← upd_page c e (fun pg => ce_set_buf pg buf);
      Some (XZTL_OK, Some old, c)
  end.

Definition map_read (c : map_cache) (id : Z) : option (Z * map_cache) :=
  let ent_off := u32 (id mod Z.of_nat ent_per_pg) in
  if Z.of_nat ent_per_pg <=? ent_off then Some (AND64, c) else
  '(oe, c) ← map_get_cache_entry c id;
  match oe with
  | None => Some (AND64, c)
  | Some e =>
      pg ← mc_pg_buf c !! e;
      a ← (ce_buf pg).[ent_off];
      Some (map_offset a, c)
  end.

End Map.

(** [map_upsert_md] does nothing. *)
Definition map_upsert_md (index new_addr old_addr : Z) : Z := XZTL_OK.

(** [zrocks_delete]: the entry is set to 0 *)
Definition zrocks_delete (ent_per_pg : nat) (c : map_cache) (id : Z) : option (Z * map_cache) :=
  '(ret, _, c) ← map_upsert ent_per_pg c id 0 0;
  Some (ret, c).

(** [zrocks_read_obj]: the mapping is read, and neither its answer nor the buffer is used. *)
Definition zrocks_read_obj (ent_per_pg : nat) (c : map_cache) (id offset buf size : Z) : option (Z * map_cache) :=
  '(objsec_off, c) ← map_read ent_per_pg c id;
  Some (XZTL_OK, c).

(** * Specification

    The table is a total map from ids to entries, zero at first. *)

Definition spec_upsert (m : Z -> Z) (id val old_caller : Z) : Z * Z * (Z -> Z) :=
  if ctrue old_caller && negb (m id =? old_caller) then (XZTL_ZTL_MAP_ERR, m id, m)
  else (XZTL_OK, m id, fun i => if i =? id then val else m i).

Definition spec_read (m : Z -> Z) (id : Z) : Z := map_offset (m id).

Inductive map_op := OpUpsert (id val old_caller : Z) | OpRead (id : Z).
Inductive map_res := ResUpsert (ret : Z) (old : option Z) | ResRead (off : Z).

Definition map_step (epp : nat) (c : map_cache) (o : map_op) : option (map_res * map_cache) :=
  match o with
  | OpUpsert id val oc => '(ret, old, c) ← map_upsert epp c id val oc; Some (ResUpsert ret old, c)
  | OpRead id => '(off, c) ← map_read epp c id; Some (ResRead off, c)
  end.

Definition spec_step (m : Z -> Z) (o : map_op) : map_res * (Z -> Z) :=
  match o with
  | OpUpsert id val oc => let '(ret, old, m') := spec_upsert m id val oc in (ResUpsert ret (Some old), m')
  | OpRead id => (ResRead (spec_read m id), m)
  end.

Fixpoint map_run (epp : nat) (c : map_cache) (os : list map_op) : option (list map_res * map_cache) :=
  match os with
  | [] => Some ([], c)
  | o :: os' =>
      '(r, c1) ← map_step epp c o;
      '(rs, c2) ← map_run epp c1 os';
      Some (r :: rs, c2)
  end.

Fixpoint spec_run (m : Z -> Z) (os : list map_op) : list map_res :=
  match os with
  | [] => []
  | o :: os' => let '(r, m') := spec_step m o in r :: spec_run m' os'
  end.

Definition op_id (o : map_op) : Z := match o with OpUpsert id _ _ => id | OpRead id => id end.
