(* ===== verification/MapTheorems.v ===== *)
(** The mapping table refines a total map: for the ids the metadata table covers,
    every sequence of [map_upsert] and [map_read] (src/xztl/src/ztl-map.c) returns
    what the specification returns. *)

From S2P Require Import Prelude Types Map.

Section Refine.

Context (epp npg : nat) (Hepp : (0 < epp)%nat) (Hepp32 : Z.of_nat epp < 2 ^ 32) (Hnpg : (256 <= npg)%nat).
Context (Hnpg32 : Z.of_nat npg < 2 ^ 32).
Implicit Types (c : map_cache).

(** The page of an id is cached or has never been used; the cached pages are the
    used ones, each in one place. *)
Record map_inv c : Prop := {
  mi_tbl : length (mc_tbl c) = ZTL_MPE_CPGS;
  mi_bufs : forall e pg, mc_pg_buf c !! e = Some pg -> length (ce_buf pg) = epp;
  mi_pages : mc_mbf c ++ mc_mbu c ≡ₚ seq 0 npg;
  mi_len : length (mc_pg_buf c) = npg;
  mi_cached : forall i e, mc_tbl c !! i = Some (MdCached e) ->
    e ∈ mc_mbu c /\ exists pg, mc_pg_buf c !! e = Some pg /\ ce_md pg = Some i;
  mi_used : forall e, e ∈ mc_mbu c -> exists i, mc_tbl c !! i = Some (MdCached e);
  mi_fresh : forall i a, mc_tbl c !! i = Some (MdAddr a) -> a = 0;
  mi_nfree : mc_nfree c = Z.of_nat (length (mc_mbf c));
  mi_nused : mc_nused c = Z.of_nat (length (mc_mbu c))
}.

(** The map the cache holds. *)
Definition map_abs c (id : Z) : Z :=
  match mc_tbl c !! Z.to_nat (id / Z.of_nat epp) with
  | Some (MdCached e) => match mc_pg_buf c !! e with
                         | Some pg => default 0 (ce_buf pg).[id mod Z.of_nat epp]
                         | None => 0
                         end
  | _ => 0
  end.

Definition in_range (id : Z) : Prop := 0 <= id < 256 * Z.of_nat epp.

Lemma map_init_inv : map_inv (map_init_cache epp npg).
Proof using Hnpg.
  constructor; simpl; auto.
  - intros e pg [-> _]%lookup_replicate. simpl. apply length_replicate.
  - rewrite app_nil_r, <- Permutation_rev. done.
  - apply length_replicate.
  - unfold ztl_mpe_create. by intros i e [[=] _]%lookup_replicate.
  - intros e []%not_elem_of_nil.
  - unfold ztl_mpe_create. by intros i a [[= ->] _]%lookup_replicate.
  - by rewrite length_rev, length_seq.
Qed.

Lemma map_init_abs id : map_abs (map_init_cache epp npg) id = 0.
Proof using.
  unfold map_abs; simpl. unfold ztl_mpe_create.
  destruct (replicate ZTL_MPE_CPGS (MdAddr 0) !! Z.to_nat (id / Z.of_nat epp)) as [[a|e]|] eqn:E; try done.
  by apply lookup_replicate in E as [[=] _].
Qed.

Lemma range_page id : in_range id ->
  0 <= id / Z.of_nat epp < 256 /\ 0 <= id mod Z.of_nat epp < Z.of_nat epp /\
  u32 (id / Z.of_nat epp) = id / Z.of_nat epp /\ u32 (id mod Z.of_nat epp) = id mod Z.of_nat epp.
Proof using Hepp Hepp32.
  clear Hnpg Hnpg32. unfold in_range. intros Hid. assert (0 <= id / Z.of_nat epp < 256) by (split; [apply Z.div_pos|apply Z.div_lt_upper_bound]; lia).
  pose proof (Z.mod_pos_bound id (Z.of_nat epp) ltac:(lia)). split_and!; try lia; apply wrap_small; lia.
Qed.

(** While a page is not cached, a buffer is free: no page is ever evicted. *)
Lemma free_page c i a : map_inv c -> mc_tbl c !! i = Some (MdAddr a) -> mc_mbf c <> [].
Proof using Hnpg.
  clear Hepp Hepp32 Hnpg32.
  intros Hc Hi Hnil. pose proof (mi_pages _ Hc) as Hp. rewrite Hnil in Hp. simpl in Hp.
  assert (Hsub : mc_mbu c ⊆+ (fun md => match md with MdCached e => e | MdAddr _ => npg end) <$> delete i (mc_tbl c)).
  { apply NoDup_submseteq; [rewrite Hp; apply NoDup_seq|]. intros e He.
    destruct (mi_used _ Hc e He) as [k Hk]. apply list_elem_of_fmap. exists (MdCached e). split; [done|].
    assert (k <> i) by congruence. destruct (decide (k < i)%nat).
    - apply (list_elem_of_lookup_2 _ k). by rewrite list_lookup_delete_lt.
    - apply (list_elem_of_lookup_2 _ (pred k)). rewrite list_lookup_delete_ge by lia.
      by replace (S (pred k)) with k by lia. }
  apply submseteq_length in Hsub. rewrite length_fmap, length_delete in Hsub by done.
  rewrite (mi_tbl _ Hc) in Hsub. apply Permutation_length in Hp. rewrite length_seq in Hp.
  unfold ZTL_MPE_CPGS in Hsub. lia.
Qed.

Lemma used_bound c : map_inv c -> (length (mc_mbu c) <= 256)%nat.
Proof using.
  intros Hc. pose proof (mi_pages _ Hc) as Hp.
  assert (Hnd : NoDup (mc_mbu c)) by (assert (NoDup (mc_mbf c ++ mc_mbu c)) as (_ & _ & ?)%NoDup_app by (rewrite Hp; apply NoDup_seq); done).
  assert (Hsub : mc_mbu c ⊆+ (fun md => match md with MdCached e => e | MdAddr _ => npg end) <$> mc_tbl c).
  { apply NoDup_submseteq; [done|]. intros e [i Hi]%(mi_used _ Hc). apply list_elem_of_fmap.
    exists (MdCached e). split; [done|]. by eapply list_elem_of_lookup_2. }
  apply submseteq_length in Hsub. by rewrite length_fmap, (mi_tbl _ Hc) in Hsub.
Qed.

(** The cache after the page of metadata entry [i] was loaded into buffer [e]. *)
Definition loaded c (i e : nat) (mbf : list nat) (pg : map_cache_entry) : map_cache :=
  {| mc_tbl := <[i := MdCached e]> (mc_tbl c);
     mc_pg_buf := <[e := {| ce_dirty := 1; ce_buf := replicate epp 0; ce_addr := ce_addr pg; ce_md := Some i |}]> (mc_pg_buf c);
     mc_mbf := mbf; mc_mbu := mc_mbu c ++ [e]; mc_nfree := u32 (mc_nfree c - 1); mc_nused := u32 (mc_nused c + 1) |}.

Lemma upd_page_run c e f pg :
  mc_pg_buf c !! e = Some pg ->
  upd_page c e f = Some {| mc_tbl := mc_tbl c; mc_pg_buf := <[e := f pg]> (mc_pg_buf c); mc_mbf := mc_mbf c;
                           mc_mbu := mc_mbu c; mc_nfree := mc_nfree c; mc_nused := mc_nused c |}.
Proof using. intros H. unfold upd_page. by rewrite H. Qed.

Lemma load_run c i a e mbf pg :
  map_inv c -> mc_tbl c !! i = Some (MdAddr a) -> mc_mbf c = e :: mbf -> mc_pg_buf c !! e = Some pg ->
  map_load_pg_cache epp c i = Some (XZTL_OK, loaded c i e mbf pg).
Proof using.
  intros Hc Hi Hm Hpg. pose proof (mi_fresh _ Hc i a Hi) as ->. unfold map_load_pg_cache. rewrite Hm.
  cbn [mbind option_bind]. change (ctrue XZTL_OK) with false. cbv iota. rewrite Hm.
  rewrite (upd_page_run _ _ _ pg) by done. cbn [mbind option_bind mc_tbl]. rewrite Hi. cbn [mbind option_bind].
  erewrite upd_page_run by (cbn [mc_pg_buf]; apply list_lookup_insert_eq; by eapply lookup_lt_Some).
  cbn [mbind option_bind]. unfold set_md. cbn [mc_tbl]. rewrite Hi.
  cbn [mbind option_bind mc_pg_buf mc_mbf mc_mbu mc_nfree mc_nused].
  by rewrite list_insert_insert_eq.
Qed.

Lemma loaded_inv c i a e mbf pg :
  map_inv c -> mc_tbl c !! i = Some (MdAddr a) -> mc_mbf c = e :: mbf -> mc_pg_buf c !! e = Some pg ->
  map_inv (loaded c i e mbf pg).
Proof using Hnpg32.
  clear Hepp Hepp32 Hnpg. intros Hc Hi Hm Hpg. pose proof Hc as [Ht Hb Hp Hl Hca Hu Hfr Hnf Hnu]. rewrite Hm in Hp, Hnf.
  pose proof (Permutation_length Hp) as Hlen. rewrite length_app, length_seq in Hlen. simpl in Hlen, Hnf.
  assert (Hnd : NoDup (e :: mbf ++ mc_mbu c)) by (change (e :: mbf ++ mc_mbu c) with ((e :: mbf) ++ mc_mbu c); rewrite Hp; apply NoDup_seq).
  apply NoDup_cons in Hnd as [Hne Hnd].
  assert (Hie : (e < length (mc_pg_buf c))%nat) by (by eapply lookup_lt_Some).
  assert (Hii : (i < length (mc_tbl c))%nat) by (by eapply lookup_lt_Some).
  constructor; unfold loaded; cbn [mc_tbl mc_pg_buf mc_mbf mc_mbu mc_nfree mc_nused]; rewrite ?length_insert; auto.
  - intros e' pg'. destruct (decide (e' = e)) as [->|]; [|rewrite list_lookup_insert_ne by done; apply Hb].
    rewrite list_lookup_insert_eq by done. intros [= <-]. apply length_replicate.
  - rewrite <- Hp. solve_Permutation.
  - intros j e'. destruct (decide (j = i)) as [->|Hj].
    + rewrite list_lookup_insert_eq by done. intros [= <-]. split; [set_solver|].
      rewrite list_lookup_insert_eq by done. eauto.
    + rewrite list_lookup_insert_ne by done. intros Hj'. destruct (Hca j e' Hj') as (Hin & pg' & Hpg' & Hmd).
      split; [set_solver|]. rewrite list_lookup_insert_ne by set_solver. eauto.
  - intros e' [Hin| ->%list_elem_of_singleton]%elem_of_app.
    + destruct (Hu e' Hin) as [j Hj]. exists j. rewrite list_lookup_insert_ne by congruence. done.
    + exists i. by apply list_lookup_insert_eq.
  - intros j a'. destruct (decide (j = i)) as [->|]; [by rewrite list_lookup_insert_eq|].
    rewrite list_lookup_insert_ne by done. apply Hfr.
  - rewrite wrap_small; lia.
  - rewrite length_app. simpl. rewrite wrap_small; lia.
Qed.

Lemma loaded_abs c i a e mbf pg id :
  map_inv c -> mc_tbl c !! i = Some (MdAddr a) -> mc_mbf c = e :: mbf -> mc_pg_buf c !! e = Some pg ->
  map_abs (loaded c i e mbf pg) id = map_abs c id.
Proof using Hepp.
  clear Hepp32 Hnpg Hnpg32. intros Hc Hi Hm Hpg. unfold map_abs, loaded. cbn [mc_tbl mc_pg_buf].
  assert (Hne : e ∉ mc_mbu c).
  { pose proof (mi_pages _ Hc) as Hp. rewrite Hm in Hp. assert (Hnd : NoDup ((e :: mbf) ++ mc_mbu c)) by (rewrite Hp; apply NoDup_seq).
    apply NoDup_app in Hnd. set_solver. }
  destruct (decide (Z.to_nat (id / Z.of_nat epp) = i)) as [Heq|Hne'].
  - rewrite Heq, list_lookup_insert_eq by (by eapply lookup_lt_Some). rewrite Hi.
    rewrite list_lookup_insert_eq by (by eapply lookup_lt_Some). cbn [ce_buf].
    rewrite aget_replicate; [done|]. apply Z.mod_pos_bound. lia.
  - rewrite list_lookup_insert_ne by done. destruct (mc_tbl c !! Z.to_nat (id / Z.of_nat epp)) as [[a'|e']|] eqn:E; try done.
    rewrite list_lookup_insert_ne; [done|]. intros ->. apply Hne. by apply (mi_cached _ Hc _ _ E).
Qed.

(** Getting the page of an id. *)
Lemma get_ok c id :
  map_inv c -> in_range id ->
  exists e c', map_get_cache_entry epp c id = Some (Some e, c') /\ map_inv c' /\
    mc_tbl c' !! Z.to_nat (id / Z.of_nat epp) = Some (MdCached e) /\
    (forall id', map_abs c' id' = map_abs c id').
Proof using Hepp Hepp32 Hnpg Hnpg32.
  intros Hc Hid. destruct (range_page id Hid) as (Hpg & _ & Hu & _).
  unfold map_get_cache_entry. rewrite Hu. set (i := Z.to_nat (id / Z.of_nat epp)).
  destruct (lookup_lt_is_Some_2 (mc_tbl c) i) as [md Hmd].
  { rewrite (mi_tbl _ Hc). unfold ZTL_MPE_CPGS, i. lia. }
  rewrite Hmd. cbn [mbind option_bind]. destruct md as [a|e].
  - destruct (mc_mbf c) as [|e mbf] eqn:Em; [by destruct (free_page c i a Hc Hmd)|].
    destruct (lookup_lt_is_Some_2 (mc_pg_buf c) e) as [pg Hpge].
    { rewrite (mi_len _ Hc). assert (e ∈ seq 0 npg) as [_ ?]%elem_of_seq; [|done].
      rewrite <- (mi_pages _ Hc), Em. set_solver. }
    rewrite (load_run c i a e mbf pg Hc Hmd Em Hpge). cbn [mbind option_bind]. change (ctrue XZTL_OK) with false. cbv iota.
    exists e, (loaded c i e mbf pg).
    assert (Hl : mc_tbl (loaded c i e mbf pg) !! i = Some (MdCached e))
      by (apply list_lookup_insert_eq; by eapply lookup_lt_Some).
    rewrite Hl. split_and!; auto; [by eapply loaded_inv|intros id'; by eapply loaded_abs].
  - destruct (mi_cached _ Hc i e Hmd) as (Hin & _).
    rewrite (proj2 (tailq_remove_Some (mc_mbu c) e (remove_first e (mc_mbu c)))) by done. cbn [mbind option_bind].
    eexists e, _. split; [done|]. split_and!; auto.
    pose proof (remove_first_perm _ _ Hin) as Hp. destruct Hc as [Ht Hb Hpp Hl Hca Hus Hfr Hnf Hnu].
    assert (Hq : tailq_insert_tail (remove_first e (mc_mbu c)) e ≡ₚ mc_mbu c)
      by (unfold tailq_insert_tail; rewrite <- Permutation_cons_append; by symmetry).
    constructor; cbn [mc_tbl mc_pg_buf mc_mbf mc_mbu mc_nfree mc_nused]; auto.
    + by rewrite Hq.
    + intros j e' Hj. rewrite Hq. by apply Hca.
    + intros e'. rewrite Hq. apply Hus.
    + by rewrite Hq.
Qed.

(** Storing a value in a cached page. *)
Definition stored c (e : nat) (pg : map_cache_entry) (off : nat) (v : Z) : map_cache :=
  {| mc_tbl := mc_tbl c; mc_pg_buf := <[e := ce_set_buf pg (<[off := v]> (ce_buf pg))]> (mc_pg_buf c);
     mc_mbf := mc_mbf c; mc_mbu := mc_mbu c; mc_nfree := mc_nfree c; mc_nused := mc_nused c |}.

Lemma stored_inv c e pg off v :
  map_inv c -> mc_pg_buf c !! e = Some pg -> map_inv (stored c e pg off v).
Proof using.
  intros [Ht Hb Hp Hl Hca Hu Hfr Hnf Hnu] Hpg. pose proof (lookup_lt_Some _ _ _ Hpg) as Hlt.
  constructor; unfold stored; cbn [mc_tbl mc_pg_buf mc_mbf mc_mbu mc_nfree mc_nused]; rewrite ?length_insert; auto.
  - intros e' pg'. destruct (decide (e' = e)) as [->|]; [|rewrite list_lookup_insert_ne by done; apply Hb].
    rewrite list_lookup_insert_eq by done. intros [= <-]. simpl. rewrite length_insert. eauto.
  - intros i e' Hi. destruct (Hca i e' Hi) as (Hin & pg' & Hpg' & Hmd). split; [done|].
    destruct (decide (e' = e)) as [->|]; [|rewrite list_lookup_insert_ne by done; eauto].
    rewrite list_lookup_insert_eq by done. eexists. split; [done|]. simpl. congruence.
Qed.

Lemma stored_abs c e pg id v id' :
  map_inv c -> in_range id -> in_range id' -> mc_pg_buf c !! e = Some pg ->
  mc_tbl c !! Z.to_nat (id / Z.of_nat epp) = Some (MdCached e) ->
  map_abs (stored c e pg (Z.to_nat (id mod Z.of_nat epp)) v) id' = if id' =? id then v else map_abs c id'.
Proof using Hepp Hepp32.
  clear Hnpg Hnpg32. intros Hc Hid Hid' Hpg Htb. destruct (range_page _ Hid) as (Hp & Hm & _), (range_page _ Hid') as (Hp' & Hm' & _).
  pose proof (mi_bufs _ Hc _ _ Hpg) as Hlen. pose proof (lookup_lt_Some _ _ _ Hpg) as Hlt.
  unfold map_abs, stored. cbn [mc_tbl mc_pg_buf].
  destruct (mc_tbl c !! Z.to_nat (id' / _)) as [[a'|e']|] eqn:E'.
  1,3: destruct (Z.eqb_spec id' id) as [->|]; [congruence|done].
  destruct (decide (e' = e)) as [->|Hee].
  - destruct (mi_cached _ Hc _ _ E') as (_ & pg1 & Hpg1 & Hmd1), (mi_cached _ Hc _ _ Htb) as (_ & pg2 & Hpg2 & Hmd2).
    rewrite list_lookup_insert_eq, Hpg by done. cbn [ce_buf ce_set_buf].
    assert (Hq : id' / Z.of_nat epp = id / Z.of_nat epp) by (simplify_eq; lia).
    pose proof (Z.div_mod id (Z.of_nat epp) ltac:(lia)). pose proof (Z.div_mod id' (Z.of_nat epp) ltac:(lia)).
    unfold aget. rewrite !decide_True by lia. destruct (Z.eqb_spec id' id) as [->|Hne].
    + by rewrite list_lookup_insert_eq by lia.
    + rewrite list_lookup_insert_ne; [done|]. intros Heq. apply Hne. rewrite Hq in *. lia.
  - rewrite list_lookup_insert_ne by done. destruct (Z.eqb_spec id' id) as [->|]; [congruence|done].
Qed.

(** The entry of an id whose page is cached. *)
Lemma cached_abs c id e :
  map_inv c -> in_range id -> mc_tbl c !! Z.to_nat (id / Z.of_nat epp) = Some (MdCached e) ->
  exists pg, mc_pg_buf c !! e = Some pg /\ (ce_buf pg).[id mod Z.of_nat epp] = Some (map_abs c id).
Proof using Hepp Hepp32.
  clear Hnpg Hnpg32. intros Hc Hid Htb. destruct (mi_cached _ Hc _ _ Htb) as (_ & pg & Hpg & _).
  destruct (range_page _ Hid) as (_ & Hm & _). exists pg. split; [done|]. unfold map_abs. rewrite Htb, Hpg.
  destruct (proj2 (aget_is_Some (ce_buf pg) (id mod Z.of_nat epp))) as [x Hx].
  { rewrite (mi_bufs _ Hc _ _ Hpg). lia. }
  by rewrite Hx.
Qed.

(** The specification only looks at the ids of its operations. *)
Definition same_map (m m' : Z -> Z) : Prop := forall id, in_range id -> m id = m' id.

Lemma read_ok c m id :
  map_inv c -> same_map (map_abs c) m -> in_range id ->
  exists c', map_read epp c id = Some (spec_read m id, c') /\ map_inv c' /\ same_map (map_abs c') m.
Proof using Hepp Hepp32 Hnpg Hnpg32.
  intros Hc Hm Hid. destruct (get_ok c id Hc Hid) as (e & c' & Hg & Hc' & Htb & Habs).
  destruct (cached_abs c' id e Hc' Hid Htb) as (pg & Hpg & Hv). destruct (range_page _ Hid) as (_ & Hmod & _ & Hu).
  exists c'. split_and!; [|done|intros i Hi; rewrite Habs; by apply Hm].
  unfold map_read. rewrite Hu. replace (Z.of_nat epp <=? id mod Z.of_nat epp) with false by lia.
  rewrite Hg. cbn [mbind option_bind]. rewrite Hpg. cbn [mbind option_bind]. rewrite Hv. cbn [mbind option_bind].
  unfold spec_read. by rewrite Habs, Hm.
Qed.

Lemma upsert_ok c m id val oc :
  map_inv c -> same_map (map_abs c) m -> in_range id ->
  exists c', map_upsert epp c id val oc = Some ((spec_upsert m id val oc).1.1, Some (spec_upsert m id val oc).1.2, c') /\
    map_inv c' /\ same_map (map_abs c') (spec_upsert m id val oc).2.
Proof using Hepp Hepp32 Hnpg Hnpg32.
  intros Hc Hm Hid. destruct (get_ok c id Hc Hid) as (e & c' & Hg & Hc' & Htb & Habs).
  destruct (cached_abs c' id e Hc' Hid Htb) as (pg & Hpg & Hv). destruct (range_page _ Hid) as (_ & Hmod & _ & Hu).
  rewrite Habs, Hm in Hv by done. unfold map_upsert, spec_upsert. rewrite Hu.
  replace (Z.of_nat epp <=? id mod Z.of_nat epp) with false by lia.
  rewrite Hg. cbn [mbind option_bind]. rewrite Hpg. cbn [mbind option_bind]. rewrite Hv. cbn [mbind option_bind].
  destruct (ctrue oc && negb (m id =? oc)); simpl.
  - exists c'. split_and!; [done|done|]. intros i Hi. rewrite Habs. by apply Hm.
  - rewrite aset_Some by (rewrite (mi_bufs _ Hc' _ _ Hpg); lia). cbn [mbind option_bind].
    rewrite (upd_page_run _ _ _ pg Hpg). exists (stored c' e pg (Z.to_nat (id mod Z.of_nat epp)) val).
    split_and!; [done|by apply stored_inv|]. intros i Hi. rewrite stored_abs by done.
    destruct (i =? id); [done|]. rewrite Habs. by apply Hm.
Qed.

Lemma map_run_ok os : forall c m,
  map_inv c -> same_map (map_abs c) m -> Forall (fun o => in_range (op_id o)) os ->
  exists c', map_run epp c os = Some (spec_run m os, c') /\ map_inv c'.
Proof using Hepp Hepp32 Hnpg Hnpg32.
  induction os as [|o os IH]; intros c m Hc Hm Hos; [by exists c|].
  apply Forall_cons in Hos as [Ho Hos]. destruct o as [id val oc|id]; simpl in Ho |- *.
  - destruct (upsert_ok c m id val oc Hc Hm Ho) as (c1 & Hr & Hc1 & Hm1).
    destruct (IH _ _ Hc1 Hm1 Hos) as (c2 & Hr2 & Hc2). exists c2. rewrite Hr. simpl. rewrite Hr2.
    by destruct (spec_upsert m id val oc) as [[??]?].
  - destruct (read_ok c m id Hc Hm Ho) as (c1 & Hr & Hc1 & Hm1).
    destruct (IH _ _ Hc1 Hm1 Hos) as (c2 & Hr2 & Hc2). exists c2. rewrite Hr. simpl. by rewrite Hr2.
Qed.

(** C18. The mapping table refines a total map from ids to entries: from the state
    [map_init_cache] builds, every sequence of [map_upsert] and [map_read] on ids of
    the 256 metadata pages runs without undefined behaviour, never evicts a page, and
    returns the results and old values of the specification, whose initial value is 0
    everywhere. *)
Theorem map_refines_spec os :
  Forall (fun o => in_range (op_id o)) os ->
  exists c', map_run epp (map_init_cache epp npg) os = Some (spec_run (fun _ => 0) os, c') /\
    mc_mbf c' ++ mc_mbu c' ≡ₚ seq 0 npg /\ (length (mc_mbu c') <= 256)%nat.
Proof using Hepp Hepp32 Hnpg Hnpg32.
  intros Hos. destruct (map_run_ok os (map_init_cache epp npg) (fun _ => 0)) as (c' & Hr & Hc'); auto.
  - apply map_init_inv.
  - intros id _. apply map_init_abs.
  - exists c'. split_and!; [done|apply (mi_pages _ Hc')|]. by apply used_bound.
Qed.

End Refine.

(** Two pages of the table at the source's page size (32 KiB of 8-byte entries). *)
Lemma map_refines_spec_witness : exists c',
  map_run 4096 (map_init_cache 4096 MAP_BUF_PGS)
    [OpUpsert 5 77 0; OpUpsert 4099 (2 ^ 40 + 9) 0; OpUpsert 5 78 76; OpRead 5; OpRead 4099; OpRead 6] =
  Some ([ResUpsert 0 (Some 0); ResUpsert 0 (Some 0); ResUpsert 21 (Some 77); ResRead 77; ResRead 9; ResRead 0], c').
Proof.
  destruct (map_refines_spec 4096 MAP_BUF_PGS ltac:(lia) ltac:(lia) ltac:(unfold MAP_BUF_PGS; lia) ltac:(unfold MAP_BUF_PGS; lia)
    [OpUpsert 5 77 0; OpUpsert 4099 (2 ^ 40 + 9) 0; OpUpsert 5 78 76; OpRead 5; OpRead 4099; OpRead 6])
    as (c' & Hr & _).
  - unfold in_range. repeat constructor; simpl; lia.
  - exists c'. rewrite Hr. reflexivity.
Defined.
