(* ===== verification/Mempool.v ===== *)
(** The memory pools: src/xztl/src/xztl-mempool.c, in the build without
    [MP_LOCKFREE] (no build file defines it).

    An entry carries its address [me_ptr]; NULL is 0.  The allocator is outside the
    program: the addresses [aligned_alloc] and the user's [alloc] return are
    arguments of [xztl_mempool_create], and the calls to [free] are recorded. *)

From S2P Require Import Prelude Types.

Definition XZTLMP_THREADS : Z := 64.
Definition XZTLMP_TYPES : Z := 5.
Definition XZTLMP_MAX_ENT : Z := 65536 + 2.
Definition XZTLMP_MAX_ENT_SZ : Z := 1024 * 1024.

Definition XZTL_MP_OUTBOUNDS : Z := 1.
Definition XZTL_MP_INVALID : Z := 2.
Definition XZTL_MP_ACTIVE : Z := 3.
Definition XZTL_MP_MEMERROR : Z := 4.

Record xztl_mp_entry := { me_ptr : Z; me_opaque : Z; me_tid : Z; me_id : Z }.

#[export] Instance xztl_mp_entry_eq_dec : EqDecision xztl_mp_entry.
Proof. solve_decision. Defined.

(** [struct xztl_mp_pool_i]; the function pointers are kept as "not NULL". *)
Record xztl_mp_pool_i := {
  mp_active : Z; mp_in_count : Z; mp_out_count : Z; mp_entries : Z;
  mp_alloc_fn : bool; mp_free_fn : bool; mp_head : list xztl_mp_entry
}.

Definition xztl_mempool := list (list xztl_mp_pool_i).

Definition mp_set_head (p : xztl_mp_pool_i) v : xztl_mp_pool_i :=
  {| mp_active := mp_active p; mp_in_count := mp_in_count p; mp_out_count := mp_out_count p;
     mp_entries := mp_entries p; mp_alloc_fn := mp_alloc_fn p; mp_free_fn := mp_free_fn p; mp_head := v |}.

Definition mp_zero : xztl_mp_pool_i :=
  {| mp_active := 0; mp_in_count := 0; mp_out_count := 0; mp_entries := 0;
     mp_alloc_fn := false; mp_free_fn := false; mp_head := [] |}.

(** [xztl_mempool_init] *)
Definition xztl_mempool_init : xztl_mempool := replicate 5 (replicate 64 mp_zero).

(** [&xztlmp.mp[type].pool[tid]] *)
Definition pool_at (m : xztl_mempool) (type tid : Z) : option xztl_mp_pool_i :=
  ps ← m.[type]; ps.[tid].

Definition set_pool (m : xztl_mempool) (type tid : Z) (p : xztl_mp_pool_i) : option xztl_mempool :=
  ps ← m.[type];
  ps' ← aset ps tid p;
  aset m type ps'.

(** * Release of the entries *)

(** Calls of [free] of the C library and of the user's [free_fn]. *)
Inductive mp_freed := FreeStd (ptr : Z) | FreeUser (ptr : Z).

Definition free_entry (p : xztl_mp_pool_i) (e : xztl_mp_entry) : list mp_freed :=
  (if ctrue (me_opaque e)
   then if negb (mp_alloc_fn p) || negb (mp_free_fn p) then [FreeStd (me_opaque e)] else [FreeUser (me_opaque e)]
   else []) ++ [FreeStd (me_ptr e)].

Fixpoint free_entries (p : xztl_mp_pool_i) (es : list xztl_mp_entry) : list mp_freed :=
  match es with
  | [] => []
  | e :: es' => free_entry p e ++ free_entries p es'
  end.

Definition xztl_mempool_free (p : xztl_mp_pool_i) : list mp_freed * xztl_mp_pool_i :=
  (free_entries p (mp_head p), mp_set_head p []).

(** [xztl_mempool_destroy] *)
Definition xztl_mempool_destroy (m : xztl_mempool) (type tid : Z) : option (Z * list mp_freed * xztl_mempool) :=
  if (XZTLMP_TYPES <=? type) || (XZTLMP_THREADS <=? tid) then Some (XZTL_MP_OUTBOUNDS, [], m) else
  p ← pool_at m type tid;
  if negb (ctrue (mp_active p)) then Some (XZTL_OK, [], m) else
  let '(fr, p) := xztl_mempool_free p in
  m' ← set_pool m type tid
         {| mp_active := 0; mp_in_count := mp_in_count p; mp_out_count := mp_out_count p;
            mp_entries := mp_entries p; mp_alloc_fn := false; mp_free_fn := false; mp_head := mp_head p |};
  Some (XZTL_OK, fr, m').

(** * Creation *)

Section Create.

(** [ent_mem i] and [op_mem i]: the addresses returned for the [i]-th entry and its
    buffer; [spin_init]: the result of [pthread_spin_init]. *)
Context (ent_mem op_mem : Z -> Z) (spin_init : Z).

(** The loop from entry [i] with [n] entries left; the boolean is the jump to
    [MEMERR]. *)
Fixpoint create_loop (p : xztl_mp_pool_i) (tid i : Z) (n : nat) : bool * list mp_freed * xztl_mp_pool_i :=
  match n with
  | O => (false, [], p)
  | S n' =>
      if negb (ctrue (ent_mem i)) then (true, [], p) else
      if negb (ctrue (op_mem i)) then (true, if mp_free_fn p then [FreeUser (ent_mem i)] else [], p) else
      let ent := {| me_ptr := ent_mem i; me_opaque := op_mem i; me_tid := tid; me_id := i |} in
      create_loop (mp_set_head p (tailq_insert_tail (mp_head p) ent)) tid (i + 1) n'
  end.

Definition xztl_mempool_create (m : xztl_mempool) (type tid entries ent_sz : Z) (alloc free : bool)
    : option (Z * list mp_freed * xztl_mempool) :=
  if (XZTLMP_TYPES <=? type) || (XZTLMP_THREADS <=? tid) then Some (XZTL_MP_OUTBOUNDS, [], m) else
  if negb (ctrue entries) || (XZTLMP_MAX_ENT <? entries) || negb (ctrue ent_sz) || (XZTLMP_MAX_ENT_SZ <? ent_sz)
  then Some (XZTL_MP_INVALID, [], m) else
  p ← pool_at m type tid;
  if ctrue (mp_active p) then Some (XZTL_MP_ACTIVE, [], m) else
  if ctrue spin_init then Some (XZTL_MP_MEMERROR, [], m) else
  let p := {| mp_active := mp_active p; mp_in_count := mp_in_count p; mp_out_count := mp_out_count p;
              mp_entries := mp_entries p; mp_alloc_fn := alloc; mp_free_fn := free; mp_head := [] |} in
  let '(memerr, fr, p) := create_loop p tid 0 (Z.to_nat entries) in
  if memerr : bool then
    let '(fr', p) := xztl_mempool_free p in
    m' ← set_pool m type tid p;
    Some (XZTL_MP_MEMERROR, fr ++ fr', m')
  else
    m' ← set_pool m type tid
           {| mp_active := 1; mp_in_count := 0; mp_out_count := 0; mp_entries := entries;
              mp_alloc_fn := mp_alloc_fn p; mp_free_fn := mp_free_fn p; mp_head := mp_head p |};
    Some (XZTL_OK, fr, m').

End Create.

(** * Get and put

    Each critical section of the spin lock is one step. *)

(** [xztl_mempool_left] *)
Definition xztl_mempool_left (p : xztl_mp_pool_i) : Z :=
  i32 (u32 (mp_entries p - mp_out_count p + mp_in_count p)).

(** One turn from [RETRY]: [None] is the jump back. *)
Definition mempool_try_get (p : xztl_mp_pool_i) : option (xztl_mp_entry * xztl_mp_pool_i) :=
  match mp_head p with
  | [] => None
  | ent :: head =>
      Some (ent, {| mp_active := mp_active p; mp_in_count := mp_in_count p;
                    mp_out_count := u16 (mp_out_count p + 1); mp_entries := mp_entries p;
                    mp_alloc_fn := mp_alloc_fn p; mp_free_fn := mp_free_fn p; mp_head := head |})
  end.

(** [xztl_mempool_put]; an entry that is on the queue already corrupts it. *)
Definition xztl_mempool_put (p : xztl_mp_pool_i) (ent : xztl_mp_entry) : option xztl_mp_pool_i :=
  if decide (ent ∈ mp_head p) then None else Some (mp_set_head p (tailq_insert_tail (mp_head p) ent)).

Fixpoint mempool_puts (p : xztl_mp_pool_i) (es : list xztl_mp_entry) : option xztl_mp_pool_i :=
  match es with
  | [] => Some p
  | e :: es' => p' ← xztl_mempool_put p e; mempool_puts p' es'
  end.

(** [xztl_mempool_get]: [sched] lists, for each turn that found the pool empty, the
    entries other threads put before the next turn. *)
Fixpoint xztl_mempool_get (p : xztl_mp_pool_i) (sched : list (list xztl_mp_entry))
    : outcome (xztl_mp_entry * xztl_mp_pool_i) :=
  match mempool_try_get p with
  | Some r => Ok r
  | None =>
      match sched with
      | [] => OutOfFuel
      | es :: sched' => p' ← lift (mempool_puts p es); xztl_mempool_get p' sched'
      end
  end.

(** [xztl_mempool_exit]: the pools are destroyed in order *)
Fixpoint mp_exit_loop (m : xztl_mempool) (ids : list (Z * Z)) : option (list mp_freed * xztl_mempool) :=
  match ids with
  | [] => Some ([], m)
  | (type, tid) :: ids' =>
      '(_, fr, m) ← xztl_mempool_destroy m type tid;
      '(frs, m) ← mp_exit_loop m ids';
      Some (fr ++ frs, m)
  end.

Definition mp_ids : list (Z * Z) :=
  flat_map (fun t => (fun i => (Z.of_nat t, Z.of_nat i)) <$> seq 0 64) (seq 0 5).

Definition xztl_mempool_exit (m : xztl_mempool) : option (list mp_freed * xztl_mempool) := mp_exit_loop m mp_ids.

(** * The pool and its clients

    The entries are in the pool or held by a client that got them. *)

Inductive mp_step : xztl_mp_pool_i * list xztl_mp_entry -> xztl_mp_pool_i * list xztl_mp_entry -> Prop :=
  | mp_step_get p held ent p' :
      mempool_try_get p = Some (ent, p') -> mp_step (p, held) (p', ent :: held)
  | mp_step_put p held ent p' :
      ent ∈ held -> xztl_mempool_put p ent = Some p' -> mp_step (p, held) (p', remove_first ent held).

(** The entries a successful creation makes. *)
Definition created (ent_mem op_mem : Z -> Z) (tid : Z) (i : Z) (n : nat) : list xztl_mp_entry :=
  (fun k => {| me_ptr := ent_mem (i + Z.of_nat k); me_opaque := op_mem (i + Z.of_nat k); me_tid := tid;
               me_id := i + Z.of_nat k |}) <$> seq 0 n.
