(* ===== verification/MempoolTheorems.v ===== *)
(** The memory pools keep their entries: creation, conservation of the entries over
    every interleaving of get and put, waiting, and the paths that run out of
    memory. *)

From stdpp Require Import relations.
From S2P Require Import Prelude Types Mempool.

(** * Creation *)

Section CreateOk.

Context (ent_mem op_mem : Z -> Z).
Implicit Types (p : xztl_mp_pool_i).

Definition mem_ok (i : Z) : Prop := ent_mem i <> 0 /\ op_mem i <> 0.

Lemma created_S tid i n :
  created ent_mem op_mem tid i (S n) =
  {| me_ptr := ent_mem i; me_opaque := op_mem i; me_tid := tid; me_id := i |} :: created ent_mem op_mem tid (i + 1) n.
Proof.
  unfold created. simpl. rewrite Z.add_0_r. f_equal. rewrite <- fmap_S_seq, <- list_fmap_compose.
  apply list_fmap_ext. intros k j Hj. simpl. by replace (i + Z.of_nat (S j)) with (i + 1 + Z.of_nat j) by lia.
Qed.

Lemma create_loop_ok tid n : forall p i,
  (forall k, i <= k < i + Z.of_nat n -> mem_ok k) ->
  create_loop ent_mem op_mem p tid i n =
    (false, [], mp_set_head p (mp_head p ++ created ent_mem op_mem tid i n)).
Proof.
  induction n as [|n IH]; intros p i Hm; simpl.
  - unfold created. simpl. rewrite app_nil_r. by destruct p.
  - destruct (Hm i ltac:(lia)) as [H1 H2].
    rewrite (proj2 (ctrue_true _) H1), (proj2 (ctrue_true _) H2). simpl.
    rewrite IH by (intros k Hk; apply Hm; lia). by rewrite created_S, cons_middle, app_assoc.
Qed.

(** The first buffer that cannot be allocated ends the loop. *)
Lemma create_loop_oom tid k n : forall p i,
  (k < n)%nat -> (forall j, i <= j < i + Z.of_nat k -> mem_ok j) ->
  ent_mem (i + Z.of_nat k) <> 0 -> op_mem (i + Z.of_nat k) = 0 ->
  create_loop ent_mem op_mem p tid i n =
    (true, if mp_free_fn p then [FreeUser (ent_mem (i + Z.of_nat k))] else [],
     mp_set_head p (mp_head p ++ created ent_mem op_mem tid i k)).
Proof.
  revert n. induction k as [|k IH]; intros n p i Hn Hm He Ho; (destruct n as [|n]; [lia|]); simpl.
  - rewrite Z.add_0_r in *. rewrite (proj2 (ctrue_true _) He), (proj2 (ctrue_false _) Ho). simpl.
    unfold created. simpl. rewrite app_nil_r. by destruct p.
  - destruct (Hm i ltac:(lia)) as [H1 H2].
    rewrite (proj2 (ctrue_true _) H1), (proj2 (ctrue_true _) H2). simpl.
    rewrite (IH n) by (try lia; replace (i + 1 + Z.of_nat k) with (i + Z.of_nat (S k)) by lia; auto; intros j Hj; apply Hm; lia).
    replace (i + 1 + Z.of_nat k) with (i + Z.of_nat (S k)) by lia. simpl.
    by rewrite created_S, cons_middle, app_assoc.
Qed.

End CreateOk.

(** What [xztl_mempool_create] asks of its arguments. *)
Definition create_args (type tid entries ent_sz : Z) : Prop :=
  0 <= type < 5 /\ 0 <= tid < 64 /\ 0 < entries <= XZTLMP_MAX_ENT /\ 0 < ent_sz <= XZTLMP_MAX_ENT_SZ.

Lemma create_checks type tid entries ent_sz :
  create_args type tid entries ent_sz ->
  (XZTLMP_TYPES <=? type) || (XZTLMP_THREADS <=? tid) = false /\
  negb (ctrue entries) || (XZTLMP_MAX_ENT <? entries) || negb (ctrue ent_sz) || (XZTLMP_MAX_ENT_SZ <? ent_sz) = false.
Proof.
  unfold create_args, ctrue, XZTLMP_MAX_ENT, XZTLMP_MAX_ENT_SZ, XZTLMP_TYPES, XZTLMP_THREADS. lia.
Qed.

Lemma set_pool_run (m : xztl_mempool) type tid p q :
  pool_at m type tid = Some p ->
  exists m', set_pool m type tid q = Some m' /\ pool_at m' type tid = Some q /\
    forall type' tid', (type', tid') <> (type, tid) -> pool_at m' type' tid' = pool_at m type' tid'.
Proof.
  unfold pool_at, set_pool. destruct (m.[type]) as [ps|] eqn:Ht; simpl; [|done]. intros Hp.
  destruct (aset_spec ps tid q) as (ps' & Hs & _ & Heq & Hne); [by apply aget_is_Some|].
  destruct (aset_spec m type ps') as (m' & Hs' & _ & Heq' & Hne'); [by apply aget_is_Some|].
  exists m'. rewrite Hs. simpl. rewrite Hs', Heq'. split_and!; [done|done|]. intros type' tid' Hx.
  destruct (decide (type' = type)) as [->|]; [|by rewrite Hne'].
  rewrite Heq', Ht. simpl. apply Hne. congruence.
Qed.

(** The pool of a successful creation. *)
Definition created_pool (ent_mem op_mem : Z -> Z) (tid entries : Z) (alloc free : bool) : xztl_mp_pool_i :=
  {| mp_active := 1; mp_in_count := 0; mp_out_count := 0; mp_entries := entries; mp_alloc_fn := alloc;
     mp_free_fn := free; mp_head := created ent_mem op_mem tid 0 (Z.to_nat entries) |}.

Lemma create_run ent_mem op_mem m type tid entries ent_sz alloc free p :
  create_args type tid entries ent_sz -> pool_at m type tid = Some p -> mp_active p = 0 ->
  (forall k, 0 <= k < entries -> mem_ok ent_mem op_mem k) ->
  exists m', xztl_mempool_create ent_mem op_mem 0 m type tid entries ent_sz alloc free = Some (XZTL_OK, [], m') /\
    pool_at m' type tid = Some (created_pool ent_mem op_mem tid entries alloc free) /\
    (forall type' tid', (type', tid') <> (type, tid) -> pool_at m' type' tid' = pool_at m type' tid').
Proof.
  intros Ha Hp Hact Hm. pose proof (create_checks _ _ _ _ Ha) as [H1 H2].
  assert (0 < entries) by (unfold create_args in Ha; lia).
  unfold xztl_mempool_create. rewrite H1, H2, Hp. cbn [mbind option_bind]. rewrite Hact.
  change (ctrue 0) with false. cbv iota zeta. rewrite create_loop_ok by (intros k Hk; apply Hm; lia). cbv iota beta.
  destruct (set_pool_run m type tid p (created_pool ent_mem op_mem tid entries alloc free) Hp) as (m' & Hs & Hget & Hoth).
  exists m'. unfold created_pool in *. cbn [mp_set_head mp_head mp_alloc_fn mp_free_fn app] in *. rewrite Hs. auto.
Qed.

(** * Conservation *)

Definition owned (ph : xztl_mp_pool_i * list xztl_mp_entry) : list xztl_mp_entry := mp_head ph.1 ++ ph.2.

Lemma mp_step_owned ph ph' : mp_step ph ph' -> owned ph ≡ₚ owned ph'.
Proof.
  unfold owned. destruct 1 as [p held ent p' Hg|p held ent p' Hin Hp]; simpl.
  - unfold mempool_try_get in Hg. destruct (mp_head p); simplify_eq. simpl. solve_Permutation.
  - unfold xztl_mempool_put in Hp. case_decide; simplify_eq. simpl. unfold tailq_insert_tail.
    rewrite (remove_first_perm held ent) at 1 by done. solve_Permutation.
Qed.

Lemma mp_steps_owned ph ph' : rtc mp_step ph ph' -> owned ph ≡ₚ owned ph'.
Proof. induction 1 as [|ph1 ph2 ph3 Hs _ IH]; [done|]. by rewrite (mp_step_owned _ _ Hs). Qed.

Lemma created_NoDup ent_mem op_mem tid i n : NoDup (created ent_mem op_mem tid i n).
Proof. apply NoDup_fmap_2_strong; [|apply NoDup_seq]. intros x y _ _ [=]. lia. Qed.

(** C19. After a successful creation, over every interleaving of get and put in which
    clients put back only entries they hold, the entries of the pool and the held ones
    are exactly the created ones, each once; a put of a held entry is always defined;
    a get succeeds without waiting exactly when some entry is not held. *)
Theorem mempool_conserves ent_mem op_mem m type tid entries ent_sz alloc free p0 :
  create_args type tid entries ent_sz -> pool_at m type tid = Some p0 -> mp_active p0 = 0 ->
  (forall k, 0 <= k < entries -> mem_ok ent_mem op_mem k) ->
  exists m' p1, xztl_mempool_create ent_mem op_mem 0 m type tid entries ent_sz alloc free = Some (XZTL_OK, [], m') /\
    pool_at m' type tid = Some p1 /\
    forall p held, rtc mp_step (p1, []) (p, held) ->
      mp_head p ++ held ≡ₚ created ent_mem op_mem tid 0 (Z.to_nat entries) /\ NoDup (mp_head p ++ held) /\
      (forall ent, ent ∈ held -> is_Some (xztl_mempool_put p ent)) /\
      (is_Some (mempool_try_get p) <-> Z.of_nat (length held) < entries).
Proof.
  intros Ha Hp Hact Hm. destruct (create_run ent_mem op_mem m type tid entries ent_sz alloc free p0 Ha Hp Hact Hm) as (m' & Hc & Hg & _).
  eexists m', _. split_and!; [done|done|]. intros p held Hr.
  pose proof (mp_steps_owned _ _ Hr) as Hperm. unfold owned in Hperm. simpl in Hperm. rewrite app_nil_r in Hperm.
  assert (Hnd : NoDup (mp_head p ++ held)) by (rewrite <- Hperm; apply created_NoDup).
  split_and!; [by symmetry|done| |].
  - intros ent Hin. unfold xztl_mempool_put. case_decide as Hd; [|eauto].
    apply NoDup_app in Hnd as (_ & Hdis & _). by destruct (Hdis ent).
  - assert (0 < entries) by (unfold create_args in Ha; lia). apply Permutation_length in Hperm.
    unfold created in Hperm. rewrite length_fmap, length_seq, length_app in Hperm.
    unfold mempool_try_get. destruct (mp_head p); simpl in *; rewrite ?is_Some_alt; split; try done; lia.
Qed.

Lemma mempool_conserves_witness : exists m' p1,
  xztl_mempool_create (fun i => 4096 + i) (fun i => 8192 + i) 0 xztl_mempool_init 2 0 4 64 false false = Some (XZTL_OK, [], m') /\
  pool_at m' 2 0 = Some p1 /\
  forall p held, rtc mp_step (p1, []) (p, held) -> NoDup (mp_head p ++ held).
Proof.
  destruct (mempool_conserves (fun i => 4096 + i) (fun i => 8192 + i) xztl_mempool_init 2 0 4 64 false false mp_zero)
    as (m' & p1 & Hc & Hp & Hr).
  - unfold create_args, XZTLMP_MAX_ENT, XZTLMP_MAX_ENT_SZ. lia.
  - reflexivity.
  - reflexivity.
  - intros k Hk. unfold mem_ok. lia.
  - exists m', p1. split_and!; [done|done|]. intros p held Hs. by apply Hr.
Defined.

(** * Waiting *)

Lemma puts_head es : forall p p', mempool_puts p es = Some p' -> mp_head p' = mp_head p ++ es.
Proof.
  induction es as [|e es IH]; intros p p' H; simpl in H.
  - simplify_eq. by rewrite app_nil_r.
  - unfold xztl_mempool_put in H. case_decide; simpl in H; [done|].
    rewrite (IH _ _ H). simpl. unfold tailq_insert_tail. by rewrite <- app_assoc.
Qed.

(** A get from a pool with entries takes the one that was put first; on an empty
    pool the caller waits, turn after turn, for ever if no thread puts an entry (NULL
    is never returned), and takes the first entry that is put. *)
Theorem mempool_get_waits p :
  (forall e es sched, mp_head p = e :: es ->
    exists p', xztl_mempool_get p sched = Ok (e, p') /\ mp_head p' = es) /\
  (forall n, mp_head p = [] -> xztl_mempool_get p (replicate n []) = OutOfFuel) /\
  (forall n e es sched p', mp_head p = [] -> mempool_puts p (e :: es) = Some p' ->
    exists p'', xztl_mempool_get p (replicate n [] ++ (e :: es) :: sched) = Ok (e, p'') /\ mp_head p'' = es).
Proof.
  split_and!.
  - intros e es sched He. destruct sched; simpl; unfold mempool_try_get; rewrite He; eauto.
  - intros n He. induction n as [|n IH]; simpl; unfold mempool_try_get at 1; by rewrite He.
  - intros n e es sched p' He Hp. induction n as [|n IH]; cbn [xztl_mempool_get replicate app].
    + unfold mempool_try_get at 1. rewrite He, Hp. simpl. pose proof (puts_head _ _ _ Hp) as Hh. rewrite He in Hh.
      destruct sched; simpl; unfold mempool_try_get; rewrite Hh; eauto.
    + unfold mempool_try_get at 1. by rewrite He.
Qed.

Lemma mempool_get_waits_witness :
  let e := {| me_ptr := 4096; me_opaque := 8192; me_tid := 0; me_id := 0 |} in
  exists p', xztl_mempool_get mp_zero [[]; [e]] = Ok (e, p') /\ mp_head p' = [].
Proof.
  intros e. destruct (mempool_get_waits mp_zero) as (_ & _ & H). apply (H 1%nat e [] [] (mp_set_head mp_zero [e])); reflexivity.
Defined.

(** * The number of free entries *)

(** The number of entries [xztl_mempool_left] reports does not grow when an entry
    is put back: after a get and a put of a pool of [n] entries it is one less than the
    number of entries in the pool. *)
Theorem mempool_left_drifts ent_mem op_mem tid n :
  0 < n <= XZTLMP_MAX_ENT ->
  let p := created_pool ent_mem op_mem tid n false false in
  exists e p1 p2, mempool_try_get p = Some (e, p1) /\ xztl_mempool_put p1 e = Some p2 /\
    xztl_mempool_left p = n /\ xztl_mempool_left p2 = n - 1 /\ Z.of_nat (length (mp_head p2)) = n.
Proof.
  intros Hn p. unfold XZTLMP_MAX_ENT in Hn. destruct (Z.to_nat n) as [|k] eqn:Ek; [lia|].
  assert (Hh : mp_head p = created ent_mem op_mem tid 0 (S k)) by (subst p; simpl; by rewrite Ek).
  pose proof (created_NoDup ent_mem op_mem tid 0 (S k)) as Hnd. rewrite created_S in Hh, Hnd.
  apply NoDup_cons in Hnd as [Hnin _]. eexists _, _, _. unfold mempool_try_get. rewrite Hh.
  split; [done|]. unfold xztl_mempool_put. simpl. rewrite decide_False by done. split; [done|].
  unfold xztl_mempool_left, p, created_pool. cbn [mp_entries mp_out_count mp_in_count mp_set_head mp_head].
  rewrite (wrap_small 16 (0 + 1)), !wrap_small, !i32_small by lia. split_and!; [lia|lia|].
  unfold tailq_insert_tail, created. rewrite length_app, length_fmap, length_seq. simpl. lia.
Qed.

Lemma mempool_left_drifts_witness : exists e p1 p2,
  mempool_try_get (created_pool (fun i => 4096 + i) (fun i => 8192 + i) 0 4 false false) = Some (e, p1) /\
  xztl_mempool_put p1 e = Some p2 /\ xztl_mempool_left p2 = 3.
Proof.
  destruct (mempool_left_drifts (fun i => 4096 + i) (fun i => 8192 + i) 0 4) as (e & p1 & p2 & H1 & H2 & _ & H3 & _).
  - unfold XZTLMP_MAX_ENT. lia.
  - by exists e, p1, p2.
Defined.

(** * Running out of memory *)

(** The addresses a release of the entries frees. *)
Lemma free_entries_std p es :
  mp_alloc_fn p = false \/ mp_free_fn p = false -> Forall (fun e => me_opaque e <> 0) es ->
  free_entries p es = flat_map (fun e => [FreeStd (me_opaque e); FreeStd (me_ptr e)]) es.
Proof.
  intros Hf. induction 1 as [|e es He _ IH]; [done|]. simpl. rewrite IH. unfold free_entry.
  rewrite (proj2 (ctrue_true _) He). destruct Hf as [-> | ->]; simpl; rewrite ?orb_true_r; done.
Qed.

(** If the buffer of entry [k] cannot be allocated, creation fails with
    XZTL_MP_MEMERROR, the pool is left inactive and empty, the buffers and descriptors of
    the entries before [k] are freed in order, and no other pool changes; the descriptor
    of entry [k] itself is freed only by the user's [free] function, and leaks without
    one. *)
Theorem mempool_create_oom ent_mem op_mem m type tid entries ent_sz alloc free p0 (k : nat) :
  create_args type tid entries ent_sz -> pool_at m type tid = Some p0 -> mp_active p0 = 0 ->
  Z.of_nat k < entries -> (forall j, 0 <= j < Z.of_nat k -> mem_ok ent_mem op_mem j) ->
  ent_mem (Z.of_nat k) <> 0 -> op_mem (Z.of_nat k) = 0 -> alloc = false \/ free = false ->
  exists m' p', xztl_mempool_create ent_mem op_mem 0 m type tid entries ent_sz alloc free =
    Some (XZTL_MP_MEMERROR,
          (if free then [FreeUser (ent_mem (Z.of_nat k))] else []) ++
          flat_map (fun i => [FreeStd (op_mem (Z.of_nat i)); FreeStd (ent_mem (Z.of_nat i))]) (seq 0 k), m') /\
    pool_at m' type tid = Some p' /\ mp_active p' = 0 /\ mp_head p' = [] /\
    (forall type' tid', (type', tid') <> (type, tid) -> pool_at m' type' tid' = pool_at m type' tid').
Proof.
  intros Ha Hp Hact Hk Hm He Ho Hf. pose proof (create_checks _ _ _ _ Ha) as [H1 H2].
  unfold xztl_mempool_create. rewrite H1, H2, Hp. cbn [mbind option_bind]. rewrite Hact.
  change (ctrue 0) with false. cbv iota zeta.
  rewrite (create_loop_oom ent_mem op_mem tid k) by (auto; lia). rewrite Z.add_0_l.
  cbn [mp_set_head mp_head mp_free_fn mp_alloc_fn app xztl_mempool_free mp_active mp_in_count mp_out_count mp_entries].
  unfold xztl_mempool_free. cbv iota beta. cbn [mp_head mp_set_head].
  rewrite free_entries_std.
  - destruct (set_pool_run m type tid p0 (mp_set_head {| mp_active := 0; mp_in_count := mp_in_count p0; mp_out_count := mp_out_count p0;
      mp_entries := mp_entries p0; mp_alloc_fn := alloc; mp_free_fn := free; mp_head := [] |} []) Hp) as (m' & Hs & Hget & Hoth).
    eexists m', _. unfold mp_set_head in *. cbn [mp_active mp_in_count mp_out_count mp_entries mp_alloc_fn mp_free_fn] in *.
    rewrite Hs. cbn [mbind option_bind]. split_and!; [|exact Hget|done|done|done].
    do 4 f_equal. unfold created. generalize (seq 0 k). induction l as [|x l IH]; [done|]. by rewrite fmap_cons; simpl; rewrite IH.
  - done.
  - apply Forall_fmap, Forall_forall. intros i [_ Hi]%elem_of_seq. simpl. apply Hm. lia.
Qed.

Lemma mempool_create_oom_witness : exists m' p',
  xztl_mempool_create (fun i => 4096 + i) (fun i => if i =? 2 then 0 else 8192 + i) 0 xztl_mempool_init 2 0 4 64 false false =
    Some (XZTL_MP_MEMERROR, [FreeStd 8192; FreeStd 4096; FreeStd 8193; FreeStd 4097], m') /\
  pool_at m' 2 0 = Some p' /\ mp_head p' = [].
Proof.
  destruct (mempool_create_oom (fun i => 4096 + i) (fun i => if i =? 2 then 0 else 8192 + i) xztl_mempool_init 2 0 4 64 false false mp_zero 2)
    as (m' & p' & Hc & Hp & _ & Hh & _).
  - unfold create_args, XZTLMP_MAX_ENT, XZTLMP_MAX_ENT_SZ. lia.
  - reflexivity.
  - reflexivity.
  - lia.
  - intros j Hj. unfold mem_ok. replace (j =? 2) with false by lia. lia.
  - lia.
  - reflexivity.
  - by left.
  - exists m', p'. split_and!; [exact Hc|done|done].
Defined.
