(* ===== verification/Metadata.v ===== *)
(** The metadata zones: src/xztl/src/ztl-metadata.c.

    The first two zones of the group hold the files' metadata: a log that is
    appended to one zone until it is full and then continues in the other one.  The
    device calls of this file are synchronous: the class [SyncDev] stands for
    xnvme_nvm_write (result and completion status), xnvme_znd_mgmt_send with the
    reset action, and the synchronous read the media layer submits.  [md_tbl] is the
    zone metadata table of the group, which holds the write pointers. *)

From S2P Require Import Prelude Types Stats Media Zns NodeInit Mempool.

Definition META_READ_MAX_RETRY : nat := 3.
Definition META_WRITE_MAX_RETRY : nat := 3.
Definition MAX_READ_NLB_NUM : Z := 128.
Definition MAX_WRITE_NLB_NUM : Z := 64.

Class SyncDev (D : Type) := {
  sy_write : D -> memory -> Z -> Z -> Z -> Z * Z * D;
  sy_reset : D -> Z -> Z * D;
  sy_read : D -> Z -> Z -> Z -> Z * (memory -> memory) * D
}.

(** [struct ztl_metadata] with what its operations use. *)
Record mdstate (D : Type) := {
  md_zones : list ztl_pro_zone;      (* metadata_zone *)
  md_zone_num : Z;
  md_curr : Z;                       (* curr_zone_index *)
  md_tbl : list app_zmd_entry;
  md_pool : xztl_mp_pool_i;          (* the pool ZROCKS_MEMORY, 0 *)
  md_stats : xztl_stats;
  md_dev : D;
  md_mem : memory
}.

Arguments Build_mdstate {D}.
Arguments md_zones {D}.
Arguments md_zone_num {D}.
Arguments md_curr {D}.
Arguments md_tbl {D}.
Arguments md_pool {D}.
Arguments md_stats {D}.
Arguments md_dev {D}.
Arguments md_mem {D}.

Section Metadata.

Context {D : Type} `{!SyncDev D}.
Implicit Types (s : mdstate D).

Definition md_set_curr s v : mdstate D :=
  Build_mdstate (md_zones s) (md_zone_num s) v (md_tbl s) (md_pool s) (md_stats s) (md_dev s) (md_mem s).
Definition md_set_tbl s v : mdstate D :=
  Build_mdstate (md_zones s) (md_zone_num s) (md_curr s) v (md_pool s) (md_stats s) (md_dev s) (md_mem s).
Definition md_set_pool s v : mdstate D :=
  Build_mdstate (md_zones s) (md_zone_num s) (md_curr s) (md_tbl s) v (md_stats s) (md_dev s) (md_mem s).
Definition md_set_stats s v : mdstate D :=
  Build_mdstate (md_zones s) (md_zone_num s) (md_curr s) (md_tbl s) (md_pool s) v (md_dev s) (md_mem s).
Definition md_set_dev s v : mdstate D :=
  Build_mdstate (md_zones s) (md_zone_num s) (md_curr s) (md_tbl s) (md_pool s) (md_stats s) v (md_mem s).
Definition md_set_mem s v : mdstate D :=
  Build_mdstate (md_zones s) (md_zone_num s) (md_curr s) (md_tbl s) (md_pool s) (md_stats s) (md_dev s) v.

(** [zone->zmd_entry->wptr] and its update *)
Definition zone_wptr s (zone : ztl_pro_zone) : option Z :=
  i ← pz_zmd_entry zone; e ← md_tbl s !! i; Some (ze_wptr e).

Definition set_zone_wptr s (zone : ztl_pro_zone) (v : Z) : option (mdstate D) :=
  i ← pz_zmd_entry zone;
  e ← md_tbl s !! i;
  Some (md_set_tbl s (<[i := ze_set_wptr e v]> (md_tbl s))).

(** [zrocks_get_metadata_slbas] into the array [slbas] of the caller *)
Fixpoint slbas_loop s (n : nat) (zone_id : Z) (slbas : list Z) : option (list Z) :=
  match n with
  | O => Some slbas
  | S n' =>
      zone ← (md_zones s).[zone_id];
      slbas' ← aset slbas zone_id (maddr_sect (pz_addr zone));
      slbas_loop s n' (zone_id + 1) slbas'
  end.

Definition zrocks_get_metadata_slbas s (slbas : list Z) : option (list Z * Z) :=
  out ← slbas_loop s (Z.to_nat (md_zone_num s)) 0 slbas;
  Some (out, u8 (md_zone_num s)).

Definition zrocks_reset_file_md s (addr : Z) : Z * mdstate D :=
  let '(err, d) := sy_reset (md_dev s) addr in
  ((if ctrue err then XZTL_ZTL_MD_RESET_ERR else XZTL_OK), md_set_dev s d).

(** [zrocks_switch_zone]: the first zone that does not start at [slbas] *)
Fixpoint switch_loop s (slbas : Z) (n : nat) (zone_id : Z) : option (mdstate D) :=
  match n with
  | O => Some s
  | S n' =>
      zone ← (md_zones s).[zone_id];
      if negb (maddr_sect (pz_addr zone) =? slbas) then
        let '(_, s1) := zrocks_reset_file_md (md_set_curr s zone_id) (maddr_sect (pz_addr zone)) in
        set_zone_wptr s1 zone (maddr_sect (pz_addr zone))
      else switch_loop s slbas n' (zone_id + 1)
  end.

Definition zrocks_switch_zone s (slbas : Z) : option (mdstate D) :=
  switch_loop s slbas (Z.to_nat (md_zone_num s)) 0.

(** [get_curr_metadata_zone(start, start + n)] *)
Fixpoint get_curr_metadata_zone s (n : nat) (start : Z) : option Z :=
  match n with
  | O => Some 0
  | S n' =>
      zone ← (md_zones s).[start];
      wptr ← zone_wptr s zone;
      if wptr <? u64 (maddr_sect (pz_addr zone) + pz_capacity zone) then Some start
      else get_curr_metadata_zone s n' (start + 1)
  end.

(** * Start-up: [ztl_metadata_init] *)

(** The loop over the metadata zones from [zone_i]; the result is the error code, the
    zones and the table. *)
Fixpoint md_init_loop (geo : xztl_mgeo) (id : Z) (rep : list znd_descr) (n : nat) (zone_i : Z)
    (zones : list ztl_pro_zone) (tbl : list app_zmd_entry) : option (Z * list ztl_pro_zone * list app_zmd_entry) :=
  match n with
  | O => Some (XZTL_OK, zones, tbl)
  | S n' =>
      zinfo ← rep.[u32 (id * zn_grp geo + zone_i)];
      let zi := ztl_zmd_get geo zone_i 0 in
      zmde ← tbl.[zi];
      if negb (ctrue (Z.land (ze_flags zmde) XZTL_ZMD_AVLB)) then Some (XZTL_ZTL_MD_INIT_ERR, zones, tbl) else
      if ctrue (Z.land (ze_flags zmde) XZTL_ZMD_RSVD) then Some (XZTL_ZTL_MD_INIT_ERR, zones, tbl) else
      zones' ← aset zones zone_i
                 {| pz_addr := ze_addr zmde; pz_zmd_entry := Some (Z.to_nat zi); pz_capacity := zd_zcap zinfo;
                    pz_lock := 0; pz_state := Some (zd_zs zinfo) |};
      tbl' ← aset tbl zi (ze_set_wptr_inflight (ze_set_wptr zmde (zd_wp zinfo)) (zd_wp zinfo));
      md_init_loop geo id rep n' (zone_i + 1) zones' tbl'
  end.

(** [calloc_ok] and [mutex_ok]: the allocation and the lock succeed. *)
Definition ztl_metadata_init (geo : xztl_mgeo) (calloc_ok mutex_ok : bool) (g : app_group)
    (pool : xztl_mp_pool_i) (st : xztl_stats) (d : D) (m : memory) : option (Z * app_group * mdstate D) :=
  let s zones tbl := Build_mdstate zones 2 0 tbl pool st d m in
  if negb calloc_ok then Some (XZTL_ZTL_MD_INIT_ERR, g, s [] (grp_tbl g)) else
  let zones0 := replicate 2 zone_zero in
  if negb mutex_ok then Some (XZTL_ZTL_MD_INIT_ERR, g, s zones0 (grp_tbl g)) else
  '(ret, zones, tbl) ← md_init_loop geo (grp_id g) (grp_report g) 2 0 zones0 (grp_tbl g);
  let g := grp_set_tbl g tbl in
  if ctrue ret then Some (ret, g, s zones tbl) else
  curr ← get_curr_metadata_zone (s zones tbl) 2 0;
  Some (XZTL_OK, g, md_set_curr (s zones tbl) curr).

(** * Reading *)

(** The attempts from [META_READ_FAIL] on, [n] of them left: the synchronous read of
    [read_nlb] blocks into the buffer at [prp].  The result is the last [ret]. *)
Fixpoint md_read_try s (addr read_nlb prp : Z) (n : nat) : option (Z * mdstate D) :=
  match n with
  | O => Some (XZTL_ZTL_MD_READ_ERR, s)
  | S n' =>
      let '(ret, dma, d) := sy_read (md_dev s) (maddr_sect addr) (u16 (read_nlb - 1)) prp in
      let s1 := md_set_mem (md_set_dev s d) (dma (md_mem s)) in
      if ctrue ret then
        st ← xztl_stats_inc (md_stats s1) XZTL_STATS_META_READ_FAIL 1;
        md_read_try (md_set_stats s1 st) addr read_nlb prp n'
      else Some (XZTL_OK, s1)
  end.

(** [while (left_nlb > 0)]; the pool is used by this thread alone, so an empty one
    makes [xztl_mempool_get] wait for ever. *)
Fixpoint md_read_loop s (n : nat) (left_nlb slba buf : Z) : outcome (Z * mdstate D) :=
  if left_nlb <=? 0 then Ok (XZTL_OK, s) else
  match n with
  | O => OutOfFuel
  | S n' =>
      let read_nlb := if MAX_READ_NLB_NUM <? left_nlb then MAX_READ_NLB_NUM else left_nlb in
      '(ent, pool) ← xztl_mempool_get (md_pool s) [];
      '(ret, s1) ← lift (md_read_try (md_set_pool s pool) (maddr_set_sect 0 slba) read_nlb (me_opaque ent) META_READ_MAX_RETRY);
      if ctrue ret then
        pool' ← lift (xztl_mempool_put (md_pool s1) ent);
        Ok (XZTL_ZTL_MD_READ_ERR, md_set_pool s1 pool')
      else
        let s2 := md_set_mem s1 (memcpy (md_mem s1) buf (me_opaque ent) (read_nlb * ZNS_ALIGMENT)) in
        pool' ← lift (xztl_mempool_put (md_pool s2) ent);
        md_read_loop (md_set_pool s2 pool') n' (u16 (left_nlb - read_nlb)) (u64 (slba + read_nlb))
          (buf + read_nlb * ZNS_ALIGMENT)
  end.

(** [dev_nbytes] is the device's bytes per sector, [length] 32 bits wide. *)
Definition zrocks_read_metadata (dev_nbytes : Z) s (slba buf length : Z) : outcome (Z * mdstate D) :=
  let nlb := u16 (length / dev_nbytes) in
  md_read_loop s (Z.to_nat nlb) nlb slba buf.

(** * Writing *)

(** The attempts from [META_WRITE_FAIL] on: the result is the last [err]. *)
Fixpoint md_write_try s (slba nlb data : Z) (n : nat) : option (Z * mdstate D) :=
  match n with
  | O => Some (- XZTL_ZTL_MD_WRITE_ERR, s)
  | S n' =>
      let '(err, status, d) := sy_write (md_dev s) (md_mem s) slba (u16 (nlb - 1)) data in
      let s1 := md_set_dev s d in
      if ctrue err || ctrue status then
        let err := if ctrue err then err else - XZTL_ZTL_MD_WRITE_ERR in
        st ← xztl_stats_inc (md_stats s1) XZTL_STATS_META_WRITE_FAIL 1;
        match n' with
        | O => Some (err, md_set_stats s1 st)
        | S _ => md_write_try (md_set_stats s1 st) slba nlb data n'
        end
      else Some (err, s1)
  end.

(** [while (remain_len > 0)] *)
Fixpoint md_write_loop (nbytes : Z) (zone : ztl_pro_zone) s (n : nat) (remain_len data : Z) : outcome (Z * mdstate D) :=
  if remain_len <=? 0 then Ok (0, s) else
  match n with
  | O => OutOfFuel
  | S n' =>
      let max_len := MAX_WRITE_NLB_NUM * ZNS_ALIGMENT in
      let write_len := if max_len <? remain_len then max_len else remain_len in
      let nlb := u16 (write_len / nbytes) in
      wptr ← lift (zone_wptr s zone);
      '(err, s1) ← lift (md_write_try s wptr nlb data META_WRITE_MAX_RETRY);
      if ctrue err then Ok (err, s1) else
      s2 ← lift (set_zone_wptr s1 zone (u64 (wptr + nlb)));
      md_write_loop nbytes zone s2 n' (remain_len - write_len) (data + write_len)
  end.

Definition zrocks_write_file_metadata (nbytes : Z) s (buf length : Z) : outcome (Z * mdstate D) :=
  zone ← lift ((md_zones s).[md_curr s]);
  wptr ← lift (zone_wptr s zone);
  if u64 (maddr_sect (pz_addr zone) + pz_capacity zone) <=? u64 (wptr + length / nbytes) then
    s1 ← lift (zrocks_switch_zone s (maddr_sect (pz_addr zone)));
    Ok (XZTL_ZTL_MD_WRITE_FULL, s1)
  else
    '(err, s1) ← md_write_loop nbytes zone s (Z.to_nat length) length buf;
    if ctrue err then Ok (XZTL_ZTL_MD_WRITE_ERR, s1) else Ok (XZTL_OK, s1).

End Metadata.

(** * What a healthy device guarantees

    As in Zns.v, for the synchronous calls: [sl_wp d zone] is the write pointer of a
    zone, zones start every [sl_nsect] sectors and hold [sl_zcap] of them. *)
Class SyncLaws (D : Type) `{!SyncDev D} := {
  sl_nsect : Z;
  sl_zcap : Z;
  sl_data : D -> contents;
  sl_wp : D -> Z -> Z;
  sl_write : forall d m zone slba nlb dbuf,
    slba = sl_wp d zone -> zone * sl_nsect <= slba -> slba + nlb < zone * sl_nsect + sl_zcap -> 0 <= nlb ->
    exists d', sy_write d m slba nlb dbuf = (0, 0, d') /\ sl_wp d' zone = slba + nlb + 1 /\
      (forall sec off, sl_data d' sec off = sector_write (sl_data d) m slba nlb dbuf sec off);
  sl_reset : forall d zone, exists d', sy_reset d (zone * sl_nsect) = (0, d') /\
    sl_wp d' zone = zone * sl_nsect /\ (forall zone', zone' <> zone -> sl_wp d' zone' = sl_wp d zone');
  sl_read : forall d slba nlb dbuf,
    exists dma d', sy_read d slba nlb dbuf = (0, dma, d') /\
      (forall sec off, sl_data d' sec off = sl_data d sec off) /\ (forall z, sl_wp d' z = sl_wp d z) /\
      forall m a, dma m a = sector_read (sl_data d) slba nlb dbuf m a
}.
