(* ===== verification/MetadataTheorems.v ===== *)
(** The metadata log: what is appended is read back, a full zone is replaced by the
    other one, and the buffer pool survives every error of the device. *)

From S2P Require Import Prelude Types Sim Stats Media Zns Device NodeInit Mempool Metadata.

(** * The pool over the reads, for any device *)

Section AnyDevice.

Context {D : Type} `{!SyncDev D}.
Implicit Types (s : mdstate D).

(** The state of the pool between two reads. *)
Definition md_pool_ok s : Prop := mp_head (md_pool s) <> [] /\ NoDup (mp_head (md_pool s)).

Lemma md_read_try_pool n : forall s addr nlb prp,
  stats_wf (md_stats s) ->
  exists ret s', md_read_try s addr nlb prp n = Some (ret, s') /\ md_pool s' = md_pool s /\ stats_wf (md_stats s').
Proof.
  induction n as [|n IH]; intros s addr nlb prp Hst; simpl; [eauto|].
  destruct (sy_read (md_dev s) (maddr_sect addr) (u16 (nlb - 1)) prp) as [[ret dma] d].
  destruct (ctrue ret); [|by eexists _, _].
  destruct (xztl_stats_inc_wf (md_stats s) XZTL_STATS_META_READ_FAIL 1 Hst) as (st & Hs & Hst' & _); [done|].
  simpl. rewrite Hs. simpl.
  destruct (IH (md_set_stats (md_set_mem (md_set_dev s d) (dma (md_mem s))) st) addr nlb prp) as (r & s' & Hr & Hp & Hw); [done|].
  eauto.
Qed.

(** One get and the put that follows it rotate the pool. *)
Lemma pool_rotate (p : xztl_mp_pool_i) :
  mp_head p <> [] -> NoDup (mp_head p) ->
  exists ent p' p'', xztl_mempool_get p [] = Ok (ent, p') /\ xztl_mempool_put p' ent = Some p'' /\
    ent ∈ mp_head p /\ mp_head p'' ≡ₚ mp_head p.
Proof.
  intros Hne Hnd. destruct (mp_head p) as [|e es] eqn:He; [done|]. apply NoDup_cons in Hnd as [Hin _].
  eexists e, _, _. simpl. unfold mempool_try_get. rewrite He. split; [done|].
  unfold xztl_mempool_put. simpl. rewrite decide_False by done. split_and!; [done|set_solver|].
  simpl. unfold tailq_insert_tail. by rewrite <- Permutation_cons_append.
Qed.

Lemma pool_ok_perm (l l' : list xztl_mp_entry) : l ≡ₚ l' -> l' <> [] /\ NoDup l' -> l <> [] /\ NoDup l.
Proof.
  intros Hp [Hne Hnd]. split; [|by rewrite Hp]. intros ->. apply Hne. by apply Permutation_nil.
Qed.

Lemma md_read_loop_any n : forall s left slba buf,
  0 <= left < 2 ^ 16 -> (Z.to_nat left <= n)%nat -> md_pool_ok s -> stats_wf (md_stats s) ->
  exists ret s', md_read_loop s n left slba buf = Ok (ret, s') /\ (ret = XZTL_OK \/ ret = XZTL_ZTL_MD_READ_ERR) /\
    mp_head (md_pool s') ≡ₚ mp_head (md_pool s).
Proof.
  induction n as [|n IH]; intros s left slba buf Hl Hn [Hne Hnd] Hst; cbn [md_read_loop];
    (destruct (Z.leb_spec left 0); [eexists _, _; by eauto|]); [lia|].
  destruct (pool_rotate _ Hne Hnd) as (ent & p' & p'' & Hg & Hp & _ & Hperm). rewrite Hg. cbn [mbind outcome_bind lift].
  set (r := if MAX_READ_NLB_NUM <? left then MAX_READ_NLB_NUM else left).
  assert (Hr : 0 < r <= left) by (subst r; unfold MAX_READ_NLB_NUM; destruct (_ <? _) eqn:E; lia).
  destruct (md_read_try_pool META_READ_MAX_RETRY (md_set_pool s p') (maddr_set_sect 0 slba) r (me_opaque ent) Hst)
    as (ret & s1 & -> & Hps & Hst1). cbn [mbind outcome_bind lift]. simpl in Hps.
  destruct (ctrue ret).
  - rewrite Hps, Hp. simpl. eexists _, _. split_and!; [done|by right|done].
  - cbn [md_pool md_set_mem]. rewrite Hps, Hp. cbn [mbind outcome_bind lift].
    edestruct IH as (ret' & s' & -> & Hret & Hperm'); [| | |exact Hst1|].
    4:{ eexists _, _. split_and!; [done|done|]. by rewrite Hperm'. }
    + rewrite wrap_small; lia.
    + rewrite wrap_small; lia.
    + apply (pool_ok_perm _ _ Hperm). done.
Qed.


End AnyDevice.

(** * A device for the witnesses

    The simulated device of Device.v with its synchronous calls, and a dead one. *)

#[export] Instance simdev_sync : SyncDev simdev := {
  sy_write := fun d m slba nlb dbuf =>
    let '(ret, d') := sd_submit d m 0 0 NVM_WRITE slba nlb dbuf in (ret, 0, d');
  sy_reset := fun d slba =>
    (0, {| sd_next := sd_next d; sd_queue := sd_queue d;
           sd_wp := fun z => if z =? slba / sd_zone_size then slba else sd_wp d z;
           sd_data := fun sec off => if (slba <=? sec) && (sec <? slba + ZTL_PRO_SEC_NUM_INZONE) then 0 else sd_data d sec off;
           sd_log := sd_log d |});
  sy_read := fun d slba nlb dbuf => (0, sector_read (sd_data d) slba nlb dbuf, d)
}.

#[export, refine] Instance simdev_sync_laws : SyncLaws simdev := {
  sl_nsect := sd_zone_size;
  sl_zcap := ZTL_PRO_SEC_NUM_INZONE;
  sl_data := sd_data;
  sl_wp := sd_wp
}.
Proof.
  - intros d m zone slba nlb dbuf Hwp Hlo Hhi Hn. simpl. unfold sd_submit.
    assert (slba / sd_zone_size = zone) as ->.
    { change ZTL_PRO_SEC_NUM_INZONE with 24576 in Hhi. unfold sd_zone_size in *. zdiv. }
    rewrite Hwp, Z.eqb_refl. eexists. split_and!; [reflexivity| |done]. simpl. by rewrite Z.eqb_refl.
  - intros d zone. simpl. eexists. split; [reflexivity|]. simpl.
    rewrite Z.div_mul by done. split; [by rewrite Z.eqb_refl|]. intros zone' Hz. by rewrite (proj2 (Z.eqb_neq _ _) Hz).
  - intros d slba nlb dbuf. simpl. eexists _, _. done.
Defined.

(** A device whose synchronous calls all fail. *)
Definition dead_sync : SyncDev unit := {|
  sy_write := fun d _ _ _ _ => (-5, 0, d);
  sy_reset := fun d _ => (-5, d);
  sy_read := fun d _ _ _ => (-5, id, d)
|}.

Definition sim_pool : xztl_mp_pool_i :=
  {| mp_active := 1; mp_in_count := 0; mp_out_count := 0; mp_entries := 2; mp_alloc_fn := true; mp_free_fn := true;
     mp_head := [{| me_ptr := 64; me_opaque := 2 ^ 30; me_tid := 0; me_id := 0 |};
                 {| me_ptr := 128; me_opaque := 2 ^ 30 + 2 ^ 20; me_tid := 0; me_id := 1 |}] |}.

Definition sim_md {D} (d : D) : mdstate D :=
  {| md_zones := (fun z => {| pz_addr := ze_addr (sim_zone z); pz_zmd_entry := Some z;
                              pz_capacity := ZTL_PRO_SEC_NUM_INZONE; pz_lock := 0; pz_state := Some ZND_STATE_EMPTY |}) <$> seq 0 2;
     md_zone_num := 2; md_curr := 0; md_tbl := sim_zone <$> seq 0 2; md_pool := sim_pool;
     md_stats := xztl_stats_init; md_dev := d; md_mem := fun a => a mod 251 |}.

Lemma sim_pool_ok {D} (d : D) : md_pool_ok (sim_md d).
Proof. split; [done|]. simpl. apply NoDup_cons. split; [|apply NoDup_singleton]. by intros [=]%list_elem_of_singleton. Qed.


(** * A healthy device *)

Section Healthy.

Context {D : Type} `{!SyncDev D} `{!SyncLaws D}.
Implicit Types (s : mdstate D).

(** ** Reading *)

(** What a read leaves alone. *)
Definition read_kept s s' : Prop :=
  md_zones s' = md_zones s /\ md_zone_num s' = md_zone_num s /\ md_curr s' = md_curr s /\ md_tbl s' = md_tbl s /\
  (forall sec off, sl_data (md_dev s') sec off = sl_data (md_dev s) sec off) /\
  (forall z, sl_wp (md_dev s') z = sl_wp (md_dev s) z).

Lemma read_kept_trans s1 s2 s3 : read_kept s1 s2 -> read_kept s2 s3 -> read_kept s1 s3.
Proof.
  intros (A1 & A2 & A3 & A4 & A5 & A6) (B1 & B2 & B3 & B4 & B5 & B6). unfold read_kept. split_and!; congruence.
Qed.

Lemma md_read_try_ok s slba nlb prp n :
  0 <= slba < 2 ^ 36 -> 0 < nlb <= MAX_READ_NLB_NUM ->
  exists s', md_read_try s (maddr_set_sect 0 slba) nlb prp (S n) = Some (XZTL_OK, s') /\
    (forall sec off, sl_data (md_dev s') sec off = sl_data (md_dev s) sec off) /\
    md_pool s' = md_pool s /\ md_stats s' = md_stats s /\
    (forall a, md_mem s' a = sector_read (sl_data (md_dev s)) slba (nlb - 1) prp (md_mem s) a) /\ read_kept s s'.
Proof.
  unfold MAX_READ_NLB_NUM. intros Hs Hn. simpl. unfold maddr_sect, maddr_set_sect. rewrite bf_get_set_eq, wrap_small by lia.
  rewrite (wrap_small 16) by lia. destruct (sl_read (md_dev s) slba (nlb - 1) prp) as (dma & d' & -> & Hd & Hw & Hm).
  simpl. eexists. split_and!; [done|done|done|done| |done]. intros a. simpl. by rewrite Hm.
Qed.

(** The memory the pool's buffers take. *)
Definition in_pool (p : xztl_mp_pool_i) (a : Z) : Prop :=
  exists e, e ∈ mp_head p /\ me_opaque e <= a < me_opaque e + MAX_READ_NLB_NUM * ZNS_ALIGMENT.

Lemma in_pool_perm p p' a : mp_head p ≡ₚ mp_head p' -> in_pool p a -> in_pool p' a.
Proof. intros Hp (e & He & Ha). exists e. by rewrite <- Hp. Qed.

(** One turn of the loop: [r] blocks are copied to [buf]. *)
Lemma read_turn s ent p' slba buf r :
  0 <= slba < 2 ^ 36 -> 0 < r <= MAX_READ_NLB_NUM -> ent ∈ mp_head (md_pool s) ->
  (forall a, in_pool (md_pool s) a -> ~ buf <= a < buf + r * ZNS_ALIGMENT) ->
  exists s1, md_read_try (md_set_pool s p') (maddr_set_sect 0 slba) r (me_opaque ent) META_READ_MAX_RETRY = Some (XZTL_OK, s1) /\
    (forall sec off, sl_data (md_dev s1) sec off = sl_data (md_dev s) sec off) /\
    md_pool s1 = p' /\ md_stats s1 = md_stats s /\ read_kept s s1 /\
    let m := memcpy (md_mem s1) buf (me_opaque ent) (r * ZNS_ALIGMENT) in
    (forall a, buf <= a < buf + r * ZNS_ALIGMENT ->
       m a = sl_data (md_dev s) (slba + (a - buf) / ZNS_ALIGMENT) ((a - buf) mod ZNS_ALIGMENT)) /\
    (forall a, ~ buf <= a < buf + r * ZNS_ALIGMENT -> ~ in_pool (md_pool s) a -> m a = md_mem s a).
Proof.
  intros Hs Hr Hin Hdis. destruct (md_read_try_ok (md_set_pool s p') slba r (me_opaque ent) 2 Hs Hr)
    as (s1 & H1 & Hd & Hp & Hst & Hm & Hk).
  exists s1. split_and!; [exact H1|done|done|done|exact Hk|]. intros m. subst m. split; unfold memcpy; cst.
  - intros a Ha. replace ((buf <=? a) && (a <? buf + r * 4096)) with true by lia.
    rewrite Hm. unfold sector_read. cst.
    replace ((me_opaque ent <=? me_opaque ent + (a - buf)) && (me_opaque ent + (a - buf) <? me_opaque ent + (r - 1 + 1) * 4096))
      with true by lia.
    by replace (me_opaque ent + (a - buf) - me_opaque ent) with (a - buf) by lia.
  - intros a Ha Hnp. replace ((buf <=? a) && (a <? buf + r * 4096)) with false by lia.
    rewrite Hm. unfold sector_read. cst.
    destruct ((me_opaque ent <=? a) && _) eqn:E; [|done]. destruct Hnp. exists ent. split; [done|].
    unfold MAX_READ_NLB_NUM in *. cst. lia.
Qed.

Lemma md_read_loop_ok n : forall s left slba buf,
  0 <= left < 2 ^ 16 -> (Z.to_nat left <= n)%nat -> 0 <= slba -> slba + left < 2 ^ 36 -> md_pool_ok s ->
  (forall a, in_pool (md_pool s) a -> ~ buf <= a < buf + left * ZNS_ALIGMENT) ->
  exists s', md_read_loop s n left slba buf = Ok (XZTL_OK, s') /\
    (forall a, buf <= a < buf + left * ZNS_ALIGMENT ->
       md_mem s' a = sl_data (md_dev s) (slba + (a - buf) / ZNS_ALIGMENT) ((a - buf) mod ZNS_ALIGMENT)) /\
    (forall a, ~ buf <= a < buf + left * ZNS_ALIGMENT -> ~ in_pool (md_pool s) a -> md_mem s' a = md_mem s a) /\
    mp_head (md_pool s') ≡ₚ mp_head (md_pool s) /\ read_kept s s'.
Proof.
  induction n as [|n IH]; intros s left slba buf Hl Hn Hs Hs36 [Hne Hnd] Hdis; cbn [md_read_loop];
    (destruct (Z.leb_spec left 0); [eexists _; split_and!; [done|cst; lia|done|done|done]|]); [lia|].
  destruct (pool_rotate _ Hne Hnd) as (ent & p' & p'' & Hg & Hp & Hin & Hperm). rewrite Hg. cbn [mbind outcome_bind lift].
  set (r := if MAX_READ_NLB_NUM <? left then MAX_READ_NLB_NUM else left).
  assert (Hr : 0 < r <= left /\ r <= MAX_READ_NLB_NUM) by (subst r; unfold MAX_READ_NLB_NUM; destruct (_ <? _) eqn:E; lia).
  destruct (read_turn s ent p' slba buf r) as (s1 & -> & Hd & Hps & _ & Hk1 & Hin1 & Hout1); [lia|lia|done| |].
  { intros a Ha. pose proof (Hdis a Ha). cst. lia. }
  cbn [mbind outcome_bind lift]. change (ctrue XZTL_OK) with false. cbv iota. cbn [md_pool md_set_mem].
  rewrite Hps, Hp. cbn [mbind outcome_bind lift]. rewrite (wrap_small 16), (wrap_small 64) by lia.
  match goal with |- context [md_read_loop ?x] => set (s2 := x) end.
  assert (Hs2 : md_pool s2 = p'' /\ md_dev s2 = md_dev s1 /\ md_mem s2 = memcpy (md_mem s1) buf (me_opaque ent) (r * ZNS_ALIGMENT)) by done.
  destruct Hs2 as (Hp2 & Hd2 & Hm2).
  destruct (IH s2 (left - r) (slba + r) (buf + r * ZNS_ALIGMENT)) as (s' & -> & Hok & Hout & Hperm' & Hk').
  - lia.
  - lia.
  - lia.
  - lia.
  - unfold md_pool_ok. rewrite Hp2. by apply (pool_ok_perm _ _ Hperm).
  - intros a Ha. rewrite Hp2 in Ha. pose proof (Hdis a (in_pool_perm _ _ _ Hperm Ha)). cst. lia.
  - exists s'. split_and!; [done|..].
    + intros a Ha. destruct (decide (a < buf + r * ZNS_ALIGMENT)) as [Hlt|Hge].
      * rewrite Hout; [rewrite Hm2; apply Hin1; lia|lia|]. rewrite Hp2. intros Hx.
        by apply (Hdis a (in_pool_perm _ _ _ Hperm Hx)).
      * rewrite Hok by (cst; lia). rewrite Hd2, Hd. unfold ZNS_ALIGMENT in *. f_equal; zdiv.
    + intros a Ha Hnp. rewrite Hout; [rewrite Hm2; apply Hout1; [cst; lia|done]|cst; lia|].
      rewrite Hp2. intros Hx. by apply Hnp, (in_pool_perm _ _ _ Hperm).
    + by rewrite Hperm', Hp2.
    + eapply read_kept_trans; [exact Hk1|]. exact Hk'.
Qed.

(** ** Writing *)

(** What a write leaves alone. *)
Definition same_log s s' : Prop :=
  md_zones s' = md_zones s /\ md_zone_num s' = md_zone_num s /\ md_curr s' = md_curr s /\
  md_pool s' = md_pool s /\ md_mem s' = md_mem s /\ md_stats s' = md_stats s /\
  length (md_tbl s') = length (md_tbl s).

Lemma set_wptr_run s zone w v :
  zone_wptr s zone = Some w ->
  exists s', set_zone_wptr s zone v = Some s' /\ zone_wptr s' zone = Some v /\ md_dev s' = md_dev s /\ same_log s s'.
Proof.
  unfold zone_wptr, set_zone_wptr. destruct (pz_zmd_entry zone) as [i|]; simpl; [|done].
  destruct (md_tbl s !! i) as [e|] eqn:E; simpl; [|done]. intros _. eexists. split; [done|]. simpl.
  rewrite list_lookup_insert_eq by (by eapply lookup_lt_Some). unfold same_log. split_and!; try done. apply length_insert.
Qed.

Lemma md_write_try_ok s zn slba nlb data n :
  slba = sl_wp (md_dev s) zn -> zn * sl_nsect <= slba -> slba + nlb <= zn * sl_nsect + sl_zcap -> 0 < nlb <= MAX_WRITE_NLB_NUM ->
  exists s', md_write_try s slba nlb data (S n) = Some (0, s') /\ sl_wp (md_dev s') zn = slba + nlb /\
    (forall sec off, sl_data (md_dev s') sec off = sector_write (sl_data (md_dev s)) (md_mem s) slba (nlb - 1) data sec off) /\
    md_tbl s' = md_tbl s /\ same_log s s'.
Proof.
  unfold MAX_WRITE_NLB_NUM. intros Hw Hlo Hhi Hn. cbn [md_write_try]. rewrite (wrap_small 16) by lia.
  destruct (sl_write (md_dev s) (md_mem s) zn slba (nlb - 1) data) as (d' & -> & Hwp & Hd); try lia.
  simpl. eexists. split_and!; try done. simpl. lia.
Qed.

Lemma sector_write_add data m w r k dbuf sec off :
  0 < r -> 0 <= k ->
  (if (w + r <=? sec) && (sec <? w + r + k) then m (dbuf + r * ZNS_ALIGMENT + (sec - (w + r)) * ZNS_ALIGMENT + off)
   else sector_write data m w (r - 1) dbuf sec off) =
  (if (w <=? sec) && (sec <? w + (r + k)) then m (dbuf + (sec - w) * ZNS_ALIGMENT + off) else data sec off).
Proof.
  intros Hr Hk. unfold sector_write. cst.
  destruct (Z.leb_spec (w + r) sec), (Z.ltb_spec sec (w + r + k)), (Z.leb_spec w sec), (Z.leb_spec sec (w + (r - 1))),
    (Z.ltb_spec sec (w + (r + k))); simpl; try lia; try done; f_equal; lia.
Qed.

Lemma md_write_loop_ok zone zn n : forall s k data w,
  0 <= k < 2 ^ 20 -> (Z.to_nat k <= n)%nat -> zone_wptr s zone = Some w -> sl_wp (md_dev s) zn = w ->
  0 <= zn * sl_nsect <= w -> w + k <= zn * sl_nsect + sl_zcap -> w + k < 2 ^ 36 ->
  exists s', md_write_loop ZNS_ALIGMENT zone s n (k * ZNS_ALIGMENT) data = Ok (0, s') /\
    zone_wptr s' zone = Some (w + k) /\ sl_wp (md_dev s') zn = w + k /\ same_log s s' /\
    (forall sec off, sl_data (md_dev s') sec off =
       if (w <=? sec) && (sec <? w + k) then md_mem s (data + (sec - w) * ZNS_ALIGMENT + off) else sl_data (md_dev s) sec off).
Proof.
  induction n as [|n IH]; intros s k data w Hk Hn Hw Hwp Hlo Hhi H36; cbn [md_write_loop].
  1,2: destruct (Z.leb_spec (k * ZNS_ALIGMENT) 0) as [Hz|Hz];
    [assert (k = 0) as -> by (cst; lia); eexists; rewrite Z.add_0_r; split_and!; try done;
     intros sec off; by replace ((w <=? sec) && (sec <? w)) with false by lia|cst; try lia].
  set (wl := if MAX_WRITE_NLB_NUM * 4096 <? k * 4096 then MAX_WRITE_NLB_NUM * 4096 else k * 4096).
  set (r := if MAX_WRITE_NLB_NUM <? k then MAX_WRITE_NLB_NUM else k).
  assert (Hr : wl = r * 4096 /\ 0 < r <= k /\ r <= MAX_WRITE_NLB_NUM).
  { subst wl r. unfold MAX_WRITE_NLB_NUM. destruct (Z.ltb_spec 64 k), (Z.ltb_spec (64 * 4096) (k * 4096)); lia. }
  destruct Hr as (-> & Hr & Hr64). rewrite Z.div_mul by lia. unfold MAX_WRITE_NLB_NUM in Hr64.
  rewrite (wrap_small 16), Hw by lia. cbn [mbind outcome_bind lift].
  destruct (md_write_try_ok s zn w r data 2) as (s1 & H1 & Hwp1 & Hd1 & Ht1 & Hs1); try lia; [unfold MAX_WRITE_NLB_NUM; lia|].
  unfold META_WRITE_MAX_RETRY. rewrite H1. cbn [mbind outcome_bind lift]. change (ctrue 0) with false. cbv iota.
  destruct (set_wptr_run s1 zone w (w + r)) as (s2 & H2 & Hw2 & Hd2 & Hs2).
  { unfold zone_wptr in *. by rewrite Ht1. }
  rewrite (wrap_small 64), H2 by lia. cbn [mbind outcome_bind lift].
  destruct (IH s2 (k - r) (data + r * 4096) (w + r)) as (s' & H' & Hw' & Hwp' & Hs' & Hd'); try lia; [by rewrite Hw2|by rewrite Hd2|].
  replace (k * 4096 - r * 4096) with ((k - r) * 4096) by lia. change ZNS_ALIGMENT with 4096 in H', Hd'. rewrite H'.
  exists s'. split_and!; [done| | | |].
  - rewrite Hw'. f_equal. lia.
  - lia.
  - unfold same_log in *. intuition congruence.
  - intros sec off. rewrite Hd', Hd2, Hd1. destruct Hs1 as (_ & _ & _ & _ & Hm1 & _), Hs2 as (_ & _ & _ & _ & Hm2 & _).
    rewrite Hm2, Hm1. replace k with (r + (k - r)) at 2 by lia. apply sector_write_add; lia.
Qed.

(** The current zone: its entry, its write pointer [w], its place on the device. *)
Definition log_zone s (zone : ztl_pro_zone) (zn w : Z) : Prop :=
  (md_zones s).[md_curr s] = Some zone /\ maddr_sect (pz_addr zone) = zn * sl_nsect /\
  0 <= pz_capacity zone <= sl_zcap /\ zone_wptr s zone = Some w /\ sl_wp (md_dev s) zn = w /\
  0 <= zn * sl_nsect <= w /\ zn * sl_nsect + pz_capacity zone < 2 ^ 36.

Lemma write_metadata_ok s zone zn w buf k :
  log_zone s zone zn w -> 0 <= k < 2 ^ 20 -> w + k < zn * sl_nsect + pz_capacity zone ->
  exists s', zrocks_write_file_metadata ZNS_ALIGMENT s buf (k * ZNS_ALIGMENT) = Ok (XZTL_OK, s') /\
    log_zone s' zone zn (w + k) /\ same_log s s' /\
    (forall sec off, sl_data (md_dev s') sec off =
       if (w <=? sec) && (sec <? w + k) then md_mem s (buf + (sec - w) * ZNS_ALIGMENT + off) else sl_data (md_dev s) sec off).
Proof.
  intros (Hz & Ha & Hc & Hw & Hwp & Hlo & Hhi) Hk Hroom. unfold zrocks_write_file_metadata.
  rewrite Hz. cbn [mbind outcome_bind lift]. rewrite Hw. cbn [mbind outcome_bind lift].
  rewrite Z.div_mul, Ha, !(wrap_small 64) by (cst; lia).
  replace (zn * sl_nsect + pz_capacity zone <=? w + k) with false by lia.
  destruct (md_write_loop_ok zone zn (Z.to_nat (k * ZNS_ALIGMENT)) s k buf w) as (s' & -> & Hw' & Hwp' & Hs & Hd);
    try lia; auto; [cst; lia|].
  cbn [mbind outcome_bind lift]. change (ctrue 0) with false. cbv iota.
  exists s'. split_and!; auto. unfold same_log in Hs. destruct Hs as (Hs1 & _ & Hs2 & _).
  unfold log_zone. rewrite Hs1, Hs2. split_and!; auto; lia.
Qed.

(** C20. A file-metadata write of [k] blocks that leaves room in the current zone
    returns XZTL_OK and advances the write pointer by [k]; reading [k] blocks back from
    the old write pointer returns XZTL_OK with the bytes that were written, and no other
    byte outside the buffers of the pool changes; the sectors before the old write
    pointer keep their contents. *)
Theorem metadata_roundtrip s zone zn w buf k dst :
  log_zone s zone zn w -> 0 <= k < 2 ^ 16 -> w + k < zn * sl_nsect + pz_capacity zone -> md_pool_ok s ->
  (forall a, in_pool (md_pool s) a -> ~ dst <= a < dst + k * ZNS_ALIGMENT) ->
  exists s1 s2, zrocks_write_file_metadata ZNS_ALIGMENT s buf (k * ZNS_ALIGMENT) = Ok (XZTL_OK, s1) /\
    zone_wptr s1 zone = Some (w + k) /\
    (forall sec off, ~ w <= sec < w + k -> sl_data (md_dev s1) sec off = sl_data (md_dev s) sec off) /\
    zrocks_read_metadata ZNS_ALIGMENT s1 w dst (k * ZNS_ALIGMENT) = Ok (XZTL_OK, s2) /\
    (forall i, 0 <= i < k * ZNS_ALIGMENT -> md_mem s2 (dst + i) = md_mem s (buf + i)) /\
    (forall a, ~ dst <= a < dst + k * ZNS_ALIGMENT -> ~ in_pool (md_pool s) a -> md_mem s2 a = md_mem s a).
Proof.
  intros Hlog Hk Hroom Hpool Hdis. destruct (write_metadata_ok s zone zn w buf k Hlog ltac:(lia) Hroom)
    as (s1 & Hr1 & Hlog1 & (_ & _ & _ & Hp & Hm & _) & Hd). pose proof Hlog as (_ & _ & _ & _ & _ & Hlo & Hhi).
  destruct (md_read_loop_ok (Z.to_nat k) s1 k w dst) as (s2 & Hr2 & Hin & Hout & _); auto; try lia.
  { unfold md_pool_ok. by rewrite Hp. } { by rewrite Hp. }
  exists s1, s2. split_and!; auto.
  - by destruct Hlog1 as (_ & _ & _ & ? & _).
  - intros sec off Hsec. rewrite Hd. by replace ((w <=? sec) && (sec <? w + k)) with false by lia.
  - unfold zrocks_read_metadata. rewrite Z.div_mul, wrap_small by (cst; lia). exact Hr2.
  - intros i Hi. rewrite Hin by lia. rewrite Hd. unfold ZNS_ALIGMENT in *.
    replace (dst + i - dst) with i by lia.
    replace ((w <=? w + i / 4096) && (w + i / 4096 <? w + k)) with true by zdiv. f_equal. zdiv.
  - intros a Ha Hnp. rewrite Hout, Hm; [done|done|by rewrite Hp].
Qed.

(** A write that would reach the end of the current zone (exactly filling it
    included) is refused with XZTL_ZTL_MD_WRITE_FULL: nothing is written, and the log
    continues in the other zone, which has been reset and is empty. *)
Theorem metadata_write_full s zone other zn zn' w w' buf length :
  log_zone s zone zn w -> 0 <= length < 2 ^ 32 -> md_zone_num s = 2 ->
  md_zones s = (if md_curr s =? 0 then [zone; other] else [other; zone]) -> md_curr s = 0 \/ md_curr s = 1 ->
  zn' <> zn -> sl_nsect <> 0 -> maddr_sect (pz_addr other) = zn' * sl_nsect -> zone_wptr s other = Some w' ->
  zn * sl_nsect + pz_capacity zone <= w + length / ZNS_ALIGMENT -> w < 2 ^ 36 ->
  exists s', zrocks_write_file_metadata ZNS_ALIGMENT s buf length = Ok (XZTL_ZTL_MD_WRITE_FULL, s') /\
    md_curr s' = 1 - md_curr s /\ (md_zones s').[md_curr s'] = Some other /\
    zone_wptr s' other = Some (zn' * sl_nsect) /\ sl_wp (md_dev s') zn' = zn' * sl_nsect /\
    sl_wp (md_dev s') zn = sl_wp (md_dev s) zn /\ md_mem s' = md_mem s.
Proof.
  intros (Hz & Ha & Hc & Hw & Hwp & Hlo & Hhi) Hlen Hnum Hzs Hcur Hne Hns Ha' Hw' Hfull Hw36.
  unfold zrocks_write_file_metadata. rewrite Hz. cbn [mbind outcome_bind lift]. rewrite Hw. cbn [mbind outcome_bind lift].
  assert (0 <= length / ZNS_ALIGMENT < 2 ^ 32) by (cst; zdiv).
  rewrite Ha, !(wrap_small 64) by lia. replace (_ <=? w + length / ZNS_ALIGMENT) with true by lia.
  assert (Hsw : zrocks_switch_zone s (zn * sl_nsect) =
                set_zone_wptr (snd (zrocks_reset_file_md (md_set_curr s (1 - md_curr s)) (zn' * sl_nsect))) other (zn' * sl_nsect)).
  { assert (Hneq : (zn' * sl_nsect =? zn * sl_nsect) = false) by (apply Z.eqb_neq; intros ?%Z.mul_reg_r; done).
    unfold zrocks_switch_zone. rewrite Hnum. change (Z.to_nat 2) with 2%nat. cbn [switch_loop]. rewrite Hzs.
    unfold zrocks_reset_file_md. cbn [md_dev md_set_curr].
    destruct Hcur as [Hcu | Hcu]; rewrite Hcu; unfold aget; rewrite !decide_True by lia; cbn [lookup list_lookup Z.eqb mbind option_bind].
    - change ([zone; other] !! Z.to_nat 0) with (Some zone). change ([zone; other] !! Z.to_nat (0 + 1)) with (Some other).
      cbn [mbind option_bind]. rewrite Ha, Z.eqb_refl. cbn [negb]. rewrite Ha', Hneq. cbn [negb].
      by destruct (sy_reset (md_dev s) (zn' * sl_nsect)).
    - change ([other; zone] !! Z.to_nat 0) with (Some other). cbn [mbind option_bind]. rewrite Ha', Hneq. cbn [negb].
      by destruct (sy_reset (md_dev s) (zn' * sl_nsect)). }
  rewrite Hsw. unfold zrocks_reset_file_md. destruct (sl_reset (md_dev s) zn') as (d' & Hr & Hwp' & Hoth).
  cbn [md_dev md_set_curr]. rewrite Hr. cbn [snd].
  destruct (set_wptr_run (md_set_dev (md_set_curr s (1 - md_curr s)) d') other w' (zn' * sl_nsect)) as (s' & -> & Hw2 & Hd2 & Hs2); [done|].
  cbn [mbind outcome_bind lift]. exists s'. destruct Hs2 as (Hs2 & _ & Hs3 & _ & Hs4 & _). cbn in Hs2, Hs3, Hs4, Hd2.
  rewrite Hs2, Hs3, Hs4, Hd2. split_and!; auto. rewrite Hzs. by destruct Hcur as [-> | ->].
Qed.

(** A write whose length is not a whole number of blocks below one block asks the
    device for 65536 blocks: the block count 0 is sent as 0 - 1 in 16 bits. *)
Theorem metadata_write_unaligned s zone w buf length d st :
  (md_zones s).[md_curr s] = Some zone -> zone_wptr s zone = Some w -> 0 < length < ZNS_ALIGMENT ->
  w < u64 (maddr_sect (pz_addr zone) + pz_capacity zone) -> 0 <= w < 2 ^ 64 ->
  sy_write (md_dev s) (md_mem s) w 65535 buf = (0, st, d) -> st = 0 ->
  exists s', zrocks_write_file_metadata ZNS_ALIGMENT s buf length = Ok (XZTL_OK, s') /\
    zone_wptr s' zone = Some w /\ md_dev s' = d.
Proof.
  intros Hz Hw Hl Hroom Hw64 Hdev ->. unfold zrocks_write_file_metadata. rewrite Hz. cbn [mbind outcome_bind lift].
  rewrite Hw. cbn [mbind outcome_bind lift]. assert (length / ZNS_ALIGMENT = 0) as Hq by (apply Z.div_small; cst; lia).
  rewrite Hq, Z.add_0_r, (wrap_small 64 w) by lia. replace (_ <=? w) with false by lia.
  destruct (Z.to_nat length) as [|n] eqn:En; [lia|]. cbn [md_write_loop]. replace (length <=? 0) with false by lia.
  unfold MAX_WRITE_NLB_NUM. replace (64 * ZNS_ALIGMENT <? length) with false by (cst; lia). rewrite Hq.
  change (u16 0) with 0. rewrite Hw. cbn [mbind outcome_bind lift]. unfold META_WRITE_MAX_RETRY. cbn [md_write_try].
  change (u16 (0 - 1)) with 65535. rewrite Hdev. change (ctrue 0) with false. cbn [orb mbind outcome_bind lift].
  change (ctrue 0) with false. cbv iota.
  destruct (set_wptr_run (md_set_dev s d) zone w (u64 (w + 0))) as (s' & -> & Hw' & Hd' & _); [done|].
  cbn [mbind outcome_bind lift]. rewrite Z.sub_diag. exists s'.
  replace (md_write_loop ZNS_ALIGMENT zone s' n 0 (buf + length)) with (Ok (0, s') : outcome (Z * mdstate D)) by (by destruct n).
  cbn [mbind outcome_bind lift]. split_and!; [done| |done]. rewrite Hw', Z.add_0_r, wrap_small; [done|lia].
Qed.

End Healthy.

(** * Witnesses on the simulated device *)

Lemma sim_pool_far (a : Z) : in_pool sim_pool a -> 2 ^ 30 <= a.
Proof.
  intros (e & He & Ha). cbn [mp_head sim_pool] in He. rewrite !elem_of_cons in He.
  destruct He as [-> | [-> | He]]; [cbn in Ha; lia|cbn in Ha; lia|by apply not_elem_of_nil in He].
Qed.

Definition sim_md_zone (z : nat) : ztl_pro_zone :=
  {| pz_addr := ze_addr (sim_zone z); pz_zmd_entry := Some z; pz_capacity := ZTL_PRO_SEC_NUM_INZONE; pz_lock := 0;
     pz_state := Some ZND_STATE_EMPTY |}.

Lemma sim_log_zone : log_zone (sim_md sim_dev) (sim_md_zone 0) 0 0.
Proof. unfold log_zone. split_and!; try reflexivity; vm_compute; congruence. Qed.

Lemma metadata_roundtrip_witness : exists s1 s2,
  zrocks_write_file_metadata ZNS_ALIGMENT (sim_md sim_dev) 1000000 (200 * ZNS_ALIGMENT) = Ok (XZTL_OK, s1) /\
  zrocks_read_metadata ZNS_ALIGMENT s1 0 9000000 (200 * ZNS_ALIGMENT) = Ok (XZTL_OK, s2) /\
  (forall i, 0 <= i < 200 * ZNS_ALIGMENT -> md_mem s2 (9000000 + i) = (1000000 + i) mod 251).
Proof.
  destruct (metadata_roundtrip (sim_md sim_dev) (sim_md_zone 0) 0 0 1000000 200 9000000) as (s1 & s2 & H1 & _ & _ & H2 & H3 & _).
  - exact sim_log_zone.
  - lia.
  - vm_compute. done.
  - apply sim_pool_ok.
  - intros a Ha%sim_pool_far. unfold ZNS_ALIGMENT. lia.
  - exists s1, s2. split_and!; [done|done|]. intros i Hi. by rewrite H3.
Defined.

Lemma metadata_write_full_witness : exists s',
  zrocks_write_file_metadata ZNS_ALIGMENT (sim_md sim_dev) 0 (24576 * ZNS_ALIGMENT) = Ok (XZTL_ZTL_MD_WRITE_FULL, s') /\
  md_curr s' = 1 /\ zone_wptr s' (sim_md_zone 1) = Some 32768.
Proof.
  destruct (metadata_write_full (sim_md sim_dev) (sim_md_zone 0) (sim_md_zone 1) 0 1 0 32768 0 (24576 * ZNS_ALIGMENT))
    as (s' & H1 & H2 & _ & H3 & _).
  - exact sim_log_zone.
  - unfold ZNS_ALIGMENT. lia.
  - reflexivity.
  - reflexivity.
  - by left.
  - lia.
  - done.
  - reflexivity.
  - reflexivity.
  - vm_compute. congruence.
  - lia.
  - by exists s'.
Defined.

Lemma metadata_write_unaligned_witness : exists s',
  zrocks_write_file_metadata ZNS_ALIGMENT (sim_md sim_dev) 0 100 = Ok (XZTL_OK, s') /\ zone_wptr s' (sim_md_zone 0) = Some 0 /\
  sd_log (md_dev s') = [(0, 65535, 0)].
Proof.
  destruct (metadata_write_unaligned (sim_md sim_dev) (sim_md_zone 0) 0 0 100
              (snd (sy_write sim_dev (fun a => a mod 251) 0 65535 0)) 0) as (s' & H1 & H2 & H3).
  - reflexivity.
  - reflexivity.
  - unfold ZNS_ALIGMENT. lia.
  - vm_compute. reflexivity.
  - lia.
  - reflexivity.
  - reflexivity.
  - exists s'. split_and!; [done|done|]. by rewrite H3.
Defined.
