(* ===== verification/Zrocks.v ===== *)
(** The ZRocks interface: src/xztl/zrocks/src/zrocks.c over the I/O engine.

    A request is a structure on the caller's stack: [u0] is its uninitialised
    content.  The state [s] is the context of the writer thread of the request's
    level, which serves the requests of the level in order; the call returns when
    the thread has marked the request completed.  Reads run in the caller, on the
    pool of read resources.  [maps] is the caller's array. *)

From S2P Require Import Prelude Types Stats ProGrp Media Io Read Mgmt.

Definition ZROCKS_READ_MAX_RETRY : Z := 3.

(** The clamped level. *)
Definition zr_level (level : Z) : Z :=
  let level := if level <? 0 then 0 else level in
  if ZROCKS_LEVEL_NUM <=? level then ZROCKS_LEVEL_NUM - 1 else level.

(** The size rounded up to whole commands. *)
Definition zr_new_sz (size : Z) : Z :=
  let alignment := ZNS_ALIGMENT * ZTL_IO_SEC_MCMD in
  let misalign := u32 (size mod alignment) in
  if negb (misalign =? 0) then u64 (size + (alignment - misalign)) else size.

Definition zr_write_ucmd (u0 : xztl_io_ucmd) (buf size level : Z) : xztl_io_ucmd :=
  {| uc_id := XZTL_CMD_WRITE; uc_buf := buf; uc_size := zr_new_sz size; uc_offset := uc_offset u0;
     uc_prov_type := u16 (zr_level level); uc_app_md := 1; uc_status := 0; uc_mcmd := uc_mcmd u0;
     uc_node_id := uc_node_id u0; uc_start := uc_start u0; uc_num := uc_num u0; uc_pieces := 0;
     uc_nmcmd := uc_nmcmd u0; uc_moffset := uc_moffset u0; uc_msec := uc_msec u0; uc_ncb := uc_ncb u0;
     uc_completed := 0; uc_minflight := uc_minflight u0 |}.

Definition zr_read_ucmd (u0 : xztl_io_ucmd) (node_id offset buf size : Z) : option xztl_io_ucmd :=
  nids ← aset (uc_node_id u0) 0 node_id;
  Some {| uc_id := XZTL_CMD_READ; uc_buf := buf; uc_size := size; uc_offset := offset;
          uc_prov_type := uc_prov_type u0; uc_app_md := uc_app_md u0; uc_status := 0; uc_mcmd := uc_mcmd u0;
          uc_node_id := nids; uc_start := uc_start u0; uc_num := uc_num u0; uc_pieces := uc_pieces u0;
          uc_nmcmd := uc_nmcmd u0; uc_moffset := uc_moffset u0; uc_msec := uc_msec u0; uc_ncb := 0;
          uc_completed := 0; uc_minflight := uc_minflight u0 |}.

(** One entry of [maps]: the three fields and the padding, in an existing word. *)
Definition zr_map (old node_id start num padding : Z) : Z :=
  zmap_set_padding (zmap_set_num (zmap_set_start (zmap_set_node_id old node_id) start) num) padding.

(** The loop that fills [maps], from [i] with [n] pieces left. *)
Fixpoint zr_maps_loop (u : xztl_io_ucmd) (pad : Z) (n : nat) (i : Z) (maps : list Z) : option (list Z) :=
  match n with
  | O => Some maps
  | S n' =>
      old ← maps.[i];
      nid ← (uc_node_id u).[i];
      start ← (uc_start u).[i];
      num ← (uc_num u).[i];
      maps' ← aset maps i (zr_map old nid start num (if i <? uc_pieces u - 1 then 0 else pad));
      zr_maps_loop u pad n' (i + 1) maps'
  end.

Section Zrocks.

Context {D : Type} `{!Xnvme D}.
Context (geo_nbytes geo_zn_grp dev_nsect meta : Z).
Implicit Types (s : iostate D).

(** The counters of a write and of a read. *)
Definition zr_count_write s (is_gc : bool) (size new_sz : Z) : option (iostate D) :=
  s1 ← stats_inc s (if is_gc then XZTL_STATS_APPEND_BYTES_GC else XZTL_STATS_APPEND_BYTES_U) size;
  s2 ← stats_inc s1 (if is_gc then XZTL_STATS_APPEND_GC_CMD else XZTL_STATS_APPEND_UCMD) 1;
  stats_inc s2 XZTL_STATS_APPEND_BYTES new_sz.

Definition zr_count_read s (is_gc : bool) (size : Z) : option (iostate D) :=
  s1 ← stats_inc s (if is_gc then XZTL_STATS_READ_BYTES_GC else XZTL_STATS_READ_BYTES_U) size;
  stats_inc s1 (if is_gc then XZTL_STATS_READ_GC_CMD else XZTL_STATS_READ_UCMD) 1.

(** [zrocks_write]: the result, the array [maps], [*pieces] and the state *)
Definition zrocks_write (fuel : nat) (u0 : xztl_io_ucmd) s (buf size level : Z) (maps : list Z) (is_gc : bool)
    : outcome (Z * list Z * Z * iostate D) :=
  '(_, s1) ← ztl_io_write_ucmd geo_nbytes geo_zn_grp dev_nsect meta fuel
               (io_set_u s (zr_write_ucmd u0 buf size level));
  let u := io_u s1 in
  maps' ← lift (zr_maps_loop u (zr_new_sz size - size) (Z.to_nat (uc_pieces u)) 0 maps);
  s2 ← lift (zr_count_write s1 is_gc size (zr_new_sz size));
  Ok (XZTL_OK, maps', uc_pieces u, s2).

(** The attempts from [READ_FAIL] on, with the value of [retry]. *)
Fixpoint zr_read_try (fuel : nat) (read_ctx_num : Z) (rs : list ztl_read_rs) s (retry : Z)
    : outcome (Z * list ztl_read_rs * iostate D) :=
  match fuel with
  | O => OutOfFuel
  | S fuel' =>
      '(ret, rs1, s1) ← ztl_io_read geo_zn_grp dev_nsect meta fuel read_ctx_num rs s;
      if ctrue ret || ctrue (uc_status (io_u s1)) then
        let retry := if uc_status (io_u s1) =? 22 then 0 else retry in
        if retry + 1 <? ZROCKS_READ_MAX_RETRY then zr_read_try fuel' read_ctx_num rs1 s1 (retry + 1)
        else Ok (XZTL_ZROCKS_READ_ERR, rs1, s1)
      else Ok (XZTL_OK, rs1, s1)
  end.

Definition zrocks_read (fuel : nat) (u0 : xztl_io_ucmd) (read_ctx_num : Z) (rs : list ztl_read_rs) s
    (node_id offset buf size : Z) (is_gc : bool) : outcome (Z * list ztl_read_rs * iostate D) :=
  u ← lift (zr_read_ucmd u0 node_id offset buf size);
  '(ret, rs1, s1) ← zr_read_try fuel read_ctx_num rs (io_set_u s u) 0;
  if ctrue ret then Ok (ret, rs1, s1) else
  s2 ← lift (zr_count_read s1 is_gc size);
  Ok (XZTL_OK, rs1, s2).

End Zrocks.

(** * Space *)

(** [zrocks_trim]: [submit_head] is the queue of the management thread. *)
Definition zrocks_trim (mp_ok : bool) (g : app_group) (submit_head : list mgmt_entry) (map : Z)
    : option (Z * app_group * list mgmt_entry) :=
  pro ← grp_pro g;
  let n := Z.to_nat (zmap_node_id map) in
  node ← pg_vnodes pro !! n;
  let node1 := pn_set_nr_valid node (u64 (pn_nr_valid node - zmap_num map)) in
  if (pn_nr_valid node1 =? 0) && (pn_status node1 =? XZTL_ZMD_NODE_FULL) then
    g1 ← upd_node g n (fun _ => pn_set_status node1 XZTL_ZMD_NODE_RESET);
    let '(ret, sub) := ztl_mgmt_submit_reset_finish mp_ok submit_head n ZTL_MGMG_RESET_ZONE in
    Some (ret, g1, sub)
  else
    g1 ← upd_node g n (fun _ => node1);
    Some (XZTL_OK, g1, submit_head).

Definition zrocks_node_finish (mp_ok : bool) (g : app_group) (submit_head : list mgmt_entry) (node_id : Z)
    : option (Z * list mgmt_entry) :=
  pro ← grp_pro g;
  _ ← (pg_vnodes pro).[node_id];
  Some (ztl_mgmt_submit_reset_finish mp_ok submit_head (Z.to_nat node_id) ZTL_MGMG_FULL_ZONE).

Definition zrocks_gc_get_nodes_num (g : app_group) : option Z := pro ← grp_pro g; Some (pg_nnodes pro).

Definition zrocks_gc_get_free_nodes_num (g : app_group) : option Z := pro ← grp_pro g; Some (pg_nfree pro).

(** The percentage of a full node's commands that are not valid any more. *)
Definition gc_percent (node : ztl_pro_node) : Z :=
  u32 (u64 (100 - u64 (100 * pn_nr_valid node) / ZTL_PRO_OPT_SEC_NUM_INNODE)).

(** [TAILQ_FOREACH(node, &node_grp->full_head, fentry)] *)
Fixpoint gc_full_loop (pro : ztl_pro_node_grp) (q : list nat) (invalid_percent : list Z) : option (list Z) :=
  match q with
  | [] => Some invalid_percent
  | n :: q' =>
      node ← pg_vnodes pro !! n;
      ip ← (if (1 <=? pn_level node) && (pn_status node =? XZTL_ZMD_NODE_FULL)
            then aset invalid_percent (pn_id node) (gc_percent node) else Some invalid_percent);
      gc_full_loop pro q' ip
  end.

Definition zrocks_gc_get_full_nodes (g : app_group) (invalid_percent : list Z) : option (list Z) :=
  pro ← grp_pro g;
  gc_full_loop pro (pg_full_head pro) invalid_percent.

(** [zrocks_node_set]; the arguments are [int32_t] *)
Definition zrocks_node_set (g : app_group) (qp : list ztl_queue) (node_id level num : Z) : option (app_group * list ztl_queue) :=
  ztl_io_nodeset g qp node_id level num.

(** [zrocks_new] only logs. *)
Definition zrocks_new (id size level : Z) : Z := XZTL_OK.
