(* ===== verification/ZrocksTheorems.v ===== *)
(** Properties of the ZRocks interface of src/xztl/zrocks/src/zrocks.c: what a
    write reports and stores, reads of the reported pieces, and the accounting of
    valid commands that decides when a node is reset. *)

From S2P Require Import Prelude Types Sim Stats ProGrp Media Zns Device Io IoPopulate IoFlight IoSubmit IoWrite IoRequest IoTheorems Read IoRead ReadTheorems IoCounters Mgmt Zrocks.

(** * The words of [struct zrocks_map] *)

(** The fields of a map entry, and a word that holds them. *)
Definition map_fields (w : Z) : Z * Z * Z * Z := (zmap_node_id w, zmap_start w, zmap_num w, zmap_padding w).

Lemma zr_map_fields old nid start num pad :
  0 <= nid < 2 ^ 14 -> 0 <= start < 2 ^ 22 -> 0 <= num < 2 ^ 11 -> 0 <= pad < 2 ^ 16 ->
  map_fields (zr_map old nid start num pad) = (nid, start, num, pad).
Proof.
  intros H1 H2 H3 H4.
  unfold map_fields, zr_map, zmap_set_padding, zmap_set_num, zmap_set_start, zmap_set_node_id,
    zmap_node_id, zmap_start, zmap_num, zmap_padding.
  repeat f_equal; repeat first [rewrite bf_get_set_eq by lia | rewrite bf_get_set_ne by lia]; by apply wrap_small.
Qed.

(** The loop stores one word per piece. *)
Lemma zr_maps_loop_ok u pad (n : nat) : forall i maps,
  0 <= i -> i + Z.of_nat n <= Z.of_nat (length maps) ->
  (forall j, i <= j < i + Z.of_nat n ->
     is_Some (uc_node_id u).[j] /\ is_Some (uc_start u).[j] /\ is_Some (uc_num u).[j]) ->
  exists maps', zr_maps_loop u pad n i maps = Some maps' /\ length maps' = length maps /\
    (forall j, ~ (i <= j < i + Z.of_nat n) -> maps'.[j] = maps.[j]) /\
    (forall j nid start num, i <= j < i + Z.of_nat n ->
       (uc_node_id u).[j] = Some nid -> (uc_start u).[j] = Some start -> (uc_num u).[j] = Some num ->
       exists old, maps.[j] = Some old /\
         maps'.[j] = Some (zr_map old nid start num (if j <? uc_pieces u - 1 then 0 else pad))).
Proof.
  induction n as [|n IH]; intros i maps Hi Hl Harr.
  - exists maps. split_and!; auto. intros; lia.
  - cbn [zr_maps_loop].
    destruct (Harr i ltac:(lia)) as ([nid Hnid] & [start Hstart] & [num Hnum]).
    destruct (proj2 (aget_is_Some maps i) ltac:(lia)) as [old Hold].
    rewrite Hold, Hnid, Hstart, Hnum. cbn [mbind option_bind].
    set (w := zr_map old nid start num _).
    destruct (aset_spec maps i w ltac:(lia)) as (m1 & -> & Hl1 & Hw & Hne). cbn [mbind option_bind].
    destruct (IH (i + 1) m1 ltac:(lia) ltac:(lia)) as (m2 & -> & Hl2 & Hout & Hin).
    { intros j Hj. apply Harr. lia. }
    exists m2. split_and!; [done|congruence| |].
    + intros j Hj. rewrite Hout by lia. apply Hne. lia.
    + intros j nid' start' num' Hj A1 A2 A3. destruct (decide (j = i)) as [->|Hji].
      * exists old. split; [done|]. rewrite Hout by lia. rewrite Hw. subst w. congruence.
      * destruct (Hin j nid' start' num' ltac:(lia) A1 A2 A3) as (old' & Ho & Hr).
        exists old'. split; [|done]. rewrite <- Ho. symmetry. by apply Hne.
Qed.

(** Rounding up to whole commands. *)
Lemma zr_new_sz_spec size :
  0 <= size -> size + 32768 < 2 ^ 64 ->
  exists k, zr_new_sz size = 32768 * k /\ 0 <= 32768 * k - size < 32768.
Proof.
  intros H0 H1. unfold zr_new_sz. cst. rewrite (wrap_small 32) by zdiv.
  exists ((size + 32767) / 32768). change (4096 * 8) with 32768. zcase; simpl.
  - zdiv.
  - rewrite wrap_small by zdiv. zdiv.
Qed.

(** * Writing *)

(** A request structure: the sizes of its arrays. *)
Definition ucmd_shape (u : xztl_io_ucmd) : Prop :=
  (length (uc_node_id u) = 2 /\ length (uc_start u) = 2 /\ length (uc_num u) = 2 /\
   length (uc_mcmd u) = 1024 /\ length (uc_msec u) = 1024 /\ length (uc_moffset u) = 1024 /\
   length (uc_minflight u) = 256)%nat.

(** Bytes of user data in a map entry. *)
Definition map_bytes (w : Z) : Z := 32768 * zmap_num w - zmap_padding w.

(** The entries describe the pieces: the last one with the padding. *)
Definition described (maps : list Z) (ps : list piece) (pad : Z) : Prop :=
  forall i n start num, ps !! i = Some (n, start, num) ->
    exists w, maps !! i = Some w /\
      map_fields w = (Z.of_nat n, start, num, if decide (S i = length ps) then pad else 0).

Lemma described_bytes maps ps pad :
  described maps ps pad -> ps <> [] ->
  zsum (map_bytes <$> take (length ps) maps) = 32768 * pieces_total ps - pad.
Proof.
  revert maps. induction ps as [|[[n st] num] ps IH]; intros maps Hd Hne; [done|].
  destruct (Hd 0%nat n st num eq_refl) as (w & Hw & Hf). unfold map_fields in Hf.
  destruct maps as [|w' maps]; [done|]. injection Hw as ->.
  change (pieces_total ((n, st, num) :: ps)) with (num + pieces_total ps).
  cbn [length take fmap list_fmap zsum]. unfold map_bytes at 1. destruct ps as [|p ps].
  - simpl in *. injection Hf as _ _ -> ->. unfold pieces_total. simpl. lia.
  - rewrite (IH maps); [|intros i n' st' num' Hi|done].
    + rewrite decide_False in Hf by (simpl; lia). injection Hf as _ _ -> ->. lia.
    + destruct (Hd (S i) n' st' num' Hi) as (w'' & Hw & Hf'). exists w''. split; [done|].
      rewrite Hf'. do 2 f_equal. simpl. repeat case_decide; lia.
Qed.

Section Write.

Context {D : Type} `{HX : !Xnvme D} `{HQ : !QueueLaws D} `{HZ : !ZnsLaws D}.
Context (geo_zn_grp dev_nsect meta : Z).
Implicit Types (s : iostate D) (pro : ztl_pro_node_grp).

Lemma stats_inc_total s t v :
  slen s = XZTL_STATS_IO_TYPES -> 0 <= t < 22 ->
  exists s', stats_inc s t v = Some s' /\ slen s' = XZTL_STATS_IO_TYPES /\
    s' = io_set_stats s (io_stats s').
Proof using.
  clear. intros Hl Ht. unfold stats_inc, xztl_stats_inc, slen in *.
  destruct (proj2 (aget_is_Some (st_io (io_stats s)) t)) as [x Hx].
  { rewrite Hl. unfold XZTL_STATS_IO_TYPES. lia. }
  rewrite Hx. cbn [mbind option_bind].
  rewrite aset_Some by (rewrite Hl; unfold XZTL_STATS_IO_TYPES; lia). cbn [mbind option_bind].
  eexists. split; [reflexivity|]. simpl. by rewrite length_insert.
Qed.

Lemma count_write_total s is_gc a b :
  slen s = XZTL_STATS_IO_TYPES ->
  exists st, zr_count_write s is_gc a b = Some (io_set_stats s st) /\ length (st_io st) = XZTL_STATS_IO_TYPES.
Proof using.
  intros Hl. unfold zr_count_write.
  destruct (stats_inc_total s (if is_gc then XZTL_STATS_APPEND_BYTES_GC else XZTL_STATS_APPEND_BYTES_U) a)
    as (s1 & -> & L1 & ->); [done|destruct is_gc; done|]. cbn [mbind option_bind].
  destruct (stats_inc_total (io_set_stats s (io_stats s1))
    (if is_gc then XZTL_STATS_APPEND_GC_CMD else XZTL_STATS_APPEND_UCMD) 1)
    as (s2 & -> & L2 & ->); [done|destruct is_gc; done|]. cbn [mbind option_bind].
  edestruct (stats_inc_total) as (s3 & -> & L3 & ->); [exact L2|by split|].
  by exists (io_stats s3).
Qed.

Lemma engine_stats s pro st : engine meta s pro -> engine meta (io_set_stats s st) pro.
Proof using.
  intros []. constructor; auto. destruct eg_arr as [(L1 & L2 & L3 & L4) B1 B2]. constructor; auto. by split_and!.
Qed.

Lemma engine_ucmd s pro u : engine meta s pro -> ucmd_shape u -> engine meta (io_set_u s u) pro.
Proof using.
  intros He (L1 & L2 & L3 & L4 & L5 & L6 & L7). destruct He. constructor; auto.
  destruct eg_arr as [(A1 & A2 & A3 & A4) B1 B2]. constructor; simpl; [|by rewrite L6|done].
  split_and!; simpl; auto; try (cst; lia).
Qed.

(** Commands a write of [size] bytes takes. *)
Definition write_cmds (size : Z) : Z := (size + 32767) / 32768.

(** A call of [zrocks_write] on a healthy device with room for it. *)
Record write_call s pro (u0 : xztl_io_ucmd) (buf size : Z) (maps : list Z) : Prop := {
  wc_dev : device_fits (D := D);
  wc_engine : engine meta s pro;
  wc_shape : ucmd_shape u0;
  wc_stats : slen s = XZTL_STATS_IO_TYPES;
  wc_size : 0 < size <= 32768 * ZTL_IO_RC_NUM;
  wc_room : room_for s pro (write_cmds size);
  wc_buf : 0 <= buf /\ buf + 32768 * write_cmds size < 2 ^ 64;
  wc_nodes : Z.of_nat (length (pg_vnodes pro)) <= 2 ^ 14;
  wc_maps : (2 <= length maps)%nat
}.

(** What the call leaves: the pieces [ps] in [maps], the bytes on the nodes. *)
Record written s pro (buf size : Z) (maps' : list Z) (ps : list piece) s' pro' : Prop := {
  wn_described : described maps' ps (32768 * write_cmds size - size);
  wn_pieces : (1 <= length ps <= 2)%nat;
  wn_total : pieces_total ps = write_cmds size;
  wn_stored : stored (z_data (io_dev s')) pro' ps (io_mem s) buf;
  wn_other : forall sec off, ~ in_pieces pro' ps sec ->
    z_data (io_dev s') sec off = z_data (io_dev s) sec off;
  wn_appended : appended pro ps;
  wn_zones : same_zones pro pro';
  wn_grown : grown 1 pro pro' ps;
  wn_engine : engine meta s' pro';
  wn_stats : slen s' = XZTL_STATS_IO_TYPES;
  wn_mem : io_mem s' = io_mem s;
  wn_done : uc_status (io_u s') = 0 /\ uc_completed (io_u s') = 1
}.

Lemma new_sz_cmds size : 0 <= size -> size + 32768 < 2 ^ 64 -> zr_new_sz size = 32768 * write_cmds size.
Proof using.
  intros H0 H1. destruct (zr_new_sz_spec size H0 H1) as (k & -> & Hk). unfold write_cmds. zdiv.
Qed.

(** The pieces' words, from what the request reports. *)
Lemma maps_described s pro u ps maps pad :
  engine meta s pro -> appended pro ps -> Z.of_nat (length (pg_vnodes pro)) <= 2 ^ 14 ->
  reported u ps -> Forall (fun p : piece => snd p <= ZTL_IO_RC_NUM) ps ->
  (length ps <= length maps)%nat -> 0 <= pad < 32768 ->
  exists maps', zr_maps_loop u pad (Z.to_nat (uc_pieces u)) 0 maps = Some maps' /\ described maps' ps pad.
Proof using.
  intros He Hap Hn [Hp Hrep] Hk Hl Hpad. rewrite Hp, Nat2Z.id.
  destruct (zr_maps_loop_ok u pad (length ps) 0 maps) as (m' & -> & _ & _ & Hin); [lia|lia| |].
  { intros j Hj. destruct (lookup_lt_is_Some_2 ps (Z.to_nat j)) as [[[n st] num] Hi]; [lia|].
    destruct (Hrep _ _ _ _ Hi) as (A1 & A2 & A3). rewrite Z2Nat.id in A1, A2, A3 by lia.
    split_and!; eauto. }
  exists m'. split; [done|]. intros i n st num Hi. destruct (Hrep _ _ _ _ Hi) as (A1 & A2 & A3).
  pose proof (lookup_lt_Some _ _ _ Hi) as Hlt. unfold piece in *.
  destruct (Hin (Z.of_nat i) _ _ _ ltac:(lia) A1 A2 A3) as (old & _ & Hw). rewrite aget_nat in Hw.
  eexists. split; [exact Hw|]. unfold appended in Hap. rewrite Forall_lookup in Hap, Hk.
  destruct (Hap i _ Hi) as (_ & node & Hnode & _ & H1 & H2 & H3). specialize (Hk i _ Hi). simpl in Hk.
  apply lookup_lt_Some in Hnode. rewrite zr_map_fields; [|cst; lia..|].
  - rewrite Hp. f_equal. destruct (decide (S i = length ps)); zcase; lia.
  - destruct (_ <? _); lia.
Qed.

Lemma pieces_le ps k : Forall (fun '(_, _, num) => 0 <= num) (ps : list piece) -> pieces_total ps = k ->
  Forall (fun p : piece => snd p <= k) ps.
Proof using.
  clear. unfold pieces_total, piece. intros Hp Hk. apply Forall_lookup. intros i [[n st] num] Hi. simpl.
  rewrite <- Hk. clear Hk. revert i Hi.
  induction Hp as [|[[n0 st0] nm0] ps H0 Hp IH]; [done|]. intros [|i] Hi; simpl.
  - injection Hi as -> -> ->. enough (0 <= zsum (snd <$> ps)) by (unfold fmap in *; lia).
    apply zsum_nonneg. rewrite Forall_fmap. eapply Forall_impl; [exact Hp|]. by intros [[? ?] ?].
  - specialize (IH i Hi). unfold fmap in *. lia.
Qed.

Lemma zrocks_write_ok s pro u0 buf size level maps is_gc :
  write_call s pro u0 buf size maps ->
  exists N s' pro' maps' ps,
    (forall fuel, (N <= fuel)%nat ->
       zrocks_write ZNS_ALIGMENT geo_zn_grp dev_nsect meta fuel u0 s buf size level maps is_gc =
       Ok (XZTL_OK, maps', Z.of_nat (length ps), s')) /\
    written s pro buf size maps' ps s' pro'.
Proof using.
  intros [Hdev He Hsh Hst Hsz Hroom [Hb Hb'] Hn Hm]. set (k := write_cmds size) in *.
  assert (Hk : 0 < k <= ZTL_IO_RC_NUM) by (subst k; unfold write_cmds; cst; zdiv).
  assert (Hnew : zr_new_sz size = 32768 * k) by (apply new_sz_cmds; cst; lia).
  assert (Hpad : 0 <= 32768 * k - size < 32768) by (subst k; unfold write_cmds; zdiv).
  set (s0 := io_set_u s (zr_write_ucmd u0 buf size level)).
  destruct (write_ucmd_ok geo_zn_grp dev_nsect meta s0 pro k)
    as (N & s1 & pro' & ps & Hrun & [We Wm Wst Wr Wt Ws Wo] & Hc & Hlen & Hap & Hzs & Hgr); auto.
  { by apply engine_ucmd. }
  { destruct Hsh as (L1 & L2 & L3 & _). by constructor. }
  assert (Hnums : Forall (fun p : piece => snd p <= ZTL_IO_RC_NUM) ps).
  { eapply Forall_impl; [apply (pieces_le ps k); [|done]|simpl; intros; lia].
    eapply Forall_impl; [exact Hap|]. intros [[? ?] ?] (_ & ? & ? & ? & ? & ? & ?). done. }
  destruct (maps_described s pro (io_u s1) ps maps (32768 * k - size)) as (maps' & Hmaps & Hd); auto; [lia|].
  assert (Hs1 : slen s1 = XZTL_STATS_IO_TYPES).
  { rewrite (write_ucmd_slen _ _ _ _ N s0 XZTL_OK s1) by (by apply Hrun). exact Hst. }
  destruct (count_write_total s1 is_gc size (32768 * k) Hs1) as (st & Hcnt & Hst').
  exists N, (io_set_stats s1 st), pro', maps', ps. split.
  - intros fuel Hf. unfold zrocks_write. fold s0. rewrite Hrun by done. cbn [mbind outcome_bind].
    rewrite Hnew, Hmaps. cbn [lift mbind outcome_bind]. rewrite Hcnt. cbn [lift mbind outcome_bind].
    by rewrite (proj1 Wr).
  - constructor; auto. by apply engine_stats.
Qed.

End Write.

(** * Reading *)

Section ReadBack.

Context {D : Type} `{HX : !Xnvme D} `{HQ : !QueueLaws D} `{HZ : !ZnsLaws D}.
Context (geo_zn_grp dev_nsect meta : Z).
Implicit Types (s r : iostate D) (pro : ztl_pro_node_grp).

Lemma count_read_total s is_gc a :
  slen s = XZTL_STATS_IO_TYPES ->
  exists st, zr_count_read s is_gc a = Some (io_set_stats s st) /\ length (st_io st) = XZTL_STATS_IO_TYPES.
Proof using.
  intros Hl. unfold zr_count_read.
  destruct (stats_inc_total s (if is_gc then XZTL_STATS_READ_BYTES_GC else XZTL_STATS_READ_BYTES_U) a)
    as (s1 & -> & L1 & ->); [done|destruct is_gc; done|]. cbn [mbind option_bind].
  destruct (stats_inc_total (io_set_stats s (io_stats s1))
    (if is_gc then XZTL_STATS_READ_GC_CMD else XZTL_STATS_READ_UCMD) 1)
    as (s2 & -> & L2 & ->); [done|destruct is_gc; done|].
  by exists (io_stats s2).
Qed.

(** A pool whose first unused resource can serve [len] bytes into [buf]. *)
Definition pool_serves (rs : list ztl_read_rs) (num : nat) (buf len : Z) : Prop :=
  (num <= length rs)%nat /\
  exists i rr, (i < num)%nat /\ rs !! i = Some rr /\ rr_used rr = false /\
    (forall j q, (j < i)%nat -> rs !! j = Some q -> rr_used q = true) /\
    length (rr_prp rr) = 1024%nat /\ length (rr_mcmd rr) = 1024%nat /\ bounce_ok (rr_prp rr) buf len.

(** A call of [zrocks_read] that the reader [r] can serve. *)
Record read_call r (u0 : xztl_io_ucmd) (rs : list ztl_read_rs) (num : nat) (off buf len : Z) : Prop := {
  rc_shape : ucmd_shape u0;
  rc_stats : slen r = XZTL_STATS_IO_TYPES;
  rc_pool : pool_serves rs num buf len;
  rc_cmds : ncmds off len <= Z.min ZTL_IO_RC_NUM (Z.of_nat z_depth)
}.

(** The pool after a read: the same resources, free again. *)
Definition pool_kept (rs rs' : list ztl_read_rs) : Prop :=
  Forall2 (fun a b => rr_used b = rr_used a /\ rr_prp b = rr_prp a /\
             length (rr_mcmd b) = length (rr_mcmd a)) rs rs'.

Lemma pool_kept_insert rs i rr rr' :
  rs !! i = Some rr -> rr_used rr' = rr_used rr -> rr_prp rr' = rr_prp rr ->
  length (rr_mcmd rr') = length (rr_mcmd rr) -> pool_kept rs (<[i := rr']> rs).
Proof using.
  clear. intros Hi H1 H2 H3. apply Forall2_same_length_lookup_2; [by rewrite length_insert|].
  intros j a b Ha. destruct (decide (j = i)) as [->|Hj].
  - rewrite list_lookup_insert_eq by (by eapply lookup_lt_Some). intros [= <-]. by simplify_eq.
  - rewrite list_lookup_insert_ne by done. intros Hb. by simplify_eq.
Qed.

Lemma pool_kept_used rs rs' : pool_kept rs rs' -> rr_used <$> rs' = rr_used <$> rs.
Proof using. clear. induction 1 as [|a b rs rs' (Hu & _) H IH]; [done|]. cbn [fmap list_fmap]. by rewrite Hu, IH. Qed.

(** A reader changes neither the group nor what is on the device. *)
Record read_only r r' : Prop := {
  ro_g : io_g r' = io_g r;
  ro_data : z_data (io_dev r') = z_data (io_dev r);
  ro_wp : z_wp (io_dev r') = z_wp (io_dev r);
  ro_idle : q_pending (io_dev r') = [];
  ro_stats : slen r' = slen r
}.

Lemma zrocks_read_ok s pro node r u0 rs num n off buf len is_gc :
  engine meta s pro -> io_g r = io_g s -> io_dev r = io_dev s ->
  pg_vnodes pro !! n = Some node -> node_fits pro node ->
  (forall z, 0 <= z < 64 -> is_Some (slot_zone pro node z)) ->
  0 <= off -> 0 < len -> off + len <= 32768 * ZTL_PRO_OPT_SEC_NUM_INNODE ->
  read_call r u0 rs num off buf len ->
  exists N rs' r', (forall fuel, (N <= fuel)%nat ->
      zrocks_read geo_zn_grp dev_nsect meta fuel u0 (Z.of_nat num) rs r (Z.of_nat n) off buf len is_gc =
      Ok (XZTL_OK, rs', r')) /\
    pool_kept rs rs' /\ read_only r r' /\
    forall t, 0 <= t < len -> io_mem r' (buf + t) = node_byte (z_data (io_dev s)) pro node (off + t).
Proof using.
  intros He Hg Hd Hn Hf Hsl Ho Hlen Hend [Hsh Hst (Hnum & i & rr & Hi & Hrr & Hu & Hb & Hp & Hc & Hbo) Hnc].
  destruct Hsh as (L1 & L2 & L3 & L4 & _).
  destruct (aset_spec (uc_node_id u0) 0 (Z.of_nat n)) as (nids & Ha & _ & Hnid & _); [lia|].
  set (u := default u0 (zr_read_ucmd u0 (Z.of_nat n) off buf len)).
  assert (Hu0 : zr_read_ucmd u0 (Z.of_nat n) off buf len = Some u).
  { subst u. unfold zr_read_ucmd. by rewrite Ha. }
  pose proof Hu0 as Hu1. unfold zr_read_ucmd in Hu1. rewrite Ha in Hu1. injection Hu1 as Hu1.
  assert (Hreq : read_request (rr_prp rr) pro node (io_set_cmds (io_set_u r u) (rr_mcmd rr))).
  { eapply (reads_request meta s pro node _ _ n off len); auto.
    rewrite <- Hu1. constructor; auto. }
  destruct (ztl_io_read_ok geo_zn_grp dev_nsect meta pro node (io_set_u r u) rs num i rr)
    as (N & s1 & Hrun & Hres & Hru); auto.
  assert (Hs1 : slen s1 = XZTL_STATS_IO_TYPES).
  { rewrite (io_read_slen _ _ _ N (Z.of_nat num) rs (io_set_u r u) _ _ _ (Hrun N ltac:(lia))). exact Hst. }
  destruct (count_read_total s1 is_gc len Hs1) as (st & Hcnt & Hlst).
  exists (S N), (<[i := {| rr_used := false; rr_mcmd := io_cmds s1; rr_prp := rr_prp rr |}]> rs),
    (io_set_stats s1 st). split_and!.
  - intros [|fuel] Hfu; [lia|]. unfold zrocks_read. rewrite Hu0. cbn [lift mbind outcome_bind zr_read_try].
    rewrite (Hrun (S fuel)) by lia. cbn [mbind outcome_bind].
    rewrite (rr_status _ _ _ _ _ Hres). replace (uc_status (io_u (io_set_cmds (io_set_u r u) (rr_mcmd rr)))) with 0
      by (rewrite <- Hu1; done). cbn [ctrue orb negb Z.eqb mbind outcome_bind]. simpl.
    rewrite Hcnt. done.
  - eapply pool_kept_insert; [exact Hrr|done..|]. simpl.
    specialize (Hru N ltac:(lia)). apply read_ucmd_sizes in Hru. unfold sizes in Hru. simpl in Hru. congruence.
  - destruct Hres. constructor; try done; [by rewrite rr_g..|]. by rewrite Hst.
  - intros t Ht. pose proof (rr_bytes _ _ _ _ _ Hres t) as Hby. simpl in Hby. rewrite Hd in Hby.
    rewrite <- Hu1 in Hby. simpl in *. by apply Hby.
Qed.

End ReadBack.

(** * Trimming *)

(** The group with one node changed. *)
Lemma upd_node_at g n f node :
  node_at g n = Some node ->
  exists g', upd_node g n f = Some g' /\ node_at g' n = Some (f node) /\
    forall m, m <> n -> node_at g' m = node_at g m.
Proof.
  unfold node_at, upd_node. destruct (grp_pro g) as [pro|] eqn:Hp; [|done]. simpl. intros Hn. rewrite Hn.
  eexists. split; [reflexivity|]. simpl. split.
  - apply list_lookup_insert_eq. by eapply lookup_lt_Some.
  - intros m Hm. by apply list_lookup_insert_ne.
Qed.

(** The node after [num] of its commands were trimmed. *)
Definition trimmed (node : ztl_pro_node) (num : Z) : ztl_pro_node :=
  let node1 := pn_set_nr_valid node (pn_nr_valid node - num) in
  if (pn_nr_valid node - num =? 0) && (pn_status node =? XZTL_ZMD_NODE_FULL)
  then pn_set_status node1 XZTL_ZMD_NODE_RESET else node1.

Definition trim_queues (node : ztl_pro_node) (num : Z) (n : nat) : list mgmt_entry :=
  if (pn_nr_valid node - num =? 0) && (pn_status node =? XZTL_ZMD_NODE_FULL)
  then [{| me_node := n; me_op_code := ZTL_MGMG_RESET_ZONE |}] else [].

Lemma zrocks_trim_step g sub w node :
  let n := Z.to_nat (zmap_node_id w) in
  node_at g n = Some node -> zmap_num w <= pn_nr_valid node < 2 ^ 64 ->
  exists g', zrocks_trim true g sub w = Some (XZTL_OK, g', sub ++ trim_queues node (zmap_num w) n) /\
    node_at g' n = Some (trimmed node (zmap_num w)) /\ forall m, m <> n -> node_at g' m = node_at g m.
Proof.
  intros n Hn Hv. assert (0 <= zmap_num w) by (apply bf_get_range; lia).
  unfold zrocks_trim, trim_queues, trimmed. fold n. pose proof Hn as Hn'. unfold node_at in Hn'.
  destruct (grp_pro g) as [pro|] eqn:Hp; [|done]. cbn [mbind option_bind] in *. rewrite Hn'. cbn [mbind option_bind].
  rewrite (wrap_small 64) by lia. cbn [pn_nr_valid pn_status pn_set_nr_valid].
  destruct (_ && _).
  - destruct (upd_node_at g n (fun _ => pn_set_status (pn_set_nr_valid node (pn_nr_valid node - zmap_num w))
      XZTL_ZMD_NODE_RESET) node Hn) as (g' & -> & H1 & H2). by exists g'.
  - destruct (upd_node_at g n (fun _ => pn_set_nr_valid node (pn_nr_valid node - zmap_num w)) node Hn)
      as (g' & -> & H1 & H2). exists g'. by rewrite app_nil_r.
Qed.

(** Trimming a list of map entries, one call each. *)
Fixpoint trim_all (g : app_group) (sub : list mgmt_entry) (ws : list Z) : option (app_group * list mgmt_entry) :=
  match ws with
  | [] => Some (g, sub)
  | w :: ws' => '(_, g1, sub1) ← zrocks_trim true g sub w; trim_all g1 sub1 ws'
  end.

Definition trim_total (ws : list Z) : Z := zsum (zmap_num <$> ws).

Lemma trim_total_nonneg ws : 0 <= trim_total ws.
Proof.
  apply zsum_nonneg, Forall_fmap, Forall_forall. intros w _. simpl. apply bf_get_range. lia.
Qed.

(** While commands stay valid, nothing but the count changes. *)
Lemma trim_all_below n ws : forall g sub node,
  Forall (fun w => zmap_node_id w = Z.of_nat n) ws -> node_at g n = Some node ->
  trim_total ws < pn_nr_valid node < 2 ^ 64 ->
  exists g', trim_all g sub ws = Some (g', sub) /\
    node_at g' n = Some (pn_set_nr_valid node (pn_nr_valid node - trim_total ws)) /\
    forall m, m <> n -> node_at g' m = node_at g m.
Proof.
  induction ws as [|w ws IH]; intros g sub node Hw Hn Hv.
  - exists g. split_and!; auto. rewrite Hn. f_equal. destruct node; unfold trim_total; simpl.
    unfold pn_set_nr_valid. simpl. f_equal. lia.
  - apply Forall_cons in Hw as [Hw Hws]. pose proof (trim_total_nonneg ws) as H0.
    assert (0 <= zmap_num w) by (apply bf_get_range; lia).
    change (trim_total (w :: ws)) with (zmap_num w + trim_total ws) in *.
    assert (Hn' : node_at g (Z.to_nat (zmap_node_id w)) = Some node) by (by rewrite Hw, Nat2Z.id).
    destruct (zrocks_trim_step g sub w node Hn') as (g1 & Hrun & H1 & H2); [lia|].
    rewrite Hw, Nat2Z.id in *. unfold trim_queues, trimmed in *.
    replace (pn_nr_valid node - zmap_num w =? 0) with false in * by lia. simpl in *. rewrite app_nil_r in Hrun.
    destruct (IH g1 sub _ Hws H1) as (g' & Hall & H3 & H4); [simpl; lia|].
    exists g'. rewrite Hrun. cbn [mbind option_bind]. split_and!; [done| |].
    + rewrite H3. simpl. unfold pn_set_nr_valid; simpl. do 2 f_equal. lia.
    + intros m Hm. by rewrite H4, H2.
Qed.

(** * Garbage collection *)

Lemma gc_percent_eq node :
  0 <= pn_nr_valid node <= ZTL_PRO_OPT_SEC_NUM_INNODE ->
  gc_percent node = 100 - 100 * pn_nr_valid node / ZTL_PRO_OPT_SEC_NUM_INNODE.
Proof.
  intros Hv. unfold gc_percent. cst. rewrite (wrap_small 64 (100 * _)) by lia.
  rewrite (wrap_small 64) by zdiv. apply wrap_small. zdiv.
Qed.

Lemma gc_full_loop_ok pro q : forall ip,
  NoDup q -> (forall n node, pg_vnodes pro !! n = Some node -> pn_id node = Z.of_nat n) ->
  (forall n, n ∈ q -> exists node, pg_vnodes pro !! n = Some node /\
     0 <= pn_nr_valid node <= ZTL_PRO_OPT_SEC_NUM_INNODE) ->
  (length (pg_vnodes pro) <= length ip)%nat ->
  exists ip', gc_full_loop pro q ip = Some ip' /\ length ip' = length ip /\
    forall n old, ip !! n = Some old ->
      (forall node, n ∈ q -> pg_vnodes pro !! n = Some node ->
         ip' !! n = Some (if (1 <=? pn_level node) && (pn_status node =? XZTL_ZMD_NODE_FULL)
                          then gc_percent node else old)) /\
      (n ∉ q -> ip' !! n = Some old).
Proof.
  induction q as [|m q IH]; intros ip Hnd Hid Hq Hl.
  - exists ip. split_and!; auto. intros n old Hold. split; [intros node Hin; by apply not_elem_of_nil in Hin|done].
  - apply NoDup_cons in Hnd as [Hm Hnd]. destruct (Hq m) as (node & Hn & Hv); [by left|].
    pose proof (lookup_lt_Some _ _ _ Hn) as Hlt.
    set (b := (1 <=? pn_level node) && (pn_status node =? XZTL_ZMD_NODE_FULL)) in *.
    set (ip1 := if b then <[m := gc_percent node]> ip else ip).
    assert (Hstep : (if b then aset ip (pn_id node) (gc_percent node) else Some ip) = Some ip1).
    { subst ip1. destruct b; [|done]. rewrite (Hid m node Hn), aset_Some by lia. by rewrite Nat2Z.id. }
    assert (Hl1 : length ip1 = length ip) by (subst ip1; destruct b; rewrite ?length_insert; done).
    destruct (IH ip1 Hnd Hid) as (ip' & Hrun & Hl' & Hall); [intros; apply Hq; by right|lia|].
    exists ip'. cbn [gc_full_loop]. rewrite Hn. cbn [mbind option_bind]. fold b. rewrite Hstep. cbn [mbind option_bind].
    split_and!; [done|lia|]. intros n old Hold. destruct (decide (n = m)) as [->|Hne].
    + assert (Hip1 : ip1 !! m = Some (if b then gc_percent node else old)).
      { subst ip1. destruct b; [apply list_lookup_insert_eq; lia|done]. }
      destruct (Hall m _ Hip1) as [_ Hout]. split; [|intros Hin; destruct Hin; by left].
      intros nd _ Hnd'. assert (nd = node) as -> by congruence. by apply Hout.
    + assert (Hip1 : ip1 !! n = Some old) by (subst ip1; destruct b; [by rewrite list_lookup_insert_ne|done]).
      destruct (Hall n old Hip1) as [Hin Hout]. split.
      * intros nd [->|Hq']%elem_of_cons; [done|]. by apply Hin.
      * intros Hq'. apply Hout. intros ?. apply Hq'. by right.
Qed.

(** * Properties *)

(** C22. Writing through the ZRocks interface.  On a healthy device with room,
    a write of 1 byte to 32 MiB at any level ends for every sufficient fuel with
    [XZTL_OK]: [maps] holds one or two entries whose fields decode to the pieces
    written, their bytes less the padding of the last one are exactly the
    requested size, the pieces hold the caller's buffer in order, no other
    sector changes and the engine stays consistent. *)
Theorem zrocks_write_correct {D : Type} `{HX : !Xnvme D} `{HQ : !QueueLaws D} `{HZ : !ZnsLaws D}
    geo_zn_grp dev_nsect meta (s : iostate D) pro u0 buf size level maps is_gc :
  write_call meta s pro u0 buf size maps ->
  exists N s' pro' maps' ps,
    (forall fuel, (N <= fuel)%nat ->
       zrocks_write ZNS_ALIGMENT geo_zn_grp dev_nsect meta fuel u0 s buf size level maps is_gc =
       Ok (XZTL_OK, maps', Z.of_nat (length ps), s')) /\
    (1 <= length ps <= 2)%nat /\ described maps' ps (32768 * write_cmds size - size) /\
    zsum (map_bytes <$> take (length ps) maps') = size /\
    appended pro ps /\ stored (z_data (io_dev s')) pro' ps (io_mem s) buf /\
    (forall sec off, ~ in_pieces pro' ps sec -> z_data (io_dev s') sec off = z_data (io_dev s) sec off) /\
    engine meta s' pro'.
Proof.
  intros Hc. destruct (zrocks_write_ok geo_zn_grp dev_nsect meta s pro u0 buf size level maps is_gc Hc)
    as (N & s' & pro' & maps' & ps & Hrun & [Wd Wp Wt Ws Wo Wa Wz Wg We Wst Wm Wdn]).
  exists N, s', pro', maps', ps. split_and!; auto; try lia.
  rewrite (described_bytes _ _ _ Wd), Wt; [lia|]. intros ->. simpl in *. lia.
Qed.

(** A request structure. *)
Definition sim_u0 : xztl_io_ucmd := sim_ucmd 7 9.

Lemma sim_u0_shape : ucmd_shape sim_u0.
Proof. repeat split; apply length_replicate. Qed.

Lemma sim_write_call (nodes : nat) buf size :
  (1 <= nodes < 1000)%nat -> 0 < size <= 33554432 -> 0 <= buf < 2 ^ 40 ->
  write_call 2 (sim_io nodes sim_u0) (sim_pro nodes) sim_u0 buf size [0; 0].
Proof.
  intros Hn Hs Hb. constructor; auto.
  - exact sim_fits.
  - apply sim_engine; [lia|apply length_replicate..].
  - apply sim_u0_shape.
  - right. simpl. destruct nodes; [lia|done].
  - unfold write_cmds. split; [lia|]. zdiv.
  - simpl. rewrite length_fmap, length_seq. lia.
Qed.

Lemma zrocks_write_correct_witness :
  exists N s' maps' (ps : list piece),
    (forall fuel, (N <= fuel)%nat ->
       zrocks_write 4096 130 32768 2 fuel sim_u0 (sim_io 2 sim_u0) 65536 100001 9 [0; 0] false =
       Ok (XZTL_OK, maps', Z.of_nat (length ps), s')) /\
    zsum (map_bytes <$> take (length ps) maps') = 100001.
Proof.
  destruct (zrocks_write_correct 130 32768 2 (sim_io 2 sim_u0) (sim_pro 2) sim_u0 65536 100001 9 [0; 0] false)
    as (N & s' & pro' & maps' & ps & Hrun & _ & _ & Hsum & _).
  - apply sim_write_call; lia.
  - exists N, s', maps', ps. split; [exact Hrun|exact Hsum].
Defined.


(** A reader in another thread: one free read resource. *)
Definition sim_reader_of (s : iostate simdev) : iostate simdev :=
  io_set_dev (io_set_g (sim_io 2 sim_u0) (io_g s)) (io_dev s).

Lemma sim_read_call s off : 0 <= off -> read_call (sim_reader_of s) sim_u0 (sim_rs false) 1 off 1048576 1.
Proof.
  intros Ho. constructor.
  - apply sim_u0_shape.
  - reflexivity.
  - split; [simpl; lia|]. eexists 0%nat, _. split_and!; [lia|reflexivity|reflexivity|lia| |apply length_replicate|].
    + change (length sim_prp = 1024%nat). unfold sim_prp. by rewrite length_fmap, length_seq.
    + by apply sim_bounce.
  - unfold ncmds, sec_end, unit0, sec0. change (Z.of_nat z_depth) with 1024. cst. zdiv.
Qed.


(** Out of space through the ZRocks interface.  With no node left the engine
    fails the request, but [zrocks_write] still returns [XZTL_OK]: the only sign
    is that no piece is reported; [maps] is untouched, nothing reaches the
    device and yet the bytes are counted as appended. *)
Theorem zrocks_write_full {D : Type} `{HX : !Xnvme D} `{HQ : !QueueLaws D} `{HZ : !ZnsLaws D}
    geo_zn_grp dev_nsect meta (s : iostate D) pro u0 buf size level maps is_gc (fuel : nat) :
  engine meta s pro -> ucmd_shape u0 -> slen s = XZTL_STATS_IO_TYPES -> pg_free_head pro = [] ->
  (forall n node, io_node s = Some n -> pg_vnodes pro !! n = Some node -> pn_left node = 0) ->
  0 < size <= 32768 * ZTL_IO_RC_NUM ->
  exists s' pro',
    zrocks_write ZNS_ALIGMENT geo_zn_grp dev_nsect meta (S fuel) u0 s buf size level maps is_gc =
      Ok (XZTL_OK, maps, 0, s') /\
    uc_status (io_u s') = XZTL_ZTL_IO_S_ERR /\ io_dev s' = io_dev s /\ engine meta s' pro'.
Proof.
  intros He Hsh Hst Hnil Hex Hsz. set (s0 := io_set_u s (zr_write_ucmd u0 buf size level)).
  assert (Hk : 0 < write_cmds size <= ZTL_IO_RC_NUM) by (unfold write_cmds; cst; zdiv).
  assert (Hnew : zr_new_sz size = 32768 * write_cmds size) by (apply new_sz_cmds; cst; lia).
  destruct (write_ucmd_no_node geo_zn_grp dev_nsect meta s0 pro (write_cmds size) fuel)
    as (s1 & pro' & Hrun & He1 & Hd & _ & Hs1 & _ & Hp & _); auto.
  { by apply engine_ucmd. }
  destruct (count_write_total s1 is_gc size (zr_new_sz size)) as (st & Hcnt & _).
  { by rewrite (write_ucmd_slen _ _ _ _ _ s0 _ s1 Hrun). }
  exists (io_set_stats s1 st), pro'. split_and!; auto.
  - unfold zrocks_write. fold s0. rewrite Hrun. cbn [mbind outcome_bind]. rewrite Hp.
    cbn [zr_maps_loop Z.to_nat uc_pieces io_u io_set_u s0 zr_write_ucmd lift mbind outcome_bind].
    by rewrite Hcnt.
  - by apply engine_stats.
Qed.

Lemma zrocks_write_full_witness :
  exists s', zrocks_write 4096 130 32768 2 1 sim_u0 (sim_io 0 sim_u0) 65536 100001 3 [5; 6] true =
    Ok (XZTL_OK, [5; 6], 0, s') /\ uc_status (io_u s') = 24.
Proof.
  destruct (zrocks_write_full 130 32768 2 (sim_io 0 sim_u0) (sim_pro 0) sim_u0 65536 100001 3 [5; 6] true 0)
    as (s' & pro' & Hrun & Hst & _).
  - apply sim_engine; [done|apply length_replicate..].
  - apply sim_u0_shape.
  - reflexivity.
  - reflexivity.
  - intros n node [=].
  - vm_compute. split; [reflexivity|discriminate].
  - exists s'. split; [exact Hrun|exact Hst].
Defined.

(** C24. Reclaiming a node.  Let the map entries [ws] be all the valid commands of
    a full node.  Trimming them one by one queues nothing and leaves the node
    full as long as an entry with a command is left, and the last trim queues exactly
    one reset request for the node and marks it; no other node changes. *)
Theorem zrocks_trim_reclaims g sub n node ws w :
  node_at g n = Some node -> pn_status node = XZTL_ZMD_NODE_FULL ->
  Forall (fun w => zmap_node_id w = Z.of_nat n) (ws ++ [w]) -> 0 < zmap_num w ->
  pn_nr_valid node = trim_total (ws ++ [w]) -> pn_nr_valid node < 2 ^ 64 ->
  exists g1 g2,
    trim_all g sub ws = Some (g1, sub) /\
    node_at g1 n = Some (pn_set_nr_valid node (zmap_num w)) /\
    zrocks_trim true g1 sub w =
      Some (XZTL_OK, g2, sub ++ [{| me_node := n; me_op_code := ZTL_MGMG_RESET_ZONE |}]) /\
    node_at g2 n = Some (pn_set_status (pn_set_nr_valid node 0) XZTL_ZMD_NODE_RESET) /\
    forall m, m <> n -> node_at g2 m = node_at g m.
Proof.
  intros Hn Hfull [Hws Hw]%Forall_app Hpos Hv Hlt. apply Forall_inv in Hw.
  assert (Htot : pn_nr_valid node = trim_total ws + zmap_num w).
  { rewrite Hv. unfold trim_total. rewrite fmap_app, zsum_app. simpl. lia. }
  destruct (trim_all_below n ws g sub node Hws Hn) as (g1 & Hall & H1 & H2); [lia|].
  replace (pn_nr_valid node - trim_total ws) with (zmap_num w) in H1 by lia.
  assert (H1' : node_at g1 (Z.to_nat (zmap_node_id w)) = Some (pn_set_nr_valid node (zmap_num w)))
    by (by rewrite Hw, Nat2Z.id).
  pose proof (trim_total_nonneg ws).
  destruct (zrocks_trim_step g1 sub w _ H1') as (g2 & Hrun & H3 & H4); [simpl; lia|].
  rewrite Hw, Nat2Z.id in *. unfold trim_queues, trimmed in *.
  cbn [pn_nr_valid pn_status pn_set_nr_valid] in *. rewrite Hfull, Z.sub_diag in *.
  exists g1, g2. split_and!; auto. intros m Hm. by rewrite H4, H2.
Qed.

(** A group of one full node of which [valid] commands are valid. *)
Definition sim_full_node (valid : Z) : ztl_pro_node :=
  {| pn_id := 0; pn_vzones := pn_vzones (sim_node 0); pn_left := 0; pn_used := ZTL_PRO_OPT_SEC_NUM_INNODE;
     pn_nr_finish_err := 0; pn_nr_reset_err := 0; pn_nr_valid := valid; pn_status := XZTL_ZMD_NODE_FULL;
     pn_level := 2 |}.

Definition sim_full_group (valid : Z) : app_group :=
  let p := sim_pro 1 in
  grp_set_pro (sim_group 1) (Some
    {| pg_vnodes := [sim_full_node valid]; pg_vzones := pg_vzones p; pg_nfree := 0; pg_nzones := pg_nzones p;
       pg_nnodes := 1; pg_free_head := []; pg_used_head := []; pg_full_head := [0%nat] |}).

Lemma zrocks_trim_reclaims_witness :
  exists g1 g2,
    trim_all (sim_full_group 8) [] [zr_map 0 0 0 3 0] = Some (g1, []) /\
    zrocks_trim true g1 [] (zr_map 0 0 3 5 10) =
      Some (XZTL_OK, g2, [{| me_node := 0; me_op_code := ZTL_MGMG_RESET_ZONE |}]).
Proof.
  destruct (zrocks_trim_reclaims (sim_full_group 8) [] 0 (sim_full_node 8) [zr_map 0 0 0 3 0] (zr_map 0 0 3 5 10))
    as (g1 & g2 & H1 & _ & H2 & _).
  - reflexivity.
  - reflexivity.
  - repeat constructor.
  - reflexivity.
  - reflexivity.
  - reflexivity.
  - exists g1, g2. split; [exact H1|exact H2].
Defined.

(** The garbage collector's view.  The percentages are computed for the full
    nodes of level 1 and above and for no others; each is between 0 and 100,
    the share of the node's commands that are not valid any more, rounded up. *)
Theorem zrocks_gc_get_full_nodes_percent g pro ip :
  grp_pro g = Some pro -> NoDup (pg_full_head pro) ->
  (forall n node, pg_vnodes pro !! n = Some node -> pn_id node = Z.of_nat n) ->
  (forall n, n ∈ pg_full_head pro -> exists node, pg_vnodes pro !! n = Some node /\
     0 <= pn_nr_valid node <= ZTL_PRO_OPT_SEC_NUM_INNODE) ->
  (length (pg_vnodes pro) <= length ip)%nat ->
  exists ip', zrocks_gc_get_full_nodes g ip = Some ip' /\ length ip' = length ip /\
    forall n old, ip !! n = Some old ->
      (exists node, n ∈ pg_full_head pro /\ pg_vnodes pro !! n = Some node /\ 1 <= pn_level node /\
         pn_status node = XZTL_ZMD_NODE_FULL /\
         exists p, ip' !! n = Some p /\ 0 <= p <= 100 /\
           100 * (ZTL_PRO_OPT_SEC_NUM_INNODE - pn_nr_valid node) <= p * ZTL_PRO_OPT_SEC_NUM_INNODE
             < 100 * (ZTL_PRO_OPT_SEC_NUM_INNODE - pn_nr_valid node) + ZTL_PRO_OPT_SEC_NUM_INNODE) \/
      ((forall node, pg_vnodes pro !! n = Some node ->
          n ∉ pg_full_head pro \/ pn_level node < 1 \/ pn_status node <> XZTL_ZMD_NODE_FULL) /\
       ip' !! n = Some old).
Proof.
  intros Hg Hnd Hid Hq Hl. unfold zrocks_gc_get_full_nodes. rewrite Hg. cbn [mbind option_bind].
  destruct (gc_full_loop_ok pro (pg_full_head pro) ip Hnd Hid Hq Hl) as (ip' & Hrun & Hl' & Hall).
  exists ip'. split_and!; auto. intros n old Hold. destruct (Hall n old Hold) as [Hin Hout].
  destruct (decide (n ∈ pg_full_head pro)) as [Hf|Hf].
  - destruct (Hq n Hf) as (node & Hn & Hv). specialize (Hin node Hf Hn). rewrite gc_percent_eq in Hin by done.
    destruct (Z.leb_spec 1 (pn_level node)) as [H1|H1], (Z.eqb_spec (pn_status node) XZTL_ZMD_NODE_FULL) as [H2|H2];
      cbn [andb] in Hin.
    1: left; exists node; split_and!; auto; eexists; split; [exact Hin|]; cst; zdiv.
    all: right; split; [|done]; intros nd Hnd'; assert (nd = node) as -> by congruence; auto.
  - right. split; [|by apply Hout]. intros. by left.
Qed.

Lemma zrocks_gc_get_full_nodes_percent_witness :
  exists ip', zrocks_gc_get_full_nodes (sim_full_group 49153) [7] = Some ip'.
Proof.
  destruct (zrocks_gc_get_full_nodes_percent (sim_full_group 49153)
    (default (sim_pro 1) (grp_pro (sim_full_group 49153))) [7]) as (ip' & H & _).
  - reflexivity.
  - apply NoDup_singleton.
  - intros [|n] node; [intros [= <-]; reflexivity|discriminate].
  - intros n ->%list_elem_of_singleton. exists (sim_full_node 49153). split; [reflexivity|].
    split; vm_compute; discriminate.
  - simpl. lia.
  - exists ip'. exact H.
Defined.
