(* ===== verification/Boot.v ===== *)
(** Start and stop of the library: src/xztl/src/xztl-core.c, ztl.c, xztl-ctx.c, the
    registration and queue creation of ztl-media.c, and the start and stop functions of the
    modules (xztl-groups.c, ztl-pro.c, ztl-map.c, ztl-io.c, ztl-mgmt-cmd.c, zrocks.c), as
    programs over the resources they take: memory, locks, threads, queues, devices.

    Every call that can fail asks the oracle [ok] with its number, so that a theorem for
    every [ok] covers every combination of failures.  To release what is not held (a second
    free, the destruction of a lock that was not initialised, the join of a thread that was
    not created) is undefined: [None].  What the functions do to the data is the subject of
    the other files. *)

From S2P Require Import Prelude Types Options Map.

Definition MAP_N_CACHES : nat := 1.
Definition APP_MOD_COUNT : Z := 10.
Definition APP_FN_SLOTS : Z := 32.
Definition ZND_MEDIA_NOGEO : Z := 2.
Definition XZTL_ZTL_MPE_ERR : Z := 20.
Definition ZROCKS_MEMORY : Z := 2.
Definition XZTL_NODE_MGMT_ENTRY : Z := 4.
Definition MP_ACTIVE : Z := 3.
Definition MP_MEMERROR : Z := 4.
Definition MP_ASYNCH_ERR : Z := 5.

Definition XZTL_MEDIA_MAX_GRP : Z := 128.
Definition XZTL_MEDIA_MAX_PUGRP : Z := 8.
Definition XZTL_MEDIA_MAX_ZNPU : Z := 8388608.
Definition XZTL_MEDIA_MAX_SECZN : Z := 8388608.
Definition XZTL_MEDIA_MAX_SECSZ : Z := 1048576.
Definition XZTL_MEDIA_MAX_OOBSZ : Z := 128.

(** * Media description and geometry *)

(** [struct xztl_media]: the geometry and which functions are set *)
Record xztl_media := {
  m_geo : xztl_mgeo; m_init_fn : bool; m_exit_fn : bool; m_submit_io : bool; m_zone_fn : bool; m_dma_alloc : bool; m_dma_free : bool
}.

(** [xztl_media_check]: the calculated members are products of 32-bit integers. *)
Definition fill_geo (g : xztl_mgeo) : xztl_mgeo :=
  let zn_grp' := u32 (pu_grp g * zn_pu g) in
  let zn_dev' := u32 (zn_grp' * ngrps g) in
  let sec_grp' := u32 (zn_grp' * sec_zn g) in
  let sec_pu' := u32 (zn_pu g * sec_zn g) in
  let sec_dev' := u32 (sec_grp' * ngrps g) in
  let nbytes_zn' := u64 (u32 (nbytes g * sec_zn g) * 1) in
  {| ngrps := ngrps g; pu_grp := pu_grp g; zn_pu := zn_pu g; sec_zn := sec_zn g; nbytes := nbytes g; nbytes_oob := nbytes_oob g;
     zn_dev := zn_dev'; zn_grp := zn_grp'; sec_dev := sec_dev'; sec_grp := sec_grp'; sec_pu := sec_pu';
     nbytes_zn := nbytes_zn'; nbytes_grp := u64 (nbytes_zn' * zn_grp');
     oob_grp := u32 (sec_grp' * nbytes_oob g); oob_pu := u32 (sec_pu' * nbytes_oob g); oob_zn := u32 (sec_zn g * nbytes_oob g) |}.

Definition bad_geo (g : xztl_mgeo) : bool :=
  (ngrps g =? 0) || (XZTL_MEDIA_MAX_GRP <? ngrps g) || (pu_grp g =? 0) || (XZTL_MEDIA_MAX_PUGRP <? pu_grp g) ||
  (zn_pu g =? 0) || (XZTL_MEDIA_MAX_ZNPU <? zn_pu g) || (sec_zn g =? 0) || (XZTL_MEDIA_MAX_SECZN <? sec_zn g) ||
  (nbytes g =? 0) || (XZTL_MEDIA_MAX_SECSZ <? nbytes g) || (XZTL_MEDIA_MAX_OOBSZ <? nbytes_oob g).

Definition xztl_media_check (m : xztl_media) : Z * xztl_media :=
  if negb (m_init_fn m) then (XZTL_NOINIT, m) else
  if negb (m_exit_fn m) then (XZTL_NOEXIT, m) else
  if negb (m_submit_io m) then (XZTL_MEDIA_NOIO, m) else
  if negb (m_zone_fn m) then (XZTL_MEDIA_NOZONE, m) else
  if negb (m_dma_alloc m) then (XZTL_MEDIA_NOALLOC, m) else
  if negb (m_dma_free m) then (XZTL_MEDIA_NOFREE, m) else
  if bad_geo (m_geo m) then (XZTL_MEDIA_GEO, m) else
  (XZTL_OK, {| m_geo := fill_geo (m_geo m); m_init_fn := m_init_fn m; m_exit_fn := m_exit_fn m; m_submit_io := m_submit_io m;
               m_zone_fn := m_zone_fn m; m_dma_alloc := m_dma_alloc m; m_dma_free := m_dma_free m |}).

(** * Resources *)

Inductive owner := Writer (level : nat) | Reader (rn : nat).

Inductive resource :=
  | RDev | RDevRead | RMedia
  | RGrp (i : nat) | RZmdTbl (i : nat) | RReport (i : nat)
  | RGlist | RMdZones | RMdMutex
  | RPro (i : nat) | RVnodes (i : nat) | RVzones (i : nat) | RSpinFree (i : nat) | RSpinFull (i : nat) | RSpinUsed (i : nat)
  | RMpeTbl | RMpeMutexes | RMpeMutex (i : nat)
  | RMapCaches | RPgBuf (c : nat) | RMbSpin (c : nat) | RMapMutex (c : nat) | RPage (c i : nat)
  | RTctx (o : owner) | RQpairSpin (o : owner) | RQueue (o : owner)
  | RMcmd (o : owner) (i : nat) | RPrp (rn i : nat)
  | RProv (level : nat) | RUcmdSpin (level : nat) | RWThread (level : nat) | RRsMutex
  | RMgmtSpin | RMgmtThread | RPool (type : Z)
  | RLatSpin | RLatThread | RFlushThread
  | REnv | RGcBuf | RGcThread | RMetaBuf.

#[export] Instance owner_eq_dec : EqDecision owner.
Proof. solve_decision. Defined.

#[export] Instance resource_eq_dec : EqDecision resource.
Proof. solve_decision. Defined.

(** The modules: the static structures that are registered *)
Inductive mod_ptr := LibZmd | LibPro | LibMpe | LibMap | LibIo | LibMgmt.

#[export] Instance mod_ptr_eq_dec : EqDecision mod_ptr.
Proof. solve_decision. Defined.

(** [struct app_global]: the registered modules, the modules in use, and [app_modset_libztl] *)
Record app_mods := {
  a_list : list (list (option mod_ptr)); a_modset : list Z;
  a_zmd : option mod_ptr; a_pro : option mod_ptr; a_mpe : option mod_ptr; a_map : option mod_ptr; a_io : option mod_ptr; a_mgmt : option mod_ptr
}.

(** The state of the program.  [w_ptr r] says that the pointer variable of [r] is not NULL, for
    the allocations that the code does not check; [w_pages c] is the free list [mbf_head] of a
    cache, [w_pools] are the active pools. *)
Record world := {
  w_calls : nat; w_held : list resource; w_ptr : resource -> bool;
  w_dev : bool; w_dev_read : bool; w_core : option xztl_media; w_read_ctx_num : Z;
  w_grps : list nat; w_ngrps : Z; w_pages : nat -> list nat; w_pools : list Z; w_mods : app_mods
}.

Definition w_set_calls (w : world) x : world :=
  {| w_calls := x; w_held := w_held w; w_ptr := w_ptr w; w_dev := w_dev w; w_dev_read := w_dev_read w; w_core := w_core w;
     w_read_ctx_num := w_read_ctx_num w; w_grps := w_grps w; w_ngrps := w_ngrps w; w_pages := w_pages w; w_pools := w_pools w; w_mods := w_mods w |}.
Definition w_set_held (w : world) x : world :=
  {| w_calls := w_calls w; w_held := x; w_ptr := w_ptr w; w_dev := w_dev w; w_dev_read := w_dev_read w; w_core := w_core w;
     w_read_ctx_num := w_read_ctx_num w; w_grps := w_grps w; w_ngrps := w_ngrps w; w_pages := w_pages w; w_pools := w_pools w; w_mods := w_mods w |}.
Definition w_set_ptr (w : world) r b : world :=
  {| w_calls := w_calls w; w_held := w_held w; w_ptr := fun x => if decide (x = r) then b else w_ptr w x; w_dev := w_dev w; w_dev_read := w_dev_read w; w_core := w_core w;
     w_read_ctx_num := w_read_ctx_num w; w_grps := w_grps w; w_ngrps := w_ngrps w; w_pages := w_pages w; w_pools := w_pools w; w_mods := w_mods w |}.
Definition w_set_media (w : world) d dr n : world :=
  {| w_calls := w_calls w; w_held := w_held w; w_ptr := w_ptr w; w_dev := d; w_dev_read := dr; w_core := w_core w;
     w_read_ctx_num := n; w_grps := w_grps w; w_ngrps := w_ngrps w; w_pages := w_pages w; w_pools := w_pools w; w_mods := w_mods w |}.
Definition w_set_core (w : world) x : world :=
  {| w_calls := w_calls w; w_held := w_held w; w_ptr := w_ptr w; w_dev := w_dev w; w_dev_read := w_dev_read w; w_core := x;
     w_read_ctx_num := w_read_ctx_num w; w_grps := w_grps w; w_ngrps := w_ngrps w; w_pages := w_pages w; w_pools := w_pools w; w_mods := w_mods w |}.
Definition w_set_grps (w : world) x : world :=
  {| w_calls := w_calls w; w_held := w_held w; w_ptr := w_ptr w; w_dev := w_dev w; w_dev_read := w_dev_read w; w_core := w_core w;
     w_read_ctx_num := w_read_ctx_num w; w_grps := x; w_ngrps := w_ngrps w; w_pages := w_pages w; w_pools := w_pools w; w_mods := w_mods w |}.
Definition w_set_ngrps (w : world) x : world :=
  {| w_calls := w_calls w; w_held := w_held w; w_ptr := w_ptr w; w_dev := w_dev w; w_dev_read := w_dev_read w; w_core := w_core w;
     w_read_ctx_num := w_read_ctx_num w; w_grps := w_grps w; w_ngrps := x; w_pages := w_pages w; w_pools := w_pools w; w_mods := w_mods w |}.
Definition w_set_pages (w : world) c x : world :=
  {| w_calls := w_calls w; w_held := w_held w; w_ptr := w_ptr w; w_dev := w_dev w; w_dev_read := w_dev_read w; w_core := w_core w;
     w_read_ctx_num := w_read_ctx_num w; w_grps := w_grps w; w_ngrps := w_ngrps w; w_pages := fun i => if decide (i = c) then x else w_pages w i; w_pools := w_pools w; w_mods := w_mods w |}.
Definition w_set_pools (w : world) x : world :=
  {| w_calls := w_calls w; w_held := w_held w; w_ptr := w_ptr w; w_dev := w_dev w; w_dev_read := w_dev_read w; w_core := w_core w;
     w_read_ctx_num := w_read_ctx_num w; w_grps := w_grps w; w_ngrps := w_ngrps w; w_pages := w_pages w; w_pools := x; w_mods := w_mods w |}.
Definition w_set_mods (w : world) x : world :=
  {| w_calls := w_calls w; w_held := w_held w; w_ptr := w_ptr w; w_dev := w_dev w; w_dev_read := w_dev_read w; w_core := w_core w;
     w_read_ctx_num := w_read_ctx_num w; w_grps := w_grps w; w_ngrps := w_ngrps w; w_pages := w_pages w; w_pools := w_pools w; w_mods := x |}.

(** * Programs over the resources *)

Definition boot (A : Type) : Type := world -> option (A * world).

#[export] Instance boot_ret : MRet boot := fun A a w => Some (a, w).
#[export] Instance boot_bind : MBind boot := fun A B f m w =>
  match m w with Some (a, w') => f a w' | None => None end.

Definition undef {A} : boot A := fun _ => None.
Definition gets {A} (f : world -> A) : boot A := fun w => Some (f w, w).
Definition put (f : world -> world) : boot unit := fun w => Some (tt, f w).

Definition release (r : resource) : boot unit := fun w =>
  match tailq_remove (w_held w) r with Some l => Some (tt, w_set_held w l) | None => None end.

(** [free(p)] for a pointer variable that may be NULL *)
Definition free_ptr (r : resource) : boot unit := fun w => if w_ptr w r then release r w else Some (tt, w).

(** [for (i = 0; i < n; i++) f(i)], from [i] on, until a call does not return 0 *)
Fixpoint for_ok (f : nat -> boot Z) (n i : nat) : boot Z :=
  match n with
  | O => mret XZTL_OK
  | S n' => ret ← f i; if ctrue ret then mret ret else for_ok f n' (S i)
  end.

Fixpoint for_all (f : nat -> boot unit) (n i : nat) : boot unit :=
  match n with O => mret tt | S n' => f i ;; for_all f n' (S i) end.

(** [while (i) { i--; f(i) }] *)
Fixpoint downto (f : nat -> boot unit) (i : nat) : boot unit :=
  match i with O => mret tt | S i' => f i' ;; downto f i' end.

Section Boot.

(** The [n]-th call that can fail succeeds; xnvme_queue_term succeeds. *)
Variable ok : nat -> bool.
Variable term_ok : owner -> bool.

(** A call that takes the resource [r] if it succeeds *)
Definition acquire (r : resource) : boot bool := fun w =>
  let w1 := w_set_calls w (S (w_calls w)) in
  if ok (w_calls w) then Some (true, w_set_held w1 (r :: w_held w1)) else Some (false, w1).

(** [p = alloc()] without a check *)
Definition alloc_ptr (r : resource) : boot unit := b ← acquire r; put (fun w => w_set_ptr w r b).

(** * Memory pools: a pool is one resource here *)

Definition mp_create (type : Z) : boot Z :=
  pools ← gets w_pools;
  if decide (type ∈ pools) then mret MP_ACTIVE else
  b ← acquire (RPool type);
  if negb b then mret MP_MEMERROR else
  put (fun w => w_set_pools w (type :: w_pools w)) ;; mret XZTL_OK.

Definition mp_destroy (type : Z) : boot unit :=
  pools ← gets w_pools;
  if decide (type ∈ pools) then
    put (fun w => w_set_pools w (remove_first type (w_pools w))) ;; release (RPool type)
  else mret tt.

Definition mp_init : boot Z := put (fun w => w_set_pools w []) ;; mret XZTL_OK.

(** [xztl_mempool_exit]: the types in order *)
Definition mp_exit : boot unit := for_all (fun t => mp_destroy (Z.of_nat t)) 5 0.

(** * Media: xztl-core.c and ztl-media.c *)

Definition xztl_media_set (m : xztl_media) : boot Z :=
  let '(ret, m') := xztl_media_check m in
  if ctrue ret then mret ret else
  b ← acquire RMedia;
  if negb b then put (fun w => w_set_core w None) ;; mret XZTL_MEM else
  put (fun w => w_set_core w (Some m')) ;; mret XZTL_OK.

(** [struct xnvme_geo]: the members that are read *)
Record xnvme_geo := { xg_npugrp : Z; xg_npunit : Z; xg_nzone : Z; xg_nsect : Z; xg_nbytes : Z; xg_nbytes_oob : Z }.

Definition geo_of (dg : xnvme_geo) : xztl_mgeo :=
  {| ngrps := xg_npugrp dg; pu_grp := xg_npunit dg; zn_pu := xg_nzone dg; sec_zn := u32 (xg_nsect dg); nbytes := xg_nbytes dg;
     nbytes_oob := xg_nbytes_oob dg; zn_dev := 0; zn_grp := 0; sec_dev := 0; sec_grp := 0; sec_pu := 0; nbytes_zn := 0; nbytes_grp := 0;
     oob_grp := 0; oob_pu := 0; oob_zn := 0 |}.

(** What the system says: the answer of xnvme_dev_get_geo and the number of processors *)
Variable devgeo : option xnvme_geo.
Variable cpu_num : Z.

(** [xnvme_opts_default()] *)
Variable opts_default : xnvme_opts.

Definition znd_media_register (dev_name : str) : boot Z :=
  match znd_opt_parse dev_name with
  | Ok (ret, o) =>
      if ctrue ret then mret ret else
      match znd_opt_assign opts_default opts_default o with
      | None => undef
      | Some _ =>
          b ← acquire RDev;
          if negb b then mret ZND_MEDIA_NODEVICE else
          b ← (if is_blk_thrpool o then acquire RDevRead else mret true);
          if negb b then mret ZND_MEDIA_NODEVICE else
          match devgeo with
          | None => release RDev ;; mret ZND_MEDIA_NOGEO
          | Some dg =>
              put (fun w => w_set_media w true (is_blk_thrpool o) (fst (znd_media_set_ctx_iodepth cpu_num o))) ;;
              xztl_media_set {| m_geo := geo_of dg; m_init_fn := true; m_exit_fn := true; m_submit_io := true; m_zone_fn := true;
                                m_dma_alloc := true; m_dma_free := true |}
          end
      end
  | _ => undef
  end.

Definition znd_media_init : boot Z := mret XZTL_OK.

Definition znd_media_exit : boot Z :=
  d ← gets w_dev;
  (if d : bool then release RDev else mret tt) ;;
  dr ← gets w_dev_read;
  (if dr : bool then release RDevRead else mret tt) ;;
  mret XZTL_OK.

Definition xztl_media_init : boot Z :=
  m ← gets w_core;
  match m with
  | None => mret XZTL_NOMEDIA
  | Some m => if negb (m_init_fn m) then mret XZTL_NOINIT else znd_media_init
  end.

Definition xztl_media_exit : boot Z :=
  m ← gets w_core;
  match m with
  | None => mret XZTL_NOMEDIA
  | Some m => if negb (m_exit_fn m) then mret XZTL_NOEXIT else znd_media_exit
  end.

(** * Thread contexts: xztl-ctx.c.  The result says whether the context is not NULL. *)

Definition xztl_ctx_media_init (o : owner) : boot bool :=
  b ← acquire (RTctx o);
  if negb b then mret false else
  b ← acquire (RQpairSpin o);
  if negb b then release (RTctx o) ;; mret false else
  b ← acquire (RQueue o);
  if negb b then release (RQpairSpin o) ;; release (RTctx o) ;; mret false else
  mret true.

Definition xztl_ctx_media_exit (o : owner) : boot Z :=
  if negb (term_ok o) then mret MP_ASYNCH_ERR else
  release (RQueue o) ;; release (RQpairSpin o) ;; release (RTctx o) ;; mret XZTL_OK.

(** * Groups: xztl-groups.c *)

Definition boot_groups_zmd_init (i : nat) : boot Z :=
  b ← acquire (RZmdTbl i);
  if negb b then mret XZTL_ZTL_GROUP_ERR else
  b ← acquire (RReport i);
  if negb b then release (RZmdTbl i) ;; mret XZTL_ZTL_GROUP_ERR else
  mret XZTL_OK.

Fixpoint groups_free_loop (l : list nat) : boot unit :=
  match l with
  | [] => mret tt
  | i :: l' => put (fun w => w_set_grps w l') ;; release (RGrp i) ;; groups_free_loop l'
  end.

Definition groups_free : boot unit := l ← gets w_grps; groups_free_loop l.

Fixpoint groups_zmd_exit_loop (l : list nat) : boot unit :=
  match l with
  | [] => mret tt
  | i :: l' => release (RReport i) ;; release (RZmdTbl i) ;; groups_zmd_exit_loop l'
  end.

Definition groups_zmd_exit : boot unit := l ← gets w_grps; groups_zmd_exit_loop l.

Definition groups_exit : boot unit := groups_zmd_exit ;; groups_free.

Fixpoint groups_start (n i : nat) : boot Z :=
  match n with
  | O => mret (Z.of_nat i)
  | S n' =>
      b ← acquire (RGrp i);
      if negb b then mret XZTL_ZTL_GROUP_ERR else
      ret ← boot_groups_zmd_init i;
      if ctrue ret then groups_free ;; mret XZTL_ZTL_GROUP_ERR else
      put (fun w => w_set_grps w (i :: w_grps w)) ;;
      groups_start n' (S i)
  end.

Definition boot_groups_init : boot Z :=
  m ← gets w_core;
  match m with None => undef | Some m => groups_start (Z.to_nat (ngrps (m_geo m))) 0 end.

(** [groups_get_list(glist, app_ngrps)]: how many groups are stored *)
Definition groups_listed : boot Z := w ← gets id; mret (Z.min (Z.of_nat (length (w_grps w))) (w_ngrps w)).

(** * Provisioning: ztl-pro.c, ztl-pro-grp.c, ztl-metadata.c *)

(** [_ztl_pro_grp_new_pro]; the result says whether it is not NULL. *)
Definition new_pro_res (i : nat) : boot bool :=
  b ← acquire (RPro i);
  if negb b then mret false else
  b ← acquire (RVnodes i);
  if negb b then release (RPro i) ;; mret false else
  b ← acquire (RVzones i);
  if negb b then release (RVnodes i) ;; release (RPro i) ;; mret false else
  let free_all := release (RVzones i) ;; release (RVnodes i) ;; release (RPro i) ;; mret false in
  b ← acquire (RSpinFree i);
  if negb b then free_all else
  b ← acquire (RSpinFull i);
  if negb b then free_all else
  b ← acquire (RSpinUsed i);
  if negb b then free_all else
  mret true.

Definition pro_grp_init_res (i : nat) : boot Z :=
  b ← new_pro_res i; mret (if b : bool then XZTL_OK else XZTL_ZTL_PROV_ERR).

Definition pro_grp_exit_res (i : nat) : boot unit :=
  release (RSpinFree i) ;; release (RSpinFull i) ;; release (RSpinUsed i) ;;
  release (RVzones i) ;; release (RVnodes i) ;; release (RPro i).

(** [ztl_metadata_init]; [md_zones_ok] says that the two metadata zones can be used. *)
Variable md_zones_ok : bool.

Definition metadata_init_res : boot Z :=
  b ← acquire RMdZones;
  if negb b then mret XZTL_ZTL_MD_INIT_ERR else
  b ← acquire RMdMutex;
  if negb b then mret XZTL_ZTL_MD_INIT_ERR else
  if negb md_zones_ok then mret XZTL_ZTL_MD_INIT_ERR else mret XZTL_OK.

(** The loop over the groups; the groups that were started are stopped if one fails. *)
Fixpoint pro_init_loop (n i : nat) : boot Z :=
  match n with
  | O => mret XZTL_OK
  | S n' =>
      ret ← pro_grp_init_res i;
      if ctrue ret then downto pro_grp_exit_res i ;; release RGlist ;; mret XZTL_ZTL_GROUP_ERR
      else pro_init_loop n' (S i)
  end.

Definition ztl_pro_init : boot Z :=
  b ← acquire RGlist;
  if negb b then mret XZTL_ZTL_GROUP_ERR else
  ret ← groups_listed;
  n ← gets w_ngrps;
  if negb (ret =? n) then release RGlist ;; mret XZTL_ZTL_GROUP_ERR else
  ret ← metadata_init_res;
  if ctrue ret then release RGlist ;; mret XZTL_ZTL_GROUP_ERR else
  pro_init_loop (Z.to_nat n) 0.

Definition ztl_pro_exit : boot unit :=
  ret ← groups_listed;
  downto pro_grp_exit_res (Z.to_nat ret) ;;
  mp_destroy XZTL_NODE_MGMT_ENTRY ;;
  release RGlist.

(** * The persistent mapping: ztl.c *)

(** The loop of [app_init_map_lock], from [ent_i] on: the mutexes initialised so far are destroyed
    when one fails. *)
Fixpoint map_lock_loop (n i : nat) : boot Z :=
  match n with
  | O => mret XZTL_OK
  | S n' =>
      b ← acquire (RMpeMutex i);
      if negb b then downto (fun j => release (RMpeMutex j)) i ;; release RMpeMutexes ;; mret XZTL_ZTL_MAP_ERR
      else map_lock_loop n' (S i)
  end.

Definition app_init_map_lock : boot Z :=
  b ← acquire RMpeMutexes;
  if negb b then mret XZTL_ZTL_MAP_ERR else map_lock_loop ZTL_MPE_CPGS 0.

Definition app_exit_map_lock : boot unit :=
  downto (fun j => release (RMpeMutex j)) ZTL_MPE_CPGS ;; release RMpeMutexes.

(** [ztl()->mpe->create_fn()] is [ztl_mpe_create], which always succeeds. *)
Definition app_mpe_init : boot Z :=
  b ← acquire RMpeTbl;
  if negb b then mret XZTL_ZTL_MAP_ERR else
  ret ← app_init_map_lock;
  if ctrue ret then release RMpeTbl ;; mret XZTL_ZTL_MAP_ERR else
  m ← gets w_mods;
  match a_mpe m with None => undef | Some _ => mret XZTL_OK end.

Definition app_mpe_exit : boot unit := app_exit_map_lock ;; release RMpeTbl.

(** * The mapping: ztl-map.c *)

(** [LIST_REMOVE] and [free] of the pages below [pg_i] *)
Definition drop_page (c i : nat) : boot unit :=
  l ← gets (fun w => w_pages w c);
  match tailq_remove l i with
  | None => undef
  | Some l' => put (fun w => w_set_pages w c l') ;; release (RPage c i)
  end.

Fixpoint map_pages (c n i : nat) : boot Z :=
  match n with
  | O => mret XZTL_OK
  | S n' =>
      b ← acquire (RPage c i);
      if negb b then
        downto (drop_page c) i ;; release (RMapMutex c) ;; release (RMbSpin c) ;; release (RPgBuf c) ;; mret XZTL_ZTL_MAP_ERR
      else
        put (fun w => w_set_pages w c (i :: w_pages w c)) ;;
        map_pages c n' (S i)
  end.

Definition map_init_cache_res (c : nat) : boot Z :=
  b ← acquire (RPgBuf c);
  if negb b then mret XZTL_ZTL_MAP_ERR else
  b ← acquire (RMbSpin c);
  if negb b then release (RPgBuf c) ;; mret XZTL_ZTL_MAP_ERR else
  b ← acquire (RMapMutex c);
  if negb b then release (RMbSpin c) ;; release (RPgBuf c) ;; mret XZTL_ZTL_MAP_ERR else
  put (fun w => w_set_pages w c []) ;;
  map_pages c MAP_BUF_PGS 0.

Fixpoint map_exit_pages (c : nat) (l : list nat) : boot unit :=
  match l with
  | [] => mret tt
  | i :: l' => put (fun w => w_set_pages w c l') ;; release (RPage c i) ;; map_exit_pages c l'
  end.

Definition map_exit_cache (c : nat) : boot unit :=
  l ← gets (fun w => w_pages w c);
  map_exit_pages c l ;; release (RMbSpin c) ;; release (RMapMutex c) ;; release (RPgBuf c).

Definition map_exit_all_caches : boot unit := downto map_exit_cache MAP_N_CACHES.

Definition map_init : boot Z :=
  b ← acquire RMapCaches;
  if negb b then mret XZTL_ZTL_MAP_ERR else
  ret ← for_ok map_init_cache_res MAP_N_CACHES 0;
  if ctrue ret then release RMapCaches ;; mret XZTL_ZTL_MAP_ERR else mret XZTL_OK.

Definition map_exit : boot unit := map_exit_all_caches ;; release RMapCaches.

(** * The I/O module: ztl-io.c *)

Definition RC_NUM : nat := Z.to_nat ZTL_IO_RC_NUM.

Definition ztl_io_write_rs_init (level : nat) : boot Z :=
  for_all (fun i => alloc_ptr (RMcmd (Writer level) i)) RC_NUM 0 ;;
  b ← acquire (RProv level);
  if negb b then mret XZTL_ZTL_IO_ERR else
  b ← xztl_ctx_media_init (Writer level);
  if negb b then mret XZTL_ZTL_IO_ERR else mret XZTL_OK.

Definition ztl_io_write_rs_exit (level : nat) : boot unit :=
  xztl_ctx_media_exit (Writer level) ;;
  release (RProv level) ;;
  for_all (fun i => free_ptr (RMcmd (Writer level) i)) RC_NUM 0.

Definition ztl_io_read_rs_init (rn : nat) : boot Z :=
  if negb (Z.of_nat rn <? XZTL_READ_RS_NUM) then undef else
  for_all (fun i => alloc_ptr (RMcmd (Reader rn) i) ;; alloc_ptr (RPrp rn i)) RC_NUM 0 ;;
  b ← xztl_ctx_media_init (Reader rn);
  if negb b then mret XZTL_ZTL_IO_ERR else mret XZTL_OK.

Definition ztl_io_read_rs_exit (rn : nat) : boot unit :=
  if negb (Z.of_nat rn <? XZTL_READ_RS_NUM) then undef else
  xztl_ctx_media_exit (Reader rn) ;;
  for_all (fun i => free_ptr (RMcmd (Reader rn) i) ;; free_ptr (RPrp rn i)) RC_NUM 0.

Definition ztl_io_w_queue_init (level : nat) : boot Z :=
  ret ← ztl_io_write_rs_init level;
  if ctrue ret then mret XZTL_ZTL_IO_ERR else
  b ← acquire (RUcmdSpin level);
  if negb b then ztl_io_write_rs_exit level ;; mret XZTL_ZTL_IO_ERR else
  b ← acquire (RWThread level);
  if negb b then release (RUcmdSpin level) ;; ztl_io_write_rs_exit level ;; mret XZTL_ZTL_IO_ERR else
  mret XZTL_OK.

Definition ztl_io_w_queue_exit (level : nat) : boot unit :=
  release (RWThread level) ;; release (RUcmdSpin level) ;; ztl_io_write_rs_exit level.

Definition LEVELS : nat := Z.to_nat ZROCKS_LEVEL_NUM.

Definition ztl_io_init : boot Z :=
  ret ← for_ok ztl_io_w_queue_init LEVELS 0;
  if ctrue ret then mret XZTL_ZTL_IO_ERR else
  n ← gets w_read_ctx_num;
  ret ← for_ok ztl_io_read_rs_init (Z.to_nat n) 0;
  if ctrue ret then mret XZTL_ZTL_IO_ERR else
  b ← acquire RRsMutex;
  if negb b then mret XZTL_ZTL_IO_ERR else mret XZTL_OK.

Definition ztl_io_exit : boot unit :=
  for_all ztl_io_w_queue_exit LEVELS 0 ;;
  release RRsMutex ;;
  n ← gets w_read_ctx_num;
  for_all ztl_io_read_rs_exit (Z.to_nat n) 0.

(** * Management: ztl-mgmt-cmd.c.  The result of pthread_create, [mgmt_thread_ok], is not looked at;
    the request queue is empty when nothing was submitted. *)

Variable mgmt_thread_ok : bool.

Definition ztl_mgmt_init : boot Z :=
  b ← acquire RMgmtSpin;
  if negb b then mret XZTL_ZTL_PROV_GRP_ERR else
  ret ← mp_create XZTL_NODE_MGMT_ENTRY;
  (if mgmt_thread_ok then put (fun w => w_set_held w (RMgmtThread :: w_held w)) else mret tt) ;;
  mret ret.

Definition ztl_mgmt_exit : boot unit := release RMgmtThread ;; release RMgmtSpin.

(** * The modules: ztl.c *)

Definition mods_zero : app_mods :=
  {| a_list := replicate 10 (replicate 32 None); a_modset := replicate 10 0;
     a_zmd := None; a_pro := None; a_mpe := None; a_map := None; a_io := None; a_mgmt := None |}.

Definition ztl_mod_register (modtype modid : Z) (ptr : option mod_ptr) (m : app_mods) : option (Z * app_mods) :=
  if (APP_FN_SLOTS <=? modid) || (APP_MOD_COUNT <=? modtype) || bool_decide (ptr = None) then Some (XZTL_ZTL_MOD_ERR, m) else
  row ← (a_list m).[modtype];
  row' ← aset row modid ptr;
  l ← aset (a_list m) modtype row';
  s ← aset (a_modset m) modtype modid;
  Some (XZTL_OK, {| a_list := l; a_modset := s; a_zmd := a_zmd m; a_pro := a_pro m; a_mpe := a_mpe m; a_map := a_map m; a_io := a_io m; a_mgmt := a_mgmt m |}).

(** The [switch] of [ztl_mod_set] *)
Definition mod_use (mod_i : Z) (p : mod_ptr) (m : app_mods) : app_mods :=
  {| a_list := a_list m; a_modset := a_modset m;
     a_zmd := if mod_i =? 1 then Some p else a_zmd m; a_pro := if mod_i =? 2 then Some p else a_pro m;
     a_mpe := if mod_i =? 3 then Some p else a_mpe m; a_map := if mod_i =? 4 then Some p else a_map m;
     a_io := if mod_i =? 7 then Some p else a_io m; a_mgmt := if mod_i =? 8 then Some p else a_mgmt m |}.

Fixpoint mod_set_loop (modset : list Z) (mod_i : Z) (m : app_mods) : option app_mods :=
  match modset with
  | [] => Some m
  | id :: modset' =>
      if id =? 0 then mod_set_loop modset' (mod_i + 1) m else
      row ← (a_list m).[mod_i];
      ptr ← row.[id];
      mod_set_loop modset' (mod_i + 1) (match ptr with None => m | Some p => mod_use mod_i p m end)
  end.

Definition ztl_mod_set (modset : list Z) (m : app_mods) : option (Z * app_mods) :=
  if existsb (fun id => APP_FN_SLOTS <=? id) modset then Some (XZTL_ZTL_MOD_ERR, m) else
  m' ← mod_set_loop modset 0 m; Some (XZTL_OK, m').

(** A call through [ztl()->pro] and the like *)
Definition through {A} (f : app_mods -> option mod_ptr) (lib : mod_ptr) (p : boot A) : boot A :=
  m ← gets w_mods; if decide (f m = Some lib) then p else undef.

Definition app_global_init : boot Z :=
  ret ← through a_pro LibPro ztl_pro_init;
  if ctrue ret then mret XZTL_ZTL_PROV_ERR else
  let PRO := through a_pro LibPro ztl_pro_exit in
  ret ← app_mpe_init;
  if ctrue ret then PRO ;; mret XZTL_ZTL_MPE_ERR else
  ret ← through a_map LibMap map_init;
  if ctrue ret then app_mpe_exit ;; PRO ;; mret XZTL_ZTL_MAP_ERR else
  ret ← through a_io LibIo ztl_io_init;
  let MAP := through a_map LibMap map_exit ;; app_mpe_exit ;; PRO in
  if ctrue ret then MAP ;; mret XZTL_ZTL_IO_ERR else
  ret ← through a_mgmt LibMgmt ztl_mgmt_init;
  if ctrue ret then through a_io LibIo ztl_io_exit ;; MAP ;; mret XZTL_ZTL_MGMT_ERR else
  mret XZTL_OK.

Definition app_global_exit : boot unit :=
  through a_mgmt LibMgmt ztl_mgmt_exit ;;
  through a_io LibIo ztl_io_exit ;;
  through a_map LibMap map_exit ;;
  app_mpe_exit ;;
  through a_pro LibPro ztl_pro_exit.

Definition ztl_exit : boot unit := app_global_exit ;; groups_exit.

(** [app_ngrps = ngrps] converts to 16 bits; [ztl_grp_register] empties the list of groups. *)
Definition ztl_init : boot Z :=
  put (fun w => w_set_ngrps w 0) ;;
  put (fun w => w_set_grps w []) ;;
  m ← gets w_mods;
  match ztl_mod_set (a_modset m) m with
  | None => undef
  | Some (ret, m') =>
      put (fun w => w_set_mods w m') ;;
      if ctrue ret then mret XZTL_ZTL_MOD_ERR else
      n ← through a_zmd LibZmd boot_groups_init;
      if n <=? 0 then mret XZTL_ZTL_GROUP_ERR else
      put (fun w => w_set_ngrps w (u16 n)) ;;
      ret ← app_global_init;
      if ctrue ret then groups_exit ;; mret ret else mret XZTL_OK
  end.

(** * The library: xztl-core.c.  In the default build the statistics take no resource and cannot
    fail; [media_fn] is [znd_media_register]. *)

Definition xztl_init (dev_name : str) : boot Z :=
  ret ← znd_media_register dev_name;
  if ctrue ret then mret (Z.lor XZTL_MEDIA_ERROR ret) else
  ret ← mp_init;
  if ctrue ret then mret ret else
  ret ← xztl_media_init;
  if ctrue ret then mp_exit ;; mret ret else
  ret ← ztl_init;
  if ctrue ret then xztl_media_exit ;; mp_exit ;; mret ret else
  mret XZTL_OK.

Definition xztl_exit : boot Z :=
  ztl_exit ;;
  ret ← xztl_media_exit;
  mp_exit ;;
  m ← gets w_core;
  match m with
  | None => mret tt
  | Some _ => release RMedia ;; put (fun w => w_set_core w None)
  end ;;
  mret ret.

(** * ZRocks: zrocks.c *)

Definition register (modtype modid : Z) (p : mod_ptr) : boot unit :=
  m ← gets w_mods;
  match ztl_mod_register modtype modid (Some p) m with
  | None => undef
  | Some (_, m') => put (fun w => w_set_mods w m')
  end.

Definition register_all : boot unit :=
  register 1 4 LibZmd ;; register 2 2 LibPro ;; register 3 4 LibMpe ;; register 4 2 LibMap ;; register 7 3 LibIo ;; register 8 2 LibMgmt.

Definition zrocks_init (dev_name : str) : boot Z :=
  register_all ;;
  ret ← xztl_init dev_name;
  if ctrue ret then mret XZTL_ZROCKS_INIT_ERR else
  ret ← mp_create ZROCKS_MEMORY;
  (if ctrue ret then xztl_exit ;; mret tt else mret tt) ;;
  mret ret.

Definition zrocks_exit : boot Z := mp_destroy ZROCKS_MEMORY ;; xztl_exit.

End Boot.

(** A program that has just started *)
Definition world_zero : world :=
  {| w_calls := 0; w_held := []; w_ptr := fun _ => false; w_dev := false; w_dev_read := false; w_core := None; w_read_ctx_num := 0;
     w_grps := []; w_ngrps := 0; w_pages := fun _ => []; w_pools := []; w_mods := mods_zero |}.
