(* ===== verification/BootLogic.v ===== *)
(** Reasoning about the programs of Boot.v: weakest preconditions, the resources that are held
    up to their order, and the loops. *)

From S2P Require Import Prelude Types Options Map Boot.

(** * Weakest preconditions *)

Definition wp {A} (m : boot A) (Q : A -> world -> Prop) (w : world) : Prop :=
  match m w with Some (a, w') => Q a w' | None => False end.

Lemma wp_elim {A} (m : boot A) Q w : wp m Q w -> exists a w', m w = Some (a, w') /\ Q a w'.
Proof. unfold wp. destruct (m w) as [[a w']|]; [|done]. intros H. by exists a, w'. Qed.

Lemma wp_mono {A} (m : boot A) (P Q : A -> world -> Prop) w : wp m P w -> (forall a w', P a w' -> Q a w') -> wp m Q w.
Proof. unfold wp. destruct (m w) as [[a w']|]; [|done]. auto. Qed.

Lemma wp_ret {A} (a : A) Q w : Q a w -> wp (mret a) Q w.
Proof. done. Qed.

Lemma wp_bind {A B} (m : boot A) (f : A -> boot B) Q w : wp m (fun a => wp (f a) Q) w -> wp (m ≫= f) Q w.
Proof. unfold wp, mbind, boot_bind. by destruct (m w) as [[a w']|]. Qed.

Lemma wp_gets {A} (f : world -> A) Q w : Q (f w) w -> wp (gets f) Q w.
Proof. done. Qed.

Lemma wp_put f Q w : Q tt (f w) -> wp (put f) Q w.
Proof. done. Qed.

(** * Resources *)

(** [stable w w']: the members that no allocation changes are the same; [same w w']: only the
    resources and the number of calls differ. *)
Definition rest (w : world) := (w_dev w, w_dev_read w, w_core w, w_read_ctx_num w, w_grps w, w_ngrps w, w_mods w).

Definition stable (w w' : world) : Prop := rest w' = rest w.

Definition same (w w' : world) : Prop :=
  stable w w' /\ w_ptr w' = w_ptr w /\ w_pages w' = w_pages w /\ w_pools w' = w_pools w.

Lemma same_refl w : same w w.
Proof. done. Qed.

Lemma same_trans w1 w2 w3 : same w1 w2 -> same w2 w3 -> same w1 w3.
Proof. unfold same, stable. intros (? & ? & ? & ?) (? & ? & ? & ?). repeat split; congruence. Qed.

Lemma stable_trans w1 w2 w3 : stable w1 w2 -> stable w2 w3 -> stable w1 w3.
Proof. unfold stable. congruence. Qed.

Lemma wp_release r R w (Q : unit -> world -> Prop) : w_held w ≡ₚ r :: R ->
  (forall w', same w w' -> w_held w' ≡ₚ R -> Q tt w') -> wp (release r) Q w.
Proof.
  intros Hr HQ. unfold wp, release, tailq_remove. rewrite decide_True by (rewrite Hr; left).
  apply HQ; [done|]. cbn. apply (Permutation_cons_inv (a := r)).
  rewrite <- remove_first_perm by (rewrite Hr; left). done.
Qed.

Lemma wp_acquire ok r w (Q : bool -> world -> Prop) :
  (forall w', same w w' -> w_held w' ≡ₚ r :: w_held w -> Q true w') ->
  (forall w', same w w' -> w_held w' ≡ₚ w_held w -> Q false w') -> wp (acquire ok r) Q w.
Proof.
  intros Ht Hf. unfold wp, acquire. destruct (ok (w_calls w)); [apply Ht|apply Hf]; done.
Qed.

(** A list of releases in the order of the list *)
Lemma wp_downto_release (f : nat -> resource) n R w (Q : unit -> world -> Prop) :
  w_held w ≡ₚ (f <$> seq 0 n) ++ R -> (forall w', same w w' -> w_held w' ≡ₚ R -> Q tt w') ->
  wp (downto (fun j => release (f j)) n) Q w.
Proof.
  revert w. induction n as [|n IH]; intros w Hw HQ.
  - apply wp_ret, HQ; [apply same_refl|done].
  - cbn [downto]. rewrite seq_S, fmap_app in Hw. cbn in Hw. apply wp_bind.
    eapply (wp_release _ ((f <$> seq 0 n) ++ R)); [perm|]. intros w1 S1 H1.
    apply IH; [done|]. intros w2 S2 H2. apply HQ; [by eapply same_trans|done].
Qed.

(** * What a call adds

    Pointers of unchecked allocations may be NULL: [live p l] are those of [l] that are not.  [adds l g
    w w']: only the pointers of [l] were assigned, and the resources [g] (given those pointers) are held
    in addition. *)
Definition live (p : resource -> bool) (l : list resource) : list resource := filter (fun r => p r = true) l.

Definition local (l : list resource) (g : (resource -> bool) -> list resource) : Prop :=
  forall p q, (forall r, r ∈ l -> p r = q r) -> g p = g q.

Definition adds (l : list resource) (g : (resource -> bool) -> list resource) (w w' : world) : Prop :=
  w_held w' ≡ₚ g (w_ptr w') ++ w_held w /\ (forall r, r ∉ l -> w_ptr w' r = w_ptr w r) /\
  stable w w' /\ w_pages w' = w_pages w /\ w_pools w' = w_pools w.

Lemma live_local l : local l (fun p => live p l).
Proof.
  intros p q H. unfold live. induction l as [|r l IH]; [done|]. rewrite !filter_cons, H by left.
  rewrite IH; [done|]. intros x Hx. apply H. by right.
Qed.

Lemma const_local l k : local l (fun _ => k).
Proof. done. Qed.

Lemma app_local l1 l2 g1 g2 : local l1 g1 -> local l2 g2 -> local (l1 ++ l2) (fun p => g1 p ++ g2 p).
Proof. intros H1 H2 p q H. f_equal; [apply H1|apply H2]; intros r Hr; apply H, elem_of_app; auto. Qed.

Lemma adds_same k w w' : same w w' -> w_held w' ≡ₚ k ++ w_held w -> adds [] (fun _ => k) w w'.
Proof. intros (? & Hp & ? & ?) ?. repeat split; try done. intros. by rewrite Hp. Qed.

Lemma adds_app l1 l2 g1 g2 w1 w2 w3 : l1 ## l2 -> local l1 g1 -> adds l1 g1 w1 w2 -> adds l2 g2 w2 w3 ->
  adds (l1 ++ l2) (fun p => g1 p ++ g2 p) w1 w3.
Proof.
  intros Hd Hl (H1 & P1 & S1 & G1 & L1) (H2 & P2 & S2 & G2 & L2). split; [|split; [|split; [|split]]].
  - rewrite H2, H1. rewrite (Hl (w_ptr w2) (w_ptr w3)) by (intros r Hr; symmetry; apply P2; set_solver). perm.
  - intros r Hr. rewrite P2, P1 by set_solver. done.
  - by eapply stable_trans.
  - congruence.
  - congruence.
Qed.

Lemma adds_perm l g g' w w' : (forall p, g p ≡ₚ g' p) -> adds l g w w' -> adds l g' w w'.
Proof. intros Hg (H & ?). split; [|done]. by rewrite H, Hg. Qed.

Lemma wp_alloc ok r w (Q : unit -> world -> Prop) : (forall w', adds [r] (fun p => live p [r]) w w' -> Q tt w') -> wp (alloc_ptr ok r) Q w.
Proof.
  intros HQ. apply wp_bind, wp_acquire; intros w' (Hs & Hp & Hg & Hl) Hh; apply wp_put, HQ; repeat split; try done.
  - unfold live. rewrite filter_cons_True by (cbn; by rewrite decide_True). exact Hh.
  - intros x Hx. cbn. rewrite decide_False by set_solver. congruence.
  - unfold live. rewrite filter_cons_False by (cbn; by rewrite decide_True). exact Hh.
  - intros x Hx. cbn. rewrite decide_False by set_solver. congruence.
Qed.

Lemma wp_free r R w (Q : unit -> world -> Prop) : w_held w ≡ₚ live (w_ptr w) [r] ++ R ->
  (forall w', same w w' -> w_held w' ≡ₚ R -> Q tt w') -> wp (free_ptr r) Q w.
Proof.
  intros Hw HQ. unfold live in Hw. unfold wp, free_ptr. destruct (w_ptr w r) eqn:E.
  - rewrite filter_cons_True in Hw by done. by apply (wp_release r R w Q).
  - rewrite filter_cons_False in Hw by (by rewrite E). by apply HQ.
Qed.

(** * Loops *)

(** The resources of the turns [i .. i+n-1] *)
Definition turns {A} (g : nat -> list A) (n i : nat) : list A := mjoin (g <$> seq i n).

Lemma turns_S {A} (g : nat -> list A) n i : turns g (S n) i = g i ++ turns g n (S i).
Proof. done. Qed.

Lemma turns_elem {A} (g : nat -> list A) n i x : x ∈ turns g n i <-> exists j, x ∈ g j /\ (i <= j < i + n)%nat.
Proof.
  unfold turns. rewrite list_elem_of_join. setoid_rewrite list_elem_of_fmap. setoid_rewrite elem_of_seq. naive_solver.
Qed.

Section Loops.

Context (l : nat -> list resource) (g : nat -> (resource -> bool) -> list resource).
Context (Hdisj : forall j k, j <> k -> l j ## l k) (Hloc : forall j, local (l j) (g j)).

Lemma turns_disj n i : l i ## turns l n (S i).
Proof using Hdisj. intros x Hx (j & Hj & ?)%turns_elem. apply (Hdisj i j) in Hj; [done|lia|done]. Qed.

Definition gturns (n i : nat) (p : resource -> bool) : list resource := turns (fun j => g j p) n i.

Lemma gturns_local n i : local (turns l n i) (gturns n i).
Proof using Hloc.
  intros p q H. unfold gturns, turns. f_equal. apply list_fmap_ext. intros k j Hj. apply Hloc. intros r Hr. apply H, turns_elem.
  exists j. split; [done|]. apply lookup_seq in Hj. lia.
Qed.

Lemma adds_turn n i w1 w2 w3 : adds (l i) (g i) w1 w2 -> adds (turns l n (S i)) (gturns n (S i)) w2 w3 ->
  adds (turns l (S n) i) (gturns (S n) i) w1 w3.
Proof using Hdisj Hloc. intros H1 H2. by apply (adds_app _ _ _ _ w1 w2 w3 (turns_disj n i) (Hloc i)). Qed.

Lemma adds_none w : adds [] (fun _ => []) w w.
Proof. by repeat split. Qed.

Lemma wp_for_all_adds body n i w (Q : unit -> world -> Prop) :
  (forall j w (Q : unit -> world -> Prop), (forall w', adds (l j) (g j) w w' -> Q tt w') -> wp (body j) Q w) ->
  (forall w', adds (turns l n i) (gturns n i) w w' -> Q tt w') -> wp (for_all body n i) Q w.
Proof using Hdisj Hloc.
  intros Hb. revert i w Q. induction n as [|n IH]; intros i w Q HQ.
  - apply wp_ret, HQ, adds_none.
  - cbn [for_all]. apply wp_bind, Hb. intros w1 H1. apply IH. intros w2 H2. apply HQ. by apply (adds_turn n i w w1).
Qed.

(** The releasing loop *)
Lemma wp_for_all_frees body n i R w (Q : unit -> world -> Prop) :
  (forall j R w (Q : unit -> world -> Prop), (i <= j < i + n)%nat -> w_held w ≡ₚ g j (w_ptr w) ++ R ->
     (forall w', same w w' -> w_held w' ≡ₚ R -> Q tt w') -> wp (body j) Q w) ->
  w_held w ≡ₚ gturns n i (w_ptr w) ++ R -> (forall w', same w w' -> w_held w' ≡ₚ R -> Q tt w') -> wp (for_all body n i) Q w.
Proof using.
  revert i w Q. induction n as [|n IH]; intros i w Q Hb Hw HQ.
  - by apply wp_ret, HQ.
  - cbn [for_all]. unfold gturns in Hw. rewrite turns_S in Hw. apply wp_bind.
    apply (Hb i (gturns n (S i) (w_ptr w) ++ R)); [lia|by rewrite Hw, <- app_assoc|]. intros w1 S1 H1.
    apply IH; [intros; apply (Hb j R0); try done; lia|destruct S1 as (_ & -> & _); done|].
    intros w2 S2 H2. apply HQ; [by eapply same_trans|done].
Qed.

(** The loop that stops at the first failure *)
Lemma wp_for_ok (bad : nat -> world -> world -> Prop) body n i w (Q : Z -> world -> Prop) :
  (forall j w (Q : Z -> world -> Prop), (i <= j < i + n)%nat ->
     (forall w', adds (l j) (g j) w w' -> Q 0 w') -> (forall ret w', ctrue ret = true -> bad j w w' -> Q ret w') -> wp (body j) Q w) ->
  (forall w', adds (turns l n i) (gturns n i) w w' -> Q 0 w') ->
  (forall ret k w1 w', ctrue ret = true -> (k < n)%nat -> adds (turns l k i) (gturns k i) w w1 -> bad (i + k)%nat w1 w' -> Q ret w') ->
  wp (for_ok body n i) Q w.
Proof using Hdisj Hloc.
  revert i w Q. induction n as [|n IH]; intros i w Q Hb HQ HF.
  - apply wp_ret, HQ, adds_none.
  - cbn [for_ok]. apply wp_bind, Hb; [lia| |].
    + intros w1 H1. change (ctrue 0) with false. cbv iota. apply IH; [intros; apply Hb; [lia|done|done]| |].
      * intros w2 H2. apply HQ. by apply (adds_turn n i w w1).
      * intros ret k w2 w3 Hr Hk H2 Hbad. apply (HF ret (S k) w2); [done|lia|by apply (adds_turn k i w w1)|].
        by rewrite Nat.add_succ_r.
    + intros ret w1 Hr Hbad. rewrite Hr. apply wp_ret, (HF ret 0%nat w w1); [done|lia|apply adds_none|]. by rewrite Nat.add_0_r.
Qed.

End Loops.
