(* ===== verification/BootOk.v ===== *)
(** What each start and stop function of Boot.v takes and gives back, for every combination of
    failures. *)

From S2P Require Import Prelude Types Options Map Boot BootLogic.

Create HintDb boot.
#[export] Hint Resolve same_refl : boot.
#[export] Hint Extern 1 (same _ _) => eapply same_trans; [eassumption|] : boot.

(** The case analysis of a call that can fail, and a release whose resource is held *)
Ltac acq := let w := fresh "w" in let S := fresh "Sa" in let H := fresh "Ha" in apply wp_bind, wp_acquire; intros w S H; cbn [negb]; cbv iota.
Ltac rel R := let w := fresh "w" in let S := fresh "Sr" in let H := fresh "Hr" in apply wp_bind; eapply (wp_release _ R); [perm|intros w S H].
Ltac fin H := apply wp_ret, H; [eauto 12 with boot|perm].

Lemma wp_release_last r R w (Q : unit -> world -> Prop) : w_held w ≡ₚ r :: R ->
  (forall w', same w w' -> w_held w' ≡ₚ R -> Q tt w') -> wp (release r) Q w.
Proof. apply wp_release. Qed.

Section BootOk.

Context (ok : nat -> bool) (term_ok : owner -> bool).

(** * Thread contexts *)

Definition ctx_res (o : owner) : list resource := [RQueue o; RQpairSpin o; RTctx o].

Lemma wp_ctx_init o w (Q : bool -> world -> Prop) :
  (forall w', same w w' -> w_held w' ≡ₚ ctx_res o ++ w_held w -> Q true w') ->
  (forall w', same w w' -> w_held w' ≡ₚ w_held w -> Q false w') -> wp (xztl_ctx_media_init ok o) Q w.
Proof using.
  intros Ht Hf. unfold xztl_ctx_media_init, ctx_res in *. acq; [|fin Hf].
  acq; [|rel (w_held w); fin Hf].
  acq; [fin Ht|]. rel (RTctx o :: w_held w). rel (w_held w). fin Hf.
Qed.

Lemma wp_ctx_exit o R w (Q : Z -> world -> Prop) : term_ok o = true -> w_held w ≡ₚ ctx_res o ++ R ->
  (forall w', same w w' -> w_held w' ≡ₚ R -> Q 0 w') -> wp (xztl_ctx_media_exit term_ok o) Q w.
Proof using.
  intros Ho Hw HQ. unfold xztl_ctx_media_exit, ctx_res in *. rewrite Ho. cbn [negb]. cbv iota.
  rel ([RQpairSpin o; RTctx o] ++ R). rel (RTctx o :: R). rel R. fin HQ.
Qed.

(** * The persistent mapping *)

Definition mpe_res : list resource := (RMpeMutex <$> seq 0 ZTL_MPE_CPGS) ++ [RMpeMutexes; RMpeTbl].

Lemma wp_map_lock_loop n i R w (Q : Z -> world -> Prop) :
  w_held w ≡ₚ (RMpeMutex <$> seq 0 i) ++ RMpeMutexes :: R ->
  (forall w', same w w' -> w_held w' ≡ₚ (RMpeMutex <$> seq 0 (i + n)) ++ RMpeMutexes :: R -> Q 0 w') ->
  (forall ret w', ctrue ret = true -> same w w' -> w_held w' ≡ₚ R -> Q ret w') -> wp (map_lock_loop ok n i) Q w.
Proof using.
  revert i w. induction n as [|n IH]; intros i w Hw Ht Hf; cbn [map_lock_loop].
  - apply wp_ret, Ht; [eauto with boot|]. by rewrite Nat.add_0_r.
  - acq.
    + apply IH; [rewrite seq_S, fmap_app; cbn [fmap list_fmap Nat.add]; perm| |].
      * intros w1 ? ?. apply Ht; [eauto with boot|]. by rewrite Nat.add_succ_r.
      * intros ret w1 ? ? ?. apply Hf; eauto with boot.
    + apply wp_bind. eapply (wp_downto_release RMpeMutex i (RMpeMutexes :: R)); [by etrans|]. intros w1 ? ?.
      rel R. apply wp_ret, Hf; [done|eauto with boot|perm].
Qed.

Lemma wp_mpe_init w (Q : Z -> world -> Prop) : a_mpe (w_mods w) = Some LibMpe ->
  (forall w', same w w' -> w_held w' ≡ₚ mpe_res ++ w_held w -> Q 0 w') ->
  (forall ret w', ctrue ret = true -> same w w' -> w_held w' ≡ₚ w_held w -> Q ret w') -> wp (app_mpe_init ok) Q w.
Proof using.
  intros Hm Ht Hf. unfold app_mpe_init. acq; [|apply wp_ret, Hf; [done|eauto with boot|perm]].
  apply wp_bind. unfold app_init_map_lock. acq.
  - apply (wp_map_lock_loop _ 0 (RMpeTbl :: w_held w)); [cbn; perm| |].
    + intros w2 S2 E2. change (ctrue 0) with false. cbv iota. apply wp_bind, wp_gets.
      assert (same w w2) as S by eauto with boot.
      replace (w_mods w2) with (w_mods w) by (destruct S as [S _]; by injection S). rewrite Hm.
      change (0 + ZTL_MPE_CPGS)%nat with ZTL_MPE_CPGS in E2. apply wp_ret, Ht; [done|]. unfold mpe_res. perm.
    + intros ret w2 Hr S2 E2. rewrite Hr. rel (w_held w). apply wp_ret, Hf; [done|eauto with boot|perm].
  - apply wp_ret. change (ctrue XZTL_ZTL_MAP_ERR) with true. cbv iota. rel (w_held w). apply wp_ret, Hf; [done|eauto with boot|perm].
Qed.

Lemma wp_mpe_exit R w (Q : unit -> world -> Prop) : w_held w ≡ₚ mpe_res ++ R ->
  (forall w', same w w' -> w_held w' ≡ₚ R -> Q tt w') -> wp app_mpe_exit Q w.
Proof using.
  intros Hw HQ. unfold app_mpe_exit, app_exit_map_lock, mpe_res in *. apply wp_bind, wp_bind.
  eapply (wp_downto_release RMpeMutex _ ([RMpeMutexes; RMpeTbl] ++ R)); [perm|]. intros w1 ? ?.
  eapply (wp_release _ (RMpeTbl :: R)); [perm|]. intros w2 ? ?. eapply (wp_release _ R); [perm|]. intros w3 ? ?.
  apply HQ; [eauto with boot|done].
Qed.

(** * The mapping *)

(** A world that differs in the resources and the free list of cache [c] *)
Definition same_but_pages (c : nat) (w w' : world) : Prop :=
  stable w w' /\ w_ptr w' = w_ptr w /\ w_pools w' = w_pools w /\ (forall i, i <> c -> w_pages w' i = w_pages w i).

Lemma same_pages c w w' : same w w' -> same_but_pages c w w'.
Proof. intros (? & ? & Hp & ?). repeat split; try done. intros. by rewrite Hp. Qed.

Lemma same_pages_trans c w1 w2 w3 : same_but_pages c w1 w2 -> same_but_pages c w2 w3 -> same_but_pages c w1 w3.
Proof.
  intros (? & ? & ? & E1) (? & ? & ? & E2). split; [by eapply stable_trans|]. repeat split; try congruence.
  intros i Hi. by rewrite E2, E1.
Qed.

Lemma same_pages_set c x w : same_but_pages c w (w_set_pages w c x).
Proof. repeat split; try done. intros i Hi. cbn. by rewrite decide_False. Qed.

Definition cache_res (c : nat) (pages : list nat) : list resource := (RPage c <$> pages) ++ [RMapMutex c; RMbSpin c; RPgBuf c].

Lemma wp_drop_pages c i R w (Q : unit -> world -> Prop) : w_pages w c = rev (seq 0 i) -> w_held w ≡ₚ (RPage c <$> seq 0 i) ++ R ->
  (forall w', same_but_pages c w w' -> w_held w' ≡ₚ R -> Q tt w') -> wp (downto (drop_page c) i) Q w.
Proof using.
  revert w. induction i as [|i IH]; intros w Hp Hw HQ; cbn [downto].
  - apply wp_ret, HQ; [apply same_pages, same_refl|done].
  - rewrite seq_S, fmap_app in Hw. cbn [fmap list_fmap Nat.add] in Hw. rewrite seq_S, rev_app_distr in Hp. cbn in Hp.
    apply wp_bind. unfold drop_page. apply wp_bind, wp_gets. rewrite Hp. unfold tailq_remove.
    rewrite decide_True by left. cbn [remove_first]. rewrite decide_True by done.
    apply wp_bind, wp_put. eapply (wp_release _ ((RPage c <$> seq 0 i) ++ R)); [cbn [w_held w_set_pages]; perm|]. intros w1 S1 H1.
    apply IH; [|done|].
    + destruct S1 as (_ & _ & -> & _). cbn. by rewrite decide_True.
    + intros w2 S2 H2. apply HQ; [|done].
      eapply same_pages_trans; [apply same_pages_set|]. eapply same_pages_trans; [by apply same_pages|done].
Qed.

Lemma wp_map_pages c n i R w (Q : Z -> world -> Prop) : w_pages w c = rev (seq 0 i) ->
  w_held w ≡ₚ cache_res c (seq 0 i) ++ R ->
  (forall w', same_but_pages c w w' -> w_pages w' c = rev (seq 0 (i + n)) -> w_held w' ≡ₚ cache_res c (seq 0 (i + n)) ++ R -> Q 0 w') ->
  (forall ret w', ctrue ret = true -> same_but_pages c w w' -> w_held w' ≡ₚ R -> Q ret w') -> wp (map_pages ok c n i) Q w.
Proof using.
  revert i w. induction n as [|n IH]; intros i w Hp Hw Ht Hf; cbn [map_pages].
  - rewrite Nat.add_0_r in Ht. apply wp_ret, Ht; [apply same_pages, same_refl|done|done].
  - unfold cache_res in Hw. acq.
    + apply wp_bind, wp_put. match goal with H : same w ?w1 |- _ => set (w' := w1) in *; pose proof H as (_ & _ & Hp' & _) end.
      assert (same_but_pages c w (w_set_pages w' c (i :: w_pages w' c))) as HS.
      { eapply same_pages_trans; [by apply same_pages|apply same_pages_set]. }
      apply IH.
      * rewrite seq_S, rev_app_distr. cbn [w_pages w_set_pages]. rewrite decide_True by done. by rewrite Hp', Hp.
      * unfold cache_res. rewrite seq_S, fmap_app. cbn [fmap list_fmap Nat.add w_held w_set_pages]. perm.
      * intros w2 S2 P2 H2. rewrite Nat.add_succ_comm in P2, H2. apply Ht; [by eapply same_pages_trans|done|done].
      * intros ret w2 Hr S2 H2. apply Hf; [done|by eapply same_pages_trans|done].
    + match goal with H : same w ?w1 |- _ => pose proof H as (_ & _ & Hp' & _) end.
      apply wp_bind. eapply (wp_drop_pages c i ([RMapMutex c; RMbSpin c; RPgBuf c] ++ R)); [congruence|perm|]. intros w2 S2 H2.
      rel ([RMbSpin c; RPgBuf c] ++ R). rel (RPgBuf c :: R). rel R. apply wp_ret, Hf; [done| |perm].
      eapply same_pages_trans; [apply same_pages; eassumption|]. eapply same_pages_trans; [exact S2|]. apply same_pages. eauto with boot.
Qed.

Lemma wp_map_init_cache c w (Q : Z -> world -> Prop) :
  (forall w', same_but_pages c w w' -> w_pages w' c = rev (seq 0 MAP_BUF_PGS) -> w_held w' ≡ₚ cache_res c (seq 0 MAP_BUF_PGS) ++ w_held w -> Q 0 w') ->
  (forall ret w', ctrue ret = true -> same_but_pages c w w' -> w_held w' ≡ₚ w_held w -> Q ret w') -> wp (map_init_cache_res ok c) Q w.
Proof using.
  intros Ht Hf. unfold map_init_cache_res.
  acq; [|apply wp_ret, Hf; [done|apply same_pages; eauto with boot|perm]].
  acq; [|rel (w_held w); apply wp_ret, Hf; [done|apply same_pages; eauto with boot|perm]].
  acq; [|rel (RPgBuf c :: w_held w); rel (w_held w); apply wp_ret, Hf; [done|apply same_pages; eauto with boot|perm]].
  apply wp_bind, wp_put.
  match goal with |- wp _ _ (w_set_pages ?w1 _ _) => assert (same_but_pages c w (w_set_pages w1 c [])) as HS end.
  { eapply same_pages_trans; [|apply same_pages_set]. apply same_pages. eauto with boot. }
  apply (wp_map_pages c MAP_BUF_PGS 0 (w_held w)).
  - cbn. by rewrite decide_True.
  - unfold cache_res. cbn [seq fmap list_fmap app w_held w_set_pages]. perm.
  - intros w4 S4 P4 H4. apply Ht; [by eapply same_pages_trans|done|done].
  - intros ret w4 Hr S4 H4. apply Hf; [done|by eapply same_pages_trans|done].
Qed.

Definition map_res (pages : list nat) : list resource := cache_res 0 pages ++ [RMapCaches].

Lemma wp_map_init w (Q : Z -> world -> Prop) :
  (forall w', same_but_pages 0 w w' -> w_pages w' 0%nat = rev (seq 0 MAP_BUF_PGS) -> w_held w' ≡ₚ map_res (seq 0 MAP_BUF_PGS) ++ w_held w -> Q 0 w') ->
  (forall ret w', ctrue ret = true -> same_but_pages 0 w w' -> w_held w' ≡ₚ w_held w -> Q ret w') -> wp (map_init ok) Q w.
Proof using.
  intros Ht Hf. unfold map_init. acq; [|apply wp_ret, Hf; [done|apply same_pages; eauto with boot|perm]].
  apply wp_bind. cbn [MAP_N_CACHES for_ok]. apply wp_bind, wp_map_init_cache.
  - intros w2 S2 P2 H2. change (ctrue 0) with false. cbv iota. apply wp_ret. apply wp_ret, Ht; [|done|].
    + eapply same_pages_trans; [by apply same_pages|done].
    + unfold map_res. perm.
  - intros ret w2 Hr S2 H2. rewrite Hr. apply wp_ret. rewrite Hr. rel (w_held w). apply wp_ret, Hf; [done| |perm].
    eapply same_pages_trans; [by apply same_pages|]. eapply same_pages_trans; [exact S2|by apply same_pages].
Qed.

Lemma wp_map_exit_pages c l R w (Q : unit -> world -> Prop) : w_held w ≡ₚ (RPage c <$> l) ++ R ->
  (forall w', same_but_pages c w w' -> w_held w' ≡ₚ R -> Q tt w') -> wp (map_exit_pages c l) Q w.
Proof using.
  revert w. induction l as [|i l IH]; intros w Hw HQ; cbn [map_exit_pages].
  - apply wp_ret, HQ; [apply same_pages, same_refl|done].
  - cbn [fmap list_fmap] in Hw. apply wp_bind, wp_put. apply wp_bind.
    eapply (wp_release _ ((RPage c <$> l) ++ R)); [exact Hw|]. intros w1 S1 H1. apply IH; [done|]. intros w2 S2 H2. apply HQ; [|done].
    eapply same_pages_trans; [apply same_pages_set|]. eapply same_pages_trans; [by apply same_pages|done].
Qed.

(** The pages on the free list are released; a page in use is not among them. *)
Lemma wp_map_exit R w (Q : unit -> world -> Prop) : w_held w ≡ₚ map_res (w_pages w 0%nat) ++ R ->
  (forall w', same_but_pages 0 w w' -> w_held w' ≡ₚ R -> Q tt w') -> wp map_exit Q w.
Proof using.
  intros Hw HQ. unfold map_exit, map_exit_all_caches, map_res, cache_res in *. cbn [MAP_N_CACHES downto].
  apply wp_bind, wp_bind. unfold map_exit_cache. apply wp_bind, wp_gets. apply wp_bind.
  eapply (wp_map_exit_pages 0 _ ([RMapMutex 0; RMbSpin 0; RPgBuf 0; RMapCaches] ++ R)); [perm|]. intros w1 S1 H1.
  rel ([RMapMutex 0; RPgBuf 0; RMapCaches] ++ R). rel ([RPgBuf 0; RMapCaches] ++ R).
  eapply (wp_release _ (RMapCaches :: R)); [perm|]. intros w4 S4 H4. apply wp_ret.
  eapply (wp_release _ R); [perm|]. intros w5 S5 H5. apply HQ; [|done].
  eapply same_pages_trans; [exact S1|]. apply same_pages. eauto with boot.
Qed.

End BootOk.
