(* ===== verification/BootIo.v ===== *)
(** Start and stop of the I/O module (src/xztl/src/ztl-io.c): the writer queues with their threads
    and the read resources. *)

From S2P Require Import Prelude Types Options Map Boot BootLogic BootOk.

Lemma live_app p l k : live p (l ++ k) = live p l ++ live p k.
Proof. apply filter_app. Qed.

Lemma live_turns p l n i : turns (fun j => live p (l j)) n i = live p (turns l n i).
Proof. revert i. induction n as [|n IH]; intros i; [done|]. by rewrite !turns_S, live_app, IH. Qed.

Lemma live_sub p l r : r ∈ live p l -> r ∈ l.
Proof. unfold live. rewrite list_elem_of_filter. tauto. Qed.

(** * Commands and bounce buffers *)

Definition wptrs (level : nat) : list resource := turns (fun i => [RMcmd (Writer level) i]) RC_NUM 0.
Definition rptrs (rn : nat) : list resource := turns (fun i => [RMcmd (Reader rn) i; RPrp rn i]) RC_NUM 0.

Lemma wptrs_elem level r : r ∈ wptrs level -> exists i, r = RMcmd (Writer level) i.
Proof. intros (j & Hj & _)%turns_elem. exists j. set_solver. Qed.

Lemma rptrs_elem rn r : r ∈ rptrs rn -> exists i, r = RMcmd (Reader rn) i \/ r = RPrp rn i.
Proof. intros (j & Hj & _)%turns_elem. exists j. set_solver. Qed.

(** * One writer, one reader *)

Definition rs_res (level : nat) (p : resource -> bool) : list resource :=
  (ctx_res (Writer level) ++ [RProv level]) ++ live p (wptrs level).

Definition writer_res (level : nat) (p : resource -> bool) : list resource := [RWThread level; RUcmdSpin level] ++ rs_res level p.

Definition reader_res (rn : nat) (p : resource -> bool) : list resource := ctx_res (Reader rn) ++ live p (rptrs rn).

Lemma writer_local level : local (wptrs level) (writer_res level).
Proof. intros p q H. unfold writer_res, rs_res. by rewrite (live_local _ p q H). Qed.

Lemma reader_local rn : local (rptrs rn) (reader_res rn).
Proof. intros p q H. unfold reader_res. by rewrite (live_local _ p q H). Qed.

(** What belongs to the I/O module, the writer threads apart *)
Definition io_part (r : resource) : Prop :=
  match r with
  | RMcmd _ _ | RPrp _ _ | RTctx _ | RQpairSpin _ | RQueue _ | RProv _ | RUcmdSpin _ | RRsMutex => True
  | _ => False
  end.

Definition io_frame (w w' : world) : Prop := stable w w' /\ w_pages w' = w_pages w /\ w_pools w' = w_pools w.

Lemma io_frame_adds l g w w' : adds l g w w' -> io_frame w w'.
Proof. unfold adds, io_frame. tauto. Qed.

Lemma io_frame_same w w' : same w w' -> io_frame w w'.
Proof. unfold same, io_frame. tauto. Qed.

Lemma io_frame_trans w1 w2 w3 : io_frame w1 w2 -> io_frame w2 w3 -> io_frame w1 w3.
Proof. intros (? & ? & ?) (? & ? & ?). split; [by eapply stable_trans|split; congruence]. Qed.

(** A failed start that leaves parts behind, but no thread *)
Definition io_bad (w w' : world) : Prop :=
  exists L, w_held w' ≡ₚ L ++ w_held w /\ Forall io_part L /\ io_frame w w'.

Lemma adds_part g w1 w2 w3 l : adds l g w1 w2 -> same w2 w3 -> w_held w3 ≡ₚ w_held w2 -> Forall io_part (g (w_ptr w2)) -> io_bad w1 w3.
Proof.
  intros A S H HF. pose proof A as (HA & _). exists (g (w_ptr w2)). split; [by rewrite H, HA|]. split; [done|].
  eapply io_frame_trans; [by eapply io_frame_adds|by apply io_frame_same].
Qed.

Lemma live_part p l : Forall io_part l -> Forall io_part (live p l).
Proof. rewrite !Forall_forall. intros H r Hr. by apply H, (live_sub p). Qed.

Lemma wptrs_part level : Forall io_part (wptrs level).
Proof. apply Forall_forall. intros r (i & ->)%wptrs_elem. done. Qed.

Lemma rptrs_part rn : Forall io_part (rptrs rn).
Proof. apply Forall_forall. intros r (i & [-> | ->])%rptrs_elem; done. Qed.

Lemma adds_more k l g w1 w2 w3 : adds l g w1 w2 -> same w2 w3 -> w_held w3 ≡ₚ k ++ w_held w2 -> adds l (fun p => k ++ g p) w1 w3.
Proof.
  intros (H1 & P1 & S1 & G1 & L1) (S2 & P2 & G2 & L2) H. split; [|split; [|split; [|split]]].
  - rewrite P2. perm.
  - intros r Hr. by rewrite P2, P1.
  - by eapply stable_trans.
  - congruence.
  - congruence.
Qed.

(** * The module *)

Definition io_ptrs (n : nat) : list resource := turns wptrs LEVELS 0 ++ turns rptrs n 0.

Definition io_res (n : nat) (p : resource -> bool) : list resource :=
  RRsMutex :: turns (fun l => writer_res l p) LEVELS 0 ++ turns (fun r => reader_res r p) n 0.

Lemma wptrs_disj j k : j <> k -> wptrs j ## wptrs k.
Proof. intros Hjk r (i & ->)%wptrs_elem (i' & [=])%wptrs_elem. congruence. Qed.

Lemma rptrs_disj j k : j <> k -> rptrs j ## rptrs k.
Proof. intros Hjk r (i & [-> | ->])%rptrs_elem (i' & [[=] | [=]])%rptrs_elem; congruence. Qed.

Lemma io_ptrs_disj n m : turns wptrs n 0 ## turns rptrs m 0.
Proof.
  intros r (j & Hj & _)%turns_elem (k & Hk & _)%turns_elem.
  apply wptrs_elem in Hj as (i & ->). apply rptrs_elem in Hk as (i' & [[=] | [=]]).
Qed.

(** A failed start of the module: [k] writer threads run, and parts of the module are left. *)
Definition io_fail (w w' : world) : Prop :=
  exists k L, w_held w' ≡ₚ L ++ w_held w /\ io_frame w w' /\ (k <= LEVELS)%nat /\
    Forall (fun r => io_part r \/ exists l, (l < k)%nat /\ r = RWThread l) L /\ (forall l, (l < k)%nat -> RWThread l ∈ L).

Lemma writer_parts level p : Forall (fun r => io_part r \/ r = RWThread level) (writer_res level p).
Proof.
  unfold writer_res, rs_res. repeat (apply Forall_cons; split; [by (left + right)|]).
  apply Forall_impl with io_part; [apply live_part, wptrs_part|by left].
Qed.

Lemma writers_parts k p : Forall (fun r => io_part r \/ exists l, (l < k)%nat /\ r = RWThread l) (turns (fun l => writer_res l p) k 0).
Proof.
  apply Forall_forall. intros r (j & Hj & ?)%turns_elem. pose proof (writer_parts j p) as HF. rewrite Forall_forall in HF.
  destruct (HF r Hj) as [?| ->]; [by left|]. right. exists j. split; [lia|done].
Qed.

Lemma writers_threads k p l : (l < k)%nat -> RWThread l ∈ turns (fun l => writer_res l p) k 0.
Proof. intros Hl. apply turns_elem. exists l. split; [left|lia]. Qed.

Lemma readers_parts k p : Forall io_part (turns (fun r => reader_res r p) k 0).
Proof.
  apply Forall_forall. intros r (j & Hj & ?)%turns_elem. unfold reader_res in Hj. apply elem_of_app in Hj as [Hj|Hj].
  - set_solver.
  - pose proof (live_part p _ (rptrs_part j)) as HF. rewrite Forall_forall in HF. by apply HF.
Qed.

Lemma io_bad_fail k l g w w1 w' : adds l g w w1 -> io_bad w1 w' -> (k <= LEVELS)%nat ->
  Forall (fun r => io_part r \/ exists l, (l < k)%nat /\ r = RWThread l) (g (w_ptr w1)) ->
  (forall l, (l < k)%nat -> RWThread l ∈ g (w_ptr w1)) -> io_fail w w'.
Proof.
  intros A (L & HL & FL & S) Hk HF HT. pose proof A as (HA & _). exists k, (L ++ g (w_ptr w1)). split_and!; [perm| |done| |].
  - eapply io_frame_trans; [by eapply io_frame_adds|done].
  - apply Forall_app. split; [|done]. eapply Forall_impl; [exact FL|]. by left.
  - intros l' Hl. apply elem_of_app. right. by apply HT.
Qed.

Section BootIo.

Context (ok : nat -> bool) (term_ok : owner -> bool).

Lemma wp_alloc_mcmds level w (Q : unit -> world -> Prop) :
  (forall w', adds (wptrs level) (fun p => live p (wptrs level)) w w' -> Q tt w') ->
  wp (for_all (fun i => alloc_ptr ok (RMcmd (Writer level) i)) RC_NUM 0) Q w.
Proof using.
  intros HQ. apply (wp_for_all_adds (fun i => [RMcmd (Writer level) i]) (fun i p => live p [RMcmd (Writer level) i])).
  - intros j k Hjk. set_solver.
  - intros j. apply live_local.
  - intros j w1 Q1 H1. by apply wp_alloc.
  - intros w' H. apply HQ. eapply adds_perm; [|exact H]. intros p. unfold gturns. by rewrite live_turns.
Qed.

Lemma wp_alloc_bufs rn w (Q : unit -> world -> Prop) :
  (forall w', adds (rptrs rn) (fun p => live p (rptrs rn)) w w' -> Q tt w') ->
  wp (for_all (fun i => alloc_ptr ok (RMcmd (Reader rn) i) ;; alloc_ptr ok (RPrp rn i)) RC_NUM 0) Q w.
Proof using.
  intros HQ. apply (wp_for_all_adds (fun i => [RMcmd (Reader rn) i; RPrp rn i]) (fun i p => live p [RMcmd (Reader rn) i; RPrp rn i])).
  - intros j k Hjk. set_solver.
  - intros j. apply live_local.
  - intros j w1 Q1 H1. apply wp_bind, wp_alloc. intros w2 A2. apply wp_alloc. intros w3 A3. apply H1.
    assert ([RMcmd (Reader rn) j] ## [RPrp rn j]) as Hd by set_solver.
    eapply adds_perm; [|exact (adds_app _ _ _ _ _ _ _ Hd (live_local _) A2 A3)].
    intros p. cbv beta. by rewrite <- live_app.
  - intros w' H. apply HQ. eapply adds_perm; [|exact H]. intros p. unfold gturns. by rewrite live_turns.
Qed.

Lemma wp_free_mcmds level R w (Q : unit -> world -> Prop) : w_held w ≡ₚ live (w_ptr w) (wptrs level) ++ R ->
  (forall w', same w w' -> w_held w' ≡ₚ R -> Q tt w') -> wp (for_all (fun i => free_ptr (RMcmd (Writer level) i)) RC_NUM 0) Q w.
Proof using.
  intros Hw HQ. apply (wp_for_all_frees (fun i p => live p [RMcmd (Writer level) i]) _ _ _ R); [| |done].
  - intros j R' w1 Q1 _ H1 HQ1. by apply (wp_free _ R').
  - unfold gturns. by rewrite live_turns.
Qed.

Lemma wp_free_bufs rn R w (Q : unit -> world -> Prop) : w_held w ≡ₚ live (w_ptr w) (rptrs rn) ++ R ->
  (forall w', same w w' -> w_held w' ≡ₚ R -> Q tt w') ->
  wp (for_all (fun i => free_ptr (RMcmd (Reader rn) i) ;; free_ptr (RPrp rn i)) RC_NUM 0) Q w.
Proof using.
  intros Hw HQ. apply (wp_for_all_frees (fun i p => live p [RMcmd (Reader rn) i; RPrp rn i]) _ _ _ R); [| |done].
  - intros j R' w1 Q1 _ H1 HQ1. assert (w_held w1 ≡ₚ live (w_ptr w1) [RMcmd (Reader rn) j] ++ live (w_ptr w1) [RPrp rn j] ++ R') as H1'.
    { rewrite app_assoc, <- live_app. exact H1. }
    apply wp_bind. eapply wp_free; [exact H1'|]. intros w2 S2 H2. pose proof S2 as (_ & HP & _).
    apply (wp_free _ R'); [by rewrite HP|]. intros w3 S3 H3. apply HQ1; [by eapply same_trans|done].
  - unfold gturns. by rewrite live_turns.
Qed.

Lemma wp_write_rs_init level w (Q : Z -> world -> Prop) :
  (forall w', adds (wptrs level) (rs_res level) w w' -> Q 0 w') ->
  (forall ret w', ctrue ret = true -> io_bad w w' -> Q ret w') -> wp (ztl_io_write_rs_init ok level) Q w.
Proof using.
  intros Ht Hf. unfold ztl_io_write_rs_init. apply wp_bind, wp_alloc_mcmds. intros w1 A1.
  assert (forall p, Forall io_part (live p (wptrs level))) as Hp by (intros; apply live_part, wptrs_part).
  acq; [|apply wp_ret, Hf; [done|eapply adds_part; [exact A1|done|done|apply Hp]]].
  assert (adds (wptrs level) (fun p => [RProv level] ++ live p (wptrs level)) w w0) as A2 by (by eapply adds_more).
  apply wp_bind, wp_ctx_init; intros w2 S2 H2; cbn [negb]; cbv iota; apply wp_ret.
  - apply Ht. eapply adds_perm; [|by eapply (adds_more (ctx_res (Writer level)))]. intros p. unfold rs_res. by rewrite <- app_assoc.
  - apply Hf; [done|]. eapply adds_part; [exact A2|done|done|]. constructor; [done|apply Hp].
Qed.

Context (Hterm : forall o, term_ok o = true).

Lemma wp_write_rs_exit level R w (Q : unit -> world -> Prop) : w_held w ≡ₚ rs_res level (w_ptr w) ++ R ->
  (forall w', same w w' -> w_held w' ≡ₚ R -> Q tt w') -> wp (ztl_io_write_rs_exit term_ok level) Q w.
Proof using Hterm.
  intros Hw HQ. unfold ztl_io_write_rs_exit, rs_res in *. apply wp_bind.
  eapply (wp_ctx_exit term_ok _ ([RProv level] ++ live (w_ptr w) (wptrs level) ++ R)); [apply Hterm|perm|]. intros w1 S1 H1.
  rel (live (w_ptr w) (wptrs level) ++ R). pose proof S1 as (_ & P1 & _). pose proof Sr as (_ & P2 & _).
  eapply (wp_free_mcmds level R); [by rewrite P2, P1|]. intros w3 S3 H3. apply HQ; [eauto with boot|done].
Qed.

Lemma undone l g w1 w2 w3 : adds l g w1 w2 -> same w2 w3 -> w_held w3 ≡ₚ w_held w1 -> io_bad w1 w3.
Proof.
  intros A S H. exists []. split; [done|]. split; [constructor|].
  eapply io_frame_trans; [by eapply io_frame_adds|by apply io_frame_same].
Qed.

Lemma wp_w_queue_init level w (Q : Z -> world -> Prop) :
  (forall w', adds (wptrs level) (writer_res level) w w' -> Q 0 w') ->
  (forall ret w', ctrue ret = true -> io_bad w w' -> Q ret w') -> wp (ztl_io_w_queue_init ok term_ok level) Q w.
Proof using Hterm.
  intros Ht Hf. unfold ztl_io_w_queue_init. apply wp_bind, wp_write_rs_init.
  2: { intros ret w1 Hr Hb. rewrite Hr. by apply wp_ret, Hf. }
  intros w1 A1. change (ctrue 0) with false. cbv iota. pose proof A1 as (H1 & _).
  acq.
  - pose proof Sa as (_ & P2 & _). acq.
    + apply wp_ret, Ht. eapply (adds_more [RWThread level; RUcmdSpin level]); [exact A1|eauto with boot|perm].
    + rel (w_held w1). pose proof Sa0 as (_ & P3 & _). pose proof Sr as (_ & P4 & _). apply wp_bind.
      eapply (wp_write_rs_exit level (w_held w)); [rewrite P4, P3, P2; perm|]. intros w5 S5 H5.
      apply wp_ret, Hf; [done|]. eapply undone; [exact A1|eauto with boot|done].
  - pose proof Sa as (_ & P2 & _). apply wp_bind.
    eapply (wp_write_rs_exit level (w_held w)); [rewrite P2; perm|]. intros w5 S5 H5.
    apply wp_ret, Hf; [done|]. eapply undone; [exact A1|eauto with boot|done].
Qed.

Lemma wp_w_queue_exit level R w (Q : unit -> world -> Prop) : w_held w ≡ₚ writer_res level (w_ptr w) ++ R ->
  (forall w', same w w' -> w_held w' ≡ₚ R -> Q tt w') -> wp (ztl_io_w_queue_exit term_ok level) Q w.
Proof using Hterm.
  intros Hw HQ. unfold ztl_io_w_queue_exit, writer_res in *. cbn [app] in Hw.
  rel (RUcmdSpin level :: rs_res level (w_ptr w) ++ R). rel (rs_res level (w_ptr w) ++ R).
  pose proof Sr as (_ & P1 & _). pose proof Sr0 as (_ & P2 & _).
  eapply (wp_write_rs_exit level R); [by rewrite P2, P1|]. intros w3 S3 H3. apply HQ; [eauto with boot|done].
Qed.

Lemma wp_read_rs_init rn w (Q : Z -> world -> Prop) : Z.of_nat rn < XZTL_READ_RS_NUM ->
  (forall w', adds (rptrs rn) (reader_res rn) w w' -> Q 0 w') ->
  (forall ret w', ctrue ret = true -> io_bad w w' -> Q ret w') -> wp (ztl_io_read_rs_init ok rn) Q w.
Proof using.
  intros Hrn Ht Hf. unfold ztl_io_read_rs_init. rewrite (proj2 (Z.ltb_lt _ _) Hrn). cbn [negb]. cbv iota.
  apply wp_bind, wp_alloc_bufs. intros w1 A1. apply wp_bind, wp_ctx_init; intros w2 S2 H2; cbn [negb]; cbv iota; apply wp_ret.
  - apply Ht. by eapply (adds_more (ctx_res (Reader rn))).
  - apply Hf; [done|]. eapply adds_part; [exact A1|done|done|]. apply live_part, rptrs_part.
Qed.

Lemma wp_read_rs_exit rn R w (Q : unit -> world -> Prop) : Z.of_nat rn < XZTL_READ_RS_NUM -> w_held w ≡ₚ reader_res rn (w_ptr w) ++ R ->
  (forall w', same w w' -> w_held w' ≡ₚ R -> Q tt w') -> wp (ztl_io_read_rs_exit term_ok rn) Q w.
Proof using Hterm.
  intros Hrn Hw HQ. unfold ztl_io_read_rs_exit, reader_res in *. rewrite (proj2 (Z.ltb_lt _ _) Hrn). cbn [negb]. cbv iota.
  apply wp_bind. eapply (wp_ctx_exit term_ok _ (live (w_ptr w) (rptrs rn) ++ R)); [apply Hterm|perm|]. intros w1 S1 H1.
  pose proof S1 as (_ & P1 & _). eapply (wp_free_bufs rn R); [by rewrite P1|]. intros w3 S3 H3. apply HQ; [eauto with boot|done].
Qed.

Lemma wp_io_init w (Q : Z -> world -> Prop) : w_read_ctx_num w <= XZTL_READ_RS_NUM ->
  (forall w', adds (io_ptrs (Z.to_nat (w_read_ctx_num w))) (io_res (Z.to_nat (w_read_ctx_num w))) w w' -> Q 0 w') ->
  (forall ret w', ctrue ret = true -> io_fail w w' -> Q ret w') -> wp (ztl_io_init ok term_ok) Q w.
Proof using Hterm.
  intros Hn Ht Hf. unfold ztl_io_init. apply wp_bind.
  apply (wp_for_ok wptrs writer_res wptrs_disj writer_local (fun _ => io_bad)).
  { intros j w1 Q1 _ H1 H2. by apply wp_w_queue_init. }
  2: { intros ret k w1 w2 Hr Hk A1 Hb. rewrite Hr. apply wp_ret, Hf; [done|].
       eapply (io_bad_fail k); [exact A1|exact Hb|lia|apply writers_parts|apply writers_threads]. }
  intros w1 A1. change (ctrue 0) with false. cbv iota. apply wp_bind, wp_gets.
  replace (w_read_ctx_num w1) with (w_read_ctx_num w) by (destruct A1 as (_ & _ & S & _); by injection S).
  pose proof (gturns_local wptrs writer_res writer_local LEVELS 0) as HL1.
  apply wp_bind. apply (wp_for_ok rptrs reader_res rptrs_disj reader_local (fun _ => io_bad)).
  { intros j w2 Q2 Hj H1 H2. apply wp_read_rs_init; [unfold XZTL_READ_RS_NUM in *; lia|done|done]. }
  - intros w2 A2. change (ctrue 0) with false. cbv iota.
    pose proof (adds_app _ _ _ _ _ _ _ (io_ptrs_disj _ _) HL1 A1 A2) as A. acq; apply wp_ret.
    + apply Ht. eapply (adds_more [RRsMutex]); [exact A|done|done].
    + apply Hf; [done|]. eapply (io_bad_fail LEVELS); [exact A| |lia| |].
      * exists []. split; [done|]. split; [constructor|by apply io_frame_same].
      * apply Forall_app. split; [apply writers_parts|]. eapply Forall_impl; [apply readers_parts|]. by left.
      * intros l Hl. apply elem_of_app. left. by apply writers_threads.
  - intros ret k w2 w3 Hr Hk A2 Hb. rewrite Hr. apply wp_ret, Hf; [done|].
    pose proof (adds_app _ _ _ _ _ _ _ (io_ptrs_disj _ _) HL1 A1 A2) as A.
    eapply (io_bad_fail LEVELS); [exact A|exact Hb|lia| |].
    + apply Forall_app. split; [apply writers_parts|]. eapply Forall_impl; [apply readers_parts|]. by left.
    + intros l Hl. apply elem_of_app. left. by apply writers_threads.
Qed.

Lemma wp_io_exit R w (Q : unit -> world -> Prop) : w_read_ctx_num w <= XZTL_READ_RS_NUM ->
  w_held w ≡ₚ io_res (Z.to_nat (w_read_ctx_num w)) (w_ptr w) ++ R ->
  (forall w', same w w' -> w_held w' ≡ₚ R -> Q tt w') -> wp (ztl_io_exit term_ok) Q w.
Proof using Hterm.
  intros Hn Hw HQ. unfold ztl_io_exit, io_res in *. set (n := Z.to_nat (w_read_ctx_num w)) in *. apply wp_bind.
  eapply (wp_for_all_frees writer_res _ _ _ ([RRsMutex] ++ turns (fun r => reader_res r (w_ptr w)) n 0 ++ R)).
  { intros j R' w1 Q1 _ H1 HQ1. by apply (wp_w_queue_exit j R'). }
  { unfold gturns. perm. }
  intros w1 S1 H1. rel (turns (fun r => reader_res r (w_ptr w)) n 0 ++ R).
  assert (same w w0) as S by eauto with boot. apply wp_bind, wp_gets.
  replace (w_read_ctx_num w0) with (w_read_ctx_num w) by (destruct S as (S & _); by injection S). pose proof S as (_ & P & _).
  eapply (wp_for_all_frees reader_res _ _ _ R).
  { intros j R' w2 Q2 Hj H2 HQ2. apply (wp_read_rs_exit j R'); [unfold XZTL_READ_RS_NUM in *; lia|done|done]. }
  { unfold gturns. by rewrite P. }
  intros w2 S2 H2. apply HQ; [eauto with boot|done].
Qed.

End BootIo.
