(* ===== verification/BootStart.v ===== *)
(** Start and stop of groups, provisioning and management, and of the library as a whole. *)

From S2P Require Import Prelude Types Options Map Boot BootLogic BootOk BootIo.

#[local] Opaque MAP_BUF_PGS ZTL_MPE_CPGS RC_NUM.

(** * Loops that release *)

Lemma turns_snoc {A} (g : nat -> list A) n i : turns g (S n) i = turns g n i ++ g (i + n)%nat.
Proof. unfold turns. rewrite seq_S, fmap_app, join_app. cbn. by rewrite app_nil_r. Qed.

Lemma wp_downto_frees (g : nat -> list resource) body n R w (Q : unit -> world -> Prop) :
  (forall j R w (Q : unit -> world -> Prop), w_held w ≡ₚ g j ++ R -> (forall w', same w w' -> w_held w' ≡ₚ R -> Q tt w') -> wp (body j) Q w) ->
  w_held w ≡ₚ turns g n 0 ++ R -> (forall w', same w w' -> w_held w' ≡ₚ R -> Q tt w') -> wp (downto body n) Q w.
Proof.
  intros Hb. revert w. induction n as [|n IH]; intros w Hw HQ; cbn [downto].
  - by apply wp_ret, HQ.
  - rewrite turns_snoc in Hw. cbn [Nat.add] in Hw. apply wp_bind. apply (Hb n (turns g n 0 ++ R)); [perm|]. intros w1 S1 H1.
    apply IH; [done|]. intros w2 S2 H2. apply HQ; [eauto 15 with boot|done].
Qed.

(** * Pools *)

Definition same_but_pools (w w' : world) : Prop := stable w w' /\ w_ptr w' = w_ptr w /\ w_pages w' = w_pages w.

Lemma same_pools w w' : same w w' -> same_but_pools w w'.
Proof. intros (? & ? & ? & ?). by repeat split. Qed.

Lemma same_pools_trans w1 w2 w3 : same_but_pools w1 w2 -> same_but_pools w2 w3 -> same_but_pools w1 w3.
Proof. intros (? & ? & ?) (? & ? & ?). split; [by eapply stable_trans|split; congruence]. Qed.

Lemma wp_mp_create ok t w (Q : Z -> world -> Prop) : t ∉ w_pools w ->
  (forall w', same_but_pools w w' -> w_pools w' = t :: w_pools w -> w_held w' ≡ₚ RPool t :: w_held w -> Q 0 w') ->
  (forall ret w', ctrue ret = true -> same w w' -> w_held w' ≡ₚ w_held w -> Q ret w') -> wp (mp_create ok t) Q w.
Proof.
  intros Ht H0 H1. unfold mp_create. apply wp_bind, wp_gets. rewrite decide_False by done.
  acq; [|apply wp_ret, H1; done]. apply wp_bind, wp_put, wp_ret, H0.
  - apply same_pools in Sa as (? & ? & ?). by repeat split.
  - destruct Sa as (_ & _ & _ & ->). done.
  - done.
Qed.

Lemma wp_mp_destroy t ps R w (Q : unit -> world -> Prop) : w_pools w = t :: ps -> w_held w ≡ₚ RPool t :: R ->
  (forall w', same_but_pools w w' -> w_pools w' = ps -> w_held w' ≡ₚ R -> Q tt w') -> wp (mp_destroy t) Q w.
Proof.
  intros Hp Hw HQ. unfold mp_destroy. apply wp_bind, wp_gets. rewrite Hp, decide_True by left.
  apply wp_bind, wp_put. eapply (wp_release _ R); [done|]. intros w1 S1 H1. apply HQ; [|destruct S1 as (_ & _ & _ & ->)|done].
  - apply same_pools in S1 as (S & ? & ?). by repeat split.
  - cbn [w_pools w_set_pools]. rewrite Hp. apply remove_first_head.
Qed.

Lemma wp_mp_destroy_none t w (Q : unit -> world -> Prop) : t ∉ w_pools w -> Q tt w -> wp (mp_destroy t) Q w.
Proof. intros Ht HQ. unfold mp_destroy. apply wp_bind, wp_gets. rewrite decide_False by done. by apply wp_ret. Qed.

Lemma wp_mp_exit_none w (Q : unit -> world -> Prop) : w_pools w = [] -> Q tt w -> wp mp_exit Q w.
Proof.
  intros Hp HQ. unfold mp_exit. cbn [for_all]. do 5 (apply wp_bind, wp_mp_destroy_none; [rewrite Hp; apply not_elem_of_nil|]).
  by apply wp_ret.
Qed.

(** * Groups *)

Definition zmd_res (i : nat) : list resource := [RReport i; RZmdTbl i].

Lemma stable_grps w w' : stable w w' -> w_grps w' = w_grps w.
Proof. intros S. by injection S. Qed.

Lemma stable_ngrps w w' : stable w w' -> w_ngrps w' = w_ngrps w.
Proof. intros S. by injection S. Qed.

Lemma stable_mods w w' : stable w w' -> w_mods w' = w_mods w.
Proof. intros S. by injection S. Qed.

Lemma stable_core w w' : stable w w' -> w_core w' = w_core w.
Proof. intros S. by injection S. Qed.

Lemma stable_read w w' : stable w w' -> w_read_ctx_num w' = w_read_ctx_num w.
Proof. intros S. by injection S. Qed.

(** The members other than the list of groups *)
Definition same_but_grps (w w' : world) : Prop :=
  (w_dev w', w_dev_read w', w_core w', w_read_ctx_num w', w_ngrps w', w_mods w') = (w_dev w, w_dev_read w, w_core w, w_read_ctx_num w, w_ngrps w, w_mods w) /\
  w_ptr w' = w_ptr w /\ w_pages w' = w_pages w /\ w_pools w' = w_pools w.

Lemma same_grps w w' : same w w' -> same_but_grps w w'.
Proof. intros (S & ? & ? & ?). unfold stable, rest in S. repeat split; congruence. Qed.

Lemma same_grps_trans w1 w2 w3 : same_but_grps w1 w2 -> same_but_grps w2 w3 -> same_but_grps w1 w3.
Proof. intros (? & ? & ? & ?) (? & ? & ? & ?). repeat split; congruence. Qed.

Lemma same_grps_set w x : same_but_grps w (w_set_grps w x).
Proof. by repeat split. Qed.

Lemma wp_groups_free_loop l R w (Q : unit -> world -> Prop) : w_held w ≡ₚ (RGrp <$> l) ++ R -> w_grps w = l ->
  (forall w', same_but_grps w w' -> w_grps w' = [] -> w_held w' ≡ₚ R -> Q tt w') -> wp (groups_free_loop l) Q w.
Proof.
  revert w. induction l as [|i l IH]; intros w Hw Hg HQ; cbn [groups_free_loop].
  - apply wp_ret, HQ; [apply same_grps, same_refl|done|done].
  - cbn [fmap list_fmap] in Hw. apply wp_bind, wp_put, wp_bind. eapply (wp_release _ ((RGrp <$> l) ++ R)); [exact Hw|]. intros w1 S1 H1.
    apply IH; [done|by rewrite (stable_grps _ _ (proj1 S1))|]. intros w2 S2 G2 H2. apply HQ; [|done|done].
    eapply same_grps_trans; [apply same_grps_set|]. eapply same_grps_trans; [by apply same_grps|done].
Qed.

Lemma wp_groups_free R w (Q : unit -> world -> Prop) : w_held w ≡ₚ (RGrp <$> w_grps w) ++ R ->
  (forall w', same_but_grps w w' -> w_grps w' = [] -> w_held w' ≡ₚ R -> Q tt w') -> wp groups_free Q w.
Proof. intros Hw HQ. apply wp_bind, wp_gets. by apply (wp_groups_free_loop _ R). Qed.

Lemma wp_zmd_exit_loop l R w (Q : unit -> world -> Prop) : w_held w ≡ₚ (l ≫= zmd_res) ++ R ->
  (forall w', same w w' -> w_held w' ≡ₚ R -> Q tt w') -> wp (groups_zmd_exit_loop l) Q w.
Proof.
  revert w. induction l as [|i l IH]; intros w Hw HQ; cbn [groups_zmd_exit_loop].
  - by apply wp_ret, HQ.
  - rewrite bind_cons in Hw. unfold zmd_res at 1 in Hw. rel (RZmdTbl i :: (l ≫= zmd_res) ++ R). rel ((l ≫= zmd_res) ++ R).
    apply IH; [done|]. intros w2 S2 H2. apply HQ; [eauto 15 with boot|done].
Qed.

Definition groups_res (l : list nat) : list resource := (RGrp <$> l) ++ (l ≫= zmd_res).

Lemma wp_groups_exit R w (Q : unit -> world -> Prop) : w_held w ≡ₚ groups_res (w_grps w) ++ R ->
  (forall w', same_but_grps w w' -> w_grps w' = [] -> w_held w' ≡ₚ R -> Q tt w') -> wp groups_exit Q w.
Proof.
  intros Hw HQ. unfold groups_exit, groups_res in *. apply wp_bind. unfold groups_zmd_exit. apply wp_bind, wp_gets.
  eapply (wp_zmd_exit_loop _ ((RGrp <$> w_grps w) ++ R)); [perm|]. intros w1 S1 H1.
  eapply (wp_groups_free R); [by rewrite (stable_grps _ _ (proj1 S1))|]. intros w2 S2 G2 H2. apply HQ; [|done|done].
  eapply same_grps_trans; [by apply same_grps|done].
Qed.

Lemma rev_seq_S i : rev (seq 0 (S i)) = i :: rev (seq 0 i).
Proof. by rewrite seq_S, rev_app_distr. Qed.

Lemma groups_res_cons i l : groups_res (i :: l) ≡ₚ [RGrp i; RReport i; RZmdTbl i] ++ groups_res l.
Proof. unfold groups_res. rewrite bind_cons. cbn [fmap list_fmap]. unfold zmd_res at 1. perm. Qed.

Lemma wp_zmd_init ok i w (Q : Z -> world -> Prop) :
  (forall w', same w w' -> w_held w' ≡ₚ zmd_res i ++ w_held w -> Q 0 w') ->
  (forall ret w', ctrue ret = true -> same w w' -> w_held w' ≡ₚ w_held w -> Q ret w') -> wp (boot_groups_zmd_init ok i) Q w.
Proof.
  intros H0 H1. unfold boot_groups_zmd_init. acq; [|apply wp_ret, H1; done].
  acq; [apply wp_ret, H0; [eauto 15 with boot|unfold zmd_res; perm]|].
  rel (w_held w). apply wp_ret, H1; [done|eauto 15 with boot|done].
Qed.

(** The loop over the groups: all are started; or the group itself cannot be allocated and the groups
    before it stay; or its metadata fails, and the groups are freed but not their metadata. *)
Lemma wp_groups_start ok n i R w (Q : Z -> world -> Prop) :
  w_grps w = rev (seq 0 i) -> w_held w ≡ₚ groups_res (rev (seq 0 i)) ++ R ->
  (forall w', same_but_grps w w' -> w_grps w' = rev (seq 0 (i + n)) -> w_held w' ≡ₚ groups_res (rev (seq 0 (i + n))) ++ R -> Q (Z.of_nat (i + n)) w') ->
  (forall k w', (k < i + n)%nat -> same_but_grps w w' -> w_grps w' = rev (seq 0 k) -> w_held w' ≡ₚ groups_res (rev (seq 0 k)) ++ R -> Q XZTL_ZTL_GROUP_ERR w') ->
  (forall k w', (k < i + n)%nat -> same_but_grps w w' -> w_grps w' = [] -> w_held w' ≡ₚ RGrp k :: (rev (seq 0 k) ≫= zmd_res) ++ R -> Q XZTL_ZTL_GROUP_ERR w') ->
  wp (groups_start ok n i) Q w.
Proof.
  revert i w. induction n as [|n IH]; intros i w Hg Hw Ht Ha Hz; cbn [groups_start].
  - rewrite Nat.add_0_r in Ht. apply wp_ret, Ht; [apply same_grps, same_refl|done|done].
  - acq; [|apply wp_ret, (Ha i); [lia|by apply same_grps|by rewrite (stable_grps _ _ (proj1 Sa))|perm]].
    apply wp_bind, wp_zmd_init.
    + intros w2 S2 H2. change (ctrue 0) with false. cbv iota. apply wp_bind, wp_put.
      assert (same_but_grps w (w_set_grps w2 (i :: w_grps w2))) as HS.
      { eapply same_grps_trans; [|apply same_grps_set]. apply same_grps. eauto 15 with boot. }
      assert (w_grps w2 = rev (seq 0 i)) as G2 by (by rewrite (stable_grps _ _ (proj1 S2)), (stable_grps _ _ (proj1 Sa))).
      apply IH.
      * cbn [w_grps w_set_grps]. by rewrite rev_seq_S, G2.
      * cbn [w_held w_set_grps]. rewrite rev_seq_S, groups_res_cons. unfold zmd_res in H2. perm.
      * intros w3 S3 G3 H3. rewrite Nat.add_succ_comm in *. apply Ht; [by eapply same_grps_trans|done|done].
      * intros k w3 Hk S3 G3 H3. apply (Ha k); [lia|by eapply same_grps_trans|done|done].
      * intros k w3 Hk S3 G3 H3. apply (Hz k); [lia|by eapply same_grps_trans|done|done].
    + intros ret w2 Hr S2 H2. rewrite Hr. apply wp_bind. unfold groups_res in Hw.
      assert (w_grps w2 = rev (seq 0 i)) as G2 by (by rewrite (stable_grps _ _ (proj1 S2)), (stable_grps _ _ (proj1 Sa))).
      eapply (wp_groups_free (RGrp i :: (rev (seq 0 i) ≫= zmd_res) ++ R)); [rewrite G2; perm|]. intros w3 S3 G3 H3.
      apply wp_ret, (Hz i); [lia| |done|done]. eapply same_grps_trans; [|exact S3]. apply same_grps. eauto 15 with boot.
Qed.

(** * Provisioning *)

Definition pro_res (i : nat) : list resource := [RSpinUsed i; RSpinFull i; RSpinFree i; RVzones i; RVnodes i; RPro i].
Definition md_res : list resource := [RMdMutex; RMdZones].

(** What a failed start of the provisioning can leave: the metadata zones' array and mutex, which nothing
    releases, and the locks of the node group whose initialisation failed half way. *)
Definition pro_left (r : resource) : Prop :=
  match r with RMdMutex | RMdZones | RSpinFree _ | RSpinFull _ => True | _ => False end.

Lemma wp_new_pro ok i w (Q : bool -> world -> Prop) :
  (forall w', same w w' -> w_held w' ≡ₚ pro_res i ++ w_held w -> Q true w') ->
  (forall L w', Forall pro_left L -> same w w' -> w_held w' ≡ₚ L ++ w_held w -> Q false w') -> wp (new_pro_res ok i) Q w.
Proof.
  intros Ht Hf. unfold new_pro_res. acq; [|apply wp_ret, (Hf []); [constructor|done|done]].
  acq; [|rel (w_held w); apply wp_ret, (Hf []); [constructor|eauto 15 with boot|done]].
  acq; [|rel (RPro i :: w_held w); rel (w_held w); apply wp_ret, (Hf []); [constructor|eauto 15 with boot|done]].
  cbv zeta. acq.
  2: { rel ([RVnodes i; RPro i] ++ w_held w). rel (RPro i :: w_held w). rel (w_held w). apply wp_ret, (Hf []); [constructor|eauto 15 with boot|done]. }
  acq.
  2: { rel ([RVnodes i; RPro i; RSpinFree i] ++ w_held w). rel ([RPro i; RSpinFree i] ++ w_held w). rel (RSpinFree i :: w_held w).
       apply wp_ret, (Hf [RSpinFree i]); [by repeat constructor|eauto 15 with boot|done]. }
  acq.
  2: { rel ([RVnodes i; RPro i; RSpinFull i; RSpinFree i] ++ w_held w). rel ([RPro i; RSpinFull i; RSpinFree i] ++ w_held w).
       rel ([RSpinFull i; RSpinFree i] ++ w_held w).
       apply wp_ret, (Hf [RSpinFull i; RSpinFree i]); [by repeat constructor|eauto 15 with boot|done]. }
  apply wp_ret, Ht; [eauto 15 with boot|]. unfold pro_res. perm.
Qed.

Lemma wp_pro_grp_exit i R w (Q : unit -> world -> Prop) : w_held w ≡ₚ pro_res i ++ R ->
  (forall w', same w w' -> w_held w' ≡ₚ R -> Q tt w') -> wp (pro_grp_exit_res i) Q w.
Proof.
  intros Hw HQ. unfold pro_grp_exit_res, pro_res in *. rel ([RSpinUsed i; RSpinFull i; RVzones i; RVnodes i; RPro i] ++ R).
  rel ([RSpinUsed i; RVzones i; RVnodes i; RPro i] ++ R). rel ([RVzones i; RVnodes i; RPro i] ++ R). rel ([RVnodes i; RPro i] ++ R).
  rel ([RPro i] ++ R). eapply (wp_release _ R); [perm|]. intros w6 S6 H6. apply HQ; [eauto 15 with boot|done].
Qed.

Lemma wp_pro_init_loop ok n i R w (Q : Z -> world -> Prop) : w_held w ≡ₚ turns pro_res i 0 ++ RGlist :: R ->
  (forall w', same w w' -> w_held w' ≡ₚ turns pro_res (i + n) 0 ++ RGlist :: R -> Q 0 w') ->
  (forall ret L w', ctrue ret = true -> Forall pro_left L -> same w w' -> w_held w' ≡ₚ L ++ R -> Q ret w') -> wp (pro_init_loop ok n i) Q w.
Proof.
  revert i w. induction n as [|n IH]; intros i w Hw Ht Hf; cbn [pro_init_loop].
  - rewrite Nat.add_0_r in Ht. by apply wp_ret, Ht.
  - apply wp_bind. unfold pro_grp_init_res. apply wp_bind, wp_new_pro.
    + intros w1 S1 H1. apply wp_ret. change (ctrue XZTL_OK) with false. cbv iota. apply IH.
      * rewrite turns_snoc. cbn [Nat.add]. perm.
      * intros w2 S2 H2. rewrite Nat.add_succ_comm in H2. apply Ht; [eauto 15 with boot|done].
      * intros ret L w2 Hr HL S2 H2. apply (Hf ret L); [done|done|eauto 15 with boot|done].
    + intros L w1 HL S1 H1. apply wp_ret. change (ctrue XZTL_ZTL_PROV_ERR) with true. cbv iota. apply wp_bind.
      eapply (wp_downto_frees pro_res _ i (L ++ RGlist :: R)); [apply wp_pro_grp_exit|perm|]. intros w2 S2 H2.
      rel (L ++ R). apply wp_ret, (Hf XZTL_ZTL_GROUP_ERR L); [done|done|eauto 15 with boot|done].
Qed.

Definition pro_all (n : Z) : list resource := turns pro_res (Z.to_nat n) 0 ++ RGlist :: md_res.

Lemma wp_pro_init ok md_ok w (Q : Z -> world -> Prop) :
  (forall w', same w w' -> w_ngrps w <= Z.of_nat (length (w_grps w)) -> w_held w' ≡ₚ pro_all (w_ngrps w) ++ w_held w -> Q 0 w') ->
  (forall ret L w', ctrue ret = true -> Forall pro_left L -> same w w' -> w_held w' ≡ₚ L ++ w_held w -> Q ret w') ->
  wp (ztl_pro_init ok md_ok) Q w.
Proof.
  intros Ht Hf. unfold ztl_pro_init, pro_all, md_res in *. acq; [|apply wp_ret, (Hf _ []); done].
  apply wp_bind. unfold groups_listed. apply wp_bind, wp_gets, wp_ret. cbn [id]. apply wp_bind, wp_gets.
  destruct (Z.eqb_spec (Z.min (Z.of_nat (length (w_grps w0))) (w_ngrps w0)) (w_ngrps w0)) as [E|E]; cbn [negb]; cbv iota.
  2: { rel (w_held w). apply wp_ret, (Hf _ []); [done|done|eauto 15 with boot|done]. }
  rewrite (stable_grps _ _ (proj1 Sa)), (stable_ngrps _ _ (proj1 Sa)) in *.
  apply wp_bind. unfold metadata_init_res. acq.
  2: { apply wp_ret. change (ctrue XZTL_ZTL_MD_INIT_ERR) with true. cbv iota. rel (w_held w). apply wp_ret, (Hf _ []); [done|done|eauto 15 with boot|done]. }
  acq.
  2: { apply wp_ret. change (ctrue XZTL_ZTL_MD_INIT_ERR) with true. cbv iota. rel (RMdZones :: w_held w).
       apply wp_ret, (Hf _ [RMdZones]); [done|by repeat constructor|eauto 15 with boot|done]. }
  destruct md_ok; cbn [negb]; cbv iota; apply wp_ret.
  2: { change (ctrue XZTL_ZTL_MD_INIT_ERR) with true. cbv iota. rel ([RMdMutex; RMdZones] ++ w_held w).
       apply wp_ret, (Hf _ [RMdMutex; RMdZones]); [done|by repeat constructor|eauto 15 with boot|done]. }
  change (ctrue XZTL_OK) with false. cbv iota. apply (wp_pro_init_loop ok _ 0 ([RMdMutex; RMdZones] ++ w_held w)); [cbn; perm| |].
  - intros w3 S3 H3. cbn [Nat.add] in H3. apply Ht; [eauto 15 with boot|lia|]. perm.
  - intros ret L w3 Hr HL S3 H3. apply (Hf _ (L ++ [RMdMutex; RMdZones])); [done|apply Forall_app; split; [done|by repeat constructor]|eauto 15 with boot|perm].
Qed.

Definition pool_res (w : world) (t : Z) : list resource := if decide (t ∈ w_pools w) then [RPool t] else [].

Lemma wp_pro_exit n R w (Q : unit -> world -> Prop) :
  w_ngrps w = n -> n <= Z.of_nat (length (w_grps w)) ->
  w_held w ≡ₚ pro_all n ++ pool_res w XZTL_NODE_MGMT_ENTRY ++ R ->
  (forall w', same_but_pools w w' -> w_pools w' = remove_first XZTL_NODE_MGMT_ENTRY (w_pools w) -> w_held w' ≡ₚ md_res ++ R -> Q tt w') ->
  wp ztl_pro_exit Q w.
Proof.
  intros Hn Hg Hw HQ. unfold ztl_pro_exit. apply wp_bind. unfold groups_listed. apply wp_bind, wp_gets, wp_ret. cbn [id].
  rewrite Hn, Z.min_r by lia. apply wp_bind. unfold pro_all in Hw.
  eapply (wp_downto_frees pro_res _ _ (RGlist :: md_res ++ pool_res w XZTL_NODE_MGMT_ENTRY ++ R)); [apply wp_pro_grp_exit|perm|].
  intros w1 S1 H1. apply wp_bind. pose proof S1 as (_ & _ & _ & P1). unfold pool_res in H1.
  case_decide as Hp.
  - unfold mp_destroy. apply wp_bind, wp_gets. rewrite P1, decide_True by done. apply wp_bind, wp_put.
    eapply (wp_release _ (RGlist :: md_res ++ R)); [cbn [w_held w_set_pools]; perm|]. intros w2 S2 H2.
    eapply (wp_release _ (md_res ++ R)); [perm|]. intros w3 S3 H3. assert (same (w_set_pools w1 (remove_first XZTL_NODE_MGMT_ENTRY (w_pools w1))) w3) as S by eauto 15 with boot.
    apply HQ; [|destruct S as (_ & _ & _ & ->); cbn; by rewrite P1|done].
    eapply same_pools_trans; [by apply same_pools|]. eapply same_pools_trans; [|by apply same_pools]. by repeat split.
  - apply wp_mp_destroy_none; [by rewrite P1|]. eapply (wp_release _ (md_res ++ R)); [perm|]. intros w3 S3 H3.
    apply HQ; [apply same_pools; eauto 15 with boot| |done]. destruct S3 as (_ & _ & _ & ->). rewrite P1.
    clear -Hp. induction (w_pools w) as [|x l IH]; [done|]. cbn. rewrite decide_False by set_solver. f_equal. apply IH. set_solver.
Qed.

(** * Management *)

Definition mgmt_res (thread : bool) : list resource := (if thread then [RMgmtThread] else []) ++ [RPool XZTL_NODE_MGMT_ENTRY; RMgmtSpin].

Lemma wp_mgmt_init ok thread w (Q : Z -> world -> Prop) : XZTL_NODE_MGMT_ENTRY ∉ w_pools w ->
  (forall w', same_but_pools w w' -> w_pools w' = XZTL_NODE_MGMT_ENTRY :: w_pools w -> w_held w' ≡ₚ mgmt_res thread ++ w_held w -> Q 0 w') ->
  (forall ret w', ctrue ret = true -> same w w' -> w_held w' ≡ₚ w_held w -> Q ret w') ->
  (forall ret w', ctrue ret = true -> same w w' -> w_held w' ≡ₚ (if thread then [RMgmtThread] else []) ++ RMgmtSpin :: w_held w -> Q ret w') ->
  wp (ztl_mgmt_init ok thread) Q w.
Proof.
  intros Hp Ht Hf Hl. unfold ztl_mgmt_init, mgmt_res in *. acq; [|by apply wp_ret, Hf].
  pose proof Sa as (_ & _ & _ & P1). apply wp_bind, wp_mp_create; [by rewrite P1| |].
  - intros w2 S2 P2 H2. apply wp_bind. destruct thread; [apply wp_put|apply wp_ret]; apply wp_ret, Ht; try (cbn; congruence); try (cbn [w_held w_set_held]; perm).
    all: eapply same_pools_trans; [by apply same_pools|]; destruct S2 as (? & ? & ?); by repeat split.
  - intros ret w2 Hr S2 H2. apply wp_bind. assert (same w w2) as S by eauto 15 with boot.
    destruct thread; [apply wp_put|apply wp_ret]; apply wp_ret, Hl; try done; try (cbn [w_held w_set_held]; perm).
Qed.

Lemma wp_mgmt_exit R w (Q : unit -> world -> Prop) : w_held w ≡ₚ [RMgmtThread; RMgmtSpin] ++ R ->
  (forall w', same w w' -> w_held w' ≡ₚ R -> Q tt w') -> wp ztl_mgmt_exit Q w.
Proof.
  intros Hw HQ. unfold ztl_mgmt_exit. rel (RMgmtSpin :: R). eapply (wp_release _ R); [perm|]. intros w2 S2 H2. apply HQ; [eauto 15 with boot|done].
Qed.

(** * All modules *)

Definition all_mods (m : app_mods) : Prop :=
  a_zmd m = Some LibZmd /\ a_pro m = Some LibPro /\ a_mpe m = Some LibMpe /\ a_map m = Some LibMap /\ a_io m = Some LibIo /\ a_mgmt m = Some LibMgmt.

Lemma wp_through {A} f lib (p : boot A) Q w : f (w_mods w) = Some lib -> wp p Q w -> wp (through f lib p) Q w.
Proof. intros Hf Hp. unfold through. apply wp_bind, wp_gets. by rewrite decide_True. Qed.

Definition global_res (thread : bool) (nread : nat) (ng : Z) (p : resource -> bool) : list resource :=
  mgmt_res thread ++ io_res nread p ++ map_res (rev (seq 0 MAP_BUF_PGS)) ++ mpe_res ++ pro_all ng.

(** What is left when the start of the modules fails with [ret] *)
Inductive global_left (thread : bool) : Z -> list resource -> Prop :=
  | left_pro L : Forall pro_left L -> global_left thread XZTL_ZTL_PROV_ERR L
  | left_mpe : global_left thread XZTL_ZTL_MPE_ERR md_res
  | left_map : global_left thread XZTL_ZTL_MAP_ERR md_res
  | left_io k L : (k <= LEVELS)%nat -> Forall (fun r => io_part r \/ exists l, (l < k)%nat /\ r = RWThread l) L ->
      (forall l, (l < k)%nat -> RWThread l ∈ L) -> global_left thread XZTL_ZTL_IO_ERR (L ++ md_res)
  | left_mgmt : global_left thread XZTL_ZTL_MGMT_ERR md_res
  | left_mgmt_pool : global_left thread XZTL_ZTL_MGMT_ERR ((if thread then [RMgmtThread] else []) ++ RMgmtSpin :: md_res).

Lemma map_res_perm l k : l ≡ₚ k -> map_res l ≡ₚ map_res k.
Proof. intros H. unfold map_res, cache_res. by rewrite H. Qed.

Lemma remove_first_none x l : x ∉ l -> remove_first x l = (l : list Z).
Proof. induction l as [|y l IH]; intros H; [done|]. cbn. rewrite decide_False by set_solver. f_equal. apply IH. set_solver. Qed.

Section Global.

Context (ok : nat -> bool) (term_ok : owner -> bool) (md_ok thread : bool) (Hterm : forall o, term_ok o = true).

(** The releases of a failed start, from the mapping down; [R] is what stays. *)
Lemma wp_undo_mpe ng R w (Q : Z -> world -> Prop) ret :
  all_mods (w_mods w) -> w_ngrps w = ng -> ng <= Z.of_nat (length (w_grps w)) -> XZTL_NODE_MGMT_ENTRY ∉ w_pools w ->
  w_held w ≡ₚ pro_all ng ++ R ->
  (forall w', same_but_pools w w' -> w_pools w' = w_pools w -> w_held w' ≡ₚ md_res ++ R -> Q ret w') ->
  wp (through a_pro LibPro ztl_pro_exit ;; mret ret) Q w.
Proof using.
  intros (_ & Hm & _) Hn Hg Hp Hw HQ. apply wp_bind, wp_through; [done|].
  eapply (wp_pro_exit ng R); [done|done|unfold pool_res; by rewrite decide_False|]. intros w1 S1 P1 H1.
  apply wp_ret, HQ; [done| |done]. by rewrite P1, remove_first_none.
Qed.

Lemma mods_of w w' : stable w w' -> all_mods (w_mods w) -> all_mods (w_mods w').
Proof using. intros S. by rewrite (stable_mods _ _ S). Qed.

Lemma wp_undo_map ng R w (Q : Z -> world -> Prop) ret :
  all_mods (w_mods w) -> w_ngrps w = ng -> ng <= Z.of_nat (length (w_grps w)) -> XZTL_NODE_MGMT_ENTRY ∉ w_pools w ->
  w_held w ≡ₚ mpe_res ++ pro_all ng ++ R ->
  (forall w', same_but_pools w w' -> w_pools w' = w_pools w -> w_held w' ≡ₚ md_res ++ R -> Q ret w') ->
  wp (app_mpe_exit ;; through a_pro LibPro ztl_pro_exit ;; mret ret) Q w.
Proof using.
  intros Hm Hn Hg Hp Hw HQ. apply wp_bind. eapply (wp_mpe_exit (pro_all ng ++ R)); [done|]. intros w1 S1 H1.
  pose proof S1 as (St & _ & _ & P1).
  apply (wp_undo_mpe ng R); [by eapply mods_of|by rewrite (stable_ngrps _ _ St)|by rewrite (stable_grps _ _ St)|by rewrite P1|done|].
  intros w2 S2 P2 H2. apply HQ; [|congruence|done]. eapply same_pools_trans; [by apply same_pools|done].
Qed.

Lemma wp_undo_io ng R w (Q : Z -> world -> Prop) ret :
  all_mods (w_mods w) -> w_ngrps w = ng -> ng <= Z.of_nat (length (w_grps w)) -> XZTL_NODE_MGMT_ENTRY ∉ w_pools w ->
  w_held w ≡ₚ map_res (w_pages w 0%nat) ++ mpe_res ++ pro_all ng ++ R ->
  (forall w', stable w w' -> w_pools w' = w_pools w -> w_held w' ≡ₚ md_res ++ R -> Q ret w') ->
  wp ((through a_map LibMap map_exit ;; app_mpe_exit ;; through a_pro LibPro ztl_pro_exit) ;; mret ret) Q w.
Proof using.
  intros Hm Hn Hg Hp Hw HQ. apply wp_bind, wp_bind, wp_through; [apply Hm|].
  eapply (wp_map_exit (mpe_res ++ pro_all ng ++ R)); [done|]. intros w1 S1 H1. pose proof S1 as (St & _ & P1 & _).
  eapply (wp_mono _ (fun _ w' => stable w1 w' /\ w_pools w' = w_pools w1 /\ w_held w' ≡ₚ md_res ++ R)).
  - apply wp_bind. eapply (wp_mpe_exit (pro_all ng ++ R)); [done|]. intros w2 S2 H2. pose proof S2 as (St2 & _ & _ & P2).
    apply wp_through; [rewrite (stable_mods _ _ St2), (stable_mods _ _ St); apply Hm|].
    eapply (wp_pro_exit ng R).
    + by rewrite (stable_ngrps _ _ St2), (stable_ngrps _ _ St).
    + by rewrite (stable_grps _ _ St2), (stable_grps _ _ St).
    + unfold pool_res. rewrite decide_False by (by rewrite P2, P1). done.
    + intros w3 (St3 & _) P3 H3. split; [by eapply stable_trans|]. split; [|done]. by rewrite P3, P2, P1, remove_first_none.
  - intros [] w2 (St2 & P2 & H2). apply wp_ret, HQ; [by eapply stable_trans|congruence|done].
Qed.

Lemma wp_undo_mgmt ng R w (Q : Z -> world -> Prop) ret :
  all_mods (w_mods w) -> w_ngrps w = ng -> ng <= Z.of_nat (length (w_grps w)) -> XZTL_NODE_MGMT_ENTRY ∉ w_pools w ->
  w_read_ctx_num w <= XZTL_READ_RS_NUM ->
  w_held w ≡ₚ io_res (Z.to_nat (w_read_ctx_num w)) (w_ptr w) ++ map_res (w_pages w 0%nat) ++ mpe_res ++ pro_all ng ++ R ->
  (forall w', stable w w' -> w_pools w' = w_pools w -> w_held w' ≡ₚ md_res ++ R -> Q ret w') ->
  wp (through a_io LibIo (ztl_io_exit term_ok) ;; (through a_map LibMap map_exit ;; app_mpe_exit ;; through a_pro LibPro ztl_pro_exit) ;; mret ret) Q w.
Proof using Hterm.
  intros Hm Hn Hg Hp Hr Hw HQ. apply wp_bind, wp_through; [apply Hm|].
  eapply (wp_io_exit term_ok Hterm (map_res (w_pages w 0%nat) ++ mpe_res ++ pro_all ng ++ R)); [done|done|]. intros w1 (St & _ & Pg & P) H1.
  apply (wp_undo_io ng R); [by eapply mods_of|by rewrite (stable_ngrps _ _ St)|by rewrite (stable_grps _ _ St)|by rewrite P|by rewrite Pg|].
  intros w2 St2 P2 H2. apply HQ; [by eapply stable_trans|congruence|done].
Qed.

Lemma wp_global_init w (Q : Z -> world -> Prop) :
  all_mods (w_mods w) -> w_read_ctx_num w <= XZTL_READ_RS_NUM -> XZTL_NODE_MGMT_ENTRY ∉ w_pools w ->
  (forall w', stable w w' -> w_ngrps w <= Z.of_nat (length (w_grps w)) -> w_pages w' 0%nat = rev (seq 0 MAP_BUF_PGS) ->
     w_pools w' = XZTL_NODE_MGMT_ENTRY :: w_pools w ->
     w_held w' ≡ₚ global_res thread (Z.to_nat (w_read_ctx_num w)) (w_ngrps w) (w_ptr w') ++ w_held w -> Q 0 w') ->
  (forall ret L w', ctrue ret = true -> global_left thread ret L -> stable w w' -> w_pools w' = w_pools w -> w_held w' ≡ₚ L ++ w_held w -> Q ret w') ->
  wp (app_global_init ok term_ok md_ok thread) Q w.
Proof using Hterm.
  intros Hm Hr Hp Ht Hf. unfold app_global_init. apply wp_bind, wp_through; [apply Hm|]. apply wp_pro_init.
  2: { intros ret L w1 HR HL (S1 & _ & _ & P1) H1. rewrite HR. apply wp_ret, (Hf _ L); [done|by constructor|done|done|done]. }
  intros w1 S1 Hg H1. pose proof S1 as (St1 & Pt1 & Pg1 & P1). change (ctrue 0) with false. cbv iota zeta.
  apply wp_bind, wp_mpe_init; [rewrite (stable_mods _ _ St1); apply Hm| |].
  2: { intros ret w2 HR S2 H2. rewrite HR. assert (same w w2) as (St2 & _ & _ & P2) by eauto 15 with boot.
       apply (wp_undo_mpe (w_ngrps w) (w_held w)); [by eapply mods_of|by apply stable_ngrps|by rewrite (stable_grps _ _ St2)|by rewrite P2|by rewrite H2|].
       intros w3 (St3 & _) P3 H3. apply (Hf _ md_res); [done|constructor|by eapply stable_trans|congruence|done]. }
  intros w2 S2 H2. change (ctrue 0) with false. cbv iota. assert (same w w2) as (St2 & Pt2 & Pg2 & P2) by eauto 15 with boot.
  apply wp_bind, wp_through; [rewrite (stable_mods _ _ St2); apply Hm|]. apply wp_map_init.
  2: { intros ret w3 HR (St3 & _ & P3 & _) H3. rewrite HR. assert (stable w w3) as St by (by eapply stable_trans).
       apply (wp_undo_map (w_ngrps w) (w_held w)); [by eapply mods_of|by apply stable_ngrps|by rewrite (stable_grps _ _ St)|by rewrite P3, P2|perm|].
       intros w4 (St4 & _) P4 H4. apply (Hf _ md_res); [done|constructor|by eapply stable_trans|congruence|done]. }
  intros w3 (St3 & Pt3 & P3 & _) Pg3 H3. change (ctrue 0) with false. cbv iota. assert (stable w w3) as St by (by eapply stable_trans).
  assert (w_held w3 ≡ₚ map_res (w_pages w3 0%nat) ++ mpe_res ++ pro_all (w_ngrps w) ++ w_held w) as H3'.
  { rewrite Pg3, <- (map_res_perm _ _ (Permutation_rev _)). perm. }
  apply wp_bind, wp_through; [rewrite (stable_mods _ _ St); apply Hm|]. apply wp_io_init; [done|by rewrite (stable_read _ _ St)| |].
  2: { intros ret w4 HR (k & L & H4 & (St4 & Pg4 & P4) & Hk & HL & HT). rewrite HR. assert (stable w w4) as St' by (by eapply stable_trans).
       apply (wp_undo_io (w_ngrps w) (L ++ w_held w)); [by eapply mods_of|by apply stable_ngrps|by rewrite (stable_grps _ _ St')|by rewrite P4, P3, P2|rewrite Pg4; perm|].
       intros w5 St5 P5 H5. apply (Hf _ (L ++ md_res)); [done|by apply (left_io _ k)|by eapply stable_trans|congruence|perm]. }
  intros w4 (H4 & _ & St4 & Pg4 & P4). change (ctrue 0) with false. cbv iota. assert (stable w w4) as St' by (by eapply stable_trans).
  rewrite (stable_read _ _ St) in H4.
  apply wp_bind, wp_through; [rewrite (stable_mods _ _ St'); apply Hm|]. apply wp_mgmt_init; [by rewrite P4, P3, P2| | |].
  - intros w5 (St5 & Pt5 & Pg5) P5 H5. change (ctrue 0) with false. cbv iota. apply wp_ret, Ht; [by eapply stable_trans|done|congruence|congruence|].
    unfold global_res. rewrite Pt5, <- Pg3. perm.
  - intros ret w5 HR (St5 & Pt5 & Pg5 & P5) H5. rewrite HR. assert (stable w w5) as S by (by eapply stable_trans).
    apply (wp_undo_mgmt (w_ngrps w) (w_held w)); [by eapply mods_of|by apply stable_ngrps|by rewrite (stable_grps _ _ S)|congruence|by rewrite (stable_read _ _ S)| |].
    { rewrite (stable_read _ _ S), Pt5, Pg5, Pg4. perm. }
    intros w7 St7 P7 H7. apply (Hf _ md_res); [done|constructor|by eapply stable_trans|congruence|done].
  - intros ret w5 HR (St5 & Pt5 & Pg5 & P5) H5. rewrite HR. assert (stable w w5) as S by (by eapply stable_trans).
    set (X := (if thread then [RMgmtThread] else []) ++ [RMgmtSpin]) in *.
    apply (wp_undo_mgmt (w_ngrps w) (X ++ w_held w)); [by eapply mods_of|by apply stable_ngrps|by rewrite (stable_grps _ _ S)|congruence|by rewrite (stable_read _ _ S)| |].
    { rewrite (stable_read _ _ S), Pt5, Pg5, Pg4. unfold X. perm. }
    intros w7 St7 P7 H7. apply (Hf _ ((if thread then [RMgmtThread] else []) ++ RMgmtSpin :: md_res)); [done|constructor|by eapply stable_trans|congruence|].
    unfold X in H7. perm.
Qed.

Lemma wp_global_exit ps R w (Q : unit -> world -> Prop) :
  all_mods (w_mods w) -> w_ngrps w <= Z.of_nat (length (w_grps w)) -> w_pools w = XZTL_NODE_MGMT_ENTRY :: ps ->
  w_read_ctx_num w <= XZTL_READ_RS_NUM -> w_pages w 0%nat = rev (seq 0 MAP_BUF_PGS) ->
  w_held w ≡ₚ global_res true (Z.to_nat (w_read_ctx_num w)) (w_ngrps w) (w_ptr w) ++ R ->
  (forall w', stable w w' -> w_pools w' = ps -> w_held w' ≡ₚ md_res ++ R -> Q tt w') -> wp (app_global_exit term_ok) Q w.
Proof using Hterm.
  intros Hm Hg Hp Hr Hpg Hw HQ. unfold app_global_exit, global_res, mgmt_res in *. rewrite <- Hpg in Hw.
  set (ng := w_ngrps w) in *. set (P4 := RPool XZTL_NODE_MGMT_ENTRY) in *.
  apply wp_bind, wp_through; [apply Hm|].
  eapply (wp_mgmt_exit (io_res (Z.to_nat (w_read_ctx_num w)) (w_ptr w) ++ map_res (w_pages w 0%nat) ++ mpe_res ++ pro_all ng ++ [P4] ++ R)); [perm|].
  intros w1 (St1 & Pt1 & Pg1 & P1) H1. apply wp_bind, wp_through; [rewrite (stable_mods _ _ St1); apply Hm|].
  eapply (wp_io_exit term_ok Hterm (map_res (w_pages w 0%nat) ++ mpe_res ++ pro_all ng ++ [P4] ++ R));
    [by rewrite (stable_read _ _ St1)|by rewrite (stable_read _ _ St1), Pt1|]. intros w2 (St2 & _ & Pg2 & P2) H2.
  assert (stable w w2) as S2 by (by eapply stable_trans). apply wp_bind, wp_through; [rewrite (stable_mods _ _ S2); apply Hm|].
  eapply (wp_map_exit (mpe_res ++ pro_all ng ++ [P4] ++ R)); [by rewrite Pg2, Pg1|]. intros w3 (St3 & _ & P3 & _) H3.
  apply wp_bind. eapply (wp_mpe_exit (pro_all ng ++ [P4] ++ R)); [done|]. intros w4 (St4 & _ & _ & P4') H4.
  assert (stable w w4) as S4 by (by do 2 (eapply stable_trans; [eassumption|])).
  apply wp_through; [rewrite (stable_mods _ _ S4); apply Hm|].
  assert (w_pools w4 = XZTL_NODE_MGMT_ENTRY :: ps) as E4 by congruence.
  eapply (wp_pro_exit ng R); [by apply stable_ngrps|by rewrite (stable_grps _ _ S4)| |].
  { unfold pool_res. rewrite E4, decide_True by left. done. }
  intros w5 (St5 & _) P5 H5. apply HQ; [by eapply stable_trans| |done]. rewrite P5, E4. apply remove_first_head.
Qed.

End Global.
