(* ===== verification/BootTheorems.v ===== *)
(** Start and stop of the library: what a start that fails leaves behind, that a stop gives back what
    a start took, and the geometry that is accepted. *)

From S2P Require Import Prelude Types Options Map Boot BootLogic BootOk BootIo BootStart.

#[local] Opaque MAP_BUF_PGS ZTL_MPE_CPGS RC_NUM.

(** * The translation layer: ztl.c *)

Definition media_of (w : world) := (w_dev w, w_dev_read w, w_core w, w_read_ctx_num w).

Definition media_same (w w' : world) : Prop := media_of w' = media_of w.

Lemma stable_media w w' : stable w w' -> media_same w w'.
Proof. unfold stable, media_same, rest, media_of. congruence. Qed.

Lemma grps_media w w' : same_but_grps w w' -> media_same w w'.
Proof. intros (S & _). unfold media_same, media_of. congruence. Qed.

Lemma media_trans w1 w2 w3 : media_same w1 w2 -> media_same w2 w3 -> media_same w1 w3.
Proof. unfold media_same. congruence. Qed.

(** What is left when the start of the layer fails: what the modules leave, and the metadata of the groups
    when that of group [k] could not be set up. *)
Inductive ztl_left (thread : bool) : Z -> list resource -> Prop :=
  | left_modules ret L : global_left thread ret L -> ztl_left thread ret L
  | left_groups k L : Forall pro_left L -> ztl_left thread XZTL_ZTL_PROV_ERR (L ++ RGrp k :: (rev (seq 0 k) ≫= zmd_res)).

Section Layer.

Context (ok : nat -> bool) (term_ok : owner -> bool) (md_ok thread : bool) (Hterm : forall o, term_ok o = true).

(** The start from the list of groups on *)
Definition ztl_rest (n : Z) : boot Z :=
  if n <=? 0 then mret XZTL_ZTL_GROUP_ERR else
  put (fun w => w_set_ngrps w (u16 n)) ;;
  ret ← app_global_init ok term_ok md_ok thread;
  if ctrue ret then groups_exit ;; mret ret else mret XZTL_OK.

Definition started (R : list resource) (w w' : world) : Prop :=
  media_same w w' /\ all_mods (w_mods w') /\ 0 <= w_ngrps w' <= Z.of_nat (length (w_grps w')) /\
  w_pages w' 0%nat = rev (seq 0 MAP_BUF_PGS) /\ w_pools w' = [XZTL_NODE_MGMT_ENTRY] /\
  w_held w' ≡ₚ global_res thread (Z.to_nat (w_read_ctx_num w')) (w_ngrps w') (w_ptr w') ++ groups_res (w_grps w') ++ R.

Lemma wp_ztl_rest n R w (Q : Z -> world -> Prop) : 0 < n -> all_mods (w_mods w) -> w_read_ctx_num w <= XZTL_READ_RS_NUM -> w_pools w = [] ->
  w_held w ≡ₚ groups_res (w_grps w) ++ R ->
  (forall w', started R w w' -> Q 0 w') ->
  (forall ret L w', ctrue ret = true -> global_left thread ret L -> media_same w w' -> w_pools w' = [] -> w_held w' ≡ₚ L ++ R -> Q ret w') ->
  wp (ztl_rest n) Q w.
Proof using Hterm.
  intros Hn Hm Hr Hp Hw Ht Hf. unfold ztl_rest. rewrite (proj2 (Z.leb_gt n 0) Hn). apply wp_bind, wp_put, wp_bind.
  set (w1 := w_set_ngrps w (u16 n)). assert (media_same w w1) as S1 by done.
  apply (wp_global_init ok term_ok md_ok thread Hterm w1); [done|done|cbn; rewrite Hp; apply not_elem_of_nil| |].
  - intros w2 St Hg Hpg P2 H2. change (ctrue 0) with false. cbv iota. apply wp_ret, Ht. split_and!.
    + eapply media_trans; [exact S1|by apply stable_media].
    + by rewrite (stable_mods _ _ St).
    + rewrite (stable_ngrps _ _ St). apply Z.mod_pos_bound. lia.
    + by rewrite (stable_ngrps _ _ St), (stable_grps _ _ St).
    + done.
    + rewrite P2. cbn. by rewrite Hp.
    + rewrite (stable_read _ _ St), (stable_ngrps _ _ St), (stable_grps _ _ St). change (w_held w1) with (w_held w) in H2.
      change (w_grps w1) with (w_grps w). perm.
  - intros ret L w2 HR HL St P2 H2. rewrite HR. apply wp_bind. change (w_held w1) with (w_held w) in H2.
    eapply (wp_groups_exit (L ++ R)); [rewrite (stable_grps _ _ St); change (w_grps w1) with (w_grps w); perm|].
    intros w3 S3 G3 H3. apply wp_ret, (Hf ret L); [done|done| |destruct S3 as (_ & _ & _ & ->); by rewrite P2|done].
    eapply media_trans; [exact S1|]. eapply media_trans; [by apply stable_media|by apply grps_media].
Qed.

(** With fewer groups than it was told, the provisioning stops. *)
Lemma wp_ztl_rest_groups n R w (Q : Z -> world -> Prop) : 0 < n -> all_mods (w_mods w) -> w_grps w = [] -> 0 < u16 n ->
  w_held w ≡ₚ R ->
  (forall L w', Forall pro_left L -> media_same w w' -> w_pools w' = w_pools w -> w_held w' ≡ₚ L ++ R -> Q XZTL_ZTL_PROV_ERR w') ->
  wp (ztl_rest n) Q w.
Proof using.
  intros Hn Hm Hg Hu Hw Hf. unfold ztl_rest. rewrite (proj2 (Z.leb_gt n 0) Hn). apply wp_bind, wp_put, wp_bind.
  set (w1 := w_set_ngrps w (u16 n)). assert (media_same w w1) as S1 by done.
  unfold app_global_init. apply wp_bind, wp_through; [apply Hm|]. apply wp_pro_init.
  { intros w2 _ Hbad _. exfalso. change (w_grps w1) with (w_grps w) in Hbad. rewrite Hg in Hbad. cbn in Hbad. lia. }
  intros ret L w2 HR HL (St & _ & _ & P2) H2. rewrite HR. apply wp_ret. change (ctrue XZTL_ZTL_PROV_ERR) with true. cbv iota. apply wp_bind.
  assert (w_grps w2 = []) as G2 by (rewrite (stable_grps _ _ St); done).
  eapply (wp_groups_exit (L ++ R)); [rewrite G2; cbn; by rewrite H2, <- Hw|].
  intros w3 S3 G3 H3. apply wp_ret, (Hf L); [done| |destruct S3 as (_ & _ & _ & ->); by rewrite P2|done].
  eapply media_trans; [exact S1|]. eapply media_trans; [by apply stable_media|by apply grps_media].
Qed.

Lemma ztl_init_unfold w m' : ztl_mod_set (a_modset (w_mods w)) (w_mods w) = Some (XZTL_OK, m') -> all_mods m' ->
  forall Q, wp (through a_zmd LibZmd (boot_groups_init ok) ≫= ztl_rest) Q (w_set_mods (w_set_grps (w_set_ngrps w 0) []) m') ->
  wp (ztl_init ok term_ok md_ok thread) Q w.
Proof using.
  intros Hs Hm Q HQ. unfold ztl_init. apply wp_bind, wp_put, wp_bind, wp_put, wp_bind, wp_gets.
  cbn [w_mods w_set_grps w_set_ngrps]. rewrite Hs. apply wp_bind, wp_put. change (ctrue XZTL_OK) with false. exact HQ.
Qed.

Lemma wp_ztl_init m m' w (Q : Z -> world -> Prop) :
  w_core w = Some m -> 0 < ngrps (m_geo m) -> ztl_mod_set (a_modset (w_mods w)) (w_mods w) = Some (XZTL_OK, m') -> all_mods m' ->
  w_read_ctx_num w <= XZTL_READ_RS_NUM -> w_pools w = [] ->
  (forall w', started (w_held w) w w' -> Q 0 w') ->
  (forall ret L w', ctrue ret = true -> ztl_left thread ret L -> media_same w w' -> w_pools w' = [] -> w_held w' ≡ₚ L ++ w_held w -> Q ret w') ->
  wp (ztl_init ok term_ok md_ok thread) Q w.
Proof using Hterm.
  intros Hc Hg Hs Hm Hr Hp Ht Hf. apply (ztl_init_unfold w m' Hs Hm). set (w1 := w_set_mods _ _).
  assert (media_same w w1) as S1 by done.
  apply wp_bind, wp_through; [apply Hm|]. unfold boot_groups_init. apply wp_bind, wp_gets.
  change (w_core w1) with (w_core w). rewrite Hc.
  assert (forall w2, same_but_grps w1 w2 -> all_mods (w_mods w2) /\ w_read_ctx_num w2 <= XZTL_READ_RS_NUM /\ w_pools w2 = [] /\ media_same w w2) as HG.
  { intros w2 S2. pose proof S2 as (E & _ & _ & P2). injection E as _ _ _ Er _ Em.
    split_and!; [by rewrite Em|by rewrite Er|rewrite P2; exact Hp|exact (grps_media w1 w2 S2)]. }
  assert (forall n w2, 0 < n -> same_but_grps w1 w2 -> w_held w2 ≡ₚ groups_res (w_grps w2) ++ w_held w -> wp (ztl_rest n) Q w2) as HK.
  { intros n w2 Hn S2 H2. destruct (HG w2 S2) as (? & ? & ? & M2). apply (wp_ztl_rest n (w_held w)); [done..| |].
    - intros w3 (M3 & X). apply Ht. split; [by eapply media_trans|done].
    - intros ret L w3 HR HL M3 P3 H3. apply (Hf ret L); [done|by constructor|by eapply media_trans|done|done]. }
  apply (wp_groups_start ok _ 0 (w_held w)); [done|done| | |].
  - intros w2 S2 G2 H2. apply HK; [lia|done|by rewrite G2].
  - intros k w2 Hk S2 G2 H2. apply HK; [done|done|by rewrite G2].
  - intros k w2 Hk S2 G2 H2. destruct (HG w2 S2) as (? & ? & ? & M2).
    apply (wp_ztl_rest_groups _ (RGrp k :: (rev (seq 0 k) ≫= zmd_res) ++ w_held w)); [done|done|done|done|done|].
    intros L w3 HL M3 P3 H3. apply (Hf _ (L ++ RGrp k :: (rev (seq 0 k) ≫= zmd_res))); [done|by constructor|by eapply media_trans|congruence|perm].
Qed.

End Layer.

(** * The library: xztl-core.c and zrocks.c *)

Definition dev_res (dr : bool) : list resource := RMedia :: (if dr then [RDevRead] else []) ++ [RDev].

(** The media was registered: the devices are open and [core.media] is set. *)
Definition registered (w : world) : Prop :=
  w_dev w = true /\ exists m, w_core w = Some m /\ m_init_fn m = true /\ m_exit_fn m = true /\ 0 < ngrps (m_geo m).

Lemma registered_media w w' : media_same w w' -> registered w -> registered w' /\ w_dev_read w' = w_dev_read w /\ w_read_ctx_num w' = w_read_ctx_num w.
Proof. intros S (Hd & m & Hc & X). injection S as E1 E2 E3 E4. unfold registered. rewrite E1, E3. naive_solver. Qed.

(** The library runs, on top of the resources [R]. *)
Definition running (R : list resource) (w : world) : Prop :=
  registered w /\ all_mods (w_mods w) /\ w_ngrps w <= Z.of_nat (length (w_grps w)) /\ w_pages w 0%nat = rev (seq 0 MAP_BUF_PGS) /\
  w_read_ctx_num w <= XZTL_READ_RS_NUM /\
  w_held w ≡ₚ global_res true (Z.to_nat (w_read_ctx_num w)) (w_ngrps w) (w_ptr w) ++ groups_res (w_grps w) ++ dev_res (w_dev_read w) ++ R.

Lemma bad_geo_groups g : bad_geo g = false -> 0 <= ngrps g -> 0 < ngrps g.
Proof. unfold bad_geo. destruct (Z.eqb_spec (ngrps g) 0); cbn; [discriminate|lia]. Qed.

Section Library.

Context (ok : nat -> bool) (term_ok : owner -> bool) (Hterm : forall o, term_ok o = true).
Context (devgeo : option xnvme_geo) (Hgeo : forall dg, devgeo = Some dg -> 0 <= xg_npugrp dg).
Context (cpu_num : Z) (opts : xnvme_opts) (md_ok thread : bool).

Lemma wp_media_exit R w (Q : Z -> world -> Prop) : registered w -> w_held w ≡ₚ (if w_dev_read w then [RDevRead] else []) ++ RDev :: R ->
  (forall w', same w w' -> w_held w' ≡ₚ R -> Q 0 w') -> wp xztl_media_exit Q w.
Proof using.
  intros (Hd & m & Hc & _ & He & _) Hw HQ. unfold xztl_media_exit. apply wp_bind, wp_gets. rewrite Hc, He. cbn [negb]. cbv iota.
  unfold znd_media_exit. apply wp_bind, wp_gets. rewrite Hd. rel ((if w_dev_read w then [RDevRead] else []) ++ R).
  apply wp_bind, wp_gets. replace (w_dev_read w0) with (w_dev_read w) by (destruct Sr as (S & _); by injection S).
  destruct (w_dev_read w); [rel R; apply wp_ret, HQ; [eauto with boot|done]|]. apply wp_bind, wp_ret, wp_ret, HQ; done.
Qed.

(** Members that the registration does not touch *)
Definition reg_frame (w w' : world) : Prop :=
  (w_grps w', w_ngrps w', w_mods w') = (w_grps w, w_ngrps w, w_mods w) /\ w_ptr w' = w_ptr w /\ w_pages w' = w_pages w /\ w_pools w' = w_pools w.

Lemma same_reg w w' : same w w' -> reg_frame w w'.
Proof using. intros (S & ? & ? & ?). unfold stable, rest in S. repeat split; congruence. Qed.

Definition parse_ok (dev_name : str) : Prop :=
  exists ret o, znd_opt_parse dev_name = Ok (ret, o) /\
    (ret = 0 -> is_Some (be_str.[opt_async o]) /\ fst (znd_media_set_ctx_iodepth cpu_num o) <= XZTL_READ_RS_NUM).

(** The devices that are left open by a registration that fails *)
Definition is_dev (r : resource) : Prop := match r with RDev | RDevRead => True | _ => False end.

(** The end of the registration, once the devices are open *)
Definition register_end (blk : bool) (n : Z) : boot Z :=
  match devgeo with
  | None => release RDev ;; mret ZND_MEDIA_NOGEO
  | Some dg => put (fun w => w_set_media w true blk n) ;;
      xztl_media_set ok {| m_geo := geo_of dg; m_init_fn := true; m_exit_fn := true; m_submit_io := true; m_zone_fn := true; m_dma_alloc := true; m_dma_free := true |}
  end.

Lemma wp_register_geo (blk : bool) n R w (Q : Z -> world -> Prop) : n <= XZTL_READ_RS_NUM ->
  w_held w ≡ₚ (if blk then [RDevRead] else []) ++ RDev :: R ->
  (forall w', registered w' -> w_read_ctx_num w' <= XZTL_READ_RS_NUM -> reg_frame w w' -> w_held w' ≡ₚ dev_res (w_dev_read w') ++ R -> Q 0 w') ->
  (forall ret L w', ctrue ret = true -> Forall is_dev L -> w_held w' ≡ₚ L ++ R -> Q ret w') ->
  wp (register_end blk n) Q w.
Proof using Hgeo.
  intros Hn Hw Ht Hf. assert (Forall is_dev (if blk then [RDevRead] else [])) as HL by (destruct blk; by repeat constructor).
  assert (Forall is_dev ((if blk then [RDevRead] else []) ++ [RDev])) as HL' by (apply Forall_app; split; [done|by repeat constructor]).
  unfold register_end. destruct devgeo as [dg|].
  2: { rel ((if blk then [RDevRead] else []) ++ R). by apply wp_ret, (Hf _ (if blk then [RDevRead] else [])). }
  apply wp_bind, wp_put. unfold xztl_media_set, xztl_media_check. cbn [m_init_fn m_exit_fn m_submit_io m_zone_fn m_dma_alloc m_dma_free m_geo negb].
  destruct (bad_geo (geo_of dg)) eqn:Hbg; cbv iota.
  { apply wp_ret, (Hf _ ((if blk then [RDevRead] else []) ++ [RDev])); [done|done|cbn [w_held w_set_media]; perm]. }
  change (ctrue XZTL_OK) with false. cbv iota. apply bad_geo_groups in Hbg; [|by apply Hgeo].
  acq; apply wp_bind, wp_put, wp_ret; cbn [w_held w_set_media] in Ha; pose proof Sa as (Sr & Y2 & Y3 & Y4); injection Sr as E1 E2 _ E4 Eg En Em.
  - apply Ht; cbn [w_held w_dev_read w_set_core w_read_ctx_num].
    + split; [by cbn; rewrite E1|]. eexists. split_and!; [reflexivity|done|done|done].
    + by rewrite E4.
    + repeat split; cbn in *; congruence.
    + rewrite E2. unfold dev_res. perm.
  - apply (Hf _ ((if blk then [RDevRead] else []) ++ [RDev])); [done|done|cbn [w_held w_set_core]; perm].
Qed.

Lemma wp_register dev_name w (Q : Z -> world -> Prop) : parse_ok dev_name ->
  (forall w', registered w' -> w_read_ctx_num w' <= XZTL_READ_RS_NUM -> reg_frame w w' -> w_held w' ≡ₚ dev_res (w_dev_read w') ++ w_held w -> Q 0 w') ->
  (forall ret L w', ctrue ret = true -> Forall is_dev L -> w_held w' ≡ₚ L ++ w_held w -> Q ret w') ->
  wp (znd_media_register ok devgeo cpu_num opts dev_name) Q w.
Proof using Hgeo.
  intros (ret & o & Hp & Hb) Ht Hf. unfold znd_media_register. rewrite Hp.
  destruct (ctrue ret) eqn:HR; [by apply wp_ret, (Hf ret [])|].
  destruct Hb as [[be Hbe] Hn]; [unfold ctrue in HR; by apply negb_false_iff, Z.eqb_eq in HR|].
  assert (exists x, znd_opt_assign opts opts o = Some x) as [x ->].
  { unfold znd_opt_assign. rewrite Hbe. cbn [mbind option_bind]. repeat case_match; by eexists. }
  assert (forall w1, same w w1 -> w_held w1 ≡ₚ (if is_blk_thrpool o then [RDevRead] else []) ++ RDev :: w_held w -> forall w', reg_frame w1 w' -> reg_frame w w') as HT.
  { intros w1 S1 _ w' (Y1 & Y2 & Y3 & Y4). destruct (same_reg _ _ S1) as (X1 & X2 & X3 & X4). repeat split; congruence. }
  acq; [|by apply wp_ret, (Hf _ [])]. apply wp_bind. destruct (is_blk_thrpool o).
  - apply wp_acquire; intros w1 S1 H1; cbn [negb]; cbv iota; [|apply wp_ret, (Hf _ [RDev]); [done|by repeat constructor|perm]].
    assert (w_held w1 ≡ₚ [RDevRead] ++ RDev :: w_held w) as H by perm.
    apply (wp_register_geo true _ (w_held w)); [done|done| |done]. intros w2 ? ? F2 ?. apply Ht; try done. eapply HT; [|exact H|exact F2]. eauto with boot.
  - apply wp_ret. cbn [negb]. cbv iota. apply (wp_register_geo false _ (w_held w)); [done|done| |done]. intros w2 ? ? F2 ?. apply Ht; try done. eapply HT; [|exact Ha|exact F2]. done.
Qed.

Lemma wp_xztl_exit R w (Q : Z -> world -> Prop) : running R w -> w_pools w = [XZTL_NODE_MGMT_ENTRY] ->
  (forall w', w_pools w' = [] -> w_held w' ≡ₚ md_res ++ R -> Q 0 w') -> wp (xztl_exit term_ok) Q w.
Proof using Hterm.
  intros (Hreg & Hm & Hg & Hpg & Hr & Hw) Hp HQ. unfold xztl_exit. apply wp_bind. unfold ztl_exit. apply wp_bind.
  eapply (wp_global_exit term_ok Hterm [] (groups_res (w_grps w) ++ dev_res (w_dev_read w) ++ R)); [done|done|done|done|done|done|].
  intros w1 St1 P1 H1. eapply (wp_groups_exit (md_res ++ dev_res (w_dev_read w) ++ R)); [rewrite (stable_grps _ _ St1); perm|].
  intros w2 S2 _ H2. pose proof S2 as (_ & _ & _ & P2).
  assert (media_same w w2) as M2 by (eapply media_trans; [by apply stable_media|by apply grps_media]).
  destruct (registered_media _ _ M2 Hreg) as (Hreg2 & Hdr & _). unfold dev_res in H2. apply wp_bind.
  eapply (wp_media_exit (RMedia :: md_res ++ R)); [done|rewrite Hdr; perm|]. intros w3 (St3 & _ & _ & P3) H3.
  apply wp_bind, wp_mp_exit_none; [congruence|]. apply wp_bind, wp_gets. rewrite (stable_core _ _ St3).
  destruct Hreg2 as (_ & m & Hc & _). rewrite Hc. apply wp_bind, wp_bind.
  eapply (wp_release _ (md_res ++ R)); [done|]. intros w4 S4 H4. apply wp_put, wp_ret, HQ; [|done].
  destruct S4 as (_ & _ & _ & P4). cbn. congruence.
Qed.

(** What is left when the start fails *)
Inductive start_left : Z -> list resource -> Prop :=
  | left_register ret L : Forall is_dev L -> start_left (Z.lor XZTL_MEDIA_ERROR ret) L
  | left_ztl ret L : ztl_left thread ret L -> start_left ret (L ++ [RMedia]).

Lemma lor_media_error ret : ctrue (Z.lor XZTL_MEDIA_ERROR ret) = true.
Proof using.
  unfold ctrue. destruct (Z.eqb_spec (Z.lor XZTL_MEDIA_ERROR ret) 0) as [E|E]; [|done].
  apply Z.lor_eq_0_iff in E as [E _]. discriminate.
Qed.

Lemma wp_xztl_init dev_name m' w (Q : Z -> world -> Prop) : parse_ok dev_name ->
  ztl_mod_set (a_modset (w_mods w)) (w_mods w) = Some (XZTL_OK, m') -> all_mods m' ->
  (forall w', registered w' -> all_mods (w_mods w') -> w_ngrps w' <= Z.of_nat (length (w_grps w')) -> w_pages w' 0%nat = rev (seq 0 MAP_BUF_PGS) ->
     w_read_ctx_num w' <= XZTL_READ_RS_NUM -> w_pools w' = [XZTL_NODE_MGMT_ENTRY] ->
     w_held w' ≡ₚ global_res thread (Z.to_nat (w_read_ctx_num w')) (w_ngrps w') (w_ptr w') ++ groups_res (w_grps w') ++ dev_res (w_dev_read w') ++ w_held w -> Q 0 w') ->
  (forall ret L w', ctrue ret = true -> start_left ret L -> w_held w' ≡ₚ L ++ w_held w -> Q ret w') ->
  wp (xztl_init ok term_ok devgeo cpu_num opts md_ok thread dev_name) Q w.
Proof using Hgeo Hterm.
  intros Hpo Hs Hm Ht Hf. unfold xztl_init. apply wp_bind, (wp_register dev_name); [done| |].
  2: { intros ret L w1 HR HL H1. rewrite HR. apply wp_ret, (Hf _ L); [apply lor_media_error|by constructor|done]. }
  intros w1 Hreg Hrd (F1 & F2 & F3 & F4) H1. change (ctrue 0) with false. cbv iota.
  apply wp_bind. unfold mp_init. apply wp_bind, wp_put, wp_ret. change (ctrue XZTL_OK) with false. cbv iota.
  set (w2 := w_set_pools w1 []). pose proof Hreg as (Hd & m & Hc & Hi & He & Hn).
  apply wp_bind. unfold xztl_media_init. apply wp_bind, wp_gets. change (w_core w2) with (w_core w1). rewrite Hc, Hi. cbn [negb]. cbv iota.
  unfold znd_media_init. apply wp_ret. change (ctrue XZTL_OK) with false. cbv iota.
  apply wp_bind, (wp_ztl_init ok term_ok md_ok thread Hterm m m' w2); [done|done|by replace (w_mods w2) with (w_mods w) by (by injection F1)|done|done|done| |].
  - intros w3 (M3 & Hm3 & (_ & Hg3) & Hpg3 & Hp3 & H3). change (ctrue 0) with false. cbv iota.
    destruct (registered_media w2 w3 M3 Hreg) as (Hreg3 & Hdr & Hr3). apply wp_ret, Ht; [done|done|done|done|by rewrite Hr3|done|].
    change (w_held w2) with (w_held w1) in H3. rewrite Hdr. change (w_dev_read w2) with (w_dev_read w1). perm.
  - intros ret L w3 HR HL M3 P3 H3. rewrite HR. destruct (registered_media w2 w3 M3 Hreg) as (Hreg3 & Hdr & Hr3).
    change (w_held w2) with (w_held w1) in H3. change (w_dev_read w2) with (w_dev_read w1) in Hdr. unfold dev_res in H1. apply wp_bind.
    eapply (wp_media_exit (L ++ RMedia :: w_held w)); [done|rewrite Hdr; perm|]. intros w4 (_ & _ & _ & P4) H4.
    apply wp_bind, wp_mp_exit_none; [congruence|]. apply wp_ret, (Hf ret (L ++ [RMedia])); [done|by constructor|perm].
Qed.

End Library.

(** The modules as [zrocks_init] registers them *)
Lemma register_all_mods w : w_mods w = mods_zero -> exists m m', register_all w = Some (tt, w_set_mods w m) /\
  ztl_mod_set (a_modset m) m = Some (XZTL_OK, m') /\ all_mods m'.
Proof.
  intros Hm. destruct w. cbn in Hm. subst. eexists _, _. split; [vm_compute; reflexivity|].
  split; [vm_compute; reflexivity|]. by repeat split.
Qed.

Section ZRocks.

Context (ok : nat -> bool) (term_ok : owner -> bool) (Hterm : forall o, term_ok o = true).
Context (devgeo : option xnvme_geo) (Hgeo : forall dg, devgeo = Some dg -> 0 <= xg_npugrp dg).
Context (cpu_num : Z) (opts : xnvme_opts) (md_ok : bool).

(** The library runs with the pool of ZRocks, on top of the resources [R]. *)
Definition zrunning (R : list resource) (w : world) : Prop :=
  exists R', R' ≡ₚ RPool ZROCKS_MEMORY :: R /\ running R' w /\ w_pools w = [ZROCKS_MEMORY; XZTL_NODE_MGMT_ENTRY].

Lemma running_move R R' w w' : running R w -> stable w w' -> w_pages w' = w_pages w ->
  (forall n g, global_res true n g (w_ptr w') = global_res true n g (w_ptr w)) ->
  (forall X, w_held w ≡ₚ X ++ R -> w_held w' ≡ₚ X ++ R') -> running R' w'.
Proof using.
  intros (R1 & M1 & G1 & Pg1 & N1 & H1) St Pg Pt HX.
  destruct (registered_media _ _ (stable_media _ _ St) R1) as (R3 & D3 & N3).
  split; [exact R3|]. split; [rewrite (stable_mods _ _ St); exact M1|].
  split; [rewrite (stable_ngrps _ _ St), (stable_grps _ _ St); exact G1|]. split; [rewrite Pg; exact Pg1|].
  split; [rewrite N3; exact N1|].
  rewrite N3, (stable_ngrps _ _ St), (stable_grps _ _ St), D3, Pt, !app_assoc. apply HX. rewrite H1, !app_assoc. reflexivity.
Qed.

Lemma running_frame R R' L w w' : running R w -> stable w w' -> w_ptr w' = w_ptr w -> w_pages w' = w_pages w ->
  w_held w' ≡ₚ L ++ w_held w -> R' ≡ₚ L ++ R -> running R' w'.
Proof using.
  intros Hr St Pt Pg Hh HR. apply (running_move R R' w); [exact Hr|exact St|exact Pg|by rewrite Pt|].
  intros X HX. rewrite Hh, HX, HR. perm.
Qed.

Lemma wp_zrocks_init dev_name w (Q : Z -> world -> Prop) : w_mods w = mods_zero -> parse_ok cpu_num dev_name ->
  (forall w', zrunning (w_held w) w' -> Q 0 w') ->
  (forall ret w', ctrue ret = true -> Q ret w') ->
  wp (zrocks_init ok term_ok devgeo cpu_num opts md_ok true dev_name) Q w.
Proof using Hgeo Hterm.
  intros Hmods Hpo Ht Hf. destruct (register_all_mods w Hmods) as (m & m' & Hreg & Hs & Hm).
  unfold zrocks_init. apply wp_bind. unfold wp at 1. rewrite Hreg. apply wp_bind.
  apply (wp_xztl_init ok term_ok Hterm devgeo Hgeo cpu_num opts md_ok true dev_name m'); [done|done|done| |].
  2: { intros ret L w1 HR HL H1. rewrite HR. by apply wp_ret, Hf. }
  intros w1 R1 M1 G1 Pg1 N1 P1 H1. change (w_held (w_set_mods w m)) with (w_held w) in H1. change (ctrue 0) with false. cbv iota.
  assert (running (w_held w) w1) as Hrun by exact (conj R1 (conj M1 (conj G1 (conj Pg1 (conj N1 H1))))).
  apply wp_bind, wp_mp_create; [rewrite P1; apply not_elem_of_cons; split; [discriminate|apply not_elem_of_nil]| |].
  - intros w2 (St & Pt & Pg) P2 H2. change (ctrue 0) with false. cbv iota. apply wp_bind, wp_ret, wp_ret, Ht.
    eexists. split; [reflexivity|]. split; [|by rewrite P2, P1].
    eapply (running_frame _ _ [RPool ZROCKS_MEMORY]); [exact Hrun|done..].
  - intros ret w2 HR (St & Pt & Pg & P2) H2. rewrite HR. apply wp_bind, wp_bind.
    apply (wp_xztl_exit term_ok Hterm (w_held w)).
    + eapply (running_frame _ _ []); [exact Hrun|done..].
    + congruence.
    + intros w3 _ H3. by apply wp_ret, wp_ret, Hf.
Qed.

Lemma wp_zrocks_exit R w (Q : Z -> world -> Prop) : zrunning R w ->
  (forall w', w_held w' ≡ₚ md_res ++ R -> Q 0 w') -> wp (zrocks_exit term_ok) Q w.
Proof using Hterm.
  intros (R' & HR & Hrun & Hp) HQ. unfold zrocks_exit. apply wp_bind. pose proof Hrun as (_ & _ & _ & _ & _ & Hw).
  set (X := global_res true (Z.to_nat (w_read_ctx_num w)) (w_ngrps w) (w_ptr w)) in *.
  eapply (wp_mp_destroy _ [XZTL_NODE_MGMT_ENTRY] (X ++ groups_res (w_grps w) ++ dev_res (w_dev_read w) ++ R)); [done|rewrite Hw, HR; perm|].
  intros w3 (St & Pt & Pg) P3 H3. apply (wp_xztl_exit term_ok Hterm R); [|done|intros w4 _ H4; by apply HQ].
  apply (running_move R' R w); [exact Hrun|exact St|exact Pg|by rewrite Pt|]. intros Y HY. rewrite H3.
  apply (Permutation_app_inv_l [RPool ZROCKS_MEMORY]). rewrite HR in HY, Hw. rewrite Hw in HY. 
  transitivity (Y ++ RPool ZROCKS_MEMORY :: R); [rewrite <- HY; perm|perm].
Qed.

End ZRocks.



(** * The witnesses: a character device with one group, on a machine with 4 processors *)

Definition sim_devgeo : xnvme_geo := {| xg_npugrp := 1; xg_npunit := 1; xg_nzone := 1000; xg_nsect := 4096; xg_nbytes := 4096; xg_nbytes_oob := 0 |}.
Definition sim_opts : xnvme_opts := {| xo_async := []; xo_be := None; xo_direct := 0; xo_rdwr := 1; xo_rdonly := 0; xo_wronly := 0; xo_nsid := 0 |}.

(** [/dev/ng0n1?be:libaio] *)
Definition sim_dev : str := [47; 100; 101; 118; 47; 110; 103; 48; 110; 49; 63; 98; 101; 58; 108; 105; 98; 97; 105; 111].

(** Every call succeeds but the one numbered [k]. *)
Definition fail_at (k : Z) (n : nat) : bool := negb (Z.of_nat n =? k).

Lemma sim_parse : parse_ok 4 sim_dev.
Proof. eexists _, _. split; [vm_compute; reflexivity|]. intros _. split; [eexists; reflexivity|]. vm_compute. discriminate. Qed.

Lemma sim_groups dg : Some sim_devgeo = Some dg -> 0 <= xg_npugrp dg.
Proof. intros [= <-]. cbn. lia. Qed.


(** The start that fails to initialise the ninth mutex of the mapping table *)
Example start_mutex_fails :
  (fst <$> (register_all ;; xztl_init (fail_at 25) (fun _ => true) (Some sim_devgeo) 4 sim_opts true true sim_dev) world_zero) = Some XZTL_ZTL_MPE_ERR /\
  ((fun x => w_held (snd x)) <$> (register_all ;; xztl_init (fail_at 25) (fun _ => true) (Some sim_devgeo) 4 sim_opts true true sim_dev) world_zero) = Some [RMdMutex; RMdZones; RMedia].
Proof. split; vm_compute; reflexivity. Qed.


(** * Geometry *)

Lemma u32_mul_l a b : u32 (u32 a * b) = u32 (a * b).
Proof. unfold wrap. by rewrite Zmult_mod_idemp_l. Qed.

Lemma u32_exact x : 0 <= x -> (u32 x = x <-> x < 2 ^ 32).
Proof. unfold wrap. intros Hx. split; [intros <-; apply Z.mod_pos_bound; lia|intros; apply Z.mod_small; lia]. Qed.

Lemma bad_geo_limits g : bad_geo g = false -> pu_grp g <= XZTL_MEDIA_MAX_PUGRP /\ zn_pu g <= XZTL_MEDIA_MAX_ZNPU.
Proof. unfold bad_geo. rewrite !orb_false_iff. rewrite !Z.ltb_ge. tauto. Qed.

(** The geometry that [xztl_media_check] accepts: the zones of a group are counted exactly, but the
    sectors of the device and the bytes of a zone are products in 32 bits, exact only below 2^32 (a zone of
    4 GiB has 0 bytes). *)
Theorem media_check_geometry m m' : xztl_media_check m = (XZTL_OK, m') ->
  0 <= ngrps (m_geo m) -> 0 <= pu_grp (m_geo m) -> 0 <= zn_pu (m_geo m) -> 0 <= sec_zn (m_geo m) -> 0 <= nbytes (m_geo m) ->
  zn_grp (m_geo m') = pu_grp (m_geo m) * zn_pu (m_geo m) /\
  (sec_dev (m_geo m') = pu_grp (m_geo m) * zn_pu (m_geo m) * sec_zn (m_geo m) * ngrps (m_geo m) <->
     pu_grp (m_geo m) * zn_pu (m_geo m) * sec_zn (m_geo m) * ngrps (m_geo m) < 2 ^ 32) /\
  (nbytes_zn (m_geo m') = nbytes (m_geo m) * sec_zn (m_geo m) <-> nbytes (m_geo m) * sec_zn (m_geo m) < 2 ^ 32).
Proof.
  unfold xztl_media_check. repeat (destruct (negb _); [discriminate|]). destruct (bad_geo (m_geo m)) eqn:Hb; [discriminate|]. intros [= <-].
  intros H1 H2 H3 H4 H5. cbn [m_geo fill_geo zn_grp sec_dev nbytes_zn]. apply bad_geo_limits in Hb as [L1 L2].
  unfold XZTL_MEDIA_MAX_PUGRP, XZTL_MEDIA_MAX_ZNPU in *. split_and!.
  - apply u32_exact; nia.
  - rewrite u32_mul_l, <- (Z.mul_assoc (u32 _)), u32_mul_l, Z.mul_assoc. apply u32_exact. nia.
  - rewrite Z.mul_1_r. rewrite <- u32_exact by nia.
    assert (u64 (u32 (nbytes (m_geo m) * sec_zn (m_geo m))) = u32 (nbytes (m_geo m) * sec_zn (m_geo m))) as ->; [|done].
    unfold wrap. apply Z.mod_small. pose proof (Z.mod_pos_bound (nbytes (m_geo m) * sec_zn (m_geo m)) (2 ^ 32)). lia.
Qed.

(** A device of 2048 zones of 4 GiB each *)
Definition big_media : xztl_media :=
  {| m_geo := geo_of {| xg_npugrp := 1; xg_npunit := 1; xg_nzone := 2048; xg_nsect := 1048576; xg_nbytes := 4096; xg_nbytes_oob := 0 |};
     m_init_fn := true; m_exit_fn := true; m_submit_io := true; m_zone_fn := true; m_dma_alloc := true; m_dma_free := true |}.

Lemma media_check_geometry_witness :
  zn_grp (m_geo (snd (xztl_media_check big_media))) = 2048 /\
  ~ nbytes_zn (m_geo (snd (xztl_media_check big_media))) = 4096 * 1048576.
Proof.
  destruct (media_check_geometry big_media (snd (xztl_media_check big_media))) as (H1 & _ & H3); [reflexivity|vm_compute; discriminate..|].
  split; [exact H1|]. intros H. apply H3 in H. vm_compute in H. discriminate.
Defined.
