(* ===== verification/Prometheus.v ===== *)
(** The Prometheus exporter: src/xztl/src/xztl-prometheus.c, which is built in when
    [XZTL_PROMETHEUS] (include/xztl.h) is set.

    Two threads export what the others record: one the counters, once a second, the other the
    read latencies.  Their functions are given as sequences of accesses to the shared members,
    so that what the recording threads do can come in between.  The clock and the result of
    [fopen] are arguments of the steps.  The start and stop are programs of Boot.v. *)

From S2P Require Import Prelude Types Stats Media Mempool Boot StatsReport.

(** * Counters *)

(** [struct xztl_prometheus_stats], less the [struct timespec] the clock is read into *)
Record xztl_prometheus_stats := {
  written_bytes : Z; read_bytes : Z; io_count : Z; user_write_bytes : Z; zns_write_bytes : Z;
  us_s : Z; us_e : Z
}.

(** The counters that the export clears *)
Inductive counter := C_WRITTEN | C_READ | C_IO.

#[export] Instance counter_eq_dec : EqDecision counter.
Proof. solve_decision. Defined.

Definition pr_get (c : counter) (s : xztl_prometheus_stats) : Z :=
  match c with C_WRITTEN => written_bytes s | C_READ => read_bytes s | C_IO => io_count s end.

Definition pr_set (c : counter) (v : Z) (s : xztl_prometheus_stats) : xztl_prometheus_stats :=
  {| written_bytes := if decide (c = C_WRITTEN) then v else written_bytes s;
     read_bytes := if decide (c = C_READ) then v else read_bytes s;
     io_count := if decide (c = C_IO) then v else io_count s;
     user_write_bytes := user_write_bytes s; zns_write_bytes := zns_write_bytes s; us_s := us_s s; us_e := us_e s |}.

Definition pr_set_wa (user zns : Z) (s : xztl_prometheus_stats) : xztl_prometheus_stats :=
  {| written_bytes := written_bytes s; read_bytes := read_bytes s; io_count := io_count s;
     user_write_bytes := user; zns_write_bytes := zns; us_s := us_s s; us_e := us_e s |}.

Definition pr_set_us (start fin : Z) (s : xztl_prometheus_stats) : xztl_prometheus_stats :=
  {| written_bytes := written_bytes s; read_bytes := read_bytes s; io_count := io_count s;
     user_write_bytes := user_write_bytes s; zns_write_bytes := zns_write_bytes s; us_s := start; us_e := fin |}.

Definition pr_zero : xztl_prometheus_stats :=
  {| written_bytes := 0; read_bytes := 0; io_count := 0; user_write_bytes := 0; zns_write_bytes := 0; us_s := 0; us_e := 0 |}.

(** [ATOMIC_ADD] and [ATOMIC_SWAP(ptr, oldval, newval)], which is a compare-and-swap *)
Definition atomic_add (c : counter) (v : Z) (s : xztl_prometheus_stats) : xztl_prometheus_stats :=
  pr_set c (u64 (pr_get c s + v)) s.

Definition atomic_swap (c : counter) (old new : Z) (s : xztl_prometheus_stats) : xztl_prometheus_stats :=
  if pr_get c s =? old then pr_set c new s else s.

(** The two additions of [xztl_prometheus_add_io]: the counter of the bytes and their number *)
Definition io_bytes (nbytes : Z) (cmd : xztl_io_mcmd) : option (option (counter * Z)) :=
  nsec ← cmd_nsec cmd;
  Some (if (mc_opcode cmd =? XZTL_ZONE_APPEND) || (mc_opcode cmd =? XZTL_CMD_WRITE) then Some (C_WRITTEN, u32 (nsec * nbytes))
        else if mc_opcode cmd =? XZTL_CMD_READ then Some (C_READ, u32 (nsec * nbytes))
        else None).

Definition xztl_prometheus_add_io (nbytes : Z) (cmd : xztl_io_mcmd) (s : xztl_prometheus_stats) : option xztl_prometheus_stats :=
  a ← io_bytes nbytes cmd;
  match a with
  | Some (c, v) => Some (atomic_add C_IO 1 (atomic_add c v s))
  | None => Some s
  end.

(** The two [ATOMIC_SWAP]s of [xztl_prometheus_add_wa], given what was read as [oldval] *)
Definition swap_user (old new : Z) (s : xztl_prometheus_stats) : xztl_prometheus_stats :=
  if user_write_bytes s =? old then pr_set_wa new (zns_write_bytes s) s else s.

Definition swap_zns (old new : Z) (s : xztl_prometheus_stats) : xztl_prometheus_stats :=
  if zns_write_bytes s =? old then pr_set_wa (user_write_bytes s) new s else s.

Definition xztl_prometheus_add_wa (user_writes zns_writes : Z) (s : xztl_prometheus_stats) : xztl_prometheus_stats :=
  let s := swap_user (user_write_bytes s) user_writes s in
  swap_zns (zns_write_bytes s) zns_writes s.

(** [xztl_stats_inc] of xztl-stats.c, with the exporter *)
Definition xztl_stats_inc_pr (st : xztl_stats) (s : xztl_prometheus_stats) (type val : Z) : option (xztl_stats * xztl_prometheus_stats) :=
  st' ← xztl_stats_inc st type val;
  if type =? XZTL_STATS_APPEND_BYTES_U then
    user ← (st_io st').[XZTL_STATS_APPEND_BYTES_U];
    zns ← (st_io st').[XZTL_STATS_APPEND_BYTES];
    Some (st', xztl_prometheus_add_wa user zns s)
  else Some (st', s).

(** The accounting at the end of [zrocks_write] (zrocks/src/zrocks.c), with the exporter *)
Definition zrocks_write_stats_pr (is_gc : bool) (size new_sz : Z) (st : xztl_stats) (s : xztl_prometheus_stats)
    : option (xztl_stats * xztl_prometheus_stats) :=
  '(st, s) ← xztl_stats_inc_pr st s (if is_gc then XZTL_STATS_APPEND_BYTES_GC else XZTL_STATS_APPEND_BYTES_U) size;
  '(st, s) ← xztl_stats_inc_pr st s (if is_gc then XZTL_STATS_APPEND_GC_CMD else XZTL_STATS_APPEND_UCMD) 1;
  xztl_stats_inc_pr st s XZTL_STATS_APPEND_BYTES new_sz.

(** A sequence of user writes: sizes, and sizes with padding *)
Fixpoint write_all_pr (ws : list (Z * Z)) (st : xztl_stats) (s : xztl_prometheus_stats) : option (xztl_stats * xztl_prometheus_stats) :=
  match ws with
  | [] => Some (st, s)
  | (size, new_sz) :: ws' => '(st', s') ← zrocks_write_stats_pr false size new_sz st s; write_all_pr ws' st' s'
  end.

(** * Export of the counters *)

(** The files of one export under /tmp, as the values that are written *)
Record exported := { ex_thput_w : double; ex_thput_r : double; ex_thput : double; ex_iops : Z; ex_wamp : double }.

Definition export (write read io : Z) (s : xztl_prometheus_stats) : exported :=
  let thput_w := mega write in
  let thput_r := mega read in
  {| ex_thput_w := thput_w; ex_thput_r := thput_r; ex_thput := dadd thput_w thput_r; ex_iops := io;
     ex_wamp := if ctrue (user_write_bytes s) then ddiv (dbl (zns_write_bytes s)) (dbl (user_write_bytes s)) else dbl 1 |}.

(** [xztl_prometheus_reset] when nothing comes between *)
Definition xztl_prometheus_reset (now : Z) (s : xztl_prometheus_stats) : exported * xztl_prometheus_stats :=
  let s := pr_set_us now (us_e s) s in
  let write := written_bytes s in
  let read := read_bytes s in
  let io := io_count s in
  let s := atomic_swap C_WRITTEN (written_bytes s) 0 s in
  let s := atomic_swap C_READ (read_bytes s) 0 s in
  let s := atomic_swap C_IO (io_count s) 0 s in
  (export write read io s, s).

(** The thread [xztl_prometheus_flush], access by access.  [F_start]: before the first reading of the
    clock; [F_top]: at the head of the first loop; [F_wait]: in the second; [R_*]: in a reset, of which
    [fin] says that it is the last; the arguments are the local variables, [tmp] the second argument of
    an [ATOMIC_SWAP]. *)
Inductive fpc :=
  | F_start | F_top | F_wait | F_done
  | R_begin (fin : bool) | R_write (fin : bool) | R_read (fin : bool) (write : Z) | R_io (fin : bool) (write read : Z)
  | R_clear (c : counter) (fin : bool) (write read io : Z)
  | R_swap (c : counter) (fin : bool) (write read io tmp : Z)
  | R_export (fin : bool) (write read io : Z).

Definition after_swap (c : counter) (fin : bool) (write read io : Z) : fpc :=
  match c with
  | C_WRITTEN => R_clear C_READ fin write read io
  | C_READ => R_clear C_IO fin write read io
  | C_IO => R_export fin write read io
  end.

Definition elapsed (s : xztl_prometheus_stats) : bool := 1000000 <=? u64 (us_e s - us_s s).

(** One step; [now] is the clock, [running] is [xztl_flush_running].  The last component is an export:
    the values read and the files. *)
Definition flush_step (now : Z) (running : bool) (s : xztl_prometheus_stats) (pc : fpc)
    : xztl_prometheus_stats * fpc * option (Z * Z * Z * exported) :=
  match pc with
  | F_start => (pr_set_us now (us_e s) s, F_top, None)
  | F_top =>
      if running then
        let s' := pr_set_us (us_s s) now s in
        (s', if elapsed s' then R_begin false else F_top, None)
      else (s, F_wait, None)
  | F_wait => if elapsed s then (s, R_begin true, None) else (pr_set_us (us_s s) now s, F_wait, None)
  | F_done => (s, F_done, None)
  | R_begin fin => (pr_set_us now (us_e s) s, R_write fin, None)
  | R_write fin => (s, R_read fin (written_bytes s), None)
  | R_read fin write => (s, R_io fin write (read_bytes s), None)
  | R_io fin write read => (s, R_clear C_WRITTEN fin write read (io_count s), None)
  | R_clear c fin write read io => (s, R_swap c fin write read io (pr_get c s), None)
  | R_swap c fin write read io tmp => (atomic_swap c tmp 0 s, after_swap c fin write read io, None)
  | R_export fin write read io => (s, if fin then F_done else F_top, Some (write, read, io, export write read io s))
  end.

(** The exporter with the recording threads.  [p_in] are the additions to the counters so far and
    [p_out] the exports. *)
Record pr_sys := { p_s : xztl_prometheus_stats; p_pc : fpc; p_run : bool; p_in : list (counter * Z); p_out : list (Z * Z * Z * exported) }.

Inductive pr_action := P_add (c : counter) (v : Z) | P_user (old new : Z) | P_zns (old new : Z) | P_flush (now : Z) | P_stop.

Definition pr_step (y : pr_sys) (a : pr_action) : pr_sys :=
  match a with
  | P_add c v => {| p_s := atomic_add c v (p_s y); p_pc := p_pc y; p_run := p_run y; p_in := p_in y ++ [(c, v)]; p_out := p_out y |}
  | P_user old new => {| p_s := swap_user old new (p_s y); p_pc := p_pc y; p_run := p_run y; p_in := p_in y; p_out := p_out y |}
  | P_zns old new => {| p_s := swap_zns old new (p_s y); p_pc := p_pc y; p_run := p_run y; p_in := p_in y; p_out := p_out y |}
  | P_flush now =>
      let '(s, pc, o) := flush_step now (p_run y) (p_s y) (p_pc y) in
      {| p_s := s; p_pc := pc; p_run := p_run y; p_in := p_in y; p_out := p_out y ++ option_list o |}
  | P_stop => {| p_s := p_s y; p_pc := p_pc y; p_run := false; p_in := p_in y; p_out := p_out y |}
  end.

Definition pr_start : pr_sys := {| p_s := pr_zero; p_pc := F_start; p_run := true; p_in := []; p_out := [] |}.

(** * Latencies *)

Definition XZTL_PROMETHEUS_LAT : Z := 3.
Definition MAX_LATENCY_ENTS : Z := 8192.
Definition XZTL_ZTL_PROMETHEUS_ERR : Z := 32.

(** The thread [xztl_prometheus_latency_th]: [L_top] at the head of its loop; in [xztl_prometheus_flush_latency],
    [fin] says that it is the last call, [dequeued] counts the turns: [L_open] before the clock is read and the file
    opened; [L_test] before the test of the loop; [L_body] before the critical section; [L_print] before [fprintf]. *)
Inductive lpc :=
  | L_start | L_top | L_done
  | L_open (fin : bool) | L_test (fin : bool) (dequeued : Z) | L_body (fin : bool) (dequeued : Z) | L_print (fin : bool) (dequeued lat : Z).

(** The pool [XZTL_PROMETHEUS_LAT], [lat_head] (an entry of the pool with its [usec]), the contents of
    the file, and the clock's members; [l_acc] are the latencies that were queued so far, [l_out] those that were
    written to the file, by any call. *)
Record lat := {
  l_pool : xztl_mp_pool_i; l_head : list (xztl_mp_entry * Z); l_file : list Z; l_pc : lpc; l_run : bool;
  us_l_s : Z; us_l_e : Z; l_acc : list Z; l_out : list Z
}.

Definition l_set_pc (s : lat) (pc : lpc) : lat :=
  {| l_pool := l_pool s; l_head := l_head s; l_file := l_file s; l_pc := pc; l_run := l_run s;
     us_l_s := us_l_s s; us_l_e := us_l_e s; l_acc := l_acc s; l_out := l_out s |}.

(** [xztl_prometheus_add_read_latency]: one critical section of [lat_spin].  Entries are put back only inside this
    lock, so a wait for one would not end. *)
Definition xztl_prometheus_add_read_latency (usec : Z) (s : lat) : outcome lat :=
  if xztl_mempool_left (l_pool s) =? 0 then Ok s else
  '(ent, p) ← xztl_mempool_get (l_pool s) [];
  Ok {| l_pool := p; l_head := tailq_insert_tail (l_head s) (ent, usec); l_file := l_file s; l_pc := l_pc s; l_run := l_run s;
        us_l_s := us_l_s s; us_l_e := us_l_e s; l_acc := l_acc s ++ [usec]; l_out := l_out s |}.

(** The critical section of the loop: the first entry is taken and goes back to the pool. *)
Definition lat_take (fin : bool) (dequeued : Z) (s : lat) : option lat :=
  match l_head s with
  | [] => d ← cint (dequeued + 1); Some (l_set_pc s (L_test fin d))
  | (ent, usec) :: head =>
      p ← xztl_mempool_put (l_pool s) ent;
      Some {| l_pool := p; l_head := head; l_file := l_file s; l_pc := L_print fin dequeued usec; l_run := l_run s;
              us_l_s := us_l_s s; us_l_e := us_l_e s; l_acc := l_acc s; l_out := l_out s |}
  end.

Definition lat_print (fin : bool) (dequeued usec : Z) (s : lat) : option lat :=
  d ← cint (dequeued + 1);
  Some {| l_pool := l_pool s; l_head := l_head s; l_file := l_file s ++ [usec]; l_pc := L_test fin d; l_run := l_run s;
          us_l_s := us_l_s s; us_l_e := us_l_e s; l_acc := l_acc s; l_out := l_out s ++ [usec] |}.

Definition l_set_clock (start fin : Z) (s : lat) : lat :=
  {| l_pool := l_pool s; l_head := l_head s; l_file := l_file s; l_pc := l_pc s; l_run := l_run s;
     us_l_s := start; us_l_e := fin; l_acc := l_acc s; l_out := l_out s |}.

Definition l_truncate (s : lat) : lat :=
  {| l_pool := l_pool s; l_head := l_head s; l_file := []; l_pc := l_pc s; l_run := l_run s;
     us_l_s := us_l_s s; us_l_e := us_l_e s; l_acc := l_acc s; l_out := l_out s |}.

Definition after_flush (fin : bool) : lpc := if fin then L_done else L_top.

(** [while (!STAILQ_EMPTY(&lat_head) || dequeued < MAX_LATENCY_ENTS)] *)
Definition lat_more (dequeued : Z) (s : lat) : bool := negb (bool_decide (l_head s = [])) || (dequeued <? MAX_LATENCY_ENTS).

Definition lat_step (now : Z) (fopen : bool) (s : lat) : option lat :=
  match l_pc s with
  | L_start => Some (l_set_pc (l_set_clock now (us_l_e s) s) L_top)
  | L_top =>
      if negb (l_run s) then Some (l_set_pc s (L_open true)) else
      let s := l_set_clock (us_l_s s) now s in
      if (xztl_mempool_left (l_pool s) <? 512) || (1000000 <=? u64 (us_l_e s - us_l_s s)) then Some (l_set_pc s (L_open false))
      else Some s
  | L_done => Some s
  | L_open fin =>
      let s := l_set_clock now (us_l_e s) s in
      if fopen then Some (l_set_pc (l_truncate s) (L_test fin 0)) else Some (l_set_pc s (after_flush fin))
  | L_test fin d => Some (l_set_pc s (if lat_more d s then L_body fin d else after_flush fin))
  | L_body fin d => lat_take fin d s
  | L_print fin d usec => lat_print fin d usec s
  end.

(** The pool after its creation, an empty queue *)
Definition lat_start (ent_mem op_mem : Z -> Z) : lat :=
  {| l_pool := {| mp_active := 1; mp_in_count := 0; mp_out_count := 0; mp_entries := MAX_LATENCY_ENTS;
                  mp_alloc_fn := false; mp_free_fn := false; mp_head := created ent_mem op_mem 0 0 (Z.to_nat MAX_LATENCY_ENTS) |};
     l_head := []; l_file := []; l_pc := L_start; l_run := true; us_l_s := 0; us_l_e := 0; l_acc := []; l_out := [] |}.

(** A recording thread runs its critical section, the exporter makes a step, or the exporter is told to stop. *)
Inductive lat_trans : lat -> lat -> Prop :=
  | lat_add usec s s' : xztl_prometheus_add_read_latency usec s = Ok s' -> lat_trans s s'
  | lat_thread now fopen s s' : lat_step now fopen s = Some s' -> lat_trans s s'
  | lat_stop s : lat_trans s {| l_pool := l_pool s; l_head := l_head s; l_file := l_file s; l_pc := l_pc s; l_run := false;
                                us_l_s := us_l_s s; us_l_e := us_l_e s; l_acc := l_acc s; l_out := l_out s |}.

(** The exporter alone *)
Fixpoint lat_alone (k : nat) (s : lat) : option lat :=
  match k with O => Some s | S k' => s' ← lat_step 0 true s; lat_alone k' s' end.

(** * Start and stop

    A thread that was created runs: the loops that wait for its first step end. *)

Section Start.

Variable ok : nat -> bool.

Definition xztl_prometheus_init : boot Z :=
  b ← acquire ok RLatSpin;
  if negb b then mret XZTL_ZTL_PROMETHEUS_ERR else
  ret ← mp_create ok XZTL_PROMETHEUS_LAT;
  if ctrue ret then release RLatSpin ;; mret XZTL_ZTL_PROMETHEUS_ERR else
  b ← acquire ok RLatThread;
  if negb b then mp_destroy XZTL_PROMETHEUS_LAT ;; release RLatSpin ;; mret XZTL_ZTL_PROMETHEUS_ERR else
  b ← acquire ok RFlushThread;
  if negb b then
    release RFlushThread ;; mp_destroy XZTL_PROMETHEUS_LAT ;; release RLatSpin ;; mret XZTL_ZTL_PROMETHEUS_ERR
  else mret XZTL_OK.

Definition xztl_prometheus_exit : boot unit :=
  release RFlushThread ;; release RLatThread ;; mp_destroy XZTL_PROMETHEUS_LAT ;; release RLatSpin.

End Start.
