(* ===== verification/PrometheusTheorems.v ===== *)
(** The Prometheus exporter: what its counters and its latency queue export, in every
    interleaving with the threads that record, and its start and stop. *)

From stdpp Require Import relations.
From S2P Require Import Prelude Types Stats Media Mempool MempoolTheorems Boot BootLogic StatsReport Prometheus.

(** * Counters *)

(** What a pending reset has read of a counter, and whether it has cleared it *)
Definition val_of (c : counter) (write read io : Z) : Z :=
  match c with C_WRITTEN => write | C_READ => read | C_IO => io end.

(** The position of a counter in the sequence of swaps *)
Definition rank (c : counter) : nat := match c with C_WRITTEN => 0 | C_READ => 1 | C_IO => 2 end.

Inductive hold := Unread | Read (v : Z) | Cleared (v : Z).

Definition hold_of (pc : fpc) (c : counter) : hold :=
  match pc with
  | R_read _ write => match c with C_WRITTEN => Read write | _ => Unread end
  | R_io _ write read => match c with C_WRITTEN => Read write | C_READ => Read read | C_IO => Unread end
  | R_clear d _ write read io | R_swap d _ write read io _ =>
      if (rank c <? rank d)%nat then Cleared (val_of c write read io) else Read (val_of c write read io)
  | R_export _ write read io => Cleared (val_of c write read io)
  | _ => Unread
  end.

(** A schedule is quiet if nothing is added to a counter between its reading and its swap. *)
Definition quiet (y : pr_sys) (a : pr_action) : Prop :=
  match a with P_add c _ => forall v, hold_of (p_pc y) c <> Read v | _ => True end.

Inductive pr_reach (ok : pr_sys -> pr_action -> Prop) : pr_sys -> Prop :=
  | pr_reach_start : pr_reach ok pr_start
  | pr_reach_step y a : pr_reach ok y -> ok y a -> pr_reach ok (pr_step y a).

(** What was added to a counter, and what was exported of it *)
Definition added (c : counter) (l : list (counter * Z)) : Z := zsum ((fun '(d, v) => if decide (d = c) then v else 0) <$> l).

Definition shown (c : counter) (l : list (Z * Z * Z * exported)) : Z :=
  zsum ((fun '(write, read, io, _) => val_of c write read io) <$> l).

Definition pending (h : hold) : Z := match h with Cleared v => v | _ => 0 end.

(** Each counter balances: exported, in a reset, and still to export. *)
Definition balanced (y : pr_sys) (c : counter) : Prop :=
  0 <= pr_get c (p_s y) < 2 ^ 64 /\
  u64 (shown c (p_out y) + pending (hold_of (p_pc y) c) + pr_get c (p_s y)) = u64 (added c (p_in y)) /\
  (forall v, hold_of (p_pc y) c = Read v -> pr_get c (p_s y) = v) /\
  (forall fin write read io tmp, p_pc y = R_swap c fin write read io tmp -> tmp = pr_get c (p_s y)).

Lemma pr_get_set c d v s : pr_get c (pr_set d v s) = if decide (d = c) then v else pr_get c s.
Proof. by destruct c, d. Qed.

Lemma added_app c l d v : added c (l ++ [(d, v)]) = added c l + if decide (d = c) then v else 0.
Proof. unfold added. rewrite fmap_app, zsum_app. cbn. case_decide; lia. Qed.

Lemma shown_app c l write read io e : shown c (l ++ [(write, read, io, e)]) = shown c l + val_of c write read io.
Proof. unfold shown. rewrite fmap_app, zsum_app. cbn. lia. Qed.

Lemma balanced_add y c d v : quiet y (P_add d v) -> balanced y c -> balanced (pr_step y (P_add d v)) c.
Proof.
  intros Hq (Hr & Hb & Hv & Ht). unfold balanced. cbn [pr_step p_s p_pc p_in p_out]. unfold atomic_add. rewrite pr_get_set, added_app.
  case_decide as E; [subst d|rewrite Z.add_0_r; done]. split; [apply wrap_range; lia|]. split; [|split].
  - rewrite <- (wrap_add_l _ (added c _)), <- Hb, wrap_add_l. unfold wrap. rewrite Zdiv.Zplus_mod_idemp_r. f_equal. lia.
  - intros w Hw. by destruct (Hq w).
  - intros fin write read io tmp E. destruct (Hq (val_of c write read io)). rewrite E. by destruct c.
Qed.

(** A step that changes neither the counters nor what a reset holds of them *)
Lemma balanced_same y y' c : pr_get c (p_s y') = pr_get c (p_s y) -> p_in y' = p_in y -> p_out y' = p_out y ->
  hold_of (p_pc y') c = hold_of (p_pc y) c ->
  p_pc y' = p_pc y \/ (forall fin write read io tmp, p_pc y' = R_swap c fin write read io tmp -> tmp = pr_get c (p_s y)) ->
  balanced y c -> balanced y' c.
Proof. intros Hg Hi Ho Hh [Hp|Ht] (Hr & Hb & Hv & Hs); unfold balanced; rewrite Hg, Hi, Ho, Hh; [by rewrite Hp|done]. Qed.

(** A swap after a quiet reset clears the counter. *)
Lemma balanced_swap s d fin write read io tmp run i o c :
  balanced {| p_s := s; p_pc := R_swap d fin write read io tmp; p_run := run; p_in := i; p_out := o |} c ->
  balanced {| p_s := s; p_pc := R_swap d fin write read io tmp; p_run := run; p_in := i; p_out := o |} d ->
  balanced {| p_s := atomic_swap d tmp 0 s; p_pc := after_swap d fin write read io; p_run := run; p_in := i; p_out := o |} c.
Proof.
  intros (Hr & Hb & Hv & _) (_ & _ & _ & Ht). cbn [p_s p_pc p_in p_out] in *. rewrite (Ht fin write read io tmp eq_refl).
  unfold balanced, atomic_swap. cbn [p_s p_pc p_in p_out]. rewrite Z.eqb_refl, pr_get_set. case_decide as E.
  - subst d. assert (Hg : pr_get c s = val_of c write read io) by (apply Hv; by destruct c).
    split; [lia|]. split; [|by split; destruct c].
    rewrite <- Hb, Hg. f_equal. destruct c; cbn; lia.
  - assert (Hh : hold_of (after_swap d fin write read io) c = hold_of (R_swap d fin write read io tmp) c) by (by destruct c, d).
    rewrite Hh. split; [done|]. split; [done|]. split; [done|]. by destruct d.
Qed.

(** A reset that reads counter [d] at [pc] *)
Lemma balanced_read s pc pc' run i o c : hold_of pc c = Unread ->
  hold_of pc' c = Read (pr_get c s) -> (forall fin write read io tmp, pc' <> R_swap c fin write read io tmp) ->
  balanced {| p_s := s; p_pc := pc; p_run := run; p_in := i; p_out := o |} c ->
  balanced {| p_s := s; p_pc := pc'; p_run := run; p_in := i; p_out := o |} c.
Proof.
  intros Hu Hh Hn (Hr & Hb & _ & _). unfold balanced. cbn [p_s p_pc p_in p_out] in *. rewrite Hh. rewrite Hu in Hb.
  split; [done|]. split; [done|]. split; [by intros v [= <-]|]. intros fin write read io tmp E. by destruct (Hn fin write read io tmp).
Qed.

Ltac same_step B := apply (balanced_same _ _ _) with (6 := B); cbn [p_s p_pc p_in p_out option_list]; rewrite ?app_nil_r; try done; try (by left); try (by right);
  match goal with |- context [pr_get ?c _] => by destruct c end.

Lemma balanced_flush y c now : (forall d, balanced y d) -> balanced (pr_step y (P_flush now)) c.
Proof.
  intros Ba. pose proof (Ba c) as B. cbn [pr_step]. destruct y as [s pc run i o]. cbn [p_s p_pc p_run p_in p_out] in *.
  destruct pc as [| | | |fin|fin|fin write|fin write read|d fin write read io|d fin write read io tmp|fin write read io]; cbn [flush_step].
  - same_step B.
  - destruct run; [destruct (elapsed _)|]; same_step B.
  - destruct (elapsed s); same_step B.
  - same_step B.
  - same_step B.
  - cbn [option_list]. rewrite app_nil_r. destruct c; [by apply (balanced_read s (R_write fin))| |]; same_step B.
  - cbn [option_list]. rewrite app_nil_r. destruct c; [|by apply (balanced_read s (R_read fin write))|]; same_step B.
  - cbn [option_list]. rewrite app_nil_r. destruct c; [| |by apply (balanced_read s (R_io fin write read))]; same_step B.
  - cbn [option_list]. rewrite app_nil_r. apply (balanced_same _ _ _) with (6 := B); try done. right. cbn. by intros ? ? ? ? ? [= -> _ _ _ _ <-].
  - cbn [option_list]. rewrite app_nil_r. apply balanced_swap; [done|apply Ba].
  - destruct B as (Hr & Hb & _ & _). unfold balanced. cbn [p_s p_pc p_in p_out] in *.
    change (option_list (Some ?x)) with [x]. rewrite shown_app.
    split; [done|]. split; [|by destruct fin]. rewrite <- Hb. f_equal. destruct fin; cbn; lia.
Qed.

Lemma balanced_step y a : quiet y a -> (forall c, balanced y c) -> forall c, balanced (pr_step y a) c.
Proof.
  intros Hq Ba c. pose proof (Ba c) as B. destruct a as [d v|old new|old new|now|].
  - by apply balanced_add.
  - unfold pr_step, swap_user. destruct (_ =? _); same_step B.
  - unfold pr_step, swap_zns. destruct (_ =? _); same_step B.
  - by apply balanced_flush.
  - same_step B.
Qed.

(** In every schedule in which nothing is added to a counter between the reading and the swap of it by a reset,
    what was exported of the counter, what the pending reset has taken and what is still in it add up to what was
    added to it, in 64 bits: everything that is recorded is exported once. *)
Theorem pr_export_exact y : pr_reach quiet y ->
  forall c, u64 (shown c (p_out y) + pending (hold_of (p_pc y) c) + pr_get c (p_s y)) = u64 (added c (p_in y)).
Proof.
  intros Hr c. apply proj2 with (A := 0 <= pr_get c (p_s y) < 2 ^ 64).
  assert (Ba : forall d, balanced y d); [|destruct (Ba c) as (? & ? & _); done].
  induction Hr as [|y a _ IH Hq]; [intros d; split; [by destruct d|by destruct d]|]. by apply balanced_step.
Qed.

(** * Schedules as lists *)

Definition pr_run (y : pr_sys) (l : list pr_action) : pr_sys := foldl pr_step y l.

Lemma pr_run_reach ok l : forall y, pr_reach ok y -> (forall y a, ok y a) -> pr_reach ok (pr_run y l).
Proof. induction l as [|a l IH]; intros y Hy Hok; [done|]. apply IH; [|done]. by constructor. Qed.

(** From the start: a byte count, then the steps of the thread to the reading of [written_bytes] in a reset *)
Definition to_read (v : Z) : list pr_action := [P_add C_WRITTEN v; P_flush 0; P_flush 1000000; P_flush 1000000; P_flush 1000000].

(** The counters of a run in which only [written_bytes] is used *)
Definition with_written (v us_s' us_e' : Z) : xztl_prometheus_stats :=
  {| written_bytes := v; read_bytes := 0; io_count := 0; user_write_bytes := 0; zns_write_bytes := 0; us_s := us_s'; us_e := us_e' |}.

Lemma to_read_run a : 0 <= a < 2 ^ 64 ->
  pr_run pr_start (to_read a) =
  {| p_s := with_written a 1000000 1000000; p_pc := R_read false a; p_run := true; p_in := [(C_WRITTEN, a)]; p_out := [] |}.
Proof.
  intros Ha. unfold pr_run, to_read. cbn [foldl pr_step pr_start p_s p_pc p_run p_in p_out app atomic_add pr_get pr_zero written_bytes].
  assert (E : atomic_add C_WRITTEN a pr_zero = with_written a 0 0).
  { unfold atomic_add. cbn [pr_get pr_zero written_bytes]. by rewrite wrap_small by lia. }
  rewrite E. reflexivity.
Qed.

Lemma add_written v us_s' us_e' b : 0 <= v + b < 2 ^ 64 -> atomic_add C_WRITTEN b (with_written v us_s' us_e') = with_written (v + b) us_s' us_e'.
Proof. intros Hb. unfold atomic_add. cbn [pr_get with_written written_bytes]. by rewrite wrap_small by lia. Qed.

Lemma swap_written v us_s' us_e' old : atomic_swap C_WRITTEN old 0 (with_written v us_s' us_e') = with_written (if v =? old then 0 else v) us_s' us_e'.
Proof. unfold atomic_swap. cbn [pr_get with_written written_bytes]. by destruct (v =? old). Qed.

(** The steps of a reset from the reading of [read_bytes] on *)
Lemma rest_run v w write tmp i : tmp = (if v =? w then 0 else v) ->
  pr_run {| p_s := with_written v 1000000 1000000; p_pc := R_swap C_WRITTEN false write 0 0 w; p_run := true; p_in := i; p_out := [] |}
    (replicate 6 (P_flush 0)) =
  {| p_s := with_written tmp 1000000 1000000; p_pc := F_top; p_run := true; p_in := i;
     p_out := [(write, 0, 0, export write 0 0 (with_written tmp 1000000 1000000))] |}.
Proof. intros ->. unfold pr_run. cbn [replicate foldl pr_step flush_step p_s p_pc p_run p_in p_out]. rewrite swap_written. reflexivity. Qed.

(** The additions before and after the swap reads the counter *)
Lemma mid_lost a b : 0 <= a -> 0 <= b -> a + b < 2 ^ 64 ->
  pr_run {| p_s := with_written a 1000000 1000000; p_pc := R_read false a; p_run := true; p_in := [(C_WRITTEN, a)]; p_out := [] |}
    ([P_add C_WRITTEN b] ++ replicate 3 (P_flush 0)) =
  {| p_s := with_written (a + b) 1000000 1000000; p_pc := R_swap C_WRITTEN false a 0 0 (a + b); p_run := true;
     p_in := [(C_WRITTEN, a); (C_WRITTEN, b)]; p_out := [] |}.
Proof. intros ? ? ?. unfold pr_run. cbn [replicate app foldl pr_step p_s p_pc p_run p_in p_out]. rewrite add_written by lia. reflexivity. Qed.

Lemma mid_again a b : 0 <= a -> 0 <= b -> a + b < 2 ^ 64 ->
  pr_run {| p_s := with_written a 1000000 1000000; p_pc := R_read false a; p_run := true; p_in := [(C_WRITTEN, a)]; p_out := [] |}
    (replicate 3 (P_flush 0) ++ [P_add C_WRITTEN b]) =
  {| p_s := with_written (a + b) 1000000 1000000; p_pc := R_swap C_WRITTEN false a 0 0 a; p_run := true;
     p_in := [(C_WRITTEN, a); (C_WRITTEN, b)]; p_out := [] |}.
Proof.
  intros ? ? ?. unfold pr_run. rewrite foldl_app.
  change (foldl pr_step _ (replicate 3 _)) with
    {| p_s := with_written a 1000000 1000000; p_pc := R_swap C_WRITTEN false a 0 0 a; p_run := true; p_in := [(C_WRITTEN, a)]; p_out := [] |}.
  cbn [foldl pr_step p_s p_pc p_run p_in p_out app]. by rewrite add_written by lia.
Qed.

(** Between the reading of a counter and its swap the recording threads go on.  Bytes that are added before
    the swap reads the counter again are cleared without being exported; if they are added after that, the swap
    fails, and what was exported already is exported again: for every two amounts there is a schedule of each kind. *)
Theorem pr_export_race a b : 0 <= a -> 0 < b -> a + b < 2 ^ 64 ->
  (exists y, pr_reach (fun _ _ => True) y /\ p_pc y = F_top /\ added C_WRITTEN (p_in y) = a + b /\
     shown C_WRITTEN (p_out y) = a /\ written_bytes (p_s y) = 0) /\
  (exists y, pr_reach (fun _ _ => True) y /\ p_pc y = F_top /\ added C_WRITTEN (p_in y) = a + b /\
     shown C_WRITTEN (p_out y) = a /\ written_bytes (p_s y) = a + b).
Proof.
  intros Ha Hb Hab. split.
  - exists (pr_run (pr_run (pr_run pr_start (to_read a)) ([P_add C_WRITTEN b] ++ replicate 3 (P_flush 0))) (replicate 6 (P_flush 0))).
    split; [by do 3 (apply pr_run_reach; [|done]); constructor|].
    rewrite to_read_run, mid_lost, (rest_run _ _ _ 0) by (rewrite ?Z.eqb_refl; first [lia|done]). repeat split; cbn -[Z.add]; rewrite ?decide_True by done; lia.
  - exists (pr_run (pr_run (pr_run pr_start (to_read a)) (replicate 3 (P_flush 0) ++ [P_add C_WRITTEN b])) (replicate 6 (P_flush 0))).
    split; [by do 3 (apply pr_run_reach; [|done]); constructor|].
    rewrite to_read_run, mid_again by lia. rewrite (rest_run _ _ _ (a + b)) by (destruct (Z.eqb_spec (a + b) a); lia). repeat split; cbn -[Z.add]; rewrite ?decide_True by done; lia.
Qed.

Lemma pr_export_race_witness :
  (exists y, pr_reach (fun _ _ => True) y /\ p_pc y = F_top /\ added C_WRITTEN (p_in y) = 4096 + 32768 /\
     shown C_WRITTEN (p_out y) = 4096 /\ written_bytes (p_s y) = 0) /\
  (exists y, pr_reach (fun _ _ => True) y /\ p_pc y = F_top /\ added C_WRITTEN (p_in y) = 4096 + 32768 /\
     shown C_WRITTEN (p_out y) = 4096 /\ written_bytes (p_s y) = 4096 + 32768).
Proof. apply (pr_export_race 4096 32768); lia. Defined.

Lemma pr_export_exact_witness :
  u64 (shown C_WRITTEN [(4096, 0, 0, export 4096 0 0 (with_written 0 1000000 1000000))] + 0 + 0) = u64 (added C_WRITTEN [(C_WRITTEN, 4096)]).
Proof.
  refine (pr_export_exact (pr_run (pr_run pr_start (to_read 4096)) (replicate 9 (P_flush 0))) _ C_WRITTEN).
  repeat apply pr_reach_step; try exact I; [apply pr_reach_start|]. vm_compute. intros v [=].
Defined.

Lemma swap_self c s : atomic_swap c (pr_get c s) 0 s = pr_set c 0 s.
Proof. unfold atomic_swap. by rewrite Z.eqb_refl. Qed.

Lemma flush_run s pc i o now l s' pc' :
  flush_step now true s pc = (s', pc', None) ->
  pr_run {| p_s := s; p_pc := pc; p_run := true; p_in := i; p_out := o |} (P_flush now :: l) =
  pr_run {| p_s := s'; p_pc := pc'; p_run := true; p_in := i; p_out := o |} l.
Proof. intros E. unfold pr_run. cbn [foldl pr_step p_s p_pc p_run p_in p_out]. rewrite E. cbn [option_list]. by rewrite app_nil_r. Qed.

Lemma clear_run c s write read io l i o :
  pr_run {| p_s := s; p_pc := R_clear c false write read io; p_run := true; p_in := i; p_out := o |} (P_flush 0 :: P_flush 0 :: l) =
  pr_run {| p_s := pr_set c 0 s; p_pc := after_swap c false write read io; p_run := true; p_in := i; p_out := o |} l.
Proof. erewrite !flush_run by reflexivity. by rewrite swap_self. Qed.

Lemma reset_eq now s :
  let s' := pr_set C_IO 0 (pr_set C_READ 0 (pr_set C_WRITTEN 0 (pr_set_us now (us_e s) s))) in
  xztl_prometheus_reset now s = (export (written_bytes s) (read_bytes s) (io_count s) s', s').
Proof.
  unfold xztl_prometheus_reset. cbv zeta. set (x := pr_set_us _ _ _).
  rewrite (swap_self C_WRITTEN x : atomic_swap C_WRITTEN (written_bytes x) 0 x = _). set (x1 := pr_set C_WRITTEN 0 x).
  rewrite (swap_self C_READ x1 : atomic_swap C_READ (read_bytes x1) 0 x1 = _). set (x2 := pr_set C_READ 0 x1).
  by rewrite (swap_self C_IO x2 : atomic_swap C_IO (io_count x2) 0 x2 = _).
Qed.

(** The thread alone exports as [xztl_prometheus_reset] says. *)
Theorem reset_sections now s i o :
  pr_run {| p_s := s; p_pc := R_begin false; p_run := true; p_in := i; p_out := o |} (replicate 4 (P_flush now) ++ replicate 7 (P_flush 0)) =
  {| p_s := (xztl_prometheus_reset now s).2; p_pc := F_top; p_run := true; p_in := i;
     p_out := o ++ [(written_bytes s, read_bytes s, io_count s, (xztl_prometheus_reset now s).1)] |}.
Proof.
  cbn [replicate app]. do 4 (erewrite flush_run by reflexivity). do 3 (rewrite clear_run; cbn [after_swap]).
  rewrite reset_eq. cbn [fst snd]. unfold pr_run. cbn [foldl pr_step flush_step p_s p_pc p_run p_in p_out].
  by change (option_list (Some ?x)) with [x].
Qed.

(** * Latencies *)

Section Latency.

Context (ent_mem op_mem : Z -> Z).
Implicit Types (s : lat).

(** The latency the exporter has taken and not written yet *)
Definition in_hand (pc : lpc) : list Z := match pc with L_print _ _ usec => [usec] | _ => [] end.

(** The number of turns of the loop is bounded by the latencies that were written. *)
Definition turns_ok (s : lat) : Prop :=
  let n := MAX_LATENCY_ENTS + Z.of_nat (length (l_out s)) in
  match l_pc s with
  | L_test _ d | L_print _ d _ => 0 <= d <= n
  | L_body _ d => 0 <= d <= n /\ (d < MAX_LATENCY_ENTS \/ l_head s <> [])
  | _ => True
  end.

Record lat_inv (s : lat) : Prop := {
  li_entries : mp_entries (l_pool s) = MAX_LATENCY_ENTS;
  li_in : mp_in_count (l_pool s) = 0;
  li_out : mp_out_count (l_pool s) = Z.of_nat (length (l_acc s));
  li_max : Z.of_nat (length (l_acc s)) <= MAX_LATENCY_ENTS;
  li_owned : mp_head (l_pool s) ++ (l_head s).*1 ≡ₚ created ent_mem op_mem 0 0 (Z.to_nat MAX_LATENCY_ENTS);
  li_order : l_acc s = l_out s ++ in_hand (l_pc s) ++ (l_head s).*2;
  li_turns : turns_ok s
}.

(** The start: nothing is queued. *)
Lemma lat_fresh_inv p : mp_entries p = MAX_LATENCY_ENTS -> mp_in_count p = 0 -> mp_out_count p = 0 ->
  mp_head p = created ent_mem op_mem 0 0 (Z.to_nat MAX_LATENCY_ENTS) ->
  lat_inv {| l_pool := p; l_head := []; l_file := []; l_pc := L_start; l_run := true; us_l_s := 0; us_l_e := 0; l_acc := []; l_out := [] |}.
Proof.
  intros He Hi Ho Hh. split; cbn [l_pool l_head l_pc l_out l_acc]; [done|done|done|done| |done|done].
  cbn [fmap list_fmap]. by rewrite app_nil_r, Hh.
Qed.

Lemma lat_start_inv : lat_inv (lat_start ent_mem op_mem).
Proof. apply lat_fresh_inv; reflexivity. Qed.

Lemma lat_left s : lat_inv s -> xztl_mempool_left (l_pool s) = MAX_LATENCY_ENTS - Z.of_nat (length (l_acc s)).
Proof.
  intros I. unfold xztl_mempool_left. rewrite (li_entries s I), (li_in s I), (li_out s I). pose proof (li_max s I). unfold MAX_LATENCY_ENTS in *.
  rewrite wrap_small by lia. rewrite i32_small by lia. lia.
Qed.

Lemma created_length tid i n : length (created ent_mem op_mem tid i n) = n.
Proof. unfold created. by rewrite length_fmap, length_seq. Qed.

Lemma lat_sizes s : lat_inv s -> length (mp_head (l_pool s)) = (Z.to_nat MAX_LATENCY_ENTS - length (l_head s))%nat /\
  (length (l_head s) <= length (l_acc s))%nat.
Proof.
  intros I. pose proof (Permutation_length (li_owned s I)) as H. rewrite length_app, created_length, length_fmap in H.
  pose proof (f_equal length (li_order s I)) as E. rewrite !length_app, length_fmap in E. lia.
Qed.

(** A full queue discards; otherwise the latency is queued, without waiting. *)
Lemma lat_add_run usec s : lat_inv s ->
  if bool_decide (Z.of_nat (length (l_acc s)) = MAX_LATENCY_ENTS) then xztl_prometheus_add_read_latency usec s = Ok s
  else exists s', xztl_prometheus_add_read_latency usec s = Ok s' /\ lat_inv s' /\ l_acc s' = l_acc s ++ [usec] /\
    (l_head s').*2 = (l_head s).*2 ++ [usec] /\ l_pc s' = l_pc s /\ l_out s' = l_out s /\ l_run s' = l_run s.
Proof.
  intros I. unfold xztl_prometheus_add_read_latency. rewrite (lat_left s I). case_bool_decide as E; [by rewrite E, Z.sub_diag|].
  pose proof (li_max s I). destruct (Z.eqb_spec (MAX_LATENCY_ENTS - Z.of_nat (length (l_acc s))) 0); [lia|].
  destruct (lat_sizes s I) as [Hl Hh]. unfold xztl_mempool_get, mempool_try_get.
  pose proof (li_owned s I) as Ho. destruct (mp_head (l_pool s)) as [|ent head] eqn:Em; [cbn in Hl; lia|].
  eexists. split; [reflexivity|]. cbn [l_acc l_head l_pc l_out l_run]. unfold tailq_insert_tail. rewrite fmap_app. split; [|done].
  destruct I as [I1 I2 I3 I4 I5 I6 I7]. unfold MAX_LATENCY_ENTS in *. split; cbn [l_pool l_head l_pc l_out l_acc mp_entries mp_in_count mp_out_count mp_head]; [done|done| | | | |].
  - rewrite I3, length_app. cbn. rewrite wrap_small; lia.
  - rewrite length_app. cbn [length]. unfold MAX_LATENCY_ENTS. lia.
  - rewrite fmap_app. rewrite <- Ho. cbn. perm.
  - rewrite I6, fmap_app, <- !app_assoc. done.
  - unfold turns_ok in *. cbn [l_pc l_out l_head] in *. destruct (l_pc s); try done. destruct I7 as [? _]. split; [done|].
    right. by destruct (l_head s).
Qed.

(** A step of the exporter that leaves the queue and the pool alone *)
Lemma lat_inv_same s s' : lat_inv s -> l_pool s' = l_pool s -> l_head s' = l_head s -> l_acc s' = l_acc s -> l_out s' = l_out s ->
  in_hand (l_pc s') = in_hand (l_pc s) -> turns_ok s' -> lat_inv s'.
Proof. intros [I1 I2 I3 I4 I5 I6 _] Hp Hh Ha Ho Hi Ht. split; rewrite ?Hp, ?Hh, ?Ha, ?Ho, ?Hi; done. Qed.

Lemma lat_take_run fin d s : lat_inv s -> l_pc s = L_body fin d ->
  exists s', lat_take fin d s = Some s' /\ lat_inv s' /\ l_out s' = l_out s /\ l_acc s' = l_acc s /\ l_file s' = l_file s /\
    match l_head s with
    | [] => d < MAX_LATENCY_ENTS /\ l_pc s' = L_test fin (d + 1) /\ l_head s' = []
    | (_, usec) :: head => l_pc s' = L_print fin d usec /\ l_head s' = head
    end.
Proof.
  intros I Hpc. destruct I as [I1 I2 I3 I4 I5 I6 I7]. pose proof I7 as Ht. unfold turns_ok in Ht. rewrite Hpc in Ht. destruct Ht as [Hd Hm].
  unfold lat_take. destruct (l_head s) as [|[ent usec] head] eqn:Eh.
  - destruct Hm as [Hm|]; [|done]. unfold MAX_LATENCY_ENTS in Hm, Hd. rewrite cint_small by lia. eexists. split; [reflexivity|].
    split; [|cbn; rewrite Eh; done]. apply (lat_inv_same s); try done; [by split; rewrite ?Eh|by rewrite Hpc|].
    unfold turns_ok. cbn. unfold MAX_LATENCY_ENTS. lia.
  - unfold xztl_mempool_put. rewrite decide_False.
    2:{ intros Hin. pose proof (created_NoDup ent_mem op_mem 0 0 (Z.to_nat MAX_LATENCY_ENTS)) as Hn. rewrite <- I5 in Hn.
        apply NoDup_app in Hn as (_ & Hdis & _). apply (Hdis ent Hin). cbn. left. }
    eexists. split; [reflexivity|]. split; [|done]. cbn [fmap list_fmap fst snd] in I5, I6. rewrite Hpc in I6. cbn [in_hand app] in I6.
    split; cbn [l_pool l_head l_pc l_out l_acc mp_set_head mp_entries mp_in_count mp_out_count mp_head in_hand app]; [done|done|done|done| |done|].
    + rewrite <- I5. unfold tailq_insert_tail. cbn. perm.
    + done.
Qed.

Lemma lat_print_run fin d usec s : lat_inv s -> l_pc s = L_print fin d usec ->
  exists s', lat_print fin d usec s = Some s' /\ lat_inv s' /\ l_out s' = l_out s ++ [usec] /\ l_acc s' = l_acc s /\
    l_file s' = l_file s ++ [usec] /\ l_pc s' = L_test fin (d + 1) /\ l_head s' = l_head s.
Proof.
  intros [I1 I2 I3 I4 I5 I6 I7] Hpc. unfold turns_ok in I7. rewrite Hpc in I6, I7. pose proof (f_equal length I6) as El.
  rewrite !length_app in El. unfold MAX_LATENCY_ENTS in *. unfold lat_print. rewrite cint_small by lia. eexists. split; [reflexivity|]. split; [|done].
  split; cbn [l_pool l_head l_pc l_out l_acc in_hand app]; try done.
  - rewrite I6, <- app_assoc. done.
  - unfold turns_ok. cbn [l_pc l_out]. rewrite length_app. cbn [length]. unfold MAX_LATENCY_ENTS. lia.
Qed.

(** The exporter always makes a step, and never loses or repeats a latency. *)
Lemma lat_step_run now fopen s : lat_inv s ->
  exists s', lat_step now fopen s = Some s' /\ lat_inv s' /\ l_acc s' = l_acc s /\ l_out s `prefix_of` l_out s'.
Proof.
  intros I. pose proof (li_turns s I) as Ht. unfold turns_ok in Ht. unfold lat_step.
  destruct (l_pc s) as [| | |fin|fin d|fin d|fin d usec] eqn:Hpc.
  - eexists. split; [reflexivity|]. split; [|done]. by apply (lat_inv_same s); rewrite ?Hpc.
  - destruct (l_run s); cbn [negb].
    + destruct (_ || _); eexists; (split; [reflexivity|]); (split; [|done]); apply (lat_inv_same s); rewrite ?Hpc; try done; unfold turns_ok; cbn; by rewrite ?Hpc.
    + eexists. split; [reflexivity|]. split; [|done]. by apply (lat_inv_same s); rewrite ?Hpc.
  - eauto 6.
  - destruct fopen; eexists; (split; [reflexivity|]); (split; [|done]); apply (lat_inv_same s); rewrite ?Hpc; try done;
      unfold turns_ok; cbn [l_pc l_set_pc l_out l_truncate l_set_clock]; [unfold MAX_LATENCY_ENTS; lia|by destruct fin|by destruct fin].
  - eexists. split; [reflexivity|]. split; [|done]. apply (lat_inv_same s); rewrite ?Hpc; try done.
    + unfold lat_more. cbn. destruct (negb _ || _); [done|by destruct fin].
    + unfold turns_ok. cbn [l_pc l_set_pc l_out l_head]. destruct (lat_more d s) eqn:E; [|by destruct fin]. split; [done|].
      unfold lat_more in E. case_bool_decide; cbn in E; [left; lia|by right].
  - destruct (lat_take_run fin d s I Hpc) as (s' & ? & ? & Ho & ? & _). exists s'. split_and!; try done. by rewrite Ho.
  - destruct (lat_print_run fin d usec s I Hpc) as (s' & ? & ? & Ho & ? & _). exists s'. split_and!; try done. rewrite Ho. by apply prefix_app_r.
Qed.

Lemma lat_trans_inv s s' : lat_trans s s' -> lat_inv s -> lat_inv s' /\ l_acc s `prefix_of` l_acc s' /\ l_out s `prefix_of` l_out s'.
Proof.
  destruct 1 as [usec s s' H|now fopen s s' H|s]; intros I.
  - pose proof (lat_add_run usec s I) as R. case_bool_decide; [rewrite R in H; by simplify_eq|].
    destruct R as (s2 & E & I2 & Ha & _ & _ & Ho & _). rewrite E in H. simplify_eq. split; [done|]. rewrite Ha, Ho. split; [by apply prefix_app_r|done].
  - destruct (lat_step_run now fopen s I) as (s2 & E & I2 & Ha & Ho). rewrite E in H. simplify_eq. by rewrite Ha.
  - split; [|done]. apply (lat_inv_same s); try done. exact (li_turns s I).
Qed.

Lemma lat_reach_inv s s' : rtc lat_trans s s' -> lat_inv s -> lat_inv s' /\ l_acc s `prefix_of` l_acc s' /\ l_out s `prefix_of` l_out s'.
Proof.
  induction 1 as [|s1 s2 s3 Hs _ IH]; intros I; [done|]. destruct (lat_trans_inv _ _ Hs I) as (I2 & A2 & O2).
  destruct (IH I2) as (I3 & A3 & O3). split; [done|]. split; by etrans.
Qed.


(** * The exporter alone *)

Lemma lat_alone_app k k' s : lat_alone (k + k') s = s' ← lat_alone k s; lat_alone k' s'.
Proof. revert s. induction k as [|k IH]; intros s; [done|]. cbn. destruct (lat_step 0 true s); [apply IH|done]. Qed.

Lemma lat_alone_rtc k : forall s s', lat_alone k s = Some s' -> rtc lat_trans s s'.
Proof.
  induction k as [|k IH]; intros s s' H; cbn in H; [simplify_eq; constructor|]. destruct (lat_step 0 true s) as [s1|] eqn:E; [|done].
  eapply rtc_l; [by eapply lat_thread|by apply IH].
Qed.

Lemma lat_step_body now fopen fin d s : l_pc s = L_body fin d -> lat_step now fopen s = lat_take fin d s.
Proof. intros H. unfold lat_step. by rewrite H. Qed.

Lemma lat_step_print now fopen fin d usec s : l_pc s = L_print fin d usec -> lat_step now fopen s = lat_print fin d usec s.
Proof. intros H. unfold lat_step. by rewrite H. Qed.

(** A turn begins: the test holds. *)
Lemma lat_step_test fin d s : lat_inv s -> l_pc s = L_test fin d -> lat_more d s = true ->
  lat_step 0 true s = Some (l_set_pc s (L_body fin d)) /\ lat_inv (l_set_pc s (L_body fin d)).
Proof.
  intros I Hpc Hm. destruct (lat_step_run 0 true s I) as (s1 & E1 & I1 & _). rewrite E1. unfold lat_step in E1. rewrite Hpc, Hm in E1.
  injection E1 as <-. done.
Qed.

(** What is queued is written, one turn for each latency. *)
Lemma lat_drain fin n : forall d s, lat_inv s -> l_pc s = L_test fin d -> length (l_head s) = n ->
  exists k s', lat_alone k s = Some s' /\ lat_inv s' /\ l_pc s' = L_test fin (d + Z.of_nat n) /\ l_head s' = [] /\
    l_out s' = l_out s ++ (l_head s).*2 /\ l_file s' = l_file s ++ (l_head s).*2 /\ l_acc s' = l_acc s.
Proof.
  induction n as [|n IH]; intros d s I Hpc Hn.
  { exists O, s. destruct (l_head s); [|done]. cbn. rewrite Z.add_0_r, !app_nil_r. done. }
  destruct (l_head s) as [|[ent usec] head] eqn:Eh; [done|]. injection Hn as Hn.
  destruct (lat_step_test fin d s I Hpc) as [E1 I1]; [unfold lat_more; by rewrite Eh|]. set (s1 := l_set_pc s (L_body fin d)) in *.
  destruct (lat_take_run fin d s1 I1 eq_refl) as (s2 & E2 & I2 & O2 & A2 & F2 & M2). cbn [l_head s1 l_set_pc] in M2. rewrite Eh in M2. destruct M2 as [P2 H2].
  destruct (lat_print_run fin d usec s2 I2 P2) as (s3 & E3 & I3 & O3 & A3 & F3 & P3 & H3).
  destruct (IH (d + 1) s3 I3 P3) as (k & s' & Ek & I' & P' & H' & O' & F' & A'); [by rewrite H3, H2|].
  exists (3 + k)%nat, s'. split.
  { rewrite lat_alone_app. cbn [lat_alone]. rewrite E1. cbn [mbind option_bind]. rewrite (lat_step_body _ _ fin d), E2 by done. cbn [mbind option_bind].
    by rewrite (lat_step_print _ _ fin d usec), E3 by done. }
  split; [done|]. split; [rewrite P'; f_equal; lia|]. split; [done|]. cbn [fmap list_fmap snd].
  rewrite O', F', A', O3, F3, A3, O2, F2, A2, H3, H2, <- !app_assoc. done.
Qed.

(** With an empty queue the loop runs on to its 8192nd turn. *)
Lemma lat_spin fin n : forall d s, lat_inv s -> l_pc s = L_test fin d -> l_head s = [] -> Z.to_nat (MAX_LATENCY_ENTS - d) = n ->
  exists k s', lat_alone k s = Some s' /\ l_pc s' = after_flush fin /\ l_head s' = [] /\ l_out s' = l_out s /\ l_file s' = l_file s.
Proof.
  induction n as [|n IH]; intros d s I Hpc Hh Hn.
  - exists 1%nat, (l_set_pc s (after_flush fin)). split; [|done]. cbn [lat_alone]. unfold lat_step. rewrite Hpc. unfold lat_more. rewrite Hh.
    cbn [bool_decide]. replace (d <? MAX_LATENCY_ENTS) with false by (unfold MAX_LATENCY_ENTS in *; lia). done.
  - destruct (lat_step_test fin d s I Hpc) as [E1 I1]; [unfold lat_more; rewrite Hh; lia|]. set (s1 := l_set_pc s (L_body fin d)) in *.
    destruct (lat_take_run fin d s1 I1 eq_refl) as (s2 & E2 & I2 & O2 & A2 & F2 & M2). cbn [l_head s1 l_set_pc] in M2. rewrite Hh in M2. destruct M2 as (_ & P2 & H2).
    destruct (IH (d + 1) s2 I2 P2 H2) as (k & s' & Ek & P' & H' & O' & F'); [lia|].
    exists (2 + k)%nat, s'. split; [|by rewrite P', H', O', F', O2, F2]. rewrite lat_alone_app. cbn [lat_alone]. rewrite E1. cbn [mbind option_bind].
    by rewrite (lat_step_body _ _ fin d), E2 by done.
Qed.

(** A call of [xztl_prometheus_flush_latency] that nothing comes between ends, with every queued latency in the
    file, in order, and the queue empty. *)
Theorem flush_latency_ends s fin : rtc lat_trans (lat_start ent_mem op_mem) s -> l_pc s = L_open fin ->
  exists k s', lat_alone k s = Some s' /\ l_pc s' = after_flush fin /\ l_head s' = [] /\ l_file s' = (l_head s).*2 /\
    l_out s' = l_out s ++ (l_head s).*2.
Proof.
  intros Hr Hpc. destruct (lat_reach_inv _ _ Hr lat_start_inv) as (I & _).
  destruct (lat_step_run 0 true s I) as (s1 & E1 & I1 & _). pose proof E1 as R1. unfold lat_step in R1. rewrite Hpc in R1. injection R1 as R1.
  destruct (lat_drain fin (length (l_head s1)) 0 s1 I1) as (k & s2 & E2 & I2 & P2 & H2 & O2 & F2 & _); [by rewrite <- R1|done|].
  destruct (lat_spin fin _ _ s2 I2 P2 H2 eq_refl) as (k' & s3 & E3 & P3 & H3 & O3 & F3).
  exists (1 + (k + k'))%nat, s3. split; [|by rewrite H3, O3, F3, O2, F2, <- R1].
  rewrite lat_alone_app. cbn [lat_alone]. rewrite E1. cbn [mbind option_bind]. rewrite lat_alone_app, E2. done.
Qed.

(** * The queue that counts as full *)

Lemma lat_adds us : forall s, lat_inv s -> Z.of_nat (length (l_acc s) + length us) <= MAX_LATENCY_ENTS ->
  exists s', rtc lat_trans s s' /\ lat_inv s' /\ l_acc s' = l_acc s ++ us /\ (l_head s').*2 = (l_head s).*2 ++ us /\
    l_pc s' = l_pc s /\ l_out s' = l_out s /\ l_run s' = l_run s.
Proof.
  induction us as [|u us IH]; intros s I Hn; [exists s; rewrite !app_nil_r; split; [constructor|done]|].
  pose proof (lat_add_run u s I) as R. cbn [length] in Hn. case_bool_decide; [lia|]. destruct R as (s1 & E1 & I1 & A1 & H1 & P1 & O1 & R1).
  destruct (IH s1 I1) as (s' & Hr & I' & A' & H' & P' & O' & R'); [rewrite A1, length_app; cbn; lia|].
  exists s'. split; [eapply rtc_l; [by eapply lat_add|done]|]. split; [done|]. rewrite A', H', P', O', R', A1, H1, P1, O1, R1, <- !app_assoc. done.
Qed.

(** A short pool wakes the exporter. *)
Lemma lat_wake s : l_pc s = L_start -> l_run s = true -> xztl_mempool_left (l_pool s) < 512 ->
  exists s', lat_alone 3 s = Some s' /\ l_pc s' = L_test false 0 /\ l_pool s' = l_pool s /\ l_head s' = l_head s /\ l_acc s' = l_acc s /\ l_out s' = l_out s.
Proof.
  intros Hpc Hrun Hl. set (s1 := l_set_pc (l_set_clock 0 (us_l_e s) s) L_top). set (s2 := l_set_pc (l_set_clock (us_l_s s1) 0 s1) (L_open false)).
  assert (E1 : lat_step 0 true s = Some s1) by (unfold lat_step; by rewrite Hpc).
  assert (E2 : lat_step 0 true s1 = Some s2).
  { unfold lat_step. cbn [s1 l_pc l_set_pc l_run l_set_clock l_pool]. rewrite Hrun. cbn [negb].
    by replace (xztl_mempool_left (l_pool s) <? 512) with true by lia. }
  cbn [lat_alone]. rewrite E1. cbn [mbind option_bind]. rewrite E2. eexists. split; [reflexivity|]. done.
Qed.


End Latency.



(** * Start and stop *)

(** The call that fails is the creation of the second thread. *)
Definition second_thread_fails (ok : nat -> bool) (n : nat) : bool := ok n && ok (S n) && ok (S (S n)) && negb (ok (S (S (S n)))).

Lemma tailq_remove_head {A} `{EqDecision A} (x : A) l : tailq_remove (x :: l) x = Some l.
Proof. unfold tailq_remove. rewrite decide_True by left. cbn. by rewrite decide_True. Qed.

Lemma tailq_remove_absent {A} `{EqDecision A} (x : A) l : x ∉ l -> tailq_remove l x = None.
Proof. intros H. unfold tailq_remove. by rewrite decide_False. Qed.

Lemma bind_boot {A B} (m : boot A) (f : A -> boot B) w a w' : m w = Some (a, w') -> (m ≫= f) w = f a w'.
Proof. intros E. unfold mbind, boot_bind. by rewrite E. Qed.

Lemma acquire_true ok r w : ok (w_calls w) = true ->
  acquire ok r w = Some (true, w_set_held (w_set_calls w (S (w_calls w))) (r :: w_held w)).
Proof. intros E. unfold acquire. by rewrite E. Qed.

Lemma acquire_false ok r w : ok (w_calls w) = false -> acquire ok r w = Some (false, w_set_calls w (S (w_calls w))).
Proof. intros E. unfold acquire. by rewrite E. Qed.

Lemma release_head r w l : w_held w = r :: l -> release r w = Some (tt, w_set_held w l).
Proof. intros E. unfold release. by rewrite E, tailq_remove_head. Qed.

Lemma mp_create_true ok t w : t ∉ w_pools w -> ok (w_calls w) = true ->
  mp_create ok t w = Some (XZTL_OK, w_set_pools (w_set_held (w_set_calls w (S (w_calls w))) (RPool t :: w_held w)) (t :: w_pools w)).
Proof.
  intros H E. unfold mp_create. erewrite (bind_boot (gets _)) by reflexivity. rewrite decide_False by done.
  by erewrite bind_boot by by apply acquire_true.
Qed.

Lemma mp_create_false ok t w : t ∉ w_pools w -> ok (w_calls w) = false -> mp_create ok t w = Some (MP_MEMERROR, w_set_calls w (S (w_calls w))).
Proof.
  intros H E. unfold mp_create. erewrite (bind_boot (gets _)) by reflexivity. rewrite decide_False by done.
  by erewrite bind_boot by by apply acquire_false.
Qed.

Lemma mp_destroy_head t w h l : w_held w = RPool t :: h -> w_pools w = t :: l -> mp_destroy t w = Some (tt, w_set_held (w_set_pools w l) h).
Proof.
  intros Eh El. unfold mp_destroy. erewrite (bind_boot (gets _)) by reflexivity. rewrite El, decide_True by left.
  erewrite (bind_boot (put _)) by reflexivity. rewrite El. cbn [remove_first]. rewrite decide_True by done. by apply release_head.
Qed.

Ltac run_step lem := erewrite bind_boot by (apply lem; done); cbn [negb].

(** For every combination of failing calls, a start of the exporter that does not succeed leaves the resources as they
    were, and a start that succeeds is undone by the stop, except for one: if the second thread cannot be created, the start
    joins that thread, which does not exist, in place of the first. *)
Theorem prometheus_start_stop ok w : XZTL_PROMETHEUS_LAT ∉ w_pools w -> RFlushThread ∉ w_held w ->
  if second_thread_fails ok (w_calls w) then xztl_prometheus_init ok w = None
  else exists ret w', xztl_prometheus_init ok w = Some (ret, w') /\
    (if decide (ret = XZTL_OK)
     then exists w'', xztl_prometheus_exit w' = Some (tt, w'') /\ w_held w'' = w_held w /\ w_pools w'' = w_pools w
     else w_held w' = w_held w /\ w_pools w' = w_pools w).
Proof.
  intros Hp Hf. unfold second_thread_fails, xztl_prometheus_init. destruct (ok (w_calls w)) eqn:E1; cbn [andb].
  2:{ eexists _, _. split; [run_step acquire_false; reflexivity|]. done. }
  run_step acquire_true. destruct (ok (S (w_calls w))) eqn:E2; cbn [andb].
  2:{ eexists _, _. split; [run_step mp_create_false; change (ctrue MP_MEMERROR) with true; cbv iota; run_step release_head; reflexivity|]. done. }
  run_step mp_create_true. change (ctrue XZTL_OK) with false. cbv iota. destruct (ok (S (S (w_calls w)))) eqn:E3; cbn [andb].
  2:{ eexists _, _. split; [run_step acquire_false; run_step mp_destroy_head; run_step release_head; reflexivity|]. done. }
  run_step acquire_true. destruct (ok (S (S (S (w_calls w))))) eqn:E4; cbn [negb].
  - eexists _, _. split; [run_step acquire_true; reflexivity|]. rewrite decide_True by done. unfold xztl_prometheus_exit.
    eexists. split; [run_step release_head; run_step release_head; run_step mp_destroy_head; by apply release_head|]. done.
  - run_step acquire_false. unfold mbind at 1, boot_bind at 1. unfold release at 1. rewrite tailq_remove_absent; [done|].
    cbn [w_held w_set_held w_set_calls w_set_pools]. rewrite !not_elem_of_cons. done.
Qed.

(** A start on a program that holds nothing *)
Definition empty_world : world :=
  {| w_calls := 0; w_held := []; w_ptr := fun _ => false; w_dev := false; w_dev_read := false; w_core := None; w_read_ctx_num := 0;
     w_grps := []; w_ngrps := 0; w_pages := fun _ => []; w_pools := [];
     w_mods := {| a_list := []; a_modset := []; a_zmd := None; a_pro := None; a_mpe := None; a_map := None; a_io := None; a_mgmt := None |} |}.

Lemma prometheus_start_stop_witness :
  xztl_prometheus_init (fun n => negb (n =? 3)%nat) empty_world = None /\
  exists ret w', xztl_prometheus_init (fun _ => true) empty_world = Some (ret, w').
Proof.
  split; [exact (prometheus_start_stop (fun n => negb (n =? 3)%nat) empty_world ltac:(by apply not_elem_of_nil) ltac:(by apply not_elem_of_nil))|].
  destruct (prometheus_start_stop (fun _ => true) empty_world) as (ret & w' & H & _); [by apply not_elem_of_nil..|]. by exists ret, w'.
Defined.

(** * Write amplification *)

Lemma inc_pr_run st s type val : stats_wf st -> 0 <= type < 22 -> type <> XZTL_STATS_APPEND_BYTES_U ->
  exists st', xztl_stats_inc_pr st s type val = Some (st', s) /\ stats_wf st' /\
    (forall v, (st_io st).[type] = Some v -> (st_io st').[type] = Some (u64 (v + val))) /\ (forall t, t <> type -> (st_io st').[t] = (st_io st).[t]).
Proof.
  intros Hw Ht Hn. destruct (xztl_stats_inc_wf st type val Hw Ht) as (st' & E & Hw' & _ & He & Ho). exists st'.
  unfold xztl_stats_inc_pr. rewrite E. cbn [mbind option_bind]. by destruct (Z.eqb_spec type XZTL_STATS_APPEND_BYTES_U).
Qed.

(** One user write: the exported members are the bytes with this write, and the bytes on the device without it. *)
Lemma write_pr_run st s size new_sz a b : stats_wf st ->
  (st_io st).[XZTL_STATS_APPEND_BYTES_U] = Some a -> (st_io st).[XZTL_STATS_APPEND_BYTES] = Some b ->
  exists st' s', zrocks_write_stats_pr false size new_sz st s = Some (st', s') /\ stats_wf st' /\
    (st_io st').[XZTL_STATS_APPEND_BYTES_U] = Some (u64 (a + size)) /\ (st_io st').[XZTL_STATS_APPEND_BYTES] = Some (u64 (b + new_sz)) /\
    user_write_bytes s' = u64 (a + size) /\ zns_write_bytes s' = b.
Proof.
  intros Hw Ha Hb. destruct (xztl_stats_inc_wf st XZTL_STATS_APPEND_BYTES_U size Hw) as (st1 & E1 & W1 & _ & A1 & O1); [done|].
  set (s1 := xztl_prometheus_add_wa (u64 (a + size)) b s).
  assert (P1 : xztl_stats_inc_pr st s XZTL_STATS_APPEND_BYTES_U size = Some (st1, s1)).
  { unfold xztl_stats_inc_pr. rewrite E1. cbn [mbind option_bind]. by rewrite Z.eqb_refl, (A1 a Ha), O1, Hb by done. }
  unfold zrocks_write_stats_pr. cbv iota. rewrite P1. cbn [mbind option_bind].
  destruct (inc_pr_run st1 s1 XZTL_STATS_APPEND_UCMD 1 W1) as (st2 & E2 & W2 & _ & O2); [done|done|]. rewrite E2. cbn [mbind option_bind].
  destruct (inc_pr_run st2 s1 XZTL_STATS_APPEND_BYTES new_sz W2) as (st3 & E3 & W3 & A3 & O3); [done|done|]. rewrite E3.
  exists st3, s1. split; [done|]. split; [done|]. rewrite O3, O2, (A1 a Ha) by done. rewrite (A3 b) by (by rewrite O2, O1 by done).
  repeat split; unfold s1, xztl_prometheus_add_wa, swap_zns, swap_user; rewrite !Z.eqb_refl; done.
Qed.

Lemma write_all_run ws : forall st s a b, stats_wf st ->
  (st_io st).[XZTL_STATS_APPEND_BYTES_U] = Some (u64 a) -> (st_io st).[XZTL_STATS_APPEND_BYTES] = Some (u64 b) ->
  exists st' s', write_all_pr ws st s = Some (st', s') /\ stats_wf st' /\
    (st_io st').[XZTL_STATS_APPEND_BYTES_U] = Some (u64 (a + zsum ws.*1)) /\ (st_io st').[XZTL_STATS_APPEND_BYTES] = Some (u64 (b + zsum ws.*2)).
Proof.
  induction ws as [|[size new_sz] ws IH]; intros st s a b Hw Ha Hb; [exists st, s; cbn -[wrap]; rewrite !Z.add_0_r; done|].
  destruct (write_pr_run st s size new_sz _ _ Hw Ha Hb) as (st1 & s1 & E1 & W1 & A1 & B1 & _). rewrite wrap_add_l in A1, B1.
  destruct (IH st1 s1 _ _ W1 A1 B1) as (st' & s' & E' & W' & A' & B'). exists st', s'. cbn [write_all_pr]. rewrite E1. cbn [mbind option_bind].
  cbn [fmap list_fmap zsum fst snd]. rewrite !Z.add_assoc. done.
Qed.

Lemma write_all_app ws ws' st s : write_all_pr (ws ++ ws') st s = '(st1, s1) ← write_all_pr ws st s; write_all_pr ws' st1 s1.
Proof.
  revert st s. induction ws as [|[size new_sz] ws IH]; intros st s; [done|]. cbn. destruct (zrocks_write_stats_pr _ _ _ _ _) as [[st1 s1]|]; [apply IH|done].
Qed.

(** After any sequence of user writes the exported write amplification compares the bytes that reached the device up
    to the last but one write with the bytes of all of them: [zrocks_write] counts the user's bytes, which is what passes
    both counters to the exporter, before it counts the device's. *)
Theorem wamp_lags ws size new_sz s :
  exists st' s', write_all_pr (ws ++ [(size, new_sz)]) xztl_stats_init s = Some (st', s') /\
    user_write_bytes s' = u64 (zsum ws.*1 + size) /\ zns_write_bytes s' = u64 (zsum ws.*2) /\
    (st_io st').[XZTL_STATS_APPEND_BYTES] = Some (u64 (zsum ws.*2 + new_sz)).
Proof.
  destruct (write_all_run ws xztl_stats_init s 0 0 stats_init_wf eq_refl eq_refl) as (st1 & s1 & E1 & W1 & A1 & B1).
  destruct (write_pr_run st1 s1 size new_sz _ _ W1 A1 B1) as (st' & s' & E' & _ & _ & B' & U' & Z'). exists st', s'.
  rewrite write_all_app, E1. cbn [mbind option_bind write_all_pr]. rewrite E'. cbn [mbind option_bind].
  rewrite wrap_add_l, Z.add_0_l in B', U'. rewrite Z.add_0_l in Z'. done.
Qed.

(** The amplification exported after the first write is 0. *)
Example wamp_first : exists st' s', write_all_pr [(4000, 32768)] xztl_stats_init pr_zero = Some (st', s') /\
  ex_wamp (xztl_prometheus_reset 0 s').1 = dbl 0.
Proof. eexists _, _. split; [vm_compute; reflexivity|]. vm_compute. reflexivity. Qed.
