(* ===== verification/EnvLock.v ===== *)
(** The lock of a file against the garbage collector: [ZNSReadLock] and [ZNSWriteLock] of
    src/env/env_zns.h, which readers of a file and the change of its pieces after a migration
    take.

    A step is one operation on [writer_mtx_] or on the atomic [readers_]; any number of threads. *)

From stdpp Require Import relations.
From S2P Require Import Prelude.

(** Where a thread is: outside; in the constructor of a read lock, with the mutex, before and after the increment; in the scope of a
    read lock; in the constructor of a write lock, with the mutex; in the scope of a write lock. *)
Inductive lock_pc := K_out | K_rlock | K_rcount | K_reading | K_wwait | K_writing.

Record file_lock := { writer_mtx : option nat; readers : Z; threads : list lock_pc }.

(** The actions of a thread: a lock is asked for only outside. *)
Inductive lock_act := K_read | K_write | K_go.

(** [std::mutex::lock] waits while the mutex is held: there is no step. *)
Definition k_step (pc : lock_pc) (a : lock_act) (i : nat) (mtx : option nat) (r : Z) : option (lock_pc * option nat * Z) :=
  match pc, a with
  | K_out, K_read => if mtx is None then Some (K_rlock, Some i, r) else None
  | K_rlock, K_go => Some (K_rcount, mtx, i32 (r + 1))
  | K_rcount, K_go => Some (K_reading, None, r)
  | K_reading, K_go => Some (K_out, mtx, i32 (r - 1))
  | K_out, K_write => if mtx is None then Some (K_wwait, Some i, r) else None
  | K_wwait, K_go => Some (if 0 <? r then K_wwait else K_writing, mtx, r)
  | K_writing, K_go => Some (K_out, None, r)
  | _, _ => None
  end.

Definition lock_step (i : nat) (a : lock_act) (s : file_lock) : option file_lock :=
  pc ← threads s !! i;
  '(pc', mtx, r) ← k_step pc a i (writer_mtx s) (readers s);
  Some {| writer_mtx := mtx; readers := r; threads := <[i := pc']> (threads s) |}.

Definition lock_start (n : nat) : file_lock := {| writer_mtx := None; readers := 0; threads := replicate n K_out |}.

Inductive lock_trans : file_lock -> file_lock -> Prop :=
  | lock_any i a s s' : lock_step i a s = Some s' -> lock_trans s s'.

(** * The invariant *)

Definition counted (pc : lock_pc) : Z := match pc with K_rcount | K_reading => 1 | _ => 0 end.
Definition holds (pc : lock_pc) : bool := match pc with K_out | K_reading => false | _ => true end.

Record lock_inv (s : file_lock) : Prop := {
  lk_len : Z.of_nat (length (threads s)) < 2 ^ 31;
  lk_count : readers s = zsum (counted <$> threads s);
  lk_mtx : forall i pc, threads s !! i = Some pc -> (holds pc = true <-> writer_mtx s = Some i);
  lk_owner : forall i, writer_mtx s = Some i -> is_Some (threads s !! i);
  lk_write : forall i, threads s !! i = Some K_writing -> readers s = 0
}.

Lemma zsum_insert {A} (f : A -> Z) l : forall i x y, l !! i = Some x -> zsum (f <$> <[i := y]> l) = zsum (f <$> l) - f x + f y.
Proof.
  induction l as [|z l IH]; intros [|i] x y H; [done|done|injection H as ->; cbn -[Z.add]; lia|].
  change (<[S i := y]> (z :: l)) with (z :: <[i := y]> l). rewrite !fmap_cons. cbn [zsum]. rewrite (IH i x y H). lia.
Qed.

Lemma counted_01 pc : 0 <= counted pc <= 1.
Proof. destruct pc; cbn; lia. Qed.

Lemma counted_bound l : 0 <= zsum (counted <$> l) <= Z.of_nat (length l).
Proof. induction l as [|pc l IH]; [cbn; lia|]. rewrite fmap_cons. cbn [zsum length]. pose proof (counted_01 pc). lia. Qed.

Lemma counted_in l i pc : l !! i = Some pc -> counted pc <= zsum (counted <$> l) <= Z.of_nat (length l) - 1 + counted pc.
Proof.
  revert i. induction l as [|x l IH]; intros [|i] H; [done|done| |]; rewrite fmap_cons; cbn [zsum length].
  - injection H as ->. pose proof (counted_bound l). lia.
  - specialize (IH i H). pose proof (counted_01 x). lia.
Qed.

Lemma lock_start_inv n : Z.of_nat n < 2 ^ 31 -> lock_inv (lock_start n).
Proof.
  intros Hn. split; cbn.
  - by rewrite length_replicate.
  - clear. induction n as [|n IH]; [done|]. exact IH.
  - intros i pc H. apply lookup_replicate in H as [-> _]. done.
  - done.
  - intros i H. apply lookup_replicate in H as [? _]. done.
Qed.

(** A thread changes its place, its holding and the count agree. *)
Lemma lock_inv_step i pc s pc' mtx r : lock_inv s -> threads s !! i = Some pc ->
  r = readers s - counted pc + counted pc' ->
  (if holds pc' then mtx = Some i /\ (writer_mtx s = None \/ writer_mtx s = Some i)
   else if holds pc then mtx = None else mtx = writer_mtx s) ->
  (pc' = K_writing -> r = 0) ->
  (forall j, j <> i -> threads s !! j = Some K_writing -> r = 0) ->
  lock_inv {| writer_mtx := mtx; readers := r; threads := <[i := pc']> (threads s) |}.
Proof.
  intros [L C M O W] Hi Hr Hm Hw Hj. assert (Hlt := lookup_lt_Some _ _ _ Hi). pose proof (M i pc Hi) as Mi.
  split; cbn [threads readers writer_mtx].
  - by rewrite length_insert.
  - rewrite (zsum_insert counted _ i pc pc' Hi). lia.
  - intros j q Hq. apply list_lookup_insert_Some in Hq as [(<- & <- & _)|[Hne Hq]].
    + destruct (holds pc'); [by destruct Hm|]. destruct (holds pc); [by subst mtx|]. subst mtx. split; [done|]. intros E. by apply Mi in E.
    + rewrite (M j q Hq). destruct (holds pc').
      * destruct Hm as [-> [E|E]]; rewrite E; split; intros [= ?]; congruence.
      * destruct (holds pc); [|by subst]. subst mtx. rewrite (proj1 Mi eq_refl). split; [|done]. intros [= ->]. done.
  - intros j Hj'. destruct (decide (j = i)) as [->|Hne]; [by rewrite list_lookup_insert_eq|]. rewrite list_lookup_insert_ne by done.
    destruct (holds pc'); [destruct Hm as [-> _]; congruence|]. destruct (holds pc); subst mtx; [done|by apply O].
  - intros j Hj'. apply list_lookup_insert_Some in Hj' as [(<- & -> & _)|[Hne Hq]]; [by apply Hw|by apply (Hj j)].
Qed.

Lemma i32_count s i pc (d : Z) : lock_inv s -> threads s !! i = Some pc -> d = 1 /\ counted pc = 0 \/ d = -1 /\ counted pc = 1 ->
  i32 (readers s + d) = readers s + d.
Proof.
  intros I Hi Hd. apply i32_small. rewrite (lk_count s I). pose proof (lk_len s I). pose proof (counted_in _ i pc Hi). lia.
Qed.

(** Nobody but the owner of the mutex writes, and a counted reader excludes it. *)
Lemma lock_writer s i j : lock_inv s -> threads s !! i = Some K_writing -> writer_mtx s = Some j -> i = j.
Proof. intros I Hi Hj. pose proof (proj1 (lk_mtx s I i K_writing Hi) eq_refl). congruence. Qed.

Ltac by_step I i pc := apply (lock_inv_step i pc _ _ _ _ I); cbn [holds counted]; auto; try discriminate; try lia; try solve [eauto 3].

Lemma lock_step_inv i a s s' : lock_step i a s = Some s' -> lock_inv s -> lock_inv s'.
Proof.
  unfold lock_step. intros H I. destruct (threads s !! i) as [pc|] eqn:Hi; [|done]. cbn [mbind option_bind] in H.
  destruct (k_step pc a i (writer_mtx s) (readers s)) as [[[pc' mtx] r]|] eqn:E; [|done]. cbn [mbind option_bind] in H. injection H as <-.
  pose proof (lk_mtx s I i pc Hi) as Mi. pose proof (lk_write s I) as W.
  destruct pc, a; try discriminate E; cbn [k_step] in E.
  - destruct (writer_mtx s) eqn:Em; [discriminate E|]. injection E as <- <- <-. by_step I i K_out.
  - destruct (writer_mtx s) eqn:Em; [discriminate E|]. injection E as <- <- <-. by_step I i K_out.
  - rewrite (i32_count s i K_rlock 1 I Hi) in E by (cbn; lia). injection E as <- <- <-. by_step I i K_rlock.
    + split; [by apply Mi|right; by apply Mi].
    + intros j Hne Hj. destruct Hne. apply (lock_writer s j i I Hj). by apply Mi.
  - injection E as <- <- <-. by_step I i K_rcount.
  - change (readers s - 1) with (readers s + -1) in E. rewrite (i32_count s i K_reading (-1) I Hi) in E by (cbn; lia). injection E as <- <- <-. by_step I i K_reading.
    intros j _ Hj. pose proof (W j Hj). pose proof (counted_in _ i K_reading Hi) as Hc. rewrite <- (lk_count s I) in Hc. cbn in Hc. lia.
  - assert (Mo : writer_mtx s = Some i) by (by apply Mi). injection E as <- <- <-. pose proof (counted_bound (threads s)) as Hb.
    rewrite <- (lk_count s I) in Hb. destruct (Z.ltb_spec 0 (readers s)); by_step I i K_wwait.
  - injection E as <- <- <-. by_step I i K_writing.
Qed.

Lemma lock_reach_inv n s : Z.of_nat n < 2 ^ 31 -> rtc lock_trans (lock_start n) s -> lock_inv s.
Proof.
  intros Hn Hr. pose proof (lock_start_inv n Hn) as I. remember (lock_start n) as s0 eqn:E0. clear E0.
  induction Hr as [|s1 s2 s3 [i a ? ? H] _ IH]; [done|]. apply IH. by eapply lock_step_inv.
Qed.

(** C32. In every interleaving of any number of threads, while a thread is in the scope of a write lock, no other thread is
    in the scope of a read or a write lock: the pieces of a file do not change under a reader. *)
Theorem file_lock_exclusive n s i j pc : Z.of_nat n < 2 ^ 31 -> rtc lock_trans (lock_start n) s ->
  threads s !! i = Some K_writing -> threads s !! j = Some pc -> j <> i -> pc <> K_reading /\ pc <> K_writing.
Proof.
  intros Hn Hr Hi Hj Hne. pose proof (lock_reach_inv n s Hn Hr) as I. split; intros ->.
  - pose proof (counted_in _ j K_reading Hj) as Hc. rewrite <- (lk_count s I), (lk_write s I i Hi) in Hc. cbn in Hc. lia.
  - apply Hne. apply (lock_writer s j i I Hj). by apply (lk_mtx s I i K_writing Hi).
Qed.

(** The step of a reader at the end of its scope *)
Lemma reader_leaves s j : lock_inv s -> threads s !! j = Some K_reading ->
  lock_step j K_go s = Some {| writer_mtx := writer_mtx s; readers := readers s - 1; threads := <[j := K_out]> (threads s) |}.
Proof.
  intros I Hj. unfold lock_step. rewrite Hj. cbn [mbind option_bind k_step]. change (readers s - 1) with (readers s + -1).
  by rewrite (i32_count s j K_reading (-1) I Hj) by (cbn; lia).
Qed.

(** Somebody is counted if the count is positive. *)
Lemma counted_pos l : 0 < zsum (counted <$> l) -> exists j pc, l !! j = Some pc /\ counted pc = 1.
Proof.
  induction l as [|pc l IH]; [cbn; lia|]. rewrite fmap_cons. cbn [zsum]. intros H. pose proof (counted_01 pc).
  destruct (Z.eq_dec (counted pc) 1) as [E|]; [by exists O, pc|]. destruct IH as (j & q & Hj & Hq); [lia|]. by exists (S j), q.
Qed.

(** While thread [i] holds the mutex, the steps of the others are those of readers that leave. *)
Lemma others_leave s i j a s' : lock_inv s -> writer_mtx s = Some i -> j <> i -> lock_step j a s = Some s' -> threads s !! j = Some K_reading /\ a = K_go.
Proof.
  intros I Hm Hne H. unfold lock_step in H. destruct (threads s !! j) as [pc|] eqn:Hj; [|done]. cbn [mbind option_bind] in H.
  pose proof (lk_mtx s I j pc Hj) as Mj. rewrite Hm in H, Mj.
  destruct pc, a; try discriminate H; try done; destruct Hne; by injection (proj1 Mj eq_refl).
Qed.

(** C33. A writer that waits does not wait for readers that come after it: no step of any thread adds a reader or lets another
    writer in, as long as there are readers one of them can leave and takes one away, and when there is none the
    writer's next step enters. *)
Theorem file_lock_writer_progress n s i : Z.of_nat n < 2 ^ 31 -> rtc lock_trans (lock_start n) s -> threads s !! i = Some K_wwait ->
  (forall j a s', lock_step j a s = Some s' -> readers s' <= readers s /\ (j <> i -> threads s' !! i = Some K_wwait)) /\
  (0 < readers s -> exists j s', threads s !! j = Some K_reading /\ lock_step j K_go s = Some s' /\ readers s' = readers s - 1) /\
  (readers s = 0 -> exists s', lock_step i K_go s = Some s' /\ threads s' !! i = Some K_writing).
Proof.
  intros Hn Hr Hi. pose proof (lock_reach_inv n s Hn Hr) as I. pose proof (proj1 (lk_mtx s I i K_wwait Hi) eq_refl) as Hm. split; [|split].
  - intros j a s' H. destruct (decide (j = i)) as [->|Hne].
    + unfold lock_step in H. rewrite Hi in H. destruct a; try done. cbn in H. injection H as <-. cbn. split; [lia|done].
    + destruct (others_leave s i j a s' I Hm Hne H) as [Hj ->]. rewrite (reader_leaves s j I Hj) in H. injection H as <-. cbn [readers threads].
      split; [lia|]. intros _. by rewrite list_lookup_insert_ne.
  - intros Hp. rewrite (lk_count s I) in Hp. destruct (counted_pos _ Hp) as (j & pc & Hj & Hc).
    assert (pc = K_reading) as ->.
    { destruct pc; try discriminate Hc; [|done]. pose proof (proj1 (lk_mtx s I j K_rcount Hj) eq_refl). congruence. }
    exists j. eexists. split; [done|]. split; [by apply reader_leaves|done].
  - intros H0. unfold lock_step. rewrite Hi. cbn [mbind option_bind k_step]. rewrite H0. cbn [Z.ltb Z.compare].
    eexists. split; [reflexivity|]. cbn [threads]. apply list_lookup_insert_eq. by eapply lookup_lt_Some.
Qed.

(** * Witnesses *)

(** A reader enters, leaves, and a writer enters. *)
Definition lock_run (l : list (nat * lock_act)) (s : file_lock) : option file_lock :=
  foldl (fun o '(i, a) => s ← o; lock_step i a s) (Some s) l.

Lemma lock_run_reach l : forall s s', lock_run l s = Some s' -> rtc lock_trans s s'.
Proof.
  induction l as [|[i a] l IH]; intros s s' H; cbn in H; [simplify_eq; constructor|].
  destruct (lock_step i a s) as [s1|] eqn:E.
  - eapply rtc_l; [econstructor; exact E|]. by apply IH.
  - exfalso. clear -H. induction l as [|[j b] l IH]; [done|]. exact (IH H).
Qed.

Lemma file_lock_exclusive_witness : exists s, rtc lock_trans (lock_start 2) s /\ threads s !! 1%nat = Some K_writing /\
  (forall pc, threads s !! 0%nat = Some pc -> pc <> K_reading /\ pc <> K_writing).
Proof.
  pose (l := [(0%nat, K_read); (0%nat, K_go); (0%nat, K_go); (1%nat, K_write); (1%nat, K_go); (0%nat, K_go); (1%nat, K_go)]).
  assert (H : rtc lock_trans (lock_start 2) {| writer_mtx := Some 1%nat; readers := 0; threads := [K_out; K_writing] |})
    by (apply (lock_run_reach l); reflexivity).
  eexists. split; [exact H|]. split; [reflexivity|]. intros pc Hpc.
  apply (file_lock_exclusive 2 _ 1 0 pc ltac:(lia) H eq_refl Hpc). discriminate.
Defined.

Lemma file_lock_writer_progress_witness : exists s j s', rtc lock_trans (lock_start 2) s /\ threads s !! 1%nat = Some K_wwait /\
  lock_step j K_go s = Some s' /\ readers s' = 0.
Proof.
  pose (l := [(0%nat, K_read); (0%nat, K_go); (0%nat, K_go); (1%nat, K_write)]).
  assert (H : rtc lock_trans (lock_start 2) {| writer_mtx := Some 1%nat; readers := 1; threads := [K_reading; K_wwait] |})
    by (apply (lock_run_reach l); reflexivity).
  destruct (file_lock_writer_progress 2 _ 1 ltac:(lia) H eq_refl) as (_ & Hp & _).
  destruct (Hp ltac:(cbn; lia)) as (j & s' & _ & E & Er). eexists _, j, s'. split; [exact H|]. split; [reflexivity|]. split; [exact E|]. by rewrite Er.
Defined.
