(* ===== verification/EnvTypes.v ===== *)
(** The RocksDB environment: the data of src/env/env_zns.h and what the
    environment needs of the library below it.

    Strings and buffers are lists of bytes.  A [ZNSFile*] is an index of the
    heap, so that the file table and the open files share the objects they
    point to; a null pointer is [None].  The table [files] is a std::map: an
    association list in the order of the names. *)

From stdpp Require Export gmap.
From S2P Require Import Prelude Types.

Open Scope Z_scope.
Open Scope ztl_scope.

Abbreviation bytes := (list Z).

(** * Results

    [S_OutOfRange] is the exception std::out_of_range leaving the call. *)
Inductive Status := S_OK | S_IOError | S_MemoryLimit | S_OutOfRange | S_NotFound | S_NotSupported.

#[export] Instance Status_eq_dec : EqDecision Status.
Proof. solve_decision. Defined.

(** * std::map with string keys *)

Section StdMap.

Context {V : Type}.
Implicit Types (m : list (bytes * V)) (k : bytes) (v : V).

(** std::string's operator< *)
Fixpoint str_lt (a b : bytes) : bool :=
  match a, b with
  | [], [] => false
  | [], _ :: _ => true
  | _ :: _, [] => false
  | x :: a', y :: b' => (x <? y) || ((x =? y) && str_lt a' b')
  end.

Fixpoint map_find k m : option V :=
  match m with
  | [] => None
  | (k', v) :: m' => if decide (k = k') then Some v else map_find k m'
  end.

Fixpoint map_set k v m : list (bytes * V) :=
  match m with
  | [] => [(k, v)]
  | (k', v') :: m' =>
      if decide (k = k') then (k, v) :: m'
      else if str_lt k k' then (k, v) :: (k', v') :: m' else (k', v') :: map_set k v m'
  end.

Definition map_erase k m : list (bytes * V) := filter (fun kv => kv.1 <> k) m.

End StdMap.

(** * [class ZNSFile]

    [zf_cache] holds the bytes between [wcache] and [cache_off]; [None] when both
    are null. *)
Record ZNSFile := {
  zf_name : bytes;
  zf_size : Z;
  zf_uuididx : Z;
  zf_level : Z;
  zf_map : list Z;                 (* words of struct zrocks_map *)
  zf_startIndex : Z;
  zf_cache : option bytes;
  zf_is_writing : bool;
  zf_current_nid : Z
}.

Definition zf_set_name (f : ZNSFile) v : ZNSFile :=
  Build_ZNSFile v (zf_size f) (zf_uuididx f) (zf_level f) (zf_map f) (zf_startIndex f) (zf_cache f) (zf_is_writing f) (zf_current_nid f).
Definition zf_set_size (f : ZNSFile) v : ZNSFile :=
  Build_ZNSFile (zf_name f) v (zf_uuididx f) (zf_level f) (zf_map f) (zf_startIndex f) (zf_cache f) (zf_is_writing f) (zf_current_nid f).
Definition zf_set_uuididx (f : ZNSFile) v : ZNSFile :=
  Build_ZNSFile (zf_name f) (zf_size f) v (zf_level f) (zf_map f) (zf_startIndex f) (zf_cache f) (zf_is_writing f) (zf_current_nid f).
Definition zf_set_level (f : ZNSFile) v : ZNSFile :=
  Build_ZNSFile (zf_name f) (zf_size f) (zf_uuididx f) v (zf_map f) (zf_startIndex f) (zf_cache f) (zf_is_writing f) (zf_current_nid f).
Definition zf_set_map (f : ZNSFile) v : ZNSFile :=
  Build_ZNSFile (zf_name f) (zf_size f) (zf_uuididx f) (zf_level f) v (zf_startIndex f) (zf_cache f) (zf_is_writing f) (zf_current_nid f).
Definition zf_set_startIndex (f : ZNSFile) v : ZNSFile :=
  Build_ZNSFile (zf_name f) (zf_size f) (zf_uuididx f) (zf_level f) (zf_map f) v (zf_cache f) (zf_is_writing f) (zf_current_nid f).
Definition zf_set_cache (f : ZNSFile) v : ZNSFile :=
  Build_ZNSFile (zf_name f) (zf_size f) (zf_uuididx f) (zf_level f) (zf_map f) (zf_startIndex f) v (zf_is_writing f) (zf_current_nid f).
Definition zf_set_is_writing (f : ZNSFile) v : ZNSFile :=
  Build_ZNSFile (zf_name f) (zf_size f) (zf_uuididx f) (zf_level f) (zf_map f) (zf_startIndex f) (zf_cache f) v (zf_current_nid f).
Definition zf_set_current_nid (f : ZNSFile) v : ZNSFile :=
  Build_ZNSFile (zf_name f) (zf_size f) (zf_uuididx f) (zf_level f) (zf_map f) (zf_startIndex f) (zf_cache f) (zf_is_writing f) v.

(** The constructor, for the buffer allocation [buf_ok]. *)
Definition new_ZNSFile (fname : bytes) (lvl : Z) (buf_ok : bool) : ZNSFile :=
  {| zf_name := fname; zf_size := 0; zf_uuididx := 0; zf_level := lvl; zf_map := []; zf_startIndex := 0;
     zf_cache := if buf_ok then Some [] else None; zf_is_writing := false; zf_current_nid := -1 |}.

(** * The library below

    [zd_write], [zd_read] and [zd_trim] are zrocks_write (with the array of the
    reported map entries), zrocks_read (with the bytes read) and zrocks_trim;
    [zm_write] and [zm_read] are zrocks_write_file_metadata and
    zrocks_read_metadata, [zm_slbas] the addresses of the metadata zones and
    [zm_switch] is zrocks_switch_zone.  The data nodes and the metadata zones are disjoint
    parts of the device, hence the two state types. *)

Class ZData (W : Type) := {
  zd_write : nat -> W -> bytes -> Z -> bool -> outcome (Z * list Z * W);
  zd_read : nat -> W -> Z -> Z -> Z -> bool -> outcome (Z * bytes * W);
  zd_trim : W -> Z -> bool -> outcome (Z * W)
}.

Class ZMeta (M : Type) := {
  zm_write : M -> bytes -> outcome (Z * M);
  zm_read : M -> Z -> Z -> outcome (Z * bytes * M);
  zm_slbas : M -> list Z;
  zm_switch : M -> Z -> outcome M
}.

(** Start-up: zrocks_node_set and zrocks_clear_invalid_nodes. *)
Class ZRecover (W : Type) := {
  zr_node_set : W -> Z -> Z -> Z -> outcome W;
  zr_clear_invalid_nodes : W -> outcome W
}.

(** * [class ZNSEnv] *)

Record zenv (W M : Type) := {
  ev_w : W;
  ev_m : M;
  ev_heap : gmap nat ZNSFile;
  ev_next : nat;                             (* next fresh object *)
  ev_files : list (bytes * option nat);
  ev_sequence : Z;
  ev_uuididx : Z;
  ev_nids : gmap Z (list bytes)              (* nid_file_map *)
}.

Arguments Build_zenv {W M}.
Arguments ev_w {W M}.
Arguments ev_m {W M}.
Arguments ev_heap {W M}.
Arguments ev_next {W M}.
Arguments ev_files {W M}.
Arguments ev_sequence {W M}.
Arguments ev_uuididx {W M}.
Arguments ev_nids {W M}.

Section Env.

Context {W M : Type}.
Implicit Types (e : zenv W M) (p : nat).

Definition ev_set_w e v : zenv W M :=
  Build_zenv v (ev_m e) (ev_heap e) (ev_next e) (ev_files e) (ev_sequence e) (ev_uuididx e) (ev_nids e).
Definition ev_set_m e v : zenv W M :=
  Build_zenv (ev_w e) v (ev_heap e) (ev_next e) (ev_files e) (ev_sequence e) (ev_uuididx e) (ev_nids e).
Definition ev_set_heap e v : zenv W M :=
  Build_zenv (ev_w e) (ev_m e) v (ev_next e) (ev_files e) (ev_sequence e) (ev_uuididx e) (ev_nids e).
Definition ev_set_next e v : zenv W M :=
  Build_zenv (ev_w e) (ev_m e) (ev_heap e) v (ev_files e) (ev_sequence e) (ev_uuididx e) (ev_nids e).
Definition ev_set_files e v : zenv W M :=
  Build_zenv (ev_w e) (ev_m e) (ev_heap e) (ev_next e) v (ev_sequence e) (ev_uuididx e) (ev_nids e).
Definition ev_set_sequence e v : zenv W M :=
  Build_zenv (ev_w e) (ev_m e) (ev_heap e) (ev_next e) (ev_files e) v (ev_uuididx e) (ev_nids e).
Definition ev_set_uuididx e v : zenv W M :=
  Build_zenv (ev_w e) (ev_m e) (ev_heap e) (ev_next e) (ev_files e) (ev_sequence e) v (ev_nids e).
Definition ev_set_nids e v : zenv W M :=
  Build_zenv (ev_w e) (ev_m e) (ev_heap e) (ev_next e) (ev_files e) (ev_sequence e) (ev_uuididx e) v.

(** [*p] and [*p = f] *)
Definition deref e p : option ZNSFile := ev_heap e !! p.
Definition store e p (f : ZNSFile) : zenv W M := ev_set_heap e (<[p := f]> (ev_heap e)).

(** [new ZNSFile(...)] and [delete p] *)
Definition heap_new e (f : ZNSFile) : nat * zenv W M :=
  (ev_next e, ev_set_next (store e (ev_next e) f) (S (ev_next e))).
Definition heap_delete e p : zenv W M := ev_set_heap e (delete p (ev_heap e)).

(** [files[name]]: a missing entry is inserted as a null pointer. *)
Definition files_at e (name : bytes) : option nat * zenv W M :=
  match map_find name (ev_files e) with
  | Some q => (q, e)
  | None => (None, ev_set_files e (map_set name None (ev_files e)))
  end.

End Env.

(** * std::map: lemmas *)

Section StdMapLemmas.

Context {V : Type}.
Implicit Types (m : list (bytes * V)) (k : bytes) (v : V).

Lemma map_find_set_eq k v m : map_find k (map_set k v m) = Some v.
Proof.
  induction m as [|[k' v'] m IH]; cbn [map_find map_set fst]; [by rewrite decide_True|].
  destruct (decide (k = k')) as [->|Hne]; cbn [map_find map_set fst]; [by rewrite decide_True|].
  destruct (str_lt k k'); cbn [map_find map_set fst]; [by rewrite decide_True|]. rewrite decide_False by done. exact IH.
Qed.

Lemma map_find_set_ne k k' v m : k' <> k -> map_find k' (map_set k v m) = map_find k' m.
Proof.
  intros Hne. induction m as [|[k0 v0] m IH]; cbn [map_find map_set fst]; [by rewrite decide_False|].
  destruct (decide (k = k0)) as [->|Hk]; cbn [map_find map_set fst]; [by rewrite !decide_False|].
  destruct (str_lt k k0); cbn [map_find map_set fst]; [by rewrite decide_False|]. by rewrite IH.
Qed.

Lemma map_find_erase_eq k m : map_find k (map_erase k m) = None.
Proof.
  induction m as [|[k' v'] m IH]; [done|]. unfold map_erase. rewrite filter_cons. cbn [map_find map_set fst].
  case_decide as Hd; [|done]. cbn [map_find map_set fst]. rewrite decide_False by done. exact IH.
Qed.

Lemma map_find_erase_ne k k' m : k' <> k -> map_find k' (map_erase k m) = map_find k' m.
Proof.
  intros Hne. induction m as [|[k0 v0] m IH]; [done|]. unfold map_erase. rewrite filter_cons. cbn [map_find map_set fst].
  case_decide as Hd; cbn [map_find map_set fst].
  - destruct (decide (k' = k0)); [done|exact IH].
  - subst k0. rewrite decide_False by done. exact IH.
Qed.

Lemma map_find_elem k v m : map_find k m = Some v -> (k, v) ∈ m.
Proof.
  induction m as [|[k' v'] m IH]; cbn [map_find map_set fst]; [done|].
  destruct (decide (k = k')) as [->|]; [intros [= ->]; by left|intros ?; right; auto].
Qed.

(** ** The order of the keys *)

Lemma str_lt_irrefl k : str_lt k k = false.
Proof. induction k as [|x k IH]; [done|]. cbn [str_lt]. rewrite IH, andb_false_r, orb_false_r. lia. Qed.

Lemma str_lt_trans k1 k2 k3 : str_lt k1 k2 = true -> str_lt k2 k3 = true -> str_lt k1 k3 = true.
Proof.
  revert k2 k3. induction k1 as [|x1 k1 IH]; intros [|x2 k2] [|x3 k3]; cbn [str_lt]; try done.
  rewrite !orb_true_iff, !andb_true_iff, !Z.ltb_lt, !Z.eqb_eq. intros [H1|[H1 H1']] [H2|[H2 H2']]; [left; lia..|].
  right. split; [lia|by eapply IH].
Qed.

Lemma str_lt_total k1 k2 : k1 <> k2 -> str_lt k1 k2 = false -> str_lt k2 k1 = true.
Proof.
  revert k2. induction k1 as [|x1 k1 IH]; intros [|x2 k2] Hne; cbn [str_lt]; try done.
  rewrite orb_false_iff, andb_false_iff, orb_true_iff, andb_true_iff, !Z.ltb_lt, Z.ltb_ge, Z.eqb_eq, Z.eqb_neq.
  intros [H1 H2]. destruct (decide (x1 = x2)) as [->|Hx]; [|left; lia]. right. split; [done|].
  apply IH; [congruence|]. destruct H2; done.
Qed.

(** A std::map is sorted by its keys. *)
Inductive keys_sorted : list (bytes * V) -> Prop :=
  | ks_nil : keys_sorted []
  | ks_cons k v m : Forall (fun kv => str_lt k kv.1 = true) m -> keys_sorted m -> keys_sorted ((k, v) :: m).

Lemma map_set_elem k v m kv : kv ∈ map_set k v m -> kv = (k, v) \/ kv ∈ m.
Proof.
  induction m as [|[k' v'] m IH]; cbn [map_set]; [rewrite list_elem_of_singleton; auto|].
  destruct (decide (k = k')); [rewrite !elem_of_cons; tauto|]. destruct (str_lt k k'); rewrite !elem_of_cons; [tauto|].
  intros [->|H]; [tauto|]. destruct (IH H); tauto.
Qed.

Lemma map_set_sorted k v m : keys_sorted m -> keys_sorted (map_set k v m).
Proof.
  induction 1 as [|k' v' m Hall Hs IH]; cbn [map_set]; [by repeat constructor|].
  destruct (decide (k = k')) as [->|Hne]; [by constructor|]. destruct (str_lt k k') eqn:Hlt.
  - constructor; [|by constructor]. constructor; [done|]. eapply Forall_impl; [exact Hall|]. intros kv Hkv. by eapply str_lt_trans.
  - constructor; [|done]. apply Forall_forall. intros kv [->|Hin]%map_set_elem; [by apply str_lt_total|].
    rewrite Forall_forall in Hall. by apply Hall.
Qed.

Lemma map_erase_sorted k m : keys_sorted m -> keys_sorted (map_erase k m).
Proof.
  induction 1 as [|k' v' m Hall Hs IH]; [constructor|]. unfold map_erase in *. rewrite filter_cons. case_decide; [|done].
  constructor; [|done]. apply Forall_forall. intros kv [_ Hin]%list_elem_of_filter. rewrite Forall_forall in Hall. by apply Hall.
Qed.

Lemma map_find_sorted k v m : keys_sorted m -> (k, v) ∈ m -> map_find k m = Some v.
Proof.
  induction 1 as [|k' v' m Hall Hs IH]; [by intros ?%not_elem_of_nil|]. rewrite elem_of_cons. cbn [map_find].
  intros [[= -> ->]|Hin]; [by rewrite decide_True|]. rewrite decide_False; [by apply IH|]. intros ->.
  rewrite Forall_forall in Hall. specialize (Hall _ Hin). simpl in Hall. by rewrite str_lt_irrefl in Hall.
Qed.

End StdMapLemmas.

Create HintDb sorted discriminated.
#[export] Hint Resolve map_set_sorted map_erase_sorted ks_nil : sorted.

Create Rewrite HintDb stdmap.
#[export] Hint Rewrite @map_find_set_eq @map_find_erase_eq : stdmap.
#[export] Hint Rewrite @map_find_set_ne @map_find_erase_ne using done : stdmap.
