(* ===== verification/EnvMeta.v ===== *)
(** The metadata log of the environment, writing side: the records that
    src/env/env_zns.cc appends to the metadata zones.

    A record is a [MetadataHead] (12 bytes) with a tag, followed by its data, padded
    with zeros to whole blocks of 4096 bytes.  The bytes of the structures that no
    member covers are not set by the program: they are the parameters [pad_head],
    [pad_level], [pad_tail] and [pad_zone]. *)

From S2P Require Import Prelude Types EnvTypes.

(** * Little-endian integers *)

Fixpoint le_bytes (n : nat) (x : Z) : bytes :=
  match n with
  | O => []
  | S n' => x mod 256 :: le_bytes n' (x / 256)
  end.

Fixpoint le_read (b : bytes) : Z :=
  match b with
  | [] => 0
  | x :: b' => x + 256 * le_read b'
  end.

(** * Sizes and tags *)

Definition FILE_NAME_LEN : Z := 128.
Definition METADATA_MAGIC : Z := 61.
Definition FILE_METADATA_BUF_SIZE : Z := 80 * 1024 * 1024.
Definition MD_WRITE_FULL : Z := 29.
Definition SIZE_ZONE_HEAD : Z := 4096.     (* sizeof(MetaZoneHead) *)
Definition SIZE_HEAD : Z := 12.            (* sizeof(MetadataHead) *)
Definition SIZE_FILE_META : Z := 152.      (* sizeof(ZrocksFileMeta) *)
Definition SIZE_MAP : Z := 8.              (* sizeof(struct zrocks_map) *)

(** [enum Operation] *)
Definition OP_Base : Z := 0.
Definition OP_Update : Z := 1.
Definition OP_Replace : Z := 2.
Definition OP_Delete : Z := 3.
Definition OP_GCChange : Z := 4.

(** [dataLen] rounded up to blocks. *)
Definition sector_align (dataLen : Z) : Z :=
  if negb (dataLen mod ZNS_ALIGMENT =? 0) then (dataLen / ZNS_ALIGMENT + 1) * ZNS_ALIGMENT else dataLen.

Section Records.

Context (pad_head pad_level pad_tail pad_zone : bytes).

(** [struct MetadataHead]; the checksum is not computed. *)
Definition metadata_head (tag dataLength : Z) : bytes :=
  le_bytes 4 0 ++ le_bytes 4 dataLength ++ le_bytes 1 tag ++ pad_head.

(** [struct MetaZoneHead] *)
Definition zone_head (sequence : Z) : bytes :=
  le_bytes 1 METADATA_MAGIC ++ take 3 pad_zone ++ le_bytes 4 sequence ++ drop 3 pad_zone.

(** A string in a field of [FILE_NAME_LEN] bytes: a longer one is written past its end. *)
Definition name_field (name : bytes) : option bytes :=
  if FILE_NAME_LEN <? Z.of_nat (length name) then None
  else Some (name ++ replicate (Z.to_nat FILE_NAME_LEN - length name) 0).

(** [struct ZrocksFileMeta] *)
Definition file_meta (level filesize pieceNum : Z) (name : bytes) : option bytes :=
  nm ← name_field name;
  Some (le_bytes 1 level ++ pad_level ++ le_bytes 8 filesize ++ le_bytes 4 pieceNum ++ nm ++ pad_tail).

Definition GetFileMetaLen (f : ZNSFile) : Z := u32 (SIZE_FILE_META + Z.of_nat (length (zf_map f)) * SIZE_MAP).

Definition map_bytes_of (ws : list Z) : bytes := mjoin (le_bytes 8 <$> ws).

(** [WriteMetaToBuf]: the bytes written and the file with its new start index *)
Definition WriteMetaToBuf (f : ZNSFile) (update : bool) : option (bytes * ZNSFile) :=
  let i := if update then zf_startIndex f else 0 in
  let n := Z.of_nat (length (zf_map f)) in
  fm ← file_meta (zf_level f) (zf_size f) (i32 (if update then n - zf_startIndex f else n)) (zf_name f);
  Some (fm ++ map_bytes_of (drop (Z.to_nat i) (zf_map f)), zf_set_startIndex f (u32 n)).

(** [memcpy(buf + off, data, length)]: undefined past the end of the buffer. *)
Definition blit (buf : bytes) (off : Z) (data : bytes) : option bytes :=
  if Z.of_nat (length buf) <? off + Z.of_nat (length data) then None
  else Some (take (Z.to_nat off) buf ++ data ++ drop (Z.to_nat off + length data) buf).

(** The zeroed buffer of one block that a record is built in. *)
Definition block : bytes := replicate (Z.to_nat ZNS_ALIGMENT) 0.

(** The head of the record, once the data are in the buffer. *)
Definition seal_record (tag dataLen : Z) (buf : bytes) : option bytes :=
  blit buf 0 (metadata_head tag (u32 (sector_align dataLen - SIZE_HEAD))).

(** A record with the metadata [b] of a file. *)
Definition file_record (tag : Z) (b : bytes) : option bytes :=
  buf ← blit block SIZE_HEAD b;
  seal_record tag (SIZE_HEAD + Z.of_nat (length b)) buf.

Definition delete_record (fileName : bytes) : option bytes :=
  buf ← blit block SIZE_HEAD fileName;
  seal_record OP_Delete (SIZE_HEAD + FILE_NAME_LEN) buf.

Definition replace_record (srcName destName : bytes) : option bytes :=
  buf ← blit block SIZE_HEAD srcName;
  buf ← blit buf (SIZE_HEAD + FILE_NAME_LEN) destName;
  seal_record OP_Replace (SIZE_HEAD + FILE_NAME_LEN + FILE_NAME_LEN) buf.

(** * The file table *)

Section Flush.

Context {W M : Type} `{!ZMeta M}.
Implicit Types (e : zenv W M).

(** The loop of [FlushMetaData] over the table, with the data so far. *)
Fixpoint flush_files e (fs : list (bytes * option nat)) (fileNum dataLen : Z) (acc : bytes)
    : option (Status * Z * bytes * zenv W M) :=
  match fs with
  | [] => Some (S_OK, fileNum, acc, e)
  | (_, None) :: fs' => flush_files e fs' fileNum dataLen acc
  | (_, Some p) :: fs' =>
      f ← deref e p;
      if FILE_METADATA_BUF_SIZE <=? u32 (dataLen + GetFileMetaLen f)
      then Some (S_MemoryLimit, u32 (fileNum + 1), acc, e) else
      '(b, f') ← WriteMetaToBuf f false;
      flush_files (store e p f') fs' (u32 (fileNum + 1)) (dataLen + Z.of_nat (length b)) (acc ++ b)
  end.

(** The whole image of the table: zone head, record head, number of files, files. *)
Definition base_image (sequence fileNum : Z) (data : bytes) : bytes :=
  let dataLen := SIZE_ZONE_HEAD + SIZE_HEAD + 4 + Z.of_nat (length data) in
  let len := sector_align dataLen in
  zone_head sequence ++ metadata_head OP_Base (u32 (len - SIZE_HEAD - SIZE_ZONE_HEAD)) ++
  le_bytes 4 fileNum ++ data ++ replicate (Z.to_nat (len - dataLen)) 0.

Definition FlushMetaData e : outcome (Status * zenv W M) :=
  let sequence := ev_sequence e in
  let e := ev_set_sequence e (u64 (sequence + 1)) in
  '(st, fileNum, data, e) ← lift (flush_files e (ev_files e) 0 (SIZE_ZONE_HEAD + SIZE_HEAD + 4) []);
  match st with
  | S_OK =>
      let image := base_image (u32 sequence) fileNum data in
      '(ret, m) ← zm_write (ev_m e) image;
      if ret =? MD_WRITE_FULL then
        '(_, m) ← zm_write m image;
        Ok (S_OK, ev_set_m e m)
      else Ok (S_OK, ev_set_m e m)
  | _ => Ok (st, e)
  end.

(** What the four record writers share: append the record, and write the whole
    table to the other zone when this one is full. *)
Definition append_record e (rec : bytes) : outcome (Status * zenv W M) :=
  '(ret, m) ← zm_write (ev_m e) rec;
  let e := ev_set_m e m in
  if ret =? MD_WRITE_FULL then '(_, e) ← FlushMetaData e; Ok (S_OK, e) else Ok (S_OK, e).

(** [alloc_ok]: the allocation of the block succeeds. *)
Definition FlushUpdateMetaData (alloc_ok : bool) e (p : nat) : outcome (Status * zenv W M) :=
  f ← lift (deref e p);
  if zf_startIndex f =? Z.of_nat (length (zf_map f)) then Ok (S_OK, e) else
  if negb alloc_ok then Ok (S_MemoryLimit, e) else
  '(b, f') ← lift (WriteMetaToBuf f true);
  rec ← lift (file_record OP_Update b);
  append_record (store e p f') rec.

Definition FlushGCChangeMetaData (alloc_ok : bool) e (p : nat) : outcome (Status * zenv W M) :=
  f ← lift (deref e p);
  if negb alloc_ok then Ok (S_MemoryLimit, e) else
  '(b, f') ← lift (WriteMetaToBuf f false);
  rec ← lift (file_record OP_GCChange b);
  append_record (store e p f') rec.

Definition FlushDelMetaData (alloc_ok : bool) e (fileName : bytes) : outcome (Status * zenv W M) :=
  if negb alloc_ok then Ok (S_MemoryLimit, e) else
  rec ← lift (delete_record fileName);
  append_record e rec.

Definition FlushReplaceMetaData (alloc_ok : bool) e (srcName destName : bytes) : outcome (Status * zenv W M) :=
  if negb alloc_ok then Ok (S_MemoryLimit, e) else
  rec ← lift (replace_record srcName destName);
  append_record e rec.

End Flush.

End Records.
