(* ===== verification/EnvFile.v ===== *)
(** The files of the environment: src/env/env_zns_io.cc, and the locks of
    src/env/env_zns.h and env_zns.cc they take.

    An open writable file is its name, its own size [filesize_] and the pointer to
    the shared [ZNSFile]; a sequential file has a read offset.  The bytes that a
    read delivers are the result; [None] says that [*result] was not assigned. *)

From S2P Require Import Prelude Types EnvTypes EnvMeta.

(** Bytes of user data in a map entry: [num * ZNS_ALIGMENT * ZTL_IO_SEC_MCMD - padding]
    as a [size_t]. *)
Definition piece_size (w : Z) : Z := u64 (zmap_num w * ZNS_ALIGMENT * ZTL_IO_SEC_MCMD - zmap_padding w).

(** * Reading *)

(** The loop that looks for the piece of [offset]: the remaining pieces, starting with
    it, and the offset inside it.  [None]: no piece fits. *)
Fixpoint find_piece (maps : list Z) (off offset : Z) : option (list Z * Z) :=
  match maps with
  | [] => None
  | w :: maps' =>
      let size := piece_size w in
      if offset <? u64 (off + size) then Some (maps, u64 (size - u64 (u64 (off + size) - offset)))
      else find_piece maps' (u64 (off + size)) offset
  end.

Section Read.

Context {W : Type} `{!ZData W}.
Implicit Types (w : W).

(** One read per piece, until [left] bytes are read: the status and what is in the
    scratch buffer.  Past the last piece [temlist.at] throws. *)
Fixpoint read_pieces (fuel : nat) w (maps : list Z) (piece_off left : Z) (scratch : bytes)
    : outcome (Status * bytes * W) :=
  if left =? 0 then Ok (S_OK, scratch, w) else
  match maps with
  | [] => Ok (S_OutOfRange, scratch, w)
  | m :: maps' =>
      let avail := u64 (piece_size m - piece_off) in
      let size := if left <? avail then left else avail in
      let off := zmap_start m * ZNS_ALIGMENT * ZTL_IO_SEC_MCMD in
      '(ret, b, w1) ← zd_read fuel w (zmap_node_id m) (u64 (off + piece_off)) size false;
      if ctrue ret then Ok (S_IOError, scratch, w1)
      else read_pieces fuel w1 maps' 0 (u64 (left - size)) (scratch ++ b)
  end.

(** The part both [ReadOffset] methods share, [n] bytes within the file. *)
Definition read_mapped (fuel : nat) w (f : ZNSFile) (offset n : Z) : outcome (Status * option bytes * W) :=
  match find_piece (zf_map f) 0 offset with
  | None => Ok (S_IOError, None, w)
  | Some (maps, piece_off) =>
      '(st, b, w1) ← read_pieces fuel w maps piece_off n [];
      Ok (st, (if decide (st = S_OK) then Some b else None), w1)
  end.

(** [n] cut at the end of the file. *)
Definition clamp (f : ZNSFile) (offset n : Z) : Z :=
  if zf_size f <? u64 (offset + n) then u64 (zf_size f - offset) else n.

(** [cache_off - wcache], and the file offset of the first cached byte *)
Definition cache_len (f : ZNSFile) : Z :=
  match zf_cache f with None => 0 | Some c => Z.of_nat (length c) end.
Definition cache_pos (f : ZNSFile) : Z := u64 (zf_size f - cache_len f).

(** [Slice(wcache + offset - cache_pos, n)] *)
Definition cache_slice (f : ZNSFile) (offset n : Z) : bytes :=
  take (Z.to_nat n) (drop (Z.to_nat (offset - cache_pos f)) (default [] (zf_cache f))).

(** ** [ZNSSequentialFile] *)

(** [ReadOffset]: status, result, [*readLen] *)
Definition ZNSSequentialFile_ReadOffset (fuel : nat) w (znsfile : option ZNSFile) (offset n : Z)
    : outcome (Status * option bytes * Z * W) :=
  match znsfile with
  | None => Ok (S_OK, None, 0, w)
  | Some f =>
      if zf_size f <=? offset then Ok (S_OK, None, 0, w) else
      let n := clamp f offset n in
      if cache_pos f <=? offset then Ok (S_OK, Some (cache_slice f offset n), n, w) else
      '(st, r, w1) ← read_mapped fuel w f offset n;
      Ok (st, r, (if decide (st = S_OK) then n else 0), w1)
  end.

(** [Read]: also the new read offset *)
Definition ZNSSequentialFile_Read (fuel : nat) w (znsfile : option ZNSFile) (read_off n : Z)
    : outcome (Status * option bytes * Z * W) :=
  '(st, r, readLen, w1) ← ZNSSequentialFile_ReadOffset fuel w znsfile read_off n;
  Ok (st, r, (if decide (st = S_OK) then u64 (read_off + readLen) else read_off), w1).

(** [PositionedRead]: the read is at [read_off], whatever the [offset]; the status is
    dropped, but an exception is not.  The result is the caller's [scratch], which a read
    from the cache does not fill. *)
Definition ZNSSequentialFile_PositionedRead (fuel : nat) w (znsfile : option ZNSFile) (read_off offset n : Z)
    (scratch : bytes) : outcome (Status * bytes * W) :=
  '(st, r, readLen, w1) ← ZNSSequentialFile_ReadOffset fuel w znsfile read_off n;
  let cached := match znsfile with Some f => cache_pos f <=? read_off | None => false end in
  if decide (st = S_OutOfRange) then Ok (S_OutOfRange, [], w1)
  else Ok (S_OK, take (Z.to_nat readLen) (if cached then scratch else default [] r), w1).

Definition ZNSSequentialFile_Skip (f : ZNSFile) (read_off n : Z) : Status * Z :=
  (S_OK, if u64 (read_off + n) <=? zf_size f then u64 (read_off + n) else read_off).

(** ** [ZNSRandomAccessFile] *)

Definition ZNSRandomAccessFile_ReadOffset (fuel : nat) w (znsfile : option ZNSFile) (offset n : Z)
    : outcome (Status * option bytes * W) :=
  match znsfile with
  | None => Ok (S_OK, None, w)
  | Some f =>
      if zf_size f <=? offset then Ok (S_OK, None, w)
      else read_mapped fuel w f offset (clamp f offset n)
  end.

Definition ZNSRandomAccessFile_Read (fuel : nat) w (znsfile : option ZNSFile) (offset n : Z)
    : outcome (Status * option bytes * W) :=
  match znsfile with
  | None => Ok (S_OK, None, w)
  | Some f =>
      if zf_size f <=? offset then Ok (S_OK, None, w) else
      let n := clamp f offset n in
      if cache_pos f <=? offset then Ok (S_OK, Some (cache_slice f offset n), w)
      else ZNSRandomAccessFile_ReadOffset fuel w znsfile offset n
  end.

End Read.

(** * Writing *)

(** [fMutex] is held when [is_writing] is set: [GetWRLock] of a locked file waits. *)
Definition GetWRLock (f : ZNSFile) : option ZNSFile :=
  if zf_is_writing f then None else Some (zf_set_is_writing f true).
Definition TryGetWRLock (f : ZNSFile) : bool * ZNSFile :=
  if zf_is_writing f then (false, f) else (true, zf_set_is_writing f true).
Definition ReleaseWRLock (f : ZNSFile) : ZNSFile := zf_set_is_writing f false.
Definition IsWR (f : ZNSFile) : bool := zf_is_writing f.

Section Write.

Context (pad_head pad_level pad_tail pad_zone : bytes).
Context {W M : Type} `{!ZData W} `{!ZMeta M}.
Implicit Types (e : zenv W M) (p : nat).

(** [class ZNSWritableFile] *)
Record ZNSWritableFile := { wf_filename : bytes; wf_filesize : Z; wf_znsfile : nat }.

(** The loop of [Sync] over the reported pieces. *)
Fixpoint sync_pieces e p (fname : bytes) (maps : list Z) : option (zenv W M) :=
  match maps with
  | [] => Some e
  | m :: maps' =>
      f ← deref e p;
      let f1 := zf_set_map f (zf_map f ++ [m]) in
      let nid := zmap_node_id m in
      if negb (zf_current_nid f1 =? nid) then
        let e1 := store e p (zf_set_current_nid f1 nid) in
        let l := default [] (ev_nids e1 !! nid) in
        sync_pieces (ev_set_nids e1 (<[nid := l ++ [fname]]> (ev_nids e1))) p fname maps'
      else sync_pieces (store e p f1) p fname maps'
  end.

Definition ZNSWritableFile_Sync (fuel : nat) (alloc_ok : bool) e (wf : ZNSWritableFile) : outcome (Status * zenv W M) :=
  let p := wf_znsfile wf in
  f ← lift (deref e p);
  match zf_cache f with
  | None | Some [] => Ok (S_OK, e)
  | Some c =>
      '(ret, maps, w1) ← zd_write fuel (ev_w e) c (zf_level f) false;
      let e1 := ev_set_w e w1 in
      if ctrue ret then Ok (S_IOError, e1) else
      e2 ← lift (sync_pieces e1 p (wf_filename wf) maps);
      '(_, e3) ← FlushUpdateMetaData pad_head pad_level pad_tail pad_zone alloc_ok e2 p;
      f3 ← lift (deref e3 p);
      Ok (S_OK, store e3 p (zf_set_cache f3 (Some [])))
  end.

(** [memcpy(cache_off, data, n); cache_off += n] *)
Definition cache_append e p (data : bytes) : option (zenv W M) :=
  f ← deref e p;
  c ← zf_cache f;
  if ZNS_MAX_BUF <? Z.of_nat (length c + length data) then None
  else Some (store e p (zf_set_cache f (Some (c ++ data)))).

(** [while (size > cpytobuf_size)]: whole buffers *)
Fixpoint append_full (n : nat) (fuel : nat) (alloc_ok : bool) e (wf : ZNSWritableFile) (data : bytes)
    : outcome (Status * bytes * zenv W M) :=
  if ZNS_MAX_BUF <? Z.of_nat (length data) then
    match n with
    | O => OutOfFuel
    | S n' =>
        e1 ← lift (cache_append e (wf_znsfile wf) (take (Z.to_nat ZNS_MAX_BUF) data));
        '(st, e2) ← ZNSWritableFile_Sync fuel alloc_ok e1 wf;
        if decide (st = S_OK) then append_full n' fuel alloc_ok e2 wf (drop (Z.to_nat ZNS_MAX_BUF) data)
        else Ok (S_IOError, data, e2)
    end
  else Ok (S_OK, data, e).

(** What remains to be copied into the cache, after the flushes. *)
Definition append_flush (fuel : nat) (alloc_ok : bool) e (wf : ZNSWritableFile) (cached : nat) (data : bytes)
    : outcome (Status * bytes * zenv W M) :=
  if ZNS_MAX_BUF <? Z.of_nat cached + Z.of_nat (length data) then
    let size := Z.to_nat (ZNS_MAX_BUF - Z.of_nat cached) in
    e1 ← lift (cache_append e (wf_znsfile wf) (take size data));
    '(st, e2) ← ZNSWritableFile_Sync fuel alloc_ok e1 wf;
    if decide (st = S_OK) then append_full (length data) fuel alloc_ok e2 wf (drop size data)
    else Ok (S_IOError, data, e2)
  else Ok (S_OK, data, e).

Definition ZNSWritableFile_Append (fuel : nat) (alloc_ok : bool) e (wf : ZNSWritableFile) (data : bytes)
    : outcome (Status * ZNSWritableFile * zenv W M) :=
  let p := wf_znsfile wf in
  f ← lift (deref e p);
  match zf_cache f with
  | None => Ok (S_IOError, wf, e)
  | Some c =>
      '(st, rest, e1) ← append_flush fuel alloc_ok e wf (length c) data;
      if decide (st = S_OK) then
        e2 ← lift (cache_append e1 p rest);
        f2 ← lift (deref e2 p);
        let n := Z.of_nat (length data) in
        Ok (S_OK, {| wf_filename := wf_filename wf; wf_filesize := u64 (wf_filesize wf + n); wf_znsfile := p |},
            store e2 p (zf_set_size f2 (u64 (zf_size f2 + n))))
      else Ok (S_IOError, wf, e1)
  end.

(** A wrong [offset] is only reported. *)
Definition ZNSWritableFile_PositionedAppend (fuel : nat) (alloc_ok : bool) e (wf : ZNSWritableFile) (data : bytes)
    (offset : Z) : outcome (Status * ZNSWritableFile * zenv W M) :=
  ZNSWritableFile_Append fuel alloc_ok e wf data.

Definition ZNSWritableFile_Truncate e (wf : ZNSWritableFile) (size : Z) : option (Status * ZNSWritableFile * zenv W M) :=
  let p := wf_znsfile wf in
  f ← deref e p;
  let trun_size := u64 (zf_size f - size) in
  if cache_len f <? trun_size then Some (S_OK, wf, e) else
  let c := (fun c => take (length c - Z.to_nat trun_size) c) <$> zf_cache f in
  Some (S_OK, {| wf_filename := wf_filename wf; wf_filesize := size; wf_znsfile := p |},
        store e p (zf_set_size (zf_set_cache f c) size)).

(** The result of [Sync] is dropped, and the buffer with what it did not write. *)
Definition ZNSWritableFile_Close (fuel : nat) (alloc_ok : bool) e (wf : ZNSWritableFile) : outcome (Status * zenv W M) :=
  '(_, e1) ← ZNSWritableFile_Sync fuel alloc_ok e wf;
  f ← lift (deref e1 (wf_znsfile wf));
  Ok (S_OK, store e1 (wf_znsfile wf) (ReleaseWRLock (zf_set_cache f None))).

Definition ZNSWritableFile_Fsync (fuel : nat) (alloc_ok : bool) e (wf : ZNSWritableFile) : outcome (Status * zenv W M) :=
  ZNSWritableFile_Sync fuel alloc_ok e wf.

(** [WLTH_SHORT] is RocksDB's. *)
Definition ZNSWritableFile_SetWriteLifeTimeHint (WLTH_SHORT : Z) e (wf : ZNSWritableFile) (hint : Z)
    : option (zenv W M) :=
  f ← deref e (wf_znsfile wf);
  Some (store e (wf_znsfile wf) (zf_set_level f (hint - WLTH_SHORT))).

End Write.
