(* ===== verification/EnvLaws.v ===== *)
(** What the environment relies on: the contracts of the data path and of the
    metadata log below it, and the invariants of the environment's own state.

    The laws of the data path are discharged for the ZRocks model in EnvZrocks.v. *)

From S2P Require Import Prelude Types EnvTypes EnvMeta EnvFile.

Abbreviation byte_list := (Forall (fun x : Z => 0 <= x < 256)).

(** * The data path *)

(** The bytes of a map entry, given the bytes of the nodes. *)
Definition entry_bytes (byte : Z -> Z -> Z) (m : Z) : bytes :=
  (fun x => byte (zmap_node_id m) (32768 * zmap_start m + Z.of_nat x)) <$> seq 0 (Z.to_nat (piece_size m)).

(** The same with the padding, as the commands of the entry hold them. *)
Definition whole_bytes (byte : Z -> Z -> Z) (m : Z) : bytes :=
  (fun x => byte (zmap_node_id m) (32768 * zmap_start m + Z.of_nat x)) <$> seq 0 (Z.to_nat (32768 * zmap_num m)).

(** [zd_ok]: the library is consistent; [zd_room w k]: there is room for [k] more
    writes of a buffer; [zd_byte w n x]: byte [x] of node [n]; [zd_live w m]: the
    map entry [m] describes data written before and not trimmed. *)
Class ZDataLaws (W : Type) `{!ZData W} := {
  zd_ok : W -> Prop;
  zd_room : W -> nat -> Prop;
  zd_byte : W -> Z -> Z -> Z;
  zd_live : W -> Z -> Prop;
  zd_room_le : forall w k, zd_room w (S k) -> zd_room w k;
  zd_live_size : forall w m, zd_live w m -> 0 < piece_size m <= 32768 * zmap_num m /\ 32768 * zmap_num m <= ZNS_MAX_BUF;
  zd_write_ok : forall w b level gc k,
    zd_ok w -> zd_room w (S k) -> 0 < Z.of_nat (length b) <= ZNS_MAX_BUF ->
    exists N w' maps,
      (forall fuel, (N <= fuel)%nat -> zd_write fuel w b level gc = Ok (0, maps, w')) /\
      zd_ok w' /\ zd_room w' k /\ (length maps <= 2)%nat /\
      mjoin (entry_bytes (zd_byte w') <$> maps) = b /\ Forall (zd_live w') maps /\
      (forall m, zd_live w m -> zd_live w' m /\ whole_bytes (zd_byte w') m = whole_bytes (zd_byte w) m);
  zd_read_ok : forall w m x len gc,
    zd_ok w -> zd_live w m -> 0 <= x -> 0 < len -> x + len <= 32768 * zmap_num m ->
    exists N w',
      (forall fuel, (N <= fuel)%nat ->
         zd_read fuel w (zmap_node_id m) (32768 * zmap_start m + x) len gc =
         Ok (0, take (Z.to_nat len) (drop (Z.to_nat x) (whole_bytes (zd_byte w) m)), w')) /\
      zd_ok w' /\ (forall k, zd_room w k -> zd_room w' k) /\
      (forall m, zd_live w m -> zd_live w' m /\ whole_bytes (zd_byte w') m = whole_bytes (zd_byte w) m);
  zd_trim_ok : forall w m gc,
    zd_ok w -> zd_live w m ->
    exists ret w', zd_trim w m gc = Ok (ret, w') /\ zd_ok w' /\ (forall k, zd_room w k -> zd_room w' k) /\
      (forall m, zd_live w m -> zd_live w' m /\ whole_bytes (zd_byte w') m = whole_bytes (zd_byte w) m)
}.

(** * The metadata log: it always answers *)
Class ZMetaTotal (M : Type) `{!ZMeta M} := {
  zm_ok : M -> Prop;
  zm_write_total : forall m b, zm_ok m -> exists ret m', zm_write m b = Ok (ret, m') /\ zm_ok m'
}.

Lemma join_cons {A} (x : list A) l : mjoin (x :: l) = x ++ mjoin l.
Proof. done. Qed.

Lemma length_entry_bytes byte m : length (entry_bytes byte m) = Z.to_nat (piece_size m).
Proof. unfold entry_bytes. by rewrite length_fmap, length_seq. Qed.

Lemma length_whole_bytes byte m : length (whole_bytes byte m) = Z.to_nat (32768 * zmap_num m).
Proof. unfold whole_bytes. by rewrite length_fmap, length_seq. Qed.

Lemma entry_whole byte m :
  piece_size m <= 32768 * zmap_num m -> entry_bytes byte m = take (Z.to_nat (piece_size m)) (whole_bytes byte m).
Proof. intros H. unfold entry_bytes, whole_bytes. rewrite <- fmap_take, take_seq. do 2 f_equal. lia. Qed.

Lemma whole_slice byte m x len :
  piece_size m <= 32768 * zmap_num m -> 0 <= x -> 0 <= len -> x + len <= piece_size m ->
  take (Z.to_nat len) (drop (Z.to_nat x) (whole_bytes byte m)) = take (Z.to_nat len) (drop (Z.to_nat x) (entry_bytes byte m)).
Proof.
  intros H Hx Hl Hend. rewrite (entry_whole byte m H). unfold whole_bytes. generalize (seq 0 (Z.to_nat (32768 * zmap_num m))).
  intros l. rewrite <- !fmap_take, <- !fmap_drop, <- !fmap_take. f_equal. rewrite skipn_firstn_comm, take_take. f_equal. lia.
Qed.

(** The size of a piece that is not negative in 64 bits. *)
Lemma piece_size_padding m :
  piece_size m <= 32768 * zmap_num m -> piece_size m = 32768 * zmap_num m - zmap_padding m.
Proof.
  pose proof (bf_get_range 36 11 ltac:(lia) m) as Hn. pose proof (bf_get_range 47 16 ltac:(lia) m) as Hp.
  fold (zmap_num m) in Hn. fold (zmap_padding m) in Hp. unfold piece_size. cst. set (x := _ - zmap_padding m). intros H.
  unfold wrap in *. pose proof (Z.div_mod x (2 ^ 64) ltac:(done)). pose proof (Z.mod_pos_bound x (2 ^ 64) ltac:(done)). subst x. lia.
Qed.

Lemma piece_size_range m : 0 <= piece_size m < 2 ^ 64.
Proof. apply wrap_range. lia. Qed.

(** * The environment's state *)

Section EnvWf.

Context {W M : Type}.
Implicit Types (e : zenv W M) (p q : nat).

(** Two states of a file that differ in the start index at most. *)
Definition same_file (f f' : ZNSFile) : Prop := zf_set_startIndex f 0 = zf_set_startIndex f' 0.

Definition same_heap e e' : Prop :=
  forall q, option_map (fun f => zf_set_startIndex f 0) (deref e q) =
            option_map (fun f => zf_set_startIndex f 0) (deref e' q).

(** Every pointer of the table is valid, names fit their field. *)
Record env_wf e : Prop := {
  ew_files : forall name q, (name, Some q) ∈ ev_files e -> is_Some (deref e q);
  ew_names : forall q f, deref e q = Some f -> Z.of_nat (length (zf_name f)) <= FILE_NAME_LEN
}.

Lemma deref_store_eq e p f : deref (store e p f) p = Some f.
Proof. unfold deref, store. simpl. apply lookup_insert_eq. Qed.

Lemma deref_store_ne e p q f : q <> p -> deref (store e p f) q = deref e q.
Proof. intros Hq. unfold deref, store. simpl. by apply lookup_insert_ne. Qed.

Lemma same_heap_refl e : same_heap e e.
Proof. by intros q. Qed.

Lemma same_heap_trans e1 e2 e3 : same_heap e1 e2 -> same_heap e2 e3 -> same_heap e1 e3.
Proof. intros H1 H2 q. by rewrite (H1 q), (H2 q). Qed.

Lemma same_heap_store e p f f' : deref e p = Some f -> same_file f f' -> same_heap e (store e p f').
Proof.
  intros Hp Hf q. destruct (decide (q = p)) as [->|Hq].
  - rewrite deref_store_eq, Hp. simpl. by f_equal.
  - by rewrite deref_store_ne.
Qed.

Lemma same_heap_deref e e' q f :
  same_heap e e' -> deref e q = Some f -> exists f', deref e' q = Some f' /\ same_file f f'.
Proof.
  intros H Hq. specialize (H q). rewrite Hq in H. destruct (deref e' q) as [f'|]; [|done].
  exists f'. split; [done|]. unfold same_file. simpl in H. congruence.
Qed.

Lemma same_heap_sym e e' : same_heap e e' -> same_heap e' e.
Proof. intros H q. by rewrite (H q). Qed.

Lemma same_file_name f f' : same_file f f' -> zf_name f = zf_name f'.
Proof. unfold same_file, zf_set_startIndex. by intros [=]. Qed.

Lemma same_file_map f f' : same_file f f' -> zf_map f = zf_map f'.
Proof. unfold same_file, zf_set_startIndex. by intros [=]. Qed.

(** The invariant only reads the table, the names and which objects exist. *)
Lemma env_wf_same e e' : env_wf e -> same_heap e e' -> ev_files e' = ev_files e -> env_wf e'.
Proof.
  intros [H1 H2] Hs Hf. constructor.
  - intros name q Hin. rewrite Hf in Hin. destruct (H1 _ _ Hin) as [f Hq].
    destruct (same_heap_deref _ _ _ _ Hs Hq) as (f' & -> & _). done.
  - intros q f' Hq. destruct (same_heap_deref _ _ _ _ (same_heap_sym _ _ Hs) Hq) as (f & Hf' & Hn).
    rewrite (same_file_name _ _ Hn). by eapply H2.
Qed.

Lemma env_wf_store e p f f' :
  env_wf e -> deref e p = Some f -> Z.of_nat (length (zf_name f')) <= FILE_NAME_LEN -> env_wf (store e p f').
Proof.
  intros [H1 H2] Hp Hn. constructor.
  - intros name q Hin. destruct (decide (q = p)) as [->|Hq]; [by rewrite deref_store_eq|].
    rewrite deref_store_ne by done. by eapply H1.
  - intros q g. destruct (decide (q = p)) as [->|Hq]; [rewrite deref_store_eq; by intros [= <-]|].
    rewrite deref_store_ne by done. apply H2.
Qed.

End EnvWf.
