(* ===== verification/EnvFileOk.v ===== *)
(** The file operations of src/env/env_zns_io.cc implement a byte string: the
    lemmas behind the properties of EnvFileTheorems.v. *)

From S2P Require Import Prelude Types EnvTypes EnvMeta EnvFile EnvLaws.

(** Decides the first strict comparison of the goal. *)
Ltac ltb_is b :=
  match goal with
  | |- context [?x <? ?y] =>
      replace (x <? y) with b by (first [lia | symmetry; apply Z.ltb_ge; lia | symmetry; apply Z.ltb_lt; lia])
  end.

(** * Sizes of the encodings *)

Lemma length_le_bytes n : forall x, length (le_bytes n x) = n.
Proof. induction n as [|n IH]; intros x; simpl; [done|]. by rewrite IH. Qed.

Lemma length_map_bytes_of ws : length (map_bytes_of ws) = (8 * length ws)%nat.
Proof.
  induction ws as [|w ws IH]; [done|].
  change (map_bytes_of (w :: ws)) with (le_bytes 8 w ++ map_bytes_of ws).
  rewrite length_app, length_le_bytes, IH. simpl. lia.
Qed.

(** The sizes of the bytes no member covers. *)
Definition pads_ok (pad_head pad_level pad_tail pad_zone : bytes) : Prop :=
  (length pad_head = 3 /\ length pad_level = 7 /\ length pad_tail = 4 /\ length pad_zone = 4091)%nat.

Section FileOk.

Context (pad_head pad_level pad_tail pad_zone : bytes).
Context (Hpads : pads_ok pad_head pad_level pad_tail pad_zone).
Context {W M : Type} `{HD : !ZData W} `{HL : !ZDataLaws W} `{HM : !ZMeta M} `{HT : !ZMetaTotal M}.
Implicit Types (e : zenv W M) (p q : nat).

Abbreviation WriteMeta := (WriteMetaToBuf pad_level pad_tail).

Lemma file_meta_length level size n name b :
  file_meta pad_level pad_tail level size n name = Some b -> length b = 152%nat.
Proof using Hpads.
  destruct Hpads as (_ & P1 & P2 & _). unfold file_meta, name_field, FILE_NAME_LEN.
  destruct (Z.ltb_spec 128 (Z.of_nat (length name))); [done|]. cbn [mbind option_bind]. intros <-%(inj Some).
  rewrite !length_app, !length_le_bytes, length_replicate, P1, P2. lia.
Qed.

(** The metadata of a file whose name fits. *)
Lemma write_meta_ok f update :
  Z.of_nat (length (zf_name f)) <= FILE_NAME_LEN -> 0 <= zf_startIndex f ->
  Z.of_nat (length (zf_map f)) < 2 ^ 32 ->
  exists b, WriteMeta f update = Some (b, zf_set_startIndex f (Z.of_nat (length (zf_map f)))) /\
    length b = (152 + 8 * length (drop (Z.to_nat (if update then zf_startIndex f else 0)) (zf_map f)))%nat.
Proof using Hpads.
  intros Hn Hs Hl. unfold WriteMetaToBuf. rewrite (wrap_small 32) by lia.
  destruct (file_meta _ _ _ _ _ _) as [fm|] eqn:Hfm.
  - eexists. split; [reflexivity|]. apply file_meta_length in Hfm. by rewrite length_app, length_map_bytes_of, Hfm.
  - unfold file_meta, name_field in Hfm.
    by replace (FILE_NAME_LEN <? Z.of_nat (length (zf_name f))) with false in Hfm by lia.
Qed.

(** * The metadata flushes only touch start indexes *)

Definition files_small e : Prop :=
  forall q f, deref e q = Some f -> 0 <= zf_startIndex f /\ Z.of_nat (length (zf_map f)) < 2 ^ 32.

(** [e'] is [e] with other start indexes and another log. *)
Record flushed e e' : Prop := {
  fl_heap : same_heap e e';
  fl_w : ev_w e' = ev_w e;
  fl_files : ev_files e' = ev_files e;
  fl_nids : ev_nids e' = ev_nids e;
  fl_small : files_small e';
  fl_index : forall q f f', deref e q = Some f -> deref e' q = Some f' ->
    zf_startIndex f' = zf_startIndex f \/ zf_startIndex f' = Z.of_nat (length (zf_map f'))
}.

Lemma flushed_trans e1 e2 e3 : flushed e1 e2 -> flushed e2 e3 -> flushed e1 e3.
Proof using.
  intros [H1 ? ? ? ? I1] [H2 ? ? ? ? I2]. constructor; [by eapply same_heap_trans|congruence..|done|].
  intros q f f'' Hq Hq''. destruct (same_heap_deref _ _ _ _ H1 Hq) as (f' & Hq' & Hf).
  destruct (same_heap_deref _ _ _ _ H2 Hq') as (g & Hg & Hf'). assert (g = f'') as -> by congruence.
  apply same_file_map in Hf'. destruct (I1 _ _ _ Hq Hq') as [A|A], (I2 _ _ _ Hq' Hq'') as [B|B]; auto; [left|right]; congruence.
Qed.

Lemma flushed_refl e : files_small e -> flushed e e.
Proof using. intros. constructor; auto using same_heap_refl. intros. left. congruence. Qed.

Lemma flushed_store e p f :
  files_small e -> deref e p = Some f -> flushed e (store e p (zf_set_startIndex f (Z.of_nat (length (zf_map f))))).
Proof using.
  intros Hs Hp. constructor; try done.
  - by eapply same_heap_store.
  - intros q g. destruct (decide (q = p)) as [->|Hq].
    + rewrite deref_store_eq. intros [= <-]. simpl. destruct (Hs p f Hp). lia.
    + rewrite deref_store_ne by done. apply Hs.
  - intros q g g' Hg. destruct (decide (q = p)) as [->|Hq].
    + rewrite deref_store_eq. intros [= <-]. by right.
    + rewrite deref_store_ne by done. left. congruence.
Qed.

Lemma flush_files_ok fs : forall e n dl acc,
  env_wf e -> files_small e -> (forall name q, (name, Some q) ∈ fs -> is_Some (deref e q)) ->
  exists st n' acc' e', flush_files pad_level pad_tail e fs n dl acc = Some (st, n', acc', e') /\
    flushed e e' /\ ev_m e' = ev_m e.
Proof using Hpads.
  induction fs as [|[name [p|]] fs IH]; intros e n dl acc Hw Hs Hfs; simpl.
  - eexists _, _, _, _. split; [done|]. split; [by apply flushed_refl|done].
  - destruct (Hfs name p) as [f Hp]; [by left|]. rewrite Hp. simpl.
    destruct (_ <=? _); [eexists _, _, _, _; split; [done|]; split; [by apply flushed_refl|done]|].
    destruct (Hs p f Hp) as [Hs1 Hs2].
    destruct (write_meta_ok f false (ew_names _ Hw _ _ Hp) Hs1 Hs2) as (b & -> & _). simpl.
    pose proof (flushed_store e p f Hs Hp) as Hfl. destruct Hfl as [F1 F2 F3 F4 F5] eqn:EF.
    destruct (IH (store e p (zf_set_startIndex f (Z.of_nat (length (zf_map f))))) (u32 (n + 1))
      (dl + Z.of_nat (length b)) (acc ++ b)) as (st & n' & acc' & e' & -> & H1 & H2).
    + by eapply env_wf_same.
    + done.
    + intros nm q Hq. destruct (Hfs nm q) as [g Hg]; [by right|].
      destruct (same_heap_deref _ _ _ _ F1 Hg) as (g' & -> & _). done.
    + eexists _, _, _, _. split; [done|]. split; [by eapply flushed_trans|done].
  - apply IH; auto. intros nm q Hq. apply (Hfs nm q). by right.
Qed.

Lemma FlushMetaData_ok e :
  env_wf e -> files_small e -> zm_ok (ev_m e) ->
  exists st e', FlushMetaData pad_head pad_level pad_tail pad_zone e = Ok (st, e') /\ flushed e e' /\ zm_ok (ev_m e').
Proof using Hpads.
  intros Hw Hs Hm. unfold FlushMetaData.
  set (e1 := ev_set_sequence e (u64 (ev_sequence e + 1))).
  assert (Hw1 : env_wf e1) by (destruct Hw; by constructor).
  destruct (flush_files_ok (ev_files e1) e1 0 (SIZE_ZONE_HEAD + SIZE_HEAD + 4) [] Hw1 Hs (ew_files _ Hw1))
    as (st & n & acc & e2 & -> & F & Hm2). cbn [lift mbind outcome_bind].
  assert (F' : flushed e e2) by (destruct F; by constructor).
  assert (Hok : zm_ok (ev_m e2)) by (by rewrite Hm2).
  assert (Hset : forall m, flushed e (ev_set_m e2 m)) by (intros m; destruct F'; by constructor).
  destruct st; try (eexists _, _; split; [reflexivity|]; by split).
  edestruct (zm_write_total (ev_m e2)) as (ret & m1 & -> & Hm1); [done|]. cbn [mbind outcome_bind].
  destruct (ret =? MD_WRITE_FULL).
  - edestruct (zm_write_total m1) as (ret2 & m3 & -> & Hm3); [done|]. cbn [mbind outcome_bind].
    eexists _, _. split; [reflexivity|]. split; [apply Hset|done].
  - eexists _, _. split; [reflexivity|]. split; [apply Hset|done].
Qed.

Lemma append_record_ok e rec :
  env_wf e -> files_small e -> zm_ok (ev_m e) ->
  exists st e', append_record pad_head pad_level pad_tail pad_zone e rec = Ok (st, e') /\ flushed e e' /\ zm_ok (ev_m e').
Proof using Hpads.
  intros Hw Hs Hm. unfold append_record.
  destruct (zm_write_total (ev_m e) rec Hm) as (ret & m1 & -> & Hm1). cbn [mbind outcome_bind].
  assert (F : flushed e (ev_set_m e m1)).
  { constructor; try done. intros q f f' Hq Hq'. left. change (deref e q = Some f') in Hq'. congruence. }
  destruct (ret =? MD_WRITE_FULL).
  - destruct (FlushMetaData_ok (ev_set_m e m1)) as (st & e' & -> & F' & Hm'); [destruct Hw; by constructor|done|done|].
    cbn [mbind outcome_bind]. eexists _, _. split; [reflexivity|]. split; [by eapply flushed_trans|done].
  - eexists _, _. by split.
Qed.

Lemma FlushUpdateMetaData_ok e p f :
  env_wf e -> files_small e -> zm_ok (ev_m e) -> deref e p = Some f ->
  Z.of_nat (length (zf_map f)) <= zf_startIndex f + 2 -> zf_startIndex f <= Z.of_nat (length (zf_map f)) ->
  exists st e' f', FlushUpdateMetaData pad_head pad_level pad_tail pad_zone true e p = Ok (st, e') /\
    flushed e e' /\ zm_ok (ev_m e') /\ deref e' p = Some f' /\ same_file f f' /\
    zf_startIndex f' = Z.of_nat (length (zf_map f)).
Proof using Hpads.
  intros Hw Hs Hm Hp Hnew Hle. unfold FlushUpdateMetaData. rewrite Hp. cbn [lift mbind outcome_bind negb].
  destruct (Hs p f Hp) as [Hs1 Hs2]. destruct (Z.eqb_spec (zf_startIndex f) (Z.of_nat (length (zf_map f)))) as [Heq|Hne].
  { exists S_OK, e, f. split_and!; auto using flushed_refl. done. }
  destruct (write_meta_ok f true (ew_names _ Hw _ _ Hp) Hs1 Hs2) as (b & -> & Hb). cbn [lift mbind outcome_bind].
  rewrite length_drop in Hb.
  destruct (file_record pad_head OP_Update b) as [rec|] eqn:Hrec.
  2:{ exfalso. destruct Hpads as (P0 & _). unfold file_record, seal_record, blit, SIZE_HEAD, block in Hrec.
      cbn [lift mbind outcome_bind option_bind] in Hrec. rewrite length_replicate in Hrec.
      change (Z.of_nat (Z.to_nat ZNS_ALIGMENT)) with 4096 in Hrec.
      replace (4096 <? 12 + Z.of_nat (length b)) with false in Hrec by lia. cbn [mbind option_bind] in Hrec.
      revert Hrec. match goal with |- (if ?c then _ else _) = _ -> _ => assert (c = false) as -> end; [|done].
      apply Z.ltb_ge. unfold metadata_head. rewrite !length_app, !length_le_bytes, length_take, length_drop, length_replicate, P0.
      lia. }
  cbn [lift mbind outcome_bind].
  pose proof (flushed_store e p f Hs Hp) as F.
  set (e1 := store e p (zf_set_startIndex f (Z.of_nat (length (zf_map f))))) in *.
  assert (Hw1 : env_wf e1) by (eapply env_wf_same; [exact Hw|apply F|apply F]).
  destruct (append_record_ok e1 rec Hw1 (fl_small _ _ F) Hm) as (st & e2 & -> & F2 & Hm2).
  assert (Hp1 : deref e1 p = Some (zf_set_startIndex f (Z.of_nat (length (zf_map f))))) by apply deref_store_eq.
  destruct (same_heap_deref _ _ _ _ (fl_heap _ _ F2) Hp1) as (f' & Hf' & Hsame).
  exists st, e2, f'. split_and!; auto.
  - by eapply flushed_trans.
  - apply same_file_map in Hsame as Hmap. simpl in Hmap.
    destruct (fl_index _ _ F2 p _ _ Hp1 Hf') as [Hi|Hi]; rewrite Hi; [done|by rewrite <- Hmap].
Qed.

(** * Files as byte strings *)

Definition flushed_bytes (w : W) (f : ZNSFile) : bytes := mjoin (entry_bytes (zd_byte w) <$> zf_map f).

(** The bytes of the file: the flushed ones, then the cached ones. *)
Record file_data e p (f : ZNSFile) (content : bytes) : Prop := {
  fd_file : deref e p = Some f;
  fd_content : flushed_bytes (ev_w e) f ++ default [] (zf_cache f) = content;
  fd_live : Forall (zd_live (ev_w e)) (zf_map f);
  fd_index : zf_startIndex f = Z.of_nat (length (zf_map f));
  fd_bytes : Forall (fun x => 0 <= x < 256) content;
  fd_cache : cache_len f <= ZNS_MAX_BUF
}.

Record env_ok e : Prop := {
  eo_wf : env_wf e;
  eo_small : files_small e;
  eo_m : zm_ok (ev_m e);
  eo_w : zd_ok (ev_w e)
}.

(** What was written stays: the library's states [w] and [w']. *)
Definition data_kept (w w' : W) : Prop :=
  forall m, zd_live w m -> zd_live w' m /\ whole_bytes (zd_byte w') m = whole_bytes (zd_byte w) m.

Lemma kept_entry w w' m :
  data_kept w w' -> zd_live w m -> zd_live w' m /\ entry_bytes (zd_byte w') m = entry_bytes (zd_byte w) m.
Proof using.
  intros Hk Hm. destruct (Hk m Hm) as [H1 H2]. pose proof (zd_live_size w m Hm). split; [done|].
  by rewrite !entry_whole, H2 by lia.
Qed.

Lemma kept_bytes w w' ms :
  data_kept w w' -> Forall (zd_live w) ms ->
  Forall (zd_live w') ms /\ mjoin (entry_bytes (zd_byte w') <$> ms) = mjoin (entry_bytes (zd_byte w) <$> ms).
Proof using.
  intros Hk. induction 1 as [|m ms Hm Hms [IH1 IH2]]; [done|]. destruct (kept_entry _ _ _ Hk Hm) as [H1 H2].
  split; [by constructor|]. cbn [fmap list_fmap]. by rewrite !join_cons, H2, IH2.
Qed.

(** A file of which only the start index changed, over kept data. *)
Lemma file_data_kept e e' q f f' content :
  file_data e q f content -> data_kept (ev_w e) (ev_w e') -> deref e' q = Some f' -> same_file f f' ->
  zf_startIndex f' = zf_startIndex f \/ zf_startIndex f' = Z.of_nat (length (zf_map f')) ->
  file_data e' q f' content.
Proof using.
  intros [H1 H2 H3 H4 H5 H6] Hk Hq Hs Hi. destruct (kept_bytes _ _ _ Hk H3) as [L1 L2].
  assert (Hm : zf_map f' = zf_map f) by (symmetry; by apply same_file_map).
  assert (Hc : zf_cache f' = zf_cache f) by (by injection Hs).
  constructor; auto.
  - unfold flushed_bytes in *. by rewrite Hm, Hc, L2.
  - by rewrite Hm.
  - rewrite Hm in *. destruct Hi; congruence.
  - unfold cache_len in *. by rewrite Hc.
Qed.

(** ** [Sync] *)

(** A step on the file [p] leaves the other files alone. *)
Definition others_kept e e' p : Prop :=
  forall q g d, q <> p -> file_data e q g d -> exists g', file_data e' q g' d /\ same_file g g'.

Lemma sync_pieces_ok fname maps : forall e p f,
  deref e p = Some f ->
  exists e' nid, sync_pieces e p fname maps = Some e' /\
    deref e' p = Some (zf_set_current_nid (zf_set_map f (zf_map f ++ maps)) nid) /\
    (forall q, q <> p -> deref e' q = deref e q) /\
    ev_w e' = ev_w e /\ ev_m e' = ev_m e /\ ev_files e' = ev_files e.
Proof using.
  induction maps as [|m maps IH]; intros e p f Hp; simpl.
  - exists e, (zf_current_nid f). split_and!; auto. rewrite Hp, app_nil_r. by destruct f.
  - rewrite Hp. simpl. set (f1 := zf_set_map f (zf_map f ++ [m])).
    destruct (negb (zf_current_nid f =? zmap_node_id m)).
    + set (e1 := ev_set_nids _ _).
      destruct (IH e1 p (zf_set_current_nid f1 (zmap_node_id m))) as (e' & nid & -> & H1 & H2 & H3 & H4 & H5).
      { apply deref_store_eq. }
      exists e', nid. split_and!; auto.
      * rewrite H1. subst f1. unfold zf_set_current_nid, zf_set_map. simpl. by rewrite <- app_assoc.
      * intros q Hq. rewrite H2 by done. by apply (deref_store_ne e p q).
    + destruct (IH (store e p f1) p f1) as (e' & nid & -> & H1 & H2 & H3 & H4 & H5); [apply deref_store_eq|].
      exists e', nid. split_and!; auto.
      * rewrite H1. subst f1. unfold zf_set_current_nid, zf_set_map. simpl. by rewrite <- app_assoc.
      * intros q Hq. rewrite H2 by done. by apply deref_store_ne.
Qed.

Abbreviation Sync := (ZNSWritableFile_Sync pad_head pad_level pad_tail pad_zone).

Lemma env_ok_sync e e' p f f' :
  env_ok e -> deref e p = Some f -> deref e' p = Some f' -> (forall q, q <> p -> deref e' q = deref e q) ->
  ev_files e' = ev_files e -> ev_m e' = ev_m e -> zd_ok (ev_w e') -> zf_name f' = zf_name f ->
  0 <= zf_startIndex f' -> Z.of_nat (length (zf_map f')) < 2 ^ 32 -> env_ok e'.
Proof using.
  intros [[W1 W2] Hs Hm Hw] Hp Hp' Hne Hf Hm' Hw' Hn Hi Hl. constructor; try done; [constructor| |congruence].
  - intros name q Hin. rewrite Hf in Hin. destruct (decide (q = p)) as [->|Hq]; [by rewrite Hp'|].
    rewrite Hne by done. by eapply W1.
  - intros q g. destruct (decide (q = p)) as [->|Hq].
    + rewrite Hp'. intros [= <-]. rewrite Hn. by eapply W2.
    + rewrite Hne by done. apply W2.
  - intros q g. destruct (decide (q = p)) as [->|Hq].
    + rewrite Hp'. by intros [= <-].
    + rewrite Hne by done. apply Hs.
Qed.

Lemma Sync_ok e wf f content c k :
  env_ok e -> file_data e (wf_znsfile wf) f content -> zf_cache f = Some c -> zd_room (ev_w e) (S k) ->
  Z.of_nat (length (zf_map f)) + 2 < 2 ^ 32 ->
  exists N e' f',
    (forall fuel, (N <= fuel)%nat -> Sync fuel true e wf = Ok (S_OK, e')) /\
    env_ok e' /\ file_data e' (wf_znsfile wf) f' content /\ zf_cache f' = Some [] /\
    zf_size f' = zf_size f /\ (length (zf_map f') <= length (zf_map f) + 2)%nat /\
    zd_room (ev_w e') k /\ others_kept e e' (wf_znsfile wf).
Proof using Hpads.
  set (p := wf_znsfile wf). intros He Hfd Hc Hroom Hlen. pose proof Hfd as [Hp Hcon Hlive Hidx Hby Hcl].
  destruct c as [|b0 c0].
  { exists 0%nat, e, f. split_and!; auto; [|lia|by apply zd_room_le|].
    - intros fuel _. unfold ZNSWritableFile_Sync. fold p. rewrite Hp. cbn [lift mbind outcome_bind]. by rewrite Hc.
    - intros q g d Hq Hg. by exists g. }
  set (c := b0 :: c0) in *. rewrite Hc in Hcon. simpl in Hcon.
  assert (Hcb : Forall (fun x => 0 <= x < 256) c) by (rewrite <- Hcon in Hby; by apply Forall_app in Hby as [_ ?]).
  unfold cache_len in Hcl. rewrite Hc in Hcl.
  destruct (zd_write_ok (ev_w e) c (zf_level f) false k (eo_w _ He) Hroom)
    as (N & w1 & maps & Hrun & Hok1 & Hroom1 & Hl2 & Hjoin & Hlive1 & Hkept); [subst c; simpl in *; lia|].
  set (e1 := ev_set_w e w1).
  destruct (sync_pieces_ok (wf_filename wf) maps e1 p f Hp) as (e2 & nid & Hsp & Hp2 & Hne2 & Hw2 & Hm2 & Hf2).
  set (f2 := zf_set_current_nid (zf_set_map f (zf_map f ++ maps)) nid) in *.
  assert (Hlm : Z.of_nat (length (zf_map f2)) < 2 ^ 32) by (simpl; rewrite length_app; lia).
  assert (He2 : env_ok e2).
  { apply (env_ok_sync e e2 p f f2); try done; [by rewrite Hw2|]. by destruct (eo_small _ He p f Hp). }
  destruct (FlushUpdateMetaData_ok e2 p f2 (eo_wf _ He2) (eo_small _ He2) (eo_m _ He2) Hp2)
    as (st & e3 & f3 & Hfl & F & Hm3 & Hp3 & Hs3 & Hi3).
  { simpl. rewrite length_app. lia. } { simpl. rewrite length_app. lia. }
  set (f4 := zf_set_cache f3 (Some [])). set (e4 := store e3 p f4).
  assert (Hmap3 : zf_map f3 = zf_map f ++ maps) by (apply same_file_map in Hs3; by rewrite <- Hs3).
  assert (Hk : data_kept (ev_w e) (ev_w e4)).
  { change (ev_w e4) with (ev_w e3). rewrite (fl_w _ _ F), Hw2. exact Hkept. }
  assert (He4 : env_ok e4).
  { eapply (env_ok_sync e3 e4 p f3 f4); try done.
    - constructor; [eapply env_wf_same; [apply He2|apply F..]|apply F|done|].
      rewrite (fl_w _ _ F). apply He2.
    - apply deref_store_eq.
    - intros q Hq. by apply deref_store_ne.
    - change (ev_w e4) with (ev_w e3). rewrite (fl_w _ _ F). apply He2.
    - simpl. rewrite Hi3. lia.
    - simpl. by rewrite Hmap3. }
  exists N, e4, f4. split_and!; auto.
  - intros fuel Hf. unfold ZNSWritableFile_Sync. fold p. rewrite Hp. cbn [lift mbind outcome_bind]. rewrite Hc.
    subst c. cbn [lift mbind outcome_bind]. rewrite Hrun by done. cbn [lift mbind outcome_bind ctrue negb Z.eqb].
    fold e1. rewrite Hsp. cbn [lift mbind outcome_bind]. rewrite Hfl. cbn [lift mbind outcome_bind].
    rewrite Hp3. done.
  - destruct (kept_bytes _ _ _ Hk Hlive) as [L1 L2].
    constructor; auto; [apply deref_store_eq|..].
    + unfold flushed_bytes. simpl zf_map. rewrite Hmap3, fmap_app, join_app, L2. simpl. rewrite app_nil_r.
      rewrite <- Hcon. unfold flushed_bytes. f_equal. change (ev_w e4) with (ev_w e3).
      by rewrite (fl_w _ _ F), Hw2.
    + simpl. rewrite Hmap3. apply Forall_app. split; [done|]. change (ev_w e4) with (ev_w e3).
      by rewrite (fl_w _ _ F), Hw2.
    + simpl. rewrite Hi3. by rewrite Hmap3.
    + by unfold cache_len.
  - simpl. by injection Hs3.
  - simpl. rewrite Hmap3, length_app. lia.
  - change (ev_w e4) with (ev_w e3). by rewrite (fl_w _ _ F), Hw2.
  - intros q g d Hq Hg. assert (Hgq : deref e2 q = Some g) by (rewrite (Hne2 q Hq); exact (fd_file _ _ _ _ Hg)).
    destruct (same_heap_deref _ _ _ _ (fl_heap _ _ F) Hgq) as (g' & Hg' & Hsame).
    exists g'. split; [|done]. eapply file_data_kept; eauto.
    + unfold e4. by rewrite deref_store_ne.
    + by eapply (fl_index _ _ F).
Qed.

(** ** [Append] *)

Lemma others_kept_trans e1 e2 e3 p : others_kept e1 e2 p -> others_kept e2 e3 p -> others_kept e1 e3 p.
Proof using.
  intros H1 H2 q g d Hq Hg. destruct (H1 q g d Hq Hg) as (g' & Hg' & S1).
  destruct (H2 q g' d Hq Hg') as (g'' & Hg'' & S2). exists g''. split; [done|]. unfold same_file in *. congruence.
Qed.

(** A change of the file [p] alone. *)
Lemma others_kept_store e p f : others_kept e (store e p f) p.
Proof using.
  intros q g d Hq [H1 H2 H3 H4 H5 H6]. exists g. split; [|done]. constructor; try done. by rewrite deref_store_ne.
Qed.

Lemma room_le w k : forall j, zd_room w (k + j) -> zd_room w j.
Proof using. induction k as [|k IH]; intros j Hr; [done|]. apply IH. by apply zd_room_le. Qed.

Lemma cache_append_ok e p f content c d :
  env_ok e -> file_data e p f content -> zf_cache f = Some c -> byte_list d ->
  Z.of_nat (length c + length d) <= ZNS_MAX_BUF ->
  let f' := zf_set_cache f (Some (c ++ d)) in
  cache_append e p d = Some (store e p f') /\ env_ok (store e p f') /\
  file_data (store e p f') p f' (content ++ d) /\ others_kept e (store e p f') p.
Proof using.
  intros He [H1 H2 H3 H4 H5 H6] Hc Hd Hl f'. split_and!.
  - unfold cache_append. rewrite H1. cbn [mbind option_bind]. rewrite Hc. cbn [mbind option_bind].
    apply Z.ltb_ge in Hl. by rewrite Hl.
  - apply (env_ok_sync e _ p f f'); try done; [apply deref_store_eq|intros; by apply deref_store_ne|apply He|..];
      destruct (eo_small _ He p f H1); done.
  - constructor; auto; [apply deref_store_eq|..].
    + rewrite <- H2, Hc. simpl. by rewrite app_assoc.
    + by apply Forall_app.
    + unfold cache_len. simpl. rewrite length_app. lia.
  - apply others_kept_store.
Qed.

Abbreviation AppendFull := (append_full pad_head pad_level pad_tail pad_zone).
Abbreviation AppendFlush := (append_flush pad_head pad_level pad_tail pad_zone).
Abbreviation Append := (ZNSWritableFile_Append pad_head pad_level pad_tail pad_zone).

(** From [e] on, the bytes [dn] were appended to the file and everything is
    flushed; [j] more flushes and [B] more map entries fit. *)
Record flushed_to e p (f : ZNSFile) (content : bytes) (j : nat) (B : Z) (dn : bytes) e' (f' : ZNSFile) : Prop := {
  ft_env : env_ok e';
  ft_data : file_data e' p f' (content ++ dn);
  ft_cache : zf_cache f' = Some [];
  ft_size : zf_size f' = zf_size f;
  ft_map : Z.of_nat (length (zf_map f')) + B < 2 ^ 32;
  ft_room : zd_room (ev_w e') j;
  ft_others : others_kept e e' p
}.

Lemma flushed_to_refl e p f content k j B :
  env_ok e -> file_data e p f content -> zf_cache f = Some [] -> zd_room (ev_w e) (k + j) ->
  Z.of_nat (length (zf_map f)) + B < 2 ^ 32 -> flushed_to e p f content j B [] e f.
Proof using.
  intros. constructor; auto; [by rewrite app_nil_r|by eapply room_le|]. intros q g d Hq Hg. by exists g.
Qed.

Lemma flushed_to_trans e1 e2 e3 p f1 f2 f3 content j1 j2 B1 B2 d1 d2 :
  flushed_to e1 p f1 content j1 B1 d1 e2 f2 -> flushed_to e2 p f2 (content ++ d1) j2 B2 d2 e3 f3 ->
  flushed_to e1 p f1 content j2 B2 (d1 ++ d2) e3 f3.
Proof using.
  intros [] []. constructor; auto; [by rewrite app_assoc|congruence|by eapply others_kept_trans].
Qed.

(** One whole buffer: fill the cache with [d] and flush it. *)
Lemma fill_sync_ok e wf f content c d k B :
  env_ok e -> file_data e (wf_znsfile wf) f content -> zf_cache f = Some c -> byte_list d ->
  Z.of_nat (length c + length d) <= ZNS_MAX_BUF -> zd_room (ev_w e) (S k) ->
  Z.of_nat (length (zf_map f)) + 2 + B < 2 ^ 32 -> 0 <= B ->
  exists N e1 e2 f2, cache_append e (wf_znsfile wf) d = Some e1 /\
    (forall fuel, (N <= fuel)%nat -> Sync fuel true e1 wf = Ok (S_OK, e2)) /\
    flushed_to e (wf_znsfile wf) f content k B d e2 f2.
Proof using Hpads.
  intros He Hfd Hc Hd Hl Hr HB HB0.
  destruct (cache_append_ok e _ f content c d He Hfd Hc Hd Hl) as (Ha & He1 & Hf1 & Ho1).
  destruct (Sync_ok _ wf _ _ (c ++ d) k He1 Hf1 eq_refl Hr) as (N & e2 & f2 & Hrun & He2 & Hf2 & Hc2 & Hs2 & Hl2 & Hr2 & Ho2).
  { simpl. lia. }
  eexists N, _, e2, f2. split_and!; eauto. constructor; auto; [simpl in *; lia|by eapply others_kept_trans].
Qed.

(** Flushes a write of [n] bytes into a cache of [c] bytes takes. *)
Definition flushes (n : Z) : Z := n / ZNS_MAX_BUF.

Lemma flushes_step n : ZNS_MAX_BUF <= n -> flushes n = flushes (n - ZNS_MAX_BUF) + 1 /\ 0 <= flushes (n - ZNS_MAX_BUF).
Proof using. clear. unfold flushes, ZNS_MAX_BUF, ZNS_MAX_M_BUF, ZNA_1M_BUF, ZNS_ALIGMENT. intros. split; zdiv. Qed.

Lemma append_full_ok wf B : 0 <= B -> forall n e f content data j,
  (length data <= n)%nat -> env_ok e -> file_data e (wf_znsfile wf) f content -> zf_cache f = Some [] ->
  byte_list data -> zd_room (ev_w e) (Z.to_nat (flushes (Z.of_nat (length data))) + j) ->
  Z.of_nat (length (zf_map f)) + 2 * flushes (Z.of_nat (length data)) + B < 2 ^ 32 ->
  exists N e' f' dn rest, data = dn ++ rest /\ Z.of_nat (length rest) <= ZNS_MAX_BUF /\
    (forall fuel, (N <= fuel)%nat -> AppendFull n fuel true e wf data = Ok (S_OK, rest, e')) /\
    flushed_to e (wf_znsfile wf) f content j B dn e' f'.
Proof using Hpads.
  intros HB. induction n as [|n IH]; intros e f content data j Hn He Hfd Hc Hd Hr Hb.
  all: destruct (Z.ltb_spec ZNS_MAX_BUF (Z.of_nat (length data))) as [Hbig|Hsmall].
  1: unfold ZNS_MAX_BUF, ZNS_MAX_M_BUF, ZNA_1M_BUF, ZNS_ALIGMENT in Hbig; lia.
  1, 3: exists 0%nat, e, f, [], data; split_and!; auto;
    [intros fuel _; cbn [append_full]; by ltb_is false|eapply flushed_to_refl; eauto];
    assert (0 <= flushes (Z.of_nat (length data))) by (unfold flushes, ZNS_MAX_BUF, ZNS_MAX_M_BUF, ZNA_1M_BUF, ZNS_ALIGMENT; zdiv); lia.
  destruct (flushes_step (Z.of_nat (length data))) as [Hdiv Hpos]; [lia|].
  set (buf := take (Z.to_nat ZNS_MAX_BUF) data). set (data' := drop (Z.to_nat ZNS_MAX_BUF) data).
  assert (Hlb : Z.of_nat (length buf) = ZNS_MAX_BUF) by (subst buf; rewrite length_take; unfold ZNS_MAX_BUF, ZNS_MAX_M_BUF, ZNA_1M_BUF, ZNS_ALIGMENT in *; lia).
  assert (Hld : Z.of_nat (length data') = Z.of_nat (length data) - ZNS_MAX_BUF)
    by (subst data'; rewrite length_drop; unfold ZNS_MAX_BUF, ZNS_MAX_M_BUF, ZNA_1M_BUF, ZNS_ALIGMENT in *; lia).
  assert (Hd' : byte_list (buf ++ data')) by (subst buf data'; by rewrite take_drop).
  apply Forall_app in Hd' as [Hdb Hdd].
  rewrite Hdiv in Hr, Hb. rewrite Z2Nat.inj_add, Nat.add_1_r in Hr by lia. rewrite <- Hld in *.
  destruct (fill_sync_ok e wf f content [] buf (Z.to_nat (flushes (Z.of_nat (length data'))) + j)
    (2 * flushes (Z.of_nat (length data')) + B) He Hfd Hc) as (N1 & e1 & e2 & f2 & Ha & Hs & F1);
    [done|simpl; lia|done|lia|lia|].
  destruct (IH e2 f2 (content ++ buf) data' j) as (N2 & e3 & f3 & dn & rest & Hsp & Hrest & Hrun & F2);
    [unfold ZNS_MAX_BUF, ZNS_MAX_M_BUF, ZNA_1M_BUF, ZNS_ALIGMENT in *; lia|apply F1..|done|apply F1|destruct F1; lia|].
  exists (max N1 N2), e3, f3, (buf ++ dn), rest. split_and!; auto.
  - rewrite <- (take_drop (Z.to_nat ZNS_MAX_BUF) data). fold buf data'. by rewrite Hsp, app_assoc.
  - intros fuel Hf. cbn [append_full]. ltb_is true. fold buf data'.
    rewrite Ha. cbn [lift mbind outcome_bind]. rewrite Hs by lia. cbn [mbind outcome_bind].
    rewrite decide_True by done. apply Hrun. lia.
  - by eapply flushed_to_trans.
Qed.

(** The flushes of [Append], and what is left for the cache. *)
Lemma append_flush_ok e wf f content c data j B :
  0 <= B -> env_ok e -> file_data e (wf_znsfile wf) f content -> zf_cache f = Some c -> byte_list data ->
  let k := flushes (Z.of_nat (length c + length data)) in
  zd_room (ev_w e) (Z.to_nat k + j) -> Z.of_nat (length (zf_map f)) + 2 * k + B < 2 ^ 32 ->
  exists N e' f' dn rest c', data = dn ++ rest /\ zf_cache f' = Some c' /\
    Z.of_nat (length c' + length rest) <= ZNS_MAX_BUF /\
    (forall fuel, (N <= fuel)%nat -> AppendFlush fuel true e wf (length c) data = Ok (S_OK, rest, e')) /\
    env_ok e' /\ file_data e' (wf_znsfile wf) f' (content ++ dn) /\ zf_size f' = zf_size f /\
    zd_room (ev_w e') j /\ others_kept e e' (wf_znsfile wf).
Proof using Hpads.
  intros HB He Hfd Hc Hd k Hr Hb. pose proof (fd_cache _ _ _ _ Hfd) as Hcl. unfold cache_len in Hcl. rewrite Hc in Hcl.
  destruct (Z.ltb_spec ZNS_MAX_BUF (Z.of_nat (length c) + Z.of_nat (length data))) as [Hbig|Hsmall].
  2:{ exists 0%nat, e, f, [], data, c. split_and!; auto; [lia| |by rewrite app_nil_r|by eapply room_le|].
      - intros fuel _. unfold append_flush. by ltb_is false.
      - intros q g d Hq Hg. by exists g. }
  destruct (flushes_step (Z.of_nat (length c + length data))) as [Hdiv Hpos]; [lia|]. subst k.
  set (size := Z.to_nat (ZNS_MAX_BUF - Z.of_nat (length c))).
  set (buf := take size data). set (data' := drop size data).
  assert (Hlb : Z.of_nat (length c + length buf) = ZNS_MAX_BUF) by (subst buf size; rewrite length_take; lia).
  assert (Hld : Z.of_nat (length data') = Z.of_nat (length c + length data) - ZNS_MAX_BUF)
    by (subst data' size; rewrite length_drop; lia).
  assert (Hd' : byte_list (buf ++ data')) by (subst buf data'; by rewrite take_drop).
  apply Forall_app in Hd' as [Hdb Hdd].
  rewrite Hdiv in Hr, Hb. rewrite Z2Nat.inj_add, Nat.add_1_r in Hr by lia. rewrite <- Hld in *.
  destruct (fill_sync_ok e wf f content c buf (Z.to_nat (flushes (Z.of_nat (length data'))) + j)
    (2 * flushes (Z.of_nat (length data')) + B) He Hfd Hc) as (N1 & e1 & e2 & f2 & Ha & Hs & F1);
    [done|lia|done|lia|lia|].
  destruct (append_full_ok wf B HB (length data) e2 f2 (content ++ buf) data' j)
    as (N2 & e3 & f3 & dn & rest & Hsp & Hrest & Hrun & F2);
    [lia|apply F1..|done|apply F1|destruct F1; lia|].
  pose proof (flushed_to_trans _ _ _ _ _ _ _ _ _ _ _ _ _ _ F1 F2) as [].
  exists (max N1 N2), e3, f3, (buf ++ dn), rest, []. split_and!; auto.
  - rewrite <- (take_drop size data). fold buf data'. by rewrite Hsp, app_assoc.
  - intros fuel Hf. unfold append_flush. ltb_is true. fold size buf data'.
    rewrite Ha. cbn [lift mbind outcome_bind]. rewrite Hs by lia. cbn [mbind outcome_bind].
    rewrite decide_True by done. apply Hrun. lia.
Qed.

(** The file [p] is open for writing and holds [content]. *)
Definition file_rep e p (content : bytes) : Prop :=
  exists f, file_data e p f content /\ zf_size f = Z.of_nat (length content) /\ zf_cache f <> None /\
    Z.of_nat (length content) < 2 ^ 31.

(** A piece holds a byte at least. *)
Lemma map_le_bytes w ms :
  Forall (zd_live w) ms -> (length ms <= length (mjoin (entry_bytes (zd_byte w) <$> ms)))%nat.
Proof using.
  induction 1 as [|m ms Hm Hms IH]; [done|]. cbn [fmap list_fmap]. rewrite join_cons, length_app, length_entry_bytes.
  pose proof (zd_live_size w m Hm). cbn [length]. lia.
Qed.

Lemma file_data_bounds e p f content :
  file_data e p f content ->
  (length (zf_map f) <= length content)%nat /\ cache_len f <= Z.of_nat (length content).
Proof using.
  intros [_ <- Hl _ _ _]. rewrite length_app. unfold flushed_bytes, cache_len.
  pose proof (map_le_bytes _ _ Hl). destruct (zf_cache f); simpl; lia.
Qed.

Lemma flushes_le a b : 0 <= a <= b -> 0 <= flushes a <= flushes b.
Proof using. clear. intros. unfold flushes, ZNS_MAX_BUF, ZNS_MAX_M_BUF, ZNA_1M_BUF, ZNS_ALIGMENT. zdiv. Qed.

Lemma flushes_small a : 0 <= a < 2 ^ 31 -> flushes a < 64.
Proof using. clear. intros. unfold flushes, ZNS_MAX_BUF, ZNS_MAX_M_BUF, ZNA_1M_BUF, ZNS_ALIGMENT. zdiv. Qed.

Lemma Append_ok e wf content data j :
  env_ok e -> file_rep e (wf_znsfile wf) content -> byte_list data ->
  Z.of_nat (length content + length data) < 2 ^ 31 ->
  zd_room (ev_w e) (Z.to_nat (flushes (Z.of_nat (length content + length data))) + j) ->
  exists N wf' e',
    (forall fuel, (N <= fuel)%nat -> Append fuel true e wf data = Ok (S_OK, wf', e')) /\
    wf_znsfile wf' = wf_znsfile wf /\ env_ok e' /\ file_rep e' (wf_znsfile wf) (content ++ data) /\
    zd_room (ev_w e') j /\ others_kept e e' (wf_znsfile wf).
Proof using Hpads.
  intros He (f & Hfd & Hsz & Hcn & Hlen) Hd Hlim Hr. destruct (zf_cache f) as [c|] eqn:Hc; [|done].
  destruct (file_data_bounds _ _ _ _ Hfd) as [Hml Hcl]. unfold cache_len in Hcl. rewrite Hc in Hcl.
  set (k := flushes (Z.of_nat (length c + length data))).
  assert (Hk : 0 <= k <= flushes (Z.of_nat (length content + length data))) by (apply flushes_le; lia).
  assert (Hk64 : k < 64) by (apply flushes_small; lia).
  destruct (append_flush_ok e wf f content c data j 0 ltac:(lia) He Hfd Hc Hd)
    as (N & e1 & f1 & dn & rest & c1 & Hsp & Hc1 & Hfit & Hrun & He1 & Hf1 & Hs1 & Hr1 & Ho1); fold k.
  { apply (room_le _ (Z.to_nat (flushes (Z.of_nat (length content + length data)) - k))).
    by replace (_ + (_ + j))%nat with (Z.to_nat (flushes (Z.of_nat (length content + length data))) + j)%nat by lia. }
  { lia. }
  assert (Hrest : byte_list rest) by (rewrite Hsp in Hd; by apply Forall_app in Hd as [_ ?]).
  destruct (cache_append_ok e1 _ f1 _ c1 rest He1 Hf1 Hc1 Hrest Hfit) as (Ha & He2 & Hf2 & Ho2).
  set (f2 := zf_set_cache f1 (Some (c1 ++ rest))) in *. set (e2 := store e1 (wf_znsfile wf) f2) in *.
  set (f3 := zf_set_size f2 (u64 (zf_size f2 + Z.of_nat (length data)))).
  assert (Hp2 : deref e2 (wf_znsfile wf) = Some f2) by apply deref_store_eq.
  exists N, {| wf_filename := wf_filename wf; wf_filesize := u64 (wf_filesize wf + Z.of_nat (length data));
               wf_znsfile := wf_znsfile wf |}, (store e2 (wf_znsfile wf) f3).
  assert (Hcat : (content ++ dn) ++ rest = content ++ data) by (by rewrite Hsp, app_assoc).
  split_and!; auto.
  - intros fuel Hf. unfold ZNSWritableFile_Append. rewrite (fd_file _ _ _ _ Hfd). cbn [lift mbind outcome_bind].
    rewrite Hc, Hrun by done. cbn [mbind outcome_bind]. rewrite decide_True by done.
    rewrite Ha. cbn [lift mbind outcome_bind]. rewrite Hp2. done.
  - destruct (eo_small _ He2 _ _ Hp2). apply (env_ok_sync e2 _ (wf_znsfile wf) f2 f3); try done;
      [apply deref_store_eq|intros; by apply deref_store_ne|apply He2].
  - exists f3. rewrite <- Hcat. split_and!; try done.
    + destruct Hf2 as [G1 G2 G3 G4 G5 G6]. constructor; auto. apply deref_store_eq.
    + simpl. rewrite Hs1, Hsz, Hcat, length_app, wrap_small by lia. lia.
    + rewrite Hcat, length_app. lia.
  - eapply others_kept_trans; [exact Ho1|]. eapply others_kept_trans; [exact Ho2|]. apply others_kept_store.
Qed.

(** ** Reading *)

Lemma find_piece_ok w ms : forall off offset,
  Forall (zd_live w) ms -> 0 <= off -> off <= offset ->
  off + Z.of_nat (length (mjoin (entry_bytes (zd_byte w) <$> ms))) < 2 ^ 64 ->
  offset < off + Z.of_nat (length (mjoin (entry_bytes (zd_byte w) <$> ms))) ->
  exists m rest po, find_piece ms off offset = Some (m :: rest, po) /\ 0 <= po < piece_size m /\
    Forall (zd_live w) (m :: rest) /\
    drop (Z.to_nat (offset - off)) (mjoin (entry_bytes (zd_byte w) <$> ms)) =
    drop (Z.to_nat po) (mjoin (entry_bytes (zd_byte w) <$> m :: rest)).
Proof using.
  induction ms as [|m ms IH]; intros off offset Hl H0 Ho Hlim Hin; [cbn in Hin; lia|].
  pose proof Hl as Hl'. apply Forall_cons in Hl' as [Hm Hms]. pose proof (zd_live_size w m Hm) as Hsz.
  cbn [fmap list_fmap] in *. rewrite join_cons, length_app, length_entry_bytes in *.
  cbn [find_piece]. rewrite (wrap_small 64 (off + piece_size m)) by lia.
  destruct (Z.ltb_spec offset (off + piece_size m)) as [Hhere|Hthere].
  - exists m, ms, (offset - off). rewrite (wrap_small 64 (off + piece_size m - offset)), wrap_small by lia.
    split_and!; auto; try lia. f_equal. f_equal. lia.
  - destruct (IH (off + piece_size m) offset Hms) as (m' & rest & po & Hf & Hpo & Hlr & Hd); try lia.
    exists m', rest, po. split_and!; auto; try lia. rewrite <- Hd, drop_app_ge by (rewrite length_entry_bytes; lia).
    f_equal. rewrite length_entry_bytes. lia.
Qed.

(** Reading [left] bytes at [po] of the first piece: from the pieces as far as they
    go, then out of range. *)
Lemma read_pieces_ok ms : forall w po left scratch,
  zd_ok w -> Forall (zd_live w) ms -> 0 <= po -> 0 <= left < 2 ^ 64 ->
  match ms with m :: _ => po < piece_size m | [] => po = 0 end ->
  let bs := drop (Z.to_nat po) (mjoin (entry_bytes (zd_byte w) <$> ms)) in
  exists N w' b,
    (forall fuel, (N <= fuel)%nat -> read_pieces fuel w ms po left scratch =
       Ok (if decide (left <= Z.of_nat (length bs)) then S_OK else S_OutOfRange, b, w')) /\
    (left <= Z.of_nat (length bs) -> b = scratch ++ take (Z.to_nat left) bs) /\
    zd_ok w' /\ data_kept w w' /\ (forall k, zd_room w k -> zd_room w' k).
Proof using.
  induction ms as [|m ms IH]; intros w po left scratch Hw Hl Hpo Hleft Hfst bs.
  - subst po bs. change (drop (Z.to_nat 0) (mjoin (entry_bytes (zd_byte w) <$> []))) with (@nil Z).
    exists 0%nat, w, scratch. cbn [read_pieces length]. destruct (Z.eqb_spec left 0) as [->|Hne].
    + split_and!; [intros; by rewrite decide_True|by rewrite app_nil_r|done|by intros m|done].
    + split_and!; [intros; by rewrite decide_False by lia|lia|done|by intros m|done].
  - destruct (Z.eqb_spec left 0) as [->|Hne].
    { exists 0%nat, w, scratch. split_and!; [|by rewrite app_nil_r|done|by intros m'|done].
      intros fuel _. cbn [read_pieces Z.eqb]. by rewrite decide_True by lia. }
    apply Forall_cons in Hl as [Hm Hms]. pose proof (zd_live_size w m Hm) as Hsz.
    assert (HMB : ZNS_MAX_BUF = 33554432) by done.
    set (avail := piece_size m - po). set (size := if left <? avail then left else avail).
    assert (Hsize : 0 < size <= avail /\ size <= left) by (subst size; destruct (Z.ltb_spec left avail); lia).
    destruct (zd_read_ok w m po size false Hw Hm) as (N1 & w1 & Hrun1 & Hw1 & Hroom1 & Hk1); try lia.
    destruct (kept_bytes w w1 ms Hk1 Hms) as [Hms1 Hj1].
    destruct (IH w1 0 (left - size) (scratch ++ take (Z.to_nat size) (drop (Z.to_nat po) (entry_bytes (zd_byte w) m))))
      as (N2 & w2 & b & Hrun2 & Hb & Hw2 & Hk2 & Hroom2); auto; try lia.
    { destruct ms as [|m2 ms]; [done|]. apply Forall_cons in Hms1 as [Hm2 _]. pose proof (zd_live_size w1 m2 Hm2). lia. }
    rewrite drop_0, Hj1 in *. set (tl := mjoin (entry_bytes (zd_byte w) <$> ms)) in *.
    assert (Hbs : bs = drop (Z.to_nat po) (entry_bytes (zd_byte w) m) ++ tl).
    { subst bs. cbn [fmap list_fmap]. rewrite join_cons, drop_app_le by (rewrite length_entry_bytes; lia). done. }
    assert (Hla : length (drop (Z.to_nat po) (entry_bytes (zd_byte w) m)) = Z.to_nat avail)
      by (rewrite length_drop, length_entry_bytes; lia).
    assert (Hlb : Z.of_nat (length bs) = avail + Z.of_nat (length tl)) by (rewrite Hbs, length_app, Hla; lia).
    assert (Hiff : left <= Z.of_nat (length bs) <-> left - size <= Z.of_nat (length tl)).
    { subst size. destruct (Z.ltb_spec left avail); lia. }
    exists (max N1 N2), w2, b. split_and!; auto.
    + intros fuel Hf. cbn [read_pieces]. rewrite (proj2 (Z.eqb_neq left 0) Hne).
      rewrite (wrap_small 64 (piece_size m - po)) by lia. fold avail. fold size. cst.
      rewrite (wrap_small 64 (_ + po)) by (pose proof (bf_get_range 14 22 ltac:(lia) m); unfold zmap_start; lia).
      replace (zmap_start m * 4096 * 8 + po) with (32768 * zmap_start m + po) by lia.
      rewrite Hrun1, whole_slice by lia. cbn [mbind outcome_bind ctrue negb Z.eqb]. rewrite wrap_small by lia.
      rewrite Hrun2 by lia. do 3 f_equal. repeat case_decide; tauto.
    + intros Hle. rewrite Hb, Hbs by tauto. rewrite <- app_assoc. f_equal. subst size.
      destruct (Z.ltb_spec left avail) as [Hlt|Hge].
      * rewrite Z.sub_diag. simpl. rewrite app_nil_r, take_app_le by lia. done.
      * rewrite (take_app_ge _ _ (Z.to_nat left)) by lia. rewrite take_ge by lia. f_equal. f_equal. lia.
    + intros m' Hm'. destruct (Hk1 m' Hm') as [A1 A2]. destruct (Hk2 m' A1) as [B1 B2]. split; [done|congruence].
Qed.

End FileOk.
