(* ===== verification/EnvZrocks.v ===== *)
(** The data path of the environment on the ZRocks model: an instance of the
    interface [ZData] of EnvTypes.v, and the proof that it keeps the contract
    [ZDataLaws] of EnvLaws.v.

    The instance serves the files of one level: one writer context, the pool of
    read resources and the queue of the management thread.  The caller's buffers
    are two regions of the host memory, [wbuf] and [rbuf]. *)

From S2P Require Import Prelude Types Sim Stats ProGrp Media Zns Device Io IoPopulate IoFlight IoSubmit IoWrite IoRequest IoTheorems Read IoRead ReadTheorems IoCounters Mgmt Zrocks ZrocksTheorems EnvTypes EnvMeta EnvFile EnvLaws.

(** * Buffers in memory *)

Definition poke (m : memory) (a : Z) (b : bytes) : memory :=
  fun x => if (a <=? x) && (x <? a + Z.of_nat (length b)) then default 0 (b !! Z.to_nat (x - a)) else m x.

Definition peek (m : memory) (a : Z) (n : nat) : bytes := (fun i => m (a + Z.of_nat i)) <$> seq 0 n.

Lemma peek_app m a n1 n2 : peek m a (n1 + n2) = peek m a n1 ++ peek m (a + Z.of_nat n1) n2.
Proof.
  unfold peek. rewrite seq_app, fmap_app. f_equal. rewrite Nat.add_0_l.
  rewrite <- (Nat.add_0_r n1) at 1. rewrite <- fmap_add_seq, <- list_fmap_compose.
  apply list_fmap_ext. intros i x _. simpl. f_equal. lia.
Qed.

Lemma peek_poke m a b : peek (poke m a b) a (length b) = b.
Proof.
  apply list_eq. intros i. unfold peek. rewrite list_lookup_fmap.
  destruct (decide (i < length b)%nat) as [Hi|Hi].
  - rewrite lookup_seq_lt by done. simpl. unfold poke.
    replace ((a <=? a + Z.of_nat i) && (a + Z.of_nat i <? a + Z.of_nat (length b))) with true by lia.
    replace (Z.to_nat (a + Z.of_nat i - a)) with i by lia.
    by destruct (lookup_lt_is_Some_2 b i Hi) as [x ->].
  - rewrite lookup_seq_ge by lia. simpl. symmetry. apply lookup_ge_None. lia.
Qed.

Lemma peek_ext m a (f : nat -> Z) n :
  (forall i, (i < n)%nat -> f i = m (a + Z.of_nat i)) -> f <$> seq 0 n = peek m a n.
Proof.
  intros Hf. unfold peek. apply list_fmap_ext. intros i x [Hx Hlt]%lookup_seq. simpl in Hx. subst x. by apply Hf.
Qed.

(** * The instance *)

Record zsys (D : Type) := { zs_io : iostate D; zs_rs : list ztl_read_rs; zs_mgmt : list mgmt_entry }.
Arguments zs_io {D}.
Arguments zs_rs {D}.
Arguments zs_mgmt {D}.
Arguments Build_zsys {D}.

Section Instance.

Context {D : Type} `{HX : !Xnvme D} `{HQ : !QueueLaws D} `{HZ : !ZnsLaws D}.
Context (geo_zn_grp dev_nsect meta : Z) (u0 : xztl_io_ucmd) (wbuf rbuf : Z) (num : nat).
Implicit Types (w : zsys D).

(** The writer's context with what a reader changed of the shared state. *)
Definition after_read (s r : iostate D) : iostate D :=
  Build_iostate (io_g r) (io_cmds s) (io_u s) (io_prov s) (io_node s) (io_stats r) (io_dev r) (io_mem r).

Definition zsys_write (fuel : nat) w (b : bytes) (level : Z) (gc : bool) : outcome (Z * list Z * zsys D) :=
  let s := io_set_mem (zs_io w) (poke (io_mem (zs_io w)) wbuf b) in
  '(ret, maps, pieces, s') ← zrocks_write ZNS_ALIGMENT geo_zn_grp dev_nsect meta fuel u0 s wbuf
                               (Z.of_nat (length b)) level [0; 0] gc;
  Ok (ret, take (Z.to_nat pieces) maps, Build_zsys s' (zs_rs w) (zs_mgmt w)).

Definition zsys_read (fuel : nat) w (node_id off len : Z) (gc : bool) : outcome (Z * bytes * zsys D) :=
  '(ret, rs, r) ← zrocks_read geo_zn_grp dev_nsect meta fuel u0 (Z.of_nat num) (zs_rs w) (zs_io w) node_id off rbuf len gc;
  Ok (ret, peek (io_mem r) rbuf (Z.to_nat len), Build_zsys (after_read (zs_io w) r) rs (zs_mgmt w)).

Definition zsys_trim w (m : Z) (gc : bool) : outcome (Z * zsys D) :=
  '(ret, g, q) ← lift (zrocks_trim true (io_g (zs_io w)) (zs_mgmt w) m);
  Ok (ret, Build_zsys (io_set_g (zs_io w) g) (zs_rs w) q).

#[local] Instance zsys_zdata : ZData (zsys D) := {
  zd_write := zsys_write; zd_read := zsys_read; zd_trim := zsys_trim
}.

(** * Its invariant *)

(** Every read resource is free, with its arrays, its bounce buffers apart from [rbuf]. *)
Definition pool_free (rs : list ztl_read_rs) : Prop :=
  (0 < num <= length rs)%nat /\
  Forall (fun r => rr_used r = false /\ length (rr_prp r) = 1024%nat /\ length (rr_mcmd r) = 1024%nat /\
            bounce_ok (rr_prp r) rbuf ZNS_MAX_BUF) rs.

Definition zsys_ok w : Prop :=
  exists pro, engine meta (zs_io w) pro /\ slen (zs_io w) = XZTL_STATS_IO_TYPES /\
    Z.of_nat (length (pg_vnodes pro)) <= 2 ^ 14 /\ pool_free (zs_rs w).

Definition zsys_room w (k : nat) : Prop :=
  exists pro, grp_pro (io_g (zs_io w)) = Some pro /\ (k <= length (pg_free_head pro))%nat.

Definition zsys_byte w (n x : Z) : Z :=
  match grp_pro (io_g (zs_io w)) with
  | None => 0
  | Some pro =>
      match pg_vnodes pro !! Z.to_nat n with
      | None => 0
      | Some node => node_byte (z_data (io_dev (zs_io w))) pro node x
      end
  end.

(** The entry lies in what its node has received. *)
Definition zsys_live w (m : Z) : Prop :=
  0 < piece_size m <= ZNS_MAX_BUF /\ zmap_num m <= ZTL_IO_RC_NUM /\
  exists pro node, grp_pro (io_g (zs_io w)) = Some pro /\ Z.to_nat (zmap_node_id m) ∈ queues pro /\
    pg_vnodes pro !! Z.to_nat (zmap_node_id m) = Some node /\ zmap_start m + zmap_num m <= pn_used node.

Lemma zsys_byte_eq w pro node n x :
  grp_pro (io_g (zs_io w)) = Some pro -> pg_vnodes pro !! Z.to_nat n = Some node ->
  zsys_byte w n x = node_byte (z_data (io_dev (zs_io w))) pro node x.
Proof using. unfold zsys_byte. by intros -> ->. Qed.

(** The size of a piece in terms of its fields. *)
Lemma piece_size_eq m : zmap_padding m <= 32768 * zmap_num m -> piece_size m = 32768 * zmap_num m - zmap_padding m.
Proof using.
  clear. intros Hp. unfold piece_size. cst.
  pose proof (bf_get_range 36 11 ltac:(lia) m). pose proof (bf_get_range 47 16 ltac:(lia) m).
  unfold zmap_num, zmap_padding in *. rewrite wrap_small; lia.
Qed.

Lemma piece_size_le m : 0 < piece_size m <= ZNS_MAX_BUF -> piece_size m <= 32768 * zmap_num m.
Proof using.
  clear. intros Hm. destruct (Z.le_gt_cases (zmap_padding m) (32768 * zmap_num m)) as [Hp|Hp].
  - rewrite piece_size_eq by done. pose proof (bf_get_range 47 16 ltac:(lia) m). unfold zmap_padding in *. lia.
  - exfalso. revert Hm. unfold piece_size, ZNS_MAX_BUF, ZNS_MAX_M_BUF, ZNA_1M_BUF, ZNS_ALIGMENT, wrap. cst.
    pose proof (bf_get_range 36 11 ltac:(lia) m). pose proof (bf_get_range 47 16 ltac:(lia) m).
    unfold zmap_num, zmap_padding in *. intros Hm.
    rewrite (Z.mod_eq _ (2 ^ 64)) in Hm by done. lia.
Qed.

(** * Writes *)

(** The map entries of a write hold the bytes of the buffer. *)
Lemma described_join w pro ps : forall maps pad m buf,
  grp_pro (io_g (zs_io w)) = Some pro -> described maps ps pad -> ps <> [] ->
  stored (z_data (io_dev (zs_io w))) pro ps m buf ->
  Forall (fun '(n, start, k) => is_Some (pg_vnodes pro !! n) /\ 0 < k) ps -> 0 <= pad < 32768 ->
  mjoin (entry_bytes (zsys_byte w) <$> take (length ps) maps) =
  peek m buf (Z.to_nat (32768 * pieces_total ps - pad)).
Proof using.
  induction ps as [|[[n st] k] ps IH]; intros maps pad m buf Hg Hd Hne Hst Hnd Hpad; [done|].
  apply Forall_cons in Hnd as [[[node Hn] Hk] Hnd]. destruct Hst as [Hst Hst'].
  destruct (Hd 0%nat n st k eq_refl) as (x & Hx & Hf). destruct maps as [|x' maps]; [done|]. injection Hx as ->.
  unfold map_fields in Hf. injection Hf as F1 F2 F3 F4.
  set (pd := if decide (1%nat = S (length ps)) then pad else 0) in *.
  assert (Hpd : 0 <= pd < 32768) by (subst pd; case_decide; lia).
  assert (Hsz : piece_size x = 32768 * k - pd) by (rewrite piece_size_eq; lia).
  change (length ((n, st, k) :: ps)) with (S (length ps)). cbn [take fmap list_fmap]. rewrite join_cons.
  assert (Hhd : entry_bytes (zsys_byte w) x = peek m buf (Z.to_nat (32768 * k - pd))).
  { unfold entry_bytes. rewrite Hsz. apply peek_ext. intros i Hi.
    rewrite (zsys_byte_eq w pro node); [|done|by rewrite F1, Nat2Z.id]. rewrite F2. apply (Hst node); [done|lia]. }
  rewrite Hhd. change (pieces_total ((n, st, k) :: ps)) with (k + pieces_total ps).
  destruct ps as [|p ps].
  - subst pd. rewrite decide_True by done. cbn [length take fmap list_fmap]. change (mjoin (@nil bytes)) with (@nil Z).
    rewrite app_nil_r. f_equal. unfold pieces_total. simpl. lia.
  - assert (Hp0 : pd = 0) by (subst pd; by rewrite decide_False by (simpl; lia)). rewrite Hp0 in *.
    rewrite (IH maps pad m (buf + 32768 * k)); auto; [|intros i n' st' k' Hi].
    + assert (Hpos : 0 < pieces_total (p :: ps)).
      { destruct p as [[n' st'] k']. unfold pieces_total. simpl.
        apply Forall_cons in Hnd as [[_ ?] Hnd]. enough (0 <= zsum (snd <$> ps)) by (unfold fmap in *; lia).
        apply zsum_nonneg. rewrite Forall_fmap. eapply Forall_impl; [exact Hnd|]. intros [[? ?] ?] [_ ?]. simpl. lia. }
      replace (Z.to_nat (32768 * (k + pieces_total (p :: ps)) - pad)) with
        (Z.to_nat (32768 * k - 0) + Z.to_nat (32768 * pieces_total (p :: ps) - pad))%nat by lia.
      rewrite peek_app. do 2 f_equal. lia.
    + destruct (Hd (S i) n' st' k' Hi) as (y & Hy & Hf'). exists y. split; [done|].
      rewrite Hf'. f_equal. repeat case_decide; simpl in *; lia.
Qed.

Context (Hdev : device_fits (D := D)) (Hdepth : (1024 <= z_depth)%nat) (Hshape : ucmd_shape u0).
Context (Hwbuf : 0 <= wbuf /\ wbuf + 2 ^ 26 < 2 ^ 64).

Lemma zsys_write_call w pro b :
  engine meta (zs_io w) pro -> slen (zs_io w) = XZTL_STATS_IO_TYPES ->
  Z.of_nat (length (pg_vnodes pro)) <= 2 ^ 14 -> pg_free_head pro <> [] ->
  0 < Z.of_nat (length b) <= ZNS_MAX_BUF ->
  write_call meta (io_set_mem (zs_io w) (poke (io_mem (zs_io w)) wbuf b)) pro u0 wbuf (Z.of_nat (length b)) [0; 0].
Proof using Hdev Hshape Hwbuf.
  clear Hdepth. intros He Hs Hn Hf Hb. unfold ZNS_MAX_BUF, ZNS_MAX_M_BUF, ZNA_1M_BUF, ZNS_ALIGMENT in Hb. constructor; auto.
  - destruct He. constructor; auto. destruct eg_arr as [(L1 & L2 & L3 & L4) B1 B2]. constructor; auto. by split_and!.
  - by right.
  - unfold write_cmds. split; [lia|]. zdiv.
Qed.

(** What the nodes had received before a write is still there. *)
Lemma zsys_live_kept w w' pro pro' ps m :
  engine meta (zs_io w) pro -> grp_pro (io_g (zs_io w')) = Some pro' -> appended pro ps -> same_zones pro pro' ->
  grown 1 pro pro' ps ->
  (forall sec off, ~ in_pieces pro' ps sec ->
     z_data (io_dev (zs_io w')) sec off = z_data (io_dev (zs_io w)) sec off) ->
  zsys_live w m -> zsys_live w' m /\ whole_bytes (zsys_byte w') m = whole_bytes (zsys_byte w) m.
Proof using Hdev.
  clear Hdepth Hwbuf Hshape. intros He Hg' Hap Hsz [Gq _ Gu _] Hoth (Hm & Hk & pro0 & node & Hg & Hq & Hn & Hu).
  assert (pro0 = pro) as -> by (rewrite (eg_pro _ _ _ He) in Hg; congruence).
  destruct (Gu _ _ Hn) as (node' & Hn' & Hle). split.
  - split; [done|]. split; [done|]. exists pro', node'. split_and!; auto; [by rewrite Gq|lia].
  - unfold whole_bytes. apply list_fmap_ext. intros i x [Hx Hlt]%lookup_seq. simpl in Hx. subst x.
    rewrite (zsys_byte_eq w' pro' node'), (zsys_byte_eq w pro node) by done.
    set (y := 32768 * zmap_start m + Z.of_nat i).
    assert (Hy : 0 <= y < 32768 * pn_used node).
    { subst y. pose proof (piece_size_le m Hm). pose proof (bf_get_range 14 22 ltac:(lia) m). unfold zmap_start in *. lia. }
    pose proof Hsz as [Hvz Hz]. specialize (Hz (Z.to_nat (zmap_node_id m))). rewrite Hn, Hn' in Hz. injection Hz as Hz.
    unfold node_byte. rewrite (node_sector_transfer pro node pro' node') by done. apply Hoth.
    eapply written_not_in_pieces; eauto. zdiv.
Qed.

Lemma zsys_live_new w' pro' ps maps pad x :
  grp_pro (io_g (zs_io w')) = Some pro' -> described maps ps pad -> 0 <= pad < 32768 ->
  Forall (fun '(n, start, k) => n ∈ queues pro' /\ 0 < k <= ZTL_IO_RC_NUM /\ exists nd, pg_vnodes pro' !! n = Some nd /\
    start + k <= pn_used nd) ps ->
  x ∈ take (length ps) maps -> zsys_live w' x.
Proof using.
  clear Hdev Hdepth Hshape Hwbuf. intros Hg Hd Hpad Hps (i & [Hx Hi]%lookup_take_Some)%list_elem_of_lookup.
  destruct (lookup_lt_is_Some_2 ps i Hi) as [[[n st] k] Hp]. rewrite Forall_lookup in Hps.
  destruct (Hps i _ Hp) as (Hq & Hk & nd & Hn & Hu). destruct (Hd i n st k Hp) as (y & Hy & Hf).
  assert (y = x) as -> by congruence. unfold map_fields in Hf. injection Hf as F1 F2 F3 F4.
  set (pd := if decide _ then pad else 0) in *.
  assert (Hpd : 0 <= pd < 32768) by (subst pd; case_decide; lia).
  assert (Hsz : piece_size x = 32768 * k - pd) by (rewrite piece_size_eq; lia).
  unfold zsys_live. rewrite Hsz, F3, F2, F1, Nat2Z.id. unfold ZNS_MAX_BUF, ZNS_MAX_M_BUF, ZNA_1M_BUF, ZNS_ALIGMENT. cst.
  split_and!; try lia. exists pro', nd. by split_and!.
Qed.

Lemma same_zones_length pro pro' : same_zones pro pro' -> length (pg_vnodes pro') = length (pg_vnodes pro).
Proof using.
  clear. intros [_ Hz].
  assert (H : forall m, is_Some (pg_vnodes pro' !! m) <-> is_Some (pg_vnodes pro !! m)).
  { intros m. specialize (Hz m). rewrite <- (fmap_is_Some pn_vzones), Hz. apply fmap_is_Some. }
  setoid_rewrite lookup_lt_is_Some in H.
  pose proof (H (length (pg_vnodes pro))). pose proof (H (length (pg_vnodes pro'))). lia.
Qed.

(** The pieces of a write, as the entries of a live map. *)
Lemma pieces_live pro pro' ps size :
  appended pro ps -> grown 1 pro pro' ps -> pieces_total ps = write_cmds size -> size <= 32768 * ZTL_IO_RC_NUM ->
  Forall (fun '(n, start, k) => n ∈ queues pro' /\ 0 < k <= ZTL_IO_RC_NUM /\ exists nd, pg_vnodes pro' !! n = Some nd /\
    start + k <= pn_used nd) ps.
Proof using.
  clear. intros Hap [Gq _ _ Gp] Ht Hsz.
  assert (Hle : Forall (fun p : piece => snd p <= write_cmds size) ps).
  { apply pieces_le; [|done]. eapply Forall_impl; [exact Hap|]. intros [[? ?] ?] (_ & ? & ? & ? & ? & ? & ?). done. }
  assert (write_cmds size <= ZTL_IO_RC_NUM) by (unfold write_cmds; cst; zdiv).
  unfold appended in Hap. rewrite Forall_lookup in Hap, Gp, Hle. apply Forall_lookup. intros i [[n st] k] Hi.
  destruct (Hap i _ Hi) as (Hq & _). destruct (Gp i _ Hi) as (Hk & nd & Hn & Hu). specialize (Hle i _ Hi). simpl in Hle.
  split_and!; [by rewrite Gq|done|lia|by exists nd].
Qed.

Lemma zsys_write_ok w b level gc k :
  zsys_ok w -> zsys_room w (S k) -> 0 < Z.of_nat (length b) <= ZNS_MAX_BUF ->
  exists N w' maps,
    (forall fuel, (N <= fuel)%nat -> zsys_write fuel w b level gc = Ok (0, maps, w')) /\
    zsys_ok w' /\ zsys_room w' k /\ (length maps <= 2)%nat /\
    mjoin (entry_bytes (zsys_byte w') <$> maps) = b /\ Forall (zsys_live w') maps /\
    (forall m, zsys_live w m -> zsys_live w' m /\ whole_bytes (zsys_byte w') m = whole_bytes (zsys_byte w) m).
Proof using Hdev Hdepth Hshape Hwbuf.
  clear Hdepth. intros (pro & He & Hst & Hn & Hpool) (pro0 & Hp0 & Hfree) Hb.
  assert (pro0 = pro) as -> by (rewrite (eg_pro _ _ _ He) in Hp0; congruence).
  set (s0 := io_set_mem (zs_io w) (poke (io_mem (zs_io w)) wbuf b)).
  assert (Hcall : write_call meta s0 pro u0 wbuf (Z.of_nat (length b)) [0; 0]).
  { apply zsys_write_call; auto. intros Hnil. rewrite Hnil in Hfree. simpl in Hfree. lia. }
  destruct (zrocks_write_ok geo_zn_grp dev_nsect meta s0 pro u0 wbuf (Z.of_nat (length b)) level [0; 0] gc Hcall)
    as (N & s' & pro' & maps & ps & Hrun & [Wd Wp Wt Ws Wo Wa Wz Wg We Wst Wm Wdn]).
  set (w' := Build_zsys s' (zs_rs w) (zs_mgmt w)).
  assert (Hg' : grp_pro (io_g (zs_io w')) = Some pro') by apply We.
  set (pad := 32768 * write_cmds (Z.of_nat (length b)) - Z.of_nat (length b)) in *.
  assert (Hpad : 0 <= pad < 32768) by (subst pad; unfold write_cmds; zdiv).
  pose proof (pieces_live pro pro' ps _ Wa Wg Wt ltac:(unfold ZNS_MAX_BUF, ZNS_MAX_M_BUF, ZNA_1M_BUF, ZNS_ALIGMENT in Hb; cst; lia)) as Hps.
  exists N, w', (take (length ps) maps). split_and!.
  - intros fuel Hf. unfold zsys_write. fold s0. rewrite Hrun by done. cbn [mbind outcome_bind]. by rewrite Nat2Z.id.
  - exists pro'. split_and!; auto. by rewrite (same_zones_length pro pro').
  - exists pro'. split; [done|]. pose proof (gr_free _ _ _ _ Wg). lia.
  - rewrite length_take. lia.
  - rewrite (described_join w' pro' ps maps pad (io_mem s0) wbuf); auto.
    + rewrite Wt. replace (Z.to_nat _) with (length b) by (subst pad; lia). simpl. apply peek_poke.
    + intros ->. simpl in Wp. lia.
    + eapply Forall_impl; [exact Hps|]. intros [[n st] c] (_ & [? _] & nd & Hnd & _). rewrite Hnd. done.
  - apply Forall_forall. intros x Hx. by eapply (zsys_live_new w' pro' ps maps pad).
  - intros m Hm. by eapply zsys_live_kept.
Qed.

(** * Reads *)

Lemma engine_after_read s r pro : engine meta s pro -> read_only s r -> engine meta (after_read s r) pro.
Proof using.
  clear Hdev Hdepth Hshape Hwbuf. intros [] [Rg Rd Rw Ri Rs]. constructor; simpl; auto; rewrite ?Rg; auto.
  - intros n node Ha Hn. destruct (eg_dev n node Ha Hn). constructor; auto. by rewrite Rw.
  - destruct eg_arr as [(L1 & L2 & L3 & L4) B1 B2]. constructor; auto. by split_and!.
Qed.

Lemma pool_free_kept rs rs' : pool_free rs -> pool_kept rs rs' -> pool_free rs'.
Proof using.
  clear Hdev Hdepth Hshape Hwbuf. intros [Hn Hf] Hk. pose proof (Forall2_length _ _ _ Hk) as Hl.
  split; [lia|]. clear Hn Hl. revert Hf. induction Hk as [|a b rs rs' (H1 & H2 & H3) Hk IH]; intros Hf; [done|].
  apply Forall_cons in Hf as [(F1 & F2 & F3 & F4) Hf]. constructor; [|auto]. rewrite H1, H2, H3. by split_and!.
Qed.

Lemma pool_free_serves rs len : pool_free rs -> len <= ZNS_MAX_BUF -> pool_serves rs num rbuf len.
Proof using.
  clear Hdev Hdepth Hshape Hwbuf. intros [Hn Hf] Hlen. split; [lia|].
  destruct rs as [|r rs]; [simpl in Hn; lia|]. apply Forall_cons in Hf as [(F1 & F2 & F3 & F4) _].
  exists 0%nat, r. split_and!; auto; try lia. eapply Forall_impl; [exact F4|]. simpl. intros x Hx. lia.
Qed.

Lemma zsys_read_ok w m x len gc :
  zsys_ok w -> zsys_live w m -> 0 <= x -> 0 < len -> x + len <= 32768 * zmap_num m ->
  exists N w',
    (forall fuel, (N <= fuel)%nat ->
       zsys_read fuel w (zmap_node_id m) (32768 * zmap_start m + x) len gc =
       Ok (0, take (Z.to_nat len) (drop (Z.to_nat x) (whole_bytes (zsys_byte w) m)), w')) /\
    zsys_ok w' /\ (forall k, zsys_room w k -> zsys_room w' k) /\
    (forall m, zsys_live w m -> zsys_live w' m /\ whole_bytes (zsys_byte w') m = whole_bytes (zsys_byte w) m).
Proof using Hdepth Hshape.
  clear Hdev Hwbuf. intros (pro & He & Hst & Hnn & Hpool) (Hm & Hk & pro0 & node & Hg & Hq & Hn & Hu) Hx Hlen Hend.
  assert (pro0 = pro) as -> by (rewrite (eg_pro _ _ _ He) in Hg; congruence).
  assert (Hlm : len <= ZNS_MAX_BUF) by (rewrite ZTL_IO_RC_NUM_eq in Hk; unfold ZNS_MAX_BUF, ZNS_MAX_M_BUF, ZNA_1M_BUF, ZNS_ALIGMENT; lia).
  rewrite ZTL_IO_RC_NUM_eq in Hk.
  assert (H0 : 0 <= zmap_start m /\ 0 <= zmap_node_id m)
    by (split; [pose proof (bf_get_range 14 22 ltac:(lia) m)|pose proof (bf_get_range 0 14 ltac:(lia) m)]; unfold zmap_start, zmap_node_id; lia).
  destruct (eg_zones _ _ _ He _ _ Hq Hn) as (Hwf & _ & Hfit).
  destruct (po_counts _ (eg_ok _ _ _ He) _ Hq) as (nd & Hnd & _ & Hl0 & _ & Hcap). assert (nd = node) as -> by congruence.
  destruct (zrocks_read_ok geo_zn_grp dev_nsect meta (zs_io w) pro node (zs_io w) u0 (zs_rs w) num
    (Z.to_nat (zmap_node_id m)) (32768 * zmap_start m + x) rbuf len gc)
    as (N & rs' & r & Hrun & Hpk & Hro & Hby); auto; try lia.
  { intros z Hz. destruct (nw_slot _ _ _ Hwf z Hz) as (zone & _ & -> & _). done. }
  { constructor; auto; [by apply pool_free_serves|].
    unfold ncmds, sec_end, unit0, sec0. cst. apply Z.min_glb; zdiv. }
  set (w' := Build_zsys (after_read (zs_io w) r) rs' (zs_mgmt w)). destruct Hro as [Rg Rd Rw Ri Rs] eqn:ERo.
  exists N, w'. split_and!.
  - intros fuel Hf. unfold zsys_read. rewrite <- (Z2Nat.id (zmap_node_id m)) at 1 by lia. rewrite Hrun by done.
    cbn [mbind outcome_bind]. do 3 f_equal. apply list_eq. intros i. unfold peek, whole_bytes.
    destruct (decide (i < Z.to_nat len)%nat) as [Hi|Hi].
    + rewrite lookup_take_lt, lookup_drop, !list_lookup_fmap, !lookup_seq_lt by lia. cbn [fmap option_fmap option_map]. f_equal.
      rewrite (zsys_byte_eq w pro node), Hby by (done || lia). f_equal. lia.
    + rewrite list_lookup_fmap, lookup_seq_ge, (lookup_ge_None_2 (take _ _)) by (rewrite ?length_take; lia). done.
  - exists pro. split_and!; auto; [by apply engine_after_read| |by eapply pool_free_kept].
    change (slen r = XZTL_STATS_IO_TYPES). congruence.
  - intros k (pro1 & Hp1 & Hk1). exists pro1. simpl. by rewrite Rg.
  - intros m' (A1 & A2 & pro1 & nd1 & A3 & A4 & A5 & A6). split.
    + split; [done|]. split; [done|]. exists pro1, nd1. simpl. rewrite Rg. by split_and!.
    + unfold whole_bytes, zsys_byte. cbn [w' zs_io after_read io_g io_dev]. by rewrite Rg, Rd.
Qed.

(** * Trims *)

(** A node up to what a trim changes. *)
Record trim_of (node node' : ztl_pro_node) : Prop := {
  tr_id : pn_id node' = pn_id node;
  tr_zones : pn_vzones node' = pn_vzones node;
  tr_left : pn_left node' = pn_left node;
  tr_used : pn_used node' = pn_used node;
  tr_status : pn_status node = XZTL_ZMD_NODE_FREE -> pn_status node' = XZTL_ZMD_NODE_FREE
}.

Lemma zrocks_trim_node g q m pro node :
  let n := Z.to_nat (zmap_node_id m) in
  grp_pro g = Some pro -> pg_vnodes pro !! n = Some node ->
  exists ret q' node', zrocks_trim true g q m =
      Some (ret, grp_set_pro g (Some (pg_set_vnodes pro (<[n := node']> (pg_vnodes pro)))), q') /\ trim_of node node'.
Proof using.
  clear. intros n Hg Hn. unfold zrocks_trim, upd_node. fold n. rewrite Hg. cbn [mbind option_bind]. rewrite Hn. cbn [mbind option_bind].
  destruct (_ && _) eqn:E; [destruct (ztl_mgmt_submit_reset_finish _ _ _ _)|]; eexists _, _, _; (split; [reflexivity|]); constructor; try done.
  intros Hs. apply andb_true_iff in E as [_ E]. cbn [pn_status pn_set_nr_valid] in E. by rewrite Hs in E.
Qed.

Lemma trim_pro_ok pro n node node' :
  pro_ok pro -> pg_vnodes pro !! n = Some node -> trim_of node node' ->
  pro_ok (pg_set_vnodes pro (<[n := node']> (pg_vnodes pro))).
Proof using.
  clear. intros [P1 P2 P3 P4 P5] Hn [T1 T2 T3 T4 T5].
  assert (Hl : forall m nd, <[n := node']> (pg_vnodes pro) !! m = Some nd -> exists nd0, pg_vnodes pro !! m = Some nd0 /\ (trim_of nd0 nd \/ nd = nd0)).
  { intros m nd. destruct (decide (m = n)) as [->|Hne].
    - rewrite list_lookup_insert_eq by (by eapply lookup_lt_Some). intros [= <-]. exists node. split; [done|left; by constructor].
    - rewrite list_lookup_insert_ne by done. intros H. exists nd. auto. }
  constructor; auto.
  - intros m Hm. destruct (P2 m Hm) as (nd & Hnd & C1 & C2 & C3 & C4). destruct (decide (m = n)) as [->|Hne].
    + exists node'. assert (nd = node) as -> by congruence. cbn. rewrite list_lookup_insert_eq by (by eapply lookup_lt_Some).
      rewrite T1, T3, T4. by split_and!.
    + exists nd. cbn. rewrite list_lookup_insert_ne by done. by split_and!.
  - intros m Hm nd Hnd. destruct (Hl m nd Hnd) as (nd0 & H0 & [[U1 U2 U3 U4 U5]| ->]); [|by apply (P4 m Hm)].
    destruct (P4 m Hm nd0 H0) as [F1 F2]. split; [by apply U5|congruence].
  - intros m Hm nd Hnd. destruct (Hl m nd Hnd) as (nd0 & H0 & [[U1 U2 U3 U4 U5]| ->]); [|by apply (P5 m Hm)].
    rewrite U3. by apply (P5 m Hm).
Qed.

Lemma trim_engine s pro n node node' :
  engine meta s pro -> n ∈ queues pro -> pg_vnodes pro !! n = Some node -> trim_of node node' ->
  let pro' := pg_set_vnodes pro (<[n := node']> (pg_vnodes pro)) in
  engine meta (io_set_g s (grp_set_pro (io_g s) (Some pro'))) pro'.
Proof using.
  clear Hdev Hdepth Hshape Hwbuf. intros He Hq Hn Ht pro'. pose proof Ht as [T1 T2 T3 T4 T5].
  eapply (engine_change meta s pro n node); eauto; simpl; auto using tbl_frame_refl.
  - apply (trim_pro_ok pro n node); auto. apply He.
  - apply He.
  - intros Hav. pose proof (eg_write _ _ _ He n node Hav Hn) as [_ _ _ _ _ _ Wl Wu Wc Wi Ww].
    pose proof (eg_dev _ _ _ He n node Hav Hn) as [O1 O2].
    constructor; simpl; rewrite ?T3, ?T4; auto. constructor.
    + intros z Hz. unfold slot_sect, slot_devz. rewrite (slot_zone_transfer pro pro node node') by done. by apply O1.
    + intros z Hz. rewrite T4. unfold slot_sect, slot_devz. rewrite (slot_zone_transfer pro pro node node') by done. by apply O2.
  - destruct (eg_arr _ _ _ He) as [(L1 & L2 & L3 & L4) B1 B2]. constructor; auto. by split_and!.
  - apply He.
Qed.

Lemma zsys_trim_ok w m gc :
  zsys_ok w -> zsys_live w m ->
  exists ret w', zsys_trim w m gc = Ok (ret, w') /\ zsys_ok w' /\ (forall k, zsys_room w k -> zsys_room w' k) /\
    (forall m, zsys_live w m -> zsys_live w' m /\ whole_bytes (zsys_byte w') m = whole_bytes (zsys_byte w) m).
Proof using.
  clear Hdev Hdepth Hshape Hwbuf. intros (pro & He & Hst & Hnn & Hpool) (_ & _ & pro0 & node & Hg & Hq & Hn & _).
  assert (pro0 = pro) as -> by (rewrite (eg_pro _ _ _ He) in Hg; congruence).
  destruct (zrocks_trim_node (io_g (zs_io w)) (zs_mgmt w) m pro node Hg Hn) as (ret & q' & node' & Hrun & Ht).
  unfold zsys_trim. rewrite Hrun. cbn [lift mbind outcome_bind]. set (pro' := pg_set_vnodes pro _). eexists _, _. split; [reflexivity|].
  split_and!.
  - exists pro'. split_and!; auto; [by eapply trim_engine|]. cbn. by rewrite length_insert.
  - intros k (pro1 & Hp1 & Hk). assert (pro1 = pro) as -> by congruence. by exists pro'.
  - assert (Hvn : pg_vnodes pro' = <[Z.to_nat (zmap_node_id m) := node']> (pg_vnodes pro)) by done.
    intros m' (A1 & A2 & pro1 & nd1 & A3 & A4 & A5 & A6). assert (pro1 = pro) as -> by congruence.
    assert (Hnd : exists nd', pg_vnodes pro' !! Z.to_nat (zmap_node_id m') = Some nd' /\ pn_vzones nd' = pn_vzones nd1 /\ pn_used nd' = pn_used nd1).
    { rewrite Hvn. destruct (decide (Z.to_nat (zmap_node_id m') = Z.to_nat (zmap_node_id m))) as [Heq|Hne].
      - rewrite Heq in *. exists node'. rewrite list_lookup_insert_eq by (by eapply lookup_lt_Some). assert (nd1 = node) as -> by congruence.
        split_and!; [done|apply Ht..].
      - exists nd1. by rewrite list_lookup_insert_ne by done. }
    destruct Hnd as (nd' & Hnd' & Hz' & Hu'). split.
    + split; [done|]. split; [done|]. exists pro', nd'. split_and!; auto. by rewrite Hu'.
    + unfold whole_bytes. apply list_fmap_ext. intros i x _.
      rewrite (zsys_byte_eq w pro nd1) by done. rewrite (zsys_byte_eq _ pro' nd') by done. unfold node_byte.
      by rewrite (node_sector_transfer pro nd1 pro' nd').
Qed.

(** The contract holds: the theorems about the files of the environment hold on the
    whole stack below. *)
#[local, refine] Instance zsys_laws : ZDataLaws (zsys D) := {
  zd_ok := zsys_ok; zd_room := zsys_room; zd_byte := zsys_byte; zd_live := zsys_live
}.
Proof using Hdev Hdepth Hshape Hwbuf.
  - clear. intros w k (pro & Hp & Hk). exists pro. split; [done|lia].
  - clear. intros w m (Hm & Hk & _). split; [split; [lia|by apply piece_size_le]|]. rewrite ZTL_IO_RC_NUM_eq in Hk.
    unfold ZNS_MAX_BUF, ZNS_MAX_M_BUF, ZNA_1M_BUF, ZNS_ALIGMENT. lia.
  - intros w b level gc k Hok Hroom Hb. by apply zsys_write_ok.
  - intros w m x len gc. apply zsys_read_ok.
  - intros w m gc. apply zsys_trim_ok.
Defined.

End Instance.
