(* ===== verification/EnvFileTheorems.v ===== *)
(** Properties of the files of the environment, src/env/env_zns_io.cc: a file is a
    byte string, whatever part of it is cached and however it is split over nodes. *)

From S2P Require Import Prelude Types Sim Stats ProGrp Media Zns Device Io IoPopulate IoFlight IoSubmit IoWrite IoRequest IoTheorems Read IoRead ReadTheorems IoCounters Mgmt Zrocks ZrocksTheorems EnvTypes EnvMeta EnvFile EnvLaws EnvFileOk EnvZrocks.

(** * The abstract file: a byte string that grows at its end *)

Inductive file_op := F_Append (data : bytes) | F_Sync.

Definition op_data (op : file_op) : bytes := match op with F_Append d => d | F_Sync => [] end.
Definition ops_data (ops : list file_op) : bytes := mjoin (op_data <$> ops).

(** The calls on an open file, until one fails. *)
Section Run.

Context (pad_head pad_level pad_tail pad_zone : bytes).
Context {W M : Type} `{HD : !ZData W} `{HM : !ZMeta M}.

Fixpoint run_ops (fuel : nat) (e : zenv W M) (wf : ZNSWritableFile) (ops : list file_op)
    : outcome (Status * ZNSWritableFile * zenv W M) :=
  match ops with
  | [] => Ok (S_OK, wf, e)
  | F_Append d :: ops' =>
      '(st, wf1, e1) ← ZNSWritableFile_Append pad_head pad_level pad_tail pad_zone fuel true e wf d;
      if decide (st = S_OK) then run_ops fuel e1 wf1 ops' else Ok (st, wf1, e1)
  | F_Sync :: ops' =>
      '(st, e1) ← ZNSWritableFile_Sync pad_head pad_level pad_tail pad_zone fuel true e wf;
      if decide (st = S_OK) then run_ops fuel e1 wf ops' else Ok (st, wf, e1)
  end.

End Run.

(** Flushes that the calls can take for a file of [total] bytes in the end. *)
Definition ops_flushes (total : Z) (ops : list file_op) : nat := (length ops * S (Z.to_nat (flushes total)))%nat.

Section Refinement.

Context (pad_head pad_level pad_tail pad_zone : bytes).
Context {W M : Type} `{HD : !ZData W} `{HL : !ZDataLaws W} `{HM : !ZMeta M} `{HT : !ZMetaTotal M}.
Context (Hpads : pads_ok pad_head pad_level pad_tail pad_zone).

Lemma run_ops_ok ops : forall (e : zenv W M) wf content total j,
  env_ok e -> file_rep e (wf_znsfile wf) content -> byte_list (ops_data ops) ->
  Z.of_nat (length content + length (ops_data ops)) <= total -> total < 2 ^ 31 ->
  zd_room (ev_w e) (ops_flushes total ops + j) ->
  exists N wf' e',
    (forall fuel, (N <= fuel)%nat ->
       run_ops pad_head pad_level pad_tail pad_zone fuel e wf ops = Ok (S_OK, wf', e')) /\
    wf_znsfile wf' = wf_znsfile wf /\ env_ok e' /\ file_rep e' (wf_znsfile wf) (content ++ ops_data ops) /\
    zd_room (ev_w e') j /\ others_kept e e' (wf_znsfile wf).
Proof using Hpads.
  induction ops as [|op ops IH]; intros e wf content total j He Hf Hb Hl Ht Hr.
  - exists 0%nat, wf, e. split_and!; auto; [by change (ops_data []) with (@nil Z); rewrite app_nil_r|].
    intros q g d Hq Hg. by exists g.
  - change (ops_data (op :: ops)) with (op_data op ++ ops_data ops) in *. rewrite length_app in Hl.
    apply Forall_app in Hb as [Hb1 Hb2].
    assert (Hr' : zd_room (ev_w e) (Z.to_nat (flushes total) + S (ops_flushes total ops + j))).
    { unfold ops_flushes in *. cbn [length Nat.mul] in Hr. by replace (Z.to_nat (flushes total) + S _)%nat with
        (S (Z.to_nat (flushes total)) + length ops * S (Z.to_nat (flushes total)) + j)%nat by lia. }
    destruct op as [d|]; cbn [op_data] in *.
    + assert (Hfl : 0 <= flushes (Z.of_nat (length content + length d)) <= flushes total) by (apply flushes_le; lia).
      destruct (Append_ok _ _ _ _ Hpads e wf content d (ops_flushes total ops + j))
        as (N1 & wf1 & e1 & Hrun1 & Hp1 & He1 & Hf1 & Hr1 & Ho1); auto; [lia| |].
      { apply (room_le _ (S (Z.to_nat (flushes total - flushes (Z.of_nat (length content + length d)))))).
        by replace (S _ + _)%nat with (Z.to_nat (flushes total) + S (ops_flushes total ops + j))%nat by lia. }
      destruct (IH e1 wf1 (content ++ d) total j) as (N2 & wf2 & e2 & Hrun2 & Hp2 & He2 & Hf2 & Hr2 & Ho2);
        auto; [by rewrite Hp1|rewrite length_app; lia|].
      rewrite Hp1 in *. exists (max N1 N2), wf2, e2. split_and!; auto; [|by rewrite app_assoc|by eapply others_kept_trans].
      intros fuel Hfu. cbn [run_ops]. rewrite Hrun1 by lia. cbn [mbind outcome_bind].
      rewrite decide_True by done. apply Hrun2. lia.
    + destruct Hf as (f & Hfd & Hsz & Hcn & Hlc). destruct (zf_cache f) as [c|] eqn:Hc; [|done].
      destruct (file_data_bounds _ _ _ _ Hfd) as [Hml _].
      destruct (Sync_ok _ _ _ _ Hpads e wf f content c (ops_flushes total ops + j) He Hfd Hc)
        as (N1 & e1 & f1 & Hrun1 & He1 & Hf1 & Hc1 & Hs1 & _ & Hr1 & Ho1); [by eapply room_le|lia|].
      destruct (IH e1 wf content total j) as (N2 & wf2 & e2 & Hrun2 & Hp2 & He2 & Hf2 & Hr2 & Ho2); auto.
      { exists f1. split_and!; auto; congruence. }
      exists (max N1 N2), wf2, e2. split_and!; auto; [|by eapply others_kept_trans].
      intros fuel Hfu. cbn [run_ops]. rewrite Hrun1 by lia. cbn [mbind outcome_bind].
      rewrite decide_True by done. apply Hrun2. lia.
Qed.

(** The result of a read of [n] bytes at [offset]: status and bytes. *)
Definition read_spec (content : bytes) (boundary offset n : Z) : Status * option bytes :=
  let len := Z.of_nat (length content) in
  let n' := Z.min n (len - offset) in
  if decide (len <= offset) then (S_OK, None)
  else if decide (offset < boundary < offset + n') then (S_OutOfRange, None)
  else (S_OK, Some (take (Z.to_nat n') (drop (Z.to_nat offset) content))).

Lemma read_mapped_ok (e : zenv W M) p f content offset n :
  env_ok e -> file_data e p f content -> zf_size f = Z.of_nat (length content) -> Z.of_nat (length content) < 2 ^ 63 ->
  0 <= offset < Z.of_nat (length content) - cache_len f -> 0 <= n <= Z.of_nat (length content) - offset ->
  let boundary := Z.of_nat (length content) - cache_len f in
  exists N w', (forall fuel, (N <= fuel)%nat ->
      read_mapped fuel (ev_w e) f offset n =
      Ok (if decide (offset + n <= boundary) then S_OK else S_OutOfRange,
          if decide (offset + n <= boundary) then Some (take (Z.to_nat n) (drop (Z.to_nat offset) content)) else None, w')) /\
    zd_ok w' /\ data_kept (ev_w e) w'.
Proof using.
  intros He [Hp Hcon Hlive Hidx Hby Hcl] Hsz Hlen Ho Hn boundary.
  assert (Hc0 : 0 <= cache_len f) by (unfold cache_len; destruct (zf_cache f); lia).
  assert (Hlf : Z.of_nat (length (flushed_bytes (ev_w e) f)) = boundary).
  { subst boundary. rewrite <- Hcon, length_app. unfold cache_len. destruct (zf_cache f); simpl; lia. }
  assert (Hbd : boundary = Z.of_nat (length content) - cache_len f) by done. clearbody boundary.
  unfold flushed_bytes in *. set (fb := mjoin (entry_bytes (zd_byte (ev_w e)) <$> zf_map f)) in *.
  destruct (find_piece_ok (ev_w e) (zf_map f) 0 offset Hlive) as (m & rest & po & Hfind & Hpo & Hlr & Hdrop);
    try lia; [fold fb; lia..|]. fold fb in Hdrop. rewrite Z.sub_0_r in Hdrop.
  destruct (read_pieces_ok (m :: rest) (ev_w e) po n [] (eo_w _ He) Hlr) as (N & w' & b & Hrun & Hb & Hw' & Hk & _);
    try lia. rewrite <- Hdrop in *.
  assert (Hiff : n <= Z.of_nat (length (drop (Z.to_nat offset) fb)) <-> offset + n <= boundary)
    by (rewrite length_drop; lia).
  exists N, w'. split_and!; auto. intros fuel Hf. unfold read_mapped. rewrite Hfind, Hrun by done.
  cbn [mbind outcome_bind]. destruct (decide (n <= _)) as [Hin|Hout].
  - rewrite !(decide_True (P := offset + n <= boundary)) by tauto. rewrite decide_True, Hb by done.
    rewrite app_nil_l. do 3 f_equal. rewrite <- Hcon, drop_app_le by lia. rewrite take_app_le by (rewrite length_drop; lia). done.
  - rewrite !(decide_False (P := offset + n <= boundary)) by tauto. by rewrite decide_False by done.
Qed.

End Refinement.

(** * A concrete environment

    The whole stack below: the ZRocks model on the simulated device, and a log in
    memory for the metadata records. *)

#[export] Instance log_meta : ZMeta (list bytes) := {
  zm_write := fun m b => Ok (0, m ++ [b]);
  zm_read := fun m slba len => Ok (0, replicate (Z.to_nat len) 0, m);
  zm_slbas := fun _ => [0; 1];
  zm_switch := fun m _ => Ok m
}.

#[export, refine] Instance log_total : ZMetaTotal (list bytes) := { zm_ok := fun _ => True }.
Proof. intros m b _. by eexists _, _. Defined.

(** ZRocks on the simulated device: writes from 4096, reads into 2^30. *)
Definition sim_zdata : ZData (zsys simdev) := zsys_zdata 130 32768 2 sim_u0 4096 1073741824 1.

Lemma sim_wbuf : 0 <= 4096 /\ 4096 + 2 ^ 26 < 2 ^ 64.
Proof. lia. Qed.

Lemma sim_depth : (1024 <= z_depth (D := simdev))%nat.
Proof. simpl. lia. Qed.

Definition sim_zlaws : ZDataLaws (zsys simdev) (ZData0 := sim_zdata) :=
  zsys_laws 130 32768 2 sim_u0 4096 1073741824 1 sim_fits sim_depth sim_u0_shape sim_wbuf.

(** A file at pointer 0 of an environment on [nodes] free nodes; its bytes are cached. *)
Definition sim_file (cached : bytes) : ZNSFile :=
  {| zf_name := [97; 98]; zf_size := Z.of_nat (length cached); zf_uuididx := 0; zf_level := 0; zf_map := [];
     zf_startIndex := 0; zf_cache := Some cached; zf_is_writing := false; zf_current_nid := -1 |}.

Definition sim_env (nodes : nat) (cached : bytes) : zenv (zsys simdev) (list bytes) :=
  {| ev_w := Build_zsys (sim_io nodes sim_u0) (sim_rs false) []; ev_m := [];
     ev_heap := {[ 0%nat := sim_file cached ]}; ev_next := 1;
     ev_files := [([97; 98], Some 0%nat)]; ev_sequence := 0; ev_uuididx := 1; ev_nids := ∅ |}.

Definition sim_wf : ZNSWritableFile := {| wf_filename := [97; 98]; wf_filesize := 0; wf_znsfile := 0 |}.
Definition sim_pads : bytes * bytes * bytes * bytes :=
  (replicate 3 0, replicate 7 0, replicate 4 0, replicate (Z.to_nat 4091) 0).

Lemma sim_pads_ok : pads_ok (replicate 3 0) (replicate 7 0) (replicate 4 0) (replicate (Z.to_nat 4091) 0).
Proof. unfold pads_ok. rewrite !length_replicate. by split_and!. Qed.

Lemma sim_env_deref nodes c q f : deref (sim_env nodes c) q = Some f -> q = 0%nat /\ f = sim_file c.
Proof. unfold deref. simpl. by intros [<- <-]%lookup_singleton_Some. Qed.

Lemma sim_env_ok (nodes : nat) c : (1 <= nodes < 1000)%nat -> env_ok (HL := sim_zlaws) (sim_env nodes c).
Proof.
  intros Hn. constructor; [constructor| |done|].
  - intros name q [= -> ->]%list_elem_of_singleton. eexists. apply lookup_singleton_eq.
  - intros q f [_ ->]%sim_env_deref. simpl. unfold FILE_NAME_LEN. lia.
  - intros q f [_ ->]%sim_env_deref. simpl. lia.
  - exists (sim_pro nodes). split_and!.
    + apply sim_engine; [lia|apply length_replicate..].
    + reflexivity.
    + change (length (pg_vnodes (sim_pro nodes))) with (length (sim_node <$> seq 0 nodes)).
      rewrite length_fmap, length_seq. lia.
    + split; [simpl; lia|]. constructor; [|constructor]. split_and!; [done| |apply length_replicate|].
      * change (length sim_prp = 1024%nat). unfold sim_prp. by rewrite length_fmap, length_seq.
      * apply sim_bounce. unfold ZNS_MAX_BUF, ZNS_MAX_M_BUF, ZNA_1M_BUF, ZNS_ALIGMENT. lia.
Qed.

Lemma sim_file_rep nodes : file_rep (HL := sim_zlaws) (sim_env nodes []) 0 [].
Proof.
  exists (sim_file []). split_and!; try done.
Qed.

Lemma sim_zroom nodes : zd_room (ZDataLaws := sim_zlaws) (ev_w (sim_env nodes [])) nodes.
Proof. exists (sim_pro nodes). split; [done|]. simpl. rewrite length_seq. lia. Qed.

(** * Properties *)



(** C31. Reads.  For every offset and size, a sequential or random read of a file
    returns: nothing at or past the end; the bytes of the file, cut at its end, when they
    are all flushed or all cached; and when they reach from the flushed part into the cached
    part the call leaves with std::out_of_range, after the flushed part was read. *)
Theorem env_file_read {W M : Type} `{HD : !ZData W} `{HL : !ZDataLaws W} `{HM : !ZMeta M} `{HT : !ZMetaTotal M}
    (e : zenv W M) p f content offset n :
  env_ok e -> file_data e p f content -> zf_size f = Z.of_nat (length content) ->
  Z.of_nat (length content) < 2 ^ 63 -> 0 <= offset -> 0 <= n -> offset + n < 2 ^ 64 ->
  let spec := read_spec content (Z.of_nat (length content) - cache_len f) offset n in
  exists N w', (forall fuel, (N <= fuel)%nat ->
      ZNSRandomAccessFile_Read fuel (ev_w e) (Some f) offset n = Ok (spec, w') /\
      exists r, ZNSSequentialFile_ReadOffset fuel (ev_w e) (Some f) offset n = Ok (spec, r, w')) /\
    zd_ok w' /\ data_kept (ev_w e) w'.
Proof.
  intros He Hfd Hsz Hlen Ho Hn Hon spec. pose proof (file_data_bounds _ _ _ _ Hfd) as [_ Hcl].
  assert (Hc0 : 0 <= cache_len f) by (unfold cache_len; destruct (zf_cache f); lia).
  assert (Hpos : cache_pos f = Z.of_nat (length content) - cache_len f) by (unfold cache_pos; rewrite Hsz, wrap_small; lia).
  assert (Hclamp : offset < Z.of_nat (length content) -> clamp f offset n = Z.min n (Z.of_nat (length content) - offset)).
  { intros Hin. unfold clamp. rewrite Hsz, (wrap_small 64 (offset + n)) by lia.
    destruct (Z.ltb_spec (Z.of_nat (length content)) (offset + n)); [rewrite wrap_small|]; lia. }
  unfold ZNSRandomAccessFile_Read, ZNSSequentialFile_ReadOffset, ZNSRandomAccessFile_ReadOffset.
  rewrite Hsz. subst spec. unfold read_spec.
  destruct (Z.leb_spec (Z.of_nat (length content)) offset) as [Hend|Hin].
  { exists 0%nat, (ev_w e). rewrite decide_True by done. split_and!; [by eauto|apply He|by intros m]. }
  rewrite (decide_False (P := Z.of_nat (length content) <= offset)) by lia.
  rewrite (Hclamp Hin), Hpos. set (n' := Z.min n (Z.of_nat (length content) - offset)).
  assert (Hn' : 0 <= n' <= Z.of_nat (length content) - offset) by lia.
  destruct (Z.leb_spec (Z.of_nat (length content) - cache_len f) offset) as [Hcache|Hflush].
  - exists 0%nat, (ev_w e). rewrite decide_False by lia. split_and!; [|apply He|by intros m].
    assert (Hsl : cache_slice f offset n' = take (Z.to_nat n') (drop (Z.to_nat offset) content)).
    { unfold cache_slice. rewrite Hpos. f_equal. destruct Hfd as [_ Hcon _ _ _ _]. unfold cache_len in *.
      rewrite <- Hcon, drop_app_ge; rewrite <- Hcon, length_app in *; destruct (zf_cache f); simpl in *; try lia.
      all: first [by rewrite !drop_nil | f_equal; lia]. }
    rewrite Hsl. intros fuel _. split; [done|by eauto].
  - destruct (read_mapped_ok e p f content offset n' He Hfd Hsz Hlen ltac:(lia) Hn') as (N & w' & Hrun & Hw & Hk).
    assert (Hc2 : clamp f offset n' = n').
    { unfold clamp. rewrite Hsz, (wrap_small 64 (offset + n')) by lia.
      by destruct (Z.ltb_spec (Z.of_nat (length content)) (offset + n')); [lia|]. }
    exists N, w'. split_and!; auto. intros fuel Hf. rewrite Hc2, Hrun by done. cbn [mbind outcome_bind].
    destruct (decide (offset + n' <= _)) as [Hle|Hgt].
    + rewrite (decide_False (P := offset < _ < _)) by lia. split; [done|by eauto].
    + rewrite (decide_True (P := offset < _ < _)) by lia. split; [done|by eauto].
Qed.

Lemma env_file_read_witness :
  exists N w', forall fuel, (N <= fuel)%nat ->
    ZNSRandomAccessFile_Read (ZData0 := sim_zdata) fuel (ev_w (sim_env 2 [1; 2; 3])) (Some (sim_file [1; 2; 3])) 1 10 =
    Ok (S_OK, Some [2; 3], w').
Proof.
  destruct (env_file_read (HD := sim_zdata) (HL := sim_zlaws) (M := list bytes) (sim_env 2 [1; 2; 3]) 0
    (sim_file [1; 2; 3]) [1; 2; 3] 1 10) as (N & w' & Hrun & _).
  - apply sim_env_ok. lia.
  - constructor; try done. repeat constructor; lia.
  - reflexivity.
  - reflexivity.
  - lia.
  - lia.
  - reflexivity.
  - exists N, w'. intros fuel Hf. exact (proj1 (Hrun fuel Hf)).
Defined.
