(* ===== verification/EnvLoad.v ===== *)
(** Start-up of the environment: the metadata log is read back into the file table
    (src/env/env_zns.cc, RecoverFileFromBuf, ClearMetaData, SetNodesInfo and
    LoadMetaData).

    The buffer [metaBuf] of 80 MiB is zeroed when it is allocated: it is the list of
    its bytes up to the last one written, and zeros after them. *)

From S2P Require Import Prelude Types EnvTypes EnvMeta.

Definition i8 (x : Z) : Z := (x + 2 ^ 7) mod 2 ^ 8 - 2 ^ 7.

(** * The buffer *)

(** [n] bytes at [off] *)
Definition buf_read (buf : bytes) (off : Z) (n : nat) : option bytes :=
  if FILE_METADATA_BUF_SIZE <? off + Z.of_nat n then None
  else Some (take n (drop (Z.to_nat off) buf ++ replicate n 0)).

Definition buf_write (buf : bytes) (off : Z) (b : bytes) : option bytes :=
  if FILE_METADATA_BUF_SIZE <? off + Z.of_nat (length b) then None
  else Some (take (Z.to_nat off) buf ++ replicate (Z.to_nat off - length buf) 0 ++ b ++
             drop (Z.to_nat off + length b) buf).

(** A C string: the bytes before the first NUL; without one the program reads past the
    end of the array. *)
Fixpoint c_str (b : bytes) : option bytes :=
  match b with
  | [] => None
  | x :: b' => if x =? 0 then Some [] else s ← c_str b'; Some (x :: s)
  end.

(** The string at [off] of the buffer. *)
Definition buf_str (buf : bytes) (off : Z) : option bytes :=
  c_str (drop (Z.to_nat off) buf ++ (if Z.of_nat (length buf) <? FILE_METADATA_BUF_SIZE then [0] else [])).

(** [n] map entries from [off] *)
Fixpoint buf_maps (buf : bytes) (off : Z) (n : nat) : option (list Z) :=
  match n with
  | O => Some []
  | S n' =>
      b ← buf_read buf off 8;
      ws ← buf_maps buf (off + SIZE_MAP) n';
      Some (le_read b :: ws)
  end.

(** [seqSlbaMap[k] = v], a std::map in the order of its keys. *)
Fixpoint seq_set (k v : Z) (m : list (Z * Z)) : list (Z * Z) :=
  match m with
  | [] => [(k, v)]
  | (k', v') :: m' =>
      if k =? k' then (k, v) :: m'
      else if k <? k' then (k, v) :: (k', v') :: m' else (k', v') :: seq_set k v m'
  end.

Section Load.

Context (pad_head pad_level pad_tail pad_zone : bytes).
Context {W M : Type} `{!ZMeta M} `{!ZRecover W}.
Implicit Types (e : zenv W M) (buf : bytes).

(** [RecoverFileFromBuf(metaBuf + off, praseLen, replace)]: also [praseLen]; [buf_ok]
    says that the cache of a new file could be allocated. *)
Definition RecoverFileFromBuf (buf_ok : bool) e buf (off : Z) (replace : bool) : option (Z * zenv W M) :=
  b ← buf_read buf off (Z.to_nat SIZE_FILE_META);
  let level := i8 (le_read (take 1 b)) in
  let filesize := le_read (take 8 (drop 8 b)) in
  let pieceNum := i32 (le_read (take 4 (drop 16 b))) in
  name ← c_str (take (Z.to_nat FILE_NAME_LEN) (drop 20 b));
  let '(q, e1) := files_at e name in
  '(p, f, e2) ← match q with
                | Some p => f ← deref e1 p; Some (p, (if replace then zf_set_map f [] else f), e1)
                | None => let f := new_ZNSFile name (-1) buf_ok in
                          let '(p, e2) := heap_new e1 f in Some (p, f, e2)
                end;
  ws ← buf_maps buf (off + SIZE_FILE_META) (Z.to_nat pieceNum);
  let f' := zf_set_map (zf_set_level (zf_set_size f filesize) level) (zf_map f ++ ws) in
  let e3 := store e2 p f' in
  Some (u32 (SIZE_FILE_META + SIZE_MAP * Z.max 0 pieceNum),
        ev_set_files e3 (map_set (zf_name f') (Some p) (ev_files e3))).

(** [for (std::uint16_t i = 0; i < fileNum; i++)] *)
Fixpoint base_loop (fuel : nat) (buf_ok : bool) e buf (fileNum i off : Z) : outcome (zenv W M) :=
  if i <? fileNum then
    match fuel with
    | O => OutOfFuel
    | S fuel' =>
        '(len, e1) ← lift (RecoverFileFromBuf buf_ok e buf off false);
        base_loop fuel' buf_ok e1 buf fileNum (u16 (i + 1)) (u32 (off + len))
    end
  else Ok e.

(** The record at the start of the buffer. *)
Definition load_record (fuel : nat) (buf_ok : bool) e buf : outcome (zenv W M) :=
  t ← lift (buf_read buf 8 1);
  let tag := le_read t in
  if tag =? OP_Base then
    n ← lift (buf_read buf SIZE_HEAD 4);
    base_loop fuel buf_ok e buf (le_read n) 0 (SIZE_HEAD + 4)
  else if tag =? OP_Update then
    '(_, e1) ← lift (RecoverFileFromBuf buf_ok e buf SIZE_HEAD false); Ok e1
  else if tag =? OP_Replace then
    src ← lift (buf_str buf SIZE_HEAD);
    dst ← lift (buf_str buf (SIZE_HEAD + FILE_NAME_LEN));
    let '(q, e1) := files_at e src in
    Ok (ev_set_files e1 (map_set dst q (map_erase src (ev_files e1))))
  else if tag =? OP_Delete then
    name ← lift (buf_str buf SIZE_HEAD);
    Ok (ev_set_files e (map_erase name (ev_files e)))
  else if tag =? OP_GCChange then
    '(_, e1) ← lift (RecoverFileFromBuf buf_ok e buf SIZE_HEAD true); Ok e1
  else Ok e.

(** [while (true)]: the records from [readSlba] of the zone that starts at [slba]. *)
Fixpoint load_loop (fuel : nat) (buf_ok : bool) e buf (slba readSlba : Z) : outcome (Status * zenv W M) :=
  match fuel with
  | O => OutOfFuel
  | S fuel' =>
      '(ret, b, m) ← zm_read (ev_m e) readSlba ZNS_ALIGMENT;
      let e1 := ev_set_m e m in
      if ctrue ret then Ok (S_IOError, e1) else
      buf1 ← lift (buf_write buf 0 b);
      len4 ← lift (buf_read buf1 4 4);
      let dataLength := le_read len4 in
      if dataLength =? 0 then
        m2 ← zm_switch (ev_m e1) slba;
        Ok (S_OK, ev_set_sequence (ev_set_m e1 m2) (u64 (ev_sequence e1 + 1)))
      else
        '(ret2, buf2, e2) ←
          (if ZNS_ALIGMENT <? dataLength + SIZE_HEAD then
             '(r, b2, m2) ← zm_read (ev_m e1) (u64 (readSlba + 1)) (u32 (dataLength + SIZE_HEAD - ZNS_ALIGMENT));
             if ctrue r then Ok (r, buf1, ev_set_m e1 m2) else
             bf ← lift (buf_write buf1 ZNS_ALIGMENT b2); Ok (r, bf, ev_set_m e1 m2)
           else Ok (0, buf1, e1));
        if ctrue ret2 then Ok (S_IOError, e2) else
        e3 ← load_record fuel' buf_ok e2 buf2;
        load_loop fuel' buf_ok e3 buf2 slba (u64 (readSlba + (SIZE_HEAD + dataLength) / ZNS_ALIGMENT))
  end.

Definition ClearMetaData e : zenv W M :=
  let ps := omap snd (ev_files e) in
  ev_set_files (foldl heap_delete e ps) [].

(** [zrocks_node_set] for every piece of every file *)
Fixpoint set_pieces (w : W) (level : Z) (maps : list Z) : outcome W :=
  match maps with
  | [] => Ok w
  | m :: maps' => w1 ← zr_node_set w (zmap_node_id m) level (zmap_num m); set_pieces w1 level maps'
  end.

Fixpoint set_files e (w : W) (fs : list (bytes * option nat)) : outcome W :=
  match fs with
  | [] => Ok w
  | (_, None) :: fs' => set_files e w fs'
  | (_, Some p) :: fs' =>
      f ← lift (deref e p);
      w1 ← set_pieces w (zf_level f) (zf_map f);
      set_files e w1 fs'
  end.

Definition SetNodesInfo e : outcome (zenv W M) :=
  w ← set_files e (ev_w e) (ev_files e); Ok (ev_set_w e w).

(** The heads of the metadata zones: the valid ones by sequence number. *)
Fixpoint head_loop e buf (seqs : list (Z * Z)) (slbas : list Z)
    : outcome (Status * list (Z * Z) * bytes * zenv W M) :=
  match slbas with
  | [] => Ok (S_OK, seqs, buf, e)
  | slba :: slbas' =>
      '(ret, b, m) ← zm_read (ev_m e) slba SIZE_ZONE_HEAD;
      let e1 := ev_set_m e m in
      if ctrue ret then Ok (S_IOError, seqs, buf, e1) else
      buf1 ← lift (buf_write buf 0 b);
      magic ← lift (buf_read buf1 0 1);
      s4 ← lift (buf_read buf1 4 4);
      let sequence := le_read s4 in
      if le_read magic =? METADATA_MAGIC then
        let e2 := if ev_sequence e1 <? sequence then ev_set_sequence e1 sequence else e1 in
        head_loop e2 buf1 (seq_set sequence slba seqs) slbas'
      else head_loop e1 buf1 seqs slbas'
  end.

(** From [LOAD_END] on. *)
Definition load_end e : outcome (Status * zenv W M) :=
  e1 ← SetNodesInfo e;
  w ← zr_clear_invalid_nodes (ev_w e1);
  '(_, e2) ← FlushMetaData pad_head pad_level pad_tail pad_zone (ev_set_w e1 w);
  Ok (S_OK, e2).

(** [LoadMetaData]; [alloc_ok]: [metaBuf] was allocated.  The loop over the zones ends in its first
    turn, the zone of the highest sequence number. *)
Definition LoadMetaData (fuel : nat) (alloc_ok buf_ok : bool) e : outcome (Status * zenv W M) :=
  if negb alloc_ok then Ok (S_MemoryLimit, e) else
  '(st, seqs, buf, e1) ← head_loop e [] [] (zm_slbas (ev_m e));
  if decide (st = S_OK) then
    match last seqs with
    | None => load_end e1
    | Some (_, slba) =>
        '(st2, e2) ← load_loop fuel buf_ok (ClearMetaData e1) buf slba (u64 (slba + SIZE_ZONE_HEAD / ZNS_ALIGMENT));
        if decide (st2 = S_OK) then load_end e2 else Ok (st2, e2)
    end
  else Ok (st, e1).

End Load.
