(* ===== verification/EnvLog.v ===== *)
(** The metadata log as a sequence of records: encodings and their inverses, the
    table that a sequence of records describes, and the proof that the loader of
    EnvLoad.v reads a record back as what the writers of EnvMeta.v wrote. *)

From S2P Require Import Prelude Types EnvTypes EnvMeta EnvFile EnvLaws EnvFileOk EnvLoad.

(** * Encodings *)

Lemma le_read_bytes n : forall x, le_read (le_bytes n x) = x mod 256 ^ Z.of_nat n.
Proof.
  induction n as [|n IH]; intros x; [by rewrite Z.mod_1_r|]. cbn [le_bytes le_read]. rewrite IH.
  replace (Z.of_nat (S n)) with (Z.succ (Z.of_nat n)) by lia. rewrite Z.pow_succ_r by lia.
  rewrite (Z.rem_mul_r x 256 (256 ^ Z.of_nat n)); lia.
Qed.

Lemma le_read_small n x : 0 <= x < 256 ^ Z.of_nat n -> le_read (le_bytes n x) = x.
Proof. intros. rewrite le_read_bytes. by apply Z.mod_small. Qed.

Lemma i8_byte x : - 128 <= x < 128 -> i8 (x mod 256) = x.
Proof. intros. unfold i8. zdiv. Qed.

(** A file name that the log can hold. *)
Definition name_ok (n : bytes) : Prop :=
  Z.of_nat (length n) < FILE_NAME_LEN /\ Forall (fun x => 0 < x < 256) n.

Lemma c_str_zero n rest : Forall (fun x => 0 < x < 256) n -> c_str (n ++ 0 :: rest) = Some n.
Proof.
  induction 1 as [|x n Hx _ IH]; [done|]. cbn [app c_str]. replace (x =? 0) with false by lia. by rewrite IH.
Qed.

(** A name in its field: terminated, within [FILE_NAME_LEN] bytes. *)
Lemma name_field_ok n :
  name_ok n -> exists nm, name_field n = Some nm /\ length nm = Z.to_nat FILE_NAME_LEN /\
    (forall rest, c_str (nm ++ rest) = Some n).
Proof.
  intros [Hl Hn]. unfold name_field. replace (FILE_NAME_LEN <? Z.of_nat (length n)) with false by lia.
  eexists. split; [reflexivity|]. unfold FILE_NAME_LEN in *. split.
  - rewrite length_app, length_replicate. lia.
  - intros rest. destruct (Z.to_nat 128 - length n)%nat as [|k] eqn:E; [lia|].
    rewrite <- app_assoc. cbn [replicate app]. by apply c_str_zero.
Qed.

(** ** Parts of a buffer *)

Lemma slice_app {A} (pre b post : list A) (i n : nat) :
  (i + n <= length b)%nat -> take n (drop (length pre + i) (pre ++ b ++ post)) = take n (drop i b).
Proof.
  intros Hi. rewrite drop_app_ge by lia. replace (length pre + i - length pre)%nat with i by lia.
  rewrite drop_app_le by lia. rewrite take_app_le by (rewrite length_drop; lia). done.
Qed.

Lemma slice_mid {A} (a b c : list A) n : n = length a -> take (length b) (drop n (a ++ b ++ c)) = b.
Proof. intros ->. by rewrite drop_app_length, take_app_length. Qed.

Lemma buf_read_app pre b post i (n : nat) :
  (Z.to_nat i + n <= length b)%nat -> 0 <= i -> Z.of_nat (length (pre ++ b ++ post)) <= FILE_METADATA_BUF_SIZE ->
  buf_read (pre ++ b ++ post) (Z.of_nat (length pre) + i) n = Some (take n (drop (Z.to_nat i) b)).
Proof.
  intros Hi H0 Hsz. rewrite !length_app in Hsz. unfold buf_read.
  replace (FILE_METADATA_BUF_SIZE <? _) with false by lia. f_equal.
  replace (Z.to_nat (Z.of_nat (length pre) + i)) with (length pre + Z.to_nat i)%nat by lia.
  rewrite <- (slice_app pre b post (Z.to_nat i) n Hi).
  rewrite take_app_le; [done|]. rewrite length_drop, !length_app. lia.
Qed.

Lemma buf_read_start pre b post (n : nat) :
  (n <= length b)%nat -> Z.of_nat (length (pre ++ b ++ post)) <= FILE_METADATA_BUF_SIZE ->
  buf_read (pre ++ b ++ post) (Z.of_nat (length pre)) n = Some (take n b).
Proof.
  intros Hn Hsz. rewrite <- (Z.add_0_r (Z.of_nat (length pre))), buf_read_app by (done || simpl; lia). done.
Qed.

Lemma buf_maps_app ws : forall pre post,
  Forall (fun w => 0 <= w < 2 ^ 64) ws -> Z.of_nat (length (pre ++ map_bytes_of ws ++ post)) <= FILE_METADATA_BUF_SIZE ->
  buf_maps (pre ++ map_bytes_of ws ++ post) (Z.of_nat (length pre)) (length ws) = Some ws.
Proof.
  induction ws as [|w ws IH]; intros pre post Hws Hsz; [done|]. inversion Hws as [|? ? Hw Hws']; subst.
  cbn [length buf_maps]. change (map_bytes_of (w :: ws)) with (le_bytes 8 w ++ map_bytes_of ws) in *.
  rewrite <- app_assoc in *. rewrite buf_read_start by (done || rewrite length_le_bytes; lia). cbn [mbind option_bind].
  replace (Z.of_nat (length pre) + SIZE_MAP) with (Z.of_nat (length (pre ++ le_bytes 8 w)))
    by (rewrite length_app, length_le_bytes; unfold SIZE_MAP; lia).
  rewrite (app_assoc pre) in *. rewrite IH by done. cbn [mbind option_bind]. f_equal. f_equal.
  rewrite take_ge by (rewrite length_le_bytes; lia). by apply le_read_small.
Qed.

(** * Tables *)

(** What the log says of a file; [fe_own] is the name the file object has, which is not
    the name it is found by once a record renamed it. *)
Record fent := { fe_own : bytes; fe_level : Z; fe_size : Z; fe_map : list Z }.

Abbreviation table := (gmap bytes fent).
Implicit Types (R : table).

Definition ent_ok (fe : fent) : Prop :=
  name_ok (fe_own fe) /\ - 128 <= fe_level fe < 128 /\ 0 <= fe_size fe < 2 ^ 64 /\
  Forall (fun w => 0 <= w < 2 ^ 64) (fe_map fe) /\ Z.of_nat (length (fe_map fe)) < 2 ^ 28.

(** The records: the metadata of a file (its new pieces, or with [replace] all of
    them), a deletion and a renaming. *)
Inductive lrec :=
  | L_File (replace : bool) (fe : fent)
  | L_Delete (n : bytes)
  | L_Replace (src dst : bytes).

Definition apply_file (replace : bool) (fe : fent) R : table :=
  match R !! fe_own fe with
  | Some old => <[fe_own fe := {| fe_own := fe_own fe; fe_level := fe_level fe; fe_size := fe_size fe;
                                  fe_map := (if replace then [] else fe_map old) ++ fe_map fe |}]> R
  | None => <[fe_own fe := fe]> R
  end.

Definition apply_rec (r : lrec) R : table :=
  match r with
  | L_File replace fe => apply_file replace fe R
  | L_Delete n => delete n R
  | L_Replace src dst =>
      match R !! src with
      | Some fe => <[dst := fe]> (delete src R)
      | None => delete dst (delete src R)
      end
  end.

(** The record can be written: names fit their fields, a record fits a block.  The file a
    record is about still has its own name. *)
Definition rec_ok (r : lrec) R : Prop :=
  match r with
  | L_File _ fe => ent_ok fe /\ (length (fe_map fe) <= 491)%nat /\ (forall old, R !! fe_own fe = Some old -> fe_own old = fe_own fe)
  | L_Delete n => name_ok n
  | L_Replace src dst => name_ok src /\ name_ok dst
  end.

Fixpoint replay (rs : list lrec) R : table :=
  match rs with [] => R | r :: rs' => replay rs' (apply_rec r R) end.

Fixpoint recs_ok (rs : list lrec) R : Prop :=
  match rs with [] => True | r :: rs' => rec_ok r R /\ recs_ok rs' (apply_rec r R) end.

Lemma replay_app rs rs' R : replay (rs ++ rs') R = replay rs' (replay rs R).
Proof. revert R. induction rs as [|r rs IH]; intros R; [done|]. apply IH. Qed.

Lemma recs_ok_app rs rs' R : recs_ok (rs ++ rs') R <-> recs_ok rs R /\ recs_ok rs' (replay rs R).
Proof.
  revert R. induction rs as [|r rs IH]; intros R; cbn [app recs_ok replay]; [by intuition|].
  rewrite IH. by intuition.
Qed.

(** * The table in memory *)

Section Loaded.

Context {W M : Type}.
Implicit Types (e : zenv W M) (p : nat).

Definition file_is (f : ZNSFile) (fe : fent) : Prop :=
  zf_name f = fe_own fe /\ zf_level f = fe_level fe /\ zf_size f = fe_size fe /\ zf_map f = fe_map fe /\
  zf_startIndex f = 0.

(** The table of [e] is [R]: every name leads to its own object. *)
Record loaded e R : Prop := {
  ld_some : forall n fe, R !! n = Some fe -> exists p f,
    map_find n (ev_files e) = Some (Some p) /\ deref e p = Some f /\ file_is f fe;
  ld_none : forall n p, map_find n (ev_files e) = Some (Some p) -> is_Some (R !! n);
  ld_inj : forall n n' p, map_find n (ev_files e) = Some (Some p) -> map_find n' (ev_files e) = Some (Some p) -> n = n';
  ld_fresh : forall p, (ev_next e <= p)%nat -> deref e p = None;
  ld_sorted : keys_sorted (ev_files e)
}.

(** What loading a record leaves alone. *)
Definition same_rest e e' : Prop :=
  ev_w e' = ev_w e /\ ev_m e' = ev_m e /\ ev_sequence e' = ev_sequence e.

(** [files[n]] does not change the table. *)
Lemma loaded_at e R n :
  loaded e R -> exists e', files_at e n = (default None (map_find n (ev_files e)), e') /\ loaded e' R /\
    same_rest e e' /\ ev_heap e' = ev_heap e /\ ev_next e' = ev_next e /\
    (forall k, default None (map_find k (ev_files e')) = default None (map_find k (ev_files e))).
Proof.
  intros L. unfold files_at. destruct (map_find n (ev_files e)) as [q|] eqn:Hq; [by exists e|].
  eexists. split; [reflexivity|]. split_and!; try done.
  - destruct L as [L1 L2 L3 L4 L5].
    assert (Hsame : forall k p, map_find k (map_set n None (ev_files e)) = Some (Some p) <-> map_find k (ev_files e) = Some (Some p)).
    { intros k p. destruct (decide (k = n)) as [->|Hk]; [by rewrite map_find_set_eq, Hq|by rewrite map_find_set_ne]. }
    constructor; cbn [ev_files ev_set_files].
    + intros k fe Hk. destruct (L1 k fe Hk) as (p & f & H1 & H2). exists p, f. by rewrite Hsame.
    + intros k p. rewrite Hsame. apply L2.
    + intros k k' p. rewrite !Hsame. apply L3.
    + exact L4.
    + auto with sorted.
  - intros k. cbn [ev_files ev_set_files]. destruct (decide (k = n)) as [->|Hk];
      [by rewrite map_find_set_eq, Hq|by rewrite map_find_set_ne].
Qed.

(** The object of [n] gets new contents. *)
Lemma loaded_set e R n p f fe :
  loaded e R -> file_is f fe ->
  (map_find n (ev_files e) = Some (Some p) \/ ((p < ev_next e)%nat /\ forall k, map_find k (ev_files e) <> Some (Some p))) ->
  loaded (ev_set_files (store e p f) (map_set n (Some p) (ev_files e))) (<[n := fe]> R).
Proof.
  intros [L1 L2 L3 L4 L5] Hf Hp.
  assert (Hother : forall k, k <> n -> map_find k (ev_files e) <> Some (Some p)).
  { intros k Hk Hkp. destruct Hp as [Hp|[_ Hp]]; [by eapply Hk, L3|by eapply Hp]. }
  constructor; cbn [ev_files ev_set_files store ev_set_heap].
  - intros k g Hk. destruct (decide (k = n)) as [->|Hne].
    + rewrite lookup_insert_eq in Hk. injection Hk as <-. exists p, f. rewrite map_find_set_eq.
      split_and!; [done|apply (deref_store_eq e)|done].
    + rewrite lookup_insert_ne in Hk by done. destruct (L1 k g Hk) as (q & h & H1 & H2 & H3). exists q, h.
      rewrite map_find_set_ne by done. split_and!; [done| |done].
      etrans; [|exact H2]. apply (deref_store_ne e). intros ->. by apply (Hother k).
  - intros k q. destruct (decide (k = n)) as [->|Hne].
    + by rewrite lookup_insert_eq.
    + rewrite map_find_set_ne, lookup_insert_ne by done. apply L2.
  - intros k k' q. destruct (decide (k = n)) as [->|Hne], (decide (k' = n)) as [->|Hne']; try done;
      rewrite ?map_find_set_eq, ?map_find_set_ne by done.
    + intros [= <-] H. by destruct (Hother k' Hne').
    + intros H [= <-]. by destruct (Hother k Hne).
    + apply L3.
  - intros q Hq. change (deref (store e p f) q = None). destruct (decide (q = p)) as [->|Hne].
    + destruct Hp as [Hp|[Hp _]]; [|cbn in Hq; lia]. destruct (L2 _ _ Hp) as [g Hg].
      destruct (L1 _ _ Hg) as (p' & h & H1 & H2 & _). assert (p' = p) as -> by congruence.
      rewrite (L4 p Hq) in H2. done.
    + rewrite deref_store_ne by done. by apply L4.
  - auto with sorted.
Qed.

(** A name disappears. *)
Lemma loaded_erase e R n :
  loaded e R -> loaded (ev_set_files e (map_erase n (ev_files e))) (delete n R).
Proof.
  intros [L1 L2 L3 L4 L5].
  assert (Hs : forall k q, map_find k (map_erase n (ev_files e)) = Some q -> k <> n /\ map_find k (ev_files e) = Some q).
  { intros k q. destruct (decide (k = n)) as [->|Hk]; [by rewrite map_find_erase_eq|by rewrite map_find_erase_ne]. }
  constructor; cbn [ev_files ev_set_files].
  - intros k fe [Hk Hfe]%lookup_delete_Some. destruct (L1 k fe Hfe) as (p & f & H1 & H2). exists p, f.
    by rewrite map_find_erase_ne.
  - intros k p [Hk H]%Hs. rewrite lookup_delete_ne by done. by eapply L2.
  - intros k k' p [_ H]%Hs [_ H']%Hs. by eapply L3.
  - exact L4.
  - auto with sorted.
Qed.

(** A name gets a null pointer. *)
Lemma loaded_null e R n :
  loaded e R -> loaded (ev_set_files e (map_set n None (ev_files e))) (delete n R).
Proof.
  intros [L1 L2 L3 L4 L5].
  assert (Hs : forall k p, map_find k (map_set n None (ev_files e)) = Some (Some p) -> k <> n /\ map_find k (ev_files e) = Some (Some p)).
  { intros k p. destruct (decide (k = n)) as [->|Hk]; [by rewrite map_find_set_eq|by rewrite map_find_set_ne]. }
  constructor; cbn [ev_files ev_set_files].
  - intros k fe [Hk Hfe]%lookup_delete_Some. destruct (L1 k fe Hfe) as (p & f & H1 & H2). exists p, f.
    by rewrite map_find_set_ne.
  - intros k p [Hk H]%Hs. rewrite lookup_delete_ne by done. by eapply L2.
  - intros k k' p [_ H]%Hs [_ H']%Hs. by eapply L3.
  - exact L4.
  - auto with sorted.
Qed.

Lemma loaded_ext e e' R :
  ev_files e' = ev_files e -> ev_heap e' = ev_heap e -> ev_next e' = ev_next e -> loaded e R -> loaded e' R.
Proof.
  intros Hf Hh Hn [L1 L2 L3 L4]. unfold deref in *. constructor; unfold deref; rewrite ?Hf, ?Hh, ?Hn; auto.
Qed.

End Loaded.

(** * Reading a record back *)

Section Records.

Context (pad_head pad_level pad_tail pad_zone : bytes).
Context (Hpads : pads_ok pad_head pad_level pad_tail pad_zone).
Context {W M : Type}.
Implicit Types (e : zenv W M) (p : nat) (fe : fent).

(** The metadata of a file as [WriteMetaToBuf] writes them. *)
Definition ent_bytes (fe : fent) : bytes :=
  default [] (file_meta pad_level pad_tail (fe_level fe) (fe_size fe) (i32 (Z.of_nat (length (fe_map fe)))) (fe_own fe)) ++
  map_bytes_of (fe_map fe).

Lemma length_ent_bytes fe : name_ok (fe_own fe) -> length (ent_bytes fe) = (152 + 8 * length (fe_map fe))%nat.
Proof using Hpads.
  intros Hn. unfold ent_bytes. rewrite length_app, length_map_bytes_of. destruct (name_field_ok _ Hn) as (nm & Hnm & _).
  destruct (file_meta _ _ _ _ _ _) as [fm|] eqn:Hfm; [simpl; by rewrite (file_meta_length _ _ _ _ Hpads _ _ _ _ _ Hfm)|].
  unfold file_meta in Hfm. by rewrite Hnm in Hfm.
Qed.

(** The fields of the head of a file's metadata. *)
Lemma file_meta_fields fe :
  ent_ok fe -> exists fm, ent_bytes fe = fm ++ map_bytes_of (fe_map fe) /\ length fm = 152%nat /\
    i8 (le_read (take 1 fm)) = fe_level fe /\ le_read (take 8 (drop 8 fm)) = fe_size fe /\
    i32 (le_read (take 4 (drop 16 fm))) = Z.of_nat (length (fe_map fe)) /\
    c_str (take (Z.to_nat FILE_NAME_LEN) (drop 20 fm)) = Some (fe_own fe).
Proof using Hpads.
  intros (Hn & Hlv & Hsz & _ & Hlen). destruct (name_field_ok _ Hn) as (nm & Hnm & Hnl & Hstr).
  unfold ent_bytes. destruct (file_meta _ _ _ _ _ _) as [fm|] eqn:Hfm; [|unfold file_meta in Hfm; by rewrite Hnm in Hfm].
  exists fm. split; [done|]. split; [by rewrite (file_meta_length _ _ _ _ Hpads _ _ _ _ _ Hfm)|].
  destruct Hpads as (_ & P1 & P2 & _). unfold file_meta in Hfm. rewrite Hnm in Hfm. cbn [mbind option_bind] in Hfm.
  rewrite (i32_small (Z.of_nat _)) in Hfm by lia.
  set (L := le_bytes 1 (fe_level fe)) in *. set (S := le_bytes 8 (fe_size fe)) in *.
  set (N := le_bytes 4 (Z.of_nat (length (fe_map fe)))) in *.
  assert (HL : length L = 1%nat) by apply length_le_bytes. assert (HS : length S = 8%nat) by apply length_le_bytes.
  assert (HN : length N = 4%nat) by apply length_le_bytes. apply (inj Some) in Hfm as <-.
  split_and!.
  - rewrite <- HL, take_app_length. subst L. rewrite le_read_bytes. apply i8_byte. lia.
  - rewrite app_assoc, <- HS. rewrite slice_mid by (rewrite length_app; lia). subst S. by apply le_read_small.
  - rewrite (app_assoc _ _ (S ++ _)), (app_assoc _ _ (N ++ _)), <- HN. rewrite slice_mid by (rewrite !length_app; lia).
    subst N. rewrite le_read_small by lia. apply i32_small. lia.
  - rewrite (app_assoc _ _ (S ++ _)), (app_assoc _ _ (N ++ _)), (app_assoc _ _ (nm ++ _)), <- Hnl.
    rewrite slice_mid by (rewrite !length_app; lia). rewrite <- (app_nil_r nm). apply Hstr.
Qed.

(** [RecoverFileFromBuf] applies the record. *)
Lemma recover_file_ok buf_ok e R fe replace pre post :
  loaded e R -> ent_ok fe -> (forall old, R !! fe_own fe = Some old -> fe_own old = fe_own fe) ->
  Z.of_nat (length (pre ++ ent_bytes fe ++ post)) <= FILE_METADATA_BUF_SIZE ->
  exists e', RecoverFileFromBuf buf_ok e (pre ++ ent_bytes fe ++ post) (Z.of_nat (length pre)) replace =
      Some (Z.of_nat (length (ent_bytes fe)), e') /\
    loaded e' (apply_file replace fe R) /\ same_rest e e'.
Proof using Hpads.
  intros L Hok Hown Hsz. pose proof Hok as (Hn & _ & _ & Hws & Hlen).
  destruct (file_meta_fields fe Hok) as (fm & Hfm & Hl & F1 & F2 & F3 & F4).
  pose proof (length_ent_bytes fe Hn) as Hlb. rewrite Hfm in *. rewrite <- app_assoc in *.
  unfold RecoverFileFromBuf. rewrite buf_read_start by (done || unfold SIZE_FILE_META; lia). cbn [mbind option_bind].
  rewrite (take_ge fm (Z.to_nat SIZE_FILE_META)) by (unfold SIZE_FILE_META; lia). rewrite F1, F2, F3, F4. cbn [mbind option_bind].
  destruct (loaded_at e R (fe_own fe) L) as (e1 & -> & L1 & (Hr1 & Hr2 & Hr3) & Hh & Hnx & Hd).
  rewrite Nat2Z.id, app_assoc.
  replace (Z.of_nat (length pre) + SIZE_FILE_META) with (Z.of_nat (length (pre ++ fm)))
    by (rewrite length_app; unfold SIZE_FILE_META; lia).
  rewrite (buf_maps_app (fe_map fe)) by (rewrite <- ?app_assoc; done).
  assert (Hlen32 : u32 (SIZE_FILE_META + SIZE_MAP * Z.max 0 (Z.of_nat (length (fe_map fe)))) =
    Z.of_nat (length (fm ++ map_bytes_of (fe_map fe)))).
  { rewrite Hlb. unfold SIZE_FILE_META, SIZE_MAP. rewrite wrap_small by lia. lia. }
  unfold apply_file. destruct (R !! fe_own fe) as [old|] eqn:HR.
  - destruct (ld_some _ _ L _ _ HR) as (p & f & Hp & Hf & Hf1 & Hf2 & Hf3 & Hf4 & Hf5). rewrite Hp. cbn [from_option id].
    assert (Hf' : deref e1 p = Some f) by (unfold deref in *; by rewrite Hh). rewrite Hf'. cbn [mbind option_bind].
    rewrite Hlen32. eexists. split; [reflexivity|]. split; [|done].
    assert (Hp1 : map_find (fe_own fe) (ev_files e1) = Some (Some p)).
    { specialize (Hd (fe_own fe)). rewrite Hp in Hd. simpl in Hd. destruct (map_find _ (ev_files e1)) as [x|]; simpl in Hd; congruence. }
    assert (Hnm : zf_name f = fe_own fe) by (rewrite Hf1; auto).
    destruct replace; cbn [zf_name zf_set_map zf_set_level zf_set_size zf_map]; rewrite Hnm;
      (apply (loaded_set e1 R (fe_own fe) p); [exact L1| |by left]); split_and!; cbn; auto; by rewrite Hf4.
  - destruct (default None (map_find (fe_own fe) (ev_files e))) as [p|] eqn:Hq.
    { destruct (map_find (fe_own fe) (ev_files e)) as [x|] eqn:Hx; simpl in Hq; [|done]. subst x.
      destruct (ld_none _ _ L _ _ Hx) as [fe' Hfe']. congruence. }
    unfold heap_new. cbn [mbind option_bind]. rewrite Hlen32. eexists. split; [reflexivity|]. split; [|done].
    match goal with |- loaded (ev_set_files (store ?e2 ?p ?f) _) _ =>
      apply (loaded_set e2 R (fe_own fe) p f fe); [|by split_and!|right; split; [simpl; lia|]] end.
    + destruct L1 as [A1 A2 A3 A4 A5]. constructor; cbn [ev_files ev_set_next store ev_set_heap].
      * intros k g Hk. destruct (A1 k g Hk) as (q & h & B1 & B2 & B3). exists q, h. split_and!; auto.
        etrans; [|exact B2]. apply (deref_store_ne e1). intros ->. by rewrite A4 in B2.
      * exact A2.
      * exact A3.
      * intros q Hq'. etrans; [apply (deref_store_ne e1); cbn in Hq'; lia|]. apply A4. cbn in Hq'. lia.
      * exact A5.
    + intros k Hk. cbn in Hk. destruct (ld_none _ _ L1 _ _ Hk) as [g Hg].
      destruct (ld_some _ _ L1 _ _ Hg) as (q & h & B1 & B2 & _). assert (q = ev_next e1) as -> by congruence.
      by rewrite (ld_fresh _ _ L1) in B2.
Qed.

(** ** Records in blocks *)

Definition rec_bytes (r : lrec) : bytes :=
  default [] match r with
             | L_File gc fe => file_record pad_head (if gc then OP_GCChange else OP_Update) (ent_bytes fe)
             | L_Delete n => delete_record pad_head n
             | L_Replace src dst => replace_record pad_head src dst
             end.

Lemma length_metadata_head tag len : length (metadata_head pad_head tag len) = 12%nat.
Proof using Hpads. destruct Hpads as (P & _). unfold metadata_head. by rewrite !length_app, !length_le_bytes, P. Qed.

Lemma sector_align_one n : 0 < n <= ZNS_ALIGMENT -> sector_align n = ZNS_ALIGMENT.
Proof using. intros Hn. unfold sector_align, ZNS_ALIGMENT in *. destruct (n mod 4096 =? 0) eqn:E; simpl; zdiv. Qed.

(** The head goes in front of the data. *)
Lemma seal_record_ok tag n buf :
  0 < n <= ZNS_ALIGMENT -> length buf = Z.to_nat ZNS_ALIGMENT ->
  seal_record pad_head tag n buf = Some (metadata_head pad_head tag 4084 ++ drop 12 buf).
Proof using Hpads.
  intros Hn Hb. unfold seal_record, blit. rewrite sector_align_one, length_metadata_head, Hb by done.
  unfold ZNS_ALIGMENT. change (Z.of_nat (Z.to_nat 4096) <? 0 + Z.of_nat 12) with false. done.
Qed.

Lemma blit_block b :
  (length b <= Z.to_nat 4084)%nat -> blit block SIZE_HEAD b = Some (replicate 12 0 ++ b ++ replicate (Z.to_nat 4084 - length b) 0).
Proof using.
  intros Hb. unfold blit, block, SIZE_HEAD, ZNS_ALIGMENT. rewrite length_replicate.
  ltb_is false. rewrite take_replicate, drop_replicate. do 4 f_equal; lia.
Qed.

(** The shape of the records: head, data, zeros. *)
Lemma file_record_ok tag b :
  (length b <= Z.to_nat 4084)%nat -> b <> [] ->
  file_record pad_head tag b = Some (metadata_head pad_head tag 4084 ++ b ++ replicate (Z.to_nat 4084 - length b) 0).
Proof using Hpads.
  intros Hb Hne. unfold file_record. rewrite blit_block by done. cbn [mbind option_bind].
  rewrite seal_record_ok; [|unfold SIZE_HEAD, ZNS_ALIGMENT; lia|].
  - by rewrite drop_app_ge, length_replicate, Nat.sub_diag, drop_0 by (rewrite length_replicate; lia).
  - rewrite !length_app, !length_replicate. unfold ZNS_ALIGMENT. lia.
Qed.

Lemma delete_record_ok n :
  name_ok n -> delete_record pad_head n = Some (metadata_head pad_head OP_Delete 4084 ++ n ++ replicate (Z.to_nat 4084 - length n) 0).
Proof using Hpads.
  intros [Hn _]. unfold FILE_NAME_LEN in Hn. unfold delete_record. rewrite blit_block by lia. cbn [mbind option_bind].
  rewrite seal_record_ok; [|unfold SIZE_HEAD, FILE_NAME_LEN, ZNS_ALIGMENT; lia|].
  - by rewrite drop_app_ge, length_replicate, Nat.sub_diag, drop_0 by (rewrite length_replicate; lia).
  - rewrite !length_app, !length_replicate. unfold ZNS_ALIGMENT. lia.
Qed.

Lemma replace_record_ok src dst :
  name_ok src -> name_ok dst ->
  replace_record pad_head src dst =
  Some (metadata_head pad_head OP_Replace 4084 ++ src ++ replicate (128 - length src) 0 ++ dst ++ replicate (Z.to_nat 3956 - length dst) 0).
Proof using Hpads.
  intros [Hs _] [Hd _]. unfold FILE_NAME_LEN in Hs, Hd. unfold replace_record. rewrite blit_block by lia. cbn [mbind option_bind].
  unfold blit at 1. rewrite !length_app, !length_replicate. unfold SIZE_HEAD, FILE_NAME_LEN.
  ltb_is false. cbn [mbind option_bind].
  rewrite seal_record_ok; [|unfold ZNS_ALIGMENT; lia|].
  - f_equal. f_equal. rewrite take_app_ge, length_replicate by (rewrite length_replicate; lia).
    replace (Z.to_nat (12 + 128) - 12)%nat with 128%nat by lia.
    rewrite take_app_ge, take_replicate by lia. rewrite <- !app_assoc, drop_app_ge, length_replicate by (rewrite length_replicate; lia).
    rewrite Nat.sub_diag, drop_0. f_equal. replace (_ `min` _)%nat with (128 - length src)%nat by lia. f_equal. f_equal.
    rewrite drop_app_ge, length_replicate by (rewrite length_replicate; lia). rewrite drop_app_ge, drop_replicate by lia. f_equal. lia.
  - rewrite !length_app, length_take, length_drop, !length_app, !length_replicate. unfold ZNS_ALIGMENT. lia.
Qed.

(** Decides the tests of the tag. *)
Ltac tag_case :=
  repeat match goal with |- context [?a =? ?b] => let v := eval vm_compute in (a =? b) in change (a =? b) with v end;
  cbv iota.

(** The tag of the record in the buffer. *)
Lemma read_tag tag len rest :
  0 <= tag < 256 -> Z.of_nat (length (metadata_head pad_head tag len ++ rest)) <= FILE_METADATA_BUF_SIZE ->
  buf_read (metadata_head pad_head tag len ++ rest) 8 1 = Some [tag].
Proof using.
  intros Ht Hsz. unfold metadata_head in *.
  set (A := le_bytes 4 0 ++ le_bytes 4 len) in *.
  replace ((le_bytes 4 0 ++ le_bytes 4 len ++ le_bytes 1 tag ++ pad_head) ++ rest) with (A ++ le_bytes 1 tag ++ (pad_head ++ rest)) in *
    by (subst A; by rewrite <- !app_assoc).
  change 8 with (Z.of_nat (length A)). rewrite buf_read_start by done. cbn [le_bytes take]. by rewrite Z.mod_small.
Qed.

Lemma read_length tag len rest :
  0 <= len < 2 ^ 32 -> Z.of_nat (length (metadata_head pad_head tag len ++ rest)) <= FILE_METADATA_BUF_SIZE ->
  exists b, buf_read (metadata_head pad_head tag len ++ rest) 4 4 = Some b /\ le_read b = len.
Proof using.
  intros Ht Hsz. unfold metadata_head in *.
  replace ((le_bytes 4 0 ++ le_bytes 4 len ++ le_bytes 1 tag ++ pad_head) ++ rest)
    with (le_bytes 4 0 ++ le_bytes 4 len ++ (le_bytes 1 tag ++ pad_head ++ rest)) in * by (by rewrite <- !app_assoc).
  change 4 with (Z.of_nat (length (le_bytes 4 0))) at 1. rewrite buf_read_start by done.
  eexists. split; [reflexivity|]. rewrite take_ge by done. apply le_read_small. lia.
Qed.

(** A string in the data of a record. *)
Lemma read_str pre n k rest :
  name_ok n -> (0 < k)%nat -> buf_str (pre ++ n ++ replicate k 0 ++ rest) (Z.of_nat (length pre)) = Some n.
Proof using.
  intros [_ Hn] Hk. unfold buf_str. rewrite Nat2Z.id, drop_app_length, <- !app_assoc.
  destruct k as [|k]; [lia|]. cbn [replicate app]. by apply c_str_zero.
Qed.

Lemma load_replace_ok e R src dst :
  loaded e R -> exists e1, files_at e src = (default None (map_find src (ev_files e)), e1) /\
    loaded (ev_set_files e1 (map_set dst (default None (map_find src (ev_files e))) (map_erase src (ev_files e1))))
      (apply_rec (L_Replace src dst) R) /\ same_rest e e1.
Proof using.
  intros L. destruct (loaded_at e R src L) as (e1 & Hat & L1 & Hr & Hh & Hnx & Hd). exists e1. split; [done|]. split; [|done].
  pose proof (loaded_erase e1 R src L1) as L2. cbn [apply_rec]. destruct (R !! src) as [fe|] eqn:HR.
  - destruct (ld_some _ _ L1 _ _ HR) as (p & f & Hp & Hf & Hfe). rewrite <- Hd, Hp. cbn [from_option id].
    set (e2 := ev_set_files e1 (map_erase src (ev_files e1))) in *.
    apply (loaded_ext (ev_set_files (store e2 p f) (map_set dst (Some p) (ev_files e2)))); try done.
    + symmetry. by apply insert_id.
    + apply loaded_set; [done|done|]. right. split.
      * destruct (decide (p < ev_next e2)%nat) as [|Hge]; [done|]. rewrite (ld_fresh _ _ L1 p) in Hf; [done|]. cbn in Hge. lia.
      * intros k Hk. cbn in Hk. destruct (decide (k = src)) as [->|Hne]; [by rewrite map_find_erase_eq in Hk|].
        rewrite map_find_erase_ne in Hk by done. by apply Hne, (ld_inj _ _ L1 _ _ p).
  - assert (Hq : default None (map_find src (ev_files e)) = None).
    { rewrite <- Hd. destruct (map_find src (ev_files e1)) as [[p|]|] eqn:Hp; try done.
      destruct (ld_none _ _ L1 _ _ Hp). congruence. }
    rewrite Hq. apply (loaded_null _ _ dst L2).
Qed.

(** The loader applies a record that the writers made. *)
Lemma load_record_ok buf_ok e R r tail :
  loaded e R -> rec_ok r R -> Z.of_nat (length (rec_bytes r ++ tail)) <= FILE_METADATA_BUF_SIZE ->
  exists e', (forall fuel, load_record fuel buf_ok e (rec_bytes r ++ tail) = Ok e') /\ loaded e' (apply_rec r R) /\ same_rest e e'.
Proof using Hpads.
  intros L Hok Hsz. unfold load_record, rec_bytes in *. destruct r as [gc fe|n|src dst]; cbn [rec_ok] in Hok.
  - destruct Hok as (Hent & Hlen & Hown). pose proof (length_ent_bytes fe (proj1 Hent)) as Hlb.
    assert (Hne : ent_bytes fe <> []) by (intros E; rewrite E in Hlb; discriminate Hlb).
    rewrite file_record_ok in * by (done || lia). cbn [from_option id] in *.
    rewrite <- !app_assoc in *. rewrite read_tag; [|destruct gc; unfold OP_GCChange, OP_Update; lia|done].
    cbn [lift mbind outcome_bind le_read].
    destruct (recover_file_ok buf_ok e R fe gc (metadata_head pad_head (if gc then OP_GCChange else OP_Update) 4084)
      (replicate (Z.to_nat 4084 - length (ent_bytes fe)) 0 ++ tail) L Hent Hown Hsz) as (e' & Hrun & L' & Hr).
    rewrite length_metadata_head in Hrun. change (Z.of_nat 12) with SIZE_HEAD in Hrun.
    exists e'. split_and!; [|done|apply Hr..]. destruct gc; intros fuel; tag_case; rewrite Hrun; done.
  - rewrite delete_record_ok in * by done. cbn [from_option id] in *. rewrite <- !app_assoc in *.
    rewrite read_tag; [|unfold OP_Delete; lia|done]. cbn [lift mbind outcome_bind le_read].
    destruct Hok as [Hn1 Hn2]. pose proof Hn1 as Hn1'. unfold FILE_NAME_LEN in Hn1'.
    pose proof (read_str (metadata_head pad_head OP_Delete 4084) n (Z.to_nat 4084 - length n) tail) as Hs.
    rewrite length_metadata_head in Hs. change (Z.of_nat 12) with SIZE_HEAD in Hs.
    tag_case. rewrite Hs by (done || lia). cbn [lift mbind outcome_bind].
    eexists. split; [reflexivity|]. split; [by apply loaded_erase|done].
  - destruct Hok as [Hn1 Hn2]. rewrite replace_record_ok in * by done. cbn [from_option id] in *. rewrite <- !app_assoc in *.
    rewrite read_tag; [|unfold OP_Replace; lia|done]. cbn [lift mbind outcome_bind le_read].
    pose proof (proj1 Hn1) as Hl1. pose proof (proj1 Hn2) as Hl2. unfold FILE_NAME_LEN in Hl1, Hl2.
    pose proof (read_str (metadata_head pad_head OP_Replace 4084) src (128 - length src)
      (dst ++ replicate (Z.to_nat 3956 - length dst) 0 ++ tail)) as Hs1.
    pose proof (read_str (metadata_head pad_head OP_Replace 4084 ++ src ++ replicate (128 - length src) 0) dst
      (Z.to_nat 3956 - length dst) tail) as Hs2.
    rewrite <- !app_assoc in Hs2. rewrite !length_app, length_replicate, length_metadata_head in Hs2.
    replace (Z.of_nat (12 + (length src + (128 - length src)))) with (SIZE_HEAD + FILE_NAME_LEN) in Hs2
      by (unfold SIZE_HEAD, FILE_NAME_LEN; lia).
    rewrite length_metadata_head in Hs1. change (Z.of_nat 12) with SIZE_HEAD in Hs1.
    tag_case. rewrite Hs1 by (done || lia). cbn [lift mbind outcome_bind]. rewrite Hs2 by (done || lia). cbn [lift mbind outcome_bind].
    destruct (load_replace_ok e R src dst L) as (e1 & -> & L1 & Hr). eexists. split; [reflexivity|]. by split.
Qed.

(** ** The checkpoint *)

(** The files of a checkpoint, each under its own name. *)
Fixpoint base_table (fs : list fent) R : table :=
  match fs with [] => R | fe :: fs' => base_table fs' (apply_file false fe R) end.

Fixpoint base_ok (fs : list fent) R : Prop :=
  match fs with
  | [] => True
  | fe :: fs' => ent_ok fe /\ (forall old, R !! fe_own fe = Some old -> fe_own old = fe_own fe) /\ base_ok fs' (apply_file false fe R)
  end.

Definition base_data (fs : list fent) : bytes := mjoin (ent_bytes <$> fs).

Lemma base_loop_ok buf_ok n fs : forall e R pre post i,
  loaded e R -> base_ok fs R -> i = n - Z.of_nat (length fs) -> 0 <= i -> n < 2 ^ 16 ->
  Z.of_nat (length (pre ++ base_data fs ++ post)) <= FILE_METADATA_BUF_SIZE ->
  exists e', (forall fuel, (length fs <= fuel)%nat ->
      base_loop fuel buf_ok e (pre ++ base_data fs ++ post) n i (Z.of_nat (length pre)) = Ok e') /\
    loaded e' (base_table fs R) /\ same_rest e e'.
Proof using Hpads.
  induction fs as [|fe fs IH]; intros e R pre post i L Hok Hi Hi0 Hn Hsz.
  - exists e. split_and!; try done. intros fuel _. destruct fuel; cbn [base_loop]; simpl in Hi; by ltb_is false.
  - destruct Hok as (Hent & Hown & Hok). cbn [length] in Hi.
    change (base_data (fe :: fs)) with (ent_bytes fe ++ base_data fs) in *. rewrite <- app_assoc in *.
    destruct (recover_file_ok buf_ok e R fe false pre (base_data fs ++ post) L Hent Hown Hsz) as (e1 & Hrun & L1 & Hr1).
    assert (Hlen : length (pre ++ ent_bytes fe) = (length pre + length (ent_bytes fe))%nat) by apply length_app.
    destruct (IH e1 _ (pre ++ ent_bytes fe) post (i + 1) L1 Hok) as (e' & Hloop & L' & Hr'); try lia; [by rewrite <- !app_assoc|].
    exists e'. split_and!; [|done|unfold same_rest in *; intuition congruence..].
    intros [|fuel] Hf; [simpl in Hf; lia|]. cbn [base_loop]. ltb_is true. rewrite Hrun. cbn [lift mbind outcome_bind].
    rewrite (wrap_small 16) by lia. rewrite wrap_small; [|rewrite !length_app in Hsz; unfold FILE_METADATA_BUF_SIZE in Hsz; lia].
    rewrite <- app_assoc in Hloop. rewrite <- Nat2Z.inj_add, <- Hlen. apply Hloop. simpl in Hf. lia.
Qed.

(** The record of the checkpoint, without the zone head: [len] bytes. *)
Definition base_rec (fs : list fent) : bytes :=
  let len := sector_align (SIZE_ZONE_HEAD + SIZE_HEAD + 4 + Z.of_nat (length (base_data fs))) - SIZE_ZONE_HEAD in
  metadata_head pad_head OP_Base (u32 (len - SIZE_HEAD)) ++ le_bytes 4 (Z.of_nat (length fs)) ++ base_data fs ++
  replicate (Z.to_nat (len - (SIZE_HEAD + 4 + Z.of_nat (length (base_data fs))))) 0.

Lemma load_base_ok buf_ok e fs tail :
  loaded e ∅ -> base_ok fs ∅ -> Z.of_nat (length fs) < 2 ^ 16 ->
  Z.of_nat (length (base_rec fs ++ tail)) <= FILE_METADATA_BUF_SIZE ->
  exists e', (forall fuel, (length fs <= fuel)%nat -> load_record fuel buf_ok e (base_rec fs ++ tail) = Ok e') /\
    loaded e' (base_table fs ∅) /\ same_rest e e'.
Proof using Hpads.
  intros L Hok Hn Hsz. unfold base_rec in *.
  set (H := metadata_head pad_head OP_Base _) in *. set (N := le_bytes 4 _) in *. set (Z0 := replicate _ 0) in *.
  assert (HH : length H = 12%nat) by apply length_metadata_head. assert (HN : length N = 4%nat) by apply length_le_bytes.
  rewrite <- !app_assoc in *.
  destruct (base_loop_ok buf_ok (Z.of_nat (length fs)) fs e ∅ (H ++ N) (Z0 ++ tail) 0 L Hok) as (e' & Hrun & L' & Hr);
    [lia|lia|lia|by rewrite <- app_assoc|].
  exists e'. split_and!; [|done|apply Hr..]. intros fuel Hf. unfold load_record. subst H.
  rewrite read_tag; [|unfold OP_Base; lia|done]. cbn [lift mbind outcome_bind le_read]. tag_case.
  set (H := metadata_head pad_head OP_Base _) in *.
  change SIZE_HEAD with (Z.of_nat 12). rewrite <- HH, buf_read_start by (done || lia). cbn [lift mbind outcome_bind].
  rewrite take_ge by lia. subst N. rewrite le_read_small by lia.
  specialize (Hrun fuel Hf). rewrite length_app, HN, <- app_assoc in Hrun. rewrite Nat2Z.inj_add in Hrun. exact Hrun.
Qed.

End Records.
