(* ===== verification/EnvRecover.v ===== *)
(** Start-up from the metadata log: with a log that holds a checkpoint and the records
    after it, [LoadMetaData] (src/env/env_zns.cc) builds the table they describe.

    What the environment relies on is the contract [ZLogLaws] of the metadata zones. *)

From S2P Require Import Prelude Types EnvTypes EnvMeta EnvFile EnvLaws EnvFileOk EnvLoad EnvLog.

(** * The contract of the metadata zones

    Two zones of [zl_cap] blocks, at the blocks [zl_z0] and [zl_z1]; [zl_byte m a] is
    the byte at address [a].  The log is appended to the zone [zl_cur m], of which
    [zl_len m] blocks are written.  Blocks that were not written since the reset of
    their zone read as zeros. *)

Definition log_bytes (byte : Z -> Z) (a : Z) (n : nat) : bytes := (fun i => byte (a + Z.of_nat i)) <$> seq 0 n.

Definition in_blocks (a slba k : Z) : bool := (4096 * slba <=? a) && (a <? 4096 * (slba + k)).

Class ZLogLaws (M : Type) `{!ZMeta M} := {
  zl_ok : M -> Prop;
  zl_z0 : Z;
  zl_z1 : Z;
  zl_cap : Z;
  zl_byte : M -> Z -> Z;
  zl_cur : M -> Z;
  zl_len : M -> Z;
  zl_shape : 0 <= zl_z0 /\ zl_z0 + zl_cap <= zl_z1 /\ zl_z1 + zl_cap < 2 ^ 36 /\ FILE_METADATA_BUF_SIZE < 4096 * zl_cap;
  zl_slbas : forall m, zl_ok m -> zm_slbas m = [zl_z0; zl_z1];
  zl_wf : forall m, zl_ok m -> (zl_cur m = zl_z0 \/ zl_cur m = zl_z1) /\ 0 <= zl_len m < zl_cap /\
    (forall a, in_blocks a (zl_cur m + zl_len m) (zl_cap - zl_len m) = true -> zl_byte m a = 0);
  zl_read : forall m z slba k,
    zl_ok m -> z = zl_z0 \/ z = zl_z1 -> z <= slba -> 0 < k < 2 ^ 16 -> slba + k <= z + zl_cap ->
    exists m', zm_read m slba (4096 * k) = Ok (0, log_bytes (zl_byte m) (4096 * slba) (Z.to_nat (4096 * k)), m') /\
      zl_ok m' /\ (forall a, zl_byte m' a = zl_byte m a) /\ zl_cur m' = zl_cur m /\ zl_len m' = zl_len m;
  zl_write : forall m b k,
    zl_ok m -> 0 < k < 2 ^ 16 -> Z.of_nat (length b) = 4096 * k -> Forall (fun x => 0 <= x < 256) b ->
    zl_len m + k < zl_cap ->
    exists m', zm_write m b = Ok (0, m') /\ zl_ok m' /\ zl_cur m' = zl_cur m /\ zl_len m' = zl_len m + k /\
      forall a, zl_byte m' a =
        if in_blocks a (zl_cur m + zl_len m) k then default 0 (b !! Z.to_nat (a - 4096 * (zl_cur m + zl_len m)))
        else zl_byte m a;
  zl_full : forall m b k,
    zl_ok m -> 0 < k < 2 ^ 16 -> Z.of_nat (length b) = 4096 * k -> zl_cap <= zl_len m + k ->
    exists m', zm_write m b = Ok (MD_WRITE_FULL, m') /\ zl_ok m' /\
      zl_cur m' = zl_z0 + zl_z1 - zl_cur m /\ zl_len m' = 0 /\
      forall a, zl_byte m' a = if in_blocks a (zl_cur m') zl_cap then 0 else zl_byte m a;
  zl_switch : forall m z,
    zl_ok m -> z = zl_z0 \/ z = zl_z1 ->
    exists m', zm_switch m z = Ok m' /\ zl_ok m' /\ zl_cur m' = zl_z0 + zl_z1 - z /\ zl_len m' = 0 /\
      forall a, zl_byte m' a = if in_blocks a (zl_cur m') zl_cap then 0 else zl_byte m a
}.

(** Start-up calls below the environment that always answer. *)
Class ZRecoverTotal (W : Type) `{!ZRecover W} := {
  zr_node_set_total : forall w nid level num, exists w', zr_node_set w nid level num = Ok w';
  zr_clear_total : forall w, exists w', zr_clear_invalid_nodes w = Ok w'
}.

Section Recover.

Context (pad_head pad_level pad_tail pad_zone : bytes).
Context (Hpads : pads_ok pad_head pad_level pad_tail pad_zone).
Context {W M : Type} `{HM : !ZMeta M} `{HL : !ZLogLaws M}.
Implicit Types (e : zenv W M) (m : M).

Abbreviation rec_bytes := (rec_bytes pad_head pad_level pad_tail).
Abbreviation base_rec := (base_rec pad_head pad_level pad_tail).

(** * Contents of the log *)

Definition holds m (a : Z) (b : bytes) : Prop := log_bytes (zl_byte m) a (length b) = b.

Definition zeros m (slba k : Z) : Prop := forall a, in_blocks a slba k = true -> zl_byte m a = 0.

Definition same_bytes m m' : Prop :=
  zl_ok m' /\ (forall a, zl_byte m' a = zl_byte m a) /\ zl_cur m' = zl_cur m /\ zl_len m' = zl_len m.

Lemma length_log_bytes byte a n : length (log_bytes byte a n) = n.
Proof using. unfold log_bytes. by rewrite length_fmap, length_seq. Qed.

Lemma log_bytes_ext byte byte' a n :
  (forall x, a <= x < a + Z.of_nat n -> byte x = byte' x) -> log_bytes byte a n = log_bytes byte' a n.
Proof using.
  intros H. unfold log_bytes. apply list_fmap_ext. intros i x Hx. apply lookup_seq in Hx as [-> Hx]. apply H. lia.
Qed.

Lemma log_bytes_add byte a n n' : log_bytes byte a (n + n') = log_bytes byte a n ++ log_bytes byte (a + Z.of_nat n) n'.
Proof using.
  unfold log_bytes. rewrite seq_app, fmap_app. f_equal. simpl. rewrite <- (Nat.add_0_r n) at 1.
  rewrite <- fmap_add_seq, <- list_fmap_compose. apply list_fmap_ext. intros i x _. simpl. f_equal. lia.
Qed.

Lemma holds_app m a b b' : holds m a (b ++ b') <-> holds m a b /\ holds m (a + Z.of_nat (length b)) b'.
Proof using.
  unfold holds. rewrite length_app, log_bytes_add. split.
  - intros H. apply app_inj_1 in H; [done|apply length_log_bytes].
  - intros [-> ->]. done.
Qed.

Lemma holds_same m m' a b : (forall x, a <= x < a + Z.of_nat (length b) -> zl_byte m' x = zl_byte m x) -> holds m a b -> holds m' a b.
Proof using. unfold holds. intros H Hb. rewrite <- Hb at 2. apply log_bytes_ext, H. Qed.

Lemma log_bytes_zeros m a n :
  (forall x, a <= x < a + Z.of_nat n -> zl_byte m x = 0) -> log_bytes (zl_byte m) a n = replicate n 0.
Proof using.
  intros H. apply list_eq_same_length with n; [by rewrite length_replicate|apply length_log_bytes|].
  intros i x y Hi Hx Hy. apply lookup_replicate in Hy as [-> _]. unfold log_bytes in Hx.
  apply list_lookup_fmap_Some in Hx as (j & -> & Hj). apply lookup_seq in Hj as [-> Hj]. apply H. lia.
Qed.

(** * The loop over the records *)

(** The buffer after a block was read into it. *)
Lemma buf_write_start buf b :
  Z.of_nat (length b) <= FILE_METADATA_BUF_SIZE -> buf_write buf 0 b = Some (b ++ drop (length b) buf).
Proof using. intros Hb. unfold buf_write. by ltb_is false. Qed.

Lemma buf_write_next a b tail :
  Z.of_nat (length (a ++ b)) <= FILE_METADATA_BUF_SIZE ->
  buf_write (a ++ tail) (Z.of_nat (length a)) b = Some ((a ++ b) ++ drop (length b) tail).
Proof using.
  intros Hb. unfold buf_write. rewrite length_app in Hb. ltb_is false. rewrite Nat2Z.id, take_app_length.
  rewrite length_app. replace (length a - _)%nat with 0%nat by lia. cbn [replicate app].
  rewrite <- app_assoc. do 3 f_equal. by rewrite drop_app_add'.
Qed.

(** The first block of a record has its head. *)
Lemma split_block tag rest k :
  let rec := metadata_head pad_head tag (4096 * k - 12) ++ rest in
  0 < k < 2 ^ 16 -> Z.of_nat (length rec) = 4096 * k ->
  exists r1 r2 x, rec = r1 ++ r2 /\ Z.of_nat (length r1) = 4096 /\ Z.of_nat (length r2) = 4096 * (k - 1) /\
    r1 = metadata_head pad_head tag (4096 * k - 12) ++ x.
Proof using Hpads.
  intros rec Hk Hrec. exists (take (Z.to_nat 4096) rec), (drop (Z.to_nat 4096) rec), (take (Z.to_nat 4096 - 12) rest).
  split_and!; [by rewrite take_drop|rewrite length_take; lia|rewrite length_drop; lia|].
  subst rec. rewrite take_app_ge; rewrite (length_metadata_head _ _ _ _ Hpads); [done|lia].
Qed.

(** A turn of the loop over a record of [k] blocks. *)
Lemma load_step buf_ok e buf z slba tag rest k :
  zl_ok (ev_m e) -> z = zl_z0 \/ z = zl_z1 -> z <= slba -> 0 < k < 2 ^ 16 -> slba + k <= z + zl_cap ->
  let rec := metadata_head pad_head tag (4096 * k - 12) ++ rest in
  Z.of_nat (length rec) = 4096 * k -> 4096 * k <= FILE_METADATA_BUF_SIZE ->
  Z.of_nat (length buf) <= FILE_METADATA_BUF_SIZE -> holds (ev_m e) (4096 * slba) rec ->
  exists m tail, same_bytes (ev_m e) m /\ Z.of_nat (length (rec ++ tail)) <= FILE_METADATA_BUF_SIZE /\
    forall fuel, load_loop (S fuel) buf_ok e buf z slba =
      (e3 ← load_record fuel buf_ok (ev_set_m e m) (rec ++ tail); load_loop fuel buf_ok e3 (rec ++ tail) z (slba + k)).
Proof using Hpads.
  intros Hok Hz Hlo Hk Hhi rec Hrec Hbuf Hbl Hh.
  destruct (split_block tag rest k Hk Hrec) as (r1 & r2 & y & Hr & Hl1 & Hl2 & Hhead). fold rec in Hr.
  rewrite Hr in Hh. apply holds_app in Hh as [Hh1 Hh2].
  destruct (zl_read (ev_m e) z slba 1 Hok Hz Hlo ltac:(lia) ltac:(lia)) as (m1 & Hrd1 & Hok1 & Hb1 & Hc1 & Hn1).
  unfold holds in Hh1. replace (Z.to_nat (4096 * 1)) with (length r1) in Hrd1 by lia. rewrite Hh1, Z.mul_1_r in Hrd1.
  set (t1 := drop (length r1) buf).
  assert (Ht1 : Z.of_nat (length (r1 ++ t1)) <= FILE_METADATA_BUF_SIZE).
  { rewrite length_app. subst t1. rewrite length_drop. unfold FILE_METADATA_BUF_SIZE in *. lia. }
  assert (Hlen : exists b, buf_read (r1 ++ t1) 4 4 = Some b /\ le_read b = 4096 * k - 12).
  { rewrite Hhead, <- app_assoc in *. apply read_length; [lia|done]. }
  destruct Hlen as (lb & Hlb & Hlv).
  assert (Hbw : buf_write buf 0 r1 = Some (r1 ++ t1)) by (apply buf_write_start; unfold FILE_METADATA_BUF_SIZE in *; lia).
  destruct (decide (k = 1)) as [-> | Hk1].
  - assert (r2 = []) as Hnil by (destruct r2; [done|simpl in Hl2; lia]). rewrite Hnil, app_nil_r in Hr.
    exists m1, t1. rewrite Hr. split; [done|]. split; [done|]. intros fuel. cbn [load_loop]. unfold ZNS_ALIGMENT. rewrite Hrd1.
    cbn [mbind outcome_bind]. change (ctrue 0) with false. cbv iota. rewrite Hbw. cbn [lift mbind outcome_bind]. rewrite Hlb.
    cbn [lift mbind outcome_bind]. rewrite Hlv. change (4096 * 1 - 12 =? 0) with false.
    change (4096 <? 4096 * 1 - 12 + SIZE_HEAD) with false. cbn [mbind outcome_bind]. change (ctrue 0) with false. cbv iota.
    change ((SIZE_HEAD + (4096 * 1 - 12)) / 4096) with 1. pose proof zl_shape as (Hs0 & Hs1 & Hs2 & _).
    rewrite (wrap_small 64) by lia. done.
  - destruct (zl_read m1 z (slba + 1) (k - 1) Hok1 Hz ltac:(lia) ltac:(lia) ltac:(lia)) as (m2 & Hrd2 & Hok2 & Hb2 & Hc2 & Hn2).
    assert (Hr2 : log_bytes (zl_byte m1) (4096 * (slba + 1)) (Z.to_nat (4096 * (k - 1))) = r2).
    { unfold holds in Hh2. rewrite <- Hh2. replace (length r2) with (Z.to_nat (4096 * (k - 1))) by lia.
      replace (4096 * slba + Z.of_nat (length r1)) with (4096 * (slba + 1)) by lia. apply log_bytes_ext. intros x _. apply Hb1. }
    rewrite Hr2 in Hrd2.
    assert (Hbw2 : buf_write (r1 ++ t1) 4096 r2 = Some (rec ++ drop (length r2) t1)).
    { rewrite Hr. replace 4096 with (Z.of_nat (length r1)) by lia. apply buf_write_next. rewrite <- Hr. lia. }
    exists m2, (drop (length r2) t1). split; [|split].
    + split_and!; [done| |congruence..]. intros a. by rewrite Hb2, Hb1.
    + rewrite length_app, length_drop in *. lia.
    + intros fuel. cbn [load_loop]. unfold ZNS_ALIGMENT. rewrite Hrd1.
      cbn [mbind outcome_bind]. change (ctrue 0) with false. cbv iota. rewrite Hbw. cbn [lift mbind outcome_bind]. rewrite Hlb.
      cbn [lift mbind outcome_bind]. rewrite Hlv. replace (4096 * k - 12 =? 0) with false by lia. unfold SIZE_HEAD. ltb_is true.
      pose proof zl_shape as (Hs0 & Hs1 & Hs2 & _). replace ((12 + (4096 * k - 12)) / 4096) with k by zdiv.
      rewrite !(wrap_small 64), (wrap_small 32) by lia. replace (4096 * k - 12 + 12 - 4096) with (4096 * (k - 1)) by lia. cbn [ev_m ev_set_m]. rewrite Hrd2.
      cbn [mbind outcome_bind]. change (ctrue 0) with false. cbv iota. rewrite Hbw2. cbn [lift mbind outcome_bind].
      done.
Qed.

(** The end of the log: a block of zeros. *)
Lemma load_stop buf_ok e buf z slba :
  zl_ok (ev_m e) -> z = zl_z0 \/ z = zl_z1 -> z <= slba -> slba + 1 <= z + zl_cap ->
  Z.of_nat (length buf) <= FILE_METADATA_BUF_SIZE -> zeros (ev_m e) slba 1 ->
  exists e', (forall fuel, load_loop (S fuel) buf_ok e buf z slba = Ok (S_OK, e')) /\
    ev_w e' = ev_w e /\ ev_files e' = ev_files e /\ ev_heap e' = ev_heap e /\ ev_next e' = ev_next e /\
    ev_sequence e' = u64 (ev_sequence e + 1) /\
    zl_ok (ev_m e') /\ zl_cur (ev_m e') = zl_z0 + zl_z1 - z /\ zl_len (ev_m e') = 0 /\
    forall a, zl_byte (ev_m e') a = if in_blocks a (zl_cur (ev_m e')) zl_cap then 0 else zl_byte (ev_m e) a.
Proof using.
  intros Hok Hz Hlo Hhi Hbl H0.
  destruct (zl_read (ev_m e) z slba 1 Hok Hz Hlo ltac:(lia) ltac:(lia)) as (m1 & Hrd1 & Hok1 & Hb1 & _).
  rewrite Z.mul_1_r in Hrd1. rewrite log_bytes_zeros in Hrd1.
  2:{ intros x Hx. apply H0. unfold in_blocks. lia. }
  destruct (zl_switch m1 z Hok1 Hz) as (m2 & Hsw & Hok2 & Hc2 & Hn2 & Hb2).
  exists (ev_set_sequence (ev_set_m (ev_set_m e m1) m2) (u64 (ev_sequence e + 1))).
  split; [|split_and!; auto; cbn [ev_m ev_set_m ev_set_sequence]].
  - intros fuel. cbn [load_loop]. unfold ZNS_ALIGMENT. rewrite Hrd1. cbn [mbind outcome_bind]. change (ctrue 0) with false. cbv iota.
    set (zs := replicate (Z.to_nat 4096) 0) in *.
    assert (Hzs : length zs = Z.to_nat 4096) by apply length_replicate.
    rewrite buf_write_start by (unfold FILE_METADATA_BUF_SIZE; lia). cbn [lift mbind outcome_bind].
    assert (Hz4 : zs = replicate 4 0 ++ replicate 4 0 ++ replicate (Z.to_nat 4096 - 8) 0).
    { subst zs. rewrite <- !replicate_add. f_equal; lia. }
    set (t := drop (length zs) buf). assert (Hsz : Z.of_nat (length (zs ++ t)) <= FILE_METADATA_BUF_SIZE).
    { rewrite length_app. subst t. rewrite length_drop. unfold FILE_METADATA_BUF_SIZE in *. lia. }
    assert (Hlb : buf_read (zs ++ t) 4 4 = Some (replicate 4 0)).
    { rewrite Hz4, <- !app_assoc in *. change 4 with (Z.of_nat (length (replicate 4 0))) at 1.
      rewrite buf_read_start by done. by rewrite take_ge. }
    rewrite Hlb. cbn [lift mbind outcome_bind]. change (le_read (replicate 4 0) =? 0) with true. cbv iota.
    cbn [ev_m ev_set_m]. rewrite Hsw. cbn [mbind outcome_bind]. reflexivity.
  - intros a. rewrite Hb2. destruct (in_blocks a _ _); [done|apply Hb1].
Qed.

(** What the loader leaves: the table, and a log that continues in the other zone. *)
Record load_done e z R e' : Prop := {
  dn_loaded : loaded e' R;
  dn_w : ev_w e' = ev_w e;
  dn_seq : ev_sequence e' = u64 (ev_sequence e + 1);
  dn_ok : zl_ok (ev_m e');
  dn_cur : zl_cur (ev_m e') = zl_z0 + zl_z1 - z;
  dn_len : zl_len (ev_m e') = 0;
  dn_byte : forall a, zl_byte (ev_m e') a = if in_blocks a (zl_cur (ev_m e')) zl_cap then 0 else zl_byte (ev_m e) a
}.

Lemma load_done_trans e e1 z R e' :
  ev_w e1 = ev_w e -> ev_sequence e1 = ev_sequence e -> same_bytes (ev_m e) (ev_m e1) ->
  load_done e1 z R e' -> load_done e z R e'.
Proof using.
  intros Hw Hs (_ & Hb & _) [D1 D2 D3 D4 D5 D6 D7]. constructor; auto; [congruence..|].
  intros a. rewrite D7. by destruct (in_blocks _ _ _).
Qed.

(** A record in its block. *)
Lemma rec_bytes_head r R :
  rec_ok r R -> exists tag rest, rec_bytes r = metadata_head pad_head tag (4096 * 1 - 12) ++ rest /\
    Z.of_nat (length (rec_bytes r)) = 4096.
Proof using Hpads.
  assert (Hl : forall tag len, length (metadata_head pad_head tag len) = 12%nat) by (intros; by eapply length_metadata_head).
  intros Hr. destruct r as [gc fe|n|src dst]; unfold EnvLog.rec_bytes; cbn [rec_ok] in Hr.
  - destruct Hr as (Hent & Hlen & _). pose proof (length_ent_bytes _ _ _ _ Hpads fe (proj1 Hent)) as Hb.
    assert (Hne : ent_bytes pad_level pad_tail fe <> []) by (intros E; rewrite E in Hb; discriminate Hb).
    rewrite (file_record_ok _ _ _ _ Hpads) by (done || lia). cbn [from_option id]. eexists _, _. split; [reflexivity|].
    rewrite !length_app, length_replicate, Hl. lia.
  - rewrite (delete_record_ok _ _ _ _ Hpads) by done. cbn [from_option id]. eexists _, _. split; [reflexivity|].
    destruct Hr as [Hn _]. unfold FILE_NAME_LEN in Hn. rewrite !length_app, length_replicate, Hl. lia.
  - destruct Hr as [Hn1 Hn2]. rewrite (replace_record_ok _ _ _ _ Hpads) by done. cbn [from_option id]. eexists _, _. split; [reflexivity|].
    destruct Hn1 as [Hn1 _], Hn2 as [Hn2 _]. unfold FILE_NAME_LEN in *. rewrite !length_app, !length_replicate, Hl. lia.
Qed.

Lemma length_recs rs : forall R, recs_ok rs R -> Z.of_nat (length (mjoin (rec_bytes <$> rs))) = 4096 * Z.of_nat (length rs).
Proof using Hpads.
  induction rs as [|r rs IH]; intros R; [done|]. intros [Hr Hrs]. cbn [fmap list_fmap]. rewrite join_cons, length_app.
  destruct (rec_bytes_head r R Hr) as (_ & _ & _ & Hl). rewrite Nat2Z.inj_add, Hl, (IH _ Hrs). cbn [length]. lia.
Qed.

Lemma load_recs buf_ok z rs : forall e R buf slba,
  loaded e R -> recs_ok rs R -> zl_ok (ev_m e) -> z = zl_z0 \/ z = zl_z1 -> z <= slba ->
  slba + Z.of_nat (length rs) + 1 <= z + zl_cap -> Z.of_nat (length buf) <= FILE_METADATA_BUF_SIZE ->
  holds (ev_m e) (4096 * slba) (mjoin (rec_bytes <$> rs)) -> zeros (ev_m e) (slba + Z.of_nat (length rs)) 1 ->
  exists e', (forall fuel, (length rs < fuel)%nat -> load_loop fuel buf_ok e buf z slba = Ok (S_OK, e')) /\
    load_done e z (replay rs R) e'.
Proof using Hpads.
  induction rs as [|r rs IH]; intros e R buf slba L Hok Hm Hz Hlo Hhi Hbuf Hh H0.
  - cbn [length] in *. rewrite Z.add_0_r in *. destruct (load_stop buf_ok e buf z slba Hm Hz Hlo) as (e' & Hrun & A1 & A2 & A3 & A4 & A5 & A6 & A7 & A8 & A9);
      [lia|done|done|].
    exists e'. split; [intros [|fuel] Hf; [lia|apply Hrun]|]. constructor; auto. by eapply loaded_ext.
  - destruct Hok as [Hr Hrs]. cbn [fmap list_fmap length] in *. rewrite join_cons in Hh. apply holds_app in Hh as [Hh1 Hh2].
    destruct (rec_bytes_head r R Hr) as (tag & rest & Hb & Hl).
    destruct (load_step buf_ok e buf z slba tag rest 1) as (m & tail & Hsb & Hsz & Hrun); auto; try lia;
      rewrite <- ?Hb; auto; try lia; [unfold FILE_METADATA_BUF_SIZE; lia|].
    rewrite <- Hb in Hrun, Hsz.
    destruct (load_record_ok _ _ _ _ Hpads buf_ok (ev_set_m e m) R r tail) as (e1 & He1 & L1 & Hw1 & Hm1 & Hs1); auto.
    { by apply (loaded_ext e). }
    assert (Hsb1 : same_bytes (ev_m e) (ev_m e1)) by (rewrite Hm1; exact Hsb).
    destruct Hsb1 as (Hok1 & Hby & Hsb1).
    destruct (IH e1 (apply_rec r R) (rec_bytes r ++ tail) (slba + 1)) as (e' & Hload & Hd); auto; try lia.
    + replace (4096 * (slba + 1)) with (4096 * slba + Z.of_nat (length (rec_bytes r))) by lia.
      eapply holds_same; [|exact Hh2]. intros x _. apply Hby.
    + intros a Ha. rewrite Hby. apply H0. by replace (slba + Z.of_nat (S (length rs))) with (slba + 1 + Z.of_nat (length rs)) by lia.
    + exists e'. split; [|by eapply load_done_trans].
      intros [|fuel] Hf; [lia|]. rewrite Hrun, He1. cbn [mbind outcome_bind]. apply Hload. lia.
Qed.

(** ** The checkpoint and the records after it *)

Lemma base_rec_head fs :
  Z.of_nat (length (base_data pad_level pad_tail fs)) < FILE_METADATA_BUF_SIZE - 4112 ->
  exists rest k, base_rec fs = metadata_head pad_head OP_Base (4096 * k - 12) ++ rest /\
    Z.of_nat (length (base_rec fs)) = 4096 * k /\ 0 < k < 2 ^ 15 /\ 4096 * k <= FILE_METADATA_BUF_SIZE - 4096 /\
    sector_align (SIZE_ZONE_HEAD + SIZE_HEAD + 4 + Z.of_nat (length (base_data pad_level pad_tail fs))) = 4096 * (k + 1).
Proof using Hpads.
  intros Hn. unfold EnvLog.base_rec. set (n := Z.of_nat (length (base_data pad_level pad_tail fs))) in *.
  assert (Hk : exists k, sector_align (SIZE_ZONE_HEAD + SIZE_HEAD + 4 + n) = 4096 * (k + 1) /\ 16 + n <= 4096 * k < 16 + n + 4096).
  { exists ((15 + n) / 4096 + 1). unfold sector_align, SIZE_ZONE_HEAD, SIZE_HEAD, ZNS_ALIGMENT.
    destruct ((4096 + 12 + 4 + n) mod 4096 =? 0) eqn:E; simpl; zdiv. }
  destruct Hk as (k & -> & Hk). unfold FILE_METADATA_BUF_SIZE in *. unfold SIZE_ZONE_HEAD, SIZE_HEAD.
  replace (4096 * (k + 1) - 4096) with (4096 * k) by lia. rewrite (wrap_small 32) by lia.
  eexists _, k. split_and!; [reflexivity| |lia|lia|lia|lia].
  rewrite !length_app, (length_metadata_head _ _ _ _ Hpads), length_le_bytes, length_replicate. fold n. lia.
Qed.

(** The image of the log: a checkpoint with its zone head, and records. *)
Definition log_image (seq : Z) (fs : list fent) (rs : list lrec) : bytes :=
  zone_head pad_zone seq ++ base_rec fs ++ mjoin (rec_bytes <$> rs).

Definition log_table (fs : list fent) (rs : list lrec) : table := replay rs (base_table fs ∅).

(** The checkpoint and the records are such that the loader reads them back. *)
Definition image_ok (fs : list fent) (rs : list lrec) : Prop :=
  base_ok fs ∅ /\ recs_ok rs (base_table fs ∅) /\ Z.of_nat (length fs) < 2 ^ 16 /\
  Z.of_nat (length (base_data pad_level pad_tail fs)) < FILE_METADATA_BUF_SIZE - 4112.

Lemma load_image buf_ok z fs rs e buf k :
  loaded e ∅ -> image_ok fs rs -> zl_ok (ev_m e) -> z = zl_z0 \/ z = zl_z1 ->
  Z.of_nat (length (base_rec fs)) = 4096 * k -> 1 + k + Z.of_nat (length rs) + 1 <= zl_cap ->
  Z.of_nat (length buf) <= FILE_METADATA_BUF_SIZE ->
  holds (ev_m e) (4096 * (z + 1)) (base_rec fs ++ mjoin (rec_bytes <$> rs)) -> zeros (ev_m e) (z + 1 + k + Z.of_nat (length rs)) 1 ->
  exists e', (forall fuel, (length fs + length rs + 1 < fuel)%nat -> load_loop fuel buf_ok e buf z (z + 1) = Ok (S_OK, e')) /\
    load_done e z (log_table fs rs) e'.
Proof using Hpads.
  intros L (Hb & Hrs & Hn & Hsz) Hm Hz Hk Hcap Hbuf Hh H0. apply holds_app in Hh as [Hh1 Hh2].
  destruct (base_rec_head fs Hsz) as (rest & k' & Hhead & Hk' & Hkr & Hkb & _). assert (k' = k) as -> by lia.
  destruct (load_step buf_ok e buf z (z + 1) OP_Base rest k) as (m & tail & Hsb & Htl & Hrun); auto; try lia;
    rewrite <- ?Hhead; auto; try lia.
  rewrite <- Hhead in Hrun, Htl.
  destruct (load_base_ok _ _ _ _ Hpads buf_ok (ev_set_m e m) fs tail) as (e1 & He1 & L1 & Hw1 & Hm1 & Hs1); auto.
  { by apply (loaded_ext e). }
  assert (Hsb1 : same_bytes (ev_m e) (ev_m e1)) by (rewrite Hm1; exact Hsb).
  destruct Hsb1 as (Hok1 & Hby & Hsb1).
  destruct (load_recs buf_ok z rs e1 (base_table fs ∅) (base_rec fs ++ tail) (z + 1 + k)) as (e' & Hload & Hd); auto; try lia.
  - replace (4096 * (z + 1 + k)) with (4096 * (z + 1) + Z.of_nat (length (base_rec fs))) by lia.
    eapply holds_same; [|exact Hh2]. intros x _. apply Hby.
  - intros a Ha. rewrite Hby. apply H0, Ha.
  - exists e'. split; [|by eapply load_done_trans].
    intros [|fuel] Hf; [lia|]. rewrite Hrun, He1 by lia. cbn [mbind outcome_bind]. apply Hload. lia.
Qed.

(** * The heads of the zones *)

Definition head_magic m (z : Z) : Z := zl_byte m (4096 * z).
Definition head_seq m (z : Z) : Z := le_read (log_bytes (zl_byte m) (4096 * z + 4) 4).

(** A turn of the loop over the zones. *)
Lemma head_turn e buf seqs z zs :
  zl_ok (ev_m e) -> z = zl_z0 \/ z = zl_z1 -> Z.of_nat (length buf) <= FILE_METADATA_BUF_SIZE ->
  exists m buf', same_bytes (ev_m e) m /\ Z.of_nat (length buf') <= FILE_METADATA_BUF_SIZE /\
    head_loop e buf seqs (z :: zs) =
      if head_magic (ev_m e) z =? METADATA_MAGIC then
        head_loop (if ev_sequence e <? head_seq (ev_m e) z then ev_set_sequence (ev_set_m e m) (head_seq (ev_m e) z) else ev_set_m e m)
          buf' (seq_set (head_seq (ev_m e) z) z seqs) zs
      else head_loop (ev_set_m e m) buf' seqs zs.
Proof using.
  intros Hok Hz Hbuf. pose proof (zl_shape (M := M)) as (Hs0 & Hs1 & Hs2 & Hs3).
  destruct (zl_read (ev_m e) z z 1 Hok Hz ltac:(lia) ltac:(lia)) as (m & Hrd & Hok1 & Hb & Hc & Hn).
  { unfold FILE_METADATA_BUF_SIZE in Hs3. lia. }
  set (byte := zl_byte (ev_m e)) in *. set (a := 4096 * z) in *.
  assert (Hsplit : log_bytes byte a (Z.to_nat (4096 * 1)) =
    log_bytes byte a 1 ++ log_bytes byte (a + 1) 3 ++ log_bytes byte (a + 4) 4 ++ log_bytes byte (a + 8) (Z.to_nat (4096 * 1) - 8)).
  { replace (Z.to_nat (4096 * 1)) with (1 + (3 + (4 + (Z.to_nat (4096 * 1) - 8))))%nat at 1 by lia. rewrite !log_bytes_add.
    rewrite <- !Z.add_assoc. done. }
  set (b := log_bytes byte a (Z.to_nat (4096 * 1))) in *.
  assert (Hlb : Z.of_nat (length b) = 4096) by (subst b; rewrite length_log_bytes; lia). clearbody b.
  set (tail := drop (length b) buf).
  assert (Hsz : Z.of_nat (length (b ++ tail)) <= FILE_METADATA_BUF_SIZE).
  { rewrite length_app. subst tail. rewrite length_drop. unfold FILE_METADATA_BUF_SIZE in *. lia. }
  assert (R1 : buf_read (b ++ tail) 0 1 = Some (log_bytes byte a 1)).
  { rewrite Hsplit, <- !app_assoc in *. 
    match goal with |- buf_read (_ ++ ?r) _ _ = _ => exact (buf_read_start [] (log_bytes byte a 1) r 1 (le_n 1) Hsz) end. }
  assert (R2 : buf_read (b ++ tail) 4 4 = Some (log_bytes byte (a + 4) 4)).
  { rewrite Hsplit, <- !app_assoc in *. rewrite (app_assoc (log_bytes byte a 1)) in *.
    change 4 with (Z.of_nat (length (log_bytes byte a 1 ++ log_bytes byte (a + 1) 3))) at 1.
    by rewrite buf_read_start, take_ge. }
  exists m, (b ++ tail). split; [exact (conj Hok1 (conj Hb (conj Hc Hn)))|]. split; [exact Hsz|]. cbn [head_loop]. change SIZE_ZONE_HEAD with (4096 * 1). rewrite Hrd.
  cbn [mbind outcome_bind]. change (ctrue 0) with false. cbv iota.
  rewrite buf_write_start by (unfold FILE_METADATA_BUF_SIZE; lia). fold tail. cbn [lift mbind outcome_bind]. rewrite R1.
  cbn [lift mbind outcome_bind]. rewrite R2. cbn [lift mbind outcome_bind].
  change (le_read (log_bytes byte a 1)) with (byte (a + 0) + 256 * 0). rewrite !Z.add_0_r. reflexivity.
Qed.

(** The log of the zone [zl_cur m]: a checkpoint of sequence number [seq], and records.
    The other zone has an older log or none. *)
Record log_state m (seq : Z) (fs : list fent) (rs : list lrec) : Prop := {
  ls_ok : zl_ok m;
  ls_img : image_ok fs rs;
  ls_holds : holds m (4096 * zl_cur m) (log_image seq fs rs);
  ls_len : Z.of_nat (length (log_image seq fs rs)) = 4096 * zl_len m;
  ls_seq : 0 <= seq < 2 ^ 32 - 1;
  ls_other : let z := zl_z0 + zl_z1 - zl_cur m in head_magic m z = METADATA_MAGIC -> 0 <= head_seq m z < seq
}.

(** The same, as a program that starts finds it: the log is in the zone [z], whichever
    zone is the current one. *)
Record log_disk m (z seq : Z) (fs : list fent) (rs : list lrec) : Prop := {
  lk_zone : z = zl_z0 \/ z = zl_z1;
  lk_img : image_ok fs rs;
  lk_holds : holds m (4096 * z) (log_image seq fs rs);
  lk_end : exists n, Z.of_nat (length (log_image seq fs rs)) = 4096 * n /\ n < zl_cap /\ zeros m (z + n) 1;
  lk_seq : 0 <= seq < 2 ^ 32 - 1;
  lk_other : let o := zl_z0 + zl_z1 - z in head_magic m o = METADATA_MAGIC -> 0 <= head_seq m o < seq
}.

Lemma head_seq_ext m m0 z : (forall a, zl_byte m0 a = zl_byte m a) -> head_seq m0 z = head_seq m z.
Proof using. intros H. unfold head_seq. f_equal. apply log_bytes_ext. intros x _. apply H. Qed.

Lemma log_state_disk m m0 seq fs rs :
  log_state m seq fs rs -> (forall a, zl_byte m0 a = zl_byte m a) -> log_disk m0 (zl_cur m) seq fs rs.
Proof using.
  intros [Hok Himg Hh Hlen Hseq Hoth] Hb. destruct (zl_wf _ Hok) as (Hcur & Hl & Hz). constructor; auto.
  - eapply holds_same; [|exact Hh]. auto.
  - exists (zl_len m). split_and!; [done|lia|]. intros a Ha. rewrite Hb. apply Hz. unfold in_blocks in *. lia.
  - cbv zeta. unfold head_magic. rewrite Hb, (head_seq_ext m m0) by done. exact Hoth.
Qed.

Lemma length_zone_head seq : Z.of_nat (length (zone_head pad_zone seq)) = 4096.
Proof using Hpads.
  destruct Hpads as (_ & _ & _ & P). unfold zone_head. rewrite !length_app, !length_le_bytes, length_take, length_drop.
  assert (Hp : Z.of_nat (length pad_zone) = 4091) by (rewrite P; reflexivity). lia.
Qed.

Lemma zone_head_fields m z seq :
  0 <= seq < 2 ^ 32 -> holds m (4096 * z) (zone_head pad_zone seq) -> head_magic m z = METADATA_MAGIC /\ head_seq m z = seq.
Proof using Hpads.
  intros Hs Hh. destruct Hpads as (_ & _ & _ & P). unfold zone_head in Hh.
  assert (Hp : Z.of_nat (length pad_zone) = 4091) by (rewrite P; reflexivity).
  assert (Ht : length (take 3 pad_zone) = 3%nat) by (rewrite length_take; lia).
  apply holds_app in Hh as [H1 H2]. apply holds_app in H2 as [_ H2]. apply holds_app in H2 as [H2 _].
  rewrite Ht, length_le_bytes in H2. unfold holds in *. rewrite length_le_bytes in *. split.
  - unfold head_magic. unfold log_bytes in H1. simpl in H1. injection H1 as H1. rewrite Z.add_0_r in H1. by rewrite H1.
  - unfold head_seq. replace (4096 * z + Z.of_nat 1 + Z.of_nat 3) with (4096 * z + 4) in H2 by lia.
    rewrite H2. apply le_read_small. lia.
Qed.

(** The zone with the newest log is chosen. *)
Lemma head_newest e z seq fs rs :
  zl_ok (ev_m e) -> log_disk (ev_m e) z seq fs rs -> 0 <= ev_sequence e <= seq ->
  exists seqs buf e1, head_loop e [] [] (zm_slbas (ev_m e)) = Ok (S_OK, seqs, buf, e1) /\
    last seqs = Some (seq, z) /\ Z.of_nat (length buf) <= FILE_METADATA_BUF_SIZE /\
    same_bytes (ev_m e) (ev_m e1) /\ ev_sequence e1 = seq /\ ev_w e1 = ev_w e /\
    ev_files e1 = ev_files e /\ ev_heap e1 = ev_heap e /\ ev_next e1 = ev_next e.
Proof using Hpads.
  intros Hok [Hcur Himg Hh Hlen Hseq Hoth] Hse. rewrite (zl_slbas _ Hok). pose proof (zl_shape (M := M)) as (Hs0 & Hs1 & _ & Hs3).
  apply holds_app in Hh as [Hh _].
  destruct (zone_head_fields _ _ seq ltac:(lia) Hh) as [Hmag Hsq].
  assert (Hne : zl_z0 <> zl_z1) by (unfold FILE_METADATA_BUF_SIZE in Hs3; lia).
  destruct (head_turn e [] [] zl_z0 [zl_z1] Hok ltac:(by left)) as (m1 & b1 & (Hok1 & Hb1 & Hc1 & Hn1) & Hl1 & ->);
    [unfold FILE_METADATA_BUF_SIZE; simpl; lia|].
  assert (Hm1 : forall x, head_magic m1 x = head_magic (ev_m e) x) by (intros; apply Hb1).
  assert (Hq1 : forall x, head_seq m1 x = head_seq (ev_m e) x).
  { intros x. by apply head_seq_ext. }
  assert (Hturn : forall (e' : zenv W M) seqs, ev_m e' = m1 -> exists m2 buf', same_bytes (ev_m e) m2 /\ Z.of_nat (length buf') <= FILE_METADATA_BUF_SIZE /\
    head_loop e' b1 seqs [zl_z1] =
      if head_magic (ev_m e) zl_z1 =? METADATA_MAGIC then
        Ok (S_OK, seq_set (head_seq (ev_m e) zl_z1) zl_z1 seqs, buf',
            if ev_sequence e' <? head_seq (ev_m e) zl_z1 then ev_set_sequence (ev_set_m e' m2) (head_seq (ev_m e) zl_z1) else ev_set_m e' m2)
      else Ok (S_OK, seqs, buf', ev_set_m e' m2)).
  { intros e' seqs He'. destruct (head_turn e' b1 seqs zl_z1 []) as (m2 & b2 & (A1 & A2 & A3 & A4) & Hl2 & ->); auto; [by rewrite He'|].
    exists m2, b2. rewrite He', Hm1, Hq1 in *. split; [|done]. split_and!; [done| |congruence..]. intros a. by rewrite A2. }
  destruct Hcur as [Hcur | Hcur]; subst z; cbv zeta in Hoth.
  - rewrite Hmag, Z.eqb_refl, Hsq. replace (zl_z0 + zl_z1 - zl_z0) with zl_z1 in Hoth by lia. cbn [seq_set].
    set (e' := if ev_sequence e <? seq then _ else _).
    assert (He' : ev_m e' = m1 /\ ev_sequence e' = seq /\ ev_w e' = ev_w e /\ ev_files e' = ev_files e /\ ev_heap e' = ev_heap e /\ ev_next e' = ev_next e).
    { subst e'. destruct (Z.ltb_spec (ev_sequence e) seq); split_and!; try done. simpl. lia. }
    destruct He' as (E1 & E2 & E3 & E4 & E5 & E6).
    destruct (Hturn e' [(seq, zl_z0)] E1) as (m2 & b2 & Hsb & Hl2 & ->).
    destruct (Z.eqb_spec (head_magic (ev_m e) zl_z1) METADATA_MAGIC) as [Hm|Hm].
    + specialize (Hoth Hm). cbn [seq_set]. replace (_ =? seq) with false by lia. replace (_ <? seq) with true by lia. rewrite E2.
      replace (seq <? _) with false by lia. eexists _, _, _. split; [reflexivity|]. split_and!; auto; apply Hsb.
    + eexists _, _, _. split; [reflexivity|]. split_and!; auto; apply Hsb.
  - replace (zl_z0 + zl_z1 - zl_z1) with zl_z0 in Hoth by lia.
    destruct (Z.eqb_spec (head_magic (ev_m e) zl_z0) METADATA_MAGIC) as [Hm|Hm].
    + specialize (Hoth Hm). cbn [seq_set]. set (e' := if ev_sequence e <? head_seq (ev_m e) zl_z0 then _ else _).
      assert (He' : ev_m e' = m1 /\ ev_sequence e' <= seq /\ ev_w e' = ev_w e /\ ev_files e' = ev_files e /\ ev_heap e' = ev_heap e /\ ev_next e' = ev_next e).
      { subst e'. destruct (Z.ltb_spec (ev_sequence e) (head_seq (ev_m e) zl_z0)); split_and!; try done; simpl; lia. }
      destruct He' as (E1 & E2 & E3 & E4 & E5 & E6).
      destruct (Hturn e' [(head_seq (ev_m e) zl_z0, zl_z0)] E1) as (m2 & b2 & Hsb & Hl2 & ->). rewrite Hmag, Z.eqb_refl, Hsq. cbn [seq_set].
      replace (seq =? _) with false by lia. replace (seq <? _) with false by lia.
      eexists _, _, _. split; [reflexivity|]. destruct (Z.ltb_spec (ev_sequence e') seq); split_and!; auto; try apply Hsb. simpl. lia.
    + destruct (Hturn (ev_set_m e m1) [] eq_refl) as (m2 & b2 & Hsb & Hl2 & ->). rewrite Hmag, Z.eqb_refl, Hsq. cbn [seq_set].
      eexists _, _, _. split; [reflexivity|].
      cbn [ev_sequence ev_set_m]. destruct (Z.ltb_spec (ev_sequence e) seq); split_and!; auto; try apply Hsb. simpl. lia.
Qed.

Lemma clear_loaded e :
  (forall p, (ev_next e <= p)%nat -> deref e p = None) ->
  loaded (ClearMetaData e) ∅ /\ same_rest e (ClearMetaData e).
Proof using.
  intros Hf. unfold ClearMetaData. set (ps := omap snd (ev_files e)). clearbody ps.
  assert (H : same_rest e (foldl heap_delete e ps) /\ ev_next (foldl heap_delete e ps) = ev_next e /\
              forall p, deref e p = None -> deref (foldl heap_delete e ps) p = None).
  { clear Hf. revert e. induction ps as [|p ps IH]; intros e; [done|]. cbn [foldl].
    destruct (IH (heap_delete e p)) as (H1 & H2 & H3). split_and!; [apply H1..|exact H2|].
    intros q Hq. apply H3. unfold deref, heap_delete in *. cbn [ev_heap ev_set_heap]. by apply lookup_delete_None; right. }
  destruct H as (H1 & H2 & H3). split; [|exact H1]. constructor; cbn [ev_files ev_set_files]; try done; [|constructor].
  intros p Hp. apply H3, Hf. cbn in Hp. lia.
Qed.

(** Up to the end of the log, whatever the table held before. *)
Lemma load_to_end buf_ok e z seq fs rs `{!ZRecover W} :
  zl_ok (ev_m e) -> log_disk (ev_m e) z seq fs rs -> 0 <= ev_sequence e <= seq -> (forall p, (ev_next e <= p)%nat -> deref e p = None) ->
  exists N e1 e2, (forall fuel, (N <= fuel)%nat ->
      LoadMetaData pad_head pad_level pad_tail pad_zone fuel true buf_ok e = load_end pad_head pad_level pad_tail pad_zone e2) /\
    ev_w e1 = ev_w e /\ ev_sequence e1 = seq /\ same_bytes (ev_m e) (ev_m e1) /\
    load_done e1 z (log_table fs rs) e2.
Proof using Hpads.
  intros Hok Hls Hse Hf. destruct (head_newest e z seq fs rs Hok Hls Hse) as (seqs & buf & e1 & Hh & Hlast & Hbuf & Hsb & Hs1 & Hw1 & Hf1 & Hh1 & Hn1).
  destruct Hls as [Hcur Himg Hho (n & Hlen & Hl & Hzero) Hseq _]. pose proof (zl_shape (M := M)) as (Hz0 & Hz1 & Hz2 & Hz3).
  destruct (clear_loaded e1) as [L0 (Hr1 & Hr2 & Hr3)].
  { intros p. unfold deref. rewrite Hh1, Hn1. apply Hf. }
  destruct Hsb as (Hok1 & Hby & Hc1 & Hn2). unfold log_image in *. apply holds_app in Hho as [_ Hho]. rewrite !length_app in Hlen.
  pose proof (length_zone_head seq) as Hzl. destruct (base_rec_head fs) as (_ & k & _ & Hk & Hkr & _); [apply Himg|].
  pose proof (length_recs rs _ (proj1 (proj2 Himg))) as Hlr.
  destruct (load_image buf_ok (z) fs rs (ClearMetaData e1) buf k) as (e2 & Hrun & Hd); auto.
  - by rewrite Hr2.
  - lia.
  - rewrite Hzl in Hho. replace (4096 * (z + 1)) with (4096 * z + 4096) by lia.
    eapply holds_same; [|exact Hho]. intros x _. by rewrite Hr2.
  - intros a Ha. rewrite Hr2, Hby. apply Hzero. unfold in_blocks in *. lia.
  - exists (length fs + length rs + 2)%nat, e1, e2. split_and!; auto.
    + intros fuel Hfu. unfold LoadMetaData. cbn [negb]. rewrite Hh. cbn [mbind outcome_bind]. rewrite decide_True by done.
      rewrite Hlast. change (SIZE_ZONE_HEAD / ZNS_ALIGMENT) with 1. rewrite wrap_small by lia. rewrite Hrun by lia.
      cbn [mbind outcome_bind]. by rewrite decide_True.
    + split_and!; auto.
    + eapply load_done_trans; [..|exact Hd]; [done|done|]. rewrite Hr2. split_and!; auto.
Qed.

End Recover.
