(* ===== verification/EnvTable.v ===== *)
(** The file table of the environment: opening, deleting and renaming files
    (src/env/env_zns.cc and the constructors of src/env/env_zns.h).

    [normalize] is RocksDB's NormalizePath; [px] is what the POSIX environment answers to
    the call that is passed on to it, when that answer is returned. *)

From S2P Require Import Prelude Types EnvTypes EnvMeta EnvFile.

(** [fname.find("MANIFEST") != npos] *)
Definition MANIFEST : bytes := [77; 65; 78; 73; 70; 69; 83; 84].

Fixpoint is_prefix (a b : bytes) : bool :=
  match a, b with
  | [], _ => true
  | _ :: _, [] => false
  | x :: a', y :: b' => (x =? y) && is_prefix a' b'
  end.

Fixpoint contains (a b : bytes) : bool :=
  is_prefix a b || match b with [] => false | _ :: b' => contains a b' end.

Definition IsFilePosix (fname : bytes) : bool := contains MANIFEST fname.

(** [class ZNSSequentialFile] and [class ZNSRandomAccessFile] *)
Record ZNSSequentialFile := { sf_filename : bytes; sf_znsfile : option nat; sf_read_off : Z }.
Record ZNSRandomAccessFile := { ra_filename : bytes; ra_znsfile : option nat }.

Section Table.

Context (pad_head pad_level pad_tail pad_zone : bytes) (normalize : bytes -> bytes).
Context {W M : Type} `{!ZData W} `{!ZMeta M}.
Implicit Types (e : zenv W M) (px : Status).

Definition NewSequentialFile px e (fname : bytes) : Status * option ZNSSequentialFile * zenv W M :=
  let nfname := normalize fname in
  if IsFilePosix nfname then (px, None, e) else
  let '(q, e1) := files_at e nfname in
  match q with
  | None => (px, None, e1)
  | Some _ =>
      let '(q2, e2) := files_at e1 nfname in
      (S_OK, Some {| sf_filename := nfname; sf_znsfile := q2; sf_read_off := 0 |}, e2)
  end.

Definition NewRandomAccessFile px e (fname : bytes) : Status * option ZNSRandomAccessFile * zenv W M :=
  let nfname := normalize fname in
  if IsFilePosix nfname then (px, None, e) else
  let '(q, e1) := files_at e nfname in
  (S_OK, Some {| ra_filename := nfname; ra_znsfile := q |}, e1).

(** [delete p] for a pointer that may be null *)
Definition delete_ptr e (q : option nat) : zenv W M :=
  match q with Some p => heap_delete e p | None => e end.

(** [buf_ok]: the cache of the new file was allocated. *)
Definition NewWritableFile px (buf_ok : bool) e (fname : bytes) : option (Status * option ZNSWritableFile * zenv W M) :=
  let nfname := normalize fname in
  if IsFilePosix nfname then Some (px, None, e) else
  let e1 := match map_find nfname (ev_files e) with
            | Some q => let e0 := delete_ptr e q in ev_set_files e0 (map_erase nfname (ev_files e0))
            | None => e
            end in
  let '(p, e2) := heap_new e1 (zf_set_uuididx (new_ZNSFile nfname 0 buf_ok) (ev_uuididx e1)) in
  let e3 := ev_set_uuididx (ev_set_files e2 (map_set nfname (Some p) (ev_files e2))) (u64 (ev_uuididx e2 + 1)) in
  f ← deref e3 p;
  f' ← GetWRLock f;
  Some (S_OK, Some {| wf_filename := nfname; wf_filesize := 0; wf_znsfile := p |}, store e3 p f').

(** [zrocks_trim] of every piece, whatever it returns *)
Fixpoint trim_pieces (w : W) (maps : list Z) : outcome W :=
  match maps with
  | [] => Ok w
  | m :: maps' => '(_, w1) ← zd_trim w m false; trim_pieces w1 maps'
  end.

Definition DeleteFile px (alloc_ok : bool) e (fname : bytes) : outcome (Status * zenv W M) :=
  let nfname := normalize fname in
  if IsFilePosix nfname then Ok (px, e) else
  match map_find nfname (ev_files e) with
  | None | Some None => Ok (S_OK, e)
  | Some (Some p) =>
      f ← lift (deref e p);
      w ← trim_pieces (ev_w e) (zf_map f);
      let e1 := heap_delete (ev_set_w e w) p in
      let e2 := ev_set_files e1 (map_erase nfname (ev_files e1)) in
      '(_, e3) ← FlushDelMetaData pad_head pad_level pad_tail pad_zone alloc_ok e2 nfname;
      Ok (S_OK, e3)
  end.

(** [None]: [*size] is not assigned. *)
Definition GetFileSize px e (fname : bytes) : option (Status * option Z) :=
  let nfname := normalize fname in
  if IsFilePosix nfname then Some (px, None) else
  match map_find nfname (ev_files e) with
  | None | Some None => Some (S_OK, None)
  | Some (Some p) => f ← deref e p; Some (S_OK, Some (zf_size f))
  end.

Definition GetFileModificationTime px (fname : bytes) : Status * option Z :=
  if IsFilePosix (normalize fname) then (px, None) else (S_OK, Some 0).

Definition RenameFile px (alloc_ok : bool) e (src target : bytes) : outcome (Status * zenv W M) :=
  let nsrc := normalize src in
  let ntarget := normalize target in
  if IsFilePosix nsrc then Ok (px, e) else
  match map_find nsrc (ev_files e) with
  | None | Some None => Ok (S_OK, e)
  | Some (Some p) =>
      f ← lift (deref e p);
      let e1 := store e p (zf_set_name f ntarget) in
      let e2 := ev_set_files e1 (map_erase nsrc (map_set ntarget (Some p) (ev_files e1))) in
      '(_, e3) ← FlushReplaceMetaData pad_head pad_level pad_tail pad_zone alloc_ok e2 nsrc ntarget;
      Ok (S_OK, e3)
  end.

Definition FileExists px e (fname : bytes) : Status :=
  match map_find (normalize fname) (ev_files e) with
  | Some (Some _) => S_OK
  | _ => px
  end.

End Table.
