(* ===== verification/EnvCrash.v ===== *)
(** The metadata log follows the file table: what the record writers of EnvMeta.v
    append is what the table says, with room in the zone and when the log moves to the
    other zone, so that a start-up after a crash at any point between two operations
    finds the table again. *)

From S2P Require Import Prelude Types EnvTypes EnvMeta EnvFile EnvLaws EnvFileOk EnvLoad EnvLog EnvRecover EnvTable.

(** The entry that the metadata of a file make, with the pieces from index [i] on. *)
Definition fent_from (f : ZNSFile) (i : Z) : fent :=
  {| fe_own := zf_name f; fe_level := zf_level f; fe_size := zf_size f; fe_map := drop (Z.to_nat i) (zf_map f) |}.

Definition fent_of (f : ZNSFile) : fent := fent_from f 0.

Definition ents {W M} (e : zenv W M) (fs : list (bytes * option nat)) : list fent :=
  omap (fun kv : bytes * option nat => p ← kv.2; f ← deref e p; Some (fent_of f)) fs.

Lemma fent_of_index f i : fent_of (zf_set_startIndex f i) = fent_of f.
Proof. done. Qed.

Lemma ent_ok_from f i : ent_ok (fent_of f) -> ent_ok (fent_from f i).
Proof.
  intros (H1 & H2 & H3 & H4 & H5). split; [exact H1|]. split; [exact H2|]. split; [exact H3|].
  cbn [fe_map fent_from fent_of] in *. split; [by apply Forall_drop|]. rewrite length_drop in *. lia.
Qed.

Lemma base_table_lookup fs : forall R n,
  NoDup (fe_own <$> fs) -> (forall fe, fe ∈ fs -> R !! fe_own fe = None) ->
  base_table fs R !! n = match list_find (fun fe => fe_own fe = n) fs with Some (_, fe) => Some fe | None => R !! n end.
Proof.
  induction fs as [|fe fs IH]; intros R n Hnd HR; [done|]. cbn [fmap list_fmap] in Hnd. apply NoDup_cons in Hnd as [Hni Hnd].
  cbn [base_table]. assert (Hap : apply_file false fe R = <[fe_own fe := fe]> R).
  { unfold apply_file. by rewrite HR by (by left). }
  rewrite Hap, IH; [|done|].
  - cbn [list_find]. case_decide as Hd.
    + subst n. destruct (list_find _ fs) as [[i fe']|] eqn:Hf; [|by rewrite lookup_insert_eq].
      apply list_find_Some in Hf as (Hi & Heq & _). destruct Hni. rewrite <- Heq. apply list_elem_of_fmap. exists fe'.
      split; [done|]. by eapply list_elem_of_lookup_2.
    + destruct (list_find _ fs) as [[i fe']|]; [done|]. cbn. by rewrite lookup_insert_ne.
  - intros fe' Hin. rewrite lookup_insert_ne; [apply HR; by right|]. intros Heq. destruct Hni. rewrite Heq.
    apply list_elem_of_fmap. by exists fe'.
Qed.

Section Flush.

Context (pad_head pad_level pad_tail pad_zone : bytes).
Context (Hpads : pads_ok pad_head pad_level pad_tail pad_zone).
Context {W M : Type} `{HM : !ZMeta M} `{HL : !ZLogLaws M}.
Implicit Types (e : zenv W M) (m : M).

Abbreviation ent_bytes := (ent_bytes pad_level pad_tail).
Abbreviation base_data := (base_data pad_level pad_tail).

Lemma write_meta_ent f update :
  ent_ok (fent_of f) -> 0 <= zf_startIndex f <= Z.of_nat (length (zf_map f)) ->
  WriteMetaToBuf pad_level pad_tail f update =
  Some (ent_bytes (fent_from f (if update then zf_startIndex f else 0)), zf_set_startIndex f (Z.of_nat (length (zf_map f)))).
Proof using.
  intros (Hn & _ & _ & _ & Hl) Hs. cbn [fe_map fent_of fent_from] in Hl. rewrite drop_0 in Hl.
  unfold WriteMetaToBuf, EnvLog.ent_bytes. cbn [fe_own fe_level fe_size fe_map fent_from].
  assert (Hlen : i32 (if update then Z.of_nat (length (zf_map f)) - zf_startIndex f else Z.of_nat (length (zf_map f))) =
    i32 (Z.of_nat (length (drop (Z.to_nat (if update then zf_startIndex f else 0)) (zf_map f))))).
  { rewrite length_drop. f_equal. destruct update; lia. }
  rewrite Hlen. destruct (name_field_ok _ Hn) as (nm & Hnm & _). unfold file_meta. cbn [fent_of fent_from fe_own] in Hnm. rewrite Hnm.
  cbn [mbind option_bind]. rewrite (wrap_small 32) by lia. by destruct update.
Qed.

(** The loop over the table writes the entries of its files. *)
Lemma flush_files_exact fs : forall e n dl acc,
  (forall nm p, (nm, Some p) ∈ fs -> exists f, deref e p = Some f /\ ent_ok (fent_of f) /\ 0 <= zf_startIndex f <= Z.of_nat (length (zf_map f))) ->
  0 <= n -> n + Z.of_nat (length (ents e fs)) < 2 ^ 32 -> 0 <= dl ->
  dl + Z.of_nat (length (base_data (ents e fs))) < FILE_METADATA_BUF_SIZE ->
  exists e', flush_files pad_level pad_tail e fs n dl acc =
      Some (S_OK, n + Z.of_nat (length (ents e fs)), acc ++ base_data (ents e fs), e') /\
    same_heap e e' /\ same_rest e e' /\ ev_files e' = ev_files e /\ ev_next e' = ev_next e /\
    (forall p f', deref e' p = Some f' -> deref e p = Some f' \/ zf_startIndex f' = Z.of_nat (length (zf_map f'))) /\
    (forall nm p f', (nm, Some p) ∈ fs -> deref e' p = Some f' -> zf_startIndex f' = Z.of_nat (length (zf_map f'))).
Proof using Hpads.
  induction fs as [|[nm [p|]] fs IH]; intros e n dl acc Hfs Hn Hn32 Hdl Hsz.
  - exists e. cbn. rewrite app_nil_r, Z.add_0_r. split_and!; auto using same_heap_refl; try done. by intros ? ? ? ?%not_elem_of_nil.
  - destruct (Hfs nm p) as (f & Hp & Hok & Hi); [by left|]. cbn [flush_files]. rewrite Hp. cbn [mbind option_bind].
    assert (He : ents e ((nm, Some p) :: fs) = fent_of f :: ents e fs) by (unfold ents; cbn; by rewrite Hp).
    rewrite He in *. change (base_data (fent_of f :: ents e fs)) with (ent_bytes (fent_of f) ++ base_data (ents e fs)) in *.
    cbn [length] in Hn32. rewrite length_app in Hsz. pose proof (length_ent_bytes _ _ _ _ Hpads (fent_of f) (proj1 Hok)) as Hlb.
    cbn [fe_map fent_of fent_from] in Hlb. rewrite drop_0 in Hlb.
    assert (Hml : GetFileMetaLen f = Z.of_nat (length (ent_bytes (fent_of f)))).
    { unfold GetFileMetaLen, SIZE_FILE_META, SIZE_MAP. unfold FILE_METADATA_BUF_SIZE in Hsz. rewrite wrap_small; lia. }
    rewrite Hml, (wrap_small 32) by (unfold FILE_METADATA_BUF_SIZE in Hsz; lia).
    replace (FILE_METADATA_BUF_SIZE <=? _) with false by lia. rewrite write_meta_ent by done. cbn [mbind option_bind].
    set (f1 := zf_set_startIndex f (Z.of_nat (length (zf_map f)))). set (e1 := store e p f1).
    assert (Hsame : same_heap e e1) by (by eapply same_heap_store).
    assert (Hents : ents e1 fs = ents e fs).
    { unfold ents. apply list_omap_ext. apply Forall2_same_length_lookup_2; [done|]. intros i [k q] y H1 H2.
      assert (y = (k, q)) as -> by congruence. destruct q as [q|]; [|done]. cbn. destruct (decide (q = p)) as [->|Hq].
      - unfold e1. by rewrite deref_store_eq, Hp.
      - unfold e1. by rewrite deref_store_ne. }
    change (fent_from f 0) with (fent_of f).
    destruct (IH e1 (u32 (n + 1)) (dl + Z.of_nat (length (ent_bytes (fent_of f)))) (acc ++ ent_bytes (fent_of f)))
      as (e' & Hrun & A1 & A2 & A3 & A4 & A5 & A6).
    + intros nm' q Hq. destruct (Hfs nm' q) as (g & Hg & Hgo & Hgi); [by right|]. destruct (decide (q = p)) as [->|Hne].
      * exists f1. unfold e1. rewrite deref_store_eq. split; [done|]. split; [exact Hok|]. cbn. lia.
      * exists g. unfold e1. by rewrite deref_store_ne.
    + apply wrap_range. lia.
    + rewrite Hents, wrap_small; lia.
    + lia.
    + rewrite Hents. lia.
    + exists e'. rewrite Hrun, Hents, wrap_small by lia. split_and!.
      * rewrite <- app_assoc. cbn [length]. by rewrite Nat2Z.inj_succ, <- Z.add_1_l, Z.add_assoc.
      * by eapply same_heap_trans.
      * apply A2.
      * done.
      * done.
      * intros q g Hg. destruct (A5 q g Hg) as [H|H]; [|by right]. unfold e1 in H. destruct (decide (q = p)) as [->|Hne].
        -- rewrite deref_store_eq in H. injection H as <-. by right.
        -- rewrite deref_store_ne in H by done. by left.
      * intros nm' q g [[= -> ->]|Hin]%elem_of_cons Hg; [|by eapply A6].
        destruct (A5 p g Hg) as [H|H]; [|done]. unfold e1 in H. rewrite deref_store_eq in H. by injection H as <-.
  - cbn [flush_files]. destruct (IH e n dl acc) as (e' & Hrun & A1 & A2 & A3 & A4 & A5 & A6); auto.
    + intros nm' q Hq. apply (Hfs nm' q). by right.
    + exists e'. split_and!; auto; try apply A2. intros nm' q g [[= ->]|Hin]%elem_of_cons Hg; by eapply A6.
Qed.

(** * The checkpoint *)

Context (Hpb : byte_list (pad_head ++ pad_level ++ pad_tail ++ pad_zone)).

Lemma byte_le_bytes n : forall x, byte_list (le_bytes n x).
Proof using. induction n as [|n IH]; intros x; constructor; [apply Z.mod_pos_bound; lia|apply IH]. Qed.

Lemma byte_replicate n : byte_list (replicate n 0).
Proof using. apply Forall_replicate. lia. Qed.

Lemma byte_name n : name_ok n -> byte_list n.
Proof using. intros [_ Hn]. eapply Forall_impl; [exact Hn|]. simpl. lia. Qed.

Lemma byte_map_bytes ws : byte_list (map_bytes_of ws).
Proof using. unfold map_bytes_of. induction ws as [|w ws IH]; [constructor|]. cbn [fmap list_fmap]. rewrite join_cons. apply Forall_app. auto using byte_le_bytes. Qed.

Lemma byte_metadata_head tag len : byte_list (metadata_head pad_head tag len).
Proof using Hpb. apply Forall_app in Hpb as [Hp _]. unfold metadata_head. rewrite !Forall_app. auto using byte_le_bytes. Qed.

Lemma byte_ent_bytes fe : name_ok (fe_own fe) -> byte_list (ent_bytes fe).
Proof using Hpb.
  intros Hn. rewrite !Forall_app in Hpb. destruct Hpb as (_ & Hp1 & Hp2 & _). unfold EnvLog.ent_bytes.
  apply Forall_app; split; [|apply byte_map_bytes]. unfold file_meta, name_field. destruct (_ <? _); [constructor|].
  cbn [mbind option_bind from_option id]. rewrite !Forall_app. auto 10 using byte_le_bytes, byte_replicate, byte_name.
Qed.

Lemma byte_base_data fs : Forall (fun fe => name_ok (fe_own fe)) fs -> byte_list (base_data fs).
Proof using Hpb.
  induction 1 as [|fe fs Hn _ IH]; [constructor|]. change (base_data (fe :: fs)) with (ent_bytes fe ++ base_data fs).
  apply Forall_app. auto using byte_ent_bytes.
Qed.

(** The table can be written to the log. *)
Record table_ok e : Prop := {
  tk_sorted : keys_sorted (ev_files e);
  tk_file : forall n p, map_find n (ev_files e) = Some (Some p) ->
    exists f, deref e p = Some f /\ ent_ok (fent_of f) /\ 0 <= zf_startIndex f <= Z.of_nat (length (zf_map f))
}.

Definition table_fits e : Prop :=
  Z.of_nat (length (base_data (ents e (ev_files e)))) < FILE_METADATA_BUF_SIZE - 4112 /\
  Z.of_nat (length (ents e (ev_files e))) < 2 ^ 16 /\ 0 <= ev_sequence e < 2 ^ 32 - 1.

Lemma ents_ok e fe : table_ok e -> fe ∈ ents e (ev_files e) -> ent_ok fe.
Proof using.
  intros [Hs Hf] (kv & Hin & Hfe)%list_elem_of_omap. destruct kv as [n [p|]]; [|done].
  destruct (Hf n p (map_find_sorted _ _ _ Hs Hin)) as (f & Hp & Hok & _). cbn in Hfe. rewrite Hp in Hfe. cbn in Hfe. by injection Hfe as <-.
Qed.

Lemma ents_base_ok fs : forall R,
  (forall fe, fe ∈ fs -> ent_ok fe) -> (forall n fe, R !! n = Some fe -> fe_own fe = n) -> base_ok fs R.
Proof using.
  induction fs as [|fe fs IH]; intros R Hok HR; [done|]. cbn [base_ok]. split_and!.
  - apply Hok. by left.
  - intros old Hold. by apply HR.
  - apply IH; [intros fe' Hin; apply Hok; by right|]. intros n g. unfold apply_file. destruct (R !! fe_own fe) as [old|] eqn:E.
    + destruct (decide (n = fe_own fe)) as [->|Hne]; [rewrite lookup_insert_eq; by intros [= <-]|rewrite lookup_insert_ne by done; apply HR].
    + destruct (decide (n = fe_own fe)) as [->|Hne]; [rewrite lookup_insert_eq; by intros [= <-]|rewrite lookup_insert_ne by done; apply HR].
Qed.

Lemma base_image_log seq fs :
  base_image pad_head pad_zone seq (Z.of_nat (length fs)) (base_data fs) = log_image pad_head pad_level pad_tail pad_zone seq fs [].
Proof using.
  unfold base_image, log_image, EnvLog.base_rec. cbn [fmap list_fmap mjoin list_join]. rewrite app_nil_r.
  set (len := sector_align _). set (n := Z.of_nat (length (base_data fs))).
  replace (len - SIZE_HEAD - SIZE_ZONE_HEAD) with (len - SIZE_ZONE_HEAD - SIZE_HEAD) by lia.
  replace (len - (SIZE_ZONE_HEAD + SIZE_HEAD + 4 + n)) with (len - SIZE_ZONE_HEAD - (SIZE_HEAD + 4 + n)) by lia. done.
Qed.

(** What is appended to the log can be read back. *)
Lemma holds_written m m' a b :
  (forall x, a <= x < a + Z.of_nat (length b) -> zl_byte m' x = default 0 (b !! Z.to_nat (x - a))) -> holds m' a b.
Proof using.
  intros H. unfold holds. apply list_eq_same_length with (length b); [done|apply length_log_bytes|].
  intros i x y Hi Hx Hy. unfold log_bytes in Hx. apply list_lookup_fmap_Some in Hx as (j & -> & Hj).
  apply lookup_seq in Hj as [-> Hj]. rewrite H by lia. replace (Z.to_nat (a + Z.of_nat (0 + i) - a)) with i by lia. by rewrite Hy.
Qed.

Definition other_older m (seq : Z) : Prop :=
  let z := zl_z0 + zl_z1 - zl_cur m in head_magic m z = METADATA_MAGIC -> 0 <= head_seq m z < seq.

(** The heads of the zone that is not written to stay. *)
Lemma other_older_same m m' seq :
  zl_ok m -> zl_cur m' = zl_cur m ->
  (forall a, in_blocks a (zl_cur m) zl_cap = false -> zl_byte m' a = zl_byte m a) -> other_older m seq -> other_older m' seq.
Proof using.
  intros Hok Hc Hb H. unfold other_older in *. rewrite Hc. pose proof (zl_shape (M := M)) as (Hz0 & Hz1 & Hz2 & Hz3).
  destruct (zl_wf _ Hok) as (Hcur & _). set (z := zl_z0 + zl_z1 - zl_cur m) in *. unfold FILE_METADATA_BUF_SIZE in Hz3.
  assert (Hout : forall x, 4096 * z <= x < 4096 * z + 8 -> in_blocks x (zl_cur m) zl_cap = false).
  { intros x Hx. unfold in_blocks. apply andb_false_iff. rewrite Z.leb_gt, Z.ltb_ge. subst z. lia. }
  unfold head_magic, head_seq in *. rewrite Hb by (apply Hout; lia).
  rewrite (log_bytes_ext (zl_byte m') (zl_byte m)); [done|]. intros x Hx. apply Hb, Hout. lia.
Qed.

(** The zone that the log leaves has the older head. *)
Lemma older_switched m m' z seq seq' :
  z = zl_z0 \/ z = zl_z1 -> zl_cur m' = zl_z0 + zl_z1 - z ->
  (forall a, zl_byte m' a = if in_blocks a (zl_cur m') zl_cap then 0 else zl_byte m a) ->
  holds m (4096 * z) (zone_head pad_zone seq) -> 0 <= seq < seq' -> seq' < 2 ^ 32 -> other_older m' seq'.
Proof using Hpads.
  intros Hcur Hc' Hb' Hh Hs Hs'. unfold other_older. pose proof (zl_shape (M := M)) as (Hz0 & Hz1 & Hz2 & Hz3).
  unfold FILE_METADATA_BUF_SIZE in Hz3. rewrite Hc'.
  replace (zl_z0 + zl_z1 - (zl_z0 + zl_z1 - z)) with z by lia. intros _.
  assert (Hh' : holds m' (4096 * z) (zone_head pad_zone seq)).
  { eapply holds_same; [|exact Hh]. rewrite (length_zone_head pad_head pad_level pad_tail pad_zone Hpads). intros x Hx.
    rewrite Hb'. replace (in_blocks x _ _) with false; [done|]. symmetry. unfold in_blocks.
    apply andb_false_iff. rewrite Z.leb_gt, Z.ltb_ge. lia. }
  apply (zone_head_fields pad_head pad_level pad_tail pad_zone Hpads) in Hh' as [_ Hq]; lia.
Qed.

Lemma byte_log_base seq fs :
  Forall (fun fe => name_ok (fe_own fe)) fs -> byte_list (log_image pad_head pad_level pad_tail pad_zone seq fs []).
Proof using Hpb.
  intros Hn. unfold log_image, EnvLog.base_rec. cbn [fmap list_fmap mjoin list_join]. pose proof Hpb as Hp. rewrite !Forall_app in Hp.
  destruct Hp as (_ & _ & _ & Hz). unfold zone_head. rewrite !Forall_app.
  split_and!; auto using byte_le_bytes, byte_metadata_head, byte_base_data, byte_replicate, Forall_take, Forall_drop.
Qed.

(** What a flush leaves of the table: all but the start indexes. *)
Record flushed_table e e' : Prop := {
  ft_heap : same_heap e e';
  ft_w : ev_w e' = ev_w e;
  ft_files : ev_files e' = ev_files e;
  ft_next : ev_next e' = ev_next e;
  ft_index : forall p f f', deref e p = Some f -> deref e' p = Some f' ->
    zf_startIndex f' = zf_startIndex f \/ zf_startIndex f' = Z.of_nat (length (zf_map f'))
}.

Lemma FlushMetaData_exact e :
  zl_ok (ev_m e) -> zl_len (ev_m e) = 0 -> table_ok e -> table_fits e -> other_older (ev_m e) (ev_sequence e) ->
  exists e', FlushMetaData pad_head pad_level pad_tail pad_zone e = Ok (S_OK, e') /\
    log_state pad_head pad_level pad_tail pad_zone (ev_m e') (ev_sequence e) (ents e (ev_files e)) [] /\
    ev_sequence e' = ev_sequence e + 1 /\ flushed_table e e' /\
    (forall n p f', map_find n (ev_files e) = Some (Some p) -> deref e' p = Some f' -> zf_startIndex f' = Z.of_nat (length (zf_map f'))).
Proof using Hpads Hpb.
  intros Hok Hlen0 Htk (Hsz & Hnum & Hseq) Hoth. unfold FlushMetaData.
  set (e0 := ev_set_sequence e (u64 (ev_sequence e + 1))).
  destruct (flush_files_exact (ev_files e) e0 0 (SIZE_ZONE_HEAD + SIZE_HEAD + 4) []) as (e1 & Hrun & H1 & H2 & H3 & H4 & H5 & H6).
  - intros nm p Hin. apply (tk_file _ Htk nm p), map_find_sorted, Hin. apply Htk.
  - lia.
  - change (ents e0 (ev_files e)) with (ents e (ev_files e)). lia.
  - unfold SIZE_ZONE_HEAD, SIZE_HEAD. lia.
  - unfold SIZE_ZONE_HEAD, SIZE_HEAD. change (ents e0 (ev_files e)) with (ents e (ev_files e)). lia.
  - change (ents e0 (ev_files e)) with (ents e (ev_files e)) in Hrun. set (fs := ents e (ev_files e)) in *.
    change (ev_files e0) with (ev_files e). rewrite Hrun. cbn [lift mbind outcome_bind]. rewrite app_nil_l, Z.add_0_l, (wrap_small 32) by lia.
    rewrite base_image_log. set (img := log_image _ _ _ _ _ _ _).
    destruct (base_rec_head pad_head pad_level pad_tail pad_zone Hpads fs Hsz) as (_ & k & _ & Hk & Hkr & Hkb & _).
    assert (Hil : Z.of_nat (length img) = 4096 * (k + 1)).
    { subst img. unfold log_image. cbn [fmap list_fmap mjoin list_join]. rewrite app_nil_r, length_app, Nat2Z.inj_add, Hk.
      rewrite (length_zone_head pad_head pad_level pad_tail pad_zone Hpads). lia. }
    assert (Hfo : forall fe, fe ∈ fs -> ent_ok fe) by (intros fe; by apply ents_ok).
    assert (Hbytes : byte_list img) by (apply byte_log_base, Forall_forall; intros fe Hin; by apply Hfo).
    pose proof (zl_shape (M := M)) as (_ & _ & _ & Hcap).
    assert (Hm1 : ev_m e1 = ev_m e) by apply H2.
    rewrite Hm1.
    destruct (zl_write (ev_m e) img (k + 1)) as (m & Hwr & Hmok & Hmc & Hml & Hmb); auto; try lia. rewrite Hwr. cbn [mbind outcome_bind]. change (0 =? MD_WRITE_FULL) with false. cbv iota.
    eexists. split; [reflexivity|]. rewrite Hlen0, ?Z.add_0_r in *.
    assert (Hz : ev_sequence e0 = ev_sequence e + 1) by (cbn; rewrite wrap_small; lia).
    split; [|split; [|split]]; cbn [ev_m ev_set_m ev_sequence].
    + constructor; auto.
      * split_and!; [apply ents_base_ok; auto|done|lia|done]. intros n fe. by rewrite lookup_empty.
      * rewrite Hmc. apply (holds_written (ev_m e)). fold img. intros x Hx. rewrite Hil in Hx. rewrite Hmb. unfold in_blocks.
        replace ((4096 * zl_cur (ev_m e) <=? x) && (x <? 4096 * (zl_cur (ev_m e) + (k + 1)))) with true by lia. done.
      * rewrite Hml. change (Z.of_nat (length img) = 4096 * (0 + (k + 1))). lia.
      * apply (other_older_same (ev_m e)); auto. intros a Ha. rewrite Hmb. destruct (in_blocks a _ (k + 1)) eqn:E; [|done].
        exfalso. revert E Ha. unfold in_blocks. rewrite andb_true_iff, andb_false_iff, !Z.leb_le, !Z.ltb_lt, Z.leb_gt, Z.ltb_ge.
        unfold FILE_METADATA_BUF_SIZE in *. lia.
    + destruct H2 as (_ & _ & H2). cbn. by rewrite H2.
    + constructor; auto; [apply H2|]. intros p f f' Hp Hp'. destruct (H5 p f' Hp') as [H|H]; [|by right].
      left. change (deref e p = Some f') in H. congruence.
    + intros n p f' Hn Hp. apply (H6 n p f'); [by apply map_find_elem|done].
Qed.

(** * Table and log *)

Abbreviation log_state := (log_state pad_head pad_level pad_tail pad_zone).

(** The table is found by the names of its files. *)
Definition names_ok e : Prop :=
  forall n p f, map_find n (ev_files e) = Some (Some p) -> deref e p = Some f -> zf_name f = n.

Definition fresh_ok e : Prop := forall p, (ev_next e <= p)%nat -> deref e p = None.

(** The log describes the table: the entry of a file has the pieces up to its start
    index, a file without an entry has logged none, and there are no other entries. *)
Record logged e R : Prop := {
  lg_log : exists fs rs, log_state (ev_m e) (ev_sequence e - 1) fs rs /\ log_table fs rs = R;
  lg_table : table_ok e;
  lg_names : names_ok e;
  lg_fresh : fresh_ok e;
  lg_own : forall n fe, R !! n = Some fe -> fe_own fe = n;
  lg_file : forall n p f, map_find n (ev_files e) = Some (Some p) -> deref e p = Some f ->
    match R !! n with Some fe => fe_map fe = take (Z.to_nat (zf_startIndex f)) (zf_map f) | None => zf_startIndex f = 0 end;
  lg_only : forall n fe, R !! n = Some fe -> exists p, map_find n (ev_files e) = Some (Some p)
}.

Lemma ents_elem e fs fe :
  fe ∈ ents e fs <-> exists n p f, (n, Some p) ∈ fs /\ deref e p = Some f /\ fe = fent_of f.
Proof using.
  unfold ents. rewrite list_elem_of_omap. split.
  - intros ([n [p|]] & Hin & Hfe); [|done]. cbn in Hfe. destruct (deref e p) as [f|] eqn:Hp; [|done]. injection Hfe as <-. by exists n, p, f.
  - intros (n & p & f & Hin & Hp & ->). exists (n, Some p). split; [done|]. cbn. by rewrite Hp.
Qed.

Lemma ents_nodup e fs (own : bytes -> bytes) :
  keys_sorted fs -> (forall n p f, (n, Some p) ∈ fs -> deref e p = Some f -> zf_name f = own n) ->
  (forall n n' p p', (n, Some p) ∈ fs -> (n', Some p') ∈ fs -> own n = own n' -> n = n') -> NoDup (fe_own <$> ents e fs).
Proof using.
  induction 1 as [|n q fs Hall Hs IH]; intros Hn Hinj; [constructor|].
  assert (IH' : NoDup (fe_own <$> ents e fs)).
  { apply IH; [intros; eapply Hn; [by right|done]|]. intros k k' p p' H1 H2. apply (Hinj k k' p p'); by right. }
  destruct q as [p|]; [|exact IH']. destruct (deref e p) as [f|] eqn:Hp.
  - replace (ents e ((n, Some p) :: fs)) with (fent_of f :: ents e fs) by (unfold ents; cbn; by rewrite Hp).
    apply NoDup_cons. split; [|done]. intros (fe & Hfe & Hin)%list_elem_of_fmap. apply ents_elem in Hin as (k & q & g & Hin & Hq & ->).
    rewrite Forall_forall in Hall. specialize (Hall _ Hin). cbn in Hall, Hfe.
    rewrite (Hn n p f), (Hn k q g) in Hfe by (done || by left || by right).
    apply (Hinj n k p q) in Hfe; [subst k; by rewrite str_lt_irrefl in Hall|by left|by right].
  - replace (ents e ((n, Some p) :: fs)) with (ents e fs) by (unfold ents; cbn; by rewrite Hp). done.
Qed.

(** The table of a checkpoint. *)
Lemma checkpoint_lookup e n fe :
  table_ok e -> names_ok e ->
  base_table (ents e (ev_files e)) ∅ !! n = Some fe <->
  exists p f, map_find n (ev_files e) = Some (Some p) /\ deref e p = Some f /\ fe = fent_of f.
Proof using.
  intros Htk Hn. rewrite base_table_lookup.
  2:{ apply (ents_nodup e (ev_files e) id); [apply Htk| |done]. intros k p f Hin. apply Hn, map_find_sorted, Hin. apply Htk. }
  2:{ intros fe' _. apply lookup_empty. }
  rewrite lookup_empty. split.
  - destruct (list_find _ _) as [[i fe']|] eqn:Hf; [|done]. intros [= ->]. apply list_find_Some in Hf as (Hi & Hown & _).
    apply list_elem_of_lookup_2, ents_elem in Hi as (k & p & f & Hin & Hp & ->).
    apply map_find_sorted in Hin; [|apply Htk]. cbn in Hown. rewrite (Hn k p f Hin Hp) in Hown. subst k. by exists p, f.
  - intros (p & f & Hfind & Hp & ->).
    assert (Hin : fent_of f ∈ ents e (ev_files e)) by (apply ents_elem; exists n, p, f; auto using map_find_elem).
    destruct (list_find (fun fe => fe_own fe = n) (ents e (ev_files e))) as [[i fe']|] eqn:Hf.
    + apply list_find_Some in Hf as (Hi & Hown & _). apply list_elem_of_lookup_2, ents_elem in Hi as (k & q & g & Hk & Hq & ->).
      apply map_find_sorted in Hk; [|apply Htk]. cbn in Hown. rewrite (Hn k q g Hk Hq) in Hown. subst k. congruence.
    + exfalso. apply list_find_None in Hf. rewrite Forall_forall in Hf. apply (Hf _ Hin). cbn. by apply (Hn n p).
Qed.

Lemma flushed_deref e e' p f' :
  flushed_table e e' -> deref e' p = Some f' -> exists f, deref e p = Some f /\ fent_of f' = fent_of f /\ zf_name f' = zf_name f /\ zf_map f' = zf_map f.
Proof using.
  intros F Hp. destruct (same_heap_deref _ _ _ _ (same_heap_sym _ _ (ft_heap _ _ F)) Hp) as (f & Hf & Hs).
  exists f. unfold same_file, zf_set_startIndex in Hs. injection Hs as H1 H2 H3 H4 H5 H6 H7 H8. unfold fent_of, fent_from.
  rewrite H1, H2, H4, H5. done.
Qed.

Lemma flushed_table_ok e e' : flushed_table e e' -> table_ok e -> names_ok e -> fresh_ok e -> table_ok e' /\ names_ok e' /\ fresh_ok e'.
Proof using.
  intros F [T1 T2] Hn Hf. pose proof (ft_files _ _ F) as Hff. split_and!.
  - constructor; rewrite Hff; [done|]. intros n p Hfind. destruct (T2 n p Hfind) as (f & Hp & Hok & Hi).
    destruct (same_heap_deref _ _ _ _ (ft_heap _ _ F) Hp) as (f' & Hp' & Hs). exists f'. split; [done|].
    destruct (flushed_deref e e' p f' F Hp') as (g & Hg & Hfe & _ & Hmap). assert (g = f) as -> by congruence.
    rewrite Hfe. split; [done|]. destruct (ft_index _ _ F p f f' Hp Hp') as [-> | ->]; rewrite ?Hmap; lia.
  - intros n p f' Hfind Hp'. rewrite Hff in Hfind. destruct (flushed_deref e e' p f' F Hp') as (g & Hg & _ & -> & _). by eapply Hn.
  - intros p Hp. rewrite (ft_next _ _ F) in Hp. destruct (deref e' p) as [f'|] eqn:E; [|done].
    destruct (flushed_deref e e' p f' F E) as (g & Hg & _). rewrite (Hf p Hp) in Hg. done.
Qed.

(** A checkpoint logs the whole table. *)
Lemma checkpoint_logged e e' :
  flushed_table e e' -> table_ok e -> names_ok e -> fresh_ok e ->
  log_state (ev_m e') (ev_sequence e' - 1) (ents e (ev_files e)) [] ->
  (forall n p f', map_find n (ev_files e) = Some (Some p) -> deref e' p = Some f' -> zf_startIndex f' = Z.of_nat (length (zf_map f'))) ->
  logged e' (base_table (ents e (ev_files e)) ∅).
Proof using.
  intros F Ht Hn Hf Hls Hidx. destruct (flushed_table_ok e e' F Ht Hn Hf) as (Ht' & Hn' & Hf').
  constructor; auto.
  - eexists _, _. split; [exact Hls|]. done.
  - intros n fe (p & f & Hfind & Hp & ->)%checkpoint_lookup; auto. cbn. by apply (Hn n p).
  - intros n p f' Hfind Hp'. rewrite (ft_files _ _ F) in Hfind. destruct (flushed_deref e e' p f' F Hp') as (f & Hp & Hfe & _ & Hmap).
    destruct (base_table _ _ !! n) as [fe|] eqn:E.
    + apply checkpoint_lookup in E as (q & g & Hq & Hg & ->); auto. assert (q = p) as -> by congruence. assert (g = f) as -> by congruence.
      rewrite (Hidx n p f' Hfind Hp'), Hmap. cbn. by rewrite drop_0, take_ge by lia.
    + exfalso. assert (Hx : base_table (ents e (ev_files e)) ∅ !! n = Some (fent_of f)); [|congruence].
      apply checkpoint_lookup; auto. by exists p, f.
  - intros n fe (p & f & Hfind & Hp & ->)%checkpoint_lookup; auto. exists p. by rewrite (ft_files _ _ F).
Qed.

Lemma byte_rec r R : rec_ok r R -> byte_list (rec_bytes pad_head pad_level pad_tail r).
Proof using Hpads Hpb.
  intros Hr. unfold EnvLog.rec_bytes. destruct r as [gc fe|n|src dst]; cbn [rec_ok] in Hr.
  - destruct Hr as (Hent & Hlen & _). pose proof (length_ent_bytes _ _ _ _ Hpads fe (proj1 Hent)) as Hb.
    assert (Hne : ent_bytes fe <> []) by (intros E; rewrite E in Hb; discriminate Hb).
    rewrite (file_record_ok _ _ _ _ Hpads) by (done || lia). cbn [from_option id]. rewrite !Forall_app.
    split_and!; [apply byte_metadata_head|by apply byte_ent_bytes, Hent|apply byte_replicate].
  - rewrite (delete_record_ok _ _ _ _ Hpads) by done. cbn [from_option id]. rewrite !Forall_app.
    split_and!; auto using byte_metadata_head, byte_name, byte_replicate.
  - destruct Hr as [Hn1 Hn2]. rewrite (replace_record_ok _ _ _ _ Hpads) by done. cbn [from_option id]. rewrite !Forall_app.
    split_and!; auto using byte_metadata_head, byte_name, byte_replicate.
Qed.

(** The two ways a record ends up in the log: appended, or as part of a checkpoint in
    the other zone. *)
Inductive appended e (fs : list fent) (rs : list lrec) (r : lrec) e' : Prop :=
  | ap_room : ev_heap e' = ev_heap e -> ev_sequence e' = ev_sequence e ->
      log_state (ev_m e') (ev_sequence e' - 1) fs (rs ++ [r]) -> appended e fs rs r e'
  | ap_full : ev_sequence e' = ev_sequence e + 1 -> logged e' (base_table (ents e (ev_files e)) ∅) -> appended e fs rs r e'.

Lemma flushed_set_m e m' : flushed_table e (ev_set_m e m').
Proof using. constructor; try done. intros p f f' Hp Hp'. left. change (deref e p = Some f') in Hp'. congruence. Qed.

(** A record of the log that the zone has room for. *)
Lemma append_record_room e fs rs r :
  log_state (ev_m e) (ev_sequence e - 1) fs rs -> rec_ok r (log_table fs rs) -> zl_len (ev_m e) + 1 < zl_cap ->
  exists m', append_record pad_head pad_level pad_tail pad_zone e (rec_bytes pad_head pad_level pad_tail r) = Ok (S_OK, ev_set_m e m') /\
    log_state m' (ev_sequence e - 1) fs (rs ++ [r]).
Proof using Hpads Hpb.
  intros [Hok Himg Hh Hlen Hseq Hoth] Hr Hroom. unfold append_record.
  destruct (rec_bytes_head pad_head pad_level pad_tail pad_zone Hpads r _ Hr) as (_ & _ & _ & Hl).
  set (b := rec_bytes _ _ _ r) in *. pose proof (byte_rec r _ Hr) as Hb. fold b in Hb.
  destruct (zl_wf _ Hok) as (Hcur & Hlr & Hz).
  destruct (zl_write (ev_m e) b 1) as (m' & -> & Hok' & Hc' & Hn' & Hb'); auto; try lia. cbn [mbind outcome_bind].
  change (0 =? MD_WRITE_FULL) with false. cbv iota. exists m'. split; [reflexivity|].
  assert (Himage : log_image pad_head pad_level pad_tail pad_zone (ev_sequence e - 1) fs (rs ++ [r]) =
    log_image pad_head pad_level pad_tail pad_zone (ev_sequence e - 1) fs rs ++ b).
  { unfold log_image. rewrite fmap_app, join_app, <- !app_assoc. do 3 f_equal. cbn. by rewrite app_nil_r. }
  constructor; auto.
  - destruct Himg as (I1 & I2 & I3 & I4). split_and!; auto. apply recs_ok_app. split; [done|]. split; [exact Hr|done].
  - rewrite Himage, Hc'. apply holds_app. split.
    + eapply holds_same; [|exact Hh]. intros x Hx. rewrite Hb'. unfold in_blocks. replace (4096 * _ <=? x) with false; [done|].
      symmetry. apply Z.leb_gt. lia.
    + rewrite Hlen. replace (4096 * zl_cur (ev_m e) + 4096 * zl_len (ev_m e)) with (4096 * (zl_cur (ev_m e) + zl_len (ev_m e))) by lia.
      apply (holds_written (ev_m e)). intros x Hx. rewrite Hl in Hx. rewrite Hb'. unfold in_blocks.
      replace (_ && _) with true; [done|]. symmetry. rewrite andb_true_iff, Z.leb_le, Z.ltb_lt. lia.
  - rewrite Himage, length_app. lia.
  - apply (other_older_same (ev_m e)); auto. intros a Ha. rewrite Hb'. destruct (in_blocks a _ 1) eqn:E; [|done].
    exfalso. revert E Ha. unfold in_blocks. rewrite andb_true_iff, andb_false_iff, !Z.leb_le, !Z.ltb_lt, Z.leb_gt, Z.ltb_ge. lia.
Qed.

Lemma appended_seq e fs rs r e' : appended e fs rs r e' -> ev_sequence e' <= ev_sequence e + 1.
Proof using. intros [_ Hs _|Hs _]; rewrite Hs; lia. Qed.

Lemma append_record_log e fs rs r :
  log_state (ev_m e) (ev_sequence e - 1) fs rs -> rec_ok r (log_table fs rs) ->
  table_ok e -> names_ok e -> fresh_ok e -> table_fits e ->
  exists e', append_record pad_head pad_level pad_tail pad_zone e (rec_bytes pad_head pad_level pad_tail r) = Ok (S_OK, e') /\
    flushed_table e e' /\ appended e fs rs r e'.
Proof using Hpads Hpb.
  intros Hls Hr Ht Hn Hf Hfit. destruct (decide (zl_len (ev_m e) + 1 < zl_cap)) as [Hroom|Hfull].
  - destruct (append_record_room e fs rs r Hls Hr Hroom) as (m' & Hrun & Hls'). exists (ev_set_m e m').
    split; [done|]. split; [apply flushed_set_m|]. by apply ap_room.
  - destruct Hls as [Hok Himg Hh Hlen Hseq Hoth]. unfold append_record.
    destruct (rec_bytes_head pad_head pad_level pad_tail pad_zone Hpads r _ Hr) as (_ & _ & _ & Hl). set (b := rec_bytes _ _ _ r) in *.
    destruct (zl_wf _ Hok) as (Hcur & _).
    destruct (zl_full (ev_m e) b 1) as (m' & -> & Hok' & Hc' & Hn' & Hb'); auto; try lia. cbn [mbind outcome_bind].
    rewrite Z.eqb_refl. set (e1 := ev_set_m e m').
    assert (Holder : other_older m' (ev_sequence e)).
    { unfold log_image in Hh. apply holds_app in Hh as [Hh _]. apply (older_switched (ev_m e) m' (zl_cur (ev_m e)) (ev_sequence e - 1)); auto; lia. }
    destruct (FlushMetaData_exact e1) as (e' & -> & Hls & Hs & F & Hidx); auto.
    { destruct Ht as [T1 T2]. by constructor. }
    cbn [mbind outcome_bind]. exists e'. split; [done|].
    assert (F' : flushed_table e e') by (destruct F as [F1 F2 F3 F4 F5]; by constructor).
    split; [done|]. apply ap_full; [exact Hs|]. apply checkpoint_logged; auto. rewrite Hs. by replace (ev_sequence e1 + 1 - 1) with (ev_sequence e1) by lia.
Qed.

End Flush.
