(* ===== verification/EnvHistory.v ===== *)
(** The operations on files keep the log in step with the table (the invariant [logged]
    of EnvCrash.v): creation, growth and flush of a file, migration of its pieces, and
    deletion. *)

From S2P Require Import Prelude Types EnvTypes EnvMeta EnvFile EnvLaws EnvFileOk EnvLoad EnvLog EnvRecover EnvTable EnvCrash.

Section History.

Context (pad_head pad_level pad_tail pad_zone : bytes).
Context (Hpads : pads_ok pad_head pad_level pad_tail pad_zone).
Context (Hpb : byte_list (pad_head ++ pad_level ++ pad_tail ++ pad_zone)).
Context {W M : Type} `{HD : !ZData W} `{HM : !ZMeta M} `{HL : !ZLogLaws M}.
Implicit Types (e : zenv W M) (m : M) (R : table).

Abbreviation logged := (logged pad_head pad_level pad_tail pad_zone).
Abbreviation table_fits := (table_fits pad_level pad_tail).

(** What the log says of the files in memory. *)
Record described e R : Prop := {
  ds_own : forall n fe, R !! n = Some fe -> fe_own fe = n;
  ds_file : forall n p f, map_find n (ev_files e) = Some (Some p) -> deref e p = Some f ->
    match R !! n with Some fe => fe_map fe = take (Z.to_nat (zf_startIndex f)) (zf_map f) | None => zf_startIndex f = 0 end;
  ds_only : forall n fe, R !! n = Some fe -> exists p, map_find n (ev_files e) = Some (Some p)
}.

(** The table as a checkpoint writes it. *)
Definition checkpoint e : table := base_table (ents e (ev_files e)) ∅.

Lemma appended_logged e e' fs rs r :
  table_ok e -> names_ok e -> fresh_ok e -> flushed_table e e' ->
  appended pad_head pad_level pad_tail pad_zone e fs rs r e' ->
  described e (apply_rec r (log_table fs rs)) ->
  exists R', logged e' R' /\ (R' = apply_rec r (log_table fs rs) \/ R' = checkpoint e).
Proof using.
  intros Ht Hn Hf F [Hh Hs Hls|_ Hlg] [D1 D2 D3]; [|by eauto].
  destruct (flushed_table_ok e e' F Ht Hn Hf) as (Ht' & Hn' & Hf').
  assert (Hd : forall p, deref e' p = deref e p) by (intros p; unfold deref; by rewrite Hh).
  eexists. split; [|by left]. constructor; auto.
  - eexists _, _. split; [exact Hls|]. unfold log_table. by rewrite replay_app.
  - intros n p f. rewrite (ft_files _ _ F), Hd. apply D2.
  - intros n fe Hfe. rewrite (ft_files _ _ F). by eapply D3.
Qed.

Lemma logged_described e R : logged e R -> described e R.
Proof using. intros [_ _ _ _ H1 H2 H3]. by constructor. Qed.

(** A file of the table gets new contents. *)
Lemma store_table e p f f' :
  table_ok e -> names_ok e -> fresh_ok e -> deref e p = Some f -> zf_name f' = zf_name f -> ent_ok (fent_of f') ->
  0 <= zf_startIndex f' <= Z.of_nat (length (zf_map f')) ->
  table_ok (store e p f') /\ names_ok (store e p f') /\ fresh_ok (store e p f').
Proof using.
  intros [T1 T2] Hn Hf Hp Hnm Hok Hi. split_and!.
  - constructor; [exact T1|]. intros n q Hq. destruct (decide (q = p)) as [->|Hne].
    + exists f'. by rewrite deref_store_eq.
    + rewrite deref_store_ne by done. by eapply T2.
  - intros n q g Hq. destruct (decide (q = p)) as [->|Hne].
    + rewrite deref_store_eq. intros [= <-]. rewrite Hnm. by eapply Hn.
    + rewrite deref_store_ne by done. by eapply Hn.
  - intros q Hq. destruct (decide (q = p)) as [->|Hne]; [rewrite (Hf p Hq) in Hp; done|].
    rewrite deref_store_ne by done. by apply Hf.
Qed.

(** ** Growth in memory *)

(** Pieces are added to a file, its size, level and cache change; nothing is logged. *)
Lemma grow_logged e R p f f' ws :
  logged e R -> deref e p = Some f -> zf_name f' = zf_name f -> zf_map f' = zf_map f ++ ws ->
  zf_startIndex f' = zf_startIndex f -> ent_ok (fent_of f') -> (exists n, map_find n (ev_files e) = Some (Some p)) ->
  logged (store e p f') R.
Proof using.
  intros [L1 L2 L3 L4 L5 L6 L7] Hp Hnm Hmap Hidx Hok [n0 Hn0].
  destruct (tk_file _ L2 n0 p Hn0) as (g & Hg & _ & Hi). assert (g = f) as -> by congruence.
  destruct (store_table e p f f') as (T1 & T2 & T3); auto.
  { rewrite Hidx, Hmap, length_app. lia. }
  constructor; auto. intros n q h Hq. destruct (decide (q = p)) as [->|Hne].
  - rewrite deref_store_eq. intros [= <-]. specialize (L6 n p f Hq Hp). destruct (R !! n) as [fe|].
    + rewrite Hidx, Hmap, take_app_le by lia. done.
    + congruence.
  - rewrite deref_store_ne by done. by eapply L6.
Qed.

(** ** The update record *)

(** [e] is described but for the file [p], whose pieces were replaced if [gc]. *)
Record pending e R (p : nat) (f : ZNSFile) (gc : bool) (n0 : bytes) : Prop := {
  pd_log : exists fs rs, log_state pad_head pad_level pad_tail pad_zone (ev_m e) (ev_sequence e - 1) fs rs /\ log_table fs rs = R;
  pd_table : table_ok e;
  pd_names : names_ok e;
  pd_fresh : fresh_ok e;
  pd_own : forall n fe, R !! n = Some fe -> fe_own fe = n;
  pd_only : forall n fe, R !! n = Some fe -> exists q, map_find n (ev_files e) = Some (Some q);
  pd_find : map_find n0 (ev_files e) = Some (Some p);
  pd_deref : deref e p = Some f;
  pd_file : gc = true \/
    match R !! n0 with Some fe => fe_map fe = take (Z.to_nat (zf_startIndex f)) (zf_map f) | None => zf_startIndex f = 0 end;
  pd_other : forall n q g, q <> p -> map_find n (ev_files e) = Some (Some q) -> deref e q = Some g ->
    match R !! n with Some fe => fe_map fe = take (Z.to_nat (zf_startIndex g)) (zf_map g) | None => zf_startIndex g = 0 end
}.

Lemma logged_pending e R p f n0 :
  logged e R -> map_find n0 (ev_files e) = Some (Some p) -> deref e p = Some f -> pending e R p f false n0.
Proof using. intros [L1 L2 L3 L4 L5 L6 L7] Hf Hp. constructor; auto; [right; by apply (L6 n0 p)|]. intros n q g _. apply L6. Qed.

Lemma names_inj e : table_ok e -> names_ok e ->
  forall n n' q, map_find n (ev_files e) = Some (Some q) -> map_find n' (ev_files e) = Some (Some q) -> n = n'.
Proof using.
  intros Ht Hn n n' q H1 H2. destruct (tk_file _ Ht n q H1) as (f & Hf & _).
  by rewrite <- (Hn n q f H1 Hf), <- (Hn n' q f H2 Hf).
Qed.

Lemma store_index_ents e p f i fs : deref e p = Some f -> ents (store e p (zf_set_startIndex f i)) fs = ents e fs.
Proof using.
  intros Hp. unfold ents. apply list_omap_ext. apply Forall2_same_length_lookup_2; [done|]. intros j [k q] y H1 H2.
  assert (y = (k, q)) as -> by congruence. destruct q as [q|]; [|done]. cbn. destruct (decide (q = p)) as [->|Hq].
  - by rewrite deref_store_eq, Hp.
  - by rewrite deref_store_ne.
Qed.

Lemma pending_described e R p f (gc : bool) n0 :
  pending e R p f gc n0 ->
  let i := if gc then 0 else zf_startIndex f in
  described (store e p (zf_set_startIndex f (Z.of_nat (length (zf_map f))))) (apply_file gc (fent_from f i) R) /\
  apply_file gc (fent_from f i) R !! n0 = Some (fent_of f).
Proof using.
  intros [_ Ht Hn _ D1 D3 Hn0 Hp D2 D4] i. pose proof (Hn n0 p f Hn0 Hp) as Hnm.
  destruct (tk_file _ Ht n0 p Hn0) as (g & Hg & _ & Hi). assert (g = f) as -> by congruence.
  assert (Hent : apply_file gc (fent_from f i) R = <[n0 := fent_of f]> R).
  { unfold apply_file. cbn [fe_own fent_from]. rewrite Hnm. destruct (R !! n0) as [old|] eqn:E.
    - f_equal. unfold fent_of, fent_from. rewrite Hnm. cbn. f_equal. rewrite drop_0. subst i. destruct gc; [by rewrite drop_0|].
      destruct D2 as [|D2]; [done|]. rewrite D2. apply take_drop.
    - f_equal. unfold fent_of. subst i. destruct gc; [done|]. destruct D2 as [|D2]; [done|by rewrite D2]. }
  rewrite Hent. split; [|apply lookup_insert_eq]. constructor.
  - intros n fe. destruct (decide (n = n0)) as [->|Hne]; [rewrite lookup_insert_eq; by intros [= <-]|rewrite lookup_insert_ne by done; apply D1].
  - intros n q h Hq. destruct (decide (q = p)) as [->|Hne].
    + rewrite deref_store_eq. intros [= <-]. assert (n = n0) as -> by (by eapply names_inj). rewrite lookup_insert_eq. cbn.
      by rewrite drop_0, take_ge by lia.
    + rewrite deref_store_ne by done. intros Hh. rewrite lookup_insert_ne; [by eapply D4|]. intros <-. cbn in Hq. congruence.
  - intros n fe. destruct (decide (n = n0)) as [->|Hne]; [by exists p|rewrite lookup_insert_ne by done; apply D3].
Qed.

(** A record with the metadata of a file: afterwards the log has all its pieces. *)
Lemma file_record_logged e R p f (gc : bool) n0 :
  pending e R p f gc n0 -> table_fits e ->
  let i := if gc then 0 else zf_startIndex f in
  Z.of_nat (length (zf_map f)) - i <= 491 ->
  exists e' R', append_record pad_head pad_level pad_tail pad_zone (store e p (zf_set_startIndex f (Z.of_nat (length (zf_map f)))))
      (rec_bytes pad_head pad_level pad_tail (L_File gc (fent_from f i))) = Ok (S_OK, e') /\
    logged e' R' /\ R' !! n0 = Some (fent_of f) /\ flushed_table e e' /\ ev_sequence e' <= ev_sequence e + 1.
Proof using Hpads Hpb.
  intros Hpd Hfit i Hlen. destruct (pending_described _ _ _ _ _ _ Hpd) as [D1 Hentry]. fold i in D1, Hentry.
  destruct Hpd as [(fs & rs & Hls & HR) L2 L3 L4 L5 _ Hfind Hp _ _].
  destruct (tk_file _ L2 n0 p Hfind) as (g & Hg & Hent & Hi). assert (g = f) as -> by congruence.
  pose proof (L3 n0 p f Hfind Hp) as Hnm. set (f1 := zf_set_startIndex f (Z.of_nat (length (zf_map f)))) in *.
  destruct (store_table e p f f1) as (T1 & T2 & T3); auto; [cbn; lia|]. set (e1 := store e p f1) in *.
  destruct (append_record_log pad_head pad_level pad_tail pad_zone Hpads Hpb e1 fs rs (L_File gc (fent_from f i)))
    as (e' & Hrun & F & Hap); auto.
  - cbn [rec_ok]. split_and!; [by apply ent_ok_from| |].
    + cbn [fe_map fent_from]. rewrite length_drop. subst i. destruct gc; lia.
    + intros old. rewrite HR. cbn [fe_own fent_from]. rewrite Hnm. apply L5.
  - destruct Hfit as (F1 & F2 & F3). unfold EnvCrash.table_fits, e1, f1. change (ev_files (store e p _)) with (ev_files e). rewrite store_index_ents by done. split_and!; auto; apply F3.
  - assert (F' : flushed_table e e').
    { destruct F as [F1 F2 F3 F4 F5]. constructor; auto.
      - eapply same_heap_trans; [|exact F1]. by eapply same_heap_store.
      - intros q h h' Hq Hq'. destruct (decide (q = p)) as [->|Hne].
        + right. destruct (F5 p f1 h') as [Hx|Hx]; [apply deref_store_eq|done| |done].
          rewrite Hx. destruct (same_heap_deref _ _ _ _ F1 (deref_store_eq e p f1)) as (h2 & Hh2 & Hs).
          assert (h2 = h') as -> by (fold e1 in Hh2; congruence). apply same_file_map in Hs. by rewrite <- Hs.
        + apply (F5 q h h'); [by unfold e1; rewrite deref_store_ne|done]. }
    subst R. destruct (appended_logged e1 e' fs rs _ T1 T2 T3 F Hap D1) as (R' & Hlg' & HR').
    exists e', R'. split_and!; auto; [|exact (appended_seq _ _ _ _ _ _ _ _ _ Hap)]. destruct HR' as [-> | ->]; [done|].
    unfold checkpoint. unfold e1, f1. change (ev_files (store e p _)) with (ev_files e). rewrite store_index_ents by done.
    apply checkpoint_lookup; auto. by exists p, f.
Qed.

(** The bytes of the record, as the two writers build it. *)
Lemma writer_record f i (gc : bool) :
  ent_ok (fent_of f) -> Z.of_nat (length (zf_map f)) - i <= 491 -> 0 <= i ->
  file_record pad_head (if gc then OP_GCChange else OP_Update) (ent_bytes pad_level pad_tail (fent_from f i)) =
  Some (rec_bytes pad_head pad_level pad_tail (L_File gc (fent_from f i))).
Proof using Hpads.
  intros Hent Hlen Hi. unfold EnvLog.rec_bytes.
  pose proof (length_ent_bytes _ _ _ _ Hpads (fent_from f i) (proj1 Hent)) as Hb. cbn [fe_map fent_from] in Hb. rewrite length_drop in Hb.
  rewrite (file_record_ok _ _ _ _ Hpads); [done|lia|]. intros E. rewrite E in Hb. discriminate Hb.
Qed.

(** [FlushUpdateMetaData] *)
Lemma update_logged e R p f n0 :
  logged e R -> map_find n0 (ev_files e) = Some (Some p) -> deref e p = Some f -> table_fits e ->
  Z.of_nat (length (zf_map f)) - zf_startIndex f <= 491 ->
  exists e' R', FlushUpdateMetaData pad_head pad_level pad_tail pad_zone true e p = Ok (S_OK, e') /\
    logged e' R' /\ flushed_table e e' /\ ev_sequence e' <= ev_sequence e + 1 /\
    (zf_startIndex f < Z.of_nat (length (zf_map f)) -> R' !! n0 = Some (fent_of f)).
Proof using Hpads Hpb.
  intros Hlg Hfind Hp Hfit Hlen. unfold FlushUpdateMetaData. rewrite Hp. cbn [lift mbind outcome_bind negb].
  destruct (tk_file _ (lg_table _ _ _ _ _ _ Hlg) n0 p Hfind) as (g & Hg & Hent & Hi). assert (g = f) as -> by congruence.
  destruct (Z.eqb_spec (zf_startIndex f) (Z.of_nat (length (zf_map f)))) as [Heq|Hne].
  - exists e, R. split_and!; auto; [|lia..]. constructor; auto using same_heap_refl. intros q h h' H1 H2. left. congruence.
  - rewrite write_meta_ent by done. cbn [lift mbind outcome_bind].
    destruct (file_record_logged e R p f false n0) as (e' & R' & Hrun & Hlg' & HR' & F & Hsq); auto using logged_pending.
    rewrite (writer_record f (zf_startIndex f) false) by (done || lia).
    cbn [lift mbind outcome_bind]. rewrite Hrun. by exists e', R'.
Qed.

(** [FlushGCChangeMetaData] after the pieces of a file were replaced *)
Lemma gc_logged e R p f n0 maps :
  logged e R -> map_find n0 (ev_files e) = Some (Some p) -> deref e p = Some f ->
  let f1 := zf_set_map f maps in
  ent_ok (fent_of f1) -> zf_startIndex f <= Z.of_nat (length maps) <= 491 -> table_fits (store e p f1) ->
  exists e' R', FlushGCChangeMetaData pad_head pad_level pad_tail pad_zone true (store e p f1) p = Ok (S_OK, e') /\
    logged e' R' /\ R' !! n0 = Some (fent_of f1) /\ flushed_table (store e p f1) e'.
Proof using Hpads Hpb.
  intros [L1 L2 L3 L4 L5 L6 L7] Hfind Hp f1 Hent Hlen Hfit. unfold FlushGCChangeMetaData. rewrite deref_store_eq.
  cbn [lift mbind outcome_bind negb]. destruct (tk_file _ L2 n0 p Hfind) as (g & Hg & _ & Hi). assert (g = f) as -> by congruence.
  destruct (store_table e p f f1) as (T1 & T2 & T3); auto; [cbn; lia|].
  rewrite write_meta_ent by (done || cbn; lia). cbn [lift mbind outcome_bind].
  destruct (file_record_logged (store e p f1) R p f1 true n0) as (e' & R' & Hrun & Hlg' & HR' & F & _); auto; [|cbn; lia|].
  - constructor; auto using deref_store_eq. intros n q h Hq. rewrite deref_store_ne by done. apply L6.
  - rewrite (writer_record f1 0 true) by (done || cbn; lia).
    cbn [lift mbind outcome_bind]. rewrite Hrun. by exists e', R'.
Qed.

(** ** Deletion *)

Lemma erase_smaller e e' n fs :
  (forall k q, (k, Some q) ∈ fs -> k <> n -> deref e' q = deref e q) ->
  (length (base_data pad_level pad_tail (ents e' (map_erase n fs))) <= length (base_data pad_level pad_tail (ents e fs)) /\
   length (ents e' (map_erase n fs)) <= length (ents e fs))%nat.
Proof using.
  induction fs as [|[k q] fs IH]; intros H; [done|]. unfold map_erase in *. rewrite filter_cons.
  assert (IH' := IH (fun k' q' Hin => H k' q' (proj2 (elem_of_cons _ _ _) (or_intror Hin)))).
  assert (Hmono : forall e0 kv l, (length (base_data pad_level pad_tail (ents (W := W) (M := M) e0 l)) <=
    length (base_data pad_level pad_tail (ents e0 (kv :: l))) /\ length (ents e0 l) <= length (ents e0 (kv :: l)))%nat).
  { intros e0 kv l. unfold ents. cbn [omap list_omap]. destruct (p ← kv.2; f ← deref e0 p; Some (fent_of f)); [|done].
    unfold base_data. cbn [fmap list_fmap]. rewrite join_cons, length_app. cbn [length]. lia. }
  case_decide as Hd; [|pose proof (Hmono e (k, q) fs); lia].
  destruct q as [q|]; [|exact IH']. cbn in Hd. specialize (H k q ltac:(by left) Hd).
  unfold ents in *. cbn [omap list_omap snd mbind option_bind]. rewrite H. destruct (deref e q) as [f|]; [|exact IH'].
  cbn [mbind option_bind]. unfold base_data in *. cbn [fmap list_fmap]. rewrite !join_cons, !length_app. cbn [length]. lia.
Qed.

Lemma delete_logged normalize px e R fname p f w :
  let n := normalize fname in
  logged e R -> IsFilePosix n = false -> map_find n (ev_files e) = Some (Some p) -> deref e p = Some f ->
  trim_pieces (ev_w e) (zf_map f) = Ok w -> table_fits e ->
  exists e' R', DeleteFile pad_head pad_level pad_tail pad_zone normalize px true e fname = Ok (S_OK, e') /\
    logged e' R' /\ R' !! n = None.
Proof using Hpads Hpb.
  intros n [L1 L2 L3 L4 L5 L6 L7] Hpx Hfind Hp Htrim Hfit. destruct L1 as (fs & rs & Hls & HR).
  unfold DeleteFile. fold n. rewrite Hpx, Hfind, Hp. cbn [lift mbind outcome_bind]. rewrite Htrim. cbn [mbind outcome_bind].
  set (e1 := heap_delete (ev_set_w e w) p). change (ev_files e1) with (ev_files e).
  set (e2 := ev_set_files e1 (map_erase n (ev_files e))).
  assert (Hd : forall q, q <> p -> deref e2 q = deref e q) by (intros q Hq; apply lookup_delete_ne; congruence).
  assert (Hfd : forall k q, map_find k (ev_files e2) = Some (Some q) -> k <> n /\ q <> p /\ map_find k (ev_files e) = Some (Some q)).
  { intros k q Hk. cbn in Hk. destruct (decide (k = n)) as [->|Hne]; [by rewrite map_find_erase_eq in Hk|].
    rewrite map_find_erase_ne in Hk by done. split_and!; auto. intros ->. apply Hne. by eapply names_inj. }
  assert (T1 : table_ok e2).
  { constructor; [apply map_erase_sorted, L2|]. intros k q (Hk & Hq & Hkq)%Hfd. rewrite Hd by done. by eapply tk_file. }
  assert (T2 : names_ok e2).
  { intros k q g (Hk & Hq & Hkq)%Hfd. rewrite Hd by done. by apply L3. }
  assert (T3 : fresh_ok e2).
  { intros q Hq. cbn in Hq. destruct (decide (q = p)) as [->|Hne]; [apply lookup_delete_eq|]. rewrite Hd by done. by apply L4. }
  assert (Hn : name_ok n).
  { destruct (tk_file _ L2 n p Hfind) as (g & Hg & (Hg1 & _) & _). cbn in Hg1. by rewrite (L3 n p g Hfind Hg) in Hg1. }
  assert (D : described e2 (apply_rec (L_Delete n) R)).
  { constructor; cbn [apply_rec].
    - intros k fe [_ Hk]%lookup_delete_Some. by apply L5.
    - intros k q g (Hk & Hq & Hkq)%Hfd. rewrite Hd, lookup_delete_ne by done. by apply L6.
    - intros k fe [Hk Hfe]%lookup_delete_Some. destruct (L7 k fe Hfe) as [q Hq]. exists q. cbn. by rewrite map_find_erase_ne. }
  destruct (append_record_log pad_head pad_level pad_tail pad_zone Hpads Hpb e2 fs rs (L_Delete n)) as (e' & Hrun & F & Hap); auto.
  - assert (Hx : forall k q, (k, Some q) ∈ ev_files e -> k <> n -> deref e2 q = deref e q).
    { intros k q Hin Hk. apply Hd. intros ->. apply Hk. apply map_find_sorted in Hin; [|apply L2]. exact (names_inj e L2 L3 _ _ _ Hin Hfind). }
    pose proof (erase_smaller e e2 n (ev_files e) Hx) as Hle. destruct Hfit as (F1 & F2 & F3).
    unfold EnvCrash.table_fits. cbn [ev_files e2 ev_set_files]. split_and!; [lia|lia|apply F3..].
  - subst R. destruct (appended_logged e2 e' fs rs _ T1 T2 T3 F Hap D) as (R' & Hlg' & HR').
    unfold FlushDelMetaData. cbn [negb]. unfold EnvLog.rec_bytes in Hrun. rewrite (delete_record_ok _ _ _ _ Hpads) in * by done.
    cbn [from_option id lift mbind outcome_bind] in *. rewrite Hrun. cbn [mbind outcome_bind].
    exists e', R'. split_and!; auto. destruct HR' as [-> | ->]; [apply lookup_delete_eq|].
    destruct (checkpoint e2 !! n) as [fe|] eqn:E; [|done]. apply checkpoint_lookup in E as (q & g & Hq & _); auto.
    apply Hfd in Hq as (Hq & _). done.
Qed.

(** ** Creation *)

(** A new file is not in the log until it is flushed. *)
Lemma create_logged normalize px buf_ok e R fname :
  let n := normalize fname in
  logged e R -> IsFilePosix n = false -> name_ok n -> (forall q, map_find n (ev_files e) <> Some (Some q)) ->
  exists wf e', NewWritableFile normalize px buf_ok e fname = Some (S_OK, Some wf, e') /\ logged e' R /\
    map_find n (ev_files e') = Some (Some (wf_znsfile wf)).
Proof using.
  intros n [L1 L2 L3 L4 L5 L6 L7] Hpx Hname Hnone. unfold NewWritableFile. fold n. rewrite Hpx.
  set (e1 := match map_find n (ev_files e) with Some _ => _ | None => _ end).
  assert (H1 : ev_heap e1 = ev_heap e /\ ev_next e1 = ev_next e /\ ev_m e1 = ev_m e /\ ev_sequence e1 = ev_sequence e /\
    keys_sorted (ev_files e1) /\ (forall k, k <> n -> map_find k (ev_files e1) = map_find k (ev_files e))).
  { subst e1. destruct (map_find n (ev_files e)) as [[q|]|] eqn:E; [by destruct (Hnone q)| |].
    - cbn. split_and!; auto; [apply map_erase_sorted, L2|]. intros k Hk. by apply map_find_erase_ne.
    - split_and!; auto. apply L2. }
  destruct H1 as (Hh & Hnx & Hm & Hsq & Hsrt & Hfd). unfold heap_new.
  set (f := zf_set_uuididx (new_ZNSFile n 0 buf_ok) (ev_uuididx e1)). set (p := ev_next e1).
  set (e3 := ev_set_uuididx _ _). assert (Hp3 : deref e3 p = Some f) by apply lookup_insert_eq. rewrite Hp3.
  cbn [mbind option_bind GetWRLock f zf_is_writing zf_set_uuididx new_ZNSFile]. set (f' := zf_set_is_writing f true).
  eexists _, _. split; [reflexivity|]. set (e4 := store e3 p f'). cbn [wf_znsfile].
  assert (Hfiles : ev_files e4 = map_set n (Some p) (ev_files e1)) by done.
  assert (Hd : forall q, q <> p -> deref e4 q = deref e q).
  { intros q Hq. unfold e4. rewrite deref_store_ne by done. etrans; [apply lookup_insert_ne; congruence|]. unfold deref. by rewrite Hh. }
  assert (Hpfresh : deref e p = None) by (apply L4; unfold p; lia).
  assert (Hk : forall k q, map_find k (ev_files e4) = Some (Some q) -> (k = n /\ q = p) \/ (k <> n /\ q <> p /\ map_find k (ev_files e) = Some (Some q))).
  { intros k q. rewrite Hfiles. destruct (decide (k = n)) as [->|Hne]; [rewrite map_find_set_eq; intros [= <-]; by left|].
    rewrite map_find_set_ne, Hfd by done. intros Hkq. right. split_and!; auto. intros ->.
    destruct (tk_file _ L2 k p Hkq) as (g & Hg & _). congruence. }
  split; [|rewrite Hfiles; apply map_find_set_eq]. constructor.
  - destruct L1 as (fs & rs & Hls & HR). exists fs, rs. split; [|done]. change (ev_m e4) with (ev_m e1).
    change (ev_sequence e4) with (ev_sequence e1). by rewrite Hm, Hsq.
  - constructor; [rewrite Hfiles; by apply map_set_sorted|]. intros k q [[-> ->]|(Hne & Hq & Hkq)]%Hk.
    + exists f'. unfold e4. rewrite deref_store_eq. split; [done|]. split; [|cbn; lia].
      split; [exact Hname|]. cbn. rewrite drop_nil. split; [lia|]. split; [lia|]. split; [constructor|cbn; lia].
    + rewrite Hd by done. by eapply tk_file.
  - intros k q g [[-> ->]|(Hne & Hq & Hkq)]%Hk.
    + unfold e4. rewrite deref_store_eq. by intros [= <-].
    + rewrite Hd by done. by apply L3.
  - intros q Hq. change (S (ev_next e1) <= q)%nat in Hq. rewrite Hd by (unfold p; lia). apply L4. lia.
  - exact L5.
  - intros k q g [[-> ->]|(Hne & Hq & Hkq)]%Hk.
    + unfold e4. rewrite deref_store_eq. intros [= <-]. destruct (R !! n) as [fe|] eqn:E; [|done].
      destruct (L7 n fe E) as [q Hq]. by destruct (Hnone q).
    + rewrite Hd by done. by apply L6.
  - intros k fe Hfe. destruct (L7 k fe Hfe) as [q Hq]. exists q. rewrite Hfiles. rewrite map_find_set_ne; [by rewrite Hfd by (intros ->; by destruct (Hnone q))|].
    intros ->. by destruct (Hnone q).
Qed.

(** ** [Sync] *)

Lemma logged_ext e e' R :
  ev_m e' = ev_m e -> ev_sequence e' = ev_sequence e -> ev_files e' = ev_files e -> ev_next e' = ev_next e ->
  (forall p, deref e' p = deref e p) -> logged e R -> logged e' R.
Proof using.
  intros Hm Hs Hf Hn Hd [L1 L2 L3 L4 L5 L6 L7]. constructor; unfold names_ok, fresh_ok in *; auto.
  - by rewrite Hm, Hs.
  - destruct L2 as [T1 T2]. constructor; rewrite Hf; [done|]. intros n p. rewrite Hd. apply T2.
  - intros n p f. rewrite Hf, Hd. apply L3.
  - intros p. rewrite Hn, Hd. apply L4.
  - intros n p f. rewrite Hf, Hd. apply L6.
  - intros n fe. rewrite Hf. apply L7.
Qed.

Lemma sync_pieces_rest fname maps : forall e p e',
  sync_pieces e p fname maps = Some e' -> ev_sequence e' = ev_sequence e /\ ev_next e' = ev_next e.
Proof using.
  induction maps as [|m maps IH]; intros e p e'; cbn [sync_pieces]; [by intros [= <-]|].
  destruct (deref e p) as [f|]; cbn [mbind option_bind]; [|done]. destruct (negb _); intros H; by apply IH in H.
Qed.

Lemma ents_table e e' fs : (forall q, option_map fent_of (deref e' q) = option_map fent_of (deref e q)) -> ents e' fs = ents e fs.
Proof using.
  intros H. unfold ents. apply list_omap_ext. apply Forall2_same_length_lookup_2; [done|]. intros j [k q] y H1 H2.
  assert (y = (k, q)) as -> by congruence. destruct q as [q|]; [|done]. cbn. specialize (H q).
  destruct (deref e' q), (deref e q); cbn in *; congruence.
Qed.

Lemma same_heap_fent e e' q : same_heap e e' -> option_map fent_of (deref e' q) = option_map fent_of (deref e q).
Proof using.
  intros H. specialize (H q). destruct (deref e q) as [f|], (deref e' q) as [f'|]; cbn in *; try done.
  f_equal. injection H as H1 H2 H3 H4 H5. unfold fent_of, fent_from. congruence.
Qed.

(** The cached bytes are written and the new pieces logged; the file is grown by
    [maps]. *)
Lemma sync_logged fuel e R wf n f c maps w :
  let p := wf_znsfile wf in
  let f1 := zf_set_map f (zf_map f ++ maps) in
  logged e R -> map_find n (ev_files e) = Some (Some p) -> deref e p = Some f -> zf_cache f = Some c -> c <> [] ->
  zd_write fuel (ev_w e) c (zf_level f) false = Ok (0, maps, w) ->
  Forall (fun x => 0 <= x < 2 ^ 64) maps -> Z.of_nat (length (zf_map f1)) < 2 ^ 28 ->
  Z.of_nat (length (zf_map f1)) - zf_startIndex f <= 491 -> table_fits (store e p f1) ->
  exists e' R', ZNSWritableFile_Sync pad_head pad_level pad_tail pad_zone fuel true e wf = Ok (S_OK, e') /\
    logged e' R' /\ ev_files e' = ev_files e /\ ents e' (ev_files e) = ents (store e p f1) (ev_files e) /\
    ev_sequence e' <= ev_sequence e + 1 /\ (zf_startIndex f < Z.of_nat (length (zf_map f1)) -> R' !! n = Some (fent_of f1)).
Proof using Hpads Hpb.
  intros p f1 Hlg Hfind Hp Hc Hne Hw Hmaps Hl28 Hl491 Hfit.
  destruct (tk_file _ (lg_table _ _ _ _ _ _ Hlg) n p Hfind) as (g & Hg & (E1 & E2 & E3 & E4 & E5) & Hi). assert (g = f) as -> by congruence.
  assert (Hent : forall nid, ent_ok (fent_of (zf_set_current_nid f1 nid))).
  { intros nid. split; [exact E1|]. split; [exact E2|]. split; [exact E3|]. cbn [fe_map fent_of fent_from] in *.
    rewrite drop_0 in *. split; [by apply Forall_app|done]. }
  set (e1 := ev_set_w e w).
  destruct (sync_pieces_ok (wf_filename wf) maps e1 p f Hp) as (e2 & nid & Hsp & Hp2 & Hne2 & Hw2 & Hm2 & Hf2).
  destruct (sync_pieces_rest _ _ _ _ _ Hsp) as [Hs2 Hn2]. fold f1 in Hp2. set (f2 := zf_set_current_nid f1 nid) in *.
  assert (Hlg2 : logged e2 R).
  { apply (logged_ext (store e p f2)); auto; [|exact (grow_logged e R p f f2 maps Hlg Hp eq_refl eq_refl eq_refl (Hent nid) (ex_intro _ n Hfind))].
    intros q. destruct (decide (q = p)) as [->|Hq]; [by rewrite deref_store_eq|rewrite deref_store_ne by done; by apply Hne2]. }
  assert (He2 : forall q, option_map fent_of (deref e2 q) = option_map fent_of (deref (store e p f1) q)).
  { intros q. destruct (decide (q = p)) as [->|Hq]; [by rewrite deref_store_eq, Hp2|by rewrite deref_store_ne, Hne2 by done]. }
  assert (Hfit2 : table_fits e2).
  { destruct Hfit as (F1 & F2 & F3). unfold EnvCrash.table_fits. rewrite Hf2, Hs2. change (ev_files e1) with (ev_files e).
    rewrite (ents_table (store e p f1) e2 _ He2). exact (conj F1 (conj F2 F3)). }
  destruct (update_logged e2 R p f2 n Hlg2) as (e3 & R' & Hup & Hlg3 & F & Hsq & HR'); auto; [by rewrite Hf2|].
  destruct (same_heap_deref _ _ _ _ (ft_heap _ _ F) Hp2) as (f3 & Hp3 & Hs3).
  exists (store e3 p (zf_set_cache f3 (Some []))), R'. split_and!.
  - unfold ZNSWritableFile_Sync. fold p. rewrite Hp. cbn [lift mbind outcome_bind]. rewrite Hc. destruct c as [|c0 c']; [done|].
    rewrite Hw. cbn [mbind outcome_bind]. change (ctrue 0) with false. cbv iota. fold e1. rewrite Hsp. cbn [lift mbind outcome_bind].
    rewrite Hup. cbn [mbind outcome_bind]. rewrite Hp3. done.
  - assert (Hf3 : map_find n (ev_files e3) = Some (Some p)) by (by rewrite (ft_files _ _ F), Hf2).
    apply (grow_logged e3 R' p f3 _ []); auto; [cbn; by rewrite app_nil_r| |by exists n].
    destruct (tk_file _ (lg_table _ _ _ _ _ _ Hlg3) n p Hf3) as (h & Hh & Hok & _). assert (h = f3) as -> by congruence. exact Hok.
  - cbn. by rewrite (ft_files _ _ F), Hf2.
  - apply ents_table. intros q. rewrite <- He2, <- (same_heap_fent e2 e3 q (ft_heap _ _ F)).
    destruct (decide (q = p)) as [->|Hq]; [by rewrite deref_store_eq, Hp3|by rewrite deref_store_ne].
  - cbn. rewrite Hs2 in Hsq. exact Hsq.
  - exact HR'.
Qed.

End History.
