(* ===== verification/EnvReboot.v ===== *)
(** A start-up on a log: [LoadMetaData] as a whole, from the zone heads to the new
    checkpoint in the other zone. *)

From S2P Require Import Prelude Types EnvTypes EnvMeta EnvFile EnvLaws EnvFileOk EnvLoad EnvLog EnvRecover EnvTable EnvCrash EnvHistory.

Section Reboot.

Context (pad_head pad_level pad_tail pad_zone : bytes).
Context (Hpads : pads_ok pad_head pad_level pad_tail pad_zone).
Context (Hpb : byte_list (pad_head ++ pad_level ++ pad_tail ++ pad_zone)).
Context {W M : Type} `{HR : !ZRecover W} `{HRT : !ZRecoverTotal W} `{HM : !ZMeta M} `{HL : !ZLogLaws M}.
Implicit Types (e : zenv W M) (m : M) (R : table).

Abbreviation logged := (logged pad_head pad_level pad_tail pad_zone).
Abbreviation log_disk := (log_disk pad_head pad_level pad_tail pad_zone).
Abbreviation log_state := (log_state pad_head pad_level pad_tail pad_zone).
Abbreviation table_fits := (table_fits pad_level pad_tail).
Abbreviation base_data := (base_data pad_level pad_tail).

(** * Attributes of the entries *)

Definition attr_ok (fe : fent) : Prop := - 128 <= fe_level fe < 128 /\ 0 <= fe_size fe < 2 ^ 64.
Definition attrs_ok R : Prop := forall n fe, R !! n = Some fe -> attr_ok fe.

Lemma apply_file_attr gc fe R : ent_ok fe -> attrs_ok R -> attrs_ok (apply_file gc fe R).
Proof using.
  intros (_ & H1 & H2 & _) HR' n g. unfold apply_file. destruct (R !! fe_own fe).
  - destruct (decide (n = fe_own fe)) as [->|Hne]; [rewrite lookup_insert_eq; by intros [= <-]|rewrite lookup_insert_ne by done; apply HR'].
  - destruct (decide (n = fe_own fe)) as [->|Hne]; [rewrite lookup_insert_eq; by intros [= <-]|rewrite lookup_insert_ne by done; apply HR'].
Qed.

Lemma base_attr fs : forall R, base_ok fs R -> attrs_ok R -> attrs_ok (base_table fs R).
Proof using. induction fs as [|fe fs IH]; intros R; [done|]. intros (H1 & _ & H2) HA. apply IH; auto using apply_file_attr. Qed.

Lemma replay_attr rs : forall R, recs_ok rs R -> attrs_ok R -> attrs_ok (replay rs R).
Proof using.
  induction rs as [|r rs IH]; intros R; [done|]. intros [Hr Hrs] HA. apply IH; [done|]. destruct r as [gc fe|k|src dst]; cbn [apply_rec].
  - apply apply_file_attr; [apply Hr|done].
  - intros n fe [_ H]%lookup_delete_Some. by eapply HA.
  - destruct (R !! src) as [fe|] eqn:E.
    + intros n g. destruct (decide (n = dst)) as [->|Hne]; [rewrite lookup_insert_eq; intros [= <-]; by eapply HA|].
      rewrite lookup_insert_ne by done. intros [_ H]%lookup_delete_Some. by eapply HA.
    + intros n g [_ [_ H]%lookup_delete_Some]%lookup_delete_Some. by eapply HA.
Qed.

Lemma image_attr fs rs : image_ok pad_level pad_tail fs rs -> attrs_ok (log_table fs rs).
Proof using. intros (H1 & H2 & _). apply replay_attr; [done|]. apply base_attr; [done|]. intros n fe. by rewrite lookup_empty. Qed.

Lemma logged_ents e R n fe : logged e R -> R !! n = Some fe -> ent_ok fe.
Proof using.
  intros [(fs & rs & Hls & HT) L2 L3 _ L5 L6 L7] Hfe. destruct (L7 n fe Hfe) as [p Hp].
  destruct (tk_file _ L2 n p Hp) as (f & Hf & (E1 & _ & _ & E4 & E5) & _). specialize (L6 n p f Hp Hf). rewrite Hfe in L6.
  cbn [fe_map fe_own fent_of fent_from] in *. rewrite drop_0 in *.
  destruct (image_attr fs rs (ls_img _ _ _ _ _ _ _ _ Hls) n fe) as [A1 A2]; [by rewrite HT|].
  split; [by rewrite (L5 n fe Hfe), <- (L3 n p f Hp Hf)|]. split; [done|]. split; [done|]. rewrite L6. split.
  - by apply Forall_take.
  - rewrite length_take. lia.
Qed.

(** * The size of a table *)

Definition small R : Prop :=
  Z.of_nat (length (base_data (map_to_list R).*2)) < FILE_METADATA_BUF_SIZE - 4112 /\ Z.of_nat (size R) < 2 ^ 16.

Lemma base_data_perm l l' : l ≡ₚ l' -> length (base_data l) = length (base_data l').
Proof using.
  unfold EnvLog.base_data. induction 1 as [|x l l' _ IH|x y l|l l' l'' _ IH1 _ IH2]; cbn [fmap list_fmap]; rewrite ?join_cons, ?length_app; lia.
Qed.

(** The entries of the table, by name. *)
Definition name_ents e : list (bytes * fent) :=
  omap (fun kv : bytes * option nat => p ← kv.2; f ← deref e p; Some (kv.1, fent_of f)) (ev_files e).

Lemma name_ents_ents e : (name_ents e).*2 = ents e (ev_files e).
Proof using.
  unfold ents, name_ents. induction (ev_files e) as [|[k [q|]] l IH]; [done| |exact IH]. cbn.
  destruct (deref e q); [cbn; by f_equal|exact IH].
Qed.

Lemma name_ents_nodup e : keys_sorted (ev_files e) -> NoDup (name_ents e).*1.
Proof using.
  unfold name_ents. intros Hs. induction Hs as [|k q l Hall Hs IH]; [constructor|].
  cbn. destruct q as [q|]; cbn; [|exact IH]. destruct (deref e q) as [f|]; cbn; [|exact IH]. apply NoDup_cons. split; [|exact IH].
  intros ([k' fe] & Hk' & Hin)%list_elem_of_fmap. cbn in Hk'. subst k'. apply list_elem_of_omap in Hin as ([k2 q2] & Hin & Hx).
  rewrite Forall_forall in Hall. specialize (Hall _ Hin). cbn in Hall, Hx. destruct q2 as [q2|]; cbn in Hx; [|done].
  destruct (deref e q2); cbn in Hx; [|done]. injection Hx as -> _. by rewrite str_lt_irrefl in Hall.
Qed.

Lemma name_ents_elem e n fe :
  (n, fe) ∈ name_ents e <-> exists p f, (n, Some p) ∈ ev_files e /\ deref e p = Some f /\ fe = fent_of f.
Proof using.
  unfold name_ents. rewrite list_elem_of_omap. split.
  - intros ([k [p|]] & Hin & Hx); cbn in Hx; [|done]. destruct (deref e p) as [f|] eqn:Hf; cbn in Hx; [|done].
    injection Hx as -> <-. by exists p, f.
  - intros (p & f & Hin & Hf & ->). exists (n, Some p). split; [done|]. cbn. by rewrite Hf.
Qed.

Lemma file_is_ent f fe : file_is f fe -> fent_of f = fe.
Proof using. intros (F1 & F2 & F3 & F4 & F5). unfold fent_of, fent_from. rewrite F1, F2, F3, F4. by destruct fe. Qed.

(** The entries of a loaded table. *)
Lemma loaded_ents e R : loaded e R -> ents e (ev_files e) ≡ₚ (map_to_list R).*2.
Proof using.
  intros L. rewrite <- name_ents_ents. apply fmap_Permutation, NoDup_Permutation.
  - apply (NoDup_fmap_1 fst), name_ents_nodup, L.
  - apply NoDup_map_to_list.
  - intros [n fe]. rewrite elem_of_map_to_list, name_ents_elem. split.
    + intros (p & f & Hin & Hf & ->). apply map_find_sorted in Hin; [|apply L]. destruct (ld_none _ _ L _ _ Hin) as [fe Hfe].
      destruct (ld_some _ _ L _ _ Hfe) as (p' & f' & H1 & H2 & F). assert (p' = p) as -> by congruence.
      assert (f' = f) as -> by congruence. by rewrite (file_is_ent _ _ F).
    + intros Hfe. destruct (ld_some _ _ L _ _ Hfe) as (p & f & H1 & H2 & F). exists p, f.
      split_and!; [by apply map_find_elem|done|by rewrite (file_is_ent _ _ F)].
Qed.

(** * After the log *)

Lemma set_files_total e fs : forall w,
  (forall n p, (n, Some p) ∈ fs -> is_Some (deref e p)) -> exists w', set_files e w fs = Ok w'.
Proof using HRT.
  induction fs as [|[n [p|]] fs IH]; intros w Hd; [by exists w| |apply IH; intros; eapply Hd; by right].
  cbn [set_files]. destruct (Hd n p) as [f ->]; [by left|]. cbn [lift mbind outcome_bind].
  assert (Hp : exists w', set_pieces w (zf_level f) (zf_map f) = Ok w').
  { clear -HRT. revert w. induction (zf_map f) as [|x l IH]; intros w; [by exists w|]. cbn [set_pieces].
    destruct (zr_node_set_total w (zmap_node_id x) (zf_level f) (zmap_num x)) as [w1 ->]. apply IH. }
  destruct Hp as [w1 ->]. cbn [mbind outcome_bind]. apply IH. intros; eapply Hd; by right.
Qed.

Lemma load_end_ok e :
  zl_ok (ev_m e) -> zl_len (ev_m e) = 0 -> table_ok e -> table_fits e -> other_older (ev_m e) (ev_sequence e) ->
  exists w e', load_end pad_head pad_level pad_tail pad_zone e = Ok (S_OK, e') /\
    log_state (ev_m e') (ev_sequence e) (ents e (ev_files e)) [] /\
    ev_sequence e' = ev_sequence e + 1 /\ flushed_table (ev_set_w e w) e' /\
    (forall n p f', map_find n (ev_files e) = Some (Some p) -> deref e' p = Some f' -> zf_startIndex f' = Z.of_nat (length (zf_map f'))).
Proof using Hpads Hpb HRT.
  intros H1 H2 Ht H4 H5. unfold load_end, SetNodesInfo. destruct (set_files_total e (ev_files e) (ev_w e)) as [w1 ->].
  { intros n p Hin. destruct (tk_file _ Ht n p) as (f & -> & _); [|done]. apply map_find_sorted; [apply Ht|done]. }
  cbn [mbind outcome_bind ev_w ev_set_w]. destruct (zr_clear_total w1) as [w ->]. cbn [mbind outcome_bind].
  change (ev_set_w (ev_set_w e w1) w) with (ev_set_w e w).
  destruct (FlushMetaData_exact pad_head pad_level pad_tail pad_zone Hpads Hpb (ev_set_w e w)) as (e' & -> & A1 & A2 & A3 & A4); auto.
  { destruct Ht as [T1 T2]. by constructor. }
  cbn [mbind outcome_bind]. by exists w, e'.
Qed.

Lemma loaded_table_ok e R : loaded e R -> (forall n fe, R !! n = Some fe -> ent_ok fe) -> table_ok e.
Proof using.
  intros L Hent. constructor; [apply L|]. intros n p Hp. destruct (ld_none _ _ L _ _ Hp) as [fe Hfe].
  destruct (ld_some _ _ L _ _ Hfe) as (p' & f & H1 & H2 & F). assert (p' = p) as -> by congruence. exists f. split; [done|].
  split; [rewrite (file_is_ent _ _ F); by eapply Hent|]. destruct F as (_ & _ & _ & _ & ->). lia.
Qed.

(** The table of [e] is [R], whatever is logged of it. *)
Definition has_table e R : Prop :=
  forall n fe, R !! n = Some fe <->
    exists p f, map_find n (ev_files e) = Some (Some p) /\ deref e p = Some f /\ fent_of f = fe.

Lemma loaded_has_table e R : loaded e R -> has_table e R.
Proof using.
  intros L n fe. split.
  - intros Hfe. destruct (ld_some _ _ L _ _ Hfe) as (p & f & H1 & H2 & F). exists p, f. auto using file_is_ent.
  - intros (p & f & H1 & H2 & <-). destruct (ld_none _ _ L _ _ H1) as [fe Hfe].
    destruct (ld_some _ _ L _ _ Hfe) as (p' & f' & H3 & H4 & F). assert (p' = p) as -> by congruence. assert (f' = f) as -> by congruence.
    by rewrite (file_is_ent _ _ F).
Qed.

Lemma flushed_has_table e e' R : flushed_table e e' -> has_table e R -> has_table e' R.
Proof using.
  intros F H n fe. rewrite (H n fe), (ft_files _ _ F). split; intros (p & f & H1 & H2 & H3).
  - destruct (same_heap_deref _ _ _ _ (ft_heap _ _ F) H2) as (f' & H2' & _). exists p, f'. split_and!; auto.
    destruct (flushed_deref e e' p f' F H2') as (g & Hg & -> & _). congruence.
  - destruct (flushed_deref e e' p f F H2) as (g & Hg & Hfe & _). exists p, g. split_and!; auto. by rewrite <- Hfe.
Qed.

(** A start-up on the log of [e0]: the table is the one the log describes, and is
    checkpointed in the other zone, each file under the name its object has. *)
Lemma reboot e0 buf_ok z seq fs rs :
  zl_ok (ev_m e0) -> log_disk (ev_m e0) z seq fs rs -> 0 <= ev_sequence e0 <= seq -> seq < 2 ^ 32 - 2 -> fresh_ok e0 ->
  (forall n fe, log_table fs rs !! n = Some fe -> ent_ok fe) -> small (log_table fs rs) ->
  exists N e1 w e', (forall fuel, (N <= fuel)%nat ->
      LoadMetaData pad_head pad_level pad_tail pad_zone fuel true buf_ok e0 = Ok (S_OK, e')) /\
    loaded e1 (log_table fs rs) /\ flushed_table (ev_set_w e1 w) e' /\
    log_state (ev_m e') (ev_sequence e' - 1) (ents e1 (ev_files e1)) [] /\ ev_sequence e' = seq + 2 /\
    (forall n p f', map_find n (ev_files e1) = Some (Some p) -> deref e' p = Some f' -> zf_startIndex f' = Z.of_nat (length (zf_map f'))).
Proof using Hpads Hpb HRT.
  intros Hok Hls Hs0 Hs1 Hf Hent [Hsm1 Hsm2].
  destruct (load_to_end pad_head pad_level pad_tail pad_zone Hpads buf_ok e0 z seq fs rs Hok Hls Hs0 Hf) as (N & e1 & e2 & Hrun & Hw & Hsq & Hsb & Hd).
  destruct Hd as [L D2 D3 D4 D5 D6 D7]. pose proof (loaded_table_ok _ _ L Hent) as Ht. pose proof (loaded_ents _ _ L) as Hperm.
  rewrite Hsq, wrap_small in D3 by lia.
  destruct (load_end_ok e2) as (w & e' & Hend & Hls' & Hsq' & F & Hidx); auto.
  - unfold EnvCrash.table_fits. rewrite (base_data_perm _ _ Hperm), (Permutation_length Hperm), length_fmap, length_map_to_list. lia.
  - destruct Hls as [Hcur _ Hh _ Hseq _]. unfold log_image in Hh. apply holds_app in Hh as [Hh _].
    rewrite D3. apply (older_switched pad_head pad_level pad_tail pad_zone Hpads (ev_m e0) _ z seq); auto; [|lia..].
    intros a. rewrite D7. by destruct Hsb as (_ & -> & _).
  - exists N, e2, w, e'. split_and!; auto; [|by rewrite Hsq', Z.add_simpl_r|lia]. intros fuel Hfu. by rewrite Hrun.
Qed.


(** ** The log of a table that fits, fits *)

Definition cost (fe : fent) : nat := 152 + 8 * length (fe_map fe).

Lemma base_data_cost l : Forall (fun fe => name_ok (fe_own fe)) l -> length (base_data l) = sum_list (cost <$> l).
Proof using Hpads.
  unfold EnvLog.base_data. induction 1 as [|fe l Hn _ IH]; [done|]. cbn [fmap list_fmap]. rewrite join_cons, length_app, IH.
  rewrite (length_ent_bytes pad_head pad_level pad_tail pad_zone Hpads) by done. done.
Qed.

Lemma table_cost R : forall T : table,
  (forall n fe, R !! n = Some fe -> exists ge, T !! n = Some ge /\ (cost fe <= cost ge)%nat) ->
  (sum_list (cost <$> (map_to_list R).*2) <= sum_list (cost <$> (map_to_list T).*2) /\ size R <= size T)%nat.
Proof using.
  induction R as [|n fe R Hn IH] using map_ind; intros T H.
  - rewrite map_to_list_empty, map_size_empty. cbn. lia.
  - destruct (H n fe) as (ge & Hge & Hc); [apply lookup_insert_eq|].
    destruct (IH (delete n T)) as [I1 I2].
    { intros k x Hk. assert (k <> n) by congruence. rewrite lookup_delete_ne by done. apply H. by rewrite lookup_insert_ne. }
    rewrite <- (insert_delete_id T n ge Hge). rewrite (map_to_list_insert R) by done.
    rewrite (map_to_list_insert (delete n T)) by apply lookup_delete_eq. rewrite !map_size_insert_None by (done || apply lookup_delete_eq).
    rewrite !fmap_cons. change (sum_list (?x :: ?l)) with (x + sum_list l)%nat. cbn [snd]. lia.
Qed.

Lemma logged_small e R : logged e R -> table_fits e -> small R.
Proof using Hpads.
  intros Hlg (F1 & F2 & F3). pose proof Hlg as [_ L2 _ _ _ L6 L7]. pose proof (name_ents_nodup e (tk_sorted _ L2)) as Hnd.
  set (T := list_to_map (name_ents e) : table).
  assert (HT : (map_to_list T).*2 ≡ₚ ents e (ev_files e)).
  { rewrite <- name_ents_ents. apply fmap_Permutation. by apply map_to_list_to_map. }
  destruct (table_cost R T) as [C1 C2].
  { intros n fe Hfe. destruct (L7 n fe Hfe) as [p Hp]. destruct (tk_file _ L2 n p Hp) as (f & Hf & _).
    specialize (L6 n p f Hp Hf). rewrite Hfe in L6. exists (fent_of f). split.
    - apply elem_of_list_to_map_1; [done|]. apply name_ents_elem. exists p, f. auto using map_find_elem.
    - unfold cost. rewrite L6. cbn [fe_map fent_of fent_from]. rewrite drop_0, length_take. lia. }
  assert (HRn : Forall (fun fe => name_ok (fe_own fe)) (map_to_list R).*2).
  { apply Forall_forall. intros fe ([n x] & -> & Hin)%list_elem_of_fmap. apply elem_of_map_to_list in Hin. by apply (logged_ents e R n). }
  assert (HE : Forall (fun fe => name_ok (fe_own fe)) (ents e (ev_files e))).
  { apply Forall_forall. intros fe Hin. by apply (ents_ok e fe). }
  rewrite base_data_cost in F1 by done. split.
  - rewrite base_data_cost by done. rewrite HT in C1. lia.
  - rewrite <- (Permutation_length HT), length_fmap, length_map_to_list in F2. lia.
Qed.

(** ** A restart *)

Lemma loaded_names e R : loaded e R -> (forall n fe, R !! n = Some fe -> fe_own fe = n) -> names_ok e.
Proof using.
  intros L Hown n p f Hp Hf. destruct (ld_none _ _ L _ _ Hp) as [fe Hfe].
  destruct (ld_some _ _ L _ _ Hfe) as (p' & f' & H3 & H4 & F). assert (p' = p) as -> by congruence. assert (f' = f) as -> by congruence.
  rewrite <- (Hown _ _ Hfe). apply F.
Qed.

(** The table a checkpoint of a loaded table describes. *)
Lemma loaded_checkpoint e R : loaded e R -> table_ok e -> names_ok e -> checkpoint e = R.
Proof using.
  intros L Ht Hn. apply map_eq. intros n. apply option_eq. intros fe. unfold checkpoint.
  rewrite checkpoint_lookup, (loaded_has_table _ _ L n fe) by done. split; intros (p & f & H1 & H2 & H3); exists p, f; auto.
Qed.

Lemma restart_logged e R e0 buf_ok :
  logged e R -> small R -> ev_sequence e < 2 ^ 32 - 1 ->
  zl_ok (ev_m e0) -> (forall a, zl_byte (ev_m e0) a = zl_byte (ev_m e) a) ->
  0 <= ev_sequence e0 < ev_sequence e -> fresh_ok e0 ->
  exists N e', (forall fuel, (N <= fuel)%nat ->
      LoadMetaData pad_head pad_level pad_tail pad_zone fuel true buf_ok e0 = Ok (S_OK, e')) /\
    has_table e' R /\ logged e' R /\ ev_sequence e' = ev_sequence e + 1.
Proof using Hpads Hpb HRT.
  intros Hlg Hsm Hseq Hok Hb Hs0 Hf0. pose proof Hlg as [(fs & rs & Hls & HT) _ _ _ L5 _ _].
  pose proof (log_state_disk pad_head pad_level pad_tail pad_zone _ _ _ _ _ Hls Hb) as Hd. subst R.
  destruct (reboot e0 buf_ok _ _ fs rs Hok Hd) as (N & e1 & w & e' & Hrun & L & F & Hls' & Hsq & Hidx); auto; try lia.
  { intros n fe. by apply (logged_ents e). }
  assert (Hent : forall n fe, log_table fs rs !! n = Some fe -> ent_ok fe) by (intros n fe; by apply (logged_ents e)).
  pose proof (loaded_table_ok _ _ L Hent) as Ht. pose proof (loaded_names _ _ L L5) as Hn.
  exists N, e'. split; [done|]. split.
  { eapply flushed_has_table; [exact F|]. exact (loaded_has_table _ _ L). }
  split; [|lia]. rewrite <- (loaded_checkpoint _ _ L Ht Hn). apply (checkpoint_logged _ _ _ _ (ev_set_w e1 w) e'); auto.
  - destruct Ht as [T1 T2]. by constructor.
  - exact (ld_fresh _ _ L).
Qed.

(** ** The first start *)

Lemma first_boot e buf_ok fuel :
  zl_ok (ev_m e) -> zl_len (ev_m e) = 0 -> head_magic (ev_m e) zl_z0 <> METADATA_MAGIC -> head_magic (ev_m e) zl_z1 <> METADATA_MAGIC ->
  ev_files e = [] -> fresh_ok e -> 0 <= ev_sequence e < 2 ^ 32 - 1 ->
  exists e', LoadMetaData pad_head pad_level pad_tail pad_zone fuel true buf_ok e = Ok (S_OK, e') /\ logged e' ∅ /\
    ev_files e' = [] /\ ev_sequence e' = ev_sequence e + 1.
Proof using Hpads Hpb HRT.
  intros Hok Hlen Hm0 Hm1 Hfs Hfr Hseq.
  destruct (head_turn e [] [] zl_z0 [zl_z1] Hok ltac:(by left)) as (m1 & b1 & (Hok1 & Hb1 & Hc1 & Hn1) & Hl1 & Hh1);
    [unfold FILE_METADATA_BUF_SIZE; simpl; lia|]. rewrite (proj2 (Z.eqb_neq _ _) Hm0) in Hh1.
  destruct (head_turn (ev_set_m e m1) b1 [] zl_z1 [] Hok1 ltac:(by right) Hl1) as (m2 & b2 & (Hok2 & Hb2 & Hc2 & Hn2) & _ & Hh2).
  cbn [ev_m ev_set_m] in *. assert (Hx : head_magic m1 zl_z1 <> METADATA_MAGIC) by (unfold head_magic; by rewrite Hb1).
  rewrite (proj2 (Z.eqb_neq _ _) Hx) in Hh2.
  change (head_loop _ b2 [] []) with (Ok (S_OK, @nil (Z * Z), b2, ev_set_m (ev_set_m e m1) m2)) in Hh2. set (e2 := ev_set_m (ev_set_m e m1) m2) in *.
  assert (Hf2 : ev_files e2 = []) by done.
  assert (Ht : table_ok e2) by (constructor; rewrite Hf2; [constructor|done]).
  destruct (load_end_ok e2) as (w & e' & Hend & Hls & Hsq & F & Hidx); auto.
  - cbn. congruence.
  - unfold EnvCrash.table_fits. rewrite Hf2. cbn. unfold FILE_METADATA_BUF_SIZE. lia.
  - cbn [e2 ev_m ev_set_m ev_sequence]. unfold other_older. rewrite Hc2, Hc1. unfold head_magic in *. rewrite Hb2, Hb1. intros Hm.
    exfalso. destruct (zl_wf _ Hok) as ([Hc|Hc] & _); rewrite Hc in Hm;
      [replace (zl_z0 + zl_z1 - zl_z0) with zl_z1 in Hm by lia|replace (zl_z0 + zl_z1 - zl_z1) with zl_z0 in Hm by lia]; done.
  - exists e'. split_and!; auto.
    + unfold LoadMetaData. cbn [negb]. rewrite (zl_slbas _ Hok), Hh1, Hh2. cbn [mbind outcome_bind]. rewrite decide_True by done. exact Hend.
    + assert (Hc : base_table (ents (ev_set_w e2 w) (ev_files (ev_set_w e2 w))) ∅ = ∅) by (cbn; by rewrite Hfs).
      rewrite <- Hc.
      apply (checkpoint_logged pad_head pad_level pad_tail pad_zone (ev_set_w e2 w)); auto.
      * destruct Ht as [T1 T2]. by constructor.
      * intros n p f. change (ev_files (ev_set_w e2 w)) with (ev_files e2). by rewrite Hf2.
      * rewrite Hsq. by replace (ev_sequence e2 + 1 - 1) with (ev_sequence e2) by lia.
    + by rewrite (ft_files _ _ F).
Qed.

End Reboot.
