(* ===== verification/EnvMetaLog.v ===== *)
(** The metadata log of the environment on the metadata zones: an instance of the
    interface [ZMeta] of EnvTypes.v over src/xztl/src/ztl-metadata.c (Metadata.v), and
    the proof that it keeps the contract [ZLogLaws] of EnvRecover.v.

    The buffers of the environment are two regions of the host memory, [wbuf] and
    [rbuf]. *)

From S2P Require Import Prelude Types Stats Media Zns NodeInit Mempool Metadata MetadataTheorems EnvTypes EnvMeta EnvFile EnvLaws EnvZrocks EnvLoad EnvLog EnvRecover.

(** A reset zone reads as zeros. *)
Class SyncZero (D : Type) `{!SyncDev D} `{!SyncLaws D} := {
  sz_reset : forall d zone sec off, sl_data (snd (sy_reset d (zone * sl_nsect))) sec off =
    if (zone * sl_nsect <=? sec) && (sec <? zone * sl_nsect + sl_zcap) then 0 else sl_data d sec off
}.

Section MetaLog.

Context {D : Type} `{HS : !SyncDev D} `{HSL : !SyncLaws D} `{HSZ : !SyncZero D}.
Context (wbuf rbuf : Z).
Implicit Types (s : mdstate D).

Definition mlog_write s (b : bytes) : outcome (Z * mdstate D) :=
  zrocks_write_file_metadata ZNS_ALIGMENT (md_set_mem s (poke (md_mem s) wbuf b)) wbuf (Z.of_nat (length b)).

Definition mlog_read s (slba len : Z) : outcome (Z * bytes * mdstate D) :=
  '(ret, s1) ← zrocks_read_metadata ZNS_ALIGMENT s slba rbuf len;
  Ok (ret, peek (md_mem s1) rbuf (Z.to_nat len), s1).

Definition mlog_slbas s : list Z :=
  match zrocks_get_metadata_slbas s [0; 0] with Some (l, _) => l | None => [] end.

Definition mlog_meta : ZMeta (mdstate D) := {|
  zm_write := mlog_write;
  zm_read := mlog_read;
  zm_slbas := mlog_slbas;
  zm_switch := fun s z => lift (zrocks_switch_zone s z)
|}.

(** The state between two calls. *)
Definition cur_wptr s : Z := default 0 (zone ← (md_zones s).[md_curr s]; zone_wptr s zone).

Definition mlog_byte s (a : Z) : Z := sl_data (md_dev s) (a / 4096) (a mod 4096).

Definition mlog_cur s : Z := md_curr s * sl_nsect.
Definition mlog_len s : Z := cur_wptr s - mlog_cur s.

Record mlog_ok s : Prop := {
  ml_zones : exists z0 z1 i0 i1, md_zones s = [z0; z1] /\ maddr_sect (pz_addr z0) = 0 * sl_nsect /\
    maddr_sect (pz_addr z1) = 1 * sl_nsect /\ pz_capacity z0 = sl_zcap /\ pz_capacity z1 = sl_zcap /\
    pz_zmd_entry z0 = Some i0 /\ pz_zmd_entry z1 = Some i1 /\ (i0 < length (md_tbl s))%nat /\ (i1 < length (md_tbl s))%nat;
  ml_num : md_zone_num s = 2;
  ml_curr : md_curr s = 0 \/ md_curr s = 1;
  ml_wp : sl_wp (md_dev s) (md_curr s) = cur_wptr s;
  ml_len : 0 <= mlog_len s < sl_zcap;
  ml_zero : forall a, in_blocks a (cur_wptr s) (sl_zcap - mlog_len s) = true -> mlog_byte s a = 0;
  ml_pool : md_pool_ok s;
  ml_away : forall a, in_pool (md_pool s) a -> ~ rbuf <= a < rbuf + 2 ^ 28
}.

Context (Hcap : FILE_METADATA_BUF_SIZE < 4096 * sl_zcap) (Hzs : sl_zcap <= sl_nsect) (Hfit : sl_nsect + sl_zcap < 2 ^ 36).

(** The zone of index [c]. *)
Lemma ml_zone s c : mlog_ok s -> c = 0 \/ c = 1 ->
  exists zone i, (md_zones s).[c] = Some zone /\ maddr_sect (pz_addr zone) = c * sl_nsect /\ pz_capacity zone = sl_zcap /\
    pz_zmd_entry zone = Some i /\ (i < length (md_tbl s))%nat /\ exists w, zone_wptr s zone = Some w.
Proof using.
  intros [Hz _ _ _ _ _ _ _] Hc. destruct Hz as (z0 & z1 & i0 & i1 & Hz & A0 & A1 & C0 & C1 & E0 & E1 & I0 & I1).
  assert (Hw : forall z i, pz_zmd_entry z = Some i -> (i < length (md_tbl s))%nat -> exists w, zone_wptr s z = Some w).
  { intros z i Hi Hl. unfold zone_wptr. rewrite Hi. cbn. destruct (lookup_lt_is_Some_2 _ _ Hl) as [e ->]. by eexists. }
  destruct Hc as [-> | ->]; rewrite Hz; [exists z0, i0|exists z1, i1]; split_and!; eauto.
Qed.

Lemma ml_log_zone s : mlog_ok s ->
  exists zone, log_zone s zone (md_curr s) (cur_wptr s) /\ pz_capacity zone = sl_zcap.
Proof using Hcap Hzs Hfit.
  intros H. destruct (ml_zone s (md_curr s) H (ml_curr _ H)) as (zone & i & Hz & Ha & Hc & _ & _ & w & Hw).
  pose proof (ml_len _ H) as Hl. pose proof (ml_wp _ H) as Hp. unfold mlog_len, mlog_cur in Hl. unfold FILE_METADATA_BUF_SIZE in Hcap.
  assert (Hcw : cur_wptr s = w) by (unfold cur_wptr; rewrite Hz; cbn; by rewrite Hw).
  exists zone. split; [|done]. rewrite Hcw in *. unfold log_zone. split_and!; auto; destruct (ml_curr _ H) as [E|E]; rewrite E in *; lia.
Qed.

(** Reads leave the log alone. *)
Lemma ml_read_kept s s' : mlog_ok s -> read_kept s s' -> mp_head (md_pool s') ≡ₚ mp_head (md_pool s) ->
  mlog_ok s' /\ (forall a, mlog_byte s' a = mlog_byte s a) /\ mlog_cur s' = mlog_cur s /\ mlog_len s' = mlog_len s.
Proof using.
  intros [M1 M2 M3 M4 M5 M6 M7 M8] (K1 & K2 & K3 & K4 & K5 & K6) Hp.
  assert (Hw : cur_wptr s' = cur_wptr s) by (unfold cur_wptr, zone_wptr; by rewrite K1, K3, K4).
  assert (Hl : mlog_len s' = mlog_len s) by (unfold mlog_len, mlog_cur; by rewrite Hw, K3).
  assert (Hb : forall a, mlog_byte s' a = mlog_byte s a) by (intros a; apply K5).
  split; [|split_and!; auto; unfold mlog_cur; by rewrite K3]. constructor.
  - rewrite K1, K4. exact M1.
  - congruence.
  - by rewrite K3.
  - by rewrite K6, K3, Hw.
  - by rewrite Hl.
  - intros a. rewrite Hw, Hl, Hb. apply M6.
  - unfold md_pool_ok in *. destruct M7 as [Q1 Q2]. split; [|by rewrite Hp]. intros E. rewrite E in Hp. by apply Permutation_nil in Hp.
  - intros a Ha. apply M8. eapply in_pool_perm; [|exact Ha]. done.
Qed.

Lemma mlog_read_law s z slba k :
  mlog_ok s -> z = 0 \/ z = sl_nsect -> z <= slba -> 0 < k < 2 ^ 16 -> slba + k <= z + sl_zcap ->
  exists s', mlog_read s slba (4096 * k) = Ok (0, log_bytes (mlog_byte s) (4096 * slba) (Z.to_nat (4096 * k)), s') /\
    mlog_ok s' /\ (forall a, mlog_byte s' a = mlog_byte s a) /\ mlog_cur s' = mlog_cur s /\ mlog_len s' = mlog_len s.
Proof using Hcap Hzs Hfit.
  intros H Hz Hlo Hk Hhi. unfold FILE_METADATA_BUF_SIZE in Hcap.
  destruct (md_read_loop_ok (Z.to_nat k) s k slba rbuf) as (s' & Hrun & Hin & _ & Hperm & Hkept); try lia; [apply H| |].
  { intros a Ha. pose proof (ml_away _ H a Ha). unfold ZNS_ALIGMENT. lia. }
  destruct (ml_read_kept s s' H Hkept Hperm) as (H' & Hrest). exists s'. split; [|done].
  unfold mlog_read, zrocks_read_metadata. replace (4096 * k / ZNS_ALIGMENT) with k by (unfold ZNS_ALIGMENT; zdiv).
  rewrite wrap_small by lia. rewrite Hrun. cbn [mbind outcome_bind]. change XZTL_OK with 0. do 2 f_equal. f_equal.
  unfold peek, log_bytes. apply list_fmap_ext. intros i x Hx. apply lookup_seq in Hx as [-> Hx]. cbn [Nat.add].
  rewrite Hin by (unfold ZNS_ALIGMENT; lia). unfold mlog_byte, ZNS_ALIGMENT. f_equal; zdiv.
Qed.

(** An append. *)
Lemma mlog_write_law s b k :
  mlog_ok s -> 0 < k < 2 ^ 16 -> Z.of_nat (length b) = 4096 * k -> mlog_len s + k < sl_zcap ->
  exists s', mlog_write s b = Ok (0, s') /\ mlog_ok s' /\ mlog_cur s' = mlog_cur s /\ mlog_len s' = mlog_len s + k /\
    forall a, mlog_byte s' a =
      if in_blocks a (mlog_cur s + mlog_len s) k then default 0 (b !! Z.to_nat (a - 4096 * (mlog_cur s + mlog_len s)))
      else mlog_byte s a.
Proof using Hcap Hzs Hfit.
  intros H Hk Hb Hroom. destruct (ml_log_zone s H) as (zone & Hlz & Hc).
  set (s0 := md_set_mem s (poke (md_mem s) wbuf b)).
  assert (Hlz0 : log_zone s0 zone (md_curr s) (cur_wptr s)) by exact Hlz.
  assert (Hlen : mlog_cur s + mlog_len s = cur_wptr s) by (unfold mlog_len; lia).
  destruct (write_metadata_ok s0 zone (md_curr s) (cur_wptr s) wbuf k Hlz0) as (s' & Hrun & Hlz' & Hsl & Hd);
    [lia|rewrite Hc; unfold mlog_len, mlog_cur in *; lia|].
  destruct Hsl as (S1 & S2 & S3 & S4 & S5 & S6 & S7). cbn in S1, S2, S3, S4, S6, S7.
  assert (Hw' : cur_wptr s' = cur_wptr s + k).
  { destruct Hlz' as (Z1 & _ & _ & Z4 & _). unfold cur_wptr at 1. rewrite Z1. cbn. by rewrite Z4. }
  assert (Hcur' : mlog_cur s' = mlog_cur s) by (unfold mlog_cur; by rewrite S3).
  assert (Hlen' : mlog_len s' = mlog_len s + k) by (unfold mlog_len; rewrite Hcur', Hw'; lia).
  assert (Hbyte : forall a, mlog_byte s' a =
    if in_blocks a (cur_wptr s) k then default 0 (b !! Z.to_nat (a - 4096 * cur_wptr s)) else mlog_byte s a).
  { intros a. unfold mlog_byte. rewrite Hd. cbn [md_dev md_mem s0 md_set_mem].
    replace ((cur_wptr s <=? a / 4096) && (a / 4096 <? cur_wptr s + k)) with (in_blocks a (cur_wptr s) k).
    2:{ unfold in_blocks. apply eq_true_iff_eq. rewrite !andb_true_iff, !Z.leb_le, !Z.ltb_lt. zdiv. }
    destruct (in_blocks a (cur_wptr s) k) eqn:E; [|done]. unfold in_blocks in E. rewrite andb_true_iff, Z.leb_le, Z.ltb_lt in E.
    unfold poke, ZNS_ALIGMENT. replace (wbuf + (a / 4096 - cur_wptr s) * 4096 + a mod 4096) with (wbuf + (a - 4096 * cur_wptr s)) by zdiv.
    replace (_ && _) with true; [|symmetry; rewrite andb_true_iff, Z.leb_le, Z.ltb_lt; lia]. do 3 f_equal. lia. }
  exists s'. rewrite Hlen. split.
  { unfold mlog_write. fold s0. rewrite Hb, Z.mul_comm. exact Hrun. }
  split; [|split_and!; auto]. destruct H as [M1 M2 M3 M4 M5 M6 M7 M8]. constructor.
  - rewrite S1, S7. exact M1.
  - congruence.
  - by rewrite S3.
  - rewrite S3, Hw'. by destruct Hlz' as (_ & _ & _ & _ & Z5 & _).
  - rewrite Hlen'. lia.
  - intros a Ha. rewrite Hbyte. rewrite Hw', Hlen' in Ha. unfold in_blocks in *. rewrite andb_true_iff, Z.leb_le, Z.ltb_lt in Ha.
    replace (_ && _) with false; [|symmetry; rewrite andb_false_iff, Z.leb_gt, Z.ltb_ge; lia].
    apply M6. unfold in_blocks. rewrite andb_true_iff, Z.leb_le, Z.ltb_lt. lia.
  - unfold md_pool_ok in *. by rewrite S4.
  - by rewrite S4.
Qed.

(** The log goes to the other zone than that of index [c], which is reset. *)
Lemma mlog_switch_law s c :
  mlog_ok s -> c = 0 \/ c = 1 ->
  exists s', zrocks_switch_zone s (c * sl_nsect) = Some s' /\ mlog_ok s' /\ mlog_cur s' = sl_nsect - c * sl_nsect /\ mlog_len s' = 0 /\
    md_mem s' = md_mem s /\
    forall a, mlog_byte s' a = if in_blocks a (mlog_cur s') sl_zcap then 0 else mlog_byte s a.
Proof using Hcap Hzs Hfit HSZ.
  intros H Hc. assert (exists c', c' = 1 - c) as [c' Ec] by eauto. assert (Hc' : c' = 0 \/ c' = 1) by lia. unfold FILE_METADATA_BUF_SIZE in Hcap.
  destruct (ml_zone s c H Hc) as (zone & i & Hz & Ha & _). destruct (ml_zone s c' H Hc') as (other & j & Hz' & Ha' & Hcp & Hj & Hjl & w' & Hw').
  assert (Hsw : zrocks_switch_zone s (c * sl_nsect) =
    set_zone_wptr (md_set_dev (md_set_curr s c') (sy_reset (md_dev s) (c' * sl_nsect)).2) other (c' * sl_nsect)).
  { unfold zrocks_switch_zone. rewrite (ml_num _ H). change (Z.to_nat 2) with 2%nat. cbn [switch_loop]. change (0 + 1) with 1.
    unfold zrocks_reset_file_md. cbn [md_dev md_set_curr].
    destruct Hc as [-> | ->]; [assert (c' = 1) as -> by lia|assert (c' = 0) as -> by lia].
    - rewrite Hz. cbn [mbind option_bind]. rewrite Ha, Z.eqb_refl. cbn [negb]. rewrite Hz'. cbn [mbind option_bind]. rewrite Ha'.
      replace (1 * sl_nsect =? 0 * sl_nsect) with false by lia. cbn [negb]. by destruct (sy_reset _ _).
    - rewrite Hz'. cbn [mbind option_bind]. rewrite Ha'. replace (0 * sl_nsect =? 1 * sl_nsect) with false by lia. cbn [negb].
      by destruct (sy_reset _ _). }
  destruct (sl_reset (md_dev s) c') as (d' & Hr & Hwp & Hoth). rewrite Hr in Hsw. cbn [snd] in Hsw.
  destruct (set_wptr_run (md_set_dev (md_set_curr s c') d') other w' (c' * sl_nsect)) as (s' & Hs' & Hw2 & Hd2 & Hsl); [done|].
  destruct Hsl as (S1 & S2 & S3 & S4 & S5 & S6 & S7). cbn in S1, S2, S3, S4, S5, S6, S7, Hd2.
  assert (Hcw : cur_wptr s' = c' * sl_nsect).
  { unfold cur_wptr. rewrite S1, S3, Hz'. cbn. by rewrite Hw2. }
  assert (Hcur : mlog_cur s' = c' * sl_nsect) by (unfold mlog_cur; by rewrite S3).
  assert (Hlen : mlog_len s' = 0) by (unfold mlog_len; lia).
  assert (Hb : forall a, mlog_byte s' a = if in_blocks a (c' * sl_nsect) sl_zcap then 0 else mlog_byte s a).
  { intros a. unfold mlog_byte. rewrite Hd2. pose proof (sz_reset (md_dev s) c' (a / 4096) (a mod 4096)) as Hz0. rewrite Hr in Hz0.
    cbn [snd] in Hz0. rewrite Hz0. replace (in_blocks a (c' * sl_nsect) sl_zcap) with ((c' * sl_nsect <=? a / 4096) && (a / 4096 <? c' * sl_nsect + sl_zcap)); [done|].
    unfold in_blocks. apply eq_true_iff_eq. rewrite !andb_true_iff, !Z.leb_le, !Z.ltb_lt. zdiv. }
  exists s'. rewrite Hsw. split; [done|]. split; [|split_and!; auto].
  - destruct H as [M1 M2 M3 M4 M5 M6 M7 M8]. constructor.
    + rewrite S1, S7. exact M1.
    + congruence.
    + by rewrite S3.
    + by rewrite S3, Hd2, Hwp, Hcw.
    + rewrite Hlen. lia.
    + intros a Ha0. rewrite Hb. rewrite Hcw, Hlen, Z.sub_0_r in Ha0. by rewrite Ha0.
    + unfold md_pool_ok in *. by rewrite S4.
    + by rewrite S4.
  - rewrite Hcur. lia.
  - intros a. by rewrite Hb, Hcur.
Qed.

(** A write that does not fit. *)
Lemma mlog_full_law s b k :
  mlog_ok s -> 0 < k < 2 ^ 16 -> Z.of_nat (length b) = 4096 * k -> sl_zcap <= mlog_len s + k ->
  exists s', mlog_write s b = Ok (MD_WRITE_FULL, s') /\ mlog_ok s' /\ mlog_cur s' = sl_nsect - mlog_cur s /\ mlog_len s' = 0 /\
    forall a, mlog_byte s' a = if in_blocks a (mlog_cur s') sl_zcap then 0 else mlog_byte s a.
Proof using Hcap Hzs Hfit HSZ.
  intros H Hk Hb Hfull. set (s0 := md_set_mem s (poke (md_mem s) wbuf b)).
  assert (H0 : mlog_ok s0) by (destruct H as [M1 M2 M3 M4 M5 M6 M7 M8]; by constructor).
  destruct (ml_log_zone s0 H0) as (zone & (Z1 & Z2 & Z3 & Z4 & Z5 & Z6 & Z7) & Hc).
  destruct (mlog_switch_law s0 (md_curr s) H0 (ml_curr _ H)) as (s' & Hsw & H' & Hcur & Hlen & _ & Hbyte).
  exists s'. split; [|split_and!; auto]. unfold mlog_write. fold s0. unfold zrocks_write_file_metadata. rewrite Z1.
  cbn [lift mbind outcome_bind]. rewrite Z4. cbn [lift mbind outcome_bind]. rewrite Z2, Hc, Hb. unfold FILE_METADATA_BUF_SIZE in Hcap.
  replace (4096 * k / ZNS_ALIGMENT) with k by (unfold ZNS_ALIGMENT; zdiv). pose proof (ml_len _ H0) as Hl.
  change (md_curr s0) with (md_curr s) in *. change (cur_wptr s0) with (cur_wptr s) in *. change (mlog_len s0) with (mlog_len s) in Hl.
  unfold mlog_len, mlog_cur in *. rewrite !(wrap_small 64) by lia. replace (_ <=? cur_wptr s + k) with true by lia.
  rewrite Hsw. done.
Qed.

Lemma mlog_slbas_law s : mlog_ok s -> mlog_slbas s = [0; sl_nsect].
Proof using.
  intros H. destruct (ml_zones _ H) as (z0 & z1 & i0 & i1 & Hz & A0 & A1 & _). unfold mlog_slbas, zrocks_get_metadata_slbas.
  rewrite (ml_num _ H). change (Z.to_nat 2) with 2%nat. cbn [slbas_loop]. rewrite Hz.
  change ([z0; z1].[0]) with (Some z0). change ([z0; z1].[0 + 1]) with (Some z1). cbn [mbind option_bind]. rewrite A0, A1.
  unfold aset. cbn. by rewrite Z.mul_1_l.
Qed.

#[refine] Definition mlog_laws : @ZLogLaws (mdstate D) mlog_meta := {|
  zl_ok := mlog_ok; zl_z0 := 0; zl_z1 := sl_nsect; zl_cap := sl_zcap; zl_byte := mlog_byte;
  zl_cur := mlog_cur; zl_len := mlog_len
|}.
Proof using Hcap Hzs Hfit HSZ.
  - unfold FILE_METADATA_BUF_SIZE in *. lia.
  - apply mlog_slbas_law.
  - intros s H. split_and!.
    + unfold mlog_cur. destruct (ml_curr _ H) as [-> | ->]; lia.
    + apply H.
    + apply H.
    + intros a. unfold mlog_len at 1. replace (mlog_cur s + (cur_wptr s - mlog_cur s)) with (cur_wptr s) by lia. apply H.
  - intros s z slba k. apply mlog_read_law.
  - intros s b k H1 H2 H3 _. exact (mlog_write_law s b k H1 H2 H3).
  - intros s b k H1 H2 H3 H4. rewrite Z.add_0_l. exact (mlog_full_law s b k H1 H2 H3 H4).
  - intros s z H Hz. assert (Hc : exists c, (c = 0 \/ c = 1) /\ z = c * sl_nsect) by (destruct Hz as [-> | ->]; [exists 0|exists 1]; lia).
    destruct Hc as (c & Hc & ->). destruct (mlog_switch_law s c H Hc) as (s' & Hsw & H' & Hcur & Hlen & _ & Hb).
    exists s'. cbn. rewrite Hsw. split_and!; auto.
Defined.

End MetaLog.
