(* ===== verification/EnvCrashTheorems.v ===== *)
(** Crashes and restarts of the environment: histories of operations and restarts keep
    the metadata log in step with the file table, a restart finds the table of the log,
    what [Sync] returned for is found again, and a rename is undone by the second
    restart. *)

From S2P Require Import Prelude Types Media NodeInit Sim Device Mempool Metadata MetadataTheorems EnvTypes EnvMeta EnvFile EnvLaws EnvFileOk EnvFileTheorems EnvLoad EnvLog EnvRecover EnvTable EnvCrash EnvHistory EnvReboot EnvMetaLog.

(** * Histories *)

Section History.

Context (pad_head pad_level pad_tail pad_zone : bytes) (normalize : bytes -> bytes).
Context (Hpads : pads_ok pad_head pad_level pad_tail pad_zone).
Context (Hpb : byte_list (pad_head ++ pad_level ++ pad_tail ++ pad_zone)).
Context {W M : Type} `{HD : !ZData W} `{HR : !ZRecover W} `{HRT : !ZRecoverTotal W} `{HM : !ZMeta M} `{HL : !ZLogLaws M}.
Implicit Types (e : zenv W M) (m : M) (R : table).

Abbreviation logged := (logged pad_head pad_level pad_tail pad_zone).
Abbreviation table_fits := (table_fits pad_level pad_tail).
Abbreviation Load := (LoadMetaData pad_head pad_level pad_tail pad_zone).

(** A program that starts on the metadata zones that [m] left: its memory is new, and
    the zones hold what they held, whichever of them is the current one. *)
Record restarted m e0 : Prop := {
  rs_ok : zl_ok (ev_m e0);
  rs_bytes : forall a, zl_byte (ev_m e0) a = zl_byte m a;
  rs_seq : ev_sequence e0 = 0;
  rs_files : ev_files e0 = [];
  rs_heap : ev_heap e0 = ∅
}.

Lemma restarted_fresh m e0 : restarted m e0 -> fresh_ok e0.
Proof using. intros H p _. unfold deref. by rewrite (rs_heap _ _ H). Qed.

(** What the running environment does.  A step of [h_memory] is any change of a file
    that leaves its pieces alone: the copy into the cache and the new size of [Append],
    [Truncate], [SetWriteLifeTimeHint], the locks, and [Close] after its [Sync]; one of
    [h_data] is a call of the library below that changes no file.  The bounds on the
    operations that log are those of the record and of the checkpoint. *)
Inductive hstep : zenv W M -> zenv W M -> Prop :=
  | h_create px buf_ok fname wf e e' :
      NewWritableFile normalize px buf_ok e fname = Some (S_OK, Some wf, e') ->
      IsFilePosix (normalize fname) = false -> name_ok (normalize fname) ->
      (forall q, map_find (normalize fname) (ev_files e) <> Some (Some q)) -> hstep e e'
  | h_memory n p f f' e :
      map_find n (ev_files e) = Some (Some p) -> deref e p = Some f ->
      zf_name f' = zf_name f -> zf_map f' = zf_map f -> zf_startIndex f' = zf_startIndex f ->
      - 128 <= zf_level f' < 128 -> 0 <= zf_size f' < 2 ^ 64 -> hstep e (store e p f')
  | h_data w nids e : hstep e (ev_set_nids (ev_set_w e w) nids)
  | h_sync fuel wf n f c maps w e e' :
      ZNSWritableFile_Sync pad_head pad_level pad_tail pad_zone fuel true e wf = Ok (S_OK, e') ->
      let f1 := zf_set_map f (zf_map f ++ maps) in
      map_find n (ev_files e) = Some (Some (wf_znsfile wf)) -> deref e (wf_znsfile wf) = Some f ->
      zf_cache f = Some c -> c <> [] -> zd_write fuel (ev_w e) c (zf_level f) false = Ok (0, maps, w) ->
      Forall (fun x => 0 <= x < 2 ^ 64) maps -> Z.of_nat (length (zf_map f1)) < 2 ^ 28 ->
      Z.of_nat (length (zf_map f1)) - zf_startIndex f <= 491 -> table_fits (store e (wf_znsfile wf) f1) -> hstep e e'
  | h_migrate n p f maps e e' :
      let f1 := zf_set_map f maps in
      FlushGCChangeMetaData pad_head pad_level pad_tail pad_zone true (store e p f1) p = Ok (S_OK, e') ->
      map_find n (ev_files e) = Some (Some p) -> deref e p = Some f -> ent_ok (fent_of f1) ->
      zf_startIndex f <= Z.of_nat (length maps) <= 491 -> table_fits (store e p f1) -> hstep e e'
  | h_delete px fname p f w e e' :
      DeleteFile pad_head pad_level pad_tail pad_zone normalize px true e fname = Ok (S_OK, e') ->
      IsFilePosix (normalize fname) = false -> map_find (normalize fname) (ev_files e) = Some (Some p) ->
      deref e p = Some f -> trim_pieces (ev_w e) (zf_map f) = Ok w -> table_fits e -> hstep e e'
  | h_crash buf_ok N e e0 e' :
      restarted (ev_m e) e0 -> (forall fuel, (N <= fuel)%nat -> Load fuel true buf_ok e0 = Ok (S_OK, e')) ->
      table_fits e -> hstep e e'.

Lemma step_logged e e' : hstep e e' -> forall R, logged e R -> exists R', logged e' R'.
Proof using Hpads Hpb HRT.
  destruct 1 as [px buf_ok fname wf e e' Hrun Hpx Hn Hnone|n p f f' e Hfind Hp Hnm Hmap Hidx Hlv Hsz|w nids e
    |fuel wf n f c maps w e e' Hrun f1 Hfind Hp Hc Hne Hw Hmaps Hl28 Hl491 Hfit|n p f maps e e' f1 Hrun Hfind Hp Hent Hlen Hfit
    |px fname p f w e e' Hrun Hpx Hfind Hp Htrim Hfit|buf_ok N e e0 e' Hrs Hrun Hfit]; intros R Hlg.
  - destruct (create_logged pad_head pad_level pad_tail pad_zone normalize px buf_ok e R fname Hlg Hpx Hn Hnone) as (wf' & e2 & Hrun' & H & _).
    assert (e2 = e') as -> by congruence. by exists R.
  - exists R. apply (grow_logged pad_head pad_level pad_tail pad_zone e R p f f' []); auto; [by rewrite app_nil_r| |by exists n].
    destruct (tk_file _ (lg_table _ _ _ _ _ _ Hlg) n p Hfind) as (g & Hg & (E1 & _ & _ & E4 & E5) & _). assert (g = f) as -> by congruence.
    unfold ent_ok, fent_of, fent_from in *. cbn [fe_own fe_level fe_size fe_map] in *. by rewrite Hnm, Hmap.
  - exists R. by apply (logged_ext pad_head pad_level pad_tail pad_zone e).
  - destruct (sync_logged pad_head pad_level pad_tail pad_zone Hpads Hpb fuel e R wf n f c maps w) as (e2 & R' & Hrun' & H & _); auto.
    assert (e2 = e') as -> by congruence. by exists R'.
  - destruct (gc_logged pad_head pad_level pad_tail pad_zone Hpads Hpb e R p f n maps) as (e2 & R' & Hrun' & H & _); auto.
    fold f1 in Hrun'. assert (e2 = e') as -> by congruence. by exists R'.
  - destruct (delete_logged pad_head pad_level pad_tail pad_zone Hpads Hpb normalize px e R fname p f w) as (e2 & R' & Hrun' & H & _); auto.
    assert (e2 = e') as -> by congruence. by exists R'.
  - pose proof (lg_log _ _ _ _ _ _ Hlg) as (fs & rs & Hls & _). pose proof (ls_seq _ _ _ _ _ _ _ _ Hls) as Hseq.
    destruct (restart_logged pad_head pad_level pad_tail pad_zone Hpads Hpb e R e0 buf_ok Hlg) as (N' & e2 & Hrun' & _ & H & _).
    + by apply (logged_small pad_head pad_level pad_tail pad_zone Hpads e).
    + apply Hfit.
    + apply Hrs.
    + apply Hrs.
    + rewrite (rs_seq _ _ Hrs). lia.
    + by eapply restarted_fresh.
    + exists R. specialize (Hrun (N + N')%nat ltac:(lia)). specialize (Hrun' (N + N')%nat ltac:(lia)).
      assert (e2 = e') as -> by congruence. done.
Qed.

Lemma steps_logged e e' : rtc hstep e e' -> forall R, logged e R -> exists R', logged e' R'.
Proof using Hpads Hpb HRT.
  induction 1 as [e|e1 e2 e3 H12 _ IH]; intros R Hlg; [by exists R|].
  destruct (step_logged e1 e2 H12 R Hlg) as (R2 & Hlg2). by eapply IH.
Qed.

End History.

(** * Renaming *)

Section Rename.

Context (pad_head pad_level pad_tail pad_zone : bytes) (normalize : bytes -> bytes).
Context (Hpads : pads_ok pad_head pad_level pad_tail pad_zone).
Context (Hpb : byte_list (pad_head ++ pad_level ++ pad_tail ++ pad_zone)).
Context {W M : Type} `{HD : !ZData W} `{HR : !ZRecover W} `{HRT : !ZRecoverTotal W} `{HM : !ZMeta M} `{HL : !ZLogLaws M}.
Implicit Types (e : zenv W M) (m : M) (R : table).

Abbreviation logged := (logged pad_head pad_level pad_tail pad_zone).
Abbreviation log_state := (log_state pad_head pad_level pad_tail pad_zone).
Abbreviation Load := (LoadMetaData pad_head pad_level pad_tail pad_zone).
Abbreviation small := (small pad_level pad_tail).

(** The record of a rename is appended. *)
Lemma rename_run px e R src dst p f :
  let nsrc := normalize src in let ndst := normalize dst in
  logged e R -> IsFilePosix nsrc = false -> map_find nsrc (ev_files e) = Some (Some p) -> deref e p = Some f ->
  name_ok ndst -> zl_len (ev_m e) + 1 < zl_cap ->
  exists e1, RenameFile pad_head pad_level pad_tail pad_zone normalize px true e src dst = Ok (S_OK, e1) /\
    ev_sequence e1 = ev_sequence e /\
    exists fs rs, log_state (ev_m e1) (ev_sequence e1 - 1) fs rs /\ log_table fs rs = apply_rec (L_Replace nsrc ndst) R.
Proof using Hpads Hpb.
  intros nsrc ndst [(fs & rs & Hls & HT) L2 L3 _ _ _ _] Hpx Hfind Hp Hnd Hroom.
  assert (Hns : name_ok nsrc).
  { destruct (tk_file _ L2 nsrc p Hfind) as (g & Hg & (Hg1 & _) & _). cbn in Hg1. by rewrite (L3 nsrc p g Hfind Hg) in Hg1. }
  unfold RenameFile. fold nsrc ndst. rewrite Hpx, Hfind, Hp. cbn [lift mbind outcome_bind].
  set (e2 := ev_set_files _ _). unfold FlushReplaceMetaData. cbn [negb].
  destruct (append_record_room pad_head pad_level pad_tail pad_zone Hpads Hpb e2 fs rs (L_Replace nsrc ndst)) as (m' & Hrun & Hls'); auto.
  { done. }
  unfold EnvLog.rec_bytes in Hrun. rewrite (replace_record_ok _ _ _ _ Hpads) in * by done. cbn [from_option id lift mbind outcome_bind] in *.
  rewrite Hrun. cbn [mbind outcome_bind]. eexists. split; [reflexivity|]. split; [done|]. exists fs, (rs ++ [L_Replace nsrc ndst]).
  split; [exact Hls'|]. unfold log_table in *. by rewrite replay_app, HT.
Qed.

(** The entries of a renamed table are those of the table, and so is what a checkpoint
    of them describes. *)
Lemma renamed_entries R src dst fe :
  R !! src = Some fe -> R !! dst = None -> (map_to_list (<[dst := fe]> (delete src R))).*2 ≡ₚ (map_to_list R).*2.
Proof using.
  intros Hs Hd. rewrite <- (insert_delete_id R src fe Hs) at 2. rewrite !map_to_list_insert; [done|apply lookup_delete_eq|].
  apply lookup_delete_None. by right.
Qed.

Lemma entries_checkpoint l R :
  (forall n fe, R !! n = Some fe -> fe_own fe = n) -> l ≡ₚ (map_to_list R).*2 -> base_table l ∅ = R.
Proof using.
  intros Hown Hl.
  assert (Hkeys : forall l' : list (bytes * fent), (forall n fe, (n, fe) ∈ l' -> fe_own fe = n) -> fe_own <$> l'.*2 = l'.*1).
  { induction l' as [|[n fe] l' IH]; intros H; [done|]. rewrite !fmap_cons, IH by (intros; apply H; by right). f_equal. apply H. by left. }
  assert (Hnd : NoDup (fe_own <$> l)).
  { rewrite Hl, Hkeys; [apply NoDup_fst_map_to_list|]. intros n fe H%elem_of_map_to_list. by apply Hown. }
  assert (Hin : forall fe, fe ∈ l <-> R !! fe_own fe = Some fe).
  { intros fe. rewrite Hl. split.
    - intros ([n g] & -> & Hg%elem_of_map_to_list)%list_elem_of_fmap. cbn. by rewrite (Hown _ _ Hg).
    - intros Hfe. apply list_elem_of_fmap. exists (fe_own fe, fe). split; [done|]. by apply elem_of_map_to_list. }
  apply map_eq. intros n. rewrite base_table_lookup by (done || intros; apply lookup_empty). rewrite lookup_empty.
  destruct (list_find _ l) as [[i fe]|] eqn:Hf.
  - apply list_find_Some in Hf as (Hi & <- & _). symmetry. by apply Hin, (list_elem_of_lookup_2 _ i).
  - apply list_find_None in Hf. destruct (R !! n) as [fe|] eqn:Hn; [|done]. pose proof (Hown _ _ Hn) as <-.
    rewrite Forall_forall in Hf. destruct (Hf fe); [by apply Hin|done].
Qed.

(** A restart on a log that describes [R], whose files may be found under other names
    than their own: the table is [R]; the next log is a checkpoint of the entries. *)
Lemma restart_any m seq fs rs e0 buf_ok :
  log_state m seq fs rs -> seq < 2 ^ 32 - 2 -> restarted m e0 ->
  (forall n fe, log_table fs rs !! n = Some fe -> ent_ok fe) -> small (log_table fs rs) ->
  exists N e' fs', (forall fuel, (N <= fuel)%nat -> Load fuel true buf_ok e0 = Ok (S_OK, e')) /\
    has_table e' (log_table fs rs) /\ log_state (ev_m e') (seq + 1) fs' [] /\ fs' ≡ₚ (map_to_list (log_table fs rs)).*2.
Proof using Hpads Hpb HRT.
  intros Hls Hs [R1 R2 R3 R4 R5] Hent Hsm. pose proof (ls_seq _ _ _ _ _ _ _ _ Hls) as Hq.
  pose proof (log_state_disk pad_head pad_level pad_tail pad_zone _ _ _ _ _ Hls R2) as Hd.
  destruct (reboot pad_head pad_level pad_tail pad_zone Hpads Hpb e0 buf_ok _ _ fs rs R1 Hd) as (N & e1 & w & e' & Hrun & L & F & Hls' & Hsq & _); auto.
  { lia. } { by eapply restarted_fresh. }
  exists N, e', (ents e1 (ev_files e1)). split; [done|]. split.
  { eapply flushed_has_table; [exact F|]. exact (loaded_has_table _ _ L). }
  split; [|by apply loaded_ents]. by replace (ev_sequence e' - 1) with (seq + 1) in Hls' by lia.
Qed.

End Rename.

(** * Witnesses: the metadata zones on the simulated device *)

#[export, refine] Instance simdev_zero : SyncZero simdev := {}.
Proof. intros d zone sec off. reflexivity. Defined.

(** The data path of the witnesses hands out map entries. *)
#[export] Instance count_data : ZData Z := {
  zd_write := fun _ w _ _ _ => Ok (0, [w mod 2 ^ 64], w + 1);
  zd_read := fun _ w _ _ len _ => Ok (0, replicate (Z.to_nat len) 0, w);
  zd_trim := fun w _ _ => Ok (0, w)
}.

#[export] Instance count_recover : ZRecover Z := {
  zr_node_set := fun w _ _ _ => Ok w;
  zr_clear_invalid_nodes := fun w => Ok w
}.

#[export] Instance count_total : ZRecoverTotal Z.
Proof. constructor; [intros w nid level num|intros w]; by exists w. Qed.

Definition sim_meta : ZMeta (mdstate simdev) := mlog_meta 0 (2 ^ 29).

Lemma sim_zone_cap : FILE_METADATA_BUF_SIZE < 4096 * sl_zcap (D := simdev).
Proof. reflexivity. Qed.

Lemma sim_zone_size : sl_zcap (D := simdev) <= sl_nsect.
Proof. vm_compute. discriminate. Qed.

Lemma sim_zone_fit : sl_nsect (D := simdev) + sl_zcap < 2 ^ 36.
Proof. reflexivity. Qed.

Definition sim_laws : @ZLogLaws (mdstate simdev) sim_meta := mlog_laws 0 (2 ^ 29) sim_zone_cap sim_zone_size sim_zone_fit.

(** The zones before the first start. *)
Definition sim_blank : mdstate simdev :=
  sim_md {| sd_next := 0; sd_queue := []; sd_wp := fun z => z * sd_zone_size; sd_data := fun _ _ => 0; sd_log := [] |}.

Lemma sim_blank_ok : mlog_ok (2 ^ 29) sim_blank.
Proof.
  constructor.
  - eexists _, _, _, _. split; [reflexivity|]. split_and!; try reflexivity; cbn; lia.
  - done.
  - by left.
  - done.
  - vm_compute. split; congruence.
  - done.
  - apply sim_pool_ok.
  - intros a Ha%sim_pool_far. lia.
Qed.

Lemma sim_pads_bytes : byte_list (replicate 3 0 ++ replicate 7 0 ++ replicate 4 0 ++ replicate (Z.to_nat 4091) 0).
Proof. rewrite !Forall_app. split_and!; apply Forall_replicate; lia. Qed.

(** A program on those zones, with a file "A" of one piece when its cache is given. *)
Definition sim_afile (c : bytes) : ZNSFile :=
  {| zf_name := [65]; zf_size := 3; zf_uuididx := 0; zf_level := 0; zf_map := [7]; zf_startIndex := 0;
     zf_cache := Some c; zf_is_writing := true; zf_current_nid := -1 |}.

Definition sim_zenv (c : option bytes) : zenv Z (mdstate simdev) :=
  {| ev_w := 8; ev_m := sim_blank; ev_heap := match c with Some c => {[0%nat := sim_afile c]} | None => ∅ end; ev_next := 1;
     ev_files := match c with Some _ => [([65], Some 0%nat)] | None => [] end; ev_sequence := 0; ev_uuididx := 1; ev_nids := ∅ |}.

#[local] Existing Instance sim_meta.
#[local] Existing Instance sim_laws.

Abbreviation p3 := (replicate 3 0).
Abbreviation p7 := (replicate 7 0).
Abbreviation p4 := (replicate 4 0).
Abbreviation pz := (replicate (Z.to_nat 4091) 0).

Lemma sim_table c : table_ok (sim_zenv (Some c)) /\ names_ok (sim_zenv (Some c)) /\ fresh_ok (sim_zenv (Some c)).
Proof.
  assert (Hd : forall p f, deref (sim_zenv (Some c)) p = Some f -> p = 0%nat /\ f = sim_afile c).
  { intros p f. unfold deref. cbn. by intros [<- <-]%lookup_singleton_Some. }
  assert (Hf : forall n p, map_find n (ev_files (sim_zenv (Some c))) = Some (Some p) -> n = [65] /\ p = 0%nat).
  { intros n p. cbn. destruct (decide _) as [<-|]; [by intros [= <-]|done]. }
  split_and!.
  - constructor; [repeat constructor|]. intros n p [-> ->]%Hf. exists (sim_afile c). split; [apply lookup_singleton_eq|].
    split; [|cbn; lia]. split; [split; [done|repeat constructor; done]|]. cbn. split; [lia|]. split; [lia|]. split; [|done].
    change (drop _ _) with [7]. apply Forall_singleton. lia.
  - intros n p f [-> ->]%Hf [_ ->]%Hd. done.
  - intros p Hp. destruct (deref _ p) as [f|] eqn:E; [|done]. apply Hd in E as [-> _]. cbn in Hp. lia.
Qed.

(** The log of that program after a checkpoint. *)
Lemma sim_logged c : exists e,
  logged p3 p7 p4 pz e {[ [65] := fent_of (sim_afile c) ]} /\ ev_sequence e = 1 /\ ev_w e = 8 /\
  ev_files e = [([65], Some 0%nat)] /\ deref e 0 = Some (zf_set_startIndex (sim_afile c) 1) /\
  zl_len (ev_m e) = 2.
Proof.
  destruct (sim_table c) as (Ht & Hn & Hf).
  assert (Hents : ents (sim_zenv (Some c)) (ev_files (sim_zenv (Some c))) = [fent_of (sim_afile c)]).
  { unfold ents. cbn. unfold deref. cbn [ev_heap sim_zenv]. by rewrite lookup_singleton_eq. }
  destruct (FlushMetaData_exact p3 p7 p4 pz sim_pads_ok sim_pads_bytes (sim_zenv (Some c))) as (e & _ & Hls & Hsq & F & Hidx); auto.
  - exact sim_blank_ok.
  - unfold EnvCrash.table_fits. rewrite Hents. split_and!; done.
  - done.
  - exists e. pose proof (ft_files _ _ F) as Hff. cbn in Hff, Hsq.
    destruct (same_heap_deref _ _ 0%nat (sim_afile c) (ft_heap _ _ F)) as (f' & Hf' & Hs); [apply lookup_singleton_eq|].
    assert (Hf2 : f' = zf_set_startIndex (sim_afile c) 1).
    { pose proof (Hidx [65] 0%nat f' eq_refl Hf') as Hi. destruct f'. cbn in Hi. unfold same_file, zf_set_startIndex in Hs. injection Hs as <- <- <- <- <- <- <- <-.
      by rewrite Hi. }
    subst f'. split_and!; auto.
    + assert (Hc : base_table (ents (sim_zenv (Some c)) (ev_files (sim_zenv (Some c)))) ∅ = {[ [65] := fent_of (sim_afile c) ]}).
      { rewrite Hents. reflexivity. }
      rewrite <- Hc. apply checkpoint_logged; auto. by rewrite Hsq.
    + apply F.
    + pose proof (ls_len _ _ _ _ _ _ _ _ Hls) as Hlen. rewrite Hents in Hlen.
      assert (Hl : Z.of_nat (length (log_image p3 p7 p4 pz (ev_sequence (sim_zenv (Some c))) [fent_of (sim_afile c)] [])) = 8192); [|lia].
      unfold log_image. rewrite !length_app, !Nat2Z.inj_add, (length_zone_head p3 p7 p4 pz sim_pads_ok). cbn [fmap list_fmap mjoin list_join length].
      reflexivity.
Qed.

Lemma sim_restarted (e : zenv Z (mdstate simdev)) R : logged p3 p7 p4 pz e R -> restarted (ev_m e) (ev_set_m (sim_zenv None) (ev_m e)).
Proof. intros [(fs & rs & Hls & _) _ _ _ _ _ _]. constructor; try reflexivity. exact (ls_ok _ _ _ _ _ _ _ _ Hls). Qed.

(** * Properties *)


Lemma sim_name : name_ok [66].
Proof. split; [done|by apply Forall_singleton]. Qed.


(** C35. A crash between two operations: a program that starts on the metadata zones as
    they were left reads the log, whichever zone it is in, and [LoadMetaData] returns OK
    with a table in which every file has exactly the pieces it had flushed, under its
    name, and no other file exists; a file of which nothing was flushed is gone.  The new
    log describes the new table. *)
Theorem crash_recovery {W M : Type} `{HR : !ZRecover W} `{HRT : !ZRecoverTotal W} `{HM : !ZMeta M} `{HL : !ZLogLaws M}
    pad_head pad_level pad_tail pad_zone (e e0 : zenv W M) R buf_ok :
  pads_ok pad_head pad_level pad_tail pad_zone -> byte_list (pad_head ++ pad_level ++ pad_tail ++ pad_zone) ->
  logged pad_head pad_level pad_tail pad_zone e R -> table_fits pad_level pad_tail e -> restarted (ev_m e) e0 ->
  exists N e', (forall fuel, (N <= fuel)%nat -> LoadMetaData pad_head pad_level pad_tail pad_zone fuel true buf_ok e0 = Ok (S_OK, e')) /\
    logged pad_head pad_level pad_tail pad_zone e' R /\
    (forall n p f, map_find n (ev_files e) = Some (Some p) -> deref e p = Some f -> 0 < zf_startIndex f ->
       exists p' f', map_find n (ev_files e') = Some (Some p') /\ deref e' p' = Some f' /\ zf_name f' = n /\
         zf_map f' = take (Z.to_nat (zf_startIndex f)) (zf_map f)) /\
    (forall n p', map_find n (ev_files e') = Some (Some p') -> exists p, map_find n (ev_files e) = Some (Some p)).
Proof.
  intros Hp Hb Hlg Hfit Hrs. pose proof Hlg as [(fs & rs & Hls & _) _ _ _ L5 L6 L7]. pose proof (ls_seq _ _ _ _ _ _ _ _ Hls) as Hq.
  destruct (restart_logged pad_head pad_level pad_tail pad_zone Hp Hb e R e0 buf_ok Hlg) as (N & e' & Hrun & Ht & Hlg' & _).
  - by apply (logged_small pad_head pad_level pad_tail pad_zone Hp e).
  - apply Hfit.
  - apply Hrs.
  - apply Hrs.
  - rewrite (rs_seq _ _ Hrs). lia.
  - by eapply restarted_fresh.
  - exists N, e'. split_and!; auto.
    + intros n p f Hn Hf Hi. specialize (L6 n p f Hn Hf). destruct (R !! n) as [fe|] eqn:E; [|lia].
      destruct (proj1 (Ht n fe) E) as (p' & f' & H1 & H2 & H3). exists p', f'. subst fe. pose proof (L5 _ _ E) as Hown.
      cbn in L6, Hown. rewrite drop_0 in L6. auto.
    + intros n p' Hp'. destruct (tk_file _ (lg_table _ _ _ _ _ _ Hlg') n p' Hp') as (f' & Hf' & _).
      apply (L7 n (fent_of f')). apply Ht. by exists p', f'.
Qed.

Lemma crash_recovery_witness : exists (e : zenv Z (mdstate simdev)) N e' p' f',
  (forall fuel, (N <= fuel)%nat -> LoadMetaData p3 p7 p4 pz fuel true true (ev_set_m (sim_zenv None) (ev_m e)) = Ok (S_OK, e')) /\
  map_find [65] (ev_files e') = Some (Some p') /\ deref e' p' = Some f' /\ zf_map f' = [7].
Proof.
  destruct (sim_logged []) as (e & Hlg & Hsq & _ & Hfs & Hd & _).
  destruct (crash_recovery p3 p7 p4 pz e (ev_set_m (sim_zenv None) (ev_m e)) {[ [65] := fent_of (sim_afile []) ]} true)
    as (N & e' & Hrun & _ & Hfile & _).
  - exact sim_pads_ok.
  - exact sim_pads_bytes.
  - exact Hlg.
  - unfold EnvCrash.table_fits, ents. rewrite Hfs, Hsq. cbn [omap list_omap snd mbind option_bind]. rewrite Hd. clear. split; [reflexivity|]. split; [reflexivity|split; [discriminate|reflexivity]].
  - exact (sim_restarted e _ Hlg).
  - destruct (Hfile [65] 0%nat (zf_set_startIndex (sim_afile []) 1)) as (p' & f' & H1 & H2 & _ & H4); [rewrite Hfs; reflexivity|exact Hd|reflexivity|].
    exists e, N, e', p', f'. split; [exact Hrun|]. split; [exact H1|]. split; [exact H2|exact H4].
Defined.



(** C37. A rename does not last.  After [RenameFile] of a file returned OK, the first
    start finds the file under the new name; but the checkpoint this start writes has
    the file under the name its metadata carry, which is still the old one, so that the
    second start finds the table from before the rename. *)
Theorem rename_undone {W M : Type} `{HD : !ZData W} `{HR : !ZRecover W} `{HRT : !ZRecoverTotal W} `{HM : !ZMeta M} `{HL : !ZLogLaws M}
    pad_head pad_level pad_tail pad_zone normalize px (e : zenv W M) R src dst p f fe :
  pads_ok pad_head pad_level pad_tail pad_zone -> byte_list (pad_head ++ pad_level ++ pad_tail ++ pad_zone) ->
  let nsrc := normalize src in let ndst := normalize dst in
  logged pad_head pad_level pad_tail pad_zone e R -> table_fits pad_level pad_tail e -> ev_sequence e < 2 ^ 32 - 2 ->
  IsFilePosix nsrc = false -> map_find nsrc (ev_files e) = Some (Some p) -> deref e p = Some f ->
  R !! nsrc = Some fe -> R !! ndst = None -> name_ok ndst -> zl_len (ev_m e) + 1 < zl_cap ->
  exists e1, RenameFile pad_head pad_level pad_tail pad_zone normalize px true e src dst = Ok (S_OK, e1) /\ zl_ok (ev_m e1) /\
    forall e0 buf_ok, restarted (ev_m e1) e0 ->
    exists N e2, (forall k, (N <= k)%nat -> LoadMetaData pad_head pad_level pad_tail pad_zone k true buf_ok e0 = Ok (S_OK, e2)) /\
      has_table e2 (<[ndst := fe]> (delete nsrc R)) /\ zl_ok (ev_m e2) /\
      forall e0', restarted (ev_m e2) e0' ->
      exists N' e3, (forall k, (N' <= k)%nat -> LoadMetaData pad_head pad_level pad_tail pad_zone k true buf_ok e0' = Ok (S_OK, e3)) /\
        has_table e3 R.
Proof.
  intros Hp Hb nsrc ndst Hlg Hfit Hseq Hpx Hfind Hf Hsrc Hdst Hnd Hroom.
  destruct (rename_run pad_head pad_level pad_tail pad_zone normalize Hp Hb px e R src dst p f) as (e1 & Hrun & Hsq & fs & rs & Hls & HT); auto.
  fold nsrc ndst in HT. cbn [apply_rec] in HT. rewrite Hsrc in HT. set (R1 := <[ndst := fe]> (delete nsrc R)) in *.
  pose proof (logged_small pad_head pad_level pad_tail pad_zone Hp e R Hlg Hfit) as [Hs1 Hs2].
  pose proof (renamed_entries R nsrc ndst fe Hsrc Hdst) as Hperm. fold R1 in Hperm.
  assert (Hent1 : forall n g, R1 !! n = Some g -> ent_ok g).
  { intros n g. unfold R1. rewrite lookup_insert_Some, lookup_delete_Some. intros [[_ <-]|(_ & _ & Hg)]; by eapply logged_ents. }
  assert (Hsm1 : small pad_level pad_tail R1).
  { split; [by rewrite (base_data_perm _ _ _ _ Hperm)|]. apply Permutation_length in Hperm. rewrite !length_fmap, !length_map_to_list in Hperm. by rewrite Hperm. }
  exists e1. split; [done|]. split; [apply Hls|]. intros e0 buf_ok Hrs. rewrite Hsq in Hls. subst R1. rewrite <- HT in *.
  destruct (restart_any pad_head pad_level pad_tail pad_zone Hp Hb (ev_m e1) _ fs rs e0 buf_ok Hls) as (N & e2 & fs' & Hrun2 & Ht2 & Hls2 & Hfs'); auto; [lia|].
  exists N, e2. split; [done|]. split; [done|]. split; [apply Hls2|]. intros e0' Hrs'.
  assert (HT2 : log_table fs' [] = R).
  { apply entries_checkpoint; [apply Hlg|]. by rewrite Hfs'. }
  destruct (restart_any pad_head pad_level pad_tail pad_zone Hp Hb (ev_m e2) _ fs' [] e0' buf_ok Hls2) as (N' & e3 & _ & Hrun3 & Ht3 & _); auto.
  - lia.
  - rewrite HT2. intros n g. by apply (logged_ents pad_head pad_level pad_tail pad_zone e).
  - by rewrite HT2.
  - exists N', e3. split; [done|]. by rewrite HT2 in Ht3.
Qed.

Lemma rename_undone_witness : exists (e e1 e2 e3 : zenv Z (mdstate simdev)) N N' q f,
  RenameFile p3 p7 p4 pz id S_IOError true e [65] [66] = Ok (S_OK, e1) /\
  (forall k, (N <= k)%nat -> LoadMetaData p3 p7 p4 pz k true true (ev_set_m (sim_zenv None) (ev_m e1)) = Ok (S_OK, e2)) /\
  map_find [66] (ev_files e2) = Some (Some q) /\
  (forall k, (N' <= k)%nat -> LoadMetaData p3 p7 p4 pz k true true (ev_set_m (sim_zenv None) (ev_m e2)) = Ok (S_OK, e3)) /\
  has_table e3 {[ [65] := f ]}.
Proof.
  destruct (sim_logged []) as (e & Hlg & Hsq & _ & Hfs & Hd & Hlen).
  assert (Hfit : table_fits p7 p4 e).
  { unfold EnvCrash.table_fits, ents. rewrite Hfs, Hsq. cbn [omap list_omap snd mbind option_bind]. rewrite Hd. clear.
    split; [reflexivity|]. split; [reflexivity|split; [discriminate|reflexivity]]. }
  destruct (rename_undone p3 p7 p4 pz id S_IOError e {[ [65] := fent_of (sim_afile []) ]} [65] [66] 0
    (zf_set_startIndex (sim_afile []) 1) (fent_of (sim_afile []))) as (e1 & Hrun & Hok & Hrec).
  - exact sim_pads_ok.
  - exact sim_pads_bytes.
  - exact Hlg.
  - exact Hfit.
  - rewrite Hsq. reflexivity.
  - reflexivity.
  - rewrite Hfs. reflexivity.
  - exact Hd.
  - reflexivity.
  - reflexivity.
  - exact sim_name.
  - rewrite Hlen. reflexivity.
  - destruct (Hrec (ev_set_m (sim_zenv None) (ev_m e1)) true) as (N & e2 & H1 & Ht2 & Hok2 & Hrec2).
    { constructor; try reflexivity. exact Hok. }
    destruct (Hrec2 (ev_set_m (sim_zenv None) (ev_m e2))) as (N' & e3 & H2 & Ht3).
    { constructor; try reflexivity. exact Hok2. }
    destruct (proj1 (Ht2 [66] (fent_of (sim_afile [])))) as (q & f & Hq & _ & _); [reflexivity|].
    exists e, e1, e2, e3, N, N', q, (fent_of (sim_afile [])).
    split; [exact Hrun|]. split; [exact H1|]. split; [exact Hq|]. split; [exact H2|exact Ht3].
Defined.
