(* ===== verification/EnvGc.v ===== *)
(** Garbage collection of the environment (src/env/env_zns.cc, GCWorker and
    MigrateNodeFile): the nodes with many invalid commands are emptied by moving the
    pieces of their files to other nodes.

    [filesMutex] is held while a migration begins and while it ends, and released while
    the pieces are moved: the three parts are separate definitions, and [MigrateNodeFile]
    is a migration that no other operation comes between. *)

From S2P Require Import Prelude Types EnvTypes EnvMeta EnvFile EnvTable.

Definition ZNS_GC_NODES_PERCENT : Z := 28.
Definition ZNS_GC_NODE_IVD_MIN_PERCENT : Z := 85.

(** zrocks_gc_get_nodes_num, zrocks_gc_get_free_nodes_num and
    zrocks_gc_get_full_nodes. *)
Class ZGc (W : Type) := {
  zg_nodes_num : W -> Z;
  zg_free_nodes_num : W -> Z;
  zg_full_nodes : W -> list Z -> option (list Z)
}.

Section Gc.

Context (pad_head pad_level pad_tail pad_zone : bytes).
Context {W M : Type} `{!ZData W} `{!ZMeta M}.
Implicit Types (e : zenv W M).

(** * Migration of a file *)

(** The locals of a migration: the file, [map_copy] before the loop, [cnid] and [clvl]. *)
Record migration := { mg_file : nat; mg_copy : list Z; mg_cnid : Z; mg_clvl : Z }.

(** [None]: a null pointer is followed; [Some None]: there is nothing to move. *)
Definition migrate_begin e (file_name : bytes) : option (option migration) :=
  match map_find file_name (ev_files e) with
  | None => Some None
  | Some q =>
      p ← q;
      f ← deref e p;
      if IsWR f then Some None
      else Some (Some {| mg_file := p; mg_copy := zf_map f; mg_cnid := zf_current_nid f; mg_clvl := zf_level f |})
  end.

(** What the loop changes beside the environment: [cnid], the array [maps], and
    [map_change], whose pointers lead into that array. *)
Record gcst := { gs_cnid : Z; gs_maps : list Z; gs_change : list nat }.

(** [for (p = 0; p < pieces; p++)] over the new pieces, from index [p] on *)
Fixpoint place_pieces e (file_name : bytes) (s : gcst) (p : nat) (new : list Z) : gcst * zenv W M :=
  match new with
  | [] => (s, e)
  | m :: new' =>
      let nid := zmap_node_id m in
      let e1 := if gs_cnid s =? nid then e
                else ev_set_nids e (<[nid := default [] (ev_nids e !! nid) ++ [file_name]]> (ev_nids e)) in
      place_pieces e1 file_name {| gs_cnid := nid; gs_maps := gs_maps s; gs_change := gs_change s ++ [p] |} (S p) new'
  end.

(** A turn of the loop: the pieces that take the place of [value]. *)
Definition migrate_piece (fuel : nat) e (nid : Z) (file_name : bytes) (clvl : Z) (s : gcst) (value : Z)
    : outcome (list Z * gcst * zenv W M) :=
  if negb (zmap_node_id value =? nid) then Ok ([value], s, e) else
  let off := u64 (zmap_start value * ZNS_ALIGMENT * ZTL_IO_SEC_MCMD) in
  let msize := zmap_num value * ZNS_ALIGMENT * ZTL_IO_SEC_MCMD in
  if ZNS_MAX_BUF <? msize then Undef else
  '(ret, b, w1) ← zd_read fuel (ev_w e) nid off msize true;
  let e1 := ev_set_w e w1 in
  if ctrue ret then Ok ([value], s, e1) else
  '(ret2, new, w2) ← zd_write fuel w1 b clvl true;
  let e2 := ev_set_w e1 w2 in
  if ctrue ret2 || (length new =? 0)%nat then Ok ([value], s, e2) else
  let '(s', e3) := place_pieces e2 file_name
                     {| gs_cnid := gs_cnid s; gs_maps := new ++ drop (length new) (gs_maps s); gs_change := gs_change s |} 0 new in
  Ok (new, s', e3).

(** [while (m != map_copy.end() && run_gc_worker_)]: [turns] is the number of turns for
    which the flag is still set. *)
Fixpoint migrate_loop (turns : nat) (fuel : nat) e (nid : Z) (file_name : bytes) (clvl : Z) (s : gcst) (done rest : list Z)
    : outcome (list Z * gcst * zenv W M) :=
  match rest, turns with
  | [], _ => Ok (done, s, e)
  | _ :: _, O => Ok (done ++ rest, s, e)
  | value :: rest', S turns' =>
      '(new, s1, e1) ← migrate_piece fuel e nid file_name clvl s value;
      migrate_loop turns' fuel e1 nid file_name clvl s1 (done ++ new) rest'
  end.

(** [zrocks_trim(map_change[i], true)], through the pointers *)
Fixpoint trim_change (w : W) (maps : list Z) (change : list nat) : outcome W :=
  match change with
  | [] => Ok w
  | p :: change' =>
      m ← lift (maps !! p);
      '(_, w1) ← zd_trim w m true;
      trim_change w1 maps change'
  end.

(** The old pieces on the node *)
Fixpoint trim_node (w : W) (nid : Z) (maps : list Z) : outcome W :=
  match maps with
  | [] => Ok w
  | m :: maps' =>
      if zmap_node_id m =? nid then '(_, w1) ← zd_trim w m true; trim_node w1 nid maps' else trim_node w nid maps'
  end.

Definition migrate_end (alloc_ok : bool) e (nid : Z) (file_name : bytes) (g : migration) (s : gcst) (map_copy : list Z)
    : outcome (zenv W M) :=
  match map_find file_name (ev_files e) with
  | None => w ← trim_change (ev_w e) (gs_maps s) (gs_change s); Ok (ev_set_w e w)
  | Some _ =>
      f ← lift (deref e (mg_file g));
      w ← trim_node (ev_w e) nid (zf_map f);
      '(_, e1) ← FlushGCChangeMetaData pad_head pad_level pad_tail pad_zone alloc_ok
                   (store (ev_set_w e w) (mg_file g) (zf_set_map f map_copy)) (mg_file g);
      Ok e1
  end.

Definition MigrateNodeFile (turns fuel : nat) (alloc_ok : bool) (uninit : list Z) e (nid : Z) (file_name : bytes)
    : outcome (zenv W M) :=
  g ← lift (migrate_begin e file_name);
  match g with
  | None => Ok e
  | Some g =>
      '(map_copy, s, e1) ← migrate_loop turns fuel e nid file_name (mg_clvl g)
                             {| gs_cnid := mg_cnid g; gs_maps := uninit; gs_change := [] |} [] (mg_copy g);
      migrate_end alloc_ok e1 nid file_name g s map_copy
  end.

(** * The worker *)

Context `{!ZGc W}.

(** [invalid_nid_map], in the order of the ids *)
Fixpoint gc_candidates (id : Z) (invalid_percent : list Z) : list (Z * Z) :=
  match invalid_percent with
  | [] => []
  | x :: l =>
      if (x =? 100) || (x <? ZNS_GC_NODE_IVD_MIN_PERCENT) then gc_candidates (id + 1) l
      else (x, id) :: gc_candidates (id + 1) l
  end.

(** [std::greater<std::pair<uint32_t, uint32_t>>] and the sort with it *)
Definition gc_greater (a b : Z * Z) : bool := (fst b <? fst a) || ((fst a =? fst b) && (snd b <? snd a)).

Fixpoint gc_insert (x : Z * Z) (l : list (Z * Z)) : list (Z * Z) :=
  match l with
  | [] => [x]
  | y :: l' => if gc_greater x y then x :: y :: l' else y :: gc_insert x l'
  end.

Definition gc_sort (l : list (Z * Z)) : list (Z * Z) := foldr gc_insert [] l.

Fixpoint gc_files (turns fuel : nat) (alloc_ok : bool) (uninit : list Z) e (nid : Z) (fn_list : list bytes) : outcome (zenv W M) :=
  match fn_list with
  | [] => Ok e
  | fn :: fns =>
      e1 ← MigrateNodeFile turns fuel alloc_ok uninit e nid fn;
      gc_files turns fuel alloc_ok uninit e1 nid fns
  end.

Fixpoint gc_nodes (turns fuel : nat) (alloc_ok : bool) (uninit : list Z) (threshold : Z) e (l : list (Z * Z)) : outcome (zenv W M) :=
  match l with
  | [] => Ok e
  | (_, node_id) :: l' =>
      if threshold <=? zg_free_nodes_num (ev_w e) then Ok e else
      e1 ← gc_files turns fuel alloc_ok uninit e node_id (default [] (ev_nids e !! node_id));
      gc_nodes turns fuel alloc_ok uninit threshold e1 l'
  end.

(** A turn of [GCWorker] after its sleep *)
Definition gc_turn (turns fuel : nat) (alloc_ok : bool) (uninit : list Z) (threshold : Z) e : outcome (zenv W M) :=
  if threshold <=? zg_free_nodes_num (ev_w e) then Ok e else
  ip ← lift (zg_full_nodes (ev_w e) (replicate (Z.to_nat (zg_nodes_num (ev_w e))) 0));
  gc_nodes turns fuel alloc_ok uninit threshold e (gc_sort (gc_candidates 0 ip)).

End Gc.

(** [gc_nodes_threshold] *)
Definition gc_threshold (nodes : Z) : Z := u32 (nodes * ZNS_GC_NODES_PERCENT) / 100.
