(* ===== verification/EnvGcTheorems.v ===== *)
(** Migration of a file between nodes: what it keeps of the bytes of the files, what it
    adds to them, and which pieces it gives back when the file was deleted meanwhile. *)

From S2P Require Import Prelude Types Sim Stats ProGrp Media Zns Device Io IoRequest IoTheorems Zrocks ZrocksTheorems Metadata EnvTypes EnvMeta EnvFile EnvLaws EnvFileOk EnvZrocks EnvFileTheorems EnvLog EnvTable EnvGc EnvCrashTheorems.

Section Migrate.

Context (pad_head pad_level pad_tail pad_zone : bytes).
Context (Hpads : pads_ok pad_head pad_level pad_tail pad_zone).
Context {W M : Type} `{HD : !ZData W} `{HL : !ZDataLaws W} `{HM : !ZMeta M} `{HT : !ZMetaTotal M}.
Implicit Types (e : zenv W M) (w : W).

(** The bytes that stand for a piece after the migration of the node [nid]. *)
Definition moved_bytes (byte : Z -> Z -> Z) (nid m : Z) : bytes :=
  if zmap_node_id m =? nid then whole_bytes byte m else entry_bytes byte m.

(** The bytes of a list of pieces of which the first [turns] were looked at. *)
Definition migrated (byte : Z -> Z -> Z) (nid : Z) (turns : nat) (ms : list Z) : bytes :=
  mjoin (moved_bytes byte nid <$> take turns ms) ++ mjoin (entry_bytes byte <$> drop turns ms).

(** Only the library's state and [nid_file_map] change. *)
Definition same_files e e' : Prop :=
  ev_heap e' = ev_heap e /\ ev_files e' = ev_files e /\ ev_m e' = ev_m e.

Lemma kept_refl w : data_kept w w.
Proof using. by intros m Hm. Qed.

Lemma kept_trans w1 w2 w3 : data_kept w1 w2 -> data_kept w2 w3 -> data_kept w1 w3.
Proof using. intros H1 H2 m Hm. destruct (H1 m Hm) as [A1 A2]. destruct (H2 m A1) as [B1 B2]. split; [done|congruence]. Qed.

Lemma kept_moved w w' nid ms :
  data_kept w w' -> Forall (zd_live w) ms ->
  mjoin (moved_bytes (zd_byte w') nid <$> ms) = mjoin (moved_bytes (zd_byte w) nid <$> ms).
Proof using.
  intros Hk. induction 1 as [|m ms Hm _ IH]; [done|]. cbn [fmap list_fmap]. rewrite !join_cons, IH. f_equal.
  unfold moved_bytes. destruct (_ =? _); [by destruct (Hk m Hm)|by destruct (kept_entry _ _ _ Hk Hm)].
Qed.

Lemma place_pieces_ok fname new : forall e s p,
  exists s' e', place_pieces e fname s p new = (s', e') /\ same_files e e' /\ ev_w e' = ev_w e /\
    gs_maps s' = gs_maps s /\ gs_change s' = gs_change s ++ seq p (length new).
Proof using.
  induction new as [|m new IH]; intros e s p; cbn [place_pieces].
  - exists s, e. by rewrite app_nil_r.
  - set (e1 := if gs_cnid s =? zmap_node_id m then e else _).
    destruct (IH e1 {| gs_cnid := zmap_node_id m; gs_maps := gs_maps s; gs_change := gs_change s ++ [p] |} (S p))
      as (s' & e' & -> & (H1 & H2 & H3) & H4 & H5 & H6).
    exists s', e'. split; [done|]. subst e1. cbn [gs_maps gs_change] in H5, H6. rewrite <- app_assoc in H6.
    destruct (gs_cnid s =? zmap_node_id m); split_and!; auto; by split_and!.
Qed.

(** A turn of the loop on a live piece. *)
Lemma migrate_piece_ok e nid fname clvl s m k :
  zd_ok (ev_w e) -> zd_live (ev_w e) m -> zd_room (ev_w e) (S k) ->
  exists N new s' e', (forall fuel, (N <= fuel)%nat -> migrate_piece fuel e nid fname clvl s m = Ok (new, s', e')) /\
    same_files e e' /\ zd_ok (ev_w e') /\ zd_room (ev_w e') k /\ data_kept (ev_w e) (ev_w e') /\
    Forall (zd_live (ev_w e')) new /\ (length new <= 2)%nat /\
    mjoin (entry_bytes (zd_byte (ev_w e')) <$> new) = moved_bytes (zd_byte (ev_w e)) nid m.
Proof using.
  intros Hok Hm Hroom. unfold migrate_piece, moved_bytes. destruct (Z.eqb_spec (zmap_node_id m) nid) as [<-|Hne].
  2:{ exists 0%nat, [m], s, e. cbn [negb fmap list_fmap]. rewrite join_cons. change (mjoin (@nil bytes)) with (@nil Z). rewrite app_nil_r.
      split_and!; auto using kept_refl, zd_room_le. by split_and!. }
  cbn [negb]. pose proof (zd_live_size _ _ Hm) as [Hsz Hmax]. set (len := 32768 * zmap_num m) in *.
  assert (Hlw : Z.of_nat (length (whole_bytes (zd_byte (ev_w e)) m)) = len) by (rewrite length_whole_bytes; lia).
  destruct (zd_read_ok (ev_w e) m 0 len true Hok Hm) as (N1 & w1 & Hrd & Hok1 & Hroom1 & Hk1); try lia.
  destruct (zd_write_ok w1 (whole_bytes (zd_byte (ev_w e)) m) clvl true k Hok1 (Hroom1 _ Hroom))
    as (N2 & w2 & new & Hwr & Hok2 & Hroom2 & Hl2 & Hjoin & Hlive & Hk2); [lia|].
  set (e2 := ev_set_w (ev_set_w e w1) w2).
  set (s0 := {| gs_cnid := gs_cnid s; gs_maps := new ++ drop (length new) (gs_maps s); gs_change := gs_change s |}).
  destruct (place_pieces_ok fname new e2 s0 0) as (s' & e' & Hpl & (P1 & P2 & P3) & P4 & _).
  assert (Hne : new <> []).
  { intros ->. cbn in Hjoin. rewrite <- Hjoin in Hlw. cbn in Hlw. lia. }
  exists (max N1 N2), new, s', e'. split.
  { intros fuel Hf. replace (zmap_num m * ZNS_ALIGMENT * ZTL_IO_SEC_MCMD) with len by (unfold len, ZNS_ALIGMENT, ZTL_IO_SEC_MCMD; lia).
    replace (ZNS_MAX_BUF <? len) with false by lia.
    rewrite wrap_small by (pose proof (bf_get_range 14 22 ltac:(lia) m); unfold zmap_start, ZNS_ALIGMENT, ZTL_IO_SEC_MCMD; lia).
    replace (zmap_start m * ZNS_ALIGMENT * ZTL_IO_SEC_MCMD) with (32768 * zmap_start m + 0) by (unfold ZNS_ALIGMENT, ZTL_IO_SEC_MCMD; lia).
    rewrite Hrd by lia. cbn [mbind outcome_bind]. change (ctrue 0) with false. cbv iota. rewrite drop_0, take_ge by lia.
    rewrite Hwr by lia. cbn [mbind outcome_bind]. change (ctrue 0) with false. cbn [orb].
    replace (length new =? 0)%nat with false by (destruct new; done). fold e2 s0. by rewrite Hpl. }
  rewrite P4. split_and!; auto; [by split_and!|by eapply kept_trans].
Qed.

Lemma migrate_loop_ok nid fname clvl turns rest : forall e s dn k,
  zd_ok (ev_w e) -> Forall (zd_live (ev_w e)) (dn ++ rest) -> zd_room (ev_w e) (length rest + k) ->
  exists N copy s' e', (forall fuel, (N <= fuel)%nat -> migrate_loop turns fuel e nid fname clvl s dn rest = Ok (copy, s', e')) /\
    same_files e e' /\ zd_ok (ev_w e') /\ zd_room (ev_w e') k /\ data_kept (ev_w e) (ev_w e') /\
    Forall (zd_live (ev_w e')) copy /\ (length copy <= length dn + 2 * length rest)%nat /\
    mjoin (entry_bytes (zd_byte (ev_w e')) <$> copy) =
      mjoin (entry_bytes (zd_byte (ev_w e)) <$> dn) ++ migrated (zd_byte (ev_w e)) nid turns rest.
Proof using.
  unfold migrated. revert turns. induction rest as [|m rest IH]; intros turns e s dn k Hok Hlive Hroom.
  - exists 0%nat, dn, s, e. rewrite app_nil_r in Hlive. rewrite take_nil, drop_nil. cbn [fmap list_fmap mjoin list_join app length]. rewrite app_nil_r.
    split_and!; auto using kept_refl; [by destruct turns|by split_and!|lia].
  - destruct turns as [|turns].
    { exists 0%nat, (dn ++ m :: rest), s, e. rewrite fmap_app, join_app. cbn [take drop fmap list_fmap]. change (mjoin (@nil bytes)) with (@nil Z).
      rewrite app_nil_l, length_app. split_and!; auto using kept_refl; [by split_and!|by eapply room_le|cbn; lia]. }
    apply Forall_app in Hlive as [Hdn [Hm Hrest]%Forall_cons].
    destruct (migrate_piece_ok e nid fname clvl s m (length rest + k) Hok Hm Hroom)
      as (N1 & new & s1 & e1 & Hrun1 & (A1 & A2 & A3) & A4 & A5 & A6 & A7 & A8 & A9).
    destruct (kept_bytes _ _ _ A6 Hdn) as [B1 B2]. destruct (kept_bytes _ _ _ A6 Hrest) as [C1 C2].
    destruct (IH turns e1 s1 (dn ++ new) k) as (N2 & copy & s' & e' & Hrun2 & (D1 & D2 & D3) & D4 & D5 & D6 & D7 & D8 & D9); auto.
    { rewrite <- app_assoc. rewrite !Forall_app. auto. }
    exists (max N1 N2), copy, s', e'. split_and!; auto.
    + intros fuel Hf. cbn [migrate_loop]. rewrite Hrun1 by lia. cbn [mbind outcome_bind]. by apply Hrun2; lia.
    + split_and!; congruence.
    + by eapply kept_trans.
    + rewrite length_app in D8. cbn [length]. lia.
    + rewrite D9, fmap_app, join_app, B2, A9. cbn [take drop fmap list_fmap]. rewrite join_cons, <- !app_assoc. do 2 f_equal.
      rewrite (kept_moved _ _ nid _ A6) by (by apply Forall_take). f_equal.
      destruct (kept_bytes _ _ (drop turns rest) A6) as [_ ->]; [by apply Forall_drop|done].
Qed.

Lemma trim_node_ok nid ms : forall w,
  zd_ok w -> Forall (zd_live w) ms ->
  exists w', trim_node w nid ms = Ok w' /\ zd_ok w' /\ (forall k, zd_room w k -> zd_room w' k) /\ data_kept w w'.
Proof using.
  induction ms as [|m ms IH]; intros w Hok Hlive; cbn [trim_node]; [exists w; auto using kept_refl|].
  apply Forall_cons in Hlive as [Hm Hms]. destruct (zmap_node_id m =? nid); [|by apply IH].
  destruct (zd_trim_ok w m true Hok Hm) as (ret & w1 & -> & Hok1 & Hr1 & Hk1). cbn [mbind outcome_bind].
  destruct (IH w1 Hok1) as (w2 & -> & Hok2 & Hr2 & Hk2); [by apply (kept_bytes w)|]. exists w2. split_and!; eauto using kept_trans.
Qed.

(** The record of the migrated file, when it fits its block. *)
Lemma FlushGCChange_ok e p f :
  env_wf e -> files_small e -> zm_ok (ev_m e) -> deref e p = Some f -> (length (zf_map f) <= 491)%nat ->
  exists st e' f', FlushGCChangeMetaData pad_head pad_level pad_tail pad_zone true e p = Ok (st, e') /\
    flushed e e' /\ zm_ok (ev_m e') /\ deref e' p = Some f' /\ same_file f f' /\ zf_startIndex f' = Z.of_nat (length (zf_map f)).
Proof using Hpads.
  intros Hw Hs Hm Hp Hl. unfold FlushGCChangeMetaData. rewrite Hp. cbn [lift mbind outcome_bind negb].
  destruct (Hs p f Hp) as [Hs1 Hs2].
  destruct (write_meta_ok pad_head pad_level pad_tail pad_zone Hpads f false (ew_names _ Hw _ _ Hp) Hs1 Hs2) as (b & -> & Hb).
  cbn [lift mbind outcome_bind]. rewrite drop_0 in Hb.
  rewrite (file_record_ok _ _ _ _ Hpads); [|lia|by intros ->]. cbn [lift mbind outcome_bind].
  pose proof (flushed_store e p f Hs Hp) as F. set (e1 := store e p _) in *.
  assert (Hw1 : env_wf e1) by (eapply env_wf_same; [exact Hw|apply F|apply F]).
  destruct (append_record_ok pad_head pad_level pad_tail pad_zone Hpads e1 (metadata_head pad_head OP_GCChange 4084 ++ b ++ replicate (Z.to_nat 4084 - length b) 0) Hw1 (fl_small _ _ F) Hm)
    as (st & e2 & -> & F2 & Hm2).
  assert (Hp1 : deref e1 p = Some (zf_set_startIndex f (Z.of_nat (length (zf_map f))))) by apply deref_store_eq.
  destruct (same_heap_deref _ _ _ _ (fl_heap _ _ F2) Hp1) as (f' & Hf' & Hsame).
  exists st, e2, f'. split_and!; auto.
  - by eapply flushed_trans.
  - apply same_file_map in Hsame as Hmap. simpl in Hmap.
    destruct (fl_index _ _ F2 p _ _ Hp1 Hf') as [Hi|Hi]; rewrite Hi; [done|by rewrite <- Hmap].
Qed.


(** ** Padding *)

(** The padding of the pieces that were moved. *)
Definition moved_padding (nid : Z) (turns : nat) (ms : list Z) : Z :=
  zsum ((fun m => if zmap_node_id m =? nid then zmap_padding m else 0) <$> take turns ms).

Lemma moved_length w nid ms :
  Forall (zd_live w) ms ->
  Z.of_nat (length (mjoin (moved_bytes (zd_byte w) nid <$> ms))) =
  Z.of_nat (length (mjoin (entry_bytes (zd_byte w) <$> ms))) + zsum ((fun m => if zmap_node_id m =? nid then zmap_padding m else 0) <$> ms).
Proof using.
  induction 1 as [|m ms Hm _ IH]; [done|]. cbn [fmap list_fmap]. rewrite !join_cons, !length_app.
  change (zsum (?x :: ?l)) with (x + zsum l). pose proof (zd_live_size _ _ Hm) as [Hsz _]. pose proof (piece_size_padding m ltac:(lia)).
  rewrite length_entry_bytes. unfold moved_bytes at 1. destruct (zmap_node_id m =? nid); [rewrite length_whole_bytes|rewrite length_entry_bytes];
    unfold fmap in *; lia.
Qed.

Lemma migrated_length w nid turns ms :
  Forall (zd_live w) ms ->
  Z.of_nat (length (migrated (zd_byte w) nid turns ms)) =
  Z.of_nat (length (mjoin (entry_bytes (zd_byte w) <$> ms))) + moved_padding nid turns ms.
Proof using.
  intros H. unfold migrated, moved_padding. rewrite <- (take_drop turns ms) at 3. rewrite fmap_app, join_app, !length_app.
  pose proof (moved_length w nid (take turns ms) ltac:(by apply Forall_take)). lia.
Qed.

Lemma migrated_same w nid turns ms :
  Forall (zd_live w) ms -> Forall (fun m => zmap_node_id m = nid -> zmap_padding m = 0) ms ->
  migrated (zd_byte w) nid turns ms = mjoin (entry_bytes (zd_byte w) <$> ms).
Proof using.
  intros H Hp. unfold migrated. rewrite <- (take_drop turns ms) at 3. rewrite fmap_app, join_app. f_equal.
  assert (Hl : Forall (fun m => zd_live w m /\ (zmap_node_id m = nid -> zmap_padding m = 0)) (take turns ms)).
  { apply Forall_take, Forall_and. auto. }
  clear H Hp. induction Hl as [|m l [Hm Hz] _ IH]; [done|]. cbn [fmap list_fmap]. rewrite !join_cons, IH. f_equal.
  unfold moved_bytes. destruct (Z.eqb_spec (zmap_node_id m) nid) as [Heq|]; [|done]. pose proof (zd_live_size _ _ Hm) as [Hsz _].
  pose proof (piece_size_padding m ltac:(lia)) as Hps. rewrite (Hz Heq) in Hps. rewrite entry_whole by lia.
  by rewrite take_ge by (rewrite length_whole_bytes; lia).
Qed.


(** ** The whole migration *)

Lemma env_ok_world e e' :
  env_ok e -> ev_heap e' = ev_heap e -> ev_files e' = ev_files e -> ev_m e' = ev_m e -> zd_ok (ev_w e') -> env_ok e'.
Proof using.
  intros [[W1 W2] S1 M1 _] Hh Hf Hm Hw. assert (Hd : forall q, deref e' q = deref e q) by (intros q; unfold deref; by rewrite Hh).
  constructor; [constructor| | |done].
  - intros nm q. rewrite Hf, Hd. apply W1.
  - intros q f. rewrite Hd. apply W2.
  - intros q f. rewrite Hd. apply S1.
  - by rewrite Hm.
Qed.

Lemma migrate_end_ok e fname nid p f s copy cn cl cp :
  env_ok e -> is_Some (map_find fname (ev_files e)) -> deref e p = Some f -> Forall (zd_live (ev_w e)) (zf_map f) ->
  (length copy <= 491)%nat ->
  exists e' f', migrate_end pad_head pad_level pad_tail pad_zone true e nid fname {| mg_file := p; mg_copy := cp; mg_cnid := cn; mg_clvl := cl |} s copy = Ok e' /\
    env_ok e' /\ data_kept (ev_w e) (ev_w e') /\ (forall k, zd_room (ev_w e) k -> zd_room (ev_w e') k) /\
    deref e' p = Some f' /\ same_file (zf_set_map f copy) f' /\ zf_startIndex f' = Z.of_nat (length copy) /\
    forall q g, q <> p -> deref e q = Some g -> exists g', deref e' q = Some g' /\ same_file g g' /\
      (zf_startIndex g' = zf_startIndex g \/ zf_startIndex g' = Z.of_nat (length (zf_map g'))).
Proof using Hpads.
  intros He [q0 Hq0] Hp Hlive Hlen. unfold migrate_end. rewrite Hq0. cbn [mg_file]. rewrite Hp. cbn [lift mbind outcome_bind].
  destruct (trim_node_ok nid (zf_map f) (ev_w e) (eo_w _ He) Hlive) as (w & -> & Hokw & Hrw & Hkw). cbn [mbind outcome_bind].
  set (f1 := zf_set_map f copy). set (e1 := store (ev_set_w e w) p f1).
  assert (He1 : env_ok e1).
  { apply (env_ok_sync e e1 p f f1); auto.
    - apply deref_store_eq.
    - intros q Hq. unfold e1. by rewrite deref_store_ne.
    - by destruct (eo_small _ He p f Hp).
    - cbn. lia. }
  destruct (FlushGCChange_ok e1 p f1 (eo_wf _ He1) (eo_small _ He1) (eo_m _ He1)) as (st & e' & f' & -> & F & Hm' & Hp' & Hs' & Hi'); auto.
  { apply deref_store_eq. }
  cbn [mbind outcome_bind]. exists e', f'. assert (Hw' : ev_w e' = w) by (rewrite (fl_w _ _ F); done). rewrite Hw'. split_and!; auto.
  - constructor; [eapply env_wf_same; [apply He1|apply F..]|apply F|done|by rewrite Hw'].
  - intros q g Hq Hg. assert (Hg1 : deref e1 q = Some g) by (unfold e1; by rewrite deref_store_ne).
    destruct (same_heap_deref _ _ _ _ (fl_heap _ _ F) Hg1) as (g' & Hg' & Hs). exists g'. split_and!; auto. by apply (fl_index _ _ F q).
Qed.

Lemma MigrateNodeFile_ok turns uninit e fname nid p f content k :
  env_ok e -> map_find fname (ev_files e) = Some (Some p) -> file_data e p f content -> zf_is_writing f = false ->
  zd_room (ev_w e) (length (zf_map f) + k) -> (2 * length (zf_map f) <= 491)%nat ->
  exists N e' f', (forall fuel, (N <= fuel)%nat ->
      MigrateNodeFile pad_head pad_level pad_tail pad_zone turns fuel true uninit e nid fname = Ok e') /\
    env_ok e' /\ zd_room (ev_w e') k /\ deref e' p = Some f' /\ same_file (zf_set_map f (zf_map f')) f' /\
    zf_startIndex f' = Z.of_nat (length (zf_map f')) /\ Forall (zd_live (ev_w e')) (zf_map f') /\
    flushed_bytes (ev_w e') f' = migrated (zd_byte (ev_w e)) nid turns (zf_map f) /\ others_kept e e' p.
Proof using Hpads.
  intros He Hfind Hfd Hwr Hroom Hlen. pose proof Hfd as [Hp _ Hlive _ _ _].
  set (s0 := {| gs_cnid := zf_current_nid f; gs_maps := uninit; gs_change := [] |}).
  destruct (migrate_loop_ok nid fname (zf_level f) turns (zf_map f) e s0 [] k (eo_w _ He) Hlive Hroom)
    as (N & copy & s' & e1 & Hrun & (S1 & S2 & S3) & Hok1 & Hr1 & Hk1 & Hl1 & Hlen1 & Hj1).
  assert (Hd1 : forall q, deref e1 q = deref e q) by (intros q; unfold deref; by rewrite S1).
  assert (He1 : env_ok e1) by (by apply (env_ok_world e)).
  destruct (migrate_end_ok e1 fname nid p f s' copy (zf_current_nid f) (zf_level f) (zf_map f)) as (e' & f' & Hend & He' & Hk2 & Hr2 & Hp' & Hs' & Hi' & Hoth); auto.
  { rewrite S2, Hfind. done. } { by rewrite Hd1. } { by apply (kept_bytes (ev_w e)). } { cbn [length] in Hlen1. lia. }
  assert (Hmap : zf_map f' = copy) by (apply same_file_map in Hs'; by rewrite <- Hs').
  destruct (kept_bytes _ _ _ Hk2 Hl1) as [L1 L2].
  exists N, e', f'. rewrite Hmap. split_and!; auto.
  - intros fuel Hf. unfold MigrateNodeFile, migrate_begin. rewrite Hfind. cbn [mbind option_bind]. rewrite Hp. cbn [mbind option_bind].
    unfold IsWR. rewrite Hwr. cbn [lift mbind outcome_bind mg_clvl mg_cnid mg_copy]. fold s0. rewrite Hrun by done. cbn [mbind outcome_bind]. exact Hend.
  - unfold flushed_bytes. by rewrite Hmap, L2, Hj1.
  - intros q g d Hq Hg. destruct (Hoth q g Hq) as (g' & Hg' & Hsg & Hig); [rewrite Hd1; apply Hg|].
    exists g'. split; [|done]. eapply file_data_kept; eauto. by eapply kept_trans.
Qed.

End Migrate.

(** * A file deleted during its migration *)

(** [zrocks_trim(m, true)] for each of [l] *)
Fixpoint gc_trims {W : Type} `{!ZData W} (w : W) (l : list Z) : outcome W :=
  match l with [] => Ok w | m :: l' => '(_, w1) ← zd_trim w m true; gc_trims w1 l' end.

Section Deleted.

Context {W M : Type} `{HD : !ZData W} `{HM : !ZMeta M}.
Implicit Types (e : zenv W M) (w : W).

(** The pieces are read, and each is written as one piece. *)
Definition one_to_one (fuel : nat) (clvl : Z) : Prop :=
  (forall w nid off len, exists b w', zd_read fuel w nid off len true = Ok (0, b, w')) /\
  (forall w b, exists m w', zd_write fuel w b clvl true = Ok (0, [m], w')).

Lemma migrate_loop_one fuel nid fname clvl rest : forall turns e s dn,
  one_to_one fuel clvl -> (length rest <= turns)%nat ->
  Forall (fun m => zmap_node_id m = nid /\ zmap_num m * ZNS_ALIGMENT * ZTL_IO_SEC_MCMD <= ZNS_MAX_BUF) rest ->
  exists new s' e', migrate_loop turns fuel e nid fname clvl s dn rest = Ok (dn ++ new, s', e') /\
    length new = length rest /\ gs_change s' = gs_change s ++ replicate (length rest) 0%nat /\
    (forall m, last new = Some m -> gs_maps s' !! 0%nat = Some m).
Proof using.
  induction rest as [|m rest IH]; intros turns e s dn H1 Ht Hon.
  - exists [], s, e. rewrite !app_nil_r. by destruct turns.
  - destruct turns as [|turns]; [cbn in Ht; lia|]. apply Forall_cons in Hon as [[Hn Hsz] Hon]. pose proof H1 as [Hr Hw].
    destruct (Hr (ev_w e) nid (u64 (zmap_start m * ZNS_ALIGMENT * ZTL_IO_SEC_MCMD)) (zmap_num m * ZNS_ALIGMENT * ZTL_IO_SEC_MCMD)) as (b & w1 & Hr').
    destruct (Hw w1 b) as (n & w2 & Hw'). set (e2 := ev_set_w (ev_set_w e w1) w2).
    set (s0 := {| gs_cnid := gs_cnid s; gs_maps := [n] ++ drop 1 (gs_maps s); gs_change := gs_change s |}).
    destruct (place_pieces_ok fname [n] e2 s0 0) as (s1 & e3 & Hpl & _ & _ & P4 & P5).
    destruct (IH turns e3 s1 (dn ++ [n]) H1 ltac:(cbn in Ht; lia) Hon) as (new & s' & e' & Hrun & Hlen & Hch & Hmaps).
    exists (n :: new), s', e'. split_and!.
    + cbn [migrate_loop]. unfold migrate_piece. rewrite Hn, Z.eqb_refl. cbn [negb]. replace (ZNS_MAX_BUF <? _) with false by lia.
      rewrite Hr'. cbn [mbind outcome_bind]. change (ctrue 0) with false. cbv iota. rewrite Hw'. cbn [mbind outcome_bind].
      change (ctrue 0 || (length [n] =? 0)%nat) with false. cbv iota. fold e2. cbn [length]. fold s0. rewrite Hpl. cbn [mbind outcome_bind].
      rewrite Hrun, <- app_assoc. done.
    + cbn [length]. by rewrite Hlen.
    + rewrite Hch, P5. cbn [gs_change s0 length seq replicate]. by rewrite <- app_assoc.
    + intros x Hx. destruct new as [|y new]; [|by apply Hmaps].
      injection Hx as <-. destruct rest; [|done]. cbn [migrate_loop] in Hrun.
      assert (s' = s1) as -> by (by destruct turns; injection Hrun). by rewrite P4.
Qed.

Lemma trim_change_same maps m : forall k w, maps !! 0%nat = Some m -> trim_change w maps (replicate k 0%nat) = gc_trims w (replicate k m).
Proof using.
  induction k as [|k IH]; intros w Hm; [done|]. cbn [replicate trim_change gc_trims]. rewrite Hm. cbn [lift mbind outcome_bind].
  destruct (zd_trim w m true) as [[ret w1]| |]; cbn [mbind outcome_bind]; auto.
Qed.

End Deleted.

(** * Properties *)


(** A file of the simulated environment with its bytes on the nodes, closed. *)
Lemma sim_closed : exists (e : zenv (zsys simdev) (list bytes)) f,
  env_ok (HL := sim_zlaws) e /\ map_find [97; 98] (ev_files e) = Some (Some 0%nat) /\
  file_data (HL := sim_zlaws) e 0 f [1; 2; 3] /\ zf_is_writing f = false /\
  zd_room (ZDataLaws := sim_zlaws) (ev_w e) (length (zf_map f)) /\ (2 * length (zf_map f) <= 491)%nat.
Proof.
  destruct (run_ops_ok (HD := sim_zdata) (HL := sim_zlaws) (replicate 3 0) (replicate 7 0) (replicate 4 0) (replicate (Z.to_nat 4091) 0)
    sim_pads_ok [F_Append [1; 2; 3]; F_Sync] (sim_env 9 []) sim_wf [] 3 3) as (N & wf & e & _ & _ & He & Hf & Hr & _).
  - apply sim_env_ok. lia.
  - apply sim_file_rep.
  - repeat constructor; discriminate.
  - reflexivity.
  - reflexivity.
  - exists (sim_pro 9). split; [done|]. vm_compute. lia.
  - destruct Hf as (f & Hfd & _). pose proof (file_data_bounds (HL := sim_zlaws) _ _ _ _ Hfd) as [Hlen _]. pose proof Hfd as [Hp Hc Hl Hi Hb Hcl].
    set (f' := ReleaseWRLock f). set (e' := ev_set_files (store e 0 f') [([97; 98], Some 0%nat)]).
    assert (Hp' : deref e' 0 = Some f') by apply deref_store_eq.
    assert (Hd : forall q, q <> 0%nat -> deref e' q = deref e q) by (intros q Hq; exact (deref_store_ne e 0 q f' Hq)).
    exists e', f'. split_and!; try done.
    + destruct He as [[W1 W2] S1 M1 Hw]. constructor; [constructor| |exact M1|exact Hw].
      * intros n q [= -> ->]%list_elem_of_singleton. by rewrite Hp'.
      * intros q g. destruct (decide (q = 0%nat)) as [->|Hq]; [rewrite Hp'; intros [= <-]; exact (W2 _ _ Hp)|rewrite Hd by done; apply W2].
      * intros q g. destruct (decide (q = 0%nat)) as [->|Hq]; [rewrite Hp'; intros [= <-]; exact (S1 _ _ Hp)|rewrite Hd by done; apply S1].
    + assert (Hle : exists j, (j + length (zf_map f) = 3)%nat) by (exists (3 - length (zf_map f))%nat; cbn [length app] in Hlen; cbn in Hlen; lia).
      destruct Hle as [j Hj]. rewrite <- Hj in Hr. exact (room_le (HL := sim_zlaws) _ j _ Hr).
    + cbn in Hlen. change (zf_map f') with (zf_map f). lia.
Qed.


(** A file that is deleted while its pieces are moved: the new pieces are given back
    through pointers into the array that every move fills anew, so that of [k] pieces
    moved one to one the last is trimmed [k] times and the others never. *)
Theorem migrate_deleted_trims {W M : Type} `{HD : !ZData W} `{HM : !ZMeta M}
    pad_head pad_level pad_tail pad_zone fuel turns (e : zenv W M) fname nid g uninit :
  one_to_one (W := W) fuel (mg_clvl g) -> (length (mg_copy g) <= turns)%nat -> mg_copy g <> [] ->
  Forall (fun m => zmap_node_id m = nid /\ zmap_num m * ZNS_ALIGMENT * ZTL_IO_SEC_MCMD <= ZNS_MAX_BUF) (mg_copy g) ->
  exists new s e1 m, migrate_loop turns fuel e nid fname (mg_clvl g) {| gs_cnid := mg_cnid g; gs_maps := uninit; gs_change := [] |} [] (mg_copy g) =
      Ok (new, s, e1) /\ length new = length (mg_copy g) /\ last new = Some m /\
    forall e2, map_find fname (ev_files e2) = None ->
      migrate_end pad_head pad_level pad_tail pad_zone true e2 nid fname g s new =
      (w ← gc_trims (ev_w e2) (replicate (length new) m); Ok (ev_set_w e2 w)).
Proof.
  intros H1 Ht Hne Hon.
  destruct (migrate_loop_one fuel nid fname (mg_clvl g) (mg_copy g) turns e {| gs_cnid := mg_cnid g; gs_maps := uninit; gs_change := [] |} [] H1 Ht Hon)
    as (new & s & e1 & Hrun & Hlen & Hch & Hmaps).
  destruct (last new) as [m|] eqn:Hlast.
  2:{ apply last_None in Hlast. subst new. by destruct (mg_copy g). }
  exists new, s, e1, m. split_and!; auto. intros e2 He2. unfold migrate_end. rewrite He2, Hch. cbn [gs_change app].
  by rewrite (trim_change_same (gs_maps s) m), Hlen by auto.
Qed.

#[local] Existing Instance sim_meta.

Lemma migrate_deleted_trims_witness : exists new s e1 m,
  migrate_loop 2 0 (sim_zenv None) 3 [65] 0 {| gs_cnid := 3; gs_maps := [0; 0]; gs_change := [] |} [] [3; 3 + 2 ^ 36] = Ok (new, s, e1) /\
  length new = 2%nat /\ last new = Some m /\
  migrate_end (replicate 3 0) (replicate 7 0) (replicate 4 0) (replicate (Z.to_nat 4091) 0) true e1 3 [65]
    {| mg_file := 0; mg_copy := [3; 3 + 2 ^ 36]; mg_cnid := 3; mg_clvl := 0 |} s new = Ok e1.
Proof.
  destruct (migrate_deleted_trims (W := Z) (M := mdstate simdev) (HM := sim_meta) (replicate 3 0) (replicate 7 0) (replicate 4 0)
    (replicate (Z.to_nat 4091) 0) 0 2 (sim_zenv None) [65] 3
    {| mg_file := 0; mg_copy := [3; 3 + 2 ^ 36]; mg_cnid := 3; mg_clvl := 0 |} [0; 0]) as (new & s & e1 & m & Hrun & Hlen & Hlast & Hend).
  - split; [intros w nid off len|intros w b]; eexists _, _; reflexivity.
  - cbn. lia.
  - discriminate.
  - apply Forall_cons. split; [split; [reflexivity|discriminate]|]. apply Forall_cons. split; [split; [reflexivity|discriminate]|constructor].
  - assert (He1 : ev_files e1 = [] /\ ev_w e1 = 10).
    { vm_compute in Hrun. injection Hrun as _ _ <-. split; reflexivity. }
    destruct He1 as [He1 Hw1].
    exists new, s, e1, m. split; [exact Hrun|]. split; [exact Hlen|]. split; [exact Hlast|].
    rewrite (Hend e1) by (rewrite He1; reflexivity). rewrite Hlen. cbn. by destruct e1.
Defined.
