(* ===== verification/EnvPosix.v ===== *)
(** The environment above the POSIX environment: src/env/env_zns.h and env_zns.cc.

    A ZNS environment encapsulates a POSIX one.  Files whose name contains MANIFEST are
    the POSIX environment's; every other file lives on the zones, and an empty file of
    its name is kept in the POSIX directory, so that the calls on directories can be
    passed on.  Here the calls of the file table are composed with the POSIX calls
    they make, in their order, and the other calls of the interface are passed on. *)

From S2P Require Import Prelude Types EnvTypes EnvMeta EnvFile EnvTable.

(** * The POSIX environment *)

(** The calls that [class ZNSEnv] passes on unchanged; a handle of the caller ([FileLock*], the
    tag and the function of a scheduled job) is a number. *)
Inductive forwarded :=
  | FW_NewDirectory (name : bytes) | FW_CreateDir (name : bytes) | FW_CreateDirIfMissing (name : bytes)
  | FW_DeleteDir (name : bytes) | FW_LockFile (fname : bytes) | FW_UnlockFile (lock : Z)
  | FW_IsDirectory (path : bytes) | FW_NewLogger (fname : bytes)
  | FW_Schedule (function arg pri tag unsched : Z) | FW_UnSchedule (tag pri : Z)
  | FW_StartThread (function arg : Z) | FW_WaitForJoin | FW_GetThreadPoolQueueLen (pri : Z)
  | FW_GetTestDirectory | FW_NowMicros | FW_SleepForMicroseconds (micros : Z) | FW_GetHostName (len : Z)
  | FW_GetCurrentTime | FW_GetAbsolutePath (db_path : bytes) | FW_SetBackgroundThreads (number pri : Z)
  | FW_GetBackgroundThreads (pri : Z) | FW_IncBackgroundThreadsIfNeeded (number pri : Z)
  | FW_TimeToString (number : Z) | FW_GetThreadList | FW_GetThreadStatusUpdater.

(** [Env::Default()]: the calls the code makes of it.  [px_answer] is what a call returns beside its
    status. *)
Class PosixEnv (P : Type) := {
  px_answer : Type;
  px_forward : P -> forwarded -> Status * px_answer * P;
  px_GetChildren : P -> bytes -> Status * list bytes;
  px_NewSequentialFile : P -> bytes -> Status * P;
  px_NewRandomAccessFile : P -> bytes -> Status * P;
  px_NewWritableFile : P -> bytes -> Status * P;
  px_DeleteFile : P -> bytes -> Status * P;
  px_GetFileSize : P -> bytes -> Status * option Z;
  px_GetFileModificationTime : P -> bytes -> Status * option Z;
  px_RenameFile : P -> bytes -> bytes -> Status * P;
  px_FileExists : P -> bytes -> Status
}.

Section Posix.

Context (pad_head pad_level pad_tail pad_zone : bytes) (normalize : bytes -> bytes).
Context {W M P : Type} `{!ZData W} `{!ZMeta M} `{!PosixEnv P}.
Implicit Types (e : zenv W M) (px : P).

Definition env_forward px (op : forwarded) : Status * px_answer * P := px_forward px op.

Definition env_GetChildren px (path : bytes) : Status * list bytes := px_GetChildren px path.

Definition LinkFile (src target : bytes) : Status := S_NotSupported.

Definition env_NewSequentialFile e px (fname : bytes) : Status * option ZNSSequentialFile * zenv W M * P :=
  let '(st, px1) := px_NewSequentialFile px (normalize fname) in
  match NewSequentialFile normalize st e fname with
  | (st', None, e') => (st', None, e', px1)
  | (st', Some f, e') => (st', Some f, e', px)
  end.

Definition env_NewRandomAccessFile e px (fname : bytes) : Status * option ZNSRandomAccessFile * zenv W M * P :=
  let '(st, px1) := px_NewRandomAccessFile px (normalize fname) in
  match NewRandomAccessFile normalize st e fname with
  | (st', None, e') => (st', None, e', px1)
  | (st', Some f, e') => (st', Some f, e', px)
  end.

(** The POSIX file is created first, whatever comes of it. *)
Definition env_NewWritableFile (buf_ok : bool) e px (fname : bytes)
    : option (Status * option ZNSWritableFile * zenv W M * P) :=
  let '(st, px1) := px_NewWritableFile px (normalize fname) in
  '(st', f, e') ← NewWritableFile normalize st buf_ok e fname;
  Some (st', f, e', px1).

Definition env_DeleteFile (alloc_ok : bool) e px (fname : bytes) : outcome (Status * zenv W M * P) :=
  let '(st, px1) := px_DeleteFile px (normalize fname) in
  '(st', e') ← DeleteFile pad_head pad_level pad_tail pad_zone normalize st alloc_ok e fname;
  Ok (st', e', px1).

Definition env_RenameFile (alloc_ok : bool) e px (src target : bytes) : outcome (Status * zenv W M * P) :=
  let '(st, px1) := px_RenameFile px (normalize src) (normalize target) in
  '(st', e') ← RenameFile pad_head pad_level pad_tail pad_zone normalize st alloc_ok e src target;
  Ok (st', e', px1).

Definition env_GetFileSize e px (fname : bytes) : option (Status * option Z) :=
  if IsFilePosix (normalize fname) then Some (px_GetFileSize px (normalize fname))
  else GetFileSize normalize S_OK e fname.

Definition env_GetFileModificationTime px (fname : bytes) : Status * option Z :=
  if IsFilePosix (normalize fname) then px_GetFileModificationTime px (normalize fname)
  else GetFileModificationTime normalize S_OK fname.

Definition env_FileExists e px (fname : bytes) : Status :=
  FileExists normalize (px_FileExists px (normalize fname)) e fname.

End Posix.
