(* ===== verification/EnvPosixTheorems.v ===== *)
(** The POSIX directory lists the files on the zones.

    Over every history of creations, openings, appends, syncs, truncations, closings,
    deletions, renames, garbage collections and forwarded calls, every file of the table
    has its empty POSIX file.  Hence the directory calls, which only ask the POSIX
    environment, and [FileExists], which asks the table first, agree. *)

From stdpp Require Import relations.
From S2P Require Import Prelude Types IoCounters EnvTypes EnvMeta EnvFile EnvTable EnvGc EnvFileTheorems EnvCrashTheorems EnvPosix.

(** * The file table changes only when a file is created, deleted or renamed *)

Section Frame.

Context (pad_head pad_level pad_tail pad_zone : bytes).
Context {W M : Type} `{!ZData W} `{!ZMeta M}.
Implicit Types (e : zenv W M) (p : nat) (wf : ZNSWritableFile).

(** The table and the counter of the identifiers *)
Definition tab e : list (bytes * option nat) * Z := (ev_files e, ev_uuididx e).

Lemma flush_files_files fs : forall e num len acc st num' b e',
  flush_files pad_level pad_tail e fs num len acc = Some (st, num', b, e') -> tab e' = tab e.
Proof using.
  induction fs as [|[n [p|]] fs IH]; simpl; intros e num len acc st num' b e' H; run_inv; try done.
  - by rewrite (IH _ _ _ _ _ _ _ _ H).
  - eauto.
Qed.

Lemma FlushMetaData_files e st e' :
  FlushMetaData pad_head pad_level pad_tail pad_zone e = Ok (st, e') -> tab e' = tab e.
Proof using.
  unfold FlushMetaData. intros H. run_inv;
    match goal with H : flush_files _ _ _ _ _ _ _ = Some (?s, _, _, _) |- _ => apply flush_files_files in H as Hf; destruct s end;
    run_inv; done.
Qed.

Lemma append_record_files e rec st e' :
  append_record pad_head pad_level pad_tail pad_zone e rec = Ok (st, e') -> tab e' = tab e.
Proof using.
  unfold append_record. intros H. run_inv; [|done].
  match goal with H : FlushMetaData _ _ _ _ _ = Ok _ |- _ => by apply FlushMetaData_files in H end.
Qed.

Lemma FlushUpdate_files ok e p st e' :
  FlushUpdateMetaData pad_head pad_level pad_tail pad_zone ok e p = Ok (st, e') -> tab e' = tab e.
Proof using. unfold FlushUpdateMetaData. intros H. run_inv; try done. by apply append_record_files in H. Qed.

Lemma FlushGCChange_files ok e p st e' :
  FlushGCChangeMetaData pad_head pad_level pad_tail pad_zone ok e p = Ok (st, e') -> tab e' = tab e.
Proof using. unfold FlushGCChangeMetaData. intros H. run_inv; try done. by apply append_record_files in H. Qed.

Lemma FlushDel_files ok e n st e' :
  FlushDelMetaData pad_head pad_level pad_tail pad_zone ok e n = Ok (st, e') -> tab e' = tab e.
Proof using. unfold FlushDelMetaData. intros H. run_inv; try done. by apply append_record_files in H. Qed.

Lemma FlushReplace_files ok e src dst st e' :
  FlushReplaceMetaData pad_head pad_level pad_tail pad_zone ok e src dst = Ok (st, e') -> tab e' = tab e.
Proof using. unfold FlushReplaceMetaData. intros H. run_inv; try done. by apply append_record_files in H. Qed.

Lemma sync_pieces_files maps : forall e p n e', sync_pieces e p n maps = Some e' -> tab e' = tab e.
Proof using.
  induction maps as [|m maps IH]; simpl; intros e p n e' H; run_inv; [done|..]; by rewrite (IH _ _ _ _ H).
Qed.

Lemma Sync_files fuel ok e wf st e' :
  ZNSWritableFile_Sync pad_head pad_level pad_tail pad_zone fuel ok e wf = Ok (st, e') -> tab e' = tab e.
Proof using.
  unfold ZNSWritableFile_Sync. intros H. run_inv.
  destruct (zf_cache _) as [[|c cs]|]; run_inv; try done.
  match goal with H : FlushUpdateMetaData _ _ _ _ _ _ _ = Ok _ |- _ => apply FlushUpdate_files in H as Hf end.
  match goal with H : sync_pieces _ _ _ _ = Some _ |- _ => apply sync_pieces_files in H as Hs end.
  unfold tab in *. simpl in *. congruence.
Qed.

Lemma cache_append_files e p d e' : cache_append e p d = Some e' -> tab e' = tab e.
Proof using. unfold cache_append. intros H. by run_inv. Qed.

Lemma append_full_files n : forall fuel ok e wf d st r e',
  append_full pad_head pad_level pad_tail pad_zone n fuel ok e wf d = Ok (st, r, e') -> tab e' = tab e.
Proof using.
  induction n as [|n IH]; cbn [append_full]; intros fuel ok e wf d st r e' H; destruct (_ <? _); run_inv; try done.
  all: match goal with H : cache_append _ _ _ = Some _ |- _ => apply cache_append_files in H end;
    match goal with H : ZNSWritableFile_Sync _ _ _ _ _ _ _ _ = Ok _ |- _ => apply Sync_files in H end; try congruence.
  rewrite (IH _ _ _ _ _ _ _ _ H). congruence.
Qed.

Lemma Append_files fuel ok e wf d st wf' e' :
  ZNSWritableFile_Append pad_head pad_level pad_tail pad_zone fuel ok e wf d = Ok (st, wf', e') -> tab e' = tab e.
Proof using.
  unfold ZNSWritableFile_Append, append_flush. intros H. run_inv. destruct (zf_cache _); [|by run_inv].
  run_inv; repeat match goal with
    | H : cache_append _ _ _ = Some _ |- _ => apply cache_append_files in H
    | H : ZNSWritableFile_Sync _ _ _ _ _ _ _ _ = Ok _ |- _ => apply Sync_files in H
    | H : append_full _ _ _ _ _ _ _ _ _ _ = Ok _ |- _ => apply append_full_files in H
    end; unfold tab in *; simpl in *; congruence.
Qed.

Lemma Close_files fuel ok e wf st e' :
  ZNSWritableFile_Close pad_head pad_level pad_tail pad_zone fuel ok e wf = Ok (st, e') -> tab e' = tab e.
Proof using.
  unfold ZNSWritableFile_Close. intros H. run_inv.
  match goal with H : ZNSWritableFile_Sync _ _ _ _ _ _ _ _ = Ok _ |- _ => by apply Sync_files in H end.
Qed.

Lemma place_pieces_files new : forall e n s p, tab (place_pieces e n s p new).2 = tab e.
Proof using. induction new as [|m new IH]; intros e n s p; simpl; [done|]. rewrite IH. by destruct (_ =? _). Qed.

Lemma migrate_piece_files fuel e nid n lvl s v r s' e' :
  migrate_piece fuel e nid n lvl s v = Ok (r, s', e') -> tab e' = tab e.
Proof using.
  unfold migrate_piece. intros H. run_inv; try done.
  match goal with H : place_pieces ?e ?n ?s ?p ?l = _ |- _ => pose proof (place_pieces_files l e n s p) as Hp; rewrite H in Hp end.
  done.
Qed.

Lemma migrate_loop_files turns : forall fuel e nid n lvl s done rest r s' e',
  migrate_loop turns fuel e nid n lvl s done rest = Ok (r, s', e') -> tab e' = tab e.
Proof using.
  induction turns as [|turns IH]; intros fuel e nid n lvl s done rest r s' e' H; destruct rest; simpl in H; run_inv; try easy.
  rewrite (IH _ _ _ _ _ _ _ _ _ _ _ H). by eapply migrate_piece_files.
Qed.

Lemma MigrateNodeFile_files turns fuel ok un e nid n e' :
  MigrateNodeFile pad_head pad_level pad_tail pad_zone turns fuel ok un e nid n = Ok e' -> tab e' = tab e.
Proof using.
  unfold MigrateNodeFile, migrate_end. intros H. run_inv. destruct a as [g|]; [|by run_inv]. run_inv;
    (match goal with H : migrate_loop _ _ _ _ _ _ _ _ _ = Ok _ |- _ => apply migrate_loop_files in H as <- end); [|done].
  match goal with H : FlushGCChangeMetaData _ _ _ _ _ _ _ = Ok _ |- _ => by apply FlushGCChange_files in H end.
Qed.

Context `{!ZGc W}.

Lemma gc_files_files fns : forall turns fuel ok un e nid e',
  gc_files pad_head pad_level pad_tail pad_zone turns fuel ok un e nid fns = Ok e' -> tab e' = tab e.
Proof using.
  induction fns as [|fn fns IH]; simpl; intros turns fuel ok un e nid e' H; run_inv; [done|].
  rewrite (IH _ _ _ _ _ _ _ H). by eapply MigrateNodeFile_files.
Qed.

Lemma gc_nodes_files l : forall turns fuel ok un th e e',
  gc_nodes pad_head pad_level pad_tail pad_zone turns fuel ok un th e l = Ok e' -> tab e' = tab e.
Proof using.
  induction l as [|[x id] l IH]; simpl; intros turns fuel ok un th e e' H; run_inv; try done.
  rewrite (IH _ _ _ _ _ _ _ H). by eapply gc_files_files.
Qed.

Lemma gc_turn_files turns fuel ok un th e e' :
  gc_turn pad_head pad_level pad_tail pad_zone turns fuel ok un th e = Ok e' -> tab e' = tab e.
Proof using. unfold gc_turn. intros H. run_inv; [done|]. by eapply gc_nodes_files. Qed.

End Frame.

(** * What the environment relies on from the POSIX directory *)

(** [px_file px n]: there is a file [n].  Creating, deleting and renaming a file do what POSIX says; the
    other calls remove no file (a directory is deleted only when it is empty). *)
Class PosixLaws (P : Type) `{!PosixEnv P} := {
  px_file : P -> bytes -> Prop;
  px_join : bytes -> bytes -> bytes;
  pl_sequential : forall px n m, px_file px m -> px_file (px_NewSequentialFile px n).2 m;
  pl_random : forall px n m, px_file px m -> px_file (px_NewRandomAccessFile px n).2 m;
  pl_create : forall px n m, px_file (px_NewWritableFile px n).2 m <-> m = n \/ px_file px m;
  pl_delete : forall px n m, px_file (px_DeleteFile px n).2 m <-> m <> n /\ px_file px m;
  pl_rename : forall px src dst m, px_file px src ->
    (px_file (px_RenameFile px src dst).2 m <-> m = dst \/ (m <> src /\ px_file px m));
  pl_rename_missing : forall px src dst m, ~ px_file px src ->
    px_file px m -> px_file (px_RenameFile px src dst).2 m;
  pl_forward : forall px op m, px_file px m -> px_file (px_forward px op).2 m;
  pl_exists : forall px n, px_FileExists px n = S_OK <-> px_file px n;
  pl_children : forall px dir c, c ∈ (px_GetChildren px dir).2 <-> px_file px (px_join dir c)
}.

Section Shadow.

Context (pad_head pad_level pad_tail pad_zone : bytes) (normalize : bytes -> bytes).
Context {W M P : Type} `{!ZData W} `{!ZMeta M} `{!ZGc W} `{!PosixEnv P}.
Implicit Types (e : zenv W M) (px : P) (x : zenv W M * P).

(** A file of the table: its entry is not null. *)
Definition live e (n : bytes) : Prop := exists p, map_find n (ev_files e) = Some (Some p).

(** One call.  A file on the zones is not renamed to a name of the POSIX environment. *)
Inductive env_step : zenv W M * P -> zenv W M * P -> Prop :=
  | es_create buf_ok e px fname st f e' px' :
      env_NewWritableFile normalize buf_ok e px fname = Some (st, f, e', px') -> env_step (e, px) (e', px')
  | es_sequential e px fname st f e' px' :
      env_NewSequentialFile normalize e px fname = (st, f, e', px') -> env_step (e, px) (e', px')
  | es_random e px fname st f e' px' :
      env_NewRandomAccessFile normalize e px fname = (st, f, e', px') -> env_step (e, px) (e', px')
  | es_append fuel ok e px wf data st wf' e' :
      ZNSWritableFile_Append pad_head pad_level pad_tail pad_zone fuel ok e wf data = Ok (st, wf', e') ->
      env_step (e, px) (e', px)
  | es_sync fuel ok e px wf st e' :
      ZNSWritableFile_Sync pad_head pad_level pad_tail pad_zone fuel ok e wf = Ok (st, e') -> env_step (e, px) (e', px)
  | es_close fuel ok e px wf st e' :
      ZNSWritableFile_Close pad_head pad_level pad_tail pad_zone fuel ok e wf = Ok (st, e') -> env_step (e, px) (e', px)
  | es_truncate e px wf size st wf' e' :
      ZNSWritableFile_Truncate e wf size = Some (st, wf', e') -> env_step (e, px) (e', px)
  | es_hint short e px wf hint e' :
      ZNSWritableFile_SetWriteLifeTimeHint short e wf hint = Some e' -> env_step (e, px) (e', px)
  | es_delete ok e px fname st e' px' :
      env_DeleteFile pad_head pad_level pad_tail pad_zone normalize ok e px fname = Ok (st, e', px') ->
      env_step (e, px) (e', px')
  | es_rename ok e px src dst st e' px' :
      (IsFilePosix (normalize dst) = true -> IsFilePosix (normalize src) = true) ->
      env_RenameFile pad_head pad_level pad_tail pad_zone normalize ok e px src dst = Ok (st, e', px') ->
      env_step (e, px) (e', px')
  | es_gc turns fuel ok un th e px e' :
      gc_turn pad_head pad_level pad_tail pad_zone turns fuel ok un th e = Ok e' -> env_step (e, px) (e', px)
  | es_forward e px op st a px' :
      env_forward px op = (st, a, px') -> env_step (e, px) (e, px').

Context `{!PosixLaws P}.

(** Every file of the table has its POSIX file, and none is the POSIX environment's. *)
Definition shadow x : Prop := forall n, live x.1 n -> px_file x.2 n /\ IsFilePosix n = false.

Lemma live_eq e e' n : ev_files e' = ev_files e -> live e' n -> live e n.
Proof using. unfold live. by intros ->. Qed.

Lemma shadow_frame e e' px : tab e' = tab e -> shadow (e, px) -> shadow (e', px).
Proof using. intros [= H _] Hs n Hn. apply Hs. by eapply live_eq. Qed.

Lemma shadow_posix e px px' : (forall m, px_file px m -> px_file px' m) -> shadow (e, px) -> shadow (e, px').
Proof using. intros H Hs n [Hp Hi]%Hs. split; [by apply H|done]. Qed.

Lemma files_at_live e n q e' m : files_at e n = (q, e') -> live e' m -> live e m.
Proof using.
  unfold files_at, live. destruct (map_find n (ev_files e)) eqn:E; intros [= <- <-]; [done|]. simpl. intros [p Hp].
  destruct (decide (m = n)) as [->|Hne]; [by rewrite map_find_set_eq in Hp|rewrite map_find_set_ne in Hp by done; eauto].
Qed.

(** ** The table after each call *)

Lemma NewWritable_live st0 ok e fname st f e' m :
  NewWritableFile normalize st0 ok e fname = Some (st, f, e') -> live e' m ->
  live e m \/ (m = normalize fname /\ IsFilePosix m = false).
Proof using.
  unfold NewWritableFile. destruct (IsFilePosix _) eqn:Ei; [intros [= <- <- <-]; auto|].
  destruct (map_find (normalize fname) (ev_files e)) as [q|] eqn:Eq; simpl; intros H; run_inv; unfold live; simpl;
    (destruct (decide (m = normalize fname)) as [->|Hne]; [auto|]); autorewrite with stdmap; intros [p Hp].
  - left. destruct q; simpl in Hp; rewrite ?map_find_erase_ne in Hp by done; eauto.
  - left. eauto.
Qed.

Lemma Delete_live st0 ok e fname st e' m :
  DeleteFile pad_head pad_level pad_tail pad_zone normalize st0 ok e fname = Ok (st, e') -> live e' m ->
  live e m /\ (m = normalize fname -> IsFilePosix m = true).
Proof using.
  unfold DeleteFile. destruct (IsFilePosix _) eqn:Ei; [intros [= <- <-]; intros ?; split; [done|by intros ->]|].
  destruct (map_find (normalize fname) (ev_files e)) as [[p|]|] eqn:Eq; intros H.
  - run_inv. match goal with H : FlushDelMetaData _ _ _ _ _ _ _ = Ok _ |- _ => apply FlushDel_files in H as [= Hf _] end.
    unfold live. rewrite Hf. simpl. intros [q Hq]. destruct (decide (m = normalize fname)) as [->|Hne].
    + by rewrite map_find_erase_eq in Hq.
    + rewrite map_find_erase_ne in Hq by done. split; [eauto|done].
  - run_inv. intros Hl. split; [done|]. intros ->. destruct Hl as [q Hq]. by rewrite Eq in Hq.
  - run_inv. intros Hl. split; [done|]. intros ->. destruct Hl as [q Hq]. by rewrite Eq in Hq.
Qed.

Lemma Rename_live st0 ok e src dst st e' m :
  RenameFile pad_head pad_level pad_tail pad_zone normalize st0 ok e src dst = Ok (st, e') -> live e' m ->
  (live e m /\ (IsFilePosix (normalize src) = true \/ m <> normalize src)) \/
  (m = normalize dst /\ live e (normalize src) /\ IsFilePosix (normalize src) = false).
Proof using.
  unfold RenameFile. destruct (IsFilePosix _) eqn:Ei; [intros [= <- <-]; auto|].
  destruct (map_find (normalize src) (ev_files e)) as [[p|]|] eqn:Eq; intros H.
  - run_inv. match goal with H : FlushReplaceMetaData _ _ _ _ _ _ _ _ = Ok _ |- _ => apply FlushReplace_files in H as [= Hf _] end.
    unfold live. rewrite Hf. simpl. intros [q Hq].
    destruct (decide (m = normalize src)) as [->|Hs]; [by rewrite map_find_erase_eq in Hq|rewrite map_find_erase_ne in Hq by done].
    destruct (decide (m = normalize dst)) as [->|Hd]; [right; eauto|rewrite map_find_set_ne in Hq by done; left; eauto].
  - run_inv. intros Hl. left. split; [done|]. right. intros ->. destruct Hl as [q Hq]. by rewrite Eq in Hq.
  - run_inv. intros Hl. left. split; [done|]. right. intros ->. destruct Hl as [q Hq]. by rewrite Eq in Hq.
Qed.

Lemma NewSequential_live st0 e fname st f e' m :
  NewSequentialFile normalize st0 e fname = (st, f, e') -> live e' m -> live e m.
Proof using.
  unfold NewSequentialFile. destruct (IsFilePosix _); [by intros [= <- <- <-]|].
  destruct (files_at e _) as [q e1] eqn:E1. destruct q as [p|].
  - destruct (files_at e1 _) as [q2 e2] eqn:E2. intros [= <- <- <-] Hl. eauto using files_at_live.
  - intros [= <- <- <-]. eauto using files_at_live.
Qed.

Lemma NewRandom_live st0 e fname st f e' m :
  NewRandomAccessFile normalize st0 e fname = (st, f, e') -> live e' m -> live e m.
Proof using.
  unfold NewRandomAccessFile. destruct (IsFilePosix _); [by intros [= <- <- <-]|].
  destruct (files_at e _) as [q e1] eqn:E1. intros [= <- <- <-]. eauto using files_at_live.
Qed.

(** ** Every call keeps the shadow *)

Lemma create_shadow ok e px fname st f e' px' :
  env_NewWritableFile normalize ok e px fname = Some (st, f, e', px') -> shadow (e, px) -> shadow (e', px').
Proof using All.
  unfold env_NewWritableFile. intros H Hs m Hm. destruct (px_NewWritableFile px (normalize fname)) as [st0 px1] eqn:Ep.
  pose proof (pl_create px (normalize fname) m) as Hc. rewrite Ep in Hc. run_inv. simpl in *.
  match goal with H : NewWritableFile _ _ _ _ _ = Some _ |- _ => destruct (NewWritable_live _ _ _ _ _ _ _ _ H Hm) as [Hl|[-> Hi]] end.
  - destruct (Hs _ Hl) as [Hf Hi]. split; [apply Hc; by right|done].
  - split; [apply Hc; by left|done].
Qed.

Lemma delete_shadow ok e px fname st e' px' :
  env_DeleteFile pad_head pad_level pad_tail pad_zone normalize ok e px fname = Ok (st, e', px') ->
  shadow (e, px) -> shadow (e', px').
Proof using All.
  unfold env_DeleteFile. intros H Hs m Hm. destruct (px_DeleteFile px (normalize fname)) as [st0 px1] eqn:Ep.
  pose proof (pl_delete px (normalize fname) m) as Hc. rewrite Ep in Hc. run_inv. simpl in *.
  match goal with H : DeleteFile _ _ _ _ _ _ _ _ _ = Ok _ |- _ => destruct (Delete_live _ _ _ _ _ _ _ H Hm) as [Hl Hn] end.
  destruct (Hs _ Hl) as [Hf Hi]. split; [|done]. apply Hc. split; [|done]. intros ->. by rewrite Hn in Hi.
Qed.

Lemma rename_shadow ok e px src dst st e' px' :
  (IsFilePosix (normalize dst) = true -> IsFilePosix (normalize src) = true) ->
  env_RenameFile pad_head pad_level pad_tail pad_zone normalize ok e px src dst = Ok (st, e', px') ->
  shadow (e, px) -> shadow (e', px').
Proof using All.
  unfold env_RenameFile. intros Hd H Hs m Hm.
  pose proof (pl_rename px (normalize src) (normalize dst) m) as Hr.
  pose proof (pl_rename_missing px (normalize src) (normalize dst) m) as Hx.
  destruct (px_RenameFile px (normalize src) (normalize dst)) as [st0 px1]. run_inv. simpl in *.
  match goal with H : RenameFile _ _ _ _ _ _ _ _ _ _ = Ok _ |- _ => destruct (Rename_live _ _ _ _ _ _ _ _ H Hm) as [[Hl Hn]|(-> & Hl & Hi)] end.
  - destruct (Hs _ Hl) as [Hf Hi]. split; [|done].
    assert (m <> normalize src) by (intros ->; destruct Hn; [congruence|done]).
    destruct (decide (px_FileExists px (normalize src) = S_OK)) as [He|He]; rewrite pl_exists in He; [apply Hr|apply Hx]; auto.
  - destruct (Hs _ Hl) as [Hf _]. split; [apply Hr; auto|]. destruct (IsFilePosix (normalize dst)); [|done].
    by rewrite Hd in Hi.
Qed.

Lemma env_step_shadow x x' : env_step x x' -> shadow x -> shadow x'.
Proof using All.
  intros Hx Hs. destruct Hx as [ok e px n st f e' px' H|e px n st f e' px' H|e px n st f e' px' H|fuel ok e px wf d st wf' e' H
    |fuel ok e px wf st e' H|fuel ok e px wf st e' H|e px wf sz st wf' e' H|sh e px wf h e' H|ok e px n st e' px' H
    |ok e px src dst st e' px' Hd H|turns fuel ok un th e px e' H|e px op st a px' H].
  - by eapply create_shadow.
  - unfold env_NewSequentialFile in H. pose proof (pl_sequential px (normalize n)) as Hp.
    destruct (px_NewSequentialFile px (normalize n)) as [st0 px1]. simpl in Hp.
    destruct (NewSequentialFile normalize st0 e n) as [[st1 [g|]] e1] eqn:E; injection H as <- <- <- <-; intros m Hm;
      (destruct (Hs m) as [H1 H2]; [by eapply NewSequential_live|]); auto.
  - unfold env_NewRandomAccessFile in H. pose proof (pl_random px (normalize n)) as Hp.
    destruct (px_NewRandomAccessFile px (normalize n)) as [st0 px1]. simpl in Hp.
    destruct (NewRandomAccessFile normalize st0 e n) as [[st1 [g|]] e1] eqn:E; injection H as <- <- <- <-; intros m Hm;
      (destruct (Hs m) as [H1 H2]; [by eapply NewRandom_live|]); auto.
  - eapply shadow_frame; [by eapply Append_files|done].
  - eapply shadow_frame; [by eapply Sync_files|done].
  - eapply shadow_frame; [by eapply Close_files|done].
  - eapply shadow_frame; [|done]. unfold ZNSWritableFile_Truncate in H. by run_inv.
  - eapply shadow_frame; [|done]. unfold ZNSWritableFile_SetWriteLifeTimeHint in H. by run_inv.
  - by eapply delete_shadow.
  - by eapply rename_shadow.
  - eapply shadow_frame; [by eapply gc_turn_files|done].
  - eapply shadow_posix; [|done]. intros m Hm. pose proof (pl_forward px op m Hm) as Hf. unfold env_forward in H. by rewrite H in Hf.
Qed.


End Shadow.

(** * A directory as the list of its files *)

Fixpoint strip_prefix (a b : bytes) : option bytes :=
  match a, b with
  | [], _ => Some b
  | x :: a', y :: b' => if x =? y then strip_prefix a' b' else None
  | _ :: _, [] => None
  end.

Lemma strip_prefix_spec a : forall b c, strip_prefix a b = Some c <-> b = a ++ c.
Proof.
  induction a as [|x a IH]; intros [|y b] c; simpl; try (split; congruence).
  destruct (Z.eqb_spec x y) as [->|Hne]; [|split; congruence]. rewrite IH. split; congruence.
Qed.

#[export] Instance list_posix : PosixEnv (list bytes) := {
  px_answer := unit;
  px_forward := fun px _ => (S_OK, tt, px);
  px_GetChildren := fun px dir => (S_OK, omap (strip_prefix (dir ++ [47])) px);
  px_NewSequentialFile := fun px n => (if decide (n ∈ px) then S_OK else S_NotFound, px);
  px_NewRandomAccessFile := fun px n => (if decide (n ∈ px) then S_OK else S_NotFound, px);
  px_NewWritableFile := fun px n => (S_OK, n :: px);
  px_DeleteFile := fun px n => (if decide (n ∈ px) then S_OK else S_NotFound, filter (fun m => m <> n) px);
  px_GetFileSize := fun px n => (if decide (n ∈ px) then S_OK else S_NotFound, Some 0);
  px_GetFileModificationTime := fun px n => (if decide (n ∈ px) then S_OK else S_NotFound, Some 0);
  px_RenameFile := fun px src dst =>
    if decide (src ∈ px) then (S_OK, dst :: filter (fun m => m <> src) px) else (S_NotFound, px);
  px_FileExists := fun px n => if decide (n ∈ px) then S_OK else S_NotFound
}.

#[export, refine] Instance list_posix_laws : PosixLaws (list bytes) := {
  px_file := fun px n => n ∈ px;
  px_join := fun dir c => (dir ++ [47]) ++ c
}.
Proof.
  - done.
  - done.
  - intros px n m. simpl. by rewrite elem_of_cons.
  - intros px n m. simpl. by rewrite list_elem_of_filter.
  - intros px src dst m Hs. simpl. rewrite decide_True by done. simpl. by rewrite elem_of_cons, list_elem_of_filter.
  - intros px src dst m Hs Hm. simpl. by rewrite decide_False.
  - done.
  - intros px n. simpl. by case_decide.
  - intros px dir c. simpl. rewrite list_elem_of_omap. split.
    + intros (b & Hb & Hc). apply strip_prefix_spec in Hc as ->. done.
    + intros Hb. eexists. split; [exact Hb|]. by apply strip_prefix_spec.
Defined.

(** An environment over a counter of pieces and a log in memory. *)
#[local] Instance count_gc : ZGc Z := {
  zg_nodes_num := fun _ => 1; zg_free_nodes_num := fun _ => 1; zg_full_nodes := fun _ l => Some l
}.

Definition sim_penv : zenv Z (list bytes) * list bytes :=
  ({| ev_w := 0; ev_m := []; ev_heap := ∅; ev_next := 0; ev_files := []; ev_sequence := 0; ev_uuididx := 0; ev_nids := ∅ |}, []).

#[local] Abbreviation sim_step :=
  (env_step (replicate 3 0) (replicate 7 0) (replicate 4 0) (replicate (Z.to_nat 4091) 0) id).

(** The file d/a is created, written, synced and renamed to d/b. *)
Lemma sim_history : exists x',
  rtc sim_step sim_penv x' /\ live x'.1 [100; 47; 98] /\ x'.2 = [[100; 47; 98]].
Proof.
  eexists. split; [|split].
  - eapply rtc_l; [eapply (es_create _ _ _ _ _ true _ _ [100; 47; 97]); vm_compute; reflexivity|].
    eapply rtc_l; [eapply (es_append _ _ _ _ _ 0 true _ _ {| wf_filename := [100; 47; 97]; wf_filesize := 0; wf_znsfile := 0 |} [1; 2; 3]); vm_compute; reflexivity|].
    eapply rtc_l; [eapply (es_sync _ _ _ _ _ 0 true _ _ {| wf_filename := [100; 47; 97]; wf_filesize := 3; wf_znsfile := 0 |}); vm_compute; reflexivity|].
    eapply rtc_l; [eapply (es_rename _ _ _ _ _ true _ _ [100; 47; 97] [100; 47; 98]); [by vm_compute|vm_compute; reflexivity]|].
    apply rtc_refl.
  - eexists. reflexivity.
  - reflexivity.
Qed.

