(* ===== verification/EnvGcWorker.v ===== *)
(** The garbage collector of the environment as a whole (src/env/env_zns.cc, GCWorker): which nodes it takes and in which
    order, what the emptying of a node keeps of the files, and a file that is created again during its migration. *)

From Stdlib Require Import Sorting.Sorted.
From S2P Require Import Prelude Types IoCounters EnvTypes EnvMeta EnvFile EnvLaws EnvFileOk EnvTable EnvGc EnvGcTheorems EnvPosixTheorems.

(** * The nodes in the order in which they are emptied *)

Lemma gc_greater_spec a b : gc_greater a b = true <-> b.1 < a.1 \/ (a.1 = b.1 /\ b.2 < a.2).
Proof. unfold gc_greater. rewrite orb_true_iff, andb_true_iff, !Z.ltb_lt, Z.eqb_eq. done. Qed.

Lemma gc_insert_perm x l : gc_insert x l ≡ₚ x :: l.
Proof.
  induction l as [|y l IH]; simpl; [done|]. destruct (gc_greater x y); [done|]. rewrite IH. apply Permutation_swap.
Qed.

Lemma gc_sort_perm l : gc_sort l ≡ₚ l.
Proof. induction l as [|x l IH]; simpl; [done|]. by rewrite gc_insert_perm, IH. Qed.

Lemma gc_insert_sorted x l :
  x ∉ l -> StronglySorted (fun a b => gc_greater a b = true) l -> StronglySorted (fun a b => gc_greater a b = true) (gc_insert x l).
Proof.
  intros Hx. induction 1 as [|y l Hs IH Hy]; simpl; [by repeat constructor|]. apply not_elem_of_cons in Hx as [Hxy Hx].
  destruct (gc_greater x y) eqn:E.
  - constructor; [by constructor|]. constructor; [done|]. eapply Forall_impl; [exact Hy|]. intros z. simpl. rewrite !gc_greater_spec in *. lia.
  - constructor; [auto|]. rewrite gc_insert_perm. constructor; [|done]. apply not_true_iff_false in E. rewrite gc_greater_spec in *.
    destruct x, y; simpl in *. destruct (decide (z = z1)) as [->|]; [|lia]. destruct (decide (z0 = z2)) as [->|]; [done|lia].
Qed.

Lemma gc_sort_sorted l : NoDup l -> StronglySorted (fun a b => gc_greater a b = true) (gc_sort l).
Proof.
  induction 1 as [|x l Hx _ IH]; [constructor|]. apply gc_insert_sorted; [|done]. by rewrite gc_sort_perm.
Qed.

Lemma gc_candidates_cons id y ip x n :
  (x, n) ∈ gc_candidates id (y :: ip) <-> (x = y /\ n = id /\ ZNS_GC_NODE_IVD_MIN_PERCENT <= y /\ y <> 100) \/ (x, n) ∈ gc_candidates (id + 1) ip.
Proof.
  simpl. destruct (Z.eqb_spec y 100), (Z.ltb_spec y ZNS_GC_NODE_IVD_MIN_PERCENT); simpl; rewrite ?elem_of_cons; intuition (try congruence; try lia).
Qed.

Lemma gc_candidates_spec ip : forall id x n,
  (x, n) ∈ gc_candidates id ip <-> id <= n /\ ip !! Z.to_nat (n - id) = Some x /\ ZNS_GC_NODE_IVD_MIN_PERCENT <= x /\ x <> 100.
Proof.
  induction ip as [|y ip IH]; intros id x n.
  - split; [by intros ?%not_elem_of_nil|]. intros (_ & H & _). by rewrite lookup_nil in H.
  - rewrite gc_candidates_cons, IH. destruct (decide (n = id)) as [->|Hn].
    + rewrite Z.sub_diag. simpl. split; [intros [(-> & _ & H)|H]; [split_and!; [lia|done|tauto..]|lia]|]. intros (_ & [= ->] & H). tauto.
    + split; [intros [H|(H1 & H2 & H3)]; [tauto|]|intros (H1 & H2 & H3); right]; (split; [lia|]);
        replace (Z.to_nat (n - id)) with (S (Z.to_nat (n - (id + 1)))) in * by lia; tauto.
Qed.

Lemma gc_candidates_nodup ip : forall id, NoDup (gc_candidates id ip).
Proof.
  induction ip as [|y ip IH]; intros id; simpl; [constructor|]. destruct (_ || _); [auto|]. constructor; [|auto].
  rewrite gc_candidates_spec. lia.
Qed.

(** The nodes that a turn of the worker empties are those of which at least 85 % of the commands are
    invalid, but not all (such a node is reset by its last trim), those with more first, each once. *)
Theorem gc_order ip :
  let l := gc_sort (gc_candidates 0 ip) in
  StronglySorted (fun a b => b.1 < a.1 \/ (a.1 = b.1 /\ b.2 < a.2)) l /\ NoDup l.*2 /\
  forall x n, (x, n) ∈ l <-> 0 <= n /\ ip !! Z.to_nat n = Some x /\ 85 <= x /\ x <> 100.
Proof.
  intros l. assert (Hin : forall x n, (x, n) ∈ l <-> 0 <= n /\ ip !! Z.to_nat n = Some x /\ 85 <= x /\ x <> 100).
  { intros x n. unfold l. by rewrite gc_sort_perm, gc_candidates_spec, Z.sub_0_r. }
  assert (Hnd : NoDup l) by (unfold l; rewrite gc_sort_perm; apply gc_candidates_nodup). split_and!; [| |done].
  - pose proof (gc_sort_sorted _ (gc_candidates_nodup ip 0)) as Hs. fold l in Hs. clear -Hs.
    induction Hs as [|a l _ IH Ha]; constructor; [done|]. eapply Forall_impl; [exact Ha|]. intros b. by rewrite gc_greater_spec.
  - apply NoDup_fmap_2_strong; [|done]. intros [x n] [y m] Hx Hy Heq. simpl in Heq. subst m.
    apply Hin in Hx, Hy. destruct Hx as (_ & Hx & _), Hy as (_ & Hy & _). congruence.
Qed.

(** * The emptying of a node *)

Section Worker.

Context (pad_head pad_level pad_tail pad_zone : bytes).
Context (Hpads : pads_ok pad_head pad_level pad_tail pad_zone).
Context {W M : Type} `{HD : !ZData W} `{HL : !ZDataLaws W} `{HM : !ZMeta M} `{HT : !ZMetaTotal M} `{HG : !ZGc W}.
Implicit Types (e : zenv W M) (w : W).

(** A file of the list of the node: it was deleted, or its data is in order and, unless it is being written, its pieces
    are few enough for the record of their successors and those on the node are not padded. *)
Definition movable e (nid : Z) (fn : bytes) : Prop :=
  match map_find fn (ev_files e) with
  | None => True
  | Some None => False
  | Some (Some p) => exists f d, file_data e p f d /\ (zf_is_writing f = false ->
      (2 * length (zf_map f) <= 491)%nat /\ Forall (fun m => zmap_node_id m = nid -> zmap_padding m = 0) (zf_map f))
  end.

(** No two names of the table share an object. *)
Definition table_inj e : Prop :=
  forall n1 n2 p, map_find n1 (ev_files e) = Some (Some p) -> map_find n2 (ev_files e) = Some (Some p) -> n1 = n2.

(** All files keep their bytes; only their pieces change. *)
Definition contents_kept e e' : Prop :=
  forall q g d, file_data e q g d -> exists g', file_data e' q g' d /\ same_file (zf_set_map g (zf_map g')) g'.

Lemma contents_refl e : contents_kept e e.
Proof using. intros q g d H. exists g. split; [done|]. by destruct g. Qed.

Lemma contents_trans e1 e2 e3 : contents_kept e1 e2 -> contents_kept e2 e3 -> contents_kept e1 e3.
Proof using.
  intros H1 H2 q g d Hg. destruct (H1 _ _ _ Hg) as (g1 & Hg1 & S1). destruct (H2 _ _ _ Hg1) as (g2 & Hg2 & S2).
  exists g2. split; [done|]. destruct g, g1, g2. unfold same_file, zf_set_startIndex, zf_set_map in *. simpl in *. congruence.
Qed.

Lemma room_weaken w j : forall k, zd_room w (j + k) -> zd_room w k.
Proof using. induction j as [|j IH]; intros k H; [done|]. apply IH. by apply zd_room_le. Qed.

(** The migration of one file of the list *)
Lemma migrate_movable turns uninit e nid fn k :
  env_ok e -> movable e nid fn -> zd_room (ev_w e) (245 + k) ->
  exists N e', (forall fuel, (N <= fuel)%nat -> MigrateNodeFile pad_head pad_level pad_tail pad_zone turns fuel true uninit e nid fn = Ok e') /\
    env_ok e' /\ zd_room (ev_w e') k /\ contents_kept e e' /\
    forall q g d, map_find fn (ev_files e) <> Some (Some q) -> file_data e q g d -> exists g', file_data e' q g' d /\ same_file g g'.
Proof using Hpads.
  intros He Hm Hr.
  assert (Hskip : (forall fuel, MigrateNodeFile pad_head pad_level pad_tail pad_zone turns fuel true uninit e nid fn = Ok e) ->
    exists N e', (forall fuel, (N <= fuel)%nat -> MigrateNodeFile pad_head pad_level pad_tail pad_zone turns fuel true uninit e nid fn = Ok e') /\
      env_ok e' /\ zd_room (ev_w e') k /\ contents_kept e e' /\
      forall q g d, map_find fn (ev_files e) <> Some (Some q) -> file_data e q g d -> exists g', file_data e' q g' d /\ same_file g g').
  { intros H. exists 0%nat, e. split_and!; eauto using contents_refl, room_weaken. intros q g d _ Hg. by exists g. }
  unfold movable in Hm. destruct (map_find fn (ev_files e)) as [[p|]|] eqn:E; [|done|].
  2:{ apply Hskip. intros fuel. unfold MigrateNodeFile, migrate_begin. by rewrite E. }
  destruct Hm as (f & d & Hfd & Hw). pose proof (fd_file _ _ _ _ Hfd) as Hp. destruct (zf_is_writing f) eqn:Ew.
  { apply Hskip. intros fuel. unfold MigrateNodeFile, migrate_begin. rewrite E. cbn [mbind option_bind]. rewrite Hp. cbn [mbind option_bind].
    unfold IsWR. by rewrite Ew. }
  clear Hskip. destruct (Hw eq_refl) as [Hlen Hpad]. replace (245 + k)%nat with ((245 - length (zf_map f)) + (length (zf_map f) + k))%nat in Hr by lia.
  apply room_weaken in Hr.
  destruct (MigrateNodeFile_ok pad_head pad_level pad_tail pad_zone Hpads turns uninit e fn nid p f d k He E Hfd Ew Hr Hlen)
    as (N & e' & f' & Hrun & He' & Hr' & Hp' & Hs & Hi & Hl & Hj & Ho).
  assert (Hc : zf_cache f' = zf_cache f) by (by injection Hs). pose proof Hfd as [_ Hco Hlive Hix Hby Hcl].
  assert (Hfd' : file_data e' p f' d).
  { constructor; auto; [by rewrite Hj, migrated_same, Hc|unfold cache_len; by rewrite Hc]. }
  exists N, e'. split_and!; auto.
  - intros q g d' Hg. destruct (decide (q = p)) as [->|Hq].
    + pose proof (fd_file _ _ _ _ Hg) as Hg1. rewrite Hp in Hg1. injection Hg1 as <-. exists f'. split; [|done].
      pose proof (fd_content _ _ _ _ Hg). congruence.
    + destruct (Ho _ _ _ Hq Hg) as (g' & Hg' & Sg). exists g'. split; [done|]. apply same_file_map in Sg as Hmap. rewrite <- Hmap.
      by destruct g.
  - intros q g d' Hq Hg. apply (Ho q g d'); [congruence|done].
Qed.

Lemma movable_frame e e' nid fn n :
  table_inj e -> tab e' = tab e -> n <> fn ->
  (forall q g d, map_find fn (ev_files e) <> Some (Some q) -> file_data e q g d -> exists g', file_data e' q g' d /\ same_file g g') ->
  movable e nid n -> movable e' nid n.
Proof using.
  intros Hi [= Hf _] Hn Ho. unfold movable. rewrite Hf. destruct (map_find n (ev_files e)) as [[p|]|] eqn:E; [|done..].
  intros (f & d & Hfd & Hw). destruct (Ho p f d) as (f' & Hfd' & Hs); [|done|].
  - intros E'. by apply Hn, (Hi _ _ p).
  - exists f', d. split; [done|]. rewrite <- (same_file_map _ _ Hs). replace (zf_is_writing f') with (zf_is_writing f); [done|]. by injection Hs.
Qed.

(** The emptying of a node whose list names each file once ends, and every file has the bytes it had; only the pieces
    of files have changed. *)
Theorem gc_files_keep turns uninit nid fns : forall e k,
  env_ok e -> table_inj e -> NoDup fns -> Forall (movable e nid) fns -> zd_room (ev_w e) (245 * length fns + k) ->
  exists N e', (forall fuel, (N <= fuel)%nat -> gc_files pad_head pad_level pad_tail pad_zone turns fuel true uninit e nid fns = Ok e') /\
    env_ok e' /\ tab e' = tab e /\ zd_room (ev_w e') k /\ contents_kept e e'.
Proof using Hpads.
  induction fns as [|fn fns IH]; intros e k He Hi Hnd Hm Hr; simpl.
  { exists 0%nat, e. split_and!; auto using contents_refl. }
  apply NoDup_cons in Hnd as [Hfn Hnd]. apply Forall_cons in Hm as [Hm Hms].
  destruct (migrate_movable turns uninit e nid fn (245 * length fns + k) He Hm) as (N & e1 & Hrun & He1 & Hr1 & Hc1 & Ho1).
  { replace (245 + (245 * length fns + k))%nat with (245 * length (fn :: fns) + k)%nat; [done|]. cbn [length]. lia. }
  assert (Ht : tab e1 = tab e) by (apply (MigrateNodeFile_files _ _ _ _ _ _ _ _ _ _ _ _ (Hrun N (le_n _)))).
  destruct (IH e1 k) as (N' & e' & Hrun' & He' & Ht' & Hr' & Hc'); auto.
  { injection Ht as Hf _. unfold table_inj. by rewrite Hf. }
  { apply Forall_forall. intros n Hn. eapply movable_frame; eauto; [|by eapply Forall_forall]. by intros ->. }
  exists (Nat.max N N'), e'. split_and!; eauto using contents_trans; [|congruence].
  intros fuel Hf. rewrite Hrun by lia. cbn [mbind outcome_bind]. apply Hrun'. lia.
Qed.

(** * A file that is created again during its migration *)

(** [MigrateNodeFile] lets go of [filesMutex] while it copies, and then looks only for the name: when the file was created
    anew meanwhile, the end of the migration works on the object of the old file, which was deleted. *)
Theorem migrate_recreated normalize st0 buf_ok e fname p g s copy nid st wf e' :
  migrate_begin e (normalize fname) = Some (Some g) -> map_find (normalize fname) (ev_files e) = Some (Some p) -> p <> ev_next e ->
  NewWritableFile normalize st0 buf_ok e fname = Some (st, Some wf, e') ->
  migrate_end pad_head pad_level pad_tail pad_zone true e' nid (normalize fname) g s copy = Undef.
Proof using.
  unfold migrate_begin, NewWritableFile. intros Hb Hfind Hne Hn. rewrite Hfind in Hb, Hn. cbn [mbind option_bind] in Hb. run_inv.
  cbn [heap_new delete_ptr] in E0. injection E0 as <- <-. unfold migrate_end. cbn. rewrite map_find_set_eq. unfold deref. cbn.
  rewrite !lookup_insert_ne, lookup_delete_eq by done. done.
Qed.

End Worker.
