(* ===== verification/EnvStart.v ===== *)
(** Start and stop of the RocksDB environment: the constructor and the destructor of [class ZNSEnv]
    (src/env/env_zns.h) and the factory function (src/env/env_zns.cc), as programs over the
    resources they take, on top of the start and stop of the library (Boot.v) and of the
    start-up that reads the metadata log (EnvLoad.v). *)

From S2P Require Import Prelude Types Options Map Boot BootLogic BootOk BootIo BootStart BootTheorems.
From S2P Require Import EnvTypes EnvMeta EnvLoad EnvFileTheorems EnvCrashTheorems.

Section Start.

(** The oracle of the failing calls and the system, as in Boot.v *)
Context (ok : nat -> bool) (term_ok : owner -> bool) (devgeo : option xnvme_geo) (cpu_num : Z) (opts : xnvme_opts) (md_ok : bool).
Context (pad_head pad_level pad_tail pad_zone : bytes).
Context {W M : Type} `{!ZRecover W} `{!ZMeta M}.

(** The members the constructor sets; [dw] and [dm] are the data nodes and the metadata zones of the device. *)
Definition new_ZNSEnv (dw : W) (dm : M) : zenv W M :=
  {| ev_w := dw; ev_m := dm; ev_heap := ∅; ev_next := 0; ev_files := []; ev_sequence := 0; ev_uuididx := 0; ev_nids := ∅ |}.

(** [new ZNSEnv(dname)].  [false]: the program ends, by exit(1) or by an exception of operator new or of
    std::thread that nothing catches. *)
Definition ZNSEnv_new (dname : str) : boot bool :=
  b ← acquire ok REnv;
  if negb b then mret false else
  put (fun w => w_set_ptr w RMetaBuf false) ;;
  ret ← zrocks_init ok term_ok devgeo cpu_num opts md_ok true dname;
  if ctrue ret then mret false else
  b ← acquire ok RGcBuf;
  if negb b then mret false else
  acquire ok RGcThread.

(** [delete env]: the garbage collector is joined, the buffers are freed, the library is stopped.  The files of
    the table are not deleted. *)
Definition ZNSEnv_delete : boot unit :=
  release RGcThread ;;
  release RGcBuf ;;
  free_ptr RMetaBuf ;;
  _ ← zrocks_exit term_ok;
  release REnv.

(** [isEnvStart] is false in a new object, and nothing sets it. *)
Definition NewZNSEnv (fuel : nat) (buf_ok : bool) (dw : W) (dm : M) (dev_name : str) : boot (option (Status * zenv W M)) :=
  b ← ZNSEnv_new dev_name;
  if negb b then mret None else
  alloc_ptr ok RMetaBuf ;;
  meta ← gets (fun w => w_ptr w RMetaBuf);
  match LoadMetaData pad_head pad_level pad_tail pad_zone fuel meta buf_ok (new_ZNSEnv dw dm) with
  | Ok (st, e) => mret (Some (if decide (st = S_OK) then S_OK else S_IOError, e))
  | _ => undef
  end.

(** The length of [xztl:]. *)
Definition uri_prefix : nat := 5.

(** The factory: the object that the caller gets, and whether [*errmsg] is set. *)
Definition xztl_env_reg (fuel : nat) (buf_ok : bool) (dw : W) (dm : M) (uri : str) : boot (option (bool * zenv W M)) :=
  r ← NewZNSEnv fuel buf_ok dw dm (drop uri_prefix uri);
  match r with
  | None => mret None
  | Some (st, e) => mret (Some (bool_decide (st <> S_OK), e))
  end.

(** * What the programs take and give back *)

Context (Hterm : forall o, term_ok o = true) (Hgeo : forall dg, devgeo = Some dg -> 0 <= xg_npugrp dg).

(** The library does not depend on the pointer of the metadata buffer. *)
Lemma global_res_ptr t n g p q : (forall r, r <> RMetaBuf -> p r = q r) -> global_res t n g p = global_res t n g q.
Proof using.
  intros H. unfold global_res, io_res.
  assert (turns (fun l => writer_res l p) LEVELS 0 = turns (fun l => writer_res l q) LEVELS 0) as ->.
  { unfold turns. f_equal. apply list_fmap_ext. intros j l _. apply writer_local. intros r (k & ->)%wptrs_elem. by apply H. }
  assert (turns (fun r => reader_res r p) n 0 = turns (fun r => reader_res r q) n 0) as ->; [|done].
  unfold turns. f_equal. apply list_fmap_ext. intros j l _. apply reader_local. intros r (k & [-> | ->])%rptrs_elem; by apply H.
Qed.

Lemma zrunning_frame R R' L w w' : zrunning R w -> stable w w' -> (forall r, r <> RMetaBuf -> w_ptr w' r = w_ptr w r) ->
  w_pages w' = w_pages w -> w_pools w' = w_pools w -> w_held w' ≡ₚ L ++ w_held w -> R' ≡ₚ L ++ R -> zrunning R' w'.
Proof using.
  intros (Q & HQ & Hr & Hp) St Pt Pg Pp Hh HR. exists (L ++ Q). split; [rewrite HQ, HR; perm|]. split; [|by rewrite Pp].
  apply (running_move Q _ w); [exact Hr|exact St|exact Pg|intros; by apply global_res_ptr|].
  intros X HX. rewrite Hh, HX. perm.
Qed.

Lemma wp_ZNSEnv_new dname w (Q : bool -> world -> Prop) :
  w_mods w = mods_zero -> w_held w = [] -> parse_ok cpu_num dname ->
  (forall w', zrunning [RGcThread; RGcBuf; REnv] w' -> Q true w') -> (forall w', Q false w') ->
  wp (ZNSEnv_new dname) Q w.
Proof using Hterm Hgeo.
  intros Hm Hh Hpo Ht Hf. unfold ZNSEnv_new. acq; [|by apply wp_ret].
  apply wp_bind, wp_put, wp_bind. apply (wp_zrocks_init ok term_ok Hterm devgeo Hgeo); [|done| |].
  - destruct Sa as (St & _). cbn. by rewrite (stable_mods _ _ St).
  - intros w2 H2. change (ctrue 0) with false. cbv iota. cbn [w_held w_set_ptr] in H2.
    apply wp_bind, wp_acquire; intros w3 (St3 & Pt3 & Pg3 & Pp3) H3; cbn [negb]; [|by apply wp_ret].
    apply wp_acquire; intros w4 (St4 & Pt4 & Pg4 & Pp4) H4; [|done]. apply Ht.
    apply (zrunning_frame (w_held w0) _ [RGcThread; RGcBuf] w2).
    + done.
    + by eapply stable_trans.
    + intros r _. congruence.
    + congruence.
    + congruence.
    + rewrite H4, H3. perm.
    + rewrite Ha, Hh. perm.
  - intros ret w2 HR. rewrite HR. by apply wp_ret.
Qed.

(** The environment runs: the library does, with the buffer and the thread of the garbage collector, and
    the buffer of the metadata if its pointer is not null. *)
Definition env_running (w : world) : Prop := zrunning (BootLogic.live (w_ptr w) [RMetaBuf] ++ [RGcThread; RGcBuf; REnv]) w.

Lemma wp_alloc_meta w (Q : unit -> world -> Prop) :
  zrunning [RGcThread; RGcBuf; REnv] w -> (forall w', env_running w' -> Q tt w') -> wp (alloc_ptr ok RMetaBuf) Q w.
Proof using.
  intros Hw HQ. apply wp_alloc. intros w' (Hh & Hp & St & Pg & Pp). apply HQ.
  eapply (zrunning_frame _ _ (BootLogic.live (w_ptr w') [RMetaBuf]) w); try done.
  intros r Hr. apply Hp. by intros ->%list_elem_of_singleton.
Qed.

Lemma wp_release_env r R R' w (Q : unit -> world -> Prop) :
  zrunning R w -> R ≡ₚ r :: R' -> (forall w', zrunning R' w' -> w_ptr w' = w_ptr w -> Q tt w') -> wp (release r) Q w.
Proof using.
  intros (R1 & HR1 & Hrun & Hp) HR HQ. pose proof Hrun as (_ & _ & _ & _ & _ & A6).
  set (X := global_res true (Z.to_nat (w_read_ctx_num w)) (w_ngrps w) (w_ptr w) ++ groups_res (w_grps w) ++ dev_res (w_dev_read w)) in *.
  assert (w_held w ≡ₚ X ++ R1) as HX by (rewrite A6; unfold X; perm).
  apply (wp_release _ (X ++ RPool ZROCKS_MEMORY :: R')); [rewrite HX, HR1, HR; perm|]. intros w' (St & Pt & Pg & Pp) Hh. apply HQ; [|done].
  exists (RPool ZROCKS_MEMORY :: R'). split; [done|]. split; [|by rewrite Pp].
  apply (running_move R1 _ w); [exact Hrun|exact St|exact Pg|by rewrite Pt|]. intros Y HY. rewrite Hh.
  apply (Permutation_app_inv_l [r]). rewrite HR1, HR in HX, HY. rewrite HX in HY.
  transitivity (Y ++ RPool ZROCKS_MEMORY :: r :: R'); [rewrite <- HY; perm|perm].
Qed.

Lemma wp_ZNSEnv_delete w (Q : unit -> world -> Prop) :
  env_running w -> (forall w', w_held w' ≡ₚ md_res -> Q tt w') -> wp ZNSEnv_delete Q w.
Proof using Hterm.
  unfold env_running. intros Hw HQ. unfold ZNSEnv_delete. set (X := BootLogic.live (w_ptr w) [RMetaBuf]) in *.
  apply wp_bind, (wp_release_env _ _ (X ++ [RGcBuf; REnv]) w _ Hw); [perm|]. intros w1 H1 P1.
  apply wp_bind, (wp_release_env _ _ (X ++ [REnv]) w1 _ H1); [perm|]. intros w2 H2 P2. apply wp_bind.
  assert (forall w3, zrunning [REnv] w3 -> wp (_ ← zrocks_exit term_ok; release REnv) Q w3) as Hend.
  { intros w3 H3. apply wp_bind, (wp_zrocks_exit term_ok Hterm [REnv] w3 _ H3). intros w4 H4.
    apply (wp_release _ md_res); [rewrite H4; perm|]. intros w5 _ H5. by apply HQ. }
  unfold free_ptr, X, BootLogic.live in *. replace (w_ptr w) with (w_ptr w2) in H2 by congruence.
  destruct (w_ptr w2 RMetaBuf) eqn:E.
  - rewrite filter_cons_True in H2 by done. unfold wp at 1. rewrite E.
    apply (wp_release_env RMetaBuf _ [REnv] w2 _ H2); [done|]. intros w3 H3 _. by apply Hend.
  - rewrite filter_cons_False in H2 by (by rewrite E). unfold wp at 1. rewrite E. by apply Hend.
Qed.

Abbreviation Load := (LoadMetaData pad_head pad_level pad_tail pad_zone).

Lemma wp_NewZNSEnv fuel buf_ok dw dm dev_name st1 e1 w (Q : option (Status * zenv W M) -> world -> Prop) :
  w_mods w = mods_zero -> w_held w = [] -> parse_ok cpu_num dev_name ->
  Load fuel true buf_ok (new_ZNSEnv dw dm) = Ok (st1, e1) ->
  (forall w', env_running w' -> Q (Some (if decide (st1 = S_OK) then S_OK else S_IOError, e1)) w') ->
  (forall w', env_running w' -> Q (Some (S_IOError, new_ZNSEnv dw dm)) w') -> (forall w', Q None w') ->
  wp (NewZNSEnv fuel buf_ok dw dm dev_name) Q w.
Proof using Hterm Hgeo.
  intros Hm Hh Hpo Hl Ht Hx Hf. unfold NewZNSEnv. apply wp_bind, (wp_ZNSEnv_new dev_name w); [done..| |].
  - intros w1 H1. cbn [negb]. apply wp_bind, (wp_alloc_meta w1 _ H1). intros w2 H2. apply wp_bind, wp_gets.
    destruct (w_ptr w2 RMetaBuf).
    + rewrite Hl. by apply wp_ret, Ht.
    + unfold LoadMetaData. cbn [negb]. by apply wp_ret, Hx.
  - intros w1. by apply wp_ret.
Qed.


End Start.

(** * A witness: a device whose metadata zones are empty, every call succeeding but one *)

#[local] Abbreviation sim_reg k :=
  (xztl_env_reg (W := Z) (M := list bytes) (fail_at k) (fun _ => true) (Some sim_devgeo) 4 sim_opts true
     (replicate 3 0) (replicate 7 0) (replicate 4 0) (replicate (Z.to_nat 4091) 0) 1 true 0 [] ([120; 122; 116; 108; 58] ++ sim_dev) world_zero).

(** The calls of a start that can fail; the last is the allocation of the metadata buffer. *)
Definition start_calls : Z := 17728.

Definition handed_out (err : bool) (r : option (option (bool * zenv Z (list bytes)) * world)) : bool :=
  match r with Some (Some (b, e), _) => bool_decide (b = err) && bool_decide (ev_files e = []) | _ => false end.

(** Without memory for the metadata buffer the object is handed out with an error and an empty table. *)
Example sim_start : handed_out true (sim_reg (start_calls - 1)) = true.
Proof. vm_compute. reflexivity. Qed.

Lemma sim_load : exists e1, LoadMetaData (W := Z) (M := list bytes) (replicate 3 0) (replicate 7 0) (replicate 4 0) (replicate (Z.to_nat 4091) 0)
  1 true true (new_ZNSEnv 0 []) = Ok (S_OK, e1).
Proof. eexists. vm_compute. reflexivity. Qed.

