(* ===== verification/EnvPrefetch.v ===== *)
(** The read-ahead buffer of the random access files of src/env/env_zns_io.cc, in a build with ZNS_PREFETCH: what
    [Prefetch] leaves in the window and what a read in that window returns. *)

From S2P Require Import Prelude Types Map EnvTypes EnvMeta EnvFile EnvLaws EnvFileOk EnvTable EnvZrocks EnvFileTheorems.

Definition ZNS_PREFETCH_BUF_SZ : Z := 1024 * 1024 * 1.

(** * The read-ahead buffer *)

(** [prefetch] (null: [None]), [prefetch_sz], [prefetch_off] and [prefetch_lock]. *)
Record prefetch := { pf_buf : option bytes; pf_sz : Z; pf_off : Z; pf_locked : bool }.

(** The constructor of [ZNSRandomAccessFile]; [mem] is the memory that was allocated, as it is. *)
Definition new_prefetch (mem : option bytes) : prefetch := {| pf_buf := mem; pf_sz := 0; pf_off := 0; pf_locked := false |}.

Section Prefetch.

Context {W : Type} `{!ZData W}.
Implicit Types (w : W) (pf : prefetch).

(** [ReadOffset] into a buffer: the status, and the bytes that were transferred to its start. *)
Definition read_into (fuel : nat) w (znsfile : option ZNSFile) (offset n : Z) : outcome (Status * bytes * W) :=
  match znsfile with
  | None => Ok (S_OK, [], w)
  | Some f =>
      if zf_size f <=? offset then Ok (S_OK, [], w) else
      match find_piece (zf_map f) 0 offset with
      | None => Ok (S_IOError, [], w)
      | Some (maps, piece_off) => read_pieces fuel w maps piece_off (clamp f offset n) []
      end
  end.

(** [memcpy] to the start of the buffer; the transfer of no byte does not touch it. *)
Definition fill_buf (buf : option bytes) (b : bytes) : option (option bytes) :=
  match b, buf with
  | [], _ => Some buf
  | _, None => None
  | _, Some m => if (length m <? length b)%nat then None else Some (Some (b ++ drop (length b) m))
  end.

(** [Prefetch]: a buffer whose lock is held waits for ever; an exception leaves the lock held. *)
Definition ZNSRandomAccessFile_Prefetch (fuel : nat) w (znsfile : option ZNSFile) pf (offset n : Z)
    : outcome (Status * prefetch * W) :=
  match znsfile with
  | None => Ok (S_OK, pf, w)
  | Some _ =>
      if pf_locked pf then OutOfFuel else
      let n := if ZNS_PREFETCH_BUF_SZ <? n then ZNS_PREFETCH_BUF_SZ else n in
      '(st, b, w1) ← read_into fuel w znsfile offset n;
      buf ← lift (fill_buf (pf_buf pf) b);
      if decide (st = S_OutOfRange) then
        Ok (S_OutOfRange, {| pf_buf := buf; pf_sz := pf_sz pf; pf_off := pf_off pf; pf_locked := true |}, w1)
      else if decide (st <> S_OK) then
        Ok (S_OK, {| pf_buf := buf; pf_sz := 0; pf_off := pf_off pf; pf_locked := false |}, w1)
      else Ok (S_OK, {| pf_buf := buf; pf_sz := n; pf_off := offset; pf_locked := false |}, w1)
  end.

(** [Read] of that build: from the buffer, if the range is in its window *)
Definition ZNSRandomAccessFile_Read_prefetch (fuel : nat) w (znsfile : option ZNSFile) pf (offset n : Z)
    : outcome (Status * option bytes * W) :=
  if pf_locked pf then OutOfFuel else
  if (0 <? pf_sz pf) && (pf_off pf <=? offset) && (u64 (offset + n) <=? u64 (pf_off pf + pf_sz pf)) then
    buf ← lift (pf_buf pf);
    Ok (S_OK, Some (take (Z.to_nat n) (drop (Z.to_nat (offset - pf_off pf)) buf)), w)
  else ZNSRandomAccessFile_Read fuel w znsfile offset n.

(** [ReadOffset] is the read into a buffer. *)
Lemma ReadOffset_into fuel w znsfile offset n st b w1 :
  read_into fuel w znsfile offset n = Ok (st, b, w1) ->
  exists r, ZNSRandomAccessFile_ReadOffset fuel w znsfile offset n = Ok (st, r, w1) /\
    forall x, r = Some x -> x = b.
Proof using.
  unfold read_into, ZNSRandomAccessFile_ReadOffset, read_mapped. destruct znsfile as [f|].
  - destruct (_ <=? _); [intros [= <- <- <-]; by exists None|]. destruct (find_piece _ _ _) as [[maps po]|]; [|intros [= <- <- <-]; by exists None].
    intros ->. cbn [mbind outcome_bind]. eexists. split; [reflexivity|]. case_decide; congruence.
  - intros [= <- <- <-]. by exists None.
Qed.

End Prefetch.

Lemma take_clamp {A} (l : list A) m n : m = Z.min n (Z.of_nat (length l)) -> take (Z.to_nat m) l = take (Z.to_nat n) l.
Proof.
  intros ->. destruct (Z.le_gt_cases n (Z.of_nat (length l))); [by rewrite Z.min_l by lia|].
  rewrite Z.min_r, !take_ge by lia. done.
Qed.

Section PrefetchOk.

Context {W M : Type} `{HD : !ZData W} `{HL : !ZDataLaws W} `{HM : !ZMeta M} `{HT : !ZMetaTotal M}.
Implicit Types (e : zenv W M) (content : bytes).

(** A read into a buffer within a file that is all flushed *)
Lemma read_into_ok e p f content offset n :
  env_ok e -> file_data e p f content -> zf_size f = Z.of_nat (length content) -> Z.of_nat (length content) < 2 ^ 63 ->
  cache_len f = 0 -> 0 <= offset < Z.of_nat (length content) -> 0 <= n < 2 ^ 63 ->
  exists N w', (forall fuel, (N <= fuel)%nat ->
      read_into fuel (ev_w e) (Some f) offset n = Ok (S_OK, take (Z.to_nat n) (drop (Z.to_nat offset) content), w')) /\
    zd_ok w' /\ data_kept (ev_w e) w'.
Proof using.
  intros He Hfd Hsz Hlen Hc Ho Hn. set (len := Z.of_nat (length content)) in *.
  assert (Hcl : clamp f offset n = Z.min n (len - offset)).
  { unfold clamp. rewrite Hsz, (wrap_small 64 (offset + n)) by lia. destruct (Z.ltb_spec len (offset + n)); [|lia].
    rewrite wrap_small by lia. lia. }
  destruct (read_mapped_ok e p f content offset (clamp f offset n)) as (N & w' & Hrun & Hw & Hk); [done..|fold len; lia|fold len; lia|].
  exists N, w'. split_and!; [|done|done]. intros fuel Hfu. specialize (Hrun fuel Hfu). rewrite !decide_True in Hrun by (fold len; lia).
  unfold read_into. rewrite (proj2 (Z.leb_gt (zf_size f) offset)) by lia. unfold read_mapped in Hrun.
  destruct (find_piece (zf_map f) 0 offset) as [[maps po]|]; [|done].
  destruct (read_pieces fuel (ev_w e) maps po (clamp f offset n) []) as [[[st b] w1]| |]; cbn [mbind outcome_bind] in Hrun; [|done..].
  injection Hrun as -> Hb ->. rewrite decide_True in Hb by done. injection Hb as ->. rewrite Hcl. do 3 f_equal.
  apply take_clamp. rewrite length_drop. fold len. lia.
Qed.

Lemma fill_buf_ok mem b : b <> [] -> (length b <= length mem)%nat -> fill_buf (Some mem) b = Some (Some (b ++ drop (length b) mem)).
Proof using.
  intros Hb Hl. unfold fill_buf. destruct b as [|x b]; [done|]. rewrite (proj2 (Nat.ltb_ge _ _)) by done. done.
Qed.

(** The bytes of a window that starts at [offset]: those of the file, and past its end those of the buffer *)
Lemma window_file content mem offset k o m :
  0 <= offset <= o -> 0 <= m -> o + m <= offset + k -> o + m <= Z.of_nat (length content) ->
  let slice := take (Z.to_nat k) (drop (Z.to_nat offset) content) in
  take (Z.to_nat m) (drop (Z.to_nat (o - offset)) (slice ++ drop (length slice) mem)) = take (Z.to_nat m) (drop (Z.to_nat o) content).
Proof using.
  intros Ho Hm Hk Hc slice.
  assert (Hl : length slice = Nat.min (Z.to_nat k) (length content - Z.to_nat offset)) by (unfold slice; rewrite length_take, length_drop; lia).
  rewrite drop_app_le by lia. rewrite take_app_le by (rewrite length_drop; lia). unfold slice.
  rewrite skipn_firstn_comm, drop_drop, take_take. f_equal; [lia|]. f_equal. lia.
Qed.

Lemma window_stale content mem offset k o m :
  0 <= offset <= Z.of_nat (length content) -> Z.of_nat (length content) <= o -> Z.of_nat (length content) <= offset + k ->
  let slice := take (Z.to_nat k) (drop (Z.to_nat offset) content) in
  take (Z.to_nat m) (drop (Z.to_nat (o - offset)) (slice ++ drop (length slice) mem)) = take (Z.to_nat m) (drop (Z.to_nat (o - offset)) mem).
Proof using.
  intros Ho Hl Hk slice.
  assert (Hs : length slice = (length content - Z.to_nat offset)%nat) by (unfold slice; rewrite length_take, length_drop; lia).
  rewrite drop_app_ge by lia. rewrite drop_drop. do 2 f_equal. lia.
Qed.

(** Read-ahead: on a file whose bytes are all flushed, [Prefetch] of a range that starts in the file succeeds,
    and a read inside its window is then served without the device, whatever has become of the file.  It returns the
    bytes that the file had, if the read ends within the file; but the window is as long as what was
    asked for, so that a read past the end, where [Read] delivers nothing, returns what the
    buffer held before. *)
Theorem prefetch_window e p f content mem offset n :
  env_ok e -> file_data e p f content -> zf_size f = Z.of_nat (length content) -> Z.of_nat (length content) < 2 ^ 63 ->
  cache_len f = 0 -> Z.of_nat (length mem) = ZNS_PREFETCH_BUF_SZ -> 0 <= offset < Z.of_nat (length content) -> 0 < n < 2 ^ 63 ->
  exists N w' pf', (forall fuel, (N <= fuel)%nat ->
      ZNSRandomAccessFile_Prefetch fuel (ev_w e) (Some f) (new_prefetch (Some mem)) offset n = Ok (S_OK, pf', w')) /\
    forall fuel w f' o m, offset <= o -> 0 <= m -> o + m <= offset + Z.min n ZNS_PREFETCH_BUF_SZ ->
      exists r, ZNSRandomAccessFile_Read_prefetch fuel w f' pf' o m = Ok (S_OK, Some r, w) /\
        (o + m <= Z.of_nat (length content) -> r = take (Z.to_nat m) (drop (Z.to_nat o) content)) /\
        (Z.of_nat (length content) <= o -> r = take (Z.to_nat m) (drop (Z.to_nat (o - offset)) mem)).
Proof using.
  intros He Hfd Hsz Hlen Hc Hmem Ho Hn. set (k := Z.min n ZNS_PREFETCH_BUF_SZ).
  assert (Hk : 0 < k <= ZNS_PREFETCH_BUF_SZ) by (unfold k; split; [|lia]; apply Z.min_glb_lt; [lia|done]).
  destruct (read_into_ok e p f content offset k He Hfd Hsz Hlen Hc Ho) as (N & w' & Hrun & _).
  { unfold ZNS_PREFETCH_BUF_SZ in Hk. lia. }
  set (slice := take (Z.to_nat k) (drop (Z.to_nat offset) content)) in *.
  assert (Hsl : length slice = Nat.min (Z.to_nat k) (length content - Z.to_nat offset)) by (unfold slice; rewrite length_take, length_drop; lia).
  exists N, w', {| pf_buf := Some (slice ++ drop (length slice) mem); pf_sz := k; pf_off := offset; pf_locked := false |}. split.
  - intros fuel Hfu. unfold ZNSRandomAccessFile_Prefetch, new_prefetch. cbn [pf_locked pf_buf pf_sz pf_off].
    assert ((if ZNS_PREFETCH_BUF_SZ <? n then ZNS_PREFETCH_BUF_SZ else n) = k) as ->.
    { unfold k. destruct (Z.ltb_spec ZNS_PREFETCH_BUF_SZ n); lia. }
    rewrite Hrun by done. cbn [mbind outcome_bind]. rewrite fill_buf_ok; [|intros H; rewrite H in Hsl; cbn [length] in Hsl; lia|lia].
    cbn [lift mbind outcome_bind]. by rewrite decide_False, decide_False by (intros ?; done).
  - intros fuel w f' o m Hom Hm Hw. unfold ZNSRandomAccessFile_Read_prefetch. cbn [pf_locked pf_buf pf_sz pf_off].
    assert (ZNS_PREFETCH_BUF_SZ < 2 ^ 62) by done.
    rewrite (proj2 (Z.ltb_lt 0 k)), (proj2 (Z.leb_le offset o)), !wrap_small by lia.
    rewrite (proj2 (Z.leb_le (o + m) (offset + k))) by lia. cbn [andb lift mbind outcome_bind]. eexists. split; [reflexivity|]. split.
    + intros Hin. apply window_file; lia.
    + intros Hout. apply window_stale; lia.
Qed.

End PrefetchOk.
