(* ===== verification/EnvId.v ===== *)
(** The identifiers of files ([GetUniqueId] of src/env/env_zns_io.cc) and the calls of the file objects that do
    nothing.

    RocksDB asks that the identifier of a file be the same each time the file is opened, and neither equal to nor
    a prefix of that of any other file, since it prepends it to keys of its block cache.  [EncodeVarint64] is
    RocksDB's; what the code relies on is that no encoding is a prefix of another. *)

From stdpp Require Import relations.
From S2P Require Import Prelude Types Map IoCounters EnvTypes EnvMeta EnvFile EnvTable EnvGc EnvPosix EnvPosixTheorems.

Class Varint64 := { EncodeVarint64 : Z -> bytes; kMaxVarint64Length : Z }.

Class VarintLaws `{!Varint64} := {
  vl_length : forall v, 0 <= v < 2 ^ 64 -> Z.of_nat (length (EncodeVarint64 v)) <= kMaxVarint64Length;
  vl_prefix : forall a b x y, 0 <= a < 2 ^ 64 -> 0 <= b < 2 ^ 64 -> EncodeVarint64 a ++ x = EncodeVarint64 b ++ y -> a = b
}.

(** * The calls that do nothing *)

Definition ZNSSequentialFile_InvalidateCache (offset length : Z) : Status := S_OK.
Definition ZNSRandomAccessFile_InvalidateCache (offset length : Z) : Status := S_OK.
Definition ZNSWritableFile_InvalidateCache (offset length : Z) : Status := S_OK.
Definition ZNSWritableFile_Flush : Status := S_OK.
Definition ZNSWritableFile_RangeSync (offset nbytes : Z) : Status := S_OK.
Definition ZNSWritableFile_Allocate (offset len : Z) : Status := S_OK.

(** The overloads with checksums of the data write nothing. *)
Definition ZNSWritableFile_Append_verified (data : bytes) : Status := S_OK.
Definition ZNSWritableFile_PositionedAppend_verified (data : bytes) (offset : Z) : Status := S_OK.

(** [ReadObj]: the result is the caller's buffer, which zrocks_read_obj does not fill. *)
Definition ZNSRandomAccessFile_ReadObj (ent_per_pg : nat) (c : map_cache) (offset n buf : Z) (scratch : bytes)
    : option (Status * option bytes * map_cache) :=
  '(ret, c') ← zrocks_read_obj ent_per_pg c 0 offset buf n;
  if ctrue ret then Some (S_IOError, None, c') else Some (S_OK, Some (take (Z.to_nat n) scratch), c').

Section Ids.

Context `{HV : !Varint64}.
Context {W M : Type}.
Implicit Types (e : zenv W M) (f : ZNSRandomAccessFile) (wf : ZNSWritableFile).

(** [addr p] is the address of the object [p] and [this] that of the file object.  [None]: a null pointer is followed. *)
Definition ZNSRandomAccessFile_GetUniqueId (addr : nat -> Z) (this : Z) e f (max_size : Z) : option (bytes * zenv W M) :=
  if max_size <? kMaxVarint64Length * 3 then Some ([], e) else
  match ra_znsfile f with
  | None => Some (EncodeVarint64 0 ++ EncodeVarint64 this, e)
  | Some p =>
      let '(q, e1) := files_at e (ra_filename f) in
      p' ← q;
      g ← deref e1 p';
      Some (EncodeVarint64 (addr p) ++ EncodeVarint64 (zf_uuididx g), e1)
  end.

(** The object of a file that is written always has its [znsfile]. *)
Definition ZNSWritableFile_GetUniqueId e wf (max_size : Z) : option bytes :=
  if max_size <? kMaxVarint64Length * 3 then Some [] else
  g ← deref e (wf_znsfile wf);
  let base := zf_uuididx g in
  Some (EncodeVarint64 base ++ EncodeVarint64 base ++ EncodeVarint64 base).

Context `{HVL : !VarintLaws}.

(** The object [f] was opened on the file [g] at [p], which still has its name. *)
Definition opened e f (p : nat) (g : ZNSFile) : Prop :=
  ra_znsfile f = Some p /\ map_find (ra_filename f) (ev_files e) = Some (Some p) /\ deref e p = Some g.

Lemma random_id addr this e f p g max_size :
  opened e f p g -> kMaxVarint64Length * 3 <= max_size ->
  ZNSRandomAccessFile_GetUniqueId addr this e f max_size = Some (EncodeVarint64 (addr p) ++ EncodeVarint64 (zf_uuididx g), e).
Proof using.
  intros (H1 & H2 & H3) Hm. unfold ZNSRandomAccessFile_GetUniqueId. rewrite (proj2 (Z.ltb_ge _ _)) by lia.
  rewrite H1. unfold files_at. rewrite H2. cbn [mbind option_bind]. by rewrite H3.
Qed.

(** The identifiers of open files: as many objects as are opened on a file get one identifier, which fits
    into the buffer, and those of two different files are not prefixes of each other. *)
Theorem random_ids_differ addr this1 this2 e f1 p1 g1 f2 p2 g2 max_size x y :
  (forall p, 0 <= addr p < 2 ^ 64) -> (forall p q, is_Some (deref e p) -> is_Some (deref e q) -> addr p = addr q -> p = q) ->
  0 <= zf_uuididx g1 < 2 ^ 64 -> kMaxVarint64Length * 3 <= max_size ->
  opened e f1 p1 g1 -> opened e f2 p2 g2 ->
  exists id1 id2, ZNSRandomAccessFile_GetUniqueId addr this1 e f1 max_size = Some (id1, e) /\
    ZNSRandomAccessFile_GetUniqueId addr this2 e f2 max_size = Some (id2, e) /\
    Z.of_nat (length id1) <= max_size /\ (p1 = p2 -> id1 = id2) /\ (id1 ++ x = id2 ++ y -> p1 = p2).
Proof using HVL.
  intros Ha Hinj Hu Hm H1 H2. eexists _, _. split; [by apply random_id|]. split; [by apply random_id|]. split_and!.
  - rewrite length_app. pose proof (vl_length (addr p1) (Ha p1)). pose proof (vl_length _ Hu). lia.
  - intros ->. destruct H1 as (_ & _ & H1), H2 as (_ & _ & H2). congruence.
  - rewrite <- !app_assoc. intros Heq. apply vl_prefix in Heq; auto. destruct H1 as (_ & _ & H1), H2 as (_ & _ & H2). eauto.
Qed.

(** [GetUniqueId] of an object whose file has been deleted or renamed follows a null pointer. *)
Theorem random_id_deleted addr this e f p max_size :
  ra_znsfile f = Some p -> map_find (ra_filename f) (ev_files e) = None -> kMaxVarint64Length * 3 <= max_size ->
  ZNSRandomAccessFile_GetUniqueId addr this e f max_size = None.
Proof using.
  intros H1 H2 Hm. unfold ZNSRandomAccessFile_GetUniqueId. rewrite (proj2 (Z.ltb_ge _ _)) by lia.
  rewrite H1. unfold files_at. by rewrite H2.
Qed.

End Ids.

(** * Identifiers over a history *)

Section History.

Context `{HV : !Varint64} `{HVL : !VarintLaws}.
Context (pad_head pad_level pad_tail pad_zone : bytes) (normalize : bytes -> bytes).
Context {W M P : Type} `{HD : !ZData W} `{HM : !ZMeta M} `{HG : !ZGc W} `{HP : !PosixEnv P}.
Implicit Types (e : zenv W M) (x : zenv W M * P) (wf : ZNSWritableFile).

Abbreviation step := (env_step pad_head pad_level pad_tail pad_zone normalize).

(** A new file gets the counter, which is then increased. *)
Lemma NewWritable_id st0 ok e fname st wf e' max_size :
  NewWritableFile normalize st0 ok e fname = Some (st, Some wf, e') -> kMaxVarint64Length * 3 <= max_size ->
  ev_uuididx e' = u64 (ev_uuididx e + 1) /\
  ZNSWritableFile_GetUniqueId e' wf max_size =
    Some (EncodeVarint64 (ev_uuididx e) ++ EncodeVarint64 (ev_uuididx e) ++ EncodeVarint64 (ev_uuididx e)).
Proof using.
  unfold NewWritableFile. intros H Hm. destruct (IsFilePosix _); [done|].
  set (e1 := match map_find _ _ with Some q => _ | None => e end) in H.
  assert (Hu : ev_uuididx e1 = ev_uuididx e) by (unfold e1; destruct (map_find _ _) as [[q|]|]; done). clearbody e1.
  cbn [heap_new] in H. unfold deref in H. cbn in H. rewrite lookup_insert_eq in H. cbn in H. run_inv.
  unfold ZNSWritableFile_GetUniqueId. rewrite (proj2 (Z.ltb_ge _ _)) by lia. cbn. unfold deref. cbn.
  rewrite lookup_insert_eq. cbn. by rewrite Hu.
Qed.

Lemma create_counter st0 ok e fname st f e' :
  NewWritableFile normalize st0 ok e fname = Some (st, f, e') -> ev_uuididx e' = ev_uuididx e \/ ev_uuididx e' = u64 (ev_uuididx e + 1).
Proof using.
  unfold NewWritableFile. intros H. destruct (IsFilePosix _); [left; by injection H as _ _ <-|]. right.
  set (e1 := match map_find _ _ with Some q => _ | None => e end) in H.
  assert (Hu : ev_uuididx e1 = ev_uuididx e) by (unfold e1; destruct (map_find _ _) as [[q|]|]; done). clearbody e1.
  cbn [heap_new] in H. unfold deref in H. cbn in H. rewrite lookup_insert_eq in H. cbn in H. run_inv. cbn. by rewrite Hu.
Qed.

Lemma files_at_counter e n q e' : files_at e n = (q, e') -> ev_uuididx e' = ev_uuididx e.
Proof using. unfold files_at. destruct (map_find _ _); by intros [= <- <-]. Qed.

(** A call changes the counter by one at most. *)
Lemma step_counter x x' : step x x' -> ev_uuididx x'.1 = ev_uuididx x.1 \/ ev_uuididx x'.1 = u64 (ev_uuididx x.1 + 1).
Proof using.
  intros Hx. destruct Hx as [ok e px n st f e' px' H|e px n st f e' px' H|e px n st f e' px' H|fuel ok e px wf d st wf' e' H
    |fuel ok e px wf st e' H|fuel ok e px wf st e' H|e px wf sz st wf' e' H|sh e px wf h e' H|ok e px n st e' px' H
    |ok e px src dst st e' px' Hd H|turns fuel ok un th e px e' H|e px op st a px' H]; cbn [fst].
  - unfold env_NewWritableFile in H. destruct (px_NewWritableFile _ _). run_inv. by eapply create_counter.
  - left. unfold env_NewSequentialFile, NewSequentialFile in H. destruct (px_NewSequentialFile _ _).
    destruct (IsFilePosix _); [by injection H as <- <- <- <-|]. destruct (files_at e _) as [q e1] eqn:E1. destruct q.
    + destruct (files_at e1 _) as [q2 e2] eqn:E2. injection H as <- <- <- <-. apply files_at_counter in E1, E2. congruence.
    + injection H as <- <- <- <-. by apply files_at_counter in E1.
  - left. unfold env_NewRandomAccessFile, NewRandomAccessFile in H. destruct (px_NewRandomAccessFile _ _).
    destruct (IsFilePosix _); [by injection H as <- <- <- <-|]. destruct (files_at e _) as [q e1] eqn:E1.
    injection H as <- <- <- <-. by apply files_at_counter in E1.
  - left. by apply Append_files in H as [= _ ->].
  - left. by apply Sync_files in H as [= _ ->].
  - left. by apply Close_files in H as [= _ ->].
  - left. unfold ZNSWritableFile_Truncate in H. by run_inv.
  - left. unfold ZNSWritableFile_SetWriteLifeTimeHint in H. by run_inv.
  - left. unfold env_DeleteFile, DeleteFile in H. destruct (px_DeleteFile _ _). destruct (IsFilePosix _); [by run_inv|].
    destruct (map_find _ _) as [[ptr|]|]; run_inv; try done.
    match goal with H : FlushDelMetaData _ _ _ _ _ _ _ = Ok _ |- _ => by apply FlushDel_files in H as [= _ ->] end.
  - clear Hd. left. unfold env_RenameFile, RenameFile in H. destruct (px_RenameFile _ _ _). destruct (IsFilePosix _); [by run_inv|].
    destruct (map_find _ _) as [[ptr|]|]; run_inv; try done.
    match goal with H : FlushReplaceMetaData _ _ _ _ _ _ _ _ = Ok _ |- _ => by apply FlushReplace_files in H as [= _ ->] end.
  - left. by apply gc_turn_files in H as [= _ ->].
  - by left.
Qed.

Lemma steps_counter n x x' : nsteps step n x x' -> 0 <= ev_uuididx x.1 -> ev_uuididx x.1 + Z.of_nat n < 2 ^ 64 ->
  ev_uuididx x.1 <= ev_uuididx x'.1 <= ev_uuididx x.1 + Z.of_nat n.
Proof using.
  induction 1 as [x|n x y z Hs _ IH]; intros H0 Hn; [lia|].
  destruct (step_counter _ _ Hs) as [E|E]; [rewrite E in IH; lia|]. rewrite wrap_small in E by lia. rewrite E in IH. lia.
Qed.

(** Two files that are created in one run of the program, with fewer than 2^64 calls between, whatever has become of
    the first, have different identifiers, neither a prefix of the other. *)
Theorem created_ids_differ n st1 st2 ok1 ok2 x1 wf1 e1 x2 wf2 e2 px1 fname1 fname2 s1 s2 max_size a b id1 id2 :
  NewWritableFile normalize s1 ok1 x1.1 fname1 = Some (st1, Some wf1, e1) -> nsteps step n (e1, px1) x2 ->
  NewWritableFile normalize s2 ok2 x2.1 fname2 = Some (st2, Some wf2, e2) ->
  0 <= ev_uuididx x1.1 -> ev_uuididx x1.1 + 1 + Z.of_nat n < 2 ^ 64 -> kMaxVarint64Length * 3 <= max_size ->
  ZNSWritableFile_GetUniqueId e1 wf1 max_size = Some id1 -> ZNSWritableFile_GetUniqueId e2 wf2 max_size = Some id2 ->
  id1 ++ a <> id2 ++ b.
Proof using HVL.
  intros H1 Hs H2 H0 Hn Hm I1 I2. destruct (NewWritable_id _ _ _ _ _ _ _ _ H1 Hm) as [C1 J1].
  destruct (NewWritable_id _ _ _ _ _ _ _ _ H2 Hm) as [_ J2]. rewrite wrap_small in C1 by lia.
  destruct (steps_counter _ _ _ Hs) as [L U]; cbn [fst] in *; [lia..|].
  rewrite I1 in J1. rewrite I2 in J2. injection J1 as ->. injection J2 as ->. rewrite <- !app_assoc.
  intros E%vl_prefix; lia.
Qed.

(** The identifiers of objects for reading are taken from the address of the file and its index, and the index of a file
    that was found at the start-up is 0, like that of the first file that is created: if the first is deleted and the
    second gets its memory, they have the same identifier. *)
Theorem random_id_reused ok1 ok2 st0 st1 st3 e f1 p1 g1 n1 e1 n2 wf e2 addr this1 this2 max_size :
  opened e f1 p1 g1 -> zf_uuididx g1 = 0 -> ev_uuididx e = 0 -> kMaxVarint64Length * 3 <= max_size ->
  DeleteFile pad_head pad_level pad_tail pad_zone normalize st0 ok1 e n1 = Ok (st1, e1) ->
  NewWritableFile normalize st0 ok2 e1 n2 = Some (st3, Some wf, e2) -> addr (wf_znsfile wf) = addr p1 ->
  exists f2 e3 id, NewRandomAccessFile normalize st0 e2 n2 = (S_OK, Some f2, e3) /\
    ZNSRandomAccessFile_GetUniqueId addr this1 e f1 max_size = Some (id, e) /\
    ZNSRandomAccessFile_GetUniqueId addr this2 e3 f2 max_size = Some (id, e3).
Proof using.
  intros Ho Hg He Hm Hd Hn Ha.
  assert (He1 : ev_uuididx e1 = 0).
  { unfold DeleteFile in Hd. destruct (IsFilePosix _); [by run_inv|]. destruct (map_find _ _) as [[p|]|]; run_inv; try done.
    match goal with H : FlushDelMetaData _ _ _ _ _ _ _ = Ok _ |- _ => by apply FlushDel_files in H as [= _ ->] end. }
  unfold NewWritableFile in Hn. unfold NewRandomAccessFile. destruct (IsFilePosix _) eqn:Ei; [done|].
  set (e1' := match map_find _ _ with Some q => _ | None => e1 end) in Hn.
  assert (Hu : ev_uuididx e1' = 0) by (unfold e1'; destruct (map_find _ _) as [[q|]|]; done). clearbody e1'.
  cbn [heap_new] in Hn. unfold deref in Hn. cbn in Hn. rewrite lookup_insert_eq in Hn. cbn in Hn. run_inv.
  unfold files_at. cbn [ev_files store ev_set_heap ev_set_uuididx ev_set_files ev_set_next]. rewrite map_find_set_eq.
  pose proof (random_id addr this1 e f1 p1 g1 max_size Ho Hm) as I1. rewrite Hg in I1.
  eexists _, _, _. split; [reflexivity|]. split; [exact I1|].
  erewrite random_id; [|split_and!; [reflexivity|cbn; by rewrite map_find_set_eq|unfold deref; cbn; by rewrite lookup_insert_eq]|done].
  cbn in Ha |- *. by rewrite Ha, Hu.
Qed.

End History.

(** * The laws of the encoding hold of the one with seven bits to a byte *)

Fixpoint leb128 (k : nat) (v : Z) : bytes :=
  match k with
  | O => []
  | S k' => if v <? 128 then [v] else v mod 128 + 128 :: leb128 k' (v / 128)
  end.

Lemma leb128_length k v : (length (leb128 k v) <= k)%nat.
Proof. revert v. induction k as [|k IH]; intros v; simpl; [lia|]. destruct (_ <? _); simpl; [lia|]. specialize (IH (v / 128)). lia. Qed.

Lemma leb128_prefix k a b x y :
  0 <= a < 128 ^ Z.of_nat k -> 0 <= b < 128 ^ Z.of_nat k -> leb128 k a ++ x = leb128 k b ++ y -> a = b.
Proof.
  revert a b. induction k as [|k IH]; intros a b Ha Hb; [simpl in *; lia|].
  rewrite Nat2Z.inj_succ, Z.pow_succ_r in Ha, Hb by lia. simpl.
  pose proof (Z.mod_pos_bound a 128 eq_refl). pose proof (Z.mod_pos_bound b 128 eq_refl).
  destruct (Z.ltb_spec a 128), (Z.ltb_spec b 128); simpl; intros E; injection E as E1 E2; [lia..|].
  apply IH in E2; [rewrite (Z.div_mod a 128), (Z.div_mod b 128) by lia; lia| |];
    (split; [apply Z.div_pos; lia|apply Z.div_lt_upper_bound; lia]).
Qed.

Definition leb128_varint : Varint64 := {| EncodeVarint64 := leb128 10; kMaxVarint64Length := 10 |}.

Lemma leb128_laws : @VarintLaws leb128_varint.
Proof.
  split; unfold EncodeVarint64, kMaxVarint64Length, leb128_varint; [intros v _; pose proof (leb128_length 10 v); lia|].
  intros a b x y Ha Hb. apply leb128_prefix; lia.
Qed.
